(* ===== verification/_CoqProject ===== *)
-Q . S2P
Prelude.v
Sorting.v
Dec.v
PyStr.v
Utils.v
Fees.v
Margin.v
TradeApr.v
Group.v
Ledger.v
PyObj.v
GroupJson.v
StateJson.v
State.v
Store.v
Market.v
ExitEval.v
Protocol.v
Throttle.v
VolMetrics.v
EntryGates.v
Regime.v
ExchangeErrors.v
Runtime.v
HedgeOrders.v
Hedge.v
Close.v
GroupClose.v
NetHedge.v
GroupExit.v
EngineFrame.v
CrossFlow.v
DayState.v
GroupRefresh.v
Portfolio.v
Drawdown.v
Manage.v
Triples.v
EntryConfig.v
Settlement.v
Selector.v
Ranking.v
Entry.v
Builders.v
EntryFacts.v
BuilderFacts.v
Scan.v
ScanFacts.v
SpreadEntry.v
EntryCycle.v
Positions.v
PositionsFacts.v
Reconcile.v
ReconcileFacts.v
SpotTrade.v
SpotFacts.v
Wheel.v
CashSecured.v
Sweep.v
SpotExit.v
CoveredCall.v
SpotExitFacts.v
WheelFacts.v
FeeLedger.v
Subscriptions.v
InvestorFees.v
SubscriptionFacts.v
InvestorFacts.v
EntrySamples.v
ScanSamples.v
ReconcileSamples.v
SpotSamples.v
InvestorSamples.v
PublicCache.v
Client.v
ClientFacts.v
ClientSamples.v
SweepFills.v
SweepFillsFacts.v
SweepFillsSamples.v
