(* ===== verification/Prelude.v ===== *)
(** * The Deribit options strategy engine

    A model of [src/deribit_engine], a Python bot that sells options on Deribit (naked
    shorts, covered calls, put spreads, cash-secured puts), hedges them with perpetuals
    and keeps its positions and the journals of follow-up work in one JSON file per
    account. Functions and fields keep their Python names. This header says what is
    modelled and where, what the theorems show, and what is left out.

    ** The program and the files

    A process holds a [StrategyState]: a list of [TradeGroup], one per option position,
    with the counters and daily books of the account. A management cycle loads the state,
    reads the account and the markets into a context, refreshes the groups, decides which
    books may take risk, manages every group (exits, hedges), enters the best new
    candidate, and saves the state, merged with what other processes wrote meanwhile.

    - Shared: [Prelude] (outcomes of calls, boolean comparisons, tactics), [Sorting]
      (Python's stable sort), [Dec] ([decimal] at 28 digits, half even), [PyStr] ([str]
      on ASCII), [PyObj] (Python values and JSON), [Utils] ([utils.py]), [Triples]
      (Hoare triples for engine code).
    - Money: [Fees] ([fees.py]), [Margin] ([margin.py]), [TradeApr] ([trade_apr.py]).
    - Positions: [Group] and [Ledger] ([TradeGroup] of [models.py], its fields and its
      ledger), [GroupJson] and [StateJson] (dict forms of groups and states).
    - The state file ([state.py], [atomic_io.py]): [State] (the merge of a state with the
      file on disk), [Store] (archive, load, save), [Protocol] (several processes).
    - Markets: [Market] (option names, instruments, books, account rows of [models.py]
      and [utils.py]), [VolMetrics] ([vol_metrics.py]), [Regime] ([engine/regime.py]),
      [EntryGates] ([entry_gates.py]), [ExitEval] ([exit_eval.py], [exit_reasons.py]).
    - The exchange: [Throttle] ([exchange_throttle.py]), [ExchangeErrors] (searches in the
      text of errors), [Runtime] (the context of a cycle and its lookups,
      [engine/context.py] and [engine/base.py]). There the client is the class [Exchange]:
      its answers are any function of all requests sent before. The client itself
      ([client.py]) is [Client], its caches of public reads are [PublicCache]
      ([public_cache.py] too), with theorems in [ClientFacts] and runs in [ClientSamples].
    - Closing and hedging: [HedgeOrders] ([hedge_orders.py]), [Hedge] and [NetHedge]
      ([engine/hedge_management.py]: hedges per position, hedges net per currency),
      [Close] and [GroupClose] ([engine/execution.py]: a leg, a group), [GroupExit]
      ([engine/group_exit.py]), [EngineFrame] (what these never touch).
    - The account within a cycle: [CrossFlow] ([cross_book_flow.py]), [DayState]
      ([engine/cash_flow.py], [investor_cash_flow.py]), [GroupRefresh]
      ([engine/group_refresh.py]), [Portfolio] and [Drawdown]
      ([engine/portfolio_snapshot.py]), [Manage] ([engine/management.py]).
    - Entries: [EntryConfig] (the parameters of [config.py] and the methods that pick
      them), [Selector] (gates, margins, prices and re-checks of [strategy.py]), [Ranking]
      (its scores and order), [Builders] (its candidates), [Entry] ([engine/entry.py]: the
      attempts at an order and the groups recorded), [Scan] ([engine/scanner.py] and the
      entry part of a cycle). [EntryFacts], [BuilderFacts], [SpreadEntry], [ScanFacts] and
      [EntryCycle] hold their theorems, [EntrySamples] and [ScanSamples] concrete runs.
    - The exchange's side of positions: [Settlement] ([stress.py],
      [bull_put_settlement.py], [covered_call_settlement.py]: what options are worth at
      expiry and under stress), [Positions] and [Reconcile]
      ([engine/state_reconcile.py]: sizes, protections and adoption; closing what is gone,
      with its helpers in [engine/base.py] and [engine/covered_call.py]), with
      [PositionsFacts], [ReconcileFacts] and [ReconcileSamples]. What the exchange tells of
      the past is the class [History].

    - What follows a covered call: [SpotTrade] ([wallet_ops.py]: protected spot orders and
      trades) with its theorems in [SpotFacts], [CoveredCall] (how one is managed,
      [engine/covered_call.py]), [SpotExit] (the sale of the cover an exercised call leaves,
      [engine/covered_call.py], [engine/execution.py], [spot_exit_ops.py]), [Sweep] (the
      sale of the premium earned in coin, [engine/covered_call.py], [profit_sweep_ops.py]),
      [Wheel] (the cover bought back, [spot_restore_ops.py]) and [CashSecured] (the put sold
      meanwhile and its premium, [cash_secured_ops.py], [csp_premium_swap_ops.py]).
      [SweepFills] is what the exchange has filled of sweeps, the guard against selling twice
      and the queueing of what is left. [SpotExitFacts], [WheelFacts] and [SweepFillsFacts]
      hold theorems, [SpotSamples] and [SweepFillsSamples] concrete runs. There a group is
      reached by its place in the state, or kept with what was assigned, so that an
      exception loses nothing.
    - Investors: [FeeLedger] ([fee_snapshot_store.py], the tables of the fee ledger),
      [Subscriptions] ([investor_cash_flow.py], money put in and taken out) and
      [InvestorFees] ([investor_nav_snapshot.py], [investor_fee_config.py]: net asset
      values, the first high-water mark, settlements), with theorems in
      [SubscriptionFacts] and [InvestorFacts] and runs in [InvestorSamples].

    ** How code becomes definitions

    A [Decimal] is the rational it denotes and every operation rounds as Python does;
    comparisons are boolean functions on [Q]. Integers are unbounded, as in Python. A call
    that can raise returns an [outcome]; engine code that sends requests is a function
    [M A] from a context ([runtime]: the state, the caches, the requests sent) to a context
    and an outcome, composed with [let*]. A dict is an association list in insertion
    order ([dict_get], [dict_set]); a method that assigns attributes of a group returns the
    group. The requests of a run are part of its context, so that what a run may send is a
    property of its last context, and "however it ends" includes exceptions raised by any
    call of the exchange.

    The fee ledger has programs of its own, [F], on a record of its tables; a statement of
    SQL is a function on the rows, and what was written before an exception stays. How the
    pages of an investor gather the closed trades is the class [TradingRecord].

    The client has programs of its own, [C], on what a client and its process keep, with the
    requests posted and the waits as lists; the class [Server] is the exchange behind HTTP:
    what it answers, or that the answer is lost, and what the clocks say, as any function of
    what was posted before.

    Outside code is a parameter: the exchange ([Exchange]), the account on it ([Desk]), its
    transaction log ([TransactionLog]), its past ([History]), its spot
    side ([SpotDesk]), the discount of fees at a time ([rate_at]), the
    handlers of covered calls and cash-secured puts, and the clock ([clock], read after the
    requests sent so far; [now_us] where one evaluation reads it once).

    ** What the theorems show

    - The state file: no interleaving of processes loses a group, a journal or an
      operator's work ([Protocol.run_never_loses_journals],
      [Store.operator_work_survives_stale_save], [State.merge_group_never_regresses]),
      the file refines a register per group that only grows
      ([Protocol.store_refines_register]), saving and loading are inverse on the file's
      grid ([Store.save_then_load], [GroupJson.from_dict_to_dict]), the archive loses
      nothing and damaged files are set aside.
    - Ledgers, fees and margins: bounds, agreement of the two fee routines, agreement of
      the coin and USDC ledgers after a backfill, returns at expiry.
    - Closing: every order reduces, a leg is never closed twice over, a spread closes its
      short first ([Close], [GroupClose]); a managed group does what the exit priorities
      say ([GroupExit.manage_group_decision], [ExitEval]).
    - Hedging: the hedge of a group is a function of its trigger history
      ([Hedge.hedge_refines_history]), reconciliation sends one order towards a capped
      target after cancelling the old ones.
    - Risk gates: the halt of an underlying from its feeds ([Regime]), of a book from its
      drawdown and margins ([Portfolio.book_gates_exact]), drawdown without external flows
      ([Drawdown]), the day begun once ([DayState]), cooldowns ([Manage]).
    - Entries: the re-check is exact and agrees with the scan
      ([Selector.recheck_exact], [BuilderFacts.scan_agrees_with_recheck]), a scan passes
      every gate and sends nothing ([ScanFacts.scan_respects_gates]), attempts stay on
      their instrument at known prices, the recorded group is what filled, protection is
      bought before the short ([EntryFacts], [SpreadEntry]), and a cycle adds at most one
      group under a new number ([EntryCycle.cycle_adds_numbered_group]).
    - Positions: groups take the size of their short ([PositionsFacts.sync_follows_exchange]),
      shorts nobody knows of are adopted once each
      ([PositionsFacts.adoption_keeps_one_group_per_short]), a reconciliation closes exactly
      the groups whose short is gone ([ReconcileFacts.reconcile_closes_gone_shorts]) even
      without market data ([ReconcileFacts.reconcile_survives_outage]), and what expiry costs
      is bounded ([Settlement]).
    - Coins: a spot trade sends at most one order, sized and priced as asked
      ([SpotFacts.trade_spot_sends]); the cover of an exercised call is never sold twice
      over, however its orders fill and fail ([SpotExitFacts.exits_never_oversell]); a sweep
      queued again fits in the profit with all that is known to be sold
      ([SweepFillsFacts.resweeps_fit_profit]); what is
      bought back completes the cover ([WheelFacts.restore_completes_cover]) at prices the
      sale paid for ([WheelFacts.auto_restore_locks_profit]).
    - Investors: a settlement is recorded once or not at all
      ([InvestorFacts.settlement_recorded_once]), the first mark is the stable money from
      outside ([SubscriptionFacts.first_mark_is_stable_money]), and fees are charged on the
      same profits again ([InvestorFacts.profits_charged_again]).
    - The client: an order is posted at most once, and a lost answer is reported as such
      ([ClientFacts.orders_sent_once]); a read is posted at most five times and returns what
      the exchange answered last ([ClientFacts.reads_bounded]); a log read in pages is whole
      ([ClientFacts.log_read_completely]); a cached value is younger than twice its time to
      live ([PublicCache.served_within_two_ttl]).
    - Theorems on concrete inputs ([..._witness]) apply those with hypotheses to a case
      where they hold. Some theorems state behaviour that differs from a comment or from
      what the code means to do, for instance [Fees.infer_close_premium_spec],
      [Close.escalation_forgets_partial_fill], [NetHedge.net_hedge_repeated],
      [Drawdown.sale_counted_twice], [EntryFacts.covered_call_underreserved],
      [ScanSamples.topup_sells_uncovered_calls], [Settlement.spread_repair_repeats] and
      [ReconcileSamples.unpriced_assignment_raises] and [SweepFillsSamples.window_sells_again].

    ** Fuel and bounds

    Loops that are not structural take fuel, and a run out of fuel is the outcome
    [OutOfFuel], which no theorem counts as a result. The loops of the engine wait for
    seconds or attempts, and get them as fuel ([attempt_loop], [await_loop], the polls of
    [Close]); [gcd_fuel] is 200 divisions, more than any two 28-digit numbers need;
    [backfill_fuel] is 3, the depth of the mutual recursion
    ([Ledger.realized_pnl_backfills_terminate]); [match_fuel] counts the pairs of books
    ([CrossFlow.cross_book_flow_ends]). [grid_max] is 10^27: decimals on one grid below it
    add and subtract without rounding; theorems that need exact sums say so.

    ** What is simplified

    Floats are only compared, doubled and halved (throttle), and printed floats of a state
    file are kept as text. NaN and infinite decimals do not occur. Regular expressions are
    functions on ASCII text. The file lock, fsync and the rename of a temporary file are
    the atomic steps load and save. The cycle reads its clock once per evaluation. A sum
    over a Python set is taken in a fixed order. What a handler did to a group before an
    exception left it is kept only in the follow-ups of covered calls. Messages to the operator, log lines and rows of the
    trade journal are not modelled, reasons in words only by their presence where nothing
    reads them. The selector an entry attempt leaves is not handed on, as every builder
    sets the active regime anew.

    ** Not modelled

    Realised volatility (a binary square root), the fee discount calendar, the summaries of
    stressed losses ([current_stress.py], [book.py]); of the follow-ups of a covered call,
    the orders that restore a cover, enter or roll a cash-secured put or swap its premium,
    the pool of dust ([profit_sweep_dust.py]), the repairs of old journals
    ([profit_sweep_repair.py], [trade_journal_backfill.py]), moves between sub-accounts and
    previews; the reading of environment files, the HTTP library and the locks in front of a cache, back-tests, reports and their
    databases, statements for investors, servers, pages and the command line. *)

From Stdlib Require Export ZArith QArith Qabs Qround Qminmax Qpower Lia Lqa Bool.
From Stdlib Require Export String Ascii List.
Export ListNotations.

#[global] Set Default Goal Selector "!".

(** The hint database of the development: arithmetic facts about decimals and
    the lens laws of the state records. *)
Create HintDb engine.
Create Rewrite HintDb engine.

(** ** Outcomes

    A call of the program returns a value, raises, or (for a loop run with too
    little fuel) has not finished. *)

Inductive exn : Type :=
| InvalidOperation          (** [decimal.InvalidOperation] *)
| ValueError
| KeyError
| IndexError
| TypeError
| AttributeError
| ExchangeError (message : string)
| TransientExchangeError (message : string)
| OSError
| ConfigurationError
| RuntimeError
| AuthenticationError (message : string)
| RequestException (kind message : string)   (** of [requests], by its class *).

Inductive outcome (A : Type) : Type :=
| Ret (a : A)
| Exn (e : exn)
| OutOfFuel.
Arguments Ret {A} a.
Arguments Exn {A} e.
Arguments OutOfFuel {A}.

Definition obind {A B} (m : outcome A) (k : A -> outcome B) : outcome B :=
  match m with
  | Ret a => k a
  | Exn e => Exn e
  | OutOfFuel => OutOfFuel
  end.

Declare Scope outcome_scope.
Delimit Scope outcome_scope with outcome.
Notation "'let!' x ':=' m 'in' k" := (obind m (fun x => k))
  (at level 10, x pattern, m at level 100, k at level 200) : outcome_scope.

Lemma obind_ret {A B} (a : A) (k : A -> outcome B) : obind (Ret a) k = k a.
Proof. reflexivity. Qed.

Lemma obind_inv {A B} (m : outcome A) (k : A -> outcome B) b :
  obind m k = Ret b -> exists a, m = Ret a /\ k a = Ret b.
Proof. destruct m; cbn; try discriminate. eauto. Qed.

(** ** Comparisons on rationals as booleans *)

Declare Scope dec_scope.
Delimit Scope dec_scope with dec.

Definition dleb (x y : Q) : bool := Qle_bool x y.
Definition dltb (x y : Q) : bool := negb (Qle_bool y x).
Definition deqb (x y : Q) : bool := Qeq_bool x y.

Notation "x <=? y" := (dleb x y) : dec_scope.
Notation "x <? y" := (dltb x y) : dec_scope.
Notation "x >=? y" := (dleb y x) (only parsing) : dec_scope.
Notation "x >? y" := (dltb y x) (only parsing) : dec_scope.
Notation "x =? y" := (deqb x y) : dec_scope.

Section Comparisons.
Local Open Scope Q_scope.

Lemma dleb_spec x y : reflect (x <= y) (dleb x y).
Proof.
  apply iff_reflect. unfold dleb. symmetry. apply Qle_bool_iff.
Qed.

Lemma dltb_spec x y : reflect (x < y) (dltb x y).
Proof.
  unfold dltb. destruct (Qle_bool y x) eqn:E; constructor.
  - apply Qle_bool_iff in E. lra.
  - apply Qnot_le_lt. intros H. apply Qle_bool_iff in H. congruence.
Qed.

Lemma deqb_spec x y : reflect (x == y) (deqb x y).
Proof.
  apply iff_reflect. unfold deqb. symmetry. apply Qeq_bool_iff.
Qed.

Lemma dleb_true x y : dleb x y = true <-> x <= y.
Proof. symmetry. apply reflect_iff, dleb_spec. Qed.

Lemma dleb_false x y : dleb x y = false <-> y < x.
Proof. destruct (dleb_spec x y); split; intros; try discriminate; try lra; auto. Qed.

Lemma dltb_true x y : dltb x y = true <-> x < y.
Proof. symmetry. apply reflect_iff, dltb_spec. Qed.

Lemma dltb_false x y : dltb x y = false <-> y <= x.
Proof. destruct (dltb_spec x y); split; intros; try discriminate; try lra; auto. Qed.

Lemma deqb_true x y : deqb x y = true <-> x == y.
Proof. symmetry. apply reflect_iff, deqb_spec. Qed.
End Comparisons.

#[export] Instance dleb_Proper : Proper (Qeq ==> Qeq ==> eq) dleb.
Proof. intros x y H a b K. unfold dleb. now rewrite H, K. Qed.

#[export] Instance dltb_Proper : Proper (Qeq ==> Qeq ==> eq) dltb.
Proof. intros x y H a b K. unfold dltb. now rewrite H, K. Qed.

#[export] Instance deqb_Proper : Proper (Qeq ==> Qeq ==> eq) deqb.
Proof. intros x y H a b K. unfold deqb. now rewrite H, K. Qed.

(** Case analysis on the boolean comparisons of a goal: each is replaced by the
    rational inequality it decides. *)
Ltac dcase_one :=
  match goal with
  | |- context [dleb ?a ?b] => destruct (dleb_spec a b)
  | |- context [dltb ?a ?b] => destruct (dltb_spec a b)
  | |- context [deqb ?a ?b] => destruct (deqb_spec a b)
  end.
Ltac dcase := repeat (dcase_one; cbn [negb andb orb] in *).

(** Comparisons in the hypotheses as propositions. *)
Ltac dhyps :=
  repeat match goal with
  | H : dleb _ _ = true |- _ => apply dleb_true in H
  | H : dleb _ _ = false |- _ => apply dleb_false in H
  | H : dltb _ _ = true |- _ => apply dltb_true in H
  | H : dltb _ _ = false |- _ => apply dltb_false in H
  | H : deqb _ _ = true |- _ => apply deqb_true in H
  | H : andb _ _ = true |- _ => apply andb_true_iff in H; destruct H
  | H : orb _ _ = false |- _ => apply orb_false_iff in H; destruct H
  | H : negb _ = true |- _ => apply negb_true_iff in H
  | H : negb _ = false |- _ => apply negb_false_iff in H
  end.
