(* ===== verification/Sorting.v ===== *)
(** Python's stable sort, for any strict order a key gives: the same elements, in order.
    [sorted(l, key=...)] keeps the elements of equal keys as they came. *)

From S2P Require Import Prelude.
From Stdlib Require Export Permutation Sorted.

Section Sorting.
Context {A : Type} (lt : A -> A -> bool).

Fixpoint stable_insert (x : A) (l : list A) : list A :=
  match l with
  | [] => [x]
  | y :: r => if lt x y then x :: l else y :: stable_insert x r
  end.

Definition stable_sort (l : list A) : list A := fold_left (fun acc x => stable_insert x acc) l [].

(** [x] may stand before [y]. *)
Definition ordered (x y : A) : Prop := lt y x = false.

Lemma stable_insert_perm x l : Permutation (x :: l) (stable_insert x l).
Proof.
  induction l as [|y r IH]; cbn [stable_insert]; [reflexivity|]. destruct (lt x y); [reflexivity|].
  rewrite perm_swap. now constructor.
Qed.

Lemma stable_sort_perm l : Permutation l (stable_sort l).
Proof.
  unfold stable_sort. enough (G : forall acc, Permutation (l ++ acc) (fold_left (fun acc x => stable_insert x acc) l acc))
    by (specialize (G []); now rewrite app_nil_r in G).
  induction l as [|x r IH]; intros acc; [reflexivity|]. cbn [fold_left app]. rewrite <- IH.
  now rewrite Permutation_middle, stable_insert_perm.
Qed.

Lemma stable_sort_in x l : In x (stable_sort l) <-> In x l.
Proof. split; apply Permutation_in; [apply Permutation_sym|]; apply stable_sort_perm. Qed.

Hypothesis Asymmetric : forall x y, lt x y = true -> ordered x y.
Hypothesis Transitive : forall x y z, ordered x y -> ordered y z -> ordered x z.

Lemma stable_insert_sorted x l : StronglySorted ordered l -> StronglySorted ordered (stable_insert x l).
Proof.
  induction 1 as [|y r S IH F]; cbn [stable_insert]; [repeat constructor|]. destruct (lt x y) eqn:E.
  - apply Asymmetric in E. repeat (constructor; try assumption). eapply Forall_impl; [|exact F]. intros z. now apply Transitive.
  - constructor; [exact IH|]. rewrite <- stable_insert_perm. now constructor.
Qed.

Lemma stable_sort_sorted l : StronglySorted ordered (stable_sort l).
Proof.
  unfold stable_sort. enough (G : forall acc, StronglySorted ordered acc -> StronglySorted ordered (fold_left (fun acc x => stable_insert x acc) l acc))
    by (apply G; constructor).
  induction l as [|x r IH]; intros acc S; [exact S|]. cbn [fold_left]. now apply IH, stable_insert_sorted.
Qed.
End Sorting.

Lemma strongly_sorted_impl {A} (R S : A -> A -> Prop) l : (forall x y, R x y -> S x y) -> StronglySorted R l -> StronglySorted S l.
Proof. intros H. induction 1 as [|x l Sl IH F]; constructor; [exact IH|]. eapply Forall_impl; [|exact F]. auto. Qed.

(** ** Sorting by a number *)

Section ByKey.
Context {A : Type} (key : A -> Q).
Local Open Scope dec_scope.

(** [sorted(l, key=key)] and [sorted(l, key=key, reverse=True)] *)
Definition sort_up : list A -> list A := stable_sort (fun x y => key x <? key y).
Definition sort_by : list A -> list A := stable_sort (fun x y => key y <? key x).

Lemma sort_up_perm l : Permutation l (sort_up l).
Proof. apply stable_sort_perm. Qed.

Lemma sort_by_perm l : Permutation l (sort_by l).
Proof. apply stable_sort_perm. Qed.

Lemma sort_up_sorted l : StronglySorted (fun a b => (key a <= key b)%Q) (sort_up l).
Proof.
  apply strongly_sorted_impl with (R := ordered (fun x y => key x <? key y)); [intros x y; apply dltb_false|].
  apply stable_sort_sorted; unfold ordered; intros *; rewrite ?dltb_true, ?dltb_false; lra.
Qed.

Lemma sort_by_sorted l : StronglySorted (fun a b => (key b <= key a)%Q) (sort_by l).
Proof.
  apply strongly_sorted_impl with (R := ordered (fun x y => key y <? key x)); [intros x y; apply dltb_false|].
  apply stable_sort_sorted; unfold ordered; intros *; rewrite ?dltb_true, ?dltb_false; lra.
Qed.
End ByKey.
