(* ===== verification/Dec.v ===== *)
(** Python's [decimal] arithmetic under the context of [utils.py]
    ([getcontext().prec = 28], ROUND_HALF_EVEN): a finite [Decimal] is the
    rational it denotes, and every arithmetic operation rounds its exact result
    to 28 significant digits. *)

From S2P Require Import Prelude.
Local Open Scope Q_scope.

(** ** Powers of ten and magnitudes *)

Definition p10 (k : Z) : Q := Qpower 10 k.

Lemma p10_pos k : 0 < p10 k.
Proof. apply Qpower_0_lt. reflexivity. Qed.

Lemma p10_nonzero k : ~ p10 k == 0.
Proof. pose proof (p10_pos k). lra. Qed.

Lemma p10_plus a b : p10 (a + b) == p10 a * p10 b.
Proof. apply Qpower_plus. discriminate. Qed.

Lemma p10_0 : p10 0 == 1.
Proof. reflexivity. Qed.

Lemma p10_opp a : p10 (- a) == / p10 a.
Proof. apply Qpower_opp. Qed.

Lemma p10_mul_opp a : p10 a * p10 (- a) == 1.
Proof. rewrite <- p10_plus. replace (a + - a)%Z with 0%Z by lia. reflexivity. Qed.

Lemma p10_le a b : (a <= b)%Z -> p10 a <= p10 b.
Proof. intros H. apply Qpower_le_compat_l; [exact H | discriminate]. Qed.

Lemma p10_lt_inv a b : p10 a < p10 b -> (a < b)%Z.
Proof. intros H. apply (Qpower_lt_compat_l_inv 10); [exact H | reflexivity]. Qed.

Lemma p10_Z k : (0 <= k)%Z -> p10 k == inject_Z (10 ^ k).
Proof. intros H. symmetry. apply (Zpower_Qpower 10 k H). Qed.

(** Decimal digits of a positive integer. *)
Fixpoint ndigits_fuel (fuel : nat) (n : Z) : Z :=
  match fuel with
  | O => 0
  | S f => if (n <=? 0)%Z then 0 else 1 + ndigits_fuel f (n / 10)
  end.

Definition ndigits (n : Z) : Z := ndigits_fuel (S (Z.to_nat (Z.log2 n))) n.

Lemma ndigits_fuel_spec f n :
  (0 < n)%Z -> (n < 2 ^ Z.of_nat f)%Z ->
  (0 < ndigits_fuel f n /\ 10 ^ (ndigits_fuel f n - 1) <= n < 10 ^ ndigits_fuel f n)%Z.
Proof.
  revert n. induction f as [|f IH]; intros n Hn Hf.
  { cbn in Hf. lia. }
  cbn [ndigits_fuel]. destruct (Z.leb_spec n 0); [lia|].
  destruct (Z.lt_ge_cases n 10) as [Hlt|Hge].
  - replace (n / 10)%Z with 0%Z by (symmetry; apply Z.div_small; lia).
    destruct f; cbn -[Z.pow Z.of_nat]; lia.
  - assert (Hd : (0 < n / 10)%Z) by (apply Z.div_str_pos; lia).
    assert (Hb : (n / 10 < 2 ^ Z.of_nat f)%Z).
    { rewrite Nat2Z.inj_succ, Z.pow_succ_r in Hf by lia.
      apply Z.div_lt_upper_bound; lia. }
    destruct (IH _ Hd Hb) as (Hp & Hl & Hu). split; [lia|].
    pose proof (Z.div_mod n 10 ltac:(lia)). pose proof (Z.mod_pos_bound n 10 ltac:(lia)).
    set (k := ndigits_fuel f (n / 10)) in *.
    replace (1 + k - 1)%Z with (Z.succ (k - 1)) by lia.
    replace (1 + k)%Z with (Z.succ k) by lia.
    rewrite !Z.pow_succ_r by lia. lia.
Qed.

Lemma ndigits_spec n :
  (0 < n)%Z -> (0 < ndigits n /\ 10 ^ (ndigits n - 1) <= n < 10 ^ ndigits n)%Z.
Proof.
  intros Hn. apply ndigits_fuel_spec; [exact Hn|].
  rewrite Nat2Z.inj_succ, Z2Nat.id by apply Z.log2_nonneg.
  apply Z.log2_spec. exact Hn.
Qed.

(** [mag q] is the exponent of the leading digit of a positive rational:
    [10^(mag q) <= q < 10^(mag q + 1)]. *)
Definition mag (q : Q) : Z :=
  let k := (ndigits (Qnum q) - ndigits (Zpos (Qden q)))%Z in
  if (p10 k <=? q)%dec then k else (k - 1)%Z.

Lemma mag_spec q : 0 < q -> p10 (mag q) <= q /\ q < p10 (mag q + 1).
Proof.
  intros Hq. destruct q as [n d]. unfold mag. cbn [Qnum Qden].
  assert (Hn : (0 < n)%Z) by (unfold Qlt in Hq; cbn in Hq; lia).
  destruct (ndigits_spec n Hn) as (Ha & Hal & Hau).
  destruct (ndigits_spec (Zpos d) ltac:(lia)) as (Hb & Hbl & Hbu).
  set (a := ndigits n) in *. set (b := ndigits (Zpos d)) in *.
  assert (E : n # d == inject_Z n * / inject_Z (Zpos d)) by (rewrite Qmake_Qdiv; reflexivity).
  assert (Hd0 : 0 < inject_Z (Zpos d)) by reflexivity.
  assert (Hq1 : (n # d) * inject_Z (Zpos d) == inject_Z n) by (rewrite E; field; lra).
  assert (B1 : p10 (a - 1) <= inject_Z n) by (rewrite p10_Z by lia; rewrite <- Zle_Qle; lia).
  assert (B2 : inject_Z n < p10 a) by (rewrite p10_Z by lia; rewrite <- Zlt_Qlt; lia).
  assert (B3 : p10 (b - 1) <= inject_Z (Zpos d)) by (rewrite p10_Z by lia; rewrite <- Zle_Qle; lia).
  assert (B4 : inject_Z (Zpos d) < p10 b) by (rewrite p10_Z by lia; rewrite <- Zlt_Qlt; lia).
  assert (P1 : p10 a == p10 (a - b + 1) * p10 (b - 1))
    by (rewrite <- p10_plus; replace (a - b + 1 + (b - 1))%Z with a by lia; reflexivity).
  assert (P2 : p10 (a - 1) == p10 (a - b - 1) * p10 b)
    by (rewrite <- p10_plus; replace (a - b - 1 + b)%Z with (a - 1)%Z by lia; reflexivity).
  pose proof (p10_pos (a - b + 1)). pose proof (p10_pos (a - b - 1)). pose proof (p10_pos (b - 1)).
  assert (U : n # d < p10 (a - b + 1)).
  { apply Qnot_le_lt. intros C. apply (Qlt_not_le _ _ B2). rewrite P1, <- Hq1.
    apply Qmult_le_compat_nonneg; lra. }
  assert (L : p10 (a - b - 1) <= n # d).
  { apply Qnot_lt_le. intros C. apply (Qle_not_lt _ _ B1). rewrite P2, <- Hq1.
    apply Qle_lt_trans with ((n # d) * p10 b).
    - apply Qmult_le_l; lra.
    - apply Qmult_lt_r; [apply p10_pos | exact C]. }
  destruct (dleb_spec (p10 (a - b)) (n # d)).
  - split; assumption.
  - split; [exact L|]. replace (a - b - 1 + 1)%Z with (a - b)%Z by lia. lra.
Qed.

Lemma mag_unique q k : p10 k <= q -> q < p10 (k + 1) -> mag q = k.
Proof.
  intros L U. pose proof (p10_pos k). destruct (mag_spec q) as [L' U']; [lra|].
  assert (mag q < k + 1)%Z by (apply p10_lt_inv; lra).
  assert (k < mag q + 1)%Z by (apply p10_lt_inv; lra). lia.
Qed.

Lemma mag_eq x y : 0 < x -> x == y -> mag x = mag y.
Proof.
  intros P E. destruct (mag_spec x P) as [L U]. symmetry. apply mag_unique; lra.
Qed.

Lemma mag_le x y : 0 < x -> x <= y -> (mag x <= mag y)%Z.
Proof.
  intros P H. destruct (mag_spec x P) as [L _]. destruct (mag_spec y) as [_ U]; [lra|].
  enough (mag x < mag y + 1)%Z by lia. apply p10_lt_inv. lra.
Qed.

(** ** Rounding half to even *)

Definition half_even (q : Q) : Z :=
  let f := Qfloor q in
  match Qcompare (q - inject_Z f) (1 # 2) with
  | Lt => f
  | Gt => (f + 1)%Z
  | Eq => if Z.even f then f else (f + 1)%Z
  end.

(** Integer arithmetic under [inject_Z] as rational arithmetic. *)
Ltac inj :=
  unfold Z.sub;
  repeat first [rewrite inject_Z_plus | rewrite inject_Z_opp | rewrite inject_Z_mult];
  change (inject_Z 1) with 1; change (inject_Z 2) with 2.

(** A computed comparison as the proposition it decides. *)
Ltac qcmp_in H :=
  first [apply (proj2 (Qeq_alt _ _)) in H
        | apply (proj2 (Qlt_alt _ _)) in H
        | apply (proj2 (Qgt_alt _ _)) in H].

Lemma half_even_floor q : half_even q = Qfloor q \/ half_even q = (Qfloor q + 1)%Z.
Proof.
  unfold half_even. destruct (Qcompare _ _); auto. destruct (Z.even _); auto.
Qed.

Lemma half_even_error q : Qabs (q - inject_Z (half_even q)) <= 1 # 2.
Proof.
  unfold half_even. pose proof (Qfloor_le q). pose proof (Qlt_floor q) as U.
  rewrite inject_Z_plus in U. change (inject_Z 1) with 1 in U.
  set (f := Qfloor q) in *. apply Qabs_Qle_condition.
  destruct (Qcompare (q - inject_Z f) (1 # 2)) eqn:E.
  - apply Qeq_alt in E. destruct (Z.even f); [lra|].
    inj. lra.
  - apply Qlt_alt in E. lra.
  - apply Qgt_alt in E. inj. lra.
Qed.

Lemma half_even_Z z : half_even (inject_Z z) = z.
Proof.
  unfold half_even. rewrite Qfloor_Z.
  replace (Qcompare (inject_Z z - inject_Z z) (1 # 2)) with Lt; [reflexivity|].
  symmetry. apply (proj1 (Qlt_alt _ _)). lra.
Qed.

Lemma half_even_mono x y : x <= y -> (half_even x <= half_even y)%Z.
Proof.
  intros H. pose proof (Qfloor_resp_le _ _ H) as F.
  destruct (Z.eq_dec (Qfloor x) (Qfloor y)) as [E|N].
  - unfold half_even. rewrite <- E. set (f := Qfloor x).
    destruct (Qcompare (x - inject_Z f) (1 # 2)) eqn:C1, (Qcompare (y - inject_Z f) (1 # 2)) eqn:C2;
      qcmp_in C1; qcmp_in C2;
      try (destruct (Z.even f)); try lia; exfalso; lra.
  - destruct (half_even_floor x), (half_even_floor y); lia.
Qed.

#[export] Instance half_even_Proper : Proper (Qeq ==> eq) half_even.
Proof.
  intros x y E. apply Z.le_antisymm; apply half_even_mono; lra.
Qed.

Lemma half_even_pos q : 1 <= q -> (1 <= half_even q)%Z.
Proof. intros H. rewrite <- (half_even_Z 1). apply half_even_mono. exact H. Qed.

Lemma half_even_nonneg q : 0 <= q -> (0 <= half_even q)%Z.
Proof. intros H. rewrite <- (half_even_Z 0). apply half_even_mono. exact H. Qed.

Lemma Qfloor_opp_frac q f :
  Qfloor q = f -> ~ q == inject_Z f -> Qfloor (- q) = (- f - 1)%Z.
Proof.
  intros F N. pose proof (Qfloor_le q) as H. pose proof (Qlt_floor q) as U. rewrite F in *.
  assert (inject_Z f < q) by (destruct (Qle_lt_or_eq _ _ H); [assumption | exfalso; apply N; lra]).
  pose proof (Qfloor_le (- q)). pose proof (Qlt_floor (- q)) as U'.
  rewrite inject_Z_plus in U, U'. change (inject_Z 1) with 1 in *.
  assert (inject_Z (Qfloor (- q)) < inject_Z (- f)) by (inj; lra).
  assert (inject_Z (- f - 1 - 1) < inject_Z (Qfloor (- q))).
  { inj. lra. }
  rewrite <- Zlt_Qlt in *. lia.
Qed.

Lemma half_even_opp q : half_even (- q) = (- half_even q)%Z.
Proof.
  destruct (Qeq_dec q (inject_Z (Qfloor q))) as [E|N].
  - rewrite E. rewrite half_even_Z. rewrite <- inject_Z_opp. apply half_even_Z.
  - unfold half_even. rewrite (Qfloor_opp_frac q (Qfloor q) eq_refl N).
    set (f := Qfloor q) in *.
    assert (A : - q - inject_Z (- f - 1) == 1 - (q - inject_Z f)).
    { inj. lra. }
    rewrite A. set (r := q - inject_Z f).
    destruct (Qcompare r (1 # 2)) eqn:C; qcmp_in C.
    + replace (Qcompare (1 - r) (1 # 2)) with Eq by (symmetry; apply (proj1 (Qeq_alt _ _)); lra).
      replace (Z.even (- f - 1)) with (negb (Z.even f))
        by (rewrite Z.even_sub, Z.even_opp; destruct (Z.even f); reflexivity).
      destruct (Z.even f); cbn [negb]; lia.
    + replace (Qcompare (1 - r) (1 # 2)) with Gt by (symmetry; apply (proj1 (Qgt_alt _ _)); lra). lia.
    + replace (Qcompare (1 - r) (1 # 2)) with Lt by (symmetry; apply (proj1 (Qlt_alt _ _)); lra). lia.
Qed.

(** ** Rounding to the context precision *)

Definition prec : Z := 28.

(** [x._fix(context)]: the exact value rounded to [prec] significant digits. The
    exponent range of the context ([-999999 .. 999999]) is not modelled. *)
Definition rnd (q : Q) : Q :=
  if (q =? 0)%dec then 0
  else let u := (mag (Qabs q) - (prec - 1))%Z in
       Qred (inject_Z (half_even (q * p10 (- u))) * p10 u).

(** A value the context can hold exactly: at most [prec] significant digits. *)
Definition representable (q : Q) : Prop :=
  exists m e, (Z.abs m <= 10 ^ prec)%Z /\ q == inject_Z m * p10 e.

#[export] Instance representable_Proper : Proper (Qeq ==> iff) representable.
Proof.
  intros x y E. split; intros (m & e & H & K); exists m, e; split; auto; lra.
Qed.

(** The exponent of the last kept digit. *)
Definition ulp_exp (q : Q) : Z := (mag (Qabs q) - (prec - 1))%Z.

Lemma rnd_nonzero q :
  ~ q == 0 -> rnd q == inject_Z (half_even (q * p10 (- ulp_exp q))) * p10 (ulp_exp q).
Proof.
  intros N. unfold rnd, ulp_exp. destruct (deqb_spec q 0); [contradiction|].
  apply Qred_correct.
Qed.

Lemma rnd_0 q : q == 0 -> rnd q = 0.
Proof. intros E. unfold rnd. destruct (deqb_spec q 0); [reflexivity | contradiction]. Qed.

Lemma Qabs_pos_nz q : ~ q == 0 -> 0 < Qabs q.
Proof.
  intros N. apply Qabs_case; intros H.
  - destruct (Qle_lt_or_eq _ _ H); [assumption | exfalso; apply N; lra].
  - destruct (Qle_lt_or_eq _ _ H); [lra | exfalso; apply N; lra].
Qed.

(** Equal rationals round to the same (reduced) rational. *)
#[export] Instance rnd_Proper_eq : Proper (Qeq ==> eq) rnd.
Proof.
  intros x y E. unfold rnd. destruct (deqb_spec x 0) as [Z|N].
  - symmetry. apply rnd_0. lra.
  - destruct (deqb_spec y 0); [exfalso; apply N; lra|].
    assert (A : Qabs x == Qabs y) by (rewrite E; reflexivity).
    rewrite (mag_eq _ _ (Qabs_pos_nz _ N) A). apply Qred_complete. now rewrite E.
Qed.

#[export] Instance rnd_Proper : Proper (Qeq ==> Qeq) rnd.
Proof. intros x y E. now rewrite E. Qed.

(** Scaling by a power of ten and back. *)
Lemma p10_scale q u : q * p10 (- u) * p10 u == q.
Proof. rewrite <- Qmult_assoc, (Qmult_comm (p10 (- u))), p10_mul_opp. lra. Qed.

Lemma p10_scale_le a b u : a <= b -> a * p10 u <= b * p10 u.
Proof. intros H. apply Qmult_le_compat_r; [exact H | pose proof (p10_pos u); lra]. Qed.

Lemma p10_unscale_le a b u : a * p10 u <= b * p10 u -> a <= b.
Proof. intros H. apply (Qmult_le_r a b (p10 u)); [apply p10_pos | exact H]. Qed.

(** Rounding at a fixed last digit keeps a multiple of that digit. *)
Lemma grid_between m u k :
  (u <= k)%Z -> exists z, inject_Z m * p10 k == inject_Z z * p10 u.
Proof.
  intros H. exists (m * 10 ^ (k - u))%Z.
  rewrite inject_Z_mult, <- p10_Z by lia.
  rewrite <- Qmult_assoc, <- p10_plus. replace (k - u + u)%Z with k by lia. reflexivity.
Qed.

Lemma half_even_on_grid z u : half_even (inject_Z z * p10 u * p10 (- u)) = z.
Proof.
  rewrite <- (half_even_Z z) at 2. apply half_even_Proper.
  rewrite <- Qmult_assoc, p10_mul_opp. lra.
Qed.

Theorem rnd_representable q : representable (rnd q).
Proof.
  destruct (Qeq_dec q 0) as [Z|N].
  { rewrite (rnd_0 _ Z). exists 0%Z, 0%Z. split; [vm_compute; discriminate | reflexivity]. }
  exists (half_even (q * p10 (- ulp_exp q))), (ulp_exp q).
  split; [|apply rnd_nonzero, N].
  destruct (mag_spec (Qabs q) (Qabs_pos_nz _ N)) as [_ U].
  assert (H : Qabs (q * p10 (- ulp_exp q)) <= inject_Z (10 ^ prec)).
  { rewrite Qabs_Qmult, (Qabs_pos (p10 _)) by (apply Qlt_le_weak, p10_pos).
    rewrite <- p10_Z by (vm_compute; discriminate).
    apply (p10_unscale_le _ _ (ulp_exp q)). rewrite p10_scale, <- p10_plus.
    replace (prec + ulp_exp q)%Z with (mag (Qabs q) + 1)%Z by (unfold ulp_exp, prec; lia). lra. }
  apply Qabs_Qle_condition in H. destruct H as [H1 H2].
  apply half_even_mono in H1. apply half_even_mono in H2.
  rewrite <- inject_Z_opp, half_even_Z in H1. rewrite half_even_Z in H2.
  apply Z.abs_le. lia.
Qed.

(** Rounding is exact on representable values. *)
Theorem rnd_exact q : representable q -> rnd q == q.
Proof.
  intros (m & e & Hm & E). destruct (Qeq_dec q 0) as [Z|N].
  { rewrite (rnd_0 _ Z). lra. }
  rewrite (rnd_nonzero _ N). set (u := ulp_exp q).
  enough (exists z, q == inject_Z z * p10 u) as (z & Hz).
  { rewrite (half_even_Proper _ (inject_Z z * p10 u * p10 (- u))) by (now rewrite Hz).
    rewrite half_even_on_grid. lra. }
  destruct (Z.le_gt_cases u e) as [L|L].
  { destruct (grid_between m u e L) as (z & Hz). exists z. lra. }
  destruct (mag_spec (Qabs q) (Qabs_pos_nz _ N)) as [B _].
  (* then |q| is at most 10^(prec+e), which is at most the leading digit of q *)
  assert (A : Qabs q <= p10 (prec + e)).
  { rewrite E, Qabs_Qmult, (Qabs_pos (p10 e)) by (apply Qlt_le_weak, p10_pos).
    rewrite p10_plus. apply p10_scale_le. rewrite p10_Z by (vm_compute; discriminate).
    change (Qabs (inject_Z m)) with (inject_Z (Z.abs m)). rewrite <- Zle_Qle. exact Hm. }
  assert (M : (mag (Qabs q) < prec + e + 1)%Z).
  { apply p10_lt_inv. apply Qle_lt_trans with (p10 (prec + e)); [lra|].
    rewrite (p10_plus (prec + e) 1). pose proof (p10_pos (prec + e)).
    change (p10 1) with 10. lra. }
  assert (U : (mag (Qabs q) = prec + e)%Z) by (unfold u, ulp_exp, prec in *; lia).
  assert (K : Qabs q == p10 (prec + e)) by (rewrite U in B; lra).
  destruct (grid_between 1 u (prec + e)) as (z & Hz); [unfold u, ulp_exp, prec in *; lia|].
  destruct (Qlt_le_dec q 0).
  - exists (- z)%Z. inj. rewrite Qabs_neg in K by lra. change (inject_Z 1) with 1 in Hz. lra.
  - exists z. rewrite Qabs_pos in K by lra. change (inject_Z 1) with 1 in Hz. lra.
Qed.

Theorem rnd_idem q : rnd (rnd q) == rnd q.
Proof. apply rnd_exact, rnd_representable. Qed.

Lemma rnd_opp q : rnd (- q) == - rnd q.
Proof.
  destruct (Qeq_dec q 0) as [Z|N].
  { rewrite !rnd_0 by lra. reflexivity. }
  rewrite !rnd_nonzero by (intros H; apply N; lra).
  assert (E : ulp_exp (- q) = ulp_exp q).
  { unfold ulp_exp. now rewrite (mag_eq (Qabs (- q)) (Qabs q))
      by (apply Qabs_pos_nz || apply Qabs_opp; intros H; apply N; lra). }
  rewrite E. rewrite (half_even_Proper _ (- (q * p10 (- ulp_exp q)))) by lra.
  rewrite half_even_opp. inj. lra.
Qed.

Lemma rnd_pos q : 0 < q -> 0 < rnd q.
Proof.
  intros P. rewrite rnd_nonzero by lra.
  destruct (mag_spec (Qabs q)) as [L _]; [apply Qabs_pos_nz; lra|].
  assert (A : Qabs q == q) by (apply Qabs_pos; lra).
  assert (1 <= q * p10 (- ulp_exp q)).
  { apply (p10_unscale_le _ _ (ulp_exp q)). rewrite p10_scale, Qmult_1_l.
    apply Qle_trans with (p10 (mag (Qabs q))).
    - apply p10_le. unfold ulp_exp, prec. lia.
    - lra. }
  apply half_even_pos in H. pose proof (p10_pos (ulp_exp q)).
  assert (1 <= inject_Z (half_even (q * p10 (- ulp_exp q)))) by (change 1 with (inject_Z 1); rewrite <- Zle_Qle; exact H).
  apply Qmult_lt_0_compat; lra.
Qed.

Lemma rnd_nonneg q : 0 <= q -> 0 <= rnd q.
Proof.
  intros H. destruct (Qle_lt_or_eq _ _ H) as [P|Z].
  - apply Qlt_le_weak, rnd_pos, P.
  - rewrite rnd_0 by lra. lra.
Qed.

(** Rounding is monotone. *)
Lemma rnd_mono_pos x y : 0 < x -> x <= y -> rnd x <= rnd y.
Proof.
  intros P H. rewrite !rnd_nonzero by lra.
  assert (Ax : Qabs x == x) by (apply Qabs_pos; lra).
  assert (Ay : Qabs y == y) by (apply Qabs_pos; lra).
  assert (M : (mag (Qabs x) <= mag (Qabs y))%Z) by (apply mag_le; lra).
  destruct (Z.eq_dec (ulp_exp x) (ulp_exp y)) as [E|N].
  - rewrite E. apply p10_scale_le. rewrite <- Zle_Qle. apply half_even_mono, p10_scale_le, H.
  - (* a power of ten separates the two magnitudes *)
    destruct (mag_spec (Qabs x)) as [_ Ux]; [lra|]. destruct (mag_spec (Qabs y)) as [Ly _]; [lra|].
    assert (K : (mag (Qabs x) + 1 <= mag (Qabs y))%Z) by (unfold ulp_exp in N; lia).
    apply p10_le in K.
    apply Qle_trans with (p10 (mag (Qabs x) + 1)); [|apply Qle_trans with (p10 (mag (Qabs y))); [exact K|]].
    + replace (mag (Qabs x) + 1)%Z with (prec + ulp_exp x)%Z by (unfold ulp_exp, prec; lia).
      rewrite p10_plus, (p10_Z prec) by (vm_compute; discriminate). apply p10_scale_le.
      rewrite <- Zle_Qle, <- (half_even_Z (10 ^ prec)). apply half_even_mono.
      apply (p10_unscale_le _ _ (ulp_exp x)). rewrite p10_scale, <- (p10_Z prec), <- p10_plus by (vm_compute; discriminate).
      replace (prec + ulp_exp x)%Z with (mag (Qabs x) + 1)%Z by (unfold ulp_exp, prec; lia). lra.
    + replace (mag (Qabs y)) with ((prec - 1) + ulp_exp y)%Z by (unfold ulp_exp, prec; lia).
      rewrite p10_plus, (p10_Z (prec - 1)) by (vm_compute; discriminate). apply p10_scale_le.
      rewrite <- Zle_Qle, <- (half_even_Z (10 ^ (prec - 1))). apply half_even_mono.
      apply (p10_unscale_le _ _ (ulp_exp y)). rewrite p10_scale, <- (p10_Z (prec - 1)), <- p10_plus by (vm_compute; discriminate).
      replace (prec - 1 + ulp_exp y)%Z with (mag (Qabs y)) by (unfold ulp_exp, prec; lia). lra.
Qed.

Theorem rnd_mono x y : x <= y -> rnd x <= rnd y.
Proof.
  intros H. destruct (Qlt_le_dec 0 x) as [P|N].
  - apply rnd_mono_pos; assumption.
  - destruct (Qlt_le_dec y 0) as [Q|Q].
    + assert (rnd (- y) <= rnd (- x)) by (apply rnd_mono_pos; lra). rewrite !rnd_opp in *. lra.
    + assert (0 <= rnd (- x)) by (apply rnd_nonneg; lra). rewrite rnd_opp in *.
      assert (0 <= rnd y) by (apply rnd_nonneg; lra). lra.
Qed.

Lemma rnd_neg q : q < 0 -> rnd q < 0.
Proof. intros H. assert (0 < rnd (- q)) by (apply rnd_pos; lra). rewrite rnd_opp in *. lra. Qed.

Lemma rnd_nonpos q : q <= 0 -> rnd q <= 0.
Proof. intros H. assert (0 <= rnd (- q)) by (apply rnd_nonneg; lra). rewrite rnd_opp in *. lra. Qed.

(** A representable bound survives rounding. *)
Lemma rnd_le_bound q b : representable b -> q <= b -> rnd q <= b.
Proof. intros R H. rewrite <- (rnd_exact b R). apply rnd_mono, H. Qed.

Lemma rnd_ge_bound q b : representable b -> b <= q -> b <= rnd q.
Proof. intros R H. rewrite <- (rnd_exact b R) at 1. apply rnd_mono, H. Qed.

(** Half a unit in the last place bounds the error. *)
Lemma rnd_error q : ~ q == 0 -> Qabs (rnd q - q) <= (1 # 2) * p10 (ulp_exp q).
Proof.
  intros N. rewrite (rnd_nonzero _ N). set (u := ulp_exp q).
  rewrite <- (p10_scale q u) at 2. set (x := q * p10 (- u)).
  setoid_replace (inject_Z (half_even x) * p10 u - x * p10 u)
    with (- (x - inject_Z (half_even x)) * p10 u) by lra.
  rewrite Qabs_Qmult, Qabs_opp, (Qabs_pos (p10 u)) by (apply Qlt_le_weak, p10_pos).
  apply p10_scale_le, half_even_error.
Qed.

(** ** The operations of [decimal.Decimal] *)

Definition dadd (a b : Q) : Q := rnd (a + b).
Definition dsub (a b : Q) : Q := rnd (a - b).
Definition dmul (a b : Q) : Q := rnd (a * b).
(** Division is only reached behind a guard on the divisor; [dmod] and the
    callers that divide unguarded use an option. *)
Definition ddiv (a b : Q) : Q := rnd (a / b).
Definition dneg (a : Q) : Q := rnd (- a).
Definition dabs (a : Q) : Q := rnd (Qabs a).

Notation "a ⊕ b" := (dadd a b) (at level 50, left associativity) : dec_scope.
Notation "a ⊖ b" := (dsub a b) (at level 50, left associativity) : dec_scope.
Notation "a ⊗ b" := (dmul a b) (at level 40, left associativity) : dec_scope.
Notation "a ⊘ b" := (ddiv a b) (at level 40, left associativity) : dec_scope.

(** The builtins [max] and [min] compare and return an argument unrounded; the
    first argument wins ties. *)
Definition dmax (a b : Q) : Q := if (a <? b)%dec then b else a.
Definition dmin (a b : Q) : Q := if (b <? a)%dec then b else a.

(** [to_integral_value] with ROUND_DOWN (toward zero) and ROUND_UP (away). *)
Definition trunc (q : Q) : Z := Z.quot (Qnum q) (Zpos (Qden q)).
Definition to_integral_down (q : Q) : Q := inject_Z (trunc q).
Definition to_integral_up (q : Q) : Q :=
  inject_Z (if (0 <=? q)%dec then Qceiling q else Qfloor q).

(** [a % b]: the remainder of the division truncated toward zero. [None] is the
    InvalidOperation of a zero divisor or of a quotient beyond the precision. *)
Definition dmod (a b : Q) : option Q :=
  if (b =? 0)%dec then None
  else let t := trunc (a / b) in
       if (Z.abs t <? 10 ^ prec)%Z then Some (rnd (a - b * inject_Z t)) else None.

#[export] Instance dadd_Proper : Proper (Qeq ==> Qeq ==> eq) dadd.
Proof. intros x y H a b K. unfold dadd. now rewrite H, K. Qed.
#[export] Instance dsub_Proper : Proper (Qeq ==> Qeq ==> eq) dsub.
Proof. intros x y H a b K. unfold dsub. now rewrite H, K. Qed.
#[export] Instance dmul_Proper : Proper (Qeq ==> Qeq ==> eq) dmul.
Proof. intros x y H a b K. unfold dmul. now rewrite H, K. Qed.
#[export] Instance ddiv_Proper : Proper (Qeq ==> Qeq ==> eq) ddiv.
Proof. intros x y H a b K. unfold ddiv. now rewrite H, K. Qed.
#[export] Instance dmax_Proper : Proper (Qeq ==> Qeq ==> Qeq) dmax.
Proof. intros x y H a b K. unfold dmax. rewrite H, K. destruct (dltb y b); assumption. Qed.
#[export] Instance dmin_Proper : Proper (Qeq ==> Qeq ==> Qeq) dmin.
Proof. intros x y H a b K. unfold dmin. rewrite H, K. destruct (dltb b y); assumption. Qed.

Lemma dmax_l a b : a <= dmax a b.
Proof. unfold dmax. dcase; lra. Qed.
Lemma dmax_r a b : b <= dmax a b.
Proof. unfold dmax. dcase; lra. Qed.
Lemma dmax_lub a b c : a <= c -> b <= c -> dmax a b <= c.
Proof. unfold dmax. dcase; lra. Qed.
Lemma dmin_l a b : dmin a b <= a.
Proof. unfold dmin. dcase; lra. Qed.
Lemma dmin_r a b : dmin a b <= b.
Proof. unfold dmin. dcase; lra. Qed.
Lemma dmin_glb a b c : c <= a -> c <= b -> c <= dmin a b.
Proof. unfold dmin. dcase; lra. Qed.
Lemma dmax_cases a b : (dmax a b = a /\ b <= a) \/ (dmax a b = b /\ a < b).
Proof. unfold dmax. dcase; auto. left. split; [reflexivity|lra]. Qed.
Lemma dmin_cases a b : (dmin a b = a /\ a <= b) \/ (dmin a b = b /\ b < a).
Proof. unfold dmin. dcase; auto. left. split; [reflexivity|lra]. Qed.

Lemma dmax_mono a b c d : a <= b -> c <= d -> dmax a c <= dmax b d.
Proof. unfold dmax. dcase; lra. Qed.
Lemma dmin_mono a b c d : a <= b -> c <= d -> dmin a c <= dmin b d.
Proof. unfold dmin. dcase; lra. Qed.

(** *** Signs and monotonicity of the rounded operations *)

Lemma dadd_nonneg a b : 0 <= a -> 0 <= b -> 0 <= dadd a b.
Proof. intros. apply rnd_nonneg. lra. Qed.
Lemma dadd_pos_l a b : 0 < a -> 0 <= b -> 0 < dadd a b.
Proof. intros. apply rnd_pos. lra. Qed.
Lemma dadd_mono a b c d : a <= b -> c <= d -> dadd a c <= dadd b d.
Proof. intros. apply rnd_mono. lra. Qed.
Lemma dsub_mono a b c d : a <= b -> d <= c -> dsub a c <= dsub b d.
Proof. intros. apply rnd_mono. lra. Qed.
Lemma dsub_nonneg a b : b <= a -> 0 <= dsub a b.
Proof. intros. apply rnd_nonneg. lra. Qed.
Lemma dsub_pos a b : b < a -> 0 < dsub a b.
Proof. intros. apply rnd_pos. lra. Qed.
Lemma dsub_nonpos a b : a <= b -> dsub a b <= 0.
Proof. intros. apply rnd_nonpos. lra. Qed.
Lemma dsub_neg a b : a < b -> dsub a b < 0.
Proof. intros. apply rnd_neg. lra. Qed.
Lemma dmul_nonneg a b : 0 <= a -> 0 <= b -> 0 <= dmul a b.
Proof. intros. apply rnd_nonneg. apply Qmult_le_0_compat; assumption. Qed.
Lemma dmul_pos a b : 0 < a -> 0 < b -> 0 < dmul a b.
Proof. intros. apply rnd_pos. apply Qmult_lt_0_compat; assumption. Qed.
Lemma dmul_mono_l a b c : 0 <= c -> a <= b -> dmul a c <= dmul b c.
Proof. intros. apply rnd_mono. apply Qmult_le_compat_r; assumption. Qed.
Lemma dmul_mono a b c d : 0 <= a -> 0 <= c -> a <= b -> c <= d -> dmul a c <= dmul b d.
Proof. intros. apply rnd_mono. apply Qmult_le_compat_nonneg; lra. Qed.
Lemma dmul_0_l a b : a == 0 -> dmul a b = 0.
Proof. intros E. apply rnd_0. rewrite E. lra. Qed.
Lemma dmul_0_r a b : b == 0 -> dmul a b = 0.
Proof. intros E. apply rnd_0. rewrite E. lra. Qed.
Lemma ddiv_nonneg a b : 0 <= a -> 0 <= b -> 0 <= ddiv a b.
Proof.
  intros. apply rnd_nonneg. unfold Qdiv. apply Qmult_le_0_compat; [assumption|].
  apply Qinv_le_0_compat. assumption.
Qed.
Lemma ddiv_pos a b : 0 < a -> 0 < b -> 0 < ddiv a b.
Proof.
  intros. apply rnd_pos. unfold Qdiv. apply Qmult_lt_0_compat; [assumption|].
  apply Qinv_lt_0_compat. assumption.
Qed.
Lemma ddiv_mono_l a b c : 0 < c -> a <= b -> ddiv a c <= ddiv b c.
Proof.
  intros. apply rnd_mono. unfold Qdiv. apply Qmult_le_compat_r; [assumption|].
  apply Qlt_le_weak, Qinv_lt_0_compat. assumption.
Qed.
Lemma dadd_0_r a : representable a -> dadd a 0 == a.
Proof. intros R. unfold dadd. rewrite Qplus_0_r. apply rnd_exact, R. Qed.
Lemma dsub_0_r a : representable a -> dsub a 0 == a.
Proof. intros R. unfold dsub. rewrite (rnd_Proper (a - 0) a) by lra. apply rnd_exact, R. Qed.
Lemma dmul_le_l a b : representable a -> 0 <= a -> b <= 1 -> dmul a b <= a.
Proof.
  intros R P H. apply rnd_le_bound; [exact R|].
  setoid_replace a with (1 * a) at 2 by lra. rewrite Qmult_comm. apply Qmult_le_compat_r; lra.
Qed.
Lemma ddiv_le_1 a b : 0 <= a -> a <= b -> 0 < b -> ddiv a b <= 1.
Proof.
  intros P H B. apply rnd_le_bound.
  - exists 1%Z, 0%Z. split; [vm_compute; discriminate | reflexivity].
  - apply Qle_shift_div_r; lra.
Qed.

Lemma representable_Z z : (Z.abs z <= 10 ^ prec)%Z -> representable (inject_Z z).
Proof. intros H. exists z, 0%Z. split; [exact H|]. rewrite p10_0. lra. Qed.
Lemma representable_0 : representable 0.
Proof. apply (representable_Z 0). vm_compute. discriminate. Qed.
Lemma representable_1 : representable 1.
Proof. apply (representable_Z 1). vm_compute. discriminate. Qed.
Lemma representable_opp q : representable q -> representable (- q).
Proof.
  intros (m & e & H & E). exists (- m)%Z, e. rewrite Z.abs_opp. split; [exact H|]. inj. lra.
Qed.
Lemma representable_dmax a b : representable a -> representable b -> representable (dmax a b).
Proof. unfold dmax. destruct (dltb a b); auto. Qed.
Lemma representable_dmin a b : representable a -> representable b -> representable (dmin a b).
Proof. unfold dmin. destruct (dltb b a); auto. Qed.

#[export] Hint Resolve representable_0 representable_1 representable_dmax representable_dmin
  rnd_representable representable_opp : engine.
#[export] Hint Resolve dadd_nonneg dmul_nonneg dmul_pos ddiv_nonneg ddiv_pos dsub_nonneg
  dmax_l dmax_r dmin_l dmin_r : engine.

(** A concrete decimal is representable when its digits are few: decided by
    rounding it. *)
Lemma representable_dec q : deqb (rnd q) q = true -> representable q.
Proof. intros H. apply deqb_true in H. rewrite <- H. apply rnd_representable. Qed.

Example div_3 : ddiv 1 3 = 0.3333333333333333333333333333.
Proof. vm_compute. reflexivity. Qed.
Example div_6_7 : ddiv 6 7 = 0.8571428571428571428571428571.
Proof. vm_compute. reflexivity. Qed.
Example half_even_tie : rnd 10000000000000000000000000005 = 10000000000000000000000000000.
Proof. vm_compute. reflexivity. Qed.
