(* ===== verification/PyStr.v ===== *)
(** The methods of Python's [str] the engine uses, on ASCII text: case mapping,
    [strip], [startswith], substring tests, and decimal literals printed and
    read back. *)

From S2P Require Import Prelude Dec.
Local Open Scope string_scope.
Local Open Scope bool_scope.

(** ** Characters *)

Definition is_upper (c : ascii) : bool := let n := nat_of_ascii c in ((65 <=? n) && (n <=? 90))%nat.
Definition is_lower (c : ascii) : bool := let n := nat_of_ascii c in ((97 <=? n) && (n <=? 122))%nat.
Definition is_digit (c : ascii) : bool := let n := nat_of_ascii c in ((48 <=? n) && (n <=? 57))%nat.
(** The ASCII characters [str.strip] removes. *)
Definition is_space (c : ascii) : bool :=
  let n := nat_of_ascii c in (((9 <=? n) && (n <=? 13)) || ((28 <=? n) && (n <=? 32)))%nat.

Definition lower_char (c : ascii) : ascii :=
  if is_upper c then ascii_of_nat (nat_of_ascii c + 32)%nat else c.
Definition upper_char (c : ascii) : ascii :=
  if is_lower c then ascii_of_nat (nat_of_ascii c - 32)%nat else c.

Fixpoint smap (f : ascii -> ascii) (s : string) : string :=
  match s with EmptyString => EmptyString | String c s' => String (f c) (smap f s') end.

Definition lower : string -> string := smap lower_char.
Definition upper : string -> string := smap upper_char.

Fixpoint lstrip_by (p : ascii -> bool) (s : string) : string :=
  match s with
  | EmptyString => EmptyString
  | String c s' => if p c then lstrip_by p s' else s
  end.

(** Dropping from the right keeps [c] exactly when something after it is kept. *)
Fixpoint rstrip_by (p : ascii -> bool) (s : string) : string :=
  match s with
  | EmptyString => EmptyString
  | String c s' =>
      match rstrip_by p s' with
      | EmptyString => if p c then EmptyString else String c EmptyString
      | r => String c r
      end
  end.

Definition strip (s : string) : string := rstrip_by is_space (lstrip_by is_space s).

Definition is_empty (s : string) : bool := match s with EmptyString => true | _ => false end.

(** Truth value of a string, and Python's [a or b] on strings. *)
Definition truthy (s : string) : bool := negb (is_empty s).
Definition str_or (a b : string) : string := if truthy a then a else b.

Definition startswith (pre s : string) : bool := String.prefix pre s.

(** [pre in s]. *)
Fixpoint contains (sub s : string) : bool :=
  String.prefix sub s || match s with EmptyString => false | String _ s' => contains sub s' end.

Fixpoint endswith (suf s : string) : bool :=
  (suf =? s)%string || match s with EmptyString => false | String _ s' => endswith suf s' end.

Definition mem_str (s : string) (l : list string) : bool := existsb (String.eqb s) l.

Lemma mem_str_In s l : mem_str s l = true <-> In s l.
Proof.
  unfold mem_str. rewrite existsb_exists. split.
  - intros (x & H & E). apply String.eqb_eq in E. now subst.
  - intros H. exists s. split; [exact H | apply String.eqb_refl].
Qed.

(** ** Laws of the case maps *)

Lemma smap_idem f : (forall c, f (f c) = f c) -> forall s, smap f (smap f s) = smap f s.
Proof. intros H. induction s as [|c s IH]; cbn; [reflexivity|]. now rewrite H, IH. Qed.

Lemma lower_char_idem c : lower_char (lower_char c) = lower_char c.
Proof. destruct c as [[] [] [] [] [] [] [] []]; reflexivity. Qed.
Lemma upper_char_idem c : upper_char (upper_char c) = upper_char c.
Proof. destruct c as [[] [] [] [] [] [] [] []]; reflexivity. Qed.

Lemma lower_idem s : lower (lower s) = lower s.
Proof. apply smap_idem, lower_char_idem. Qed.
Lemma upper_idem s : upper (upper s) = upper s.
Proof. apply smap_idem, upper_char_idem. Qed.

Lemma is_empty_smap f s : is_empty (smap f s) = is_empty s.
Proof. now destruct s. Qed.

#[export] Hint Rewrite lower_idem upper_idem is_empty_smap : engine.

Lemma is_empty_true s : is_empty s = true <-> s = EmptyString.
Proof. destruct s; cbn; split; congruence. Qed.

Lemma truthy_true s : truthy s = true <-> s <> EmptyString.
Proof. destruct s; cbn; split; congruence. Qed.

Lemma append_nil_r s : s ++ EmptyString = s.
Proof. induction s as [|c s IH]; cbn; [reflexivity | now rewrite IH]. Qed.

Lemma append_assoc a b c : (a ++ b) ++ c = a ++ (b ++ c).
Proof. induction a as [|x a IH]; cbn; [reflexivity | now rewrite IH]. Qed.

(** ** Natural numbers as digit strings *)

Definition digit_char (d : Z) : ascii := ascii_of_nat (48 + Z.to_nat d)%nat.
Definition char_digit (c : ascii) : Z := (Z.of_nat (nat_of_ascii c) - 48)%Z.

(** [digits_acc] prepends the decimal digits of [n] to [acc]. *)
Fixpoint digits_acc (fuel : nat) (n : Z) (acc : string) : string :=
  match fuel with
  | O => acc
  | S f =>
      let acc' := String (digit_char (n mod 10)%Z) acc in
      if (n / 10 =? 0)%Z then acc' else digits_acc f (n / 10)%Z acc'
  end.

Definition print_nat (n : Z) : string := digits_acc (S (Z.to_nat (Z.log2 n))) n EmptyString.

(** [places] digits exactly, leading zeros kept. *)
Fixpoint print_fixed (places : nat) (n : Z) : string :=
  match places with
  | O => EmptyString
  | S p => print_fixed p (n / 10)%Z ++ String (digit_char (n mod 10)%Z) EmptyString
  end.

(** Reads the leading digits of a string: their value, their number and the rest. *)
Fixpoint read_digits (acc : Z) (count : nat) (s : string) : Z * nat * string :=
  match s with
  | String c s' =>
      if is_digit c then read_digits (10 * acc + char_digit c)%Z (S count) s' else (acc, count, s)
  | EmptyString => (acc, count, EmptyString)
  end.

Lemma digit_char_spec d : (0 <= d < 10)%Z -> is_digit (digit_char d) = true /\ char_digit (digit_char d) = d.
Proof.
  intros H.
  assert (d = 0 \/ d = 1 \/ d = 2 \/ d = 3 \/ d = 4 \/ d = 5 \/ d = 6 \/ d = 7 \/ d = 8 \/ d = 9)%Z as C by lia.
  repeat (destruct C as [->|C]; [split; reflexivity|]). subst. split; reflexivity.
Qed.

(** A string of digits, and how a reader consumes one. *)
Fixpoint all_digits (s : string) : bool :=
  match s with EmptyString => true | String c s' => is_digit c && all_digits s' end.

Fixpoint digits_value (acc : Z) (s : string) : Z :=
  match s with EmptyString => acc | String c s' => digits_value (10 * acc + char_digit c)%Z s' end.

Definition stops_digits (s : string) : bool :=
  match s with EmptyString => true | String c _ => negb (is_digit c) end.

Lemma read_digits_app s : forall acc n r,
  all_digits s = true -> stops_digits r = true ->
  read_digits acc n (s ++ r) = (digits_value acc s, n + String.length s, r)%nat.
Proof.
  induction s as [|c s IH]; intros acc n r H R; cbn in *.
  - rewrite Nat.add_0_r. destruct r as [|c r]; cbn in *; [reflexivity|].
    destruct (is_digit c); [discriminate | reflexivity].
  - apply andb_true_iff in H. destruct H as [H1 H2]. rewrite H1, IH by assumption.
    f_equal. f_equal. lia.
Qed.

Lemma digits_value_app s t : forall acc, digits_value acc (s ++ t) = digits_value (digits_value acc s) t.
Proof. induction s as [|c s IH]; intros acc; cbn; [reflexivity | apply IH]. Qed.

Lemma all_digits_app s t : all_digits (s ++ t) = all_digits s && all_digits t.
Proof. induction s as [|c s IH]; cbn; [reflexivity | now rewrite IH, andb_assoc]. Qed.

Lemma length_append s t : String.length (s ++ t) = (String.length s + String.length t)%nat.
Proof. induction s as [|c s IH]; cbn; [reflexivity | now rewrite IH]. Qed.

Lemma digits_acc_spec f : forall n acc, (0 <= n < 10 ^ Z.of_nat f)%Z ->
  exists p, digits_acc f n acc = p ++ acc /\ all_digits p = true
            /\ (f <> O -> p <> EmptyString) /\ forall v, digits_value v p = (v * 10 ^ Z.of_nat (String.length p) + n)%Z.
Proof.
  induction f as [|f IH]; intros n acc H.
  { exists EmptyString. cbn in *. repeat split; [congruence|]. intros v. lia. }
  cbn [digits_acc]. pose proof (Z.div_mod n 10 ltac:(lia)) as E.
  pose proof (Z.mod_pos_bound n 10 ltac:(lia)) as B.
  destruct (digit_char_spec (n mod 10)%Z B) as [D V].
  destruct (Z.eqb_spec (n / 10)%Z 0) as [Z|N].
  - exists (String (digit_char (n mod 10)%Z) EmptyString).
    cbn [all_digits digits_value String.length append]. rewrite D, V. repeat split; [congruence|].
    intros v. lia.
  - rewrite Nat2Z.inj_succ, Z.pow_succ_r in H by lia.
    destruct (IH (n / 10)%Z (String (digit_char (n mod 10)%Z) acc)) as (p & Hp & Ha & _ & Hv).
    { split; [apply Z.div_pos; lia | apply Z.div_lt_upper_bound; lia]. }
    exists (p ++ String (digit_char (n mod 10)%Z) EmptyString).
    rewrite Hp, append_assoc. split; [reflexivity|]. split.
    { rewrite all_digits_app, Ha. cbn [all_digits]. now rewrite D. }
    split. { intros _. destruct p; discriminate. }
    intros v. rewrite digits_value_app, Hv, length_append. cbn [digits_value String.length].
    rewrite V, Nat2Z.inj_add. change (Z.of_nat 1) with 1%Z. rewrite Z.pow_add_r by lia. lia.
Qed.

(** A printed number is a non-empty digit string with that value. *)
Lemma print_nat_spec n : (0 <= n)%Z ->
  all_digits (print_nat n) = true /\ print_nat n <> EmptyString /\ digits_value 0 (print_nat n) = n.
Proof.
  intros H. unfold print_nat.
  destruct (digits_acc_spec (S (Z.to_nat (Z.log2 n))) n EmptyString) as (p & E & A & N & V).
  - split; [exact H|]. rewrite Nat2Z.inj_succ, Z2Nat.id by apply Z.log2_nonneg.
    destruct (Z.eq_dec n 0) as [->|]; [reflexivity|].
    apply Z.lt_le_trans with (2 ^ Z.succ (Z.log2 n))%Z; [apply Z.log2_spec; lia|].
    apply Z.pow_le_mono_l. lia.
  - rewrite E, append_nil_r. repeat split; [exact A | apply N; discriminate |]. rewrite V. lia.
Qed.

Lemma print_fixed_spec k : forall n, (0 <= n < 10 ^ Z.of_nat k)%Z ->
  all_digits (print_fixed k n) = true /\ String.length (print_fixed k n) = k
  /\ forall v, digits_value v (print_fixed k n) = (v * 10 ^ Z.of_nat k + n)%Z.
Proof.
  induction k as [|k IH]; intros n H; cbn [print_fixed].
  { cbn in *. repeat split. intros v. lia. }
  rewrite Nat2Z.inj_succ, Z.pow_succ_r in H by lia.
  pose proof (Z.div_mod n 10 ltac:(lia)) as E. pose proof (Z.mod_pos_bound n 10 ltac:(lia)) as B.
  destruct (digit_char_spec (n mod 10)%Z B) as [D V].
  destruct (IH (n / 10)%Z) as (A & L & W).
  { split; [apply Z.div_pos; lia | apply Z.div_lt_upper_bound; lia]. }
  rewrite all_digits_app, A, length_append, L. cbn [all_digits String.length]. rewrite D. repeat split; [lia|].
  intros v. rewrite digits_value_app, W. cbn [digits_value]. rewrite V.
  rewrite Nat2Z.inj_succ, Z.pow_succ_r by lia. lia.
Qed.

(** Stripping the trailing zeros of a digit string divides its value. *)
Lemma rstrip_zeros_spec s : all_digits s = true ->
  exists k, all_digits (rstrip_by (fun c => Ascii.eqb c "0"%char) s) = true
    /\ String.length s = (String.length (rstrip_by (fun c => Ascii.eqb c "0"%char) s) + k)%nat
    /\ forall v, digits_value v s
         = (digits_value v (rstrip_by (fun c => Ascii.eqb c "0"%char) s) * 10 ^ Z.of_nat k)%Z.
Proof.
  induction s as [|c s IH]; intros H; cbn [all_digits] in H.
  { exists O. cbn. repeat split. intros v. lia. }
  apply andb_true_iff in H. destruct H as [Hc Hs]. destruct (IH Hs) as (k & A & L & V).
  cbn [rstrip_by]. destruct (rstrip_by _ s) as [|d r] eqn:E.
  - destruct (Ascii.eqb_spec c "0"%char) as [->|N].
    + exists (S k). cbn [all_digits digits_value String.length] in *. repeat split; [lia|]. intros v.
      rewrite V. cbn [digits_value]. rewrite Nat2Z.inj_succ, Z.pow_succ_r by lia.
      change (char_digit "0") with 0%Z. lia.
    + exists k. cbn [all_digits digits_value String.length] in *. rewrite Hc. repeat split; [lia|].
      intros v. rewrite V. reflexivity.
  - exists k. cbn [all_digits digits_value String.length] in *. rewrite Hc. repeat split; [exact A | lia |].
    intros v. rewrite V. reflexivity.
Qed.

(** ** Text without blanks or underscores is kept by the readers *)

Fixpoint all_chars (p : ascii -> bool) (s : string) : bool :=
  match s with EmptyString => true | String c s' => p c && all_chars p s' end.

Definition no_blank : string -> bool := all_chars (fun c => negb (is_space c)).

Lemma all_chars_app p s t : all_chars p (s ++ t) = all_chars p s && all_chars p t.
Proof. induction s as [|c s IH]; cbn; [reflexivity | now rewrite IH, andb_assoc]. Qed.

Lemma all_chars_impl (p q : ascii -> bool) s :
  (forall c, p c = true -> q c = true) -> all_chars p s = true -> all_chars q s = true.
Proof.
  intros I. induction s as [|c s IH]; cbn; [reflexivity|]. intros H.
  apply andb_true_iff in H. destruct H. now rewrite (I c), IH.
Qed.

Lemma all_digits_chars s : all_digits s = all_chars is_digit s.
Proof. induction s as [|c s IH]; cbn; [reflexivity | now rewrite IH]. Qed.

Lemma rstrip_no_blank s : no_blank s = true -> rstrip_by is_space s = s.
Proof.
  unfold no_blank. induction s as [|c s IH]; cbn; [reflexivity|]. intros H.
  apply andb_true_iff in H. destruct H as [H1 H2]. rewrite (IH H2).
  apply negb_true_iff in H1. destruct s; [now rewrite H1 | reflexivity].
Qed.

Lemma strip_no_blank s : no_blank s = true -> strip s = s.
Proof.
  intros H. unfold strip. replace (lstrip_by is_space s) with s; [apply rstrip_no_blank, H|].
  unfold no_blank in H. destruct s as [|c s]; cbn in *; [reflexivity|].
  apply andb_true_iff in H. destruct H as [H _]. apply negb_true_iff in H. now rewrite H.
Qed.

Lemma is_digit_not_space c : is_digit c = true -> negb (is_space c) = true.
Proof. destruct c as [[] [] [] [] [] [] [] []]; vm_compute; congruence. Qed.

Lemma digits_no_blank s : all_digits s = true -> no_blank s = true.
Proof. rewrite all_digits_chars. apply all_chars_impl, is_digit_not_space. Qed.

(** ** [strip] is idempotent, and survives maps that create no white space *)

Definition first_ok (p : ascii -> bool) (s : string) : bool :=
  match s with String c _ => negb (p c) | EmptyString => true end.

Lemma lstrip_first_ok p s : first_ok p (lstrip_by p s) = true.
Proof. induction s as [|c s IH]; [reflexivity|]. cbn. destruct (p c) eqn:E; [exact IH | cbn; now rewrite E]. Qed.

Lemma lstrip_id p s : first_ok p s = true -> lstrip_by p s = s.
Proof. destruct s as [|c s]; [reflexivity|]. cbn. now destruct (p c). Qed.

Lemma rstrip_first_ok p s : first_ok p s = true -> first_ok p (rstrip_by p s) = true.
Proof. destruct s as [|c s]; [reflexivity|]. cbn. destruct (rstrip_by p s); [|trivial]. destruct (p c) eqn:E; [discriminate | cbn; now rewrite E]. Qed.

Lemma rstrip_idem p s : rstrip_by p (rstrip_by p s) = rstrip_by p s.
Proof.
  induction s as [|c s IH]; [reflexivity|]. cbn [rstrip_by]. destruct (rstrip_by p s) as [|d r] eqn:E.
  - destruct (p c) eqn:P; [reflexivity|]. cbn. now rewrite P.
  - cbn [rstrip_by] in *. now rewrite IH.
Qed.

Lemma strip_idem s : strip (strip s) = strip s.
Proof.
  unfold strip at 1. rewrite lstrip_id by apply rstrip_first_ok, lstrip_first_ok. apply rstrip_idem.
Qed.

Lemma strip_tight s : strip s = s -> first_ok is_space s = true /\ rstrip_by is_space s = s.
Proof.
  intros H. assert (F : first_ok is_space s = true).
  { rewrite <- H. apply rstrip_first_ok, lstrip_first_ok. }
  split; [exact F|]. unfold strip in H. now rewrite lstrip_id in H.
Qed.

Lemma smap_tight p f s : (forall c, p (f c) = true -> p c = true) ->
  first_ok p s = true -> rstrip_by p s = s -> first_ok p (smap f s) = true /\ rstrip_by p (smap f s) = smap f s.
Proof.
  intros Hf F R. split.
  - destruct s as [|c s]; [reflexivity|]. cbn in *. specialize (Hf c). destruct (p (f c)); [|reflexivity].
    now rewrite Hf in F.
  - clear F. induction s as [|c s IH]; [reflexivity|]. cbn [rstrip_by smap] in *.
    destruct (rstrip_by p s) as [|d r] eqn:E.
    + destruct (p c) eqn:P; [discriminate|]. injection R as <-. cbn. specialize (Hf c).
      destruct (p (f c)); [|reflexivity]. now rewrite Hf in P.
    + injection R as <-. rewrite IH by reflexivity. reflexivity.
Qed.

Lemma strip_smap f s : (forall c, is_space (f c) = true -> is_space c = true) ->
  strip s = s -> strip (smap f s) = smap f s.
Proof.
  intros Hf H. destruct (strip_tight s H) as [F R]. destruct (smap_tight is_space f s Hf F R) as [F' R'].
  unfold strip. now rewrite (lstrip_id _ _ F').
Qed.

Lemma smap_smap f g s : smap f (smap g s) = smap (fun c => f (g c)) s.
Proof. induction s as [|c s IH]; [reflexivity|]. cbn. now rewrite IH. Qed.

Lemma smap_ext f g s : (forall c, f c = g c) -> smap f s = smap g s.
Proof. intros H. induction s as [|c s IH]; [reflexivity|]. cbn. now rewrite H, IH. Qed.
