(* ===== verification/Utils.v ===== *)
(** [deribit_engine/utils.py]: the decimal helpers every other module sizes and
    prices orders with (grids, steps, gcd and lcm, order alignment), the decimal
    text format of the state files, and the time helpers. *)

From S2P Require Import Prelude Dec PyStr.
Local Open Scope Q_scope.
Local Open Scope dec_scope.
Local Open Scope bool_scope.

(** ** Steps *)

Definition floor_to_step (value step : Q) : Q :=
  if step <=? 0 then value
  else let units := to_integral_down (value ⊘ step) in units ⊗ step.

Definition ceil_to_step (value step : Q) : Q :=
  if step <=? 0 then value
  else let units := to_integral_up (value ⊘ step) in units ⊗ step.

(** ** Greatest common divisor and least common multiple *)

Section Gcd.
Local Open Scope outcome_scope.

(** The [while b != 0] loop of [decimal_gcd]. *)
Fixpoint gcd_loop (fuel : nat) (a b : Q) : outcome Q :=
  match fuel with
  | O => OutOfFuel
  | S f =>
      if b =? 0 then Ret a
      else match dmod a b with
           | Some r => gcd_loop f b r
           | None => Exn InvalidOperation
           end
  end.

(** Every iteration at least halves the product of the operands, so this
    covers operands of 28 digits each. *)
Definition gcd_fuel : nat := 200.

Definition decimal_gcd (a b : Q) : outcome Q :=
  let a := dabs a in
  let b := dabs b in
  if a =? 0 then Ret b
  else if b =? 0 then Ret a
  else gcd_loop gcd_fuel a b.

Definition decimal_lcm (a b : Q) : outcome Q :=
  if (a <=? 0) && (b <=? 0) then Ret 0.01
  else if a <=? 0 then Ret b
  else if b <=? 0 then Ret a
  else let! g := decimal_gcd a b in
       if g =? 0 then Ret (dmax a b) else Ret (dabs (a ⊗ b) ⊘ g).

Definition positive_or_cent (q : Q) : Q := if 0 <? q then q else 0.01.

Definition option_spread_amount_step (contract_size_short contract_size_long : Q) : outcome Q :=
  decimal_lcm (positive_or_cent contract_size_short) (positive_or_cent contract_size_long).

Definition option_spread_min_valid_quantity
    (contract_size_short contract_size_long min_trade_short min_trade_long : Q) : outcome Q :=
  let cs_s := positive_or_cent contract_size_short in
  let cs_l := positive_or_cent contract_size_long in
  let! step := decimal_lcm cs_s cs_l in
  let min_s := if 0 <? min_trade_short then ceil_to_step min_trade_short cs_s else cs_s in
  let min_l := if 0 <? min_trade_long then ceil_to_step min_trade_long cs_l else cs_l in
  let need := dmax min_s min_l in
  Ret (ceil_to_step need step).
End Gcd.

(** ** Order amounts *)

(** The smaller positive one of the contract size and the minimum amount, or 0. *)
Definition order_amount_step (contract_size min_trade_amount : Q) : Q :=
  match filter (fun v => 0 <? v) [contract_size; min_trade_amount] with
  | [] => 0
  | [a] => a
  | a :: b :: _ => dmin a b
  end.

Definition align_option_order_amount (amount contract_size min_trade_amount : Q) : Q :=
  let step := order_amount_step contract_size min_trade_amount in
  if step <=? 0 then (if 0 <? amount then amount else 0)
  else
    let aligned := floor_to_step amount step in
    if aligned <=? 0 then 0
    else if (0 <? min_trade_amount) && (aligned <? min_trade_amount) then 0
    else aligned.

Definition ceil_option_order_amount
    (amount contract_size min_trade_amount : Q) (cap : option Q) : Q :=
  if amount <=? 0 then 0
  else if (0 <? min_trade_amount) && (amount <? min_trade_amount) then 0
  else
    let step := order_amount_step contract_size min_trade_amount in
    let aligned := if 0 <? step then ceil_to_step amount step else amount in
    let aligned :=
      match cap with
      | Some cap =>
          if (0 <? cap) && (cap <? aligned)
          then (if 0 <? step then floor_to_step cap step else cap)
          else aligned
      | None => aligned
      end in
    if (0 <? min_trade_amount) && (aligned <? min_trade_amount) then 0
    else aligned.

Definition safe_div (numerator denominator default : Q) : Q :=
  if denominator =? 0 then default else numerator ⊘ denominator.

(** ** Decimal text *)

(** [str.rstrip] of a fraction's zeros. *)
Definition is_zero_char (c : ascii) : bool := Ascii.eqb c "0"%char.

(** The text of a finite value: [quantize] truncates to [places] decimals and
    raises when the result needs more than [prec] digits; the trailing zeros go,
    and a negative value keeps its sign even when every kept digit is zero. *)
Definition decimal_text (value : Q) (places : nat) : outcome string :=
  let z := Z.abs (trunc (value * p10 (Z.of_nat places))) in
  if (10 ^ prec <=? z)%Z then Exn InvalidOperation
  else
    let unit := (10 ^ Z.of_nat places)%Z in
    let frac := rstrip_by is_zero_char (print_fixed places (z mod unit)) in
    let sign := if value <? 0 then "-"%string else EmptyString in
    let int := print_nat (z / unit) in
    Ret (sign ++ int ++ (if is_empty frac then EmptyString else "." ++ frac))%string.

Definition format_decimal (value : option Q) (places : nat) : outcome (option string) :=
  match value with
  | None => Ret None
  | Some v => (let! t := decimal_text v places in Ret (Some t))%outcome
  end.

(** A decimal literal: sign, digits with an optional point, an optional
    exponent. The special values ([NaN], [Infinity]) are not modelled. *)
Definition parse_exponent (s : string) : option Z :=
  match s with
  | EmptyString => Some 0%Z
  | String e s' =>
      if (Ascii.eqb e "e"%char || Ascii.eqb e "E"%char) then
        let '(neg, s'') := match s' with
                           | String c t => if Ascii.eqb c "-"%char then (true, t)
                                           else if Ascii.eqb c "+"%char then (false, t) else (false, s')
                           | EmptyString => (false, s')
                           end in
        match read_digits 0 0 s'' with
        | (v, n, EmptyString) => if (n =? 0)%nat then None else Some (if neg : bool then (- v)%Z else v)
        | _ => None
        end
      else None
  end.

Definition parse_unsigned (s : string) : option Q :=
  let '(int, n1, r1) := read_digits 0 0 s in
  let '(mant, n2, r2) := match r1 with
                         | String c t => if Ascii.eqb c "."%char then read_digits int 0 t else (int, O, r1)
                         | EmptyString => (int, O, r1)
                         end in
  if (n1 + n2 =? 0)%nat then None
  else match parse_exponent r2 with
       | Some e => Some (Qred (inject_Z mant * p10 (e - Z.of_nat n2)))
       | None => None
       end.

Fixpoint remove_underscores (s : string) : string :=
  match s with
  | EmptyString => EmptyString
  | String c s' => if Ascii.eqb c "_"%char then remove_underscores s' else String c (remove_underscores s')
  end.

Definition parse_decimal (s : string) : option Q :=
  match remove_underscores (strip s) with
  | String c t =>
      if Ascii.eqb c "-"%char then option_map Qopp (parse_unsigned t)
      else if Ascii.eqb c "+"%char then parse_unsigned t
      else parse_unsigned (String c t)
  | EmptyString => None
  end.

(** ** Time *)

(** [dte_days(expiry_ms, now)]: the clock [now] has microsecond resolution. *)
Definition dte_days (expiry_ms : option Z) (now_us : Z) : Q :=
  match expiry_ms with
  | None => 0
  | Some ms => ((ms * 1000 - now_us) # 1000000) ⊘ 86400
  end.

Fixpoint split_on (sep : ascii) (s : string) (cur : string) : list string :=
  match s with
  | EmptyString => [cur]
  | String c s' =>
      if Ascii.eqb c sep then cur :: split_on sep s' EmptyString
      else split_on sep s' (cur ++ String c EmptyString)
  end.

Definition parse_csv (value : option string) (up : bool) : list string :=
  match value with
  | None => []
  | Some v =>
      if is_empty v then []
      else map (fun item => if up then upper item else item)
             (filter truthy (map strip (split_on ","%char v EmptyString)))
  end.

Example fmt1 : decimal_text 0.1234567891 8 = Ret "0.12345678"%string.
Proof. vm_compute. reflexivity. Qed.
Example fmt2 : decimal_text (-(1#1000000000)) 8 = Ret "-0"%string.
Proof. vm_compute. reflexivity. Qed.
Example fmt3 : decimal_text 1200 8 = Ret "1200"%string.
Proof. vm_compute. reflexivity. Qed.
Example parse1 : parse_decimal "-1.50e-3 " = Some (-3 # 2000).
Proof. vm_compute. reflexivity. Qed.
Example gcd1 : decimal_lcm 0.1 0.25 = Ret (1 # 2).
Proof. vm_compute. reflexivity. Qed.
Example csv1 : parse_csv (Some "btc, eth,,"%string) true = ["BTC"%string; "ETH"%string].
Proof. vm_compute. reflexivity. Qed.
Example floor1 : floor_to_step 0.37 0.1 = 0.3.
Proof. vm_compute. reflexivity. Qed.
Example floor_bad : floor_to_step 8.999999999999999999999999999 4.5 = 9.
Proof. vm_compute. reflexivity. Qed.

#[export] Instance floor_to_step_Proper : Proper (Qeq ==> Qeq ==> Qeq) floor_to_step.
Proof.
  intros x y H a b K. unfold floor_to_step. rewrite K.
  destruct (dleb b 0); [exact H|]. cbn zeta. now rewrite (ddiv_Proper _ _ H _ _ K), K.
Qed.

#[export] Instance ceil_to_step_Proper : Proper (Qeq ==> Qeq ==> Qeq) ceil_to_step.
Proof.
  intros x y H a b K. unfold ceil_to_step. rewrite K.
  destruct (dleb b 0); [exact H|]. cbn zeta. now rewrite (ddiv_Proper _ _ H _ _ K), K.
Qed.

(** ** Values on a decimal grid

    [on_grid e n q]: [q] is a non-negative multiple of [10^e] with at most [n] as
    the multiplier, the form of every amount, price and step of the exchange. *)

Definition gval (e z : Z) : Q := (inject_Z z * p10 e)%Q.

Definition on_grid (e n : Z) (q : Q) : Prop :=
  exists z, (0 <= z <= n)%Z /\ (q == gval e z)%Q.

(** The largest multiplier the step functions are exact for. *)
Definition grid_max : Z := 10 ^ 27.

Section Grid.
Local Open Scope Q_scope.

Lemma inject_Z_pos z : (0 < z)%Z -> 0 < inject_Z z.
Proof. intros H. change 0 with (inject_Z 0). rewrite <- Zlt_Qlt. exact H. Qed.

Lemma inject_Z_nonneg z : (0 <= z)%Z -> 0 <= inject_Z z.
Proof. intros H. change 0 with (inject_Z 0). rewrite <- Zle_Qle. exact H. Qed.

Lemma grid_representable z e : (Z.abs z <= 10 ^ prec)%Z -> representable (inject_Z z * p10 e).
Proof. intros H. exists z, e. split; [exact H | reflexivity]. Qed.

Lemma grid_div v s e : ~ inject_Z s == 0 ->
  (inject_Z v * p10 e) / (inject_Z s * p10 e) == inject_Z v / inject_Z s.
Proof. intros H. pose proof (p10_nonzero e). field. split; assumption. Qed.

Lemma Zdiv_bounds v s : (0 < s)%Z ->
  inject_Z (v / s) * inject_Z s <= inject_Z v /\ inject_Z v <= inject_Z (v / s + 1) * inject_Z s - 1.
Proof.
  intros H. rewrite <- !inject_Z_mult. unfold Qminus. change 1 with (inject_Z 1). rewrite <- inject_Z_opp, <- inject_Z_plus, <- !Zle_Qle.
  pose proof (Z.div_mod v s ltac:(lia)). pose proof (Z.mod_pos_bound v s H). lia.
Qed.

(** The relative error of a rounding is below half of [10^-27]. *)
Lemma rnd_rel_error q : 0 < q -> Qabs (rnd q - q) * inject_Z (2 * grid_max) <= q.
Proof.
  intros P. pose proof (rnd_error q ltac:(lra)) as H.
  destruct (mag_spec (Qabs q)) as [L _]; [apply Qabs_pos_nz; lra|].
  assert (A : Qabs q == q) by (apply Qabs_pos; lra).
  assert (E : p10 (mag (Qabs q)) == p10 (ulp_exp q) * inject_Z grid_max).
  { unfold grid_max. rewrite <- p10_Z, <- p10_plus by (vm_compute; discriminate).
    unfold ulp_exp, prec. replace (mag (Qabs q) - (28 - 1) + 27)%Z with (mag (Qabs q)) by lia. reflexivity. }
  rewrite inject_Z_mult. change (inject_Z 2) with 2. rewrite E, A in L.
  assert (G : 0 < inject_Z grid_max) by reflexivity.
  apply Qle_trans with ((1 # 2) * p10 (ulp_exp q) * (2 * inject_Z grid_max)).
  - apply Qmult_le_compat_r; lra.
  - setoid_replace ((1 # 2) * p10 (ulp_exp q) * (2 * inject_Z grid_max))
      with (p10 (ulp_exp q) * inject_Z grid_max) by ring. exact L.
Qed.
End Grid.

Section StepRounding.
Local Open Scope Q_scope.
Variables v s : Z.
Hypothesis Hv : (0 <= v)%Z.
Hypothesis Hs : (0 < s)%Z.
Hypothesis Hmax : (v <= grid_max)%Z.

Local Abbreviation q := (inject_Z v / inject_Z s).

Lemma step_q_nonneg : 0 <= q.
Proof. apply Qle_shift_div_l; [apply inject_Z_pos, Hs | rewrite Qmult_0_l; apply inject_Z_nonneg, Hv]. Qed.

Lemma step_q_mul : q * inject_Z s == inject_Z v.
Proof. pose proof (inject_Z_pos s Hs). field. lra. Qed.

(** The rounded quotient stays within one part in [s] of the exact one. *)
Lemma step_error : Qabs (rnd q - q) * inject_Z s <= 1 # 2.
Proof.
  pose proof step_q_nonneg as P. pose proof (inject_Z_pos s Hs) as S.
  destruct (Qle_lt_or_eq _ _ P) as [Q|Z].
  - pose proof (rnd_rel_error q Q) as R. pose proof step_q_mul as M.
    assert (G : inject_Z v <= inject_Z grid_max) by (rewrite <- Zle_Qle; exact Hmax).
    rewrite inject_Z_mult in R. change (inject_Z 2) with 2 in R.
    set (x := Qabs (rnd q - q)) in *. assert (0 <= x) by apply Qabs_nonneg.
    assert (G0 : 0 < inject_Z grid_max) by reflexivity.
    (* x * 2 * gm * s <= q * s = v <= gm *)
    assert (x * (2 * inject_Z grid_max) * inject_Z s <= inject_Z grid_max).
    { apply Qle_trans with (q * inject_Z s); [apply Qmult_le_compat_r; lra | lra]. }
    apply (Qmult_le_r _ _ (2 * inject_Z grid_max)); [lra|].
    setoid_replace (x * inject_Z s * (2 * inject_Z grid_max))
      with (x * (2 * inject_Z grid_max) * inject_Z s) by ring. lra.
  - rewrite (rnd_0 q) by lra. rewrite <- Z. change (Qabs (0 - 0)) with 0. lra.
Qed.

Lemma step_q_near n : inject_Z n * inject_Z s <= inject_Z v - 1 -> inject_Z n < rnd q.
Proof.
  intros H. pose proof step_error as E. pose proof step_q_mul as M. pose proof (inject_Z_pos s Hs) as S.
  apply (Qmult_lt_r _ _ (inject_Z s) S).
  assert (A : - Qabs (rnd q - q) * inject_Z s <= (rnd q - q) * inject_Z s).
  { apply Qmult_le_compat_r; [|lra]. pose proof (Qle_Qabs (- (rnd q - q))) as K. rewrite Qabs_opp in K. lra. }
  lra.
Qed.

Lemma step_q_below n : inject_Z v <= inject_Z n * inject_Z s - 1 -> rnd q < inject_Z n.
Proof.
  intros H. pose proof step_error as E. pose proof step_q_mul as M. pose proof (inject_Z_pos s Hs) as S.
  apply (Qmult_lt_r _ _ (inject_Z s) S).
  assert (A : (rnd q - q) * inject_Z s <= Qabs (rnd q - q) * inject_Z s)
    by (apply Qmult_le_compat_r; [apply Qle_Qabs | lra]).
  lra.
Qed.

Lemma small_representable n : (0 <= n <= grid_max)%Z -> representable (inject_Z n).
Proof.
  intros H. apply representable_Z. rewrite Z.abs_eq by lia.
  apply Z.le_trans with grid_max; [lia | vm_compute; discriminate].
Qed.

Lemma quotient_small : (0 <= v / s <= grid_max)%Z.
Proof.
  split; [apply Z.div_pos; lia|]. apply Z.le_trans with v; [|exact Hmax].
  apply Z.div_le_upper_bound; nia.
Qed.

(** Rounding does not move a quotient across an integer. *)
Lemma floor_rnd : Qfloor (rnd q) = (v / s)%Z.
Proof.
  destruct (Zdiv_bounds v s Hs) as [B1 B2]. pose proof (inject_Z_pos s Hs) as S.
  assert (L : inject_Z (v / s) <= rnd q).
  { apply rnd_ge_bound; [apply small_representable, quotient_small|].
    apply Qle_shift_div_l; assumption. }
  pose proof (step_q_below _ B2) as U.
  pose proof (Qfloor_le (rnd q)) as F1. pose proof (Qlt_floor (rnd q)) as F2.
  assert (inject_Z (v / s) < inject_Z (Qfloor (rnd q) + 1)) by lra.
  assert (inject_Z (Qfloor (rnd q)) < inject_Z (v / s + 1)) by lra.
  rewrite <- !Zlt_Qlt in *. lia.
Qed.

Lemma trunc_nonneg x : 0 <= x -> trunc x = Qfloor x.
Proof.
  intros H. destruct x as [n d]. unfold trunc, Qfloor. cbn [Qnum Qden].
  apply Z.quot_div_nonneg; [unfold Qle in H; cbn in H; lia | lia].
Qed.

Lemma units_down : to_integral_down (rnd q) = inject_Z (v / s).
Proof.
  unfold to_integral_down. rewrite trunc_nonneg, floor_rnd; [reflexivity|].
  apply rnd_nonneg, step_q_nonneg.
Qed.

Lemma units_up : to_integral_up (rnd q) = inject_Z ((v + s - 1) / s).
Proof.
  unfold to_integral_up. pose proof (rnd_nonneg q step_q_nonneg) as P.
  destruct (dleb_spec 0 (rnd q)) as [_|N]; [|contradiction]. f_equal.
  destruct (Zdiv_bounds v s Hs) as [B1 B2]. pose proof (inject_Z_pos s Hs) as S.
  pose proof (Z.div_mod v s ltac:(lia)) as D. pose proof (Z.mod_pos_bound v s Hs) as M.
  destruct (Z.eq_dec (v mod s) 0) as [E|E].
  - (* an exact multiple *)
    replace ((v + s - 1) / s)%Z with (v / s)%Z
      by (rewrite E in D; apply Z.div_unique with (s - 1)%Z; lia).
    assert (Q : q == inject_Z (v / s)).
    { rewrite D at 1. rewrite E, Z.add_0_r, inject_Z_mult. field. lra. }
    assert (R : rnd q == inject_Z (v / s))
      by (rewrite Q; apply rnd_exact, small_representable, quotient_small).
    rewrite R. apply Qceiling_Z.
  - replace ((v + s - 1) / s)%Z with (v / s + 1)%Z
      by (apply Z.div_unique with (v mod s - 1)%Z; lia).
    assert (L : inject_Z (v / s) < rnd q).
    { apply step_q_near. rewrite <- inject_Z_mult. change 1 with (inject_Z 1).
      unfold Qminus. rewrite <- inject_Z_opp, <- inject_Z_plus, <- Zle_Qle. lia. }
    pose proof (step_q_below _ B2) as U.
    pose proof (Qle_ceiling (rnd q)) as F1. pose proof (Qceiling_lt (rnd q)) as F2.
    assert (inject_Z (v / s) < inject_Z (Qceiling (rnd q))) by lra.
    assert (inject_Z (Qceiling (rnd q) - 1) < inject_Z (v / s + 1)) by lra.
    rewrite <- !Zlt_Qlt in *. lia.
Qed.
End StepRounding.

Section StepExact.
Local Open Scope Q_scope.

Lemma floor_to_step_grid v s e : (0 <= v <= grid_max)%Z -> (0 < s)%Z ->
  floor_to_step (gval e v) (gval e s) == gval e (v / s * s).
Proof.
  intros Hv Hs. pose proof (inject_Z_pos s Hs). pose proof (p10_pos e).
  unfold floor_to_step, gval. destruct (dleb_spec (inject_Z s * p10 e) 0) as [C|_].
  { exfalso. assert (0 < inject_Z s * p10 e) by (apply Qmult_lt_0_compat; assumption). lra. }
  unfold ddiv. rewrite grid_div by lra. rewrite (units_down v s) by lia.
  unfold dmul. rewrite Qmult_assoc, <- inject_Z_mult. apply rnd_exact, grid_representable.
  pose proof (Z.mul_div_le v s Hs). pose proof (Z.div_pos v s ltac:(lia) Hs).
  rewrite Z.abs_eq by nia. apply Z.le_trans with grid_max; [lia | vm_compute; discriminate].
Qed.

Lemma ceil_to_step_grid v s e : (0 <= v)%Z -> (0 < s)%Z -> (v + s <= grid_max)%Z ->
  ceil_to_step (gval e v) (gval e s) == gval e ((v + s - 1) / s * s).
Proof.
  intros Hv Hs Hm. pose proof (inject_Z_pos s Hs). pose proof (p10_pos e).
  unfold ceil_to_step, gval. destruct (dleb_spec (inject_Z s * p10 e) 0) as [C|_].
  { exfalso. assert (0 < inject_Z s * p10 e) by (apply Qmult_lt_0_compat; assumption). lra. }
  unfold ddiv. rewrite grid_div by lra. rewrite (units_up v s) by lia.
  unfold dmul. rewrite Qmult_assoc, <- inject_Z_mult. apply rnd_exact, grid_representable.
  pose proof (Z.mul_div_le (v + s - 1) s Hs). pose proof (Z.div_pos (v + s - 1) s ltac:(lia) Hs).
  rewrite Z.abs_eq by nia. apply Z.le_trans with grid_max; [lia | vm_compute; discriminate].
Qed.
End StepExact.

(** ** Euclid's loop on a grid *)

Section GcdSpec.
Local Open Scope Q_scope.
Variable e : Z.

Local Abbreviation val := (gval e).

Lemma val_pos z : (0 < z)%Z -> 0 < val z.
Proof. intros H. apply Qmult_lt_0_compat; [apply inject_Z_pos, H | apply p10_pos]. Qed.

Lemma val_nonneg z : (0 <= z)%Z -> 0 <= val z.
Proof. intros H. apply Qmult_le_0_compat; [apply inject_Z_nonneg, H | apply Qlt_le_weak, p10_pos]. Qed.

Lemma val_le a b : val a <= val b <-> (a <= b)%Z.
Proof.
  unfold gval. rewrite Zle_Qle. split; intros H.
  - apply (p10_unscale_le _ _ e), H.
  - apply p10_scale_le, H.
Qed.

Lemma val_0 : val 0 == 0.
Proof. unfold gval. change (inject_Z 0) with 0. ring. Qed.

Lemma val_representable z : (0 <= z <= 10 ^ prec)%Z -> representable (val z).
Proof. intros H. apply grid_representable. rewrite Z.abs_eq by lia. lia. Qed.

Lemma grid_max_prec z : (0 <= z <= grid_max)%Z -> (0 <= z <= 10 ^ prec)%Z.
Proof. intros H. split; [lia|]. apply Z.le_trans with grid_max; [lia | vm_compute; discriminate]. Qed.

Lemma dmod_grid a b x y : x == val a -> y == val b -> (0 <= a <= grid_max)%Z -> (0 < b <= grid_max)%Z ->
  exists r, dmod x y = Some r /\ r == val (a mod b).
Proof.
  intros Ex Ey Ha Hb. unfold dmod. pose proof (val_pos b ltac:(lia)) as Pb.
  destruct (deqb_spec y 0) as [Z|_]; [lra|].
  assert (Q : x / y == inject_Z a / inject_Z b).
  { rewrite Ex, Ey. apply grid_div. pose proof (inject_Z_pos b ltac:(lia)). lra. }
  assert (P : 0 <= x / y).
  { rewrite Ex, Ey. apply Qle_shift_div_l; [exact Pb|]. rewrite Qmult_0_l. apply val_nonneg. lia. }
  assert (T : trunc (x / y) = (a / b)%Z).
  { rewrite trunc_nonneg by exact P. rewrite Q. symmetry. apply Zdiv_Qdiv. }
  rewrite T. pose proof (quotient_small a b ltac:(lia) ltac:(lia) ltac:(lia)) as S.
  replace (Z.abs (a / b) <? 10 ^ prec)%Z with true.
  2:{ symmetry. apply Z.ltb_lt. rewrite Z.abs_eq by lia. apply Z.le_lt_trans with grid_max; [lia | reflexivity]. }
  eexists. split; [reflexivity|].
  assert (E : x - y * inject_Z (a / b) == val (a mod b)).
  { rewrite Ex, Ey. unfold gval. rewrite Z.mod_eq by lia. inj. ring. }
  rewrite E. apply rnd_exact, val_representable, grid_max_prec.
  pose proof (Z.mod_pos_bound a b ltac:(lia)). lia.
Qed.

Lemma gcd_loop_spec f : forall a b x y, x == val a -> y == val b ->
  (0 < a <= grid_max)%Z -> (0 <= b <= a)%Z -> (a * b < 2 ^ Z.of_nat f)%Z ->
  exists g, gcd_loop (S f) x y = Ret g /\ g == val (Z.gcd a b).
Proof.
  induction f as [|f IH]; intros a b x y Ex Ey Ha Hb Hf; cbn [gcd_loop].
  - assert (b = 0)%Z as -> by (cbn in Hf; nia).
    destruct (deqb_spec y 0) as [_|N]; [|exfalso; apply N; rewrite Ey; apply val_0].
    exists x. split; [reflexivity|]. rewrite Z.gcd_0_r, Z.abs_eq by lia. exact Ex.
  - destruct (Z.eq_dec b 0) as [->|Nb].
    { destruct (deqb_spec y 0) as [_|N]; [|exfalso; apply N; rewrite Ey; apply val_0].
      exists x. split; [reflexivity|]. rewrite Z.gcd_0_r, Z.abs_eq by lia. exact Ex. }
    destruct (deqb_spec y 0) as [C|_]; [pose proof (val_pos b ltac:(lia)); lra|].
    destruct (dmod_grid a b x y Ex Ey ltac:(lia) ltac:(lia)) as (r & -> & Er).
    pose proof (Z.mod_pos_bound a b ltac:(lia)). pose proof (Z.div_mod a b ltac:(lia)).
    assert (Hq : (1 <= a / b)%Z) by (apply Z.div_le_lower_bound; lia).
    rewrite Nat2Z.inj_succ, Z.pow_succ_r in Hf by lia.
    destruct (IH b (a mod b)%Z y r Ey Er) as (g & Hg & Eg); [lia | lia | nia |].
    exists g. split; [exact Hg|]. rewrite Eg, (Z.gcd_comm b), Z.gcd_mod, (Z.gcd_comm b) by lia. reflexivity.
Qed.

Lemma dabs_val z x : x == val z -> (0 <= z <= 10 ^ prec)%Z -> dabs x == val z.
Proof.
  intros E H. unfold dabs. rewrite E, Qabs_pos by (apply val_nonneg; lia).
  apply rnd_exact, val_representable, H.
Qed.

Lemma grid_product a b : (0 <= a <= grid_max)%Z -> (0 <= b <= grid_max)%Z -> (a * b < 2 ^ Z.of_nat 198)%Z.
Proof.
  intros Ha Hb. apply Z.le_lt_trans with (grid_max * grid_max)%Z; [nia | reflexivity].
Qed.

(** On a common grid the loop terminates within its fuel, never raises, and
    returns the greatest common divisor. *)
Lemma decimal_gcd_grid a b x y : x == val a -> y == val b ->
  (0 <= a <= grid_max)%Z -> (0 <= b <= grid_max)%Z ->
  exists g, decimal_gcd x y = Ret g /\ g == val (Z.gcd a b).
Proof.
  intros Ex Ey Ha Hb. unfold decimal_gcd.
  pose proof (dabs_val a x Ex (grid_max_prec a Ha)) as Ax.
  pose proof (dabs_val b y Ey (grid_max_prec b Hb)) as Ay.
  pose proof (grid_product a b Ha Hb) as Hp.
  set (x' := dabs x) in *. set (y' := dabs y) in *. clearbody x' y'.
  destruct (deqb_spec x' 0) as [Zx|Nx].
  { assert (a = 0)%Z as -> by (apply Z.le_antisymm; [|lia]; apply val_le; rewrite <- Ax, Zx, val_0; lra).
    exists y'. split; [reflexivity|]. rewrite Z.gcd_0_l, Z.abs_eq by lia. exact Ay. }
  destruct (deqb_spec y' 0) as [Zy|Ny].
  { assert (b = 0)%Z as -> by (apply Z.le_antisymm; [|lia]; apply val_le; rewrite <- Ay, Zy, val_0; lra).
    exists x'. split; [reflexivity|]. rewrite Z.gcd_0_r, Z.abs_eq by lia. exact Ax. }
  assert (a <> 0)%Z by (intros ->; apply Nx; rewrite Ax; apply val_0).
  assert (b <> 0)%Z by (intros ->; apply Ny; rewrite Ay; apply val_0).
  destruct (Z.le_gt_cases b a) as [L|L].
  - apply (gcd_loop_spec 199 a b); auto; [lia | lia |].
    apply Z.lt_le_trans with (2 ^ Z.of_nat 198)%Z; [exact Hp | vm_compute; discriminate].
  - (* the first iteration swaps the operands *)
    unfold gcd_fuel. cbn [gcd_loop]. destruct (deqb_spec y' 0) as [C|_]; [contradiction|].
    destruct (dmod_grid a b x' y' Ax Ay ltac:(lia) ltac:(lia)) as (r & -> & Er).
    rewrite Z.mod_small in Er by lia. rewrite Z.gcd_comm.
    apply (gcd_loop_spec 198 b a); auto; [lia | lia | nia].
Qed.
End GcdSpec.

Section LcmSpec.
Local Open Scope Q_scope.

Lemma decimal_lcm_grid e a b x y : x == gval e a -> y == gval e b ->
  (0 < a)%Z -> (0 < b)%Z -> (a * b <= grid_max)%Z ->
  exists l, decimal_lcm x y = Ret l /\ l == gval e (Z.lcm a b).
Proof.
  intros Ex Ey Ha Hb Hab. unfold decimal_lcm.
  pose proof (val_pos e a Ha) as Pa. pose proof (val_pos e b Hb) as Pb.
  destruct (dleb_spec x 0) as [C|_]; [lra|]. destruct (dleb_spec y 0) as [C|_]; [lra|]. cbn [andb].
  destruct (decimal_gcd_grid e a b x y Ex Ey) as (g & Hg & Eg); [nia | nia |].
  rewrite Hg. cbn [obind].
  assert (G : (0 < Z.gcd a b)%Z).
  { pose proof (Z.gcd_nonneg a b). destruct (Z.eq_dec (Z.gcd a b) 0) as [K|]; [|lia].
    apply Z.gcd_eq_0 in K. lia. }
  pose proof (val_pos e _ G) as Pg.
  destruct (deqb_spec g 0) as [C|_]; [lra|]. eexists. split; [reflexivity|].
  destruct (Z.gcd_divide_l a b) as [a' Ea]. destruct (Z.gcd_divide_r a b) as [b' Eb].
  assert (L : Z.lcm a b = (a' * b' * Z.gcd a b)%Z).
  { unfold Z.lcm. rewrite Eb at 1. rewrite Z.div_mul by lia. rewrite Ea at 1. nia. }
  assert (M : dabs (dmul x y) == gval (e + e) (a * b)).
  { unfold dmul. assert (E : x * y == gval (e + e) (a * b)).
    { rewrite Ex, Ey. unfold gval. rewrite inject_Z_mult, p10_plus. ring. }
    apply dabs_val; [|apply grid_max_prec; nia].
    rewrite E. apply rnd_exact, val_representable, grid_max_prec. nia. }
  unfold ddiv. rewrite M, Eg.
  assert (D : gval (e + e) (a * b) / (gval e (Z.gcd a b))
              == gval e (Z.lcm a b)).
  { rewrite L. replace (a * b)%Z with (a' * b' * Z.gcd a b * Z.gcd a b)%Z by nia.
    unfold gval. rewrite p10_plus, !inject_Z_mult. pose proof (p10_pos e). pose proof (inject_Z_pos _ G).
    field. lra. }
  rewrite D. apply rnd_exact, val_representable, grid_max_prec.
  split; [apply Z.lcm_nonneg|]. rewrite L.
  assert (0 < a' * b')%Z by nia. nia.
Qed.
End LcmSpec.

(** ** What the step functions and the order sizes guarantee *)

(** [q] is a whole number of steps. *)
Definition multiple_of (step q : Q) : Prop := exists k : Z, (q == inject_Z k * step)%Q.

Section OrderAmounts.
Local Open Scope Q_scope.
Variable e : Z.
Local Abbreviation val := (gval e).

Lemma val_lt a b : val a < val b <-> (a < b)%Z.
Proof.
  split; intros H.
  - destruct (Z.lt_ge_cases a b) as [L|L]; [exact L|]. rewrite <- (val_le e) in L. lra.
  - apply Qnot_le_lt. intros C. rewrite val_le in C. lia.
Qed.

Lemma val_multiple s k : (0 < s)%Z -> multiple_of (val s) (val k) <-> (s | k)%Z.
Proof.
  intros Hs. split.
  - intros (m & Hm). exists m. unfold gval in Hm.
    assert (E : val k == val (m * s)) by (unfold gval; rewrite Hm; inj; ring).
    apply Z.le_antisymm; apply (val_le e); lra.
  - intros (m & ->). exists m. unfold gval. inj. ring.
Qed.

(** The largest multiple of [s] not above [v]. *)
Lemma floor_to_step_val v s x y : x == val v -> y == val s -> (0 <= v <= grid_max)%Z -> (0 < s)%Z ->
  floor_to_step x y == val (v / s * s).
Proof.
  intros Ex Ey Hv Hs. rewrite Ex, Ey. apply floor_to_step_grid; assumption.
Qed.

Lemma ceil_to_step_val v s x y : x == val v -> y == val s -> (0 <= v)%Z -> (0 < s)%Z ->
  (v + s <= grid_max)%Z -> ceil_to_step x y == val ((v + s - 1) / s * s).
Proof.
  intros Ex Ey Hv Hs Hm. rewrite Ex, Ey. apply ceil_to_step_grid; assumption.
Qed.

Lemma order_amount_step_val c m x y : x == val c -> y == val m -> (0 < c)%Z -> (0 < m)%Z ->
  order_amount_step x y == val (Z.min c m).
Proof.
  intros Ex Ey Hc Hm. unfold order_amount_step. cbn [filter].
  pose proof (val_pos e c Hc). pose proof (val_pos e m Hm).
  destruct (dltb_spec 0 x); [|lra]. destruct (dltb_spec 0 y); [|lra].
  destruct (dmin_cases x y) as [[-> H1]|[-> H1]].
  - rewrite Ex, Ey in H1. rewrite val_le in H1. rewrite Z.min_l by exact H1. exact Ex.
  - rewrite Ex, Ey in H1. rewrite val_lt in H1. rewrite Z.min_r by lia. exact Ey.
Qed.

Lemma floor_multiple_le v s : (0 < s)%Z -> (0 <= v)%Z ->
  (s | v / s * s)%Z /\ (0 <= v / s * s <= v)%Z /\ forall k, (s | k)%Z -> (k <= v)%Z -> (k <= v / s * s)%Z.
Proof.
  intros Hs Hv. split; [exists (v / s)%Z; reflexivity|]. split.
  - pose proof (Z.mul_div_le v s Hs). pose proof (Z.div_pos v s Hv Hs). nia.
  - intros k (m & ->) H. apply Z.mul_le_mono_nonneg_r; [lia|]. apply Z.div_le_lower_bound; lia.
Qed.

Lemma ceil_multiple_ge v s : (0 < s)%Z -> (0 <= v)%Z ->
  (s | (v + s - 1) / s * s)%Z /\ (v <= (v + s - 1) / s * s < v + s)%Z
  /\ forall k, (s | k)%Z -> (v <= k)%Z -> ((v + s - 1) / s * s <= k)%Z.
Proof.
  intros Hs Hv. split; [exists ((v + s - 1) / s)%Z; reflexivity|].
  pose proof (Z.div_mod (v + s - 1) s ltac:(lia)). pose proof (Z.mod_pos_bound (v + s - 1) s Hs).
  split; [lia|]. intros k (m & ->) K. apply Z.mul_le_mono_nonneg_r; [lia|].
  enough ((v + s - 1) / s < m + 1)%Z by lia. apply Z.div_lt_upper_bound; lia.
Qed.
End OrderAmounts.

(** ** Exact arithmetic on grids

    A sum, difference or product of grid values whose multiplier fits the
    precision is not rounded. *)

Section ExactGrid.
Local Open Scope Q_scope.

Lemma gval_eq e a b : a = b -> gval e a == gval e b.
Proof. intros ->. reflexivity. Qed.

Lemma gval_mul e f a b : gval e a * gval f b == gval (e + f) (a * b).
Proof. unfold gval. rewrite p10_plus. inj. ring. Qed.

Lemma gval_add e a b : gval e a + gval e b == gval e (a + b).
Proof. unfold gval. inj. ring. Qed.

Lemma gval_sub e a b : gval e a - gval e b == gval e (a - b).
Proof. unfold gval. inj. ring. Qed.

(** The same value on a grid finer by [k] digits. *)
Lemma gval_refine e k a : (0 <= k)%Z -> gval e a == gval (e - k) (a * 10 ^ k).
Proof.
  intros H. unfold gval. rewrite inject_Z_mult, <- p10_Z by exact H.
  rewrite <- Qmult_assoc, <- p10_plus. rewrite (Z.add_comm k), Z.sub_add. reflexivity.
Qed.

Lemma gval_representable e a : (Z.abs a <= 10 ^ prec)%Z -> representable (gval e a).
Proof. apply grid_representable. Qed.

Lemma dmul_gval e f a b x y : x == gval e a -> y == gval f b -> (Z.abs (a * b) <= 10 ^ prec)%Z ->
  x ⊗ y == gval (e + f) (a * b).
Proof.
  intros Ex Ey H. rewrite Ex, Ey. unfold dmul. rewrite gval_mul. apply rnd_exact, gval_representable, H.
Qed.

Lemma dadd_gval e a b x y : x == gval e a -> y == gval e b -> (Z.abs (a + b) <= 10 ^ prec)%Z ->
  x ⊕ y == gval e (a + b).
Proof.
  intros Ex Ey H. rewrite Ex, Ey. unfold dadd. rewrite gval_add. apply rnd_exact, gval_representable, H.
Qed.

Lemma dsub_gval e a b x y : x == gval e a -> y == gval e b -> (Z.abs (a - b) <= 10 ^ prec)%Z ->
  x ⊖ y == gval e (a - b).
Proof.
  intros Ex Ey H. rewrite Ex, Ey. unfold dsub. rewrite gval_sub. apply rnd_exact, gval_representable, H.
Qed.

(** A quotient that is a grid value is exact. *)
Lemma ddiv_exact e a x y : ~ y == 0 -> x == gval e a * y -> (Z.abs a <= 10 ^ prec)%Z ->
  x ⊘ y == gval e a.
Proof.
  intros N E H. unfold ddiv. rewrite E.
  setoid_replace (gval e a * y / y) with (gval e a) by (field; exact N).
  apply rnd_exact, gval_representable, H.
Qed.

Lemma dmin_gval e a b x y : x == gval e a -> y == gval e b -> dmin x y == gval e (Z.min a b).
Proof.
  intros Ex Ey. destruct (dmin_cases x y) as [[-> H]|[-> H]]; rewrite Ex, Ey in H.
  - rewrite val_le in H. rewrite Z.min_l by exact H. exact Ex.
  - rewrite val_lt in H. rewrite Z.min_r by lia. exact Ey.
Qed.

Lemma dmax_gval e a b x y : x == gval e a -> y == gval e b -> dmax x y == gval e (Z.max a b).
Proof.
  intros Ex Ey. destruct (dmax_cases x y) as [[-> H]|[-> H]]; rewrite Ex, Ey in H.
  - rewrite val_le in H. rewrite Z.max_l by exact H. exact Ex.
  - rewrite val_lt in H. rewrite Z.max_r by lia. exact Ey.
Qed.
End ExactGrid.

Lemma align_largest e v c m amount cs mn :
  (amount == gval e v)%Q -> (cs == gval e c)%Q -> (mn == gval e m)%Q ->
  (0 <= v <= grid_max)%Z -> (0 < c)%Z -> (0 < m)%Z ->
  let step := order_amount_step cs mn in
  let r := align_option_order_amount amount cs mn in
  ((r == 0)%Q \/ (multiple_of step r /\ mn <= r /\ r <= amount)%Q) /\
  (forall k, multiple_of step (gval e k) -> (mn <= gval e k)%Q -> (gval e k <= amount)%Q -> (gval e k <= r)%Q).
Proof.
  intros Ea Ec Em Hv Hc Hm step r.
  pose proof (order_amount_step_val e c m cs mn Ec Em Hc Hm) as Es. fold step in Es.
  set (s := Z.min c m) in *. assert (Hs : (0 < s)%Z) by lia.
  pose proof (floor_to_step_val e v s amount step Ea Es Hv Hs) as Ef.
  destruct (floor_multiple_le v s Hs ltac:(lia)) as (Fd & Fb & Fmax).
  set (f := (v / s * s)%Z) in *.
  pose proof (val_pos e s Hs) as Ps. pose proof (val_pos e m Hm) as Pm.
  assert (Max : forall k, multiple_of step (gval e k) -> (gval e k <= amount)%Q -> (k <= f)%Z).
  { intros k (j & Hj) Hk. apply Fmax; [|rewrite Ea in Hk; apply val_le in Hk; exact Hk].
    apply (val_multiple e s k Hs). exists j. rewrite <- Es. exact Hj. }
  unfold r, align_option_order_amount. fold step.
  destruct (dleb_spec step 0) as [C|_]; [lra|].
  destruct (dleb_spec (floor_to_step amount step) 0) as [Z|P].
  { split; [left; reflexivity|]. intros k K1 K2 K3. pose proof (Max k K1 K3) as H.
    rewrite <- (val_le e) in H. rewrite Em in K2. lra. }
  destruct (dltb_spec 0 mn) as [_|C]; [|lra]. cbn [andb].
  destruct (dltb_spec (floor_to_step amount step) mn) as [S|S].
  - split; [left; reflexivity|]. intros k K1 K2 K3. pose proof (Max k K1 K3) as H.
    rewrite <- (val_le e) in H. lra.
  - split.
    + right. split; [|split; [lra|]].
      * destruct Fd as (j & Hj). exists j. rewrite Ef, Es, Hj. unfold gval. inj. ring.
      * rewrite Ef, Ea. apply val_le. lia.
    + intros k K1 K2 K3. pose proof (Max k K1 K3) as H. rewrite <- (val_le e) in H. lra.
Qed.

(** [align_option_order_amount] returns the largest amount the exchange
    accepts within the requested one: when it returns a non-zero amount, that
    amount is a whole number of steps, reaches the minimum trade size and does
    not exceed the request; and every such amount is at most the result. *)
Theorem align_option_order_amount_largest e v c m amount cs mn :
  (amount == gval e v)%Q -> (cs == gval e c)%Q -> (mn == gval e m)%Q ->
  (0 <= v <= grid_max)%Z -> (0 < c)%Z -> (0 < m)%Z ->
  let step := order_amount_step cs mn in
  let r := align_option_order_amount amount cs mn in
  ((r == 0)%Q \/ (multiple_of step r /\ mn <= r /\ r <= amount)%Q) /\
  (forall k, multiple_of step (gval e k) -> (mn <= gval e k)%Q -> (gval e k <= amount)%Q -> (gval e k <= r)%Q).
Proof. exact (align_largest e v c m amount cs mn). Qed.

Lemma align_option_order_amount_witness :
  let r := align_option_order_amount 0.37 0.1 0.1 in (r == 0.3)%Q /\
  forall k, multiple_of (order_amount_step 0.1 0.1) (gval (-2) k) -> (0.1 <= gval (-2) k)%Q ->
            (gval (-2) k <= 0.37)%Q -> (gval (-2) k <= r)%Q.
Proof.
  split; [reflexivity|].
  exact (proj2 (align_option_order_amount_largest (-2) 37 10 10 0.37 0.1 0.1
           eq_refl eq_refl eq_refl ltac:(unfold grid_max; lia) ltac:(lia) ltac:(lia))).
Defined.

Lemma multiple_val e s k step : (step == gval e s)%Q -> (0 < s)%Z -> (s | k)%Z -> multiple_of step (gval e k).
Proof.
  intros Es Hs H. apply (val_multiple e s k Hs) in H. destruct H as (j & Hj). exists j. now rewrite Es.
Qed.

(** [ceil_option_order_amount] rounds an amount up to the exchange grid: the
    result is zero or a whole number of steps that reaches the minimum trade
    size and never exceeds a positive cap; dust below the minimum is omitted;
    and when neither limit bites, the result covers the requested amount by
    less than one step. *)
Theorem ceil_option_order_amount_spec e v c m p amount cs mn cap :
  (amount == gval e v)%Q -> (cs == gval e c)%Q -> (mn == gval e m)%Q -> (cap == gval e p)%Q ->
  (0 <= v)%Z -> (0 < c)%Z -> (0 < m)%Z -> (0 < p <= grid_max)%Z -> (v + c + m <= grid_max)%Z ->
  let step := order_amount_step cs mn in
  let r := ceil_option_order_amount amount cs mn (Some cap) in
  ((r == 0)%Q \/ (multiple_of step r /\ mn <= r /\ r <= cap)%Q) /\
  ((amount < mn)%Q -> (r == 0)%Q) /\
  ((mn <= amount)%Q -> (amount + step <= cap)%Q -> (amount <= r /\ r < amount + step)%Q).
Proof.
  intros Ea Ec Em Ep Hv Hc Hm Hp Hb step r.
  pose proof (order_amount_step_val e c m cs mn Ec Em Hc Hm) as Es. fold step in Es.
  set (s := Z.min c m) in *. assert (Hs : (0 < s)%Z) by lia.
  pose proof (val_pos e s Hs) as Ps. pose proof (val_pos e m Hm) as Pm. pose proof (val_pos e p ltac:(lia)) as Pp.
  pose proof (ceil_to_step_val e v s amount step Ea Es Hv Hs ltac:(lia)) as Eu.
  destruct (ceil_multiple_ge v s Hs Hv) as (Ud & Ub & _). set (u := ((v + s - 1) / s * s)%Z) in *.
  pose proof (floor_to_step_val e p s cap step Ep Es ltac:(lia) Hs) as Ef.
  destruct (floor_multiple_le p s Hs ltac:(lia)) as (Fd & Fb & _). set (f := (p / s * s)%Z) in *.
  unfold r, ceil_option_order_amount. fold step.
  destruct (dleb_spec amount 0) as [Z|P].
  { split; [left; reflexivity|]. split; [reflexivity|]. intros H. lra. }
  destruct (dltb_spec 0 mn) as [_|C]; [|lra]. cbn [andb].
  destruct (dltb_spec amount mn) as [D|D].
  { split; [left; reflexivity|]. split; [reflexivity|]. intros H. lra. }
  destruct (dltb_spec 0 step) as [_|C]; [|lra].
  destruct (dltb_spec 0 cap) as [_|C]; [|lra]. cbn [andb].
  assert (Uv : (gval e u <= amount + step)%Q).
  { rewrite Ea, Es. unfold gval. rewrite <- Qmult_plus_distr_l, <- inject_Z_plus. apply p10_scale_le.
    rewrite <- Zle_Qle. lia. }
  assert (Us : (gval e u < amount + step)%Q).
  { rewrite Ea, Es. unfold gval. rewrite <- Qmult_plus_distr_l, <- inject_Z_plus.
    apply Qmult_lt_r; [apply p10_pos|]. rewrite <- Zlt_Qlt. lia. }
  assert (Av : (amount <= gval e u)%Q) by (rewrite Ea; apply val_le; lia).
  set (aligned := if (cap <? ceil_to_step amount step)%dec then floor_to_step cap step else ceil_to_step amount step).
  assert (A : exists k, (aligned == gval e k)%Q /\ (s | k)%Z /\ (gval e k <= cap)%Q /\
              ((amount + step <= cap)%Q -> k = u)).
  { unfold aligned. destruct (dltb_spec cap (ceil_to_step amount step)) as [H|H].
    - exists f. rewrite Ef. repeat split; [exact Fd | rewrite Ep; apply val_le; lia |]. intros K. lra.
    - exists u. rewrite Eu. repeat split; [exact Ud | lra]. }
  destruct A as (k & Ek & Kd & Kc & Ku). clearbody aligned.
  destruct (dltb_spec aligned mn) as [S|S].
  - split; [left; reflexivity|]. split; [reflexivity|]. intros _ K. rewrite (Ku K) in Ek. lra.
  - split; [|split; [intros; lra|]].
    + right. destruct (multiple_val e s k step Es Hs Kd) as (j & Hj). split; [exists j; lra | lra].
    + intros _ K. rewrite (Ku K) in Ek. lra.
Qed.

Lemma ceil_option_order_amount_witness :
  (ceil_option_order_amount 0.43 0.1 0.1 (Some 2) == 0.5)%Q /\
  (0.43 <= ceil_option_order_amount 0.43 0.1 0.1 (Some 2) < 0.43 + order_amount_step 0.1 0.1)%Q.
Proof.
  split; [reflexivity|].
  refine (proj2 (proj2 (ceil_option_order_amount_spec (-2) 43 10 10 200 0.43 0.1 0.1 2
           eq_refl eq_refl eq_refl eq_refl _ _ _ _ _)) _ _); try (unfold grid_max; lia);
    vm_compute; discriminate.
Defined.

(** [option_spread_min_valid_quantity] terminates without raising and is the
    smallest quantity that is a whole number of contracts on both legs and
    reaches both legs' minimum trade sizes. *)
Theorem option_spread_min_valid_quantity_least e a b m n cs_short cs_long min_short min_long :
  (cs_short == gval e a)%Q -> (cs_long == gval e b)%Q ->
  (min_short == gval e m)%Q -> (min_long == gval e n)%Q ->
  (0 < a)%Z -> (0 < b)%Z -> (0 < m)%Z -> (0 < n)%Z -> (a * b + m + n + a + b <= grid_max)%Z ->
  exists r, option_spread_min_valid_quantity cs_short cs_long min_short min_long = Ret r /\
    multiple_of cs_short r /\ multiple_of cs_long r /\ (min_short <= r)%Q /\ (min_long <= r)%Q /\
    (forall k, multiple_of cs_short (gval e k) -> multiple_of cs_long (gval e k) ->
               (min_short <= gval e k)%Q -> (min_long <= gval e k)%Q -> (r <= gval e k)%Q).
Proof.
  intros Ea Eb Em En Ha Hb Hm Hn Hg.
  pose proof (val_pos e a Ha). pose proof (val_pos e b Hb). pose proof (val_pos e m Hm). pose proof (val_pos e n Hn).
  unfold option_spread_min_valid_quantity, positive_or_cent.
  destruct (dltb_spec 0 cs_short); [|lra]. destruct (dltb_spec 0 cs_long); [|lra].
  destruct (dltb_spec 0 min_short); [|lra]. destruct (dltb_spec 0 min_long); [|lra].
  destruct (decimal_lcm_grid e a b cs_short cs_long Ea Eb Ha Hb ltac:(nia)) as (l & -> & El). cbn [obind].
  assert (Hl : (0 < Z.lcm a b <= a * b)%Z).
  { pose proof (Z.lcm_nonneg a b). pose proof (Z.divide_lcm_l a b) as D.
    split; [destruct (Z.eq_dec (Z.lcm a b) 0) as [K|]; [apply Z.lcm_eq_0 in K; lia | lia]|].
    apply Z.divide_pos_le; [nia|]. apply Z.lcm_least; [exists b; lia | exists a; lia]. }
  set (L := Z.lcm a b) in *.
  pose proof (ceil_to_step_val e m a min_short cs_short Em Ea ltac:(lia) Ha ltac:(nia)) as E1.
  pose proof (ceil_to_step_val e n b min_long cs_long En Eb ltac:(lia) Hb ltac:(nia)) as E2.
  destruct (ceil_multiple_ge m a Ha ltac:(lia)) as (D1 & B1 & M1). set (u1 := ((m + a - 1) / a * a)%Z) in *.
  destruct (ceil_multiple_ge n b Hb ltac:(lia)) as (D2 & B2 & M2). set (u2 := ((n + b - 1) / b * b)%Z) in *.
  set (need := dmax (ceil_to_step min_short cs_short) (ceil_to_step min_long cs_long)).
  assert (En' : (need == gval e (Z.max u1 u2))%Q).
  { unfold need. destruct (dmax_cases (ceil_to_step min_short cs_short) (ceil_to_step min_long cs_long)) as [[-> K]|[-> K]].
    - rewrite E1, E2, val_le in K. rewrite Z.max_l by exact K. exact E1.
    - rewrite E1, E2, val_lt in K. rewrite Z.max_r by lia. exact E2. }
  clearbody need. set (w := Z.max u1 u2) in *.
  pose proof (ceil_to_step_val e w L need l En' El ltac:(lia) ltac:(lia) ltac:(nia)) as E3.
  destruct (ceil_multiple_ge w L ltac:(lia) ltac:(lia)) as (D3 & B3 & M3). set (r := ((w + L - 1) / L * L)%Z) in *.
  exists (ceil_to_step need l). split; [reflexivity|].
  assert (Da : (a | r)%Z) by (apply Z.divide_trans with L; [apply Z.divide_lcm_l | exact D3]).
  assert (Db : (b | r)%Z) by (apply Z.divide_trans with L; [apply Z.divide_lcm_r | exact D3]).
  destruct (multiple_val e a r cs_short Ea Ha Da) as (j1 & J1). destruct (multiple_val e b r cs_long Eb Hb Db) as (j2 & J2).
  split; [exists j1; rewrite E3; exact J1|]. split; [exists j2; rewrite E3; exact J2|].
  assert (Lm : (m <= r)%Z) by lia. assert (Ln : (n <= r)%Z) by lia.
  rewrite <- (val_le e) in Lm, Ln. split; [lra|]. split; [lra|].
  intros k (k1 & K1) (k2 & K2) K3 K4. rewrite E3, val_le. rewrite Em, val_le in K3. rewrite En, val_le in K4.
  assert (Ka : (a | k)%Z) by (apply (val_multiple e a k Ha); exists k1; now rewrite <- Ea).
  assert (Kb : (b | k)%Z) by (apply (val_multiple e b k Hb); exists k2; now rewrite <- Eb).
  apply M3; [apply Z.lcm_least; assumption|]. pose proof (M1 k Ka K3). pose proof (M2 k Kb K4). lia.
Qed.

Lemma option_spread_min_valid_quantity_witness :
  exists r, option_spread_min_valid_quantity 0.1 0.25 0.3 0.25 = Ret r /\ multiple_of 0.1 r /\ multiple_of 0.25 r.
Proof.
  destruct (option_spread_min_valid_quantity_least (-2) 10 25 30 25 0.1 0.25 0.3 0.25
              eq_refl eq_refl eq_refl eq_refl ltac:(lia) ltac:(lia) ltac:(lia) ltac:(lia) ltac:(unfold grid_max; lia))
    as (r & H & A & B & _).
  exists r. split; [exact H | split; assumption].
Defined.

(** ** The decimal text round trip *)

Section TextRoundTrip.
Local Open Scope Q_scope.

Definition plain_char (c : ascii) : bool := negb (is_space c) && negb (Ascii.eqb c "_"%char).

Lemma remove_underscores_plain s : all_chars plain_char s = true -> remove_underscores s = s.
Proof.
  induction s as [|c s IH]; cbn; [reflexivity|]. intros H. apply andb_true_iff in H. destruct H as [H1 H2].
  apply andb_true_iff in H1. destruct H1 as [_ H1]. apply negb_true_iff in H1. now rewrite H1, IH.
Qed.

Lemma read_plain s : all_chars plain_char s = true -> remove_underscores (strip s) = s.
Proof.
  intros H. rewrite strip_no_blank; [apply remove_underscores_plain, H|].
  apply (all_chars_impl plain_char); [|exact H]. intros c Hc. apply andb_true_iff in Hc. tauto.
Qed.

Lemma digits_plain s : all_digits s = true -> all_chars plain_char s = true.
Proof.
  rewrite all_digits_chars. apply all_chars_impl.
  intros c. destruct c as [[] [] [] [] [] [] [] []]; vm_compute; congruence.
Qed.

(** Reading an integer part and an optional fraction. *)
Lemma parse_unsigned_text int frac :
  all_digits int = true -> int <> EmptyString -> all_digits frac = true ->
  parse_unsigned (int ++ (if is_empty frac then EmptyString else "." ++ frac))
  = Some (Qred (inject_Z (digits_value (digits_value 0 int) frac) * p10 (0 - Z.of_nat (String.length frac)))).
Proof.
  intros Hi Ni Hf. unfold parse_unsigned. rewrite read_digits_app; [|exact Hi | destruct frac; reflexivity].
  assert (L : String.length int <> O) by (destruct int; [congruence | discriminate]).
  destruct frac as [|c f]; cbn [is_empty append].
  - replace (0 + String.length int + 0 =? 0)%nat with false by (symmetry; apply Nat.eqb_neq; lia). reflexivity.
  - cbn [Ascii.eqb Bool.eqb]. set (fr := String c f) in *.
    replace fr with (fr ++ EmptyString)%string at 1 by apply append_nil_r.
    rewrite read_digits_app by (exact Hf || reflexivity).
    replace (0 + String.length int + (0 + String.length fr) =? 0)%nat with false
      by (symmetry; apply Nat.eqb_neq; lia).
    reflexivity.
Qed.

Lemma digit_not_sign c : is_digit c = true -> Ascii.eqb c "-"%char = false /\ Ascii.eqb c "+"%char = false.
Proof. destruct c as [[] [] [] [] [] [] [] []]; vm_compute; split; congruence. Qed.

Lemma first_digit_not_sign c s : is_digit c = true ->
  (if Ascii.eqb c "-"%char then option_map Qopp (parse_unsigned s)
   else if Ascii.eqb c "+"%char then parse_unsigned s
   else parse_unsigned (String c s)) = parse_unsigned (String c s).
Proof. intros H. destruct (digit_not_sign c H) as [-> ->]. reflexivity. Qed.

Lemma parse_decimal_signed (neg : bool) int frac :
  all_digits int = true -> int <> EmptyString -> all_digits frac = true ->
  parse_decimal ((if neg then "-" else EmptyString) ++ int ++ (if is_empty frac then EmptyString else "." ++ frac))
  = option_map (fun q => if neg then - q else q)
      (parse_unsigned (int ++ (if is_empty frac then EmptyString else "." ++ frac))).
Proof.
  intros Hi Ni Hf. set (body := (int ++ _)%string).
  assert (B : all_chars plain_char body = true).
  { unfold body. rewrite all_chars_app, digits_plain by exact Hi.
    destruct frac; cbn [is_empty]; [reflexivity|]. rewrite all_chars_app, (digits_plain _ Hf). reflexivity. }
  unfold parse_decimal. rewrite read_plain.
  2:{ rewrite all_chars_app, B. now destruct neg. }
  destruct neg; cbn [append].
  - change (Ascii.eqb "-" "-") with true. cbn [option_map]. now destruct (parse_unsigned body).
  - unfold body. destruct int as [|c i]; [congruence|]. cbn [append]. rewrite first_digit_not_sign.
    + now destruct (parse_unsigned _).
    + cbn [all_digits] in Hi. apply andb_true_iff in Hi. tauto.
Qed.

Lemma trunc_opp q : trunc (- q) = (- trunc q)%Z.
Proof. destruct q as [n d]. unfold trunc, Qopp. cbn [Qnum Qden]. apply Z.quot_opp_l. discriminate. Qed.

Lemma trunc_sign q : inject_Z (trunc q) == (if (q <? 0)%dec then - inject_Z (Z.abs (trunc q)) else inject_Z (Z.abs (trunc q))).
Proof.
  destruct (dltb_spec q 0) as [N|P].
  - assert (T : (0 <= trunc (- q))%Z).
    { rewrite trunc_nonneg by lra. apply (Qfloor_resp_le 0). lra. }
    rewrite trunc_opp in T. rewrite Z.abs_neq by lia. inj. lra.
  - assert (T : (0 <= trunc q)%Z) by (rewrite trunc_nonneg by lra; apply (Qfloor_resp_le 0); lra).
    rewrite Z.abs_eq by lia. reflexivity.
Qed.

Lemma mul_p10_sign q k : (q * p10 k <? 0)%dec = (q <? 0)%dec.
Proof.
  pose proof (p10_pos k). destruct (dltb_spec q 0) as [H1|H1].
  - apply dltb_true. setoid_replace 0 with (0 * p10 k) by lra. apply Qmult_lt_r; assumption.
  - apply dltb_false. apply Qmult_le_0_compat; lra.
Qed.

Lemma decimal_text_value v places t :
  decimal_text v places = Ret t ->
  exists q, parse_decimal t = Some q /\
    q == inject_Z (trunc (v * p10 (Z.of_nat places))) * p10 (- Z.of_nat places).
Proof.
  unfold decimal_text. set (x := v * p10 (Z.of_nat places)). set (z := Z.abs (trunc x)).
  set (unit := (10 ^ Z.of_nat places)%Z).
  destruct (10 ^ prec <=? z)%Z; [discriminate|]. intros E. injection E as <-.
  assert (Hu : (0 < unit)%Z) by (apply Z.pow_pos_nonneg; lia).
  assert (Hz : (0 <= z)%Z) by apply Z.abs_nonneg.
  destruct (print_nat_spec (z / unit)) as (A1 & N1 & V1); [apply Z.div_pos; lia|].
  destruct (print_fixed_spec places (z mod unit)) as (A2 & L2 & V2); [apply Z.mod_pos_bound; exact Hu|].
  destruct (rstrip_zeros_spec _ A2) as (k & A3 & L3 & V3).
  change (fun c => Ascii.eqb c "0"%char) with is_zero_char in *.
  set (frac := rstrip_by is_zero_char (print_fixed places (z mod unit))) in *.
  rewrite parse_decimal_signed, parse_unsigned_text by assumption. cbn [option_map].
  eexists. split; [reflexivity|].
  assert (W : inject_Z (digits_value (digits_value 0 (print_nat (z / unit))) frac)
              * p10 (0 - Z.of_nat (String.length frac)) == inject_Z z * p10 (- Z.of_nat places)).
  { rewrite V1. pose proof (V3 (z / unit)%Z) as V. rewrite V2 in V. fold unit in V.
    pose proof (Z.div_mod z unit ltac:(lia)) as D.
    replace z with (digits_value (z / unit) frac * 10 ^ Z.of_nat k)%Z at 2 by lia.
    rewrite inject_Z_mult, <- p10_Z, <- Qmult_assoc, <- p10_plus by lia.
    replace (Z.of_nat k + - Z.of_nat places)%Z with (0 - Z.of_nat (String.length frac))%Z by lia. reflexivity. }
  assert (S : (v <? 0)%dec = (x <? 0)%dec) by (symmetry; apply mul_p10_sign).
  assert (R : (if (v <? 0)%dec then
                 - Qred (inject_Z (digits_value (digits_value 0 (print_nat (z / unit))) frac)
                         * p10 (0 - Z.of_nat (String.length frac)))
               else Qred (inject_Z (digits_value (digits_value 0 (print_nat (z / unit))) frac)
                         * p10 (0 - Z.of_nat (String.length frac))))
              == inject_Z (trunc x) * p10 (- Z.of_nat places)).
  { rewrite S, (trunc_sign x). fold z. destruct (dltb x 0); rewrite Qred_correct, W; ring. }
  exact R.
Qed.

Lemma trunc_Z z : trunc (inject_Z z) = z.
Proof. apply Z.quot_1_r. Qed.

Lemma trunc_eq x y : x == y -> trunc x = trunc y.
Proof.
  intros E. destruct (Qlt_le_dec x 0) as [N|P].
  - enough (H : trunc (- x) = trunc (- y)) by (rewrite !trunc_opp in H; lia).
    rewrite !trunc_nonneg by lra. now rewrite E.
  - rewrite !trunc_nonneg by lra. now rewrite E.
Qed.

(** Truncating to a grid keeps the values on it. *)
Lemma trunc_on_grid v k z : v == gval (- k) z -> gval (- k) (trunc (v * p10 k)) == v.
Proof.
  intros E. transitivity (gval (- k) z); [|symmetry; exact E]. apply gval_eq.
  transitivity (trunc (inject_Z z)); [|apply trunc_Z]. apply trunc_eq. rewrite E.
  unfold gval. rewrite <- Qmult_assoc, <- p10_plus, Z.add_opp_diag_l, p10_0. ring.
Qed.

(** The decimal text of a value reads back as the value truncated to
    [places] decimals, whatever its sign and size; the text of a value on the
    [places] grid reads back as the value itself. *)
Theorem decimal_text_round_trip v places t :
  decimal_text v places = Ret t ->
  exists q, parse_decimal t = Some q /\
    q == inject_Z (trunc (v * p10 (Z.of_nat places))) * p10 (- Z.of_nat places) /\
    (forall z, v == gval (- Z.of_nat places) z -> q == v).
Proof.
  intros H. destruct (decimal_text_value v places t H) as (q & Hp & Hq).
  exists q. split; [exact Hp|]. split; [exact Hq|]. intros z Hz. rewrite Hq.
  exact (trunc_on_grid v _ z Hz).
Qed.
End TextRoundTrip.

Lemma decimal_text_round_trip_witness :
  exists q, parse_decimal "-12.0345" = Some q /\ (q == -12.0345)%Q.
Proof.
  destruct (decimal_text_round_trip (-12.0345) 8 "-12.0345" eq_refl) as (q & H & _ & K).
  exists q. split; [exact H|]. apply (K (-1203450000)%Z). reflexivity.
Defined.
