(* ===== verification/Fees.v ===== *)
(** [deribit_engine/fees.py]: trading fees of linear and inverse options, the
    account discount, and the annualised returns the scanner ranks entries by. *)

From S2P Require Import Prelude Dec PyStr Utils.
Local Open Scope Q_scope.
Local Open Scope dec_scope.
Local Open Scope bool_scope.

Definition premium_value_native (premium quantity : Q) : Q := premium ⊗ quantity.

(** Quoted or settled in USDC: every amount is already in dollars. *)
Definition is_usdc (quote_currency settlement_currency : string) : bool :=
  String.eqb quote_currency "USDC" || String.eqb settlement_currency "USDC".

Definition premium_value_usdc (index_price premium quantity : Q)
    (base_currency quote_currency settlement_currency : string) : Q :=
  let gross := premium ⊗ quantity in
  if gross =? 0 then 0
  else if is_usdc quote_currency settlement_currency then gross
  else if String.eqb settlement_currency base_currency
          || mem_str quote_currency [EmptyString; base_currency]
  then gross ⊗ index_price
  else gross.

Definition apply_trading_fee_discount (fee fee_discount_rate : Q) : Q :=
  if (fee <=? 0) || (fee_discount_rate <=? 0) then fee
  else let discount := dmin (dmax fee_discount_rate 0) 1 in fee ⊗ (1 ⊖ discount).

Definition option_trade_fee_native (index_price premium quantity fee_rate fee_cap_rate : Q)
    (quote_currency settlement_currency : string) (fee_discount_rate : Q) : Q :=
  let fee :=
    if is_usdc quote_currency settlement_currency then
      let notional_fee := index_price ⊗ quantity ⊗ fee_rate in
      let premium_cap := premium ⊗ quantity ⊗ fee_cap_rate in
      dmin notional_fee premium_cap
    else
      let native_notional_fee := quantity ⊗ fee_rate in
      let native_premium_cap := premium ⊗ quantity ⊗ fee_cap_rate in
      dmin native_notional_fee native_premium_cap in
  apply_trading_fee_discount fee fee_discount_rate.

Definition option_trade_fee_usdc (index_price premium quantity fee_rate fee_cap_rate : Q)
    (base_currency quote_currency settlement_currency : string) (fee_discount_rate : Q) : Q :=
  let native_fee := option_trade_fee_native index_price premium quantity fee_rate fee_cap_rate
                      quote_currency settlement_currency fee_discount_rate in
  if is_usdc quote_currency settlement_currency then native_fee
  else native_fee ⊗ index_price.

Definition annualized_return (net_credit capital_base dte_days : Q) : Q :=
  if (net_credit =? 0) || (capital_base <=? 0) || (dte_days <=? 0) then 0
  else (net_credit ⊘ capital_base) ⊗ (365 ⊘ dte_days).

(** ** Inverse options: fees in the collateral coin *)

Definition inverse_option_fee_native_per_contract
    (premium fee_rate fee_cap_rate fee_discount_rate : Q) : Q :=
  let fee := dmin fee_rate (fee_cap_rate ⊗ premium) in
  apply_trading_fee_discount fee fee_discount_rate.

Definition inverse_option_fee_native_total
    (premium quantity fee_rate fee_cap_rate fee_discount_rate : Q) : Q :=
  if (quantity <=? 0) || (premium <=? 0) then 0
  else
    let per := inverse_option_fee_native_per_contract premium fee_rate fee_cap_rate fee_discount_rate in
    per ⊗ quantity.

Definition infer_inverse_short_close_premium_per_contract
    (total_debit_native quantity fee_rate fee_cap_rate : Q) : Q :=
  if (quantity <=? 0) || (total_debit_native <=? 0) then 0
  else
    let per_contract_debit := total_debit_native ⊘ quantity in
    let px_at_fee_rate := per_contract_debit ⊖ fee_rate in
    if (px_at_fee_rate >? 0) && (fee_cap_rate ⊗ px_at_fee_rate <=? fee_rate) then px_at_fee_rate
    else
      let denom := 1 ⊕ fee_cap_rate in
      if denom <=? 0 then 0
      else
        let px_at_fee_cap := per_contract_debit ⊘ denom in
        if (px_at_fee_cap >? 0) && (fee_cap_rate ⊗ px_at_fee_cap <=? fee_rate) then px_at_fee_cap
        else if px_at_fee_rate >? 0 then px_at_fee_rate else px_at_fee_cap.

Definition inverse_option_round_trip_fee_per_contract
    (premium fee_rate fee_cap_rate fee_discount_rate : Q) : Q :=
  let per_leg := inverse_option_fee_native_per_contract premium fee_rate fee_cap_rate fee_discount_rate in
  per_leg ⊗ 2.

Definition linear_usdc_option_round_trip_fee_per_contract
    (index_price premium fee_rate fee_cap_rate fee_discount_rate : Q) : Q :=
  let per_leg := option_trade_fee_native index_price premium 1 fee_rate fee_cap_rate
                   "USDC" "USDC" fee_discount_rate in
  per_leg ⊗ 2.

(** ** Annualised returns *)

Definition net_apr_inverse_short_per_contract
    (premium_per_contract contract_size dte_days fee_rate fee_cap_rate fee_discount_rate : Q) : Q :=
  if dte_days <=? 0 then 0
  else
    let round_trip_fee := inverse_option_round_trip_fee_per_contract
                            premium_per_contract fee_rate fee_cap_rate fee_discount_rate in
    let net_per := premium_per_contract ⊖ round_trip_fee in
    let capital := if contract_size >? 0 then contract_size else 1 in
    annualized_return net_per capital dte_days.

Definition net_apr_linear_usdc_short_put_per_contract
    (premium_per_contract strike dte_days index_price fee_rate fee_cap_rate fee_discount_rate : Q) : Q :=
  if (strike <=? 0) || (dte_days <=? 0) then 0
  else
    let round_trip_fee := linear_usdc_option_round_trip_fee_per_contract
                            index_price premium_per_contract fee_rate fee_cap_rate fee_discount_rate in
    let net := premium_per_contract ⊖ round_trip_fee in
    if net <=? 0 then 0 else (net ⊘ strike) ⊗ (365 ⊘ dte_days).

Definition net_apr_linear_usdc_short_call_per_contract
    (premium_per_contract index_price dte_days fee_rate fee_cap_rate fee_discount_rate : Q) : Q :=
  if (index_price <=? 0) || (dte_days <=? 0) then 0
  else
    let round_trip_fee := linear_usdc_option_round_trip_fee_per_contract
                            index_price premium_per_contract fee_rate fee_cap_rate fee_discount_rate in
    let net := premium_per_contract ⊖ round_trip_fee in
    if net <=? 0 then 0 else (net ⊘ index_price) ⊗ (365 ⊘ dte_days).

Definition net_apr_coin_short_put (premium_per_contract fee_per_contract dte_days : Q) : Q :=
  if dte_days <=? 0 then 0
  else
    let net_per := premium_per_contract ⊖ fee_per_contract in
    if net_per <=? 0 then 0 else net_per ⊗ (365 ⊘ dte_days).

Definition linear_usdc_short_put_apr_premium_over_strike (premium_per_contract strike dte_days : Q) : Q :=
  if (strike <=? 0) || (dte_days <=? 0) then 0
  else (premium_per_contract ⊘ strike) ⊗ (365 ⊘ dte_days).

Definition net_apr_coin_short_call (premium_per_contract fee_per_contract dte_days : Q) : Q :=
  if dte_days <=? 0 then 0
  else
    let net_per := premium_per_contract ⊖ fee_per_contract in
    if net_per <=? 0 then 0 else net_per ⊗ (365 ⊘ dte_days).

Definition linear_usdc_short_call_apr_premium_over_index (premium_per_contract index_price dte_days : Q) : Q :=
  if (index_price <=? 0) || (dte_days <=? 0) then 0
  else (premium_per_contract ⊘ index_price) ⊗ (365 ⊘ dte_days).

(** ** Fees are bounded *)

(** [1 - clamp(rate, 0, 1)]: a factor in [0, 1]. *)
Lemma discount_factor r : 0 <= 1 ⊖ dmin (dmax r 0) 1 /\ 1 ⊖ dmin (dmax r 0) 1 <= 1.
Proof.
  pose proof (dmin_r (dmax r 0) 1). pose proof (dmax_r r 0).
  assert (0 <= dmin (dmax r 0) 1) by (apply dmin_glb; lra).
  split; [apply dsub_nonneg; lra|]. unfold dsub. apply rnd_le_bound; [auto with engine | lra].
Qed.

Lemma discount_bounds fee r : representable fee -> 0 <= fee ->
  0 <= apply_trading_fee_discount fee r <= fee.
Proof.
  intros R F. unfold apply_trading_fee_discount. destruct (_ || _); [lra|].
  destruct (discount_factor r) as [A B]. cbn zeta. split; [auto with engine | apply dmul_le_l; assumption].
Qed.

Lemma discount_mono fee r s : representable fee -> r <= s ->
  apply_trading_fee_discount fee s <= apply_trading_fee_discount fee r.
Proof.
  intros R L. destruct (Qlt_le_dec 0 fee) as [F|F].
  2:{ unfold apply_trading_fee_discount. apply dleb_true in F. rewrite F. cbn. lra. }
  destruct (Qlt_le_dec 0 r) as [P|P].
  2:{ unfold apply_trading_fee_discount at 2. apply dleb_true in P. rewrite P, orb_true_r.
      apply discount_bounds; [exact R | lra]. }
  unfold apply_trading_fee_discount.
  replace (fee <=? 0) with false by (symmetry; apply dleb_false; lra).
  replace (r <=? 0) with false by (symmetry; apply dleb_false; lra).
  replace (s <=? 0) with false by (symmetry; apply dleb_false; lra). cbn [orb].
  destruct (discount_factor s). apply dmul_mono; try lra.
  apply dsub_mono; [lra|]. apply dmin_mono; [|lra]. apply dmax_mono; lra.
Qed.

Section TradeFee.
Variables index_price premium quantity fee_rate fee_cap_rate : Q.
Variables quote settlement : string.
Hypothesis Hindex : 0 <= index_price.
Hypothesis Hpremium : 0 <= premium.
Hypothesis Hquantity : 0 <= quantity.
Hypothesis Hrate : 0 <= fee_rate.
Hypothesis Hcap : 0 <= fee_cap_rate.

Local Abbreviation notional :=
  (if is_usdc quote settlement then index_price ⊗ quantity ⊗ fee_rate else quantity ⊗ fee_rate).
Local Abbreviation cap := (premium ⊗ quantity ⊗ fee_cap_rate).

Lemma trade_fee_unfold d : option_trade_fee_native index_price premium quantity fee_rate fee_cap_rate quote settlement d
  = apply_trading_fee_discount (dmin notional cap) d.
Proof. unfold option_trade_fee_native. now destruct (is_usdc quote settlement). Qed.

Lemma notional_fee_ok : 0 <= notional /\ representable notional.
Proof. destruct (is_usdc _ _); split; auto with engine; apply rnd_representable. Qed.

Lemma cap_fee_ok : 0 <= cap /\ representable cap.
Proof. split; auto with engine. apply rnd_representable. Qed.

Lemma base_fee_ok : 0 <= dmin notional cap /\ representable (dmin notional cap).
Proof.
  destruct notional_fee_ok, cap_fee_ok. split; [apply dmin_glb; assumption | apply representable_dmin; assumption].
Qed.
End TradeFee.

(** The fee of an option trade is never negative, never above the schedule
    (the rate on the notional, and the cap on the premium), equals the smaller of
    the two when the account has no discount, does not grow with the discount,
    and is zero from a discount of one on. *)
Theorem option_trade_fee_native_bounds
    index_price premium quantity fee_rate fee_cap_rate quote settlement d d' :
  0 <= index_price -> 0 <= premium -> 0 <= quantity -> 0 <= fee_rate -> 0 <= fee_cap_rate -> d <= d' ->
  let fee d := option_trade_fee_native index_price premium quantity fee_rate fee_cap_rate quote settlement d in
  let notional := if is_usdc quote settlement then index_price ⊗ quantity ⊗ fee_rate else quantity ⊗ fee_rate in
  let cap := premium ⊗ quantity ⊗ fee_cap_rate in
  0 <= fee d /\ fee d <= notional /\ fee d <= cap /\
  (d <= 0 -> fee d == Qmin notional cap) /\ fee d' <= fee d /\ (1 <= d -> fee d == 0).
Proof.
  intros H1 H2 H3 H4 H5 L fee notional cap. unfold fee. rewrite !trade_fee_unfold. fold notional cap.
  destruct (base_fee_ok index_price premium quantity fee_rate fee_cap_rate quote settlement) as [B R]; auto.
  fold notional cap in B, R. pose proof (discount_bounds _ d R B) as D.
  pose proof (dmin_l notional cap). pose proof (dmin_r notional cap).
  repeat split; try lra.
  - intros Z. unfold apply_trading_fee_discount. replace (d <=? 0) with true by (symmetry; apply dleb_true; lra).
    rewrite orb_true_r. destruct (dmin_cases notional cap) as [[-> C]|[-> C]].
    + symmetry. apply Q.min_l. exact C.
    + symmetry. apply Q.min_r. lra.
  - apply discount_mono; assumption.
  - intros Z. unfold apply_trading_fee_discount. destruct (dleb_spec (dmin notional cap) 0); [cbn [orb]; lra|].
    replace (d <=? 0) with false by (symmetry; apply dleb_false; lra). cbn [orb]. cbn zeta.
    assert (E : dmin (dmax d 0) 1 == 1).
    { pose proof (dmin_r (dmax d 0) 1). pose proof (dmax_l d 0).
      enough (1 <= dmin (dmax d 0) 1) by lra. apply dmin_glb; lra. }
    rewrite dmul_0_r; [reflexivity|]. unfold dsub. rewrite rnd_0 by lra. reflexivity.
Qed.

Lemma option_trade_fee_native_bounds_witness :
  0 <= option_trade_fee_native 60000 0.02 1.5 0.0003 0.125 "BTC" "BTC" 0.1
  /\ option_trade_fee_native 60000 0.02 1.5 0.0003 0.125 "BTC" "BTC" 0.1 = 81 # 200000.
Proof.
  split; [|vm_compute; reflexivity].
  apply (option_trade_fee_native_bounds 60000 0.02 1.5 0.0003 0.125 "BTC" "BTC" 0.1 0.1); vm_compute; discriminate.
Defined.

(** ** The two fee routines for inverse options *)

(** The discounted fee of a grid value, exactly. *)
Lemma discount_gval d k f fee x : x == gval f k -> fee == gval (-4) d -> (0 <= d <= 10 ^ 4)%Z ->
  (0 <= k)%Z -> (k * 10 ^ 4 <= 10 ^ prec)%Z ->
  apply_trading_fee_discount x fee == gval (f - 4) (k * (10 ^ 4 - d)).
Proof.
  intros Ex Ed Hd Hk Hm. unfold apply_trading_fee_discount.
  assert (Z4 : gval f k == gval (f - 4) (k * 10 ^ 4)) by (apply gval_refine; lia).
  destruct (dleb_spec x 0) as [N|N]; cbn [orb].
  { rewrite Ex, <- (val_0 f), val_le in N. replace k with 0%Z in * by lia. rewrite Ex, Z4. apply gval_eq. lia. }
  destruct (dleb_spec fee 0) as [D|D].
  { rewrite Ed, <- (val_0 (-4)), val_le in D. replace d with 0%Z in * by lia. rewrite Ex, Z4. apply gval_eq. lia. }
  cbn zeta. assert (One : 1 == gval (-4) (10 ^ 4)) by (vm_compute; reflexivity).
  assert (M : dmin (dmax fee 0) 1 == gval (-4) d).
  { rewrite (dmin_gval (-4) d (10 ^ 4)); [apply gval_eq; lia | | exact One].
    rewrite (dmax_gval (-4) d 0); [apply gval_eq; lia | exact Ed | vm_compute; reflexivity]. }
  apply dmul_gval; [exact Ex | | rewrite Z.abs_eq; nia].
  apply dsub_gval; [exact One | exact M |].
  rewrite Z.abs_eq by lia. apply Z.le_trans with (10 ^ 4)%Z; [lia | vm_compute; discriminate].
Qed.

(** The two routines that price the fee of an inverse option agree: the
    per-contract fee times the quantity (used by the coin ledger) is the trade
    fee of the whole order (used at execution), for premiums, quantities, caps
    and discounts of four decimals. *)
Theorem inverse_fee_total_agrees p q r c d index premium quantity rate cap disc base :
  premium == gval (-4) p -> quantity == gval (-4) q -> rate == gval (-8) r ->
  cap == gval (-4) c -> disc == gval (-4) d ->
  (0 < p)%Z -> (0 < q)%Z -> (0 <= r)%Z -> (0 <= c)%Z -> (0 <= d <= 10 ^ 4)%Z ->
  (p * q * c * 10 ^ 4 <= 10 ^ prec)%Z -> (q * r * 10 ^ 4 <= 10 ^ prec)%Z ->
  is_usdc base base = false ->
  inverse_option_fee_native_total premium quantity rate cap disc
  == option_trade_fee_native index premium quantity rate cap base base disc.
Proof.
  intros Ep Eq Er Ec Ed Hp Hq Hr Hc Hd M1 M2 U.
  unfold inverse_option_fee_native_total, inverse_option_fee_native_per_contract, option_trade_fee_native.
  rewrite U. pose proof (val_pos (-4) p Hp). pose proof (val_pos (-4) q Hq).
  replace (quantity <=? 0) with false by (symmetry; apply dleb_false; lra).
  replace (premium <=? 0) with false by (symmetry; apply dleb_false; lra). cbn [orb]. cbn zeta.
  set (M := (10 ^ prec)%Z) in *. assert (M0 : (0 < M)%Z) by reflexivity.
  assert (Pq : (0 < p * q)%Z) by nia. assert (Pqc : (0 <= p * q * c)%Z) by nia. assert (Cp : (0 <= c * p)%Z) by nia.
  assert (Qr : (0 <= q * r)%Z) by nia. assert (L1 : (c * p <= p * q * c)%Z) by nia.
  assert (F1 : dmin rate (cap ⊗ premium) == gval (-8) (Z.min r (c * p))).
  { apply dmin_gval; [exact Er|]. apply (dmul_gval (-4) (-4)); [exact Ec | exact Ep |]. fold M. lia. }
  assert (F2 : dmin (quantity ⊗ rate) (premium ⊗ quantity ⊗ cap) == gval (-12) (q * Z.min r (c * p))).
  { rewrite (dmin_gval (-12) (q * r) (p * q * c)).
    - apply gval_eq. nia.
    - apply (dmul_gval (-4) (-8)); [exact Eq | exact Er | fold M; lia].
    - destruct (Z.eq_dec c 0) as [->|C0].
      { rewrite dmul_0_r by (rewrite Ec; apply val_0). rewrite Z.mul_0_r. symmetry. apply val_0. }
      apply (dmul_gval (-8) (-4)); [|exact Ec | fold M; lia].
      apply (dmul_gval (-4) (-4)); [exact Ep | exact Eq | fold M; nia]. }
  assert (N : (0 <= Z.min r (c * p) <= r)%Z) by lia.
  set (f := Z.min r (c * p)) in *.
  assert (B : (f <= q * f)%Z) by nia.
  assert (B2 : (q * f * 10 ^ 4 <= M)%Z) by nia.
  pose proof (discount_gval d _ _ disc _ F1 Ed Hd ltac:(lia) ltac:(lia)) as D1.
  pose proof (discount_gval d _ _ disc _ F2 Ed Hd ltac:(lia) B2) as D2.
  assert (B3 : (0 <= f * (10 ^ 4 - d) * q <= q * f * 10 ^ 4)%Z) by nia.
  rewrite D2, (dmul_gval (-12) (-4) (f * (10 ^ 4 - d)) q); [| exact D1 | exact Eq | fold M; lia].
  apply gval_eq. ring.
Qed.

Lemma inverse_fee_total_agrees_witness :
  inverse_option_fee_native_total 0.0105 2.5 0.0003 0.125 0.1
  == option_trade_fee_native 60000 0.0105 2.5 0.0003 0.125 "BTC" "BTC" 0.1.
Proof.
  apply (inverse_fee_total_agrees 105 25000 30000 1250 1000); vm_compute; try split; congruence.
Defined.

(** ** Recovering a buy-back premium from the all-in debit *)

(** What the ledger pays for a close of [q] contracts at premium [p]: the premium
    and the inverse option fee. *)
Definition close_debit (p q rate cap : Q) : Q := ((p + Qmin rate (cap * p)) * q)%Q.

Section CloseDebit.
Local Open Scope Q_scope.
Variables z k : Z.
Variable q : Q.
Hypothesis Hz : (0 < z <= 10 ^ 12)%Z.
Hypothesis Eq : q == gval (-4) k.
Hypothesis Hk : (0 < k <= 10 ^ 8)%Z.
Local Abbreviation p := (gval (-8) z).

(** The debit per contract in units of [10^-11]. *)
Definition debit_units : Z := (1000 * z + Z.min 30000000 (125 * z))%Z.

Lemma debit_q_pos : 0 < q.
Proof. rewrite Eq. apply val_pos. lia. Qed.

Lemma debit_units_bound : (0 < debit_units <= 2 * 10 ^ 15)%Z.
Proof. unfold debit_units. lia. Qed.

Lemma debit_value : close_debit p q 0.0003 0.125 == gval (-11) debit_units * q.
Proof.
  unfold close_debit, debit_units.
  assert (A : p == gval (-11) (1000 * z)) by (rewrite (gval_refine (-8) 3) by lia; apply gval_eq; lia).
  assert (B : 0.125 * p == gval (-11) (125 * z)).
  { setoid_replace 0.125 with (gval (-3) 125) by reflexivity. rewrite gval_mul. reflexivity. }
  assert (C : 0.0003 == gval (-11) 30000000) by reflexivity.
  assert (M : Qmin 0.0003 (0.125 * p) == gval (-11) (Z.min 30000000 (125 * z))).
  { rewrite B, C. destruct (Z.min_spec 30000000 (125 * z)) as [[L ->]|[L ->]].
    - apply Q.min_l. apply val_le. lia.
    - apply Q.min_r. apply val_le. lia. }
  rewrite M, A, gval_add. reflexivity.
Qed.

Lemma debit_pos : 0 < close_debit p q 0.0003 0.125.
Proof.
  rewrite debit_value. apply Qmult_lt_0_compat; [apply val_pos, debit_units_bound | apply debit_q_pos].
Qed.

Lemma debit_per_contract : close_debit p q 0.0003 0.125 ⊘ q == gval (-11) debit_units.
Proof.
  pose proof debit_q_pos. pose proof debit_units_bound. apply ddiv_exact; [lra | apply debit_value |].
  apply Z.le_trans with (2 * 10 ^ 15)%Z; [lia | vm_compute; discriminate].
Qed.

Lemma px_at_fee_rate_value :
  close_debit p q 0.0003 0.125 ⊘ q ⊖ 0.0003 == gval (-11) (debit_units - 30000000).
Proof.
  pose proof debit_units_bound. apply dsub_gval; [apply debit_per_contract | reflexivity |].
  apply Z.le_trans with (2 * 10 ^ 15)%Z; [lia | vm_compute; discriminate].
Qed.

Lemma cap_test_at_fee_rate :
  (0.125 ⊗ (close_debit p q 0.0003 0.125 ⊘ q ⊖ 0.0003) <=? 0.0003) = (125 * (debit_units - 30000000) <=? 30000000000)%Z.
Proof.
  pose proof debit_units_bound.
  assert (E : 0.125 ⊗ (close_debit p q 0.0003 0.125 ⊘ q ⊖ 0.0003) == gval (-14) (125 * (debit_units - 30000000))).
  { apply (dmul_gval (-3) (-11)); [reflexivity | apply px_at_fee_rate_value |].
    apply Z.le_trans with (10 ^ 18)%Z; [lia | vm_compute; discriminate]. }
  rewrite E. setoid_replace 0.0003 with (gval (-14) 30000000000) by reflexivity.
  destruct (dleb_spec (gval (-14) (125 * (debit_units - 30000000))) (gval (-14) 30000000000)) as [L|L];
    rewrite val_le in L; symmetry; [apply Z.leb_le | apply Z.leb_gt]; lia.
Qed.

Lemma px_at_fee_rate_sign :
  (0 <? close_debit p q 0.0003 0.125 ⊘ q ⊖ 0.0003) = (0 <? debit_units - 30000000)%Z.
Proof.
  rewrite px_at_fee_rate_value.
  destruct (dltb_spec 0 (gval (-11) (debit_units - 30000000))) as [L|L]; symmetry.
  - rewrite <- (val_0 (-11)), val_lt in L. apply Z.ltb_lt. exact L.
  - apply Qnot_lt_le in L. rewrite <- (val_0 (-11)), val_le in L. apply Z.ltb_ge. exact L.
Qed.

(** Above the crossing point the premium at the cap is rejected by its test. *)
Lemma px_at_fee_cap_high : (240000 < z)%Z ->
  (0.125 ⊗ (close_debit p q 0.0003 0.125 ⊘ q ⊘ (1 ⊕ 0.125)) <=? 0.0003) = false.
Proof.
  intros L. apply dleb_false. assert (D : (270000900 <= debit_units)%Z) by (unfold debit_units; lia).
  assert (B : gval (-11) 240000800 <= close_debit p q 0.0003 0.125 ⊘ q ⊘ (1 ⊕ 0.125)).
  { change (1 ⊕ 0.125) with (9 # 8). rewrite debit_per_contract. unfold ddiv. apply rnd_ge_bound.
    - apply val_representable. vm_compute. split; discriminate.
    - apply Qle_trans with (gval (-11) 270000900 / (9 # 8)); [vm_compute; discriminate|].
      apply Qle_shift_div_l; [reflexivity|]. unfold Qdiv. rewrite <- Qmult_assoc.
      setoid_replace (/ (9 # 8) * (9 # 8)) with 1 by reflexivity. rewrite Qmult_1_r. rewrite val_le. exact D. }
  apply Qlt_le_trans with (gval (-11) 240000800 ⊗ 0.125); [vm_compute; reflexivity|].
  unfold dmul. apply rnd_mono. lra.
Qed.

(** Below it the premium at the cap is the premium paid. *)
Lemma px_at_fee_cap_low : (z <= 240000)%Z -> close_debit p q 0.0003 0.125 ⊘ q ⊘ (1 ⊕ 0.125) == p.
Proof.
  intros L. change (1 ⊕ 0.125) with (9 # 8). rewrite debit_per_contract. apply ddiv_exact; [discriminate | |].
  - unfold debit_units. replace (1000 * z + Z.min 30000000 (125 * z))%Z with (1125 * z)%Z by lia.
    setoid_replace (9 # 8) with (gval (-3) 1125) by reflexivity. rewrite gval_mul. apply gval_eq. lia.
  - apply Z.le_trans with (10 ^ 12)%Z; [lia | vm_compute; discriminate].
Qed.

Lemma infer_cases :
  infer_inverse_short_close_premium_per_contract (close_debit p q 0.0003 0.125) q 0.0003 0.125
  == if ((30000000 <? 1125 * z) || (240000 <? z))%Z then gval (-11) (debit_units - 30000000) else p.
Proof.
  unfold infer_inverse_short_close_premium_per_contract. pose proof debit_q_pos. pose proof debit_pos.
  replace (q <=? 0) with false by (symmetry; apply dleb_false; lra).
  replace (close_debit p q 0.0003 0.125 <=? 0) with false by (symmetry; apply dleb_false; lra). cbn [orb]. cbn zeta.
  rewrite px_at_fee_rate_sign, cap_test_at_fee_rate.
  change (1 ⊕ 0.125 <=? 0) with false. cbv iota.
  destruct (Z.ltb_spec 240000 z) as [L|L].
  - rewrite px_at_fee_cap_high by exact L. rewrite andb_false_r, orb_true_r.
    replace (0 <? debit_units - 30000000)%Z with true by (symmetry; apply Z.ltb_lt; unfold debit_units; lia).
    destruct (_ && _); apply px_at_fee_rate_value.
  - rewrite orb_false_r. destruct (Z.ltb_spec 30000000 (1125 * z)) as [M|M].
    + replace (0 <? debit_units - 30000000)%Z with true by (symmetry; apply Z.ltb_lt; unfold debit_units; lia).
      replace (125 * (debit_units - 30000000) <=? 30000000000)%Z with true
        by (symmetry; apply Z.leb_le; unfold debit_units; lia).
      apply px_at_fee_rate_value.
    + replace (0 <? debit_units - 30000000)%Z with false by (symmetry; apply Z.ltb_ge; unfold debit_units; lia).
      cbn [andb]. pose proof (px_at_fee_cap_low L) as E. destruct (_ && _); exact E.
Qed.
End CloseDebit.

(** [infer_inverse_short_close_premium_per_contract] at the default rates
    recovers the premium of a close exactly when the premium reaches the cap's
    crossing point (0.0024) or the fee rate covers the whole debit (1.125 p <=
    0.0003). For every premium in between it returns the debit minus the flat
    rate, [1.125 p - 0.0003], which is below the premium that was paid. *)
Theorem infer_close_premium_spec z k q :
  (0 < z <= 10 ^ 12)%Z -> q == gval (-4) k -> (0 < k <= 10 ^ 8)%Z ->
  let p := gval (-8) z in
  let recovered := infer_inverse_short_close_premium_per_contract (close_debit p q 0.0003 0.125) q 0.0003 0.125 in
  (0.0024 <= p \/ 1.125 * p <= 0.0003 -> recovered == p) /\
  (p < 0.0024 -> 0.0003 < 1.125 * p -> recovered == 1.125 * p - 0.0003 /\ recovered < p).
Proof.
  intros Hz Eq Hk p recovered. unfold recovered, p. rewrite (infer_cases z k q Hz Eq Hk). unfold debit_units.
  assert (A : gval (-8) z == gval (-11) (1000 * z)) by (rewrite (gval_refine (-8) 3) by lia; apply gval_eq; lia).
  assert (B : 1.125 * gval (-8) z == gval (-11) (1125 * z)).
  { setoid_replace 1.125 with (gval (-3) 1125) by reflexivity. rewrite gval_mul. reflexivity. }
  assert (R : 0.0003 == gval (-11) 30000000) by reflexivity.
  assert (X : 0.0024 == gval (-8) 240000) by reflexivity. split.
  - rewrite X, B, R, !val_le. intros [H|H].
    + replace ((30000000 <? 1125 * z) || (240000 <? z))%Z%bool with true
        by (symmetry; apply orb_true_iff; left; apply Z.ltb_lt; lia).
      rewrite A. apply gval_eq. lia.
    + replace ((30000000 <? 1125 * z) || (240000 <? z))%Z%bool with false
        by (symmetry; apply orb_false_iff; split; apply Z.ltb_ge; lia). reflexivity.
  - rewrite X, B, R, !val_lt. intros H1 H2.
    replace ((30000000 <? 1125 * z) || (240000 <? z))%Z%bool with true
      by (symmetry; apply orb_true_iff; left; apply Z.ltb_lt; lia).
    rewrite gval_sub. split; [apply gval_eq; lia | rewrite A, val_lt; lia].
Qed.

(** A close of 2 contracts at premium 0.001 is read back as 0.000825. *)
Lemma infer_close_premium_spec_witness :
  infer_inverse_short_close_premium_per_contract 0.00225 2 0.0003 0.125 == 0.000825
  /\ close_debit (gval (-8) 100000) 2 0.0003 0.125 == 0.00225
  /\ infer_inverse_short_close_premium_per_contract (close_debit (gval (-8) 100000) 2 0.0003 0.125) 2 0.0003 0.125
     < gval (-8) 100000.
Proof.
  split; [vm_compute; reflexivity|]. split; [vm_compute; reflexivity|].
  apply (infer_close_premium_spec 100000 20000 2); vm_compute; try split; congruence.
Defined.
