(* ===== verification/Margin.v ===== *)
(** [deribit_engine/margin.py]: initial and maintenance margin per unit of a short
    option, in coin for inverse options and in USDC for linear ones. *)

From S2P Require Import Prelude Dec PyStr Utils.
Local Open Scope Q_scope.
Local Open Scope dec_scope.

Definition short_put_maintenance_unit (index_price strike mark_price : Q) : Q :=
  dmax 0.075 (0.075 ⊗ mark_price) ⊕ mark_price.

Definition short_put_initial_unit (index_price strike mark_price : Q) : Q :=
  if index_price <=? 0 then 0
  else
    let otm := dmax (index_price ⊖ strike) 0 in
    let otm_frac := safe_div otm index_price 0 in
    let inner := dmax (0.15 ⊖ otm_frac) 0.1 ⊕ mark_price in
    let mm := short_put_maintenance_unit index_price strike mark_price in
    dmax inner mm.

Definition linear_usdc_put_premium_as_btc_fraction (mark_usdc index_price contract_size : Q) : Q :=
  if (index_price <=? 0) || (contract_size <=? 0) then 0
  else
    let premium_usd_per_unit_underlying := mark_usdc ⊘ contract_size in
    safe_div premium_usd_per_unit_underlying index_price 0.

Definition linear_usdc_short_put_initial_per_contract_usdc
    (index_price strike mark_usdc contract_size : Q) : Q :=
  let mb := linear_usdc_put_premium_as_btc_fraction mark_usdc index_price contract_size in
  let im_btc := short_put_initial_unit index_price strike mb in
  im_btc ⊗ index_price ⊗ contract_size.

Definition linear_usdc_short_put_mm_per_contract_usdc
    (index_price strike mark_usdc contract_size : Q) : Q :=
  let mb := linear_usdc_put_premium_as_btc_fraction mark_usdc index_price contract_size in
  let mm_btc := short_put_maintenance_unit index_price strike mb in
  mm_btc ⊗ index_price ⊗ contract_size.

Definition short_call_maintenance_unit (index_price strike mark_price : Q) : Q :=
  if index_price <=? 0 then 0.075 ⊕ mark_price
  else
    let itm_delta := safe_div (index_price ⊖ strike) index_price 0 in
    dmax 0.075 (0.075 ⊕ itm_delta) ⊕ mark_price.

Definition short_call_initial_unit (index_price strike mark_price : Q) : Q :=
  if index_price <=? 0 then 0.10 ⊕ mark_price
  else
    let otm := dmax (strike ⊖ index_price) 0 in
    let otm_frac := safe_div otm index_price 0 in
    let inner := dmax (0.15 ⊖ otm_frac) 0.10 ⊕ mark_price in
    let mm := short_call_maintenance_unit index_price strike mark_price in
    dmax inner mm.

Definition linear_usdc_short_call_initial_per_contract_usdc
    (index_price strike mark_usdc contract_size : Q) : Q :=
  let mb := linear_usdc_put_premium_as_btc_fraction mark_usdc index_price contract_size in
  let im_btc := short_call_initial_unit index_price strike mb in
  im_btc ⊗ index_price ⊗ contract_size.

Definition linear_usdc_short_call_mm_per_contract_usdc
    (index_price strike mark_usdc contract_size : Q) : Q :=
  let mb := linear_usdc_put_premium_as_btc_fraction mark_usdc index_price contract_size in
  let mm_btc := short_call_maintenance_unit index_price strike mb in
  mm_btc ⊗ index_price ⊗ contract_size.

Example put_im : short_put_initial_unit 60000 54000 0.02 == 0.12.
Proof. vm_compute. reflexivity. Qed.
Example call_mm : short_call_maintenance_unit 60000 54000 0.12 == 0.295.
Proof. vm_compute. reflexivity. Qed.

(** ** Initial margin covers maintenance margin *)

Section Units.
Variables index strike strike' mark : Q.
Hypothesis Hindex : 0 < index.
Hypothesis Hmark : 0 <= mark.

Lemma safe_div_pos_eq x : safe_div x index 0 = x ⊘ index.
Proof. unfold safe_div. destruct (deqb_spec index 0); [lra | reflexivity]. Qed.

Lemma put_mm_le_im : short_put_maintenance_unit index strike mark <= short_put_initial_unit index strike mark.
Proof.
  unfold short_put_initial_unit. replace (index <=? 0) with false by (symmetry; apply dleb_false; lra).
  apply dmax_r.
Qed.

Lemma call_mm_le_im : short_call_maintenance_unit index strike mark <= short_call_initial_unit index strike mark.
Proof.
  unfold short_call_initial_unit. replace (index <=? 0) with false by (symmetry; apply dleb_false; lra).
  apply dmax_r.
Qed.

Lemma floor_plus_mark a b : 0.075 <= a -> 0.075 <= dmax a b ⊕ mark.
Proof.
  intros H. unfold dadd. apply rnd_ge_bound; [apply representable_dec; reflexivity|].
  pose proof (dmax_l a b). lra.
Qed.

Lemma put_mm_floor : 0.075 <= short_put_maintenance_unit index strike mark.
Proof. apply floor_plus_mark. lra. Qed.

Lemma call_mm_floor : 0.075 <= short_call_maintenance_unit index strike mark.
Proof.
  unfold short_call_maintenance_unit. replace (index <=? 0) with false by (symmetry; apply dleb_false; lra).
  apply floor_plus_mark. lra.
Qed.

Lemma put_im_mono : strike <= strike' ->
  short_put_initial_unit index strike mark <= short_put_initial_unit index strike' mark.
Proof.
  intros L. unfold short_put_initial_unit. replace (index <=? 0) with false by (symmetry; apply dleb_false; lra).
  rewrite !safe_div_pos_eq. apply dmax_mono; [|apply Qle_refl].
  apply dadd_mono; [|lra]. apply dmax_mono; [|lra]. apply dsub_mono; [lra|].
  apply ddiv_mono_l; [exact Hindex|]. apply dmax_mono; [|lra]. apply dsub_mono; lra.
Qed.

Lemma call_mm_mono : strike <= strike' ->
  short_call_maintenance_unit index strike' mark <= short_call_maintenance_unit index strike mark.
Proof.
  intros L. unfold short_call_maintenance_unit. replace (index <=? 0) with false by (symmetry; apply dleb_false; lra).
  rewrite !safe_div_pos_eq. apply dadd_mono; [|lra]. apply dmax_mono; [lra|].
  apply dadd_mono; [lra|]. apply ddiv_mono_l; [exact Hindex|]. apply dsub_mono; lra.
Qed.

Lemma call_im_mono : strike <= strike' ->
  short_call_initial_unit index strike' mark <= short_call_initial_unit index strike mark.
Proof.
  intros L. pose proof (call_mm_mono L) as M.
  unfold short_call_initial_unit. replace (index <=? 0) with false by (symmetry; apply dleb_false; lra).
  rewrite !safe_div_pos_eq. apply dmax_mono; [|exact M].
  apply dadd_mono; [|lra]. apply dmax_mono; [|lra]. apply dsub_mono; [lra|].
  apply ddiv_mono_l; [exact Hindex|]. apply dmax_mono; [|lra]. apply dsub_mono; lra.
Qed.
End Units.

Section Linear.
Variables index mark_usdc contract_size : Q.
Hypothesis Hindex : 0 < index.
Hypothesis Hmark : 0 <= mark_usdc.
Hypothesis Hcs : 0 < contract_size.

Lemma btc_fraction_nonneg : 0 <= linear_usdc_put_premium_as_btc_fraction mark_usdc index contract_size.
Proof.
  unfold linear_usdc_put_premium_as_btc_fraction. destruct (_ || _)%bool; [lra|].
  unfold safe_div. destruct (index =? 0); [lra|]. apply ddiv_nonneg; [apply ddiv_nonneg|]; lra.
Qed.

Lemma scale_mono a b : 0 <= a -> a <= b -> a ⊗ index ⊗ contract_size <= b ⊗ index ⊗ contract_size.
Proof. intros H L. apply dmul_mono_l; [lra|]. apply dmul_mono_l; lra. Qed.
End Linear.

(** The margin model of short puts is sound: per unit and per linear
    contract, the maintenance margin is at least its 7.5% floor, the initial
    margin is at least the maintenance margin, and raising the strike (towards
    and into the money) never lowers the initial margin. *)
Theorem short_put_margin_order index strike strike' mark contract_size :
  0 < index -> 0 <= mark -> 0 < contract_size -> strike <= strike' ->
  0.075 <= short_put_maintenance_unit index strike mark <= short_put_initial_unit index strike mark /\
  short_put_initial_unit index strike mark <= short_put_initial_unit index strike' mark /\
  0 <= linear_usdc_short_put_mm_per_contract_usdc index strike mark contract_size
    <= linear_usdc_short_put_initial_per_contract_usdc index strike mark contract_size /\
  linear_usdc_short_put_initial_per_contract_usdc index strike mark contract_size
    <= linear_usdc_short_put_initial_per_contract_usdc index strike' mark contract_size.
Proof.
  intros Hi Hm Hc L. pose proof (btc_fraction_nonneg index mark contract_size Hi Hm Hc) as Hb.
  unfold linear_usdc_short_put_mm_per_contract_usdc, linear_usdc_short_put_initial_per_contract_usdc. cbn zeta.
  set (mb := linear_usdc_put_premium_as_btc_fraction mark index contract_size) in *.
  pose proof (put_mm_floor index strike mark Hm). pose proof (put_mm_le_im index strike mark Hi).
  pose proof (put_im_mono index strike strike' mark Hi L).
  pose proof (put_mm_floor index strike mb Hb). pose proof (put_mm_le_im index strike mb Hi).
  pose proof (put_im_mono index strike strike' mb Hi L).
  assert (0 <= short_put_maintenance_unit index strike mb) by lra.
  assert (0 <= short_put_initial_unit index strike mb) by lra.
  split; [split; lra|]. split; [lra|].
  split; [split; [apply dmul_nonneg; [apply dmul_nonneg|]; lra|]|]; apply scale_mono; lra.
Qed.

Lemma short_put_margin_order_witness :
  short_put_initial_unit 60000 50000 0.01 <= short_put_initial_unit 60000 58000 0.01
  /\ short_put_initial_unit 60000 58000 0.01 == 0.1266666666666666666666666667.
Proof.
  split; [|vm_compute; reflexivity].
  apply (short_put_margin_order 60000 50000 58000 0.01 1); vm_compute; congruence.
Defined.

(** The margin model of short calls is sound in the same sense: floor, order
    of initial and maintenance margin, and both margins never grow when the
    strike moves up, away from the money (the sign of the code's in-the-money
    term, [(index - strike) / index]). *)
Theorem short_call_margin_order index strike strike' mark contract_size :
  0 < index -> 0 <= mark -> 0 < contract_size -> strike <= strike' ->
  0.075 <= short_call_maintenance_unit index strike mark <= short_call_initial_unit index strike mark /\
  short_call_maintenance_unit index strike' mark <= short_call_maintenance_unit index strike mark /\
  short_call_initial_unit index strike' mark <= short_call_initial_unit index strike mark /\
  0 <= linear_usdc_short_call_mm_per_contract_usdc index strike mark contract_size
    <= linear_usdc_short_call_initial_per_contract_usdc index strike mark contract_size /\
  linear_usdc_short_call_initial_per_contract_usdc index strike' mark contract_size
    <= linear_usdc_short_call_initial_per_contract_usdc index strike mark contract_size.
Proof.
  intros Hi Hm Hc L. pose proof (btc_fraction_nonneg index mark contract_size Hi Hm Hc) as Hb.
  unfold linear_usdc_short_call_mm_per_contract_usdc, linear_usdc_short_call_initial_per_contract_usdc. cbn zeta.
  set (mb := linear_usdc_put_premium_as_btc_fraction mark index contract_size) in *.
  pose proof (call_mm_floor index strike mark Hi Hm). pose proof (call_mm_le_im index strike mark Hi).
  pose proof (call_mm_mono index strike strike' mark Hi L). pose proof (call_im_mono index strike strike' mark Hi L).
  pose proof (call_mm_floor index strike mb Hi Hb). pose proof (call_mm_le_im index strike mb Hi).
  pose proof (call_mm_floor index strike' mb Hi Hb). pose proof (call_mm_le_im index strike' mb Hi).
  pose proof (call_im_mono index strike strike' mb Hi L).
  assert (0 <= short_call_maintenance_unit index strike mb) by lra.
  assert (0 <= short_call_initial_unit index strike' mb) by lra.
  split; [split; lra|]. split; [lra|]. split; [lra|].
  split; [split; [apply dmul_nonneg; [apply dmul_nonneg|]; lra|]|]; apply scale_mono; lra.
Qed.

(** An in-the-money call needs more maintenance margin than an out-of-the-money
    one: 0.195 at strike 54000 against 0.095 at strike 66000. *)
Lemma short_call_margin_order_witness :
  short_call_maintenance_unit 60000 66000 0.02 <= short_call_maintenance_unit 60000 54000 0.02
  /\ short_call_maintenance_unit 60000 54000 0.02 == 0.195
  /\ short_call_maintenance_unit 60000 66000 0.02 == 0.095.
Proof.
  split; [|split; vm_compute; reflexivity].
  apply (short_call_margin_order 60000 54000 66000 0.02 1); vm_compute; congruence.
Defined.
