(* ===== verification/TradeApr.v ===== *)
(** [deribit_engine/trade_apr.py]: the capital base of a position and its
    annualised return at entry (screening and ledger) and at close. *)

From S2P Require Import Prelude Dec PyStr Utils Fees.
Local Open Scope Q_scope.
Local Open Scope dec_scope.
Local Open Scope bool_scope.

Definition days_between (from_ms to_ms : Z) : Q := inject_Z (to_ms - from_ms) ⊘ 86400000.

Definition entry_dte_days_at_open (entry_timestamp_ms expiration_timestamp_ms : Z) : Q :=
  if ((entry_timestamp_ms <=? 0) || (expiration_timestamp_ms <=? entry_timestamp_ms))%Z then 0
  else days_between entry_timestamp_ms expiration_timestamp_ms.

Definition holding_days (entry_timestamp_ms closed_timestamp_ms : Z) : Q :=
  if (closed_timestamp_ms <=? entry_timestamp_ms)%Z then 0
  else days_between entry_timestamp_ms closed_timestamp_ms.

(** The keyword arguments the functions of the module share. *)
Record position : Type := {
  strategy : string;
  collateral_currency : string;
  option_type : string;
  quantity : Q;
  contract_size : Q;
  strike : Q;
  index_price_usd : Q;
  estimated_im_collateral : Q;
  covered_underlying_quantity : Q;
}.

Definition pos_or_one (q : Q) : Q := if q >? 0 then q else 1.

Definition opened_contract_amount_per_contract (p : position) : Q :=
  let qty := pos_or_one p.(quantity) in
  let book := upper p.(collateral_currency) in
  let strat := strip p.(strategy) in
  let cs := pos_or_one p.(contract_size) in
  if String.eqb strat "bull_put_spread" && (p.(estimated_im_collateral) >? 0)
  then p.(estimated_im_collateral) ⊘ qty
  else if String.eqb book "USDC" then
    if String.eqb (lower (str_or p.(option_type) "put")) "call" then
      if p.(index_price_usd) <=? 0 then 0 else p.(index_price_usd)
    else if p.(strike) <=? 0 then 0 else p.(strike)
  else cs.

Definition opened_notional_for_position (p : position) : Q :=
  let per := opened_contract_amount_per_contract p in
  let qty := pos_or_one p.(quantity) in
  let book := upper p.(collateral_currency) in
  let strat := strip p.(strategy) in
  if String.eqb strat "covered_call" then
    if p.(covered_underlying_quantity) >? 0 then p.(covered_underlying_quantity) else qty
  else if String.eqb book "USDC" then per ⊗ qty
  else if String.eqb strat "bull_put_spread" then
    if per >? 0 then per ⊗ qty else p.(estimated_im_collateral)
  else per ⊗ qty.

Definition position_apr_capital_base (p : position) : Q := opened_notional_for_position p.

Definition entry_net_apr_from_actual_open (p : position) (net_credit_collateral : Q)
    (entry_timestamp_ms expiration_timestamp_ms : Z) : Q :=
  let dte := entry_dte_days_at_open entry_timestamp_ms expiration_timestamp_ms in
  if (dte <=? 0) || (net_credit_collateral <=? 0) then 0
  else
    let opened := opened_notional_for_position p in
    if opened <=? 0 then 0 else annualized_return net_credit_collateral opened dte.

Definition entry_net_apr_from_fill (p : position) (premium_per_contract : Q)
    (entry_timestamp_ms expiration_timestamp_ms : Z) (fee_rate fee_cap_rate : Q)
    (net_credit_collateral : option Q) : Q :=
  let dte := entry_dte_days_at_open entry_timestamp_ms expiration_timestamp_ms in
  if dte <=? 0 then 0
  else
    match (if String.eqb p.(strategy) "bull_put_spread" && (p.(estimated_im_collateral) >? 0)
           then net_credit_collateral else None) with
    | Some net => annualized_return net (opened_notional_for_position p) dte
    | None =>
        if premium_per_contract <=? 0 then 0
        else
          let opened := opened_contract_amount_per_contract p in
          if opened <=? 0 then 0
          else
            let book := upper p.(collateral_currency) in
            let opt := lower (str_or p.(option_type) "put") in
            if String.eqb book "USDC" && String.eqb opt "put" then
              net_apr_linear_usdc_short_put_per_contract
                premium_per_contract opened dte p.(index_price_usd) fee_rate fee_cap_rate 0
            else if String.eqb book "USDC" && String.eqb opt "call" then
              net_apr_linear_usdc_short_call_per_contract
                premium_per_contract opened dte fee_rate fee_cap_rate 0
            else
              net_apr_inverse_short_per_contract
                premium_per_contract opened dte fee_rate fee_cap_rate 0
    end.

Definition remaining_apr_for_group (remaining_credit capital_base dte_days : Q) : Q :=
  annualized_return remaining_credit capital_base dte_days.

Definition realized_apr_from_close (p : position) (pnl_collateral_native : Q)
    (entry_timestamp_ms closed_timestamp_ms : Z) : Q :=
  let opened := opened_notional_for_position p in
  let days := holding_days entry_timestamp_ms closed_timestamp_ms in
  annualized_return pnl_collateral_native opened days.

(** ** The capital base *)

Lemma pos_or_one_pos q : 0 < pos_or_one q.
Proof. unfold pos_or_one. destruct (dltb_spec 0 q); lra. Qed.

Lemma opened_contract_amount_nonneg p : 0 <= opened_contract_amount_per_contract p.
Proof.
  unfold opened_contract_amount_per_contract. pose proof (pos_or_one_pos p.(quantity)).
  pose proof (pos_or_one_pos p.(contract_size)). cbn zeta.
  destruct (String.eqb _ "bull_put_spread"); cbn [andb].
  - destruct (dltb_spec 0 p.(estimated_im_collateral)); [apply ddiv_nonneg; lra|].
    dcase; destruct (String.eqb _ _); try destruct (String.eqb _ _); dcase; lra.
  - destruct (String.eqb _ _); try destruct (String.eqb _ _); dcase; lra.
Qed.

(** The base is positive unless the linear anchor (strike or index) is missing. *)
Lemma opened_notional_pos p :
  (upper p.(collateral_currency) = "USDC"%string -> 0 < p.(strike) /\ 0 < p.(index_price_usd)) ->
  0 < opened_notional_for_position p.
Proof.
  intros H. pose proof (pos_or_one_pos p.(quantity)) as Q1. pose proof (pos_or_one_pos p.(contract_size)) as C1.
  unfold opened_notional_for_position. cbn zeta.
  assert (P : 0 < opened_contract_amount_per_contract p).
  { unfold opened_contract_amount_per_contract. cbn zeta.
    destruct (String.eqb (strip _) "bull_put_spread" && _) eqn:B; dhyps; [apply ddiv_pos; assumption|].
    destruct (String.eqb_spec (upper p.(collateral_currency)) "USDC") as [E|E]; [|exact C1].
    destruct (H E). destruct (String.eqb _ "call"); dcase; lra. }
  destruct (String.eqb _ "covered_call"); [dcase; lra|].
  destruct (String.eqb _ "USDC"); [apply dmul_pos; assumption|].
  destruct (String.eqb _ "bull_put_spread"); [|apply dmul_pos; assumption].
  destruct (dltb_spec 0 (opened_contract_amount_per_contract p)); [apply dmul_pos; assumption | lra].
Qed.

Lemma annualized_return_nonpos_base n c d : c <= 0 -> annualized_return n c d = 0.
Proof. intros H. unfold annualized_return. apply dleb_true in H. now rewrite H, orb_true_r. Qed.

Lemma annualized_return_pos n c d : 0 < n -> 0 < c -> 0 < d -> 0 < annualized_return n c d.
Proof.
  intros. unfold annualized_return. dcase; try lra. apply dmul_pos; apply ddiv_pos; lra.
Qed.

Lemma annualized_return_nonneg n c d : 0 <= n -> 0 <= annualized_return n c d.
Proof.
  intros. unfold annualized_return. dcase; try lra. apply dmul_nonneg; apply ddiv_nonneg; lra.
Qed.

Lemma annualized_return_mono n n' c d : n <= n' -> annualized_return n c d <= annualized_return n' c d.
Proof.
  intros L. unfold annualized_return.
  destruct (dleb_spec c 0); [rewrite !orb_true_r; cbn [orb]; lra|].
  destruct (dleb_spec d 0); [rewrite !orb_true_r; lra|].
  rewrite !orb_false_r. assert (0 <= 365 ⊘ d) by (apply ddiv_nonneg; lra).
  assert (Z : forall x, x == 0 -> (x ⊘ c) ⊗ (365 ⊘ d) == 0).
  { intros x E. rewrite dmul_0_l; [reflexivity|]. unfold ddiv. rewrite E. rewrite rnd_0 by (field; lra). reflexivity. }
  assert (M : (n ⊘ c) ⊗ (365 ⊘ d) <= (n' ⊘ c) ⊗ (365 ⊘ d)).
  { apply dmul_mono_l; [assumption|]. apply ddiv_mono_l; lra. }
  destruct (deqb_spec n 0) as [E|_]; destruct (deqb_spec n' 0) as [E'|_]; try lra.
  - rewrite Z in M by exact E. exact M.
  - rewrite (Z n') in M by exact E'. exact M.
Qed.

(** Entry and close returns measure the same thing: a position closed at its
    expiry with its whole net credit realises exactly the APR recorded at entry;
    the entry APR is non-negative; it is positive exactly when the option has
    time left, the net credit is positive and the position has a capital base;
    and a larger realised profit never lowers the close APR. *)
Theorem entry_apr_realized_at_expiry p net entry expiry :
  (0 < entry)%Z -> (entry < expiry)%Z ->
  (0 < net -> realized_apr_from_close p net entry expiry = entry_net_apr_from_actual_open p net entry expiry) /\
  0 <= entry_net_apr_from_actual_open p net entry expiry /\
  (0 < entry_net_apr_from_actual_open p net entry expiry <-> 0 < net /\ 0 < opened_notional_for_position p) /\
  (forall net', net <= net' -> realized_apr_from_close p net entry expiry <= realized_apr_from_close p net' entry expiry).
Proof.
  intros He Hx.
  assert (D : entry_dte_days_at_open entry expiry = days_between entry expiry).
  { unfold entry_dte_days_at_open. destruct (Z.leb_spec entry 0); [lia|]. destruct (Z.leb_spec expiry entry); [lia|]. reflexivity. }
  assert (H : holding_days entry expiry = days_between entry expiry).
  { unfold holding_days. destruct (Z.leb_spec expiry entry); [lia | reflexivity]. }
  assert (P : 0 < days_between entry expiry).
  { unfold days_between. apply ddiv_pos; [apply inject_Z_pos; lia | reflexivity]. }
  unfold realized_apr_from_close, entry_net_apr_from_actual_open. cbn zeta. rewrite D, H.
  destruct (dleb_spec (days_between entry expiry) 0); [lra|]. cbn [orb].
  split.
  { intros N. destruct (dleb_spec net 0); [lra|].
    destruct (dleb_spec (opened_notional_for_position p) 0); [apply annualized_return_nonpos_base; assumption | reflexivity]. }
  split.
  { destruct (dleb_spec net 0); [lra|]. destruct (dleb _ 0); [lra|]. apply annualized_return_nonneg. lra. }
  split.
  { destruct (dleb_spec net 0); [split; [lra | intros []; lra]|].
    destruct (dleb_spec (opened_notional_for_position p) 0); [split; [lra | intros []; lra]|].
    split; [lra|]. intros []. apply annualized_return_pos; assumption. }
  intros net' L. apply annualized_return_mono. exact L.
Qed.

Definition sample_position : position := {|
  strategy := "covered_call"; collateral_currency := "btc"; option_type := "call"; quantity := 2;
  contract_size := 1; strike := 70000; index_price_usd := 60000; estimated_im_collateral := 0;
  covered_underlying_quantity := 2 |}.

Lemma entry_apr_realized_at_expiry_witness :
  realized_apr_from_close sample_position 0.02 1000 (1000 + 7 * 86400000)
  = entry_net_apr_from_actual_open sample_position 0.02 1000 (1000 + 7 * 86400000).
Proof. apply entry_apr_realized_at_expiry; reflexivity. Defined.
