(* ===== verification/Group.v ===== *)
(** [TradeGroup] of [deribit_engine/models.py]: one option position and every
    journal the engine and the operator tools keep on it. The record has the
    dataclass's fields; [set_<field>] is the attribute assignment; [getattr] and
    [setattr] are the dynamic attribute access the state merge uses. *)

From S2P Require Import Prelude Dec PyStr Utils.
Local Open Scope Q_scope.

Record TradeGroup : Type := mkTradeGroup {
  group_id : string;
  currency : string;
  collateral_currency : string;
  quantity : Q;
  entry_timestamp_ms : Z;
  expiration_timestamp_ms : Z;
  short_instrument_name : string;
  short_strike : Q;
  entry_credit : Q;
  original_entry_credit : Q;
  max_loss : Q;
  regime_at_entry : string;
  estimated_im_collateral : Q;
  entry_fee : Q;
  entry_fee_collateral : Q;
  short_entry_average_price : Q;
  long_entry_average_price : Q;
  long_close_average_price : option Q;
  entry_index_usd : Q;
  entry_net_apr : Q;
  entry_book_equity : Q;
  hedge_instrument_name : string;
  hedge_size_base : Q;
  hedge_mode : string;
  hedge_recovery_streak : Z;
  current_debit : Q;
  mark_debit : Q;
  current_close_fee : Q;
  current_close_fee_collateral : Q;
  short_delta : Q;
  profit_capture : Q;
  status : string;
  last_action : string;
  close_incomplete_streak : Z;
  hard_defense_streak : Z;
  soft_defense_streak : Z;
  itm_defense_streak : Z;
  closed_timestamp_ms : option Z;
  close_reason : string;
  realized_close_debit : option Q;
  realized_close_fee : option Q;
  close_fee_collateral : option Q;
  short_close_average_price : option Q;
  close_index_usd : option Q;
  realized_pnl_collateral_native : option Q;
  realized_pnl : option Q;
  realized_return_on_max_loss : option Q;
  realized_annualized_return : option Q;
  close_book_equity : option Q;
  realized_apr_on_equity : option Q;
  short_label : string;
  hedge_label : string;
  option_type : string;
  strategy : string;
  long_instrument_name : string;
  long_strike : Q;
  long_label : string;
  covered_underlying_quantity : Q;
  spot_exit_status : string;
  spot_exit_amount : Q;
  spot_exit_instrument_name : string;
  spot_exit_order_id : string;
  spot_exit_reason : string;
  spot_exit_quote_proceeds : Q;
  spot_exit_quote_proceeds_lifetime : Q;
  spot_exit_settlement_loss : Q;
  spot_exit_settlement_loss_source : string;
  spot_restore_status : string;
  spot_restore_amount : Q;
  spot_restore_instrument_name : string;
  spot_restore_order_id : string;
  spot_restore_reason : string;
  spot_restore_quote_spent : Q;
  spot_restore_quote_spent_lifetime : Q;
  profit_sweep_status : string;
  profit_sweep_amount : Q;
  profit_sweep_instrument_name : string;
  profit_sweep_order_id : string;
  profit_sweep_quote_proceeds : Q;
  profit_sweep_quote_proceeds_lifetime : Q;
  profit_sweep_exchange_native : Q;
  profit_sweep_exchange_quote_proceeds : Q;
  profit_sweep_reason : string;
  cash_secured_status : string;
  cash_secured_group_id : string;
  cash_secured_group_ids : list string;
  cash_secured_reason : string;
  cash_secured_order_id : string;
  cash_secured_instrument_name : string;
  cash_secured_limit_price : Q;
  cash_secured_from_group_id : string;
  csp_premium_swap_status : string;
  csp_premium_swap_amount : Q;
  csp_premium_swap_instrument_name : string;
  csp_premium_swap_order_id : string;
  csp_premium_swap_native : Q;
  csp_premium_swap_reason : string;
}.

(** A copy of [g], field by field. *)
Definition copy_group (g : TradeGroup) : TradeGroup :=
  mkTradeGroup
    g.(group_id) g.(currency) g.(collateral_currency) g.(quantity) g.(entry_timestamp_ms)
    g.(expiration_timestamp_ms) g.(short_instrument_name) g.(short_strike) g.(entry_credit)
    g.(original_entry_credit) g.(max_loss) g.(regime_at_entry) g.(estimated_im_collateral)
    g.(entry_fee) g.(entry_fee_collateral) g.(short_entry_average_price)
    g.(long_entry_average_price) g.(long_close_average_price) g.(entry_index_usd)
    g.(entry_net_apr) g.(entry_book_equity) g.(hedge_instrument_name) g.(hedge_size_base)
    g.(hedge_mode) g.(hedge_recovery_streak) g.(current_debit) g.(mark_debit)
    g.(current_close_fee) g.(current_close_fee_collateral) g.(short_delta) g.(profit_capture)
    g.(status) g.(last_action) g.(close_incomplete_streak) g.(hard_defense_streak)
    g.(soft_defense_streak) g.(itm_defense_streak) g.(closed_timestamp_ms) g.(close_reason)
    g.(realized_close_debit) g.(realized_close_fee) g.(close_fee_collateral)
    g.(short_close_average_price) g.(close_index_usd) g.(realized_pnl_collateral_native)
    g.(realized_pnl) g.(realized_return_on_max_loss) g.(realized_annualized_return)
    g.(close_book_equity) g.(realized_apr_on_equity) g.(short_label) g.(hedge_label)
    g.(option_type) g.(strategy) g.(long_instrument_name) g.(long_strike) g.(long_label)
    g.(covered_underlying_quantity) g.(spot_exit_status) g.(spot_exit_amount)
    g.(spot_exit_instrument_name) g.(spot_exit_order_id) g.(spot_exit_reason)
    g.(spot_exit_quote_proceeds) g.(spot_exit_quote_proceeds_lifetime)
    g.(spot_exit_settlement_loss) g.(spot_exit_settlement_loss_source) g.(spot_restore_status)
    g.(spot_restore_amount) g.(spot_restore_instrument_name) g.(spot_restore_order_id)
    g.(spot_restore_reason) g.(spot_restore_quote_spent) g.(spot_restore_quote_spent_lifetime)
    g.(profit_sweep_status) g.(profit_sweep_amount) g.(profit_sweep_instrument_name)
    g.(profit_sweep_order_id) g.(profit_sweep_quote_proceeds)
    g.(profit_sweep_quote_proceeds_lifetime) g.(profit_sweep_exchange_native)
    g.(profit_sweep_exchange_quote_proceeds) g.(profit_sweep_reason) g.(cash_secured_status)
    g.(cash_secured_group_id) g.(cash_secured_group_ids) g.(cash_secured_reason)
    g.(cash_secured_order_id) g.(cash_secured_instrument_name) g.(cash_secured_limit_price)
    g.(cash_secured_from_group_id) g.(csp_premium_swap_status) g.(csp_premium_swap_amount)
    g.(csp_premium_swap_instrument_name) g.(csp_premium_swap_order_id) g.(csp_premium_swap_native)
    g.(csp_premium_swap_reason).

(** An attribute assignment is the copy with one field replaced. *)
Ltac assign field :=
  intros v g;
  let t := eval unfold copy_group in (copy_group g) in
  lazymatch eval pattern (field g) in t with
  | ?F _ => let t := eval cbv beta in (F v) in exact t
  end.

Definition set_group_id : string -> TradeGroup -> TradeGroup := ltac:(assign group_id).
Definition set_currency : string -> TradeGroup -> TradeGroup := ltac:(assign currency).
Definition set_collateral_currency : string -> TradeGroup -> TradeGroup := ltac:(assign collateral_currency).
Definition set_quantity : Q -> TradeGroup -> TradeGroup := ltac:(assign quantity).
Definition set_entry_timestamp_ms : Z -> TradeGroup -> TradeGroup := ltac:(assign entry_timestamp_ms).
Definition set_expiration_timestamp_ms : Z -> TradeGroup -> TradeGroup := ltac:(assign expiration_timestamp_ms).
Definition set_short_instrument_name : string -> TradeGroup -> TradeGroup := ltac:(assign short_instrument_name).
Definition set_short_strike : Q -> TradeGroup -> TradeGroup := ltac:(assign short_strike).
Definition set_entry_credit : Q -> TradeGroup -> TradeGroup := ltac:(assign entry_credit).
Definition set_original_entry_credit : Q -> TradeGroup -> TradeGroup := ltac:(assign original_entry_credit).
Definition set_max_loss : Q -> TradeGroup -> TradeGroup := ltac:(assign max_loss).
Definition set_regime_at_entry : string -> TradeGroup -> TradeGroup := ltac:(assign regime_at_entry).
Definition set_estimated_im_collateral : Q -> TradeGroup -> TradeGroup := ltac:(assign estimated_im_collateral).
Definition set_entry_fee : Q -> TradeGroup -> TradeGroup := ltac:(assign entry_fee).
Definition set_entry_fee_collateral : Q -> TradeGroup -> TradeGroup := ltac:(assign entry_fee_collateral).
Definition set_short_entry_average_price : Q -> TradeGroup -> TradeGroup := ltac:(assign short_entry_average_price).
Definition set_long_entry_average_price : Q -> TradeGroup -> TradeGroup := ltac:(assign long_entry_average_price).
Definition set_long_close_average_price : option Q -> TradeGroup -> TradeGroup := ltac:(assign long_close_average_price).
Definition set_entry_index_usd : Q -> TradeGroup -> TradeGroup := ltac:(assign entry_index_usd).
Definition set_entry_net_apr : Q -> TradeGroup -> TradeGroup := ltac:(assign entry_net_apr).
Definition set_entry_book_equity : Q -> TradeGroup -> TradeGroup := ltac:(assign entry_book_equity).
Definition set_hedge_instrument_name : string -> TradeGroup -> TradeGroup := ltac:(assign hedge_instrument_name).
Definition set_hedge_size_base : Q -> TradeGroup -> TradeGroup := ltac:(assign hedge_size_base).
Definition set_hedge_mode : string -> TradeGroup -> TradeGroup := ltac:(assign hedge_mode).
Definition set_hedge_recovery_streak : Z -> TradeGroup -> TradeGroup := ltac:(assign hedge_recovery_streak).
Definition set_current_debit : Q -> TradeGroup -> TradeGroup := ltac:(assign current_debit).
Definition set_mark_debit : Q -> TradeGroup -> TradeGroup := ltac:(assign mark_debit).
Definition set_current_close_fee : Q -> TradeGroup -> TradeGroup := ltac:(assign current_close_fee).
Definition set_current_close_fee_collateral : Q -> TradeGroup -> TradeGroup := ltac:(assign current_close_fee_collateral).
Definition set_short_delta : Q -> TradeGroup -> TradeGroup := ltac:(assign short_delta).
Definition set_profit_capture : Q -> TradeGroup -> TradeGroup := ltac:(assign profit_capture).
Definition set_status : string -> TradeGroup -> TradeGroup := ltac:(assign status).
Definition set_last_action : string -> TradeGroup -> TradeGroup := ltac:(assign last_action).
Definition set_close_incomplete_streak : Z -> TradeGroup -> TradeGroup := ltac:(assign close_incomplete_streak).
Definition set_hard_defense_streak : Z -> TradeGroup -> TradeGroup := ltac:(assign hard_defense_streak).
Definition set_soft_defense_streak : Z -> TradeGroup -> TradeGroup := ltac:(assign soft_defense_streak).
Definition set_itm_defense_streak : Z -> TradeGroup -> TradeGroup := ltac:(assign itm_defense_streak).
Definition set_closed_timestamp_ms : option Z -> TradeGroup -> TradeGroup := ltac:(assign closed_timestamp_ms).
Definition set_close_reason : string -> TradeGroup -> TradeGroup := ltac:(assign close_reason).
Definition set_realized_close_debit : option Q -> TradeGroup -> TradeGroup := ltac:(assign realized_close_debit).
Definition set_realized_close_fee : option Q -> TradeGroup -> TradeGroup := ltac:(assign realized_close_fee).
Definition set_close_fee_collateral : option Q -> TradeGroup -> TradeGroup := ltac:(assign close_fee_collateral).
Definition set_short_close_average_price : option Q -> TradeGroup -> TradeGroup := ltac:(assign short_close_average_price).
Definition set_close_index_usd : option Q -> TradeGroup -> TradeGroup := ltac:(assign close_index_usd).
Definition set_realized_pnl_collateral_native : option Q -> TradeGroup -> TradeGroup := ltac:(assign realized_pnl_collateral_native).
Definition set_realized_pnl : option Q -> TradeGroup -> TradeGroup := ltac:(assign realized_pnl).
Definition set_realized_return_on_max_loss : option Q -> TradeGroup -> TradeGroup := ltac:(assign realized_return_on_max_loss).
Definition set_realized_annualized_return : option Q -> TradeGroup -> TradeGroup := ltac:(assign realized_annualized_return).
Definition set_close_book_equity : option Q -> TradeGroup -> TradeGroup := ltac:(assign close_book_equity).
Definition set_realized_apr_on_equity : option Q -> TradeGroup -> TradeGroup := ltac:(assign realized_apr_on_equity).
Definition set_short_label : string -> TradeGroup -> TradeGroup := ltac:(assign short_label).
Definition set_hedge_label : string -> TradeGroup -> TradeGroup := ltac:(assign hedge_label).
Definition set_option_type : string -> TradeGroup -> TradeGroup := ltac:(assign option_type).
Definition set_strategy : string -> TradeGroup -> TradeGroup := ltac:(assign strategy).
Definition set_long_instrument_name : string -> TradeGroup -> TradeGroup := ltac:(assign long_instrument_name).
Definition set_long_strike : Q -> TradeGroup -> TradeGroup := ltac:(assign long_strike).
Definition set_long_label : string -> TradeGroup -> TradeGroup := ltac:(assign long_label).
Definition set_covered_underlying_quantity : Q -> TradeGroup -> TradeGroup := ltac:(assign covered_underlying_quantity).
Definition set_spot_exit_status : string -> TradeGroup -> TradeGroup := ltac:(assign spot_exit_status).
Definition set_spot_exit_amount : Q -> TradeGroup -> TradeGroup := ltac:(assign spot_exit_amount).
Definition set_spot_exit_instrument_name : string -> TradeGroup -> TradeGroup := ltac:(assign spot_exit_instrument_name).
Definition set_spot_exit_order_id : string -> TradeGroup -> TradeGroup := ltac:(assign spot_exit_order_id).
Definition set_spot_exit_reason : string -> TradeGroup -> TradeGroup := ltac:(assign spot_exit_reason).
Definition set_spot_exit_quote_proceeds : Q -> TradeGroup -> TradeGroup := ltac:(assign spot_exit_quote_proceeds).
Definition set_spot_exit_quote_proceeds_lifetime : Q -> TradeGroup -> TradeGroup := ltac:(assign spot_exit_quote_proceeds_lifetime).
Definition set_spot_exit_settlement_loss : Q -> TradeGroup -> TradeGroup := ltac:(assign spot_exit_settlement_loss).
Definition set_spot_exit_settlement_loss_source : string -> TradeGroup -> TradeGroup := ltac:(assign spot_exit_settlement_loss_source).
Definition set_spot_restore_status : string -> TradeGroup -> TradeGroup := ltac:(assign spot_restore_status).
Definition set_spot_restore_amount : Q -> TradeGroup -> TradeGroup := ltac:(assign spot_restore_amount).
Definition set_spot_restore_instrument_name : string -> TradeGroup -> TradeGroup := ltac:(assign spot_restore_instrument_name).
Definition set_spot_restore_order_id : string -> TradeGroup -> TradeGroup := ltac:(assign spot_restore_order_id).
Definition set_spot_restore_reason : string -> TradeGroup -> TradeGroup := ltac:(assign spot_restore_reason).
Definition set_spot_restore_quote_spent : Q -> TradeGroup -> TradeGroup := ltac:(assign spot_restore_quote_spent).
Definition set_spot_restore_quote_spent_lifetime : Q -> TradeGroup -> TradeGroup := ltac:(assign spot_restore_quote_spent_lifetime).
Definition set_profit_sweep_status : string -> TradeGroup -> TradeGroup := ltac:(assign profit_sweep_status).
Definition set_profit_sweep_amount : Q -> TradeGroup -> TradeGroup := ltac:(assign profit_sweep_amount).
Definition set_profit_sweep_instrument_name : string -> TradeGroup -> TradeGroup := ltac:(assign profit_sweep_instrument_name).
Definition set_profit_sweep_order_id : string -> TradeGroup -> TradeGroup := ltac:(assign profit_sweep_order_id).
Definition set_profit_sweep_quote_proceeds : Q -> TradeGroup -> TradeGroup := ltac:(assign profit_sweep_quote_proceeds).
Definition set_profit_sweep_quote_proceeds_lifetime : Q -> TradeGroup -> TradeGroup := ltac:(assign profit_sweep_quote_proceeds_lifetime).
Definition set_profit_sweep_exchange_native : Q -> TradeGroup -> TradeGroup := ltac:(assign profit_sweep_exchange_native).
Definition set_profit_sweep_exchange_quote_proceeds : Q -> TradeGroup -> TradeGroup := ltac:(assign profit_sweep_exchange_quote_proceeds).
Definition set_profit_sweep_reason : string -> TradeGroup -> TradeGroup := ltac:(assign profit_sweep_reason).
Definition set_cash_secured_status : string -> TradeGroup -> TradeGroup := ltac:(assign cash_secured_status).
Definition set_cash_secured_group_id : string -> TradeGroup -> TradeGroup := ltac:(assign cash_secured_group_id).
Definition set_cash_secured_group_ids : list string -> TradeGroup -> TradeGroup := ltac:(assign cash_secured_group_ids).
Definition set_cash_secured_reason : string -> TradeGroup -> TradeGroup := ltac:(assign cash_secured_reason).
Definition set_cash_secured_order_id : string -> TradeGroup -> TradeGroup := ltac:(assign cash_secured_order_id).
Definition set_cash_secured_instrument_name : string -> TradeGroup -> TradeGroup := ltac:(assign cash_secured_instrument_name).
Definition set_cash_secured_limit_price : Q -> TradeGroup -> TradeGroup := ltac:(assign cash_secured_limit_price).
Definition set_cash_secured_from_group_id : string -> TradeGroup -> TradeGroup := ltac:(assign cash_secured_from_group_id).
Definition set_csp_premium_swap_status : string -> TradeGroup -> TradeGroup := ltac:(assign csp_premium_swap_status).
Definition set_csp_premium_swap_amount : Q -> TradeGroup -> TradeGroup := ltac:(assign csp_premium_swap_amount).
Definition set_csp_premium_swap_instrument_name : string -> TradeGroup -> TradeGroup := ltac:(assign csp_premium_swap_instrument_name).
Definition set_csp_premium_swap_order_id : string -> TradeGroup -> TradeGroup := ltac:(assign csp_premium_swap_order_id).
Definition set_csp_premium_swap_native : Q -> TradeGroup -> TradeGroup := ltac:(assign csp_premium_swap_native).
Definition set_csp_premium_swap_reason : string -> TradeGroup -> TradeGroup := ltac:(assign csp_premium_swap_reason).

(** The constructor with the keyword defaults of the dataclass. *)
Definition new_group (group_id : string)
    (currency : string)
    (collateral_currency : string)
    (quantity : Q)
    (entry_timestamp_ms : Z)
    (expiration_timestamp_ms : Z)
    (short_instrument_name : string)
    (short_strike : Q)
    (entry_credit : Q)
    (original_entry_credit : Q)
    (max_loss : Q)
    (regime_at_entry : string) : TradeGroup := {|
  Group.group_id := group_id;
  Group.currency := currency;
  Group.collateral_currency := collateral_currency;
  Group.quantity := quantity;
  Group.entry_timestamp_ms := entry_timestamp_ms;
  Group.expiration_timestamp_ms := expiration_timestamp_ms;
  Group.short_instrument_name := short_instrument_name;
  Group.short_strike := short_strike;
  Group.entry_credit := entry_credit;
  Group.original_entry_credit := original_entry_credit;
  Group.max_loss := max_loss;
  Group.regime_at_entry := regime_at_entry;
  Group.estimated_im_collateral := 0;
  Group.entry_fee := 0;
  Group.entry_fee_collateral := 0;
  Group.short_entry_average_price := 0;
  Group.long_entry_average_price := 0;
  Group.long_close_average_price := None;
  Group.entry_index_usd := 0;
  Group.entry_net_apr := 0;
  Group.entry_book_equity := 0;
  Group.hedge_instrument_name := EmptyString;
  Group.hedge_size_base := 0;
  Group.hedge_mode := EmptyString;
  Group.hedge_recovery_streak := 0%Z;
  Group.current_debit := 0;
  Group.mark_debit := 0;
  Group.current_close_fee := 0;
  Group.current_close_fee_collateral := 0;
  Group.short_delta := 0;
  Group.profit_capture := 0;
  Group.status := "open"%string;
  Group.last_action := EmptyString;
  Group.close_incomplete_streak := 0%Z;
  Group.hard_defense_streak := 0%Z;
  Group.soft_defense_streak := 0%Z;
  Group.itm_defense_streak := 0%Z;
  Group.closed_timestamp_ms := None;
  Group.close_reason := EmptyString;
  Group.realized_close_debit := None;
  Group.realized_close_fee := None;
  Group.close_fee_collateral := None;
  Group.short_close_average_price := None;
  Group.close_index_usd := None;
  Group.realized_pnl_collateral_native := None;
  Group.realized_pnl := None;
  Group.realized_return_on_max_loss := None;
  Group.realized_annualized_return := None;
  Group.close_book_equity := None;
  Group.realized_apr_on_equity := None;
  Group.short_label := EmptyString;
  Group.hedge_label := EmptyString;
  Group.option_type := "put"%string;
  Group.strategy := EmptyString;
  Group.long_instrument_name := EmptyString;
  Group.long_strike := 0;
  Group.long_label := EmptyString;
  Group.covered_underlying_quantity := 0;
  Group.spot_exit_status := EmptyString;
  Group.spot_exit_amount := 0;
  Group.spot_exit_instrument_name := EmptyString;
  Group.spot_exit_order_id := EmptyString;
  Group.spot_exit_reason := EmptyString;
  Group.spot_exit_quote_proceeds := 0;
  Group.spot_exit_quote_proceeds_lifetime := 0;
  Group.spot_exit_settlement_loss := 0;
  Group.spot_exit_settlement_loss_source := EmptyString;
  Group.spot_restore_status := EmptyString;
  Group.spot_restore_amount := 0;
  Group.spot_restore_instrument_name := EmptyString;
  Group.spot_restore_order_id := EmptyString;
  Group.spot_restore_reason := EmptyString;
  Group.spot_restore_quote_spent := 0;
  Group.spot_restore_quote_spent_lifetime := 0;
  Group.profit_sweep_status := EmptyString;
  Group.profit_sweep_amount := 0;
  Group.profit_sweep_instrument_name := EmptyString;
  Group.profit_sweep_order_id := EmptyString;
  Group.profit_sweep_quote_proceeds := 0;
  Group.profit_sweep_quote_proceeds_lifetime := 0;
  Group.profit_sweep_exchange_native := 0;
  Group.profit_sweep_exchange_quote_proceeds := 0;
  Group.profit_sweep_reason := EmptyString;
  Group.cash_secured_status := EmptyString;
  Group.cash_secured_group_id := EmptyString;
  Group.cash_secured_group_ids := [];
  Group.cash_secured_reason := EmptyString;
  Group.cash_secured_order_id := EmptyString;
  Group.cash_secured_instrument_name := EmptyString;
  Group.cash_secured_limit_price := 0;
  Group.cash_secured_from_group_id := EmptyString;
  Group.csp_premium_swap_status := EmptyString;
  Group.csp_premium_swap_amount := 0;
  Group.csp_premium_swap_instrument_name := EmptyString;
  Group.csp_premium_swap_order_id := EmptyString;
  Group.csp_premium_swap_native := 0;
  Group.csp_premium_swap_reason := EmptyString;
|}.

(** ** Dynamic attributes

    The journal attributes the state merge reads and writes by name. *)

Inductive attr : Type :=
| A_spot_exit_status
| A_spot_exit_amount
| A_spot_exit_instrument_name
| A_spot_exit_order_id
| A_spot_exit_reason
| A_spot_exit_quote_proceeds
| A_spot_exit_quote_proceeds_lifetime
| A_spot_exit_settlement_loss
| A_spot_exit_settlement_loss_source
| A_spot_restore_status
| A_spot_restore_amount
| A_spot_restore_instrument_name
| A_spot_restore_order_id
| A_spot_restore_reason
| A_spot_restore_quote_spent
| A_spot_restore_quote_spent_lifetime
| A_profit_sweep_status
| A_profit_sweep_amount
| A_profit_sweep_instrument_name
| A_profit_sweep_order_id
| A_profit_sweep_quote_proceeds
| A_profit_sweep_quote_proceeds_lifetime
| A_profit_sweep_exchange_native
| A_profit_sweep_exchange_quote_proceeds
| A_profit_sweep_reason
| A_cash_secured_status
| A_cash_secured_group_id
| A_cash_secured_group_ids
| A_cash_secured_reason
| A_cash_secured_order_id
| A_cash_secured_instrument_name
| A_cash_secured_limit_price
| A_cash_secured_from_group_id
| A_csp_premium_swap_status
.

Definition attr_eqb (a b : attr) : bool :=
  match a, b with
  | A_spot_exit_status, A_spot_exit_status => true
  | A_spot_exit_amount, A_spot_exit_amount => true
  | A_spot_exit_instrument_name, A_spot_exit_instrument_name => true
  | A_spot_exit_order_id, A_spot_exit_order_id => true
  | A_spot_exit_reason, A_spot_exit_reason => true
  | A_spot_exit_quote_proceeds, A_spot_exit_quote_proceeds => true
  | A_spot_exit_quote_proceeds_lifetime, A_spot_exit_quote_proceeds_lifetime => true
  | A_spot_exit_settlement_loss, A_spot_exit_settlement_loss => true
  | A_spot_exit_settlement_loss_source, A_spot_exit_settlement_loss_source => true
  | A_spot_restore_status, A_spot_restore_status => true
  | A_spot_restore_amount, A_spot_restore_amount => true
  | A_spot_restore_instrument_name, A_spot_restore_instrument_name => true
  | A_spot_restore_order_id, A_spot_restore_order_id => true
  | A_spot_restore_reason, A_spot_restore_reason => true
  | A_spot_restore_quote_spent, A_spot_restore_quote_spent => true
  | A_spot_restore_quote_spent_lifetime, A_spot_restore_quote_spent_lifetime => true
  | A_profit_sweep_status, A_profit_sweep_status => true
  | A_profit_sweep_amount, A_profit_sweep_amount => true
  | A_profit_sweep_instrument_name, A_profit_sweep_instrument_name => true
  | A_profit_sweep_order_id, A_profit_sweep_order_id => true
  | A_profit_sweep_quote_proceeds, A_profit_sweep_quote_proceeds => true
  | A_profit_sweep_quote_proceeds_lifetime, A_profit_sweep_quote_proceeds_lifetime => true
  | A_profit_sweep_exchange_native, A_profit_sweep_exchange_native => true
  | A_profit_sweep_exchange_quote_proceeds, A_profit_sweep_exchange_quote_proceeds => true
  | A_profit_sweep_reason, A_profit_sweep_reason => true
  | A_cash_secured_status, A_cash_secured_status => true
  | A_cash_secured_group_id, A_cash_secured_group_id => true
  | A_cash_secured_group_ids, A_cash_secured_group_ids => true
  | A_cash_secured_reason, A_cash_secured_reason => true
  | A_cash_secured_order_id, A_cash_secured_order_id => true
  | A_cash_secured_instrument_name, A_cash_secured_instrument_name => true
  | A_cash_secured_limit_price, A_cash_secured_limit_price => true
  | A_cash_secured_from_group_id, A_cash_secured_from_group_id => true
  | A_csp_premium_swap_status, A_csp_premium_swap_status => true
  | _, _ => false
  end.

Inductive pyval : Type :=
| VStr (s : string)
| VDec (q : Q)
| VList (l : list string).

Definition getattr (g : TradeGroup) (a : attr) : pyval :=
  match a with
  | A_spot_exit_status => VStr g.(spot_exit_status)
  | A_spot_exit_amount => VDec g.(spot_exit_amount)
  | A_spot_exit_instrument_name => VStr g.(spot_exit_instrument_name)
  | A_spot_exit_order_id => VStr g.(spot_exit_order_id)
  | A_spot_exit_reason => VStr g.(spot_exit_reason)
  | A_spot_exit_quote_proceeds => VDec g.(spot_exit_quote_proceeds)
  | A_spot_exit_quote_proceeds_lifetime => VDec g.(spot_exit_quote_proceeds_lifetime)
  | A_spot_exit_settlement_loss => VDec g.(spot_exit_settlement_loss)
  | A_spot_exit_settlement_loss_source => VStr g.(spot_exit_settlement_loss_source)
  | A_spot_restore_status => VStr g.(spot_restore_status)
  | A_spot_restore_amount => VDec g.(spot_restore_amount)
  | A_spot_restore_instrument_name => VStr g.(spot_restore_instrument_name)
  | A_spot_restore_order_id => VStr g.(spot_restore_order_id)
  | A_spot_restore_reason => VStr g.(spot_restore_reason)
  | A_spot_restore_quote_spent => VDec g.(spot_restore_quote_spent)
  | A_spot_restore_quote_spent_lifetime => VDec g.(spot_restore_quote_spent_lifetime)
  | A_profit_sweep_status => VStr g.(profit_sweep_status)
  | A_profit_sweep_amount => VDec g.(profit_sweep_amount)
  | A_profit_sweep_instrument_name => VStr g.(profit_sweep_instrument_name)
  | A_profit_sweep_order_id => VStr g.(profit_sweep_order_id)
  | A_profit_sweep_quote_proceeds => VDec g.(profit_sweep_quote_proceeds)
  | A_profit_sweep_quote_proceeds_lifetime => VDec g.(profit_sweep_quote_proceeds_lifetime)
  | A_profit_sweep_exchange_native => VDec g.(profit_sweep_exchange_native)
  | A_profit_sweep_exchange_quote_proceeds => VDec g.(profit_sweep_exchange_quote_proceeds)
  | A_profit_sweep_reason => VStr g.(profit_sweep_reason)
  | A_cash_secured_status => VStr g.(cash_secured_status)
  | A_cash_secured_group_id => VStr g.(cash_secured_group_id)
  | A_cash_secured_group_ids => VList g.(cash_secured_group_ids)
  | A_cash_secured_reason => VStr g.(cash_secured_reason)
  | A_cash_secured_order_id => VStr g.(cash_secured_order_id)
  | A_cash_secured_instrument_name => VStr g.(cash_secured_instrument_name)
  | A_cash_secured_limit_price => VDec g.(cash_secured_limit_price)
  | A_cash_secured_from_group_id => VStr g.(cash_secured_from_group_id)
  | A_csp_premium_swap_status => VStr g.(csp_premium_swap_status)
  end.

(** Assignments of a value of the attribute's own type. The callers only copy a
    value read from the same attribute, or one checked with [isinstance]. *)
Definition setattr (g : TradeGroup) (a : attr) (v : pyval) : TradeGroup :=
  match a, v with
  | A_spot_exit_status, VStr x => set_spot_exit_status x g
  | A_spot_exit_amount, VDec x => set_spot_exit_amount x g
  | A_spot_exit_instrument_name, VStr x => set_spot_exit_instrument_name x g
  | A_spot_exit_order_id, VStr x => set_spot_exit_order_id x g
  | A_spot_exit_reason, VStr x => set_spot_exit_reason x g
  | A_spot_exit_quote_proceeds, VDec x => set_spot_exit_quote_proceeds x g
  | A_spot_exit_quote_proceeds_lifetime, VDec x => set_spot_exit_quote_proceeds_lifetime x g
  | A_spot_exit_settlement_loss, VDec x => set_spot_exit_settlement_loss x g
  | A_spot_exit_settlement_loss_source, VStr x => set_spot_exit_settlement_loss_source x g
  | A_spot_restore_status, VStr x => set_spot_restore_status x g
  | A_spot_restore_amount, VDec x => set_spot_restore_amount x g
  | A_spot_restore_instrument_name, VStr x => set_spot_restore_instrument_name x g
  | A_spot_restore_order_id, VStr x => set_spot_restore_order_id x g
  | A_spot_restore_reason, VStr x => set_spot_restore_reason x g
  | A_spot_restore_quote_spent, VDec x => set_spot_restore_quote_spent x g
  | A_spot_restore_quote_spent_lifetime, VDec x => set_spot_restore_quote_spent_lifetime x g
  | A_profit_sweep_status, VStr x => set_profit_sweep_status x g
  | A_profit_sweep_amount, VDec x => set_profit_sweep_amount x g
  | A_profit_sweep_instrument_name, VStr x => set_profit_sweep_instrument_name x g
  | A_profit_sweep_order_id, VStr x => set_profit_sweep_order_id x g
  | A_profit_sweep_quote_proceeds, VDec x => set_profit_sweep_quote_proceeds x g
  | A_profit_sweep_quote_proceeds_lifetime, VDec x => set_profit_sweep_quote_proceeds_lifetime x g
  | A_profit_sweep_exchange_native, VDec x => set_profit_sweep_exchange_native x g
  | A_profit_sweep_exchange_quote_proceeds, VDec x => set_profit_sweep_exchange_quote_proceeds x g
  | A_profit_sweep_reason, VStr x => set_profit_sweep_reason x g
  | A_cash_secured_status, VStr x => set_cash_secured_status x g
  | A_cash_secured_group_id, VStr x => set_cash_secured_group_id x g
  | A_cash_secured_group_ids, VList x => set_cash_secured_group_ids x g
  | A_cash_secured_reason, VStr x => set_cash_secured_reason x g
  | A_cash_secured_order_id, VStr x => set_cash_secured_order_id x g
  | A_cash_secured_instrument_name, VStr x => set_cash_secured_instrument_name x g
  | A_cash_secured_limit_price, VDec x => set_cash_secured_limit_price x g
  | A_cash_secured_from_group_id, VStr x => set_cash_secured_from_group_id x g
  | A_csp_premium_swap_status, VStr x => set_csp_premium_swap_status x g
  | _, _ => g
  end.

(** The Python type of an attribute's values. *)
Definition same_type (u v : pyval) : bool :=
  match u, v with
  | VStr _, VStr _ | VDec _, VDec _ | VList _, VList _ => true
  | _, _ => false
  end.

Lemma attr_eqb_spec a b : reflect (a = b) (attr_eqb a b).
Proof. destruct a, b; constructor; congruence. Qed.

Lemma getattr_setattr_same g a v : same_type (getattr g a) v = true -> getattr (setattr g a v) a = v.
Proof. destruct a, v; cbn; congruence. Qed.

Lemma getattr_setattr_other g a b v : a <> b -> getattr (setattr g a v) b = getattr g b.
Proof. intros H. destruct a, v; try reflexivity; destruct b; try reflexivity; congruence. Qed.

Lemma getattr_type g h a : same_type (getattr g a) (getattr h a) = true.
Proof. destruct a; reflexivity. Qed.

Lemma getattr_setattr g a b v : same_type (getattr g a) v = true ->
  getattr (setattr g a v) b = if attr_eqb a b then v else getattr g b.
Proof.
  intros H. destruct (attr_eqb_spec a b) as [<-|N]; [apply getattr_setattr_same, H | apply getattr_setattr_other, N].
Qed.

Definition _SPOT_EXIT_FIELDS : list attr :=
  [A_spot_exit_status;
   A_spot_exit_amount;
   A_spot_exit_instrument_name;
   A_spot_exit_order_id;
   A_spot_exit_reason;
   A_spot_exit_quote_proceeds;
   A_spot_exit_quote_proceeds_lifetime;
   A_spot_exit_settlement_loss;
   A_spot_exit_settlement_loss_source].

Definition _SPOT_RESTORE_FIELDS : list attr :=
  [A_spot_restore_status;
   A_spot_restore_amount;
   A_spot_restore_instrument_name;
   A_spot_restore_order_id;
   A_spot_restore_reason;
   A_spot_restore_quote_spent;
   A_spot_restore_quote_spent_lifetime].

Definition _PROFIT_SWEEP_FIELDS : list attr :=
  [A_profit_sweep_status;
   A_profit_sweep_amount;
   A_profit_sweep_instrument_name;
   A_profit_sweep_order_id;
   A_profit_sweep_quote_proceeds;
   A_profit_sweep_quote_proceeds_lifetime;
   A_profit_sweep_exchange_native;
   A_profit_sweep_exchange_quote_proceeds;
   A_profit_sweep_reason].

Definition _CASH_SECURED_FIELDS : list attr :=
  [A_cash_secured_status;
   A_cash_secured_group_id;
   A_cash_secured_group_ids;
   A_cash_secured_reason;
   A_cash_secured_order_id;
   A_cash_secured_instrument_name;
   A_cash_secured_limit_price;
   A_cash_secured_from_group_id].
