(* ===== verification/Ledger.v ===== *)
(** The ledger methods of [TradeGroup] ([deribit_engine/models.py]): resolution of
    fill prices, indices and fees of a position, the coin and USDC ledgers derived
    from them, and realised profit. A method that assigns attributes returns the
    updated group; [let '(g, x) := ...] threads it as Python threads [self]. *)

From S2P Require Import Prelude Dec PyStr Utils Fees TradeApr Group.
Local Open Scope Q_scope.
Local Open Scope dec_scope.
Local Open Scope bool_scope.

(** [value or Decimal("0")] of an optional decimal. *)
Definition or_zero (v : option Q) : Q := match v with Some q => q | None => 0 end.
Definition opt_pos (v : option Q) : bool := match v with Some q => q >? 0 | None => false end.
(** [a != b] of an optional decimal and a decimal. *)
Definition opt_neq (v : option Q) (q : Q) : bool := match v with Some x => negb (x =? q) | None => true end.
Definition pos_opt (q : Q) : option Q := if q >? 0 then Some q else None.

Definition default_fee_rate : Q := 0.0003.
Definition default_fee_cap_rate : Q := 0.125.

(** ** Classification *)

Definition collateral_book (g : TradeGroup) : string :=
  upper (str_or g.(collateral_currency) (str_or g.(currency) "USDC")).

Definition is_coin_collateral (g : TradeGroup) : bool := mem_str (collateral_book g) ["BTC"%string; "ETH"%string].

Definition _plausible_underlying_index (value : option Q) : option Q :=
  match value with
  | None => None
  | Some v => if v <=? 100 then None else Some v
  end.

Definition is_covered_call_group (g : TradeGroup) : bool :=
  if negb (String.eqb (lower g.(option_type)) "call") then false
  else String.eqb g.(strategy) "covered_call"
       || (g.(covered_underlying_quantity) >? 0)
       || startswith "covered_call-" g.(short_label).

Definition is_cash_secured_group (g : TradeGroup) : bool :=
  String.eqb g.(strategy) "cash_secured" || truthy (strip g.(cash_secured_from_group_id)).

Fixpoint _resolved_index_usd (candidates : list (option Q)) : option Q :=
  match candidates with
  | [] => None
  | c :: rest => if opt_pos c then c else _resolved_index_usd rest
  end.

Definition underlying_index_usd_for_apr (g : TradeGroup) : Q :=
  if negb (String.eqb (collateral_book g) "USDC") then
    or_zero (_resolved_index_usd [Some g.(entry_index_usd); g.(close_index_usd)])
  else if negb (String.eqb (lower (str_or g.(option_type) "put")) "call") then 0
  else
    match _plausible_underlying_index (Some g.(entry_index_usd)) with
    | Some v => v
    | None =>
        match _plausible_underlying_index g.(close_index_usd) with
        | Some v => v
        | None => if g.(short_strike) >? 100 then g.(short_strike) else 0
        end
    end.

(** ** Losses of an open position *)

Definition loss_amount (g : TradeGroup) : Q := dmax (g.(current_debit) ⊖ g.(entry_credit)) 0.

Definition loss_pct_of_max_loss (g : TradeGroup) : Q := safe_div (loss_amount g) g.(max_loss) 0.

Definition mark_loss_amount (g : TradeGroup) : Q :=
  let debit := if g.(mark_debit) >? 0 then g.(mark_debit) else g.(current_debit) in
  dmax (debit ⊖ g.(entry_credit)) 0.

Definition mark_loss_pct_of_max_loss (g : TradeGroup) : Q := safe_div (mark_loss_amount g) g.(max_loss) 0.

Definition group_holding_days (g : TradeGroup) : Q :=
  match g.(closed_timestamp_ms) with
  | None => 0
  | Some closed =>
      if (g.(entry_timestamp_ms) <=? 0)%Z then 0
      else inject_Z (Z.max (closed - g.(entry_timestamp_ms)) 0) ⊘ 86400000
  end.

(** ** Fill prices and indices *)

Definition _premium_native_from_price (g : TradeGroup) (price index_usd gross_usdc : option Q) : option Q :=
  if g.(quantity) <=? 0 then None
  else if opt_pos price then Some (premium_value_native (or_zero price) g.(quantity))
  else match gross_usdc, index_usd with
       | Some gross, Some index => if index >? 0 then Some (gross ⊘ index) else None
       | _, _ => None
       end.

Definition _premium_price_plausible (g : TradeGroup) (price : Q) : bool :=
  if price <=? 0 then false
  else
    let book := collateral_book g in
    if String.eqb book "ETH" then price <? 3
    else if String.eqb book "BTC" then price <? 0.25
    else true.

Definition infer_indices_from_fill_prices (g : TradeGroup) : TradeGroup :=
  let qty := g.(quantity) in
  if qty <=? 0 then g
  else if negb (is_coin_collateral g) then g
  else
    let g :=
      if (g.(short_entry_average_price) >? 0) && (g.(entry_index_usd) <=? 0) then
        let gross := g.(entry_credit) ⊕ g.(entry_fee) in
        let denom := g.(short_entry_average_price) ⊗ qty in
        if (denom >? 0) && (gross >? 0) then set_entry_index_usd (gross ⊘ denom) g else g
      else g in
    match g.(short_close_average_price), g.(realized_close_debit) with
    | Some px, Some debit =>
        if (px >? 0) && negb (opt_pos g.(close_index_usd)) && is_coin_collateral g then
          let close_fee := or_zero g.(realized_close_fee) in
          let premium_usdc := dmax (debit ⊖ close_fee) 0 in
          let denom := px ⊗ qty in
          if (denom >? 0) && (premium_usdc >? 0) then set_close_index_usd (Some (premium_usdc ⊘ denom)) g else g
        else g
    | _, _ => g
    end.

(** A [trade_executions] row: the columns the method reads. *)
Record journal_row : Type := {
  row_instrument_name : string;
  row_leg : string;
  row_price : Q;
  row_event_type : string;
  row_source_action : string;
  row_extra_source : string;
  row_extra_synthetic : bool;
}.

Definition _journal_row_priority (row : journal_row) : Z :=
  if String.eqb row.(row_extra_source) "deribit_api"
     || mem_str row.(row_source_action) ["backfill_api"%string; "backfill_api_instrument"%string] then 0
  else if row.(row_extra_synthetic) || String.eqb row.(row_source_action) "backfill_state" then 10
  else 5.

Definition better_row (best : option (Z * Q)) (rank : Z) (price : Q) : option (Z * Q) :=
  match best with
  | Some (r, _) => if (rank <? r)%Z then Some (rank, price) else best
  | None => Some (rank, price)
  end.

(** One iteration of the loop over the rows: the best opening and closing fill. *)
Definition journal_step (g : TradeGroup) (best : option (Z * Q) * option (Z * Q)) (row : journal_row)
    : option (Z * Q) * option (Z * Q) :=
  let '(best_open, best_close) := best in
  if negb (String.eqb row.(row_instrument_name) g.(short_instrument_name)) then best
  else if negb (mem_str (str_or row.(row_leg) "short") [EmptyString; "short"%string]) then best
  else if negb (_premium_price_plausible g row.(row_price)) then best
  else
    let event := lower row.(row_event_type) in
    let rank := _journal_row_priority row in
    if String.eqb event "open" then (better_row best_open rank row.(row_price), best_close)
    else if String.eqb event "close" then (best_open, better_row best_close rank row.(row_price))
    else best.

Definition enrich_fill_prices_from_journal (g : TradeGroup) (executions : list journal_row) : TradeGroup :=
  match executions with
  | [] => g
  | _ :: _ =>
      if is_empty g.(short_instrument_name) then g
      else
        let '(best_open, best_close) := fold_left (journal_step g) executions (None, None) in
        let g := match best_open with
                 | Some (_, p) => if g.(short_entry_average_price) <=? 0 then set_short_entry_average_price p g else g
                 | None => g
                 end in
        let g := match best_close with
                 | Some (_, p) => if negb (opt_pos g.(short_close_average_price))
                                  then set_short_close_average_price (Some p) g else g
                 | None => g
                 end in
        infer_indices_from_fill_prices g
  end.

Definition enrich_fill_prices_from_ledger_spot (g : TradeGroup) (spot_index_usd : Q) : TradeGroup :=
  if negb (is_coin_collateral g) || (spot_index_usd <=? 0) || (g.(quantity) <=? 0) then g
  else
    let qty := g.(quantity) in
    let g :=
      if g.(short_entry_average_price) <=? 0 then
        let gross := g.(entry_credit) ⊕ g.(entry_fee) in
        if gross >? 0 then
          let px := gross ⊘ (qty ⊗ spot_index_usd) in
          if _premium_price_plausible g px then set_short_entry_average_price px g else g
        else g
      else g in
    let g :=
      match negb (opt_pos g.(short_close_average_price)), g.(realized_close_debit) with
      | true, Some debit =>
          let close_fee := or_zero g.(realized_close_fee) in
          let premium_usdc := dmax (debit ⊖ close_fee) 0 in
          if premium_usdc >? 0 then
            let px := premium_usdc ⊘ (qty ⊗ spot_index_usd) in
            if _premium_price_plausible g px then set_short_close_average_price (Some px) g else g
          else g
      | _, _ => g
      end in
    infer_indices_from_fill_prices g.

Definition _ledger_entry_amount_from_close_index (g : TradeGroup) : TradeGroup * option Q :=
  match g.(realized_close_debit) with
  | None => (g, None)
  | Some _ =>
      let g := infer_indices_from_fill_prices g in
      match _resolved_index_usd [g.(close_index_usd); Some g.(entry_index_usd)] with
      | None => (g, None)
      | Some idx =>
          let gross := g.(entry_credit) ⊕ g.(entry_fee) in
          if gross <=? 0 then (g, None) else (g, Some (gross ⊘ idx))
      end
  end.

Definition _ledger_exit_amount_from_entry_index (g : TradeGroup) : TradeGroup * option Q :=
  match g.(realized_close_debit) with
  | None => (g, None)
  | Some _ =>
      let g := infer_indices_from_fill_prices g in
      match _resolved_index_usd [Some g.(entry_index_usd); g.(close_index_usd)] with
      | None => (g, None)
      | Some idx =>
          let close_fee := or_zero g.(realized_close_fee) in
          let gross := dmax (or_zero g.(realized_close_debit) ⊖ close_fee) 0 in
          if gross <=? 0 then (g, None) else (g, Some (gross ⊘ idx))
      end
  end.

(** The long leg of a spread is subtracted when its premium is known. *)
Definition net_of_long (g : TradeGroup) (short : Q) (long : option Q) : Q :=
  if is_empty g.(long_instrument_name) then short
  else match long with Some l => short ⊖ l | None => short end.

Definition entry_amount_native (g : TradeGroup) : TradeGroup * option Q :=
  let idx_entry := _resolved_index_usd [Some g.(entry_index_usd)] in
  let gross_usdc := g.(entry_credit) ⊕ g.(entry_fee) in
  let '(g, short) :=
    match _premium_native_from_price g (pos_opt g.(short_entry_average_price)) idx_entry
            (match idx_entry with Some _ => Some gross_usdc | None => None end) with
    | Some s => (g, Some s)
    | None => _ledger_entry_amount_from_close_index g
    end in
  match short with
  | None => (g, None)
  | Some s =>
      let long := _premium_native_from_price g (pos_opt g.(long_entry_average_price)) idx_entry None in
      (g, Some (net_of_long g s long))
  end.

Definition exit_amount_native (g : TradeGroup) : TradeGroup * option Q :=
  let close_fee := or_zero g.(realized_close_fee) in
  let gross_usdc := option_map (fun d => dmax (d ⊖ close_fee) 0) g.(realized_close_debit) in
  let idx_close := _resolved_index_usd [g.(close_index_usd); Some g.(entry_index_usd)] in
  let short_px := if opt_pos g.(short_close_average_price) then g.(short_close_average_price) else None in
  let '(g, short) :=
    match _premium_native_from_price g short_px idx_close gross_usdc with
    | Some s => (g, Some s)
    | None => _ledger_exit_amount_from_entry_index g
    end in
  match short with
  | None => (g, None)
  | Some s =>
      let long_px := if opt_pos g.(long_close_average_price) then g.(long_close_average_price) else None in
      let long := _premium_native_from_price g long_px idx_close None in
      (g, Some (net_of_long g s long))
  end.

(** ** Fees in the collateral coin *)

Definition resolved_short_entry_price (g : TradeGroup) : Q :=
  if g.(short_entry_average_price) >? 0 then g.(short_entry_average_price)
  else if truthy g.(long_instrument_name) then 0
  else
    let idx := if (g.(entry_index_usd) <=? 0) && opt_pos g.(close_index_usd)
               then or_zero g.(close_index_usd) else g.(entry_index_usd) in
    if (idx <=? 0) || (g.(quantity) <=? 0) then 0
    else
      let gross_usdc := g.(entry_credit) ⊕ g.(entry_fee) in
      safe_div gross_usdc (g.(quantity) ⊗ idx) 0.

Definition resolved_short_close_price (g : TradeGroup) : Q :=
  if opt_pos g.(short_close_average_price) then or_zero g.(short_close_average_price)
  else if is_coin_collateral g then 0
  else
    let idx := match g.(close_index_usd) with
               | Some c => if c =? 0 then g.(entry_index_usd) else c
               | None => g.(entry_index_usd)
               end in
    match g.(realized_close_debit) with
    | None => 0
    | Some debit =>
        if (idx <=? 0) || (g.(quantity) <=? 0) then 0
        else
          let fee := or_zero g.(realized_close_fee) in
          let premium_usdc := dmax (debit ⊖ fee) 0 in
          safe_div premium_usdc (g.(quantity) ⊗ idx) 0
    end.

Definition resolved_entry_fee_collateral (g : TradeGroup) : option Q :=
  if negb (is_coin_collateral g) then None
  else if g.(entry_fee_collateral) >? 0 then Some g.(entry_fee_collateral)
  else
    let qty := g.(quantity) in
    if qty <=? 0 then None
    else
      let leg px := inverse_option_fee_native_per_contract px default_fee_rate default_fee_cap_rate 0 ⊗ qty in
      let total := 0 in
      let total := if g.(short_entry_average_price) >? 0
                   then total ⊕ leg g.(short_entry_average_price) else total in
      let total := if truthy g.(long_instrument_name) && (g.(long_entry_average_price) >? 0)
                   then total ⊕ leg g.(long_entry_average_price) else total in
      if total >? 0 then Some total else None.

Definition resolved_close_fee_collateral (g : TradeGroup) : option Q :=
  if negb (is_coin_collateral g) then None
  else if opt_pos g.(close_fee_collateral) then g.(close_fee_collateral)
  else if String.eqb g.(status) "open" && (g.(current_close_fee_collateral) >? 0)
  then Some g.(current_close_fee_collateral)
  else
    let qty := g.(quantity) in
    if qty <=? 0 then None
    else
      let leg px := inverse_option_fee_native_total px qty default_fee_rate default_fee_cap_rate 0 in
      let total := 0 in
      let short_px := resolved_short_close_price g in
      let total := if short_px >? 0 then total ⊕ leg short_px else total in
      let total := if opt_pos g.(long_close_average_price) && truthy g.(long_instrument_name)
                   then total ⊕ leg (or_zero g.(long_close_average_price)) else total in
      if total >? 0 then Some total else None.

Definition _coin_gross_entry_native (g : TradeGroup) : option Q :=
  if (g.(short_entry_average_price) <=? 0) || (g.(quantity) <=? 0) then None
  else
    let gross := g.(short_entry_average_price) ⊗ g.(quantity) in
    Some (if truthy g.(long_instrument_name) && (g.(long_entry_average_price) >? 0)
          then gross ⊖ g.(long_entry_average_price) ⊗ g.(quantity) else gross).

Definition _coin_gross_exit_native (g : TradeGroup) : option Q :=
  let short_px := resolved_short_close_price g in
  if (short_px <=? 0) || (g.(quantity) <=? 0) then None
  else
    let gross := short_px ⊗ g.(quantity) in
    Some (if opt_pos g.(long_close_average_price) && truthy g.(long_instrument_name)
          then gross ⊖ or_zero g.(long_close_average_price) ⊗ g.(quantity) else gross).

(** ** The ledgers *)

(** [if self.f != v: self.f = v; changed = True] *)
Definition assign_dec (get : TradeGroup -> Q) (set : Q -> TradeGroup -> TradeGroup) (v : Q)
    (s : TradeGroup * bool) : TradeGroup * bool :=
  let '(g, changed) := s in if get g =? v then s else (set v g, true).

Definition assign_opt (get : TradeGroup -> option Q) (set : option Q -> TradeGroup -> TradeGroup) (v : Q)
    (s : TradeGroup * bool) : TradeGroup * bool :=
  let '(g, changed) := s in if opt_neq (get g) v then (set (Some v) g, true) else s.

Definition apply_coin_close_from_native (g : TradeGroup) (short_close_premium index_usd : Q)
    (close_fee_coll : option Q) : TradeGroup * bool :=
  if negb (is_coin_collateral g) || (short_close_premium <=? 0) || (g.(quantity) <=? 0) then (g, false)
  else
    let fee := match close_fee_coll with
               | Some f => f
               | None => inverse_option_fee_native_total short_close_premium g.(quantity)
                           default_fee_rate default_fee_cap_rate 0
               end in
    if fee <? 0 then (g, false)
    else
      let index := if index_usd <=? 0
                   then _resolved_index_usd [g.(close_index_usd); Some g.(entry_index_usd)]
                   else Some index_usd in
      match index with
      | None => (g, false)
      | Some index_usd =>
          let gross_native := short_close_premium ⊗ g.(quantity) in
          let gross_native := if truthy g.(long_instrument_name) && opt_pos g.(long_close_average_price)
                              then gross_native ⊖ or_zero g.(long_close_average_price) ⊗ g.(quantity)
                              else gross_native in
          let new_debit := (gross_native ⊕ fee) ⊗ index_usd in
          let new_fee := fee ⊗ index_usd in
          let s := (g, false) in
          let s := assign_opt short_close_average_price set_short_close_average_price short_close_premium s in
          let s := assign_opt close_index_usd set_close_index_usd index_usd s in
          let s := assign_opt close_fee_collateral set_close_fee_collateral fee s in
          let s := assign_opt realized_close_fee set_realized_close_fee new_fee s in
          let s := assign_opt realized_close_debit set_realized_close_debit new_debit s in
          let s := assign_dec current_close_fee set_current_close_fee new_fee s in
          let s := assign_dec current_close_fee_collateral set_current_close_fee_collateral fee s in
          assign_dec current_debit set_current_debit new_debit s
      end.

(** The entry side of [backfill_coin_collateral_ledger]. *)
Definition backfill_entry (g : TradeGroup) : TradeGroup * bool :=
  match _coin_gross_entry_native g, resolved_entry_fee_collateral g with
  | Some gross_entry, Some entry_fee_native =>
      if entry_fee_native >? 0 then
        let s := assign_dec entry_fee_collateral set_entry_fee_collateral entry_fee_native (g, false) in
        if g.(entry_index_usd) >? 0 then
          let net_native := gross_entry ⊖ entry_fee_native in
          let new_credit := net_native ⊗ g.(entry_index_usd) in
          let new_fee := entry_fee_native ⊗ g.(entry_index_usd) in
          let s := assign_dec entry_credit set_entry_credit new_credit s in
          let s := assign_dec original_entry_credit set_original_entry_credit new_credit s in
          assign_dec entry_fee set_entry_fee new_fee s
        else s
      else (g, false)
  | _, _ => (g, false)
  end.

(** Its close side. *)
Definition backfill_close (g : TradeGroup) : TradeGroup * bool :=
  let short_px := resolved_short_close_price g in
  match _resolved_index_usd [g.(close_index_usd); Some g.(entry_index_usd)] with
  | Some idx_mark =>
      if short_px >? 0
      then apply_coin_close_from_native g short_px idx_mark (resolved_close_fee_collateral g)
      else (g, false)
  | None => (g, false)
  end.

Definition backfill_coin_collateral_ledger (g : TradeGroup) : TradeGroup * bool :=
  if negb (is_coin_collateral g) then (g, false)
  else if g.(quantity) <=? 0 then (g, false)
  else
    let '(g, changed) := backfill_entry g in
    let '(g, changed') := backfill_close g in
    (g, changed || changed').

(** ** Realised profit *)

Definition fees_native (g : TradeGroup) (index_fallback_usd : option Q) : option Q :=
  let idx_close := _resolved_index_usd [g.(close_index_usd); index_fallback_usd] in
  let idx_entry := _resolved_index_usd [Some g.(entry_index_usd); idx_close; index_fallback_usd] in
  let entry :=
    match resolved_entry_fee_collateral g with
    | Some f => Some (0 ⊕ f)
    | None => if g.(entry_fee) >? 0
              then option_map (fun i => 0 ⊕ (g.(entry_fee) ⊘ i)) idx_entry
              else Some 0
    end in
  match entry with
  | None => None
  | Some total =>
      match resolved_close_fee_collateral g with
      | Some f => Some (total ⊕ f)
      | None =>
          let close_fee := or_zero g.(realized_close_fee) in
          if close_fee >? 0 then option_map (fun i => total ⊕ (close_fee ⊘ i)) idx_close else Some total
      end
  end.

Definition compute_realized_pnl_native (g : TradeGroup) (index_fallback_usd : option Q) : TradeGroup * option Q :=
  if negb (is_coin_collateral g) then (g, None)
  else
    let '(g, entry_amount) := entry_amount_native g in
    let '(g, exit_amount) := exit_amount_native g in
    let fees := fees_native g index_fallback_usd in
    (g, match entry_amount, exit_amount, fees with
        | Some e, Some x, Some f => Some (e ⊖ x ⊖ f)
        | _, _, _ => None
        end).

Definition economic_close_debit_usdc (g : TradeGroup) : option Q :=
  match g.(realized_close_debit) with
  | None => None
  | Some close_debit =>
      let close_fee := or_zero g.(realized_close_fee) in
      if close_fee <=? 0 then Some close_debit
      else
        match g.(realized_pnl) with
        | Some pnl =>
            let entry_net := g.(entry_credit) in
            if dabs (pnl ⊖ (entry_net ⊖ close_debit)) <=? 0.000001
            then Some (close_debit ⊕ close_fee) else Some close_debit
        | None => Some close_debit
        end
  end.

Definition entry_credit_net_usdc (g : TradeGroup) : Q :=
  let fee := g.(entry_fee) in
  if fee <=? 0 then g.(entry_credit)
  else
    let idx := g.(entry_index_usd) in
    if (g.(short_entry_average_price) >? 0) && (idx >? 0) && (g.(quantity) >? 0) then
      let gross := g.(short_entry_average_price) ⊗ g.(quantity) ⊗ idx in
      let tol := dmax 0.01 (dabs gross ⊗ 0.001) in
      if dabs (gross ⊖ g.(entry_credit)) <=? tol then g.(entry_credit) ⊖ fee
      else if dabs (gross ⊖ (g.(entry_credit) ⊕ fee)) <=? tol then g.(entry_credit)
      else g.(entry_credit)
    else g.(entry_credit).

Definition entry_net_credit_collateral (g : TradeGroup) : TradeGroup * option Q :=
  if String.eqb (collateral_book g) "USDC" then (g, pos_opt (entry_credit_net_usdc g))
  else
    let '(g, gross) := entry_amount_native g in
    match gross, resolved_entry_fee_collateral g with
    | Some gross, Some fee => (g, pos_opt (gross ⊖ fee))
    | _, _ =>
        let net_usdc := entry_credit_net_usdc g in
        if net_usdc <=? 0 then (g, None)
        else (g, option_map (fun idx => net_usdc ⊘ idx)
                   (_resolved_index_usd [Some g.(entry_index_usd); g.(close_index_usd)]))
    end.

Definition entry_net_apr_at_open (g : TradeGroup) (contract_size : Q) : TradeGroup * Q :=
  let '(g, net) := entry_net_credit_collateral g in
  match net with
  | None => (g, 0)
  | Some net =>
      if net <=? 0 then (g, 0)
      else
        let cs := pos_or_one contract_size in
        let qty := pos_or_one g.(quantity) in
        let strat := str_or g.(strategy) "naked_short" in
        let strat := if negb (String.eqb strat "covered_call") && (g.(covered_underlying_quantity) >? 0)
                        && String.eqb g.(option_type) "call" then "covered_call"%string else strat in
        let g := if String.eqb strat "covered_call" && (g.(covered_underlying_quantity) <=? 0)
                 then set_covered_underlying_quantity qty g else g in
        let book := collateral_book g in
        let idx := if String.eqb book "USDC" then underlying_index_usd_for_apr g
                   else if g.(entry_index_usd) <=? 0 then or_zero g.(close_index_usd) else g.(entry_index_usd) in
        if String.eqb book "USDC" && String.eqb (lower g.(option_type)) "call" && (idx <=? 0) then (g, 0)
        else
          let p := {| TradeApr.strategy := strat; TradeApr.collateral_currency := book;
                      TradeApr.option_type := str_or g.(option_type) "put"; TradeApr.quantity := qty;
                      TradeApr.contract_size := cs; TradeApr.strike := g.(short_strike);
                      TradeApr.index_price_usd := idx;
                      TradeApr.estimated_im_collateral := g.(estimated_im_collateral);
                      TradeApr.covered_underlying_quantity := g.(covered_underlying_quantity) |} in
          (g, entry_net_apr_from_actual_open p net g.(entry_timestamp_ms) g.(expiration_timestamp_ms))
  end.

Definition compute_coin_profit_native (g : TradeGroup) (allow_ledger_spot_infer : bool) : TradeGroup * option Q :=
  if negb (is_coin_collateral g) then (g, None)
  else
    let '(g, _) := backfill_coin_collateral_ledger g in
    let '(g, native) := compute_realized_pnl_native g None in
    match native with
    | Some n => (g, Some n)
    | None =>
        if negb allow_ledger_spot_infer then (g, None)
        else
          match _resolved_index_usd [g.(close_index_usd); Some g.(entry_index_usd)] with
          | None => (g, None)
          | Some idx =>
              let g := enrich_fill_prices_from_ledger_spot g idx in
              compute_realized_pnl_native g None
          end
    end.

(** [backfill_realized_pnl_usdc] and [backfill_realized_pnl_collateral_native]
    call each other; the fuel bounds the depth of the calls. *)
Definition usable_spot (spot_index_usd : option Q) : option Q :=
  if opt_pos spot_index_usd then spot_index_usd else None.

Fixpoint backfill_realized_pnl_usdc_fuel (fuel : nat) (g : TradeGroup) (spot_index_usd : option Q) : outcome TradeGroup :=
  match fuel with
  | O => OutOfFuel
  | S f =>
      if negb (String.eqb g.(status) "closed") then Ret g
      else if is_coin_collateral g then
        let run g :=
          match g.(realized_pnl_collateral_native), usable_spot spot_index_usd with
          | Some native, Some spot => set_realized_pnl (Some (native ⊗ spot)) g
          | _, _ => g
          end in
        match g.(realized_pnl_collateral_native) with
        | Some _ => Ret (run g)
        | None =>
            (let! inner := backfill_native_fuel f g spot_index_usd [] in Ret (run inner))%outcome
        end
      else
        match economic_close_debit_usdc g with
        | None => Ret g
        | Some close_total => Ret (set_realized_pnl (Some (entry_credit_net_usdc g ⊖ close_total)) g)
        end
  end
with backfill_native_fuel (fuel : nat) (g : TradeGroup) (spot_index_usd : option Q)
    (journal_executions : list journal_row) : outcome TradeGroup :=
  match fuel with
  | O => OutOfFuel
  | S f =>
      if negb (String.eqb g.(status) "closed") || negb (is_coin_collateral g) then Ret g
      else
        let spot := usable_spot spot_index_usd in
        let g := match journal_executions with [] => g | rows => enrich_fill_prices_from_journal g rows end in
        let g := infer_indices_from_fill_prices g in
        let allow := (match spot with Some _ => true | None => false end)
                     && ((g.(short_entry_average_price) <=? 0) || negb (opt_pos g.(short_close_average_price))) in
        let '(g, native) := compute_coin_profit_native g allow in
        match native with
        | None => Ret (set_realized_pnl_collateral_native None g)
        | Some n => backfill_realized_pnl_usdc_fuel f (set_realized_pnl_collateral_native (Some n) g) spot
        end
  end.

(** Three nested calls are the most the pair makes. *)
Definition backfill_fuel : nat := 3.

Definition backfill_realized_pnl_usdc (g : TradeGroup) (spot_index_usd : option Q) : outcome TradeGroup :=
  backfill_realized_pnl_usdc_fuel backfill_fuel g spot_index_usd.

Definition backfill_realized_pnl_collateral_native (g : TradeGroup) (spot_index_usd : option Q)
    (journal_executions : list journal_row) : outcome TradeGroup :=
  backfill_native_fuel backfill_fuel g spot_index_usd journal_executions.

Definition sync_coin_profit_native (g : TradeGroup) (spot_index_usd : option Q) : outcome (TradeGroup * option Q) :=
  if negb (String.eqb g.(status) "closed") || negb (is_coin_collateral g) then Ret (g, None)
  else
    let spot := usable_spot spot_index_usd in
    let '(g, native) := compute_coin_profit_native g (match spot with Some _ => true | None => false end) in
    match native with
    | None => Ret (g, None)
    | Some n =>
        (let! g := backfill_realized_pnl_usdc (set_realized_pnl_collateral_native (Some n) g) spot in
         Ret (g, Some n))%outcome
    end.

(** ** Conditional assignments *)

(** The optional decimal holds the value [v]. *)
Definition opt_is (o : option Q) (v : Q) : Prop := exists x, o = Some x /\ (x == v)%Q.

Lemma opt_neq_is o v : opt_is o v -> opt_neq o v = false.
Proof. intros (x & -> & E). cbn. apply negb_false_iff, deqb_true, E. Qed.

Lemma opt_neq_false o v : opt_neq o v = false -> opt_is o v.
Proof. destruct o as [x|]; cbn; [|discriminate]. intros H. dhyps. exists x. auto. Qed.

Lemma opt_is_eq o v w : opt_is o v -> v == w -> opt_is o w.
Proof. intros (x & E & H) K. exists x. split; [exact E|]. now rewrite H. Qed.

Lemma opt_pos_is o v : opt_is o v -> 0 < v -> opt_pos o = true /\ or_zero o == v.
Proof. intros (x & -> & E) P. cbn. split; [apply dltb_true; lra | exact E]. Qed.

Section Assign.
Context {T : Type} (h : TradeGroup -> T).

Lemma assign_dec_other get set v s : (forall g, h (set v g) = h g) ->
  h (fst (assign_dec get set v s)) = h (fst s).
Proof. intros H. destruct s as [g b]. cbn. destruct (get g =? v); cbn; auto. Qed.

Lemma assign_opt_other get set v s : (forall g, h (set (Some v) g) = h g) ->
  h (fst (assign_opt get set v s)) = h (fst s).
Proof. intros H. destruct s as [g b]. cbn. destruct (opt_neq (get g) v); cbn; auto. Qed.
End Assign.

Lemma assign_dec_same get set v s : (forall g, get (set v g) = v) -> get (fst (assign_dec get set v s)) == v.
Proof. intros H. destruct s as [g b]. cbn. destruct (deqb_spec (get g) v); cbn; [assumption | rewrite H; reflexivity]. Qed.

Lemma assign_opt_same get set v s : (forall g, get (set (Some v) g) = Some v) ->
  opt_is (get (fst (assign_opt get set v s))) v.
Proof.
  intros H. destruct s as [g b]. cbn. destruct (opt_neq (get g) v) eqn:E; cbn.
  - rewrite H. exists v. split; reflexivity.
  - apply opt_neq_false, E.
Qed.

Lemma assign_dec_noop get set v g b : get g == v -> assign_dec get set v (g, b) = (g, b).
Proof. intros H. cbn. apply deqb_true in H. now rewrite H. Qed.

Lemma assign_opt_noop get set v g b : opt_is (get g) v -> assign_opt get set v (g, b) = (g, b).
Proof. intros H. cbn. now rewrite opt_neq_is. Qed.

(** Read a field through a chain of conditional assignments to other fields. *)
Ltac read_assign :=
  repeat first [ rewrite assign_dec_other by reflexivity | rewrite assign_opt_other by reflexivity ].

(** ** The coin ledger *)

(** The close fields hold the premium, index, fee and USDC amounts. *)
Record close_posted (g : TradeGroup) (px idx fee usdc_fee debit : Q) : Prop := {
  cp_price : opt_is g.(short_close_average_price) px;
  cp_index : opt_is g.(close_index_usd) idx;
  cp_fee : opt_is g.(close_fee_collateral) fee;
  cp_usdc_fee : opt_is g.(realized_close_fee) usdc_fee;
  cp_debit : opt_is g.(realized_close_debit) debit;
  cp_cur_usdc_fee : g.(current_close_fee) == usdc_fee;
  cp_cur_fee : g.(current_close_fee_collateral) == fee;
  cp_cur_debit : g.(current_debit) == debit;
}.

Record entry_posted (g : TradeGroup) (fee : Q) : Prop := {
  ep_fee : g.(entry_fee_collateral) == fee;
  ep_usdc : 0 < g.(entry_index_usd) ->
    forall gross, _coin_gross_entry_native g = Some gross ->
    g.(entry_credit) == (gross ⊖ fee) ⊗ g.(entry_index_usd) /\
    g.(original_entry_credit) == (gross ⊖ fee) ⊗ g.(entry_index_usd) /\
    g.(entry_fee) == fee ⊗ g.(entry_index_usd);
}.

(** The coin amount a close of [g] at [px] costs before fees. *)
Definition exit_gross (g : TradeGroup) (px : Q) : Q :=
  let gross := px ⊗ g.(quantity) in
  if truthy g.(long_instrument_name) && opt_pos g.(long_close_average_price)
  then gross ⊖ or_zero g.(long_close_average_price) ⊗ g.(quantity) else gross.

Definition close_debit_of (g : TradeGroup) (px idx fee : Q) : Q := (exit_gross g px ⊕ fee) ⊗ idx.

Section ApplyClose.
Variables (g : TradeGroup) (px idx fee : Q).
Hypothesis Hcoin : is_coin_collateral g = true.
Hypothesis Hpx : 0 < px.
Hypothesis Hqty : 0 < g.(quantity).
Hypothesis Hidx : 0 < idx.
Hypothesis Hfee : 0 <= fee.

Local Abbreviation g' := (fst (apply_coin_close_from_native g px idx (Some fee))).

Lemma apply_unfold : apply_coin_close_from_native g px idx (Some fee) =
  assign_dec current_debit set_current_debit (close_debit_of g px idx fee)
  (assign_dec current_close_fee_collateral set_current_close_fee_collateral fee
  (assign_dec current_close_fee set_current_close_fee (fee ⊗ idx)
  (assign_opt realized_close_debit set_realized_close_debit (close_debit_of g px idx fee)
  (assign_opt realized_close_fee set_realized_close_fee (fee ⊗ idx)
  (assign_opt close_fee_collateral set_close_fee_collateral fee
  (assign_opt close_index_usd set_close_index_usd idx
  (assign_opt short_close_average_price set_short_close_average_price px (g, false)))))))).
Proof.
  unfold apply_coin_close_from_native. rewrite Hcoin.
  replace (px <=? 0) with false by (symmetry; apply dleb_false; lra).
  replace (g.(quantity) <=? 0) with false by (symmetry; apply dleb_false; lra).
  replace (idx <=? 0) with false by (symmetry; apply dleb_false; lra).
  replace (fee <? 0) with false by (symmetry; apply dltb_false; lra). reflexivity.
Qed.

Lemma apply_posts : close_posted g' px idx fee (fee ⊗ idx) (close_debit_of g px idx fee).
Proof.
  rewrite apply_unfold. split; read_assign;
    first [ apply assign_dec_same; reflexivity | apply assign_opt_same; reflexivity ].
Qed.

Lemma apply_frame {T} (h : TradeGroup -> T) :
  (forall v g, h (set_current_debit v g) = h g) -> (forall v g, h (set_current_close_fee_collateral v g) = h g) ->
  (forall v g, h (set_current_close_fee v g) = h g) -> (forall v g, h (set_realized_close_debit v g) = h g) ->
  (forall v g, h (set_realized_close_fee v g) = h g) -> (forall v g, h (set_close_fee_collateral v g) = h g) ->
  (forall v g, h (set_close_index_usd v g) = h g) -> (forall v g, h (set_short_close_average_price v g) = h g) ->
  h g' = h g.
Proof.
  intros. rewrite apply_unfold.
  repeat first [ rewrite assign_dec_other by auto | rewrite assign_opt_other by auto ]. reflexivity.
Qed.

Lemma apply_noop : close_posted g px idx fee (fee ⊗ idx) (close_debit_of g px idx fee) ->
  apply_coin_close_from_native g px idx (Some fee) = (g, false).
Proof.
  intros []. rewrite apply_unfold.
  rewrite !assign_opt_noop by assumption. rewrite !assign_dec_noop by assumption. reflexivity.
Qed.
End ApplyClose.

Lemma inverse_fee_pos px qty : 0 < px -> 0 < qty ->
  0 < inverse_option_fee_native_total px qty default_fee_rate default_fee_cap_rate 0.
Proof.
  intros Hp Hq. unfold inverse_option_fee_native_total, inverse_option_fee_native_per_contract.
  replace (qty <=? 0) with false by (symmetry; apply dleb_false; lra).
  replace (px <=? 0) with false by (symmetry; apply dleb_false; lra). cbn [orb].
  unfold apply_trading_fee_discount. rewrite orb_true_r.
  assert (0 < default_fee_cap_rate ⊗ px) by (apply dmul_pos; [reflexivity | exact Hp]).
  apply dmul_pos; [|exact Hq]. destruct (dmin_cases default_fee_rate (default_fee_cap_rate ⊗ px)) as [[-> _]|[-> _]];
    [reflexivity | assumption].
Qed.

Lemma pos_total total f : (if total >? 0 then Some total else None) = Some f -> 0 < f.
Proof. destruct (dltb_spec 0 total); [|discriminate]. now intros [= <-]. Qed.

Lemma resolved_close_fee_pos g f : resolved_close_fee_collateral g = Some f -> 0 < f.
Proof.
  unfold resolved_close_fee_collateral. destruct (is_coin_collateral g); [|discriminate]. cbn [negb].
  destruct (opt_pos g.(close_fee_collateral)) eqn:P.
  { intros E. rewrite E in P. cbn in P. dhyps. exact P. }
  destruct (String.eqb g.(status) "open" && _) eqn:S.
  { intros [= <-]. dhyps. assumption. }
  destruct (g.(quantity) <=? 0); [discriminate|]. apply pos_total.
Qed.

Lemma resolved_entry_fee_pos g f : resolved_entry_fee_collateral g = Some f -> 0 < f.
Proof.
  unfold resolved_entry_fee_collateral. destruct (is_coin_collateral g); [|discriminate]. cbn [negb].
  destruct (dltb_spec 0 g.(entry_fee_collateral)); [now intros [= <-]|].
  destruct (g.(quantity) <=? 0); [discriminate|]. apply pos_total.
Qed.

(** The fee the close side books: stored, estimated, or computed from the price. *)
Definition close_fee_of (g : TradeGroup) : Q :=
  match resolved_close_fee_collateral g with
  | Some f => f
  | None => inverse_option_fee_native_total (resolved_short_close_price g) g.(quantity)
              default_fee_rate default_fee_cap_rate 0
  end.

Lemma close_fee_of_pos g : 0 < resolved_short_close_price g -> 0 < g.(quantity) -> 0 < close_fee_of g.
Proof.
  intros Hp Hq. unfold close_fee_of. destruct (resolved_close_fee_collateral g) eqn:E.
  - apply (resolved_close_fee_pos g). exact E.
  - apply inverse_fee_pos; assumption.
Qed.

Lemma resolved_index_pos l i : _resolved_index_usd l = Some i -> 0 < i.
Proof.
  induction l as [|c l IH]; cbn; [discriminate|]. destruct (opt_pos c) eqn:P; [|exact IH].
  intros ->. cbn in P. dhyps. exact P.
Qed.

Section CloseSide.
Variable g : TradeGroup.
Hypothesis Hcoin : is_coin_collateral g = true.
Hypothesis Hqty : 0 < g.(quantity).

Lemma backfill_close_unfold i : 0 < resolved_short_close_price g ->
  _resolved_index_usd [g.(close_index_usd); Some g.(entry_index_usd)] = Some i ->
  backfill_close g = apply_coin_close_from_native g (resolved_short_close_price g) i (Some (close_fee_of g)).
Proof.
  intros Hp Hi. unfold backfill_close. rewrite Hi. apply dltb_true in Hp. rewrite Hp.
  unfold close_fee_of. destruct (resolved_close_fee_collateral g); reflexivity.
Qed.

Lemma backfill_close_frame {T} (h : TradeGroup -> T) :
  (forall v g, h (set_current_debit v g) = h g) -> (forall v g, h (set_current_close_fee_collateral v g) = h g) ->
  (forall v g, h (set_current_close_fee v g) = h g) -> (forall v g, h (set_realized_close_debit v g) = h g) ->
  (forall v g, h (set_realized_close_fee v g) = h g) -> (forall v g, h (set_close_fee_collateral v g) = h g) ->
  (forall v g, h (set_close_index_usd v g) = h g) -> (forall v g, h (set_short_close_average_price v g) = h g) ->
  h (fst (backfill_close g)) = h g.
Proof.
  intros. unfold backfill_close.
  destruct (_resolved_index_usd _) as [i|] eqn:Hi; [|reflexivity].
  destruct (dltb_spec 0 (resolved_short_close_price g)) as [Hp|]; [|reflexivity].
  pose proof (close_fee_of_pos g Hp Hqty). pose proof (resolved_index_pos _ _ Hi).
  assert (E : apply_coin_close_from_native g (resolved_short_close_price g) i (resolved_close_fee_collateral g)
              = apply_coin_close_from_native g (resolved_short_close_price g) i (Some (close_fee_of g))).
  { unfold close_fee_of. destruct (resolved_close_fee_collateral g); reflexivity. }
  rewrite E. apply apply_frame; auto. lra.
Qed.
End CloseSide.

(** After a posted close, the resolved inputs of a second backfill are the posted values. *)
Lemma posted_resolved g px i f uf d : is_coin_collateral g = true ->
  close_posted g px i f uf d -> 0 < px -> 0 < i -> 0 < f ->
  resolved_short_close_price g == px /\ close_fee_of g == f /\
  exists i', _resolved_index_usd [g.(close_index_usd); Some g.(entry_index_usd)] = Some i' /\ i' == i.
Proof.
  intros Hc [P I F _ _ _ _ _] Hp Hi Hf.
  destruct (opt_pos_is _ _ P Hp) as [P1 P2]. destruct (opt_pos_is _ _ I Hi) as [I1 I2].
  destruct (opt_pos_is _ _ F Hf) as [F1 F2]. split; [|split].
  - unfold resolved_short_close_price. now rewrite P1.
  - unfold close_fee_of, resolved_close_fee_collateral. rewrite Hc, F1. cbn [negb].
    destruct F as (x & -> & E). exact E.
  - cbn [_resolved_index_usd]. rewrite I1. destruct I as (x & -> & E). exists x. split; [reflexivity | exact E].
Qed.

Lemma close_debit_of_eq g g' px px' i i' f f' :
  g'.(quantity) = g.(quantity) -> g'.(long_instrument_name) = g.(long_instrument_name) ->
  g'.(long_close_average_price) = g.(long_close_average_price) ->
  px' == px -> i' == i -> f' == f -> close_debit_of g' px' i' f' = close_debit_of g px i f.
Proof.
  intros E1 E2 E3 Hp Hi Hf. unfold close_debit_of, exit_gross. rewrite E1, E2, E3.
  assert (Hm : px' ⊗ g.(quantity) = px ⊗ g.(quantity)) by now rewrite Hp. rewrite Hm.
  rewrite Hi. destruct (_ && _); now rewrite Hf.
Qed.

Lemma close_posted_eq g px px' i i' f f' uf uf' d d' :
  close_posted g px i f uf d -> px == px' -> i == i' -> f == f' -> uf == uf' -> d == d' ->
  close_posted g px' i' f' uf' d'.
Proof.
  intros [] E1 E2 E3 E4 E5. split; try (eapply opt_is_eq; eassumption); lra.
Qed.

Lemma backfill_close_idem g : is_coin_collateral g = true -> 0 < g.(quantity) ->
  backfill_close (fst (backfill_close g)) = (fst (backfill_close g), false).
Proof.
  intros Hc Hq.
  destruct (Qlt_le_dec 0 (resolved_short_close_price g)) as [Hp|Hp].
  2:{ assert (E : backfill_close g = (g, false)).
      { unfold backfill_close. destruct (_resolved_index_usd _); [|reflexivity].
        destruct (dltb_spec 0 (resolved_short_close_price g)); [lra | reflexivity]. }
      now rewrite !E. }
  destruct (_resolved_index_usd [g.(close_index_usd); Some g.(entry_index_usd)]) as [i|] eqn:Hi.
  2:{ assert (E : backfill_close g = (g, false)) by (unfold backfill_close; now rewrite Hi). now rewrite !E. }
  pose proof (resolved_index_pos _ _ Hi) as Pi. pose proof (close_fee_of_pos g Hp Hq) as Pf.
  pose proof (apply_posts g _ i _ Hc Hp Hq Pi (Qlt_le_weak _ _ Pf)) as Post.
  rewrite <- (backfill_close_unfold g i Hp Hi) in Post.
  assert (FR : forall T (h : TradeGroup -> T), _) by (intros T h; exact (backfill_close_frame g Hc Hq h)).
  set (g' := fst (backfill_close g)) in *.
  assert (Q' : g'.(quantity) = g.(quantity)) by (apply FR; reflexivity).
  assert (C' : is_coin_collateral g' = true) by (rewrite (FR _ is_coin_collateral); [exact Hc | reflexivity ..]).
  destruct (posted_resolved g' _ i _ _ _ C' Post Hp Pi Pf) as (R1 & R2 & i' & R3 & R4).
  rewrite (backfill_close_unfold g' i') by (rewrite ?R1; assumption).
  apply apply_noop; [exact C' | lra | rewrite Q'; exact Hq | lra | lra |].
  apply (close_posted_eq _ _ _ _ _ _ _ _ _ _ _ Post); try (symmetry; assumption).
  - rewrite R2. now rewrite R4.
  - rewrite (close_debit_of_eq g g' (resolved_short_close_price g) (resolved_short_close_price g') i i' (close_fee_of g));
      [reflexivity | exact Q' | apply FR; reflexivity | apply FR; reflexivity | exact R1 | exact R4 | exact R2].
Qed.

(** *** The entry side *)

Lemma backfill_entry_frame {T} (h : TradeGroup -> T) g :
  (forall v g, h (set_entry_fee_collateral v g) = h g) -> (forall v g, h (set_entry_credit v g) = h g) ->
  (forall v g, h (set_original_entry_credit v g) = h g) -> (forall v g, h (set_entry_fee v g) = h g) ->
  h (fst (backfill_entry g)) = h g.
Proof.
  intros. unfold backfill_entry. destruct (_coin_gross_entry_native g), (resolved_entry_fee_collateral g); try reflexivity.
  destruct (0 <? q0); [|reflexivity]. cbn zeta. destruct (0 <? g.(entry_index_usd)).
  - repeat rewrite assign_dec_other by auto. reflexivity.
  - rewrite assign_dec_other by auto. reflexivity.
Qed.

Lemma backfill_entry_posts g gross f :
  _coin_gross_entry_native g = Some gross -> resolved_entry_fee_collateral g = Some f ->
  entry_posted (fst (backfill_entry g)) f.
Proof.
  intros G F. pose proof (resolved_entry_fee_pos g f F) as P.
  assert (I : (fst (backfill_entry g)).(entry_index_usd) = g.(entry_index_usd)) by (apply backfill_entry_frame; reflexivity).
  assert (GG : _coin_gross_entry_native (fst (backfill_entry g)) = Some gross).
  { rewrite backfill_entry_frame; [exact G | reflexivity ..]. }
  assert (E : backfill_entry g =
    let s := assign_dec entry_fee_collateral set_entry_fee_collateral f (g, false) in
    if g.(entry_index_usd) >? 0 then
      assign_dec entry_fee set_entry_fee (f ⊗ g.(entry_index_usd))
      (assign_dec original_entry_credit set_original_entry_credit ((gross ⊖ f) ⊗ g.(entry_index_usd))
      (assign_dec entry_credit set_entry_credit ((gross ⊖ f) ⊗ g.(entry_index_usd)) s))
    else s).
  { unfold backfill_entry. rewrite G, F. apply dltb_true in P. now rewrite P. }
  split.
  - rewrite E. cbn zeta. destruct (0 <? _); read_assign; apply assign_dec_same; reflexivity.
  - intros Hi gr Hg. rewrite Hg in GG. injection GG as ->. rewrite I in *. rewrite E. cbn zeta.
    apply dltb_true in Hi. rewrite Hi. split; [|split]; read_assign; apply assign_dec_same; reflexivity.
Qed.

Lemma backfill_entry_noop g :
  (forall gross f, _coin_gross_entry_native g = Some gross -> resolved_entry_fee_collateral g = Some f -> entry_posted g f) ->
  backfill_entry g = (g, false).
Proof.
  intros H. unfold backfill_entry.
  destruct (_coin_gross_entry_native g) as [gross|] eqn:G; [|reflexivity].
  destruct (resolved_entry_fee_collateral g) as [f|] eqn:F; [|reflexivity].
  destruct (H gross f eq_refl eq_refl) as [E U]. destruct (0 <? f); [|reflexivity]. cbn zeta.
  rewrite assign_dec_noop by exact E. destruct (dltb_spec 0 g.(entry_index_usd)) as [I|]; [|reflexivity].
  destruct (U I gross G) as (U1 & U2 & U3). now rewrite !assign_dec_noop.
Qed.

Lemma entry_posted_eq g f f' : entry_posted g f -> f == f' -> entry_posted g f'.
Proof.
  intros [E U] H. split; [lra|]. intros I gross G. destruct (U I gross G) as (U1 & U2 & U3).
  rewrite <- H. auto.
Qed.

Lemma backfill_entry_stable g : is_coin_collateral g = true ->
  forall gross f, _coin_gross_entry_native (fst (backfill_entry g)) = Some gross ->
  resolved_entry_fee_collateral (fst (backfill_entry g)) = Some f -> entry_posted (fst (backfill_entry g)) f.
Proof.
  intros Hc gross f G F.
  assert (G0 : _coin_gross_entry_native g = Some gross) by (rewrite <- G; symmetry; apply backfill_entry_frame; reflexivity).
  destruct (resolved_entry_fee_collateral g) as [f0|] eqn:F0.
  - pose proof (backfill_entry_posts g gross f0 G0 F0) as P. apply (entry_posted_eq _ f0); [exact P|].
    destruct P as [E _]. pose proof (resolved_entry_fee_pos g f0 F0).
    unfold resolved_entry_fee_collateral in F.
    assert (C : is_coin_collateral (fst (backfill_entry g)) = true)
      by (rewrite backfill_entry_frame; [exact Hc | reflexivity ..]).
    rewrite C in F. cbn [negb] in F.
    destruct (dltb_spec 0 (entry_fee_collateral (fst (backfill_entry g)))); [injection F as <-; lra | lra].
  - assert (N : backfill_entry g = (g, false)) by (unfold backfill_entry; now rewrite G0, F0).
    rewrite N in F. cbn in F. congruence.
Qed.

(** Recomputing the coin ledger is idempotent: a second backfill of any
    group changes nothing and reports no change, so the repair pass can run on
    every load without drifting. *)
Theorem backfill_coin_collateral_ledger_idempotent g :
  let g' := fst (backfill_coin_collateral_ledger g) in
  backfill_coin_collateral_ledger g' = (g', false).
Proof.
  cbn zeta. unfold backfill_coin_collateral_ledger at 2 3.
  destruct (is_coin_collateral g) eqn:Hc.
  2:{ cbn. unfold backfill_coin_collateral_ledger. now rewrite Hc. }
  destruct (dleb_spec g.(quantity) 0) as [N|Hq].
  { cbn. unfold backfill_coin_collateral_ledger. rewrite Hc. apply dleb_true in N. now rewrite N. }
  apply Qnot_le_lt in Hq. cbn [negb]. cbv iota.
  pose proof (backfill_entry_stable g Hc) as St.
  assert (C1 : is_coin_collateral (fst (backfill_entry g)) = true) by (rewrite backfill_entry_frame; [exact Hc | reflexivity ..]).
  assert (Q1 : (fst (backfill_entry g)).(quantity) = g.(quantity)) by (apply backfill_entry_frame; reflexivity).
  destruct (backfill_entry g) as [h b1]. cbn [fst] in *. rewrite <- Q1 in Hq.
  pose proof (backfill_close_idem h C1 Hq) as Id.
  assert (FR : forall T (p : TradeGroup -> T), _) by (intros T p; exact (backfill_close_frame h C1 Hq p)).
  destruct (backfill_close h) as [k b2]. cbn [fst] in *.
  assert (C2 : is_coin_collateral k = true) by (rewrite (FR _ is_coin_collateral); [exact C1 | reflexivity ..]).
  assert (Q2 : k.(quantity) = h.(quantity)) by (apply FR; reflexivity).
  unfold backfill_coin_collateral_ledger. rewrite C2, Q2.
  replace (h.(quantity) <=? 0) with false by (symmetry; apply dleb_false; exact Hq). cbn [negb].
  rewrite backfill_entry_noop; [now rewrite Id|].
  intros gross f G F. rewrite (FR _ _coin_gross_entry_native) in G by reflexivity.
  rewrite (FR _ resolved_entry_fee_collateral) in F by reflexivity.
  destruct (St gross f G F) as [E U]. split.
  - rewrite (FR _ entry_fee_collateral) by reflexivity. exact E.
  - rewrite (FR _ entry_index_usd), (FR _ _coin_gross_entry_native), (FR _ entry_credit), (FR _ original_entry_credit), (FR _ entry_fee) by reflexivity.
    exact U.
Qed.

(** *** What the ledger says after a backfill *)

Lemma opt_pos_true o : opt_pos o = true -> exists x, o = Some x /\ 0 < x.
Proof. destruct o as [x|]; cbn; [|discriminate]. intros H. dhyps. eauto. Qed.

Lemma coin_gross_entry_inv g E : _coin_gross_entry_native g = Some E ->
  0 < g.(short_entry_average_price) /\ 0 < g.(quantity) /\
  E = (let gross := g.(short_entry_average_price) ⊗ g.(quantity) in
       if truthy g.(long_instrument_name) && (g.(long_entry_average_price) >? 0)
       then gross ⊖ g.(long_entry_average_price) ⊗ g.(quantity) else gross).
Proof.
  unfold _coin_gross_entry_native. destruct (dleb_spec g.(short_entry_average_price) 0); [discriminate|].
  destruct (dleb_spec g.(quantity) 0); [discriminate|]. cbn [orb]. intros [= <-]. repeat split; lra.
Qed.

(** With fill prices known, the amounts are the gross premiums; nothing is inferred. *)
Lemma entry_amount_of_gross g E : _coin_gross_entry_native g = Some E -> entry_amount_native g = (g, Some E).
Proof.
  intros H. destruct (coin_gross_entry_inv g E H) as (P & Q & ->).
  unfold entry_amount_native, _premium_native_from_price, pos_opt, net_of_long, premium_value_native.
  pose proof Q as Q'. apply dleb_false in Q'. rewrite Q'.
  pose proof P as P'. apply dltb_true in P'. rewrite P'. cbn [opt_pos or_zero]. rewrite P'.
  unfold truthy. destruct (is_empty g.(long_instrument_name)); [reflexivity|]. cbn [negb andb].
  destruct (dltb_spec 0 g.(long_entry_average_price)) as [L|L].
  - apply dltb_true in L. cbn [opt_pos or_zero]. now rewrite L, Q'.
  - cbn [opt_pos]. now rewrite Q'.
Qed.

Lemma exit_amount_of_gross g px : 0 < g.(quantity) -> g.(short_close_average_price) = Some px -> 0 < px ->
  exit_amount_native g = (g, Some (exit_gross g px)).
Proof.
  intros Q E P. unfold exit_amount_native, _premium_native_from_price, net_of_long, premium_value_native, exit_gross.
  pose proof Q as Q'. apply dleb_false in Q'. rewrite Q'.
  pose proof P as P'. apply dltb_true in P'. rewrite E. cbn [opt_pos]. rewrite P'. cbn [opt_pos or_zero]. rewrite P'.
  unfold truthy. destruct (is_empty g.(long_instrument_name)); [reflexivity|]. cbn [negb andb].
  destruct (opt_pos g.(long_close_average_price)) eqn:L; [now rewrite L, Q'|]. cbn [opt_pos]. now rewrite Q'.
Qed.

Lemma exit_gross_eq g g' px px' :
  g'.(quantity) = g.(quantity) -> g'.(long_instrument_name) = g.(long_instrument_name) ->
  g'.(long_close_average_price) = g.(long_close_average_price) -> px' == px -> exit_gross g' px' = exit_gross g px.
Proof.
  intros E1 E2 E3 Hp. unfold exit_gross. rewrite E1, E2, E3.
  assert (Hm : px' ⊗ g.(quantity) = px ⊗ g.(quantity)) by now rewrite Hp. now rewrite Hm.
Qed.

(** The index a close is booked at. *)
Definition close_index_of (g : TradeGroup) : Q :=
  if opt_pos g.(close_index_usd) then or_zero g.(close_index_usd) else g.(entry_index_usd).

Lemma close_index_of_resolved g : 0 < g.(entry_index_usd) ->
  _resolved_index_usd [g.(close_index_usd); Some g.(entry_index_usd)] = Some (close_index_of g).
Proof.
  intros H. apply dltb_true in H. cbn. rewrite H. unfold close_index_of.
  destruct g.(close_index_usd) as [x|]; cbn; [|reflexivity]. now destruct (0 <? x).
Qed.

(** After a backfill of a position whose fills are known, the coin ledger and
    the USDC ledger tell the same story: the USDC entry credit is the coin credit
    net of the entry fee at the entry index, the USDC close debit is the coin
    debit including the close fee at the close index, and the realised coin profit
    is the premium received minus the premium paid minus both fees. *)
Theorem backfill_ledgers_agree g gross fe px :
  is_coin_collateral g = true -> 0 < g.(entry_index_usd) ->
  _coin_gross_entry_native g = Some gross -> resolved_entry_fee_collateral g = Some fe ->
  g.(short_close_average_price) = Some px -> 0 < px ->
  let g' := fst (backfill_coin_collateral_ledger g) in
  let ie := g.(entry_index_usd) in
  let ic := close_index_of g in
  let fx := close_fee_of g in
  g'.(entry_credit) == (gross ⊖ fe) ⊗ ie /\ g'.(entry_fee) == fe ⊗ ie /\
  opt_is g'.(realized_close_debit) ((exit_gross g px ⊕ fx) ⊗ ic) /\ opt_is g'.(realized_close_fee) (fx ⊗ ic) /\
  exists profit, compute_realized_pnl_native g' None = (g', Some profit) /\
    profit == gross ⊖ exit_gross g px ⊖ (0 ⊕ fe ⊕ fx).
Proof.
  intros Hc Hi HG HF Hpx Pp. destruct (coin_gross_entry_inv _ _ HG) as (_ & Hq & _).
  unfold backfill_coin_collateral_ledger. rewrite Hc.
  replace (g.(quantity) <=? 0) with false by (symmetry; apply dleb_false; lra). cbn [negb].
  pose proof (backfill_entry_posts g gross fe HG HF) as [EF EU].
  assert (FE : forall T (p : TradeGroup -> T), _) by (intros T p; exact (backfill_entry_frame p g)).
  destruct (backfill_entry g) as [h b1]. cbn [fst] in *.
  assert (C1 : is_coin_collateral h = true) by (rewrite (FE _ is_coin_collateral); [exact Hc | reflexivity ..]).
  assert (Q1 : h.(quantity) = g.(quantity)) by (apply FE; reflexivity).
  assert (I1 : h.(entry_index_usd) = g.(entry_index_usd)) by (apply FE; reflexivity).
  assert (P1 : resolved_short_close_price h = px).
  { rewrite (FE _ resolved_short_close_price) by reflexivity. unfold resolved_short_close_price. rewrite Hpx.
    cbn [opt_pos or_zero]. apply dltb_true in Pp. now rewrite Pp. }
  assert (X1 : close_index_of h = close_index_of g) by (apply FE; reflexivity).
  assert (F1 : close_fee_of h = close_fee_of g) by (apply FE; reflexivity).
  assert (G1 : _coin_gross_entry_native h = Some gross) by (rewrite (FE _ _coin_gross_entry_native); [exact HG | reflexivity ..]).
  rewrite I1 in EU. destruct (EU Hi gross G1) as (EC & _ & EFU).
  rewrite <- P1 in Pp. rewrite <- Q1 in Hq. pose proof Hi as Hi1. rewrite <- I1 in Hi1.
  pose proof (close_index_of_resolved h Hi1) as R. pose proof (resolved_index_pos _ _ R) as Pi.
  pose proof (close_fee_of_pos h Pp Hq) as Pf.
  pose proof (apply_posts h _ _ _ C1 Pp Hq Pi (Qlt_le_weak _ _ Pf)) as Post.
  rewrite <- (backfill_close_unfold h _ Pp R) in Post.
  assert (FR : forall T (p : TradeGroup -> T), _) by (intros T p; exact (backfill_close_frame h C1 Hq p)).
  assert (D : close_debit_of h (resolved_short_close_price h) (close_index_of h) (close_fee_of h)
              = (exit_gross g px ⊕ close_fee_of g) ⊗ close_index_of g).
  { unfold close_debit_of. rewrite X1, F1, P1. f_equal. f_equal. apply exit_gross_eq; try (apply FE; reflexivity). reflexivity. }
  rewrite D in Post. rewrite X1, F1 in Post. rewrite X1 in Pi. rewrite F1 in Pf. rewrite P1 in *.
  destruct (backfill_close h) as [k b2]. cbn [fst] in *.
  assert (C2 : is_coin_collateral k = true) by (rewrite (FR _ is_coin_collateral); [exact C1 | reflexivity ..]).
  destruct (posted_resolved k _ _ _ _ _ C2 Post Pp Pi Pf) as (_ & RF & _).
  destruct Post as [[px' [Epx Qpx]] _ PF PUF PD _ _ _].
  split; [rewrite (FR _ entry_credit) by reflexivity; exact EC|].
  split; [rewrite (FR _ entry_fee) by reflexivity; exact EFU|].
  split; [exact PD|]. split; [exact PUF|].
  assert (GK : _coin_gross_entry_native k = Some gross) by (rewrite (FR _ _coin_gross_entry_native); [exact G1 | reflexivity ..]).
  unfold compute_realized_pnl_native. rewrite C2. cbn [negb]. rewrite (entry_amount_of_gross k gross GK).
  rewrite (exit_amount_of_gross k px'); [|rewrite (FR _ quantity) by reflexivity; exact Hq | exact Epx | lra].
  assert (XK : exit_gross k px' = exit_gross g px).
  { transitivity (exit_gross h px); [apply exit_gross_eq | apply exit_gross_eq];
      try (apply FR; reflexivity); try (apply FE; reflexivity); try reflexivity; exact Qpx. }
  rewrite XK.
  assert (FN : exists fees, fees_native k None = Some fees /\ fees == 0 ⊕ fe ⊕ close_fee_of g).
  { destruct (opt_pos_is _ _ PF Pf) as [PF1 PF2]. destruct PF as (f' & EF' & QF').
    unfold fees_native, resolved_entry_fee_collateral, resolved_close_fee_collateral. rewrite C2. cbn [negb].
    assert (EK : k.(entry_fee_collateral) == fe) by (rewrite (FR _ entry_fee_collateral) by reflexivity; exact EF).
    pose proof (resolved_entry_fee_pos g fe HF).
    replace (k.(entry_fee_collateral) >? 0) with true by (symmetry; apply dltb_true; lra).
    rewrite EF' in *. rewrite PF1. eexists. split; [reflexivity|]. now rewrite EK, QF'. }
  destruct FN as (fees & -> & QF). eexists. split; [reflexivity|]. now rewrite QF.
Qed.

(** A BTC covered call sold at 0.02, bought back at 0.005, at indices 60000 and 61000. *)
Definition sample_coin_group : TradeGroup :=
  set_short_close_average_price (Some 0.005) (set_close_index_usd (Some 61000)
  (set_entry_index_usd 60000 (set_short_entry_average_price 0.02
  (set_status "closed" (set_realized_close_debit (Some 1000)
  (new_group "0001" "BTC" "BTC" 2 1 2 "BTC-29MAY26-70000-C" 70000 2400 2400 2000 "normal")))))).

Lemma backfill_ledgers_agree_witness :
  exists profit,
    snd (compute_realized_pnl_native (fst (backfill_coin_collateral_ledger sample_coin_group)) None) = Some profit
    /\ profit == 0.0288.
Proof.
  destruct (backfill_ledgers_agree sample_coin_group (1 # 25) (3 # 5000) 0.005) as (_ & _ & _ & _ & r & E & Q).
  - reflexivity.
  - reflexivity.
  - vm_compute. reflexivity.
  - vm_compute. reflexivity.
  - reflexivity.
  - reflexivity.
  - exists r. split; [rewrite E; reflexivity|]. rewrite Q. vm_compute. reflexivity.
Defined.

(** ** Termination of the mutually recursive backfills *)

(** The two mutually recursive profit backfills terminate on every group:
    three nested calls are enough, and more fuel never changes the result. *)
Theorem realized_pnl_backfills_terminate g spot rows n : (backfill_fuel <= n)%nat ->
  (exists g', backfill_realized_pnl_usdc g spot = Ret g' /\ backfill_realized_pnl_usdc_fuel n g spot = Ret g') /\
  (exists g', backfill_realized_pnl_collateral_native g spot rows = Ret g' /\ backfill_native_fuel n g spot rows = Ret g').
Proof.
  unfold backfill_fuel. intros L. do 3 (destruct n as [|n]; [lia|]). clear L.
  (* once the native profit is known the USDC side makes no further call *)
  assert (U : forall g n k spot, g.(realized_pnl_collateral_native) <> None ->
    exists g', backfill_realized_pnl_usdc_fuel (S n) g spot = Ret g' /\ backfill_realized_pnl_usdc_fuel (S k) g spot = Ret g').
  { clear. intros g n k spot H. cbn [backfill_realized_pnl_usdc_fuel].
    destruct (negb _); [eauto|]. destruct (is_coin_collateral g).
    - destruct g.(realized_pnl_collateral_native); [eauto | congruence].
    - destruct (economic_close_debit_usdc g); eauto. }
  assert (N : forall g n k spot rows,
    exists g', backfill_native_fuel (S (S n)) g spot rows = Ret g' /\ backfill_native_fuel (S (S k)) g spot rows = Ret g').
  { clear - U. intros g n k spot rows. remember (S n) as n' eqn:En. remember (S k) as k' eqn:Ek.
    cbn [backfill_native_fuel]. destruct (_ || _); [eauto|].
    destruct (compute_coin_profit_native _ _) as [h [p|]]; [|eauto]. subst. apply U. discriminate. }
  split; [|apply N]. unfold backfill_realized_pnl_usdc, backfill_fuel. remember (S (S n)) as m eqn:Em.
  destruct (N g 0%nat n spot []) as (g' & N1 & N2). rewrite <- Em in N2.
  set (two := 2%nat) in *. change (S (S 0)) with two in N1.
  change 3%nat with (S two). cbn [backfill_realized_pnl_usdc_fuel].
  destruct (negb _); [eauto|]. destruct (is_coin_collateral g).
  - destruct g.(realized_pnl_collateral_native) eqn:R; [eauto|]. rewrite N1, N2. cbn. eauto.
  - destruct (economic_close_debit_usdc g); eauto.
Qed.

(** ** USDC profit *)

Lemma dec_grid_bound a : (Z.abs a <= 3 * grid_max)%Z -> (Z.abs a <= 10 ^ prec)%Z.
Proof. intros H. apply Z.le_trans with (3 * grid_max)%Z; [exact H | vm_compute; discriminate]. Qed.

Section UsdcProfit.
Variables (g : TradeGroup) (e c d f : Z) (debit fee : Q).
Hypothesis Hclosed : g.(status) = "closed"%string.
Hypothesis Husdc : is_coin_collateral g = false.
Hypothesis Hcredit : g.(entry_credit) == gval e c.
Hypothesis Hdebit : g.(realized_close_debit) = Some debit.
Hypothesis Hd : debit == gval e d.
Hypothesis Hfee : g.(realized_close_fee) = Some fee.
Hypothesis Hf : fee == gval e f.
Hypothesis Hentry : g.(entry_fee) <= 0.
Hypothesis Hbig : 0.000001 < fee.
Hypothesis Hc : (0 <= c <= grid_max)%Z.
Hypothesis Hd' : (0 <= d <= grid_max)%Z.
Hypothesis Hf' : (0 <= f <= grid_max)%Z.

Lemma usdc_step p : backfill_realized_pnl_usdc (set_realized_pnl (Some p) g) None =
  Ret (set_realized_pnl (Some (g.(entry_credit) ⊖
    (if dabs (p ⊖ (g.(entry_credit) ⊖ debit)) <=? 0.000001 then debit ⊕ fee else debit))) g).
Proof.
  unfold backfill_realized_pnl_usdc, backfill_fuel. cbn [backfill_realized_pnl_usdc_fuel].
  change (status (set_realized_pnl (Some p) g)) with g.(status).
  change (is_coin_collateral (set_realized_pnl (Some p) g)) with (is_coin_collateral g).
  rewrite Hclosed, Husdc. cbn [negb String.eqb Ascii.eqb Bool.eqb].
  unfold economic_close_debit_usdc. cbn [realized_close_debit realized_close_fee realized_pnl entry_credit set_realized_pnl].
  rewrite Hdebit, Hfee. cbn [or_zero].
  replace (fee <=? 0) with false by (symmetry; apply dleb_false; lra).
  assert (N : entry_credit_net_usdc (set_realized_pnl (Some p) g) = g.(entry_credit)).
  { unfold entry_credit_net_usdc. cbn [entry_fee entry_credit set_realized_pnl].
    apply dleb_true in Hentry. now rewrite Hentry. }
  rewrite N. destruct (dabs _ <=? 0.000001); reflexivity.
Qed.

Lemma usdc_net : g.(entry_credit) ⊖ debit == gval e (c - d).
Proof. apply dsub_gval; [exact Hcredit | exact Hd | apply dec_grid_bound; lia]. Qed.

Lemma usdc_from_net p : p == gval e (c - d) ->
  backfill_realized_pnl_usdc (set_realized_pnl (Some p) g) None
  = Ret (set_realized_pnl (Some (g.(entry_credit) ⊖ (debit ⊕ fee))) g).
Proof.
  intros E. rewrite usdc_step. assert (Z : dabs (p ⊖ (g.(entry_credit) ⊖ debit)) = 0).
  { unfold dabs, dsub at 1. rewrite E, usdc_net. rewrite (rnd_0 (gval e (c - d) - gval e (c - d))) by lra.
    vm_compute. reflexivity. }
  rewrite Z. reflexivity.
Qed.

Lemma usdc_total : g.(entry_credit) ⊖ (debit ⊕ fee) == gval e (c - d - f).
Proof.
  rewrite (dsub_gval e c (d + f)); [apply gval_eq; lia | exact Hcredit | | apply dec_grid_bound; lia].
  apply dadd_gval; [exact Hd | exact Hf | apply dec_grid_bound; lia].
Qed.

Lemma usdc_from_total p : p == gval e (c - d - f) ->
  backfill_realized_pnl_usdc (set_realized_pnl (Some p) g) None
  = Ret (set_realized_pnl (Some (g.(entry_credit) ⊖ debit)) g).
Proof.
  intros E. rewrite usdc_step. assert (B : (dabs (p ⊖ (g.(entry_credit) ⊖ debit)) <=? 0.000001) = false).
  { apply dleb_false. assert (S : p ⊖ (g.(entry_credit) ⊖ debit) == gval e (- f)).
    { rewrite (dsub_gval e (c - d - f) (c - d)); [apply gval_eq; lia | exact E | exact usdc_net | apply dec_grid_bound; lia]. }
    unfold dabs. rewrite S. assert (A : Qabs (gval e (- f)) == gval e f).
    { setoid_replace (gval e (- f)) with (- gval e f) by (unfold gval; inj; ring).
      rewrite Qabs_opp. apply Qabs_pos. apply val_nonneg. lia. }
    rewrite A, rnd_exact, <- Hf; [exact Hbig|]. apply gval_representable, dec_grid_bound. lia. }
  now rewrite B.
Qed.
End UsdcProfit.

Lemma set_realized_pnl_eta g v : g.(realized_pnl) = v -> g = set_realized_pnl v g.
Proof. intros <-. now destruct g. Qed.

Fixpoint backfill_times (n : nat) (g : TradeGroup) : outcome TradeGroup :=
  match n with
  | O => Ret g
  | S k => (let! g := backfill_times k g in backfill_realized_pnl_usdc g None)%outcome
  end.

(** Repeating the USDC profit backfill does not settle: on a closed USDC
    position whose recorded profit is the entry credit minus the fee-inclusive
    close debit, every odd call books the close fee a second time and every even
    call takes it back. *)
Theorem backfill_realized_pnl_usdc_alternates g e c d f debit fee p n :
  g.(status) = "closed"%string -> is_coin_collateral g = false -> g.(entry_fee) <= 0 ->
  g.(entry_credit) == gval e c -> g.(realized_close_debit) = Some debit -> debit == gval e d ->
  g.(realized_close_fee) = Some fee -> fee == gval e f -> 0.000001 < fee ->
  (0 <= c <= grid_max)%Z -> (0 <= d <= grid_max)%Z -> (0 <= f <= grid_max)%Z ->
  g.(realized_pnl) = Some p -> p == g.(entry_credit) - debit ->
  exists g' q, backfill_times n g = Ret g' /\ g'.(realized_pnl) = Some q /\
    q == (if Nat.even n then g.(entry_credit) - debit else g.(entry_credit) - debit - fee).
Proof.
  intros Hs Hu He Ec Ed Dd Ef Df Hf Bc Bd Bf Ep Hp.
  pose proof (set_realized_pnl_eta g _ Ep) as G0.
  assert (Net : forall x, x == gval e (c - d) <-> x == g.(entry_credit) - debit)
    by (intros x; rewrite Ec, Dd, gval_sub; reflexivity).
  assert (Tot : forall x, x == gval e (c - d - f) <-> x == g.(entry_credit) - debit - fee)
    by (intros x; rewrite Ec, Dd, Df, !gval_sub; reflexivity).
  assert (K : exists q, backfill_times n g = Ret (set_realized_pnl (Some q) g) /\
    q == (if Nat.even n then g.(entry_credit) - debit else g.(entry_credit) - debit - fee)).
  { induction n as [|n (q & Hq & Eq)]; [exists p; cbn; now rewrite <- G0|].
    cbn [backfill_times]. rewrite Hq. cbn [obind]. rewrite Nat.even_succ, <- Nat.negb_even.
    destruct (Nat.even n); cbn [negb].
    - eexists. split.
      + eapply usdc_from_net; eauto. now apply Net.
      + apply Tot. eapply usdc_total; eauto.
    - eexists. split.
      + eapply usdc_from_total; eauto. now apply Tot.
      + apply Net. eapply usdc_net; eauto. }
  destruct K as (q & Hq & Eq). exists (set_realized_pnl (Some q) g), q. auto.
Qed.

(** A put sold for 30 USDC and bought back for 10 USDC, 0.5 of it fees: the profit
    of 20 becomes 19.5 after one call, and 20 again after two. *)
Definition sample_usdc_group : TradeGroup :=
  set_status "closed" (set_realized_close_debit (Some 10) (set_realized_close_fee (Some 0.5)
  (set_realized_pnl (Some 20)
  (new_group "0002" "BTC" "USDC" 1 1 2 "BTC_USDC-29MAY26-50000-P" 50000 30 30 100 "normal")))).

Lemma backfill_realized_pnl_usdc_alternates_witness :
  exists g' q, backfill_times 1 sample_usdc_group = Ret g' /\ g'.(realized_pnl) = Some q /\ q == 19.5.
Proof.
  destruct (backfill_realized_pnl_usdc_alternates sample_usdc_group (-1) 300 100 5 10 0.5 20 1) as (g' & q & H & E & V);
    [reflexivity | reflexivity | vm_compute; discriminate | vm_compute; reflexivity | reflexivity | vm_compute; reflexivity
    | reflexivity | vm_compute; reflexivity | vm_compute; reflexivity | vm_compute; split; discriminate
    | vm_compute; split; discriminate | vm_compute; split; discriminate | reflexivity | vm_compute; reflexivity |].
  exists g', q. split; [exact H|]. split; [exact E|]. rewrite V. vm_compute. reflexivity.
Defined.

Lemma realized_pnl_backfills_terminate_witness :
  exists g', backfill_realized_pnl_usdc sample_coin_group (Some 61000) = Ret g'
    /\ backfill_realized_pnl_usdc_fuel 10 sample_coin_group (Some 61000) = Ret g'.
Proof.
  destruct (realized_pnl_backfills_terminate sample_coin_group (Some 61000) [] 10) as [H _]; [unfold backfill_fuel; lia | exact H].
Defined.
