(* ===== verification/PyObj.v ===== *)
(** The Python values that pass through the state files: what [to_dict] builds, what
    [json.dumps] with the program's [default] hook writes ([deribit_engine/utils.py],
    [json_default]) and what [json.loads] reads back. A file is modelled by the value
    its text denotes; key order and white space do not matter to the readers. *)

From S2P Require Import Prelude Dec PyStr Utils.
Local Open Scope Q_scope.
Local Open Scope bool_scope.

#[local] Set Warnings "-register-all".

Inductive pyobj : Type :=
| PNone
| PBool (b : bool)
| PInt (z : Z)
| PStr (s : string)
| PFloat (text : string)                      (** a [float], by the text [repr] gives it *)
| PDec (q : Q)                                (** a [Decimal]: never read from a file *)
| PList (l : list pyobj)
| PDict (l : list (string * pyobj)).

(** [d.get(key)]: keys are unique. *)
Fixpoint dget (key : string) (d : list (string * pyobj)) : pyobj :=
  match d with
  | [] => PNone
  | (k, v) :: rest => if String.eqb key k then v else dget key rest
  end.

Definition py_truthy (v : pyobj) : bool :=
  match v with
  | PNone => false
  | PBool b => b
  | PInt z => negb (z =? 0)%Z
  | PStr s => truthy s
  | PFloat t => match parse_decimal t with Some q => negb (deqb q 0) | None => true end
  | PDec q => negb (deqb q 0)
  | PList l => match l with [] => false | _ => true end
  | PDict l => match l with [] => false | _ => true end
  end.

Definition print_int (z : Z) : string :=
  if (z <? 0)%Z then String "-"%char (print_nat (- z)) else print_nat z.

(** ** [str] *)

Definition backslash : ascii := "092"%char.
Definition single_quote : ascii := "039"%char.
Definition double_quote : ascii := "034"%char.

Definition hex_digit (n : nat) : ascii := ascii_of_nat (if (n <? 10)%nat then 48 + n else 87 + n).

Fixpoint has_char (c : ascii) (s : string) : bool :=
  match s with EmptyString => false | String d s' => Ascii.eqb c d || has_char c s' end.

(** The escapes of [repr] for an ASCII string quoted with [q]. *)
Fixpoint repr_body (q : ascii) (s : string) : string :=
  match s with
  | EmptyString => EmptyString
  | String c s' =>
      let n := nat_of_ascii c in
      if Ascii.eqb c backslash || Ascii.eqb c q then String backslash (String c (repr_body q s'))
      else if (n =? 10)%nat then String backslash (String "n"%char (repr_body q s'))
      else if (n =? 13)%nat then String backslash (String "r"%char (repr_body q s'))
      else if (n =? 9)%nat then String backslash (String "t"%char (repr_body q s'))
      else if (n <? 32)%nat || (n =? 127)%nat then
        String backslash (String "x"%char (String (hex_digit (n / 16)) (String (hex_digit (n mod 16)) (repr_body q s'))))
      else String c (repr_body q s')
  end.

Definition repr_str (s : string) : string :=
  let q := if has_char single_quote s && negb (has_char double_quote s) then double_quote else single_quote in
  (String q EmptyString ++ repr_body q s ++ String q EmptyString)%string.

Fixpoint join (sep : string) (l : list string) : string :=
  match l with
  | [] => EmptyString
  | [s] => s
  | s :: rest => (s ++ sep ++ join sep rest)%string
  end.

Fixpoint py_repr (v : pyobj) : string :=
  match v with
  | PNone => "None"
  | PBool b => if b then "True" else "False"
  | PInt z => print_int z
  | PStr s => repr_str s
  | PFloat t => t
  | PDec q => match decimal_text q 8 with Ret t => ("Decimal('" ++ t ++ "')")%string | _ => EmptyString end
  | PList l => ("[" ++ join ", " (map py_repr l) ++ "]")%string
  | PDict l => ("{" ++ join ", " (map (fun kv => (repr_str (fst kv) ++ ": " ++ py_repr (snd kv))%string) l) ++ "}")%string
  end.

Definition py_str (v : pyobj) : string := match v with PStr s => s | _ => py_repr v end.

(** [str(v or d)] *)
Definition str_or_default (v : pyobj) (d : string) : string := if py_truthy v then py_str v else d.

(** ** [int] *)

(** Digits with single underscores between them. *)
Fixpoint int_digits (prev_digit : bool) (acc : Z) (s : string) : option Z :=
  match s with
  | EmptyString => if prev_digit then Some acc else None
  | String c s' =>
      if is_digit c then int_digits true (acc * 10 + char_digit c)%Z s'
      else if Ascii.eqb c "_"%char && prev_digit then int_digits false acc s'
      else None
  end.

Definition parse_int (s : string) : option Z :=
  match strip s with
  | String c t =>
      if Ascii.eqb c "-"%char then option_map Z.opp (int_digits false 0 t)
      else if Ascii.eqb c "+"%char then int_digits false 0 t
      else int_digits false 0 (String c t)
  | EmptyString => None
  end.

Definition py_int (v : pyobj) : outcome Z :=
  match v with
  | PInt z => Ret z
  | PBool b => Ret (if b then 1 else 0)%Z
  | PStr s => match parse_int s with Some z => Ret z | None => Exn ValueError end
  | PDec q => Ret (trunc q)
  | PFloat t => match parse_decimal t with Some q => Ret (trunc q) | None => Exn ValueError end
  | _ => Exn TypeError
  end.

(** [int(v or d)] *)
Definition int_or (v : pyobj) (d : Z) : outcome Z := if py_truthy v then py_int v else Ret d.

(** [int(v) if v is not None else None] *)
Definition opt_int (v : pyobj) : outcome (option Z) :=
  match v with
  | PNone => Ret None
  | _ => (let! z := py_int v in Ret (Some z))%outcome
  end.

(** ** [to_decimal] *)

Definition to_decimal (v : pyobj) (default : Q) : Q :=
  match v with
  | PNone => default
  | PDec q => q
  | PInt z => inject_Z z
  | PStr s => if is_empty s then default else match parse_decimal s with Some q => q | None => default end
  | PFloat t => match parse_decimal t with Some q => q | None => default end
  | PBool _ | PList _ | PDict _ => default
  end.

(** [to_decimal(v) if v is not None else None] *)
Definition opt_decimal (v : pyobj) : option Q :=
  match v with PNone => None | _ => Some (to_decimal v 0) end.

(** ** Writing and reading back

    [json.dumps(..., default=json_default)] followed by [json.loads]: decimals
    become their text of eight places, everything else is unchanged. *)

Section Encode.
Local Open Scope outcome_scope.

Fixpoint through_json (v : pyobj) : outcome pyobj :=
  match v with
  | PDec q => let! t := decimal_text q 8 in Ret (PStr t)
  | PList l =>
      let! l' := (fix go l := match l with
                              | [] => Ret []
                              | x :: r => let! x' := through_json x in let! r' := go r in Ret (x' :: r')
                              end) l in
      Ret (PList l')
  | PDict l =>
      let! l' := (fix go l := match l with
                              | [] => Ret []
                              | (k, x) :: r => let! x' := through_json x in let! r' := go r in Ret ((k, x') :: r')
                              end) l in
      Ret (PDict l')
  | _ => Ret v
  end.

Fixpoint encode_items (l : list (string * pyobj)) : outcome (list (string * pyobj)) :=
  match l with
  | [] => Ret []
  | (k, x) :: r => let! x' := through_json x in let! r' := encode_items r in Ret ((k, x') :: r')
  end.

Fixpoint encode_list (l : list pyobj) : outcome (list pyobj) :=
  match l with
  | [] => Ret []
  | x :: r => let! x' := through_json x in let! r' := encode_list r in Ret (x' :: r')
  end.
End Encode.

Lemma through_json_dict l : through_json (PDict l) = (let! l' := encode_items l in Ret (PDict l'))%outcome.
Proof. reflexivity. Qed.

Lemma through_json_list l : through_json (PList l) = (let! l' := encode_list l in Ret (PList l'))%outcome.
Proof. reflexivity. Qed.

Lemma encode_items_get l l' key : encode_items l = Ret l' -> through_json (dget key l) = Ret (dget key l').
Proof.
  revert l'. induction l as [|[k x] r IH]; intros l' H.
  - cbn in H. injection H as <-. reflexivity.
  - cbn [encode_items] in H. apply obind_inv in H. destruct H as (x' & Hx & H).
    apply obind_inv in H. destruct H as (r' & Hr & H). injection H as <-.
    cbn [dget]. destruct (String.eqb key k); [exact Hx | apply IH, Hr].
Qed.

(** ** Decimals through a file *)

(** The value a decimal has after a save: truncated to eight places. *)
Definition stored_dec (q : Q) : Q := Qred (gval (-8) (trunc (q * p10 8))).

Lemma Qred_idem q : Qred (Qred q) = Qred q.
Proof. apply Qred_complete, Qred_correct. Qed.

Lemma parse_unsigned_red s q : parse_unsigned s = Some q -> Qred q = q.
Proof.
  unfold parse_unsigned. destruct (read_digits 0 0 s) as [[i n1] r1].
  destruct (match r1 with EmptyString => _ | String c t => _ end) as [[m n2] r2].
  destruct (n1 + n2 =? 0)%nat; [discriminate|]. destruct (parse_exponent r2) as [z|]; [|discriminate].
  generalize (inject_Z m * p10 (z - Z.of_nat n2)). intros x E.
  assert (H : Qred x = q) by congruence. rewrite <- H. apply Qred_idem.
Qed.

Lemma parse_decimal_red s q : parse_decimal s = Some q -> Qred q = q.
Proof.
  unfold parse_decimal. destruct (remove_underscores (strip s)) as [|c t]; [discriminate|].
  destruct (Ascii.eqb c "-").
  - destruct (parse_unsigned t) as [x|] eqn:E; [|discriminate]. intros [= <-].
    rewrite Qred_opp, (parse_unsigned_red t) by exact E. reflexivity.
  - destruct (Ascii.eqb c "+"); apply parse_unsigned_red.
Qed.

Lemma print_nat_nonempty n : (0 <= n)%Z -> print_nat n <> EmptyString.
Proof. intros H. apply print_nat_spec in H. tauto. Qed.

Lemma str_app_nonempty a b : b <> EmptyString -> (a ++ b)%string <> EmptyString.
Proof. destruct a; cbn; [auto | discriminate]. Qed.

Lemma str_app_nonempty_l a b : a <> EmptyString -> (a ++ b)%string <> EmptyString.
Proof. destruct a; cbn; [congruence | discriminate]. Qed.

Lemma decimal_text_nonempty q places t : decimal_text q places = Ret t -> is_empty t = false.
Proof.
  unfold decimal_text. destruct (10 ^ prec <=? _)%Z; [discriminate|]. intros [= <-].
  set (frac := rstrip_by _ _). destruct (is_empty _) eqn:E; [|reflexivity]. apply is_empty_true in E. exfalso. revert E.
  apply str_app_nonempty, str_app_nonempty_l, print_nat_nonempty, Z.div_pos; [apply Z.abs_nonneg | apply Z.pow_pos_nonneg; lia].
Qed.

Lemma stored_dec_value q : stored_dec q == gval (-8) (trunc (q * p10 8)).
Proof. apply Qred_correct. Qed.

(** A decimal field reads back as its stored value. *)
Lemma to_decimal_text q t d : decimal_text q 8 = Ret t -> to_decimal (PStr t) d = stored_dec q.
Proof.
  intros H. cbn [to_decimal]. rewrite (decimal_text_nonempty _ _ _ H).
  destruct (decimal_text_value q 8 t H) as (v & E & V). rewrite E.
  rewrite <- (parse_decimal_red _ _ E). apply Qred_complete. rewrite V. reflexivity.
Qed.

(** A value on the file's grid is stored exactly. *)
Lemma stored_dec_grid q z : q == gval (-8) z -> stored_dec q == q.
Proof. intros E. rewrite stored_dec_value. exact (trunc_on_grid q 8 z E). Qed.

Lemma stored_dec_idem q : stored_dec (stored_dec q) = stored_dec q.
Proof.
  transitivity (Qred (stored_dec q)); [|apply Qred_idem].
  unfold stored_dec at 1. apply Qred_complete. exact (trunc_on_grid _ 8 _ (stored_dec_value q)).
Qed.
