(* ===== verification/GroupJson.v ===== *)
(** Saving and loading one group: [TradeGroup.to_dict] and [from_dict]
    ([deribit_engine/models.py]), and what a group is after a save and a load. *)

From S2P Require Import Prelude Dec PyStr Utils Group PyObj.
Local Open Scope Q_scope.
Local Open Scope dec_scope.
Local Open Scope bool_scope.
Local Open Scope outcome_scope.
Local Open Scope list_scope.

(** ** Strategy names *)

(** [.replace("-", "_").replace(" ", "_")] *)
Definition underscore_char (c : ascii) : ascii :=
  if Ascii.eqb c "-"%char || Ascii.eqb c " "%char then "_"%char else c.

Fixpoint assoc_str (k : string) (l : list (string * string)) : option string :=
  match l with
  | [] => None
  | (k', v) :: r => if String.eqb k k' then Some v else assoc_str k r
  end.

Definition strategy_aliases : list (string * string) :=
  [("naked", "naked_short"); ("naked_put", "naked_short"); ("naked_call", "naked_short");
   ("short_put", "naked_short"); ("short_call", "naked_short"); ("shortput", "naked_short");
   ("shortcall", "naked_short"); ("naked_short_put", "naked_short"); ("naked_short_call", "naked_short");
   ("put_spread", "bull_put_spread"); ("short_put_spread", "bull_put_spread");
   ("bullputspread", "bull_put_spread"); ("bull_put", "bull_put_spread"); ("coveredcall", "covered_call");
   ("cash_secured", "cash_secured"); ("cashsecured", "cash_secured"); ("csp", "cash_secured")]%string.

Definition normalize_strategy_name (raw default : string) : string :=
  let normalized := smap underscore_char (lower (strip raw)) in
  if is_empty normalized then default
  else match assoc_str normalized strategy_aliases with Some v => v | None => normalized end.

(** ** Helpers of [to_dict] and [from_dict] *)

Definition opt_dec (v : option Q) : pyobj := match v with Some q => PDec q | None => PNone end.
Definition opt_int_obj (v : option Z) : pyobj := match v with Some z => PInt z | None => PNone end.
Definition nonempty {A} (l : list A) : bool := match l with [] => false | _ => true end.
Definition obj_or (a b : pyobj) : pyobj := if py_truthy a then a else b.

(** The entries of a payload in the order they are assigned, each with the
    condition under which it is ([if c: payload[key] = value]). *)
Definition entry : Type := bool * (string * pyobj).
Definition always (key : string) (v : pyobj) : entry := (true, (key, v)).
Definition only_if (c : bool) (key : string) (v : pyobj) : entry := (c, (key, v)).
Definition dict_of (l : list entry) : list (string * pyobj) := map snd (filter fst l).

Definition _infer_option_type (instrument_name : string) : string :=
  if endswith "-C" (upper instrument_name) then "call" else "put".

Definition _looks_like_covered_call_group (get : string -> pyobj) (option_type : string) (covered : Q) : bool :=
  if negb (String.eqb option_type "call") then false
  else if covered >? 0 then true
  else startswith "covered_call-" (str_or_default (get "short_label"%string) EmptyString).

Definition add_id (ids : list string) (token : string) : list string :=
  if truthy token && negb (mem_str token ids) then ids ++ [token] else ids.

Definition _parse_group_id_list (raw : pyobj) (fallback : string) : list string :=
  let parts := match raw with
               | PStr s => map PStr (split_on ","%char s EmptyString)
               | PList l => l
               | _ => []
               end in
  let ids := fold_left (fun ids item => add_id ids (strip (str_or_default item EmptyString))) parts [] in
  add_id ids (strip fallback).

Definition to_dict_entries (g : TradeGroup) (now_us : Z) : list entry :=
  [always "group_id" (PStr g.(group_id));
   always "currency" (PStr g.(currency));
   always "collateral_currency" (PStr g.(collateral_currency));
   always "quantity" (PDec g.(quantity));
   always "entry_timestamp_ms" (PInt g.(entry_timestamp_ms));
   always "expiration_timestamp_ms" (PInt g.(expiration_timestamp_ms));
   always "dte_days" (PDec (dte_days (Some g.(expiration_timestamp_ms)) now_us));
   always "short_instrument_name" (PStr g.(short_instrument_name));
   always "short_strike" (PDec g.(short_strike));
   always "entry_credit" (PDec g.(entry_credit));
   always "original_entry_credit" (PDec g.(original_entry_credit));
   always "entry_fee" (PDec g.(entry_fee));
   always "entry_fee_collateral" (PDec g.(entry_fee_collateral));
   always "short_entry_average_price" (PDec g.(short_entry_average_price));
   always "long_entry_average_price" (PDec g.(long_entry_average_price));
   always "long_close_average_price" (opt_dec g.(long_close_average_price));
   always "entry_index_usd" (PDec g.(entry_index_usd));
   always "entry_net_apr" (PDec g.(entry_net_apr));
   always "entry_book_equity" (PDec g.(entry_book_equity));
   always "max_loss" (PDec g.(max_loss));
   always "estimated_im_collateral" (PDec g.(estimated_im_collateral));
   always "regime_at_entry" (PStr g.(regime_at_entry));
   always "hedge_instrument_name" (PStr g.(hedge_instrument_name));
   always "hedge_size_base" (PDec g.(hedge_size_base));
   always "hedge_mode" (PStr g.(hedge_mode));
   always "hedge_recovery_streak" (PInt g.(hedge_recovery_streak));
   always "current_debit" (PDec g.(current_debit));
   always "mark_debit" (PDec g.(mark_debit));
   always "current_close_fee" (PDec g.(current_close_fee));
   always "current_close_fee_collateral" (PDec g.(current_close_fee_collateral));
   always "short_delta" (PDec g.(short_delta));
   always "profit_capture" (PDec g.(profit_capture));
   always "status" (PStr g.(status));
   always "last_action" (PStr g.(last_action));
   always "close_incomplete_streak" (PInt g.(close_incomplete_streak));
   always "hard_defense_streak" (PInt g.(hard_defense_streak));
   always "soft_defense_streak" (PInt g.(soft_defense_streak));
   always "itm_defense_streak" (PInt g.(itm_defense_streak));
   always "closed_timestamp_ms" (opt_int_obj g.(closed_timestamp_ms));
   always "close_reason" (PStr g.(close_reason));
   always "realized_close_debit" (opt_dec g.(realized_close_debit));
   always "realized_close_fee" (opt_dec g.(realized_close_fee));
   always "close_fee_collateral" (opt_dec g.(close_fee_collateral));
   always "short_close_average_price" (opt_dec g.(short_close_average_price));
   always "close_index_usd" (opt_dec g.(close_index_usd));
   always "realized_pnl_collateral_native" (opt_dec g.(realized_pnl_collateral_native));
   always "realized_pnl" (opt_dec g.(realized_pnl));
   always "realized_return_on_max_loss" (opt_dec g.(realized_return_on_max_loss));
   always "realized_annualized_return" (opt_dec g.(realized_annualized_return));
   always "close_book_equity" (opt_dec g.(close_book_equity));
   always "realized_apr_on_equity" (opt_dec g.(realized_apr_on_equity));
   always "short_label" (PStr g.(short_label));
   always "hedge_label" (PStr g.(hedge_label));
   always "option_type" (PStr g.(option_type));
   always "strategy" (PStr (normalize_strategy_name g.(strategy) "naked_short"));
   only_if (truthy g.(long_instrument_name)) "long_instrument_name" (PStr g.(long_instrument_name));
   only_if (truthy g.(long_instrument_name)) "long_strike" (PDec g.(long_strike));
   only_if (truthy g.(long_instrument_name)) "long_label" (PStr g.(long_label));
   only_if (g.(covered_underlying_quantity) >? 0) "covered_underlying_quantity" (PDec g.(covered_underlying_quantity));
   only_if (truthy g.(spot_exit_status)) "spot_exit_status" (PStr g.(spot_exit_status));
   only_if (g.(spot_exit_amount) >? 0) "spot_exit_amount" (PDec g.(spot_exit_amount));
   only_if (truthy g.(spot_exit_instrument_name)) "spot_exit_instrument_name" (PStr g.(spot_exit_instrument_name));
   only_if (truthy g.(spot_exit_order_id)) "spot_exit_order_id" (PStr g.(spot_exit_order_id));
   only_if (truthy g.(spot_exit_reason)) "spot_exit_reason" (PStr g.(spot_exit_reason));
   only_if (g.(spot_exit_quote_proceeds) >? 0) "spot_exit_quote_proceeds" (PDec g.(spot_exit_quote_proceeds));
   only_if (g.(spot_exit_quote_proceeds_lifetime) >? 0) "spot_exit_quote_proceeds_lifetime" (PDec g.(spot_exit_quote_proceeds_lifetime));
   only_if (g.(spot_exit_settlement_loss) >? 0) "spot_exit_settlement_loss" (PDec g.(spot_exit_settlement_loss));
   only_if (truthy g.(spot_exit_settlement_loss_source)) "spot_exit_settlement_loss_source" (PStr g.(spot_exit_settlement_loss_source));
   only_if (truthy g.(spot_restore_status)) "spot_restore_status" (PStr g.(spot_restore_status));
   only_if (g.(spot_restore_amount) >? 0) "spot_restore_amount" (PDec g.(spot_restore_amount));
   only_if (truthy g.(spot_restore_instrument_name)) "spot_restore_instrument_name" (PStr g.(spot_restore_instrument_name));
   only_if (truthy g.(spot_restore_order_id)) "spot_restore_order_id" (PStr g.(spot_restore_order_id));
   only_if (truthy g.(spot_restore_reason)) "spot_restore_reason" (PStr g.(spot_restore_reason));
   only_if (g.(spot_restore_quote_spent) >? 0) "spot_restore_quote_spent" (PDec g.(spot_restore_quote_spent));
   only_if (g.(spot_restore_quote_spent_lifetime) >? 0) "spot_restore_quote_spent_lifetime" (PDec g.(spot_restore_quote_spent_lifetime));
   only_if (truthy g.(profit_sweep_status)) "profit_sweep_status" (PStr g.(profit_sweep_status));
   only_if (g.(profit_sweep_amount) >? 0) "profit_sweep_amount" (PDec g.(profit_sweep_amount));
   only_if (truthy g.(profit_sweep_instrument_name)) "profit_sweep_instrument_name" (PStr g.(profit_sweep_instrument_name));
   only_if (truthy g.(profit_sweep_order_id)) "profit_sweep_order_id" (PStr g.(profit_sweep_order_id));
   only_if (g.(profit_sweep_quote_proceeds) >? 0) "profit_sweep_quote_proceeds" (PDec g.(profit_sweep_quote_proceeds));
   only_if (g.(profit_sweep_quote_proceeds_lifetime) >? 0) "profit_sweep_quote_proceeds_lifetime" (PDec g.(profit_sweep_quote_proceeds_lifetime));
   only_if (g.(profit_sweep_exchange_native) >? 0) "profit_sweep_exchange_native" (PDec g.(profit_sweep_exchange_native));
   only_if (g.(profit_sweep_exchange_quote_proceeds) >? 0) "profit_sweep_exchange_quote_proceeds" (PDec g.(profit_sweep_exchange_quote_proceeds));
   only_if (truthy g.(profit_sweep_reason)) "profit_sweep_reason" (PStr g.(profit_sweep_reason));
   only_if (truthy g.(cash_secured_status)) "cash_secured_status" (PStr g.(cash_secured_status));
   only_if (truthy g.(cash_secured_group_id)) "cash_secured_group_id" (PStr g.(cash_secured_group_id));
   only_if (nonempty g.(cash_secured_group_ids)) "cash_secured_group_ids" (PList (map PStr g.(cash_secured_group_ids)));
   only_if (truthy g.(cash_secured_reason)) "cash_secured_reason" (PStr g.(cash_secured_reason));
   only_if (truthy g.(cash_secured_order_id)) "cash_secured_order_id" (PStr g.(cash_secured_order_id));
   only_if (truthy g.(cash_secured_instrument_name)) "cash_secured_instrument_name" (PStr g.(cash_secured_instrument_name));
   only_if (g.(cash_secured_limit_price) >? 0) "cash_secured_limit_price" (PDec g.(cash_secured_limit_price));
   only_if (truthy g.(cash_secured_from_group_id)) "cash_secured_from_group_id" (PStr g.(cash_secured_from_group_id));
   only_if (truthy g.(csp_premium_swap_status)) "csp_premium_swap_status" (PStr g.(csp_premium_swap_status));
   only_if (g.(csp_premium_swap_amount) >? 0) "csp_premium_swap_amount" (PDec g.(csp_premium_swap_amount));
   only_if (truthy g.(csp_premium_swap_instrument_name)) "csp_premium_swap_instrument_name" (PStr g.(csp_premium_swap_instrument_name));
   only_if (truthy g.(csp_premium_swap_order_id)) "csp_premium_swap_order_id" (PStr g.(csp_premium_swap_order_id));
   only_if (g.(csp_premium_swap_native) >? 0) "csp_premium_swap_native" (PDec g.(csp_premium_swap_native));
   only_if (truthy g.(csp_premium_swap_reason)) "csp_premium_swap_reason" (PStr g.(csp_premium_swap_reason))].

Definition to_dict (g : TradeGroup) (now_us : Z) : list (string * pyobj) := dict_of (to_dict_entries g now_us).

Definition from_dict (get : string -> pyobj) : outcome TradeGroup :=
  let option_type' := py_str (obj_or (get "option_type"%string)
    (PStr (_infer_option_type (str_or_default (get "short_instrument_name"%string) EmptyString)))) in
  let quantity' := to_decimal (get "quantity"%string) 0 in
  let covered := to_decimal (get "covered_underlying_quantity"%string) 0 in
  let raw_strategy := normalize_strategy_name (str_or_default (get "strategy"%string) EmptyString) EmptyString in
  let '(strategy', covered_underlying_quantity') :=
    if (is_empty raw_strategy || String.eqb raw_strategy "naked_short")
       && _looks_like_covered_call_group get option_type' covered
    then ("covered_call"%string, if covered <=? 0 then quantity' else covered)
    else if String.eqb raw_strategy "covered_call"
    then (raw_strategy, if String.eqb option_type' "call" && (covered <=? 0) then quantity' else covered)
    else (str_or raw_strategy "naked_short", covered) in
  let! entry_timestamp_ms' := int_or (get "entry_timestamp_ms"%string) 0 in
  let! expiration_timestamp_ms' := int_or (get "expiration_timestamp_ms"%string) 0 in
  let! hedge_recovery_streak' := int_or (get "hedge_recovery_streak"%string) 0 in
  let! close_incomplete_streak' := int_or (get "close_incomplete_streak"%string) 0 in
  let! hard_defense_streak' := int_or (get "hard_defense_streak"%string) 0 in
  let! soft_defense_streak' := int_or (get "soft_defense_streak"%string) 0 in
  let! itm_defense_streak' := int_or (get "itm_defense_streak"%string) 0 in
  let! closed_timestamp_ms' := opt_int (get "closed_timestamp_ms"%string) in
  Ret {|
    group_id := str_or_default (get "group_id"%string) EmptyString;
    currency := upper (str_or_default (get "currency"%string) EmptyString);
    collateral_currency := str_or (upper (str_or_default (get "collateral_currency"%string) EmptyString))
      (if contains "_USDC-" (str_or_default (get "short_instrument_name"%string) EmptyString) then "USDC"%string
       else upper (str_or_default (get "currency"%string) EmptyString));
    quantity := quantity';
    entry_timestamp_ms := entry_timestamp_ms';
    expiration_timestamp_ms := expiration_timestamp_ms';
    short_instrument_name := str_or_default (get "short_instrument_name"%string) EmptyString;
    short_strike := to_decimal (get "short_strike"%string) 0;
    entry_credit := to_decimal (get "entry_credit"%string) 0;
    original_entry_credit := to_decimal (obj_or (get "original_entry_credit"%string) (get "entry_credit"%string)) 0;
    max_loss := to_decimal (get "max_loss"%string) 0;
    regime_at_entry := str_or_default (get "regime_at_entry"%string) "normal";
    estimated_im_collateral := to_decimal (get "estimated_im_collateral"%string) 0;
    entry_fee := to_decimal (get "entry_fee"%string) 0;
    entry_fee_collateral := to_decimal (get "entry_fee_collateral"%string) 0;
    short_entry_average_price := to_decimal (get "short_entry_average_price"%string) 0;
    long_entry_average_price := to_decimal (get "long_entry_average_price"%string) 0;
    long_close_average_price := opt_decimal (get "long_close_average_price"%string);
    entry_index_usd := to_decimal (get "entry_index_usd"%string) 0;
    entry_net_apr := to_decimal (get "entry_net_apr"%string) 0;
    entry_book_equity := to_decimal (get "entry_book_equity"%string) 0;
    hedge_instrument_name := str_or_default (get "hedge_instrument_name"%string) EmptyString;
    hedge_size_base := to_decimal (get "hedge_size_base"%string) 0;
    hedge_mode := str_or_default (get "hedge_mode"%string) EmptyString;
    hedge_recovery_streak := hedge_recovery_streak';
    current_debit := to_decimal (get "current_debit"%string) 0;
    mark_debit := to_decimal (get "mark_debit"%string) 0;
    current_close_fee := to_decimal (get "current_close_fee"%string) 0;
    current_close_fee_collateral := to_decimal (get "current_close_fee_collateral"%string) 0;
    short_delta := to_decimal (get "short_delta"%string) 0;
    profit_capture := to_decimal (get "profit_capture"%string) 0;
    status := str_or_default (get "status"%string) "open";
    last_action := str_or_default (get "last_action"%string) EmptyString;
    close_incomplete_streak := close_incomplete_streak';
    hard_defense_streak := hard_defense_streak';
    soft_defense_streak := soft_defense_streak';
    itm_defense_streak := itm_defense_streak';
    closed_timestamp_ms := closed_timestamp_ms';
    close_reason := str_or_default (get "close_reason"%string) EmptyString;
    realized_close_debit := opt_decimal (get "realized_close_debit"%string);
    realized_close_fee := opt_decimal (get "realized_close_fee"%string);
    close_fee_collateral := opt_decimal (get "close_fee_collateral"%string);
    short_close_average_price := opt_decimal (get "short_close_average_price"%string);
    close_index_usd := opt_decimal (get "close_index_usd"%string);
    realized_pnl_collateral_native := opt_decimal (get "realized_pnl_collateral_native"%string);
    realized_pnl := opt_decimal (get "realized_pnl"%string);
    realized_return_on_max_loss := opt_decimal (get "realized_return_on_max_loss"%string);
    realized_annualized_return := opt_decimal (get "realized_annualized_return"%string);
    close_book_equity := opt_decimal (get "close_book_equity"%string);
    realized_apr_on_equity := opt_decimal (get "realized_apr_on_equity"%string);
    short_label := str_or_default (get "short_label"%string) EmptyString;
    hedge_label := str_or_default (get "hedge_label"%string) EmptyString;
    option_type := option_type';
    strategy := strategy';
    long_instrument_name := str_or_default (get "long_instrument_name"%string) EmptyString;
    long_strike := to_decimal (get "long_strike"%string) 0;
    long_label := str_or_default (get "long_label"%string) EmptyString;
    covered_underlying_quantity := covered_underlying_quantity';
    spot_exit_status := str_or_default (get "spot_exit_status"%string) EmptyString;
    spot_exit_amount := to_decimal (get "spot_exit_amount"%string) 0;
    spot_exit_instrument_name := str_or_default (get "spot_exit_instrument_name"%string) EmptyString;
    spot_exit_order_id := str_or_default (get "spot_exit_order_id"%string) EmptyString;
    spot_exit_reason := str_or_default (get "spot_exit_reason"%string) EmptyString;
    spot_exit_quote_proceeds := to_decimal (get "spot_exit_quote_proceeds"%string) 0;
    spot_exit_quote_proceeds_lifetime := to_decimal (get "spot_exit_quote_proceeds_lifetime"%string) 0;
    spot_exit_settlement_loss := to_decimal (get "spot_exit_settlement_loss"%string) 0;
    spot_exit_settlement_loss_source := str_or_default (get "spot_exit_settlement_loss_source"%string) EmptyString;
    spot_restore_status := str_or_default (get "spot_restore_status"%string) EmptyString;
    spot_restore_amount := to_decimal (get "spot_restore_amount"%string) 0;
    spot_restore_instrument_name := str_or_default (get "spot_restore_instrument_name"%string) EmptyString;
    spot_restore_order_id := str_or_default (get "spot_restore_order_id"%string) EmptyString;
    spot_restore_reason := str_or_default (get "spot_restore_reason"%string) EmptyString;
    spot_restore_quote_spent := to_decimal (get "spot_restore_quote_spent"%string) 0;
    spot_restore_quote_spent_lifetime := to_decimal (get "spot_restore_quote_spent_lifetime"%string) 0;
    profit_sweep_status := str_or_default (get "profit_sweep_status"%string) EmptyString;
    profit_sweep_amount := to_decimal (get "profit_sweep_amount"%string) 0;
    profit_sweep_instrument_name := str_or_default (get "profit_sweep_instrument_name"%string) EmptyString;
    profit_sweep_order_id := str_or_default (get "profit_sweep_order_id"%string) EmptyString;
    profit_sweep_quote_proceeds := to_decimal (get "profit_sweep_quote_proceeds"%string) 0;
    profit_sweep_quote_proceeds_lifetime := to_decimal (get "profit_sweep_quote_proceeds_lifetime"%string) 0;
    profit_sweep_exchange_native := to_decimal (get "profit_sweep_exchange_native"%string) 0;
    profit_sweep_exchange_quote_proceeds := to_decimal (get "profit_sweep_exchange_quote_proceeds"%string) 0;
    profit_sweep_reason := str_or_default (get "profit_sweep_reason"%string) EmptyString;
    cash_secured_status := str_or_default (get "cash_secured_status"%string) EmptyString;
    cash_secured_group_id := str_or_default (get "cash_secured_group_id"%string) EmptyString;
    cash_secured_group_ids := _parse_group_id_list (get "cash_secured_group_ids"%string)
      (str_or_default (get "cash_secured_group_id"%string) EmptyString);
    cash_secured_reason := str_or_default (get "cash_secured_reason"%string) EmptyString;
    cash_secured_order_id := str_or_default (get "cash_secured_order_id"%string) EmptyString;
    cash_secured_instrument_name := str_or_default (get "cash_secured_instrument_name"%string) EmptyString;
    cash_secured_limit_price := to_decimal (get "cash_secured_limit_price"%string) 0;
    cash_secured_from_group_id := str_or_default (get "cash_secured_from_group_id"%string) EmptyString;
    csp_premium_swap_status := str_or_default (get "csp_premium_swap_status"%string) EmptyString;
    csp_premium_swap_amount := to_decimal (get "csp_premium_swap_amount"%string) 0;
    csp_premium_swap_instrument_name := str_or_default (get "csp_premium_swap_instrument_name"%string) EmptyString;
    csp_premium_swap_order_id := str_or_default (get "csp_premium_swap_order_id"%string) EmptyString;
    csp_premium_swap_native := to_decimal (get "csp_premium_swap_native"%string) 0;
    csp_premium_swap_reason := str_or_default (get "csp_premium_swap_reason"%string) EmptyString |}.

(** ** What a save and a load keep *)

Definition stored_pos (q : Q) : Q := if q >? 0 then stored_dec q else 0.

Definition stored_option_type (g : TradeGroup) : string :=
  str_or g.(option_type) (_infer_option_type g.(short_instrument_name)).

(** The strategy and the covered quantity, which [from_dict] resolves together. *)
Definition stored_cover (g : TradeGroup) : string * Q :=
  let covered := stored_pos g.(covered_underlying_quantity) in
  let quantity := stored_dec g.(quantity) in
  let option_type := stored_option_type g in
  let raw := normalize_strategy_name (normalize_strategy_name g.(strategy) "naked_short") EmptyString in
  if (is_empty raw || String.eqb raw "naked_short")
     && (String.eqb option_type "call" && ((covered >? 0) || startswith "covered_call-" g.(short_label)))
  then ("covered_call"%string, if covered <=? 0 then quantity else covered)
  else if String.eqb raw "covered_call"
  then (raw, if String.eqb option_type "call" && (covered <=? 0) then quantity else covered)
  else (str_or raw "naked_short", covered).

Definition stored_group (g : TradeGroup) : TradeGroup := {|
    group_id := g.(group_id);
    currency := upper g.(currency);
    collateral_currency := str_or (upper g.(collateral_currency))
      (if contains "_USDC-" g.(short_instrument_name) then "USDC"%string else upper g.(currency));
    quantity := stored_dec g.(quantity);
    entry_timestamp_ms := g.(entry_timestamp_ms);
    expiration_timestamp_ms := g.(expiration_timestamp_ms);
    short_instrument_name := g.(short_instrument_name);
    short_strike := stored_dec g.(short_strike);
    entry_credit := stored_dec g.(entry_credit);
    original_entry_credit := stored_dec g.(original_entry_credit);
    max_loss := stored_dec g.(max_loss);
    regime_at_entry := str_or g.(regime_at_entry) "normal";
    estimated_im_collateral := stored_dec g.(estimated_im_collateral);
    entry_fee := stored_dec g.(entry_fee);
    entry_fee_collateral := stored_dec g.(entry_fee_collateral);
    short_entry_average_price := stored_dec g.(short_entry_average_price);
    long_entry_average_price := stored_dec g.(long_entry_average_price);
    long_close_average_price := option_map stored_dec g.(long_close_average_price);
    entry_index_usd := stored_dec g.(entry_index_usd);
    entry_net_apr := stored_dec g.(entry_net_apr);
    entry_book_equity := stored_dec g.(entry_book_equity);
    hedge_instrument_name := g.(hedge_instrument_name);
    hedge_size_base := stored_dec g.(hedge_size_base);
    hedge_mode := g.(hedge_mode);
    hedge_recovery_streak := g.(hedge_recovery_streak);
    current_debit := stored_dec g.(current_debit);
    mark_debit := stored_dec g.(mark_debit);
    current_close_fee := stored_dec g.(current_close_fee);
    current_close_fee_collateral := stored_dec g.(current_close_fee_collateral);
    short_delta := stored_dec g.(short_delta);
    profit_capture := stored_dec g.(profit_capture);
    status := str_or g.(status) "open";
    last_action := g.(last_action);
    close_incomplete_streak := g.(close_incomplete_streak);
    hard_defense_streak := g.(hard_defense_streak);
    soft_defense_streak := g.(soft_defense_streak);
    itm_defense_streak := g.(itm_defense_streak);
    closed_timestamp_ms := g.(closed_timestamp_ms);
    close_reason := g.(close_reason);
    realized_close_debit := option_map stored_dec g.(realized_close_debit);
    realized_close_fee := option_map stored_dec g.(realized_close_fee);
    close_fee_collateral := option_map stored_dec g.(close_fee_collateral);
    short_close_average_price := option_map stored_dec g.(short_close_average_price);
    close_index_usd := option_map stored_dec g.(close_index_usd);
    realized_pnl_collateral_native := option_map stored_dec g.(realized_pnl_collateral_native);
    realized_pnl := option_map stored_dec g.(realized_pnl);
    realized_return_on_max_loss := option_map stored_dec g.(realized_return_on_max_loss);
    realized_annualized_return := option_map stored_dec g.(realized_annualized_return);
    close_book_equity := option_map stored_dec g.(close_book_equity);
    realized_apr_on_equity := option_map stored_dec g.(realized_apr_on_equity);
    short_label := g.(short_label);
    hedge_label := g.(hedge_label);
    option_type := stored_option_type g;
    strategy := fst (stored_cover g);
    long_instrument_name := g.(long_instrument_name);
    long_strike := if truthy g.(long_instrument_name) then stored_dec g.(long_strike) else 0;
    long_label := if truthy g.(long_instrument_name) then g.(long_label) else EmptyString;
    covered_underlying_quantity := snd (stored_cover g);
    spot_exit_status := g.(spot_exit_status);
    spot_exit_amount := stored_pos g.(spot_exit_amount);
    spot_exit_instrument_name := g.(spot_exit_instrument_name);
    spot_exit_order_id := g.(spot_exit_order_id);
    spot_exit_reason := g.(spot_exit_reason);
    spot_exit_quote_proceeds := stored_pos g.(spot_exit_quote_proceeds);
    spot_exit_quote_proceeds_lifetime := stored_pos g.(spot_exit_quote_proceeds_lifetime);
    spot_exit_settlement_loss := stored_pos g.(spot_exit_settlement_loss);
    spot_exit_settlement_loss_source := g.(spot_exit_settlement_loss_source);
    spot_restore_status := g.(spot_restore_status);
    spot_restore_amount := stored_pos g.(spot_restore_amount);
    spot_restore_instrument_name := g.(spot_restore_instrument_name);
    spot_restore_order_id := g.(spot_restore_order_id);
    spot_restore_reason := g.(spot_restore_reason);
    spot_restore_quote_spent := stored_pos g.(spot_restore_quote_spent);
    spot_restore_quote_spent_lifetime := stored_pos g.(spot_restore_quote_spent_lifetime);
    profit_sweep_status := g.(profit_sweep_status);
    profit_sweep_amount := stored_pos g.(profit_sweep_amount);
    profit_sweep_instrument_name := g.(profit_sweep_instrument_name);
    profit_sweep_order_id := g.(profit_sweep_order_id);
    profit_sweep_quote_proceeds := stored_pos g.(profit_sweep_quote_proceeds);
    profit_sweep_quote_proceeds_lifetime := stored_pos g.(profit_sweep_quote_proceeds_lifetime);
    profit_sweep_exchange_native := stored_pos g.(profit_sweep_exchange_native);
    profit_sweep_exchange_quote_proceeds := stored_pos g.(profit_sweep_exchange_quote_proceeds);
    profit_sweep_reason := g.(profit_sweep_reason);
    cash_secured_status := g.(cash_secured_status);
    cash_secured_group_id := g.(cash_secured_group_id);
    cash_secured_group_ids := _parse_group_id_list (PList (map PStr g.(cash_secured_group_ids))) g.(cash_secured_group_id);
    cash_secured_reason := g.(cash_secured_reason);
    cash_secured_order_id := g.(cash_secured_order_id);
    cash_secured_instrument_name := g.(cash_secured_instrument_name);
    cash_secured_limit_price := stored_pos g.(cash_secured_limit_price);
    cash_secured_from_group_id := g.(cash_secured_from_group_id);
    csp_premium_swap_status := g.(csp_premium_swap_status);
    csp_premium_swap_amount := stored_pos g.(csp_premium_swap_amount);
    csp_premium_swap_instrument_name := g.(csp_premium_swap_instrument_name);
    csp_premium_swap_order_id := g.(csp_premium_swap_order_id);
    csp_premium_swap_native := stored_pos g.(csp_premium_swap_native);
    csp_premium_swap_reason := g.(csp_premium_swap_reason) |}.

(** ** Looking a key up in a payload *)

Fixpoint find_entry (key : string) (l : list entry) : option (bool * pyobj) :=
  match l with
  | [] => None
  | (c, (k, v)) :: r => if String.eqb key k then Some (c, v) else find_entry key r
  end.

Fixpoint distinct (l : list string) : bool :=
  match l with [] => true | k :: r => negb (mem_str k r) && distinct r end.

Definition entry_keys (l : list entry) : list string := map (fun e => fst (snd e)) l.

Lemma dget_absent key l : mem_str key (entry_keys l) = false -> dget key (dict_of l) = PNone.
Proof.
  induction l as [|[c [k v]] r IH]; [reflexivity|]. cbn. intros H. apply orb_false_iff in H. destruct H as [H1 H2].
  destruct c; cbn; [rewrite H1|]; apply IH, H2.
Qed.

Lemma dget_entry key l c v : distinct (entry_keys l) = true -> find_entry key l = Some (c, v) ->
  dget key (dict_of l) = if c then v else PNone.
Proof.
  induction l as [|[c' [k v']] r IH]; [discriminate|]. cbn. intros D F.
  apply andb_true_iff in D. destruct D as [D1 D2]. destruct (String.eqb_spec key k) as [->|N].
  - injection F as -> ->. destruct c; cbn; [now rewrite String.eqb_refl|].
    apply dget_absent. now apply negb_true_iff in D1.
  - destruct c'; cbn; [apply String.eqb_neq in N; rewrite N|]; now apply IH.
Qed.

Section Saved.
Variables (entries : list entry) (l : list (string * pyobj)).
Hypothesis Hkeys : distinct (entry_keys entries) = true.
Hypothesis Hsave : encode_items (dict_of entries) = Ret l.

Lemma saved_get key c v :
  find_entry key entries = Some (c, v) -> through_json (if c then v else PNone) = Ret (dget key l).
Proof.
  intros F. rewrite <- (dget_entry key entries c v Hkeys F). apply encode_items_get, Hsave.
Qed.

Lemma saved_str key c s d : find_entry key entries = Some (c, PStr s) ->
  str_or_default (dget key l) d = if c then str_or s d else d.
Proof.
  intros F. pose proof (saved_get _ _ _ F) as H. destruct c; injection H as <-; [|reflexivity].
  unfold str_or_default, str_or. reflexivity.
Qed.

Lemma saved_dec key c q d : find_entry key entries = Some (c, PDec q) ->
  to_decimal (dget key l) d = if c then stored_dec q else d.
Proof.
  intros F. pose proof (saved_get _ _ _ F) as H. destruct c; cbn [through_json] in H.
  - apply obind_inv in H. destruct H as (t & T & H). injection H as <-. apply to_decimal_text, T.
  - injection H as <-. reflexivity.
Qed.

Lemma saved_dec_or key q other : find_entry key entries = Some (true, PDec q) ->
  obj_or (dget key l) other = dget key l.
Proof.
  intros F. pose proof (saved_get _ _ _ F) as H. cbn [through_json] in H.
  apply obind_inv in H. destruct H as (t & T & H). injection H as <-.
  unfold obj_or. cbn. unfold truthy. now rewrite (decimal_text_nonempty _ _ _ T).
Qed.

Lemma saved_opt_dec key o : find_entry key entries = Some (true, opt_dec o) ->
  opt_decimal (dget key l) = option_map stored_dec o.
Proof.
  intros F. destruct o as [q|].
  - pose proof (saved_dec key true q 0 F) as D. pose proof (saved_get _ _ _ F) as H. cbn [opt_dec through_json] in H.
    apply obind_inv in H. destruct H as (t & T & H). injection H as H. rewrite <- H in *. cbn [opt_decimal option_map]. now rewrite D.
  - pose proof (saved_get _ _ _ F) as H. injection H as <-. reflexivity.
Qed.

Lemma saved_int key z : find_entry key entries = Some (true, PInt z) ->
  int_or (dget key l) 0 = Ret z.
Proof.
  intros F. pose proof (saved_get _ _ _ F) as H. injection H as <-. unfold int_or. cbn.
  destruct (Z.eqb_spec z 0) as [->|]; reflexivity.
Qed.

Lemma saved_opt_int key o : find_entry key entries = Some (true, opt_int_obj o) ->
  opt_int (dget key l) = Ret o.
Proof.
  intros F. pose proof (saved_get _ _ _ F) as H. destruct o; injection H as <-; reflexivity.
Qed.
End Saved.

Lemma group_keys_distinct g now_us : distinct (entry_keys (to_dict_entries g now_us)) = true.
Proof. vm_compute. reflexivity. Qed.

Lemma to_dict_eq g now_us : to_dict g now_us = dict_of (to_dict_entries g now_us).
Proof. reflexivity. Qed.

Lemma saved_option_type g now_us l : encode_items (to_dict g now_us) = Ret l ->
  py_str (obj_or (dget "option_type" l) (PStr (_infer_option_type (str_or_default (dget "short_instrument_name" l) EmptyString))))
  = stored_option_type g.
Proof.
  intros H. pose proof (group_keys_distinct g now_us) as K. rewrite to_dict_eq in H.
  pose proof (saved_get _ l K H "option_type" true (PStr g.(option_type)) eq_refl) as O.
  pose proof (saved_str _ l K H "short_instrument_name" true g.(short_instrument_name) EmptyString eq_refl) as N.
  cbn [through_json] in O. injection O as <-. rewrite N. unfold stored_option_type, obj_or, str_or, py_truthy.
  destruct (truthy g.(option_type)); [reflexivity|]. destruct (truthy g.(short_instrument_name)) eqn:E; [reflexivity|].
  unfold truthy in E. apply negb_false_iff, is_empty_true in E. now rewrite E.
Qed.

Lemma str_or_empty s : str_or s EmptyString = s.
Proof. unfold str_or, truthy. destruct s; reflexivity. Qed.

Lemma if_truthy_str s : (if truthy s then str_or s EmptyString else EmptyString) = s.
Proof. rewrite str_or_empty. destruct s; reflexivity. Qed.

(** The strategy resolution reads only the saved option type, strategy, label and sizes. *)
Lemma looks_saved get option_type covered label :
  str_or_default (get "short_label"%string) EmptyString = label ->
  _looks_like_covered_call_group get option_type covered
  = String.eqb option_type "call" && ((covered >? 0) || startswith "covered_call-" label).
Proof.
  intros <-. unfold _looks_like_covered_call_group. destruct (String.eqb option_type "call"); [|reflexivity].
  cbn [negb andb]. now destruct (covered >? 0).
Qed.

Lemma encode_strs ids : encode_list (map PStr ids) = Ret (map PStr ids).
Proof. induction ids as [|s r IH]; [reflexivity|]. cbn. now rewrite IH. Qed.

Lemma saved_ids g now_us l fallback : encode_items (dict_of (to_dict_entries g now_us)) = Ret l ->
  _parse_group_id_list (dget "cash_secured_group_ids" l) fallback
  = _parse_group_id_list (PList (map PStr g.(cash_secured_group_ids))) fallback.
Proof.
  intros H. pose proof (saved_get _ l (group_keys_distinct g now_us) H "cash_secured_group_ids"
    (nonempty g.(cash_secured_group_ids)) (PList (map PStr g.(cash_secured_group_ids))) eq_refl) as E.
  destruct g.(cash_secured_group_ids) as [|i r] eqn:I; cbn [nonempty] in E.
  - injection E as <-. reflexivity.
  - rewrite through_json_list, encode_strs in E. cbn [obind] in E. injection E as E. now rewrite <- E.
Qed.

Lemma from_dict_saved g now_us l :
  encode_items (to_dict g now_us) = Ret l -> from_dict (fun key => dget key l) = Ret (stored_group g).
Proof.
  intros H. pose proof (saved_option_type g now_us l H) as HO.
  pose proof (group_keys_distinct g now_us) as K. rewrite to_dict_eq in H.
  pose proof (fun key c s d => saved_str _ l K H key c s d) as Str.
  pose proof (fun key c q d => saved_dec _ l K H key c q d) as Dec.
  pose proof (fun key o => saved_opt_dec _ l K H key o) as ODec.
  pose proof (fun key z => saved_int _ l K H key z) as Int.
  pose proof (fun key o => saved_opt_int _ l K H key o) as OInt.
  unfold from_dict. rewrite HO, (saved_dec_or _ l K H "original_entry_credit" g.(original_entry_credit)) by reflexivity.
  repeat match goal with |- context [int_or (dget ?k l) 0] => erewrite (Int k) by reflexivity end.
  repeat match goal with |- context [opt_int (dget ?k l)] => erewrite (OInt k) by reflexivity end.
  repeat match goal with |- context [opt_decimal (dget ?k l)] => erewrite (ODec k) by reflexivity end.
  repeat match goal with |- context [to_decimal (dget ?k l) 0] => erewrite (Dec k) by reflexivity end.
  erewrite looks_saved by (erewrite Str by reflexivity; reflexivity).
  repeat match goal with |- context [str_or_default (dget ?k l) ?d] => erewrite (Str k _ _ d) by reflexivity end.
  rewrite (saved_ids g now_us l _ H), !if_truthy_str, !str_or_empty. cbn [obind].
  unfold stored_group, stored_cover. cbn zeta. unfold stored_pos.
  destruct (_ && _); [reflexivity|]. destruct (String.eqb _ "covered_call"); reflexivity.
Qed.

(** ** Strategy names are canonical after one normalisation *)

Definition canonical_char (c : ascii) : ascii := underscore_char (lower_char c).

Lemma canonical_char_idem c : canonical_char (canonical_char c) = canonical_char c.
Proof. destruct c as [[] [] [] [] [] [] [] []]; reflexivity. Qed.

Lemma canonical_char_space c : is_space (canonical_char c) = true -> is_space c = true.
Proof. destruct c as [[] [] [] [] [] [] [] []]; vm_compute; congruence. Qed.

Lemma canonical_tight raw : strip (smap canonical_char (strip raw)) = smap canonical_char (strip raw).
Proof. apply strip_smap; [exact canonical_char_space | apply strip_idem]. Qed.

Definition canonical_name (s : string) : Prop := s <> EmptyString /\ forall d, normalize_strategy_name s d = s.

Lemma normalize_canonical raw d : canonical_name d -> canonical_name (normalize_strategy_name raw d).
Proof.
  intros Hd. unfold normalize_strategy_name, lower. rewrite smap_smap. fold canonical_char.
  change (smap (fun c => underscore_char (lower_char c))) with (smap canonical_char).
  set (n := smap canonical_char (strip raw)). destruct (is_empty n) eqn:E; [exact Hd|].
  destruct (assoc_str n strategy_aliases) as [v|] eqn:A.
  - assert (V : In v ["naked_short"; "bull_put_spread"; "covered_call"; "cash_secured"]%string).
    { clear - A. unfold strategy_aliases in A. cbn [assoc_str] in A.
      repeat (destruct (String.eqb _ _); [injection A as <-; cbn; tauto|]). discriminate. }
    destruct V as [<-|[<-|[<-|[<-|[]]]]]; split; try discriminate; reflexivity.
  - split; [intros Z; rewrite Z in E; discriminate|]. intros d'. unfold normalize_strategy_name, lower. rewrite smap_smap.
    change (smap (fun c => underscore_char (lower_char c))) with (smap canonical_char).
    assert (N : smap canonical_char (strip n) = n).
    { unfold n. rewrite canonical_tight, smap_smap. apply smap_ext, canonical_char_idem. }
    now rewrite N, E, A.
Qed.

Lemma naked_short_canonical : canonical_name "naked_short".
Proof. split; [discriminate | reflexivity]. Qed.

Lemma covered_call_canonical : canonical_name "covered_call".
Proof. split; [discriminate | reflexivity]. Qed.

(** ** A loaded group is stable *)

Lemma stored_dec_nonpos q : 0 < q -> ~ 0 < stored_dec q -> stored_dec q = 0.
Proof.
  intros P N. change 0 with (Qred 0). unfold stored_dec. apply Qred_complete. pose proof (stored_dec_value q) as V.
  apply Qnot_lt_le in N. apply Qle_antisym; [rewrite <- V; exact N|].
  apply val_nonneg. rewrite trunc_nonneg; [apply (Qfloor_resp_le 0) |]; apply Qmult_le_0_compat; try lra; apply Qlt_le_weak, p10_pos.
Qed.

Lemma stored_pos_idem q : stored_pos (stored_pos q) = stored_pos q.
Proof.
  unfold stored_pos. destruct (dltb_spec 0 q) as [P|P]; [|reflexivity].
  destruct (dltb_spec 0 (stored_dec q)) as [R|R]; [apply stored_dec_idem|].
  now rewrite (stored_dec_nonpos q).
Qed.

Lemma stored_pos_cases q : 0 < stored_pos q \/ stored_pos q = 0.
Proof.
  unfold stored_pos. destruct (dltb_spec 0 q) as [P|P]; [|now right].
  destruct (Qlt_le_dec 0 (stored_dec q)); [now left | right]. apply stored_dec_nonpos; [exact P | lra].
Qed.

Lemma stored_pos_of_dec q : stored_pos (stored_dec q) = if stored_dec q >? 0 then stored_dec q else 0.
Proof. unfold stored_pos. now rewrite stored_dec_idem. Qed.

Lemma option_map_idem (o : option Q) : option_map stored_dec (option_map stored_dec o) = option_map stored_dec o.
Proof. destruct o; cbn [option_map]; [now rewrite stored_dec_idem | reflexivity]. Qed.

Lemma str_or_idem s d : str_or (str_or s d) d = str_or s d.
Proof. unfold str_or at 2 3. destruct (truthy s) eqn:E; [unfold str_or; now rewrite E | unfold str_or; now destruct (truthy d)]. Qed.

Lemma infer_nonempty n : truthy (_infer_option_type n) = true.
Proof. unfold _infer_option_type. now destruct (endswith _ _). Qed.

Lemma if_truthy_idem {A} (s : string) (f : A -> A) (d x : A) : f (f x) = f x ->
  (if truthy s then f (if truthy s then f x else d) else d) = if truthy s then f x else d.
Proof. destruct (truthy s); auto. Qed.

Lemma add_id_In ids t x : In x (add_id ids t) <-> In x ids \/ (x = t /\ truthy t = true).
Proof.
  unfold add_id. destruct (truthy t) eqn:T; cbn [andb]; [|intuition congruence].
  destruct (mem_str t ids) eqn:M; cbn [negb].
  - apply mem_str_In in M. split; [tauto|]. intros [H|[-> _]]; assumption.
  - rewrite in_app_iff. cbn. intuition congruence.
Qed.

Lemma add_id_absorb ids t : In t ids -> add_id ids t = ids.
Proof. intros H. apply mem_str_In in H. unfold add_id. now rewrite H, andb_false_r. Qed.

(** Tokens are stripped, non-empty and distinct: parsing them again gives them back. *)
Definition clean_ids (ids : list string) : Prop :=
  NoDup ids /\ forall x, In x ids -> strip x = x /\ truthy x = true.

Lemma add_id_clean ids t : clean_ids ids -> clean_ids (add_id ids (strip t)).
Proof.
  intros [N C]. split.
  - unfold add_id. destruct (_ && _) eqn:E; [|exact N]. apply andb_true_iff in E. destruct E as [_ E].
    apply negb_true_iff in E. apply NoDup_app; [exact N | repeat constructor; intros [] |].
    intros x Hx [<-|[]]. apply mem_str_In in Hx. congruence.
  - intros x H. apply add_id_In in H. destruct H as [H|[-> T]]; [auto|]. split; [apply strip_idem | exact T].
Qed.

Definition add_obj_id (ids : list string) (item : pyobj) : list string :=
  add_id ids (strip (str_or_default item EmptyString)).

Lemma fold_ids_clean parts ids : clean_ids ids -> clean_ids (fold_left add_obj_id parts ids).
Proof. revert ids. induction parts as [|p r IH]; intros ids H; [exact H|]. cbn. apply IH, add_id_clean, H. Qed.

Lemma parse_ids_clean raw fallback : clean_ids (_parse_group_id_list raw fallback).
Proof.
  apply add_id_clean. apply (fold_ids_clean _ []). split; [constructor | intros x []].
Qed.

Lemma fold_ids_same ids : forall acc, clean_ids (acc ++ ids) -> fold_left add_obj_id (map PStr ids) acc = acc ++ ids.
Proof.
  induction ids as [|x r IH]; intros acc H; [now rewrite app_nil_r|]. cbn [map fold_left].
  destruct H as [N C]. destruct (C x) as [S T]; [apply in_app_iff; right; now left|].
  assert (E : add_obj_id acc (PStr x) = acc ++ [x]).
  { unfold add_obj_id, str_or_default. cbn [py_truthy py_str]. rewrite T, S. unfold add_id. rewrite T. cbn [andb].
    replace (mem_str x acc) with false; [reflexivity|]. symmetry. apply not_true_is_false. intros M.
    apply mem_str_In in M. apply NoDup_remove_2 in N. apply N, in_app_iff. now left. }
  rewrite E, IH; rewrite <- app_assoc; [reflexivity | split; assumption].
Qed.

Lemma parse_ids_idem ids fallback : clean_ids ids -> In (strip fallback) ids \/ truthy (strip fallback) = false ->
  _parse_group_id_list (PList (map PStr ids)) fallback = ids.
Proof.
  intros C H. unfold _parse_group_id_list. change (fun ids0 item => add_id ids0 _) with add_obj_id.
  rewrite (fold_ids_same ids []) by exact C. cbn [app].
  destruct H as [H|H]; [now apply add_id_absorb | unfold add_id; now rewrite H].
Qed.

Lemma parse_ids_fallback raw fallback :
  In (strip fallback) (_parse_group_id_list raw fallback) \/ truthy (strip fallback) = false.
Proof.
  unfold _parse_group_id_list. destruct (truthy (strip fallback)) eqn:T; [left | now right].
  apply add_id_In. now right.
Qed.

Lemma collateral_idem cc cur (u : bool) :
  let usdc := if u then "USDC"%string else upper cur in
  str_or (upper (str_or (upper cc) usdc)) usdc = str_or (upper cc) usdc.
Proof.
  cbn zeta. unfold str_or. destruct (truthy (upper cc)) eqn:E; [now rewrite upper_idem, E|].
  destruct u; [reflexivity|]. rewrite upper_idem. now destruct (truthy (upper cur)).
Qed.

Lemma stored_cover_canonical g : canonical_name (fst (stored_cover g)).
Proof.
  pose proof (normalize_canonical (normalize_strategy_name g.(strategy) "naked_short") EmptyString) as _.
  pose proof (normalize_canonical g.(strategy) _ naked_short_canonical) as [N C].
  unfold stored_cover. rewrite C. set (n := normalize_strategy_name g.(strategy) "naked_short") in *.
  destruct (_ && _); [apply covered_call_canonical|]. destruct (String.eqb n "covered_call"); cbn [fst]; [now split|].
  unfold str_or. destruct (truthy n) eqn:T; [now split|]. unfold truthy in T.
  apply negb_false_iff, is_empty_true in T. congruence.
Qed.

Lemma stored_cover_idem g : stored_cover (stored_group g) = stored_cover g.
Proof.
  pose proof (stored_cover_canonical g) as [N C].
  unfold stored_cover at 1.
  change (strategy (stored_group g)) with (fst (stored_cover g)).
  change (covered_underlying_quantity (stored_group g)) with (snd (stored_cover g)).
  change (quantity (stored_group g)) with (stored_dec g.(quantity)).
  change (short_label (stored_group g)) with g.(short_label).
  assert (O : stored_option_type (stored_group g) = stored_option_type g).
  { unfold stored_option_type at 1. change (option_type (stored_group g)) with (stored_option_type g).
    change (short_instrument_name (stored_group g)) with g.(short_instrument_name). apply str_or_idem. }
  rewrite O, !C, stored_dec_idem. revert N C. unfold stored_cover.
  pose proof (normalize_canonical g.(strategy) _ naked_short_canonical) as [N0 C0]. rewrite C0.
  set (n := normalize_strategy_name g.(strategy) "naked_short") in *.
  pose proof (stored_pos_cases g.(covered_underlying_quantity)) as P. pose proof (stored_pos_idem g.(covered_underlying_quantity)) as PI.
  set (c := stored_pos g.(covered_underlying_quantity)) in *.
  set (qty := stored_dec g.(quantity)) in *. set (lbl := startswith "covered_call-" g.(short_label)).
  assert (QI : stored_pos qty = if qty >? 0 then qty else 0) by apply stored_pos_of_dec.
  assert (E0 : is_empty n = false) by (destruct n; [congruence | reflexivity]). rewrite E0.
  assert (T : str_or n "naked_short" = n) by (unfold str_or, truthy; now rewrite E0). clear C0.
  assert (QC : (dltb 0 qty = true /\ dleb qty 0 = false) \/ (dltb 0 qty = false /\ dleb qty 0 = true)).
  { destruct (Qlt_le_dec 0 qty) as [L|L]; [left | right]; split;
      first [apply dltb_true | apply dltb_false | apply dleb_false | apply dleb_true]; exact L. }
  assert (PC : (dltb 0 c = true /\ dleb c 0 = false) \/ c = 0).
  { destruct P as [P| ->]; [left | now right]. split; [apply dltb_true | apply dleb_false]; exact P. }
  clearbody c qty lbl n. clear P. intros N C.
  destruct PC as [[PC1 PC2] | ->]; [rewrite PC1, PC2 in * | change (dltb 0 0) with false in *; change (dleb 0 0) with true in *].
  - cbn [orb]. destruct (String.eqb n "naked_short") eqn:E1, (String.eqb n "covered_call") eqn:E2, (String.eqb (stored_option_type g) "call");
      cbn [andb orb fst snd negb is_empty] in *; rewrite ?T, ?PI, ?PC1, ?PC2, ?E0, ?E1, ?E2; reflexivity.
  - cbn [orb]. destruct (String.eqb n "naked_short") eqn:E1, (String.eqb n "covered_call") eqn:E2, (String.eqb (stored_option_type g) "call"), lbl;
      cbn [andb orb fst snd negb is_empty] in *; rewrite ?T, ?PI, ?QI, ?E0, ?E1, ?E2; try reflexivity;
      destruct QC as [[Q1 Q2]|[Q1 Q2]]; cbn; rewrite ?T, ?Q1, ?Q2, ?E0, ?E1, ?E2; try reflexivity.
  apply String.eqb_eq in E1, E2. congruence.
Qed.

Lemma stored_option_type_idem g : stored_option_type (stored_group g) = stored_option_type g.
Proof.
  unfold stored_option_type at 1. change (option_type (stored_group g)) with (stored_option_type g).
  change (short_instrument_name (stored_group g)) with g.(short_instrument_name). apply str_or_idem.
Qed.

(** Saving a group and loading it back gives the group described by
    [stored_group], whatever the group: every decimal truncated to eight places,
    optional journal amounts kept when positive, currencies upper-cased, empty
    labels defaulted, the strategy name normalised and the covered quantity of a
    covered call recovered. No field of the record is lost. *)
Theorem from_dict_to_dict g now_us l :
  encode_items (to_dict g now_us) = Ret l -> from_dict (fun key => dget key l) = Ret (stored_group g).
Proof. apply from_dict_saved. Qed.

(* The equalities below are decided by rewriting, not by computing the decimals. *)
#[local] Opaque stored_dec stored_pos upper _parse_group_id_list.

(** A loaded group is stable: what one save and load keeps, every further
    save and load keeps unchanged. *)
Theorem stored_group_idempotent g : stored_group (stored_group g) = stored_group g.
Proof.
  pose proof (stored_cover_idem g) as SC.
  pose proof (parse_ids_idem _ _ (parse_ids_clean (PList (map PStr g.(cash_secured_group_ids))) g.(cash_secured_group_id))
    (parse_ids_fallback _ _)) as Ids.
  unfold stored_group at 1. rewrite SC, stored_option_type_idem. unfold stored_group.
  cbn [group_id currency collateral_currency quantity entry_timestamp_ms
    expiration_timestamp_ms short_instrument_name short_strike entry_credit original_entry_credit
    max_loss regime_at_entry estimated_im_collateral entry_fee entry_fee_collateral
    short_entry_average_price long_entry_average_price long_close_average_price entry_index_usd entry_net_apr
    entry_book_equity hedge_instrument_name hedge_size_base hedge_mode hedge_recovery_streak
    current_debit mark_debit current_close_fee current_close_fee_collateral short_delta
    profit_capture status last_action close_incomplete_streak hard_defense_streak
    soft_defense_streak itm_defense_streak closed_timestamp_ms close_reason realized_close_debit
    realized_close_fee close_fee_collateral short_close_average_price close_index_usd realized_pnl_collateral_native
    realized_pnl realized_return_on_max_loss realized_annualized_return close_book_equity realized_apr_on_equity
    short_label hedge_label option_type strategy long_instrument_name
    long_strike long_label covered_underlying_quantity spot_exit_status spot_exit_amount
    spot_exit_instrument_name spot_exit_order_id spot_exit_reason spot_exit_quote_proceeds spot_exit_quote_proceeds_lifetime
    spot_exit_settlement_loss spot_exit_settlement_loss_source spot_restore_status spot_restore_amount spot_restore_instrument_name
    spot_restore_order_id spot_restore_reason spot_restore_quote_spent spot_restore_quote_spent_lifetime profit_sweep_status
    profit_sweep_amount profit_sweep_instrument_name profit_sweep_order_id profit_sweep_quote_proceeds profit_sweep_quote_proceeds_lifetime
    profit_sweep_exchange_native profit_sweep_exchange_quote_proceeds profit_sweep_reason cash_secured_status cash_secured_group_id
    cash_secured_group_ids cash_secured_reason cash_secured_order_id cash_secured_instrument_name cash_secured_limit_price
    cash_secured_from_group_id csp_premium_swap_status csp_premium_swap_amount csp_premium_swap_instrument_name csp_premium_swap_order_id
    csp_premium_swap_native csp_premium_swap_reason].
  rewrite Ids, !stored_dec_idem, !stored_pos_idem, !option_map_idem, !upper_idem, !str_or_idem, collateral_idem.
  destruct (truthy g.(long_instrument_name)); [rewrite stored_dec_idem|]; reflexivity.
Qed.


#[local] Transparent stored_dec stored_pos upper _parse_group_id_list.

(** ** A sample *)

(** A wheel parent with a filled spot exit, as the live cycle leaves it. *)
Definition sample_saved_group : TradeGroup :=
  set_spot_exit_status "filled" (set_spot_exit_amount 1.5 (set_strategy "covered-call" (set_cash_secured_group_id "0009"
  (set_realized_pnl (Some (-12.3456789123)) (set_option_type "call"
  (new_group "0007" "btc" "" 1.5 1700000000000 1700600000000 "BTC-29MAY26-70000-C" 70000 2400.5 2400.5 0 "normal")))))).

Lemma from_dict_to_dict_witness :
  exists l, encode_items (to_dict sample_saved_group 1700000000000000) = Ret l
    /\ from_dict (fun key => dget key l) = Ret (stored_group sample_saved_group)
    /\ strategy (stored_group sample_saved_group) = "covered_call"%string
    /\ covered_underlying_quantity (stored_group sample_saved_group) = 3 # 2
    /\ realized_pnl (stored_group sample_saved_group) = Some (-1234567891 # 100000000)
    /\ cash_secured_group_ids (stored_group sample_saved_group) = ["0009"%string].
Proof.
  destruct (encode_items (to_dict sample_saved_group 1700000000000000)) as [l|e|] eqn:E.
  - exists l. split; [reflexivity|]. split; [exact (from_dict_to_dict sample_saved_group 1700000000000000 l E)|].
    repeat split; vm_compute; reflexivity.
  - exfalso. revert E. vm_compute. discriminate.
  - exfalso. revert E. vm_compute. discriminate.
Defined.
