(* ===== verification/StateJson.v ===== *)
(** Saving and loading the whole strategy state: [StrategyState.to_dict] and
    [from_dict] ([deribit_engine/models.py]). *)

From S2P Require Import Prelude Dec PyStr Utils Group PyObj GroupJson.
Local Open Scope Q_scope.
Local Open Scope outcome_scope.
Local Open Scope list_scope.

(** A [dict] with string keys, in insertion order. *)
Definition dict (A : Type) : Type := list (string * A).

Fixpoint dict_get {A} (k : string) (d : dict A) : option A :=
  match d with
  | [] => None
  | (k', v) :: r => if String.eqb k k' then Some v else dict_get k r
  end.

(** [d[k] = v]: an existing key keeps its place. *)
Fixpoint dict_set {A} (k : string) (v : A) (d : dict A) : dict A :=
  match d with
  | [] => [(k, v)]
  | (k', v') :: r => if String.eqb k k' then (k, v) :: r else (k', v') :: dict_set k v r
  end.

(** [d.pop(key, None)] *)
Fixpoint dict_pop {A} (k : string) (d : dict A) : dict A :=
  match d with
  | [] => []
  | (k', v) :: r => if String.eqb k k' then dict_pop k r else (k', v) :: dict_pop k r
  end.

Lemma dict_get_set {A} k k' (v : A) d : dict_get k (dict_set k' v d) = if String.eqb k k' then Some v else dict_get k d.
Proof.
  induction d as [|[k0 v0] r IH]; cbn [dict_set dict_get]; [reflexivity|].
  destruct (String.eqb_spec k' k0) as [->|N]; cbn [dict_get]; [destruct (String.eqb k k0); reflexivity|].
  rewrite IH. destruct (String.eqb_spec k k0) as [->|_]; [|reflexivity].
  destruct (String.eqb_spec k0 k'); [congruence | reflexivity].
Qed.

Lemma dict_get_pop {A} k k' (d : dict A) : dict_get k (dict_pop k' d) = if String.eqb k k' then None else dict_get k d.
Proof.
  induction d as [|[k0 v0] r IH]; cbn [dict_pop dict_get]; [now destruct (String.eqb k k')|].
  destruct (String.eqb_spec k' k0) as [->|N]; cbn [dict_get]; rewrite IH;
    destruct (String.eqb_spec k k0) as [->|_]; try reflexivity; destruct (String.eqb_spec k0 k'); congruence.
Qed.

Record StrategyState : Type := mkState {
  version : Z;
  day_key : string;
  day_start_equity_usdc : Q;
  last_equity_usdc : Q;
  cooldown_until_ms : option Z;
  day_start_equity_by_book : dict Q;
  last_equity_by_book : dict Q;
  day_start_equity_native_by_book : dict Q;
  last_equity_native_by_book : dict Q;
  cooldown_until_ms_by_book : dict (option Z);
  day_net_flow_usdc_by_book : dict Q;
  day_net_flow_native_by_book : dict Q;
  last_flow_query_ms_by_book : dict Z;
  day_equity_anchor_ms_by_book : dict Z;
  next_group_id : Z;
  normal_recovery_counts : dict Z;
  hedge_maker_wait_cycles : dict Z;
  groups : list TradeGroup;
}.

(** [StrategyState()] *)
Definition empty_state : StrategyState :=
  {| version := 2; day_key := EmptyString; day_start_equity_usdc := 0; last_equity_usdc := 0;
     cooldown_until_ms := None; day_start_equity_by_book := []; last_equity_by_book := [];
     day_start_equity_native_by_book := []; last_equity_native_by_book := []; cooldown_until_ms_by_book := [];
     day_net_flow_usdc_by_book := []; day_net_flow_native_by_book := []; last_flow_query_ms_by_book := [];
     day_equity_anchor_ms_by_book := []; next_group_id := 1; normal_recovery_counts := [];
     hedge_maker_wait_cycles := []; groups := [] |}.

Definition set_groups (gs : list TradeGroup) (s : StrategyState) : StrategyState :=
  mkState s.(version) s.(day_key) s.(day_start_equity_usdc) s.(last_equity_usdc) s.(cooldown_until_ms)
    s.(day_start_equity_by_book) s.(last_equity_by_book) s.(day_start_equity_native_by_book)
    s.(last_equity_native_by_book) s.(cooldown_until_ms_by_book) s.(day_net_flow_usdc_by_book)
    s.(day_net_flow_native_by_book) s.(last_flow_query_ms_by_book) s.(day_equity_anchor_ms_by_book)
    s.(next_group_id) s.(normal_recovery_counts) s.(hedge_maker_wait_cycles) gs.

Definition set_next_group_id (n : Z) (s : StrategyState) : StrategyState :=
  mkState s.(version) s.(day_key) s.(day_start_equity_usdc) s.(last_equity_usdc) s.(cooldown_until_ms)
    s.(day_start_equity_by_book) s.(last_equity_by_book) s.(day_start_equity_native_by_book)
    s.(last_equity_native_by_book) s.(cooldown_until_ms_by_book) s.(day_net_flow_usdc_by_book)
    s.(day_net_flow_native_by_book) s.(last_flow_query_ms_by_book) s.(day_equity_anchor_ms_by_book)
    n s.(normal_recovery_counts) s.(hedge_maker_wait_cycles) s.(groups).

(** ** Writing *)

Definition map_dict {A B} (f : A -> B) (d : dict A) : dict B := map (fun kv => (fst kv, f (snd kv))) d.
Definition dec_dict (d : dict Q) : pyobj := PDict (map_dict PDec d).
Definition int_dict (d : dict Z) : pyobj := PDict (map_dict PInt d).

Definition state_to_dict (s : StrategyState) (now_us : Z) : list (string * pyobj) :=
  [("version"%string, PInt s.(version));
   ("day_key"%string, PStr s.(day_key));
   ("day_start_equity_usdc"%string, PDec s.(day_start_equity_usdc));
   ("last_equity_usdc"%string, PDec s.(last_equity_usdc));
   ("cooldown_until_ms"%string, opt_int_obj s.(cooldown_until_ms));
   ("day_start_equity_by_book"%string, dec_dict s.(day_start_equity_by_book));
   ("last_equity_by_book"%string, dec_dict s.(last_equity_by_book));
   ("day_start_equity_native_by_book"%string, dec_dict s.(day_start_equity_native_by_book));
   ("last_equity_native_by_book"%string, dec_dict s.(last_equity_native_by_book));
   ("cooldown_until_ms_by_book"%string, PDict (map_dict opt_int_obj s.(cooldown_until_ms_by_book)));
   ("day_net_flow_usdc_by_book"%string, dec_dict s.(day_net_flow_usdc_by_book));
   ("day_net_flow_native_by_book"%string, dec_dict s.(day_net_flow_native_by_book));
   ("last_flow_query_ms_by_book"%string, int_dict s.(last_flow_query_ms_by_book));
   ("day_equity_anchor_ms_by_book"%string, int_dict s.(day_equity_anchor_ms_by_book));
   ("next_group_id"%string, PInt s.(next_group_id));
   ("normal_recovery_counts"%string, int_dict s.(normal_recovery_counts));
   ("hedge_maker_wait_cycles"%string, int_dict s.(hedge_maker_wait_cycles));
   ("groups"%string, PList (map (fun g => PDict (to_dict g now_us)) s.(groups)))].

(** ** Reading *)

(** [(payload.get(key) or {}).items()] *)
Definition items_of (v : pyobj) : outcome (list (string * pyobj)) :=
  if py_truthy v then match v with PDict l => Ret l | _ => Exn TypeError end else Ret [].

(** [{str(k).upper(): f(v) for k, v in items}] *)
Fixpoint upper_dict {A} (f : pyobj -> outcome A) (items : list (string * pyobj)) (acc : dict A) : outcome (dict A) :=
  match items with
  | [] => Ret acc
  | (k, v) :: r => let! x := f v in upper_dict f r (dict_set (upper k) x acc)
  end.

(** The same with [if v is not None]. *)
Definition not_none (items : list (string * pyobj)) : list (string * pyobj) :=
  filter (fun kv => match snd kv with PNone => false | _ => true end) items.

Definition dec_of (v : pyobj) : outcome Q := Ret (to_decimal v 0).

Definition read_dict {A} (f : pyobj -> outcome A) (v : pyobj) : outcome (dict A) :=
  let! items := items_of v in upper_dict f items [].

Definition read_int_dict (v : pyobj) : outcome (dict Z) :=
  let! items := items_of v in upper_dict py_int (not_none items) [].

(** [[TradeGroup.from_dict(item) for item in payload.get("groups") or []]] *)
Fixpoint read_groups (l : list pyobj) : outcome (list TradeGroup) :=
  match l with
  | [] => Ret []
  | PDict d :: r => let! g := from_dict (fun key => dget key d) in let! gs := read_groups r in Ret (g :: gs)
  | _ :: _ => Exn TypeError
  end.

Definition groups_of (v : pyobj) : outcome (list TradeGroup) :=
  if py_truthy v then match v with PList l => read_groups l | _ => Exn TypeError end else Ret [].

Definition state_from_dict (get : string -> pyobj) : outcome StrategyState :=
  let! v := int_or (get "version"%string) 1 in
  let! cooldown := opt_int (get "cooldown_until_ms"%string) in
  let! dse := read_dict dec_of (get "day_start_equity_by_book"%string) in
  let! le := read_dict dec_of (get "last_equity_by_book"%string) in
  let! dsn := read_dict dec_of (get "day_start_equity_native_by_book"%string) in
  let! len := read_dict dec_of (get "last_equity_native_by_book"%string) in
  let! cool := read_dict opt_int (get "cooldown_until_ms_by_book"%string) in
  let! nfu := read_dict dec_of (get "day_net_flow_usdc_by_book"%string) in
  let! nfn := read_dict dec_of (get "day_net_flow_native_by_book"%string) in
  let! lfq := read_int_dict (get "last_flow_query_ms_by_book"%string) in
  let! anchor := read_int_dict (get "day_equity_anchor_ms_by_book"%string) in
  let! next := int_or (get "next_group_id"%string) 1 in
  let! counts := read_dict py_int (get "normal_recovery_counts"%string) in
  let! waits := read_dict py_int (get "hedge_maker_wait_cycles"%string) in
  let! gs := groups_of (get "groups"%string) in
  Ret {| version := v; day_key := str_or_default (get "day_key"%string) EmptyString;
         day_start_equity_usdc := to_decimal (get "day_start_equity_usdc"%string) 0;
         last_equity_usdc := to_decimal (get "last_equity_usdc"%string) 0;
         cooldown_until_ms := cooldown; day_start_equity_by_book := dse; last_equity_by_book := le;
         day_start_equity_native_by_book := dsn; last_equity_native_by_book := len;
         cooldown_until_ms_by_book := cool; day_net_flow_usdc_by_book := nfu; day_net_flow_native_by_book := nfn;
         last_flow_query_ms_by_book := lfq; day_equity_anchor_ms_by_book := anchor; next_group_id := next;
         normal_recovery_counts := counts; hedge_maker_wait_cycles := waits; groups := gs |}.

(** ** What a save and a load keep *)

Definition stored_dict {A} (f : A -> A) (d : dict A) : dict A :=
  fold_left (fun acc kv => dict_set (upper (fst kv)) (f (snd kv)) acc) d [].

Definition same {A} (x : A) : A := x.
Definition or_one (z : Z) : Z := if (z =? 0)%Z then 1%Z else z.

Definition stored_state (s : StrategyState) : StrategyState := {|
  version := or_one s.(version); day_key := s.(day_key);
  day_start_equity_usdc := stored_dec s.(day_start_equity_usdc);
  last_equity_usdc := stored_dec s.(last_equity_usdc);
  cooldown_until_ms := s.(cooldown_until_ms);
  day_start_equity_by_book := stored_dict stored_dec s.(day_start_equity_by_book);
  last_equity_by_book := stored_dict stored_dec s.(last_equity_by_book);
  day_start_equity_native_by_book := stored_dict stored_dec s.(day_start_equity_native_by_book);
  last_equity_native_by_book := stored_dict stored_dec s.(last_equity_native_by_book);
  cooldown_until_ms_by_book := stored_dict same s.(cooldown_until_ms_by_book);
  day_net_flow_usdc_by_book := stored_dict stored_dec s.(day_net_flow_usdc_by_book);
  day_net_flow_native_by_book := stored_dict stored_dec s.(day_net_flow_native_by_book);
  last_flow_query_ms_by_book := stored_dict same s.(last_flow_query_ms_by_book);
  day_equity_anchor_ms_by_book := stored_dict same s.(day_equity_anchor_ms_by_book);
  next_group_id := or_one s.(next_group_id);
  normal_recovery_counts := stored_dict same s.(normal_recovery_counts);
  hedge_maker_wait_cycles := stored_dict same s.(hedge_maker_wait_cycles);
  groups := map stored_group s.(groups) |}.

Section SavedState.
Variables (l : list (string * pyobj)) (l' : list (string * pyobj)).
Hypothesis Hsave : encode_items l = Ret l'.

Lemma state_get key v : dget key l = v -> through_json v = Ret (dget key l').
Proof. intros <-. apply encode_items_get, Hsave. Qed.

Lemma state_int key z : dget key l = PInt z -> int_or (dget key l') 1 = Ret (or_one z).
Proof.
  intros E. apply state_get in E. injection E as <-. unfold int_or, or_one. cbn. destruct (z =? 0)%Z; reflexivity.
Qed.

Lemma state_opt_int key o : dget key l = opt_int_obj o -> opt_int (dget key l') = Ret o.
Proof. intros E. apply state_get in E. destruct o; injection E as <-; reflexivity. Qed.

Lemma state_str key s : dget key l = PStr s -> str_or_default (dget key l') EmptyString = s.
Proof. intros E. apply state_get in E. injection E as <-. destruct s; reflexivity. Qed.

Lemma state_dec key q : dget key l = PDec q -> to_decimal (dget key l') 0 = stored_dec q.
Proof.
  intros E. apply state_get in E. cbn [through_json] in E. apply obind_inv in E. destruct E as (t & T & E).
  injection E as <-. apply to_decimal_text, T.
Qed.

(** A dictionary whose values survive the file: [f] reads back [h x] from the encoding of [enc x]. *)
Lemma read_encoded {A} (enc : A -> pyobj) (f : pyobj -> outcome A) (h : A -> A) (d : dict A) :
  (forall x v, through_json (enc x) = Ret v -> f v = Ret (h x)) ->
  forall items acc, encode_items (map_dict enc d) = Ret items ->
  upper_dict f items acc = Ret (fold_left (fun acc kv => dict_set (upper (fst kv)) (h (snd kv)) acc) d acc).
Proof.
  intros H. induction d as [|[k x] r IH]; intros items acc E.
  - cbn in E. injection E as <-. reflexivity.
  - cbn [map_dict map encode_items fst snd] in E. apply obind_inv in E. destruct E as (v & V & E).
    apply obind_inv in E. destruct E as (r' & R & E). injection E as <-.
    cbn [upper_dict fold_left fst snd]. rewrite (H x v V). cbn [obind]. apply IH, R.
Qed.

Lemma state_dict {A} (enc : A -> pyobj) (f : pyobj -> outcome A) (h : A -> A) key d :
  (forall x v, through_json (enc x) = Ret v -> f v = Ret (h x)) ->
  dget key l = PDict (map_dict enc d) -> read_dict f (dget key l') = Ret (stored_dict h d).
Proof.
  intros H E. apply state_get in E. rewrite through_json_dict in E. apply obind_inv in E.
  destruct E as (items & I & E). injection E as <-. unfold read_dict, items_of. cbn [py_truthy].
  destruct items as [|kv items]; cbn [obind].
  - destruct d as [|[k x] r]; [reflexivity|]. exfalso. cbn [map_dict map encode_items fst snd] in I.
    apply obind_inv in I. destruct I as (v & _ & I). apply obind_inv in I. destruct I as (r' & _ & I). discriminate.
  - apply (read_encoded enc f h d H (kv :: items) [] I).
Qed.

Lemma encode_ints_items d items : encode_items (map_dict PInt d) = Ret items -> items = map_dict PInt d.
Proof.
  revert items. induction d as [|[k z] r IH]; intros items E; [injection E as <-; reflexivity|].
  cbn [map_dict map encode_items fst snd through_json obind] in E. apply obind_inv in E.
  destruct E as (r' & R & E). injection E as <-. cbn. f_equal. apply IH, R.
Qed.

Lemma not_none_ints d : not_none (map_dict PInt d) = map_dict PInt d.
Proof. unfold not_none. induction d as [|[k z] r IH]; [reflexivity|]. cbn. unfold map_dict in IH. now rewrite IH. Qed.

Lemma state_int_dict key d : dget key l = int_dict d -> read_int_dict (dget key l') = Ret (stored_dict same d).
Proof.
  intros E. pose proof (state_dict PInt py_int same key d) as H.
  rewrite <- H; [|intros x v V; injection V as <-; reflexivity | exact E].
  apply state_get in E. unfold int_dict in E. rewrite through_json_dict in E. apply obind_inv in E.
  destruct E as (items & I & E). injection E as <-. apply encode_ints_items in I. subst items.
  unfold read_int_dict, read_dict, items_of. destruct (py_truthy _); [|reflexivity]. cbn [obind].
  now rewrite not_none_ints.
Qed.

(** Groups written by [write] and read back one by one. *)
Lemma read_written_groups (write : TradeGroup -> list (string * pyobj)) (kept : TradeGroup -> TradeGroup) gs :
  (forall g d, encode_items (write g) = Ret d -> from_dict (fun key => dget key d) = Ret (kept g)) ->
  forall l0, encode_list (map (fun g => PDict (write g)) gs) = Ret l0 -> read_groups l0 = Ret (map kept gs).
Proof.
  intros W. induction gs as [|g r IH]; intros l0 E; [injection E as <-; reflexivity|].
  cbn [map encode_list] in E. apply obind_inv in E. destruct E as (v & V & E).
  apply obind_inv in E. destruct E as (r' & R & E). injection E as <-.
  rewrite through_json_dict in V. apply obind_inv in V. destruct V as (d & D & V). injection V as <-.
  cbn [read_groups map]. rewrite (W g d D). cbn [obind]. rewrite (IH r' R). reflexivity.
Qed.

Lemma state_groups (write : TradeGroup -> list (string * pyobj)) (kept : TradeGroup -> TradeGroup) key gs :
  (forall g d, encode_items (write g) = Ret d -> from_dict (fun key => dget key d) = Ret (kept g)) ->
  dget key l = PList (map (fun g => PDict (write g)) gs) -> groups_of (dget key l') = Ret (map kept gs).
Proof.
  intros W E. apply state_get in E. rewrite through_json_list in E. apply obind_inv in E.
  destruct E as (l0 & L & E). injection E as <-. pose proof (read_written_groups write kept gs W l0 L) as R.
  unfold groups_of. cbn [py_truthy]. destruct l0 as [|v l0]; exact R.
Qed.
End SavedState.

Lemma state_saved s now_us l : encode_items (state_to_dict s now_us) = Ret l ->
  state_from_dict (fun key => dget key l) = Ret (stored_state s).
Proof.
  intros H. unfold state_from_dict.
  assert (D : forall key d, dget key (state_to_dict s now_us) = dec_dict d -> read_dict dec_of (dget key l) = Ret (stored_dict stored_dec d)).
  { intros key d E. apply (state_dict _ l H PDec dec_of stored_dec key d); [|exact E].
    intros q v V. cbn [through_json] in V. apply obind_inv in V. destruct V as (t & T & V). injection V as <-.
    unfold dec_of. now rewrite (to_decimal_text q t 0 T). }
  assert (I : forall key d, dget key (state_to_dict s now_us) = int_dict d -> read_dict py_int (dget key l) = Ret (stored_dict same d)).
  { intros key d E. apply (state_dict _ l H PInt py_int same key d); [|exact E].
    intros z v V. injection V as <-. reflexivity. }
  rewrite (state_int _ l H "version" s.(version)) by reflexivity. cbn [obind].
  rewrite (state_opt_int _ l H "cooldown_until_ms" s.(cooldown_until_ms)) by reflexivity. cbn [obind].
  do 4 (erewrite D by reflexivity; cbn [obind]).
  rewrite (state_dict _ l H opt_int_obj opt_int same "cooldown_until_ms_by_book" s.(cooldown_until_ms_by_book));
    [|intros o v V; destruct o; injection V as <-; reflexivity | reflexivity]. cbn [obind].
  do 2 (erewrite D by reflexivity; cbn [obind]).
  do 2 (erewrite (state_int_dict _ l H) by reflexivity; cbn [obind]).
  rewrite (state_int _ l H "next_group_id" s.(next_group_id)) by reflexivity. cbn [obind].
  do 2 (erewrite I by reflexivity; cbn [obind]).
  rewrite (state_groups _ l H (fun g => to_dict g now_us) stored_group "groups" s.(groups));
    [|intros g d; apply from_dict_saved | reflexivity]. cbn [obind].
  rewrite (state_str _ l H "day_key" s.(day_key)) by reflexivity.
  rewrite (state_dec _ l H "day_start_equity_usdc" s.(day_start_equity_usdc)) by reflexivity.
  rewrite (state_dec _ l H "last_equity_usdc" s.(last_equity_usdc)) by reflexivity.
  reflexivity.
Qed.
