(* ===== verification/State.v ===== *)
(** [deribit_engine/state.py], first half: the merge of the groups on disk and their
    journals into the live state before a save. *)

From S2P Require Import Prelude Dec PyStr Utils Group PyObj GroupJson StateJson.
Local Open Scope Q_scope.
Local Open Scope dec_scope.
Local Open Scope bool_scope.
Local Open Scope list_scope.

(** ** Journal status ranks *)

Definition ranks : Type := list (string * Z).

Definition _JOURNAL_STATUS_RANK : ranks :=
  [(EmptyString, 0); ("pending"%string, 1); ("submitted"%string, 2); ("failed"%string, 2);
   ("entered"%string, 3); ("filled"%string, 3); ("skipped"%string, 4)]%Z.

Definition _CASH_SECURED_STATUS_RANK : ranks :=
  [(EmptyString, 0); ("pending"%string, 1); ("submitted"%string, 2); ("skipped"%string, 2);
   ("entered"%string, 3)]%Z.

Fixpoint rank_of (s : string) (t : ranks) : Z :=
  match t with [] => 0%Z | (k, r) :: rest => if String.eqb s k then r else rank_of s rest end.

Definition str_of (v : pyval) : string := match v with VStr s => s | _ => EmptyString end.

Definition _status_rank (status : string) (table : ranks) : Z := rank_of (lower (strip status)) table.

(** ** Merging one journal cluster *)

Definition _copy_group_fields (dst src : TradeGroup) (fields : list attr) : TradeGroup :=
  fold_left (fun g a => setattr g a (getattr src a)) fields dst.

Definition mem_attr (a : attr) (l : list attr) : bool := existsb (attr_eqb a) l.

(** The loop over [amount_attrs]: keep the larger amount. *)
Definition raise_amount (disk : TradeGroup) (s : TradeGroup * bool) (a : attr) : TradeGroup * bool :=
  let '(g, changed) := s in
  match getattr disk a, getattr g a with
  | VDec disk_val, VDec mem_val => if disk_val >? mem_val then (setattr g a (VDec disk_val), true) else s
  | _, _ => s
  end.

(** The loop over [fields]: fill empty strings from disk. *)
Definition fill_string (disk : TradeGroup) (status_attr : attr) (amount_attrs : list attr)
    (s : TradeGroup * bool) (a : attr) : TradeGroup * bool :=
  if attr_eqb a status_attr || mem_attr a amount_attrs then s
  else
    let '(g, changed) := s in
    match getattr disk a, getattr g a with
    | VStr disk_val, VStr mem_val =>
        if truthy disk_val && negb (truthy mem_val) then (setattr g a (VStr disk_val), true) else s
    | _, _ => s
    end.

Definition _merge_journal_cluster (memory disk : TradeGroup) (status_attr : attr) (fields amount_attrs : list attr)
    (table : ranks) : TradeGroup * bool :=
  let mem_rank := _status_rank (str_of (getattr memory status_attr)) table in
  let disk_rank := _status_rank (str_of (getattr disk status_attr)) table in
  if (mem_rank <? disk_rank)%Z then (_copy_group_fields memory disk fields, true)
  else if (disk_rank <? mem_rank)%Z then (memory, false)
  else
    let s := fold_left (raise_amount disk) amount_attrs (memory, false) in
    let '(g, changed) := fold_left (fill_string disk status_attr amount_attrs) fields s in
    if changed && (0 <? disk_rank)%Z && negb (truthy (str_of (getattr g status_attr)))
    then (setattr g status_attr (getattr disk status_attr), changed)
    else (g, changed).

(** ** Operator marks *)

Definition _OPERATOR_CSP_ABORT_REASON : string := "operator_csp_abort_restore".
Definition _OPERATOR_RESTORE_REASON_MARKERS : list string := ["manual"%string; "operator"%string; "emergency"%string].

Definition operator_reason (reason : string) : bool :=
  existsb (fun marker => contains marker (lower reason)) _OPERATOR_RESTORE_REASON_MARKERS.

(** The group carries a filled operator restore. *)
Definition operator_restore (g : TradeGroup) : bool :=
  String.eqb (lower g.(spot_restore_status)) "filled" && (g.(spot_restore_amount) >? 0)
  && operator_reason g.(spot_restore_reason).

Definition operator_csp_abort (g : TradeGroup) : bool :=
  String.eqb (lower g.(cash_secured_status)) "skipped"
  && String.eqb (lower g.(cash_secured_reason)) _OPERATOR_CSP_ABORT_REASON.

Definition _merge_operator_manual_cover_restore (memory disk : TradeGroup) : TradeGroup * bool :=
  if negb (operator_restore disk) then (memory, false)
  else if String.eqb (lower memory.(spot_restore_status)) "filled"
          && (disk.(spot_restore_amount) <=? memory.(spot_restore_amount)) then (memory, false)
  else (_copy_group_fields memory disk _SPOT_RESTORE_FIELDS, true).

Definition _merge_operator_csp_abort (memory disk : TradeGroup) : TradeGroup * bool :=
  if negb (operator_csp_abort disk) then (memory, false)
  else if operator_csp_abort memory then (memory, false)
  else (_copy_group_fields memory disk _CASH_SECURED_FIELDS, true).

(** A snapshot of a cluster: the attributes with their values. *)
Definition snapshot : Type := list (attr * pyval).

Definition take_snapshot (g : TradeGroup) (fields : list attr) : snapshot := map (fun a => (a, getattr g a)) fields.

Definition _operator_manual_restore_snapshot (g : TradeGroup) : option snapshot :=
  if operator_restore g then Some (take_snapshot g _SPOT_RESTORE_FIELDS) else None.

Definition _operator_csp_abort_snapshot (g : TradeGroup) : option snapshot :=
  if operator_csp_abort g then Some (take_snapshot g _CASH_SECURED_FIELDS) else None.

(** Python's [==] on the attribute values. *)
Definition pyval_eqb (u v : pyval) : bool :=
  match u, v with
  | VStr a, VStr b => String.eqb a b
  | VDec a, VDec b => a =? b
  | VList a, VList b => if list_eq_dec String.string_dec a b then true else false
  | _, _ => false
  end.

Definition restore_attr (s : TradeGroup * bool) (av : attr * pyval) : TradeGroup * bool :=
  let '(g, changed) := s in
  let '(a, wanted) := av in
  if pyval_eqb (getattr g a) wanted then s else (setattr g a wanted, true).

Definition _restore_snapshot (g : TradeGroup) (snap : option snapshot) : TradeGroup * bool :=
  match snap with
  | None => (g, false)
  | Some fields => fold_left restore_attr fields (g, false)
  end.

Definition snapshot_amount (snap : snapshot) : Q :=
  fold_right (fun '(a, v) acc => match a, v with A_spot_restore_amount, VDec q => q | _, _ => acc end) 0 snap.

(** [csp_mem or csp_disk]: a snapshot is never an empty dict. *)
Definition or_snap (a b : option snapshot) : option snapshot := match a with Some _ => a | None => b end.

(** ** Merging one group *)

Definition restore_cluster (memory disk : TradeGroup) : TradeGroup * bool :=
  _merge_journal_cluster memory disk A_spot_restore_status _SPOT_RESTORE_FIELDS
    [A_spot_restore_amount; A_spot_restore_quote_spent; A_spot_restore_quote_spent_lifetime] _JOURNAL_STATUS_RANK.

Definition sweep_cluster (memory disk : TradeGroup) : TradeGroup * bool :=
  _merge_journal_cluster memory disk A_profit_sweep_status _PROFIT_SWEEP_FIELDS
    [A_profit_sweep_amount; A_profit_sweep_quote_proceeds; A_profit_sweep_quote_proceeds_lifetime;
     A_profit_sweep_exchange_native; A_profit_sweep_exchange_quote_proceeds] _JOURNAL_STATUS_RANK.

Definition exit_cluster (memory disk : TradeGroup) : TradeGroup * bool :=
  _merge_journal_cluster memory disk A_spot_exit_status _SPOT_EXIT_FIELDS
    [A_spot_exit_amount; A_spot_exit_quote_proceeds; A_spot_exit_quote_proceeds_lifetime;
     A_spot_exit_settlement_loss] _JOURNAL_STATUS_RANK.

Definition csp_cluster (memory disk : TradeGroup) : TradeGroup * bool :=
  _merge_journal_cluster memory disk A_cash_secured_status _CASH_SECURED_FIELDS [] _CASH_SECURED_STATUS_RANK.

(** The body of the loop of [merge_concurrent_group_updates]. *)
Definition merge_group (group other : TradeGroup) : TradeGroup * bool :=
  let restore_snap := _operator_manual_restore_snapshot group in
  let disk_restore_snap := _operator_manual_restore_snapshot other in
  let restore_snap :=
    match restore_snap, disk_restore_snap with
    | Some m, Some d => if snapshot_amount d >? snapshot_amount m then disk_restore_snap else restore_snap
    | _, _ => restore_snap
    end in
  let csp_mem := _operator_csp_abort_snapshot group in
  let csp_disk := _operator_csp_abort_snapshot other in
  let '(group, t1) := restore_cluster group other in
  let '(group, t2) := sweep_cluster group other in
  let '(group, t3) := exit_cluster group other in
  let '(group, t4) :=
    match or_snap csp_mem csp_disk with
    | Some s => _restore_snapshot group (Some s)
    | None => csp_cluster group other
    end in
  let '(group, t5) := _merge_operator_manual_cover_restore group other in
  let '(group, t6) := _merge_operator_csp_abort group other in
  let '(group, t7) := _restore_snapshot group restore_snap in
  let '(group, t8) := _restore_snapshot group csp_mem in
  (group, t1 || t2 || t3 || t4 || t5 || t6 || t7 || t8).

(** [{str(g.group_id): g for g in disk.groups if g.group_id}.get(gid)]: the last one wins. *)
Definition disk_group (gid : string) (gs : list TradeGroup) : option TradeGroup :=
  fold_left (fun acc g => if truthy g.(group_id) && String.eqb g.(group_id) gid then Some g else acc) gs None.

Fixpoint merge_groups (memory disk : list TradeGroup) : list TradeGroup * list string :=
  match memory with
  | [] => ([], [])
  | g :: rest =>
      let '(rest', ids) := merge_groups rest disk in
      match disk_group g.(group_id) disk with
      | None => (g :: rest', ids)
      | Some other =>
          let '(g', touched) := merge_group g other in
          (g' :: rest', if touched then g.(group_id) :: ids else ids)
      end
  end.

Definition merge_concurrent_group_updates (memory disk : StrategyState) : StrategyState * list string :=
  let '(gs, merged_ids) := merge_groups memory.(groups) disk.(groups) in
  let memory := set_groups gs memory in
  (if (memory.(next_group_id) <? disk.(next_group_id))%Z
   then set_next_group_id disk.(next_group_id) memory else memory, merged_ids).

Example merge_skip_survives :
  let live := set_spot_exit_status "pending" sample_saved_group in
  let disk := set_spot_exit_status "skipped" sample_saved_group in
  spot_exit_status (fst (merge_group live disk)) = "skipped"%string.
Proof. vm_compute. reflexivity. Qed.

(** ** The attributes after a merge step *)

Lemma mem_attr_cons b a l : mem_attr b (a :: l) = attr_eqb b a || mem_attr b l.
Proof. reflexivity. Qed.

Lemma attr_eqb_sym a b : attr_eqb a b = attr_eqb b a.
Proof. destruct (attr_eqb_spec a b), (attr_eqb_spec b a); congruence. Qed.

Lemma attr_eqb_refl a : attr_eqb a a = true.
Proof. destruct (attr_eqb_spec a a); congruence. Qed.

Lemma get_set g src a b : getattr (setattr g a (getattr src a)) b = if attr_eqb b a then getattr src b else getattr g b.
Proof.
  rewrite getattr_setattr by apply getattr_type. rewrite attr_eqb_sym.
  destruct (attr_eqb_spec b a) as [->|]; reflexivity.
Qed.

(** Everything a group holds besides its journals. *)
Definition outside {T} (h : TradeGroup -> T) : Prop := forall g a v, h (setattr g a v) = h g.

Lemma copy_get fields : forall dst src b,
  getattr (_copy_group_fields dst src fields) b = if mem_attr b fields then getattr src b else getattr dst b.
Proof.
  unfold _copy_group_fields. induction fields as [|a r IH]; intros dst src b; [reflexivity|].
  cbn [fold_left]. rewrite IH, mem_attr_cons, get_set. destruct (attr_eqb b a), (mem_attr b r); reflexivity.
Qed.

Lemma copy_outside {T} (h : TradeGroup -> T) fields dst src : outside h -> h (_copy_group_fields dst src fields) = h dst.
Proof.
  intros O. revert dst. unfold _copy_group_fields. induction fields as [|a r IH]; intros dst; [reflexivity|].
  cbn [fold_left]. now rewrite IH, O.
Qed.

Lemma fold_outside {T B} (h : TradeGroup -> T) (f : TradeGroup * bool -> B -> TradeGroup * bool) l s :
  (forall s x, h (fst (f s x)) = h (fst s)) -> h (fst (fold_left f l s)) = h (fst s).
Proof. intros H. revert s. induction l as [|x r IH]; intros s; [reflexivity|]. cbn. now rewrite IH, H. Qed.

Lemma raise_outside {T} (h : TradeGroup -> T) disk s a : outside h -> h (fst (raise_amount disk s a)) = h (fst s).
Proof.
  intros O. destruct s as [g c]. cbn. destruct (getattr disk a); try reflexivity. destruct (getattr g a); try reflexivity.
  destruct (_ <? _); [apply O | reflexivity].
Qed.

Lemma fill_outside {T} (h : TradeGroup -> T) disk st amts s a : outside h -> h (fst (fill_string disk st amts s a)) = h (fst s).
Proof.
  intros O. unfold fill_string. destruct (_ || _); [reflexivity|]. destruct s as [g c]. cbn.
  destruct (getattr disk a); try reflexivity. destruct (getattr g a); try reflexivity.
  destruct (_ && _); [apply O | reflexivity].
Qed.

Lemma restore_outside {T} (h : TradeGroup -> T) g snap : outside h -> h (fst (_restore_snapshot g snap)) = h g.
Proof.
  intros O. destruct snap as [l|]; [|reflexivity]. unfold _restore_snapshot. rewrite fold_outside; [reflexivity|].
  intros [k c] [a v]. cbn. destruct (pyval_eqb _ _); [reflexivity | apply O].
Qed.

Lemma cluster_outside {T} (h : TradeGroup -> T) m d st fields amts table :
  outside h -> h (fst (_merge_journal_cluster m d st fields amts table)) = h m.
Proof.
  intros O. unfold _merge_journal_cluster. destruct (_ <? _)%Z; [apply copy_outside, O|].
  destruct (_ <? _)%Z; [reflexivity|].
  destruct (fold_left (fill_string d st amts) fields _) as [g c] eqn:E.
  assert (G : h g = h m).
  { change g with (fst (g, c)). rewrite <- E. rewrite fold_outside by (intros; now apply fill_outside).
    rewrite fold_outside by (intros; now apply raise_outside). reflexivity. }
  destruct (_ && _); cbn [fst]; [rewrite O|]; exact G.
Qed.

(** *** Attributes a step does not list keep their value *)

Lemma fold_keeps {B} (b : attr) (key : B -> attr) (f : TradeGroup * bool -> B -> TradeGroup * bool) l s :
  (forall s x, b <> key x -> getattr (fst (f s x)) b = getattr (fst s) b) ->
  (forall x, In x l -> b <> key x) -> getattr (fst (fold_left f l s)) b = getattr (fst s) b.
Proof.
  intros H. revert s. induction l as [|x r IH]; intros s N; [reflexivity|]. cbn [fold_left].
  rewrite IH by (intros y Hy; apply N; now right). apply H, N. now left.
Qed.

Lemma raise_other disk s a b : b <> a -> getattr (fst (raise_amount disk s a)) b = getattr (fst s) b.
Proof.
  intros N. destruct s as [g c]. cbn. destruct (getattr disk a); try reflexivity. destruct (getattr g a); try reflexivity.
  destruct (_ <? _); [cbn; now apply getattr_setattr_other, not_eq_sym | reflexivity].
Qed.

Lemma fill_other disk st amts s a b : b <> a -> getattr (fst (fill_string disk st amts s a)) b = getattr (fst s) b.
Proof.
  intros N. unfold fill_string. destruct (_ || _); [reflexivity|]. destruct s as [g c]. cbn.
  destruct (getattr disk a); try reflexivity. destruct (getattr g a); try reflexivity.
  destruct (_ && _); [cbn; now apply getattr_setattr_other, not_eq_sym | reflexivity].
Qed.

Lemma fill_excluded disk st amts s a b : b = st \/ mem_attr b amts = true ->
  getattr (fst (fill_string disk st amts s a)) b = getattr (fst s) b.
Proof.
  intros H. destruct (attr_eqb_spec b a) as [->|N]; [|now apply fill_other].
  unfold fill_string. destruct H as [->|H]; [now rewrite attr_eqb_refl|]. now rewrite H, orb_true_r.
Qed.

Lemma mem_attr_In a l : mem_attr a l = true <-> In a l.
Proof.
  unfold mem_attr. rewrite existsb_exists. split.
  - intros (x & H & E). destruct (attr_eqb_spec a x); [now subst | discriminate].
  - intros H. exists a. split; [exact H | apply attr_eqb_refl].
Qed.

Lemma fold_fill_excluded disk st amts fields s b : b = st \/ mem_attr b amts = true ->
  getattr (fst (fold_left (fill_string disk st amts) fields s)) b = getattr (fst s) b.
Proof.
  intros H. revert s. induction fields as [|a r IH]; intros s; [reflexivity|]. cbn [fold_left].
  rewrite IH. now apply fill_excluded.
Qed.

Lemma fold_raise_other disk amts s b : mem_attr b amts = false ->
  getattr (fst (fold_left (raise_amount disk) amts s)) b = getattr (fst s) b.
Proof.
  intros H. apply (fold_keeps b (fun a => a)); [intros; now apply raise_other|].
  intros a Ha ->. apply mem_attr_In in Ha. congruence.
Qed.

Definition dec_val (v : pyval) : Q := match v with VDec q => q | _ => 0 end.
Definition is_dec (v : pyval) : bool := match v with VDec _ => true | _ => false end.

Lemma is_dec_same g h a : is_dec (getattr g a) = is_dec (getattr h a).
Proof. destruct a; reflexivity. Qed.

Lemma raise_same disk g c a : is_dec (getattr g a) = true ->
  dec_val (getattr (fst (raise_amount disk (g, c) a)) a) == Qmax (dec_val (getattr g a)) (dec_val (getattr disk a)).
Proof.
  intros D. pose proof (is_dec_same g disk a) as E. rewrite D in E. unfold raise_amount.
  destruct (getattr disk a) as [|q|] eqn:Ed; try discriminate. destruct (getattr g a) as [|p|] eqn:Eg; try discriminate.
  cbn [dec_val]. destruct (dltb_spec p q) as [L|L]; cbn [fst].
  - rewrite getattr_setattr_same by (rewrite Eg; reflexivity). cbn. symmetry. apply Q.max_r. lra.
  - rewrite Eg. cbn. symmetry. apply Q.max_l. lra.
Qed.

Lemma fold_raise_get disk amts : forall s b, mem_attr b amts = true -> is_dec (getattr (fst s) b) = true ->
  dec_val (getattr (fst (fold_left (raise_amount disk) amts s)) b) == Qmax (dec_val (getattr (fst s) b)) (dec_val (getattr disk b)).
Proof.
  induction amts as [|a r IH]; intros [g c] b H D; [discriminate|]. cbn [fold_left].
  rewrite mem_attr_cons in H. destruct (mem_attr b r) eqn:R.
  - rewrite (IH (raise_amount disk (g, c) a) b R) by (rewrite <- D; apply is_dec_same).
    destruct (attr_eqb_spec b a) as [->|N].
    + rewrite raise_same by exact D. cbn [fst]. rewrite <- Q.max_assoc, Q.max_id. reflexivity.
    + rewrite raise_other by exact N. reflexivity.
  - rewrite fold_raise_other by exact R. destruct (attr_eqb_spec b a) as [->|N]; [|discriminate].
    apply raise_same. exact D.
Qed.

(** *** One cluster *)

Section Cluster.
Variables (m d : TradeGroup) (st : attr) (fields amts : list attr) (table : ranks).
Hypothesis Hst : mem_attr st fields = true.
Hypothesis Hstamts : mem_attr st amts = false.
Hypothesis Hincl : forall a, mem_attr a amts = true -> mem_attr a fields = true.
Hypothesis Hempty : _status_rank EmptyString table = 0%Z.

Local Abbreviation r := (fst (_merge_journal_cluster m d st fields amts table)).
Local Abbreviation rank g := (_status_rank (str_of (getattr g st)) table).

Lemma cluster_ahead : (rank m < rank d)%Z -> forall b, getattr r b = if mem_attr b fields then getattr d b else getattr m b.
Proof.
  intros L b. unfold _merge_journal_cluster. apply Z.ltb_lt in L. rewrite L. cbn [fst]. apply copy_get.
Qed.

Lemma cluster_behind : (rank d < rank m)%Z -> r = m.
Proof.
  intros L. unfold _merge_journal_cluster. replace (rank m <? rank d)%Z with false by (symmetry; apply Z.ltb_ge; lia).
  apply Z.ltb_lt in L. now rewrite L.
Qed.

(** With equal ranks the result is that of the two loops: the last branch is dead. *)
Lemma cluster_level : rank m = rank d ->
  r = fst (fold_left (fill_string d st amts) fields (fold_left (raise_amount d) amts (m, false))).
Proof.
  intros E. unfold _merge_journal_cluster. rewrite E, Z.ltb_irrefl.
  destruct (fold_left (fill_string d st amts) fields _) as [g c] eqn:F. cbn [fst].
  assert (S : getattr g st = getattr m st).
  { change g with (fst (g, c)). rewrite <- F, fold_fill_excluded by now left. now rewrite fold_raise_other. }
  destruct (c && (0 <? rank d)%Z && _) eqn:B; [|reflexivity].
  apply andb_true_iff in B. destruct B as [B T]. apply andb_true_iff in B. destruct B as [_ B].
  apply Z.ltb_lt in B. rewrite S in T. apply negb_true_iff in T. unfold truthy in T. apply negb_false_iff, is_empty_true in T.
  exfalso. rewrite <- E, T in B. change (_status_rank EmptyString table) with (_status_rank EmptyString table) in B. lia.
Qed.

Lemma cluster_status : getattr r st = if (rank m <? rank d)%Z then getattr d st else getattr m st.
Proof.
  destruct (Z.ltb_spec (rank m) (rank d)) as [L|L].
  - rewrite (cluster_ahead L), Hst. reflexivity.
  - destruct (Z.eq_dec (rank m) (rank d)) as [E|N].
    + rewrite (cluster_level E), fold_fill_excluded by now left. now rewrite fold_raise_other.
    + rewrite cluster_behind by lia. reflexivity.
Qed.

Lemma cluster_rank : rank r = Z.max (rank m) (rank d).
Proof. rewrite cluster_status. destruct (Z.ltb_spec (rank m) (rank d)); lia. Qed.

Lemma cluster_amount a : rank m = rank d -> mem_attr a amts = true -> is_dec (getattr m a) = true ->
  dec_val (getattr r a) == Qmax (dec_val (getattr m a)) (dec_val (getattr d a)).
Proof.
  intros E A D. rewrite (cluster_level E), fold_fill_excluded by now right.
  rewrite fold_raise_get by assumption. reflexivity.
Qed.

Lemma cluster_keeps b : mem_attr b fields = false -> getattr r b = getattr m b.
Proof.
  intros N. destruct (Z.lt_trichotomy (rank m) (rank d)) as [L|[E|G]].
  - now rewrite (cluster_ahead L), N.
  - rewrite (cluster_level E). rewrite (fold_keeps b (fun a => a));
      [| intros; now apply fill_other | intros a Ha ->; apply mem_attr_In in Ha; congruence].
    apply fold_raise_other. destruct (mem_attr b amts) eqn:A; [|reflexivity]. apply Hincl in A. congruence.
  - now rewrite cluster_behind.
Qed.
End Cluster.

(** *** Snapshots *)

(** Equal as Python values: decimals of the same value are equal. *)
Definition pv_eq (u v : pyval) : Prop := pyval_eqb u v = true.

Lemma pv_refl u : pv_eq u u.
Proof.
  unfold pv_eq. destruct u as [s|q|l]; cbn; [apply String.eqb_refl | apply deqb_true; reflexivity |].
  destruct (list_eq_dec _ l l); congruence.
Qed.

Lemma pv_trans u v w : pv_eq u v -> pv_eq v w -> pv_eq u w.
Proof.
  unfold pv_eq. destruct u, v; cbn; try discriminate; destruct w; cbn; try discriminate; intros A B.
  - apply String.eqb_eq in A, B. subst. apply String.eqb_refl.
  - apply deqb_true in A, B. apply deqb_true. lra.
  - destruct (list_eq_dec _ l l0); [|discriminate]. destruct (list_eq_dec _ l0 l1); [|discriminate].
    destruct (list_eq_dec _ l l1); congruence.
Qed.

Lemma pv_str u s : pv_eq u (VStr s) -> u = VStr s.
Proof. destruct u; cbn; try discriminate. intros H. apply String.eqb_eq in H. congruence. Qed.

Lemma pv_dec u v : pv_eq u v -> dec_val u == dec_val v.
Proof. destruct u, v; cbn; try discriminate; intros H; try reflexivity. apply deqb_true in H. exact H. Qed.

Lemma restore_get src fields : forall g c b,
  pv_eq (getattr (fst (fold_left restore_attr (take_snapshot src fields) (g, c))) b)
        (if mem_attr b fields then getattr src b else getattr g b).
Proof.
  induction fields as [|a r IH]; intros g c b; [apply pv_refl|]. cbn [take_snapshot map fold_left restore_attr].
  assert (S : pv_eq (getattr (fst (if pyval_eqb (getattr g a) (getattr src a) then (g, c)
                                   else (setattr g a (getattr src a), true))) b)
                    (if attr_eqb b a then getattr src b else getattr g b)).
  { destruct (pyval_eqb (getattr g a) (getattr src a)) eqn:E; cbn [fst].
    - destruct (attr_eqb_spec b a) as [->|N]; [exact E | apply pv_refl].
    - rewrite get_set. apply pv_refl. }
  destruct (if pyval_eqb (getattr g a) (getattr src a) then (g, c) else (setattr g a (getattr src a), true)) as [g1 c1].
  cbn [fst] in S. eapply pv_trans; [apply IH|]. rewrite mem_attr_cons.
  destruct (mem_attr b r); [rewrite orb_true_r; apply pv_refl|]. rewrite orb_false_r. exact S.
Qed.

Lemma restore_keeps snap fields src g b : snap = None \/ snap = Some (take_snapshot src fields) ->
  mem_attr b fields = false -> getattr (fst (_restore_snapshot g snap)) b = getattr g b.
Proof.
  intros [->| ->] N; [reflexivity|]. unfold _restore_snapshot. rewrite (fold_keeps b fst).
  - reflexivity.
  - intros [k c] [a v] D. cbn in *. destruct (pyval_eqb _ _); [reflexivity | now apply getattr_setattr_other, not_eq_sym].
  - intros [a v] H ->. apply in_map_iff in H. destruct H as (x & E & I). injection E as Ea Ev. subst.
    apply mem_attr_In in I. cbn in N. congruence.
Qed.

Lemma snapshot_amount_take g : snapshot_amount (take_snapshot g _SPOT_RESTORE_FIELDS) = g.(spot_restore_amount).
Proof. reflexivity. Qed.

(** ** Merging one group *)

Section MergeGroup.
Variables m d : TradeGroup.

(** The restore snapshot that wins, and the abort snapshot. *)
Definition winning_restore : option snapshot :=
  if operator_restore m then
    if operator_restore d && (d.(spot_restore_amount) >? m.(spot_restore_amount))
    then Some (take_snapshot d _SPOT_RESTORE_FIELDS) else Some (take_snapshot m _SPOT_RESTORE_FIELDS)
  else None.

Local Abbreviation g1 := (fst (restore_cluster m d)).
Local Abbreviation g2 := (fst (sweep_cluster g1 d)).
Local Abbreviation g3 := (fst (exit_cluster g2 d)).
Definition csp_step (g : TradeGroup) : TradeGroup :=
  if operator_csp_abort m then fst (_restore_snapshot g (Some (take_snapshot m _CASH_SECURED_FIELDS)))
  else if operator_csp_abort d then fst (_restore_snapshot g (Some (take_snapshot d _CASH_SECURED_FIELDS)))
  else fst (csp_cluster g d).
Local Abbreviation g4 := (csp_step g3).
Local Abbreviation g5 := (fst (_merge_operator_manual_cover_restore g4 d)).
Local Abbreviation g6 := (fst (_merge_operator_csp_abort g5 d)).
Local Abbreviation g7 := (fst (_restore_snapshot g6 winning_restore)).
Local Abbreviation g8 := (fst (_restore_snapshot g7 (_operator_csp_abort_snapshot m))).

Lemma merge_group_steps : fst (merge_group m d) = g8.
Proof.
  unfold merge_group, winning_restore, csp_step, _operator_manual_restore_snapshot, _operator_csp_abort_snapshot.
  destruct (restore_cluster m d) as [h1 t1]. cbn [fst]. destruct (sweep_cluster h1 d) as [h2 t2]. cbn [fst].
  destruct (exit_cluster h2 d) as [h3 t3]. cbn [fst].
  assert (W : match (if operator_restore m then Some (take_snapshot m _SPOT_RESTORE_FIELDS) else None),
                    (if operator_restore d then Some (take_snapshot d _SPOT_RESTORE_FIELDS) else None) with
              | Some a, Some b => if snapshot_amount b >? snapshot_amount a
                                  then (if operator_restore d then Some (take_snapshot d _SPOT_RESTORE_FIELDS) else None)
                                  else (if operator_restore m then Some (take_snapshot m _SPOT_RESTORE_FIELDS) else None)
              | _, _ => if operator_restore m then Some (take_snapshot m _SPOT_RESTORE_FIELDS) else None
              end = winning_restore).
  { unfold winning_restore. destruct (operator_restore m), (operator_restore d); try reflexivity. }
  rewrite W. clear W. fold winning_restore.
  destruct (operator_csp_abort m), (operator_csp_abort d); cbn [or_snap];
    repeat match goal with |- context [let '(_, _) := ?e in _] => destruct e as [? ?] eqn:?; cbn [fst] end;
    repeat match goal with H : ?e = (?a, _) |- _ => apply (f_equal fst) in H; cbn [fst] in H; subst end;
    reflexivity.
Qed.
End MergeGroup.

(** What a cluster merge promises about the result [r] of merging [d] into [m]. *)
Definition follows (st : attr) (fields amts : list attr) (table : ranks) (m d r : TradeGroup) : Prop :=
  let rank g := _status_rank (str_of (getattr g st)) table in
  rank r = Z.max (rank m) (rank d) /\
  ((rank m < rank d)%Z -> forall b, mem_attr b fields = true -> getattr r b = getattr d b) /\
  ((rank d < rank m)%Z -> forall b, mem_attr b fields = true -> getattr r b = getattr m b) /\
  (rank m = rank d -> getattr r st = getattr m st /\
     forall a, mem_attr a amts = true -> dec_val (getattr r a) == Qmax (dec_val (getattr m a)) (dec_val (getattr d a))).

Definition amounts_ok (fields amts : list attr) : Prop :=
  forall a, mem_attr a amts = true -> mem_attr a fields = true /\ forall g, is_dec (getattr g a) = true.

Lemma cluster_follows m d st fields amts table :
  mem_attr st fields = true -> mem_attr st amts = false -> amounts_ok fields amts ->
  _status_rank EmptyString table = 0%Z ->
  follows st fields amts table m d (fst (_merge_journal_cluster m d st fields amts table)).
Proof.
  intros H1 H2 H3 H4. split; [now apply cluster_rank|]. split; [|split].
  - intros L b B. rewrite cluster_ahead by assumption. now rewrite B.
  - intros L b _. now rewrite cluster_behind.
  - intros E. split; [rewrite cluster_status by assumption; now rewrite E, Z.ltb_irrefl|].
    intros a A. destruct (H3 a A) as [_ D]. apply cluster_amount; auto.
Qed.

(** The promise reads only the cluster's fields. *)
Lemma follows_ext st fields amts table m m' d r r' :
  mem_attr st fields = true -> amounts_ok fields amts ->
  (forall b, mem_attr b fields = true -> getattr m' b = getattr m b) ->
  (forall b, mem_attr b fields = true -> getattr r' b = getattr r b) ->
  follows st fields amts table m d r -> follows st fields amts table m' d r'.
Proof.
  intros S A M R (F1 & F2 & F3 & F4). unfold follows. rewrite (M st S), (R st S).
  split; [exact F1|]. split; [|split].
  - intros L b B. rewrite (R b B). auto.
  - intros L b B. rewrite (R b B), (M b B). auto.
  - intros E. destruct (F4 E) as [G1 G2]. split; [exact G1|]. intros a Ha. destruct (A a Ha) as [I _].
    rewrite (R a I), (M a I). auto.
Qed.

Definition _SPOT_RESTORE_AMOUNTS : list attr :=
  [A_spot_restore_amount; A_spot_restore_quote_spent; A_spot_restore_quote_spent_lifetime].
Definition _PROFIT_SWEEP_AMOUNTS : list attr :=
  [A_profit_sweep_amount; A_profit_sweep_quote_proceeds; A_profit_sweep_quote_proceeds_lifetime;
   A_profit_sweep_exchange_native; A_profit_sweep_exchange_quote_proceeds].
Definition _SPOT_EXIT_AMOUNTS : list attr :=
  [A_spot_exit_amount; A_spot_exit_quote_proceeds; A_spot_exit_quote_proceeds_lifetime; A_spot_exit_settlement_loss].

(** Decide a list of amounts entry by entry. *)
Ltac amounts := intros a H; destruct a; try discriminate H; split; reflexivity.

Lemma restore_amounts_ok : amounts_ok _SPOT_RESTORE_FIELDS _SPOT_RESTORE_AMOUNTS.
Proof. amounts. Qed.
Lemma sweep_amounts_ok : amounts_ok _PROFIT_SWEEP_FIELDS _PROFIT_SWEEP_AMOUNTS.
Proof. amounts. Qed.
Lemma exit_amounts_ok : amounts_ok _SPOT_EXIT_FIELDS _SPOT_EXIT_AMOUNTS.
Proof. amounts. Qed.
Lemma csp_amounts_ok : amounts_ok _CASH_SECURED_FIELDS [].
Proof. intros a H. discriminate H. Qed.

Lemma amounts_incl fields amts : amounts_ok fields amts -> forall a, mem_attr a amts = true -> mem_attr a fields = true.
Proof. intros H a A. apply (H a A). Qed.

Section Frames.
Variable b : attr.

Lemma restore_cluster_keeps m d : mem_attr b _SPOT_RESTORE_FIELDS = false -> getattr (fst (restore_cluster m d)) b = getattr m b.
Proof. intros N. apply cluster_keeps; auto; apply (amounts_incl _ _ restore_amounts_ok). Qed.

Lemma sweep_cluster_keeps m d : mem_attr b _PROFIT_SWEEP_FIELDS = false -> getattr (fst (sweep_cluster m d)) b = getattr m b.
Proof. intros N. apply cluster_keeps; auto; apply (amounts_incl _ _ sweep_amounts_ok). Qed.

Lemma exit_cluster_keeps m d : mem_attr b _SPOT_EXIT_FIELDS = false -> getattr (fst (exit_cluster m d)) b = getattr m b.
Proof. intros N. apply cluster_keeps; auto; apply (amounts_incl _ _ exit_amounts_ok). Qed.

Lemma csp_cluster_keeps m d : mem_attr b _CASH_SECURED_FIELDS = false -> getattr (fst (csp_cluster m d)) b = getattr m b.
Proof. intros N. apply cluster_keeps; auto; discriminate. Qed.

Lemma csp_step_keeps m d g : mem_attr b _CASH_SECURED_FIELDS = false -> getattr (csp_step m d g) b = getattr g b.
Proof.
  intros N. unfold csp_step.
  destruct (operator_csp_abort m); [now apply (restore_keeps _ _CASH_SECURED_FIELDS m); [right|]|].
  destruct (operator_csp_abort d); [now apply (restore_keeps _ _CASH_SECURED_FIELDS d); [right|]|].
  now apply csp_cluster_keeps.
Qed.

Lemma operator_restore_keeps g d : mem_attr b _SPOT_RESTORE_FIELDS = false ->
  getattr (fst (_merge_operator_manual_cover_restore g d)) b = getattr g b.
Proof.
  intros N. unfold _merge_operator_manual_cover_restore. destruct (negb _); [reflexivity|].
  destruct (_ && _); [reflexivity|]. cbn [fst]. now rewrite copy_get, N.
Qed.

Lemma operator_abort_keeps g d : mem_attr b _CASH_SECURED_FIELDS = false ->
  getattr (fst (_merge_operator_csp_abort g d)) b = getattr g b.
Proof.
  intros N. unfold _merge_operator_csp_abort. destruct (negb _); [reflexivity|].
  destruct (operator_csp_abort g); [reflexivity|]. cbn [fst]. now rewrite copy_get, N.
Qed.

Lemma winning_restore_keeps m d g : mem_attr b _SPOT_RESTORE_FIELDS = false ->
  getattr (fst (_restore_snapshot g (winning_restore m d))) b = getattr g b.
Proof.
  intros N. unfold winning_restore. destruct (operator_restore m); [|reflexivity].
  destruct (_ && _); [now apply (restore_keeps _ _SPOT_RESTORE_FIELDS d); [right|]
                     | now apply (restore_keeps _ _SPOT_RESTORE_FIELDS m); [right|]].
Qed.

Lemma abort_snapshot_keeps m g : mem_attr b _CASH_SECURED_FIELDS = false ->
  getattr (fst (_restore_snapshot g (_operator_csp_abort_snapshot m))) b = getattr g b.
Proof.
  intros N. unfold _operator_csp_abort_snapshot.
  destruct (operator_csp_abort m); [now apply (restore_keeps _ _CASH_SECURED_FIELDS m); [right|] | reflexivity].
Qed.
End Frames.

(** The four clusters are disjoint. *)
Lemma clusters_disjoint b :
  (mem_attr b _SPOT_EXIT_FIELDS = true -> mem_attr b _SPOT_RESTORE_FIELDS = false /\ mem_attr b _PROFIT_SWEEP_FIELDS = false /\ mem_attr b _CASH_SECURED_FIELDS = false) /\
  (mem_attr b _PROFIT_SWEEP_FIELDS = true -> mem_attr b _SPOT_RESTORE_FIELDS = false /\ mem_attr b _SPOT_EXIT_FIELDS = false /\ mem_attr b _CASH_SECURED_FIELDS = false) /\
  (mem_attr b _SPOT_RESTORE_FIELDS = true -> mem_attr b _PROFIT_SWEEP_FIELDS = false /\ mem_attr b _SPOT_EXIT_FIELDS = false /\ mem_attr b _CASH_SECURED_FIELDS = false) /\
  (mem_attr b _CASH_SECURED_FIELDS = true -> mem_attr b _SPOT_RESTORE_FIELDS = false /\ mem_attr b _PROFIT_SWEEP_FIELDS = false /\ mem_attr b _SPOT_EXIT_FIELDS = false).
Proof. destruct b; vm_compute; repeat split; intros; discriminate. Qed.

Lemma merge_exit_fields m d b : mem_attr b _SPOT_EXIT_FIELDS = true ->
  getattr (fst (merge_group m d)) b = getattr (fst (exit_cluster (fst (sweep_cluster (fst (restore_cluster m d)) d)) d)) b.
Proof.
  intros B. destruct (clusters_disjoint b) as (D & _). destruct (D B) as (D1 & D2 & D3).
  now rewrite merge_group_steps, abort_snapshot_keeps, winning_restore_keeps, operator_abort_keeps,
    operator_restore_keeps, csp_step_keeps.
Qed.

Lemma merge_sweep_fields m d b : mem_attr b _PROFIT_SWEEP_FIELDS = true ->
  getattr (fst (merge_group m d)) b = getattr (fst (sweep_cluster (fst (restore_cluster m d)) d)) b.
Proof.
  intros B. destruct (clusters_disjoint b) as (_ & D & _). destruct (D B) as (D1 & D2 & D3).
  now rewrite merge_group_steps, abort_snapshot_keeps, winning_restore_keeps, operator_abort_keeps,
    operator_restore_keeps, csp_step_keeps, exit_cluster_keeps.
Qed.

Lemma merge_restore_fields m d b : operator_restore m = false -> operator_restore d = false ->
  mem_attr b _SPOT_RESTORE_FIELDS = true ->
  getattr (fst (merge_group m d)) b = getattr (fst (restore_cluster m d)) b.
Proof.
  intros Hm Hd B. destruct (clusters_disjoint b) as (_ & _ & D & _). destruct (D B) as (D1 & D2 & D3).
  rewrite merge_group_steps, abort_snapshot_keeps by assumption.
  unfold winning_restore. rewrite Hm. cbn [_restore_snapshot fst]. rewrite operator_abort_keeps by assumption.
  unfold _merge_operator_manual_cover_restore. rewrite Hd. cbn [negb fst].
  now rewrite csp_step_keeps, exit_cluster_keeps, sweep_cluster_keeps.
Qed.

Lemma merge_csp_fields m d b : operator_csp_abort m = false -> operator_csp_abort d = false ->
  mem_attr b _CASH_SECURED_FIELDS = true ->
  getattr (fst (merge_group m d)) b
  = getattr (fst (csp_cluster (fst (exit_cluster (fst (sweep_cluster (fst (restore_cluster m d)) d)) d)) d)) b.
Proof.
  intros Hm Hd B. destruct (clusters_disjoint b) as (_ & _ & _ & D). destruct (D B) as (D1 & D2 & D3).
  rewrite merge_group_steps. unfold _operator_csp_abort_snapshot. rewrite Hm. cbn [_restore_snapshot fst].
  rewrite winning_restore_keeps by assumption. unfold _merge_operator_csp_abort. rewrite Hd. cbn [negb fst].
  rewrite operator_restore_keeps by assumption. unfold csp_step. now rewrite Hm, Hd.
Qed.

Lemma operator_restore_outside {T} (h : TradeGroup -> T) g d : outside h -> h (fst (_merge_operator_manual_cover_restore g d)) = h g.
Proof.
  intros O. unfold _merge_operator_manual_cover_restore. destruct (negb _); [reflexivity|].
  destruct (_ && _); [reflexivity | now apply copy_outside].
Qed.

Lemma operator_abort_outside {T} (h : TradeGroup -> T) g d : outside h -> h (fst (_merge_operator_csp_abort g d)) = h g.
Proof.
  intros O. unfold _merge_operator_csp_abort. destruct (negb _); [reflexivity|].
  destruct (operator_csp_abort g); [reflexivity | now apply copy_outside].
Qed.

Lemma merge_group_outside {T} (h : TradeGroup -> T) m d : outside h -> h (fst (merge_group m d)) = h m.
Proof.
  intros O. rewrite merge_group_steps, !restore_outside, operator_abort_outside, operator_restore_outside by exact O.
  unfold csp_step. destruct (operator_csp_abort m); [|destruct (operator_csp_abort d)];
    rewrite ?restore_outside by exact O; unfold csp_cluster, exit_cluster, sweep_cluster, restore_cluster;
    now rewrite !cluster_outside by exact O.
Qed.

Lemma merge_sweep_follows m d :
  follows A_profit_sweep_status _PROFIT_SWEEP_FIELDS _PROFIT_SWEEP_AMOUNTS _JOURNAL_STATUS_RANK m d (fst (merge_group m d)).
Proof.
  apply (follows_ext _ _ _ _ (fst (restore_cluster m d)) m d (fst (sweep_cluster (fst (restore_cluster m d)) d)));
    [reflexivity | exact sweep_amounts_ok | | apply merge_sweep_fields |].
  - intros b B. destruct (clusters_disjoint b) as (_ & D & _). destruct (D B) as (D1 & D2 & D3).
    symmetry. now apply restore_cluster_keeps.
  - apply cluster_follows; try reflexivity. exact sweep_amounts_ok.
Qed.

Lemma merge_exit_follows m d :
  follows A_spot_exit_status _SPOT_EXIT_FIELDS _SPOT_EXIT_AMOUNTS _JOURNAL_STATUS_RANK m d (fst (merge_group m d)).
Proof.
  apply (follows_ext _ _ _ _ (fst (sweep_cluster (fst (restore_cluster m d)) d)) m d
    (fst (exit_cluster (fst (sweep_cluster (fst (restore_cluster m d)) d)) d)));
    [reflexivity | exact exit_amounts_ok | | apply merge_exit_fields |].
  - intros b B. destruct (clusters_disjoint b) as (D & _). destruct (D B) as (D1 & D2 & D3).
    symmetry. now rewrite sweep_cluster_keeps, restore_cluster_keeps.
  - apply cluster_follows; try reflexivity. exact exit_amounts_ok.
Qed.


(** *** Operator marks survive *)

Lemma attr_str g h a f : getattr g a = VStr (f g) -> getattr h a = VStr (f h) ->
  pv_eq (getattr g a) (getattr h a) -> f g = f h.
Proof. intros E1 E2 H. rewrite E2 in H. apply pv_str in H. congruence. Qed.

Definition same_cluster (fields : list attr) (g h : TradeGroup) : Prop :=
  forall b, mem_attr b fields = true -> pv_eq (getattr g b) (getattr h b).

Lemma restore_same_cluster src fields g : same_cluster fields (fst (_restore_snapshot g (Some (take_snapshot src fields)))) src.
Proof.
  intros b B. pose proof (restore_get src fields g false b) as H. rewrite B in H. exact H.
Qed.

Lemma copy_same_cluster fields g src : same_cluster fields (_copy_group_fields g src fields) src.
Proof. intros b B. rewrite copy_get, B. apply pv_refl. Qed.

Lemma same_cluster_trans fields g h k : same_cluster fields g h -> same_cluster fields h k -> same_cluster fields g k.
Proof. intros A B b M. eapply pv_trans; [apply A, M | apply B, M]. Qed.

Lemma same_restore g h : same_cluster _SPOT_RESTORE_FIELDS g h ->
  g.(spot_restore_status) = h.(spot_restore_status) /\ g.(spot_restore_reason) = h.(spot_restore_reason) /\
  g.(spot_restore_amount) == h.(spot_restore_amount).
Proof.
  intros S. split; [|split].
  - apply (attr_str g h A_spot_restore_status spot_restore_status eq_refl eq_refl). now apply S.
  - apply (attr_str g h A_spot_restore_reason spot_restore_reason eq_refl eq_refl). now apply S.
  - apply (pv_dec (getattr g A_spot_restore_amount) (getattr h A_spot_restore_amount)). now apply S.
Qed.

Lemma same_operator_restore g h : same_cluster _SPOT_RESTORE_FIELDS g h -> operator_restore g = operator_restore h.
Proof.
  intros S. destruct (same_restore g h S) as (E1 & E2 & E3). unfold operator_restore. now rewrite E1, E2, E3.
Qed.

Lemma same_csp_abort g h : same_cluster _CASH_SECURED_FIELDS g h -> operator_csp_abort g = operator_csp_abort h.
Proof.
  intros S. unfold operator_csp_abort.
  rewrite (attr_str g h A_cash_secured_status cash_secured_status eq_refl eq_refl) by now apply S.
  rewrite (attr_str g h A_cash_secured_reason cash_secured_reason eq_refl eq_refl) by now apply S. reflexivity.
Qed.

(** Steps that do not touch a cluster leave it as it is. *)
Lemma same_cluster_keeps fields g h : (forall b, mem_attr b fields = true -> getattr g b = getattr h b) -> same_cluster fields g h.
Proof. intros H b B. rewrite (H b B). apply pv_refl. Qed.

Lemma operator_restore_filled g : operator_restore g = true -> lower g.(spot_restore_status) = "filled"%string.
Proof. unfold operator_restore. intros H. dhyps. now apply String.eqb_eq. Qed.

(** The winning restore is on one of the two sides. *)
Lemma operator_restore_survives m d :
  let r := fst (merge_group m d) in
  (operator_restore m = true ->
     operator_restore r = true /\ m.(spot_restore_amount) <= r.(spot_restore_amount)) /\
  (operator_restore d = true ->
     lower r.(spot_restore_status) = "filled"%string /\ d.(spot_restore_amount) <= r.(spot_restore_amount)).
Proof.
  cbn zeta.
  (* the last step that writes the cluster is the winning snapshot, or the disk copy *)
  assert (W : forall s, winning_restore m d = Some (take_snapshot s _SPOT_RESTORE_FIELDS) ->
    same_cluster _SPOT_RESTORE_FIELDS (fst (merge_group m d)) s).
  { intros s Es. rewrite merge_group_steps, Es. eapply same_cluster_trans; [|apply restore_same_cluster].
    apply same_cluster_keeps. intros b B. destruct (clusters_disjoint b) as (_ & _ & D & _).
    destruct (D B) as (_ & _ & D3). now apply abort_snapshot_keeps. }
  assert (K : operator_restore m = true -> exists s, (s = m \/ s = d /\ operator_restore d = true) /\
     m.(spot_restore_amount) <= s.(spot_restore_amount) /\
     (operator_restore d = true -> d.(spot_restore_amount) <= s.(spot_restore_amount)) /\
     same_cluster _SPOT_RESTORE_FIELDS (fst (merge_group m d)) s).
  { intros Hm. destruct (operator_restore d && (d.(spot_restore_amount) >? m.(spot_restore_amount))) eqn:E.
    - exists d. assert (WD : winning_restore m d = Some (take_snapshot d _SPOT_RESTORE_FIELDS))
        by (unfold winning_restore; now rewrite Hm, E).
      dhyps. split; [now right|]. split; [lra|]. split; [intros _; lra | now apply W].
    - exists m. split; [now left|]. split; [lra|]. split.
      + intros Hd. rewrite Hd in E. cbn [andb] in E. dhyps. exact E.
      + apply W. unfold winning_restore. now rewrite Hm, E. }
  split.
  - intros Hm. destruct (K Hm) as (s & Os & L & _ & S). destruct (same_restore _ _ S) as (_ & _ & E).
    rewrite (same_operator_restore _ _ S). split; [destruct Os as [->|[-> O]]; assumption | lra].
  - intros Hd. destruct (operator_restore m) eqn:Hm.
    + destruct (K eq_refl) as (s & Os & _ & L & S). destruct (same_restore _ _ S) as (E1 & _ & E).
      specialize (L Hd). split; [|lra]. rewrite E1. apply operator_restore_filled.
      destruct Os as [->|[-> O]]; assumption.
    + assert (R : same_cluster _SPOT_RESTORE_FIELDS (fst (merge_group m d))
        (fst (_merge_operator_manual_cover_restore
          (csp_step m d (fst (exit_cluster (fst (sweep_cluster (fst (restore_cluster m d)) d)) d))) d))).
      { apply same_cluster_keeps. intros b B. destruct (clusters_disjoint b) as (_ & _ & D & _).
        destruct (D B) as (_ & _ & D3). rewrite merge_group_steps, abort_snapshot_keeps by assumption.
        unfold winning_restore. rewrite Hm. cbn [_restore_snapshot fst]. now apply operator_abort_keeps. }
      destruct (same_restore _ _ R) as (E1 & _ & E). rewrite E1. clear R.
      revert E. unfold _merge_operator_manual_cover_restore at 2. intros E.
      set (g := csp_step m d _) in *. unfold _merge_operator_manual_cover_restore in *. rewrite Hd in *. cbn [negb] in *.
      destruct (String.eqb (lower g.(spot_restore_status)) "filled" && _) eqn:F.
      * dhyps. cbn [fst] in *. split; [now apply String.eqb_eq | lra].
      * cbn [fst] in *. pose proof (copy_same_cluster _SPOT_RESTORE_FIELDS g d) as C.
        destruct (same_restore _ _ C) as (C1 & _ & C2). rewrite C1. split; [now apply operator_restore_filled | lra].
Qed.

(** An operator's filled cover restore survives a concurrent save, on
    whichever side it is: if the live group carries one, the result carries an
    operator restore at least as large; if the file carries one, the result is
    filled with at least the file's amount, whatever the live status was (a live
    [skipped] included). When both sides carry one the larger amount wins. *)
Theorem merge_keeps_operator_restore m d :
  let r := fst (merge_group m d) in
  (operator_restore m = true ->
     operator_restore r = true /\ m.(spot_restore_amount) <= r.(spot_restore_amount)) /\
  (operator_restore d = true ->
     lower r.(spot_restore_status) = "filled"%string /\ d.(spot_restore_amount) <= r.(spot_restore_amount)).
Proof. apply operator_restore_survives. Qed.

Lemma restore_none g : fst (_restore_snapshot g None) = g.
Proof. reflexivity. Qed.

(** The abort is restored after the ordinary merge. *)
Lemma csp_abort_survives m d :
  operator_csp_abort m = true \/ operator_csp_abort d = true ->
  operator_csp_abort (fst (merge_group m d)) = true.
Proof.
  intros H. rewrite merge_group_steps. unfold _operator_csp_abort_snapshot, csp_step.
  destruct (operator_csp_abort m) eqn:Hm.
  - rewrite (same_csp_abort _ m); [exact Hm | apply restore_same_cluster].
  - destruct H as [H|Hd]; [discriminate|]. rewrite Hd, restore_none.
    rewrite (same_csp_abort _ d); [exact Hd|].
    set (g4 := fst (_restore_snapshot _ (Some (take_snapshot d _CASH_SECURED_FIELDS)))).
    assert (S4 : same_cluster _CASH_SECURED_FIELDS g4 d) by apply restore_same_cluster.
    set (g5 := fst (_merge_operator_manual_cover_restore g4 d)).
    assert (S5 : same_cluster _CASH_SECURED_FIELDS g5 d).
    { eapply same_cluster_trans; [|exact S4]. apply same_cluster_keeps. intros b B.
      destruct (clusters_disjoint b) as (_ & _ & _ & D). destruct (D B) as (D1 & _). now apply operator_restore_keeps. }
    assert (S6 : same_cluster _CASH_SECURED_FIELDS (fst (_merge_operator_csp_abort g5 d)) d).
    { unfold _merge_operator_csp_abort. rewrite Hd. cbn [negb]. rewrite (same_csp_abort g5 d S5), Hd. exact S5. }
    eapply same_cluster_trans; [|exact S6]. apply same_cluster_keeps. intros b B.
    destruct (clusters_disjoint b) as (_ & _ & _ & D). destruct (D B) as (D1 & _). now apply winning_restore_keeps.
Qed.

(** An operator's abort of a cash-secured put survives a concurrent save, on
    whichever side it is: the merged group carries it, although [entered] outranks
    [skipped] in the ordinary merge. *)
Theorem merge_keeps_operator_csp_abort m d :
  operator_csp_abort m = true \/ operator_csp_abort d = true ->
  operator_csp_abort (fst (merge_group m d)) = true.
Proof. apply csp_abort_survives. Qed.

Lemma merge_keeps_operator_csp_abort_witness :
  let live := set_cash_secured_status "entered" sample_saved_group in
  let disk := set_cash_secured_reason "operator_csp_abort_restore" (set_cash_secured_status "skipped" sample_saved_group) in
  operator_csp_abort live = false /\ operator_csp_abort disk = true /\
  operator_csp_abort (fst (merge_group live disk)) = true.
Proof.
  cbn zeta. split; [vm_compute; reflexivity|]. split; [vm_compute; reflexivity|].
  apply (merge_keeps_operator_csp_abort (set_cash_secured_status "entered" sample_saved_group)
    (set_cash_secured_reason "operator_csp_abort_restore" (set_cash_secured_status "skipped" sample_saved_group))).
  right. vm_compute. reflexivity.
Defined.

(** ** The merged state *)

Definition merge_one (disk : list TradeGroup) (g : TradeGroup) : TradeGroup :=
  match disk_group g.(group_id) disk with None => g | Some other => fst (merge_group g other) end.

Lemma merge_groups_map disk gs : fst (merge_groups gs disk) = map (merge_one disk) gs.
Proof.
  induction gs as [|g r IH]; [reflexivity|]. cbn [merge_groups map]. rewrite <- IH.
  destruct (merge_groups r disk) as [r' ids]. unfold merge_one. destruct (disk_group g.(group_id) disk) as [o|]; [|reflexivity].
  destruct (merge_group g o). reflexivity.
Qed.

Lemma merge_state_groups memory disk :
  (fst (merge_concurrent_group_updates memory disk)).(groups) = map (merge_one disk.(groups)) memory.(groups).
Proof.
  unfold merge_concurrent_group_updates. pose proof (merge_groups_map disk.(groups) memory.(groups)) as M.
  destruct (merge_groups memory.(groups) disk.(groups)) as [gs ids]. cbn [fst] in M. rewrite <- M.
  destruct (_ <? _)%Z; reflexivity.
Qed.

Lemma merge_state_next memory disk :
  (fst (merge_concurrent_group_updates memory disk)).(next_group_id) = Z.max memory.(next_group_id) disk.(next_group_id).
Proof.
  unfold merge_concurrent_group_updates. destruct (merge_groups memory.(groups) disk.(groups)) as [gs ids].
  cbn [next_group_id set_groups]. destruct (Z.ltb_spec memory.(next_group_id) disk.(next_group_id)); cbn; lia.
Qed.

Lemma outside_group_id : outside group_id.
Proof. intros g a v. destruct a, v; reflexivity. Qed.

Lemma merge_one_id disk g : (merge_one disk g).(group_id) = g.(group_id).
Proof.
  unfold merge_one. destruct (disk_group _ _); [|reflexivity]. apply (merge_group_outside group_id). exact outside_group_id.
Qed.

Lemma disk_group_none gid gs : truthy gid = true -> ~ In gid (map group_id gs) -> disk_group gid gs = None.
Proof.
  intros T N. unfold disk_group. induction gs as [|g r IH]; [reflexivity|]. cbn [fold_left map In] in *.
  replace (String.eqb g.(group_id) gid) with false by (symmetry; apply String.eqb_neq; intuition).
  rewrite andb_false_r. apply IH. tauto.
Qed.

Lemma disk_group_unique g gs : In g gs -> truthy g.(group_id) = true -> NoDup (filter truthy (map group_id gs)) ->
  disk_group g.(group_id) gs = Some g.
Proof.
  intros I T. unfold disk_group. generalize (@None TradeGroup). induction gs as [|h r IH]; intros o N; [destruct I|].
  cbn [fold_left map filter] in *. destruct I as [->|I].
  - rewrite T, String.eqb_refl in *. cbn [andb]. inversion N as [|? ? NI N']; subst.
    assert (F : forall l o, ~ In g.(group_id) (filter truthy (map group_id l)) ->
      fold_left (fun acc g0 => if truthy g0.(group_id) && String.eqb g0.(group_id) g.(group_id) then Some g0 else acc) l o = o).
    { clear - T. induction l as [|h l IH]; intros o N; [reflexivity|]. cbn [fold_left map filter] in *.
      destruct (String.eqb_spec h.(group_id) g.(group_id)) as [E|E].
      - rewrite E, T in N. destruct N. now left.
      - rewrite andb_false_r. apply IH. destruct (truthy h.(group_id)); [|exact N]. intros X. apply N. now right. }
    now apply F.
  - apply IH; [exact I|]. destruct (truthy h.(group_id)); [now inversion N | exact N].
Qed.
