(* ===== verification/Store.v ===== *)
(** [deribit_engine/state.py], second half: which closed groups may leave the state,
    the append-only archive, and [StrategyStateStore] over a disk that several
    processes write. *)

From S2P Require Import Prelude Sorting Dec PyStr Utils Group PyObj GroupJson StateJson State.
From Stdlib Require Import Permutation Sorted OrdersEx.
Local Open Scope Q_scope.
Local Open Scope dec_scope.
Local Open Scope bool_scope.
Local Open Scope list_scope.

(** ** Eligibility *)

Definition _FOLLOW_UP_TERMINAL_STATUSES : list (attr * list string) :=
  [(A_profit_sweep_status, [EmptyString; "filled"%string; "skipped"%string]);
   (A_spot_restore_status, [EmptyString; "filled"%string; "skipped"%string; "cancelled"%string; "canceled"%string]);
   (A_csp_premium_swap_status, [EmptyString; "filled"%string; "skipped"%string]);
   (A_spot_exit_status, [EmptyString; "filled"%string; "skipped"%string]);
   (A_cash_secured_status, [EmptyString; "entered"%string; "skipped"%string])].

Definition group_has_pending_follow_up (g : TradeGroup) : bool :=
  existsb (fun '(a, terminal) => negb (mem_str (lower (strip (str_of (getattr g a)))) terminal))
    _FOLLOW_UP_TERMINAL_STATUSES.

Definition referenced_parent_group_ids (gs : list TradeGroup) : list string :=
  filter truthy (map (fun g => strip g.(cash_secured_from_group_id)) gs).

Definition closed_group_is_archivable (g : TradeGroup) (referenced : list string) : bool :=
  if negb (String.eqb (lower g.(status)) "closed") then false
  else if group_has_pending_follow_up g then false
  else
    let gid := strip g.(group_id) in
    if truthy gid && mem_str gid referenced then false else true.

(** ** Selection

    The groups of a state are distinct objects: a group is named by its position. *)

Definition item : Type := nat * TradeGroup.

Definition closed_ms (x : item) : Z := match (snd x).(closed_timestamp_ms) with Some ms => ms | None => 0%Z end.

(** The sort key [(closed_timestamp_ms, group_id)]. *)
Definition key_ltb (x y : item) : bool :=
  (closed_ms x <? closed_ms y)%Z
  || ((closed_ms x =? closed_ms y)%Z && String.ltb (snd x).(group_id) (snd y).(group_id)).

(** [list.sort(key=..., reverse=True)]: descending, stable. *)
Definition sort_desc : list item -> list item := stable_sort (fun x y => key_ltb y x).

Definition enumerate (gs : list TradeGroup) : list item := combine (seq 0 (List.length gs)) gs.

Definition is_closed (x : item) : bool :=
  String.eqb (lower (snd x).(status)) "closed"
  && match (snd x).(closed_timestamp_ms) with Some _ => true | None => false end.

Definition _MS_PER_DAY : Z := 86400000.

Definition archive_cutoff (keep_recent_days now : Z) : Z := (now - Z.max keep_recent_days 0 * _MS_PER_DAY)%Z.

Definition select_archivable_closed_groups (gs : list TradeGroup) (keep_recent_days keep_min now : Z) : list item :=
  let cutoff := archive_cutoff keep_recent_days now in
  let closed := sort_desc (filter is_closed (enumerate gs)) in
  let candidates := skipn (Z.to_nat (Z.max keep_min 0)) closed in
  let referenced := referenced_parent_group_ids gs in
  rev (filter (fun x => (closed_ms x <? cutoff)%Z && closed_group_is_archivable (snd x) referenced) candidates).

(** ** The archive file: one JSON line per group; [None] is a line that does not parse *)

Definition line : Type := option pyobj.

Definition decode_line (l : line) : option TradeGroup :=
  match l with
  | Some (PDict d) => match from_dict (fun key => dget key d) with Ret g => Some g | _ => None end
  | _ => None
  end.

Fixpoint load_lines (lines : list line) (seen : list string) : list TradeGroup :=
  match lines with
  | [] => []
  | l :: r =>
      match decode_line l with
      | None => load_lines r seen
      | Some g =>
          let gid := g.(group_id) in
          if truthy gid && mem_str gid seen then load_lines r seen
          else g :: load_lines r (if truthy gid then gid :: seen else seen)
      end
  end.

Definition load_archived_groups (archive : list line) : list TradeGroup := load_lines archive [].

Definition iter_all_groups (live : list TradeGroup) (archive : list line) : list TradeGroup :=
  let seen := filter truthy (map group_id live) in
  live ++ filter (fun g => negb (truthy g.(group_id) && mem_str g.(group_id) seen)) (load_archived_groups archive).

(** The lines [archive_closed_groups] appends for the picked groups. *)
Fixpoint archive_lines (picked : list item) (already : list string) (now_us : Z) : outcome (list line) :=
  match picked with
  | [] => Ret []
  | (_, g) :: r =>
      if truthy g.(group_id) && mem_str g.(group_id) already then archive_lines r already now_us
      else (let! v := through_json (PDict (to_dict g now_us)) in
            let! rest := archive_lines r already now_us in Ret (Some v :: rest))%outcome
  end.

Definition remaining_groups (gs : list TradeGroup) (picked : list item) : list TradeGroup :=
  map snd (filter (fun x => negb (existsb (Nat.eqb (fst x)) (map fst picked))) (enumerate gs)).

(** Returns the state, the archive and the number of groups removed. *)
Definition archive_closed_groups (s : StrategyState) (archive : list line)
    (keep_recent_days keep_min now now_us : Z) : outcome (StrategyState * list line * Z) :=
  let picked := select_archivable_closed_groups s.(groups) keep_recent_days keep_min now in
  match picked with
  | [] => Ret (s, archive, 0%Z)
  | _ =>
      let already := map group_id (load_archived_groups archive) in
      (let! lines := archive_lines picked already now_us in
       Ret (set_groups (remaining_groups s.(groups) picked) s, archive ++ lines, Z.of_nat (List.length picked)))%outcome
  end.

(** ** The store *)

Inductive content : Type :=
| Missing
| Binary                        (** bytes that are not UTF-8 *)
| Garbage                       (** text that is not JSON *)
| Payload (v : pyobj).

Record disk : Type := { file : content; archive : list line; quarantine : list content }.

Definition set_file (c : content) (d : disk) : disk := {| file := c; archive := d.(archive); quarantine := d.(quarantine) |}.
Definition set_archive (l : list line) (d : disk) : disk := {| file := d.(file); archive := l; quarantine := d.(quarantine) |}.

Definition _decode_payload (v : pyobj) : option StrategyState :=
  match v with
  | PDict l => match state_from_dict (fun key => dget key l) with Ret s => Some s | _ => None end
  | _ => None
  end.

(** [UnicodeDecodeError] is a [ValueError], not a [JSONDecodeError]: it escapes. *)
Definition _read_unlocked (d : disk) : outcome (option StrategyState) :=
  match d.(file) with
  | Missing | Garbage => Ret None
  | Binary => Exn ValueError
  | Payload v => Ret (_decode_payload v)
  end.

(** [os.replace] of the corrupt file onto its backup. *)
Definition _quarantine_corrupt_file (d : disk) : disk :=
  {| file := Missing; archive := d.(archive); quarantine := d.(file) :: d.(quarantine) |}.

Definition load (d : disk) : outcome (StrategyState * disk) :=
  match d.(file) with
  | Missing => Ret (empty_state, d)
  | Binary => Exn ValueError
  | Garbage => Ret (empty_state, _quarantine_corrupt_file d)
  | Payload v =>
      match _decode_payload v with
      | Some s => Ret (s, d)
      | None => Ret (empty_state, _quarantine_corrupt_file d)
      end
  end.

(** [save] also leaves the merge in the caller's state. *)
Definition save (d : disk) (s : StrategyState) (now_us : Z) : outcome (disk * StrategyState) :=
  (let! on_disk := _read_unlocked d in
   let s := match on_disk with Some o => fst (merge_concurrent_group_updates s o) | None => s end in
   let! v := through_json (PDict (state_to_dict s now_us)) in
   Ret (set_file (Payload v) d, s))%outcome.

Definition archive_closed_groups_for_state_file (d : disk) (keep_recent_days keep_min now now_us : Z)
    : outcome (disk * Z) :=
  match d.(file) with
  | Missing => Ret (d, 0%Z)
  | _ =>
      (let! (s, d) := load d in
       let! (s, lines, n) := archive_closed_groups s d.(archive) keep_recent_days keep_min now now_us in
       let d := set_archive lines d in
       if (n =? 0)%Z then Ret (d, n) else let! (d, _) := save d s now_us in Ret (d, n))%outcome
  end.

(** ** What the selection keeps *)

Lemma string_ltb_lt a b : String.ltb a b = true <-> String_as_OT.lt a b.
Proof.
  change (String_as_OT.lt a b) with (String.compare a b = Lt). unfold String.ltb.
  destruct (String.compare a b); split; congruence.
Qed.

Lemma string_ltb_trans a b c : String.ltb a b = true -> String.ltb b c = true -> String.ltb a c = true.
Proof.
  rewrite !string_ltb_lt. destruct String_as_OT.lt_strorder as [_ T]. apply T.
Qed.

Lemma string_ltb_total a b : String.ltb a b = true \/ a = b \/ String.ltb b a = true.
Proof.
  unfold String.ltb. rewrite (String.compare_antisym b a). destruct (String.compare a b) eqn:E.
  - right. left. now apply String.compare_eq_iff.
  - now left.
  - right. now right.
Qed.

Lemma string_ltb_irrefl a : String.ltb a a = false.
Proof.
  destruct (String.ltb a a) eqn:E; [|reflexivity]. apply string_ltb_lt in E.
  destruct String_as_OT.lt_strorder as [I _]. destruct (I _ E).
Qed.

(** [x] sorts no later than [y] in descending order. *)
Definition newer (x y : item) : Prop := key_ltb x y = false.

Lemma key_ltb_spec x y : key_ltb x y = true <->
  (closed_ms x < closed_ms y)%Z \/ closed_ms x = closed_ms y /\ String.ltb (snd x).(group_id) (snd y).(group_id) = true.
Proof.
  unfold key_ltb. rewrite orb_true_iff, andb_true_iff, Z.ltb_lt, Z.eqb_eq. reflexivity.
Qed.

Lemma newer_trans x y z : newer x y -> newer y z -> newer x z.
Proof.
  unfold newer. intros A B. destruct (key_ltb x z) eqn:E; [|reflexivity]. apply key_ltb_spec in E.
  assert (NA : key_ltb x y <> true) by congruence. assert (NB : key_ltb y z <> true) by congruence.
  rewrite key_ltb_spec in NA, NB. destruct E as [E|[E S]]; [lia|].
  destruct (Z.eq_dec (closed_ms x) (closed_ms y)) as [Exy|Exy]; [|lia].
  destruct (string_ltb_total (snd x).(group_id) (snd y).(group_id)) as [T|[T|T]].
  - destruct NA. now right.
  - destruct NB. right. split; [lia|]. now rewrite <- T.
  - destruct NB. right. split; [lia|]. eapply string_ltb_trans; eassumption.
Qed.

Lemma key_ltb_newer x y : key_ltb y x = true -> newer x y.
Proof.
  intros H. unfold newer. destruct (key_ltb x y) eqn:E; [|reflexivity]. apply key_ltb_spec in H, E.
  destruct H as [H|[H S]], E as [E|[E T]]; try lia.
  pose proof (string_ltb_trans _ _ _ S T) as R. now rewrite string_ltb_irrefl in R.
Qed.

Lemma sort_desc_perm l : Permutation l (sort_desc l).
Proof. apply stable_sort_perm. Qed.

Lemma sort_desc_sorted l : StronglySorted newer (sort_desc l).
Proof.
  apply stable_sort_sorted; [intros x y; apply key_ltb_newer | intros x y z; apply newer_trans].
Qed.

Lemma sorted_split {A} (R : A -> A -> Prop) l1 l2 : StronglySorted R (l1 ++ l2) ->
  StronglySorted R l2 /\ forall x y, In x l1 -> In y l2 -> R x y.
Proof.
  induction l1 as [|a l1 IH]; cbn [app]; intros S; [split; [exact S | intros x y []]|].
  apply StronglySorted_inv in S. destruct S as [S F]. destruct (IH S) as [S2 G]. split; [exact S2|].
  intros x y [<-|X] Y; [|now apply G]. rewrite Forall_forall in F. apply F, in_or_app. now right.
Qed.

Lemma sorted_filter {A} (R : A -> A -> Prop) f l : StronglySorted R l -> StronglySorted R (filter f l).
Proof.
  induction 1 as [|y r S IH F]; cbn [filter]; [constructor|]. destruct (f y); [|exact IH].
  constructor; [exact IH|]. rewrite Forall_forall in *. intros z Z. apply filter_In in Z. now apply F.
Qed.

Lemma enumerate_fst gs : map fst (enumerate gs) = seq 0 (List.length gs).
Proof.
  unfold enumerate. generalize 0%nat. induction gs as [|g r IH]; intros n; [reflexivity|]. cbn. now rewrite IH.
Qed.

Lemma enumerate_snd gs : map snd (enumerate gs) = gs.
Proof.
  unfold enumerate. generalize 0%nat. induction gs as [|g r IH]; intros n; [reflexivity|]. cbn. now rewrite IH.
Qed.

Lemma enumerate_nodup gs : NoDup (enumerate gs).
Proof. apply (NoDup_map_inv fst). rewrite enumerate_fst. apply seq_NoDup. Qed.

Lemma sorted_rev {A} (R : A -> A -> Prop) l : StronglySorted R l -> StronglySorted (fun x y => R y x) (rev l).
Proof.
  induction 1 as [|y r S IH F]; cbn [rev]; [constructor|].
  assert (G : forall l', StronglySorted (fun x y => R y x) l' -> Forall (R y) l' -> StronglySorted (fun x y => R y x) (l' ++ [y])).
  { induction 1 as [|z r' S' IH' F']; intros P; cbn [app]; [repeat constructor|]. inversion P; subst.
    constructor; [now apply IH'|]. rewrite Forall_forall in *. intros w W. apply in_app_or in W.
    destruct W as [W|[<-|[]]]; auto. }
  apply G; [exact IH|]. rewrite Forall_forall in *. intros z Z. apply F. now apply in_rev.
Qed.

Lemma archivable_spec g referenced : closed_group_is_archivable g referenced = true <->
  lower g.(status) = "closed"%string /\ group_has_pending_follow_up g = false /\
  (truthy (strip g.(group_id)) = true -> ~ In (strip g.(group_id)) referenced).
Proof.
  unfold closed_group_is_archivable. rewrite <- (mem_str_In (strip g.(group_id))).
  destruct (String.eqb_spec (lower g.(status)) "closed"); cbn [negb]; [|intuition congruence].
  destruct (group_has_pending_follow_up g); [intuition congruence|].
  destruct (truthy (strip g.(group_id))), (mem_str (strip g.(group_id)) referenced); cbn [andb];
    intuition congruence.
Qed.

Lemma referenced_In gid gs : In gid (referenced_parent_group_ids gs) <->
  truthy gid = true /\ exists g, In g gs /\ strip g.(cash_secured_from_group_id) = gid.
Proof.
  unfold referenced_parent_group_ids. rewrite filter_In, in_map_iff. firstorder.
Qed.

(** The newest [keep_min] closed groups and the rest. *)
Definition newest_closed (gs : list TradeGroup) (keep_min : Z) : list item :=
  firstn (Z.to_nat (Z.max keep_min 0)) (sort_desc (filter is_closed (enumerate gs))).
Definition older_closed (gs : list TradeGroup) (keep_min : Z) : list item :=
  skipn (Z.to_nat (Z.max keep_min 0)) (sort_desc (filter is_closed (enumerate gs))).

Lemma closed_split gs keep_min :
  Permutation (filter is_closed (enumerate gs)) (newest_closed gs keep_min ++ older_closed gs keep_min).
Proof. unfold newest_closed, older_closed. rewrite firstn_skipn. apply sort_desc_perm. Qed.

Lemma selection_In gs keep_recent_days keep_min now x :
  In x (select_archivable_closed_groups gs keep_recent_days keep_min now) <->
  In x (older_closed gs keep_min) /\ (closed_ms x < archive_cutoff keep_recent_days now)%Z /\
  closed_group_is_archivable (snd x) (referenced_parent_group_ids gs) = true.
Proof.
  unfold select_archivable_closed_groups. cbn zeta. rewrite <- in_rev, filter_In, andb_true_iff, Z.ltb_lt. reflexivity.
Qed.

Lemma selection_closed gs keep_recent_days keep_min now x :
  In x (select_archivable_closed_groups gs keep_recent_days keep_min now) -> In x (filter is_closed (enumerate gs)).
Proof.
  intros H. apply selection_In in H. destruct H as [H _]. eapply Permutation_in; [symmetry; apply (closed_split gs keep_min)|].
  apply in_or_app. now right.
Qed.

Lemma selection_nodup gs keep_recent_days keep_min now :
  NoDup (select_archivable_closed_groups gs keep_recent_days keep_min now).
Proof.
  unfold select_archivable_closed_groups. cbn zeta. apply NoDup_rev, NoDup_filter.
  apply (NoDup_app_remove_l (newest_closed gs keep_min)). eapply Permutation_NoDup; [apply (closed_split gs keep_min)|].
  apply NoDup_filter, enumerate_nodup.
Qed.

(** What may leave the state. The closed groups split into the newest
    [keep_min] (all of them when there are fewer), which are never picked, and
    older ones; picked are exactly the older ones that closed before the cutoff,
    have every follow-up journal in a terminal status and are not the wheel parent
    of any group still in the state. They come oldest first, each once. *)
Theorem archive_selection_safe gs keep_recent_days keep_min now :
  let closed := filter is_closed (enumerate gs) in
  let picked := select_archivable_closed_groups gs keep_recent_days keep_min now in
  exists newest older,
    Permutation closed (newest ++ older) /\
    List.length newest = Nat.min (Z.to_nat (Z.max keep_min 0)) (List.length closed) /\
    (forall x y, In x newest -> In y older -> newer x y) /\
    (forall x, In x picked <->
       In x older /\ (closed_ms x < now - Z.max keep_recent_days 0 * 86400000)%Z /\
       group_has_pending_follow_up (snd x) = false /\
       (forall g, In g gs -> strip g.(cash_secured_from_group_id) = strip (snd x).(group_id) ->
          truthy (strip (snd x).(group_id)) = false)) /\
    NoDup picked /\ StronglySorted (fun x y => newer y x) picked.
Proof.
  cbn zeta. exists (newest_closed gs keep_min), (older_closed gs keep_min).
  pose proof (sort_desc_sorted (filter is_closed (enumerate gs))) as SS.
  rewrite <- (firstn_skipn (Z.to_nat (Z.max keep_min 0))) in SS. apply sorted_split in SS. destruct SS as [SS SN].
  split; [apply closed_split|]. split; [|split; [exact SN|]; split; [|split; [apply selection_nodup|]]].
  - unfold newest_closed. now rewrite length_firstn, <- (Permutation_length (sort_desc_perm _)).
  - intros x. rewrite selection_In, archivable_spec. unfold archive_cutoff, _MS_PER_DAY.
    split.
    + intros (O & C & _ & F & R). repeat split; try assumption. intros g G E.
      destruct (truthy (strip (snd x).(group_id))) eqn:T; [|reflexivity].
      exfalso. apply (R eq_refl). rewrite referenced_In. eauto.
    + intros (O & C & F & R). repeat split; try assumption.
      * assert (X : In x (filter is_closed (enumerate gs))).
        { eapply Permutation_in; [symmetry; apply (closed_split gs keep_min)|]. apply in_or_app. now right. }
        apply filter_In in X. destruct X as [_ X]. unfold is_closed in X. apply andb_true_iff in X.
        destruct X as [X _]. now apply String.eqb_eq.
      * intros T I. rewrite referenced_In in I. destruct I as (_ & g & G & E). rewrite (R g G E) in T. discriminate.
  - unfold select_archivable_closed_groups. cbn zeta. now apply sorted_rev, sorted_filter.
Qed.

(** ** The archive *)

Lemma filter_split_perm {A} (f : A -> bool) l : Permutation l (filter (fun x => negb (f x)) l ++ filter f l).
Proof.
  induction l as [|x r IH]; [reflexivity|]. cbn [filter]. destruct (f x); cbn [negb app].
  - rewrite <- Permutation_middle. now constructor.
  - now constructor.
Qed.

Lemma enumerate_inj gs x y : In x (enumerate gs) -> In y (enumerate gs) -> fst x = fst y -> x = y.
Proof.
  intros X Y E. assert (N : NoDup (map fst (enumerate gs))) by (rewrite enumerate_fst; apply seq_NoDup).
  revert X Y N. induction (enumerate gs) as [|z r IH]; intros X Y N; [destruct X|].
  cbn [map] in N. inversion N as [|? ? NI N']; subst. destruct X as [->|X], Y as [Y|Y].
  - exact Y.
  - destruct NI. rewrite E. now apply in_map.
  - subst z. destruct NI. rewrite <- E. now apply in_map.
  - now apply IH.
Qed.

Lemma existsb_fst i (l : list item) : existsb (Nat.eqb i) (map fst l) = true <-> exists x, In x l /\ fst x = i.
Proof.
  rewrite existsb_exists. split.
  - intros (j & J & E). apply Nat.eqb_eq in E. subst j. apply in_map_iff in J. destruct J as (x & E & X). eauto.
  - intros (x & X & E). exists i. split; [|apply Nat.eqb_refl]. rewrite <- E. now apply in_map.
Qed.

Lemma remaining_perm gs picked : NoDup picked -> incl picked (enumerate gs) ->
  Permutation gs (remaining_groups gs picked ++ map snd picked).
Proof.
  intros N I. rewrite <- (enumerate_snd gs) at 1.
  rewrite (filter_split_perm (fun x => existsb (Nat.eqb (fst x)) (map fst picked)) (enumerate gs)), map_app.
  apply Permutation_app_head, Permutation_map.
  apply NoDup_Permutation; [apply NoDup_filter, enumerate_nodup | exact N|].
  intros x. rewrite filter_In, existsb_fst. split.
  - intros (X & y & Y & E). now rewrite (enumerate_inj gs x y X (I _ Y) (eq_sym E)).
  - intros X. split; [now apply I | eauto].
Qed.

(** The groups of [gs] whose id is not in [seen], each id once. *)
Fixpoint first_by_id (gs : list TradeGroup) (seen : list string) : list TradeGroup :=
  match gs with
  | [] => []
  | g :: r =>
      if truthy g.(group_id) && mem_str g.(group_id) seen then first_by_id r seen
      else g :: first_by_id r (if truthy g.(group_id) then g.(group_id) :: seen else seen)
  end.

Fixpoint decode_lines (lines : list line) : list TradeGroup :=
  match lines with
  | [] => []
  | l :: r => match decode_line l with Some g => g :: decode_lines r | None => decode_lines r end
  end.

Lemma load_lines_first lines seen : load_lines lines seen = first_by_id (decode_lines lines) seen.
Proof.
  revert seen. induction lines as [|l r IH]; intros seen; [reflexivity|]. cbn [load_lines decode_lines].
  destruct (decode_line l) as [g|]; [|apply IH]. cbn [first_by_id]. rewrite !IH. reflexivity.
Qed.

Lemma decode_lines_app l1 l2 : decode_lines (l1 ++ l2) = decode_lines l1 ++ decode_lines l2.
Proof. induction l1 as [|l r IH]; [reflexivity|]. cbn. rewrite IH. now destruct (decode_line l). Qed.

Lemma mem_str_cons s x l : mem_str s (x :: l) = String.eqb s x || mem_str s l.
Proof. reflexivity. Qed.

(** Only truthy ids matter in [seen]. *)
Definition same_seen (s t : list string) : Prop := forall gid, truthy gid = true -> mem_str gid s = mem_str gid t.

Lemma first_by_id_ext gs : forall s t, same_seen s t -> first_by_id gs s = first_by_id gs t.
Proof.
  induction gs as [|g r IH]; intros s t H; [reflexivity|]. cbn [first_by_id].
  destruct (truthy g.(group_id)) eqn:T; cbn [andb].
  - rewrite (H _ T). destruct (mem_str _ t); [now apply IH|]. f_equal. apply IH.
    intros gid G. rewrite !mem_str_cons. f_equal. now apply H.
  - f_equal. now apply IH.
Qed.

Lemma first_by_id_app l1 : forall l2 seen,
  first_by_id (l1 ++ l2) seen = first_by_id l1 seen ++ first_by_id l2 (map group_id (first_by_id l1 seen) ++ seen).
Proof.
  induction l1 as [|g r IH]; intros l2 seen; [reflexivity|]. cbn [app first_by_id].
  destruct (truthy g.(group_id)) eqn:T; cbn [andb].
  - destruct (mem_str g.(group_id) seen) eqn:M; [apply IH|]. rewrite IH. cbn [app map]. do 2 f_equal.
    apply first_by_id_ext. intros gid G. unfold mem_str. rewrite !existsb_app. cbn [existsb].
    rewrite existsb_app. now destruct (String.eqb gid g.(group_id)), (existsb (String.eqb gid) (map group_id _)).
  - rewrite IH. cbn [app map]. do 2 f_equal. apply first_by_id_ext. intros gid G.
    rewrite mem_str_cons. replace (String.eqb gid g.(group_id)) with false; [reflexivity|].
    symmetry. apply String.eqb_neq. intros ->. congruence.
Qed.

Lemma first_by_id_ids gs : forall seen g, In g gs ->
  truthy g.(group_id) = true -> mem_str g.(group_id) seen = false -> In g.(group_id) (map group_id (first_by_id gs seen)).
Proof.
  induction gs as [|h r IH]; intros seen g G T M; [destruct G|]. cbn [first_by_id].
  destruct (truthy h.(group_id) && mem_str h.(group_id) seen) eqn:E.
  - destruct G as [->|G]; [|now apply IH]. rewrite M, andb_false_r in E. discriminate.
  - cbn [map]. destruct G as [->|G]; [now left|].
    destruct (String.eqb_spec h.(group_id) g.(group_id)) as [Eq|Ne]; [now left|]. right. apply IH; try assumption.
    destruct (truthy h.(group_id)); [|exact M]. rewrite mem_str_cons, M, orb_false_r. apply String.eqb_neq. congruence.
Qed.

Lemma first_by_id_In gs : forall seen g, In g (first_by_id gs seen) -> In g gs.
Proof.
  induction gs as [|h r IH]; intros seen g G; [destruct G|]. cbn [first_by_id] in G.
  destruct (_ && _); [right; now apply IH in G|]. destruct G as [->|G]; [now left | right; now apply IH in G].
Qed.

(** Groups without a clash of ids are all kept. *)
Lemma first_by_id_all gs : forall seen, NoDup (filter truthy (map group_id gs)) ->
  (forall g, In g gs -> truthy g.(group_id) = true -> mem_str g.(group_id) seen = false) -> first_by_id gs seen = gs.
Proof.
  induction gs as [|h r IH]; intros seen N M; [reflexivity|]. cbn [first_by_id map filter] in *.
  destruct (truthy h.(group_id)) eqn:T; cbn [andb].
  - rewrite (M h (or_introl eq_refl) T). f_equal. inversion N as [|? ? NI N']; subst. apply IH; [exact N'|].
    intros g G Tg. rewrite mem_str_cons, (M g (or_intror G) Tg), orb_false_r. apply String.eqb_neq. intros E.
    apply NI. rewrite <- E, filter_In. split; [now apply in_map | exact Tg].
  - f_equal. apply IH; [exact N|]. intros g G. apply M. now right.
Qed.

Lemma first_by_id_skip gs seen already :
  (forall gid, mem_str gid already = true -> mem_str gid seen = true) ->
  first_by_id (filter (fun g => negb (truthy g.(group_id) && mem_str g.(group_id) already)) gs) seen = first_by_id gs seen.
Proof.
  revert seen. induction gs as [|g r IH]; intros seen H; [reflexivity|]. cbn [filter first_by_id].
  assert (R : forall gid, mem_str gid already = true -> mem_str gid (if truthy g.(group_id) then g.(group_id) :: seen else seen) = true).
  { intros gid G. destruct (truthy g.(group_id)); [|now apply H]. rewrite mem_str_cons, (H gid G). now rewrite orb_true_r. }
  destruct (truthy g.(group_id)) eqn:T; cbn [andb negb].
  - destruct (mem_str g.(group_id) already) eqn:A; cbn [negb].
    + rewrite (H _ A). now apply IH.
    + cbn [first_by_id]. rewrite T. cbn [andb]. destruct (mem_str g.(group_id) seen); [now apply IH|].
      f_equal. now apply IH.
  - cbn [first_by_id]. rewrite T. cbn [andb]. f_equal. now apply IH.
Qed.

Lemma decode_written g now_us v : through_json (PDict (to_dict g now_us)) = Ret v -> decode_line (Some v) = Some (stored_group g).
Proof.
  intros H. rewrite through_json_dict in H. apply obind_inv in H. destruct H as (d & D & H). injection H as <-.
  cbn [decode_line]. now rewrite (from_dict_saved g now_us d D).
Qed.

Lemma archive_lines_decode picked already now_us : forall lines, archive_lines picked already now_us = Ret lines ->
  decode_lines lines
  = map stored_group (filter (fun g => negb (truthy g.(group_id) && mem_str g.(group_id) already)) (map snd picked)).
Proof.
  induction picked as [|[i g] r IH]; intros lines H; cbn [archive_lines map filter snd] in *.
  - now injection H as <-.
  - destruct (truthy g.(group_id) && mem_str g.(group_id) already); cbn [negb]; [now apply IH|].
    apply obind_inv in H. destruct H as (v & V & H). apply obind_inv in H. destruct H as (rest & R & H).
    injection H as <-. cbn [decode_lines map]. rewrite (decode_written g now_us v V). f_equal. now apply IH.
Qed.

Lemma stored_filter (f : string -> bool) gs :
  map stored_group (filter (fun g => f g.(group_id)) gs) = filter (fun g => f g.(group_id)) (map stored_group gs).
Proof.
  induction gs as [|g r IH]; [reflexivity|]. cbn [filter map].
  change (group_id (stored_group g)) with (group_id g). destruct (f g.(group_id)); cbn [map]; now rewrite IH.
Qed.

(** What the archive reads back after an append. *)
Lemma load_after_append archive picked now_us lines :
  archive_lines picked (map group_id (load_archived_groups archive)) now_us = Ret lines ->
  load_archived_groups (archive ++ lines)
  = load_archived_groups archive
    ++ first_by_id (map stored_group (map snd picked)) (map group_id (load_archived_groups archive)).
Proof.
  intros H. apply archive_lines_decode in H. unfold load_archived_groups in *.
  rewrite !load_lines_first in *. rewrite decode_lines_app, first_by_id_app, H, app_nil_r. f_equal.
  rewrite (stored_filter (fun gid => negb (truthy gid && mem_str gid _))). now apply first_by_id_skip.
Qed.

Lemma archive_inv s archive keep_recent_days keep_min now now_us s' archive' n :
  archive_closed_groups s archive keep_recent_days keep_min now now_us = Ret (s', archive', n) ->
  let picked := select_archivable_closed_groups s.(groups) keep_recent_days keep_min now in
  exists lines, archive_lines picked (map group_id (load_archived_groups archive)) now_us = Ret lines /\
    s' = set_groups (remaining_groups s.(groups) picked) s /\ archive' = archive ++ lines /\
    n = Z.of_nat (List.length picked).
Proof.
  unfold archive_closed_groups. cbn zeta. intros H.
  destruct (select_archivable_closed_groups s.(groups) keep_recent_days keep_min now) as [|x r] eqn:E.
  - injection H as <- <- <-. exists []. cbn. rewrite app_nil_r. repeat split.
    unfold remaining_groups. cbn.
    assert (F : forall l : list item, filter (fun _ => true) l = l)
      by (induction l as [|y q IH]; [reflexivity|]; cbn; now rewrite IH).
    rewrite F, enumerate_snd. destruct s. reflexivity.
  - apply obind_inv in H. destruct H as (lines & L & H). injection H as <- <- <-. exists lines; repeat split; exact L.
Qed.

Lemma archive_perm s keep_recent_days keep_min now :
  let picked := select_archivable_closed_groups s.(groups) keep_recent_days keep_min now in
  Permutation s.(groups) (remaining_groups s.(groups) picked ++ map snd picked).
Proof.
  cbn zeta. apply remaining_perm; [apply selection_nodup|].
  intros x X. apply selection_closed, filter_In in X. exact (proj1 X).
Qed.

Lemma iter_ids live archive gid : truthy gid = true ->
  In gid (map group_id (iter_all_groups live archive)) <->
  In gid (map group_id live) \/ In gid (map group_id (load_archived_groups archive)).
Proof.
  intros T. unfold iter_all_groups. rewrite map_app, in_app_iff. split; intros [H|H]; auto.
  - right. apply in_map_iff in H. destruct H as (g & E & G). apply filter_In in G. apply in_map_iff. exists g. tauto.
  - destruct (in_dec string_dec gid (map group_id live)) as [L|L]; [now left|]. right.
    apply in_map_iff in H. destruct H as (g & E & G). apply in_map_iff. exists g. split; [exact E|].
    apply filter_In. split; [exact G|]. rewrite E, T. cbn [andb]. apply negb_true_iff.
    destruct (mem_str gid _) eqn:M; [|reflexivity]. apply mem_str_In, filter_In in M. tauto.
Qed.

(** C4. Archiving loses nothing. The groups of the state are exactly those that
    remain and those moved, the rest of the state is untouched, the archive is
    only appended to and every group it had reads back as before. Each moved group
    reads back from the archive as its stored form, unless one with its id is
    already there, so every id visible to reports before is visible after. *)
Theorem archive_loses_nothing s archive keep_recent_days keep_min now now_us s' archive' n :
  archive_closed_groups s archive keep_recent_days keep_min now now_us = Ret (s', archive', n) ->
  let moved := map snd (select_archivable_closed_groups s.(groups) keep_recent_days keep_min now) in
  Permutation s.(groups) (s'.(groups) ++ moved) /\ s' = set_groups s'.(groups) s /\
  n = Z.of_nat (List.length moved) /\
  (exists appended kept, archive' = archive ++ appended /\
     load_archived_groups archive' = load_archived_groups archive ++ kept /\
     (forall a, In a kept -> exists g, In g moved /\ a = stored_group g) /\
     (NoDup (filter truthy (map group_id moved)) ->
      (forall g, In g moved -> ~ In g.(group_id) (map group_id (load_archived_groups archive))) ->
      kept = map stored_group moved)) /\
  (forall gid, truthy gid = true ->
     In gid (map group_id (iter_all_groups s.(groups) archive)) <->
     In gid (map group_id (iter_all_groups s'.(groups) archive'))).
Proof.
  intros H. cbn zeta. apply archive_inv in H. destruct H as (lines & L & -> & -> & ->).
  set (picked := select_archivable_closed_groups s.(groups) keep_recent_days keep_min now) in *.
  pose proof (archive_perm s keep_recent_days keep_min now : Permutation s.(groups) (remaining_groups s.(groups) picked ++ map snd picked)) as P.
  pose proof (load_after_append archive picked now_us lines L) as A.
  set (moved := map snd picked) in *. set (old := map group_id (load_archived_groups archive)) in *.
  assert (Ids : map group_id (map stored_group moved) = map group_id moved) by now rewrite map_map.
  split; [exact P|]. split; [reflexivity|]. split; [unfold moved; now rewrite length_map|]. split.
  - exists lines, (first_by_id (map stored_group moved) old). split; [reflexivity|]. split; [exact A|]. split.
    + intros a I. apply first_by_id_In, in_map_iff in I. destruct I as (g & <- & G). eauto.
    + intros N D. apply first_by_id_all; [now rewrite Ids|]. intros a I T. apply in_map_iff in I.
      destruct I as (g & <- & G). change (group_id (stored_group g)) with g.(group_id).
      destruct (mem_str g.(group_id) old) eqn:M; [|reflexivity]. apply mem_str_In in M. destruct (D g G M).
  - intros gid T. rewrite !iter_ids by exact T. cbn [groups set_groups]. rewrite A, map_app, in_app_iff.
    assert (E : In gid (map group_id s.(groups)) <->
                In gid (map group_id (remaining_groups s.(groups) picked)) \/ In gid (map group_id moved)).
    { rewrite <- in_app_iff, <- map_app. pose proof (Permutation_map group_id P) as Q.
      split; apply Permutation_in; [exact Q | now apply Permutation_sym]. }
    rewrite E. fold old. split; [|intros [I|[I|I]]; auto].
    + intros [[I|I]|I]; auto. destruct (mem_str gid old) eqn:M; [apply mem_str_In in M; auto|].
      right. right. rewrite <- Ids in I. apply in_map_iff in I. destruct I as (a & <- & I). now apply first_by_id_ids.
    + left. right. rewrite <- Ids. apply in_map_iff in I. destruct I as (a & <- & I). apply in_map, (first_by_id_In _ _ _ I).
Qed.

Lemma archive_lines_known picked already now_us :
  (forall g, In g (map snd picked) -> truthy g.(group_id) = true /\ In g.(group_id) already) ->
  archive_lines picked already now_us = Ret [].
Proof.
  induction picked as [|[i g] r IH]; intros H; [reflexivity|]. cbn [archive_lines].
  destruct (H g (or_introl eq_refl)) as [T I]. rewrite T. apply mem_str_In in I. rewrite I. cbn [andb].
  apply IH. intros h Hh. apply H. now right.
Qed.

(** A crash between the append and the save is healed. Whatever state is on
    disk, running the archive again from it on the archive already appended to (at
    any later moment for the same cutoff) moves the same groups and appends
    nothing, provided the moved groups have ids. *)
Theorem archive_rerun_appends_nothing s archive keep_recent_days keep_min now now_us now_us' s' archive' n :
  archive_closed_groups s archive keep_recent_days keep_min now now_us = Ret (s', archive', n) ->
  (forall g, In g s.(groups) -> truthy g.(group_id) = true) ->
  archive_closed_groups s archive' keep_recent_days keep_min now now_us' = Ret (s', archive', n).
Proof.
  intros H T. pose proof H as H0. apply archive_inv in H. destruct H as (lines & L & -> & -> & ->).
  pose proof (load_after_append _ _ _ _ L) as A. unfold archive_closed_groups in *. cbn zeta in *.
  assert (K : archive_lines (select_archivable_closed_groups s.(groups) keep_recent_days keep_min now)
                (map group_id (load_archived_groups (archive ++ lines))) now_us' = Ret []).
  2: { rewrite K. cbn [obind]. rewrite app_nil_r. rewrite L in H0.
       destruct (select_archivable_closed_groups s.(groups) keep_recent_days keep_min now); [|reflexivity].
       injection H0 as Es _. rewrite <- Es. reflexivity. }
  apply archive_lines_known. set (picked := select_archivable_closed_groups s.(groups) keep_recent_days keep_min now) in *.
  intros g G. assert (Tg : truthy g.(group_id) = true).
  { apply T. eapply Permutation_in; [symmetry; apply (archive_perm s keep_recent_days keep_min now)|].
    apply in_or_app. now right. }
  split; [exact Tg|]. rewrite A, map_app, in_app_iff.
  destruct (mem_str g.(group_id) (map group_id (load_archived_groups archive))) eqn:M; [left; now apply mem_str_In|].
  right. change g.(group_id) with (group_id (stored_group g)). apply first_by_id_ids; try assumption. now apply in_map.
Qed.

(** ** The store *)

Lemma trunc_mono x y : 0 <= x -> x <= y -> (trunc x <= trunc y)%Z.
Proof. intros H L. rewrite !trunc_nonneg by lra. now apply Qfloor_resp_le. Qed.

Lemma stored_dec_mono x y : 0 <= x -> x <= y -> stored_dec x <= stored_dec y.
Proof.
  intros H L. rewrite !stored_dec_value. unfold gval. pose proof (p10_pos 8) as P. pose proof (p10_pos (-8)) as P'.
  apply Qmult_le_compat_r; [|lra]. rewrite <- Zle_Qle. apply trunc_mono; nra.
Qed.

(** The smallest amount that a saved file can hold. *)
Definition json_quantum : Q := 1 # 100000000.

Lemma stored_dec_quantum q : json_quantum <= q -> json_quantum <= stored_dec q.
Proof.
  intros H. apply (Qle_trans _ (stored_dec json_quantum)).
  - vm_compute. discriminate.
  - apply stored_dec_mono; [vm_compute; discriminate | exact H].
Qed.

Lemma stored_operator_restore g : operator_restore g = true -> json_quantum <= g.(spot_restore_amount) ->
  operator_restore (stored_group g) = true /\
  (stored_group g).(spot_restore_amount) = stored_dec g.(spot_restore_amount).
Proof.
  intros R Q. assert (P : 0 < g.(spot_restore_amount)) by (unfold json_quantum in Q; lra).
  assert (S : (stored_group g).(spot_restore_amount) = stored_dec g.(spot_restore_amount)).
  { change (stored_pos g.(spot_restore_amount) = stored_dec g.(spot_restore_amount)). unfold stored_pos.
    now destruct (dltb_spec 0 g.(spot_restore_amount)). }
  split; [|exact S]. unfold operator_restore in *. rewrite S.
  change (spot_restore_status (stored_group g)) with g.(spot_restore_status).
  change (spot_restore_reason (stored_group g)) with g.(spot_restore_reason).
  apply andb_true_iff in R. destruct R as [R R2]. apply andb_true_iff in R. destruct R as [R1 _]. rewrite R1, R2.
  pose proof (stored_dec_quantum _ Q) as L. unfold json_quantum in L.
  destruct (dltb_spec 0 (stored_dec g.(spot_restore_amount))); [reflexivity | lra].
Qed.

Lemma stored_csp_abort g : operator_csp_abort (stored_group g) = operator_csp_abort g.
Proof. reflexivity. Qed.

(** What [save] writes decodes to the stored state. *)
Section Written.
Variables (write : StrategyState -> list (string * pyobj)) (kept : StrategyState -> StrategyState).
Hypothesis written : forall s l, encode_items (write s) = Ret l -> state_from_dict (fun key => dget key l) = Ret (kept s).

Lemma decode_encoded s v : through_json (PDict (write s)) = Ret v -> _decode_payload v = Some (kept s).
Proof.
  intros V. rewrite through_json_dict in V. apply obind_inv in V. destruct V as (l & L & V). injection V as <-.
  cbn [_decode_payload]. now rewrite (written s l L).
Qed.
End Written.

Definition merged_with (s : StrategyState) (on_disk : option StrategyState) : StrategyState :=
  match on_disk with Some o => fst (merge_concurrent_group_updates s o) | None => s end.

Lemma save_inv d s now_us d' s' : save d s now_us = Ret (d', s') ->
  exists o v, _read_unlocked d = Ret o /\ s' = merged_with s o /\ d' = set_file (Payload v) d /\
    _decode_payload v = Some (stored_state s').
Proof.
  unfold save. intros H. apply obind_inv in H. destruct H as (o & O & H). fold (merged_with s o) in H.
  apply obind_inv in H. destruct H as (v & V & H). injection H as <- <-. exists o, v. repeat split; [exact O|].
  exact (decode_encoded (fun s => state_to_dict s now_us) stored_state (fun s l => state_saved s now_us l) _ _ V).
Qed.

Lemma merged_groups s o : (merged_with s o).(groups)
  = map (merge_one (match o with Some o => o.(groups) | None => [] end)) s.(groups).
Proof.
  destruct o as [o|]; [apply merge_state_groups|]. cbn [merged_with].
  assert (E : forall g, merge_one [] g = g) by reflexivity. rewrite (map_ext _ _ E). symmetry. apply map_id.
Qed.

Lemma merged_ids s o : map group_id (merged_with s o).(groups) = map group_id s.(groups).
Proof. rewrite merged_groups, map_map. apply map_ext. intros g. apply merge_one_id. Qed.

(** C3. What is saved is what is loaded: after a save, a load returns the saved
    state with every decimal on the file's eight-place grid and leaves the disk
    alone. The saved state is the caller's with the readable file merged in: the
    same groups in the same order, and a group counter that never goes back. The
    archive and the quarantined files are not touched. *)
Theorem save_then_load d s now_us d' s' :
  save d s now_us = Ret (d', s') ->
  load d' = Ret (stored_state s', d') /\
  map group_id s'.(groups) = map group_id s.(groups) /\
  d'.(archive) = d.(archive) /\ d'.(quarantine) = d.(quarantine) /\
  (s.(next_group_id) <= s'.(next_group_id))%Z /\
  (forall o d0, load d = Ret (o, d0) -> d.(quarantine) = d0.(quarantine) -> d.(file) <> Missing ->
     s' = fst (merge_concurrent_group_updates s o) /\ (o.(next_group_id) <= s'.(next_group_id))%Z) /\
  (forall o d0, load d = Ret (o, d0) -> d.(quarantine) <> d0.(quarantine) \/ d.(file) = Missing -> s' = s).
Proof.
  intros H. apply save_inv in H. destruct H as (o & v & R & -> & -> & V).
  split; [unfold load; cbn [file set_file]; now rewrite V|]. split; [apply merged_ids|].
  split; [reflexivity|]. split; [reflexivity|]. split; [|split].
  - destruct o as [o|]; cbn [merged_with]; [rewrite merge_state_next|]; lia.
  - intros o' d0 L Q M. unfold _read_unlocked in R. unfold load in L. destruct (file d) as [| | |w]; try congruence.
    + injection L as _ <-. cbn in Q. apply (f_equal (@List.length _)) in Q. cbn in Q. lia.
    + injection R as <-. destruct (_decode_payload w) as [st|].
      * injection L as -> _. cbn [merged_with]. split; [reflexivity|]. rewrite merge_state_next. lia.
      * injection L as _ <-. cbn in Q. apply (f_equal (@List.length _)) in Q. cbn in Q. lia.
  - intros o' d0 L Q. unfold _read_unlocked in R. unfold load in L. destruct (file d) as [| | |w]; try congruence.
    + injection R as <-. reflexivity.
    + injection R as <-. reflexivity.
    + injection R as <-. destruct (_decode_payload w) as [st|]; [|reflexivity]. injection L as _ <-.
      destruct Q as [Q|Q]; congruence.
Qed.

(** Two saves by different processes: every group read back afterwards is the
    stored merge of the second writer's group with the first writer's stored one. *)
Lemma two_saves d cli now1 d1 s1 live now2 d2 s2 g :
  save d cli now1 = Ret (d1, s1) -> save d1 live now2 = Ret (d2, s2) ->
  In g cli.(groups) -> truthy g.(group_id) = true -> NoDup (filter truthy (map group_id cli.(groups))) ->
  exists g1 st, (g1 = g \/ exists o, g1 = fst (merge_group g o)) /\ load d2 = Ret (st, d2) /\
    forall h, In h st.(groups) -> h.(group_id) = g.(group_id) ->
      exists m, In m live.(groups) /\ h = stored_group (fst (merge_group m (stored_group g1))).
Proof.
  intros S1 S2 G T N. apply save_inv in S1. destruct S1 as (o1 & v1 & _ & -> & -> & V1).
  apply save_inv in S2. destruct S2 as (o2 & v2 & R2 & -> & -> & V2).
  unfold _read_unlocked in R2. cbn [file set_file] in R2. rewrite V1 in R2. injection R2 as <-.
  set (before := match o1 with Some o => o.(groups) | None => [] end) in *.
  exists (merge_one before g), (stored_state (merged_with live (Some (stored_state (merged_with cli o1))))).
  split; [unfold merge_one; destruct (disk_group _ _) as [o|]; eauto|].
  split; [unfold load; cbn [file set_file]; now rewrite V2|].
  intros h H E. cbn [groups stored_state] in H. apply in_map_iff in H. destruct H as (h' & <- & H).
  change (group_id (stored_group h')) with (group_id h') in E.
  rewrite merged_groups in H. apply in_map_iff in H. destruct H as (m & <- & M). rewrite merge_one_id in E.
  exists m. split; [exact M|]. f_equal. unfold merge_one at 1. cbn [groups stored_state].
  replace (disk_group m.(group_id) _) with (Some (stored_group (merge_one before g))); [reflexivity|].
  symmetry. rewrite E. transitivity (disk_group (stored_group (merge_one before g)).(group_id)
    (map stored_group (groups (merged_with cli o1)))).
  - change (group_id (stored_group (merge_one before g))) with (group_id (merge_one before g)). now rewrite merge_one_id.
  - apply disk_group_unique.
    + apply in_map. rewrite merged_groups. apply in_map, G.
    + change (group_id (stored_group (merge_one before g))) with (group_id (merge_one before g)). now rewrite merge_one_id.
    + rewrite map_map. cbn [group_id stored_group]. now rewrite merged_ids.
Qed.



(** ** Witnesses *)

Definition sample_closed_group (gid : string) (ms : Z) : TradeGroup :=
  set_closed_timestamp_ms (Some ms) (set_status "closed" (set_group_id gid sample_saved_group)).

Definition sample_live_state : StrategyState :=
  set_groups [sample_closed_group "g1" 1000; set_group_id "g2" sample_saved_group; sample_closed_group "g3" 2000] empty_state.

Lemma sample_archive : exists r,
  archive_closed_groups sample_live_state [None] 0 1 5000 1700000000000000 = Ret r.
Proof. eexists. vm_compute. reflexivity. Defined.

Lemma archive_loses_nothing_witness :
  exists s' archive', archive_closed_groups sample_live_state [None] 0 1 5000 1700000000000000 = Ret (s', archive', 1%Z) /\
    Permutation sample_live_state.(groups) (s'.(groups) ++ [sample_closed_group "g1" 1000]).
Proof.
  destruct sample_archive as [[[s' a'] n] E].
  destruct (archive_loses_nothing sample_live_state [None] 0 1 5000 1700000000000000 s' a' n E) as (P & _ & N & _).
  assert (N1 : n = 1%Z) by (rewrite N; vm_compute; reflexivity). rewrite N1 in E.
  exists s', a'. split; [exact E | exact P].
Defined.

Lemma archive_rerun_appends_nothing_witness :
  exists s' archive' n, archive_closed_groups sample_live_state [None] 0 1 5000 1700000000000000 = Ret (s', archive', n) /\
    archive_closed_groups sample_live_state archive' 0 1 5000 1700000000999999 = Ret (s', archive', n).
Proof.
  destruct sample_archive as [[[s' a'] n] E]. exists s', a', n. split; [exact E|].
  apply (archive_rerun_appends_nothing sample_live_state [None] 0 1 5000 1700000000000000 1700000000999999 s' a' n E).
  intros g G. cbn [sample_live_state groups set_groups] in G. destruct G as [<-|[<-|[<-|[]]]]; vm_compute; reflexivity.
Defined.

Definition empty_disk : disk := {| file := Missing; archive := []; quarantine := [] |}.

Lemma sample_save : exists r, save empty_disk sample_live_state 1700000000000000 = Ret r.
Proof. eexists. vm_compute. reflexivity. Defined.

Lemma save_then_load_witness :
  exists d', save empty_disk sample_live_state 1700000000000000 = Ret (d', sample_live_state) /\
    load d' = Ret (stored_state sample_live_state, d').
Proof.
  destruct sample_save as [[d' s'] E].
  destruct (save_then_load empty_disk sample_live_state 1700000000000000 d' s' E) as (L & _ & _ & _ & _ & _ & M).
  assert (s' = sample_live_state) as Es.
  { apply (M empty_state empty_disk); [reflexivity|]. right. reflexivity. }
  subst s'. exists d'. split; [exact E | exact L].
Defined.

(** The operator fills a restore of [g2]; the live cycle still has it skipped. *)
Definition sample_operator_group : TradeGroup :=
  set_spot_restore_status "filled" (set_spot_restore_amount (1 # 4) (set_spot_restore_reason "operator_manual_restore"
    (set_group_id "g2" sample_saved_group))).
Definition sample_stale_group : TradeGroup := set_spot_restore_status "skipped" (set_group_id "g2" sample_saved_group).
Definition with_group (g : TradeGroup) : StrategyState := set_groups [g] empty_state.

Lemma sample_two_saves : exists d1 s1 d2 s2,
  save empty_disk (with_group sample_operator_group) 1700000000000000 = Ret (d1, s1) /\
  save d1 (with_group sample_stale_group) 1700000000000001 = Ret (d2, s2).
Proof.
  assert (E : exists r, save empty_disk (with_group sample_operator_group) 1700000000000000 = Ret r)
    by (eexists; vm_compute; reflexivity).
  assert (F : exists r, (let! r := save empty_disk (with_group sample_operator_group) 1700000000000000 in
     save (fst r) (with_group sample_stale_group) 1700000000000001)%outcome = Ret r) by (eexists; vm_compute; reflexivity).
  destruct E as [[d1 s1] E], F as [[d2 s2] F]. rewrite E in F. exists d1, s1, d2, s2. split; [exact E | exact F].
Defined.

