(* ===== verification/Market.v ===== *)
(** Market data ([deribit_engine/models.py], [deribit_engine/utils.py]): option names,
    instruments and their tick schedule, order book snapshots with the prices used to
    close, account rows, and open positions. *)

From S2P Require Import Prelude Sorting Dec PyStr Utils Group PyObj GroupJson.
From Stdlib Require Import Sorted Permutation.
Local Open Scope Q_scope.
Local Open Scope dec_scope.
Local Open Scope bool_scope.
Local Open Scope outcome_scope.
Local Open Scope list_scope.

(** ** Option names

    [BTC-29MAY26-70000-C], [SOL_USDC-1JAN...]: the separator [-] occurs in no part,
    so matching the regular expression is matching the four parts between it (names
    are ASCII; [$] also accepts one final newline). *)

Record option_name : Type := {
  symbol : string;
  date : string;
  strike_text : string;
  kind : string;
  name_option_type : string;
  name_base_currency : string;
  name_quote_currency : string;
}.

Definition nonempty_all (p : ascii -> bool) (s : string) : bool := negb (is_empty s) && all_chars p s.

(** [[A-Z]+(?:_[A-Z]+)*] *)
Definition is_symbol (s : string) : bool := forallb (nonempty_all is_upper) (split_on "_"%char s EmptyString).

(** [\d{2}[A-Z]{3}\d{2}] *)
Definition is_date (s : string) : bool :=
  match s with
  | String a (String b (String c (String d (String e (String f (String g EmptyString)))))) =>
      is_digit a && is_digit b && is_upper c && is_upper d && is_upper e && is_digit f && is_digit g
  | _ => false
  end.

(** [\d+(?:\.\d+)?] *)
Definition is_strike (s : string) : bool :=
  match split_on "."%char s EmptyString with
  | [a] => nonempty_all is_digit a
  | [a; b] => nonempty_all is_digit a && nonempty_all is_digit b
  | _ => false
  end.

Definition newline : string := String "010"%char EmptyString.

(** [[CP]$] *)
Definition kind_of (s : string) : option string :=
  if String.eqb s "C" || String.eqb s ("C" ++ newline) then Some "C"%string
  else if String.eqb s "P" || String.eqb s ("P" ++ newline) then Some "P"%string
  else None.

Definition underscore : string := String "_"%char EmptyString.

Definition parse_option_name (instrument_name : string) : option option_name :=
  match split_on "-"%char instrument_name EmptyString with
  | [s; d; k; c] =>
      match kind_of c with
      | Some c =>
          if is_symbol s && is_date d && is_strike k then
            let parts := split_on "_"%char s EmptyString in
            Some {| symbol := s; date := d; strike_text := k; kind := c;
                    name_option_type := if String.eqb c "C" then "call" else "put";
                    name_base_currency := hd EmptyString parts;
                    name_quote_currency := join underscore (tl parts) |}
          else None
      | None => None
      end
  | _ => None
  end.

(** ** Instruments *)

Record OptionInstrument : Type := {
  instrument_name : string;
  base_currency : string;
  quote_currency : string;
  settlement_currency : string;
  instrument_type : string;
  tick_size : Q;
  tick_size_steps : list (Q * Q);
  min_trade_amount : Q;
  instrument_contract_size : Q;
  instrument_option_type : string;
  instrument_expiration_ms : Z;
  instrument_strike : Q;
  instrument_state : string;
}.

(** [sorted(steps, key=lambda item: item[0])] *)
Definition sort_steps : list (Q * Q) -> list (Q * Q) := sort_up fst.

(** The dictionaries of [payload.get("tick_size_steps") or []]. *)
Definition steps_of (v : pyobj) : outcome (list (Q * Q)) :=
  if py_truthy v then
    match v with
    | PList l =>
        Ret (flat_map (fun item =>
               match item with
               | PDict d => [(to_decimal (dget "above_price" d) 0, to_decimal (dget "tick_size" d) 0)]
               | _ => []
               end) l)
    | PDict _ | PStr _ => Ret []
    | _ => Exn TypeError
    end
  else Ret [].

Definition text (get : string -> pyobj) (key : string) : string := str_or_default (get key) EmptyString.
Definition num (get : string -> pyobj) (key : string) : Q := to_decimal (get key) 0.

Definition instrument_from_api (get : string -> pyobj) : outcome OptionInstrument :=
  let parsed := parse_option_name (text get "instrument_name") in
  let from_name (f : option_name -> string) := match parsed with Some p => f p | None => EmptyString end in
  let base := py_str (obj_or (obj_or (get "base_currency"%string) (PStr (from_name name_base_currency))) (PStr EmptyString)) in
  let quote := py_str (obj_or (obj_or (get "quote_currency"%string) (PStr (from_name name_quote_currency))) (PStr EmptyString)) in
  let settlement := text get "settlement_currency" in
  let itype := lower (text get "instrument_type") in
  let settlement :=
    if truthy settlement then settlement
    else if String.eqb quote "USDC" then "USDC"%string
    else if truthy base && (is_empty quote || String.eqb quote base) then base
    else settlement in
  let itype :=
    if truthy itype then itype
    else if String.eqb quote "USDC" && String.eqb settlement "USDC" then "linear"%string
    else if truthy base && String.eqb settlement base then "reversed"%string
    else itype in
  let! steps := steps_of (get "tick_size_steps"%string) in
  let! expiration := int_or (get "expiration_timestamp"%string) 0 in
  Ret {| instrument_name := text get "instrument_name"; base_currency := base; quote_currency := quote;
         settlement_currency := settlement; instrument_type := itype;
         tick_size := to_decimal (obj_or (get "tick_size"%string) (get "min_price_increment"%string)) 0;
         tick_size_steps := sort_steps steps;
         min_trade_amount := to_decimal (obj_or (get "min_trade_amount"%string) (get "min_amount"%string)) 0;
         instrument_contract_size := to_decimal (obj_or (get "contract_size"%string) (PStr "1")) 0;
         instrument_option_type := lower (py_str (obj_or (obj_or (get "option_type"%string)
            (PStr (from_name name_option_type))) (PStr EmptyString)));
         instrument_expiration_ms := expiration;
         instrument_strike := num get "strike";
         instrument_state := text get "instrument_state" |}.

Fixpoint tick_loop (price tick : Q) (steps : list (Q * Q)) : Q :=
  match steps with
  | [] => tick
  | (above_price, step) :: r => tick_loop price (if (price >=? above_price) && (step >? 0) then step else tick) r
  end.

Definition tick_size_for_price (i : OptionInstrument) (price : Q) : Q := tick_loop price i.(tick_size) i.(tick_size_steps).

(** ** Order books *)

Record OrderBookSnapshot : Type := {
  book_instrument_name : string;
  best_bid_price : Q;
  best_bid_amount : Q;
  best_ask_price : Q;
  best_ask_amount : Q;
  mark_price : Q;
  index_price : Q;
  delta : Q;
  iv : Q;
  open_interest : Q;
}.

(** [payload.get("greeks") or {}], of which [.get("delta")] is taken. *)
Definition greeks_delta (v : pyobj) : outcome Q :=
  if py_truthy v then match v with PDict d => Ret (to_decimal (dget "delta" d) 0) | _ => Exn AttributeError end
  else Ret 0.

Definition book_from_api (get : string -> pyobj) : outcome OrderBookSnapshot :=
  let! d := greeks_delta (get "greeks"%string) in
  Ret {| book_instrument_name := text get "instrument_name";
         best_bid_price := num get "best_bid_price"; best_bid_amount := num get "best_bid_amount";
         best_ask_price := num get "best_ask_price"; best_ask_amount := num get "best_ask_amount";
         mark_price := num get "mark_price";
         index_price := to_decimal (obj_or (get "index_price"%string) (get "underlying_price"%string)) 0;
         delta := d; iv := num get "mark_iv"; open_interest := num get "open_interest" |}.

Definition from_book_summary (get : string -> pyobj) : OrderBookSnapshot :=
  {| book_instrument_name := text get "instrument_name";
     best_bid_price := num get "bid_price"; best_bid_amount := 0;
     best_ask_price := num get "ask_price"; best_ask_amount := 0;
     mark_price := num get "mark_price";
     index_price := to_decimal (obj_or (get "index_price"%string) (get "underlying_price"%string)) 0;
     delta := 0; iv := num get "mark_iv"; open_interest := num get "open_interest" |}.

Definition midpoint (b : OrderBookSnapshot) : Q := (b.(best_bid_price) ⊕ b.(best_ask_price)) ⊘ 2.

Definition spread_ratio (b : OrderBookSnapshot) : Q :=
  if (midpoint b <=? 0) || (b.(best_ask_price) <? b.(best_bid_price)) then 1
  else (b.(best_ask_price) ⊖ b.(best_bid_price)) ⊘ midpoint b.

Definition effective_mark (b : OrderBookSnapshot) : Q := if b.(mark_price) >? 0 then b.(mark_price) else midpoint b.

Definition quote_sane_for_close (b : OrderBookSnapshot) (max_spread_ratio : Q) : bool :=
  let mark := b.(mark_price) in
  let bid := b.(best_bid_price) in
  let ask := b.(best_ask_price) in
  if (bid <=? 0) || (ask <=? 0) || (ask <? bid) then false
  else if spread_ratio b >? max_spread_ratio then false
  else if mark <=? 0 then true
  else
    let upper := mark ⊗ (1 ⊕ max_spread_ratio) in
    let lower := mark ⊗ (1 ⊖ max_spread_ratio) in
    (ask <=? upper) && (bid >=? lower).

Definition usable_mark (b : OrderBookSnapshot) : Q := if b.(mark_price) >? 0 then b.(mark_price) else 0.

Definition buy_close_premium (b : OrderBookSnapshot) (max_spread_ratio : Q) : Q :=
  let mark := usable_mark b in
  let ask := b.(best_ask_price) in
  if quote_sane_for_close b max_spread_ratio then
    if ask <=? 0 then mark else if mark >? 0 then dmax ask mark else ask
  else if mark >? 0 then mark else dmax ask 0.

Definition sell_close_premium (b : OrderBookSnapshot) (max_spread_ratio : Q) : Q :=
  let mark := usable_mark b in
  let bid := b.(best_bid_price) in
  if quote_sane_for_close b max_spread_ratio then
    if bid <=? 0 then mark else if mark >? 0 then dmin bid mark else bid
  else if mark >? 0 then mark else dmax bid 0.

Definition book_notional_usdc (b : OrderBookSnapshot) : Q := b.(index_price) ⊗ b.(best_bid_amount).

(** ** Account rows *)

Record AccountSummary : Type := {
  account_currency : string;
  balance : Q;
  equity : Q;
  available_funds : Q;
  available_withdrawal_funds : Q;
  initial_margin : Q;
  maintenance_margin : Q;
  delta_total : Q;
  options_delta : Q;
  options_gamma : Q;
  options_theta : Q;
  total_equity_usd : Q;
  total_initial_margin_usd : Q;
  total_maintenance_margin_usd : Q;
}.

Definition account_from_api (get : string -> pyobj) : AccountSummary :=
  {| account_currency := upper (text get "currency"); balance := num get "balance"; equity := num get "equity";
     available_funds := num get "available_funds"; available_withdrawal_funds := num get "available_withdrawal_funds";
     initial_margin := num get "initial_margin"; maintenance_margin := num get "maintenance_margin";
     delta_total := num get "delta_total"; options_delta := num get "options_delta";
     options_gamma := num get "options_gamma"; options_theta := num get "options_theta";
     total_equity_usd := num get "total_equity_usd";
     total_initial_margin_usd := num get "total_initial_margin_usd";
     total_maintenance_margin_usd := num get "total_maintenance_margin_usd" |}.

Definition EXTERNAL_FLOW_TRANSACTION_TYPES : list string := ["deposit"%string; "withdrawal"%string; "transfer"%string].
Definition SUBSCRIPTION_FLOW_TRANSACTION_TYPES : list string := ["deposit"%string; "withdrawal"%string].

Record TransactionEntry : Type := {
  transaction_id : Z;
  transaction_timestamp : Z;
  transaction_type : string;
  transaction_currency : string;
  transaction_amount : Q;
  transaction_balance : option Q;
  info : string;
}.

Definition is_none (v : pyobj) : bool := match v with PNone => true | _ => false end.

Definition transaction_from_api (get : string -> pyobj) : outcome TransactionEntry :=
  let amount := if is_none (get "change"%string) then get "amount"%string else get "change"%string in
  let! id := int_or (get "id"%string) 0 in
  let! timestamp := int_or (get "timestamp"%string) 0 in
  Ret {| transaction_id := id; transaction_timestamp := timestamp; transaction_type := lower (text get "type");
         transaction_currency := upper (text get "currency"); transaction_amount := to_decimal amount 0;
         transaction_balance := opt_decimal (get "balance"%string); info := text get "info" |}.

Definition is_external_flow (t : TransactionEntry) : bool := mem_str t.(transaction_type) EXTERNAL_FLOW_TRANSACTION_TYPES.
Definition is_subscription_flow (t : TransactionEntry) : bool :=
  mem_str t.(transaction_type) SUBSCRIPTION_FLOW_TRANSACTION_TYPES.

(** ** Orders and positions *)

Record OpenOrder : Type := {
  order_id : string;
  order_instrument_name : string;
  order_direction : string;
  order_state : string;
  order_type : string;
  order_amount : Q;
  filled_amount : Q;
  order_price : Q;
  order_average_price : Q;
  post_only : bool;
  reduce_only : bool;
  order_label : string;
  creation_timestamp_ms : option Z;
}.

Definition order_from_api (get : string -> pyobj) : outcome OpenOrder :=
  let! created := opt_int (get "creation_timestamp"%string) in
  Ret {| order_id := text get "order_id"; order_instrument_name := text get "instrument_name";
         order_direction := lower (text get "direction"); order_state := lower (text get "order_state");
         order_type := lower (text get "order_type"); order_amount := num get "amount";
         filled_amount := num get "filled_amount"; order_price := num get "price";
         order_average_price := num get "average_price"; post_only := py_truthy (get "post_only"%string);
         reduce_only := py_truthy (get "reduce_only"%string); order_label := text get "label";
         creation_timestamp_ms := created |}.

Record Position : Type := {
  position_instrument_name : string;
  direction : string;
  position_kind : string;
  size : Q;
  size_currency : Q;
  position_mark_price : Q;
  average_price : Q;
  floating_profit_loss : Q;
  position_delta : Q;
  position_index_price : Q;
  has_floating_profit_loss : bool;
  floating_profit_loss_usd : Q;
  has_floating_profit_loss_usd : bool;
}.

(** [v not in (None, "")] *)
Definition present (v : pyobj) : bool :=
  match v with PNone => false | PStr s => truthy s | _ => true end.

Definition position_from_api (get : string -> pyobj) : Position :=
  {| position_instrument_name := text get "instrument_name"; direction := lower (text get "direction");
     position_kind := lower (text get "kind"); size := num get "size";
     size_currency := to_decimal (obj_or (get "size_currency"%string) (get "size"%string)) 0;
     position_mark_price := num get "mark_price"; average_price := num get "average_price";
     floating_profit_loss := num get "floating_profit_loss"; position_delta := num get "delta";
     position_index_price := num get "index_price";
     has_floating_profit_loss := present (get "floating_profit_loss"%string);
     floating_profit_loss_usd := num get "floating_profit_loss_usd";
     has_floating_profit_loss_usd := present (get "floating_profit_loss_usd"%string) |}.

Definition signed_size_currency (p : Position) : Q :=
  let amount := if p.(size_currency) =? 0 then p.(size) else p.(size_currency) in
  if amount =? 0 then 0
  else if amount <? 0 then amount
  else if String.eqb p.(direction) "sell" then rnd (- dabs amount)
  else if String.eqb p.(direction) "buy" then dabs amount
  else amount.

(** ** Reconciliation glitches *)

Definition PHANTOM_RECONCILE_MAX_HOLDING_MS : Z := 300000.

Definition open_short_instrument_names (gs : list TradeGroup) : list string :=
  map short_instrument_name (filter (fun g => negb (String.eqb g.(status) "closed") && truthy g.(short_instrument_name)) gs).

Definition is_phantom_reconcile_close (g : TradeGroup) (open_short_names : list string) : bool :=
  if negb (String.eqb g.(status) "closed") then false
  else if negb (String.eqb (lower g.(close_reason)) "reconciled_external") then false
  else
    match g.(closed_timestamp_ms) with
    | None => false
    | Some closed_ms =>
        if (closed_ms =? 0)%Z || (closed_ms <=? g.(entry_timestamp_ms))%Z then false
        else if (PHANTOM_RECONCILE_MAX_HOLDING_MS <? closed_ms - g.(entry_timestamp_ms))%Z then false
        else mem_str g.(short_instrument_name) open_short_names
    end.

(** ** Splitting and joining *)

Definition sep_of (c : ascii) : string := String c EmptyString.

Definition free_of (c : ascii) (s : string) : bool := negb (has_char c s).

Lemma free_app c a b : free_of c (a ++ b)%string = free_of c a && free_of c b.
Proof.
  unfold free_of. induction a as [|d a IH]; [reflexivity|]. cbn. destruct (Ascii.eqb c d); [reflexivity | exact IH].
Qed.

Lemma free_all_chars c (p : ascii -> bool) s : p c = false -> all_chars p s = true -> free_of c s = true.
Proof.
  intros N. unfold free_of. induction s as [|d s IH]; [reflexivity|]. cbn. intros H. apply andb_true_iff in H.
  destruct H as [H1 H2]. destruct (Ascii.eqb_spec c d) as [<-|_]; [congruence | now apply IH].
Qed.

Lemma split_free c a : forall cur, free_of c a = true -> split_on c a cur = [(cur ++ a)%string].
Proof.
  induction a as [|d a IH]; intros cur H; cbn [split_on]; [now rewrite append_nil_r|].
  unfold free_of in H. cbn [has_char] in H. rewrite negb_orb in H. apply andb_true_iff in H. destruct H as [H1 H2].
  rewrite Ascii.eqb_sym in H1. destruct (Ascii.eqb d c); [discriminate|].
  rewrite IH by exact H2. now rewrite append_assoc.
Qed.

Lemma split_cons c a b : forall cur, free_of c a = true ->
  split_on c (a ++ sep_of c ++ b) cur = (cur ++ a)%string :: split_on c b EmptyString.
Proof.
  induction a as [|d a IH]; intros cur H; cbn [split_on append].
  - cbn. now rewrite Ascii.eqb_refl, append_nil_r.
  - unfold free_of in H. cbn [has_char] in H. rewrite negb_orb in H. apply andb_true_iff in H. destruct H as [H1 H2].
    rewrite Ascii.eqb_sym in H1. destruct (Ascii.eqb d c); [discriminate|].
    rewrite IH by exact H2. now rewrite append_assoc.
Qed.

Lemma join_cons sep a b r : join sep (a :: b :: r) = (a ++ sep ++ join sep (b :: r))%string.
Proof. reflexivity. Qed.

Lemma split_nonempty c s cur : split_on c s cur <> [].
Proof. revert cur. induction s as [|d s IH]; intros cur; cbn [split_on]; [discriminate|]. now destruct (Ascii.eqb d c). Qed.

Lemma join_split c s : forall cur, join (sep_of c) (split_on c s cur) = (cur ++ s)%string.
Proof.
  induction s as [|d s IH]; intros cur; cbn [split_on]; [now rewrite append_nil_r|].
  destruct (Ascii.eqb_spec d c) as [->|_].
  - destruct (split_on c s EmptyString) as [|b r] eqn:E; [now apply split_nonempty in E|].
    rewrite join_cons, <- E, IH. reflexivity.
  - now rewrite IH, append_assoc.
Qed.

Lemma split_join c parts : forallb (free_of c) parts = true -> parts <> [] ->
  split_on c (join (sep_of c) parts) EmptyString = parts.
Proof.
  induction parts as [|a r IH]; intros F N; [congruence|]. cbn [forallb] in F. apply andb_true_iff in F. destruct F as [Fa F].
  destruct r as [|b r]; [now apply split_free|]. rewrite join_cons, split_cons by exact Fa.
  rewrite IH; [reflexivity | exact F | discriminate].
Qed.

Lemma split_parts_free c s : forall cur, free_of c cur = true -> forallb (free_of c) (split_on c s cur) = true.
Proof.
  induction s as [|d s IH]; intros cur F; cbn [split_on]; [cbn; now rewrite F|].
  destruct (Ascii.eqb_spec d c) as [->|N]; [cbn; rewrite F; now apply IH|].
  apply IH. rewrite free_app, F. unfold free_of. cbn. destruct (Ascii.eqb_spec c d); [congruence | reflexivity].
Qed.

(** ** Option names *)

Definition option_name_text (symbol date strike kind : string) : string :=
  join (sep_of "-"%char) [symbol; date; strike; kind].

Definition valid_name (p : option_name) : Prop :=
  is_symbol p.(symbol) = true /\ is_date p.(date) = true /\ is_strike p.(strike_text) = true /\
  (p.(kind) = "C"%string /\ p.(name_option_type) = "call"%string \/ p.(kind) = "P"%string /\ p.(name_option_type) = "put"%string) /\
  nonempty_all is_upper p.(name_base_currency) = true /\
  (p.(symbol) = p.(name_base_currency) /\ p.(name_quote_currency) = EmptyString \/
   p.(symbol) = (p.(name_base_currency) ++ underscore ++ p.(name_quote_currency))%string /\
   is_symbol p.(name_quote_currency) = true).

Lemma nonempty_all_free c p s : p c = false -> nonempty_all p s = true -> free_of c s = true.
Proof. intros N H. apply andb_true_iff in H. now apply (free_all_chars c p). Qed.

Lemma free_join d c parts : d <> c -> forallb (free_of d) parts = true -> free_of d (join (sep_of c) parts) = true.
Proof.
  intros N. induction parts as [|a r IH]; intros F; [reflexivity|]. cbn [forallb] in F. apply andb_true_iff in F.
  destruct F as [Fa F]. destruct r as [|b r]; [exact Fa|]. rewrite join_cons, !free_app, Fa, (IH F), andb_true_r.
  unfold free_of, sep_of. cbn. destruct (Ascii.eqb_spec d c); [congruence | reflexivity].
Qed.

Lemma forallb_impl {A} (f g : A -> bool) l : (forall x, f x = true -> g x = true) -> forallb f l = true -> forallb g l = true.
Proof. intros H F. apply forallb_forall. intros x X. apply H. rewrite forallb_forall in F. now apply F. Qed.

Lemma symbol_free s : is_symbol s = true -> free_of "-"%char s = true.
Proof.
  intros H. rewrite <- (join_split "_"%char s EmptyString : join _ _ = s). apply free_join; [discriminate|].
  revert H. apply forallb_impl. intros x. now apply nonempty_all_free.
Qed.

Lemma date_free s : is_date s = true -> free_of "-"%char s = true.
Proof.
  destruct s as [|a [|b [|c [|d [|e [|f [|g [|h r]]]]]]]]; try discriminate. cbn [is_date]. intros H.
  repeat (apply andb_true_iff in H; destruct H as [H ?]). unfold free_of. cbn [has_char].
  repeat match goal with |- context [Ascii.eqb ?x ?y] => destruct (Ascii.eqb_spec x y) as [<-|_]; [discriminate|] end.
  reflexivity.
Qed.

Lemma strike_free s : is_strike s = true -> free_of "-"%char s = true.
Proof.
  intros H. rewrite <- (join_split "."%char s EmptyString : join _ _ = s). apply free_join; [discriminate|].
  unfold is_strike in H. destruct (split_on _ s EmptyString) as [|a [|b [|? ?]]]; try discriminate; cbn [forallb];
    rewrite ?andb_true_iff in *; intuition; now apply (nonempty_all_free _ is_digit).
Qed.

Lemma symbol_parts s : is_symbol s = true ->
  exists base rest, split_on "_"%char s EmptyString = base :: rest /\ nonempty_all is_upper base = true /\
    (rest = [] /\ s = base \/ s = (base ++ underscore ++ join underscore rest)%string /\ is_symbol (join underscore rest) = true).
Proof.
  intros H. unfold is_symbol in H. pose proof (join_split "_"%char s EmptyString) as J. cbn in J.
  destruct (split_on "_"%char s EmptyString) as [|base rest] eqn:E; [now apply split_nonempty in E|].
  exists base, rest. cbn [forallb] in H. apply andb_true_iff in H. destruct H as [Hb Hr].
  split; [reflexivity|]. split; [exact Hb|]. destruct rest as [|b r]; [left; split; [reflexivity|]; symmetry; exact J|].
  right. split; [symmetry; exact J|]. unfold is_symbol. change underscore with (sep_of "_"%char). rewrite (split_join "_"%char (b :: r)); [exact Hr | | discriminate].
  revert Hr. apply forallb_impl. intros x. now apply nonempty_all_free.
Qed.

Lemma kind_of_spec c k : kind_of c = Some k <-> (k = "C"%string \/ k = "P"%string) /\ (c = k \/ c = (k ++ newline)%string).
Proof.
  unfold kind_of. split.
  - destruct (String.eqb_spec c "C"), (String.eqb_spec c ("C" ++ newline)), (String.eqb_spec c "P"),
      (String.eqb_spec c ("P" ++ newline)); cbn [orb]; intros H; try discriminate; injection H as <-; intuition.
  - intros [[->| ->] [->| ->]]; reflexivity.
Qed.

(** Parsing option names inverts printing them. Every name built from a valid
    symbol, date, strike and kind parses to those parts; every name that parses is
    such a name (with at most a final newline), its symbol is the base currency, or
    base and quote currency joined by an underscore, and its option type is that of
    its kind. *)
Theorem parse_option_name_round_trip n :
  (forall s d k c, n = option_name_text s d k c ->
     is_symbol s = true -> is_date d = true -> is_strike k = true -> c = "C"%string \/ c = "P"%string ->
     exists p, parse_option_name n = Some p /\ valid_name p /\
       p.(symbol) = s /\ p.(date) = d /\ p.(strike_text) = k /\ p.(kind) = c) /\
  (forall p, parse_option_name n = Some p -> valid_name p /\
     (n = option_name_text p.(symbol) p.(date) p.(strike_text) p.(kind) \/
      n = (option_name_text p.(symbol) p.(date) p.(strike_text) p.(kind) ++ newline)%string)).
Proof.
  split.
  - intros s d k c -> Hs Hd Hk Hc. unfold parse_option_name, option_name_text.
    assert (Fc : free_of "-"%char c = true) by (destruct Hc as [->| ->]; reflexivity).
    rewrite split_join; [|cbn [forallb]; now rewrite symbol_free, date_free, strike_free, Fc | discriminate].
    assert (K : kind_of c = Some c) by (apply kind_of_spec; tauto). rewrite K, Hs, Hd, Hk. cbn [andb].
    eexists. split; [reflexivity|]. split; [|repeat split]. destruct (symbol_parts s Hs) as (b & r & E & Hb & C).
    unfold valid_name. cbn [symbol date strike_text kind name_option_type name_base_currency name_quote_currency]. rewrite E. cbn [hd tl].
    repeat split; try assumption.
    + destruct Hc as [->| ->]; [left | right]; split; reflexivity.
    + destruct C as [[-> C]|C]; [left; split; [exact C | reflexivity] | right; exact C].
  - intros p H. unfold parse_option_name in H. pose proof (join_split "-"%char n EmptyString) as J. cbn [append] in J.
    destruct (split_on "-"%char n EmptyString) as [|s [|d [|k [|c [|? ?]]]]]; try discriminate.
    destruct (kind_of c) as [k'|] eqn:K; [|discriminate]. apply kind_of_spec in K.
    destruct (is_symbol s) eqn:Hs; [|discriminate]. destruct (is_date d) eqn:Hd; [|discriminate].
    destruct (is_strike k) eqn:Hk; [|discriminate]. cbn [andb] in H. injection H as <-.
    destruct (symbol_parts s Hs) as (b & r & E & Hb & C). unfold valid_name. cbn [symbol date strike_text kind name_option_type name_base_currency name_quote_currency].
    rewrite E. cbn [hd tl]. split.
    + repeat split; try assumption.
      * destruct K as [[->| ->] _]; [left | right]; split; reflexivity.
      * destruct C as [[-> C]|C]; [left; split; [exact C | reflexivity] | right; exact C].
    + rewrite <- J. unfold option_name_text. rewrite !join_cons. destruct K as [_ [->| ->]]; [now left | right].
      cbn [join]. now rewrite !append_assoc.
Qed.

(** ** Tick schedule *)

Definition below (x y : Q * Q) : Prop := fst x <= fst y.

Lemma sort_steps_perm l : Permutation l (sort_steps l).
Proof. apply sort_up_perm. Qed.

Lemma sort_steps_sorted l : StronglySorted below (sort_steps l).
Proof. exact (sort_up_sorted fst l). Qed.

(** The step [(above, tick)] applies at [price]. *)
Definition step_applies (price : Q) (x : Q * Q) : Prop := fst x <= price /\ 0 < snd x.

Lemma step_applies_bool price a s : (price >=? a) && (s >? 0) = true <-> step_applies price (a, s).
Proof. unfold step_applies. cbn. rewrite andb_true_iff, dleb_true, dltb_true. reflexivity. Qed.

Lemma tick_loop_spec price l : StronglySorted below l -> forall tick,
  (exists x, In x l /\ step_applies price x /\ tick_loop price tick l = snd x /\
     forall y, In y l -> step_applies price y -> fst y <= fst x) \/
  ((forall y, In y l -> ~ step_applies price y) /\ tick_loop price tick l = tick).
Proof.
  induction 1 as [|[a s] r S IH F]; intros tick; [right; split; [intros y [] | reflexivity]|]. cbn [tick_loop].
  destruct (IH (if (price >=? a) && (s >? 0) then s else tick)) as [(x & X & Ax & E & M)|(N & E)].
  - left. exists x. split; [now right|]. split; [exact Ax|]. split; [exact E|]. intros y [<-|Y] Ay; [|now apply M].
    rewrite Forall_forall in F. exact (F x X).
  - destruct ((price >=? a) && (s >? 0)) eqn:B.
    + left. exists (a, s). apply step_applies_bool in B. split; [now left|]. split; [exact B|]. split; [exact E|].
      intros y [<-|Y] Ay; [lra | destruct (N y Y Ay)].
    + right. split; [|exact E]. intros y [<-|Y]; [|now apply N]. rewrite <- step_applies_bool. congruence.
Qed.

(** The tick of an instrument at a price is the one of the highest threshold of
    its schedule that the price reaches with a positive step, and the base tick when
    there is none, whatever order the exchange lists the schedule in. *)
Theorem tick_size_for_price_spec get i price : instrument_from_api get = Ret i ->
  exists steps, steps_of (get "tick_size_steps"%string) = Ret steps /\
    ((exists x, In x steps /\ fst x <= price /\ 0 < snd x /\ tick_size_for_price i price = snd x /\
        forall y, In y steps -> fst y <= price -> 0 < snd y -> fst y <= fst x) \/
     ((forall y, In y steps -> price < fst y \/ snd y <= 0) /\ tick_size_for_price i price = i.(tick_size))).
Proof.
  unfold instrument_from_api. cbn zeta. intros H. apply obind_inv in H. destruct H as (steps & S & H).
  apply obind_inv in H. destruct H as (e & _ & H). exists steps. split; [exact S|].
  assert (Es : i.(tick_size_steps) = sort_steps steps) by (injection H as <-; reflexivity). clear H.
  unfold tick_size_for_price. rewrite Es.
  assert (P : forall x, In x (sort_steps steps) <-> In x steps)
    by (intros x; split; apply Permutation_in; [apply Permutation_sym|]; apply sort_steps_perm).
  destruct (tick_loop_spec price _ (sort_steps_sorted steps) i.(tick_size)) as [(x & X & [A1 A2] & E & M)|(N & E)].
  - left. exists x. rewrite P in X. repeat split; try assumption. intros y Y Y1 Y2. apply M; [now rewrite P | now split].
  - right. split; [|exact E]. intros y Y. rewrite <- P in Y. specialize (N y Y). unfold step_applies in N.
    destruct (Qlt_le_dec price (fst y)); [now left|]. right. apply Qnot_lt_le. tauto.
Qed.

Lemma tick_size_for_price_spec_witness :
  let payload := [("instrument_name", PStr "BTC-29MAY26-70000-C"); ("tick_size", PFloat "0.0001");
    ("tick_size_steps", PList [PDict [("above_price", PFloat "0.005"); ("tick_size", PFloat "0.0005")]])]%string in
  exists i, instrument_from_api (fun key => dget key payload) = Ret i /\ tick_size_for_price i 0.01 = 1 # 2000 /\
    i.(settlement_currency) = "BTC"%string.
Proof.
  cbn zeta. eexists. split; [vm_compute; reflexivity|].
  match goal with |- tick_size_for_price ?i ?p = _ /\ _ =>
    destruct (tick_size_for_price_spec (fun key => dget key
      [("instrument_name", PStr "BTC-29MAY26-70000-C"); ("tick_size", PFloat "0.0001");
       ("tick_size_steps", PList [PDict [("above_price", PFloat "0.005"); ("tick_size", PFloat "0.0005")]])]%string) i p)
      as (steps & S & [(x & X & _ & _ & E & _)|(N & _)]) end.
  - vm_compute. reflexivity.
  - rewrite E. vm_compute in S. injection S as <-. destruct X as [<-|[]]. split; vm_compute; reflexivity.
  - exfalso. vm_compute in S. injection S as <-. specialize (N _ (or_introl eq_refl)). destruct N as [N|N]; vm_compute in N; [discriminate | now apply N].
Defined.

(** ** Prices to close at *)

Lemma band_upper m r : representable m -> 0 <= m -> 0 <= r -> m <= m ⊗ (1 ⊕ r).
Proof.
  intros R M P. apply rnd_ge_bound; [exact R|]. assert (1 <= 1 ⊕ r) by (apply rnd_ge_bound; [apply representable_1 | lra]). nra.
Qed.

Lemma band_lower m r : representable m -> 0 <= m -> 0 <= r -> m ⊗ (1 ⊖ r) <= m.
Proof.
  intros R M P. apply dmul_le_l; [exact R | exact M|]. apply rnd_le_bound; [apply representable_1 | lra].
Qed.

Lemma sane_inv b r : quote_sane_for_close b r = true ->
  0 < b.(best_bid_price) /\ 0 < b.(best_ask_price) /\ b.(best_bid_price) <= b.(best_ask_price) /\ spread_ratio b <= r /\
  (0 < b.(mark_price) -> b.(best_ask_price) <= b.(mark_price) ⊗ (1 ⊕ r) /\ b.(mark_price) ⊗ (1 ⊖ r) <= b.(best_bid_price)).
Proof.
  unfold quote_sane_for_close. cbn zeta. dcase; intros H; try discriminate; repeat split; try lra; intros;
    repeat (apply andb_true_iff in H; destruct H); dhyps; try lra.
Qed.

Lemma sane_mono b r r' : r <= r' -> quote_sane_for_close b r = true -> quote_sane_for_close b r' = true.
Proof.
  intros L H. apply sane_inv in H. destruct H as (B & A & BA & S & M). unfold quote_sane_for_close. cbn zeta.
  dcase; try lra; try reflexivity; exfalso.
  - assert (0 < b.(mark_price)) by lra. destruct (M H) as [M1 M2].
    assert (b.(mark_price) ⊗ (1 ⊖ r') <= b.(mark_price) ⊗ (1 ⊖ r)).
    { apply rnd_mono. assert (1 ⊖ r' <= 1 ⊖ r) by (apply dsub_mono; lra). nra. }
    lra.
  - assert (0 < b.(mark_price)) by lra. destruct (M H) as [M1 M2].
    assert (b.(mark_price) ⊗ (1 ⊕ r) <= b.(mark_price) ⊗ (1 ⊕ r')).
    { apply rnd_mono. assert (1 ⊕ r <= 1 ⊕ r') by (apply dadd_mono; lra). nra. }
    lra.
Qed.

(** The price a management exit assumes is never better than fair. With a
    positive mark, buying back costs at least the mark and selling pays at most it,
    both within the band of the allowed spread around it, and quotes outside that
    band are ignored for the mark; a wider allowed spread accepts every quote a
    narrower one does. The two prices are never negative, and buying is never
    cheaper than selling unless there is no mark and the book is crossed. *)
Theorem close_premium_bounds b r : 0 <= r -> representable b.(mark_price) ->
  (0 < b.(mark_price) ->
     b.(mark_price) <= buy_close_premium b r /\ buy_close_premium b r <= b.(mark_price) ⊗ (1 ⊕ r) /\
     sell_close_premium b r <= b.(mark_price) /\ b.(mark_price) ⊗ (1 ⊖ r) <= sell_close_premium b r /\
     (quote_sane_for_close b r = false -> buy_close_premium b r = b.(mark_price) /\ sell_close_premium b r = b.(mark_price))) /\
  (forall r', r <= r' -> quote_sane_for_close b r = true -> quote_sane_for_close b r' = true) /\
  0 <= buy_close_premium b r /\ 0 <= sell_close_premium b r /\
  (0 < b.(mark_price) \/ b.(best_bid_price) <= b.(best_ask_price) -> sell_close_premium b r <= buy_close_premium b r).
Proof.
  intros P R. split; [|split; [|split; [|split]]].
  - intros M. pose proof (band_upper _ r R (Qlt_le_weak _ _ M) P). pose proof (band_lower _ r R (Qlt_le_weak _ _ M) P).
    unfold buy_close_premium, sell_close_premium, usable_mark. cbn zeta.
    destruct (dltb_spec 0 b.(mark_price)) as [_|N]; [|lra]. destruct (quote_sane_for_close b r) eqn:S.
    + apply sane_inv in S. destruct S as (B & A & BA & _ & S). destruct (S M). unfold dmax, dmin.
      dcase; repeat split; try lra; discriminate.
    + dcase; repeat split; lra.
  - intros r' L. now apply sane_mono.
  - unfold buy_close_premium, usable_mark. cbn zeta. unfold dmax.
    destruct (dltb_spec 0 b.(mark_price)), (quote_sane_for_close b r); dcase; lra.
  - unfold sell_close_premium, usable_mark. cbn zeta. unfold dmax, dmin.
    destruct (dltb_spec 0 b.(mark_price)), (quote_sane_for_close b r); dcase; lra.
  - intros C. unfold buy_close_premium, sell_close_premium, usable_mark. cbn zeta.
    destruct (dltb_spec 0 b.(mark_price)), (quote_sane_for_close b r) eqn:S.
    1, 3: apply sane_inv in S; destruct S as (B & A & BA & _); unfold dmax, dmin; dcase; lra.
    all: unfold dmax; dcase; try lra; destruct C; lra.
Qed.

Definition sample_book : OrderBookSnapshot :=
  {| book_instrument_name := "BTC-29MAY26-70000-C"; best_bid_price := 0.04; best_bid_amount := 10;
     best_ask_price := 0.044; best_ask_amount := 5; mark_price := 0.042; index_price := 70000; delta := 0.35;
     iv := 55; open_interest := 100 |}.

Lemma close_premium_bounds_witness :
  buy_close_premium sample_book 0.15 = 0.044 /\ 0.042 <= buy_close_premium sample_book 0.15 /\
  sell_close_premium sample_book 0.15 <= buy_close_premium sample_book 0.15.
Proof.
  destruct (close_premium_bounds sample_book 0.15) as (A & _ & _ & _ & B).
  - vm_compute. discriminate.
  - apply representable_dec. vm_compute. reflexivity.
  - destruct A as [A _]; [vm_compute; reflexivity|]. split; [vm_compute; reflexivity|]. split; [exact A|].
    apply B. left. vm_compute. reflexivity.
Defined.

(** The signed size of a position does not depend on whether the exchange
    already signs it: a raw negative amount is kept whatever the direction says, and
    an unsigned amount takes its sign from the direction, so the size is zero only
    when both amounts are, and otherwise has the amount's magnitude. *)
Theorem signed_size_currency_spec p : representable p.(size) -> representable p.(size_currency) ->
  let amount := if deqb p.(size_currency) 0 then p.(size) else p.(size_currency) in
  Qabs (signed_size_currency p) == Qabs amount /\
  (amount < 0 -> signed_size_currency p = amount) /\
  (p.(direction) = "sell"%string -> signed_size_currency p <= 0) /\
  (p.(direction) = "buy"%string -> 0 <= amount -> signed_size_currency p == amount) /\
  (signed_size_currency p == 0 <-> p.(size) == 0 /\ p.(size_currency) == 0).
Proof.
  intros R1 R2. cbn zeta. unfold signed_size_currency. cbn zeta. set (a := if deqb p.(size_currency) 0 then p.(size) else p.(size_currency)).
  assert (R : representable a) by (unfold a; destruct (deqb _ _); assumption).
  assert (Z : a == 0 <-> p.(size) == 0 /\ p.(size_currency) == 0) by (unfold a; destruct (deqb_spec p.(size_currency) 0); tauto).
  rewrite <- Z. clearbody a. clear Z R1 R2.
  destruct (deqb_spec a 0) as [E|N]; [repeat split; intros; try reflexivity; try lra; rewrite E; reflexivity|].
  destruct (dltb_spec a 0) as [L|L]; [repeat split; intros; try reflexivity; try lra; tauto|].
  assert (A : Qabs a == a) by (apply Qabs_pos; lra).
  assert (D : dabs a == a) by (unfold dabs; rewrite (rnd_Proper _ _ A); apply rnd_exact, R).
  assert (Dn : rnd (- dabs a) == - a) by (rewrite (rnd_opp (dabs a)), (rnd_Proper _ _ D), (rnd_exact a R); reflexivity).
  destruct (String.eqb_spec p.(direction) "sell") as [S|S]; [|destruct (String.eqb_spec p.(direction) "buy") as [B|B]].
  - split; [rewrite Dn; apply Qabs_opp|]. repeat split; intros; try lra; congruence.
  - split; [now rewrite D|]. repeat split; intros; try lra; congruence.
  - repeat split; intros; try reflexivity; try lra; congruence.
Qed.

Lemma signed_size_currency_spec_witness :
  let p := position_from_api (fun key => dget key [("size", PFloat "-12.5"); ("direction", PStr "SELL")]%string) in
  signed_size_currency p == -12.5 /\ signed_size_currency p <= 0.
Proof.
  cbn zeta. split; [vm_compute; reflexivity|].
  apply (signed_size_currency_spec (position_from_api (fun key => dget key [("size", PFloat "-12.5"); ("direction", PStr "SELL")]%string))).
  - apply representable_dec. vm_compute. reflexivity.
  - apply representable_dec. vm_compute. reflexivity.
  - vm_compute. reflexivity.
Defined.
