(* ===== verification/ExitEval.v ===== *)
(** Exit evaluation ([deribit_engine/exit_eval.py], [deribit_engine/exit_reasons.py]):
    take-profit, time and early exits, defense triggers, and the gates the backtest
    uses for the same decisions. [now_us] is the clock at the evaluation. *)

From S2P Require Import Prelude Dec PyStr Utils Fees TradeApr Market Group Ledger.
Local Open Scope Q_scope.
Local Open Scope dec_scope.
Local Open Scope bool_scope.
Local Open Scope list_scope.

(** ** Close reasons *)

Definition INCOME_EXIT_REASONS : list string :=
  ["take_profit"; "time_exit"; "early_exit_low_apr"; "manual_close"]%string.
Definition DEFENSE_EXIT_REASONS : list string :=
  ["hard_stop"; "soft_stop"; "soft_stop_no_hedge"; "panic_close"; "csp_self_assign"; "csp_active_roll";
   "time_flatten"]%string.

Record ExitEvalContext : Type := {
  enable_early_exit : bool;
  early_exit_remaining_apr : Q;
  early_exit_min_profit_capture : Q;
  early_exit_max_spread_ratio : Q;
  tp_capture_pct : Q;
  time_exit_dte : Z;
  time_exit_min_profit_capture : Q;
  soft_defense_delta : Q;
  hard_defense_delta : Q;
  soft_defense_loss_pct : Q;
  hard_stop_loss_pct : Q;
  enable_dynamic_tp : bool;
  tp_capture_pct_dte_long : Q;
  tp_capture_pct_dte_short : Q;
  tp_dte_long_threshold : Q;
  tp_dte_short_threshold : Q;
  income_exit_max_spread_ratio : Q;
  defense_trigger_use_mark : bool;
}.

Definition group_dte_days (g : TradeGroup) (now_us : Z) : Q := dte_days (Some g.(expiration_timestamp_ms)) now_us.

Definition dynamic_tp_capture_pct (dte : Q) (ctx : ExitEvalContext) : Q :=
  if negb ctx.(enable_dynamic_tp) then ctx.(tp_capture_pct)
  else if dte >=? ctx.(tp_dte_long_threshold) then ctx.(tp_capture_pct_dte_long)
  else if dte <=? ctx.(tp_dte_short_threshold) then ctx.(tp_capture_pct_dte_short)
  else ctx.(tp_capture_pct).

Definition income_exit_close_premium (short_book : OrderBookSnapshot) (ctx : ExitEvalContext) : option Q :=
  if (short_book.(best_ask_price) <=? 0) || (short_book.(best_bid_price) <=? 0) then None
  else
    let ratio := ctx.(income_exit_max_spread_ratio) in
    if negb (quote_sane_for_close short_book ratio) then None
    else
      let premium := buy_close_premium short_book ratio in
      if premium >? 0 then Some premium else None.

Definition profit_capture_from_close_debit (entry_credit close_debit : Q) : Q :=
  safe_div (dmax (entry_credit ⊖ close_debit) 0) entry_credit 0.

(** [x if override is None else override] *)
Definition override {A} (o : option A) (x : A) : A := match o with Some y => y | None => x end.
Definition override_opt {A} (o x : option A) : option A := match o with Some _ => o | None => x end.

Definition take_profit_triggered (g : TradeGroup) (now_us : Z) (close_debit_usdc : option Q) (ctx : ExitEvalContext)
    (entry_credit' close_debit' : option Q) : bool :=
  let entry := override entry_credit' g.(entry_credit) in
  match override_opt close_debit' close_debit_usdc with
  | None => false
  | Some debit =>
      if entry <=? 0 then false
      else profit_capture_from_close_debit entry debit >=? dynamic_tp_capture_pct (group_dte_days g now_us) ctx
  end.

Definition time_exit_triggered (g : TradeGroup) (now_us : Z) (close_debit_usdc : option Q) (ctx : ExitEvalContext)
    (entry_credit' close_debit' : option Q) : bool :=
  if group_dte_days g now_us >? inject_Z ctx.(time_exit_dte) then false
  else if ctx.(time_exit_min_profit_capture) <=? 0 then true
  else
    let entry := override entry_credit' g.(entry_credit) in
    if entry <=? 0 then false
    else
      match override_opt close_debit' close_debit_usdc with
      | None => false
      | Some debit => profit_capture_from_close_debit entry debit >=? ctx.(time_exit_min_profit_capture)
      end.

Definition entry_credit_native (g : TradeGroup) : option Q :=
  if (g.(short_entry_average_price) <=? 0) || (g.(quantity) <=? 0) then None
  else
    let fee := dmax g.(entry_fee_collateral) 0 in
    Some (dmax ((g.(short_entry_average_price) ⊗ g.(quantity)) ⊖ fee) 0).

Definition close_debit_native (premium quantity fee_collateral : Q) : Q :=
  (dmax premium 0 ⊗ quantity) ⊕ dmax fee_collateral 0.

Definition early_exit_position (g : TradeGroup) : position :=
  {| TradeApr.strategy := g.(strategy); TradeApr.collateral_currency := g.(collateral_currency);
     TradeApr.option_type := g.(option_type); TradeApr.quantity := g.(quantity); TradeApr.contract_size := 1;
     TradeApr.strike := g.(short_strike); TradeApr.index_price_usd := underlying_index_usd_for_apr g;
     TradeApr.estimated_im_collateral := g.(estimated_im_collateral);
     TradeApr.covered_underlying_quantity := g.(covered_underlying_quantity) |}.

Definition evaluate_early_exit_reason (g : TradeGroup) (short_book : OrderBookSnapshot) (now_us : Z)
    (ctx : ExitEvalContext) : option string :=
  if negb ctx.(enable_early_exit) then None
  else if group_dte_days g now_us <=? 0 then None
  else
    let capital_base := position_apr_capital_base (early_exit_position g) in
    if capital_base <=? 0 then None
    else if (short_book.(best_ask_price) <=? 0) || (short_book.(best_bid_price) <=? 0) then None
    else if spread_ratio short_book >? ctx.(early_exit_max_spread_ratio) then None
    else if g.(profit_capture) <? ctx.(early_exit_min_profit_capture) then None
    else
      let remaining_credit := dmax (g.(current_debit) ⊖ g.(current_close_fee)) 0 in
      if remaining_credit <=? 0 then Some "early_exit_low_apr"%string
      else
        let remaining_apr := remaining_apr_for_group remaining_credit capital_base (group_dte_days g now_us) in
        if remaining_apr <? ctx.(early_exit_remaining_apr) then Some "early_exit_low_apr"%string else None.

Definition defense_loss_pct (g : TradeGroup) (ctx : ExitEvalContext) : Q :=
  if ctx.(defense_trigger_use_mark) then mark_loss_pct_of_max_loss g else loss_pct_of_max_loss g.

Definition is_none_opt {A} (o : option A) : bool := match o with None => true | Some _ => false end.

(** Returns [(soft, hard)]. *)
Definition evaluate_defense_triggers (g : TradeGroup) (soft_delta hard_delta : Q) (ctx : ExitEvalContext) : bool * bool :=
  let loss_pct := defense_loss_pct g ctx in
  let hard := (g.(short_delta) >=? hard_delta) || (loss_pct >=? ctx.(hard_stop_loss_pct)) in
  let soft := (g.(short_delta) >=? soft_delta) || (loss_pct >=? ctx.(soft_defense_loss_pct)) in
  (soft, hard).

Definition evaluate_income_exit_reason (g : TradeGroup) (short_book : option OrderBookSnapshot) (now_us : Z)
    (ctx : ExitEvalContext) (income_exit_close_debit_usdc : option Q) : option string :=
  if take_profit_triggered g now_us income_exit_close_debit_usdc ctx None None then Some "take_profit"%string
  else if is_none_opt income_exit_close_debit_usdc && is_none_opt short_book
          && (g.(profit_capture) >=? dynamic_tp_capture_pct (group_dte_days g now_us) ctx) then Some "take_profit"%string
  else
    match match short_book with Some book => evaluate_early_exit_reason g book now_us ctx | None => None end with
    | Some early => Some early
    | None =>
        if time_exit_triggered g now_us income_exit_close_debit_usdc ctx None None then Some "time_exit"%string else None
    end.

Definition evaluate_exit_reason_priority (g : TradeGroup) (short_book : option OrderBookSnapshot) (now_us : Z)
    (ctx : ExitEvalContext) (soft_delta hard_delta : option Q) (skip_defense : bool) : option string :=
  let sd := override soft_delta ctx.(soft_defense_delta) in
  let hd := override hard_delta ctx.(hard_defense_delta) in
  let '(soft, hard) := evaluate_defense_triggers g sd hd ctx in
  if negb skip_defense && hard then Some "hard_stop"%string
  else
    match evaluate_income_exit_reason g short_book now_us ctx None with
    | Some income => Some income
    | None => if negb skip_defense && soft then Some "soft_stop"%string else None
    end.

(** ** Backtest gates *)

Definition backtest_tp_target_premium (entry_premium dte : Q) (ctx : ExitEvalContext) : Q :=
  entry_premium ⊗ (1 ⊖ dynamic_tp_capture_pct dte ctx).

Definition backtest_time_exit_gate (entry_credit close_debit profit_capture_mark dte : Q) (ctx : ExitEvalContext) : bool :=
  if dte >? inject_Z ctx.(time_exit_dte) then false
  else if ctx.(time_exit_min_profit_capture) <=? 0 then true
  else if entry_credit <=? 0 then false
  else if (close_debit >? 0)
          && (profit_capture_from_close_debit entry_credit close_debit >=? ctx.(time_exit_min_profit_capture)) then true
  else profit_capture_mark >=? ctx.(time_exit_min_profit_capture).

Definition backtest_remaining_apr_gate (entry_premium current_premium close_fee_per_contract quantity capital_base dte : Q)
    (ctx : ExitEvalContext) : bool :=
  if negb ctx.(enable_early_exit) || (capital_base <=? 0) || (dte <=? 0) then false
  else
    let entry_credit := entry_premium ⊗ quantity in
    let remaining_credit := dmax ((current_premium ⊗ quantity) ⊕ (close_fee_per_contract ⊗ quantity)) 0 in
    if entry_credit <=? 0 then false
    else
      let profit_capture := (entry_credit ⊖ remaining_credit) ⊘ entry_credit in
      if profit_capture <? ctx.(early_exit_min_profit_capture) then false
      else annualized_return remaining_credit capital_base dte <? ctx.(early_exit_remaining_apr).

(** ** Profit capture *)

Lemma capture_mono entry d d' : 0 < entry -> d <= d' ->
  profit_capture_from_close_debit entry d' <= profit_capture_from_close_debit entry d.
Proof.
  intros P H. unfold profit_capture_from_close_debit, safe_div. destruct (deqb_spec entry 0); [lra|].
  apply ddiv_mono_l; [exact P|]. apply dmax_mono; [apply dsub_mono; lra | lra].
Qed.

Lemma capture_bounds entry d : representable entry -> 0 < entry -> 0 <= d ->
  0 <= profit_capture_from_close_debit entry d <= 1.
Proof.
  intros R P D. unfold profit_capture_from_close_debit, safe_div. destruct (deqb_spec entry 0); [lra|].
  assert (M : 0 <= dmax (entry ⊖ d) 0) by apply dmax_r.
  split; [apply ddiv_nonneg; lra|]. apply ddiv_le_1; [exact M | | exact P].
  apply dmax_lub; [|lra]. apply rnd_le_bound; [exact R | lra].
Qed.

Definition tiny : Q := 1 # 100000000000000000000.

(** The quotient rounds to at least a threshold of [k] decimals exactly when it is
    at least that threshold. *)
Lemma ratio_threshold m e t : (0 < e <= 10 ^ 15)%Z -> (0 <= m)%Z -> (0 <= t <= 10 ^ 4)%Z ->
  (gval (-4) t <= rnd (inject_Z m / inject_Z e) <-> (t * e <= m * 10 ^ 4)%Z).
Proof.
  intros He Hm Ht. assert (Pe : 0 < inject_Z e) by (apply inject_Z_pos; lia).
  assert (T : gval (-4) t == inject_Z t * (1 # 10000)) by reflexivity.
  assert (Cmp : (t * e <= m * 10 ^ 4)%Z <-> inject_Z t * inject_Z e <= inject_Z m * 10000).
  { change 10000 with (inject_Z (10 ^ 4)). now rewrite <- !inject_Z_mult, <- Zle_Qle. }
  split; intros H.
  - destruct (Z_le_gt_dec (t * e) (m * 10 ^ 4)) as [L|G]; [exact L|]. exfalso.
    set (y := gval (-20) (t * 10 ^ 16 - 1)).
    assert (Ty : y == inject_Z t * (1 # 10000) - tiny).
    { unfold y, gval. change (p10 (-20)) with tiny. unfold Z.sub. rewrite inject_Z_plus, inject_Z_mult.
      change (inject_Z (10 ^ 16)) with (10000000000000000 # 1). change (inject_Z (- (1))) with (-1 # 1). unfold tiny. lra. }
    assert (R : rnd (inject_Z m / inject_Z e) <= y).
    { apply rnd_le_bound.
      - apply gval_representable. change (10 ^ prec)%Z with (10 ^ 28)%Z. lia.
      - apply Qle_shift_div_r; [exact Pe|]. rewrite Ty.
        assert (A : inject_Z m * 10000 + 1 <= inject_Z t * inject_Z e).
        { change 10000 with (inject_Z (10 ^ 4)). change 1 with (inject_Z 1).
          rewrite <- !inject_Z_mult, <- inject_Z_plus, <- Zle_Qle. lia. }
        assert (B : inject_Z e <= 1000000000000000) by (change 1000000000000000 with (inject_Z (10 ^ 15)); rewrite <- Zle_Qle; lia).
        setoid_replace ((inject_Z t * (1 # 10000) - tiny) * inject_Z e)
          with (inject_Z t * inject_Z e * (1 # 10000) - inject_Z e * tiny) by ring.
        unfold tiny. lra. }
    rewrite T in H. rewrite Ty in R. unfold tiny in R. lra.
  - apply rnd_ge_bound; [apply gval_representable; change (10 ^ prec)%Z with (10 ^ 28)%Z; lia|].
    rewrite T. apply Qle_shift_div_l; [exact Pe|]. apply Cmp in H. lra.
Qed.

(** The backtest takes profit where the live engine does: for ledger amounts on
    the eight-place grid and a threshold of four places, the live trigger fires on a
    close debit exactly when that debit is at most the backtest's target for the
    entry credit. *)
Theorem take_profit_agrees_with_backtest g now_us ctx debit e d t :
  g.(entry_credit) == gval (-8) e -> debit == gval (-8) d -> (0 < e <= 10 ^ 15)%Z -> (0 <= d <= 10 ^ 15)%Z ->
  dynamic_tp_capture_pct (group_dte_days g now_us) ctx == gval (-4) t -> (0 < t <= 10 ^ 4)%Z ->
  (take_profit_triggered g now_us (Some debit) ctx None None = true <->
   debit <= backtest_tp_target_premium g.(entry_credit) (group_dte_days g now_us) ctx).
Proof.
  intros Ee Ed He Hd Et Ht. unfold take_profit_triggered. cbn [override override_opt].
  set (thr := dynamic_tp_capture_pct _ ctx) in *. unfold backtest_tp_target_premium. fold thr.
  assert (Pe : 0 < g.(entry_credit)) by (rewrite Ee; apply val_pos; lia).
  destruct (dleb_spec g.(entry_credit) 0); [lra|]. rewrite dleb_true.
  assert (P28 : (10 ^ prec = 10 ^ 28)%Z) by reflexivity.
  assert (Esub : g.(entry_credit) ⊖ debit == gval (-8) (e - d)) by (apply dsub_gval; [exact Ee | exact Ed | lia]).
  assert (Ecap : profit_capture_from_close_debit g.(entry_credit) debit == rnd (inject_Z (Z.max (e - d) 0) / inject_Z e)).
  { unfold profit_capture_from_close_debit, safe_div. destruct (deqb_spec g.(entry_credit) 0); [lra|].
    unfold ddiv. apply rnd_Proper.
    rewrite (dmax_gval (-8) (e - d) 0 _ 0 Esub ltac:(unfold gval; change (inject_Z 0) with 0; ring)), Ee.
    unfold gval. pose proof (p10_nonzero (-8)). assert (0 < inject_Z e) by (apply inject_Z_pos; lia). field. split; [lra | exact H]. }
  assert (Etgt : g.(entry_credit) ⊗ (1 ⊖ thr) == gval (-12) (e * (10 ^ 4 - t))).
  { apply (dmul_gval (-8) (-4)); [exact Ee| | rewrite P28; nia].
    apply (dsub_gval (-4) (10 ^ 4)); [reflexivity | exact Et | lia]. }
  rewrite Etgt, Ecap, Et, ratio_threshold by lia. rewrite Ed, (gval_refine (-8) 4 d) by lia.
  change (-8 - 4)%Z with (-12)%Z. rewrite val_le. lia.
Qed.

Definition sample_ctx : ExitEvalContext := {|
  enable_early_exit := true; early_exit_remaining_apr := 0.06; early_exit_min_profit_capture := 0.5;
  early_exit_max_spread_ratio := 0.3; tp_capture_pct := 0.65; time_exit_dte := 4;
  time_exit_min_profit_capture := 0.3; soft_defense_delta := 0.35; hard_defense_delta := 0.5;
  soft_defense_loss_pct := 0.4; hard_stop_loss_pct := 0.8; enable_dynamic_tp := false;
  tp_capture_pct_dte_long := 0.5; tp_capture_pct_dte_short := 0.8; tp_dte_long_threshold := 21;
  tp_dte_short_threshold := 7; income_exit_max_spread_ratio := 0.25; defense_trigger_use_mark := true |}.

Definition sample_short_put : TradeGroup :=
  set_status "open" (new_group "0001" "BTC" "USDC" 1 1700000000000 1701209600000 "BTC_USDC-29NOV23-30000-P" 30000
    1000 1000 5000 "normal").

Lemma take_profit_agrees_with_backtest_witness :
  backtest_tp_target_premium sample_short_put.(entry_credit) (group_dte_days sample_short_put 1700000000000000) sample_ctx == 350 /\
  take_profit_triggered sample_short_put 1700000000000000 (Some 350) sample_ctx None None = true.
Proof.
  split; [vm_compute; reflexivity|].
  apply (take_profit_agrees_with_backtest sample_short_put 1700000000000000 sample_ctx 350 100000000000 35000000000 6500).
  - vm_compute. reflexivity.
  - vm_compute. reflexivity.
  - split; [reflexivity | discriminate].
  - split; discriminate.
  - vm_compute. reflexivity.
  - split; [reflexivity | discriminate].
  - vm_compute. discriminate.
Defined.

(** ** Monotonicity and agreement of the exits *)

Lemma dte_antitone g now later : (now <= later)%Z -> group_dte_days g later <= group_dte_days g now.
Proof.
  intros H. unfold group_dte_days, dte_days. apply ddiv_mono_l; [lra|]. unfold Qle. cbn [Qnum Qden]. lia.
Qed.

Lemma time_exit_capture g now ctx d eo do' : override_opt do' (Some d) = Some d ->
  time_exit_triggered g now (Some d) ctx eo do' = true ->
  0 < ctx.(time_exit_min_profit_capture) ->
  0 < override eo g.(entry_credit) /\
  ctx.(time_exit_min_profit_capture) <= profit_capture_from_close_debit (override eo g.(entry_credit)) d.
Proof.
  unfold time_exit_triggered. intros E. rewrite E. destruct (dltb _ _); [discriminate|].
  destruct (dleb_spec ctx.(time_exit_min_profit_capture) 0); [lra|]. cbn zeta.
  destruct (dleb_spec (override eo g.(entry_credit)) 0); [discriminate|]. rewrite dleb_true. intros H _. split; lra.
Qed.

(** Income exits are stable: once the live engine would take profit at a close
    debit, it would at every cheaper debit, and once it would leave on time it would
    at every cheaper debit and every later moment. The backtest's time gate fires
    whenever the live one does on the same positive debit, and never otherwise when
    its marked capture is no better than the capture of that debit. *)
Theorem income_exits_monotone g ctx now later d d' :
  (now <= later)%Z -> d <= d' ->
  (take_profit_triggered g now (Some d') ctx None None = true -> take_profit_triggered g now (Some d) ctx None None = true) /\
  (time_exit_triggered g now (Some d') ctx None None = true -> time_exit_triggered g later (Some d) ctx None None = true) /\
  (forall capture_mark, 0 < d ->
     (time_exit_triggered g now (Some d) ctx None None = true ->
      backtest_time_exit_gate g.(entry_credit) d capture_mark (group_dte_days g now) ctx = true) /\
     (capture_mark <= profit_capture_from_close_debit g.(entry_credit) d ->
      backtest_time_exit_gate g.(entry_credit) d capture_mark (group_dte_days g now) ctx = true ->
      time_exit_triggered g now (Some d) ctx None None = true)).
Proof.
  intros L D. pose proof (dte_antitone g now later L) as T.
  unfold take_profit_triggered, time_exit_triggered, backtest_time_exit_gate. cbn [override override_opt].
  split; [|split].
  - destruct (dleb_spec g.(entry_credit) 0); [discriminate|]. rewrite !dleb_true.
    pose proof (capture_mono g.(entry_credit) d d' ltac:(lra) D). lra.
  - destruct (dltb_spec (inject_Z ctx.(time_exit_dte)) (group_dte_days g now)) as [|A]; [discriminate|].
    destruct (dltb_spec (inject_Z ctx.(time_exit_dte)) (group_dte_days g later)) as [B|]; [lra|].
    destruct (dleb _ 0); [reflexivity|]. destruct (dleb_spec g.(entry_credit) 0); [discriminate|]. rewrite !dleb_true.
    pose proof (capture_mono g.(entry_credit) d d' ltac:(lra) D). lra.
  - intros m P. destruct (dltb _ _); [split; discriminate|]. destruct (dleb _ 0); [split; reflexivity|].
    destruct (dleb g.(entry_credit) 0); [split; discriminate|]. destruct (dltb_spec 0 d); [|lra]. cbn [andb].
    destruct (dleb_spec ctx.(time_exit_min_profit_capture) (profit_capture_from_close_debit g.(entry_credit) d)) as [A|A].
    + split; reflexivity.
    + split; [discriminate|]. intros M H. apply dleb_true in H. lra.
Qed.

Lemma income_exits_monotone_witness :
  time_exit_triggered sample_short_put 1701000000000000 (Some 600) sample_ctx None None = true /\
  time_exit_triggered sample_short_put 1701100000000000 (Some 500) sample_ctx None None = true.
Proof.
  split; [vm_compute; reflexivity|].
  destruct (income_exits_monotone sample_short_put sample_ctx 1701000000000000 1701100000000000 500 600) as (_ & T & _).
  - discriminate.
  - discriminate.
  - apply T. vm_compute. reflexivity.
Defined.

(** ** The priority of exits *)

(** What an early exit presupposes. *)
Lemma early_exit_inv g book now ctx r : evaluate_early_exit_reason g book now ctx = Some r ->
  r = "early_exit_low_apr"%string /\ ctx.(enable_early_exit) = true /\ 0 < group_dte_days g now /\
  0 < book.(best_bid_price) /\ 0 < book.(best_ask_price) /\ spread_ratio book <= ctx.(early_exit_max_spread_ratio) /\
  ctx.(early_exit_min_profit_capture) <= g.(profit_capture) /\
  (dmax (g.(current_debit) ⊖ g.(current_close_fee)) 0 <= 0 \/
   annualized_return (dmax (g.(current_debit) ⊖ g.(current_close_fee)) 0)
     (position_apr_capital_base (early_exit_position g)) (group_dte_days g now) < ctx.(early_exit_remaining_apr)).
Proof.
  unfold evaluate_early_exit_reason, remaining_apr_for_group. cbn zeta.
  destruct ctx.(enable_early_exit); cbn [negb]; [|discriminate]. set (rc := dmax _ 0).
  destruct (dleb_spec (group_dte_days g now) 0) as [|D]; [discriminate|].
  destruct (dleb _ 0); [discriminate|].
  destruct (dleb_spec book.(best_ask_price) 0) as [|A]; [discriminate|].
  destruct (dleb_spec book.(best_bid_price) 0) as [|B]; [discriminate|]. cbn [orb].
  destruct (dltb_spec ctx.(early_exit_max_spread_ratio) (spread_ratio book)) as [|S]; [discriminate|].
  destruct (dltb_spec g.(profit_capture) ctx.(early_exit_min_profit_capture)) as [|C]; [discriminate|].
  apply Qnot_le_lt in D, A, B. apply Qnot_lt_le in S, C. intros H.
  assert (R : r = "early_exit_low_apr"%string /\ (rc <= 0 \/
    annualized_return rc (position_apr_capital_base (early_exit_position g)) (group_dte_days g now) < ctx.(early_exit_remaining_apr))).
  { destruct (dleb_spec rc 0) as [Z|_]; [injection H as <-; auto|].
    destruct (dltb_spec (annualized_return rc (position_apr_capital_base (early_exit_position g)) (group_dte_days g now))
      ctx.(early_exit_remaining_apr)) as [Z|_]; [injection H as <-; auto | discriminate]. }
  destruct R as [-> R]. tauto.
Qed.

Lemma income_inv g book now ctx debit r : evaluate_income_exit_reason g book now ctx debit = Some r ->
  r = "take_profit"%string /\
    (take_profit_triggered g now debit ctx None None = true \/
     debit = None /\ book = None /\ dynamic_tp_capture_pct (group_dte_days g now) ctx <= g.(profit_capture)) \/
  r = "early_exit_low_apr"%string /\ (exists b, book = Some b /\ evaluate_early_exit_reason g b now ctx = Some r) \/
  r = "time_exit"%string /\ time_exit_triggered g now debit ctx None None = true.
Proof.
  unfold evaluate_income_exit_reason. destruct (take_profit_triggered g now debit ctx None None) eqn:T.
  - intros H. injection H as <-. left. auto.
  - destruct (is_none_opt debit && is_none_opt book && _) eqn:N.
    + intros H. injection H as <-. left. split; [reflexivity|]. right. dhyps.
      destruct debit, book; try discriminate. auto.
    + destruct (match book with Some b => _ | None => None end) as [e|] eqn:E.
      * intros H. injection H as <-. right. left. destruct book as [b|]; [|discriminate].
        pose proof (early_exit_inv _ _ _ _ _ E) as (-> & _). eauto.
      * destruct (time_exit_triggered _ _ _ _ _ _) eqn:X; [|discriminate]. intros H. injection H as <-. auto.
Qed.

(** The order of exits. A confirmed hard trigger always wins; an income reason is
    only given when its own condition holds, and a soft stop only when nothing else
    applies; with no reason, neither defense trigger nor income exit holds. Reasons
    belong to exactly one of the two groups the execution prices by. Hard implies
    soft when the thresholds are ordered. With an order book at hand the function
    never takes profit, however large the captured profit: it passes no close debit
    on. *)
Theorem exit_priority_sound g book now ctx sd hd skip :
  let soft := fst (evaluate_defense_triggers g (override sd ctx.(soft_defense_delta)) (override hd ctx.(hard_defense_delta)) ctx) in
  let hard := snd (evaluate_defense_triggers g (override sd ctx.(soft_defense_delta)) (override hd ctx.(hard_defense_delta)) ctx) in
  match evaluate_exit_reason_priority g book now ctx sd hd skip with
  | None => (skip = true \/ soft = false /\ hard = false) /\ evaluate_income_exit_reason g book now ctx None = None
  | Some r =>
      (r = "hard_stop"%string <-> skip = false /\ hard = true) /\
      (In r INCOME_EXIT_REASONS <-> evaluate_income_exit_reason g book now ctx None = Some r /\ r <> "hard_stop"%string) /\
      (r = "soft_stop"%string -> soft = true /\ skip = false /\ evaluate_income_exit_reason g book now ctx None = None) /\
      (In r INCOME_EXIT_REASONS <-> ~ In r DEFENSE_EXIT_REASONS) /\
      (book <> None -> r <> "take_profit"%string)
  end /\
  (override sd ctx.(soft_defense_delta) <= override hd ctx.(hard_defense_delta) ->
   ctx.(soft_defense_loss_pct) <= ctx.(hard_stop_loss_pct) -> hard = true -> soft = true).
Proof.
  cbn zeta. split.
  2: { unfold evaluate_defense_triggers. cbn zeta. cbn [fst snd]. intros A B H. rewrite orb_true_iff, !dleb_true in *. lra. }
  unfold evaluate_exit_reason_priority. cbn zeta. destruct (evaluate_defense_triggers _ _ _ ctx) as [soft hard]. cbn [fst snd].
  destruct skip, hard; cbn [negb andb].
  3: { split; [tauto|]. split; [split; [intros I; cbn in I; intuition discriminate | intros [_ N]; now destruct N]|].
       split; [discriminate|]. split; [|discriminate].
       split; [intros I; cbn in I; intuition discriminate | intros N; destruct N; cbn; auto]. }
  all: destruct (evaluate_income_exit_reason g book now ctx None) as [r|] eqn:E.
  all: try (apply income_inv in E;
            assert (N : In r INCOME_EXIT_REASONS /\ r <> "hard_stop"%string /\ ~ In r DEFENSE_EXIT_REASONS /\ r <> "soft_stop"%string)
              by (destruct E as [[-> _]|[[-> _]|[-> _]]]; cbn; repeat split; intuition discriminate);
            assert (B : book <> None -> r <> "take_profit"%string)
              by (intros Nb ->; destruct E as [[_ [E|(_ & E & _)]]|[[E _]|[E _]]]; try discriminate; now apply Nb);
            repeat split; intuition congruence).
  - auto.
  - auto.
  - destruct soft; [|auto]. split; [split; [discriminate | intros [_ N]; discriminate]|].
    split; [split; [intros I; cbn in I; intuition discriminate | intros [N _]; discriminate]|].
    split; [auto|]. split; [|discriminate].
    split; [intros I; cbn in I; intuition discriminate | intros N; destruct N; cbn; auto].
Qed.
