(* ===== verification/Protocol.v ===== *)
(** Several processes on one state file: the live bot, operator commands and the
    admin page each hold a [StrategyState] in memory and use one
    [StrategyStateStore] ([deribit_engine/state.py]). The file lock makes each
    [load] and [save] one step; between them a process may change its state in any
    way. The system refines an abstract register per group that only ever grows. *)

From S2P Require Import Prelude Dec PyStr Utils Group PyObj GroupJson StateJson State Store.
From Stdlib Require Import Relation_Operators Operators_Properties.
Local Open Scope Q_scope.
Local Open Scope dec_scope.
Local Open Scope bool_scope.
Local Open Scope list_scope.

(** ** The processes *)

Definition pid : Type := nat.

Record world : Type := { the_disk : disk; memory : pid -> StrategyState }.

Definition assign (m : pid -> StrategyState) (p : pid) (s : StrategyState) : pid -> StrategyState :=
  fun q => if Nat.eqb q p then s else m q.

(** ** The abstract register of a group *)

(** What a reader of the file relies on: how far the sweep and exit journals are,
    the operator's restored amount (when the restore is the operator's) and the
    operator's abort. *)
Record register : Type := {
  sweep_rank : Z;
  exit_rank : Z;
  restored : option Q;
  aborted : bool;
}.

Definition register_of (g : TradeGroup) : register := {|
  sweep_rank := _status_rank g.(profit_sweep_status) _JOURNAL_STATUS_RANK;
  exit_rank := _status_rank g.(spot_exit_status) _JOURNAL_STATUS_RANK;
  restored := if operator_restore g then Some g.(spot_restore_amount) else None;
  aborted := operator_csp_abort g |}.

(** The group the file holds under [gid]. *)
Definition on_file (gid : string) (d : disk) : option TradeGroup :=
  match _read_unlocked d with Ret (Some s) => disk_group gid s.(groups) | _ => None end.

Definition abstraction (gid : string) (w : world) : option register := option_map register_of (on_file gid w.(the_disk)).

(** The register after a write: at least the one before, and for the two ranks
    exactly the join of what was there and what the writer holds. A restored amount
    is kept on the eight-place grid of the file. *)
Definition grows (before after : register) : Prop :=
  (before.(sweep_rank) <= after.(sweep_rank))%Z /\ (before.(exit_rank) <= after.(exit_rank))%Z /\
  (before.(aborted) = true -> after.(aborted) = true) /\
  (forall a, before.(restored) = Some a -> json_quantum <= a ->
     exists b, after.(restored) = Some b /\ json_quantum <= b /\ stored_dec a <= b).

Inductive abstract_step : option register -> option register -> Prop :=
| abstract_stay r : abstract_step r r
| abstract_create r : abstract_step None (Some r)
| abstract_join before writer after :
    after.(sweep_rank) = Z.max before.(sweep_rank) writer.(sweep_rank) ->
    after.(exit_rank) = Z.max before.(exit_rank) writer.(exit_rank) ->
    (writer.(aborted) = true -> after.(aborted) = true) ->
    grows before after -> abstract_step (Some before) (Some after).

(** ** Steps *)

(** A process may write when its state holds the group [gid] under distinct ids, and
    does not claim a restore to be filled that is not an operator's. *)
Definition fit (gid : string) (s : StrategyState) : Prop :=
  NoDup (filter truthy (map group_id s.(groups))) /\
  exists g, In g s.(groups) /\ g.(group_id) = gid /\
    (lower g.(spot_restore_status) = "filled"%string -> operator_restore g = true).

(** One step of one process. [step_edit] is whatever the engine or a command does to
    its own state; [step_archive] is the append to the side file before a save. *)
Inductive step (gid : string) : world -> world -> Prop :=
| step_load w p s d : load w.(the_disk) = Ret (s, d) ->
    step gid w {| the_disk := d; memory := assign w.(memory) p s |}
| step_edit w p s : step gid w {| the_disk := w.(the_disk); memory := assign w.(memory) p s |}
| step_save w p now_us d s : fit gid (w.(memory) p) -> save w.(the_disk) (w.(memory) p) now_us = Ret (d, s) ->
    step gid w {| the_disk := d; memory := assign w.(memory) p s |}
| step_archive w p keep_recent_days keep_min now now_us s lines n :
    archive_closed_groups (w.(memory) p) w.(the_disk).(archive) keep_recent_days keep_min now now_us = Ret (s, lines, n) ->
    step gid w {| the_disk := set_archive lines w.(the_disk); memory := assign w.(memory) p s |}.

Definition run (gid : string) : world -> world -> Prop := clos_refl_trans_1n world (step gid).

(** ** The merge of one group, seen through the register *)

Lemma restore_cluster_filled m d : lower m.(spot_restore_status) <> "filled"%string ->
  lower d.(spot_restore_status) = "filled"%string ->
  lower (fst (restore_cluster m d)).(spot_restore_status) = "filled"%string ->
  same_cluster _SPOT_RESTORE_FIELDS (fst (restore_cluster m d)) d.
Proof.
  intros Nm Fd Fr.
  assert (F : follows A_spot_restore_status _SPOT_RESTORE_FIELDS _SPOT_RESTORE_AMOUNTS _JOURNAL_STATUS_RANK m d (fst (restore_cluster m d)))
    by (apply cluster_follows; try reflexivity; exact restore_amounts_ok).
  destruct F as (_ & Ahead & Behind & Level).
  set (rm := _status_rank (str_of (getattr m A_spot_restore_status)) _JOURNAL_STATUS_RANK) in *.
  set (rd := _status_rank (str_of (getattr d A_spot_restore_status)) _JOURNAL_STATUS_RANK) in *.
  assert (K : getattr (fst (restore_cluster m d)) A_spot_restore_status = getattr m A_spot_restore_status -> False)
    by (intros E; apply Nm; injection E as E; now rewrite <- E).
  destruct (Ztrichotomy rm rd) as [L|[E|G]].
  - apply same_cluster_keeps. now apply Ahead.
  - destruct K. now apply Level.
  - destruct K. apply Behind; [lia | reflexivity].
Qed.

(** An operator's restore on file is still one after the merge with a fit group. *)
Lemma operator_restore_kept m d : operator_restore d = true ->
  (lower m.(spot_restore_status) = "filled"%string -> operator_restore m = true) ->
  operator_restore (fst (merge_group m d)) = true /\
  d.(spot_restore_amount) <= (fst (merge_group m d)).(spot_restore_amount).
Proof.
  intros Hd Fm. destruct (operator_restore_survives m d) as [Sm Sd]. split; [|exact (proj2 (Sd Hd))].
  destruct (operator_restore m) eqn:Hm; [exact (proj1 (Sm eq_refl))|].
  assert (Nm : lower m.(spot_restore_status) <> "filled"%string) by (intros E; specialize (Fm E); discriminate).
  set (g := csp_step m d (fst (exit_cluster (fst (sweep_cluster (fst (restore_cluster m d)) d)) d))).
  assert (R : same_cluster _SPOT_RESTORE_FIELDS (fst (merge_group m d)) (fst (_merge_operator_manual_cover_restore g d))).
  { apply same_cluster_keeps. intros b B. destruct (clusters_disjoint b) as (_ & _ & D & _).
    destruct (D B) as (_ & _ & D3). rewrite merge_group_steps, abort_snapshot_keeps by assumption.
    unfold winning_restore. rewrite Hm. cbn [_restore_snapshot fst]. now apply operator_abort_keeps. }
  rewrite (same_operator_restore _ _ R). unfold _merge_operator_manual_cover_restore. rewrite Hd. cbn [negb].
  assert (G : same_cluster _SPOT_RESTORE_FIELDS g (fst (restore_cluster m d))).
  { apply same_cluster_keeps. intros b B. destruct (clusters_disjoint b) as (_ & _ & D & _).
    destruct (D B) as (D1 & D2 & D3). unfold g. now rewrite csp_step_keeps, exit_cluster_keeps, sweep_cluster_keeps. }
  destruct (String.eqb_spec (lower g.(spot_restore_status)) "filled") as [E|E]; cbn [andb].
  - assert (S : same_cluster _SPOT_RESTORE_FIELDS g d).
    { eapply same_cluster_trans; [exact G|]. apply restore_cluster_filled; [exact Nm | now apply operator_restore_filled|].
      destruct (same_restore _ _ G) as (Es & _). now rewrite <- Es. }
    destruct (_ <=? _); cbn [fst]; [now rewrite (same_operator_restore _ _ S)|].
    now rewrite (same_operator_restore _ d (copy_same_cluster _SPOT_RESTORE_FIELDS g d)).
  - cbn [fst]. now rewrite (same_operator_restore _ d (copy_same_cluster _SPOT_RESTORE_FIELDS g d)).
Qed.

Lemma stored_ranks g : (register_of (stored_group g)).(sweep_rank) = (register_of g).(sweep_rank) /\
  (register_of (stored_group g)).(exit_rank) = (register_of g).(exit_rank) /\
  (register_of (stored_group g)).(aborted) = (register_of g).(aborted).
Proof. repeat split. Qed.

(** What the file holds after a merge of [d] into a fit [m]. *)
Lemma merged_register m d : (lower m.(spot_restore_status) = "filled"%string -> operator_restore m = true) ->
  abstract_step (Some (register_of d)) (Some (register_of (stored_group (fst (merge_group m d))))).
Proof.
  intros Fm. set (r := fst (merge_group m d)).
  assert (Sw : (register_of r).(sweep_rank) = Z.max (register_of m).(sweep_rank) (register_of d).(sweep_rank))
    by (destruct (merge_sweep_follows m d) as [H _]; exact H).
  assert (Ex : (register_of r).(exit_rank) = Z.max (register_of m).(exit_rank) (register_of d).(exit_rank))
    by (destruct (merge_exit_follows m d) as [H _]; exact H).
  destruct (stored_ranks r) as (E1 & E2 & E3). apply (abstract_join (register_of d) (register_of m)).
  - rewrite E1, Sw. apply Z.max_comm.
  - rewrite E2, Ex. apply Z.max_comm.
  - intros A. rewrite E3. apply (csp_abort_survives m d). now left.
  - unfold grows. rewrite E1, E2, E3, Sw, Ex. split; [lia|]. split; [lia|]. split.
    + intros A. apply (csp_abort_survives m d). now right.
    + intros a Ha Qa. cbn [restored register_of] in Ha. destruct (operator_restore d) eqn:Hd; [|discriminate].
      injection Ha as <-. destruct (operator_restore_kept m d Hd Fm) as [Rr Ar]. fold r in Rr, Ar.
      assert (Qr : json_quantum <= r.(spot_restore_amount)) by (eapply Qle_trans; eassumption).
      destruct (stored_operator_restore r Rr Qr) as [Rs As]. cbn [restored register_of]. rewrite Rs, As.
      eexists. split; [reflexivity|]. split; [now apply stored_dec_quantum|].
      apply stored_dec_mono; [unfold json_quantum in Qa; lra | exact Ar].
Qed.

(** ** Refinement *)

Lemma merge_one_found gid d o g : _read_unlocked d = Ret (Some o) -> g.(group_id) = gid ->
  merge_one o.(groups) g = match on_file gid d with Some other => fst (merge_group g other) | None => g end.
Proof. intros R E. unfold on_file, merge_one. now rewrite R, E. Qed.

Lemma on_file_saved gid d s now_us d' s' g : truthy gid = true ->
  save d s now_us = Ret (d', s') -> NoDup (filter truthy (map group_id s.(groups))) -> In g s.(groups) -> g.(group_id) = gid ->
  on_file gid d' = Some (stored_group (match on_file gid d with Some other => fst (merge_group g other) | None => g end)).
Proof.
  intros T H N I E. apply save_inv in H. destruct H as (o & v & R & -> & -> & V).
  unfold on_file at 1. unfold _read_unlocked. cbn [file set_file]. rewrite V. cbn [groups stored_state].
  set (before := match o with Some o => o.(groups) | None => [] end).
  assert (M : merge_one before g = match on_file gid d with Some other => fst (merge_group g other) | None => g end).
  { destruct o as [o|]; [now apply merge_one_found|]. unfold on_file. now rewrite R. }
  rewrite <- M. assert (Id : (merge_one before g).(group_id) = gid) by now rewrite merge_one_id.
  rewrite <- Id at 1. change (group_id (merge_one before g)) with (group_id (stored_group (merge_one before g))).
  apply disk_group_unique.
  - apply in_map. rewrite merged_groups. now apply in_map.
  - change (truthy (group_id (merge_one before g)) = true). now rewrite Id.
  - rewrite map_map. cbn [group_id stored_group]. now rewrite merged_ids.
Qed.

Lemma load_on_file gid d s d' : load d = Ret (s, d') -> on_file gid d' = on_file gid d.
Proof.
  unfold load, on_file, _read_unlocked. destruct (file d) as [| | |v] eqn:F; intros H; try discriminate.
  - injection H as _ <-. now rewrite F.
  - injection H as _ <-. reflexivity.
  - destruct (_decode_payload v) eqn:V; injection H as _ <-; [now rewrite F, V | reflexivity].
Qed.

Lemma step_refines gid w w' : truthy gid = true -> step gid w w' ->
  abstract_step (abstraction gid w) (abstraction gid w').
Proof.
  intros T S. unfold abstraction. destruct S as [w p s d L|w p s|w p now d s F L|w p a b c e s lines n L]; cbn [the_disk].
  - rewrite (load_on_file gid _ _ _ L). constructor.
  - constructor.
  - destruct F as (N & g & G & E & C). rewrite (on_file_saved gid _ _ _ _ _ g T L N G E).
    destruct (on_file gid w.(the_disk)) as [other|]; cbn [option_map]; [now apply merged_register | constructor].
  - unfold on_file, _read_unlocked. cbn [file set_archive]. constructor.
Qed.

Lemma grows_refl r : grows r r.
Proof.
  unfold grows. repeat split; try lia; auto. intros a E Q. exists a. repeat split; auto.
  rewrite stored_dec_value. unfold gval. rewrite trunc_nonneg.
  - pose proof (Qfloor_le (a * p10 8)) as H. pose proof (p10_pos (-8)) as P.
    apply (Qmult_le_compat_r _ _ (p10 (-8))) in H; [|lra].
    rewrite <- Qmult_assoc, (p10_mul_opp 8), Qmult_1_r in H. exact H.
  - pose proof (p10_pos 8). unfold json_quantum in Q. nra.
Qed.

Lemma grows_trans a b c : grows a b -> grows b c -> grows a c.
Proof.
  intros (A1 & A2 & A3 & A4) (B1 & B2 & B3 & B4). repeat split; try lia; auto.
  intros x E Q. destruct (A4 x E Q) as (y & Ey & Qy & Ly). destruct (B4 y Ey Qy) as (z & Ez & Qz & Lz).
  exists z. repeat split; auto. apply (Qle_trans _ (stored_dec y)); [|exact Lz].
  rewrite <- (stored_dec_idem x). apply stored_dec_mono; [|exact Ly].
  pose proof (stored_dec_quantum x Q) as W. unfold json_quantum in W. lra.
Qed.

Lemma abstract_step_grows r o : abstract_step (Some r) o -> exists r', o = Some r' /\ grows r r'.
Proof.
  intros H. inversion H; subst; eexists; (split; [reflexivity|]); [apply grows_refl | assumption].
Qed.

Lemma run_grows gid w w' r : truthy gid = true -> run gid w w' -> abstraction gid w = Some r ->
  exists r', abstraction gid w' = Some r' /\ grows r r'.
Proof.
  intros T R. revert r. induction R as [w|w1 w2 w3 S _ IH]; intros r E; [exists r; split; [exact E | apply grows_refl]|].
  pose proof (step_refines gid w1 w2 T S) as A. rewrite E in A. destruct (abstract_step_grows _ _ A) as (r2 & E2 & G2).
  destruct (IH r2 E2) as (r3 & E3 & G3). exists r3. split; [exact E3 | now apply (grows_trans r r2)].
Qed.



(** ** Witnesses: an operator command (process 0) and a stale bot (process 1) *)

Definition sample_world (d : disk) : world :=
  {| the_disk := d; memory := fun p => with_group (if Nat.eqb p 0 then sample_operator_group else sample_stale_group) |}.

Lemma sample_operator_fit : fit "g2" (with_group sample_operator_group).
Proof.
  split; [vm_compute; repeat constructor; intros []|]. exists sample_operator_group.
  split; [left; reflexivity|]. split; [reflexivity|]. intros _. vm_compute. reflexivity.
Defined.

Lemma sample_stale_fit : fit "g2" (with_group sample_stale_group).
Proof.
  split; [vm_compute; repeat constructor; intros []|]. exists sample_stale_group.
  split; [left; reflexivity|]. split; [reflexivity|]. vm_compute. discriminate.
Defined.

(** The file after the operator command saved. *)
Definition sample_file : disk :=
  match save empty_disk (with_group sample_operator_group) 1700000000000000 with Ret (d, _) => d | _ => empty_disk end.

Lemma sample_file_restored :
  option_map restored (option_map register_of (on_file "g2" sample_file)) = Some (Some (1 # 4)).
Proof. vm_compute. reflexivity. Qed.


