(* ===== verification/Throttle.v ===== *)
(** Request pacing ([deribit_engine/exchange_throttle.py]): a per-identity interval
    that widens on HTTP 429 and decays on success, and the wait before each request.
    Intervals and clock readings are floats; doubling, halving, [min], [max] and
    comparison are exact on them, and the subtraction of two clock readings is
    modelled exactly. *)

From S2P Require Import Prelude PyStr StateJson.
From Stdlib Require Import Relation_Operators.
Local Open Scope Q_scope.
Local Open Scope dec_scope.
Local Open Scope bool_scope.
Local Open Scope list_scope.

(** ** The interval *)

(** [max(float(raw), 0.0)]; [raw] is the value of the environment variable, [None]
    when it is not a number. *)
Definition env_interval (raw : option Q) (default : Q) : Q :=
  match raw with Some v => Qmax v 0 | None => default end.

Record settings : Type := { min_interval : option Q; max_interval : option Q }.

Definition min_request_interval_seconds (e : settings) : Q := env_interval e.(min_interval) 0.15.
Definition max_request_interval_seconds (e : settings) : Q := env_interval e.(max_interval) 2.

(** [_identity_penalty_interval] *)
Definition penalties : Type := dict Q.

Definition penalty (key : string) (s : penalties) : Q := match dict_get key s with Some v => v | None => 0 end.

(** An identity is its key; the shared one is the empty string. *)
Definition note_rate_limited (e : settings) (key : string) (s : penalties) : penalties :=
  let base := min_request_interval_seconds e in
  if base <=? 0 then s
  else
    let cap := max_request_interval_seconds e in
    if cap <=? base then s
    else
      let current := penalty key s in
      let widened := if current <? base then base * 2 else current * 2 in
      dict_set key (Qmin cap widened) s.

Definition note_success (e : settings) (key : string) (s : penalties) : penalties :=
  let base := min_request_interval_seconds e in
  let current := penalty key s in
  if current <=? 0 then s
  else
    let decayed := current * (1 # 2) in
    if decayed <=? base then dict_pop key s else dict_set key decayed s.

Definition adaptive_interval_seconds (e : settings) (key : string) (s : penalties) : Q :=
  let base := min_request_interval_seconds e in
  if base <=? 0 then base else Qmax base (penalty key s).

Definition reset_adaptive_backoff (s : penalties) : penalties := [].

(** ** Responses *)

Inductive response : Type := Limited | Succeeded.

Definition note (e : settings) (s : penalties) (r : string * response) : penalties :=
  match snd r with
  | Limited => note_rate_limited e (fst r) s
  | Succeeded => note_success e (fst r) s
  end.

Definition notes (e : settings) (l : list (string * response)) (s : penalties) : penalties := fold_left (note e) l s.

(** ** Pacing

    [pace_exchange_request] reads the interval, takes the identity's lock, reads the
    clock and the last request, sleeps, and records the time it wakes at. A thread is
    between these points in one of three lists. [time.sleep(wait)] sleeps at least
    [wait]. *)
Record world : Type := {
  clock : Q;                         (** [time.monotonic()] *)
  throttle : penalties;
  waiting : list (string * Q);       (** has read its interval, waits for the lock *)
  sleeping : dict Q;                 (** holds the lock of its key, wakes at the time given *)
  last_request : dict Q;             (** [_identity_last_request_monotonic] and the global one *)
  sent : list (string * Q);          (** released requests, newest first *)
}.

Definition last_of (key : string) (w : world) : Q := match dict_get key w.(last_request) with Some t => t | None => 0 end.

Inductive pace_step (e : settings) : world -> world -> Prop :=
| pace_tick w t : w.(clock) <= t -> pace_step e w
    {| clock := t; throttle := w.(throttle); waiting := w.(waiting); sleeping := w.(sleeping);
       last_request := w.(last_request); sent := w.(sent) |}
| pace_note w r : pace_step e w
    {| clock := w.(clock); throttle := note e w.(throttle) r; waiting := w.(waiting); sleeping := w.(sleeping);
       last_request := w.(last_request); sent := w.(sent) |}
| pace_ask w key : 0 < adaptive_interval_seconds e key w.(throttle) -> pace_step e w
    {| clock := w.(clock); throttle := w.(throttle);
       waiting := (key, adaptive_interval_seconds e key w.(throttle)) :: w.(waiting); sleeping := w.(sleeping);
       last_request := w.(last_request); sent := w.(sent) |}
| pace_lock w l1 key interval l2 : w.(waiting) = l1 ++ (key, interval) :: l2 -> dict_get key w.(sleeping) = None ->
    pace_step e w
    {| clock := w.(clock); throttle := w.(throttle); waiting := l1 ++ l2;
       sleeping := dict_set key (w.(clock) + Qmax (interval - (w.(clock) - last_of key w)) 0) w.(sleeping);
       last_request := w.(last_request); sent := w.(sent) |}
| pace_wake w key wake : dict_get key w.(sleeping) = Some wake -> wake <= w.(clock) -> pace_step e w
    {| clock := w.(clock); throttle := w.(throttle); waiting := w.(waiting); sleeping := dict_pop key w.(sleeping);
       last_request := dict_set key w.(clock) w.(last_request); sent := (key, w.(clock)) :: w.(sent) |}.

Definition start (t : Q) : world :=
  {| clock := t; throttle := []; waiting := []; sleeping := []; last_request := []; sent := [] |}.

Definition paced (e : settings) : world -> world -> Prop := clos_refl_trans_n1 world (pace_step e).

(** The times at which requests of [key] were released, newest first. *)
Definition sent_of (key : string) (w : world) : list Q :=
  map snd (filter (fun x => String.eqb key (fst x)) w.(sent)).

Fixpoint spaced (gap : Q) (l : list Q) : Prop :=
  match l with
  | t :: ((t' :: _) as r) => t' + gap <= t /\ spaced gap r
  | _ => True
  end.

(** ** The interval of an identity is one number *)

(** The abstract interval: doubled up to the cap on a 429, halved down to the base on
    a success. *)
Definition spec_step (base top x : Q) (r : response) : Q :=
  match r with Limited => Qmin top (2 * x) | Succeeded => Qmax base (x * (1 # 2)) end.

Definition spec_interval (base top : Q) (l : list response) : Q := fold_left (spec_step base top) l base.

Definition responses_of (key : string) (l : list (string * response)) : list response :=
  map snd (filter (fun r => String.eqb key (fst r)) l).

Section Interval.
Variable e : settings.
Let base := min_request_interval_seconds e.
Let top := Qmax base (max_request_interval_seconds e).
Hypothesis base_pos : 0 < base.

Lemma qmax_spec a b : (Qmax a b == a /\ b <= a) \/ (Qmax a b == b /\ a <= b).
Proof. destruct (Q.max_spec a b) as [[L E]|[L E]]; [right | left]; split; lra. Qed.

Lemma qmin_spec a b : (Qmin a b == a /\ a <= b) \/ (Qmin a b == b /\ b <= a).
Proof. destruct (Q.min_spec a b) as [[L E]|[L E]]; [left | right]; split; lra. Qed.

(** What a stored penalty can be. *)
Definition penalty_ok (s : penalties) : Prop :=
  forall key, penalty key s == 0 \/ base < penalty key s /\ penalty key s <= top.

Lemma adaptive_of key s : penalty_ok s ->
  adaptive_interval_seconds e key s == base /\ penalty key s == 0 \/
  adaptive_interval_seconds e key s == penalty key s /\ base < penalty key s /\ penalty key s <= top.
Proof.
  intros H. unfold adaptive_interval_seconds. fold base. destruct (dleb_spec base 0); [lra|].
  destruct (H key) as [Z|[L U]]; destruct (qmax_spec base (penalty key s)) as [[-> M]|[-> M]]; lra.
Qed.

Lemma penalty_set key k v s : penalty key (dict_set k v s) = if String.eqb key k then v else penalty key s.
Proof. unfold penalty. rewrite dict_get_set. now destruct (String.eqb key k). Qed.

Lemma penalty_pop key k s : penalty key (dict_pop k s) = if String.eqb key k then 0 else penalty key s.
Proof. unfold penalty. rewrite dict_get_pop. now destruct (String.eqb key k). Qed.

Lemma adaptive_ext key s s' : penalty key s == penalty key s' ->
  adaptive_interval_seconds e key s == adaptive_interval_seconds e key s'.
Proof. intros H. unfold adaptive_interval_seconds. destruct (dleb _ 0); [reflexivity | now rewrite H]. Qed.

Lemma adaptive_pos key s p : penalty key s = p -> adaptive_interval_seconds e key s == Qmax base p.
Proof. intros <-. unfold adaptive_interval_seconds. fold base. destruct (dleb_spec base 0); [lra | reflexivity]. Qed.

Lemma note_ok s r : penalty_ok s -> penalty_ok (note e s r).
Proof.
  intros H key. unfold note. destruct r as [k [|]]; cbn [fst snd].
  - unfold note_rate_limited. fold base. set (cap := max_request_interval_seconds e) in *.
    destruct (dleb _ 0); [apply H|]. destruct (dleb_spec cap base) as [|C]; [apply H|].
    cbn zeta. rewrite penalty_set. destruct (String.eqb_spec key k) as [<-|_]; [|apply H]. right.
    assert (T : cap <= top) by apply Q.le_max_r. set (w := if dltb _ base then _ else _).
    assert (W : base < w).
    { unfold w. destruct (dltb_spec (penalty key s) base); [lra|]. destruct (H key) as [Z|[L U]]; lra. }
    destruct (qmin_spec cap w) as [[-> M]|[-> M]]; lra.
  - unfold note_success. fold base. destruct (dleb_spec (penalty k s) 0) as [|P]; [apply H|].
    destruct (dleb_spec (penalty k s * (1 # 2)) base) as [D|D].
    + rewrite penalty_pop. destruct (String.eqb key k); [now left | apply H].
    + rewrite penalty_set. destruct (String.eqb_spec key k) as [<-|_]; [|apply H]. right.
      destruct (H key) as [Z|[L U]]; lra.
Qed.

Lemma note_other s key r : String.eqb key (fst r) = false ->
  adaptive_interval_seconds e key (note e s r) == adaptive_interval_seconds e key s.
Proof.
  intros N. apply adaptive_ext. unfold note. destruct r as [k [|]]; cbn [fst snd] in *.
  - unfold note_rate_limited. destruct (dleb _ 0); [reflexivity|]. destruct (dleb _ _); [reflexivity|].
    cbn zeta. now rewrite penalty_set, N.
  - unfold note_success. destruct (dleb _ 0); [reflexivity|]. destruct (dleb _ _); [now rewrite penalty_pop, N | now rewrite penalty_set, N].
Qed.

Lemma note_own s key r : penalty_ok s ->
  adaptive_interval_seconds e key (note e s (key, r)) == spec_step base top (adaptive_interval_seconds e key s) r.
Proof.
  intros H. destruct (adaptive_of key s H) as [[A Z]|(A & L & U)]; rewrite (adaptive_pos key _ _ eq_refl); unfold note; cbn [fst snd].
  all: assert (T : top == Qmax base (max_request_interval_seconds e)) by reflexivity.
  all: destruct r; cbn [spec_step]; rewrite A.
  - unfold note_rate_limited. fold base. set (cap := max_request_interval_seconds e) in *. destruct (dleb_spec base 0); [lra|].
    destruct (dleb_spec cap base) as [C|C].
    + destruct (qmax_spec base cap) as [[E ?]|[E ?]]; rewrite E in T;
        destruct (qmax_spec base (penalty key s)) as [[-> ?]|[-> ?]], (qmin_spec top (2 * base)) as [[-> ?]|[-> ?]]; lra.
    + cbn zeta. rewrite penalty_set, String.eqb_refl. destruct (dltb_spec (penalty key s) base); [|lra].
      destruct (qmax_spec base cap) as [[E ?]|[E ?]]; rewrite E in T; [lra|].
      destruct (qmin_spec cap (base * 2)) as [[M ?]|[M ?]], (qmin_spec top (2 * base)) as [[-> ?]|[-> ?]];
        destruct (qmax_spec base (Qmin cap (base * 2))) as [[-> ?]|[-> ?]]; lra.
  - unfold note_success. destruct (dleb_spec (penalty key s) 0); [|lra].
    destruct (qmax_spec base (penalty key s)) as [[-> ?]|[-> ?]], (qmax_spec base (base * (1 # 2))) as [[-> ?]|[-> ?]]; lra.
  - unfold note_rate_limited. fold base. set (cap := max_request_interval_seconds e) in *. destruct (dleb_spec base 0); [lra|].
    destruct (dleb_spec cap base) as [C|C].
    + exfalso. destruct (qmax_spec base cap) as [[E ?]|[E ?]]; rewrite E in T; lra.
    + cbn zeta. rewrite penalty_set, String.eqb_refl. destruct (dltb_spec (penalty key s) base); [lra|].
      destruct (qmax_spec base cap) as [[E ?]|[E ?]]; rewrite E in T; [lra|].
      destruct (qmin_spec cap (penalty key s * 2)) as [[M ?]|[M ?]], (qmin_spec top (2 * penalty key s)) as [[-> ?]|[-> ?]];
        destruct (qmax_spec base (Qmin cap (penalty key s * 2))) as [[-> ?]|[-> ?]]; lra.
  - unfold note_success. fold base. destruct (dleb_spec (penalty key s) 0); [lra|].
    destruct (dleb_spec (penalty key s * (1 # 2)) base) as [D|D].
    + rewrite penalty_pop, String.eqb_refl.
      destruct (qmax_spec base 0) as [[-> ?]|[-> ?]], (qmax_spec base (penalty key s * (1 # 2))) as [[-> ?]|[-> ?]]; lra.
    + rewrite penalty_set, String.eqb_refl. reflexivity.
Qed.

Lemma spec_step_mor x y r : x == y -> spec_step base top x r == spec_step base top y r.
Proof. intros H. destruct r; cbn [spec_step]; now rewrite H. Qed.

Lemma spec_fold_mor l : forall x y, x == y -> fold_left (spec_step base top) l x == fold_left (spec_step base top) l y.
Proof. induction l as [|r l IH]; intros x y H; [exact H|]. cbn [fold_left]. now apply IH, spec_step_mor. Qed.

Lemma notes_spec l key : forall s, penalty_ok s ->
  penalty_ok (notes e l s) /\
  adaptive_interval_seconds e key (notes e l s)
  == fold_left (spec_step base top) (responses_of key l) (adaptive_interval_seconds e key s).
Proof.
  induction l as [|[k r] l IH]; intros s H; [split; [exact H | reflexivity]|].
  unfold notes in *. cbn [fold_left]. destruct (IH _ (note_ok s (k, r) H)) as [I1 I2]. split; [exact I1|].
  rewrite I2. unfold responses_of. cbn [filter map fst]. destruct (String.eqb_spec key k) as [<-|N].
  - cbn [map fold_left snd]. now apply spec_fold_mor, note_own.
  - apply spec_fold_mor, note_other. cbn [fst]. now apply String.eqb_neq.
Qed.

Lemma empty_ok : penalty_ok [].
Proof. intros key. now left. Qed.

Lemma top_ge : base <= top.
Proof. apply Q.le_max_l. Qed.

Lemma spec_bounds l : forall x, base <= x -> x <= top ->
  base <= fold_left (spec_step base top) l x /\ fold_left (spec_step base top) l x <= top.
Proof.
  pose proof top_ge as T. induction l as [|r l IH]; intros x L U; [now split|]. cbn [fold_left]. apply IH.
  - destruct r; cbn [spec_step]; [destruct (qmin_spec top (2 * x)) as [[-> ?]|[-> ?]]; lra | apply Q.le_max_l].
  - destruct r; cbn [spec_step]; [apply Q.le_min_l | destruct (qmax_spec base (x * (1 # 2))) as [[-> ?]|[-> ?]]; lra].
Qed.

Lemma pow2_succ n : inject_Z (2 ^ Z.of_nat (S n)) == 2 * inject_Z (2 ^ Z.of_nat n).
Proof. rewrite Nat2Z.inj_succ, Z.pow_succ_r by lia. rewrite inject_Z_mult. reflexivity. Qed.

Lemma spec_recovers n : forall x, base <= x -> x <= base * inject_Z (2 ^ Z.of_nat n) ->
  fold_left (spec_step base top) (repeat Succeeded n) x == base.
Proof.
  induction n as [|n IH]; intros x L U; cbn [repeat fold_left].
  - change (inject_Z (2 ^ Z.of_nat 0)) with 1 in U. lra.
  - rewrite pow2_succ in U. set (p := inject_Z (2 ^ Z.of_nat n)) in *. apply IH; cbn [spec_step]; [apply Q.le_max_l|].
    assert (P : 1 <= p) by (unfold p; change 1 with (inject_Z 1); rewrite <- Zle_Qle; pose proof (Z.pow_pos_nonneg 2 (Z.of_nat n)); lia).
    destruct (qmax_spec base (x * (1 # 2))) as [[-> ?]|[-> ?]]; nra.
Qed.
End Interval.

(** The penalties implement one number per identity. Whatever responses any
    identities have had, the interval of a key is the abstract interval of its own
    responses: doubled up to the cap on a 429, halved down to the base on a success.
    It always lies between the base and the cap. *)
Theorem interval_refines_number e l key : 0 < min_request_interval_seconds e ->
  let base := min_request_interval_seconds e in
  let top := Qmax base (max_request_interval_seconds e) in
  adaptive_interval_seconds e key (notes e l []) == spec_interval base top (responses_of key l) /\
  base <= adaptive_interval_seconds e key (notes e l []) <= top.
Proof.
  intros P. cbn zeta. destruct (notes_spec e P l key [] (empty_ok e)) as [_ H].
  assert (B : adaptive_interval_seconds e key [] == min_request_interval_seconds e).
  { rewrite (adaptive_pos e P key [] 0 eq_refl). destruct (qmax_spec (min_request_interval_seconds e) 0) as [[-> ?]|[-> ?]]; lra. }
  assert (E : adaptive_interval_seconds e key (notes e l []) ==
    spec_interval (min_request_interval_seconds e) (Qmax (min_request_interval_seconds e) (max_request_interval_seconds e)) (responses_of key l)).
  { rewrite H. unfold spec_interval. now apply spec_fold_mor. }
  split; [exact E|]. rewrite E.
  exact (spec_bounds e P (responses_of key l) (min_request_interval_seconds e) (Qle_refl _) (top_ge e)).
Qed.

Lemma responses_app key l l' : responses_of key (l ++ l') = responses_of key l ++ responses_of key l'.
Proof. unfold responses_of. now rewrite filter_app, map_app. Qed.

(** Back-off always ends. After any history of responses, once an identity has
    had enough successes in a row (the base doubled that often reaches the cap), with
    anything happening to the others in between, its interval is the base again. *)
Theorem interval_recovers e l l' key n m :
  let base := min_request_interval_seconds e in
  0 < base -> Qmax base (max_request_interval_seconds e) <= base * inject_Z (2 ^ Z.of_nat n) ->
  responses_of key l' = repeat Succeeded m -> (n <= m)%nat ->
  adaptive_interval_seconds e key (notes e (l ++ l') []) == base.
Proof.
  cbn zeta. intros P T R L. set (base := min_request_interval_seconds e) in *.
  unfold notes. rewrite fold_left_app. fold (notes e l []). fold (notes e l' (notes e l [])).
  destruct (notes_spec e P l key [] (empty_ok e)) as [Ok H].
  destruct (notes_spec e P l' key _ Ok) as [_ H']. rewrite H', R.
  assert (B : base <= adaptive_interval_seconds e key (notes e l []) <= Qmax base (max_request_interval_seconds e)).
  { destruct (adaptive_of e P key _ Ok) as [[-> _]|(-> & ? & ?)]; split; try apply (top_ge e); unfold base; lra. }
  replace m with (n + (m - n))%nat by lia. rewrite repeat_app, fold_left_app.
  apply (Qeq_trans _ (fold_left (spec_step base (Qmax base (max_request_interval_seconds e))) (repeat Succeeded (m - n)) base)).
  - apply spec_fold_mor. apply spec_recovers; [apply B | eapply Qle_trans; [apply B | exact T]].
  - apply spec_recovers; [apply Qle_refl|].
    assert (1 <= inject_Z (2 ^ Z.of_nat (m - n))) by (change 1 with (inject_Z 1); rewrite <- Zle_Qle; pose proof (Z.pow_pos_nonneg 2 (Z.of_nat (m - n))); lia).
    fold base. nra.
Qed.

Definition default_settings : settings := {| min_interval := Some 0.15; max_interval := Some 2 |}.

Lemma interval_refines_number_witness :
  adaptive_interval_seconds default_settings "a" (notes default_settings [("a", Limited); ("b", Limited); ("a", Limited); ("a", Succeeded)]%string [])
  == 0.3.
Proof.
  destruct (interval_refines_number default_settings [("a", Limited); ("b", Limited); ("a", Limited); ("a", Succeeded)]%string "a") as [E _].
  - vm_compute. reflexivity.
  - rewrite E. vm_compute. reflexivity.
Defined.

Lemma interval_recovers_witness :
  adaptive_interval_seconds default_settings "a" (notes default_settings (repeat ("a"%string, Limited) 9 ++ repeat ("a"%string, Succeeded) 4) [])
  == 0.15.
Proof.
  apply (interval_recovers default_settings (repeat ("a"%string, Limited) 9) (repeat ("a"%string, Succeeded) 4) "a" 4 4).
  - vm_compute. reflexivity.
  - vm_compute. discriminate.
  - vm_compute. reflexivity.
  - apply le_n.
Defined.

(** ** Requests are spaced *)

Section Spacing.
Variable e : settings.
Let base := min_request_interval_seconds e.
Hypothesis base_pos : 0 < base.

(** Every thread that waits has read an interval of at least the base; every thread
    that sleeps wakes at least the base after its identity's last request, which is
    the newest one sent. *)
Definition pacing_ok (w : world) : Prop :=
  (forall key i, In (key, i) w.(waiting) -> base <= i) /\
  (forall key wake, dict_get key w.(sleeping) = Some wake -> last_of key w + base <= wake) /\
  (forall key, spaced base (sent_of key w)) /\
  (forall key t r, sent_of key w = t :: r -> last_of key w = t).

Lemma adaptive_ge key s : base <= adaptive_interval_seconds e key s.
Proof. unfold adaptive_interval_seconds. fold base. destruct (dleb base 0); [lra | apply Q.le_max_l]. Qed.

Lemma sent_of_cons key k t l (w : world) : w.(sent) = (k, t) :: l ->
  sent_of key w = if String.eqb key k then t :: map snd (filter (fun x => String.eqb key (fst x)) l)
                  else map snd (filter (fun x => String.eqb key (fst x)) l).
Proof. intros E. unfold sent_of. rewrite E. cbn [filter fst]. now destruct (String.eqb key k). Qed.

Lemma pace_ok w w' : pacing_ok w -> pace_step e w w' -> pacing_ok w'.
Proof.
  intros (W & S & G & N) H. destruct H as [w t L|w r|w key A|w l1 key i l2 E F|w key wake E L].
  - exact (conj W (conj S (conj G N))).
  - exact (conj W (conj S (conj G N))).
  - split; [|exact (conj S (conj G N))]. intros k i [I|I]; [injection I as <- <-; apply adaptive_ge | now apply (W k)].
  - split; [|split; [|exact (conj G N)]]; cbn [waiting sleeping].
    + intros k j I. apply (W k). rewrite E. apply in_or_app. apply in_app_or in I. cbn [In]. tauto.
    + intros k wake. rewrite dict_get_set. destruct (String.eqb_spec k key) as [->|_]; [|apply S].
      intros I. injection I as <-. unfold last_of in *. cbn [last_request].
      assert (B : base <= i) by (apply (W key); rewrite E; apply in_elt).
      destruct (qmax_spec (i - (w.(clock) - match dict_get key w.(last_request) with Some t => t | None => 0 end)) 0)
        as [[-> ?]|[-> ?]]; lra.
  - assert (Ls : forall k, last_of k {| clock := w.(clock); throttle := w.(throttle); waiting := w.(waiting);
        sleeping := dict_pop key w.(sleeping); last_request := dict_set key w.(clock) w.(last_request);
        sent := (key, w.(clock)) :: w.(sent) |} = if String.eqb k key then w.(clock) else last_of k w).
    { intros k. unfold last_of. cbn [last_request]. rewrite dict_get_set. now destruct (String.eqb k key). }
    split; [exact W|]. split; [|split].
    + intros k u. cbn [sleeping]. rewrite dict_get_pop, Ls. destruct (String.eqb k key); [discriminate | apply S].
    + intros k. rewrite (sent_of_cons k key w.(clock) w.(sent)) by reflexivity. fold (sent_of k w).
      destruct (String.eqb_spec k key) as [->|_]; [|apply G].
      destruct (sent_of key w) as [|t r] eqn:Es; [exact I|]. split; [|rewrite <- Es; apply G].
      rewrite <- (N key t r Es). pose proof (S key wake E). lra.
    + intros k t r. rewrite (sent_of_cons k key w.(clock) w.(sent)) by reflexivity. fold (sent_of k w). rewrite Ls.
      destruct (String.eqb_spec k key) as [->|_]; [intros I; now injection I | apply N].
Qed.

Lemma paced_ok t w : paced e (start t) w -> pacing_ok w.
Proof.
  intros R. induction R as [|w1 w2 S R IH]; [|exact (pace_ok _ _ IH S)].
  split; [intros k i []|]. split; [discriminate|]. split; [intros k; exact I | discriminate].
Qed.
End Spacing.

Lemma spaced_span gap l t : spaced gap (t :: l) -> last l t + gap * inject_Z (Z.of_nat (List.length l)) <= t.
Proof.
  revert t. induction l as [|u l IH]; intros t H.
  { change (inject_Z (Z.of_nat (List.length (@nil Q)))) with 0. cbn [last]. lra. }
  destruct H as [H1 H2]. specialize (IH u H2). cbn [List.length]. rewrite Nat2Z.inj_succ. unfold Z.succ. rewrite inject_Z_plus.
  assert (E : last (u :: l) t = last l u) by (clear; revert u t; induction l as [|v l IH]; intros u t; [reflexivity|];
    change (last (v :: l) t = last (v :: l) u); now rewrite !IH).
  rewrite E. change (inject_Z 1) with 1. lra.
Qed.

(** Requests of one identity are paced. In every run of any number of threads and
    identities, with responses and clock ticks in any order, two consecutive requests
    released under the same key are at least the base interval apart, so [n] requests
    take at least [n - 1] intervals. *)
Theorem requests_are_spaced e t w key first newest l : 0 < min_request_interval_seconds e -> paced e (start t) w ->
  sent_of key w = newest :: l -> first = last l newest ->
  spaced (min_request_interval_seconds e) (sent_of key w) /\
  first + min_request_interval_seconds e * inject_Z (Z.of_nat (List.length l)) <= newest.
Proof.
  intros P R E ->. destruct (paced_ok e t w R) as (_ & _ & G & _). specialize (G key). split; [exact G|].
  rewrite E in G. now apply spaced_span.
Qed.

(** Two requests of one thread each, the second throttled. *)
Lemma requests_are_spaced_witness : exists w, paced default_settings (start 10) w /\
  sent_of "a" w = [10.15; 10] /\ 10 + 0.15 * inject_Z 1 <= 10.15.
Proof.
  assert (R : exists w, paced default_settings (start 10) w /\ sent_of "a" w = [10.15; 10]).
  { eexists. split.
    - eapply rtn1_trans with (z := {| clock := 10.15; throttle := []; waiting := []; sleeping := []; last_request := [("a"%string, 10.15)];
        sent := [("a"%string, 10.15); ("a"%string, 10)] |}).
      1: exact (pace_wake default_settings {| clock := 10.15; throttle := []; waiting := [];
          sleeping := [("a"%string, 10 + Qmax (0.15 - (10 - 10)) 0)]; last_request := [("a"%string, 10)];
          sent := [("a"%string, 10)] |} "a" (10 + Qmax (0.15 - (10 - 10)) 0) eq_refl ltac:(vm_compute; discriminate)).
      eapply rtn1_trans; [exact (pace_tick default_settings {| clock := 10; throttle := []; waiting := [];
          sleeping := [("a"%string, 10 + Qmax (0.15 - (10 - 10)) 0)]; last_request := [("a"%string, 10)];
          sent := [("a"%string, 10)] |} 10.15 ltac:(vm_compute; discriminate))|].
      eapply rtn1_trans; [exact (pace_lock default_settings {| clock := 10; throttle := []; waiting := [("a"%string, 0.15)];
          sleeping := []; last_request := [("a"%string, 10)]; sent := [("a"%string, 10)] |} [] "a" 0.15 [] eq_refl eq_refl)|].
      eapply rtn1_trans; [exact (pace_ask default_settings {| clock := 10; throttle := []; waiting := [];
          sleeping := []; last_request := [("a"%string, 10)]; sent := [("a"%string, 10)] |} "a" ltac:(vm_compute; reflexivity))|].
      eapply rtn1_trans; [exact (pace_wake default_settings {| clock := 10; throttle := []; waiting := [];
          sleeping := [("a"%string, 10 + Qmax (0.15 - (10 - 0)) 0)]; last_request := []; sent := [] |} "a"
          (10 + Qmax (0.15 - (10 - 0)) 0) eq_refl ltac:(vm_compute; discriminate))|].
      eapply rtn1_trans; [exact (pace_lock default_settings {| clock := 10; throttle := []; waiting := [("a"%string, 0.15)];
          sleeping := []; last_request := []; sent := [] |} [] "a" 0.15 [] eq_refl eq_refl)|].
      eapply rtn1_trans; [exact (pace_ask default_settings (start 10) "a" ltac:(vm_compute; reflexivity))|].
      apply rtn1_refl.
    - reflexivity. }
  destruct R as (w & R & E). exists w. split; [exact R|]. split; [exact E|].
  apply (requests_are_spaced default_settings 10 w "a" 10 10.15 [10] ltac:(vm_compute; reflexivity) R E eq_refl).
Defined.
