(* ===== verification/VolMetrics.v ===== *)
(** Volatility and trend metrics and the macro risk regime
    ([deribit_engine/vol_metrics.py]). Realised volatility, which goes through a
    binary square root, is not modelled. *)

From S2P Require Import Prelude Dec PyStr Utils PyObj Market.
From Stdlib Require Import Sorted.
Local Open Scope Q_scope.
Local Open Scope dec_scope.
Local Open Scope bool_scope.
Local Open Scope outcome_scope.
Local Open Scope list_scope.

Inductive RiskRegime : Type := NORMAL | ELEVATED | CRISIS.

Definition regime_eqb (a b : RiskRegime) : bool :=
  match a, b with NORMAL, NORMAL | ELEVATED, ELEVATED | CRISIS, CRISIS => true | _, _ => false end.

Definition regime_value (r : RiskRegime) : string :=
  match r with NORMAL => "normal" | ELEVATED => "elevated" | CRISIS => "crisis" end.

(** [min] and [max] of a non-empty sequence; [sum], which starts from the integer 0. *)
Definition dmin_list (x : Q) (l : list Q) : Q := fold_left dmin l x.
Definition dmax_list (x : Q) (l : list Q) : Q := fold_left dmax l x.
Definition dsum (l : list Q) : Q := fold_left dadd l 0.

(** [l[-n:]] *)
Definition last_n {A} (n : nat) (l : list A) : list A := if Nat.eqb n 0 then l else skipn (List.length l - n) l.

Definition of_len {A} (l : list A) : Q := inject_Z (Z.of_nat (List.length l)).

(** ** IV rank *)

(** [current_iv - min] over the range of the positive values looked back at. *)
Definition iv_rank (current_iv : Q) (lookback : list Q) : option Q :=
  match filter (fun v => v >? 0) lookback with
  | [] => None
  | v :: r =>
      if current_iv <=? 0 then None
      else
        let lo := dmin_list v r in
        let hi := dmax_list v r in
        if hi <=? lo then None else Some (safe_div (current_iv ⊖ lo) (hi ⊖ lo) 0)
  end.

(** ** Index series *)

Definition point : Type := Z * Q.

Definition nth_obj (n : nat) (l : list pyobj) : pyobj := nth n l PNone.

(** Rows that are not lists of two or more are skipped; a positive close is kept. *)
Fixpoint index_chart_close_series (payload : list pyobj) : outcome (list point) :=
  match payload with
  | [] => Ret []
  | PList row :: rest =>
      if (List.length row <? 2)%nat then index_chart_close_series rest
      else
        let close := to_decimal (if (5 <=? List.length row)%nat then nth_obj 4 row else nth_obj 1 row) 0 in
        if close >? 0 then
          let! ts := py_int (nth_obj 0 row) in
          let! out := index_chart_close_series rest in Ret ((ts, close) :: out)
        else index_chart_close_series rest
  | _ :: rest => index_chart_close_series rest
  end.

(** The UTC day of a timestamp, counted from 1970. *)
Definition utc_day (ts_ms : Z) : Z := (ts_ms / 86400000)%Z.

(** [by_day[day] = price], kept sorted by day: the dictionary is read in key order. *)
Fixpoint put_day (day : Z) (price : Q) (d : list (Z * Q)) : list (Z * Q) :=
  match d with
  | [] => [(day, price)]
  | (k, v) :: r =>
      if (day <? k)%Z then (day, price) :: d
      else if (day =? k)%Z then (day, price) :: r
      else (k, v) :: put_day day price r
  end.

Definition by_day (series : list point) : list (Z * Q) :=
  fold_left (fun d p => if snd p <=? 0 then d else put_day (utc_day (fst p)) (snd p) d) series [].

Definition daily_closes_from_index_series (series : list point) : list Q := map snd (by_day series).

(** The loop from the newest day back; the list is newest first. *)
Fixpoint down_streak (min_day_pct : Q) (newest_first : list Q) : Z :=
  match newest_first with
  | cur :: ((prev :: _) as r) =>
      if prev <=? 0 then 0
      else if (cur ⊘ prev) ⊖ 1 <=? rnd (- min_day_pct) then (1 + down_streak min_day_pct r)%Z
      else 0
  | _ => 0
  end.

Definition consecutive_down_day_count (daily_closes : list Q) (min_day_pct : Q) : Z :=
  if (List.length daily_closes <? 2)%nat || (min_day_pct <? 0) then 0 else down_streak min_day_pct (rev daily_closes).

Definition iv_minus_rv_spread (iv rv : Q) : option Q := if (iv <=? 0) || (rv <=? 0) then None else Some (iv ⊖ rv).

(** ** DVOL candles: [(ts, high, low, close)] *)

Record candle : Type := { candle_ts : Z; high : Q; low : Q; close : Q }.

Fixpoint candles_up_to (rows : list pyobj) (ts_ms : Z) : outcome (list candle) :=
  match rows with
  | [] => Ret []
  | PList row :: rest =>
      if (List.length row <? 5)%nat then candles_up_to rest ts_ms
      else
        let! ts := py_int (nth_obj 0 row) in
        if (ts_ms <? ts)%Z then Ret []
        else
          let h := to_decimal (nth_obj 2 row) 0 in
          let l := to_decimal (nth_obj 3 row) 0 in
          let c := to_decimal (nth_obj 4 row) 0 in
          let! out := candles_up_to rest ts_ms in
          Ret (if (h >? 0) && (l >? 0) && (c >? 0)
               then {| candle_ts := ts; high := h; low := l; close := c |} :: out else out)
  | _ :: rest => candles_up_to rest ts_ms
  end.

Definition _dvol_daily_candles (rows : list pyobj) (ts_ms lookback_days : Z) : outcome (list candle) :=
  let! candles := candles_up_to rows ts_ms in
  Ret (if (lookback_days <=? 0)%Z then [] else last_n (Z.to_nat lookback_days) candles).

Definition last_close (window : list candle) : Q := match rev window with c :: _ => c.(close) | [] => 0 end.

Definition dvol_iv_rank_from_daily_rows (rows : list pyobj) (ts_ms lookback_days : Z) : outcome (option Q) :=
  let! window := _dvol_daily_candles rows ts_ms lookback_days in
  match window with
  | [] => Ret None
  | c :: r =>
      let current := last_close window in
      let yr_lo := dmin_list c.(low) (map low r) in
      let yr_hi := dmax_list c.(high) (map high r) in
      Ret (if yr_hi <=? yr_lo then None else Some (safe_div (current ⊖ yr_lo) (yr_hi ⊖ yr_lo) 0))
  end.

Definition dvol_iv_percentile_from_daily_rows (rows : list pyobj) (ts_ms lookback_days : Z) : outcome (option Q) :=
  let! window := _dvol_daily_candles rows ts_ms lookback_days in
  Ret (if (List.length window <? 2)%nat then None
       else
         let current := last_close window in
         let below := filter (fun c => c.(close) <? current) window in
         Some (safe_div (of_len below) (of_len window) 0)).

(** The points up to [ts_ms] with a positive value. *)
Fixpoint _closes_up_to (series : list point) (end_ts_ms : Z) : list point :=
  match series with
  | [] => []
  | (ts, v) :: r =>
      if (end_ts_ms <? ts)%Z then []
      else if v >? 0 then (ts, v) :: _closes_up_to r end_ts_ms else _closes_up_to r end_ts_ms
  end.

Definition dvol_iv_rank_at_ts (dvol_series : list point) (ts_ms : Z) (lookback_days : nat) : option Q :=
  let points := _closes_up_to dvol_series ts_ms in
  match rev points with
  | [] => None
  | (_, current) :: _ => iv_rank current (map snd (last_n lookback_days points))
  end.

(** ** Trend *)

Definition clamp (signal : Q) : Q := dmax (-1) (dmin 1 signal).

Definition trend_signal_vs_ma (closes : list Q) (ma_window : nat) (ref_pct : Q) : option Q :=
  if (ma_window <? 2)%nat || (List.length closes <? ma_window)%nat then None
  else
    let price := last closes 0 in
    if price <=? 0 then None
    else
      let window := last_n ma_window closes in
      let ma := dsum window ⊘ of_len window in
      if (ma <=? 0) || (ref_pct <=? 0) then None
      else Some (clamp (((price ⊖ ma) ⊘ ma) ⊘ ref_pct)).

Record TrendReading : Type := { signal : Q; deviation : Q; bull_regime : bool }.

Definition trend_signal_from_index_series (series : list point) (end_ts_ms : Z) (ma_window : nat) (ref_pct : Q) : option Q :=
  trend_signal_vs_ma (daily_closes_from_index_series (_closes_up_to series end_ts_ms)) ma_window ref_pct.

Definition trend_reading_from_daily_closes (closes : list Q) (price : Q) (ma_window : nat) (ref_pct : Q)
    (regime_ma_window : nat) : option TrendReading :=
  if (ma_window <? 2)%nat || (List.length closes <? ma_window)%nat || (price <=? 0) || (ref_pct <=? 0) then None
  else
    let short_ma := dsum (last_n ma_window closes) ⊘ inject_Z (Z.of_nat ma_window) in
    if short_ma <=? 0 then None
    else
      let dev := safe_div (price ⊖ short_ma) short_ma 0 in
      let bull :=
        if (2 <=? regime_ma_window)%nat && (regime_ma_window <=? List.length closes)%nat then
          let long_ma := dsum (last_n regime_ma_window closes) ⊘ inject_Z (Z.of_nat regime_ma_window) in
          (long_ma >? 0) && (short_ma >? long_ma)
        else false in
      Some {| signal := clamp (dev ⊘ ref_pct); deviation := dev; bull_regime := bull |}.

Definition trend_reading_from_index_series (series : list point) (end_ts_ms : Z) (ma_window : nat) (ref_pct : Q)
    (regime_ma_window : nat) : option TrendReading :=
  let closes := daily_closes_from_index_series (_closes_up_to series end_ts_ms) in
  match closes with
  | [] => None
  | _ => trend_reading_from_daily_closes closes (last closes 0) ma_window ref_pct regime_ma_window
  end.

(** ** Index returns *)

Definition positive_points (series : list point) : list point := filter (fun p => (0 <? fst p)%Z && (snd p >? 0)) series.

(** The last point at or before the target, in the order of the series. *)
Fixpoint start_point (target_ts : Z) (start : option point) (points : list point) : option point :=
  match points with
  | [] => start
  | p :: r => if (fst p <=? target_ts)%Z then start_point target_ts (Some p) r else start
  end.

Definition index_return_over_lookback (series : list point) (lookback_ms : Z) (min_coverage : Q) : option Q :=
  let points := positive_points series in
  if (lookback_ms <=? 0)%Z || (List.length points <? 2)%nat then None
  else
    let '(end_ts, end_px) := last points (0%Z, 0) in
    match start_point (end_ts - lookback_ms) None points with
    | None => None
    | Some (start_ts, start_px) =>
        if start_px <=? 0 then None
        else if inject_Z (end_ts - start_ts) <? inject_Z lookback_ms ⊗ min_coverage then None
        else Some ((end_px ⊘ start_px) ⊖ 1)
    end.

(** ** Macro regime *)

Record macro_config : Type := {
  index_drawdown_elevated_pct : Q;
  index_drawdown_crisis_pct : Q;
  dvol_elevated_multiplier : Q;
  dvol_crisis_multiplier : Q;
  enable_index_rally_entry_halt : bool;
  index_rally_24h_pct : Q;
  index_rally_48h_pct : Q;
  enable_index_dump_entry_halt : bool;
}.

(** The dump or volatility regime, if any, with its notes. *)
Definition dump_regime (c : macro_config) (return_24h dvol_ratio : Q) : outcome (option (RiskRegime * string)) :=
  if return_24h <=? rnd (- c.(index_drawdown_crisis_pct)) then
    let! r := decimal_text return_24h 8 in
    let! t := decimal_text c.(index_drawdown_crisis_pct) 6 in
    Ret (Some (CRISIS, ("index_24h_drawdown <= -index_drawdown_crisis_pct (" ++ r ++ " <= -" ++ t ++ ")")%string))
  else if dvol_ratio >? c.(dvol_crisis_multiplier) then
    let! r := decimal_text dvol_ratio 6 in
    let! t := decimal_text c.(dvol_crisis_multiplier) 6 in
    Ret (Some (CRISIS, ("dvol_ratio > dvol_crisis_multiplier (" ++ r ++ " > " ++ t ++ ")")%string))
  else if (return_24h <=? rnd (- c.(index_drawdown_elevated_pct))) || (dvol_ratio >? c.(dvol_elevated_multiplier)) then
    let! r := decimal_text return_24h 8 in
    let! v := decimal_text dvol_ratio 6 in
    let! t := decimal_text c.(index_drawdown_elevated_pct) 6 in
    let! u := decimal_text c.(dvol_elevated_multiplier) 6 in
    Ret (Some (ELEVATED, ("elevated: drawdown=" ++ r ++ " dvol_ratio=" ++ v ++ " (thresholds -elevated " ++ t ++ " / " ++ u ++ ")")%string))
  else Ret None.

Definition not_halting_suffix : string := "; dump/dvol not halting entries (ENABLE_INDEX_DUMP_ENTRY_HALT=false)".

Definition rallies (threshold r : Q) : bool := (threshold >? 0) && (r >=? threshold).

Definition classify_macro_regime (c : macro_config) (return_24h dvol_ratio : Q) (return_48h : option Q)
    : outcome (RiskRegime * list string) :=
  let! dump := dump_regime c return_24h dvol_ratio in
  match (if c.(enable_index_dump_entry_halt) then dump else None) with
  | Some (regime, note) => Ret (regime, [note])
  | None =>
      if c.(enable_index_rally_entry_halt) && rallies c.(index_rally_24h_pct) return_24h then
        let! r := decimal_text return_24h 8 in
        let! t := decimal_text c.(index_rally_24h_pct) 6 in
        Ret (ELEVATED, [("index_24h_rally >= index_rally_24h_pct (" ++ r ++ " >= " ++ t ++ ")")%string])
      else
        match (if c.(enable_index_rally_entry_halt) then return_48h else None) with
        | Some r48 =>
            if rallies c.(index_rally_48h_pct) r48 then
              let! r := decimal_text r48 8 in
              let! t := decimal_text c.(index_rally_48h_pct) 6 in
              Ret (ELEVATED, [("index_48h_rally >= index_rally_48h_pct (" ++ r ++ " >= " ++ t ++ ")")%string])
            else Ret (NORMAL, match dump with Some (_, note) => [(note ++ not_halting_suffix)%string] | None => ["market_conditions_normal"%string] end)
        | None => Ret (NORMAL, match dump with Some (_, note) => [(note ++ not_halting_suffix)%string] | None => ["market_conditions_normal"%string] end)
        end
  end.

Definition passes_iv_entry_gate (iv_rank_value iv_minus_rv : option Q) (min_iv_rank max_iv_rank min_iv_minus_rv : Q)
    (gate_enabled : bool) : bool :=
  let below (v : option Q) t := match v with Some x => x <? t | None => false end in
  let above (v : option Q) t := match v with Some x => x >? t | None => false end in
  if negb gate_enabled then true
  else if (min_iv_rank >? 0) && below iv_rank_value min_iv_rank then false
  else if (max_iv_rank >? 0) && (max_iv_rank <? 1) && above iv_rank_value max_iv_rank then false
  else if (min_iv_minus_rv >? 0) && below iv_minus_rv min_iv_minus_rv then false
  else true.

(** ** What the notes of a regime say *)

(** The gates look for substrings of the notes; a note that lacks one character of a
    pattern does not contain it. *)
Definition lacks (c : ascii) : string -> bool := all_chars (fun x => negb (Ascii.eqb x c)).

Lemma lacks_app c s t : lacks c (s ++ t)%string = lacks c s && lacks c t.
Proof. apply all_chars_app. Qed.

Lemma prefix_lacks c sub : forall s, lacks c sub = false -> lacks c s = true -> String.prefix sub s = false.
Proof.
  induction sub as [|a sub IH]; intros [|b s] H L; cbn in *; try discriminate; try reflexivity.
  destruct (ascii_dec a b) as [->|]; [|reflexivity].
  apply andb_true_iff in L. destruct L as [L1 L2]. rewrite L1 in H. cbn in H. now apply IH.
Qed.

Lemma contains_lacks c sub s : lacks c sub = false -> lacks c s = true -> contains sub s = false.
Proof.
  intros H. induction s as [|b s IH]; intros L; cbn [contains].
  - now rewrite (prefix_lacks c).
  - rewrite (prefix_lacks c) by assumption. cbn [orb]. apply IH. now apply andb_true_iff in L.
Qed.

(** The texts of numbers hold digits, a point and a sign. *)
Definition number_char (c : ascii) : bool := is_digit c || Ascii.eqb c "."%char || Ascii.eqb c "-"%char.

Lemma all_digits_number s : all_digits s = true -> all_chars number_char s = true.
Proof. rewrite all_digits_chars. apply all_chars_impl. intros c H. unfold number_char. now rewrite H. Qed.

Lemma decimal_text_chars v places t : decimal_text v places = Ret t -> all_chars number_char t = true.
Proof.
  unfold decimal_text. set (z := Z.abs _). destruct (10 ^ prec <=? z)%Z; [discriminate|]. intros E. injection E as <-.
  assert (Hu : (0 < 10 ^ Z.of_nat places)%Z) by (apply Z.pow_pos_nonneg; lia).
  destruct (print_nat_spec (z / 10 ^ Z.of_nat places)) as (A1 & _); [apply Z.div_pos; lia|].
  destruct (print_fixed_spec places (z mod 10 ^ Z.of_nat places)) as (A2 & _); [apply Z.mod_pos_bound; lia|].
  destruct (rstrip_zeros_spec _ A2) as (k & A3 & _). change (fun c => Ascii.eqb c "0"%char) with is_zero_char in A3.
  rewrite !all_chars_app, (all_digits_number _ A1). set (frac := rstrip_by is_zero_char _) in *.
  destruct (dltb v 0), (is_empty frac); cbn [append all_chars]; rewrite ?(all_digits_number _ A3); reflexivity.
Qed.

Lemma print_int_chars z : all_chars number_char (print_int z) = true.
Proof.
  unfold print_int. destruct (Z.ltb_spec z 0).
  - destruct (print_nat_spec (- z)) as (A & _); [lia|]. cbn [all_chars]. now rewrite (all_digits_number _ A).
  - destruct (print_nat_spec z) as (A & _); [lia | now apply all_digits_number].
Qed.

Lemma number_lacks c s : number_char c = false -> all_chars number_char s = true -> lacks c s = true.
Proof.
  intros N. apply all_chars_impl. intros x Hx. apply negb_true_iff, Ascii.eqb_neq. intros ->. congruence.
Qed.

Definition rally_in (note : string) : bool := contains "index_24h_rally" note || contains "index_48h_rally" note.

Lemma no_rally c note : lacks c "index_24h_rally" = false -> lacks c "index_48h_rally" = false -> lacks c note = true ->
  rally_in note = false.
Proof. intros A B L. unfold rally_in. now rewrite (contains_lacks c _ _ A L), (contains_lacks c _ _ B L). Qed.

(** The severity of the dump and volatility thresholds, and the rally test. *)
Definition dump_severity (c : macro_config) (return_24h dvol_ratio : Q) : RiskRegime :=
  if (return_24h <=? rnd (- c.(index_drawdown_crisis_pct))) || (dvol_ratio >? c.(dvol_crisis_multiplier)) then CRISIS
  else if (return_24h <=? rnd (- c.(index_drawdown_elevated_pct))) || (dvol_ratio >? c.(dvol_elevated_multiplier)) then ELEVATED
  else NORMAL.

Definition rally (c : macro_config) (return_24h : Q) (return_48h : option Q) : bool :=
  c.(enable_index_rally_entry_halt) &&
  (rallies c.(index_rally_24h_pct) return_24h || match return_48h with Some r => rallies c.(index_rally_48h_pct) r | None => false end).

(** Inversion of a chain of binds on decimal texts, keeping what their characters are. *)
Ltac texts H :=
  repeat (let t := fresh "t" in let E := fresh "E" in let C := fresh "C" in
    apply obind_inv in H; destruct H as (t & E & H); apply decimal_text_chars in E).

(** A note built of literals and number texts lacks [c]. *)
Ltac lacking c :=
  repeat match goal with H : all_chars number_char _ = true |- _ => apply (number_lacks c _ eq_refl) in H end;
  unfold lacks in *;
  repeat (cbn [append all_chars Ascii.eqb Bool.eqb negb andb];
    first [reflexivity | rewrite all_chars_app | match goal with H : all_chars _ _ = true |- _ => rewrite H end]).

Lemma dump_regime_spec c r v o : dump_regime c r v = Ret o ->
  match o with
  | None => dump_severity c r v = NORMAL
  | Some (g, note) => dump_severity c r v = g /\ g <> NORMAL /\ (forall s, startswith "data_unavailable" (note ++ s)%string = false) /\ lacks "y"%char note = true
  end.
Proof.
  unfold dump_regime, dump_severity. set (b1 := dleb r (rnd (- c.(index_drawdown_crisis_pct)))).
  set (b2 := dltb c.(dvol_crisis_multiplier) v). set (b3 := dleb r (rnd (- c.(index_drawdown_elevated_pct))) || dltb c.(dvol_elevated_multiplier) v).
  destruct b1; [|destruct b2; [|destruct b3]]; cbn [orb]; intros H.
  4: now injection H as <-.
  all: texts H; injection H as <-; split; [reflexivity|]; split; [discriminate|]; split; [reflexivity|].
  all: lacking "y"%char.
Qed.

(** The regime is that of the dump thresholds when they halt entries, elevated on a
    rally otherwise, and only a rally leaves a rally note. *)
Lemma classify_spec c r v r48 g detail : classify_macro_regime c r v r48 = Ret (g, detail) ->
  let dump := if c.(enable_index_dump_entry_halt) then dump_severity c r v else NORMAL in
  g = (if regime_eqb dump NORMAL then if rally c r r48 then ELEVATED else NORMAL else dump) /\
  existsb rally_in detail = regime_eqb dump NORMAL && rally c r r48 /\
  existsb (startswith "data_unavailable") detail = false.
Proof.
  unfold classify_macro_regime. intros H. apply obind_inv in H. destruct H as (o & E & H). apply dump_regime_spec in E.
  cbn zeta. set (quiet := match o with Some (_, note) => [(note ++ not_halting_suffix)%string] | None => ["market_conditions_normal"%string] end) in H.
  assert (Q : existsb rally_in quiet = false /\ existsb (startswith "data_unavailable") quiet = false).
  { unfold quiet. destruct o as [[g0 note]|]; [|split; reflexivity]. destruct E as (_ & _ & U & L). cbn [existsb]. split.
    - rewrite (no_rally "y"%char); [reflexivity..|]. rewrite lacks_app, L. reflexivity.
    - now rewrite U. }
  destruct Q as [Q1 Q2].
  assert (D : match (if c.(enable_index_dump_entry_halt) then o else None) with
    | Some (g0, note) => (if c.(enable_index_dump_entry_halt) then dump_severity c r v else NORMAL) = g0 /\ g0 <> NORMAL /\
        (forall s, startswith "data_unavailable" (note ++ s)%string = false) /\ lacks "y"%char note = true
    | None => (if c.(enable_index_dump_entry_halt) then dump_severity c r v else NORMAL) = NORMAL end).
  { destruct (enable_index_dump_entry_halt c); [exact E | reflexivity]. }
  destruct (if c.(enable_index_dump_entry_halt) then o else None) as [[g0 note]|].
  - destruct D as (-> & N & U & L). injection H as <- <-. destruct g0; [congruence|..]; cbn [regime_eqb existsb andb];
      specialize (U EmptyString); rewrite append_nil_r in U; rewrite U, (no_rally "y"%char) by (reflexivity || exact L); now repeat split.
  - rewrite D. cbn [regime_eqb andb]. unfold rally.
    destruct (enable_index_rally_entry_halt c); cbn [andb] in *.
    2: { injection H as <- <-. now repeat split. }
    destruct (rallies (index_rally_24h_pct c) r); cbn [orb] in *.
    + texts H. injection H as <- <-. now repeat split.
    + destruct r48 as [r48|]; [|injection H as <- <-; now repeat split].
      destruct (rallies (index_rally_48h_pct c) r48); [texts H|]; injection H as <- <-; [|now repeat split].
      split; [reflexivity|]. split; [|reflexivity]. cbn [existsb]. unfold rally_in.
      apply orb_true_iff. left. apply orb_true_iff. right. reflexivity.
Qed.

(** ** Bounds *)

Lemma dmin_list_le l : forall x, dmin_list x l <= x /\ forall y, In y l -> dmin_list x l <= y.
Proof.
  unfold dmin_list. induction l as [|z l IH]; intros x; [split; [apply Qle_refl | contradiction]|]. cbn [fold_left].
  destruct (IH (dmin x z)) as [A B]. split; [eapply Qle_trans; [exact A | apply dmin_l]|].
  intros y [<-|H]; [eapply Qle_trans; [exact A | apply dmin_r] | now apply B].
Qed.

Lemma dmax_list_ge l : forall x, x <= dmax_list x l /\ forall y, In y l -> y <= dmax_list x l.
Proof.
  unfold dmax_list. induction l as [|z l IH]; intros x; [split; [apply Qle_refl | contradiction]|]. cbn [fold_left].
  destruct (IH (dmax x z)) as [A B]. split; [eapply Qle_trans; [apply dmax_l | exact A]|].
  intros y [<-|H]; [eapply Qle_trans; [apply dmax_r | exact A] | now apply B].
Qed.

Lemma dmin_list_in x l y : In y (x :: l) -> dmin_list x l <= y.
Proof. intros [<-|H]; [exact (proj1 (dmin_list_le l x)) | exact (proj2 (dmin_list_le l x) y H)]. Qed.

Lemma dmax_list_in x l y : In y (x :: l) -> y <= dmax_list x l.
Proof. intros [<-|H]; [exact (proj1 (dmax_list_ge l x)) | exact (proj2 (dmax_list_ge l x) y H)]. Qed.

Definition unit_interval (q : Q) : Prop := 0 <= q <= 1.

Lemma safe_div_unit a b d : unit_interval d -> 0 <= a -> a <= b -> unit_interval (safe_div a b d).
Proof.
  intros D A B. unfold safe_div. destruct (deqb_spec b 0) as [|N]; [exact D|].
  split; [apply ddiv_nonneg; lra | apply ddiv_le_1; [exact A | exact B | lra]].
Qed.

Lemma rank_unit lo hi cur : lo <= cur -> cur <= hi -> unit_interval (safe_div (cur ⊖ lo) (hi ⊖ lo) 0).
Proof.
  intros L H. apply safe_div_unit; [split; lra | now apply dsub_nonneg | apply dsub_mono; [exact H | apply Qle_refl]].
Qed.

Lemma iv_rank_unit cur lookback q : In cur lookback -> iv_rank cur lookback = Some q -> unit_interval q.
Proof.
  intros I. unfold iv_rank. destruct (filter (fun v => v >? 0) lookback) as [|v r] eqn:F; [discriminate|].
  destruct (dleb_spec cur 0) as [|P]; [discriminate|].
  assert (C : In cur (v :: r)) by (rewrite <- F; apply filter_In; split; [exact I | apply dltb_true; lra]).
  cbn zeta. destruct (dleb _ _); [discriminate|]. intros E. injection E as <-.
  apply rank_unit; [now apply dmin_list_in | now apply dmax_list_in].
Qed.

Lemma last_n_last {A} n (l : list A) x r : rev l = x :: r -> In x (last_n n l).
Proof.
  intros E. assert (L : l = (rev r ++ [x])%list) by (rewrite <- (rev_involutive l), E; reflexivity). subst l.
  unfold last_n. destruct (Nat.eqb_spec n 0) as [|N]; [apply in_elt|]. rewrite length_app. cbn [List.length].
  rewrite skipn_app. apply in_or_app. right. replace (List.length (rev r) + 1 - n - List.length (rev r))%nat with 0%nat by lia. now left.
Qed.

Lemma rank_at_ts_unit series ts lookback q : dvol_iv_rank_at_ts series ts lookback = Some q -> unit_interval q.
Proof.
  unfold dvol_iv_rank_at_ts. destruct (rev (_closes_up_to series ts)) as [|[t cur] r] eqn:E; [discriminate|].
  apply iv_rank_unit. change cur with (snd (t, cur)). apply in_map. exact (last_n_last _ _ _ _ E).
Qed.

(** A candle whose close lies between its low and its high. *)
Definition sane (c : candle) : Prop := c.(low) <= c.(close) <= c.(high).

Lemma last_close_in w c r : w = c :: r -> exists k, In k w /\ last_close w = k.(close).
Proof.
  intros ->. unfold last_close. destruct (rev (c :: r)) as [|k s] eqn:E.
  - apply (f_equal (@List.length candle)) in E. rewrite length_rev in E. discriminate.
  - exists k. split; [|reflexivity]. apply in_rev. rewrite E. now left.
Qed.

Lemma rank_from_rows_unit rows ts days w q : _dvol_daily_candles rows ts days = Ret w -> Forall sane w ->
  dvol_iv_rank_from_daily_rows rows ts days = Ret (Some q) -> unit_interval q.
Proof.
  intros E S. unfold dvol_iv_rank_from_daily_rows. rewrite E, obind_ret. destruct w as [|c r]; [discriminate|]. cbn zeta.
  destruct (last_close_in _ c r eq_refl) as (k & I & ->). destruct (dleb _ _); [discriminate|]. intros H. injection H as <-.
  rewrite Forall_forall in S. destruct (S k I) as [L H]. apply rank_unit.
  - eapply Qle_trans; [|exact L]. apply (dmin_list_in c.(low) (map low r)). exact (in_map low (c :: r) k I).
  - eapply Qle_trans; [exact H|]. apply (dmax_list_in c.(high) (map high r)). exact (in_map high (c :: r) k I).
Qed.

Lemma of_len_nonneg {A} (l : list A) : 0 <= of_len l.
Proof. unfold of_len. change 0 with (inject_Z 0). rewrite <- Zle_Qle. lia. Qed.

Lemma percentile_unit rows ts days q : dvol_iv_percentile_from_daily_rows rows ts days = Ret (Some q) -> unit_interval q.
Proof.
  unfold dvol_iv_percentile_from_daily_rows. intros H. apply obind_inv in H. destruct H as (w & _ & H).
  destruct (_ <? 2)%nat; [discriminate|]. injection H as <-. apply safe_div_unit; [split; lra | apply of_len_nonneg|].
  unfold of_len. rewrite <- Zle_Qle. pose proof (filter_length_le (fun c => dltb c.(close) (last_close w)) w). lia.
Qed.

Lemma clamp_bounds q : -1 <= clamp q <= 1.
Proof.
  unfold clamp. split; [apply dmax_l|]. apply dmax_lub; [lra | apply dmin_l].
Qed.

Lemma trend_bounds closes price w p m t : trend_reading_from_daily_closes closes price w p m = Some t -> -1 <= t.(signal) <= 1.
Proof.
  unfold trend_reading_from_daily_closes. destruct (_ || _ || _ || _); [discriminate|]. cbn zeta. destruct (dleb _ _); [discriminate|].
  intros H. injection H as <-. apply clamp_bounds.
Qed.

Lemma trend_signal_bounds closes w p q : trend_signal_vs_ma closes w p = Some q -> -1 <= q <= 1.
Proof.
  unfold trend_signal_vs_ma. destruct (_ || _); [discriminate|]. cbn zeta. destruct (dleb _ _); [discriminate|].
  destruct (_ || _); [discriminate|]. intros H. injection H as <-. apply clamp_bounds.
Qed.

(** ** The down streak *)

(** Day [i], counted back from the newest, closed at least [pct] below the day before. *)
Definition down_day (pct : Q) (newest_first : list Q) (i : nat) : Prop :=
  0 < nth (S i) newest_first 0 /\ (nth i newest_first 0 ⊘ nth (S i) newest_first 0) ⊖ 1 <= rnd (- pct).

Lemma down_streak_spec pct l : exists n : nat, down_streak pct l = Z.of_nat n /\
  (forall i, (i < n)%nat -> down_day pct l i) /\
  (n <= List.length l - 1)%nat /\ ((S n < List.length l)%nat -> ~ down_day pct l n).
Proof.
  induction l as [|cur [|prev r] IH].
  1-2: exists 0%nat; split; [reflexivity|]; split; [intros i H; lia|]; split; [lia | cbn [List.length]; lia].
  change (down_streak pct (cur :: prev :: r)) with (if prev <=? 0 then 0%Z
    else if (cur ⊘ prev) ⊖ 1 <=? rnd (- pct) then (1 + down_streak pct (prev :: r))%Z else 0%Z).
  destruct (dleb_spec prev 0) as [P|P].
  { exists 0%nat. split; [reflexivity|]. split; [intros i H; lia|]. split; [lia|]. intros _ [Hp _]. cbn [nth] in Hp. lra. }
  destruct (dleb_spec ((cur ⊘ prev) ⊖ 1) (rnd (- pct))) as [D|D].
  - destruct IH as (n & -> & A & L & M). exists (S n). cbn [List.length] in *. split; [lia|]. split; [|split; [lia|]].
    + intros [|i] H; [split; [cbn [nth]; lra | exact D] | apply (A i); lia].
    + intros H K. apply M; [lia | exact K].
  - exists 0%nat. split; [reflexivity|]. split; [intros i H; lia|]. split; [lia|]. intros _ [_ Hd]. exact (D Hd).
Qed.

(** Every reading the entry logic scales with is bounded: the volatility rank of a
    series always lies in the unit interval, that of daily candles when each close lies
    between its low and high, the percentile always, and the trend signals between
    minus one and one. *)
Theorem vol_readings_bounded rows series ts days window closes price w p m :
  _dvol_daily_candles rows ts days = Ret window -> Forall sane window ->
  (forall q, dvol_iv_rank_at_ts series ts (Z.to_nat days) = Some q -> unit_interval q) /\
  (forall q, dvol_iv_rank_from_daily_rows rows ts days = Ret (Some q) -> unit_interval q) /\
  (forall q, dvol_iv_percentile_from_daily_rows rows ts days = Ret (Some q) -> unit_interval q) /\
  (forall q, trend_signal_vs_ma closes w p = Some q -> -1 <= q <= 1) /\
  (forall t, trend_reading_from_daily_closes closes price w p m = Some t -> -1 <= t.(signal) <= 1).
Proof.
  intros E S. split; [apply rank_at_ts_unit|]. split; [intros q; exact (rank_from_rows_unit rows ts days window q E S)|].
  split; [apply percentile_unit|]. split; [apply trend_signal_bounds | apply trend_bounds].
Qed.

Definition sample_row (ts : Z) (h l c : Q) : pyobj := PList [PInt ts; PDec c; PDec h; PDec l; PDec c].

Lemma vol_readings_bounded_witness :
  exists q, dvol_iv_rank_from_daily_rows [sample_row 1 60 40 50; sample_row 2 58 45 55] 2 365 = Ret (Some q) /\ unit_interval q.
Proof.
  destruct (_dvol_daily_candles [sample_row 1 60 40 50; sample_row 2 58 45 55] 2 365) as [w| |] eqn:E; [|exfalso; revert E; vm_compute; discriminate..].
  destruct (vol_readings_bounded [sample_row 1 60 40 50; sample_row 2 58 45 55] [] 2 365 w [] 0 20 0.05 100 E) as (_ & H & _).
  - revert E. vm_compute. intros K. injection K as <-. repeat constructor; vm_compute; discriminate.
  - destruct (dvol_iv_rank_from_daily_rows [sample_row 1 60 40 50; sample_row 2 58 45 55] 2 365) as [[q|]| |] eqn:R;
      [|exfalso; revert R; vm_compute; discriminate..].
    exists q. split; [reflexivity | exact (H q eq_refl)].
Defined.

(** The down streak is the longest run of down days at the end of the series: with
    two closes or more and a threshold that is not negative, it counts the newest [n]
    days, each of which fell by at least the threshold, and the day before them, if
    there is one, did not. *)
Theorem down_streak_is_maximal closes pct : (2 <= List.length closes)%nat -> 0 <= pct ->
  exists n : nat, consecutive_down_day_count closes pct = Z.of_nat n /\
    (forall i, (i < n)%nat -> down_day pct (rev closes) i) /\
    (n <= List.length closes - 1)%nat /\ ((S n < List.length closes)%nat -> ~ down_day pct (rev closes) n).
Proof.
  intros L P. unfold consecutive_down_day_count. destruct (Nat.ltb_spec (List.length closes) 2); [lia|].
  destruct (dltb_spec pct 0); [lra|]. rewrite <- (length_rev closes). apply down_streak_spec.
Qed.

Lemma down_streak_is_maximal_witness : exists n : nat, consecutive_down_day_count [100; 90; 91; 80; 70] 0.05 = Z.of_nat n /\ n = 2%nat.
Proof.
  destruct (down_streak_is_maximal [100; 90; 91; 80; 70] 0.05) as (n & E & _); [cbn; lia | lra|].
  exists n. split; [exact E|]. revert E. vm_compute. intros E. apply Nat2Z.inj. exact (eq_sym E).
Defined.
