(* ===== verification/EntryGates.v ===== *)
(** Entry gates ([deribit_engine/entry_gates.py]) and the portfolio snapshot they
    read ([PortfolioSnapshot] of [models.py]): cooldown after an entry, group counts,
    and which underlyings and books may open new risk. *)

From S2P Require Import Prelude Dec PyStr Utils Group Ledger PyObj StateJson Market VolMetrics.
Local Open Scope Q_scope.
Local Open Scope bool_scope.
Local Open Scope list_scope.

Record PortfolioSnapshot : Type := {
  total_equity_usdc : Q;
  snap_day_start_equity_usdc : Q;
  day_net_flow_usdc : Q;
  day_pnl_usdc_ex_flow : Q;
  day_drawdown_pct : Q;
  open_max_loss : Q;
  open_max_loss_pct : Q;
  initial_margin_ratio : Q;
  maintenance_margin_ratio : Q;
  projected_max_profit_run_rate_usdc : Q;
  projected_max_profit_apr : Q;
  target_progress_ratio : Q;
  regime : RiskRegime;
  halt_new_entries : bool;
  hard_derisk : bool;
  snap_cooldown_until_ms : option Z;
  cooling_down : bool;
  delta_totals_by_currency : dict Q;
  regime_by_currency : dict RiskRegime;
  halt_entry_reasons : list string;
  regime_detail_by_currency : dict (list string);
  margin_ratios_by_currency : dict (Q * Q);
  equity_by_book : dict Q;
  snap_day_start_equity_by_book : dict Q;
  snap_day_net_flow_usdc_by_book : dict Q;
  day_pnl_usdc_ex_flow_by_book : dict Q;
  day_pnl_usdc_ex_flow_ex_spot : Q;
  day_pnl_usdc_ex_flow_ex_spot_by_book : dict Q;
  day_drawdown_pct_by_book : dict Q;
  snap_cooldown_until_ms_by_book : dict (option Z);
  cooling_down_by_book : dict bool;
  hard_derisk_by_book : dict bool;
  halt_entries_by_book : dict bool;
  halt_entry_reasons_by_book : dict (list string);
  halt_new_entries_by_currency : dict bool;
  portfolio_wide_entry_halt : bool;
}.

Definition PAUSE_NEW_ENTRIES_REASON : string := "pause_new_entries".

(** [d.get(k, default)] *)
Definition get_or {A} (k : string) (default : A) (d : dict A) : A :=
  match dict_get k d with Some v => v | None => default end.

(** ** Pacing of entries *)

Definition last_entry_timestamp_ms_by_book (groups : list TradeGroup) : dict Z :=
  fold_left (fun out g =>
    if (g.(entry_timestamp_ms) <=? 0)%Z then out
    else dict_set (collateral_book g) (Z.max (get_or (collateral_book g) 0%Z out) g.(entry_timestamp_ms)) out)
    groups [].

Definition entry_cooldown_active (book : string) (last_entry_by_book : dict Z) (now_ms cooldown_minutes : Z) : bool :=
  if (cooldown_minutes <=? 0)%Z then false
  else
    let last_ms := get_or (upper book) 0%Z last_entry_by_book in
    if (last_ms <=? 0)%Z then false else (now_ms - last_ms <? cooldown_minutes * 60 * 1000)%Z.

Definition open_group_count_for_book (groups : list TradeGroup) (book : string) (strat : option string) : nat :=
  List.length (filter (fun g =>
    String.eqb g.(status) "open" && String.eqb (collateral_book g) (upper book)
    && match strat with Some s => String.eqb (strip g.(strategy)) s | None => true end) groups).

(** ** Regime gates *)

Definition _is_index_rally_detail (regime_detail : list string) : bool :=
  existsb (fun note => contains "index_24h_rally" note || contains "index_48h_rally" note) regime_detail.

Definition unavailable (regime_detail : list string) : bool := existsb (startswith "data_unavailable") regime_detail.

Definition regime_blocks_new_entries (r : RiskRegime) (regime_detail : list string) (allow_elevated_entry : bool) : bool :=
  if unavailable regime_detail then true
  else if regime_eqb r CRISIS then true
  else if _is_index_rally_detail regime_detail then true
  else if regime_eqb r NORMAL then false
  else if regime_eqb r ELEVATED && allow_elevated_entry then false
  else true.

Definition currency_entry_halt_reasons (currency : string) (r : RiskRegime) (regime_detail : list string)
    (crisis_open_group hard_derisk_on_crisis_open_group allow_elevated_entry : bool) : list string :=
  let ccy := upper currency in
  let reasons :=
    if regime_blocks_new_entries r regime_detail allow_elevated_entry then
      if unavailable regime_detail then [(ccy ++ ": regime data_unavailable")%string]
      else if negb (regime_eqb r NORMAL) then [(ccy ++ ": regime=" ++ regime_value r)%string]
      else []
    else [] in
  if hard_derisk_on_crisis_open_group && crisis_open_group
  then reasons ++ [(ccy ++ ": open_trade_group_in_crisis_regime")%string] else reasons.

Definition nonempty {A} (l : list A) : bool := match l with [] => false | _ => true end.

Definition build_halt_new_entries_by_currency (managed_currencies : list string) (regimes : dict RiskRegime)
    (details : dict (list string)) (crisis_currencies_with_open_groups : list string)
    (hard_derisk_on_crisis_open_group portfolio_blocks_all allow_elevated_entry : bool) : dict bool :=
  fold_left (fun out currency =>
    let ccy := upper currency in
    let reasons := currency_entry_halt_reasons ccy (get_or ccy CRISIS regimes) (get_or ccy [] details)
      (mem_str ccy crisis_currencies_with_open_groups) hard_derisk_on_crisis_open_group allow_elevated_entry in
    dict_set ccy (portfolio_blocks_all || nonempty reasons) out) managed_currencies [].

(** ** Candidates: their [currency] and [collateral_currency] *)

Definition candidate_book_entry_halted (s : PortfolioSnapshot) (collateral_ccy ccy : string) : bool :=
  let book := upper (str_or collateral_ccy ccy) in
  if is_empty book then false else get_or book false s.(halt_entries_by_book).

Definition underlying_entry_halted (s : PortfolioSnapshot) (underlying : string) : bool :=
  let ccy := upper underlying in
  if is_empty ccy then true
  else if s.(portfolio_wide_entry_halt) then true
  else get_or ccy true s.(halt_new_entries_by_currency).

Definition candidate_entry_halted (s : PortfolioSnapshot) (collateral_ccy ccy : string) : bool :=
  if is_empty (upper ccy) then true
  else if underlying_entry_halted s (upper ccy) then true
  else candidate_book_entry_halted s collateral_ccy ccy.

Definition usdc_linear_underlyings (scan_underlyings : list string) : list string :=
  filter (fun ccy => mem_str ccy (map upper scan_underlyings)) ["BTC"%string; "ETH"%string].

Definition append_underlying_regime_halt_reasons_for_usdc_book (halt_reasons_by_book : dict (list string))
    (scan_underlyings : list string) (halts : dict bool) (regimes : dict RiskRegime) : dict (list string) :=
  let reasons := fold_left (fun reasons ccy =>
      if negb (get_or ccy false halts) then reasons
      else
        let line := ("underlying " ++ ccy ++ ": entry halted (regime=" ++ regime_value (get_or ccy CRISIS regimes) ++ ")")%string in
        if mem_str line reasons then reasons else reasons ++ [line])
    (usdc_linear_underlyings scan_underlyings) (get_or "USDC" [] halt_reasons_by_book) in
  dict_set "USDC" reasons halt_reasons_by_book.

(** ** Which gates are closed *)

Lemma regime_eqb_spec a b : reflect (a = b) (regime_eqb a b).
Proof. destruct a, b; constructor; congruence. Qed.

(** A currency has a halt reason exactly when its regime blocks entries with a
    regime that is reported, or a group of its own is open in a crisis. *)
Lemma halt_reasons_nonempty ccy r detail crisis_open derisk allow :
  nonempty (currency_entry_halt_reasons ccy r detail crisis_open derisk allow) =
  (regime_blocks_new_entries r detail allow && (unavailable detail || negb (regime_eqb r NORMAL))) || derisk && crisis_open.
Proof.
  unfold currency_entry_halt_reasons. destruct (regime_blocks_new_entries r detail allow), (unavailable detail), (regime_eqb r NORMAL),
    derisk, crisis_open; reflexivity.
Qed.

Section Halts.
Variables (regimes : dict RiskRegime) (details : dict (list string)) (open_in_crisis : list string).
Variables (derisk all_blocked allow : bool).

Definition halted (ccy : string) : bool :=
  all_blocked || nonempty (currency_entry_halt_reasons ccy (get_or ccy CRISIS regimes) (get_or ccy [] details)
    (mem_str ccy open_in_crisis) derisk allow).

Lemma build_halt_fold ms : forall acc ccy,
  dict_get ccy (fold_left (fun out c => dict_set (upper c) (halted (upper c)) out) ms acc) =
  if mem_str ccy (map upper ms) then Some (halted ccy) else dict_get ccy acc.
Proof.
  induction ms as [|m r IH]; intros acc ccy; [reflexivity|]. cbn [fold_left map]. rewrite IH, dict_get_set.
  change (mem_str ccy (upper m :: map upper r)) with (String.eqb ccy (upper m) || mem_str ccy (map upper r)).
  destruct (String.eqb_spec ccy (upper m)) as [->|_]; cbn [orb]; now destruct (mem_str _ _).
Qed.

Lemma build_halt_get ms ccy :
  dict_get ccy (build_halt_new_entries_by_currency ms regimes details open_in_crisis derisk all_blocked allow) =
  if mem_str ccy (map upper ms) then Some (halted ccy) else None.
Proof. exact (build_halt_fold ms [] ccy). Qed.
End Halts.
