(* ===== verification/Regime.v ===== *)
(** The risk regime of an underlying ([deribit_engine/engine/regime.py] and the macro
    feeds of [engine/base.py]): index and volatility feeds, the cache of the last
    regime, the down-streak rule of naked puts, and what the entry gates make of it.
    The exchange's public endpoints are a parameter; an exception of the client is
    [None]. The order book probe of [strategy.py] enters as its verdict. *)

From S2P Require Import Prelude Sorting Dec PyStr Utils PyObj StateJson Market VolMetrics EntryGates.
Local Open Scope Q_scope.
Local Open Scope dec_scope.
Local Open Scope bool_scope.
Local Open Scope outcome_scope.
Local Open Scope list_scope.

(** ** Configuration *)

Record regime_config : Type := {
  macro : macro_config;
  option_strategy : string;
  enable_short_put : bool;
  naked_entry_down_streak_days : Z;
  naked_entry_down_day_pct : Q;
  naked_allow_elevated_entry : bool;
}.

Definition naked_put_blocks_on_down_streak (c : regime_config) : bool :=
  String.eqb c.(option_strategy) "naked_short" && c.(enable_short_put) && (2 <=? c.(naked_entry_down_streak_days))%Z.

Definition allows_elevated_entry (c : regime_config) : bool :=
  if String.eqb c.(option_strategy) "covered_call" then true
  else if String.eqb c.(option_strategy) "naked_short" then c.(naked_allow_elevated_entry)
  else false.

(** ** Feeds *)

(** [get_index_chart_data(index_name, range_name)] and the rows of
    [get_volatility_index_data(currency)] over the last 30 days. *)
Record feeds : Type := {
  index_chart : string -> string -> option (list pyobj);
  volatility_rows : string -> option (list (list pyobj));
}.

Definition index_names (currency : string) : list string := [(lower currency ++ "_usdc")%string; (lower currency ++ "_usd")%string].

(** [row[1]] *)
Definition item_1 (row : pyobj) : outcome pyobj :=
  match row with
  | PList (_ :: x :: _) => Ret x
  | PList _ => Exn IndexError
  | PStr (String _ (String x _)) => Ret (PStr (String x EmptyString))
  | PStr _ => Exn IndexError
  | PDict _ => Exn KeyError
  | _ => Exn TypeError
  end.

Fixpoint drawdown_loop (f : feeds) (names : list string) : outcome (option Q) :=
  match names with
  | [] => Ret None
  | name :: rest =>
      match f.(index_chart) name "1d" with
      | None | Some [] => drawdown_loop f rest
      | Some (p :: points) =>
          if (2 <=? List.length (p :: points))%nat then
            let! first := item_1 p in
            let! final := item_1 (last points p) in
            let start_price := to_decimal first 0 in
            let end_price := to_decimal final 0 in
            if start_price >? 0 then Ret (Some ((end_price ⊘ start_price) ⊖ 1)) else drawdown_loop f rest
          else drawdown_loop f rest
      end
  end.

Definition _index_drawdown_24h (f : feeds) (currency : string) : outcome (option Q) := drawdown_loop f (index_names currency).

Definition INDEX_RETURN_48H_MS : Z := (48 * 3600000)%Z.

Fixpoint return_48h_loop (f : feeds) (names : list string) : outcome (option Q) :=
  match names with
  | [] => Ret None
  | name :: rest =>
      match f.(index_chart) name "1w" with
      | None => return_48h_loop f rest
      | Some points =>
          let! series := index_chart_close_series points in
          match index_return_over_lookback series INDEX_RETURN_48H_MS 0.90 with
          | Some ret => Ret (Some ret)
          | None => return_48h_loop f rest
          end
      end
  end.

Definition _index_return_48h (c : regime_config) (f : feeds) (currency : string) : outcome (option Q) :=
  if negb c.(macro).(enable_index_rally_entry_halt) then Ret None else return_48h_loop f (index_names currency).

Definition sorted : list Q -> list Q := sort_up (fun x => x).

Definition closes_of (rows : list (list pyobj)) : list Q :=
  map (fun row => to_decimal (nth_obj 4 row) 0) (filter (fun row => (5 <=? List.length row)%nat) rows).

Definition median (closes : list Q) : Q :=
  let s := sorted closes in
  let midpoint := Nat.div2 (List.length s) in
  if Nat.odd (List.length s) then nth midpoint s 0 else (nth (midpoint - 1) s 0 ⊕ nth midpoint s 0) ⊘ 2.

Definition _dvol_ratio (f : feeds) (currency : string) : option Q :=
  match f.(volatility_rows) currency with
  | None => None
  | Some rows =>
      match closes_of rows with
      | [] => None
      | c :: r => let m := median (c :: r) in if m <=? 0 then None else Some (last (c :: r) 0 ⊘ m)
      end
  end.

Fixpoint daily_loop (f : feeds) (names : list string) : outcome (option (list Q)) :=
  match names with
  | [] => Ret None
  | name :: rest =>
      match f.(index_chart) name "1y" with
      | None => daily_loop f rest
      | Some points =>
          let! series := index_chart_close_series points in
          match daily_closes_from_index_series series with
          | [] => daily_loop f rest
          | daily => Ret (Some daily)
          end
      end
  end.

Definition _index_daily_closes (f : feeds) (currency : string) : outcome (option (list Q)) := daily_loop f (index_names currency).

(** ** The regime and its cache *)

(** [_last_regime_cache]: the regime and when it was seen. *)
Definition regime_cache : Type := dict (RiskRegime * Z).

Definition missing_feeds (drawdown dvol_ratio : option Q) : list string :=
  (match drawdown with None => ["index_chart_data"%string] | _ => [] end) ++
  (match dvol_ratio with None => ["volatility_index_data"%string] | _ => [] end).

Definition unavailable_detail (note : string) (drawdown dvol_ratio : option Q) (tail : string) : list string :=
  [(note ++ "(" ++ join "," (missing_feeds drawdown dvol_ratio) ++ ")" ++ tail)%string].

Definition _regime_from_macro_feeds (c : regime_config) (f : feeds) (now_ms : Z) (cache : regime_cache) (currency : string)
    (drawdown dvol_ratio : option Q) (unavailable_default : RiskRegime) (unavailable_note : string)
    : outcome (RiskRegime * list string * regime_cache) :=
  match drawdown, dvol_ratio with
  | Some d, Some v =>
      let! return_48h := (if c.(macro).(enable_index_rally_entry_halt) then _index_return_48h c f currency else Ret None) in
      let! (r, detail) := classify_macro_regime c.(macro) d v return_48h in
      Ret (r, detail, dict_set currency (r, now_ms) cache)
  | _, _ =>
      match dict_get currency cache with
      | Some (cached_regime, _) =>
          Ret (cached_regime, unavailable_detail unavailable_note drawdown dvol_ratio ("; using cached regime=" ++ regime_value cached_regime)%string, cache)
      | None =>
          Ret (unavailable_default, unavailable_detail unavailable_note drawdown dvol_ratio ("; defaulting to " ++ regime_value unavailable_default)%string, cache)
      end
  end.

Definition _naked_consecutive_down_elevated (c : regime_config) (f : feeds) (currency : string) : outcome (option string) :=
  if negb (naked_put_blocks_on_down_streak c) then Ret None
  else
    let! daily := _index_daily_closes f currency in
    match daily with
    | None => Ret None
    | Some daily =>
        if (List.length daily <? 2)%nat then Ret None
        else
          let needed := c.(naked_entry_down_streak_days) in
          let streak := consecutive_down_day_count daily c.(naked_entry_down_day_pct) in
          if (streak <? needed)%Z then Ret None
          else
            let! pct := decimal_text c.(naked_entry_down_day_pct) 4 in
            Ret (Some ("naked_consecutive_down_days: streak=" ++ print_int streak ++ " >= " ++ print_int needed
                       ++ " (each <= -" ++ pct ++ ")")%string)
    end.

Definition _apply_naked_down_streak_regime (c : regime_config) (f : feeds) (now_ms : Z) (cache : regime_cache) (currency : string)
    (r : RiskRegime) (detail : list string) : outcome (RiskRegime * list string * regime_cache) :=
  if negb (regime_eqb r NORMAL) then Ret (r, detail, cache)
  else
    let! down := _naked_consecutive_down_elevated c f currency in
    match down with
    | None => Ret (r, detail, cache)
    | Some note => Ret (ELEVATED, [note], dict_set currency (ELEVATED, now_ms) cache)
    end.

(** The feeds are read, then the macro regime, then the down streak. *)
Definition regime_from_feeds (c : regime_config) (f : feeds) (now_ms : Z) (cache : regime_cache) (currency : string)
    (unavailable_default : RiskRegime) (unavailable_note : string) : outcome (RiskRegime * list string * regime_cache) :=
  let! drawdown := _index_drawdown_24h f currency in
  let dvol_ratio := _dvol_ratio f currency in
  let! (r, detail, cache) :=
    _regime_from_macro_feeds c f now_ms cache currency drawdown dvol_ratio unavailable_default unavailable_note in
  _apply_naked_down_streak_regime c f now_ms cache currency r detail.

Definition _macro_regime_with_detail (c : regime_config) (f : feeds) (now_ms : Z) (cache : regime_cache) (currency : string)
    : outcome (RiskRegime * list string * regime_cache) :=
  regime_from_feeds c f now_ms cache currency ELEVATED "data_unavailable".

Definition _determine_regime_for_dashboard (c : regime_config) (f : feeds) (now_ms : Z) (cache : regime_cache) (currency : string)
    : outcome (RiskRegime * list string * regime_cache) :=
  regime_from_feeds c f now_ms cache currency NORMAL "dashboard:data_unavailable".

(** [markets] is whether any option is listed, [liquidity] the verdict of the probe
    and its notes. *)
Definition _determine_regime_with_detail (c : regime_config) (f : feeds) (now_ms : Z) (cache : regime_cache) (currency : string)
    (markets : bool) (liquidity : bool * list string) : outcome (RiskRegime * list string * regime_cache) :=
  if negb markets then Ret (CRISIS, ["no_option_markets_loaded_for_currency"%string], cache)
  else if negb (fst liquidity) then Ret (CRISIS, "core_entry_liquidity_check_failed"%string :: snd liquidity, cache)
  else _macro_regime_with_detail c f now_ms cache currency.

(** ** What the gates make of the regime *)

Lemma index_rally_detail detail : _is_index_rally_detail detail = existsb rally_in detail.
Proof. reflexivity. Qed.

Lemma down_note c f currency note : _naked_consecutive_down_elevated c f currency = Ret (Some note) ->
  rally_in note = false /\ startswith "data_unavailable" note = false.
Proof.
  unfold _naked_consecutive_down_elevated. destruct (negb _); [discriminate|]. intros H.
  apply obind_inv in H. destruct H as ([daily|] & _ & H); [|discriminate].
  destruct (_ <? 2)%nat; [discriminate|]. destruct (_ <? _)%Z; [discriminate|].
  texts H. injection H as <-.
  pose proof (print_int_chars (consecutive_down_day_count daily c.(naked_entry_down_day_pct))) as C1.
  pose proof (print_int_chars c.(naked_entry_down_streak_days)) as C2.
  generalize dependent (print_int (consecutive_down_day_count daily c.(naked_entry_down_day_pct))). intros n1 C1.
  generalize dependent (print_int c.(naked_entry_down_streak_days)). intros n2 C2.
  assert (I : lacks "i"%char (n1 ++ " >= " ++ n2 ++ " (each <= -" ++ t ++ ")")%string = true) by lacking "i"%char.
  split; [|reflexivity]. unfold rally_in.
  change (contains "index_24h_rally" (n1 ++ " >= " ++ n2 ++ " (each <= -" ++ t ++ ")")
          || contains "index_48h_rally" (n1 ++ " >= " ++ n2 ++ " (each <= -" ++ t ++ ")") = false).
  now rewrite !(contains_lacks "i"%char).
Qed.

(** The entries blocked, as a reference: with both feeds, a crisis, a rally, or an
    elevated reading (dump, volatility, or down streak) where it is not allowed; with
    one missing, always, unless the cached regime is normal and a down streak, allowed
    as elevated, takes its place. *)
Definition blocked_reference (c : macro_config) (feeds_seen : option (Q * Q)) (return_48h : option Q) (last_regime : RiskRegime)
    (down allow : bool) : bool :=
  match feeds_seen with
  | Some (return_24h, dvol_ratio) =>
      let dump := if c.(enable_index_dump_entry_halt) then dump_severity c return_24h dvol_ratio else NORMAL in
      let rallying := regime_eqb dump NORMAL && rally c return_24h return_48h in
      regime_eqb dump CRISIS || rallying || ((regime_eqb dump ELEVATED || down) && negb allow)
  | None => negb (regime_eqb last_regime NORMAL && down && allow)
  end.

Definition both (a b : option Q) : option (Q * Q) := match a, b with Some x, Some y => Some (x, y) | _, _ => None end.

Definition last_regime_of (cache : regime_cache) (currency : string) : RiskRegime :=
  match dict_get currency cache with Some (r, _) => r | None => ELEVATED end.

Definition is_some {A} (o : option A) : bool := match o with Some _ => true | None => false end.

Lemma blocks_cases r detail allow : unavailable detail = false ->
  regime_blocks_new_entries r detail allow =
  regime_eqb r CRISIS || existsb rally_in detail || (regime_eqb r ELEVATED && negb allow).
Proof.
  intros U. unfold regime_blocks_new_entries. rewrite U, index_rally_detail. destruct r, (existsb rally_in detail), allow; reflexivity.
Qed.

Lemma down_streak_gate c f now_ms cache currency r detail r' detail' cache' down :
  _naked_consecutive_down_elevated c f currency = Ret down ->
  _apply_naked_down_streak_regime c f now_ms cache currency r detail = Ret (r', detail', cache') ->
  if regime_eqb r NORMAL && is_some down
  then r' = ELEVATED /\ unavailable detail' = false /\ existsb rally_in detail' = false
  else r' = r /\ detail' = detail.
Proof.
  intros D. unfold _apply_naked_down_streak_regime. destruct (regime_eqb r NORMAL); cbn [negb andb].
  - rewrite D, obind_ret. destruct down as [note|]; intros H; injection H as <- <- <-; [|now split].
    destruct (down_note _ _ _ _ D) as [R U]. cbn [unavailable existsb]. now rewrite R, U.
  - intros H. injection H as <- <- <-. now split.
Qed.

Lemma unavailable_note drawdown dvol_ratio tail : unavailable (unavailable_detail "data_unavailable" drawdown dvol_ratio tail) = true.
Proof. reflexivity. Qed.

Lemma macro_regime_blocks c f now_ms cache currency r detail cache' drawdown return_48h down :
  _index_drawdown_24h f currency = Ret drawdown -> _index_return_48h c f currency = Ret return_48h ->
  _naked_consecutive_down_elevated c f currency = Ret down ->
  _macro_regime_with_detail c f now_ms cache currency = Ret (r, detail, cache') ->
  forall allow, regime_blocks_new_entries r detail allow =
    blocked_reference c.(macro) (both drawdown (_dvol_ratio f currency)) return_48h (last_regime_of cache currency) (is_some down) allow.
Proof.
  intros E1 E2 E3 H allow. unfold _macro_regime_with_detail, regime_from_feeds in H. rewrite E1, obind_ret in H.
  apply obind_inv in H. destruct H as ([[r0 detail0] cache0] & M & H).
  pose proof (down_streak_gate _ _ _ _ _ _ _ _ _ _ down E3 H) as G. clear H.
  unfold _regime_from_macro_feeds in M.
  assert (R : (if c.(macro).(enable_index_rally_entry_halt) then _index_return_48h c f currency else Ret None) = Ret return_48h).
  { unfold _index_return_48h in *. destruct (enable_index_rally_entry_halt (macro c)); exact E2. }
  destruct drawdown as [d|], (_dvol_ratio f currency) as [v|]; cbn [both blocked_reference].
  1: { rewrite R, obind_ret in M. apply obind_inv in M. destruct M as ([g0 d0] & M & K). injection K as -> -> <-.
    apply classify_spec in M. cbn zeta in M |- *.
    set (dump := if enable_index_dump_entry_halt (macro c) then _ else _) in *. destruct M as (-> & L & U).
    fold (unavailable detail0) in U.
    destruct dump, (rally (macro c) d return_48h), down as [note|]; cbn [regime_eqb is_some andb orb] in *;
      first [destruct G as (-> & U' & L'); rewrite (blocks_cases _ _ _ U'), L' | destruct G as (-> & ->); rewrite (blocks_cases _ _ _ U), L];
      destruct allow; reflexivity. }
  all: assert (M' : r0 = last_regime_of cache currency /\ unavailable detail0 = true) by
    (unfold last_regime_of; destruct (dict_get currency cache) as [[g t]|]; injection M as <- <- <-; now rewrite unavailable_note).
  all: destruct M' as [-> U].
  all: destruct (regime_eqb (last_regime_of cache currency) NORMAL), (is_some down); cbn [andb] in *.
  all: try (destruct G as (-> & ->); unfold regime_blocks_new_entries; rewrite U; reflexivity).
  all: destruct G as (-> & U' & L'); rewrite (blocks_cases _ _ _ U'), L'; destruct allow; reflexivity.
Qed.

(** Only an elevated regime carries a rally note. *)
Lemma macro_rally_elevated c f now_ms cache currency r detail cache' :
  _macro_regime_with_detail c f now_ms cache currency = Ret (r, detail, cache') ->
  unavailable detail = false -> existsb rally_in detail = true -> r = ELEVATED.
Proof.
  intros H U R. unfold _macro_regime_with_detail, regime_from_feeds in H.
  apply obind_inv in H. destruct H as (drawdown & _ & H). apply obind_inv in H. destruct H as ([[r0 detail0] cache0] & M & H).
  unfold _apply_naked_down_streak_regime in H. destruct (regime_eqb r0 NORMAL) eqn:N; cbn [negb] in H.
  - apply obind_inv in H. destruct H as ([note|] & D & H); injection H as <- <- <-; [reflexivity|].
    assert (E : regime_eqb r0 NORMAL = false \/ existsb rally_in detail0 = false \/ unavailable detail0 = true); [|intuition congruence].
    unfold _regime_from_macro_feeds in M. destruct drawdown as [d|], (_dvol_ratio f currency) as [v|].
    1: { apply obind_inv in M. destruct M as (r48 & _ & M). apply obind_inv in M. destruct M as ([g0 d0] & M & K). injection K as -> -> <-.
      apply classify_spec in M. cbn zeta in M. destruct M as (-> & L & _). rewrite L.
      destruct (if enable_index_dump_entry_halt _ then _ else _), (rally _ _ _); cbn; auto. }
    all: right; right; destruct (dict_get currency cache) as [[g t]|]; injection M as <- <- <-; apply unavailable_note.
  - injection H as <- <- <-. unfold _regime_from_macro_feeds in M. destruct drawdown as [d|], (_dvol_ratio f currency) as [v|].
    1: { apply obind_inv in M. destruct M as (r48 & _ & M). apply obind_inv in M. destruct M as ([g0 d0] & M & K). injection K as -> -> <-.
      apply classify_spec in M. cbn zeta in M. destruct M as (G & L & _). rewrite L in R. apply andb_true_iff in R. destruct R as [R1 R2].
      now rewrite R1, R2 in G. }
    all: exfalso; destruct (dict_get currency cache) as [[g t]|]; injection M as <- <- <-; now rewrite unavailable_note in U.
Qed.

Lemma macro_gate_nonempty c f now_ms cache currency r detail cache' crisis_open derisk allow :
  _macro_regime_with_detail c f now_ms cache currency = Ret (r, detail, cache') ->
  nonempty (currency_entry_halt_reasons currency r detail crisis_open derisk allow) =
  regime_blocks_new_entries r detail allow || derisk && crisis_open.
Proof.
  intros H. rewrite halt_reasons_nonempty. f_equal. destruct (regime_blocks_new_entries r detail allow) eqn:B; [|reflexivity].
  destruct (unavailable detail) eqn:U; [reflexivity|]. cbn [orb andb]. destruct (regime_eqb_spec r NORMAL) as [->|]; [|reflexivity].
  exfalso. rewrite (blocks_cases _ _ _ U) in B. cbn [regime_eqb orb andb] in B. rewrite orb_false_r in B.
  discriminate (macro_rally_elevated _ _ _ _ _ _ _ _ H U B).
Qed.

(** From the exchange's feeds to the gate. The halt flag of a managed underlying
    whose regime was determined from its feeds is raised exactly when the portfolio
    blocks everything, when a group is open in a crisis and crises derisk, or when the
    reference says so: a crisis always blocks, so does a rally, an elevated reading
    (dump, volatility, down streak) where elevated entries are not allowed; with a
    feed missing everything blocks except a cached normal regime that a down streak
    replaces where elevated entries are allowed. *)
Theorem entry_halt_from_feeds c f now_ms cache currency r detail cache' drawdown return_48h down
    managed regimes details open_in_crisis derisk all_blocked :
  _index_drawdown_24h f currency = Ret drawdown -> _index_return_48h c f currency = Ret return_48h ->
  _naked_consecutive_down_elevated c f currency = Ret down ->
  _macro_regime_with_detail c f now_ms cache currency = Ret (r, detail, cache') ->
  upper currency = currency -> mem_str currency (map upper managed) = true ->
  dict_get currency regimes = Some r -> dict_get currency details = Some detail ->
  get_or currency true (build_halt_new_entries_by_currency managed regimes details open_in_crisis derisk all_blocked (allows_elevated_entry c)) =
  all_blocked || derisk && mem_str currency open_in_crisis ||
  blocked_reference c.(macro) (both drawdown (_dvol_ratio f currency)) return_48h (last_regime_of cache currency)
    (is_some down) (allows_elevated_entry c).
Proof.
  intros E1 E2 E3 H Up M Er Ed. unfold get_or at 1. rewrite build_halt_get, M. unfold halted, get_or. rewrite Er, Ed.
  rewrite (macro_gate_nonempty _ _ _ _ _ _ _ _ _ _ _ H), (macro_regime_blocks _ _ _ _ _ _ _ _ _ _ _ E1 E2 E3 H).
  destruct all_blocked, (blocked_reference _ _ _ _ _ _), derisk, (mem_str currency open_in_crisis); reflexivity.
Qed.

(** ** Samples *)

Definition sample_macro : macro_config := {|
  index_drawdown_elevated_pct := 0.05; index_drawdown_crisis_pct := 0.1; dvol_elevated_multiplier := 1.25;
  dvol_crisis_multiplier := 1.6; enable_index_rally_entry_halt := true; index_rally_24h_pct := 0.05;
  index_rally_48h_pct := 0.07; enable_index_dump_entry_halt := true |}.

Definition sample_regime_config (allow : bool) : regime_config := {|
  macro := sample_macro; option_strategy := "naked_short"; enable_short_put := true; naked_entry_down_streak_days := 2;
  naked_entry_down_day_pct := 0.01; naked_allow_elevated_entry := allow |}.

Definition row (ts : Z) (price : Q) : pyobj := PList [PInt ts; PDec price].

(** Three days, each more than one per cent below the one before; 3 per cent in 24 hours. *)
Definition falling : list pyobj := [row 86400000 100; row 172800000 97; row 259200000 94].

Definition day : list pyobj := [row 172800000 97; row 259200000 94].

Definition sample_feeds (dvol : option (list (list pyobj))) : feeds := {|
  index_chart := fun _ range => if String.eqb range "1y" then Some falling else Some day;
  volatility_rows := fun _ => dvol |}.

Definition dvol_row (c : Q) : list pyobj := [PInt 1; PDec c; PDec c; PDec c; PDec c].

(** A fall of three per cent and a calm volatility index are a normal macro reading;
    the down streak elevates it, and the entry is halted. *)
Lemma entry_halt_from_feeds_witness : exists r detail cache',
  _macro_regime_with_detail (sample_regime_config false) (sample_feeds (Some [dvol_row 50; dvol_row 51])) 0 [] "BTC" = Ret (r, detail, cache') /\
  get_or "BTC"%string true (build_halt_new_entries_by_currency ["BTC"%string] [("BTC"%string, r)] [("BTC"%string, detail)] [] true false false) = true.
Proof.
  destruct (_macro_regime_with_detail (sample_regime_config false) (sample_feeds (Some [dvol_row 50; dvol_row 51])) 0 [] "BTC")
    as [[[r detail] cache']| |] eqn:E; [|exfalso; revert E; vm_compute; discriminate..].
  exists r, detail, cache'. split; [reflexivity|].
  destruct (_index_drawdown_24h (sample_feeds (Some [dvol_row 50; dvol_row 51])) "BTC") as [d| |] eqn:E1; [|exfalso; revert E1; vm_compute; discriminate..].
  destruct (_index_return_48h (sample_regime_config false) (sample_feeds (Some [dvol_row 50; dvol_row 51])) "BTC") as [r48| |] eqn:E2;
    [|exfalso; revert E2; vm_compute; discriminate..].
  destruct (_naked_consecutive_down_elevated (sample_regime_config false) (sample_feeds (Some [dvol_row 50; dvol_row 51])) "BTC") as [[note|]| |] eqn:E3;
    [|exfalso; revert E3; vm_compute; discriminate..].
  pose proof (entry_halt_from_feeds (sample_regime_config false) (sample_feeds (Some [dvol_row 50; dvol_row 51])) 0 [] "BTC" r detail cache' d r48
    (Some note) ["BTC"%string] [("BTC"%string, r)] [("BTC"%string, detail)] [] true false E1 E2 E3 E eq_refl eq_refl eq_refl eq_refl) as T.
  etransitivity; [exact T|]. revert E1 E2. vm_compute. intros H1 H2. injection H1 as <-. injection H2 as <-. vm_compute. reflexivity.
Defined.

(** The gate can open while the program is blind. A naked put book that allows
    elevated entries, whose volatility feed fails after a normal reading, sells into a
    down streak: the note that the data is unavailable is replaced by the streak's. *)
Theorem blind_entry_reachable : exists c f cache r detail cache',
  _dvol_ratio f "BTC" = None /\ allows_elevated_entry c = true /\
  _macro_regime_with_detail c f 0 cache "BTC" = Ret (r, detail, cache') /\
  regime_blocks_new_entries r detail (allows_elevated_entry c) = false.
Proof.
  exists (sample_regime_config true), (sample_feeds None), [("BTC"%string, (NORMAL, 0%Z))].
  destruct (_macro_regime_with_detail (sample_regime_config true) (sample_feeds None) 0 [("BTC"%string, (NORMAL, 0%Z))] "BTC")
    as [[[r detail] cache']| |] eqn:E; [|exfalso; revert E; vm_compute; discriminate..].
  exists r, detail, cache'. repeat split. revert E. vm_compute. intros H. injection H as <- <- _. reflexivity.
Qed.
