(* ===== verification/ExchangeErrors.v ===== *)
(** What the text of an exchange error says: the three searches of [utils.py] and
    [engine/execution.py], regular expressions written as functions on the ASCII text. *)

From S2P Require Import Prelude Dec PyStr Utils PyObj.
Local Open Scope Q_scope.
Local Open Scope dec_scope.
Local Open Scope bool_scope.
Local Open Scope list_scope.

Fixpoint drop (n : nat) (s : string) : string :=
  match n, s with
  | S n, String _ s => drop n s
  | _, _ => s
  end.

(** What follows [pre], if the text starts with it. *)
Definition after (pre s : string) : option string := if startswith pre s then Some (drop (String.length pre) s) else None.

Fixpoint skip_spaces (s : string) : string := match s with String c r => if is_space c then skip_spaces r else s | EmptyString => s end.

Definition is_word (c : ascii) : bool := is_upper c || is_lower c || is_digit c || Ascii.eqb c "_"%char.

(** [any(p at each position)]; [p] also sees whether a word character comes before. *)
Fixpoint scan (p : bool -> string -> bool) (word_before : bool) (s : string) : bool :=
  p word_before s || match s with EmptyString => false | String c r => scan p (is_word c) r end.

Definition orb_opt (a : option string) (p : string -> bool) : bool := match a with Some s => p s | None => false end.

(** [(?:\bcode=|"code"] then [sep], then what [p] accepts. *)
Definition code_key : string := String double_quote ("code" ++ String double_quote EmptyString)%string.

Definition code_then (spaced : bool) (p : string -> bool) (word_before : bool) (s : string) : bool :=
  (negb word_before && orb_opt (after "code=" s) p)
  || orb_opt (after code_key s) (fun r => orb_opt (after ":" (if spaced then skip_spaces r else r)) (fun r => p (skip_spaces r))).

(** [_POST_ONLY_REJECT_RE], ignoring case. *)
Definition is_post_only_reject (message : string) : bool :=
  let text := lower message in
  contains "post_only_reject" text || scan (code_then false (startswith "11054")) false text.

Definition _MARKET_FALLBACK_ERROR_CODES : list Z := [10005; 10006; 10007; 10011; 10023; 10026; 10043; 11054; 11055]%Z.

Definition _MARKET_FALLBACK_ERROR_TOKENS : list string :=
  ["price_too_high"; "price_too_low"; "price_not_allowed"; "price_out_of_range"; "invalid_price";
   "price_precision_exceeded"; "price_wrong_tick"; "post_only_reject"; "post_only_not_allowed"]%string.

(** [-?\d+] as an integer. *)
Definition leading_int (s : string) : option Z :=
  let '(sign, s) := match after "-" s with Some r => ((-1)%Z, r) | None => (1%Z, s) end in
  let '(v, n, _) := read_digits 0 0 s in
  if Nat.eqb n 0 then None else Some (sign * v)%Z.

Definition is_market_fallback_eligible (message : string) : bool :=
  if is_empty message then false
  else existsb (fun token => contains token (lower message)) _MARKET_FALLBACK_ERROR_TOKENS
       || scan (code_then true (fun r => match leading_int r with
            | Some code => existsb (Z.eqb code) _MARKET_FALLBACK_ERROR_CODES | None => false end)) false message.

(** [[0-9]+(?:\.[0-9]+)?] after spaces: the text matched. *)
Fixpoint take_digits (s : string) : string :=
  match s with String c r => if is_digit c then String c (take_digits r) else EmptyString | EmptyString => EmptyString end.

Definition band_number (s : string) : option string :=
  match s with
  | String c r =>
      if negb (is_space c) then None
      else
        let t := skip_spaces r in
        let int := take_digits t in
        if is_empty int then None
        else match after "." (drop (String.length int) t) with
             | Some r => let frac := take_digits r in Some (if is_empty frac then int else int ++ "." ++ frac)%string
             | None => Some int
             end
  | EmptyString => None
  end.

Definition band_at (s : string) : option string :=
  match after "price_too_" s with
  | Some r =>
      match (match after "high" r with Some r => Some r | None => after "low" r end) with
      | Some r => band_number (match after "4idx" r with Some r => r | None => r end)
      | None => None
      end
  | None => None
  end.

Fixpoint first_band (s : string) : option string :=
  match band_at s with
  | Some t => Some t
  | None => match s with EmptyString => None | String _ r => first_band r end
  end.

Definition parse_exchange_price_band_limit (message : string) : option Q :=
  match first_band (lower message) with
  | Some t => let limit := to_decimal (PStr t) 0 in if limit >? 0 then Some limit else None
  | None => None
  end.

(** Texts of the repository's tests. *)
Example band_of_price_too_high : parse_exchange_price_band_limit "private/buy failed: price_too_high 2180.0" = Some 2180.
Proof. vm_compute. reflexivity. Qed.

Example band_rejection_is_eligible : is_market_fallback_eligible "private/buy failed: code=10007" = true.
Proof. vm_compute. reflexivity. Qed.

Example funds_rejection_is_not : is_market_fallback_eligible "code=10009 not_enough_funds" = false.
Proof. vm_compute. reflexivity. Qed.

Example word_before_code : is_market_fallback_eligible "errorcode=10007" = false.
Proof. vm_compute. reflexivity. Qed.

Example post_only_code : is_post_only_reject (String double_quote ("CODE" ++ String double_quote ": 11054"))%string = true.
Proof. vm_compute. reflexivity. Qed.
