(* ===== verification/Runtime.v ===== *)
(** The context of one management cycle: [RuntimeContext] ([engine/context.py]) with
    the requests sent to the exchange, the parameters of the engine it reads
    ([config.py]), and the lookups of [engine/base.py] shared by its parts. The client
    is the class [Exchange]: what it answers may depend on everything sent before. *)

From S2P Require Import Prelude Dec PyStr Utils Group PyObj StateJson Market.
Local Open Scope Q_scope.
Local Open Scope dec_scope.
Local Open Scope bool_scope.
Local Open Scope list_scope.

(** ** The exchange *)

(** The arguments of [client.place_order]; an argument not given is [None] or [false]. *)
Record order_request : Type := {
  req_direction : string;
  req_instrument_name : string;
  req_amount : Q;
  req_label : string;
  req_order_type : string;
  req_price : option Q;
  req_time_in_force : option string;
  req_post_only : bool;
  req_reject_post_only : bool;
  req_reduce_only : bool;
}.

Inductive request : Type :=
| PlaceOrder (o : order_request)
| CancelOrder (order_id : string)
| OrderState (order_id : string)       (** [client.get_order_state] *)
| ListPositions.                       (** [client.get_positions(currency="any", kind="any")] *)

Class Exchange : Type := {
  reply : list request -> request -> outcome pyobj;      (** the newest request sent comes first *)
  get_order_book : string -> outcome (string -> pyobj);
  get_index_price : string -> outcome (string -> pyobj);
  _fetch_option_instrument_metadata : string -> option OptionInstrument;
}.

(** ** The context *)

Record runtime : Type := {
  state : StrategyState;
  open_orders : list OpenOrder;
  option_positions : list Position;
  future_positions : list Position;
  future_markets_by_name : dict OptionInstrument;
  markets_by_currency : dict (list OptionInstrument);
  orderbook_cache : dict OrderBookSnapshot;
  _instrument_metadata_cache : dict OptionInstrument;
  requests : list request;
}.

Definition set_state (s : StrategyState) (w : runtime) : runtime :=
  {| state := s; open_orders := w.(open_orders); option_positions := w.(option_positions); future_positions := w.(future_positions);
     future_markets_by_name := w.(future_markets_by_name); markets_by_currency := w.(markets_by_currency);
     orderbook_cache := w.(orderbook_cache); _instrument_metadata_cache := w.(_instrument_metadata_cache); requests := w.(requests) |}.

Definition set_open_orders (l : list OpenOrder) (w : runtime) : runtime :=
  {| state := w.(state); open_orders := l; option_positions := w.(option_positions); future_positions := w.(future_positions);
     future_markets_by_name := w.(future_markets_by_name); markets_by_currency := w.(markets_by_currency);
     orderbook_cache := w.(orderbook_cache); _instrument_metadata_cache := w.(_instrument_metadata_cache); requests := w.(requests) |}.

Definition set_orderbook_cache (d : dict OrderBookSnapshot) (w : runtime) : runtime :=
  {| state := w.(state); open_orders := w.(open_orders); option_positions := w.(option_positions); future_positions := w.(future_positions);
     future_markets_by_name := w.(future_markets_by_name); markets_by_currency := w.(markets_by_currency);
     orderbook_cache := d; _instrument_metadata_cache := w.(_instrument_metadata_cache); requests := w.(requests) |}.

Definition cache_instrument (name : string) (i : OptionInstrument) (w : runtime) : runtime :=
  {| state := w.(state); open_orders := w.(open_orders); option_positions := w.(option_positions); future_positions := w.(future_positions);
     future_markets_by_name := w.(future_markets_by_name); markets_by_currency := w.(markets_by_currency);
     orderbook_cache := w.(orderbook_cache);
     _instrument_metadata_cache := dict_set name i w.(_instrument_metadata_cache); requests := w.(requests) |}.

Definition cache_book (name : string) (b : OrderBookSnapshot) (w : runtime) : runtime :=
  set_orderbook_cache (dict_set name b w.(orderbook_cache)) w.

Definition log_request (r : request) (w : runtime) : runtime :=
  {| state := w.(state); open_orders := w.(open_orders); option_positions := w.(option_positions); future_positions := w.(future_positions);
     future_markets_by_name := w.(future_markets_by_name); markets_by_currency := w.(markets_by_currency);
     orderbook_cache := w.(orderbook_cache); _instrument_metadata_cache := w.(_instrument_metadata_cache); requests := r :: w.(requests) |}.

Definition set_hedge_maker_wait_cycles (d : dict Z) (s : StrategyState) : StrategyState :=
  mkState s.(version) s.(day_key) s.(day_start_equity_usdc) s.(last_equity_usdc) s.(cooldown_until_ms)
    s.(day_start_equity_by_book) s.(last_equity_by_book) s.(day_start_equity_native_by_book)
    s.(last_equity_native_by_book) s.(cooldown_until_ms_by_book) s.(day_net_flow_usdc_by_book)
    s.(day_net_flow_native_by_book) s.(last_flow_query_ms_by_book) s.(day_equity_anchor_ms_by_book)
    s.(next_group_id) s.(normal_recovery_counts) d s.(groups).

(** ** Engine code: a state that survives exceptions *)

Definition M (A : Type) : Type := runtime -> runtime * outcome A.

Definition ret {A} (a : A) : M A := fun w => (w, Ret a).
Definition lift {A} (o : outcome A) : M A := fun w => (w, o).
Definition bind {A B} (m : M A) (k : A -> M B) : M B :=
  fun w => match m w with
           | (w', Ret a) => k a w'
           | (w', Exn e) => (w', Exn e)
           | (w', OutOfFuel) => (w', OutOfFuel)
           end.
(** Conversion unfolds the code of the engine before it runs a step of it. *)
Strategy 100 [bind].

Definition read {A} (f : runtime -> A) : M A := fun w => (w, Ret (f w)).
Definition modify (f : runtime -> runtime) : M unit := fun w => (f w, Ret tt).

(** [try: m except Exception: None] *)
Definition attempt {A} (m : M A) : M (option A) :=
  fun w => match m w with
           | (w', Ret a) => (w', Ret (Some a))
           | (w', Exn _) => (w', Ret None)
           | (w', OutOfFuel) => (w', OutOfFuel)
           end.

Declare Scope run_scope.
Delimit Scope run_scope with run.
Notation "'let*' x ':=' m 'in' k" := (bind m (fun x => k))
  (at level 10, x pattern, m at level 100, k at level 200) : run_scope.
Local Open Scope run_scope.

(** [out.append] of the results of a loop body, in order. *)
Fixpoint collect {A B} (f : A -> M (list B)) (l : list A) : M (list B) :=
  match l with
  | [] => ret []
  | a :: r => let* xs := f a in let* ys := collect f r in ret (xs ++ ys)
  end.

(** ** Configuration *)

Record engine_config : Type := {
  order_label_prefix : string;
  managed_currencies : list string;
  enable_perp_hedge : bool;
  per_position_hedge : bool;
  hedge_first_on_hard : bool;
  hedge_giveup_loss_pct : Q;
  soft_hedge_neutralize_pct : Q;
  soft_hedge_delta_cap_pct : Q;
  hard_hedge_delta_cap_pct : Q;
  hedge_unwind_recovery_cycles : Z;
  recovery_normal_cycles : Z;
  defense_confirm_cycles : Z;
  hedge_reconcile_deadband_btc : Q;
  hedge_reconcile_deadband_eth : Q;
  hedge_order_type : string;
  hedge_limit_slippage_pct : Q;
  hedge_maker_max_cycles : Z;
  reference_capital_usdc : Q;
}.

Definition hedge_reconcile_deadband_base (c : engine_config) (currency : string) : Q :=
  let book := upper currency in
  if String.eqb book "BTC" then c.(hedge_reconcile_deadband_btc)
  else if String.eqb book "ETH" then c.(hedge_reconcile_deadband_eth)
  else 0.0001.

(** ** Lookups *)

Section Lookups.
Context {X : Exchange}.

(** A request is on the wire before its answer arrives. *)
Definition send (r : request) : M pyobj := fun w => (log_request r w, reply w.(requests) r).

Definition _get_orderbook (name : string) : M OrderBookSnapshot :=
  let* cache := read orderbook_cache in
  match dict_get name cache with
  | Some b => ret b
  | None =>
      let* payload := lift (get_order_book name) in
      let* b := lift (book_from_api payload) in
      let* _ := modify (cache_book name b) in
      ret b
  end.

Definition _perp_instrument (currency : string) : string := (upper currency ++ "_USDC-PERPETUAL")%string.
Definition _perp_uses_base_amount (currency : string) : bool := endswith "_USDC-PERPETUAL" (_perp_instrument currency).

Fixpoint index_quote (names : list string) : option Q :=
  match names with
  | [] => None
  | name :: rest =>
      match get_index_price name with
      | Ret payload => let value := to_decimal (payload "index_price"%string) 0 in if value >? 0 then Some value else index_quote rest
      | _ => index_quote rest
      end
  end.

Definition _currency_index_price (currency : string) : M Q :=
  match index_quote [(lower currency ++ "_usdc")%string; (lower currency ++ "_usd")%string] with
  | Some value => ret value
  | None =>
      let* book := attempt (_get_orderbook (_perp_instrument currency)) in
      ret (match book with Some b => if b.(index_price) >? 0 then b.(index_price) else 0 | None => 0 end)
  end.

Definition _open_groups (s : StrategyState) : list TradeGroup := filter (fun g => String.eqb g.(status) "open") s.(groups).

Definition _effective_capital (c : engine_config) (total_equity_usdc : Q) : Q :=
  if total_equity_usdc >? 0 then total_equity_usdc else c.(reference_capital_usdc).

Definition _align_future_order_amount (name : string) (amount : Q) : M Q :=
  let* markets := read future_markets_by_name in
  ret (match dict_get name markets with
       | None => 0
       | Some i => align_option_order_amount amount i.(instrument_contract_size) i.(min_trade_amount)
       end).

(** The first listed instrument of that name. *)
Definition _find_instrument_by_markets (markets : dict (list OptionInstrument)) (name : string) : outcome OptionInstrument :=
  match find (fun i => String.eqb i.(instrument_name) name) (concat (map snd markets)) with
  | Some i => Ret i
  | None => Exn KeyError
  end.

(** [_find_instrument]: listed, else fetched once and kept. *)
Definition _find_instrument (name : string) : M OptionInstrument :=
  let* markets := read markets_by_currency in
  match _find_instrument_by_markets markets name with
  | Ret i => ret i
  | _ =>
      let* cache := read _instrument_metadata_cache in
      match dict_get name cache with
      | Some i => ret i
      | None =>
          match _fetch_option_instrument_metadata name with
          | None => lift (Exn KeyError)
          | Some i => let* _ := modify (cache_instrument name i) in ret i
          end
      end
  end.

Definition text8 (q : Q) : M pyobj := lift (let! t := decimal_text q 8 in Ret (PStr t))%outcome.
End Lookups.

(** ** Reasoning about engine code

    [always m w P]: however [m] ends from [w], by a value or an exception, the context
    it leaves satisfies [P]. [frame] relates contexts in which the exchange has been
    sent the same, and the orders, positions, instruments and groups are the same. *)

Definition always {A} (m : M A) (w : runtime) (P : runtime -> Prop) : Prop := P (fst (m w)).

Definition frame (w w' : runtime) : Prop :=
  w'.(requests) = w.(requests) /\ w'.(open_orders) = w.(open_orders) /\ w'.(future_positions) = w.(future_positions) /\
  w'.(future_markets_by_name) = w.(future_markets_by_name) /\ w'.(markets_by_currency) = w.(markets_by_currency) /\
  w'.(state).(groups) = w.(state).(groups) /\ w'.(option_positions) = w.(option_positions).

Definition quiet {A} (m : M A) : Prop := forall w, frame w (fst (m w)).

Lemma frame_refl w : frame w w.
Proof. repeat split. Qed.

Lemma frame_trans w1 w2 w3 : frame w1 w2 -> frame w2 w3 -> frame w1 w3.
Proof. intros (A & B & C & D & E & F & G) (A' & B' & C' & D' & E' & F' & G'). unfold frame. intuition congruence. Qed.

Lemma frame_log r w w' : frame w w' -> frame (log_request r w) (log_request r w').
Proof. intros (A & B & C & D & E & F & G). unfold frame. cbn. intuition congruence. Qed.

Lemma bind_fst {A B} (m : M A) (k : A -> M B) w :
  fst (bind m k w) = match snd (m w) with Ret a => fst (k a (fst (m w))) | _ => fst (m w) end.
Proof. unfold bind. destruct (m w) as [w' [a| |]]; reflexivity. Qed.

Lemma bind_snd {A B} (m : M A) (k : A -> M B) w :
  snd (bind m k w) = match snd (m w) with Ret a => snd (k a (fst (m w))) | Exn e => Exn e | OutOfFuel => OutOfFuel end.
Proof. unfold bind. destruct (m w) as [w' [a| |]]; reflexivity. Qed.

Lemma bind_run {A B} (m : M A) (k : A -> M B) w w1 a : m w = (w1, Ret a) -> bind m k w = k a w1.
Proof. unfold bind. intros ->. reflexivity. Qed.

Lemma bind_inv {A B} (m : M A) (k : A -> M B) w w' b : bind m k w = (w', Ret b) ->
  exists w1 a, m w = (w1, Ret a) /\ k a w1 = (w', Ret b).
Proof. unfold bind. destruct (m w) as [w1 [a| |]]; intros H; try discriminate. eauto. Qed.

Lemma quiet_ret {A} (a : A) : quiet (ret a).
Proof. intros w. apply frame_refl. Qed.

Lemma quiet_lift {A} (o : outcome A) : quiet (lift o).
Proof. intros w. apply frame_refl. Qed.

Lemma quiet_read {A} (f : runtime -> A) : quiet (read f).
Proof. intros w. apply frame_refl. Qed.

Lemma quiet_bind {A B} (m : M A) (k : A -> M B) : quiet m -> (forall a, quiet (k a)) -> quiet (bind m k).
Proof.
  intros Hm Hk w. rewrite bind_fst. destruct (snd (m w)); [|apply Hm..]. eapply frame_trans; [apply Hm | apply Hk].
Qed.

Lemma quiet_attempt {A} (m : M A) : quiet m -> quiet (attempt m).
Proof. intros H w. unfold attempt. specialize (H w). destruct (m w) as [w' [a| |]]; exact H. Qed.

#[export] Hint Resolve quiet_ret quiet_lift quiet_read quiet_bind quiet_attempt : engine.

Lemma quiet_get_orderbook `{Exchange} name : quiet (_get_orderbook name).
Proof.
  apply quiet_bind; [apply quiet_read|]. intros cache. destruct (dict_get name cache); [apply quiet_ret|].
  apply quiet_bind; [apply quiet_lift|]. intros payload. apply quiet_bind; [apply quiet_lift|]. intros b.
  apply quiet_bind; [intros w; repeat split | intros _; apply quiet_ret].
Qed.

Lemma quiet_index_price `{Exchange} currency : quiet (_currency_index_price currency).
Proof.
  unfold _currency_index_price. destruct (index_quote _); auto using quiet_get_orderbook with engine.
Qed.

Lemma quiet_modify f : (forall w, frame w (f w)) -> quiet (modify f).
Proof. intros H w. apply H. Qed.

Lemma quiet_find_instrument `{Exchange} name : quiet (_find_instrument name).
Proof.
  apply quiet_bind; [apply quiet_read|]. intros markets. destruct (_find_instrument_by_markets markets name); [apply quiet_ret|..].
  all: apply quiet_bind; [apply quiet_read|]; intros cache; destruct (dict_get name cache); [apply quiet_ret|].
  all: destruct (_fetch_option_instrument_metadata name); [|apply quiet_lift].
  all: apply quiet_bind; [apply quiet_modify; intros w; repeat split | intros _; apply quiet_ret].
Qed.

#[export] Hint Resolve quiet_get_orderbook quiet_index_price quiet_find_instrument : engine.

Lemma always_quiet {A} (m : M A) w (P : runtime -> Prop) : quiet m -> (forall w', frame w w' -> P w') -> always m w P.
Proof. intros H K. exact (K _ (H w)). Qed.

Lemma always_bind {A B} (m : M A) (k : A -> M B) w (P : runtime -> Prop) :
  (forall e, snd (m w) = Exn e -> P (fst (m w))) -> (snd (m w) = OutOfFuel -> P (fst (m w))) ->
  (forall a, snd (m w) = Ret a -> always (k a) (fst (m w)) P) -> always (bind m k) w P.
Proof. intros E F R. unfold always. rewrite bind_fst. destruct (snd (m w)) eqn:S; eauto. now apply R. Qed.

(** The rule used at each step of engine code that sends nothing. *)
Lemma always_step {A B} (m : M A) (k : A -> M B) w (P : runtime -> Prop) : quiet m -> (forall w', frame w w' -> P w') ->
  (forall a w', m w = (w', Ret a) -> frame w w' -> always (k a) w' P) -> always (bind m k) w P.
Proof.
  intros Q F R. apply always_bind; intros.
  - apply F, Q.
  - apply F, Q.
  - apply R; [|apply Q]. destruct (m w) as [w' o]. cbn in *. now subst o.
Qed.

(** ** What engine code may send

    [sends ok w w']: only requests [ok] allows were sent from [w] to [w'], and the
    orders, positions, instruments and groups known are the same. *)
Definition known (w w' : runtime) : Prop :=
  w'.(open_orders) = w.(open_orders) /\ w'.(option_positions) = w.(option_positions) /\ w'.(future_positions) = w.(future_positions) /\
  w'.(future_markets_by_name) = w.(future_markets_by_name) /\ w'.(markets_by_currency) = w.(markets_by_currency) /\
  w'.(state).(groups) = w.(state).(groups).

Definition sends (ok : request -> Prop) (w w' : runtime) : Prop :=
  known w w' /\ exists new, w'.(requests) = new ++ w.(requests) /\ Forall ok new.

Lemma sends_frame ok w w' : frame w w' -> sends ok w w'.
Proof. intros (A & B & C & D & E & F & G). split; [unfold known; auto 10 | exists []; now split]. Qed.

Lemma sends_refl ok w : sends ok w w.
Proof. apply sends_frame, frame_refl. Qed.

Lemma sends_trans ok w1 w2 w3 : sends ok w1 w2 -> sends ok w2 w3 -> sends ok w1 w3.
Proof.
  intros (K & n & E & F) (K' & n' & E' & F'). split; [unfold known in *; intuition congruence|].
  exists (n' ++ n). split; [now rewrite E', E, app_assoc | now apply Forall_app].
Qed.

(** Code that sends only what is allowed, from any context. *)
Definition polite {A} (ok : request -> Prop) (m : M A) : Prop := forall w, sends ok w (fst (m w)).

Lemma polite_quiet {A} ok (m : M A) : quiet m -> polite ok m.
Proof. intros H w. apply sends_frame, H. Qed.

Lemma polite_bind {A B} ok (m : M A) (k : A -> M B) : polite ok m -> (forall a, polite ok (k a)) -> polite ok (bind m k).
Proof.
  intros H K w. rewrite bind_fst. destruct (snd (m w)); [|apply H..]. eapply sends_trans; [apply H | apply K].
Qed.

Lemma polite_send `{Exchange} (ok : request -> Prop) r : ok r -> polite ok (send r).
Proof. intros O w. split; [repeat split | exists [r]; split; [reflexivity | now constructor]]. Qed.

Lemma polite_ret {A} ok (a : A) : polite ok (ret a).
Proof. apply polite_quiet, quiet_ret. Qed.

(** What is known stays known along a run that returns. *)
Lemma polite_inv {A} ok (m : M A) w w' r : polite ok m -> m w = (w', r) -> sends ok w w'.
Proof. intros P E. specialize (P w). now rewrite E in P. Qed.

#[export] Hint Resolve polite_quiet polite_bind polite_send polite_ret : engine.
