(* ===== verification/HedgeOrders.v ===== *)
(** Perp hedge order pricing and placement ([deribit_engine/hedge_orders.py]) and the
    order bookkeeping of hedges in [engine/base.py]. *)

From S2P Require Import Prelude Dec PyStr Utils Group PyObj StateJson Market ExchangeErrors Runtime.
Local Open Scope Q_scope.
Local Open Scope dec_scope.
Local Open Scope bool_scope.
Local Open Scope run_scope.
Local Open Scope list_scope.

Definition _HEDGE_ORDER_TYPES : list string := ["market"%string; "limit_ioc"%string; "limit_maker"%string].

Definition normalize_hedge_order_type (raw : string) : outcome string :=
  let value := lower (strip (str_or raw "limit_maker")) in
  if mem_str value _HEDGE_ORDER_TYPES then Ret value else Exn ValueError.

(** [(limit_price, skip_reason)] *)
Definition priced (p : Q) : option Q * option string := (Some p, None).
Definition skip (reason : string) : option Q * option string := (None, Some reason).

Definition book_mark (b : OrderBookSnapshot) : Q := if b.(mark_price) >? 0 then b.(mark_price) else b.(index_price).

Definition resolve_hedge_perp_ioc_limit_price (direction : string) (b : OrderBookSnapshot) (i : OptionInstrument)
    (max_slippage_pct : Q) : option Q * option string :=
  let mark := book_mark b in
  let slippage := dmax 0 max_slippage_pct in
  if String.eqb (lower direction) "buy" then
    let ref := if b.(best_ask_price) >? 0 then b.(best_ask_price) else mark in
    if ref <=? 0 then skip "hedge_book_unavailable"
    else if (slippage >? 0) && (mark >? 0) then
      let cap := mark ⊗ (1 ⊕ slippage) in
      if (b.(best_ask_price) >? 0) && (b.(best_ask_price) >? cap) then skip "hedge_slippage_exceeded"
      else let ref := dmin ref cap in priced (ceil_to_step ref (tick_size_for_price i ref))
    else priced (ceil_to_step ref (tick_size_for_price i ref))
  else
    let ref := if b.(best_bid_price) >? 0 then b.(best_bid_price) else mark in
    if ref <=? 0 then skip "hedge_book_unavailable"
    else if (slippage >? 0) && (mark >? 0) then
      let floor := mark ⊗ (1 ⊖ slippage) in
      if (b.(best_bid_price) >? 0) && (b.(best_bid_price) <? floor) then skip "hedge_slippage_exceeded"
      else let ref := dmax ref floor in priced (floor_to_step ref (tick_size_for_price i ref))
    else priced (floor_to_step ref (tick_size_for_price i ref)).

Definition positive_or_unavailable (price : Q) : option Q * option string :=
  if price <=? 0 then skip "hedge_limit_price_unavailable" else priced price.

Definition resolve_hedge_perp_maker_limit_price (direction : string) (b : OrderBookSnapshot) (i : OptionInstrument)
    : option Q * option string :=
  let mark := book_mark b in
  if String.eqb (lower direction) "buy" then
    if b.(best_bid_price) <=? 0 then
      if mark <=? 0 then skip "hedge_book_unavailable"
      else
        let step := tick_size_for_price i mark in
        let ref := if mark >? step then mark ⊖ step else mark in
        positive_or_unavailable (floor_to_step ref (tick_size_for_price i ref))
    else positive_or_unavailable (floor_to_step b.(best_bid_price) (tick_size_for_price i b.(best_bid_price)))
  else
    if b.(best_ask_price) <=? 0 then
      if mark <=? 0 then skip "hedge_book_unavailable"
      else
        let ref := mark ⊕ tick_size_for_price i mark in
        positive_or_unavailable (ceil_to_step ref (tick_size_for_price i ref))
    else positive_or_unavailable (ceil_to_step b.(best_ask_price) (tick_size_for_price i b.(best_ask_price))).

(** [{"skipped": True, "reason": ...}] *)
Definition skipped (reason : string) : pyobj := PDict [("skipped"%string, PBool true); ("reason"%string, PStr reason)].

Definition is_skipped (response : pyobj) : bool := match response with PDict d => py_truthy (dget "skipped" d) | _ => false end.

Definition skip_reason_of (response : pyobj) : pyobj := match response with PDict d => dget "reason" d | _ => PNone end.

Definition usable (limit_price : option Q) : option Q :=
  match limit_price with Some p => if p <=? 0 then None else Some p | None => None end.

Definition unpriced (skip_reason : option string) : pyobj :=
  skipped (match skip_reason with Some r => str_or r "hedge_limit_price_unavailable" | None => "hedge_limit_price_unavailable"%string end).

Section Placement.
Context {X : Exchange}.

Definition place_hedge_perp_order (order_type : string) (slippage : Q) (b : OrderBookSnapshot) (i : OptionInstrument)
    (direction name : string) (amount : Q) (label : string) (reduce_only : bool) : M pyobj :=
  let* order_type := lift (normalize_hedge_order_type order_type) in
  let order price type tif post := {| req_direction := direction; req_instrument_name := name; req_amount := amount;
    req_label := label; req_order_type := type; req_price := price; req_time_in_force := tif; req_post_only := post;
    req_reject_post_only := post; req_reduce_only := reduce_only |} in
  if String.eqb order_type "market" then send (PlaceOrder (order None "market"%string None false))
  else if String.eqb order_type "limit_maker" then
    let '(limit_price, skip_reason) := resolve_hedge_perp_maker_limit_price direction b i in
    match usable limit_price with
    | None => ret (unpriced skip_reason)
    | Some price => fun w =>
        match send (PlaceOrder (order (Some price) "limit"%string (Some "good_til_cancelled"%string) true)) w with
        | (w', Exn (ExchangeError message)) =>
            (w', if is_post_only_reject message then Ret (skipped "hedge_post_only_reject") else Exn (ExchangeError message))
        | r => r
        end
    end
  else
    let '(limit_price, skip_reason) := resolve_hedge_perp_ioc_limit_price direction b i slippage in
    match usable limit_price with
    | None => ret (unpriced skip_reason)
    | Some price => send (PlaceOrder (order (Some price) "limit"%string (Some "immediate_or_cancel"%string) false))
    end.

Definition hedge_order_action_meta (order_type : string) (b : OrderBookSnapshot) (i : OptionInstrument) (direction : string)
    (slippage : Q) : M (list (string * pyobj)) :=
  let* order_type := lift (normalize_hedge_order_type order_type) in
  let meta := [("hedge_order_type"%string, PStr order_type)] in
  if String.eqb order_type "market" then ret meta
  else
    let '(limit_price, skip_reason) :=
      if String.eqb order_type "limit_maker" then resolve_hedge_perp_maker_limit_price direction b i
      else resolve_hedge_perp_ioc_limit_price direction b i slippage in
    let* price := match usable limit_price with
                  | Some p => let* t := text8 p in ret [("hedge_limit_price"%string, t)]
                  | None => ret []
                  end in
    ret (meta ++ price ++ match skip_reason with Some r => if truthy r then [("hedge_skip_reason"%string, PStr r)] else [] | None => [] end).

(** [{**response, **meta}] *)
Definition merge_meta (response : pyobj) (meta : list (string * pyobj)) : pyobj :=
  match response with PDict d => PDict (fold_left (fun acc kv => dict_set (fst kv) (snd kv) acc) meta d) | r => r end.

Definition _place_hedge_perp_order (c : engine_config) (direction name : string) (amount : Q) (label : string)
    (reduce_only : bool) (order_type_override : string) : M pyobj :=
  let* markets := read future_markets_by_name in
  match dict_get name markets with
  | None => ret (skipped "hedge_future_metadata_missing")
  | Some i =>
      let* b := _get_orderbook name in
      let effective_type := str_or order_type_override c.(hedge_order_type) in
      let* response := place_hedge_perp_order effective_type c.(hedge_limit_slippage_pct) b i direction name amount label reduce_only in
      if is_skipped response then ret response
      else
        let* meta := hedge_order_action_meta effective_type b i direction c.(hedge_limit_slippage_pct) in
        ret (merge_meta response meta)
  end.

(** ** Resting hedge orders *)

Definition hedge_prefix (c : engine_config) (currency : string) : string :=
  (c.(order_label_prefix) ++ "-hedge-" ++ lower currency ++ "-")%string.

Definition _hedge_label (c : engine_config) (currency suffix : string) : string := (hedge_prefix c currency ++ suffix)%string.

Definition is_open_hedge (c : engine_config) (currency name : string) (o : OpenOrder) : bool :=
  String.eqb o.(order_instrument_name) name && startswith (hedge_prefix c currency) o.(order_label)
  && mem_str (lower o.(order_state)) ["open"%string; "untriggered"%string].

Definition _open_hedge_orders (c : engine_config) (currency name : string) : M (list OpenOrder) :=
  let* orders := read open_orders in ret (filter (is_open_hedge c currency name) orders).

Definition pending_of (uses_base : bool) (index_price : Q) (total : Q) (o : OpenOrder) : Q :=
  let remaining := o.(order_amount) ⊖ o.(filled_amount) in
  if remaining <=? 0 then total
  else if negb uses_base && (index_price <=? 0) then total
  else
    let base := if uses_base then remaining else remaining ⊘ index_price in
    total ⊕ (if String.eqb o.(order_direction) "buy" then base else rnd (- base)).

Definition _pending_hedge_base_from_orders (orders : list OpenOrder) (uses_base : bool) (index_price : Q) : Q :=
  fold_left (pending_of uses_base index_price) orders 0.

Definition action : Type := list (string * pyobj).

Definition cancel_one (name : string) (live : bool) (o : OpenOrder) : M (list action) :=
  let base := [("action"%string, PStr "cancel_hedge_order"); ("order_id"%string, PStr o.(order_id));
    ("instrument_name"%string, PStr name); ("label"%string, PStr o.(order_label)); ("live"%string, PBool live)] in
  if live then let* response := send (CancelOrder o.(order_id)) in ret [base ++ [("response"%string, response)]]
  else ret [base].

Definition _cancel_open_hedge_orders (c : engine_config) (currency name : string) (live : bool) : M (list action) :=
  let* orders := _open_hedge_orders c currency name in
  let* actions := collect (cancel_one name live) orders in
  let cancelled_ids := map order_id orders in
  let* _ := modify (fun w => set_open_orders (filter (fun o => negb (mem_str o.(order_id) cancelled_ids)) w.(open_orders)) w) in
  ret actions.

(** ** Waiting for a maker order *)

Definition waits (w : runtime) : dict Z := w.(state).(hedge_maker_wait_cycles).
Definition set_waits (d : dict Z) (w : runtime) : runtime := set_state (set_hedge_maker_wait_cycles d w.(state)) w.
Definition wait_of (key : string) (d : dict Z) : Z := match dict_get key d with Some n => n | None => 0%Z end.

Definition _bump_hedge_maker_wait (currency : string) : M Z :=
  let* d := read waits in
  let wait := (wait_of (upper currency) d + 1)%Z in
  let* _ := modify (set_waits (dict_set (upper currency) wait d)) in
  ret wait.

Definition _reset_hedge_maker_wait (currency : string) : M unit :=
  modify (fun w => set_waits (dict_pop (upper currency) (waits w)) w).

Definition _resolve_hedge_order_type_for_currency (c : engine_config) (currency : string) : M string :=
  if negb (String.eqb c.(hedge_order_type) "limit_maker") then ret c.(hedge_order_type)
  else
    let* wait := _bump_hedge_maker_wait currency in
    ret (if (Z.max c.(hedge_maker_max_cycles) 1 <=? wait)%Z then "limit_ioc"%string else "limit_maker"%string).
End Placement.

(** ** What placing and cancelling send *)

Section Requests.
Context {X : Exchange}.

Lemma quiet_text8 q : quiet (text8 q).
Proof. apply quiet_lift. Qed.

Lemma quiet_meta order_type b i direction slippage : quiet (hedge_order_action_meta order_type b i direction slippage).
Proof.
  apply quiet_bind; [apply quiet_lift|]. intros t. destruct (String.eqb t "market"); [apply quiet_ret|].
  destruct (if String.eqb t "limit_maker" then _ else _) as [p r]. apply quiet_bind; [|auto with engine].
  destruct (usable p); auto using quiet_text8 with engine.
Qed.

Lemma quiet_bump currency : quiet (_bump_hedge_maker_wait currency).
Proof. intros w. repeat split. Qed.

Lemma quiet_reset currency : quiet (_reset_hedge_maker_wait currency).
Proof. intros w. repeat split. Qed.

(** The request has the arguments of the call, whatever its type and price. *)
Definition asks (direction name : string) (amount : Q) (label : string) (reduce_only : bool) (o : order_request) : Prop :=
  o.(req_direction) = direction /\ o.(req_instrument_name) = name /\ o.(req_amount) = amount /\ o.(req_label) = label /\
  o.(req_reduce_only) = reduce_only.

(** Placing an order sends nothing, or exactly one request. *)
Definition at_most_one (ok : order_request -> Prop) (w w' : runtime) : Prop :=
  frame w w' \/ exists o, ok o /\ frame (log_request (PlaceOrder o) w) w'.

Lemma place_sends order_type slippage b i direction name amount label reduce_only w :
  always (place_hedge_perp_order order_type slippage b i direction name amount label reduce_only) w
    (at_most_one (asks direction name amount label reduce_only) w).
Proof.
  apply always_step; [apply quiet_lift | now left|]. intros t w' E F.
  assert (W : w' = w) by (unfold lift in E; congruence). subst w'. clear E F.
  destruct (String.eqb t "market"); [right; eexists; split; [|apply frame_refl]; now repeat split|].
  destruct (String.eqb t "limit_maker").
  - destruct (resolve_hedge_perp_maker_limit_price direction b i) as [p r]. destruct (usable p); [|left; apply frame_refl].
    right. eexists. unfold send. destruct (reply _ _) as [v|[]|]; cbn [fst].
    all: split; [|apply frame_refl]; now repeat split.
  - destruct (resolve_hedge_perp_ioc_limit_price direction b i slippage) as [p r]. destruct (usable p); [|left; apply frame_refl].
    right. eexists. split; [|apply frame_refl]. now repeat split.
Qed.

Lemma at_most_one_frame ok w w1 w2 : at_most_one ok w w1 -> frame w1 w2 -> at_most_one ok w w2.
Proof. intros [H|(o & Ho & H)] F; [left | right; exists o; split; [exact Ho|]]; eapply frame_trans; eassumption. Qed.

Lemma at_most_one_base ok w w1 w2 : frame w w1 -> at_most_one ok w1 w2 -> at_most_one ok w w2.
Proof.
  intros F [H|(o & Ho & H)]; [left | right; exists o; split; [exact Ho|]].
  - eapply frame_trans; eassumption.
  - eapply frame_trans; [apply frame_log; exact F | exact H].
Qed.

Lemma place_currency_sends c direction name amount label reduce_only type w :
  always (_place_hedge_perp_order c direction name amount label reduce_only type) w
    (fun w' => frame w w' \/ dict_get name w.(future_markets_by_name) <> None /\ at_most_one (asks direction name amount label reduce_only) w w').
Proof.
  apply always_step; [apply quiet_read | now left|]. intros markets w1 E F. injection E as <- <-. clear F.
  destruct (dict_get name w.(future_markets_by_name)) as [i|]; [|left; apply frame_refl].
  cut (always (let* b := _get_orderbook name in
      let effective_type := str_or type c.(hedge_order_type) in
      let* response := place_hedge_perp_order effective_type c.(hedge_limit_slippage_pct) b i direction name amount label reduce_only in
      if is_skipped response then ret response
      else let* meta := hedge_order_action_meta effective_type b i direction c.(hedge_limit_slippage_pct) in
        ret (merge_meta response meta))%run w (at_most_one (asks direction name amount label reduce_only) w)).
  { intros H. right. split; [discriminate | exact H]. }
  apply always_step; [apply quiet_get_orderbook | now left|]. intros b w1 _ F1. cbv zeta.
  pose proof (place_sends (str_or type c.(hedge_order_type)) c.(hedge_limit_slippage_pct) b i direction name amount label reduce_only w1) as P.
  apply (at_most_one_base _ _ _ _ F1) in P. apply always_bind; [intros; exact P | intros; exact P|].
  intros response _. apply always_quiet; [|intros w2; now apply at_most_one_frame].
  destruct (is_skipped response); auto using quiet_meta with engine.
Qed.

Definition cancels (ids : list string) (w : runtime) : runtime := fold_left (fun w id => log_request (CancelOrder id) w) ids w.

Lemma cancels_app a b w : cancels (a ++ b) w = cancels b (cancels a w).
Proof. apply fold_left_app. Qed.

Lemma cancels_requests ids : forall w, (cancels ids w).(requests) = rev (map CancelOrder ids) ++ w.(requests).
Proof.
  induction ids as [|id r IH]; intros w; [reflexivity|]. change (cancels (id :: r) w) with (cancels r (log_request (CancelOrder id) w)).
  rewrite IH. cbn [map rev]. now rewrite <- app_assoc.
Qed.

Lemma cancel_loop_dry name os : forall w, fst (collect (cancel_one name false) os w) = w.
Proof.
  induction os as [|o r IH]; intros w; [reflexivity|]. cbn [collect]. rewrite bind_fst. cbn [cancel_one fst snd ret].
  rewrite bind_fst. specialize (IH w). destruct (collect (cancel_one name false) r w) as [w' [x| |]]; exact IH.
Qed.

(** A live cancellation sends the ids in order, all of them unless the exchange raises. *)
Lemma cancel_loop_live name os : forall w, exists done rest, map order_id os = done ++ rest /\
  fst (collect (cancel_one name true) os w) = cancels done w /\
  (forall a, snd (collect (cancel_one name true) os w) = Ret a -> rest = []).
Proof.
  induction os as [|o r IH]; intros w; [exists [], []; repeat split|].
  set (w1 := log_request (CancelOrder o.(order_id)) w). cbn [collect map].
  assert (E : fst (cancel_one name true o w) = w1) by (unfold cancel_one; rewrite bind_fst; unfold send; destruct (reply _ _); reflexivity).
  destruct (snd (cancel_one name true o w)) as [acts|e|] eqn:S.
  2-3: exists [o.(order_id)], (map order_id r); split; [reflexivity|]; rewrite bind_fst, bind_snd, S, E;
    split; [reflexivity | intros a Ha; discriminate].
  destruct (IH w1) as (done & rest & Em & Ew & Er). exists (o.(order_id) :: done), rest. cbn [app]. rewrite Em. split; [reflexivity|].
  rewrite !bind_fst, !bind_snd, S, E, bind_fst, bind_snd. destruct (snd (collect (cancel_one name true) r w1)) as [x|e|]; cbn [ret fst snd].
  - split; [exact Ew | intros a _; exact (Er x eq_refl)].
  - split; [exact Ew | discriminate].
  - split; [exact Ew | discriminate].
Qed.

(** The ids of the resting hedge orders of a currency. *)
Definition hedge_ids (c : engine_config) (currency name : string) (w : runtime) : list string :=
  map order_id (filter (is_open_hedge c currency name) w.(open_orders)).

(** What holds after cancelling: dry runs send nothing; live runs send the ids of the
    resting orders, in order, all of them on success. *)
Lemma cancel_sends c currency name live w :
  let w' := fst (_cancel_open_hedge_orders c currency name live w) in
  exists done rest, (if live then hedge_ids c currency name w else []) = done ++ rest /\
    w'.(requests) = rev (map CancelOrder done) ++ w.(requests) /\
    w'.(future_positions) = w.(future_positions) /\ w'.(future_markets_by_name) = w.(future_markets_by_name) /\
    w'.(markets_by_currency) = w.(markets_by_currency) /\
    (forall a, snd (_cancel_open_hedge_orders c currency name live w) = Ret a ->
       rest = [] /\ filter (is_open_hedge c currency name) w'.(open_orders) = []).
Proof.
  cbv zeta. unfold _cancel_open_hedge_orders.
  change (bind (_open_hedge_orders c currency name) ?k w) with (k (filter (is_open_hedge c currency name) w.(open_orders)) w).
  set (os := filter (is_open_hedge c currency name) w.(open_orders)). cbv beta.
  assert (Gone : filter (is_open_hedge c currency name) (filter (fun o => negb (mem_str o.(order_id) (map order_id os))) w.(open_orders)) = []).
  { match goal with |- ?t = [] => destruct t as [|o l] eqn:E; [reflexivity|] end. exfalso.
    assert (I : In o (o :: l)) by now left. rewrite <- E in I. apply filter_In in I. destruct I as [I H]. apply filter_In in I.
    destruct I as [I N]. apply negb_true_iff in N.
    assert (T : mem_str o.(order_id) (map order_id os) = true) by (apply mem_str_In, in_map, filter_In; now split). congruence. }
  assert (L : exists done rest, (if live then map order_id os else []) = done ++ rest /\
    fst (collect (cancel_one name live) os w) = cancels done w /\
    (forall a, snd (collect (cancel_one name live) os w) = Ret a -> rest = [])).
  { destruct live; [apply cancel_loop_live | exists [], []; repeat split; apply cancel_loop_dry]. }
  destruct L as (done & rest & Em & Ew & Er). exists done, rest. split; [exact Em|].
  assert (K : forall w1, w1 = cancels done w -> w1.(requests) = rev (map CancelOrder done) ++ w.(requests) /\
    w1.(future_positions) = w.(future_positions) /\ w1.(future_markets_by_name) = w.(future_markets_by_name) /\
    w1.(markets_by_currency) = w.(markets_by_currency) /\ w1.(open_orders) = w.(open_orders)).
  { intros w1 ->. split; [apply cancels_requests|]. clear. revert w. induction done as [|d r IH]; intros w; [now repeat split|].
    destruct (IH (log_request (CancelOrder d) w)) as (A & B & C & D). now repeat split. }
  rewrite !bind_fst, !bind_snd. destruct (snd (collect (cancel_one name live) os w)) as [acts|e|]; cbn [modify ret fst snd bind];
    destruct (K _ Ew) as (K1 & K2 & K3 & K4 & K5).
  2-3: repeat split; auto; discriminate.
  specialize (Er acts eq_refl). cbn. rewrite K5. repeat split; auto.
Qed.
End Requests.
