(* ===== verification/Hedge.v ===== *)
(** Perp hedging ([engine/hedge_management.py]): the hedge state of a group, the
    reconciliation of a currency's perp with the sum of its groups' hedges. Net hedging is
    in [NetHedge]. *)

From S2P Require Import Prelude Dec PyStr Utils Group Ledger PyObj StateJson Market Runtime HedgeOrders.
Local Open Scope Q_scope.
Local Open Scope dec_scope.
Local Open Scope bool_scope.
Local Open Scope run_scope.
Local Open Scope list_scope.

(** ** The hedge of a group *)

Definition _contract_size_for_group (g : TradeGroup) (markets : dict (list OptionInstrument)) : Q :=
  match _find_instrument_by_markets markets g.(short_instrument_name) with
  | Ret i => if i.(instrument_contract_size) >? 0 then i.(instrument_contract_size) else 1
  | _ => 1
  end.

Definition _group_option_delta (g : TradeGroup) (contract_size : Q) : Q :=
  let option_sign := if String.eqb (str_or g.(option_type) "put") "call" then - (1) else 1 in
  let underlying_base := g.(quantity) ⊗ contract_size in
  (option_sign ⊗ g.(short_delta)) ⊗ underlying_base.

Definition sized (contract_size frac : Q) (g : TradeGroup) : TradeGroup :=
  set_hedge_size_base (rnd (- _group_option_delta g contract_size) ⊗ frac) g.

Definition frac_of (c : engine_config) (g : TradeGroup) : Q :=
  if String.eqb g.(hedge_mode) "hard" then 1 else c.(soft_hedge_neutralize_pct).

Definition _update_position_hedge (c : engine_config) (g : TradeGroup) (raw_soft raw_hard soft_trigger hard_trigger : bool)
    (contract_size : Q) : TradeGroup :=
  if hard_trigger then
    sized contract_size 1 (set_hedge_recovery_streak 0 (set_hedge_mode "hard" g))
  else if soft_trigger then
    let g := if negb (String.eqb g.(hedge_mode) "hard") then set_hedge_mode "soft" g else g in
    let g := set_hedge_recovery_streak 0 g in
    sized contract_size (frac_of c g) g
  else if truthy g.(hedge_mode) then
    if raw_soft || raw_hard then
      let g := set_hedge_recovery_streak 0 g in
      sized contract_size (frac_of c g) g
    else
      let g := set_hedge_recovery_streak (g.(hedge_recovery_streak) + 1) g in
      if (Z.max c.(hedge_unwind_recovery_cycles) 1 <=? g.(hedge_recovery_streak))%Z then
        set_hedge_size_base 0 (set_hedge_recovery_streak 0 (set_hedge_mode EmptyString g))
      else sized contract_size (frac_of c g) g
  else set_hedge_size_base 0 g.

(** [_confirm_defense_triggers] of [engine/group_exit.py]: the group with its streaks,
    and the confirmed soft and hard triggers. *)
Definition _confirm_defense_triggers (c : engine_config) (g : TradeGroup) (raw_soft raw_hard : bool) : TradeGroup * bool * bool :=
  let g := set_hard_defense_streak (if raw_hard then g.(hard_defense_streak) + 1 else 0)%Z g in
  let g := set_soft_defense_streak (if raw_soft then g.(soft_defense_streak) + 1 else 0)%Z g in
  let need := Z.max c.(defense_confirm_cycles) 1 in
  (g, raw_soft && (need <=? g.(soft_defense_streak))%Z, raw_hard && (need <=? g.(hard_defense_streak))%Z).

(** ** Reconciliation *)

Section Reconcile.
Context {X : Exchange}.

Definition _max_abs_per_position_hedge_base (markets : dict (list OptionInstrument)) (currency : string) (gs : list TradeGroup) : Q :=
  fold_left (fun total g => total ⊕ dabs (_group_option_delta g (_contract_size_for_group g markets)))
    (filter (fun g => String.eqb g.(Group.currency) currency) gs) 0.

Definition _cap_per_position_hedge_target (currency : string) (target_base : Q) (gs : list TradeGroup) : M (Q * bool) :=
  let* markets := read markets_by_currency in
  let max_abs := _max_abs_per_position_hedge_base markets currency gs in
  if max_abs <=? 0 then ret (target_base, false)
  else
    let ceiling := max_abs ⊗ 1.1 in
    if dabs target_base <=? ceiling then ret (target_base, false)
    else
      let capped := if target_base >? 0 then ceiling else rnd (- ceiling) in
      let* _ := text8 target_base in
      let* _ := text8 max_abs in
      ret (capped, true).

Definition _current_hedge_base (positions : list Position) (currency : string) : Q :=
  fold_left (fun total p => total ⊕ signed_size_currency p)
    (filter (fun p => String.eqb p.(position_instrument_name) (_perp_instrument currency)) positions) 0.

Definition target_of (currency : string) (gs : list TradeGroup) : Q :=
  fold_left (fun total g => total ⊕ g.(hedge_size_base)) (filter (fun g => String.eqb g.(Group.currency) currency) gs) 0.

(** The branch that sends an order for the gap between target and position. *)
Definition reconcile_order (c : engine_config) (currency : string) (live maker_mode : bool) (wait : Z) (effective_type : string)
    (raw_target_base target_base current_base index_price : Q) (hedge_capped : bool) : M (list action) :=
  let perp_name := _perp_instrument currency in
  let uses_base := _perp_uses_base_amount currency in
  let diff := target_base ⊖ current_base in
  if negb uses_base && (index_price <=? 0) then ret []
  else
    let raw_amount := if uses_base then dabs diff else dabs diff ⊗ index_price in
    let* order_amount := _align_future_order_amount perp_name raw_amount in
    if order_amount <=? 0 then ret []
    else
      let realized_base := if uses_base then order_amount else order_amount ⊘ index_price in
      let side := if diff >? 0 then "buy"%string else "sell"%string in
      let signed_change := if String.eqb side "buy" then realized_base else rnd (- realized_base) in
      let new_base := current_base ⊕ signed_change in
      let reduce_only := (dabs target_base <? dabs current_base) && (current_base ⊗ target_base >=? 0) in
      let* t_amount := text8 order_amount in
      let* t_target := text8 target_base in
      let* t_current := text8 current_base in
      let* t_new := text8 new_base in
      let* t_raw := (if hedge_capped then let* t := text8 raw_target_base in ret [("hedge_target_capped"%string, PBool true); ("raw_target_hedge_base"%string, t)] else ret []) in
      let fields := [("action"%string, PStr "hedge_position_reconcile"); ("currency"%string, PStr currency);
        ("instrument_name"%string, PStr perp_name); ("side"%string, PStr side); ("amount"%string, t_amount);
        ("target_hedge_base"%string, t_target); ("current_hedge_base"%string, t_current); ("new_hedge_base"%string, t_new);
        ("reduce_only"%string, PBool reduce_only); ("hedge_order_type"%string, PStr effective_type); ("live"%string, PBool live)]
        ++ (if maker_mode then [("hedge_maker_wait_cycles"%string, PInt wait)] else []) ++ t_raw in
      if live then
        let* response := _place_hedge_perp_order c side perp_name order_amount (_hedge_label c currency "position") reduce_only effective_type in
        if is_skipped response then
          ret [fields ++ [("response"%string, response); ("skipped"%string, PBool true); ("skip_reason"%string, skip_reason_of response)]]
        else
          let* _ := (if negb (String.eqb effective_type "limit_maker") then _reset_hedge_maker_wait currency else ret tt) in
          ret [fields ++ [("response"%string, response)]]
      else ret [fields].

Definition reconcile_currency (c : engine_config) (live : bool) (gs : list TradeGroup) (currency : string) : M (list action) :=
  let raw_target_base := target_of currency gs in
  let* capped := _cap_per_position_hedge_target currency raw_target_base gs in
  let '(target_base, hedge_capped) := capped in
  let* positions := read future_positions in
  let current_base := _current_hedge_base positions currency in
  let perp_name := _perp_instrument currency in
  let uses_base := _perp_uses_base_amount currency in
  let* index_price := _currency_index_price currency in
  let deadband := hedge_reconcile_deadband_base c currency in
  let position_diff := target_base ⊖ current_base in
  if dabs position_diff <=? deadband then
    let* _ := _reset_hedge_maker_wait currency in
    let* open := _open_hedge_orders c currency perp_name in
    match open with [] => ret [] | _ => _cancel_open_hedge_orders c currency perp_name live end
  else
    let maker_mode := String.eqb c.(hedge_order_type) "limit_maker" in
    let* wait := (if maker_mode then _bump_hedge_maker_wait currency else ret 0%Z) in
    let max_wait := Z.max c.(hedge_maker_max_cycles) 1 in
    let force_ioc := maker_mode && (max_wait <=? wait)%Z in
    let effective_type := if force_ioc then "limit_ioc"%string else c.(hedge_order_type) in
    let* open_hedge := _open_hedge_orders c currency perp_name in
    let pending_base := _pending_hedge_base_from_orders open_hedge uses_base index_price in
    let effective_diff := target_base ⊖ (current_base ⊕ pending_base) in
    let any_open := match open_hedge with [] => false | _ => true end in
    if maker_mode && negb force_ioc && (dabs effective_diff <=? deadband) && any_open then
      let* t_target := text8 target_base in
      let* t_current := text8 current_base in
      let* t_pending := text8 pending_base in
      ret [[("action"%string, PStr "hedge_position_reconcile_pending"); ("currency"%string, PStr currency);
        ("instrument_name"%string, PStr perp_name); ("target_hedge_base"%string, t_target);
        ("current_hedge_base"%string, t_current); ("pending_hedge_base"%string, t_pending);
        ("hedge_maker_wait_cycles"%string, PInt wait); ("hedge_order_type"%string, PStr "limit_maker"); ("live"%string, PBool live)]]
    else
      let* cancels := (if any_open && (force_ioc || (dabs effective_diff >? deadband) || negb maker_mode)
                       then _cancel_open_hedge_orders c currency perp_name live else ret []) in
      let* orders := reconcile_order c currency live maker_mode wait effective_type raw_target_base target_base current_base index_price hedge_capped in
      ret (cancels ++ orders).

Definition _reconcile_position_hedges (c : engine_config) (live : bool) : M (list action) :=
  let* s := read state in
  collect (reconcile_currency c live (_open_groups s)) c.(managed_currencies).
End Reconcile.

(** ** The hedge of a group refines a reference over its history *)

(** One management cycle of a group, as its hedge sees it. *)
Record cycle : Type := { saw_soft : bool; saw_hard : bool; at_delta : Q; at_contract_size : Q }.

Definition hedge_cycle (c : engine_config) (g : TradeGroup) (k : cycle) : TradeGroup :=
  let g := set_short_delta k.(at_delta) g in
  let '(g, soft, hard) := _confirm_defense_triggers c g k.(saw_soft) k.(saw_hard) in
  _update_position_hedge c g k.(saw_soft) k.(saw_hard) soft hard k.(at_contract_size).

Definition hedge_run (c : engine_config) (h : list cycle) (g : TradeGroup) : TradeGroup := fold_left (hedge_cycle c) h g.

(** How many of the newest cycles in a row satisfy [p]; histories are newest first. *)
Fixpoint streak {A} (p : A -> bool) (h : list A) : Z :=
  match h with
  | [] => 0
  | k :: r => if p k then 1 + streak p r else 0
  end.

Definition clear (k : cycle) : bool := negb (k.(saw_soft) || k.(saw_hard)).

Section Automaton.
Variable c : engine_config.
Let need := Z.max c.(defense_confirm_cycles) 1.
Let unwind := Z.max c.(hedge_unwind_recovery_cycles) 1.

Definition confirmed (p : cycle -> bool) (h : list cycle) : bool := (need <=? streak p h)%Z.

(** The mode a history leads to: hard after enough hard readings in a row, soft after
    enough soft ones unless already hard, none after enough clear ones, unchanged
    otherwise. *)
Fixpoint mode_of (h : list cycle) : string :=
  match h with
  | [] => EmptyString
  | _ :: r =>
      if confirmed saw_hard h then "hard"%string
      else if confirmed saw_soft h then (if String.eqb (mode_of r) "hard" then "hard"%string else "soft"%string)
      else if (unwind <=? streak clear h)%Z then EmptyString
      else mode_of r
  end.

Lemma streak_nonneg {A} (p : A -> bool) h : (0 <= streak p h)%Z.
Proof. induction h as [|k r IH]; cbn [streak]; [lia|]. destruct (p k); lia. Qed.

Lemma mode_cases h : mode_of h = EmptyString \/ mode_of h = "soft"%string \/ mode_of h = "hard"%string.
Proof.
  induction h as [|k r IH]; [now left|]. cbn [mode_of]. destruct (confirmed saw_hard _); [auto|].
  destruct (confirmed saw_soft _); [destruct (String.eqb _ _); auto|]. destruct (_ <=? _)%Z; auto.
Qed.

(** What the fields of the group say about the history. *)
Definition tracks (h : list cycle) (g : TradeGroup) : Prop :=
  g.(hard_defense_streak) = streak saw_hard h /\ g.(soft_defense_streak) = streak saw_soft h /\
  g.(hedge_mode) = mode_of h /\ (mode_of h <> EmptyString -> g.(hedge_recovery_streak) = streak clear h /\ (streak clear h < unwind)%Z) /\
  (mode_of h = EmptyString -> g.(hedge_recovery_streak) = 0%Z).

Lemma confirmed_raw p k h : p k = false -> confirmed p (k :: h) = false.
Proof. intros E. unfold confirmed. cbn [streak]. rewrite E. apply Z.leb_gt. unfold need. lia. Qed.

Lemma confirm_streaks g k h : g.(hard_defense_streak) = streak saw_hard h -> g.(soft_defense_streak) = streak saw_soft h ->
  _confirm_defense_triggers c g k.(saw_soft) k.(saw_hard) =
  (set_soft_defense_streak (streak saw_soft (k :: h)) (set_hard_defense_streak (streak saw_hard (k :: h)) g),
   confirmed saw_soft (k :: h), confirmed saw_hard (k :: h)).
Proof.
  intros H S. unfold _confirm_defense_triggers. cbn [hard_defense_streak soft_defense_streak set_hard_defense_streak set_soft_defense_streak].
  rewrite H, S. fold need. unfold confirmed. cbn [streak].
  destruct (saw_soft k), (saw_hard k); cbn [andb]; rewrite ?(Z.add_comm _ 1); try reflexivity.
  all: replace (need <=? 0)%Z with false by (symmetry; apply Z.leb_gt; unfold need; lia); reflexivity.
Qed.

(** The update on the mode and the recovery streak alone, and the size that follows. *)
Definition mode_update (mode : string) (recovery : Z) (raw soft hard : bool) : string * Z :=
  if hard then ("hard"%string, 0%Z)
  else if soft then (if String.eqb mode "hard" then mode else "soft"%string, 0%Z)
  else if truthy mode then
    if raw then (mode, 0%Z)
    else if (unwind <=? recovery + 1)%Z then (EmptyString, 0%Z) else (mode, (recovery + 1)%Z)
  else (mode, recovery).

Definition size_for (mode : string) (option_delta : Q) : Q :=
  if truthy mode then rnd (- option_delta) ⊗ (if String.eqb mode "hard" then 1 else c.(soft_hedge_neutralize_pct)) else 0.

Lemma update_view g rs rh st ht cs : let g' := _update_position_hedge c g rs rh st ht cs in
  (g'.(hedge_mode), g'.(hedge_recovery_streak)) = mode_update g.(hedge_mode) g.(hedge_recovery_streak) (rs || rh) st ht /\
  g'.(hedge_size_base) = size_for g'.(hedge_mode) (_group_option_delta g cs) /\
  g'.(hard_defense_streak) = g.(hard_defense_streak) /\ g'.(soft_defense_streak) = g.(soft_defense_streak) /\
  g'.(quantity) = g.(quantity) /\ g'.(option_type) = g.(option_type) /\ g'.(short_delta) = g.(short_delta).
Proof.
  cbv zeta. unfold _update_position_hedge, mode_update. fold unwind. destruct ht; [now repeat split|].
  destruct st.
  { destruct (String.eqb_spec g.(hedge_mode) "hard") as [E|N]; cbn [negb]; [|now repeat split].
    repeat split. unfold size_for, sized, frac_of.
    cbn [hedge_mode hedge_size_base set_hedge_size_base set_hedge_recovery_streak]. now rewrite E. }
  destruct (truthy g.(hedge_mode)) eqn:T.
  2: { repeat split. unfold size_for. cbn. now rewrite T. }
  destruct (rs || rh).
  { repeat split. unfold size_for. cbn. now rewrite T. }
  change (hedge_recovery_streak (set_hedge_recovery_streak (hedge_recovery_streak g + 1) g)) with (g.(hedge_recovery_streak) + 1)%Z.
  destruct (unwind <=? g.(hedge_recovery_streak) + 1)%Z; repeat split. unfold size_for. cbn. now rewrite T.
Qed.

Lemma clear_streaks k h : saw_soft k || saw_hard k = false ->
  confirmed saw_hard (k :: h) = false /\ confirmed saw_soft (k :: h) = false /\ streak clear (k :: h) = (1 + streak clear h)%Z.
Proof.
  intros E. cbn [streak]. unfold clear at 1. rewrite E. apply orb_false_iff in E. destruct E as [E1 E2].
  repeat split; now apply confirmed_raw.
Qed.

Lemma raw_streaks k h : saw_soft k || saw_hard k = true -> streak clear (k :: h) = 0%Z.
Proof. intros E. cbn [streak]. unfold clear. now rewrite E. Qed.

Lemma mode_tracks h k recovery :
  (mode_of h <> EmptyString -> recovery = streak clear h /\ (streak clear h < unwind)%Z) -> (mode_of h = EmptyString -> recovery = 0%Z) ->
  let '(mode', recovery') := mode_update (mode_of h) recovery (saw_soft k || saw_hard k) (confirmed saw_soft (k :: h)) (confirmed saw_hard (k :: h)) in
  mode' = mode_of (k :: h) /\ (mode' <> EmptyString -> recovery' = streak clear (k :: h) /\ (streak clear (k :: h) < unwind)%Z) /\
  (mode' = EmptyString -> recovery' = 0%Z).
Proof.
  intros R R0. assert (P : (0 < unwind)%Z) by (unfold unwind; lia).
  assert (Raw : forall p, (p = saw_soft \/ p = saw_hard) -> confirmed p (k :: h) = true -> saw_soft k || saw_hard k = true).
  { intros p [->| ->] E; destruct (saw_soft k) eqn:E1, (saw_hard k) eqn:E2; try reflexivity; rewrite confirmed_raw in E by assumption; discriminate. }
  cbn [mode_of]. unfold mode_update.
  destruct (confirmed saw_hard (k :: h)) eqn:Hc.
  { rewrite (raw_streaks k h) by (apply (Raw saw_hard); auto). repeat split; auto; discriminate. }
  destruct (confirmed saw_soft (k :: h)) eqn:Sc.
  { rewrite (raw_streaks k h) by (apply (Raw saw_soft); auto). destruct (String.eqb_spec (mode_of h) "hard") as [->|]; repeat split; auto; discriminate. }
  destruct (saw_soft k || saw_hard k) eqn:E.
  - rewrite (raw_streaks k h E). replace (unwind <=? 0)%Z with false by (symmetry; apply Z.leb_gt; lia).
    destruct (mode_cases h) as [M|[M|M]]; rewrite M in *; cbn [truthy is_empty negb]; repeat split; auto; try discriminate; congruence.
  - destruct (clear_streaks k h E) as (_ & _ & ->).
    destruct (mode_cases h) as [M|[M|M]]; rewrite M in *; cbn [truthy is_empty negb].
    1: { rewrite (R0 eq_refl). destruct (unwind <=? 1 + streak clear h)%Z; repeat split; auto; congruence. }
    all: destruct R as [-> L]; [discriminate|]; rewrite (Z.add_comm _ 1).
    all: destruct (Z.leb_spec unwind (1 + streak clear h)); repeat split; auto; try discriminate; congruence.
Qed.

Lemma hedge_cycle_tracks h g k : tracks h g -> let g' := hedge_cycle c g k in
  tracks (k :: h) g' /\ g'.(hedge_size_base) = size_for (mode_of (k :: h)) (_group_option_delta g' k.(at_contract_size)) /\
  g'.(short_delta) = k.(at_delta) /\ g'.(quantity) = g.(quantity) /\ g'.(option_type) = g.(option_type).
Proof.
  intros (H & S & Md & R & R0). cbv zeta. unfold hedge_cycle.
  rewrite (confirm_streaks (set_short_delta k.(at_delta) g) k h H S). cbv iota beta.
  set (g1 := set_soft_defense_streak _ _).
  destruct (update_view g1 k.(saw_soft) k.(saw_hard) (confirmed saw_soft (k :: h)) (confirmed saw_hard (k :: h)) k.(at_contract_size))
    as (V & Z1 & Hs & Ss & Qg & Og & Dg).
  set (g' := _update_position_hedge _ _ _ _ _ _ _) in *.
  pose proof (mode_tracks h k g.(hedge_recovery_streak) R R0) as T.
  change g1.(hedge_mode) with g.(hedge_mode) in V. change g1.(hedge_recovery_streak) with g.(hedge_recovery_streak) in V. rewrite Md in V.
  rewrite <- V in T. destruct T as (T1 & T2 & T3).
  assert (D : _group_option_delta g' k.(at_contract_size) = _group_option_delta g1 k.(at_contract_size))
    by (unfold _group_option_delta; now rewrite Qg, Og, Dg).
  split; [|rewrite D, <- T1; repeat split; auto].
  unfold tracks. rewrite <- T1. repeat split; auto; apply T2; assumption.
Qed.

(** A group no defense trigger has touched. *)
Definition fresh (g : TradeGroup) : Prop :=
  g.(hard_defense_streak) = 0%Z /\ g.(soft_defense_streak) = 0%Z /\ g.(hedge_mode) = EmptyString /\ g.(hedge_recovery_streak) = 0%Z.

Lemma fresh_tracks g : fresh g -> tracks [] g.
Proof. intros (A & B & C & D). refine (conj A (conj B (conj C (conj _ (fun _ => D))))). intros N. now contradiction N. Qed.

Lemma hedge_run_tracks g h : fresh g -> let g' := hedge_run c h g in
  tracks (rev h) g' /\ g'.(quantity) = g.(quantity) /\ g'.(option_type) = g.(option_type).
Proof.
  intros F. cbv zeta. unfold hedge_run. induction h as [|k h IH] using rev_ind; [split; [now apply fresh_tracks | now split]|].
  rewrite rev_app_distr, fold_left_app. destruct IH as (T & Qe & Oe). cbn [fold_left rev app].
  destruct (hedge_cycle_tracks (rev h) _ k T) as (T' & _ & _ & Qe' & Oe'). rewrite Qe', Oe'. auto.
Qed.

Lemma hedge_run_size g h k : fresh g ->
  (hedge_run c (h ++ [k]) g).(hedge_size_base) =
    size_for (mode_of (k :: rev h)) (_group_option_delta (set_short_delta k.(at_delta) g) k.(at_contract_size)).
Proof.
  intros F. destruct (hedge_run_tracks g h F) as (T & Qe & Oe). unfold hedge_run in *. rewrite fold_left_app. cbn [fold_left].
  destruct (hedge_cycle_tracks (rev h) _ k T) as (_ & -> & De & Qe' & Oe'). f_equal.
  unfold _group_option_delta. rewrite Qe', Oe', De, Qe, Oe. reflexivity.
Qed.

Lemma all_clear_unwinds l h : Forall (fun k => clear k = true) l -> (unwind <= Z.of_nat (List.length l))%Z -> mode_of (l ++ h) = EmptyString.
Proof.
  assert (S : forall l, Forall (fun k => clear k = true) l -> (Z.of_nat (List.length l) <= streak clear (l ++ h))%Z).
  { induction 1 as [|k r C F IH]; [apply streak_nonneg|]. cbn [app streak List.length]. rewrite C. lia. }
  intros F L. assert (P : (0 < unwind)%Z) by (unfold unwind; lia). destruct l as [|k r]; [cbn in L; lia|].
  specialize (S _ F). cbn [app mode_of]. inversion F as [|? ? C _]; subst. unfold clear in C. apply negb_true_iff in C.
  destruct (clear_streaks k (r ++ h) C) as (-> & -> & _). cbn [app] in S.
  replace (unwind <=? streak clear (k :: r ++ h))%Z with true by (symmetry; apply Z.leb_le; lia). reflexivity.
Qed.

Lemma all_confirmed p l h : Forall (fun k => p k = true) l -> (need <= Z.of_nat (List.length l))%Z -> confirmed p (l ++ h) = true.
Proof.
  intros F L. apply Z.leb_le. eapply Z.le_trans; [exact L|]. clear L. induction F as [|k r C F IH]; [apply streak_nonneg|].
  cbn [app streak List.length]. rewrite C. lia.
Qed.
End Automaton.

(** C37. The hedge fields of a group implement a reference over its history. After any
    sequence of cycles of a group no trigger had touched, the defense streaks count
    the newest readings in a row, the mode is the reference's (hard once hard readings
    are confirmed, soft once soft ones are and it is not hard already, none once the
    readings stayed clear long enough, otherwise as before), and the hedge held is
    none, all, or the soft fraction of the option's delta of that cycle, against it. *)
Theorem hedge_refines_history c g h k : fresh g ->
  let g' := hedge_run c (h ++ [k]) g in
  let history := k :: rev h in
  g'.(hard_defense_streak) = streak saw_hard history /\ g'.(soft_defense_streak) = streak saw_soft history /\
  g'.(hedge_mode) = mode_of c history /\
  g'.(hedge_size_base) = size_for c (mode_of c history) (_group_option_delta (set_short_delta k.(at_delta) g) k.(at_contract_size)).
Proof.
  intros F. cbv zeta. destruct (hedge_run_tracks c g (h ++ [k]) F) as ((H & S & Md & _) & _).
  rewrite rev_app_distr in *. cbn [rev app] in *. repeat split; auto. now apply hedge_run_size.
Qed.

(** A hedge goes on and comes off again. Whatever the group's history, enough hard
    readings in a row end with a hard hedge of the whole delta; enough clear cycles
    after that end with no hedge; and a hard hedge never turns into a soft one without
    having been off. *)
Theorem hedge_lifecycle c g h hard_days clear_days : fresh g ->
  Forall (fun k => k.(saw_hard) = true) hard_days -> Forall (fun k => clear k = true) clear_days ->
  (Z.max c.(defense_confirm_cycles) 1 <= Z.of_nat (List.length hard_days))%Z ->
  (Z.max c.(hedge_unwind_recovery_cycles) 1 <= Z.of_nat (List.length clear_days))%Z ->
  (hedge_run c (h ++ hard_days) g).(hedge_mode) = "hard"%string /\
  (hedge_run c (h ++ hard_days ++ clear_days) g).(hedge_mode) = EmptyString /\
  (hedge_run c (h ++ hard_days ++ clear_days) g).(hedge_size_base) = 0 /\
  (forall k, (hedge_run c h g).(hedge_mode) = "hard"%string -> (hedge_run c (h ++ [k]) g).(hedge_mode) <> "soft"%string).
Proof.
  intros F Hd Cd Ln Lu.
  assert (M : forall l, (hedge_run c l g).(hedge_mode) = mode_of c (rev l)) by (intros l; apply (hedge_run_tracks c g l F)).
  split; [|split; [|split]].
  - rewrite M, rev_app_distr. assert (E : rev hard_days <> []) by (intros E; apply (f_equal (@List.length cycle)) in E; rewrite length_rev in E; cbn in E; lia).
    pose proof (all_confirmed c saw_hard (rev hard_days) (rev h)) as A. rewrite length_rev in A.
    destruct (rev hard_days) as [|k r] eqn:Er; [congruence|]. cbn [app mode_of] in *. rewrite A; auto. rewrite <- Er. now apply Forall_rev.
  - rewrite M, !rev_app_distr, <- app_assoc. apply all_clear_unwinds; [now apply Forall_rev | now rewrite length_rev].
  - destruct clear_days as [|k0 r0] using rev_ind; [cbn in Lu; lia|]. clear IHr0. rewrite !app_assoc, hedge_run_size by exact F.
    assert (E : mode_of c (k0 :: rev ((h ++ hard_days) ++ r0)) = EmptyString); [|rewrite E; reflexivity].
    pose proof (all_clear_unwinds c (rev (r0 ++ [k0])) (rev (h ++ hard_days))) as A. rewrite length_rev in A.
    specialize (A (Forall_rev Cd) Lu). rewrite rev_app_distr in A. cbn [rev app] in A. now rewrite (rev_app_distr (h ++ hard_days)).
  - intros k. rewrite !M, rev_app_distr. cbn [rev app mode_of]. intros ->. cbn [String.eqb Ascii.eqb Bool.eqb].
    destruct (confirmed c saw_hard _); [discriminate|]. destruct (confirmed c saw_soft _); [discriminate|]. destruct (_ <=? _)%Z; discriminate.
Qed.

(** ** What a reconciliation sends *)

Lemma endswith_append s t : endswith t (s ++ t)%string = true.
Proof.
  induction s as [|a s IH]; [destruct t; cbn [endswith append]; now rewrite String.eqb_refl|].
  cbn [append endswith]. now rewrite IH, orb_true_r.
Qed.

Lemma uses_base_always currency : _perp_uses_base_amount currency = true.
Proof. apply endswith_append. Qed.

Section Sends.
Context {X : Exchange}.
Variables (c : engine_config) (gs : list TradeGroup) (currency : string).

(** The target after the cap, and the gap between it and the position. *)
Definition cap_of (markets : dict (list OptionInstrument)) (target_base : Q) : Q :=
  let max_abs := _max_abs_per_position_hedge_base markets currency gs in
  if max_abs <=? 0 then target_base
  else if dabs target_base <=? max_abs ⊗ 1.1 then target_base
  else if target_base >? 0 then max_abs ⊗ 1.1 else rnd (- (max_abs ⊗ 1.1)).

Definition goal_of (w : runtime) : Q := cap_of w.(markets_by_currency) (target_of currency gs).
Definition position_of (w : runtime) : Q := _current_hedge_base w.(future_positions) currency.

(** An order that closes the gap between position and goal, on the tradable grid. *)
Definition closes_gap (goal position : Q) (w : runtime) (o : order_request) : Prop :=
  exists i, dict_get (_perp_instrument currency) w.(future_markets_by_name) = Some i /\
    let amount := align_option_order_amount (dabs (goal ⊖ position)) i.(instrument_contract_size) i.(min_trade_amount) in
    0 < amount /\
    asks (if goal ⊖ position >? 0 then "buy"%string else "sell"%string) (_perp_instrument currency) amount (_hedge_label c currency "position")
      ((dabs goal <? dabs position) && (position ⊗ goal >=? 0)) o.

Lemma quiet_cap target : quiet (_cap_per_position_hedge_target currency target gs).
Proof.
  apply quiet_bind; [apply quiet_read|]. intros markets. cbv zeta. destruct (dleb _ 0); [apply quiet_ret|].
  destruct (dleb _ _); [apply quiet_ret|]. apply quiet_bind; [apply quiet_text8 | intros _].
  apply quiet_bind; [apply quiet_text8 | intros _; apply quiet_ret].
Qed.

Lemma cap_value target w w' r : _cap_per_position_hedge_target currency target gs w = (w', Ret r) -> fst r = cap_of w.(markets_by_currency) target.
Proof.
  unfold _cap_per_position_hedge_target, cap_of. intros H. apply bind_inv in H. destruct H as (w1 & markets & E & H).
  injection E as <- <-. cbv zeta in H. destruct (dleb _ 0); [now injection H as _ <-|].
  destruct (dleb _ _); [now injection H as _ <-|]. apply bind_inv in H. destruct H as (w2 & t1 & _ & H).
  apply bind_inv in H. destruct H as (w3 & t2 & _ & H). now injection H as _ <-.
Qed.

Lemma align_value name amount w w' r : _align_future_order_amount name amount w = (w', Ret r) -> 0 < r ->
  exists i, dict_get name w.(future_markets_by_name) = Some i /\ r = align_option_order_amount amount i.(instrument_contract_size) i.(min_trade_amount).
Proof.
  intros H P. injection H as _ <-. destruct (dict_get name w.(future_markets_by_name)) as [i|]; [eauto | lra].
Qed.

Lemma order_sends live maker wait type raw goal position index capped w :
  always (reconcile_order c currency live maker wait type raw goal position index capped) w
    (fun w' => frame w w' \/ live = true /\ exists o, closes_gap goal position w o /\ frame (log_request (PlaceOrder o) w) w').
Proof.
  unfold reconcile_order. rewrite uses_base_always. cbn [negb andb].
  apply always_step; [intros w0; apply frame_refl | now left|]. intros amount w1 E F1.
  destruct (dleb_spec amount 0) as [|P]; [apply always_quiet; [apply quiet_ret | intros; left; eapply frame_trans; eassumption]|].
  destruct (align_value _ _ _ _ _ E ltac:(lra)) as (i & Ei & Ea).
  cbv zeta. do 4 (apply always_step; [apply quiet_text8 | intros; left; eapply frame_trans; eassumption|]; intros ? ? _ ?;
    match goal with A : frame w ?a, B : frame ?a ?b |- _ => pose proof (frame_trans _ _ _ A B); clear A B end).
  apply always_step; [destruct capped; auto using quiet_text8 with engine | intros; left; eapply frame_trans; eassumption|].
  intros raws w2 _ F2. match goal with A : frame w ?a |- _ => pose proof (frame_trans _ _ _ A F2) as F; clear A F2 end.
  destruct live; [|apply always_quiet; [apply quiet_ret | intros w9 F9; left; exact (frame_trans _ _ _ F F9)]].
  set (side := if dltb 0 (goal ⊖ position) then "buy"%string else "sell"%string).
  assert (P2 : forall w9, (frame w2 w9 \/ dict_get (_perp_instrument currency) w2.(future_markets_by_name) <> None /\
      at_most_one (asks side (_perp_instrument currency) amount (_hedge_label c currency "position") ((dabs goal <? dabs position) && (position ⊗ goal >=? 0))) w2 w9) ->
    frame w w9 \/ true = true /\ exists o, closes_gap goal position w o /\ frame (log_request (PlaceOrder o) w) w9).
  { intros w9 [H|(_ & [H|(o & A & H)])]; [left; exact (frame_trans _ _ _ F H)..|]. right. split; [reflexivity|]. exists o. split.
    - exists i. split; [exact Ei|]. cbv zeta. rewrite <- Ea. split; [lra | exact A].
    - eapply frame_trans; [apply frame_log; exact F | exact H]. }
  pose proof (place_currency_sends c side (_perp_instrument currency) amount (_hedge_label c currency "position") ((dabs goal <? dabs position) && (position ⊗ goal >=? 0)) type w2) as S.
  apply always_bind; [intros; apply P2; exact S | intros; apply P2; exact S|]. intros response _.
  apply always_quiet.
  - destruct (is_skipped response); [apply quiet_ret|]. apply quiet_bind; [|auto with engine].
    destruct (negb _); [apply quiet_reset | apply quiet_ret].
  - intros w9 F9. apply P2. destruct S as [S|(N & S)]; [left; exact (frame_trans _ _ _ S F9) | right; split; [exact N | exact (at_most_one_frame _ _ _ _ S F9)]].
Qed.

(** What reconciling one currency may leave: some of the resting orders cancelled, in
    order, or all of them and then one order for the gap. *)
Definition reconciled (live : bool) (w w' : runtime) : Prop :=
  exists done rest, (if live then hedge_ids c currency (_perp_instrument currency) w else []) = done ++ rest /\
    (w'.(requests) = rev (map CancelOrder done) ++ w.(requests) \/
     live = true /\ rest = [] /\ exists o, closes_gap (goal_of w) (position_of w) w o /\
       w'.(requests) = PlaceOrder o :: rev (map CancelOrder done) ++ w.(requests)).

Lemma reconciled_frame live w w' : frame w w' -> reconciled live w w'.
Proof.
  intros (R & _). exists [], (if live then hedge_ids c currency (_perp_instrument currency) w else []). split; [reflexivity|].
  left. exact R.
Qed.

Lemma closes_gap_frame w w' goal position o : w'.(future_markets_by_name) = w.(future_markets_by_name) ->
  closes_gap goal position w' o -> closes_gap goal position w o.
Proof. unfold closes_gap. now intros ->. Qed.

Lemma cancelled_reconciled live w w1 : frame w w1 ->
  always (_cancel_open_hedge_orders c currency (_perp_instrument currency) live) w1 (reconciled live w).
Proof.
  intros (R & O & _). destruct (cancel_sends c currency (_perp_instrument currency) live w1) as (done & rest & E & Er & _).
  exists done, rest. unfold hedge_ids in *. rewrite O in E. split; [exact E|]. left. now rewrite <- R.
Qed.

Lemma reconcile_tail live maker wait type raw capped index w w1 (cancel : bool) : frame w w1 ->
  (cancel = false -> filter (is_open_hedge c currency (_perp_instrument currency)) w.(open_orders) = []) ->
  always (let* cancels := (if cancel then _cancel_open_hedge_orders c currency (_perp_instrument currency) live else ret []) in
          let* orders := reconcile_order c currency live maker wait type raw (goal_of w) (position_of w) index capped in
          ret (cancels ++ orders))%run w1 (reconciled live w).
Proof.
  intros F N. assert (T : forall w2 done, (if live then hedge_ids c currency (_perp_instrument currency) w else []) = done ->
      w2.(requests) = rev (map CancelOrder done) ++ w.(requests) -> w2.(future_markets_by_name) = w.(future_markets_by_name) ->
      forall xs, always (let* orders := reconcile_order c currency live maker wait type raw (goal_of w) (position_of w) index capped in
        ret (xs ++ orders))%run w2 (reconciled live w)).
  { intros w2 done Ed R2 M2 xs. assert (P : forall w3, (frame w2 w3 \/ live = true /\ exists o, closes_gap (goal_of w) (position_of w) w2 o /\
        frame (log_request (PlaceOrder o) w2) w3) -> reconciled live w w3).
    { intros w3 H. exists done, []. rewrite app_nil_r. split; [exact Ed|]. destruct H as [(R & _)|(L & o & G & (R & _))].
      - left. now rewrite R.
      - right. split; [exact L|]. split; [reflexivity|]. exists o. split; [exact (closes_gap_frame _ _ _ _ _ M2 G)|].
        rewrite R. cbn [log_request requests]. now rewrite R2. }
    pose proof (order_sends live maker wait type raw (goal_of w) (position_of w) index capped w2) as S.
    apply always_bind; intros; apply P; exact S. }
  destruct F as (R & O & _ & M & _). destruct cancel.
  - pose proof (cancel_sends c currency (_perp_instrument currency) live w1) as (done & rest & E & Er & _ & Em & _ & Ea).
    assert (Ei : (if live then hedge_ids c currency (_perp_instrument currency) w else []) = done ++ rest)
      by (rewrite <- E; unfold hedge_ids; now rewrite O).
    assert (P : reconciled live w (fst (_cancel_open_hedge_orders c currency (_perp_instrument currency) live w1)))
      by (exists done, rest; split; [exact Ei | left; now rewrite Er, R]).
    apply always_bind; [intros; exact P | intros; exact P|]. intros acts S. destruct (Ea acts S) as [-> _]. rewrite app_nil_r in Ei.
    apply (T _ done Ei); [now rewrite Er, R | now rewrite Em].
  - apply (T w1 []); [|exact R | exact M]. destruct live; [|reflexivity]. unfold hedge_ids. now rewrite N.
Qed.

Lemma reconcile_sends live w : always (reconcile_currency c live gs currency) w (reconciled live w).
Proof.
  unfold reconcile_currency. cbv zeta.
  apply always_step; [apply quiet_cap | apply reconciled_frame|]. intros [target capped] w1 E F1.
  apply cap_value in E. cbn [fst] in E. subst target.
  apply always_step; [apply quiet_read | intros w2 F2; apply reconciled_frame; exact (frame_trans _ _ _ F1 F2)|]. intros ps w2 E F2.
  injection E as <- <-.
  assert (Ep : _current_hedge_base w1.(future_positions) currency = position_of w)
    by (unfold position_of; destruct F1 as (_ & _ & -> & _); reflexivity). rewrite Ep. clear F2.
  apply always_step; [apply quiet_index_price | intros w2 F2; apply reconciled_frame; exact (frame_trans _ _ _ F1 F2)|]. intros index w2 _ F2.
  pose proof (frame_trans _ _ _ F1 F2) as F. clear F1 F2. fold (goal_of w). destruct (dleb _ _).
  - apply always_step; [apply quiet_reset | intros w3 F3; apply reconciled_frame; exact (frame_trans _ _ _ F F3)|]. intros u w3 _ F3.
    pose proof (frame_trans _ _ _ F F3) as F'. clear F F3.
    apply always_step; [apply quiet_bind; auto with engine | intros w4 F4; apply reconciled_frame; exact (frame_trans _ _ _ F' F4)|].
    intros [|o os] w4 _ F4; pose proof (frame_trans _ _ _ F' F4) as F.
    + apply always_quiet; [apply quiet_ret | intros w5 F5; apply reconciled_frame; exact (frame_trans _ _ _ F F5)].
    + now apply cancelled_reconciled.
  - set (maker := String.eqb _ "limit_maker").
    apply always_step; [destruct maker; [apply quiet_bump | apply quiet_ret] | intros w3 F3; apply reconciled_frame; exact (frame_trans _ _ _ F F3)|].
    intros wait w3 _ F3. pose proof (frame_trans _ _ _ F F3) as F'. clear F F3.
    apply always_step; [apply quiet_bind; auto with engine | intros w4 F4; apply reconciled_frame; exact (frame_trans _ _ _ F' F4)|].
    intros os w4 E F4. injection E as <- <-. pose proof (frame_trans _ _ _ F' F4) as F. clear F4.
    assert (Eo : w3.(open_orders) = w.(open_orders)) by apply F'. rewrite Eo.
    set (os := filter (is_open_hedge c currency (_perp_instrument currency)) w.(open_orders)) in *.
    set (any := match os with [] => false | _ => true end). set (force := maker && (Z.max c.(hedge_maker_max_cycles) 1 <=? wait)%Z). set (small := dleb (dabs _) _).
    destruct (maker && negb force && small && any) eqn:B.
    + apply always_quiet; [|intros w5 F5; apply reconciled_frame; exact (frame_trans _ _ _ F F5)].
      repeat (apply quiet_bind; [apply quiet_text8 | intros ?]). apply quiet_ret.
    + apply reconcile_tail; [exact F|]. intros N. fold os.
      assert (A : any = false); [|unfold any in A; destruct os; [reflexivity | discriminate]].
      revert N B. unfold dltb. change (Qle_bool ?x ?y) with (dleb x y). fold small. destruct any, maker, force, small; cbn; congruence.
Qed.
End Sends.

(** ** The order closes the gap *)

Section Converges.
Local Open Scope Q_scope.
Variable e : Z.

Lemma gval_abs z : Qabs (gval e z) == gval e (Z.abs z).
Proof.
  unfold gval. rewrite Qabs_Qmult, (Qabs_pos (p10 e)) by (apply Qlt_le_weak, p10_pos). reflexivity.
Qed.

Lemma dabs_gval z x : x == gval e z -> (Z.abs z <= 10 ^ prec)%Z -> dabs x == gval e (Z.abs z).
Proof.
  intros E B. unfold dabs. rewrite E, gval_abs. apply rnd_exact, gval_representable. lia.
Qed.

Lemma gval_lt a b : gval e a < gval e b <-> (a < b)%Z.
Proof. unfold gval. rewrite (Qmult_lt_r _ _ (p10 e)) by apply p10_pos. rewrite <- Zlt_Qlt. reflexivity. Qed.

Lemma gval_le a b : gval e a <= gval e b <-> (a <= b)%Z.
Proof. unfold gval. rewrite (Qmult_le_r _ _ (p10 e)) by apply p10_pos. rewrite <- Zle_Qle. reflexivity. Qed.

Lemma gap_abs a b x y : x == gval e a -> y == gval e b -> Qabs (x - y) == gval e (Z.abs (a - b)).
Proof. intros -> ->. now rewrite gval_sub, gval_abs. Qed.

(** An amount aligned on the grid leaves less than a step. *)
Lemma aligned_remainder v c m amount cs mn :
  amount == gval e v -> cs == gval e c -> mn == gval e m -> (0 <= v <= grid_max)%Z -> (0 < c)%Z -> (0 < m)%Z ->
  let r := align_option_order_amount amount cs mn in
  0 < r -> r <= amount /\ amount - r < order_amount_step cs mn.
Proof.
  intros Ea Ec Em Hv Hc Hm r P. destruct (align_largest e v c m amount cs mn Ea Ec Em Hv Hc Hm) as ([Z0|((j & Ej) & Ml & Ur)] & Max); fold r in Max; [fold r in Z0; lra | fold r in Ej, Ml, Ur].
  split; [exact Ur|]. apply Qnot_le_lt. intros L.
  pose proof (order_amount_step_val e c m cs mn Ec Em Hc Hm) as Es. set (step := order_amount_step cs mn) in *.
  set (k := (j * Z.min c m + Z.min c m)%Z).
  assert (Ek : gval e k == r + step) by (unfold k; rewrite <- gval_add, Ej, Es; unfold gval; rewrite inject_Z_mult; ring).
  assert (Ps : 0 < step) by (rewrite Es; apply val_pos; lia).
  assert (B : gval e k <= r); [|rewrite Ek in B; lra].
  apply Max; [exists (j + 1)%Z; rewrite Ek, inject_Z_plus, Ej; ring | rewrite Ek; lra | rewrite Ek; lra].
Qed.

Lemma order_converges c currency goal position w o i t p k m :
  closes_gap c currency goal position w o -> dict_get (_perp_instrument currency) w.(future_markets_by_name) = Some i ->
  goal == gval e t -> position == gval e p -> i.(instrument_contract_size) == gval e k -> i.(min_trade_amount) == gval e m ->
  (0 < k)%Z -> (0 < m)%Z -> (Z.abs t <= grid_max)%Z -> (Z.abs p <= grid_max)%Z -> (Z.abs (t - p) <= grid_max)%Z ->
  0 < o.(req_amount) /\ o.(req_amount) <= Qabs (goal - position) /\
  Qabs (goal - position) - o.(req_amount) < order_amount_step i.(instrument_contract_size) i.(min_trade_amount) /\
  (o.(req_direction) = "buy"%string <-> position < goal) /\
  (o.(req_reduce_only) = true -> o.(req_amount) <= Qabs position).
Proof.
  intros (i' & Ei' & P & D & _ & A & _ & R) Ei Eg Ep Ek Em Hk Hm Bt Bp Bg. rewrite Ei' in Ei. injection Ei as ->.
  assert (G10 : (grid_max <= 10 ^ prec)%Z) by (unfold grid_max, prec; apply Z.pow_le_mono_r; lia).
  assert (Ed : goal ⊖ position == gval e (t - p)) by (apply dsub_gval; auto; lia).
  assert (Eabs : dabs (goal ⊖ position) == gval e (Z.abs (t - p))) by (apply dabs_gval; [exact Ed | lia]).
  destruct (aligned_remainder (Z.abs (t - p)) k m _ _ _ Eabs Ek Em ltac:(lia) Hk Hm P) as [U L].
  rewrite A. pose proof (gap_abs t p goal position Eg Ep) as Gap. rewrite <- Eabs in Gap.
  assert (Sg : position < goal <-> (p < t)%Z) by (rewrite Eg, Ep; apply gval_lt).
  assert (S0 : 0 < goal ⊖ position <-> (p < t)%Z).
  { rewrite Ed, <- (val_0 e), gval_lt. lia. }
  assert (Amt : align_option_order_amount (dabs (goal ⊖ position)) (instrument_contract_size i) (min_trade_amount i) <= Qabs (goal - position))
    by (rewrite Gap; exact U).
  repeat split; [exact P | exact Amt | rewrite Gap; exact L | | |].
  - intros E. apply Sg, S0. rewrite D in E. destruct (dltb_spec 0 (goal ⊖ position)); [assumption | discriminate].
  - intros E. apply Sg, S0 in E. rewrite D. destruct (dltb_spec 0 (goal ⊖ position)); [reflexivity | contradiction].
  - intros E. rewrite R in E. apply andb_true_iff in E. destruct E as [E1 E2]. dhyps.
    eapply Qle_trans; [exact Amt|].
    assert (X1 : Qabs goal < Qabs position).
    { rewrite (dabs_gval t goal Eg ltac:(lia)), (dabs_gval p position Ep ltac:(lia)) in E1. now rewrite Eg, Ep, !gval_abs. }
    assert (X2 : 0 <= position * goal).
    { apply Qnot_lt_le. intros N. pose proof (rnd_neg _ N) as N'. unfold dmul in E2. lra. }
    clear - X1 X2. revert X1. apply (Qabs_case goal); apply (Qabs_case position); apply (Qabs_case (goal - position)); intros; nra.
Qed.
End Converges.

Lemma cap_bounds gs currency markets target :
  let max_abs := _max_abs_per_position_hedge_base markets currency gs in
  0 < max_abs -> dabs (cap_of gs currency markets target) <= max_abs ⊗ 1.1 /\
  (dabs target <= max_abs ⊗ 1.1 -> cap_of gs currency markets target = target).
Proof.
  cbv zeta. intros P. unfold cap_of. set (m := _max_abs_per_position_hedge_base markets currency gs) in *.
  destruct (dleb_spec m 0); [lra|]. assert (C : 0 < m ⊗ 1.1) by (apply dmul_pos; [exact P | reflexivity]).
  assert (R : forall x, Qabs x == m ⊗ 1.1 -> dabs x <= m ⊗ 1.1).
  { intros x Ex. unfold dabs. rewrite Ex. unfold dmul. rewrite rnd_exact; [apply Qle_refl | apply rnd_representable]. }
  destruct (dleb_spec (dabs target) (m ⊗ 1.1)); [now split|]. split; [|intros L; contradiction].
  destruct (dltb 0 target); apply R; [apply Qabs_pos, Qlt_le_weak, C|].
  rewrite rnd_opp, Qabs_opp. unfold dmul at 1. rewrite rnd_exact by apply rnd_representable. apply Qabs_pos. apply Qlt_le_weak, C.
Qed.

(** C36. Reconciling one currency never leaves two hedges working at once. However it
    ends, also by an exception of the exchange, what it has sent is a run of
    cancellations of the currency's resting hedge orders, in order, or all of these
    cancellations and then a single order, for the gap between the capped sum of the
    groups' hedges and the position; a dry run sends nothing; and the capped sum
    never exceeds 110% of the options' own delta where there is any. *)
Theorem reconcile_requests (X : Exchange) c gs currency live w :
  let w' := fst (reconcile_currency c live gs currency w) in
  let ids := hedge_ids c currency (_perp_instrument currency) w in
  (live = false -> w'.(requests) = w.(requests)) /\
  ((exists done rest, ids = done ++ rest /\ w'.(requests) = rev (map CancelOrder done) ++ w.(requests)) \/
   (live = true /\ exists o, closes_gap c currency (goal_of gs currency w) (position_of currency w) w o /\
      w'.(requests) = PlaceOrder o :: rev (map CancelOrder ids) ++ w.(requests))) /\
  (0 < _max_abs_per_position_hedge_base w.(markets_by_currency) currency gs ->
   dabs (goal_of gs currency w) <= _max_abs_per_position_hedge_base w.(markets_by_currency) currency gs ⊗ 1.1).
Proof.
  cbv zeta. destruct (reconcile_sends c gs currency live w) as (done & rest & E & H).
  split; [|split; [|intros P; exact (proj1 (cap_bounds gs currency w.(markets_by_currency) (target_of currency gs) P))]].
  - intros ->. destruct done; [|discriminate]. destruct H as [H|(L & _)]; [exact H | discriminate].
  - destruct H as [H|(-> & -> & o & G & H)].
    + left. destruct live; [now exists done, rest|]. destruct done; [|discriminate]. now exists [], (hedge_ids c currency (_perp_instrument currency) w).
    + right. split; [reflexivity|]. exists o. rewrite app_nil_r in E. rewrite E. now split.
Qed.

(** The order of a reconciliation moves the perp toward its goal and never past it.
    On a decimal grid, the amount is positive and at most the gap, leaves less than one
    tradable step of it, is bought exactly when the goal lies above the position, and
    when sent as reduce-only it is at most the position, so it can fill entirely and
    cannot turn the position over. *)
Theorem hedge_order_converges e c currency goal position w o i t p k m :
  closes_gap c currency goal position w o -> dict_get (_perp_instrument currency) w.(future_markets_by_name) = Some i ->
  goal == gval e t -> position == gval e p -> i.(instrument_contract_size) == gval e k -> i.(min_trade_amount) == gval e m ->
  (0 < k)%Z -> (0 < m)%Z -> (Z.abs t <= grid_max)%Z -> (Z.abs p <= grid_max)%Z -> (Z.abs (t - p) <= grid_max)%Z ->
  0 < o.(req_amount) /\ o.(req_amount) <= Qabs (goal - position) /\
  Qabs (goal - position) - o.(req_amount) < order_amount_step i.(instrument_contract_size) i.(min_trade_amount) /\
  (o.(req_direction) = "buy"%string <-> position < goal) /\
  (o.(req_reduce_only) = true -> o.(req_amount) <= Qabs position).
Proof. apply order_converges. Qed.

(** ** Samples *)

Definition sample_engine : engine_config := {|
  order_label_prefix := "opt"; managed_currencies := ["BTC"%string]; enable_perp_hedge := true; per_position_hedge := true;
  hedge_first_on_hard := true; hedge_giveup_loss_pct := 0; soft_hedge_neutralize_pct := 0.7; soft_hedge_delta_cap_pct := 0.1;
  hard_hedge_delta_cap_pct := 0.05; hedge_unwind_recovery_cycles := 2; recovery_normal_cycles := 3; defense_confirm_cycles := 2;
  hedge_reconcile_deadband_btc := 0.002; hedge_reconcile_deadband_eth := 0.02; hedge_order_type := "limit_maker";
  hedge_limit_slippage_pct := 0.005; hedge_maker_max_cycles := 12; reference_capital_usdc := 10000 |}.

Definition sample_perp : OptionInstrument := {|
  instrument_name := "BTC_USDC-PERPETUAL"; base_currency := "BTC"; quote_currency := "USDC"; settlement_currency := "USDC";
  instrument_type := "linear"; tick_size := 0.5; tick_size_steps := []; min_trade_amount := 0.001; instrument_contract_size := 0.001;
  instrument_option_type := ""; instrument_expiration_ms := 0; instrument_strike := 0; instrument_state := "open" |}.

Definition sample_runtime : runtime := {|
  state := empty_state; open_orders := []; option_positions := []; future_positions := []; future_markets_by_name := [("BTC_USDC-PERPETUAL"%string, sample_perp)];
  markets_by_currency := []; orderbook_cache := []; _instrument_metadata_cache := []; requests := [] |}.

Definition sample_order : order_request := {|
  req_direction := "sell"; req_instrument_name := "BTC_USDC-PERPETUAL"; req_amount := align_option_order_amount (dabs (-0.0357 ⊖ -0.01)) 0.001 0.001;
  req_label := "opt-hedge-btc-position"; req_order_type := "limit"; req_price := Some 60000; req_time_in_force := Some "good_til_cancelled"%string;
  req_post_only := true; req_reject_post_only := true; req_reduce_only := false |}.

(** From a short of 0.01 toward a short of 0.0357, 0.025 are sold. *)
Lemma hedge_order_converges_witness :
  closes_gap sample_engine "BTC" (-0.0357) (-0.01) sample_runtime sample_order /\
  sample_order.(req_amount) == 0.025 /\ sample_order.(req_amount) <= Qabs (-0.0357 - -0.01).
Proof.
  assert (G : closes_gap sample_engine "BTC" (-0.0357) (-0.01) sample_runtime sample_order).
  { exists sample_perp. split; [reflexivity|]. cbv zeta. split; [vm_compute; reflexivity | repeat split; vm_compute; reflexivity]. }
  split; [exact G|]. split; [vm_compute; reflexivity|].
  destruct (hedge_order_converges (-4) sample_engine "BTC" (-0.0357) (-0.01) sample_runtime sample_order sample_perp (-357) (-100) 10 10 G eq_refl)
    as (_ & H & _); [vm_compute; reflexivity.. | vm_compute; discriminate | vm_compute; discriminate | vm_compute; discriminate | exact H].
Defined.

Definition sample_put : TradeGroup :=
  set_quantity 0.1 (set_option_type "put" (set_hedge_mode "" (set_hedge_recovery_streak 0
    (set_hard_defense_streak 0 (set_soft_defense_streak 0 sample_usdc_group))))).

Lemma sample_put_fresh : fresh sample_put.
Proof. repeat split. Qed.

Definition reading (soft hard : bool) (d : Q) : cycle := {| saw_soft := soft; saw_hard := hard; at_delta := d; at_contract_size := 1 |}.

(** Two soft cycles hedge seventy per cent of a delta of 0.03. *)
Lemma hedge_refines_history_witness :
  (hedge_run sample_engine [reading true false 0.25; reading true false 0.3] sample_put).(hedge_mode) = "soft"%string /\
  (hedge_run sample_engine [reading true false 0.25; reading true false 0.3] sample_put).(hedge_size_base) == -0.021.
Proof.
  destruct (hedge_refines_history sample_engine sample_put [reading true false 0.25] (reading true false 0.3) sample_put_fresh) as (_ & _ & M & S).
  cbn [app] in M, S. rewrite M, S. split; vm_compute; reflexivity.
Defined.

Lemma hedge_lifecycle_witness :
  (hedge_run sample_engine [reading false true 0.4; reading false true 0.4] sample_put).(hedge_mode) = "hard"%string /\
  (hedge_run sample_engine [reading false true 0.4; reading false true 0.4; reading false false 0.1; reading false false 0.1] sample_put).(hedge_size_base) = 0.
Proof.
  destruct (hedge_lifecycle sample_engine sample_put [] [reading false true 0.4; reading false true 0.4]
    [reading false false 0.1; reading false false 0.1] sample_put_fresh) as (A & _ & B & _).
  - repeat constructor.
  - repeat constructor.
  - vm_compute. discriminate.
  - vm_compute. discriminate.
  - exact (conj A B).
Defined.
