(* ===== verification/Close.v ===== *)
(** Closing one option leg ([engine/execution.py]): exit prices ([strategy.py]), what a
    response of the exchange reports ([engine/base.py]), the limit order with its
    clamped retry and market fallback, and the leg with its resting orders, retry and
    escalation. *)

From S2P Require Import Prelude Dec PyStr Utils Group PyObj GroupJson StateJson Market ExitEval ExchangeErrors Runtime.
Local Open Scope Q_scope.
Local Open Scope dec_scope.
Local Open Scope bool_scope.
Local Open Scope run_scope.
Local Open Scope list_scope.

Record close_config : Type := {
  early_exit_max_spread_ratio : Q;
  income_exit_max_spread_ratio : Q;
  exit_buffer_ratio : Q;
  income_exit_escalate_taker : bool;
  income_exit_time_in_force : string;
  income_exit_order_ttl_minutes : Z;
  income_exit_market_after_attempts : Z;
  order_poll_seconds : Z;
}.

(** ** Exit prices *)

Definition _floor_price (value : Q) (i : OptionInstrument) : Q := floor_to_step value (tick_size_for_price i value).
Definition _ceil_price (value : Q) (i : OptionInstrument) : Q := ceil_to_step value (tick_size_for_price i value).

Definition buy_taker_price (b : OrderBookSnapshot) : Q := if b.(best_ask_price) <=? 0 then 0 else b.(best_ask_price).

Definition close_buy_price (c : close_config) (i : OptionInstrument) (b : OrderBookSnapshot) (max_spread_ratio : option Q) : Q :=
  let ratio := match max_spread_ratio with Some r => r | None => c.(early_exit_max_spread_ratio) end in
  let premium := buy_close_premium b ratio in
  if premium <=? 0 then i.(tick_size) else dmax premium (_ceil_price (premium ⊗ (1 ⊕ c.(exit_buffer_ratio))) i).

Definition _close_buy_taker_price (c : close_config) (i : OptionInstrument) (b : OrderBookSnapshot) : Q :=
  let ask := buy_taker_price b in
  if ask <=? 0 then close_buy_price c i b (Some c.(income_exit_max_spread_ratio))
  else dmax ask (_ceil_price (ask ⊗ (1 ⊕ c.(exit_buffer_ratio))) i).

Definition close_buy_price_for_exit (c : close_config) (i : OptionInstrument) (b : OrderBookSnapshot) (reason : string)
    (incomplete_streak : Z) : Q :=
  if mem_str reason DEFENSE_EXIT_REASONS then _close_buy_taker_price c i b
  else if mem_str reason INCOME_EXIT_REASONS then
    if c.(income_exit_escalate_taker) && (0 <? incomplete_streak)%Z then _close_buy_taker_price c i b
    else close_buy_price c i b (Some c.(income_exit_max_spread_ratio))
  else close_buy_price c i b None.

Definition close_sell_price (c : close_config) (i : OptionInstrument) (b : OrderBookSnapshot) (max_spread_ratio : option Q) : Q :=
  let ratio := match max_spread_ratio with Some r => r | None => c.(early_exit_max_spread_ratio) end in
  let premium := sell_close_premium b ratio in
  let minimum := tick_size_for_price i (if premium >? 0 then premium else i.(tick_size)) in
  let minimum := if minimum <=? 0 then i.(tick_size) else minimum in
  if premium <=? 0 then minimum else dmax minimum (_floor_price (premium ⊗ (1 ⊖ c.(exit_buffer_ratio))) i).

Definition _positive_option_limit_price (i : OptionInstrument) (price : Q) : Q :=
  if price >? 0 then price
  else
    let tick := if i.(tick_size) >? 0 then tick_size_for_price i i.(tick_size) else 0 in
    if tick >? 0 then tick else 0.0001.

(** ** Responses *)

(** [response.get("order") or response], as the entries of a dict. *)
Definition _response_order (response : pyobj) : list (string * pyobj) :=
  match response with
  | PDict d => match obj_or (dget "order" d) response with PDict o => o | _ => [] end
  | _ => []
  end.

Definition _response_filled_amount (response : pyobj) : Q := to_decimal (dget "filled_amount" (_response_order response)) 0.

Definition _response_average_price (response : pyobj) : Q :=
  let o := _response_order response in to_decimal (obj_or (dget "average_price" o) (dget "price" o)) 0.

Definition order_state_of (response : pyobj) : string := lower (str_or_default (dget "order_state" (_response_order response)) EmptyString).

Definition zero_order (state : string) (more : list (string * pyobj)) : pyobj :=
  PDict ([("filled_amount"%string, PStr "0"); ("average_price"%string, PStr "0"); ("order_state"%string, PStr state)] ++ more).

Definition _noop_option_order_response : pyobj := PDict [("order"%string, zero_order "filled" [])].

Definition _rejected_option_close_response (name direction label error : string) : pyobj :=
  PDict [("order"%string, zero_order "rejected" [("instrument_name"%string, PStr name); ("direction"%string, PStr direction); ("label"%string, PStr label)]);
    ("trades"%string, PList []); ("rejected"%string, PBool true); ("error"%string, PStr error)].

(** ** The limit close and its fallbacks *)

Section Orders.
Context {X : Exchange}.

(** [place_fn(...)] of [reduce_only] orders on options. *)
Definition close_order (direction name label : string) (amount : Q) (type : string) (price : option Q) (tif : option string) : order_request :=
  {| req_direction := direction; req_instrument_name := name; req_amount := amount; req_label := label; req_order_type := type;
     req_price := price; req_time_in_force := tif; req_post_only := false; req_reject_post_only := false; req_reduce_only := true |}.

(** The direction a position of that size and side can be closed in, and how much. *)
Definition closable (want pos_direction : string) (size : Q) : Q :=
  if size <=? 0 then 0
  else if String.eqb want "sell" && String.eqb pos_direction "buy" then size
  else if String.eqb want "buy" && String.eqb pos_direction "sell" then size
  else 0.

Definition cached_capacity (name want : string) (ps : list Position) : Q :=
  match find (fun p => String.eqb p.(position_instrument_name) name && String.eqb p.(position_kind) "option") ps with
  | Some p => closable want p.(direction) (dabs p.(size))
  | None => 0
  end.

Fixpoint listed_capacity (name want : string) (rows : list pyobj) : outcome Q :=
  match rows with
  | [] => Ret 0
  | PDict d :: rest =>
      if negb (String.eqb (str_or_default (dget "instrument_name" d) EmptyString) name) then listed_capacity name want rest
      else if negb (String.eqb (lower (str_or_default (dget "kind" d) EmptyString)) "option") then listed_capacity name want rest
      else Ret (closable want (lower (str_or_default (dget "direction" d) EmptyString)) (dabs (to_decimal (dget "size" d) 0)))
  | _ :: _ => Exn AttributeError
  end.

Definition _option_reduce_only_capacity (name order_direction : string) (positions : option (list Position)) : M Q :=
  match positions with
  | Some ps => ret (cached_capacity name (lower order_direction) ps)
  | None =>
      let* rows := send ListPositions in
      lift (match rows with PList rows => listed_capacity name (lower order_direction) rows | _ => Exn TypeError end)
  end.

Definition aligned (i : OptionInstrument) (amount : Q) : Q :=
  align_option_order_amount amount i.(instrument_contract_size) i.(min_trade_amount).

Definition _fallback_close_position_market (i : OptionInstrument) (name : string) (quantity : Q) (direction label : string)
    (positions : option (list Position)) : M pyobj :=
  let* capacity := _option_reduce_only_capacity name direction positions in
  let order_amount := aligned i (dmin (aligned i quantity) capacity) in
  if order_amount <=? 0 then ret _noop_option_order_response
  else send (PlaceOrder (close_order direction name label order_amount "market" None None)).

(** [except ExchangeError as exc] *)
Definition on_exchange_error (m : M pyobj) (handler : string -> M pyobj) : M pyobj := fun w =>
  match m w with
  | (w', Exn (ExchangeError message)) => handler message w'
  | r => r
  end.

Definition _submit_option_close_limit (i : OptionInstrument) (name : string) (amount : Q) (label : string) (price : Q)
    (direction time_in_force : string) (positions : option (list Position)) : M pyobj :=
  let limit p := send (PlaceOrder (close_order direction name label amount "limit" (Some p) (Some time_in_force))) in
  let rejected message := ret (_rejected_option_close_response name direction label message) in
  let market := _fallback_close_position_market i name amount direction label positions in
  on_exchange_error (limit price) (fun message =>
    if negb (is_market_fallback_eligible message) then rejected message
    else
      match parse_exchange_price_band_limit message with
      | None => market
      | Some band =>
          let clamped := if String.eqb direction "buy" then floor_to_step band (tick_size_for_price i band)
                         else ceil_to_step band (tick_size_for_price i band) in
          if (clamped <=? 0) || (clamped =? price) then market
          else
            on_exchange_error (limit clamped) (fun message =>
              if negb (is_market_fallback_eligible message) then rejected message else market)
      end).

(** ** One leg *)

Record leg_result : Type := {
  responses : list pyobj;
  last_response : pyobj;
  leg_average_price : Q;
  filled : Q;
  unfilled : Q;
  resting_pending : bool;
  streak_bump : bool;
}.

Definition _income_exit_uses_resting_limit (c : close_config) (reason : string) : bool :=
  mem_str reason INCOME_EXIT_REASONS && String.eqb c.(income_exit_time_in_force) "good_til_cancelled".

Definition _close_time_in_force (c : close_config) (reason : string) : string :=
  if _income_exit_uses_resting_limit c reason then "good_til_cancelled" else "immediate_or_cancel".

Definition _find_resting_close_order (orders : list OpenOrder) (label name direction : string) : option OpenOrder :=
  find (fun o => String.eqb o.(order_label) label && String.eqb o.(order_instrument_name) name
    && String.eqb o.(order_direction) (lower direction) && o.(reduce_only)
    && mem_str o.(order_state) ["open"%string; "untriggered"%string]) orders.

(** The polling loop; every round waits at least a second, so the seconds are fuel. *)
Fixpoint poll_loop (fuel : nat) (poll max_wait waited : Z) (order_id : string) (state : pyobj) : M pyobj :=
  match fuel with
  | O => lift OutOfFuel
  | S fuel =>
      if (waited <? max_wait)%Z then
        if mem_str (order_state_of state) ["filled"%string; "cancelled"%string; "rejected"%string] then ret state
        else
          let step := Z.min poll (max_wait - waited) in
          if (step <=? 0)%Z then ret state
          else let* state := send (OrderState order_id) in poll_loop fuel poll max_wait (waited + step) order_id state
      else ret state
  end.

Definition _await_resting_close_order (c : close_config) (initial_response : pyobj) (max_wait_seconds : Z) : M pyobj :=
  let order_id := str_or_default (dget "order_id" (_response_order initial_response)) EmptyString in
  if is_empty order_id then ret initial_response
  else poll_loop (S (Z.to_nat max_wait_seconds)) c.(order_poll_seconds) max_wait_seconds 0 order_id initial_response.

(** What has been filled so far: the amount, the sum of price times amount, the
    responses in order. *)
Record progress : Type := { total_filled : Q; weighted_price : Q; so_far : list pyobj; bumped : bool }.

Definition add_fill (response : pyobj) (p : progress) : progress :=
  let filled := _response_filled_amount response in
  let avg := _response_average_price response in
  {| total_filled := if filled >? 0 then p.(total_filled) ⊕ filled else p.(total_filled);
     weighted_price := if filled >? 0 then p.(weighted_price) ⊕ (avg ⊗ filled) else p.(weighted_price);
     so_far := p.(so_far) ++ [response]; bumped := p.(bumped) |}.

Definition average_of (p : progress) : Q := if p.(total_filled) >? 0 then p.(weighted_price) ⊘ p.(total_filled) else 0.

Definition last_of (p : progress) : pyobj := last p.(so_far) _noop_option_order_response.

Definition finish (p : progress) (unfilled : Q) (pending bump : bool) : leg_result :=
  {| responses := p.(so_far); last_response := last_of p; leg_average_price := average_of p;
     filled := p.(total_filled); unfilled := unfilled; resting_pending := pending; streak_bump := bump |}.

Definition is_resting (response : pyobj) : bool := mem_str (order_state_of response) ["open"%string; "untriggered"%string].

Definition fresh_progress : progress := {| total_filled := 0; weighted_price := 0; so_far := []; bumped := false |}.

(** A resting order of an earlier cycle: still good (the leg is done for this cycle), or
    cancelled, with its fills counted. *)
Definition resting_leg (c : close_config) (resting : option OpenOrder) (requested_total : Q) (now_ms : Z) : M (leg_result + progress) :=
  match resting with
  | None => ret (inr fresh_progress)
  | Some o =>
      let* state := send (OrderState o.(order_id)) in
      let p := add_fill state fresh_progress in
      if p.(total_filled) >=? requested_total then ret (inl (finish p 0 false false))
      else if is_resting state then
        let created := match o.(creation_timestamp_ms) with Some t => t | None => 0%Z end in
        if (created <=? 0)%Z || (now_ms - created <? c.(income_exit_order_ttl_minutes) * 60 * 1000)%Z
        then ret (inl (finish p (requested_total ⊖ p.(total_filled)) true false))
        else
          let* _ := send (CancelOrder o.(order_id)) in
          let* state := send (OrderState o.(order_id)) in
          let filled := _response_filled_amount state in
          let avg := _response_average_price state in
          let more := filled >? p.(total_filled) in
          ret (inr {| total_filled := if more then filled else p.(total_filled);
                      weighted_price := if more then p.(weighted_price) ⊕ (avg ⊗ (filled ⊖ p.(total_filled))) else p.(weighted_price);
                      so_far := p.(so_far) ++ [state]; bumped := true |})
      else ret (inr p)
  end.

(** The market order an income exit escalates to. *)
Definition escalated_leg (i : OptionInstrument) (name direction label : string) (requested_total : Q) (p : progress) : M leg_result :=
  let* positions := read option_positions in
  let* response := _fallback_close_position_market i name (requested_total ⊖ p.(total_filled)) direction label (Some positions) in
  let filled := _response_filled_amount response in
  ret {| responses := [response]; last_response := response; leg_average_price := _response_average_price response;
         filled := filled; unfilled := dmax (requested_total ⊖ filled) 0; resting_pending := false; streak_bump := false |}.

(** The price of the retry, from the book fetched again. *)
Definition retry_price_of (c : close_config) (i : OptionInstrument) (b : OrderBookSnapshot) (direction reason : string) (incomplete_streak : Z) : Q :=
  _positive_option_limit_price i
    (if String.eqb direction "buy" then
       if truthy reason then close_buy_price_for_exit c i b reason (Z.max incomplete_streak 1) else close_buy_price c i b None
     else close_sell_price c i b (if mem_str reason INCOME_EXIT_REASONS then Some c.(income_exit_max_spread_ratio) else None)).

Definition leg_end (use_resting : bool) (requested_total : Q) (p : progress) : leg_result :=
  let unfilled := requested_total ⊖ p.(total_filled) in
  finish p unfilled (use_resting && (unfilled >? 0) && is_resting (last_of p)) (p.(bumped) && (unfilled >? 0)).

Definition retry_leg (c : close_config) (name direction label reason : string) (incomplete_streak : Z) (requested_total : Q) (p : progress)
    : M leg_result :=
  let use_resting := _income_exit_uses_resting_limit c reason in
  let remaining := requested_total ⊖ p.(total_filled) in
  if remaining >? 0 then
    let* _ := modify (fun w => set_orderbook_cache (dict_pop name w.(orderbook_cache)) w) in
    let* retry_book := _get_orderbook name in
    let* i := _find_instrument name in
    let remaining := aligned i remaining in
    if remaining <=? 0 then ret (finish p (requested_total ⊖ p.(total_filled)) false false)
    else
      let* capacity := _option_reduce_only_capacity name direction None in
      let retry_amount := aligned i (dmin remaining capacity) in
      if retry_amount <=? 0 then ret (finish p (requested_total ⊖ p.(total_filled)) false false)
      else
        let* positions := read option_positions in
        let* response := _submit_option_close_limit i name retry_amount label (retry_price_of c i retry_book direction reason incomplete_streak)
          direction (_close_time_in_force c reason) (Some positions) in
        ret (leg_end use_resting requested_total (add_fill response p))
  else ret (leg_end use_resting requested_total p).

Definition first_leg (c : close_config) (i : OptionInstrument) (name direction label reason : string) (price requested_total : Q)
    (incomplete_streak : Z) (p : progress) : M leg_result :=
  let remaining_total := requested_total ⊖ p.(total_filled) in
  let* positions := read option_positions in
  let* capacity := _option_reduce_only_capacity name direction (Some positions) in
  let first_amount := aligned i (dmin remaining_total capacity) in
  if first_amount <=? 0 then
    if p.(total_filled) >? 0 then ret (finish p remaining_total false false)
    else ret {| responses := [_noop_option_order_response]; last_response := _noop_option_order_response; leg_average_price := 0;
                filled := 0; unfilled := requested_total; resting_pending := false; streak_bump := false |}
  else
    let* response := _submit_option_close_limit i name first_amount label price direction (_close_time_in_force c reason) (Some positions) in
    let* response := (if _income_exit_uses_resting_limit c reason
                      then _await_resting_close_order c response c.(order_poll_seconds) else ret response) in
    retry_leg c name direction label reason incomplete_streak requested_total (add_fill response p).

Definition escalates (c : close_config) (direction reason : string) (incomplete_streak : Z) : bool :=
  String.eqb direction "buy" && mem_str reason INCOME_EXIT_REASONS && (0 <? c.(income_exit_market_after_attempts))%Z
  && (c.(income_exit_market_after_attempts) <=? incomplete_streak)%Z.

Definition _close_leg_with_retry (c : close_config) (name : string) (quantity : Q) (direction label : string) (initial_price : Q)
    (reason : string) (incomplete_streak now_ms : Z) : M leg_result :=
  let* i := _find_instrument name in
  let requested_total := aligned i quantity in
  if requested_total <=? 0 then lift (Exn (ExchangeError ("close order amount aligned to zero for " ++ name ++ "; requested quantity is below exchange minimum/step")%string))
  else
    let price := _positive_option_limit_price i initial_price in
    let* orders := read open_orders in
    let resting := if _income_exit_uses_resting_limit c reason then _find_resting_close_order orders label name direction else None in
    let* started := resting_leg c resting requested_total now_ms in
    match started with
    | inl result => ret result
    | inr p =>
        if escalates c direction reason incomplete_streak then escalated_leg i name direction label requested_total p
        else first_leg c i name direction label reason price requested_total incomplete_streak p
    end.
End Orders.

(** ** What closing a leg sends *)

Section LegRequests.
Context {X : Exchange}.
Variables (c : close_config) (name direction label : string).

(** The requests a leg may send: orders of its own that can only reduce, reads, and
    the cancellation of one of its own resting orders. *)
Definition leg_request (cancellable : list string) (r : request) : Prop :=
  match r with
  | PlaceOrder o => o.(req_reduce_only) = true /\ o.(req_instrument_name) = name /\ o.(req_direction) = direction /\
      o.(req_label) = label /\ 0 < o.(req_amount)
  | CancelOrder id => In id cancellable
  | OrderState _ | ListPositions => True
  end.

Variable ids : list string.
Let ok := leg_request ids.

Lemma capacity_polite want positions : polite ok (_option_reduce_only_capacity name want positions).
Proof.
  destruct positions; [apply polite_ret|]. apply polite_bind; [now apply polite_send|]. intros rows. apply polite_quiet, quiet_lift.
Qed.

Lemma order_polite amount type price tif : 0 < amount -> polite ok (send (PlaceOrder (close_order direction name label amount type price tif))).
Proof. intros P. apply polite_send. now repeat split. Qed.

Lemma fallback_polite i quantity positions : polite ok (_fallback_close_position_market i name quantity direction label positions).
Proof.
  apply polite_bind; [apply capacity_polite|]. intros cap. cbv zeta. destruct (dleb_spec (aligned i (dmin (aligned i quantity) cap)) 0); [apply polite_ret|].
  apply order_polite. lra.
Qed.

Lemma handler_polite m handler : polite ok m -> (forall e, polite ok (handler e)) -> polite ok (on_exchange_error m handler).
Proof.
  intros Pm Ph w. unfold on_exchange_error. specialize (Pm w). destruct (m w) as [w1 [v|[]|]]; cbn [fst] in *; try exact Pm.
  eapply sends_trans; [exact Pm | apply Ph].
Qed.

Lemma submit_polite i amount price tif positions : 0 < amount -> polite ok (_submit_option_close_limit i name amount label price direction tif positions).
Proof.
  intros P. unfold _submit_option_close_limit. cbv zeta. apply handler_polite; [now apply order_polite|]. intros e.
  destruct (negb _); [apply polite_ret|]. destruct (parse_exchange_price_band_limit e); [|apply fallback_polite].
  destruct (_ || _); [apply fallback_polite|]. apply handler_polite; [now apply order_polite|]. intros e'.
  destruct (negb _); [apply polite_ret | apply fallback_polite].
Qed.

Lemma poll_polite fuel poll max_wait id : forall waited st, polite ok (poll_loop fuel poll max_wait waited id st).
Proof.
  induction fuel as [|fuel IH]; intros waited st; cbn [poll_loop]; [apply polite_quiet, quiet_lift|].
  destruct (waited <? max_wait)%Z; [|apply polite_ret]. destruct (mem_str _ _); [apply polite_ret|].
  destruct (_ <=? 0)%Z; [apply polite_ret|]. apply polite_bind; [now apply polite_send | intros st'; apply IH].
Qed.

Lemma retry_polite reason streak requested p : polite ok (retry_leg c name direction label reason streak requested p).
Proof.
  unfold retry_leg. cbv zeta. destruct (dltb 0 _); [|apply polite_ret].
  apply polite_bind; [apply polite_quiet, quiet_modify; intros w; repeat split|]. intros _.
  apply polite_bind; [apply polite_quiet, quiet_get_orderbook|]. intros b.
  apply polite_bind; [apply polite_quiet, quiet_find_instrument|]. intros i. destruct (dleb _ 0); [apply polite_ret|].
  apply polite_bind; [apply capacity_polite|]. intros cap. destruct (dleb_spec (aligned i (dmin (aligned i (requested ⊖ total_filled p)) cap)) 0); [apply polite_ret|].
  apply polite_bind; [apply polite_quiet, quiet_read|]. intros ps.
  apply polite_bind; [apply submit_polite; lra | intros v; apply polite_ret].
Qed.

Lemma first_polite i reason price requested streak p : polite ok (first_leg c i name direction label reason price requested streak p).
Proof.
  unfold first_leg. cbv zeta. apply polite_bind; [apply polite_quiet, quiet_read|]. intros ps.
  apply polite_bind; [apply capacity_polite|]. intros cap.
  destruct (dleb_spec (aligned i (dmin (requested ⊖ total_filled p) cap)) 0).
  { destruct (dltb 0 _); apply polite_ret. }
  apply polite_bind; [apply submit_polite; lra|]. intros v. apply polite_bind; [|intros v'; apply retry_polite].
  destruct (_income_exit_uses_resting_limit c reason); [|apply polite_ret]. unfold _await_resting_close_order.
  destruct (is_empty _); [apply polite_ret | apply poll_polite].
Qed.

Lemma escalated_polite i requested p : polite ok (escalated_leg i name direction label requested p).
Proof.
  apply polite_bind; [apply polite_quiet, quiet_read|]. intros ps. apply polite_bind; [apply fallback_polite | intros v; apply polite_ret].
Qed.

Lemma resting_polite resting requested now_ms : (forall o, resting = Some o -> In o.(order_id) ids) ->
  polite ok (resting_leg c resting requested now_ms).
Proof.
  intros I. destruct resting as [o|]; [|apply polite_ret]. cbn [resting_leg]. apply polite_bind; [now apply polite_send|]. intros st. cbv zeta.
  destruct (dleb _ _); [apply polite_ret|]. destruct (is_resting st); [|apply polite_ret]. destruct (_ || _); [apply polite_ret|].
  apply polite_bind; [apply polite_send; now apply I|]. intros _. apply polite_bind; [now apply polite_send | intros st'; apply polite_ret].
Qed.
End LegRequests.

(** The ids of the open orders with the leg's label, instrument and direction. *)
Definition leg_order_ids (w : runtime) (name direction label : string) : list string :=
  map order_id (filter (fun o => String.eqb o.(order_label) label && String.eqb o.(order_instrument_name) name
    && String.eqb o.(order_direction) (lower direction)) w.(open_orders)).

Lemma leg_sends `{Exchange} c name quantity direction label price reason streak now_ms w :
  sends (leg_request name direction label (leg_order_ids w name direction label)) w
    (fst (_close_leg_with_retry c name quantity direction label price reason streak now_ms w)).
Proof.
  set (ok := leg_request _ _ _ _). change (always (_close_leg_with_retry c name quantity direction label price reason streak now_ms) w (sends ok w)).
  unfold _close_leg_with_retry. apply always_step; [apply quiet_find_instrument | apply sends_frame|]. intros i w1 _ F1. cbv zeta.
  destruct (dleb _ 0); [apply always_quiet; [apply quiet_lift | intros w2 F2; apply sends_frame; exact (frame_trans _ _ _ F1 F2)]|].
  apply always_step; [apply quiet_read | intros w2 F2; apply sends_frame; exact (frame_trans _ _ _ F1 F2)|].
  intros os w2 E F2. injection E as <- <-. clear F2. unfold always.
  eapply sends_trans; [apply sends_frame; exact F1|].
  assert (O : w1.(open_orders) = w.(open_orders)) by apply F1. rewrite O.
  apply (polite_bind ok).
  - apply resting_polite. intros o Ho. destruct (_income_exit_uses_resting_limit c reason); [|discriminate].
    apply find_some in Ho. destruct Ho as [Io Ho]. apply in_map, filter_In. split; [exact Io|].
    repeat (apply andb_true_iff in Ho; destruct Ho as [Ho ?]). repeat (apply andb_true_iff; split); assumption.
  - intros [r|p]; [apply polite_ret|]. destruct (escalates c direction reason streak); [apply escalated_polite | apply first_polite].
Qed.

(** C10. Closing a leg can only reduce it. However it ends, also by an exception of the
    exchange, every order it has sent is a reduce-only order of a positive amount with
    the leg's instrument, direction and label, and it has cancelled no order but open
    ones of the leg itself. *)
Theorem leg_only_reduces (X : Exchange) c name quantity direction label price reason streak now_ms w :
  let w' := fst (_close_leg_with_retry c name quantity direction label price reason streak now_ms w) in
  exists new, w'.(requests) = new ++ w.(requests) /\ Forall (leg_request name direction label (leg_order_ids w name direction label)) new.
Proof. exact (proj2 (leg_sends c name quantity direction label price reason streak now_ms w)). Qed.

(** ** What a leg reports as filled *)

(** What a leg relies on: no order is filled beyond its amount, sizes are listed on
    the decimal grid of exponent [e]. *)
Record fills_honestly {X : Exchange} (e : Z) : Prop := {
  fills_bounded : forall h o v, 0 < o.(req_amount) -> reply h (PlaceOrder o) = Ret v ->
    on_grid e grid_max (_response_filled_amount v) /\ _response_filled_amount v <= o.(req_amount);
  sizes_listed : forall h rows d, reply h ListPositions = Ret (PList rows) -> In (PDict d) rows ->
    on_grid e grid_max (dabs (to_decimal (dget "size" d) 0));
}.

Section Fills.
Context {X : Exchange}.
Variables (e k mn : Z) (i : OptionInstrument) (name direction label : string).
Hypothesis Ek : i.(instrument_contract_size) == gval e k.
Hypothesis Em : i.(min_trade_amount) == gval e mn.
Hypothesis Pk : (0 < k)%Z.
Hypothesis Pm : (0 < mn)%Z.

Let grid := on_grid e grid_max.

Hypothesis honest : fills_honestly e.

(** What is known of the context: where the instrument is listed, the sizes held. *)
Definition priced (w : runtime) : Prop :=
  _find_instrument_by_markets w.(markets_by_currency) name = Ret i /\ Forall (fun p => grid (dabs p.(size))) w.(option_positions).

Lemma priced_sends ok w w' : sends ok w w' -> priced w -> priced w'.
Proof. intros ((_ & P & _ & _ & Mk & _) & _) [A B]. unfold priced. now rewrite Mk, P. Qed.

Lemma grid_0 : grid 0.
Proof. exists 0%Z. split; [split; [lia | vm_compute; discriminate] | reflexivity]. Qed.

Lemma grid_eq a b : a == b -> grid a -> grid b.
Proof. intros E (z & B & H). exists z. split; [exact B | now rewrite <- E]. Qed.

Lemma grid_nonneg a : grid a -> 0 <= a.
Proof. intros (z & B & ->). apply val_nonneg. lia. Qed.

Lemma grid_prec z : (0 <= z <= grid_max)%Z -> (Z.abs z <= 10 ^ prec)%Z.
Proof. intros B. rewrite Z.abs_eq by lia. apply Z.le_trans with grid_max; [lia | vm_compute; discriminate]. Qed.

Lemma grid_sub a b : grid a -> grid b -> b <= a -> grid (a ⊖ b) /\ a ⊖ b == a - b.
Proof.
  intros (y & By & Ea) (z & Bz & Eb) L. assert (H : (z <= y)%Z) by (rewrite Ea, Eb in L; now apply val_le in L).
  assert (E : a ⊖ b == gval e (y - z)) by (apply dsub_gval; auto; apply grid_prec; lia).
  split; [exists (y - z)%Z; split; [lia | exact E] | rewrite E, Ea, Eb; now rewrite gval_sub].
Qed.

Lemma grid_add a b c : grid a -> grid b -> grid c -> a + b <= c -> grid (a ⊕ b) /\ a ⊕ b == a + b.
Proof.
  intros (y & By & Ea) (z & Bz & Eb) (x & Bx & Ec) L.
  assert (H : (y + z <= x)%Z) by (rewrite Ea, Eb, Ec, gval_add in L; now apply val_le in L).
  assert (E : a ⊕ b == gval e (y + z)) by (apply dadd_gval; auto; apply grid_prec; lia).
  split; [exists (y + z)%Z; split; [lia | exact E] | rewrite E, Ea, Eb; now rewrite gval_add].
Qed.

Lemma grid_min a b : grid a -> grid b -> grid (dmin a b).
Proof. intros A B. destruct (dmin_cases a b) as [[-> _]|[-> _]]; assumption. Qed.

Lemma aligned_grid a : grid a -> grid (aligned i a) /\ aligned i a <= a.
Proof.
  intros (v & Bv & Ea). destruct (align_largest e v k mn a _ _ Ea Ek Em Bv Pk Pm) as [[Z0|(Mu & Lo & U)] _].
  - unfold aligned. split; [apply (grid_eq 0); [now symmetry | apply grid_0] | rewrite Z0, Ea; apply val_nonneg; lia].
  - unfold aligned. split; [|exact U]. destruct Mu as (j & Ej). pose proof (order_amount_step_val e k mn _ _ Ek Em Pk Pm) as Es.
    assert (E : align_option_order_amount a (instrument_contract_size i) (min_trade_amount i) == gval e (j * Z.min k mn))
      by (rewrite Ej, Es; unfold gval; rewrite inject_Z_mult; ring).
    exists (j * Z.min k mn)%Z. split; [|exact E]. rewrite E, Ea in U. apply val_le in U. rewrite E, Em in Lo. apply val_le in Lo. lia.
Qed.

(** [yields m P]: where the context is [priced], [m] keeps it so and returns only [P]. *)
Definition yields {A} (m : M A) (P : A -> Prop) : Prop := forall w w' a, priced w -> m w = (w', Ret a) -> priced w' /\ P a.

Lemma yields_bind {A B} (m : M A) (f : A -> M B) P R : yields m P -> (forall a, P a -> yields (f a) R) -> yields (bind m f) R.
Proof. intros Hm Hf w w' b I E. apply bind_inv in E. destruct E as (w1 & a & E1 & E2). destruct (Hm _ _ _ I E1). eapply Hf; eauto. Qed.

Lemma yields_ret {A} (a : A) (P : A -> Prop) : P a -> yields (ret a) P.
Proof. intros H w w' b I E. injection E as <- <-. now split. Qed.

Lemma yields_polite {A} ok (m : M A) (P : A -> Prop) : polite ok m -> (forall w w' a, priced w -> m w = (w', Ret a) -> P a) -> yields m P.
Proof. intros Po H w w' a I E. split; [exact (priced_sends ok w w' (polite_inv ok m w w' _ Po E) I) | exact (H w w' a I E)]. Qed.

Lemma yields_quiet {A} (m : M A) : quiet m -> yields m (fun _ => True).
Proof. intros Q. apply (yields_polite (fun _ => True)); [now apply polite_quiet | auto]. Qed.

Lemma closable_grid want d s : grid s -> grid (closable want d s).
Proof. intros G. unfold closable. repeat match goal with |- context [if ?b then _ else _] => destruct b end; auto using grid_0. Qed.

Lemma listed_grid want rows q : (forall d, In (PDict d) rows -> grid (dabs (to_decimal (dget "size" d) 0))) ->
  listed_capacity name want rows = Ret q -> grid q.
Proof.
  induction rows as [|[] rows IH]; cbn [listed_capacity]; intros S E; try discriminate.
  - injection E as <-. apply grid_0.
  - destruct (negb _); [apply IH; auto; intros ? ?; apply S; now right|].
    destruct (negb _); [apply IH; auto; intros ? ?; apply S; now right|].
    injection E as <-. apply closable_grid, S. now left.
Qed.

Lemma capacity_yields want positions : match positions with Some ps => Forall (fun p => grid (dabs p.(size))) ps | None => True end ->
  yields (_option_reduce_only_capacity name want positions) grid.
Proof.
  intros S. apply (yields_polite (leg_request name direction label [])); [apply capacity_polite|]. intros w w' q _ E. destruct positions as [ps|].
  - injection E as _ <-. unfold cached_capacity. destruct (find _ ps) as [p|] eqn:F; [|apply grid_0].
    apply find_some in F. apply closable_grid. rewrite Forall_forall in S. now apply S.
  - apply bind_inv in E. destruct E as (w1 & rows & E1 & E2). injection E1 as _ E1. destruct rows; try discriminate E2.
    injection E2 as _ E2. eapply listed_grid; [|exact E2]. intros d I. eapply (sizes_listed e honest); [exact E1 | exact I].
Qed.

(** A response that fills at most that much. *)
Definition fills_within (amount : Q) (v : pyobj) : Prop := grid (_response_filled_amount v) /\ _response_filled_amount v <= amount.

Lemma no_fill amount v : 0 <= amount -> _response_filled_amount v == 0 -> fills_within amount v.
Proof. intros P E. split; [apply (grid_eq 0); [now symmetry | apply grid_0] | now rewrite E]. Qed.

Lemma order_yields amount bound type price tif : 0 < amount -> amount <= bound ->
  yields (send (PlaceOrder (close_order direction name label amount type price tif))) (fills_within bound).
Proof.
  intros P L. apply (yields_polite (leg_request name direction label [])); [now apply order_polite|]. intros w w' v _ E. injection E as _ E.
  apply (fills_bounded e honest) in E; [|exact P]. destruct E as [G B]. split; [exact G|]. cbn [close_order req_amount] in B. lra.
Qed.

Lemma fallback_yields quantity positions : grid quantity -> match positions with Some ps => Forall (fun p => grid (dabs p.(size))) ps | None => True end ->
  yields (_fallback_close_position_market i name quantity direction label positions) (fills_within quantity).
Proof.
  intros G S. eapply yields_bind; [now apply capacity_yields|]. intros cap C. cbv beta zeta.
  destruct (aligned_grid quantity G) as [G1 L1]. destruct (aligned_grid (dmin (aligned i quantity) cap) (grid_min _ _ G1 C)) as [G2 L2].
  pose proof (dmin_l (aligned i quantity) cap).
  destruct (dleb_spec (aligned i (dmin (aligned i quantity) cap)) 0).
  - apply yields_ret, no_fill; [now apply grid_nonneg | reflexivity].
  - apply order_yields; lra.
Qed.

Lemma handler_yields amount mo handler : yields mo (fills_within amount) ->
  (forall w w' message, priced w -> mo w = (w', Exn (ExchangeError message)) -> priced w') ->
  (forall message, yields (handler message) (fills_within amount)) -> yields (on_exchange_error mo handler) (fills_within amount).
Proof.
  intros Y K H w w' v I E. unfold on_exchange_error in E. destruct (mo w) as [w1 [a|[]|]] eqn:E1; try discriminate E; [|exact (H _ _ _ _ (K _ _ _ I E1) E)].
  injection E as <- <-. exact (Y _ _ _ I E1).
Qed.

Lemma submit_yields amount price tif positions : grid amount -> 0 < amount ->
  match positions with Some ps => Forall (fun p => grid (dabs p.(size))) ps | None => True end ->
  yields (_submit_option_close_limit i name amount label price direction tif positions) (fills_within amount).
Proof.
  intros G P S. assert (Mk : yields (_fallback_close_position_market i name amount direction label positions) (fills_within amount)) by now apply fallback_yields.
  assert (R : forall e, yields (ret (_rejected_option_close_response name direction label e)) (fills_within amount))
    by (intros err; apply yields_ret, no_fill; [lra | reflexivity]).
  assert (K : forall p w w' message, priced w ->
    send (PlaceOrder (close_order direction name label amount "limit" (Some p) (Some tif))) w = (w', Exn (ExchangeError message)) -> priced w').
  { intros p w w' message I E. injection E as <- _. exact I. }
  unfold _submit_option_close_limit. cbv zeta. apply handler_yields; [apply order_yields; lra | apply K|]. intros msg.
  destruct (negb _); [apply R|]. destruct (parse_exchange_price_band_limit msg); [|exact Mk].
  destruct (_ || _); [exact Mk|]. apply handler_yields; [apply order_yields; lra | apply K|]. intros msg'.
  destruct (negb _); [apply R | exact Mk].
Qed.

Variable c : close_config.
Variable requested : Q.
Hypothesis Gr : grid requested.

(** The accounts of a leg: nothing beyond what was asked, and nothing lost. *)
Definition leg_balanced (r : leg_result) : Prop :=
  0 <= r.(filled) /\ r.(filled) <= requested /\ r.(filled) + r.(unfilled) == requested.

Definition within (p : progress) : Prop := grid p.(total_filled) /\ p.(total_filled) <= requested.

Lemma finish_balanced p pending bump : within p -> leg_balanced (finish p (requested ⊖ p.(total_filled)) pending bump).
Proof.
  intros [G L]. destruct (grid_sub _ _ Gr G L) as [_ E]. unfold leg_balanced. cbn [finish filled unfilled].
  split; [now apply grid_nonneg | split; [exact L | rewrite E; ring]].
Qed.

Lemma add_fill_within v p bound : within p -> fills_within bound v -> bound <= requested ⊖ p.(total_filled) -> within (add_fill v p).
Proof.
  intros [G L] [Gv Lv] B. destruct (grid_sub _ _ Gr G L) as [_ E]. unfold within, add_fill. cbn [total_filled].
  destruct (dltb_spec 0 (_response_filled_amount v)); [|now split].
  destruct (grid_add _ _ _ G Gv Gr) as [Ga Ea]; [lra|]. split; [exact Ga | lra].
Qed.

Lemma positions_yields : yields (read option_positions) (fun ps => Forall (fun p => grid (dabs p.(size))) ps).
Proof. intros w w' ps I E. injection E as <- <-. split; [exact I | apply I]. Qed.

Lemma retry_yields reason streak p : within p -> yields (retry_leg c name direction label reason streak requested p) leg_balanced.
Proof.
  intros W. assert (Fb := fun pe b => finish_balanced p pe b W). destruct (grid_sub _ _ Gr (proj1 W) (proj2 W)) as [Gs _].
  unfold retry_leg. cbv zeta. destruct (dltb 0 _); [|apply yields_ret; apply Fb].
  eapply yields_bind; [apply yields_quiet, quiet_modify; intros w; repeat split|]. intros _ _.
  eapply yields_bind; [apply yields_quiet, quiet_get_orderbook|]. intros b _.
  apply (yields_bind _ _ (eq i)).
  { apply (yields_polite (fun _ => True)); [apply polite_quiet, quiet_find_instrument|]. intros w w' j [I _] E.
    unfold _find_instrument, bind, read in E. rewrite I in E. now injection E. }
  intros ? <-. destruct (aligned_grid _ Gs) as [Ga La]. destruct (dleb _ 0); [apply yields_ret; apply Fb|].
  eapply yields_bind; [now apply capacity_yields|]. intros cap Gc.
  destruct (aligned_grid _ (grid_min _ _ Ga Gc)) as [Gm Lm]. pose proof (dmin_l (aligned i (requested ⊖ total_filled p)) cap).
  destruct (dleb_spec (aligned i (dmin (aligned i (requested ⊖ total_filled p)) cap)) 0); [apply yields_ret; apply Fb|].
  eapply yields_bind; [apply positions_yields|]. intros ps Gp. cbv beta.
  eapply yields_bind; [apply submit_yields; [exact Gm | lra | exact Gp]|]. intros v Fv.
  apply yields_ret. apply finish_balanced. eapply add_fill_within; [exact W | exact Fv | lra].
Qed.

(** Reasons whose orders do not rest: there is nothing to take over or to wait for. *)
Variable reason : string.
Hypothesis immediate : _income_exit_uses_resting_limit c reason = false.

Lemma fresh_within : within fresh_progress.
Proof. split; [apply grid_0 | cbn [fresh_progress total_filled]; now apply grid_nonneg]. Qed.

Lemma fresh_rest : grid (requested ⊖ 0) /\ requested ⊖ 0 == requested.
Proof. destruct (grid_sub _ _ Gr grid_0 (grid_nonneg _ Gr)) as [G E]. split; [exact G | rewrite E; ring]. Qed.

Lemma first_yields price streak : yields (first_leg c i name direction label reason price requested streak fresh_progress) leg_balanced.
Proof.
  unfold first_leg. cbv zeta. cbn [fresh_progress total_filled]. rewrite immediate. destruct fresh_rest as [G0 E0]. pose proof (grid_nonneg _ Gr) as N.
  eapply yields_bind; [apply positions_yields|]. intros ps Gp. cbv beta.
  eapply yields_bind; [now apply capacity_yields|]. intros cap Gc. cbv beta.
  destruct (aligned_grid _ (grid_min _ _ G0 Gc)) as [Gm Lm]. pose proof (dmin_l (requested ⊖ 0) cap).
  destruct (dleb_spec (aligned i (dmin (requested ⊖ 0) cap)) 0).
  { change (dltb 0 0) with false. apply yields_ret. unfold leg_balanced. cbn [filled unfilled]. split; [apply Qle_refl | split; [exact N | ring]]. }
  eapply yields_bind; [apply submit_yields; [exact Gm | lra | exact Gp]|]. intros v Fv.
  apply (yields_bind _ _ (fun v' => v' = v)); [now apply yields_ret|]. intros ? ->. apply retry_yields.
  eapply add_fill_within; [apply fresh_within | exact Fv | cbn [fresh_progress total_filled]; lra].
Qed.

Lemma escalated_yields : yields (escalated_leg i name direction label requested fresh_progress) leg_balanced.
Proof.
  destruct fresh_rest as [G0 E0]. unfold escalated_leg. cbn [fresh_progress total_filled].
  eapply yields_bind; [apply positions_yields|]. intros ps Gp. cbv beta.
  eapply yields_bind; [now apply fallback_yields|]. intros v [Gv Lv]. apply yields_ret. unfold leg_balanced. cbn [filled unfilled].
  rewrite E0 in Lv. destruct (grid_sub _ _ Gr Gv Lv) as [Gd Ed]. pose proof (grid_nonneg _ Gd).
  split; [now apply grid_nonneg | split; [exact Lv|]].
  destruct (dmax_cases (requested ⊖ _response_filled_amount v) 0) as [[-> _]|[-> L]]; lra.
Qed.
End Fills.


(** An income exit that escalates to a market order forgets what its stale resting
    order had filled. The fills taken over reduce the market order, yet the result
    reports the market order alone: what it calls unfilled is what is really left plus
    all those fills, so a leg closed entirely still reports them as unfilled. *)
Theorem escalation_forgets_partial_fill (X : Exchange) e q f1 f2 c i p response
    name quantity direction label price reason streak now_ms w w1 w2 w3 :
  let requested := aligned i quantity in
  let resting := if _income_exit_uses_resting_limit c reason then _find_resting_close_order w1.(open_orders) label name direction else None in
  requested == gval e q -> p.(total_filled) == gval e f1 -> _response_filled_amount response == gval e f2 ->
  (0 < f1)%Z -> (0 <= f2)%Z -> (f1 + f2 <= q <= grid_max)%Z -> escalates c direction reason streak = true ->
  _find_instrument name w = (w1, Ret i) -> resting_leg c resting requested now_ms w1 = (w2, Ret (inr p)) ->
  _fallback_close_position_market i name (requested ⊖ p.(total_filled)) direction label (Some w2.(option_positions)) w2 = (w3, Ret response) ->
  exists r, _close_leg_with_retry c name quantity direction label price reason streak now_ms w = (w3, Ret r) /\
    r.(filled) = _response_filled_amount response /\
    r.(unfilled) == (requested - (p.(total_filled) + r.(filled))) + p.(total_filled) /\
    (p.(total_filled) + r.(filled) == requested -> 0 < r.(unfilled)).
Proof.
  cbv zeta. intros Eq E1 E2 P1 P2 B Es Fi Rl Fb. unfold _close_leg_with_retry, bind at 1. rewrite Fi. cbv zeta.
  assert (Pq : 0 < aligned i quantity) by (rewrite Eq; apply val_pos; lia).
  assert (Ed : aligned i quantity ⊖ _response_filled_amount response == gval e (q - f2)).
  { apply dsub_gval; auto. rewrite Z.abs_eq by lia. apply Z.le_trans with grid_max; [lia | vm_compute; discriminate]. }
  assert (Pf : 0 < p.(total_filled)) by (rewrite E1; now apply val_pos).
  assert (Pd : 0 < gval e (q - f2)) by (apply val_pos; lia).
  pose proof (gval_sub e q f2) as Gs.
  destruct (dleb_spec (aligned i quantity) 0); [lra|]. unfold bind at 1, read at 1. unfold bind at 1. rewrite Rl, Es.
  unfold escalated_leg, bind at 1, read. unfold bind at 1. rewrite Fb. eexists. split; [reflexivity|]. cbn [filled unfilled]. split; [reflexivity|].
  destruct (dmax_cases (aligned i quantity ⊖ _response_filled_amount response) 0) as [[-> _]|[-> L]]; [|lra].
  rewrite Ed, <- Gs, Eq, E2 in *. split; [ring | lra].
Qed.

(** ** Samples *)

Definition sample_close : close_config := {|
  early_exit_max_spread_ratio := 0.35; income_exit_max_spread_ratio := 0.25; exit_buffer_ratio := 0.05; income_exit_escalate_taker := true;
  income_exit_time_in_force := "good_til_cancelled"; income_exit_order_ttl_minutes := 30; income_exit_market_after_attempts := 2;
  order_poll_seconds := 5 |}.

Definition sample_option : OptionInstrument := {|
  instrument_name := "BTC-27JUN25-90000-P"; base_currency := "BTC"; quote_currency := "BTC"; settlement_currency := "BTC";
  instrument_type := "reversed"; tick_size := 0.0001; tick_size_steps := [(0.005, 0.0005)]; min_trade_amount := 0.1;
  instrument_contract_size := 1; instrument_option_type := "put"; instrument_expiration_ms := 0; instrument_strike := 90000; instrument_state := "open" |}.

Definition sample_short : Position := {|
  position_instrument_name := "BTC-27JUN25-90000-P"; direction := "sell"; position_kind := "option"; size := -0.7; size_currency := 0;
  position_mark_price := 0.01; average_price := 0.03; floating_profit_loss := 0; position_delta := 0.1; position_index_price := 100000;
  has_floating_profit_loss := false; floating_profit_loss_usd := 0; has_floating_profit_loss_usd := false |}.

Definition sample_resting : OpenOrder := {|
  order_id := "BTC-1"; order_instrument_name := "BTC-27JUN25-90000-P"; order_direction := "buy"; order_state := "open"; order_type := "limit";
  order_amount := 1; filled_amount := 0; order_price := 0.01; order_average_price := 0.01; post_only := false; reduce_only := true;
  order_label := "put-close"; creation_timestamp_ms := Some 1%Z |}.

Definition filled_response (state amount price : string) : pyobj :=
  PDict [("order"%string, PDict [("order_state"%string, PStr state); ("filled_amount"%string, PStr amount); ("average_price"%string, PStr price)])].

(** The resting order has filled 0.3 and can be cancelled; other orders fill as given. *)
#[local] Instance sample_exchange (fill : order_request -> string) : Exchange := {|
  reply h r := match r with
    | PlaceOrder o => Ret (filled_response "filled" (fill o) "0.01")
    | CancelOrder _ => Ret (PDict [])
    | OrderState _ => Ret (filled_response (match h with [] => "open" | _ => "cancelled" end) "0.3" "0.009")
    | ListPositions => Ret (PList [PDict [("instrument_name"%string, PStr "BTC-27JUN25-90000-P"); ("kind"%string, PStr "option");
                             ("direction"%string, PStr "sell"); ("size"%string, PStr "-0.6")]])
    end;
  get_order_book name := Ret (fun key => if String.eqb key "best_ask_price" then PStr "0.01" else if String.eqb key "best_bid_price" then PStr "0.009" else PNone);
  get_index_price name := Exn ValueError;
  _fetch_option_instrument_metadata name := None |}.

Definition sample_leg_runtime : runtime := {|
  state := empty_state; open_orders := [sample_resting]; option_positions := [sample_short]; future_positions := []; future_markets_by_name := [];
  markets_by_currency := [("BTC"%string, [sample_option])]; orderbook_cache := []; _instrument_metadata_cache := []; requests := [] |}.

(** One contract to close: 0.3 filled while resting, 0.7 at the market; all of it is
    closed and 0.3 are reported unfilled. *)
Lemma escalation_forgets_partial_fill_witness :
  exists w r, @_close_leg_with_retry (sample_exchange (fun _ => "0.7"%string)) sample_close "BTC-27JUN25-90000-P" 1 "buy" "put-close" 0.01 "take_profit" 2 1801001
      sample_leg_runtime = (w, Ret r) /\ r.(filled) == 0.7 /\ 0 < r.(unfilled).
Proof.
  pose (X := sample_exchange (fun _ => "0.7"%string)). pose (name := "BTC-27JUN25-90000-P"%string).
  pose (st := @resting_leg X sample_close (Some sample_resting) (aligned sample_option 1) 1801001 sample_leg_runtime).
  pose (p := match snd st with Ret (inr p) => p | _ => fresh_progress end).
  pose (fb := @_fallback_close_position_market X sample_option name (aligned sample_option 1 ⊖ p.(total_filled)) "buy" "put-close"
    (Some (fst st).(option_positions)) (fst st)).
  pose (v := match snd fb with Ret v => v | _ => PNone end).
  assert (Fi : @_find_instrument X name sample_leg_runtime = (sample_leg_runtime, Ret sample_option)) by (vm_compute; reflexivity).
  assert (Rl : st = (fst st, Ret (inr p))) by (vm_compute; reflexivity).
  assert (Fb : fb = (fst fb, Ret v)) by (vm_compute; reflexivity).
  assert (Ep : p.(total_filled) == 0.3) by (vm_compute; reflexivity).
  assert (Ev : _response_filled_amount v == 0.7) by (vm_compute; reflexivity).
  assert (Er : aligned sample_option 1 == gval (-1) 10) by (vm_compute; reflexivity).
  assert (Es : escalates sample_close "buy" "take_profit" 2 = true) by (vm_compute; reflexivity).
  assert (Bd : (3 + 7 <= 10 <= grid_max)%Z) by (split; vm_compute; discriminate).
  destruct (escalation_forgets_partial_fill X (-1) 10 3 7 sample_close sample_option p v name 1 "buy" "put-close" 0.01 "take_profit" 2 1801001
    sample_leg_runtime sample_leg_runtime (fst st) (fst fb) Er Ep Ev eq_refl ltac:(discriminate) Bd Es Fi Rl Fb) as (r & E & F & _ & U).
  exists (fst fb), r. split; [exact E|]. rewrite F. split; [exact Ev|]. apply U. rewrite F, Ep, Ev, Er. reflexivity.
Defined.

(** A thin market: every order for 0.1 or more fills 0.1. *)
Definition thin_fill (o : order_request) : string := if 0.1 <=? o.(req_amount) then "0.1" else "0".

Lemma thin_market_honest : @fills_honestly (sample_exchange thin_fill) (-1).
Proof.
  split.
  - intros h o v P E. injection E as <-. unfold thin_fill. destruct (dleb_spec 0.1 o.(req_amount)) as [L|L].
    + split; [exists 1%Z; split; [split; vm_compute; discriminate | vm_compute; reflexivity] | exact L].
    + split; [exists 0%Z; split; [split; vm_compute; discriminate | vm_compute; reflexivity] | apply Qlt_le_weak, P].
  - intros h rows d E I. injection E as <-. destruct I as [I|[]]. injection I as <-.
    exists 6%Z. split; [split; vm_compute; discriminate | vm_compute; reflexivity].
Qed.

