(* ===== verification/GroupClose.v ===== *)
(** Closing a group ([engine/execution.py], [_close_group]) and its books
    ([engine/base.py]): the fees of trades, the cash flow of a short leg, the coin
    profit, the closed group. Messages to the operator and rows of the trade journal are
    not modelled. *)

From S2P Require Import Prelude Dec PyStr Utils Fees TradeApr Group Ledger PyObj GroupJson StateJson Market ExitEval Runtime HedgeOrders Close.
Local Open Scope Q_scope.
Local Open Scope dec_scope.
Local Open Scope bool_scope.
Local Open Scope run_scope.
Local Open Scope list_scope.

Record desk_config : Type := {
  engine : engine_config;
  legs : close_config;
  option_strategy : string;
  option_fee_rate : Q;
  option_fee_cap_rate : Q;
}.

(** What closing a group asks of the account: the trades of an order, the equity of
    each summary, the instrument's data; and the discount on fees at a time. *)
Class Desk : Type := {
  desk_exchange :: Exchange;
  get_user_trades_by_order : string -> outcome (list pyobj);
  account_equity : outcome (dict Q);
  get_instrument : string -> outcome (string -> pyobj);
  _option_fee_discount_rate_at : Z -> Q;
}.

(** ** Trades and their fees *)

(** [list(value)] *)
Definition py_list (value : pyobj) : outcome (list pyobj) :=
  match value with
  | PList l => Ret l
  | PDict d => Ret (map (fun kv => PStr (fst kv)) d)
  | PStr s => Ret (map (fun a => PStr (String a EmptyString)) (list_ascii_of_string s))
  | _ => Exn TypeError
  end.

Fixpoint _sum_trade_fees_usdc (managed : list string) (total : Q) (trades : list pyobj) : outcome Q :=
  match trades with
  | [] => Ret total
  | PDict d :: rest =>
      let fee := to_decimal (dget "fee" d) 0 in
      if fee <=? 0 then _sum_trade_fees_usdc managed total rest
      else
        let fee_currency := upper (str_or_default (dget "fee_currency" d) EmptyString) in
        let usdc := if String.eqb fee_currency "USDC" then fee
                    else if mem_str fee_currency managed then fee ⊗ to_decimal (obj_or (dget "index_price" d) (dget "underlying_price" d)) 0
                    else fee in
        _sum_trade_fees_usdc managed (total ⊕ usdc) rest
  | _ :: _ => Exn AttributeError
  end.

Fixpoint _sum_trade_fees_native (book : string) (total : Q) (trades : list pyobj) : outcome Q :=
  match trades with
  | [] => Ret total
  | PDict d :: rest =>
      let fee := to_decimal (dget "fee" d) 0 in
      if fee <=? 0 then _sum_trade_fees_native book total rest
      else if String.eqb (upper (str_or_default (dget "fee_currency" d) EmptyString)) book
      then _sum_trade_fees_native book (total ⊕ fee) rest
      else _sum_trade_fees_native book total rest
  | _ :: _ => Exn AttributeError
  end.

Definition _premium_value_usdc (premium quantity index_price : Q) (i : OptionInstrument) : Q :=
  premium_value_usdc index_price premium quantity i.(base_currency) i.(quote_currency) i.(settlement_currency).

Definition usdc_linear (i : OptionInstrument) : bool :=
  String.eqb (upper i.(quote_currency)) "USDC" && String.eqb (upper i.(settlement_currency)) "USDC".

Definition _group_collateral_currency (g : TradeGroup) : string :=
  str_or g.(Group.collateral_currency) (if contains "_USDC-" g.(short_instrument_name) then "USDC"%string else g.(currency)).

Section Books.
Context {D : Desk}.
Variable c : desk_config.

Definition _order_trades (response : pyobj) : M (list pyobj) :=
  match response with
  | PDict d =>
      let* trades := lift (py_list (obj_or (dget "trades" d) (PList []))) in
      match trades with
      | [] =>
          let order_id := str_or_default (dget "order_id" (_response_order response)) EmptyString in
          if is_empty order_id then ret [] else lift (get_user_trades_by_order order_id)
      | _ => ret trades
      end
  | _ => ret []
  end.

Definition truthy_list {A} (l : list A) : bool := match l with [] => false | _ => true end.

(** The trades of all the responses of a leg. *)
Fixpoint leg_trades (responses : list pyobj) : M (list pyobj) :=
  match responses with
  | [] => ret []
  | PDict d :: rest => let* ts := _order_trades (PDict d) in let* more := leg_trades rest in ret (ts ++ more)
  | _ :: rest => leg_trades rest
  end.

Definition _option_fee_usdc (premium quantity index_price : Q) (i : OptionInstrument) (at_ms : Z) : Q :=
  option_trade_fee_usdc index_price premium quantity c.(option_fee_rate) c.(option_fee_cap_rate)
    i.(base_currency) i.(quote_currency) i.(settlement_currency) (_option_fee_discount_rate_at at_ms).

Definition _option_fee_native (premium quantity index_price : Q) (i : OptionInstrument) (at_ms : Z) : Q :=
  option_trade_fee_native index_price premium quantity c.(option_fee_rate) c.(option_fee_cap_rate)
    i.(quote_currency) i.(settlement_currency) (_option_fee_discount_rate_at at_ms).

(** [(value_usdc, fee_usdc, fee_collateral)] *)
Definition _short_leg_ledger (fee_sign premium quantity index_price : Q) (trades : list pyobj) (i : OptionInstrument)
    (collateral : string) (at_ms : Z) : outcome (Q * Q * Q) :=
  let book := upper collateral in
  (if usdc_linear i || String.eqb book "USDC" then
     let! fee := _sum_trade_fees_usdc c.(engine).(managed_currencies) 0 trades in
     let fee_usdc := if fee <=? 0 then _option_fee_usdc premium quantity index_price i at_ms else fee in
     Ret (_premium_value_usdc premium quantity index_price i ⊕ (fee_sign ⊗ fee_usdc), fee_usdc, 0)
   else
     let! fee := _sum_trade_fees_native book 0 trades in
     let fee_collateral := if fee <=? 0 then _option_fee_native premium quantity index_price i at_ms else fee in
     let total_native := (premium ⊗ quantity) ⊕ (fee_sign ⊗ fee_collateral) in
     if index_price <=? 0 then Ret (0, 0, fee_collateral)
     else Ret (total_native ⊗ index_price, fee_collateral ⊗ index_price, fee_collateral))%outcome.

Definition _short_entry_ledger := _short_leg_ledger (- (1)).
Definition _close_short_ledger := _short_leg_ledger 1.

(** ** The closed group *)

Definition _compute_realized_pnl_collateral_native (g : TradeGroup) (short_entry_price short_close_price index_at_entry index_at_close : Q)
    (long_entry_price long_close_price : option Q) (realized_pnl_usdc : Q) : TradeGroup * option Q :=
  if String.eqb (upper (_group_collateral_currency g)) "USDC" then (g, Some realized_pnl_usdc)
  else
    let g := if short_entry_price >? 0 then set_short_entry_average_price short_entry_price g else g in
    let g := if short_close_price >? 0 then set_short_close_average_price (Some short_close_price) g else g in
    let g := if index_at_entry >? 0 then set_entry_index_usd index_at_entry g else g in
    let g := if index_at_close >? 0 then set_close_index_usd (Some index_at_close) g else g in
    let g := match long_entry_price with Some p => if p >? 0 then set_long_entry_average_price p g else g | None => g end in
    let g := match long_close_price with Some p => if p >? 0 then set_long_close_average_price (Some p) g else g | None => g end in
    compute_realized_pnl_native g None.

Definition _finalize_close_collateral_native (g : TradeGroup) (realized_pnl_usdc short_close_price index_at_close : Q)
    (long_close_price : option Q) : outcome TradeGroup :=
  let g := set_close_index_usd (Some index_at_close) (set_short_close_average_price (Some short_close_price) g) in
  let entry_price := resolved_short_entry_price g in
  let index_at_entry := if g.(entry_index_usd) >? 0 then g.(entry_index_usd) else index_at_close in
  let '(g, native) := _compute_realized_pnl_collateral_native g entry_price short_close_price index_at_entry index_at_close
    (pos_opt g.(long_entry_average_price)) long_close_price realized_pnl_usdc in
  match native with
  | None => Ret g
  | Some n =>
      let g := set_realized_pnl_collateral_native (Some n) g in
      if String.eqb (upper (_group_collateral_currency g)) "USDC" then Ret (set_realized_pnl (Some realized_pnl_usdc) g)
      else if index_at_close >? 0 then backfill_realized_pnl_usdc g (Some index_at_close)
      else Ret g
  end.

Definition _option_contract_size (name : string) : Q :=
  match get_instrument name with Ret payload => to_decimal (obj_or (payload "contract_size"%string) (PStr "1")) 0 | _ => 1 end.

Definition _book_equity_native (collateral : string) : outcome Q :=
  (let! rows := account_equity in
   Ret (match dict_get (upper (str_or collateral "USDC")) rows with Some e => e | None => 0 end))%outcome.

Definition _realized_pnl_native_for_apr_book (g : TradeGroup) (realized_pnl_usdc index_price_usd : Q) : TradeGroup * Q :=
  if String.eqb (upper (_group_collateral_currency g)) "USDC" then (g, realized_pnl_usdc)
  else
    match g.(realized_pnl_collateral_native) with
    | Some n => (g, n)
    | None =>
        let '(g, computed) := compute_coin_profit_native g (index_price_usd >? 0) in
        (g, match computed with
            | Some n => n
            | None => if index_price_usd <=? 0 then 0 else realized_pnl_usdc ⊘ index_price_usd
            end)
    end.

Definition is_usdc_book (g : TradeGroup) : bool := String.eqb (upper (_group_collateral_currency g)) "USDC".

Definition pnl_for_apr (g : TradeGroup) (realized_pnl_usdc idx : Q) : TradeGroup * Q :=
  match g.(realized_pnl_collateral_native) with
  | Some n => if is_usdc_book g then _realized_pnl_native_for_apr_book g realized_pnl_usdc idx else (g, n)
  | None => _realized_pnl_native_for_apr_book g realized_pnl_usdc idx
  end.

Definition closed_position (g : TradeGroup) (idx : Q) : position := {|
  TradeApr.strategy := str_or g.(Group.strategy) c.(option_strategy); TradeApr.collateral_currency := _group_collateral_currency g;
  TradeApr.option_type := g.(Group.option_type); TradeApr.quantity := g.(Group.quantity);
  TradeApr.contract_size := _option_contract_size g.(short_instrument_name); TradeApr.strike := g.(short_strike);
  TradeApr.index_price_usd := idx; TradeApr.estimated_im_collateral := g.(Group.estimated_im_collateral);
  TradeApr.covered_underlying_quantity := g.(Group.covered_underlying_quantity) |}.

(** [(group, close equity, APR)] *)
Definition _snapshot_close_apr_on_equity (g : TradeGroup) (realized_pnl : Q) (closed_timestamp_ms : Z) (index_price_usd : option Q)
    : M (TradeGroup * Q * Q) :=
  let* close_equity := lift (_book_equity_native (_group_collateral_currency g)) in
  let* idx := (if (or_zero index_price_usd <=? 0) && negb (is_usdc_book g) then _currency_index_price g.(currency) else ret (or_zero index_price_usd)) in
  ret (fst (pnl_for_apr g realized_pnl idx), close_equity,
       realized_apr_from_close (closed_position (fst (pnl_for_apr g realized_pnl idx)) idx) (snd (pnl_for_apr g realized_pnl idx))
         g.(entry_timestamp_ms) closed_timestamp_ms).

Definition marked (g : TradeGroup) (reason : string) (closed_ms : Z) (debit fee pnl return_on_max_loss : option Q) : TradeGroup :=
  set_realized_return_on_max_loss return_on_max_loss (set_realized_pnl pnl (set_realized_close_fee fee (set_realized_close_debit debit
    (set_closed_timestamp_ms (Some closed_ms) (set_close_reason reason (set_close_incomplete_streak 0 (set_last_action reason
    (set_status "closed" g)))))))).

Definition _mark_group_closed (g : TradeGroup) (reason : string) (closed_ms : Z) (debit fee pnl return_on_max_loss annualized index_price_usd : option Q)
    : M TradeGroup :=
  match pnl with
  | Some p =>
      let* snapped := _snapshot_close_apr_on_equity (marked g reason closed_ms debit fee pnl return_on_max_loss) p closed_ms index_price_usd in
      ret (let '(g, equity, apr) := snapped in
           set_realized_annualized_return (Some apr) (set_realized_apr_on_equity (Some apr) (set_close_book_equity (Some equity) g)))
  | None =>
      ret (let g := marked g reason closed_ms debit fee pnl return_on_max_loss in
           match annualized with Some r => set_realized_annualized_return (Some r) g | None => g end)
  end.

(** ** Closing both legs *)

Definition spread_label (g : TradeGroup) (suffix : string) : string :=
  (c.(engine).(order_label_prefix) ++ "-spread-" ++ lower g.(currency) ++ "-" ++ g.(group_id) ++ "-" ++ suffix)%string.

Definition short_close_label (g : TradeGroup) : string := (str_or g.(short_label) (spread_label g "short") ++ "-close")%string.
Definition long_close_label (g : TradeGroup) : string := (str_or g.(long_label) (spread_label g "long") ++ "-close")%string.

(** What the close that did not complete leaves on the group. *)
Definition note_incomplete (reason : string) (r : leg_result) (g : TradeGroup) : TradeGroup :=
  if r.(resting_pending) then set_last_action (reason ++ "_pending")%string g
  else
    let g := set_last_action (reason ++ "_incomplete")%string g in
    if r.(streak_bump) || negb (_income_exit_uses_resting_limit c.(legs) reason)
    then set_close_incomplete_streak (g.(close_incomplete_streak) + 1)%Z g else g.

Definition incomplete_action (r : leg_result) : string := if r.(resting_pending) then "close_group_pending" else "close_group_incomplete".

Definition leg_preview (name : string) (amount price : pyobj) (label direction : string) : pyobj :=
  PDict [("instrument_name"%string, PStr name); ("amount"%string, amount); ("price"%string, price); ("label"%string, PStr label);
         ("direction"%string, PStr direction)].

Definition preview (g : TradeGroup) (reason : string) (short_preview : pyobj) : M (list action) :=
  let* long := (if truthy g.(long_instrument_name) then
      let* long_book := _get_orderbook g.(long_instrument_name) in
      let* long_inst := _find_instrument g.(long_instrument_name) in
      let* amount := text8 g.(Group.quantity) in
      let* price := text8 (close_sell_price c.(legs) long_inst long_book None) in
      ret [("long_leg"%string, leg_preview g.(long_instrument_name) amount price (long_close_label g) "sell")]
    else ret []) in
  ret [[("action"%string, PStr "close_group_preview"); ("reason"%string, PStr reason); ("group_id"%string, PStr g.(group_id));
        ("requests"%string, PDict (("short_leg"%string, short_preview) :: long))]].

(** What the short leg's close has put on the books. *)
Record booked : Type := { close_debit : Q; close_fee : Q; fee_collateral : Q }.

(** The long leg's sale nets the close debit and adds its fees. *)
Definition net_long_leg (g : TradeGroup) (r : leg_result) (i : OptionInstrument) (short_book long_book : OrderBookSnapshot)
    (trades : list pyobj) (now_ms : Z) (b : booked) : outcome (TradeGroup * booked) :=
  let px := r.(leg_average_price) in
  (if usdc_linear i || String.eqb (upper g.(Group.collateral_currency)) "USDC" then
     let long_credit := _premium_value_usdc px r.(filled) long_book.(index_price) i in
     let long_fee := _option_fee_usdc px r.(filled) long_book.(index_price) i now_ms in
     Ret (g, {| close_debit := b.(close_debit) ⊖ dmax (long_credit ⊖ long_fee) 0; close_fee := b.(close_fee) ⊕ long_fee;
                fee_collateral := b.(fee_collateral) |})
   else
     let! fee := _sum_trade_fees_native (upper g.(Group.collateral_currency)) 0 trades in
     let long_fee := if fee <=? 0 then _option_fee_native px r.(filled) long_book.(index_price) i now_ms else fee in
     let net_native := (px ⊗ r.(filled)) ⊖ long_fee in
     let idx := if long_book.(index_price) >? 0 then long_book.(index_price) else short_book.(index_price) in
     let usdc q := if idx >? 0 then q ⊗ idx else 0 in
     let total := b.(fee_collateral) ⊕ long_fee in
     Ret (set_current_close_fee_collateral total (set_close_fee_collateral (Some total) g),
          {| close_debit := b.(close_debit) ⊖ usdc net_native; close_fee := b.(close_fee) ⊕ usdc long_fee; fee_collateral := total |}))%outcome.

Definition attempts (r : leg_result) : pyobj := PList r.(responses).

(** Called with the long leg's last response, not with its result. *)
Definition _collect_close_trades (short : leg_result) (long_response : pyobj) : M (list (string * pyobj)) :=
  let* short_trades := leg_trades short.(responses) in
  let* long_trades := match long_response with
                      | PDict d => let* rs := lift (py_list (obj_or (dget "responses" d) (PList []))) in leg_trades rs
                      | _ => ret []
                      end in
  ret ((if truthy_list short_trades then [("short_leg"%string, PList short_trades)] else [])
       ++ (if truthy_list long_trades then [("long_leg"%string, PList long_trades)] else [])).

Definition close_pnl (g : TradeGroup) (b : booked) : Q := entry_credit_net_usdc g ⊖ b.(close_debit).

(** [group.realized_pnl or realized_pnl] *)
Definition pnl_or (g : TradeGroup) (pnl : Q) : Q := match g.(realized_pnl) with Some v => if v =? 0 then pnl else v | None => pnl end.

Definition opt_dec (o : option Q) : pyobj := match o with Some q => PDec q | None => PNone end.

Definition closed_action (g : TradeGroup) (reason : string) (pnl return_on_max_loss : Q) (b : booked) (short : leg_result) (long_response : pyobj)
    (trades : list (string * pyobj)) : action :=
  [("action"%string, PStr "close_group"); ("reason"%string, PStr reason); ("group_id"%string, PStr g.(group_id));
   ("realized_close_debit"%string, PDec b.(close_debit)); ("realized_close_fee"%string, PDec b.(close_fee));
   ("realized_pnl"%string, PDec (pnl_or g pnl)); ("realized_return_on_max_loss"%string, PDec return_on_max_loss);
   ("realized_annualized_return"%string, opt_dec g.(realized_annualized_return)); ("realized_apr_on_equity"%string, opt_dec g.(realized_apr_on_equity));
   ("close_book_equity"%string, opt_dec g.(close_book_equity));
   ("responses"%string, PDict [("short_leg"%string, short.(last_response)); ("short_attempts"%string, attempts short); ("long_leg"%string, long_response)]);
   ("trades"%string, PDict trades)].

(** Both legs are closed: the books and the closed group. [swept] queues the sale of a
    covered call's profit. *)
Definition close_books (swept : TradeGroup -> string -> TradeGroup) (g : TradeGroup) (reason : string) (short_px : Q) (long_px : option Q)
    (short_book : OrderBookSnapshot) (b : booked) (now_ms : Z) (short : leg_result) (long_response : pyobj) : M (TradeGroup * list action) :=
  let* g' := lift (_finalize_close_collateral_native (set_short_close_average_price (Some short_px) g) (close_pnl g b) short_px
    short_book.(index_price) long_px) in
  let* g' := _mark_group_closed g' reason now_ms (Some b.(close_debit)) (Some b.(close_fee)) (Some (pnl_or g' (close_pnl g b)))
    (Some (safe_div (close_pnl g b) g.(max_loss) 0)) None (Some short_book.(index_price)) in
  let* trades := _collect_close_trades short long_response in
  ret (swept g' reason, [closed_action (swept g' reason) reason (close_pnl g b) (safe_div (close_pnl g b) g.(max_loss) 0) b short long_response trades]).

(** The long leg, once the short one is closed. *)
Definition close_long_leg (swept : TradeGroup -> string -> TradeGroup) (g : TradeGroup) (reason : string) (now_ms : Z) (short : leg_result)
    (short_book : OrderBookSnapshot) (b : booked) : M (TradeGroup * list action) :=
  let* long_book := _get_orderbook g.(long_instrument_name) in
  let* long_inst := _find_instrument g.(long_instrument_name) in
  let* long := _close_leg_with_retry c.(legs) g.(long_instrument_name) g.(Group.quantity) "sell" (long_close_label g)
    (close_sell_price c.(legs) long_inst long_book (if mem_str reason INCOME_EXIT_REASONS then Some c.(legs).(Close.income_exit_max_spread_ratio) else None))
    reason g.(close_incomplete_streak) now_ms in
  if long.(unfilled) >? 0 then
    ret (note_incomplete reason long g,
         [[("action"%string, PStr (incomplete_action long)); ("reason"%string, PStr reason); ("group_id"%string, PStr g.(group_id));
           ("leg_risk"%string, PStr "close_incomplete_long"); ("leg_risk_quantity"%string, PDec long.(unfilled));
           ("short_filled"%string, PDec short.(filled)); ("short_unfilled"%string, PDec short.(unfilled));
           ("long_filled"%string, PDec long.(filled)); ("long_unfilled"%string, PDec long.(unfilled));
           ("responses"%string, PDict [("short_leg"%string, short.(last_response)); ("short_attempts"%string, attempts short);
             ("long_leg"%string, long.(last_response)); ("long_attempts"%string, attempts long)])]])
  else
    let* long_instrument := _find_instrument g.(long_instrument_name) in
    let* long_book := _get_orderbook g.(long_instrument_name) in
    let* long_trades := _order_trades long.(last_response) in
    let* netted := lift (net_long_leg g long long_instrument short_book long_book long_trades now_ms b) in
    close_books swept (set_long_close_average_price (Some long.(leg_average_price)) (fst netted)) reason short.(leg_average_price)
      (Some long.(leg_average_price)) short_book (snd netted) now_ms short long.(last_response).

Definition booked_of (t : Q * Q * Q) : booked := let '(debit, fee, coin) := t in {| close_debit := debit; close_fee := fee; fee_collateral := coin |}.

Definition with_close_fee (fee : Q) (g : TradeGroup) : TradeGroup := set_current_close_fee_collateral fee (set_close_fee_collateral (Some fee) g).

(** The short leg is closed. *)
Definition after_short (swept : TradeGroup -> string -> TradeGroup) (g : TradeGroup) (reason : string) (now_ms : Z) (short : leg_result)
    (short_instrument : OptionInstrument) (short_book : OrderBookSnapshot) : M (TradeGroup * list action) :=
  let* trades := leg_trades short.(responses) in
  let* t := lift (_close_short_ledger short.(leg_average_price) g.(Group.quantity) short_book.(index_price) trades short_instrument
    g.(Group.collateral_currency) now_ms) in
  if negb (truthy g.(long_instrument_name)) then
    close_books swept (with_close_fee (booked_of t).(fee_collateral) g) reason short.(leg_average_price) None short_book (booked_of t) now_ms short PNone
  else close_long_leg swept g reason now_ms short short_book (booked_of t).

Definition short_close_price (g : TradeGroup) (reason : string) (i : OptionInstrument) (b : OrderBookSnapshot) : Q :=
  close_buy_price_for_exit c.(legs) i b reason g.(close_incomplete_streak).

Definition incomplete_short (g : TradeGroup) (reason : string) (short : leg_result) : action :=
  [("action"%string, PStr (incomplete_action short)); ("reason"%string, PStr reason); ("group_id"%string, PStr g.(group_id));
   ("short_filled"%string, PDec short.(filled)); ("short_unfilled"%string, PDec short.(unfilled));
   ("responses"%string, PDict [("short_leg"%string, short.(last_response)); ("short_attempts"%string, attempts short)])].

Definition _close_group (swept : TradeGroup -> string -> TradeGroup) (g : TradeGroup) (reason : string) (live : bool) (now_ms : Z)
    : M (TradeGroup * list action) :=
  let* short_book := _get_orderbook g.(short_instrument_name) in
  let* short_instrument := _find_instrument g.(short_instrument_name) in
  let* amount := text8 g.(Group.quantity) in
  let* price := text8 (short_close_price g reason short_instrument short_book) in
  if negb live then
    let* actions := preview g reason (leg_preview g.(short_instrument_name) amount price (short_close_label g) "buy") in ret (g, actions)
  else
    let* short := _close_leg_with_retry c.(legs) g.(short_instrument_name) g.(Group.quantity) "buy" (short_close_label g)
      (short_close_price g reason short_instrument short_book) reason g.(close_incomplete_streak) now_ms in
    if short.(unfilled) >? 0 then ret (note_incomplete reason short g, [incomplete_short g reason short])
    else after_short swept g reason now_ms short short_instrument short_book.
End Books.

(** ** The order of the legs *)

Section Order.
Context {D : Desk}.
Variables (c : desk_config) (swept : TradeGroup -> string -> TradeGroup).

Lemma quiet_order_trades response : quiet (_order_trades response).
Proof.
  destruct response; try apply quiet_ret. cbn [_order_trades]. apply quiet_bind; [apply quiet_lift|]. intros [|t ts]; [|apply quiet_ret].
  cbv zeta. destruct (is_empty _); [apply quiet_ret | apply quiet_lift].
Qed.

Lemma quiet_leg_trades responses : quiet (leg_trades responses).
Proof.
  induction responses as [|r rs IH]; [apply quiet_ret|]. destruct r; cbn [leg_trades]; try exact IH.
  apply quiet_bind; [apply quiet_order_trades|]. intros ts. apply quiet_bind; [exact IH | intros more; apply quiet_ret].
Qed.

Lemma quiet_collect_trades short response : quiet (_collect_close_trades short response).
Proof.
  apply quiet_bind; [apply quiet_leg_trades|]. intros ts. apply quiet_bind; [|intros us; apply quiet_ret].
  destruct response; try apply quiet_ret. apply quiet_bind; [apply quiet_lift | intros rs; apply quiet_leg_trades].
Qed.

Lemma quiet_mark_closed g reason ms debit fee pnl rm an idx : quiet (_mark_group_closed c g reason ms debit fee pnl rm an idx).
Proof.
  unfold _mark_group_closed. destruct pnl; [|apply quiet_ret]. apply quiet_bind; [|intros r; apply quiet_ret].
  apply quiet_bind; [apply quiet_lift|]. intros e. apply quiet_bind; [|intros i; apply quiet_ret].
  destruct (_ && _); [apply quiet_index_price | apply quiet_ret].
Qed.

Lemma quiet_close_books g reason px lpx b bk ms short response : quiet (close_books c swept g reason px lpx b bk ms short response).
Proof.
  apply quiet_bind; [apply quiet_lift|]. intros g'. apply quiet_bind; [apply quiet_mark_closed|]. intros g''.
  apply quiet_bind; [apply quiet_collect_trades | intros ts; apply quiet_ret].
Qed.

Lemma quiet_preview g reason p : quiet (preview c g reason p).
Proof.
  apply quiet_bind; [|intros l; apply quiet_ret]. destruct (truthy _); [|apply quiet_ret].
  apply quiet_bind; [apply quiet_get_orderbook|]. intros b. apply quiet_bind; [apply quiet_find_instrument|]. intros i.
  repeat (apply quiet_bind; [apply quiet_lift|]; intros ?). apply quiet_ret.
Qed.
End Order.

#[export] Hint Resolve quiet_order_trades quiet_leg_trades quiet_collect_trades quiet_mark_closed quiet_close_books quiet_preview : engine.

(** A leg that was closed entirely. *)
Definition leg_closed {X : Exchange} (c : close_config) (name : string) (quantity : Q) (direction label reason : string) : Prop :=
  exists price streak now_ms w w' r, _close_leg_with_retry c name quantity direction label price reason streak now_ms w = (w', Ret r) /\ r.(unfilled) <= 0.

Section Phases.
Context {D : Desk}.
Variables (c : desk_config) (swept : TradeGroup -> string -> TradeGroup) (g : TradeGroup) (reason : string).

Definition short_closed : Prop := leg_closed c.(legs) g.(short_instrument_name) g.(Group.quantity) "buy" (short_close_label c g) reason.
Definition long_closed : Prop := leg_closed c.(legs) g.(long_instrument_name) g.(Group.quantity) "sell" (long_close_label c g) reason.

Definition short_requests (w : runtime) : request -> Prop :=
  leg_request g.(short_instrument_name) "buy" (short_close_label c g) (leg_order_ids w g.(short_instrument_name) "buy" (short_close_label c g)).
Definition long_requests (w : runtime) : request -> Prop :=
  leg_request g.(long_instrument_name) "sell" (long_close_label c g) (leg_order_ids w g.(long_instrument_name) "sell" (long_close_label c g)).

(** From [w0] on, the short leg's requests, then the long leg's, these only once the
    short leg is closed. *)
Definition phased (w0 w : runtime) : Prop :=
  sends (short_requests w0) w0 w \/
  (truthy g.(long_instrument_name) = true /\ short_closed /\ exists w1, sends (short_requests w0) w0 w1 /\ sends (long_requests w0) w1 w).

Lemma known_ids w w' name direction label : w'.(open_orders) = w.(open_orders) -> leg_order_ids w' name direction label = leg_order_ids w name direction label.
Proof. intros E. unfold leg_order_ids. now rewrite E. Qed.

Lemma sends_step ok w w1 w2 : sends ok w w1 -> frame w1 w2 -> sends ok w w2.
Proof. intros S F. eapply sends_trans; [exact S | apply sends_frame, F]. Qed.

Lemma sends_open ok w w' : sends ok w w' -> w'.(open_orders) = w.(open_orders).
Proof. intros [K _]. apply K. Qed.

Lemma long_phase w now_ms short short_book b w9 : truthy g.(long_instrument_name) = true -> short_closed -> sends (short_requests w) w w9 ->
  phased w (fst (close_long_leg c swept g reason now_ms short short_book b w9)).
Proof.
  intros TL SC S. change (always (close_long_leg c swept g reason now_ms short short_book b) w9 (phased w)). unfold close_long_leg.
  apply always_step; [apply quiet_get_orderbook | intros w' F; left; exact (sends_step _ _ _ _ S F)|]. intros lb w8 _ F8.
  apply always_step; [apply quiet_find_instrument | intros w' F; left; exact (sends_step _ _ _ _ S (frame_trans _ _ _ F8 F))|]. intros li w1 _ F9.
  assert (S9 := sends_step _ _ _ _ S (frame_trans _ _ _ F8 F9)). clear S F8 F9. set (lp := close_sell_price _ _ _ _).
  set (leg := _close_leg_with_retry _ _ _ _ _ _ _ _ _).
  assert (L : sends (long_requests w) w1 (fst (leg w1))).
  { unfold long_requests. rewrite <- (known_ids w w1) by (eapply sends_open; exact S9). apply leg_sends. }
  assert (PL : forall w', frame (fst (leg w1)) w' -> phased w w').
  { intros w' F. right. split; [exact TL|]. split; [exact SC|]. exists w1. split; [exact S9 | exact (sends_step _ _ _ _ L F)]. }
  apply always_bind; [intros; apply PL, frame_refl | intros; apply PL, frame_refl|]. intros long RL. apply always_quiet; [|exact PL].
  destruct (dltb 0 long.(unfilled)); [apply quiet_ret|].
  apply quiet_bind; [apply quiet_find_instrument|]. intros i. apply quiet_bind; [apply quiet_get_orderbook|]. intros b'.
  apply quiet_bind; [apply quiet_order_trades|]. intros lts. apply quiet_bind; [apply quiet_lift|]. intros t. apply quiet_close_books.
Qed.

Lemma close_phased live now_ms w : phased w (fst (_close_group c swept g reason live now_ms w)).
Proof.
  change (always (_close_group c swept g reason live now_ms) w (phased w)). unfold _close_group.
  assert (F0 : forall w', frame w w' -> phased w w') by (intros w' F; left; now apply sends_frame).
  apply always_step; [apply quiet_get_orderbook | exact F0|]. intros sb w1 _ F1.
  apply always_step; [apply quiet_find_instrument | intros w' F; apply F0; eapply frame_trans; eassumption|]. intros si w2 _ F2.
  assert (F12 := frame_trans _ _ _ F1 F2). clear F1 F2.
  apply always_step; [apply quiet_lift | intros w' F; apply F0; eapply frame_trans; eassumption|]. intros amount w3 _ F3.
  assert (F13 := frame_trans _ _ _ F12 F3). clear F12 F3.
  apply always_step; [apply quiet_lift | intros w' F; apply F0; eapply frame_trans; eassumption|]. intros price w4 _ F4.
  assert (F14 := frame_trans _ _ _ F13 F4). clear F13 F4. destruct live; cbn [negb].
  2:{ apply always_quiet; [|intros w' F; apply F0; eapply frame_trans; eassumption]. apply quiet_bind; [apply quiet_preview | intros a; apply quiet_ret]. }
  set (bp := short_close_price _ _ _ _ _). set (leg := _close_leg_with_retry _ _ _ _ _ _ _ _ _).
  assert (S : sends (short_requests w) w (fst (leg w4))).
  { eapply sends_trans; [apply sends_frame; exact F14|]. unfold short_requests. rewrite <- (known_ids w w4) by apply F14. apply leg_sends. }
  apply always_bind; [intros; now left | intros; now left|]. intros short R.
  assert (P5 : forall w', frame (fst (leg w4)) w' -> phased w w') by (intros w' F; left; exact (sends_step _ _ _ _ S F)).
  destruct (dltb_spec 0 short.(unfilled)) as [U|U]; [apply always_quiet; [apply quiet_ret | exact P5]|].
  assert (SC : short_closed).
  { exists bp, g.(close_incomplete_streak), now_ms, w4, (fst (leg w4)), short. split; [|lra]. rewrite <- R. apply surjective_pairing. }
  apply always_step; [apply quiet_leg_trades | exact P5|]. intros ts w6 _ F6.
  apply always_step; [apply quiet_lift | intros w' F; apply P5; eapply frame_trans; eassumption|]. intros t w7 _ F7.
  assert (F57 := frame_trans _ _ _ F6 F7). clear F6 F7. destruct (truthy g.(long_instrument_name)) eqn:TL; cbn [negb].
  - apply long_phase; [exact TL | exact SC | exact (sends_step _ _ _ _ S F57)].
  - apply always_quiet; [apply quiet_close_books | intros w' F; apply P5; eapply frame_trans; eassumption].
Qed.
End Phases.

(** ** What closing leaves unchanged

    [blind h]: no field the ledger writes is read by [h]. *)

Definition blind {T} (h : TradeGroup -> T) : Prop :=
  (forall v g, h (set_entry_fee_collateral v g) = h g) /\ (forall v g, h (set_entry_credit v g) = h g) /\
  (forall v g, h (set_original_entry_credit v g) = h g) /\ (forall v g, h (set_entry_fee v g) = h g) /\
  (forall v g, h (set_current_debit v g) = h g) /\ (forall v g, h (set_current_close_fee_collateral v g) = h g) /\
  (forall v g, h (set_current_close_fee v g) = h g) /\ (forall v g, h (set_realized_close_debit v g) = h g) /\
  (forall v g, h (set_realized_close_fee v g) = h g) /\ (forall v g, h (set_close_fee_collateral v g) = h g) /\
  (forall v g, h (set_close_index_usd v g) = h g) /\ (forall v g, h (set_short_close_average_price v g) = h g) /\
  (forall v g, h (set_short_entry_average_price v g) = h g) /\ (forall v g, h (set_entry_index_usd v g) = h g).

Section Blind.
Context {T : Type} (h : TradeGroup -> T) (B : blind h).

(** Setters peel off, conditions and options split. *)
Ltac peel :=
  repeat first
  [ reflexivity
  | match goal with
    | |- context [if ?b then _ else _] => destruct b
    | |- context [match ?o with Some _ => _ | None => _ end] => destruct o
    end
  | match goal with H : forall v g, h _ = h g |- _ => rewrite H end ].

Lemma infer_blind g : h (infer_indices_from_fill_prices g) = h g.
Proof. pose proof B as Bs. destruct Bs as (? & ? & ? & ? & ? & ? & ? & ? & ? & ? & ? & ? & ? & ?). unfold infer_indices_from_fill_prices. peel. Qed.

Lemma entry_amount_blind g : h (fst (entry_amount_native g)) = h g.
Proof.
  unfold entry_amount_native, _ledger_entry_amount_from_close_index. pose proof (infer_blind g) as I.
  destruct (_premium_native_from_price _ _ _ _); [reflexivity|]. destruct g.(realized_close_debit); [|reflexivity].
  destruct (_resolved_index_usd [_; _]); [|exact I]. destruct (dleb _ 0); exact I.
Qed.

Lemma exit_amount_blind g : h (fst (exit_amount_native g)) = h g.
Proof.
  unfold exit_amount_native, _ledger_exit_amount_from_entry_index. pose proof (infer_blind g) as I.
  destruct (_premium_native_from_price _ _ _ _); [reflexivity|]. destruct g.(realized_close_debit); [|reflexivity].
  destruct (_resolved_index_usd [_; _] ) eqn:E; [|exact I]. destruct (dleb _ 0); exact I.
Qed.

Lemma pnl_native_blind g idx : h (fst (compute_realized_pnl_native g idx)) = h g.
Proof.
  unfold compute_realized_pnl_native. destruct (negb _); [reflexivity|]. pose proof (entry_amount_blind g) as E.
  destruct (entry_amount_native g) as [g1 e]. cbn [fst] in E. pose proof (exit_amount_blind g1) as X. destruct (exit_amount_native g1) as [g2 x].
  cbn [fst] in *. congruence.
Qed.

Lemma backfill_ledger_blind g : h (fst (backfill_coin_collateral_ledger g)) = h g.
Proof.
  pose proof B as Bs. destruct Bs as (? & ? & ? & ? & ? & ? & ? & ? & ? & ? & ? & ? & ? & ?).
  unfold backfill_coin_collateral_ledger. destruct (is_coin_collateral g) eqn:K; [|reflexivity]. cbn [negb].
  destruct (dleb_spec g.(Group.quantity) 0) as [Q0|Q0]; [reflexivity|].
  pose proof (backfill_entry_frame h g) as E. pose proof (backfill_entry_frame Group.quantity g) as Eq.
  pose proof (backfill_entry_frame is_coin_collateral g) as Ek.
  destruct (backfill_entry g) as [g1 b1]. cbn [fst] in *.
  rewrite <- E by auto. rewrite <- Eq in Q0 by reflexivity. rewrite <- Ek in K by reflexivity. apply Qnot_le_lt in Q0.
  pose proof (backfill_close_frame g1 K Q0 h) as C. destruct (backfill_close g1). cbn [fst] in *. auto 20.
Qed.

Lemma ledger_spot_blind g idx : h (enrich_fill_prices_from_ledger_spot g idx) = h g.
Proof.
  pose proof B as Bs. destruct Bs as (? & ? & ? & ? & ? & ? & ? & ? & ? & ? & ? & ? & ? & ?).
  unfold enrich_fill_prices_from_ledger_spot. destruct (_ || _ || _); [reflexivity|]. cbv zeta. rewrite infer_blind. peel.
Qed.

Lemma coin_profit_blind g allow : h (fst (compute_coin_profit_native g allow)) = h g.
Proof.
  unfold compute_coin_profit_native. destruct (negb _); [reflexivity|]. pose proof (backfill_ledger_blind g) as E.
  destruct (backfill_coin_collateral_ledger g) as [g1 b]. cbn [fst] in E. pose proof (pnl_native_blind g1 None) as P.
  destruct (compute_realized_pnl_native g1 None) as [g2 [n|]]; cbn [fst] in *; [congruence|].
  destruct (negb allow); [cbn [fst]; congruence|]. destruct (_resolved_index_usd _); [|cbn [fst]; congruence].
  rewrite pnl_native_blind, ledger_spot_blind. congruence.
Qed.
End Blind.

Lemma status_blind : blind Group.status.
Proof. repeat split. Qed.

(** *** The coin profit of a short that is bought back *)

Section CoinBooks.
Variables (g : TradeGroup) (px idx fee : Q).
Hypothesis coin : is_coin_collateral g = true.
Hypothesis naked : truthy g.(long_instrument_name) = false.
Hypothesis Pq : 0 < g.(Group.quantity).
Hypothesis Pe : 0 < g.(short_entry_average_price).
Hypothesis Pi : 0 < g.(entry_index_usd).
Hypothesis Pf : 0 < g.(Group.entry_fee_collateral).
Hypothesis Px : 0 < px.
Hypothesis Pc : 0 < fee.
Hypothesis charged : g.(close_fee_collateral) = Some fee.
Hypothesis bought : g.(short_close_average_price) = Some px.

(** Premium received, less premium paid, less both fees. *)
Definition coin_profit (g : TradeGroup) (px fee : Q) : Q :=
  ((g.(short_entry_average_price) ⊗ g.(Group.quantity)) ⊖ (px ⊗ g.(Group.quantity))) ⊖ (0 ⊕ g.(Group.entry_fee_collateral) ⊕ fee).

Lemma coin_pnl : compute_realized_pnl_native g None = (g, Some (coin_profit g px fee)).
Proof.
  unfold compute_realized_pnl_native. rewrite coin. cbn [negb].
  assert (G : _coin_gross_entry_native g = Some (g.(short_entry_average_price) ⊗ g.(Group.quantity))).
  { unfold _coin_gross_entry_native. rewrite naked. cbn [andb]. destruct (dleb_spec g.(short_entry_average_price) 0); [lra|].
    destruct (dleb_spec g.(Group.quantity) 0); [lra | reflexivity]. }
  rewrite (entry_amount_of_gross g _ G), (exit_amount_of_gross g px Pq bought Px).
  assert (X : exit_gross g px = px ⊗ g.(Group.quantity)) by (unfold exit_gross; rewrite naked; reflexivity). rewrite X.
  unfold fees_native, resolved_entry_fee_collateral, resolved_close_fee_collateral. rewrite coin, charged. cbn [negb opt_pos].
  replace (g.(Group.entry_fee_collateral) >? 0) with true by (symmetry; now apply dltb_true).
  replace (fee >? 0) with true by (symmetry; now apply dltb_true). reflexivity.
Qed.
End CoinBooks.

(** The books of a bought-back short: what [_close_group] has written on the group. *)
Record coin_closed (g g' : TradeGroup) (px idx fee debit : Q) : Prop := {
  cc_status : g'.(Group.status) = "closed"%string;
  cc_price : g'.(short_close_average_price) = Some px;
  cc_index : g'.(close_index_usd) = Some idx;
  cc_fee : g'.(close_fee_collateral) = Some fee;
  cc_debit : g'.(realized_close_debit) = Some debit;
  cc_native : g'.(realized_pnl_collateral_native) = Some (coin_profit g px fee);
  cc_usdc : g'.(realized_pnl) = Some (entry_credit_net_usdc g ⊖ debit);
  cc_backfill : backfill_realized_pnl_usdc g' (Some idx) = Ret (set_realized_pnl (Some (coin_profit g px fee ⊗ idx)) g');
}.

Lemma backfill_open h spot : h.(Group.status) = "open"%string -> backfill_realized_pnl_usdc h spot = Ret h.
Proof. intros O. unfold backfill_realized_pnl_usdc, backfill_fuel. cbn [backfill_realized_pnl_usdc_fuel]. now rewrite O. Qed.

Lemma backfill_closed_coin h n spot : h.(Group.status) = "closed"%string -> is_coin_collateral h = true ->
  h.(realized_pnl_collateral_native) = Some n -> 0 < spot ->
  backfill_realized_pnl_usdc h (Some spot) = Ret (set_realized_pnl (Some (n ⊗ spot)) h).
Proof.
  intros C K N P. unfold backfill_realized_pnl_usdc, backfill_fuel. cbn [backfill_realized_pnl_usdc_fuel]. rewrite C, K, N.
  unfold usable_spot. cbn [opt_pos]. now rewrite (proj2 (dltb_true _ _) P).
Qed.

Lemma lift_inv {A} (o : outcome A) w w' a : lift o w = (w', Ret a) -> o = Ret a.
Proof. intros E. injection E as _ E. exact E. Qed.

Lemma ret_inv {A} (a b : A) w w' : ret a w = (w', Ret b) -> a = b.
Proof. intros E. injection E as _ E. exact E. Qed.

Lemma Ret_inj {A} (a b : A) : Ret a = Ret b -> a = b.
Proof. intros E. injection E as E. exact E. Qed.

Section ClosedCoin.
Context {D : Desk}.
Variables (c : desk_config) (g : TradeGroup).
Hypothesis coin : mem_str (upper g.(Group.collateral_currency)) ["BTC"%string; "ETH"%string] = true.
Hypothesis naked : truthy g.(long_instrument_name) = false.
Hypothesis opened : g.(Group.status) = "open"%string.
Hypothesis unrealized : g.(realized_pnl) = None.
Hypothesis Pq : 0 < g.(Group.quantity).
Hypothesis Pe : 0 < g.(short_entry_average_price).
Hypothesis Pi : 0 < g.(entry_index_usd).
Hypothesis Pf : 0 < g.(Group.entry_fee_collateral).

Lemma book_nonempty : g.(Group.collateral_currency) <> EmptyString.
Proof. intros E. rewrite E in coin. discriminate. Qed.

Lemma str_or_full a b : a <> EmptyString -> str_or a b = a.
Proof. destruct a; [contradiction | reflexivity]. Qed.

Lemma coin_is_coin h : h.(Group.collateral_currency) = g.(Group.collateral_currency) -> is_coin_collateral h = true.
Proof. intros E. unfold is_coin_collateral, collateral_book. rewrite E, str_or_full by exact book_nonempty. exact coin. Qed.

Lemma coin_not_usdc h : h.(Group.collateral_currency) = g.(Group.collateral_currency) -> String.eqb (upper (_group_collateral_currency h)) "USDC" = false.
Proof.
  intros E. unfold _group_collateral_currency. rewrite E, str_or_full by exact book_nonempty.
  destruct (String.eqb_spec (upper g.(Group.collateral_currency)) "USDC") as [U|]; [|reflexivity]. rewrite U in coin. discriminate.
Qed.

(** The assignments of the close, before the profit is computed. *)
Definition priced_at (px idx : Q) (g : TradeGroup) : TradeGroup :=
  set_close_index_usd (Some idx) (set_entry_index_usd g.(entry_index_usd) (set_short_close_average_price (Some px)
    (set_short_entry_average_price g.(short_entry_average_price) (set_close_index_usd (Some idx) (set_short_close_average_price (Some px) g))))).

Lemma coin_profit_priced px idx fee : coin_profit (priced_at px idx g) px fee = coin_profit g px fee.
Proof.
  unfold coin_profit. change (short_entry_average_price (priced_at px idx g)) with g.(short_entry_average_price).
  change (Group.quantity (priced_at px idx g)) with g.(Group.quantity).
  change (Group.entry_fee_collateral (priced_at px idx g)) with g.(Group.entry_fee_collateral). reflexivity.
Qed.

Lemma finalize_coin px idx fee pnl : 0 < px -> 0 < idx -> 0 < fee -> g.(close_fee_collateral) = Some fee ->
  g.(Group.long_entry_average_price) <= 0 ->
  _finalize_close_collateral_native g pnl px idx None = Ret (set_realized_pnl_collateral_native (Some (coin_profit g px fee)) (priced_at px idx g)).
Proof.
  intros Px Pidx Pc F L. unfold _finalize_close_collateral_native, _compute_realized_pnl_collateral_native. cbv zeta.
  set (h := set_close_index_usd _ _). assert (Eh : resolved_short_entry_price h = g.(short_entry_average_price)).
  { unfold resolved_short_entry_price. change h.(short_entry_average_price) with g.(short_entry_average_price). now rewrite (proj2 (dltb_true _ _) Pe). }
  change h.(entry_index_usd) with g.(entry_index_usd). rewrite (proj2 (dltb_true _ _) Pi), Eh, coin_not_usdc by reflexivity.
  change h.(Group.long_entry_average_price) with g.(Group.long_entry_average_price). unfold pos_opt.
  rewrite (proj2 (dltb_true _ _) Pe), (proj2 (dltb_true _ _) Px), (proj2 (dltb_true _ _) Pidx).
  rewrite (proj2 (dltb_true _ _) Pi). destruct (dltb_spec 0 g.(Group.long_entry_average_price)); [lra|].
  change (set_close_index_usd (Some idx) (set_entry_index_usd (entry_index_usd g) (set_short_close_average_price (Some px)
    (set_short_entry_average_price (short_entry_average_price g) h)))) with (priced_at px idx g).
  rewrite (coin_pnl (priced_at px idx g) px fee); [|now apply coin_is_coin | assumption..| exact F | reflexivity].
  rewrite coin_profit_priced, coin_not_usdc by reflexivity.
  apply backfill_open. exact opened.
Qed.

Lemma mark_known h n reason ms debit fee pnl rm idx w w' g' : h.(realized_pnl_collateral_native) = Some n -> is_usdc_book h = false ->
  _mark_group_closed c h reason ms debit fee (Some pnl) rm None idx w = (w', Ret g') ->
  exists equity apr, g' = set_realized_annualized_return (Some apr) (set_realized_apr_on_equity (Some apr) (set_close_book_equity (Some equity)
    (marked h reason ms debit fee (Some pnl) rm))).
Proof.
  intros N U E. apply bind_inv in E. destruct E as (w1 & [[g1 eq] apr] & E1 & E). apply ret_inv in E.
  apply bind_inv in E1. destruct E1 as (w2 & ce & _ & E1). apply bind_inv in E1. destruct E1 as (w3 & ix & _ & E1). apply ret_inv in E1.
  set (m := marked _ _ _ _ _ _ _) in E1. apply (f_equal (fun t => fst (fst t))) in E1. cbn [fst] in E1. unfold pnl_for_apr in E1.
  change (realized_pnl_collateral_native m) with h.(realized_pnl_collateral_native) in E1. rewrite N in E1.
  change (is_usdc_book m) with (is_usdc_book h) in E1. rewrite U in E1. cbn [fst] in E1. subst g1. exists eq, apr. now rewrite <- E.
Qed.

Lemma finalize_again px idx pnl l :
  _finalize_close_collateral_native (set_short_close_average_price (Some px) g) pnl px idx l = _finalize_close_collateral_native g pnl px idx l.
Proof.
  unfold _finalize_close_collateral_native. cbv zeta.
  change (set_short_close_average_price (Some px) (set_short_close_average_price (Some px) g)) with (set_short_close_average_price (Some px) g).
  reflexivity.
Qed.

Lemma net_credit_again px : entry_credit_net_usdc (set_short_close_average_price px g) = entry_credit_net_usdc g.
Proof. reflexivity. Qed.

Lemma close_books_coin px fee b book short response now_ms reason swept w w' g' acts : (forall h r, swept h r = h) ->
  0 < px -> 0 < book.(index_price) -> 0 < fee -> g.(close_fee_collateral) = Some fee -> g.(Group.long_entry_average_price) <= 0 ->
  close_books c swept g reason px None book b now_ms short response w = (w', Ret (g', acts)) ->
  coin_closed g g' px book.(index_price) fee b.(close_debit).
Proof.
  intros Sw Px Pidx Pc F L E. apply bind_inv in E. destruct E as (w1 & g1 & E1 & E). apply lift_inv in E1. rewrite finalize_again in E1.
  rewrite (finalize_coin px book.(index_price) fee) in E1 by assumption. apply Ret_inj in E1.
  apply bind_inv in E. destruct E as (w2 & g2 & E2 & E). apply bind_inv in E. destruct E as (w3 & ts & _ & E).
  apply ret_inv in E. rewrite !Sw in E. apply (f_equal fst) in E. cbn [fst] in E. subst g2.
  assert (R1 : g1.(realized_pnl) = None) by (rewrite <- E1; exact unrealized).
  assert (N1 : g1.(realized_pnl_collateral_native) = Some (coin_profit g px fee)) by (rewrite <- E1; reflexivity).
  assert (C1 : g1.(Group.collateral_currency) = g.(Group.collateral_currency)) by (rewrite <- E1; reflexivity).
  assert (F1 : g1.(close_fee_collateral) = Some fee) by (rewrite <- F, <- E1; reflexivity).
  assert (X1 : g1.(short_close_average_price) = Some px) by (rewrite <- E1; reflexivity).
  assert (I1 : g1.(close_index_usd) = Some book.(index_price)) by (rewrite <- E1; reflexivity). clear E1.
  assert (P1 : pnl_or g1 (close_pnl g b) = close_pnl g b) by (unfold pnl_or; now rewrite R1).
  destruct (mark_known _ _ _ _ _ _ _ _ _ _ _ _ N1 (coin_not_usdc g1 C1) E2) as (eq & apr & ->). rewrite P1.
  split; [reflexivity | exact X1 | exact I1 | exact F1 | reflexivity | exact N1 | reflexivity |].
  apply backfill_closed_coin; [reflexivity | now apply coin_is_coin | exact N1 | exact Pidx].
Qed.
End ClosedCoin.

(** *** What a close returns *)

Section Results.
Context {D : Desk}.
Variables (c : desk_config) (swept : TradeGroup -> string -> TradeGroup).
Hypothesis swept_status : forall g r, (swept g r).(Group.status) = g.(Group.status).

Lemma apr_status g p ix : Group.status (fst (pnl_for_apr g p ix)) = g.(Group.status).
Proof.
  unfold pnl_for_apr, _realized_pnl_native_for_apr_book. pose proof (coin_profit_blind Group.status status_blind g (0 <? ix)) as B.
  destruct (realized_pnl_collateral_native g); [destruct (is_usdc_book g); [|reflexivity]|].
  all: destruct (String.eqb _ _); try reflexivity; destruct (compute_coin_profit_native g (0 <? ix)); exact B.
Qed.

Lemma snapshot_status h p ms idx w w' t : _snapshot_close_apr_on_equity c h p ms idx w = (w', Ret t) -> (fst (fst t)).(Group.status) = h.(Group.status).
Proof.
  intros E. apply bind_inv in E. destruct E as (w5 & ce & _ & E). apply bind_inv in E. destruct E as (w6 & ix & _ & E). apply ret_inv in E.
  rewrite <- E. cbn [fst]. apply apr_status.
Qed.

Lemma mark_closed h reason ms debit fee p rm an idx w w' g' :
  _mark_group_closed c h reason ms debit fee (Some p) rm an idx w = (w', Ret g') -> g'.(Group.status) = "closed"%string.
Proof.
  intros E. apply bind_inv in E. destruct E as (w4 & [[g3 eq] apr] & E3 & E2). apply ret_inv in E2. subst g'.
  apply snapshot_status in E3. exact E3.
Qed.

Lemma close_books_closed g reason px lpx book b ms short response w w' g' acts :
  close_books c swept g reason px lpx book b ms short response w = (w', Ret (g', acts)) -> g'.(Group.status) = "closed"%string.
Proof.
  intros E. apply bind_inv in E. destruct E as (w1 & g1 & _ & E). apply bind_inv in E. destruct E as (w2 & g2 & E2 & E).
  apply bind_inv in E. destruct E as (w3 & ts & _ & E). apply ret_inv in E. apply (f_equal fst) in E. cbn [fst] in E. subst g'.
  rewrite swept_status. exact (mark_closed _ _ _ _ _ _ _ _ _ _ _ _ E2).
Qed.

(** A group that a close gives back: left as it was but for a note of the attempt, or
    closed with both legs closed. *)
Definition close_outcome (g : TradeGroup) (reason : string) (live : bool) (g' : TradeGroup) : Prop :=
  (live = false /\ g' = g) \/
  (exists r, 0 < r.(unfilled) /\ g' = note_incomplete c reason r g) \/
  (g'.(Group.status) = "closed"%string /\ short_closed c g reason /\ (truthy g.(long_instrument_name) = true -> long_closed c g reason)).

Lemma long_outcome g reason ms short book b w w' g' acts : truthy g.(long_instrument_name) = true -> short_closed c g reason ->
  close_long_leg c swept g reason ms short book b w = (w', Ret (g', acts)) -> close_outcome g reason true g'.
Proof.
  intros TL SC E. apply bind_inv in E. destruct E as (w1 & lb & _ & E). apply bind_inv in E. destruct E as (w2 & li & _ & E).
  apply bind_inv in E. destruct E as (w3 & long & EL & E). destruct (dltb_spec 0 long.(unfilled)) as [U|U].
  { apply ret_inv in E. apply (f_equal fst) in E. cbn [fst] in E. right. left. exists long. split; [exact U | now symmetry]. }
  right. right. split; [|split; [exact SC|]].
  - apply bind_inv in E. destruct E as (w4 & i & _ & E). apply bind_inv in E. destruct E as (w5 & b' & _ & E).
    apply bind_inv in E. destruct E as (w6 & ts & _ & E). apply bind_inv in E. destruct E as (w7 & n & _ & E). exact (close_books_closed _ _ _ _ _ _ _ _ _ _ _ _ _ E).
  - intros _. eexists _, _, _, _, _, _. split; [exact EL | lra].
Qed.

Lemma close_group_outcome g reason live ms w w' g' acts :
  _close_group c swept g reason live ms w = (w', Ret (g', acts)) -> close_outcome g reason live g'.
Proof.
  intros E. apply bind_inv in E. destruct E as (w1 & sb & _ & E). apply bind_inv in E. destruct E as (w2 & si & _ & E).
  apply bind_inv in E. destruct E as (w3 & am & _ & E). apply bind_inv in E. destruct E as (w4 & pr & _ & E). destruct live; cbn [negb] in E.
  2:{ apply bind_inv in E. destruct E as (w5 & a & _ & E). apply ret_inv in E. apply (f_equal fst) in E. left. now split. }
  apply bind_inv in E. destruct E as (w5 & short & ES & E). destruct (dltb_spec 0 short.(unfilled)) as [U|U].
  { apply ret_inv in E. apply (f_equal fst) in E. right. left. exists short. split; [exact U | now symmetry]. }
  assert (SC : short_closed c g reason) by (eexists _, _, _, _, _, _; split; [exact ES | lra]).
  apply bind_inv in E. destruct E as (w6 & ts & _ & E). apply bind_inv in E. destruct E as (w7 & t & _ & E).
  destruct (truthy g.(long_instrument_name)) eqn:TL; cbn [negb] in E; [exact (long_outcome _ _ _ _ _ _ _ _ _ _ TL SC E)|].
  right. right. split; [exact (close_books_closed _ _ _ _ _ _ _ _ _ _ _ _ _ E)|]. split; [exact SC | intros H; congruence].
Qed.
End Results.


Lemma coin_closed_fee g g' px idx fee debit x : coin_closed (with_close_fee x g) g' px idx fee debit -> coin_closed g g' px idx fee debit.
Proof. intros [A B C E F G H I]. split; assumption. Qed.

(** Buying back a coin short books the coin profit right and the USDC profit at the
    wrong index. The coin profit is the premium received less the premium paid less both
    fees, and the close debit what was paid at the index of the close; but the group is
    still open when the profit is to be restated at that index, so the restatement does
    nothing: the USDC profit stays the credit at the entry index less the debit at the
    close index, and the first backfill afterwards changes it to the coin profit times
    the index. *)
Theorem coin_close_misstates_usdc (D : Desk) c swept g reason now_ms book i short trades debit fee_usdc fee w w0 w1 w2 w3 w' g' acts :
  (forall h r, swept h r = h) -> mem_str (upper g.(Group.collateral_currency)) ["BTC"%string; "ETH"%string] = true ->
  truthy g.(long_instrument_name) = false -> g.(Group.status) = "open"%string -> g.(realized_pnl) = None -> 0 < g.(Group.quantity) ->
  0 < g.(short_entry_average_price) -> 0 < g.(entry_index_usd) -> 0 < g.(Group.entry_fee_collateral) -> g.(Group.long_entry_average_price) <= 0 ->
  _get_orderbook g.(short_instrument_name) w = (w0, Ret book) -> _find_instrument g.(short_instrument_name) w0 = (w1, Ret i) -> usdc_linear i = false ->
  _close_leg_with_retry c.(legs) g.(short_instrument_name) g.(Group.quantity) "buy" (short_close_label c g) (short_close_price c g reason i book) reason
    g.(close_incomplete_streak) now_ms w1 = (w2, Ret short) -> short.(unfilled) <= 0 -> leg_trades short.(responses) w2 = (w3, Ret trades) ->
  let px := short.(leg_average_price) in
  let idx := book.(index_price) in
  _close_short_ledger c px g.(Group.quantity) idx trades i g.(Group.collateral_currency) now_ms = Ret (debit, fee_usdc, fee) ->
  0 < px -> 0 < idx -> 0 < fee -> _close_group c swept g reason true now_ms w = (w', Ret (g', acts)) ->
  debit = ((px ⊗ g.(Group.quantity)) ⊕ (1 ⊗ fee)) ⊗ idx /\ coin_closed g g' px idx fee debit.
Proof.
  cbv zeta. intros Sw K N O U Pq Pe Pi Pf L E1 E2 NU ES Un ET EL Px Pidx Pc E. apply bind_inv in E. destruct E as (w4 & sb & X1 & E).
  rewrite E1 in X1. injection X1 as <- <-. apply bind_inv in E. destruct E as (w4 & si & X2 & E). rewrite E2 in X2. injection X2 as <- <-.
  apply bind_inv in E. destruct E as (w4 & am & X3 & E). unfold text8, lift in X3. injection X3 as <- _.
  apply bind_inv in E. destruct E as (w4 & pr & X4 & E). unfold text8, lift in X4. injection X4 as <- _. cbn [negb] in E.
  apply bind_inv in E. destruct E as (w5 & sh & X5 & E). rewrite ES in X5. injection X5 as <- <-.
  destruct (dltb_spec 0 short.(unfilled)) as [Bad|_]; [lra|].
  apply bind_inv in E. destruct E as (w6 & ts & X6 & E). rewrite ET in X6. injection X6 as <- <-.
  apply bind_inv in E. destruct E as (w7 & t & X7 & E). apply lift_inv in X7. rewrite EL in X7. apply Ret_inj in X7. subst t.
  rewrite N in E. cbn [negb booked_of close_debit close_fee fee_collateral] in E. split.
  - unfold _close_short_ledger, _short_leg_ledger in EL. rewrite NU in EL. cbn [orb] in EL.
    destruct (String.eqb_spec (upper g.(Group.collateral_currency)) "USDC") as [Bad|_]; [rewrite Bad in K; discriminate|].
    apply obind_inv in EL. destruct EL as (f & _ & EL). destruct (dleb_spec (index_price book) 0); [lra|]. apply Ret_inj in EL. now injection EL as <- _ <-.
  - apply (coin_closed_fee _ _ _ _ _ _ fee).
    exact (close_books_coin c (with_close_fee fee g) K N O U Pq Pe Pi Pf _ _ _ _ _ _ _ _ _ _ _ _ _ Sw Px Pidx Pc eq_refl L E).
Qed.

(** ** Samples *)

Definition sample_engine_config : engine_config := {|
  order_label_prefix := "opt"; managed_currencies := ["BTC"%string]; enable_perp_hedge := false; per_position_hedge := false;
  hedge_first_on_hard := false; hedge_giveup_loss_pct := 0; soft_hedge_neutralize_pct := 0.7; soft_hedge_delta_cap_pct := 0.1;
  hard_hedge_delta_cap_pct := 0.05; hedge_unwind_recovery_cycles := 2; recovery_normal_cycles := 3; defense_confirm_cycles := 2;
  hedge_reconcile_deadband_btc := 0.002; hedge_reconcile_deadband_eth := 0.02; hedge_order_type := "market";
  hedge_limit_slippage_pct := 0.005; hedge_maker_max_cycles := 12; reference_capital_usdc := 10000 |}.

Definition sample_desk_config : desk_config := {|
  engine := sample_engine_config; legs := sample_close; option_strategy := "naked_short"; option_fee_rate := 0.0003; option_fee_cap_rate := 0.125 |}.

(** Orders fill entirely at 0.005 for a fee of 0.0003 BTC; the index is at 70000. *)
#[local] Instance sample_desk : Desk := {|
  desk_exchange := {|
    reply h r := match r with
      | PlaceOrder o => Ret (PDict [("order"%string, PDict [("order_state"%string, PStr "filled"); ("filled_amount"%string, PDec o.(req_amount));
                                                            ("average_price"%string, PStr "0.005")]);
                                    ("trades"%string, PList [PDict [("fee"%string, PStr "0.0003"); ("fee_currency"%string, PStr "BTC")]])])
      | _ => Ret (PDict [])
      end;
    get_order_book name := Ret (fun key => if String.eqb key "best_ask_price" then PStr "0.005" else if String.eqb key "best_bid_price" then PStr "0.0045"
      else if String.eqb key "index_price" then PStr "70000" else PNone);
    get_index_price name := Exn ValueError;
    _fetch_option_instrument_metadata name := None |};
  get_user_trades_by_order id := Ret [];
  account_equity := Ret [("BTC"%string, 2)];
  get_instrument name := Exn ValueError;
  _option_fee_discount_rate_at t := 0 |}.

Definition sample_long : OptionInstrument := {|
  instrument_name := "BTC-27JUN25-80000-P"; base_currency := "BTC"; quote_currency := "BTC"; settlement_currency := "BTC";
  instrument_type := "reversed"; tick_size := 0.0001; tick_size_steps := []; min_trade_amount := 0.1;
  instrument_contract_size := 1; instrument_option_type := "put"; instrument_expiration_ms := 0; instrument_strike := 80000; instrument_state := "open" |}.

Definition sample_held (name side : string) : Position := {|
  position_instrument_name := name; direction := side; position_kind := "option"; size := 1; size_currency := 0;
  position_mark_price := 0.005; average_price := 0.02; floating_profit_loss := 0; position_delta := 0.1; position_index_price := 70000;
  has_floating_profit_loss := false; floating_profit_loss_usd := 0; has_floating_profit_loss_usd := false |}.

Definition sample_desk_runtime : runtime := {|
  state := empty_state; open_orders := [];
  option_positions := [sample_held "BTC-27JUN25-90000-P" "sell"; sample_held "BTC-27JUN25-80000-P" "buy"]; future_positions := [];
  future_markets_by_name := []; markets_by_currency := [("BTC"%string, [sample_option; sample_long])]; orderbook_cache := [];
  _instrument_metadata_cache := []; requests := [] |}.

(** One contract sold at 0.02 with the index at 60000. *)
Definition sample_coin_short : TradeGroup :=
  set_status "open" (set_option_type "put" (set_short_instrument_name "BTC-27JUN25-90000-P" (set_long_instrument_name EmptyString
  (set_quantity 1 (set_collateral_currency "BTC" (set_currency "BTC" (set_short_entry_average_price 0.02 (set_entry_index_usd 60000
  (set_entry_fee_collateral 0.0003 (set_entry_fee 18 (set_entry_credit 1182 (set_realized_pnl None (set_long_entry_average_price 0
  (set_realized_pnl_collateral_native None sample_coin_group)))))))))))))).

Definition untouched (g : TradeGroup) (reason : string) : TradeGroup := g.

(** A profit of 0.0144 BTC at an index of 70000: 811 USDC are booked, a backfill says 1008. *)
Lemma coin_close_misstates_usdc_witness :
  exists w' g' acts, _close_group sample_desk_config untouched sample_coin_short "hard_stop" true 0 sample_desk_runtime = (w', Ret (g', acts)) /\
    option_map Qred g'.(realized_pnl) = Some 811 /\
    exists v, backfill_realized_pnl_usdc g' (Some 70000) = Ret (set_realized_pnl (Some v) g') /\ v == 1008.
Proof.
  pose (c := sample_desk_config). pose (g := sample_coin_short). pose (name := g.(short_instrument_name)). pose (w := sample_desk_runtime).
  pose (s0 := _get_orderbook name w). pose (book := match snd s0 with Ret b => b | _ => {| book_instrument_name := ""; best_bid_price := 0; best_bid_amount := 0;
    best_ask_price := 0; best_ask_amount := 0; mark_price := 0; index_price := 0; delta := 0; iv := 0; open_interest := 0 |} end).
  pose (s1 := _find_instrument name (fst s0)).
  pose (s2 := _close_leg_with_retry c.(legs) name g.(Group.quantity) "buy" (short_close_label c g) (short_close_price c g "hard_stop" sample_option book) "hard_stop"
    g.(close_incomplete_streak) 0 (fst s1)).
  pose (short := match snd s2 with Ret r => r | _ => leg_end false 0 fresh_progress end).
  pose (s3 := leg_trades short.(responses) (fst s2)). pose (trades := match snd s3 with Ret t => t | _ => [] end).
  pose (booked := _close_short_ledger c short.(leg_average_price) g.(Group.quantity) book.(index_price) trades sample_option g.(Group.collateral_currency) 0).
  pose (debit := match booked with Ret (d, _, _) => d | _ => 0 end). pose (fee_usdc := match booked with Ret (_, f, _) => f | _ => 0 end).
  pose (fee := match booked with Ret (_, _, f) => f | _ => 0 end).
  pose (run := _close_group c untouched g "hard_stop" true 0 w). pose (g' := match snd run with Ret (g, _) => g | _ => g end).
  pose (acts := match snd run with Ret (_, a) => a | _ => [] end).
  assert (E0 : s0 = (fst s0, Ret book)) by (vm_compute; reflexivity). assert (E1 : s1 = (fst s1, Ret sample_option)) by (vm_compute; reflexivity).
  assert (E2 : s2 = (fst s2, Ret short)) by (vm_compute; reflexivity). assert (E3 : s3 = (fst s3, Ret trades)) by (vm_compute; reflexivity).
  assert (E4 : booked = Ret (debit, fee_usdc, fee)) by (vm_compute; reflexivity). assert (Er : run = (fst run, Ret (g', acts))) by (vm_compute; reflexivity).
  assert (Pp : 0 < short.(leg_average_price)) by (vm_compute; reflexivity). assert (Pi : 0 < book.(index_price)) by (vm_compute; reflexivity).
  assert (Pf : 0 < fee) by (vm_compute; reflexivity). assert (Un : short.(unfilled) <= 0) by (vm_compute; discriminate).
  assert (L : g.(Group.long_entry_average_price) <= 0) by (vm_compute; discriminate).
  destruct (coin_close_misstates_usdc sample_desk c untouched g "hard_stop" 0 book sample_option short trades debit fee_usdc fee w (fst s0) (fst s1) (fst s2) (fst s3)
    (fst run) g' acts (fun h r => eq_refl) eq_refl eq_refl eq_refl eq_refl eq_refl eq_refl eq_refl eq_refl L E0 E1 eq_refl E2 Un E3 E4 Pp Pi Pf Er) as [_ C].
  exists (fst run), g', acts. split; [exact Er|]. split; [vm_compute; reflexivity|].
  exists (coin_profit g short.(leg_average_price) fee ⊗ 70000). split; [|vm_compute; reflexivity].
  assert (Ei : book.(index_price) = 70000) by (vm_compute; reflexivity). pose proof (cc_backfill _ _ _ _ _ _ C) as B. rewrite Ei in B. exact B.
Defined.

Definition sample_spread : TradeGroup := set_long_instrument_name "BTC-27JUN25-80000-P" (set_long_entry_average_price 0.008 sample_coin_short).

