(* ===== verification/NetHedge.v ===== *)
(** Currency-net hedging ([engine/hedge_management.py] and [engine/execution.py], where
    positions are not hedged one by one): the plan that brings a currency's delta under
    its cap, its execution, the unwinding on recovery and the flattening of a perp no
    option needs any more. *)

From S2P Require Import Prelude Dec PyStr Utils Group PyObj GroupJson StateJson Market VolMetrics EntryGates Runtime HedgeOrders Hedge.
Local Open Scope Q_scope.
Local Open Scope dec_scope.
Local Open Scope bool_scope.
Local Open Scope run_scope.
Local Open Scope list_scope.

Record HedgePlan : Type := {
  plan_currency : string;
  plan_mode : string;
  plan_instrument_name : string;
  side : string;
  delta_change_base : Q;
  plan_order_amount : Q;
  target_delta_cap_base : Q;
  current_delta_base : Q;
  current_hedge_base : Q;
  target_hedge_base : Q;
  note : string;
}.

Definition plan_to_dict (p : HedgePlan) : pyobj :=
  PDict [("currency"%string, PStr p.(plan_currency)); ("mode"%string, PStr p.(plan_mode)); ("instrument_name"%string, PStr p.(plan_instrument_name));
    ("side"%string, PStr p.(side)); ("delta_change_base"%string, PDec p.(delta_change_base)); ("order_amount"%string, PDec p.(plan_order_amount));
    ("target_delta_cap_base"%string, PDec p.(target_delta_cap_base)); ("current_delta_base"%string, PDec p.(current_delta_base));
    ("current_hedge_base"%string, PDec p.(current_hedge_base)); ("target_hedge_base"%string, PDec p.(target_hedge_base)); ("note"%string, PStr p.(note))].

(** [name.split("_")[0]] *)
Fixpoint before_underscore (s : string) : string :=
  match s with
  | EmptyString => EmptyString
  | String a r => if Ascii.eqb a "_"%char then EmptyString else String a (before_underscore r)
  end.

(** Where the hedge should be so that the options and it stay within the cap. *)
Definition capped_hedge (option_delta target_cap_base : Q) : option Q :=
  if option_delta >? target_cap_base then Some (target_cap_base ⊖ option_delta)
  else if option_delta <? rnd (- target_cap_base) then Some (rnd (- target_cap_base) ⊖ option_delta)
  else None.

Section NetHedge.
Context {X : Exchange}.
Variable c : engine_config.

Definition delta_of (snapshot : PortfolioSnapshot) (currency : string) : Q :=
  match dict_get currency snapshot.(delta_totals_by_currency) with Some d => d | None => 0 end.

Definition hedge_cap (snapshot : PortfolioSnapshot) (mode : string) (target_pct : option Q) (index_price : Q) : Q :=
  (_effective_capital c snapshot.(total_equity_usdc)
   ⊗ match target_pct with Some p => p | None => if String.eqb mode "hard" then c.(hard_hedge_delta_cap_pct) else c.(soft_hedge_delta_cap_pct) end)
  ⊘ index_price.

Definition plan_of (snapshot : PortfolioSnapshot) (currency mode : string) (cap current_hedge delta_change order_amount index_price : Q) : HedgePlan :=
  let side := if delta_change <? 0 then "sell"%string else "buy"%string in
  let realized_base := if _perp_uses_base_amount currency then order_amount else order_amount ⊘ index_price in
  let change := if String.eqb side "sell" then rnd (- realized_base) else realized_base in
  {| plan_currency := currency; plan_mode := mode; plan_instrument_name := _perp_instrument currency; side := side; delta_change_base := change;
     plan_order_amount := order_amount; target_delta_cap_base := cap; current_delta_base := delta_of snapshot currency;
     current_hedge_base := current_hedge; target_hedge_base := current_hedge ⊕ change; note := (mode ++ "_hedge")%string |}.

Definition _build_hedge_plan (snapshot : PortfolioSnapshot) (currency mode : string) (target_pct : option Q) : M (option HedgePlan) :=
  let* index_price := _currency_index_price currency in
  if index_price <=? 0 then ret None
  else
    let* positions := read future_positions in
    let cap := hedge_cap snapshot mode target_pct index_price in
    let current_hedge := _current_hedge_base positions currency in
    match capped_hedge (delta_of snapshot currency ⊖ current_hedge) cap with
    | None => ret None
    | Some target =>
        let delta_change := target ⊖ current_hedge in
        if dabs delta_change <=? 0.0001 then ret None
        else
          let* order_amount := _align_future_order_amount (_perp_instrument currency)
            (if _perp_uses_base_amount currency then dabs delta_change else dabs delta_change ⊗ index_price) in
          ret (if order_amount <=? 0 then None else Some (plan_of snapshot currency mode cap current_hedge delta_change order_amount index_price))
    end.

(** A maker order waits; any other type replaces the resting orders first. *)
Definition replace_resting (effective_type currency name : string) : M unit :=
  if negb (String.eqb effective_type "limit_maker") then let* _ := _cancel_open_hedge_orders c currency name true in ret tt else ret tt.

(** The fields that tell how the order went; an order that was not skipped ends the wait. *)
Definition placed (effective_type currency : string) (response : pyobj) : M action :=
  if is_skipped response then ret [("response"%string, response); ("skipped"%string, PBool true); ("skip_reason"%string, skip_reason_of response)]
  else
    let* _ := (if negb (String.eqb effective_type "limit_maker") then _reset_hedge_maker_wait currency else ret tt) in
    ret [("response"%string, response)].

Definition _execute_hedge_plan (p : HedgePlan) (live : bool) : M action :=
  let* effective_type := _resolve_hedge_order_type_for_currency c p.(plan_currency) in
  let* wait := read waits in
  let payload := [("action"%string, PStr "hedge"); ("plan"%string, plan_to_dict p); ("live"%string, PBool live); ("hedge_order_type"%string, PStr effective_type)]
    ++ (if String.eqb c.(hedge_order_type) "limit_maker" then [("hedge_maker_wait_cycles"%string, PInt (wait_of (upper p.(plan_currency)) wait))] else []) in
  if negb live then ret payload
  else
    let* _ := replace_resting effective_type p.(plan_currency) p.(plan_instrument_name) in
    let* response := _place_hedge_perp_order c p.(side) p.(plan_instrument_name) p.(plan_order_amount) (_hedge_label c p.(plan_currency) p.(plan_mode))
      (String.eqb p.(side) "buy" && (p.(current_hedge_base) <? 0)) effective_type in
    let* fields := placed effective_type p.(plan_currency) response in
    ret (payload ++ fields).

Definition _close_perp_position (p : Position) (live : bool) : M (option action) :=
  if p.(size) =? 0 then ret None
  else
    let currency := before_underscore p.(position_instrument_name) in
    let name := p.(position_instrument_name) in
    let* effective_type := _resolve_hedge_order_type_for_currency c currency in
    if negb live then
      ret (Some [("action"%string, PStr "close_perp_preview"); ("instrument_name"%string, PStr name); ("direction"%string, PStr p.(direction));
                 ("hedge_order_type"%string, PStr effective_type)])
    else
      let* _ := replace_resting effective_type currency name in
      let* response := _place_hedge_perp_order c (if String.eqb p.(direction) "sell" then "buy" else "sell") name (dabs p.(size))
        (_hedge_label c currency "close") true effective_type in
      if is_skipped response then
        ret (Some [("action"%string, PStr "close_perp"); ("instrument_name"%string, PStr name); ("skipped"%string, PBool true);
                   ("skip_reason"%string, skip_reason_of response); ("response"%string, response)])
      else
        let* _ := (if negb (String.eqb effective_type "limit_maker") then _reset_hedge_maker_wait currency else ret tt) in
        ret (Some [("action"%string, PStr "close_perp"); ("instrument_name"%string, PStr name); ("response"%string, response)]).

Definition _maybe_close_orphan_hedge (currency : string) (live : bool) : M (option action) :=
  let* s := read state in
  if existsb (fun g => String.eqb g.(Group.currency) currency) (_open_groups s) then ret None
  else
    let* positions := read future_positions in
    match find (fun p => String.eqb p.(position_instrument_name) (_perp_instrument currency) && negb (p.(size) =? 0)) positions with
    | None => ret None
    | Some p =>
        let* closed := _close_perp_position p live in
        ret (option_map (fun a => dict_set "currency"%string (PStr currency) (dict_set "reason"%string (PStr "orphan_hedge_no_open_options") a)) closed)
    end.

(** The live order of an unwinding, and its fields. *)
Definition unwind_order (currency : string) (amount : Q) (live : bool) : M action :=
  let* effective_type := _resolve_hedge_order_type_for_currency c currency in
  if negb live then ret [("hedge_order_type"%string, PStr effective_type)]
  else
    let* _ := replace_resting effective_type currency (_perp_instrument currency) in
    let* response := _place_hedge_perp_order c "buy" (_perp_instrument currency) amount (_hedge_label c currency "recovery") true effective_type in
    let* fields := placed effective_type currency response in
    ret (("hedge_order_type"%string, PStr effective_type) :: fields).

Definition _maybe_unwind_hedge (currency : string) (live : bool) : M (option action) :=
  let* s := read state in
  if (match dict_get currency s.(normal_recovery_counts) with Some n => n | None => 0%Z end <? c.(recovery_normal_cycles))%Z then ret None
  else
    let* positions := read future_positions in
    let current := _current_hedge_base positions currency in
    if current >=? 0 then ret None
    else
      let unwind_base := dabs current ⊘ 2 in
      if unwind_base <=? 0 then ret None
      else
        let* index_price := _currency_index_price currency in
        let uses_base := _perp_uses_base_amount currency in
        if negb uses_base && (index_price <=? 0) then ret None
        else
          let* amount := _align_future_order_amount (_perp_instrument currency) (if uses_base then unwind_base else unwind_base ⊗ index_price) in
          if amount <=? 0 then ret None
          else
            let* t_amount := text8 amount in
            let* t_base := text8 (if uses_base then amount else amount ⊘ index_price) in
            let* fields := unwind_order currency amount live in
            ret (Some ([("action"%string, PStr "hedge_unwind"); ("currency"%string, PStr currency); ("instrument_name"%string, PStr (_perp_instrument currency));
              ("amount"%string, t_amount); ("base_amount"%string, t_base); ("live"%string, PBool live)] ++ fields)).

(** Two groups of a currency that both ask for the net hedge in one cycle do this, in
    turn: [engine/group_exit.py], [_manage_group]. *)
Definition hedge_net (snapshot : PortfolioSnapshot) (currency mode : string) (target_pct : option Q) (live : bool) : M (list action) :=
  let* plan := _build_hedge_plan snapshot currency mode target_pct in
  match plan with
  | Some p => let* a := _execute_hedge_plan p live in ret [a]
  | None => ret []
  end.
End NetHedge.

(** ** One plan per group *)

Section Repeated.
Context {X : Exchange}.
Variables (c : engine_config) (snapshot : PortfolioSnapshot) (currency mode : string) (target_pct : option Q) (price : Q).
Hypothesis quoted : index_quote [(lower currency ++ "_usdc")%string; (lower currency ++ "_usd")%string] = Some price.

Lemma build_same w w' : w'.(future_positions) = w.(future_positions) -> w'.(future_markets_by_name) = w.(future_markets_by_name) ->
  fst (_build_hedge_plan c snapshot currency mode target_pct w') = w' /\
  snd (_build_hedge_plan c snapshot currency mode target_pct w') = snd (_build_hedge_plan c snapshot currency mode target_pct w).
Proof.
  intros P M. unfold _build_hedge_plan, _currency_index_price, _align_future_order_amount. rewrite quoted. cbv [bind ret read].
  destruct (dleb price 0); [now split|]. cbv beta. rewrite P. destruct (capped_hedge _ _); [|now split].
  destruct (dleb (dabs _) _); [now split|]. cbv beta. rewrite M. now split.
Qed.

(** The management of [n] groups of the currency that all ask for the net hedge. *)
Fixpoint hedge_each (n : nat) : M (list action) :=
  match n with
  | O => ret []
  | S n => let* a := hedge_net c snapshot currency mode target_pct true in let* r := hedge_each n in ret (a ++ r)
  end.

Variables (plan : HedgePlan) (book : OrderBookSnapshot).
Hypothesis market : c.(hedge_order_type) = "market"%string.
Hypothesis answers : forall h r, exists v, reply h r = Ret v.

Definition net_order : order_request := {|
  req_direction := plan.(side); req_instrument_name := plan.(plan_instrument_name); req_amount := plan.(plan_order_amount);
  req_label := _hedge_label c plan.(plan_currency) plan.(plan_mode); req_order_type := "market"; req_price := None; req_time_in_force := None;
  req_post_only := false; req_reject_post_only := false; req_reduce_only := String.eqb plan.(side) "buy" && (plan.(current_hedge_base) <? 0) |}.

(** Nothing rests on the book, the perp is listed and its book at hand. *)
Definition calm (w w0 : runtime) : Prop :=
  w.(future_positions) = w0.(future_positions) /\ w.(future_markets_by_name) = w0.(future_markets_by_name) /\
  dict_get plan.(plan_instrument_name) w.(orderbook_cache) = Some book /\ hedge_ids c plan.(plan_currency) plan.(plan_instrument_name) w = [].

Lemma resolve_market cur : _resolve_hedge_order_type_for_currency c cur = ret "market"%string.
Proof. unfold _resolve_hedge_order_type_for_currency. rewrite market. reflexivity. Qed.

Lemma replace_none cur name w : hedge_ids c cur name w = [] -> exists l, replace_resting c "market" cur name w = (set_open_orders l w, Ret tt) /\
  (forall cur name, hedge_ids c cur name w = [] -> hedge_ids c cur name (set_open_orders l w) = []).
Proof.
  intros Ids. unfold hedge_ids in Ids. apply map_eq_nil in Ids. unfold replace_resting, _cancel_open_hedge_orders, _open_hedge_orders.
  cbn [String.eqb Ascii.eqb Bool.eqb negb]. cbv [bind read ret modify]. rewrite Ids. cbn [collect map]. cbv [ret].
  eexists. split; [reflexivity|]. intros cur' name' I. unfold hedge_ids in *. cbn [set_open_orders open_orders].
  assert (F : forall l, filter (fun o : OpenOrder => negb (mem_str o.(order_id) [])) l = l) by (induction l as [|o l IH]; [reflexivity | cbn; now f_equal]).
  now rewrite F.
Qed.

Definition market_order (dir name label : string) (amount : Q) (ro : bool) : order_request := {|
  req_direction := dir; req_instrument_name := name; req_amount := amount; req_label := label; req_order_type := "market"; req_price := None;
  req_time_in_force := None; req_post_only := false; req_reject_post_only := false; req_reduce_only := ro |}.

Lemma place_market dir name amount label ro i w : dict_get name w.(future_markets_by_name) = Some i -> dict_get name w.(orderbook_cache) = Some book ->
  exists v, _place_hedge_perp_order c dir name amount label ro "market" w = (log_request (PlaceOrder (market_order dir name label amount ro)) w, Ret v).
Proof.
  intros I B. unfold _place_hedge_perp_order, _get_orderbook, place_hedge_perp_order, hedge_order_action_meta.
  change (normalize_hedge_order_type (str_or "market" c.(hedge_order_type))) with (Ret "market"%string).
  cbv [bind read ret lift]. rewrite I, B. cbn [String.eqb Ascii.eqb Bool.eqb]. unfold send.
  match goal with |- context [reply ?h ?r] => destruct (answers h r) as (v & ->) end.
  destruct (is_skipped v); eexists; reflexivity.
Qed.

Lemma placed_calm cur v w : exists a, placed "market" cur v w = (fst (placed "market" cur v w), Ret a) /\
  (fst (placed "market" cur v w)).(requests) = w.(requests) /\ calm (fst (placed "market" cur v w)) w = calm w w.
Proof.
  unfold placed. destruct (is_skipped v); [eexists; split; [reflexivity | now split]|]. cbn [String.eqb Ascii.eqb Bool.eqb negb].
  eexists. split; [reflexivity | now split].
Qed.

Lemma execute_market w i : dict_get plan.(plan_instrument_name) w.(future_markets_by_name) = Some i -> calm w w ->
  exists w' a, _execute_hedge_plan c plan true w = (w', Ret a) /\ w'.(requests) = PlaceOrder net_order :: w.(requests) /\ calm w' w.
Proof.
  intros I (_ & _ & B & Ids). unfold _execute_hedge_plan. rewrite resolve_market. erewrite bind_run by reflexivity. erewrite bind_run by reflexivity.
  cbv zeta. cbn [negb]. destruct (replace_none _ _ _ Ids) as (l & R & Keep). erewrite bind_run by exact R.
  destruct (place_market plan.(side) plan.(plan_instrument_name) plan.(plan_order_amount) (_hedge_label c plan.(plan_currency) plan.(plan_mode))
    (String.eqb plan.(side) "buy" && (plan.(current_hedge_base) <? 0)) i (set_open_orders l w) I B) as (v & P). erewrite bind_run by exact P.
  set (w1 := log_request _ _). destruct (placed_calm plan.(plan_currency) v w1) as (a & Pa & Rq & Cm). erewrite bind_run by exact Pa.
  eexists _, _. split; [reflexivity|]. split; [rewrite Rq; reflexivity|].
  assert (C1 : calm w1 w1) by (repeat split; [exact B | exact (Keep _ _ Ids)]). rewrite <- Cm in C1. destruct C1 as (C2 & C3 & C4 & C5).
  now repeat split.
Qed.
End Repeated.

(** Where the hedge is kept per currency, every group asks for all of it. When [n]
    groups of a currency are hedged in one management cycle, each builds the same plan
    from the snapshot of the cycle's start and sends it: with market orders that fill,
    [n] orders of the whole gap, which turn the currency's delta over from the second
    one on. *)
Theorem net_hedge_repeated (X : Exchange) c snapshot currency mode target_pct price plan book i n w :
  index_quote [(lower currency ++ "_usdc")%string; (lower currency ++ "_usd")%string] = Some price ->
  c.(hedge_order_type) = "market"%string -> (forall h r, exists v, reply h r = Ret v) ->
  snd (_build_hedge_plan c snapshot currency mode target_pct w) = Ret (Some plan) ->
  dict_get plan.(plan_instrument_name) w.(future_markets_by_name) = Some i -> dict_get plan.(plan_instrument_name) w.(orderbook_cache) = Some book ->
  hedge_ids c plan.(plan_currency) plan.(plan_instrument_name) w = [] ->
  (fst (hedge_each c snapshot currency mode target_pct n w)).(requests) = repeat (PlaceOrder (net_order c plan)) n ++ w.(requests) /\
  exists actions, snd (hedge_each c snapshot currency mode target_pct n w) = Ret actions.
Proof.
  intros Qd Mk An. revert w. induction n as [|n IH]; intros w Bd I B Ids; [split; [reflexivity | now exists []]|].
  destruct (build_same c snapshot currency mode target_pct price Qd w w eq_refl eq_refl) as [Bf _].
  destruct (execute_market c plan book Mk An w i I) as (w1 & a & E & Rq & (C1 & C2 & C3 & C4)); [now repeat split|].
  destruct (build_same c snapshot currency mode target_pct price Qd w w1 C1 C2) as [_ Bs]. rewrite Bd in Bs. rewrite <- C2 in I.
  destruct (IH w1 Bs I C3 C4) as [R (acts & A)]. cbn [hedge_each].
  assert (H : hedge_net c snapshot currency mode target_pct true w = (w1, Ret [a])).
  { unfold hedge_net. erewrite bind_run by (rewrite (surjective_pairing (_build_hedge_plan _ _ _ _ _ w)), Bf, Bd; reflexivity).
    cbv beta iota. erewrite bind_run by exact E. reflexivity. }
  erewrite bind_run by exact H. rewrite bind_fst, bind_snd, A. cbn [ret fst snd]. rewrite R, Rq. split; [|now eexists].
  cbn [repeat]. rewrite (repeat_cons n), <- app_assoc. reflexivity.
Qed.

(** ** Samples *)

Definition net_config : engine_config := {|
  order_label_prefix := "opt"; managed_currencies := ["BTC"%string]; enable_perp_hedge := true; per_position_hedge := false;
  hedge_first_on_hard := true; hedge_giveup_loss_pct := 0; soft_hedge_neutralize_pct := 0.7; soft_hedge_delta_cap_pct := 0.1;
  hard_hedge_delta_cap_pct := 0.05; hedge_unwind_recovery_cycles := 2; recovery_normal_cycles := 3; defense_confirm_cycles := 2;
  hedge_reconcile_deadband_btc := 0.002; hedge_reconcile_deadband_eth := 0.02; hedge_order_type := "market";
  hedge_limit_slippage_pct := 0.005; hedge_maker_max_cycles := 12; reference_capital_usdc := 10000 |}.

(** Puts of 0.05 BTC delta. *)
Definition sample_snapshot : PortfolioSnapshot := {|
  total_equity_usdc := 20000; snap_day_start_equity_usdc := 20000; day_net_flow_usdc := 0; day_pnl_usdc_ex_flow := 0; day_drawdown_pct := 0;
  open_max_loss := 0; open_max_loss_pct := 0; initial_margin_ratio := 0; maintenance_margin_ratio := 0; projected_max_profit_run_rate_usdc := 0;
  projected_max_profit_apr := 0; target_progress_ratio := 0; regime := VolMetrics.NORMAL; halt_new_entries := false; hard_derisk := true;
  snap_cooldown_until_ms := None; cooling_down := false; delta_totals_by_currency := [("BTC"%string, 0.05)]; regime_by_currency := [];
  halt_entry_reasons := []; regime_detail_by_currency := []; margin_ratios_by_currency := []; equity_by_book := []; snap_day_start_equity_by_book := [];
  snap_day_net_flow_usdc_by_book := []; day_pnl_usdc_ex_flow_by_book := []; day_pnl_usdc_ex_flow_ex_spot := 0;
  day_pnl_usdc_ex_flow_ex_spot_by_book := []; day_drawdown_pct_by_book := []; snap_cooldown_until_ms_by_book := []; cooling_down_by_book := [];
  hard_derisk_by_book := []; halt_entries_by_book := []; halt_entry_reasons_by_book := []; halt_new_entries_by_currency := [];
  portfolio_wide_entry_halt := false |}.

#[local] Instance filling_exchange : Exchange := {|
  reply h r := Ret (PDict []);
  get_order_book name := Exn ValueError;
  get_index_price name := Ret (fun key => PStr "60000");
  _fetch_option_instrument_metadata name := None |}.

Definition sample_book : OrderBookSnapshot := {|
  book_instrument_name := "BTC_USDC-PERPETUAL"; best_bid_price := 60000; best_bid_amount := 1; best_ask_price := 60001; best_ask_amount := 1;
  mark_price := 60000; index_price := 60000; delta := 0; iv := 0; open_interest := 0 |}.

Definition hedged_runtime : runtime := {|
  state := empty_state; open_orders := []; option_positions := []; future_positions := [];
  future_markets_by_name := [("BTC_USDC-PERPETUAL"%string, sample_perp)]; markets_by_currency := [];
  orderbook_cache := [("BTC_USDC-PERPETUAL"%string, sample_book)]; _instrument_metadata_cache := []; requests := [] |}.

(** Two groups that hold on a hard trigger sell 0.1 against 0.05 of delta. *)
Lemma net_hedge_repeated_witness :
  exists plan, snd (_build_hedge_plan net_config sample_snapshot "BTC" "hard" (Some 0) hedged_runtime) = Ret (Some plan) /\
    plan.(plan_order_amount) == 0.05 /\ plan.(side) = "sell"%string /\
    (fst (hedge_each net_config sample_snapshot "BTC" "hard" (Some 0) 2 hedged_runtime)).(requests) =
      [PlaceOrder (net_order net_config plan); PlaceOrder (net_order net_config plan)].
Proof.
  pose (plan := match snd (_build_hedge_plan net_config sample_snapshot "BTC" "hard" (Some 0) hedged_runtime) with
    | Ret (Some p) => p | _ => plan_of sample_snapshot "" "" 0 0 0 0 0 end).
  assert (B : snd (_build_hedge_plan net_config sample_snapshot "BTC" "hard" (Some 0) hedged_runtime) = Ret (Some plan)) by (vm_compute; reflexivity).
  assert (Qd : exists p, index_quote [(lower "BTC" ++ "_usdc")%string; (lower "BTC" ++ "_usd")%string] = Some p) by (vm_compute; eexists; reflexivity).
  destruct Qd as (p & Qd).
  assert (Nm : plan.(plan_instrument_name) = "BTC_USDC-PERPETUAL"%string) by (vm_compute; reflexivity).
  exists plan. split; [exact B|]. split; [vm_compute; reflexivity|]. split; [vm_compute; reflexivity|].
  assert (I : dict_get plan.(plan_instrument_name) hedged_runtime.(future_markets_by_name) = Some sample_perp) by (rewrite Nm; reflexivity).
  assert (Bk : dict_get plan.(plan_instrument_name) hedged_runtime.(orderbook_cache) = Some sample_book) by (rewrite Nm; reflexivity).
  destruct (net_hedge_repeated filling_exchange net_config sample_snapshot "BTC" "hard" (Some 0) p plan sample_book sample_perp 2 hedged_runtime Qd eq_refl
    ltac:(intros h r; eexists; reflexivity) B I Bk eq_refl) as [H _].
  exact H.
Defined.
