(* ===== verification/GroupExit.v ===== *)
(** Managing one group ([engine/group_exit.py]): the debit of closing it, its triggers
    and their confirmation, the order in which hedges and exits are tried. Covered calls
    and cash-secured puts are handed to their own handlers, which are arguments here. *)

From S2P Require Import Prelude Dec PyStr Utils Fees TradeApr Group Ledger PyObj GroupJson StateJson Market ExitEval EntryGates Runtime HedgeOrders Hedge NetHedge Close GroupClose.
Local Open Scope Q_scope.
Local Open Scope dec_scope.
Local Open Scope bool_scope.
Local Open Scope run_scope.
Local Open Scope list_scope.

Record exit_config : Type := {
  desk : desk_config;
  ctx : ExitEvalContext;              (** [exit_eval_context_from_config(self.config)] *)
  soft_defense_delta_call : Q;
  hard_defense_delta_call : Q;
}.

Section Manage.
Context {D : Desk}.
Variable c : exit_config.
Let hedging : engine_config := c.(desk).(engine).

(** ** The debit of closing *)

Definition _short_close_debit_usdc (premium quantity : Q) (b : OrderBookSnapshot) (i : OptionInstrument) (usdc_path : bool) (idx : Q) (now_ms : Z) : Q :=
  let value := dmax (_premium_value_usdc premium quantity b.(index_price) i) 0 in
  if usdc_path then value ⊕ _option_fee_usdc c.(desk) premium quantity b.(index_price) i now_ms
  else
    let fee := _option_fee_native c.(desk) premium quantity b.(index_price) i now_ms in
    if idx >? 0 then ((premium ⊗ quantity) ⊕ fee) ⊗ idx else value.

(** What selling the long leg takes off the debit. *)
Definition net_of_long_leg (g : TradeGroup) (close_debit : Q) (b : OrderBookSnapshot) (i : OptionInstrument) (usdc_path : bool) (idx : Q) (now_ms : Z) : Q :=
  let premium := sell_close_premium b c.(ctx).(ExitEval.income_exit_max_spread_ratio) in
  let premium := if premium <=? 0 then (if b.(best_bid_price) >? 0 then b.(best_bid_price) else b.(mark_price)) else premium in
  let px := dmax premium 0 in
  if usdc_path then
    let credit := _premium_value_usdc px g.(Group.quantity) b.(index_price) i in
    let fee := _option_fee_usdc c.(desk) px g.(Group.quantity) b.(index_price) i now_ms in
    dmax (close_debit ⊖ dmax (credit ⊖ fee) 0) 0
  else
    let fee := _option_fee_native c.(desk) px g.(Group.quantity) b.(index_price) i now_ms in
    let net_native := (px ⊗ g.(Group.quantity)) ⊖ fee in
    let idx_long := if b.(index_price) >? 0 then b.(index_price) else idx in
    dmax (if idx_long >? 0 then close_debit ⊖ (net_native ⊗ idx_long) else close_debit) 0.

Definition long_leg_debit (g : TradeGroup) (close_debit : Q) (usdc_path : bool) (idx : Q) (now_ms : Z) : M Q :=
  let* b := _get_orderbook g.(long_instrument_name) in
  let* i := _find_instrument g.(long_instrument_name) in
  ret (net_of_long_leg g close_debit b i usdc_path idx now_ms).

(** The short leg's premium and instrument, where both can be had. *)
Definition short_quote (g : TradeGroup) : M (option (OrderBookSnapshot * Q * OptionInstrument)) :=
  let* book := attempt (_get_orderbook g.(short_instrument_name)) in
  match book with
  | None => ret None
  | Some b =>
      match income_exit_close_premium b c.(ctx) with
      | None => ret None
      | Some premium =>
          let* i := attempt (_find_instrument g.(short_instrument_name)) in
          ret (option_map (fun i => (b, premium, i)) i)
      end
  end.

Definition short_usdc_path (g : TradeGroup) (i : OptionInstrument) : bool := usdc_linear i || String.eqb (upper g.(Group.collateral_currency)) "USDC".

Definition _income_exit_close_debit (g : TradeGroup) (now_ms : Z) : M (option Q) :=
  let* quote := short_quote g in
  match quote with
  | None => ret None
  | Some (b, premium, i) =>
      let debit := _short_close_debit_usdc premium g.(Group.quantity) b i (short_usdc_path g i) b.(index_price) now_ms in
      if negb (truthy g.(long_instrument_name)) then ret (Some debit)
      else attempt (long_leg_debit g debit (short_usdc_path g i) b.(index_price) now_ms)
  end.

Definition _income_exit_native_pair (g : TradeGroup) (now_ms : Z) : M (option Q * option Q) :=
  match entry_credit_native g with
  | None => ret (None, None)
  | Some entry =>
      let* quote := short_quote g in
      ret (Some entry, option_map (fun '(b, premium, i) => close_debit_native premium g.(Group.quantity)
        (_option_fee_native c.(desk) premium g.(Group.quantity) b.(index_price) i now_ms)) quote)
  end.

(** ** Triggers *)

Definition _uses_coin_native_income_exit (g : TradeGroup) : bool := is_covered_call_group g && is_coin_collateral g.

(** [take_profit_triggered] or [time_exit_triggered], on the debit in coin or in USDC. *)
Definition income_trigger (test : option Q -> option Q -> option Q -> bool) (g : TradeGroup) (now_ms : Z) : M bool :=
  if _uses_coin_native_income_exit g then
    let* np := _income_exit_native_pair g now_ms in
    match np with
    | (None, _) => let* debit := _income_exit_close_debit g now_ms in ret (test debit None None)
    | (Some entry, close) => ret (test None (Some entry) close)
    end
  else let* debit := _income_exit_close_debit g now_ms in ret (test debit None None).

Definition _take_profit_triggered (g : TradeGroup) (now_us : Z) : M bool :=
  income_trigger (fun debit e d => take_profit_triggered g now_us debit c.(ctx) e d) g (now_us / 1000).

Definition _time_exit_triggered (g : TradeGroup) (now_us : Z) : M bool :=
  income_trigger (fun debit e d => time_exit_triggered g now_us debit c.(ctx) e d) g (now_us / 1000).

Definition _maybe_early_exit_reason (g : TradeGroup) (now_us : Z) : M (option string) :=
  if negb c.(ctx).(enable_early_exit) then ret None
  else if group_dte_days g now_us <=? 0 then ret None
  else
    let* book := attempt (_get_orderbook g.(short_instrument_name)) in
    ret (match book with Some b => evaluate_early_exit_reason g b now_us c.(ctx) | None => None end).

Definition _defense_delta_thresholds (g : TradeGroup) : Q * Q :=
  if String.eqb (lower g.(Group.option_type)) "call" then (c.(soft_defense_delta_call), c.(hard_defense_delta_call))
  else (c.(ctx).(soft_defense_delta), c.(ctx).(hard_defense_delta)).

Definition _time_exit_close_reason (g : TradeGroup) : string :=
  if String.eqb c.(desk).(option_strategy) "naked_short" && negb (is_cash_secured_group g) then "time_flatten" else "time_exit".

Definition _hedge_giveup_breached (g : TradeGroup) : bool :=
  (hedging.(hedge_giveup_loss_pct) >? 0) && (mark_loss_pct_of_max_loss g >=? hedging.(hedge_giveup_loss_pct)).

Definition per_position : bool := hedging.(enable_perp_hedge) && hedging.(per_position_hedge).

(** The confirmed triggers of this cycle: the group with its streaks, soft, hard. *)
Definition confirmed (g : TradeGroup) : TradeGroup * bool * bool :=
  let '(soft, hard) := _defense_delta_thresholds g in
  let '(raw_soft, raw_hard) := evaluate_defense_triggers g soft hard c.(ctx) in
  _confirm_defense_triggers hedging g raw_soft raw_hard.

Definition raw_triggers (g : TradeGroup) : bool * bool :=
  let '(soft, hard) := _defense_delta_thresholds g in evaluate_defense_triggers g soft hard c.(ctx).

Definition hold_on_hard (g : TradeGroup) (hard : bool) : bool :=
  hard && hedging.(enable_perp_hedge) && hedging.(hedge_first_on_hard) && negb (_hedge_giveup_breached g).

(** The hedge the group asks for, where positions are hedged one by one. *)
Definition hedge_position (g : TradeGroup) (raw_soft raw_hard soft hard : bool) : M TradeGroup :=
  if per_position then
    let* markets := read markets_by_currency in
    ret (_update_position_hedge hedging g raw_soft raw_hard soft hard (_contract_size_for_group g markets))
  else ret g.

(** ** The cycle of one group *)

Variables (snapshot : PortfolioSnapshot) (swept : TradeGroup -> string -> TradeGroup) (live : bool) (now_us : Z).
Let now_ms : Z := (now_us / 1000)%Z.

Definition close_for (g : TradeGroup) (reason : string) (actions : list action) : M (TradeGroup * list action) :=
  let* closed := _close_group c.(desk) swept g reason live now_ms in
  ret (fst closed, actions ++ snd closed).

(** The soft trigger, where no exit applied. *)
Definition soft_defense (g : TradeGroup) (actions : list action) : M (TradeGroup * list action) :=
  if per_position then ret (g, actions)
  else if hedging.(enable_perp_hedge) then
    let* plan := _build_hedge_plan hedging snapshot g.(currency) "soft" None in
    match plan with
    | Some p => let* a := _execute_hedge_plan hedging p live in ret (g, actions ++ [a])
    | None => close_for g "soft_stop_no_hedge" actions
    end
  else close_for g "soft_stop" actions.

(** Exits for income or time, then the soft trigger. *)
Definition income_exits (g : TradeGroup) (soft hold : bool) (actions : list action) : M (TradeGroup * list action) :=
  let* tp := _take_profit_triggered g now_us in
  if (tp : bool) then close_for g "take_profit" actions
  else
    let* early := _maybe_early_exit_reason g now_us in
    match early with
    | Some reason => close_for g reason actions
    | None =>
        let* timed := _time_exit_triggered g now_us in
        if (timed : bool) then close_for g (_time_exit_close_reason g) actions
        else if soft && negb hold then soft_defense g actions
        else ret (g, actions)
    end.

Definition manage_ordinary (g : TradeGroup) : M (TradeGroup * list action) :=
  let '(raw_soft, raw_hard) := raw_triggers g in
  let '(g, soft, hard) := confirmed g in
  let hold := hold_on_hard g hard in
  let* g := hedge_position g raw_soft raw_hard soft hard in
  if hard && negb hold then
    let* hedges := (if hedging.(enable_perp_hedge) && negb per_position then hedge_net hedging snapshot g.(currency) "hard" None live else ret []) in
    close_for g "hard_stop" hedges
  else
    let* hedges := (if hold && negb per_position then hedge_net hedging snapshot g.(currency) "hard" (Some 0) live else ret []) in
    income_exits g soft hold hedges.

Definition _manage_group (_manage_covered_call_group _manage_cash_secured_group : TradeGroup -> M (TradeGroup * list action)) (g : TradeGroup)
    : M (TradeGroup * list action) :=
  if is_covered_call_group g then _manage_covered_call_group g
  else if is_cash_secured_group g then _manage_cash_secured_group g
  else manage_ordinary g.
End Manage.

(** ** Reads that answer the same again

    Quotes and instruments are fetched once and kept, so that the debit of a close is
    the same each time a cycle asks for it. *)

Section Settled.
Context {X : Exchange}.

Definition grown (w w' : runtime) : Prop :=
  frame w w' /\ (forall n, snd (_get_orderbook n w') = snd (_get_orderbook n w)) /\ (forall n, snd (_find_instrument n w') = snd (_find_instrument n w)).

Definition settled {A} (m : M A) : Prop :=
  (forall w, grown w (fst (m w))) /\ (forall w w', grown w w' -> snd (m w') = snd (m w)).

Lemma grown_refl w : grown w w.
Proof. split; [apply frame_refl | now split]. Qed.

Lemma grown_trans w1 w2 w3 : grown w1 w2 -> grown w2 w3 -> grown w1 w3.
Proof.
  intros (F & B & I) (F' & B' & I'). split; [eapply frame_trans; eassumption|]. split; intros n; [now rewrite B' | now rewrite I'].
Qed.

Lemma settled_ret {A} (a : A) : settled (ret a).
Proof. split; [intros w; apply grown_refl | reflexivity]. Qed.

Lemma settled_bind {A B} (m : M A) (k : A -> M B) : settled m -> (forall a, settled (k a)) -> settled (bind m k).
Proof.
  intros [G S] K. split.
  - intros w. rewrite bind_fst. destruct (snd (m w)) as [a| |]; [|apply G..]. exact (grown_trans _ _ _ (G w) (proj1 (K a) _)).
  - intros w w' H. rewrite !bind_snd, (S _ _ H). destruct (snd (m w)) as [a| |]; [|reflexivity..].
    transitivity (snd (k a w)); [apply K, (grown_trans _ _ _ H), G | symmetry; apply K, G].
Qed.

Lemma settled_attempt {A} (m : M A) : settled m -> settled (attempt m).
Proof.
  intros [G S]. split.
  - intros w. specialize (G w). unfold attempt. destruct (m w) as [w1 [a| |]]; exact G.
  - intros w w' H. specialize (S _ _ H). unfold attempt. destruct (m w) as [w1 [a| |]], (m w') as [w2 [a'| |]]; cbn in *; congruence.
Qed.

Lemma orderbook_value n w : snd (_get_orderbook n w) =
  match dict_get n w.(orderbook_cache) with
  | Some b => Ret b
  | None => (let! p := get_order_book n in book_from_api p)%outcome
  end.
Proof.
  unfold _get_orderbook, bind, read, lift. destruct (dict_get n w.(orderbook_cache)); [reflexivity|].
  destruct (get_order_book n) as [p| |]; cbn; [|reflexivity..]. now destruct (book_from_api p).
Qed.

Lemma orderbook_left n w : fst (_get_orderbook n w) = w \/
  exists b, snd (_get_orderbook n w) = Ret b /\ fst (_get_orderbook n w) = cache_book n b w.
Proof.
  unfold _get_orderbook, bind, read, lift. destruct (dict_get n w.(orderbook_cache)); [now left|].
  destruct (get_order_book n) as [p| |]; cbn; [|now left..]. destruct (book_from_api p) as [b| |]; cbn; [|now left..]. right. now exists b.
Qed.

Lemma instrument_value n w : snd (_find_instrument n w) =
  match _find_instrument_by_markets w.(markets_by_currency) n with
  | Ret i => Ret i
  | _ =>
      match dict_get n w.(_instrument_metadata_cache) with
      | Some i => Ret i
      | None => match _fetch_option_instrument_metadata n with None => Exn KeyError | Some i => Ret i end
      end
  end.
Proof.
  unfold _find_instrument, bind, read, lift. destruct (_find_instrument_by_markets _ n); [reflexivity|..].
  all: destruct (dict_get n w.(_instrument_metadata_cache)); [reflexivity|].
  all: now destruct (_fetch_option_instrument_metadata n).
Qed.

Lemma instrument_left n w : fst (_find_instrument n w) = w \/
  exists i, snd (_find_instrument n w) = Ret i /\ fst (_find_instrument n w) = cache_instrument n i w.
Proof.
  unfold _find_instrument, bind, read, lift. destruct (_find_instrument_by_markets _ n); [now left|..].
  all: destruct (dict_get n w.(_instrument_metadata_cache)); [now left|].
  all: destruct (_fetch_option_instrument_metadata n) as [i|]; [right; now exists i | now left].
Qed.

Lemma settled_get_orderbook n : settled (_get_orderbook n).
Proof.
  split; [|intros w w' (_ & B & _); apply B]. intros w. destruct (orderbook_left n w) as [->|(b & V & ->)]; [apply grown_refl|].
  split; [repeat split|]. split; intros m; [|now rewrite !instrument_value]. rewrite !orderbook_value in *.
  cbn [cache_book set_orderbook_cache orderbook_cache]. rewrite dict_get_set. destruct (String.eqb_spec m n) as [->|N]; [now rewrite V | reflexivity].
Qed.

Lemma settled_find_instrument n : settled (_find_instrument n).
Proof.
  split; [|intros w w' (_ & _ & I); apply I]. intros w. destruct (instrument_left n w) as [->|(i & V & ->)]; [apply grown_refl|].
  split; [repeat split|]. split; intros m; [now rewrite !orderbook_value|]. rewrite !instrument_value in *.
  cbn [cache_instrument _instrument_metadata_cache markets_by_currency]. rewrite dict_get_set.
  destruct (String.eqb_spec m n) as [->|N]; [|reflexivity]. destruct (_find_instrument_by_markets _ n); [reflexivity | now rewrite V..].
Qed.
End Settled.

(** ** The decision of a cycle *)

Section Decision.
Context {D : Desk}.
Variables (c : exit_config) (snapshot : PortfolioSnapshot) (swept : TradeGroup -> string -> TradeGroup) (live : bool) (now_us : Z).

Lemma settled_short_quote g : settled (short_quote c g).
Proof.
  apply settled_bind; [apply settled_attempt, settled_get_orderbook|]. intros [b|]; [|apply settled_ret].
  destruct (income_exit_close_premium b _); [|apply settled_ret].
  apply settled_bind; [apply settled_attempt, settled_find_instrument | intros i; apply settled_ret].
Qed.

Lemma settled_close_debit g ms : settled (_income_exit_close_debit c g ms).
Proof.
  apply settled_bind; [apply settled_short_quote|]. intros [[[b premium] i]|]; [|apply settled_ret].
  destruct (truthy g.(long_instrument_name)); [|apply settled_ret]. apply settled_attempt.
  apply settled_bind; [apply settled_get_orderbook|]. intros lb. apply settled_bind; [apply settled_find_instrument | intros li; apply settled_ret].
Qed.

(** The hedge the group asks for is a function of the group and the listed markets. *)
Definition intended (g : TradeGroup) (markets : dict (list OptionInstrument)) (raw_soft raw_hard soft hard : bool) : TradeGroup :=
  if per_position c then _update_position_hedge c.(desk).(engine) g raw_soft raw_hard soft hard (_contract_size_for_group g markets) else g.

Lemma hedge_position_run g rs rh s h w : hedge_position c g rs rh s h w = (w, Ret (intended g w.(markets_by_currency) rs rh s h)).
Proof. unfold hedge_position, intended. now destruct (per_position c). Qed.

Lemma hedged_same {T} (f : TradeGroup -> T) g markets rs rh s h :
  (forall x v, f (set_hedge_mode v x) = f x) -> (forall x v, f (set_hedge_recovery_streak v x) = f x) -> (forall x v, f (set_hedge_size_base v x) = f x) ->
  f (intended g markets rs rh s h) = f g.
Proof.
  intros M R S. unfold intended, _update_position_hedge, sized. destruct (per_position c); [|reflexivity].
  destruct h; [now rewrite S, R, M|]. destruct s; [rewrite S, R; destruct (String.eqb _ "hard"); cbn [negb]; rewrite ?M; reflexivity|].
  destruct (truthy g.(hedge_mode)); [|apply S]. destruct (rs || rh); [now rewrite S, R|].
  destruct (_ <=? _)%Z; repeat (rewrite S || rewrite R || rewrite M); reflexivity.
Qed.

Lemma confirmed_same {T} (f : TradeGroup -> T) g : (forall x v, f (set_hard_defense_streak v x) = f x) ->
  (forall x v, f (set_soft_defense_streak v x) = f x) -> f (fst (fst (confirmed c g))) = f g.
Proof.
  intros H S. unfold confirmed, _confirm_defense_triggers. destruct (_defense_delta_thresholds c g) as [sd hd].
  destruct (evaluate_defense_triggers g sd hd _) as [rs rh]. cbn [fst]. now rewrite S, H.
Qed.

(** What a cycle does about a group, given the debit of closing it and the book of its
    short leg: close it for a reason, defend it, or keep it. *)
Inductive verdict : Type := Close (reason : string) | Defend | Keep.

Definition close_reason (g : TradeGroup) (r : string) : string := if String.eqb r "time_exit" then _time_exit_close_reason c g else r.

Definition verdict_of (g : TradeGroup) (b : OrderBookSnapshot) (debit : option Q) (soft hard : bool) : verdict :=
  let hold := hold_on_hard c g hard in
  if hard && negb hold then Close "hard_stop"
  else
    match evaluate_income_exit_reason g (Some b) now_us c.(ctx) debit with
    | Some r => Close (close_reason g r)
    | None => if soft && negb hold then Defend else Keep
    end.

Definition enact (g : TradeGroup) (hedges : list action) (v : verdict) : M (TradeGroup * list action) :=
  match v with
  | Close reason => close_for c swept live now_us g reason hedges
  | Defend => soft_defense c snapshot swept live now_us g hedges
  | Keep => ret (g, hedges)
  end.

(** The net hedge that goes before everything else, on a hard trigger. *)
Definition hedge_first (g : TradeGroup) (hard : bool) : M (list action) :=
  if hard && c.(desk).(engine).(enable_perp_hedge) && negb (per_position c)
  then hedge_net c.(desk).(engine) snapshot g.(currency) "hard" (if hold_on_hard c g hard then Some 0 else None) live
  else ret [].

Lemma trigger_run test g w : _uses_coin_native_income_exit g = false -> forall debit, snd (_income_exit_close_debit c g (now_us / 1000) w) = Ret debit ->
  income_trigger c test g (now_us / 1000) w = (fst (_income_exit_close_debit c g (now_us / 1000) w), Ret (test debit None None)).
Proof.
  intros U debit V. unfold income_trigger. rewrite U. unfold bind. destruct (_income_exit_close_debit c g _ w) as [w1 o]. cbn in V. subst o. reflexivity.
Qed.

Lemma early_run g b w : snd (_get_orderbook g.(short_instrument_name) w) = Ret b -> exists w1, grown w w1 /\
  _maybe_early_exit_reason c g now_us w = (w1, Ret (evaluate_early_exit_reason g b now_us c.(ctx))).
Proof.
  intros B. unfold _maybe_early_exit_reason. destruct (enable_early_exit _) eqn:E; cbn [negb].
  2:{ exists w. split; [apply grown_refl|]. unfold evaluate_early_exit_reason. now rewrite E. }
  destruct (dleb (group_dte_days g now_us) 0) eqn:T.
  { exists w. split; [apply grown_refl|]. unfold evaluate_early_exit_reason. now rewrite E, T. }
  exists (fst (_get_orderbook g.(short_instrument_name) w)). split; [apply settled_get_orderbook|].
  unfold bind, attempt. destruct (_get_orderbook _ w) as [w1 o]. cbn in B. subst o. reflexivity.
Qed.

Lemma income_exits_run g b debit soft hold hs w : _uses_coin_native_income_exit g = false ->
  snd (_get_orderbook g.(short_instrument_name) w) = Ret b -> snd (_income_exit_close_debit c g (now_us / 1000) w) = Ret debit ->
  exists w1, grown w w1 /\ income_exits c snapshot swept live now_us g soft hold hs w =
    enact g hs (match evaluate_income_exit_reason g (Some b) now_us c.(ctx) debit with
                | Some r => Close (close_reason g r)
                | None => if soft && negb hold then Defend else Keep
                end) w1.
Proof.
  intros U B V. unfold income_exits. erewrite bind_run by (apply trigger_run; eassumption).
  pose proof (proj1 (settled_close_debit g (now_us / 1000)) w) as G1. set (w1 := fst (_income_exit_close_debit c g (now_us / 1000) w)) in *.
  unfold evaluate_income_exit_reason. rewrite andb_false_r. cbn [andb]. destruct (take_profit_triggered g now_us debit _ None None); [now exists w1|].
  destruct (early_run g b w1) as (w2 & G2 & E2); [now rewrite (proj1 (proj2 G1))|]. erewrite bind_run by exact E2.
  pose proof (grown_trans _ _ _ G1 G2) as G. destruct (evaluate_early_exit_reason g b now_us _) as [r|] eqn:E.
  { exists w2. split; [exact G|]. apply early_exit_inv in E. destruct E as (-> & _). reflexivity. }
  erewrite bind_run by (apply trigger_run; [exact U | rewrite (proj2 (settled_close_debit g (now_us / 1000)) _ _ G); exact V]).
  eexists. split; [exact (grown_trans _ _ _ G (proj1 (settled_close_debit g (now_us / 1000)) w2))|].
  destruct (time_exit_triggered g now_us debit _ None None); [reflexivity|]. now destruct (soft && negb hold).
Qed.

Lemma ordinary_run g g0 g1 b debit soft hard hs w w0 :
  is_covered_call_group g = false -> confirmed c g = (g0, soft, hard) ->
  g1 = intended g0 w.(markets_by_currency) (fst (raw_triggers c g)) (snd (raw_triggers c g)) soft hard ->
  hedge_first g1 hard w = (w0, Ret hs) -> snd (_get_orderbook g.(short_instrument_name) w0) = Ret b ->
  snd (_income_exit_close_debit c g1 (now_us / 1000) w0) = Ret debit ->
  exists w1, grown w0 w1 /\ manage_ordinary c snapshot swept live now_us g w = enact g1 hs (verdict_of g1 b debit soft hard) w1.
Proof.
  intros NC EC -> H B V. unfold manage_ordinary. rewrite EC. destruct (raw_triggers c g) as [rs rh]. cbn [fst snd] in *.
  set (g1 := intended g0 _ rs rh soft hard) in *.
  assert (K0 : forall T (f : TradeGroup -> T), (forall x v, f (set_hedge_mode v x) = f x) -> (forall x v, f (set_hedge_recovery_streak v x) = f x) ->
    (forall x v, f (set_hedge_size_base v x) = f x) -> f g1 = f g0) by (intros; unfold g1; now apply hedged_same).
  assert (K1 : forall T (f : TradeGroup -> T), (forall x v, f (set_hard_defense_streak v x) = f x) ->
    (forall x v, f (set_soft_defense_streak v x) = f x) -> f g0 = f g) by (intros T f A A'; pose proof (confirmed_same f g A A') as E; now rewrite EC in E).
  assert (Hold : hold_on_hard c g0 hard = hold_on_hard c g1 hard) by (symmetry; apply (K0 _ (fun x => hold_on_hard c x hard)); reflexivity).
  rewrite Hold. erewrite bind_run by apply hedge_position_run. fold g1. cbv beta.
  assert (N : short_instrument_name g1 = short_instrument_name g) by (rewrite (K0 _ short_instrument_name), (K1 _ short_instrument_name); reflexivity).
  assert (U : _uses_coin_native_income_exit g1 = false).
  { rewrite (K0 _ _uses_coin_native_income_exit), (K1 _ _uses_coin_native_income_exit) by reflexivity. unfold _uses_coin_native_income_exit. now rewrite NC. }
  rewrite <- N in B. unfold verdict_of. unfold hedge_first in H.
  destruct (hard && negb (hold_on_hard c g1 hard)) eqn:HH.
  - apply andb_prop in HH. destruct HH as [-> HH]. apply negb_true_iff in HH. rewrite HH in H. cbn [andb] in H.
    erewrite bind_run by exact H. exists w0. split; [apply grown_refl | reflexivity].
  - assert (E : (if hold_on_hard c g1 hard && negb (per_position c)
       then hedge_net c.(desk).(engine) snapshot (currency g1) "hard" (Some 0) live else ret []) w = (w0, Ret hs)).
    { rewrite <- H. unfold hold_on_hard in *. destruct hard; cbn [andb] in *; [|reflexivity].
      destruct (enable_perp_hedge _) eqn:P; cbn [andb] in *; [|discriminate]. apply negb_false_iff in HH. now rewrite HH. }
    erewrite bind_run by exact E. now apply income_exits_run.
Qed.
End Decision.

Lemma held_reasons c now_us g b debit soft hard r : hold_on_hard c g hard = true -> verdict_of c now_us g b debit soft hard = Close r ->
  In r ["take_profit"; "early_exit_low_apr"; "time_exit"; "time_flatten"]%string.
Proof.
  unfold verdict_of. intros ->. rewrite !andb_false_r. destruct (evaluate_income_exit_reason _ _ _ _ _) as [i|] eqn:E; [|discriminate].
  intros R. injection R as <-. apply income_inv in E. unfold close_reason, _time_exit_close_reason.
  destruct E as [[-> _]|[[-> _]|[-> _]]]; cbn; [auto..|]. destruct (_ && _); cbn; auto.
Qed.

(** C35. One cycle of an ordinary group is the priority the evaluator states, on the
    debit at which the group can be bought back: a confirmed hard trigger that is not
    held closes it at once; else the income exits in their order, whatever was hedged;
    else a soft trigger defends it; else it is kept. What was hedged before comes first
    in the actions, the orders are those of closing or defending it, and reading quotes
    sends nothing. While a hard trigger is held, behind its hedge, the options are
    closed for income or time only, and a soft trigger does nothing. *)
Theorem manage_group_decision (D : Desk) c snapshot swept live now_us covered secured g g0 b debit soft hard hs w w0 :
  is_covered_call_group g = false -> is_cash_secured_group g = false -> confirmed c g = (g0, soft, hard) ->
  let g1 := intended c g0 w.(markets_by_currency) (fst (raw_triggers c g)) (snd (raw_triggers c g)) soft hard in
  hedge_first c snapshot live g1 hard w = (w0, Ret hs) -> snd (_get_orderbook g.(short_instrument_name) w0) = Ret b ->
  snd (_income_exit_close_debit c g1 (now_us / 1000) w0) = Ret debit ->
  (exists w1, frame w0 w1 /\
     _manage_group c snapshot swept live now_us covered secured g w =
     enact c snapshot swept live now_us g1 hs (verdict_of c now_us g1 b debit soft hard) w1) /\
  (hold_on_hard c g1 hard = true -> verdict_of c now_us g1 b debit soft hard <> Defend /\
     forall r, verdict_of c now_us g1 b debit soft hard = Close r -> In r ["take_profit"; "early_exit_low_apr"; "time_exit"; "time_flatten"]%string).
Proof.
  intros NC NS EC g1 H B V. split.
  - destruct (ordinary_run c snapshot swept live now_us g g0 g1 b debit soft hard hs w w0 NC EC eq_refl H B V) as (w1 & G & E).
    exists w1. split; [apply G|]. unfold _manage_group. rewrite NC, NS. exact E.
  - intros Hd. split; [|intros r; now apply held_reasons]. unfold verdict_of. rewrite Hd, !andb_false_r. now destruct (evaluate_income_exit_reason _ _ _ _ _).
Qed.

(** ** Samples *)

#[local] Existing Instance sample_desk.

Definition holding_config : engine_config := {|
  order_label_prefix := "opt"; managed_currencies := ["BTC"%string]; enable_perp_hedge := true; per_position_hedge := true;
  hedge_first_on_hard := true; hedge_giveup_loss_pct := 0; soft_hedge_neutralize_pct := 0.7; soft_hedge_delta_cap_pct := 0.1;
  hard_hedge_delta_cap_pct := 0.05; hedge_unwind_recovery_cycles := 2; recovery_normal_cycles := 3; defense_confirm_cycles := 1;
  hedge_reconcile_deadband_btc := 0.002; hedge_reconcile_deadband_eth := 0.02; hedge_order_type := "market";
  hedge_limit_slippage_pct := 0.005; hedge_maker_max_cycles := 12; reference_capital_usdc := 10000 |}.

Definition sample_exit_config : exit_config := {|
  desk := {| engine := holding_config; legs := sample_close; option_strategy := "naked_short"; option_fee_rate := 0.0003; option_fee_cap_rate := 0.125 |};
  ctx := sample_ctx; soft_defense_delta_call := 0.35; hard_defense_delta_call := 0.5 |}.

Definition quoted_short : OrderBookSnapshot := {|
  book_instrument_name := "BTC_USDC-29NOV23-30000-P"; best_bid_price := 95; best_bid_amount := 1; best_ask_price := 100; best_ask_amount := 1;
  mark_price := 97; index_price := 30000; delta := 0; iv := 0; open_interest := 0 |}.

Definition linear_short : OptionInstrument := {|
  instrument_name := "BTC_USDC-29NOV23-30000-P"; base_currency := "BTC"; quote_currency := "USDC"; settlement_currency := "USDC";
  instrument_type := "linear"; tick_size := 1; tick_size_steps := []; min_trade_amount := 0.01;
  instrument_contract_size := 1; instrument_option_type := "put"; instrument_expiration_ms := 1701209600000; instrument_strike := 30000;
  instrument_state := "open" |}.

Definition holding_runtime : runtime := {|
  state := empty_state; open_orders := []; option_positions := []; future_positions := []; future_markets_by_name := [];
  markets_by_currency := [("BTC"%string, [linear_short])]; orderbook_cache := [("BTC_USDC-29NOV23-30000-P"%string, quoted_short)];
  _instrument_metadata_cache := []; requests := [] |}.

Definition deep_put : TradeGroup := set_short_delta 0.6 sample_short_put.

(** Delta 0.6 is past the hard threshold; the credit of 1000 is bought back for 109. *)
Lemma manage_group_decision_witness :
  exists g1 debit w1, debit == 109 /\ g1.(hedge_mode) = "hard"%string /\ frame holding_runtime w1 /\
    _manage_group sample_exit_config sample_snapshot untouched false 1700000000000000 (fun g => ret (g, [])) (fun g => ret (g, [])) deep_put holding_runtime =
    close_for sample_exit_config untouched false 1700000000000000 g1 "take_profit" [] w1.
Proof.
  pose (c := sample_exit_config). pose (w := holding_runtime). pose (g := deep_put).
  pose (g0 := fst (fst (confirmed c g))). pose (g1 := intended c g0 w.(markets_by_currency) (fst (raw_triggers c g)) (snd (raw_triggers c g)) true true).
  pose (debit := match snd (_income_exit_close_debit c g1 1700000000000 w) with Ret (Some d) => d | _ => 0 end).
  assert (E0 : confirmed c g = (g0, true, true)) by (vm_compute; reflexivity).
  assert (H : hedge_first c sample_snapshot false g1 true w = (w, Ret [])) by (vm_compute; reflexivity).
  assert (V : snd (_income_exit_close_debit c g1 1700000000000 w) = Ret (Some debit)) by (vm_compute; reflexivity).
  assert (E : verdict_of c 1700000000000000 g1 quoted_short (Some debit) true true = Close "take_profit") by (vm_compute; reflexivity).
  destruct (manage_group_decision sample_desk c sample_snapshot untouched false 1700000000000000 (fun g => ret (g, [])) (fun g => ret (g, [])) g g0 quoted_short
    (Some debit) true true [] w w eq_refl eq_refl E0 H eq_refl V) as [(w1 & F & R) _].
  exists g1, debit, w1. split; [vm_compute; reflexivity|]. split; [vm_compute; reflexivity|]. split; [exact F|].
  unfold c, g1 in E. change (verdict_of c 1700000000000000 g1 quoted_short (Some debit) true true = Close "take_profit") in E.
  unfold g1, c, g, w in *. rewrite E in R. exact R.
Defined.
