(* ===== verification/EngineFrame.v ===== *)
(** What managing groups and hedging never touches: of the state, the engine's handlers
    write nothing but the waits of maker orders; a group they change is handed back. *)

From S2P Require Import Prelude Dec PyStr Utils Group PyObj StateJson Market ExitEval Runtime HedgeOrders Hedge NetHedge Close GroupClose GroupExit.
Local Open Scope run_scope.
Local Open Scope list_scope.

Create HintDb frame.

Section Keeps.
Context {T : Type}.
Variable part : StrategyState -> T.
Hypothesis not_waits : forall d s, part (set_hedge_maker_wait_cycles d s) = part s.

(** However [m] ends, that part of the state is as it was. *)
Definition keeps {A} (m : M A) : Prop := forall w, part (fst (m w)).(state) = part w.(state).

Lemma keeps_ret {A} (a : A) : keeps (ret a).
Proof. intros w. reflexivity. Qed.

Lemma keeps_lift {A} (o : outcome A) : keeps (lift o).
Proof. intros w. reflexivity. Qed.

Lemma keeps_read {A} (f : runtime -> A) : keeps (read f).
Proof. intros w. reflexivity. Qed.

Lemma keeps_modify f : (forall w, part (f w).(state) = part w.(state)) -> keeps (modify f).
Proof. intros H w. apply H. Qed.

Lemma keeps_bind {A B} (m : M A) (k : A -> M B) : keeps m -> (forall a, keeps (k a)) -> keeps (bind m k).
Proof. intros Hm Hk w. rewrite bind_fst. destruct (snd (m w)); [rewrite Hk|..]; apply Hm. Qed.

Lemma keeps_attempt {A} (m : M A) : keeps m -> keeps (attempt m).
Proof. intros H w. specialize (H w). unfold attempt. destruct (m w) as [w' [a| |]]; exact H. Qed.

Lemma keeps_collect {A B} (f : A -> M (list B)) l : (forall a, keeps (f a)) -> keeps (collect f l).
Proof.
  intros H. induction l as [|a r IH]; cbn [collect]; [apply keeps_ret|]. apply keeps_bind; [apply H|]. intros xs. apply keeps_bind; [exact IH | intros; apply keeps_ret].
Qed.

Context {D : Desk}.

Lemma keeps_send r : keeps (send r).
Proof. intros w. reflexivity. Qed.

Lemma keeps_on_error m h : keeps m -> (forall s, keeps (h s)) -> keeps (on_exchange_error m h).
Proof.
  intros Hm Hh w. unfold on_exchange_error. specialize (Hm w). destruct (m w) as [w' [a|e|]]; cbn [fst] in *; [exact Hm| |exact Hm].
  destruct e; try exact Hm. now rewrite Hh.
Qed.

#[local] Hint Resolve keeps_ret keeps_lift keeps_read keeps_attempt keeps_send : frame.

Ltac keep :=
  repeat first
    [ solve [auto with frame nocore]
    | progress cbv zeta
    | apply keeps_bind; [|intros ?]
    | apply keeps_attempt
    | apply keeps_collect; intros ?
    | apply keeps_on_error; [|intros ?]
    | apply keeps_modify; intros ?; first [reflexivity | apply not_waits]
    | match goal with |- keeps (match ?x with _ => _ end) => destruct x end ].

Lemma keeps_orderbook name : keeps (_get_orderbook name).
Proof. unfold _get_orderbook. keep. Qed.

Lemma keeps_instrument name : keeps (_find_instrument name).
Proof. unfold _find_instrument. keep. Qed.

Lemma keeps_text8 q : keeps (text8 q).
Proof. unfold text8. keep. Qed.

Lemma keeps_align name amount : keeps (_align_future_order_amount name amount).
Proof. unfold _align_future_order_amount. keep. Qed.
#[local] Hint Resolve keeps_orderbook keeps_instrument keeps_text8 keeps_align : frame.

Lemma keeps_index currency : keeps (_currency_index_price currency).
Proof. unfold _currency_index_price. keep. Qed.
#[local] Hint Resolve keeps_index : frame.

(** ** Hedges *)

Lemma keeps_place_perp t s b i d n a l r : keeps (place_hedge_perp_order t s b i d n a l r).
Proof.
  unfold place_hedge_perp_order. apply keeps_bind; [apply keeps_lift|]. intros t'. cbv zeta. destruct (String.eqb t' "market"); [apply keeps_send|].
  destruct (String.eqb t' "limit_maker"); [|keep]. destruct (resolve_hedge_perp_maker_limit_price d b i) as [p reason].
  destruct (usable p); [|apply keeps_ret]. intros w. cbn. destruct (reply _ _) as [v|e|]; try reflexivity. now destruct e.
Qed.
#[local] Hint Resolve keeps_place_perp : frame.

Lemma keeps_meta t b i d s : keeps (hedge_order_action_meta t b i d s).
Proof. unfold hedge_order_action_meta. keep. Qed.
#[local] Hint Resolve keeps_meta : frame.

Lemma keeps_place_hedge c d n a l r o : keeps (_place_hedge_perp_order c d n a l r o).
Proof. unfold _place_hedge_perp_order. keep. Qed.

Lemma keeps_open_hedges c currency name : keeps (_open_hedge_orders c currency name).
Proof. unfold _open_hedge_orders. keep. Qed.

Lemma keeps_reset currency : keeps (_reset_hedge_maker_wait currency).
Proof. unfold _reset_hedge_maker_wait. keep. Qed.

Lemma keeps_bump currency : keeps (_bump_hedge_maker_wait currency).
Proof. unfold _bump_hedge_maker_wait. keep. Qed.
#[local] Hint Resolve keeps_place_hedge keeps_open_hedges keeps_reset keeps_bump : frame.

Lemma keeps_cancel_hedges c currency name live : keeps (_cancel_open_hedge_orders c currency name live).
Proof. unfold _cancel_open_hedge_orders, cancel_one. keep. Qed.

Lemma keeps_resolve c currency : keeps (_resolve_hedge_order_type_for_currency c currency).
Proof. unfold _resolve_hedge_order_type_for_currency. keep. Qed.

Lemma keeps_cap currency target gs : keeps (_cap_per_position_hedge_target currency target gs).
Proof. unfold _cap_per_position_hedge_target. keep. Qed.
#[local] Hint Resolve keeps_cancel_hedges keeps_resolve keeps_cap : frame.

Lemma keeps_reconcile_order c cur live mk wt t rt tb cb ip hc : keeps (reconcile_order c cur live mk wt t rt tb cb ip hc).
Proof. unfold reconcile_order. keep. Qed.
#[local] Hint Resolve keeps_reconcile_order : frame.

Lemma keeps_reconcile_currency c live gs currency : keeps (reconcile_currency c live gs currency).
Proof. unfold reconcile_currency. keep. Qed.
#[local] Hint Resolve keeps_reconcile_currency : frame.

Lemma keeps_reconcile_hedges c live : keeps (_reconcile_position_hedges c live).
Proof. unfold _reconcile_position_hedges. keep. Qed.

Lemma keeps_replace_resting c t currency name : keeps (replace_resting c t currency name).
Proof. unfold replace_resting. keep. Qed.

Lemma keeps_placed t currency response : keeps (placed t currency response).
Proof. unfold placed. keep. Qed.
#[local] Hint Resolve keeps_replace_resting keeps_placed : frame.

Lemma keeps_execute_plan c p live : keeps (_execute_hedge_plan c p live).
Proof. unfold _execute_hedge_plan. keep. Qed.

Lemma keeps_build_plan c snapshot currency mode pct : keeps (_build_hedge_plan c snapshot currency mode pct).
Proof. unfold _build_hedge_plan. keep. Qed.

Lemma keeps_close_perp c p live : keeps (_close_perp_position c p live).
Proof. unfold _close_perp_position. keep. Qed.

Lemma keeps_unwind_order c currency amount live : keeps (unwind_order c currency amount live).
Proof. unfold unwind_order. keep. Qed.
#[local] Hint Resolve keeps_execute_plan keeps_build_plan keeps_close_perp keeps_unwind_order : frame.

Lemma keeps_orphan c currency live : keeps (_maybe_close_orphan_hedge c currency live).
Proof. unfold _maybe_close_orphan_hedge. keep. Qed.

Lemma keeps_unwind c currency live : keeps (_maybe_unwind_hedge c currency live).
Proof. unfold _maybe_unwind_hedge. keep. Qed.

Lemma keeps_hedge_net c snapshot currency mode pct live : keeps (hedge_net c snapshot currency mode pct live).
Proof. unfold hedge_net. keep. Qed.
#[local] Hint Resolve keeps_hedge_net : frame.

(** ** Closing *)

Lemma keeps_capacity name d ps : keeps (_option_reduce_only_capacity name d ps).
Proof. unfold _option_reduce_only_capacity. keep. Qed.
#[local] Hint Resolve keeps_capacity : frame.

Lemma keeps_fallback i name q d l ps : keeps (_fallback_close_position_market i name q d l ps).
Proof. unfold _fallback_close_position_market. keep. Qed.
#[local] Hint Resolve keeps_fallback : frame.

Lemma keeps_limit i name a l p d t ps : keeps (_submit_option_close_limit i name a l p d t ps).
Proof. unfold _submit_option_close_limit. keep. Qed.

Lemma keeps_poll fuel : forall poll max waited id st, keeps (poll_loop fuel poll max waited id st).
Proof. induction fuel as [|fuel IH]; intros; cbn [poll_loop]; keep. Qed.

Lemma keeps_await c r max : keeps (_await_resting_close_order c r max).
Proof. unfold _await_resting_close_order. cbv zeta. destruct (is_empty _); [apply keeps_ret | apply keeps_poll]. Qed.
#[local] Hint Resolve keeps_limit keeps_await : frame.

Lemma keeps_resting c o q ms : keeps (resting_leg c o q ms).
Proof. unfold resting_leg. keep. Qed.

Lemma keeps_escalated i name d l q p : keeps (escalated_leg i name d l q p).
Proof. unfold escalated_leg. keep. Qed.

Lemma keeps_retry c name d l r n q p : keeps (retry_leg c name d l r n q p).
Proof. unfold retry_leg. keep. Qed.
#[local] Hint Resolve keeps_resting keeps_escalated keeps_retry : frame.

Lemma keeps_first c i name d l r px q n p : keeps (first_leg c i name d l r px q n p).
Proof. unfold first_leg. keep. Qed.
#[local] Hint Resolve keeps_first : frame.

Lemma keeps_close_leg c name q d l px r n ms : keeps (_close_leg_with_retry c name q d l px r n ms).
Proof. unfold _close_leg_with_retry. keep. Qed.
#[local] Hint Resolve keeps_close_leg : frame.

Lemma keeps_order_trades r : keeps (_order_trades r).
Proof. unfold _order_trades. keep. Qed.
#[local] Hint Resolve keeps_order_trades : frame.

Lemma keeps_leg_trades rs : keeps (leg_trades rs).
Proof. induction rs as [|r rest IH]; cbn [leg_trades]; keep. Qed.
#[local] Hint Resolve keeps_leg_trades : frame.

Lemma keeps_collect_trades short r : keeps (_collect_close_trades short r).
Proof. unfold _collect_close_trades. keep. Qed.

Lemma keeps_snapshot_close c g pnl ms idx : keeps (_snapshot_close_apr_on_equity c g pnl ms idx).
Proof. unfold _snapshot_close_apr_on_equity. keep. Qed.
#[local] Hint Resolve keeps_collect_trades keeps_snapshot_close : frame.

Lemma keeps_mark_closed c g r ms debit fee pnl rm an idx : keeps (_mark_group_closed c g r ms debit fee pnl rm an idx).
Proof. unfold _mark_group_closed. keep. Qed.
#[local] Hint Resolve keeps_mark_closed : frame.

Lemma keeps_books c swept g r px lpx b bk ms short resp : keeps (close_books c swept g r px lpx b bk ms short resp).
Proof. unfold close_books. keep. Qed.

Lemma keeps_preview c g r p : keeps (preview c g r p).
Proof. unfold preview. keep. Qed.
#[local] Hint Resolve keeps_books keeps_preview : frame.

Lemma keeps_close_long c swept g r ms short b bk : keeps (close_long_leg c swept g r ms short b bk).
Proof. unfold close_long_leg. keep. Qed.
#[local] Hint Resolve keeps_close_long : frame.

Lemma keeps_after_short c swept g r ms short i b : keeps (after_short c swept g r ms short i b).
Proof. unfold after_short. keep. Qed.
#[local] Hint Resolve keeps_after_short : frame.

Lemma keeps_close_group c swept g r live ms : keeps (_close_group c swept g r live ms).
Proof. unfold _close_group. keep. Qed.
#[local] Hint Resolve keeps_close_group : frame.

(** ** A group's cycle *)

Lemma keeps_long_debit c g d p idx ms : keeps (long_leg_debit c g d p idx ms).
Proof. unfold long_leg_debit. keep. Qed.

Lemma keeps_short_quote c g : keeps (short_quote c g).
Proof. unfold short_quote. keep. Qed.
#[local] Hint Resolve keeps_long_debit keeps_short_quote : frame.

Lemma keeps_debit c g ms : keeps (_income_exit_close_debit c g ms).
Proof. unfold _income_exit_close_debit. keep. Qed.

Lemma keeps_native_pair c g ms : keeps (_income_exit_native_pair c g ms).
Proof. unfold _income_exit_native_pair. keep. Qed.
#[local] Hint Resolve keeps_debit keeps_native_pair : frame.

Lemma keeps_income c test g ms : keeps (income_trigger c test g ms).
Proof. unfold income_trigger. keep. Qed.
#[local] Hint Resolve keeps_income : frame.

Lemma keeps_hedge_position c g rs rh s h : keeps (hedge_position c g rs rh s h).
Proof. unfold hedge_position. keep. Qed.

Lemma keeps_close_for c swept live us g r acts : keeps (close_for c swept live us g r acts).
Proof. unfold close_for. keep. Qed.
#[local] Hint Resolve keeps_hedge_position keeps_close_for : frame.

Lemma keeps_soft c snapshot swept live us g acts : keeps (soft_defense c snapshot swept live us g acts).
Proof. unfold soft_defense. keep. Qed.
#[local] Hint Resolve keeps_soft : frame.

Lemma keeps_exits c snapshot swept live us g soft hold acts : keeps (income_exits c snapshot swept live us g soft hold acts).
Proof. unfold income_exits, _take_profit_triggered, _time_exit_triggered, _maybe_early_exit_reason. keep. Qed.
#[local] Hint Resolve keeps_exits : frame.

Lemma keeps_ordinary c snapshot swept live us g : keeps (manage_ordinary c snapshot swept live us g).
Proof. unfold manage_ordinary. destruct (raw_triggers c g) as [rs rh], (confirmed c g) as [[g' s] h]. keep. Qed.

Lemma keeps_manage_group c snapshot swept live us cc cs g : (forall g, keeps (cc g)) -> (forall g, keeps (cs g)) ->
  keeps (_manage_group c snapshot swept live us cc cs g).
Proof.
  intros C S. unfold _manage_group. destruct (Ledger.is_covered_call_group g); [apply C|]. destruct (Ledger.is_cash_secured_group g); [apply S | apply keeps_ordinary].
Qed.
End Keeps.

#[export] Hint Resolve keeps_ret keeps_lift keeps_read keeps_attempt keeps_send keeps_reconcile_hedges keeps_orphan keeps_unwind keeps_manage_group : frame.
