(* ===== verification/CrossFlow.v ===== *)
(** Moves between the books of an account ([deribit_engine/cross_book_flow.py]): spot
    swaps show up as a loss of one book and a gain of another, which are matched by value
    before the drawdown of a book is measured. *)

From Stdlib Require Import Permutation.
From S2P Require Import Prelude Sorting Dec PyStr Utils StateJson EntryGates.
Local Open Scope Q_scope.
Local Open Scope dec_scope.
Local Open Scope bool_scope.
Local Open Scope list_scope.

Definition STABLE_BOOKS : list string := ["USDC"; "USDT"; "USDE"]%string.
Definition stable (book : string) : bool := mem_str book STABLE_BOOKS.

(** [defaultdict]: reading a key that is not there puts a zero in. *)
Definition touch (book : string) (d : dict Q) : dict Q := match dict_get book d with Some _ => d | None => dict_set book 0 d end.

Section Matching.
Variables (spot : string -> Q) (min_match_usdc : Q).

Definition move : Type := (string * Q)%type.
Definition worth (x : move) : Q := snd x ⊗ spot (fst x).

(** What is left of a move; nothing is left of a used one. *)
Definition left_over (book : string) (rest : Q) (l : list move) : list move := if rest <=? 0 then l else (book, rest) :: l.

(** The loop over the two sorted lists; the moves already passed are dropped. *)
Fixpoint match_loop (fuel : nat) (sources sinks : list move) (adjustments : dict Q) : outcome (dict Q) :=
  match fuel with
  | O => OutOfFuel
  | S fuel =>
      match sources, sinks with
      | (src, src_native) :: sources', (sink, sink_native) :: sinks' =>
          if (spot src <=? 0) || (spot sink <=? 0) then Ret adjustments
          else if worth (src, src_native) <? min_match_usdc then match_loop fuel sources' sinks adjustments
          else if worth (sink, sink_native) <? min_match_usdc then match_loop fuel sources sinks' adjustments
          else
            let match_usdc := dmin (worth (src, src_native)) (worth (sink, sink_native)) in
            let match_src := safe_div match_usdc (spot src) 0 in
            let match_sink := safe_div match_usdc (spot sink) 0 in
            let adjustments := dict_set src (get_or src 0 adjustments ⊖ match_src) adjustments in
            let adjustments := dict_set sink (get_or sink 0 adjustments ⊕ match_sink) adjustments in
            match_loop fuel (left_over src (src_native ⊖ match_src) sources') (left_over sink (sink_native ⊖ match_sink) sinks') adjustments
      | _, _ => Ret adjustments
      end
  end.

Definition match_fuel (sources sinks : list move) : nat := S (2 * (List.length sources + List.length sinks)).

Definition positive_moves (l : list move) : list move := sort_by worth (filter (fun x => snd x >? 0) l).

Definition _match_cross_book_flows (sources sinks : list move) (adjustments : dict Q) : outcome (dict Q) :=
  let src_remaining := positive_moves sources in
  let sink_remaining := positive_moves sinks in
  match_loop (match_fuel src_remaining sink_remaining) src_remaining sink_remaining adjustments.
End Matching.

Section Adjustments.
Variables (per_book_native_equities per_book_native_day_start day_net_flow_native_by_book day_net_flow_usdc_by_book index_price_by_book : dict Q)
  (min_match_usdc : Q).

Definition _external_flow_native (book : string) : Q :=
  if stable book then get_or book 0 day_net_flow_usdc_by_book else get_or book 0 day_net_flow_native_by_book.

Definition _native_delta (book : string) : Q :=
  let equity := get_or book 0 per_book_native_equities in
  (equity ⊖ get_or book equity per_book_native_day_start) ⊖ _external_flow_native book.

Definition _spot (book : string) : Q := if stable book then 1 else get_or book 0 index_price_by_book.

Definition books : list string := map fst per_book_native_equities.

(** The losses, or the gains, of the books that satisfy [which]. *)
Definition losses (which : string -> bool) (delta : string -> Q) : list move :=
  map (fun b => (b, rnd (- delta b))) (filter (fun b => which b && (delta b <? 0)) books).
Definition gains (which : string -> bool) (delta : string -> Q) : list move :=
  map (fun b => (b, delta b)) (filter (fun b => which b && (delta b >? 0)) books).

Definition cross_book_flow_adjustments_native : outcome (dict Q) :=
  (match per_book_native_equities with
   | [] => Ret []
   | _ =>
       let coin b := negb (stable b) in
       let! adjustments := _match_cross_book_flows _spot min_match_usdc (losses stable _native_delta) (gains coin _native_delta) [] in
       let! adjustments := _match_cross_book_flows _spot min_match_usdc (losses coin _native_delta) (gains stable _native_delta) adjustments in
       let adjustments := fold_left (fun d b => touch b d) (filter stable books) adjustments in
       let leftover b := _native_delta b ⊕ get_or b 0 adjustments in
       let! adjustments := _match_cross_book_flows _spot min_match_usdc (losses stable leftover) (gains stable leftover) adjustments in
       Ret (filter (fun kv => negb (snd kv =? 0)) adjustments)
   end)%outcome.
End Adjustments.

(** The adjustments depend on the equities only by the move of each book. *)
Lemma cross_same e e' st nf nf' uf uf' prices min : map fst e = map fst e' ->
  (forall b, In b (map fst e) -> _native_delta e st nf uf b = _native_delta e' st nf' uf' b) ->
  cross_book_flow_adjustments_native e st nf uf prices min = cross_book_flow_adjustments_native e' st nf' uf' prices min.
Proof.
  intros K H. set (f := _native_delta e st nf uf) in *. set (f' := _native_delta e' st nf' uf') in *.
  assert (L : forall which g g', (forall b, In b (map fst e) -> g b = g' b) -> losses e which g = losses e' which g' /\ gains e which g = gains e' which g').
  { intros which g g' G. unfold losses, gains, books. rewrite <- K. clear K H. induction (map fst e) as [|b r IH]; cbn [filter map]; [auto|].
    destruct IH as [I1 I2]; [intros; apply G; cbn; auto|]. rewrite <- (G b) by (cbn; auto).
    destruct (which b && (g b <? 0)), (which b && (g b >? 0)); cbn [map]; rewrite ?I1, ?I2, ?(G b) by (cbn; auto); auto. }
  unfold cross_book_flow_adjustments_native. fold f f'. destruct e as [|x r], e' as [|x' r']; try discriminate K; [reflexivity|].
  set (ee := x :: r) in *. set (ee' := x' :: r') in *. destruct (L stable f f' H) as [-> L2]. destruct (L (fun b => negb (stable b)) f f' H) as [L3 ->].
  rewrite L3, L2. unfold books. rewrite K. destruct (_match_cross_book_flows _ _ _ _ _) as [a1| |]; [|reflexivity..]. cbn [obind].
  destruct (_match_cross_book_flows _ _ _ _ _) as [a2| |]; [|reflexivity..]. cbn [obind].
  set (a3 := fold_left _ _ a2). destruct (L stable (fun b => f b ⊕ get_or b 0 a3) (fun b => f' b ⊕ get_or b 0 a3)) as [-> ->]; [|reflexivity].
  intros b I. now rewrite H.
Qed.

(** ** Matching one move with one *)

Lemma match_loop_one spot min fuel x n y k adj : match_loop spot min (S fuel) [(x, n)] [(y, k)] adj =
  if (spot x <=? 0) || (spot y <=? 0) then Ret adj
  else if worth spot (x, n) <? min then match_loop spot min fuel [] [(y, k)] adj
  else if worth spot (y, k) <? min then match_loop spot min fuel [(x, n)] [] adj
  else
    let m := dmin (worth spot (x, n)) (worth spot (y, k)) in
    let adj' := dict_set x (get_or x 0 adj ⊖ safe_div m (spot x) 0) adj in
    match_loop spot min fuel (left_over x (n ⊖ safe_div m (spot x) 0) []) (left_over y (k ⊖ safe_div m (spot y) 0) [])
      (dict_set y (get_or y 0 adj' ⊕ safe_div m (spot y) 0) adj').
Proof. reflexivity. Qed.

Section One.
Variables (spot : string -> Q) (min : Q) (x y : string) (n k : Q).
Hypothesis differ : x <> y.
Hypothesis spot_x : 0 < spot x.
Hypothesis spot_y : 0 < spot y.
Hypothesis source : 0 < n.
Hypothesis sink : 0 < k.
Let m : Q := dmin (n ⊗ spot x) (k ⊗ spot y).
Hypothesis enough : min <= m.

(** What is taken from the source, and what goes to the sink. *)
Let out : Q := safe_div m (spot x) 0.
Let inn : Q := safe_div m (spot y) 0.
Hypothesis used : n ⊖ out <= 0 \/ k ⊖ inn <= 0.

Lemma match_one adj : _match_cross_book_flows spot min [(x, n)] [(y, k)] adj =
  Ret (dict_set y (get_or y 0 adj ⊕ inn) (dict_set x (get_or x 0 adj ⊖ out) adj)).
Proof.
  unfold _match_cross_book_flows, positive_moves. cbn [filter snd].
  replace (n >? 0) with true by (symmetry; now apply dltb_true). replace (k >? 0) with true by (symmetry; now apply dltb_true).
  change (sort_by (worth spot) [?a]) with [a]. change (match_fuel _ _) with 5%nat.
  rewrite match_loop_one. change (worth spot (x, n)) with (n ⊗ spot x). change (worth spot (y, k)) with (k ⊗ spot y).
  replace (spot x <=? 0) with false by (symmetry; now apply dleb_false). replace (spot y <=? 0) with false by (symmetry; now apply dleb_false).
  cbn [orb]. pose proof (dmin_l (n ⊗ spot x) (k ⊗ spot y)) as L1. pose proof (dmin_r (n ⊗ spot x) (k ⊗ spot y)) as L2. fold m in L1, L2 |- *.
  replace (n ⊗ spot x <? min) with false by (symmetry; apply dltb_false; lra). replace (k ⊗ spot y <? min) with false by (symmetry; apply dltb_false; lra).
  fold out inn.
  assert (G : get_or y 0 (dict_set x (get_or x 0 adj ⊖ out) adj) = get_or y 0 adj).
  { unfold get_or at 1. rewrite dict_get_set. now rewrite (proj2 (String.eqb_neq y x)) by congruence. }
  cbv zeta. rewrite G. unfold left_over. destruct (dleb_spec (n ⊖ out) 0) as [_|N]; [reflexivity|].
  destruct (dleb_spec (k ⊖ inn) 0) as [_|K]; [reflexivity | tauto].
Qed.
End One.

Lemma match_none spot min l adj : _match_cross_book_flows spot min l [] adj = Ret adj.
Proof. unfold _match_cross_book_flows. cbn. destruct (positive_moves spot l) as [|[? ?] ?]; reflexivity. Qed.

(** ** The matching ends

    Of the two moves at the front, the one of smaller worth is used up but for what
    rounding leaves of it, which is worth less than the minimum. *)

Section Ends.
Variables (spot : string -> Q) (min cap : Q).
Hypothesis min_pos : 0 < min.
Hypothesis cap_nonneg : 0 <= cap.
Hypothesis cap_small : cap <= min * inject_Z (10 ^ 26).

Definition sound (x : move) : Prop := 0 < snd x /\ representable (snd x) /\ snd x * spot (fst x) <= cap.

Definition weight (x : move) : nat := if worth spot x <? min then 1 else 2.
Definition weights (l : list move) : nat := list_sum (map weight l).

(** One part in [2 * 10^27]. *)
Definition eps : Q := 1 # 2000000000000000000000000000.

Lemma rnd_close q : 0 < q -> q * (1 - eps) <= rnd q <= q * (1 + eps).
Proof.
  intros P. pose proof (rnd_rel_error q P) as E. set (k := inject_Z (2 * grid_max)) in *. assert (K : k * eps == 1) by (vm_compute; reflexivity).
  assert (A : Qabs (rnd q - q) <= q * eps).
  { apply Qle_trans with (Qabs (rnd q - q) * k * eps); [rewrite <- Qmult_assoc, K; lra | apply Qmult_le_compat_r; [exact E | discriminate]]. }
  apply Qabs_Qle_condition in A. lra.
Qed.

Lemma used_up b n : 0 < spot b -> sound (b, n) -> let rest := n ⊖ safe_div (worth spot (b, n)) (spot b) 0 in
  0 < rest -> worth spot (b, rest) < min.
Proof.
  intros S (N & R & B). cbn [fst snd] in *. unfold worth, safe_div. cbn [fst snd].
  destruct (deqb_spec (spot b) 0) as [Z|_]; [lra|]. set (s := spot b) in *. cbv zeta. intros P.
  assert (Ns : 0 < n * s) by (apply Qmult_lt_0_compat; assumption).
  pose proof (rnd_close _ Ns) as U. fold (n ⊗ s) in U. set (u := n ⊗ s) in *.
  assert (Up : 0 < u) by (apply dmul_pos; assumption).
  assert (D : 0 < u / s) by (apply Qlt_shift_div_l; lra).
  pose proof (rnd_close _ D) as V. fold (u ⊘ s) in V. set (v := u ⊘ s) in *.
  assert (E : u / s * s == u) by (field; lra).
  assert (Vs : v * s >= u * (1 - eps)).
  { apply Qle_trans with (u / s * (1 - eps) * s); [|apply Qmult_le_compat_r; lra]. rewrite <- E at 1. lra. }
  assert (W : 0 < n - v).
  { destruct (Qlt_le_dec v n); [lra|]. unfold dsub in P. pose proof (rnd_nonpos (n - v) ltac:(lra)). lra. }
  pose proof (rnd_close _ W) as T. fold (n ⊖ v) in T. set (r := n ⊖ v) in *.
  assert (Rs : 0 < r * s) by (apply Qmult_lt_0_compat; assumption).
  pose proof (rnd_close _ Rs) as Y. fold (r ⊗ s) in Y.
  assert (Q1 : (n - v) * s <= n * s * (2 * eps)) by (unfold eps in *; lra).
  assert (Q2 : r * s <= n * s * (3 * eps)).
  { apply Qle_trans with ((n - v) * (1 + eps) * s); [apply Qmult_le_compat_r; lra | unfold eps in *; lra]. }
  pose proof cap_small as C. change (inject_Z (10 ^ 26)) with (100000000000000000000000000 # 1) in C. unfold eps in *. lra.
Qed.

(** What is left of a sound move is sound. *)
Lemma rest_sound b n used : sound (b, n) -> 0 <= used -> 0 < n ⊖ used -> sound (b, n ⊖ used).
Proof.
  intros (N & R & B) U P. cbn [fst snd] in *. split; [exact P|]. split; [apply rnd_representable|]. cbn [fst snd].
  assert (L : n ⊖ used <= n). { unfold dsub. rewrite <- (rnd_exact n R) at 2. apply rnd_mono. lra. }
  destruct (Qlt_le_dec (spot b) 0) as [S|S].
  - assert ((n ⊖ used) * spot b <= 0); [|lra]. setoid_replace ((n ⊖ used) * spot b) with (- ((n ⊖ used) * - spot b)) by ring.
    assert (0 <= (n ⊖ used) * - spot b) by (apply Qmult_le_0_compat; lra). lra.
  - apply Qle_trans with (n * spot b); [apply Qmult_le_compat_r; assumption | exact B].
Qed.

Lemma left_sound b n used l : sound (b, n) -> 0 <= used -> Forall sound l -> Forall sound (left_over b (n ⊖ used) l).
Proof. intros S U L. unfold left_over. destruct (dleb_spec (n ⊖ used) 0) as [|P]; [exact L|]. apply Qnot_le_lt in P. constructor; [apply rest_sound; assumption | exact L]. Qed.

Lemma weight_2 x : (1 <= weight x <= 2)%nat.
Proof. unfold weight. destruct (worth spot x <? min); lia. Qed.

Lemma weights_cons x l : weights (x :: l) = (weight x + weights l)%nat.
Proof. reflexivity. Qed.

Lemma left_weight b rest l : (weights (left_over b rest l) <= 2 + weights l)%nat.
Proof. unfold left_over. destruct (rest <=? 0); [lia|]. pose proof (weight_2 (b, rest)). rewrite weights_cons. lia. Qed.

Lemma left_weight_used b n l : 0 < spot b -> sound (b, n) ->
  (weights (left_over b (n ⊖ safe_div (worth spot (b, n)) (spot b) 0) l) <= 1 + weights l)%nat.
Proof.
  intros S N. unfold left_over. destruct (dleb_spec (n ⊖ safe_div (worth spot (b, n)) (spot b) 0) 0) as [_|P]; [lia|]. apply Qnot_le_lt in P.
  rewrite weights_cons. unfold weight at 1. pose proof (used_up b n S N P) as U. apply dltb_true in U. unfold worth in *. cbn [fst snd] in *. rewrite U. lia.
Qed.

(** What a match takes from a move. *)
Definition taken (b : string) (u : Q) : Prop := 0 <= u /\ (spot b == 1 -> u <= cap).

Lemma match_taken x y b : sound x -> sound y -> min <= worth spot x -> min <= worth spot y -> representable cap -> 0 < spot b ->
  taken b (safe_div (dmin (worth spot x) (worth spot y)) (spot b) 0).
Proof.
  intros (X & Rx & Bx) (Y & Ry & By) Ux Uy C P. set (m := dmin _ _). assert (M : 0 <= m) by (unfold m; apply dmin_glb; lra).
  unfold taken, safe_div. destruct (deqb_spec (spot b) 0); [lra|]. split; [apply ddiv_nonneg; lra|]. intros S.
  apply rnd_le_bound; [exact C|]. setoid_replace (m / spot b) with m by (rewrite S; field).
  apply Qle_trans with (worth spot x); [apply dmin_l | apply rnd_le_bound; assumption].
Qed.

(** A property of entries that grows with the updates of an entry. *)
Variable entry_ok : nat -> string -> Q -> Prop.
Hypothesis cap_representable : representable cap.
Hypothesis ok_zero : forall k b, entry_ok k b 0.
Hypothesis ok_later : forall k b v, entry_ok k b v -> entry_ok (S k) b v.

Definition entries_ok (k : nat) (d : dict Q) : Prop := Forall (fun kv => entry_ok k (fst kv) (snd kv)) d.

Lemma entries_later k d : entries_ok k d -> entries_ok (S k) d.
Proof. apply Forall_impl. intros [b v]. apply ok_later. Qed.

Lemma entries_get k b d : entries_ok k d -> entry_ok k b (get_or b 0 d).
Proof.
  unfold get_or. induction d as [|[b' v] r IH]; cbn [dict_get]; intros E; [apply ok_zero|]. inversion E; subst.
  destruct (String.eqb_spec b b') as [->|_]; [assumption | auto].
Qed.

Lemma entries_set k b v d : entries_ok k d -> entry_ok k b v -> entries_ok k (dict_set b v d).
Proof.
  intros E V. induction d as [|[b' v'] r IH]; cbn [dict_set]; [now constructor|]. inversion E; subst.
  destruct (String.eqb b b'); constructor; auto. now apply IH.
Qed.

Lemma entries_weaken k n d : entries_ok k d -> entries_ok (n + k) d.
Proof. induction n; cbn [Nat.add]; auto using entries_later. Qed.

Lemma match_loop_ends fuel : forall k sources sinks adjustments, (weights sources + weights sinks < fuel)%nat ->
  Forall sound sources -> Forall sound sinks ->
  (forall k b v u, In b (map fst sources) -> taken b u -> entry_ok k b v -> entry_ok (S k) b (v ⊖ u)) ->
  (forall k b v u, In b (map fst sinks) -> taken b u -> entry_ok k b v -> entry_ok (S k) b (v ⊕ u)) ->
  entries_ok k adjustments ->
  exists r, match_loop spot min fuel sources sinks adjustments = Ret r /\ entries_ok (2 * fuel + k) r.
Proof.
  induction fuel as [|fuel IH]; intros k sources sinks adj F So Si Out In_ E; [lia|]. cbn [match_loop].
  assert (Stop : entries_ok (2 * S fuel + k) adj) by now apply entries_weaken.
  destruct sources as [|[src sn] sources]; [eauto|]. destruct sinks as [|[sink kn] sinks]; [eauto|].
  destruct (dleb_spec (spot src) 0) as [|Ps]; [now exists adj|]. destruct (dleb_spec (spot sink) 0) as [|Pk]; [now exists adj|]. cbn [orb]. apply Qnot_le_lt in Ps, Pk.
  inversion So as [|? ? Hs Ss]; subst. inversion Si as [|? ? Hk Sk]; subst. rewrite !weights_cons in F.
  pose proof (weight_2 (src, sn)) as W. pose proof (weight_2 (sink, kn)) as W'. cbn [map fst In] in Out, In_.
  destruct (worth spot (src, sn) <? min) eqn:Us.
  { replace (2 * S fuel + k)%nat with (2 * fuel + (2 + k))%nat by lia.
    apply IH; [rewrite ?weights_cons; lia | assumption | assumption | intros; apply Out; cbn; auto | intros; apply In_; cbn; auto | now apply (entries_weaken k 2)]. }
  destruct (worth spot (sink, kn) <? min) eqn:Uk.
  { replace (2 * S fuel + k)%nat with (2 * fuel + (2 + k))%nat by lia.
    apply IH; [rewrite ?weights_cons; lia | assumption | assumption | intros; apply Out; cbn; auto | intros; apply In_; cbn; auto | now apply (entries_weaken k 2)]. }
  assert (E' : weight (src, sn) = 2%nat /\ weight (sink, kn) = 2%nat) by (unfold weight; rewrite Us, Uk; auto). destruct E' as [E1 E2].
  apply dltb_false in Us, Uk. pose proof (match_taken _ _ src Hs Hk Us Uk cap_representable Ps) as Ts.
  pose proof (match_taken _ _ sink Hs Hk Us Uk cap_representable Pk) as Tk. set (m := dmin _ _) in *. cbv zeta.
  replace (2 * S fuel + k)%nat with (2 * fuel + (2 + k))%nat by lia.
  assert (L : forall b n l c, In c (map fst (left_over b n l)) -> b = c \/ In c (map fst l)) by (intros b n l c; unfold left_over; destruct (n <=? 0); cbn; auto).
  apply IH; [| apply left_sound; auto; apply Ts | apply left_sound; auto; apply Tk | intros; apply Out; auto; eapply L; eassumption | intros; apply In_; auto; eapply L; eassumption |].
  - destruct (dmin_cases (worth spot (src, sn)) (worth spot (sink, kn))) as [[M _]|[M _]]; fold m in M; rewrite M.
    + pose proof (left_weight_used src sn sources Ps Hs). pose proof (left_weight sink (kn ⊖ safe_div (worth spot (src, sn)) (spot sink) 0) sinks). lia.
    + pose proof (left_weight_used sink kn sinks Pk Hk). pose proof (left_weight src (sn ⊖ safe_div (worth spot (sink, kn)) (spot src) 0) sources). lia.
  - assert (E3 : entries_ok (S k) (dict_set src (get_or src 0 adj ⊖ safe_div m (spot src) 0) adj)).
    { apply entries_set; [now apply entries_later|]. apply Out; auto. now apply entries_get. }
    apply entries_set; [now apply entries_later|]. apply In_; auto. now apply entries_get.
Qed.

Lemma weights_bound l : (weights l <= 2 * List.length l)%nat.
Proof. induction l as [|x r IH]; [cbn; lia|]. pose proof (weight_2 x). rewrite weights_cons. cbn [List.length]. lia. Qed.

Lemma match_ends k sources sinks adj : (forall x, In x (sources ++ sinks) -> 0 < snd x -> sound x) ->
  (forall k b v u, In b (map fst sources) -> taken b u -> entry_ok k b v -> entry_ok (S k) b (v ⊖ u)) ->
  (forall k b v u, In b (map fst sinks) -> taken b u -> entry_ok k b v -> entry_ok (S k) b (v ⊕ u)) ->
  entries_ok k adj ->
  exists r, _match_cross_book_flows spot min sources sinks adj = Ret r /\ entries_ok (2 + 4 * (List.length sources + List.length sinks) + k) r.
Proof.
  intros Sm Out In_ E.
  assert (P : forall l, incl (positive_moves spot l) l /\ Forall (fun x => 0 < snd x) (positive_moves spot l) /\ (List.length (positive_moves spot l) <= List.length l)%nat).
  { intros l. unfold positive_moves. pose proof (sort_by_perm (worth spot) (filter (fun x => snd x >? 0) l)) as Pm.
    assert (I : forall x, In x (sort_by (worth spot) (filter (fun x => snd x >? 0) l)) -> In x l /\ 0 < snd x).
    { intros x I. apply (Permutation_in _ (Permutation_sym Pm)) in I. apply filter_In in I. destruct I as [I Px]. apply dltb_true in Px. now split. }
    split; [intros x H; now apply I|]. split; [apply Forall_forall; intros x H; now apply I|].
    rewrite <- (Permutation_length Pm). apply filter_length_le. }
  destruct (P sources) as (I1 & P1 & L1). destruct (P sinks) as (I2 & P2 & L2). rewrite Forall_forall in P1, P2.
  destruct (match_loop_ends (match_fuel (positive_moves spot sources) (positive_moves spot sinks)) k (positive_moves spot sources) (positive_moves spot sinks) adj)
    as (r & R & O).
  - unfold match_fuel. pose proof (weights_bound (positive_moves spot sources)). pose proof (weights_bound (positive_moves spot sinks)). lia.
  - apply Forall_forall. intros x I. apply Sm; [apply in_or_app; auto | auto].
  - apply Forall_forall. intros x I. apply Sm; [apply in_or_app; auto | auto].
  - intros. apply Out; auto. eapply incl_map; eassumption.
  - intros. apply In_; auto. eapply incl_map; eassumption.
  - exact E.
  - exists r. split; [exact R|]. unfold match_fuel in O.
    unfold move in *. set (a := List.length sources) in *. set (b := List.length sinks) in *.
    set (a' := @List.length (string * Q) (positive_moves spot sources)) in *. set (b' := @List.length (string * Q) (positive_moves spot sinks)) in *.
    replace (2 + 4 * (a + b) + k)%nat with (4 * (a + b - (a' + b')) + (2 * Datatypes.S (2 * (a' + b')) + k))%nat by lia.
    now apply entries_weaken.
Qed.
End Ends.

(** ** The adjustments of an account *)

Section Terminates.
Variables (equities day_start flow_native flow_usdc prices : dict Q) (min : Q).
Let delta : string -> Q := _native_delta equities day_start flow_native flow_usdc.
Let spot : string -> Q := _spot prices.

Definition scale : Q := inject_Z (10 ^ 20).

Hypothesis min_one : 1 <= min.
Hypothesis few_books : (List.length equities <= 8)%nat.
Hypothesis moves_bounded : forall b, In b (books equities) -> Qabs (delta b) * spot b <= scale.

(** Updates of a coin book keep the sign of its move; those of a stable book stay in bounds. *)
Definition in_own_direction (b : string) (v : Q) : Prop := stable b = false -> (0 <= delta b -> 0 <= v) /\ (delta b <= 0 -> v <= 0).
Definition within (k : nat) (b : string) (v : Q) : Prop :=
  in_own_direction b v /\ (stable b = true -> (Z.of_nat k <= 100000)%Z -> Qabs v <= inject_Z (Z.of_nat k) * scale).

Lemma scale_representable k : (Z.of_nat k <= 100001)%Z -> representable (inject_Z (Z.of_nat k) * scale).
Proof. intros H. exists (Z.of_nat k), 20%Z. split; [change (10 ^ prec)%Z with 10000000000000000000000000000%Z; lia | reflexivity]. Qed.

Lemma direction_zero b : in_own_direction b 0.
Proof. intros _. split; intros _; lra. Qed.

Lemma scale_grows k : inject_Z (Z.of_nat (S k)) * scale == inject_Z (Z.of_nat k) * scale + scale.
Proof. rewrite Nat2Z.inj_succ, <- Z.add_1_r, inject_Z_plus. ring. Qed.

Lemma within_zero k b : within k b 0.
Proof.
  split; [apply direction_zero|]. intros _ _. change (Qabs 0) with 0. apply Qmult_le_0_compat; [|discriminate].
  change 0 with (inject_Z 0). rewrite <- Zle_Qle. lia.
Qed.

Lemma within_later k b v : within k b v -> within (S k) b v.
Proof.
  intros [A B]. split; [exact A|]. intros St L. apply Qle_trans with (inject_Z (Z.of_nat k) * scale); [apply B; [exact St | lia]|].
  rewrite scale_grows. assert (0 <= scale) by discriminate. lra.
Qed.

Lemma step_bounded k v u : (Z.of_nat (S k) <= 100000)%Z -> Qabs v <= inject_Z (Z.of_nat k) * scale -> 0 <= u <= scale ->
  Qabs (v ⊖ u) <= inject_Z (Z.of_nat (S k)) * scale /\ Qabs (v ⊕ u) <= inject_Z (Z.of_nat (S k)) * scale.
Proof.
  intros L V U. apply Qabs_Qle_condition in V. pose proof (scale_grows k) as G. assert (R : representable (inject_Z (Z.of_nat (S k)) * scale)) by (apply scale_representable; lia).
  split; apply Qabs_Qle_condition; split; unfold dsub, dadd; first [apply rnd_le_bound | apply rnd_ge_bound]; try apply representable_opp; try exact R; lra.
Qed.

Lemma losses_In which (f : string -> Q) x : In x (losses equities which f) ->
  In (fst x) (books equities) /\ which (fst x) = true /\ f (fst x) < 0 /\ snd x = rnd (- f (fst x)).
Proof.
  intros I. apply in_map_iff in I. destruct I as (b & <- & I). apply filter_In in I. destruct I as [I W]. apply andb_prop in W. destruct W as [W N].
  apply dltb_true in N. now repeat split.
Qed.

Lemma gains_In which (f : string -> Q) x : In x (gains equities which f) ->
  In (fst x) (books equities) /\ which (fst x) = true /\ 0 < f (fst x) /\ snd x = f (fst x).
Proof.
  intros I. apply in_map_iff in I. destruct I as (b & <- & I). apply filter_In in I. destruct I as [I W]. apply andb_prop in W. destruct W as [W N].
  apply dltb_true in N. now repeat split.
Qed.

Lemma moves_sound (f : string -> Q) which which' cap : (forall b, representable (f b)) ->
  (forall b, In b (books equities) -> which b = true \/ which' b = true -> Qabs (f b) * spot b <= cap) ->
  forall x, In x (losses equities which f ++ gains equities which' f) -> 0 < snd x -> sound spot cap x.
Proof.
  intros R B x I P. apply in_app_or in I. destruct I as [I|I].
  - apply losses_In in I. destruct I as (I & W & N & E). rewrite E in *. split; [rewrite E; exact P|]. rewrite E. split; [apply rnd_representable|].
    rewrite (rnd_exact (- f (fst x))) by (apply representable_opp, R). specialize (B _ I (or_introl W)). rewrite Qabs_neg in B by lra. exact B.
  - apply gains_In in I. destruct I as (I & W & N & E). split; [exact P|]. rewrite E. split; [apply R|].
    specialize (B _ I (or_intror W)). rewrite Qabs_pos in B by lra. exact B.
Qed.

Lemma delta_representable b : representable (delta b).
Proof. apply rnd_representable. Qed.

Lemma lists_short which which' (f g : string -> Q) : (List.length (losses equities which f) + List.length (gains equities which' g) <= 16)%nat.
Proof.
  unfold losses, gains. rewrite !length_map. pose proof (filter_length_le (fun b => which b && (f b <? 0)) (books equities)).
  pose proof (filter_length_le (fun b => which' b && (g b >? 0)) (books equities)). unfold books in *. rewrite length_map in *. lia.
Qed.

Lemma scale_nonneg : 0 <= scale.
Proof. unfold scale. vm_compute. discriminate. Qed.

Lemma scale_small : scale <= min * inject_Z (10 ^ 26).
Proof.
  apply Qle_trans with (1 * inject_Z (10 ^ 26)); [vm_compute; discriminate | apply Qmult_le_compat_r; [exact min_one | vm_compute; discriminate]].
Qed.

Lemma scale_1 : representable scale.
Proof. exists 1%Z, 20%Z. split; vm_compute; [discriminate | reflexivity]. Qed.

(** A matching of the native moves of two kinds of books. *)
Lemma stage_ends k which which' adj : (forall b, which b = negb (which' b)) -> entries_ok within k adj ->
  exists r, _match_cross_book_flows spot min (losses equities which delta) (gains equities which' delta) adj = Ret r /\ entries_ok within (2 + 4 * 16 + k) r.
Proof.
  intros W E.
  destruct (match_ends spot min scale ltac:(lra) scale_nonneg scale_small within scale_1 within_zero within_later k (losses equities which delta) (gains equities which' delta) adj) as (r & R & O).
  - apply moves_sound; [apply delta_representable | intros b I _; now apply moves_bounded].
  - intros k' b v u I [U T] [A B]. apply in_map_iff in I. destruct I as (x & <- & I). apply losses_In in I. destruct I as (I & Wx & N & _). split.
    + intros St. split; intros D; [lra|]. apply rnd_nonpos. pose proof (proj2 (A St) D). lra.
    + intros St L. refine (proj1 (step_bounded k' v u L (B St ltac:(lia)) (conj U (T _)))). unfold spot, _spot. now rewrite St.
  - intros k' b v u I [U T] [A B]. apply in_map_iff in I. destruct I as (x & <- & I). apply gains_In in I. destruct I as (I & Wx & N & _). split.
    + intros St. split; intros D; [|lra]. apply rnd_nonneg. pose proof (proj1 (A St) D). lra.
    + intros St L. refine (proj2 (step_bounded k' v u L (B St ltac:(lia)) (conj U (T _)))). unfold spot, _spot. now rewrite St.
  - exact E.
  - exists r. split; [exact R|]. pose proof (lists_short which which' delta delta) as L.
    replace (2 + 4 * 16 + k)%nat with (4 * (16 - (List.length (losses equities which delta) + List.length (gains equities which' delta))) +
      (2 + 4 * (List.length (losses equities which delta) + List.length (gains equities which' delta)) + k))%nat by lia.
    apply (entries_weaken within within_later), O.
Qed.

Definition own_way (k : nat) (b : string) (v : Q) : Prop := in_own_direction b v.

Lemma entries_impl (p q : nat -> string -> Q -> Prop) k d : (forall b v, p k b v -> q k b v) -> entries_ok p k d -> entries_ok q k d.
Proof. intros H. apply Forall_impl. intros [b v]. apply H. Qed.

Lemma touched l d k : entries_ok within k d -> entries_ok within k (fold_left (fun d b => touch b d) l d).
Proof.
  revert d. induction l as [|b r IH]; cbn [fold_left]; intros d E; [exact E|]. apply IH. unfold touch.
  destruct (dict_get b d); [exact E|]. apply entries_set; [exact E | apply within_zero].
Qed.

(** What is left of a stable book's move is bounded. *)
Lemma leftover_bounded k d b : (Z.of_nat k <= 100000)%Z -> entries_ok within k d -> stable b = true -> In b (books equities) ->
  Qabs (delta b ⊕ get_or b 0 d) * spot b <= inject_Z (10 ^ 26).
Proof.
  intros K E St I. pose proof (moves_bounded b I) as D. assert (Sp : spot b = 1) by (unfold spot, _spot; now rewrite St). rewrite Sp in *.
  rewrite Qmult_1_r in *. pose proof (proj2 (entries_get within within_zero k b d E) St K) as V. set (v := get_or b 0 d) in *.
  assert (R : representable (inject_Z (10 ^ 26))) by (exists 1%Z, 26%Z; split; vm_compute; [discriminate | reflexivity]).
  assert (Top : scale + inject_Z (Z.of_nat k) * scale <= inject_Z (10 ^ 26)).
  { assert (Kq : inject_Z (Z.of_nat k) <= 100000) by (change 100000 with (inject_Z 100000); rewrite <- Zle_Qle; exact K).
    apply Qle_trans with (scale + 100000 * scale); [|vm_compute; discriminate]. apply Qplus_le_r, Qmult_le_compat_r; [exact Kq | apply scale_nonneg]. }
  apply Qabs_Qle_condition in D, V. apply Qabs_Qle_condition. split; unfold dadd; [apply rnd_ge_bound; [now apply representable_opp|] | apply rnd_le_bound; [exact R|]]; lra.
Qed.

Lemma adjustments_end : exists r, cross_book_flow_adjustments_native equities day_start flow_native flow_usdc prices min = Ret r /\
  Forall (fun kv => in_own_direction (fst kv) (snd kv)) r.
Proof.
  unfold cross_book_flow_adjustments_native. fold delta spot.
  match goal with |- context [match equities with [] => _ | _ :: _ => ?b end] => set (body := b) end.
  enough (H : exists r, body = Ret r /\ Forall (fun kv => in_own_direction (fst kv) (snd kv)) r) by (clearbody body; case equities; [now exists [] | intros _ _; exact H]).
  unfold body. clear body.
  destruct (stage_ends 0 stable (fun b => negb (stable b)) []) as (d1 & E1 & O1); [intros b; now rewrite negb_involutive | constructor|].
  rewrite E1. cbn [obind]. destruct (stage_ends (2 + 4 * 16 + 0) (fun b => negb (stable b)) stable d1) as (d2 & E2 & O2); [reflexivity | exact O1|].
  rewrite E2. cbn [obind]. apply (touched (filter stable (books equities))) in O2.
  set (d3 := fold_left _ _ d2) in *. set (k := (2 + 4 * 16 + (2 + 4 * 16 + 0))%nat) in *.
  destruct (match_ends spot min (inject_Z (10 ^ 26)) ltac:(lra) ltac:(vm_compute; discriminate) ltac:(set (x := inject_Z (10 ^ 26)); assert (0 <= x) by (vm_compute; discriminate); nra)
    own_way ltac:(exists 1%Z, 26%Z; split; vm_compute; [discriminate | reflexivity]) (fun _ b => direction_zero b) (fun _ _ _ H => H) 0
    (losses equities stable (fun b => delta b ⊕ get_or b 0 d3)) (gains equities stable (fun b => delta b ⊕ get_or b 0 d3)) d3) as (d4 & E4 & O4).
  - apply moves_sound; [intros b; apply rnd_representable|]. intros b I W. apply (leftover_bounded k); [vm_compute; discriminate | exact O2 | now destruct W | exact I].
  - intros k' b v u I _ H. apply in_map_iff in I. destruct I as (x & <- & I). apply losses_In in I. intros St. destruct I as (_ & W & _). congruence.
  - intros k' b v u I _ H. apply in_map_iff in I. destruct I as (x & <- & I). apply gains_In in I. intros St. destruct I as (_ & W & _). congruence.
  - revert O2. apply Forall_impl. intros [b v] [H _]. exact H.
  - rewrite E4. cbn [obind]. eexists. split; [reflexivity|]. apply incl_Forall with d4; [apply incl_filter | exact O4].
Qed.
End Terminates.

(** The matching of moves between books ends: with a minimum of at least one USDC,
    at most eight books and moves worth at most 10^20, the adjustments are computed,
    although rounding may leave something of a move that was used up. No coin book is
    adjusted against its own move: one that gained is only treated as having received,
    one that lost as having sent. *)
Theorem cross_book_flow_ends equities day_start flow_native flow_usdc prices min :
  1 <= min -> (List.length equities <= 8)%nat ->
  (forall b, In b (books equities) -> Qabs (_native_delta equities day_start flow_native flow_usdc b) * _spot prices b <= inject_Z (10 ^ 20)) ->
  exists r, cross_book_flow_adjustments_native equities day_start flow_native flow_usdc prices min = Ret r /\
    forall b v, In (b, v) r -> stable b = false ->
      (0 <= _native_delta equities day_start flow_native flow_usdc b -> 0 <= v) /\
      (_native_delta equities day_start flow_native flow_usdc b <= 0 -> v <= 0).
Proof.
  intros M F B. destruct (adjustments_end equities day_start flow_native flow_usdc prices min M F B) as (r & E & D).
  exists r. split; [exact E|]. intros b v I St. rewrite Forall_forall in D. exact (D _ I St).
Qed.

(** 1000 USDT become 0.0166 BTC at 60000 and a USDC trading loss of 5 stays. *)
Lemma cross_book_flow_ends_witness :
  let equities := [("BTC", 0.5166666666666667); ("USDC", 9995); ("USDT", 0)]%string in
  let day_start := [("BTC", 0.5); ("USDC", 10000); ("USDT", 1000)]%string in
  exists r, cross_book_flow_adjustments_native equities day_start [] [] [("BTC", 60000)]%string 10 = Ret r /\
    map fst r = ["USDT"; "BTC"]%string /\ forall v, In ("BTC"%string, v) r -> 0 <= v.
Proof.
  cbv zeta. destruct (cross_book_flow_ends [("BTC", 0.5166666666666667); ("USDC", 9995); ("USDT", 0)]%string
    [("BTC", 0.5); ("USDC", 10000); ("USDT", 1000)]%string [] [] [("BTC", 60000)]%string 10) as (r & E & D).
  - discriminate.
  - cbn. lia.
  - intros b [<-|[<-|[<-|[]]]]; vm_compute; discriminate.
  - exists r. split; [exact E|]. split.
    + assert (C : exists r', cross_book_flow_adjustments_native [("BTC", 0.5166666666666667); ("USDC", 9995); ("USDT", 0)]%string
        [("BTC", 0.5); ("USDC", 10000); ("USDT", 1000)]%string [] [] [("BTC", 60000)]%string 10 = Ret r' /\ map fst r' = ["USDT"; "BTC"]%string)
        by (eexists; split; vm_compute; reflexivity).
      destruct C as (r' & C & K). rewrite E in C. injection C as ->. exact K.
    + intros v I. apply (D "BTC"%string v I eq_refl). vm_compute. discriminate.
Defined.
