(* ===== verification/DayState.v ===== *)
(** The state of a trading day ([engine/cash_flow.py] and the equity views of
    [engine/base.py]): the equity of each book at the start of the UTC day, and the
    deposits, withdrawals and transfers since, which are not profit or loss. *)

From S2P Require Import Prelude Dec PyStr Utils Group PyObj StateJson Market VolMetrics EntryGates Runtime.
Local Open Scope Q_scope.
Local Open Scope dec_scope.
Local Open Scope bool_scope.
Local Open Scope run_scope.
Local Open Scope list_scope.

(** ** Attributes of the state *)

Definition set_day_key (v : string) (s : StrategyState) : StrategyState :=
  mkState s.(version) v s.(day_start_equity_usdc) s.(last_equity_usdc) s.(cooldown_until_ms) s.(day_start_equity_by_book) s.(last_equity_by_book)
    s.(day_start_equity_native_by_book) s.(last_equity_native_by_book) s.(cooldown_until_ms_by_book) s.(day_net_flow_usdc_by_book)
    s.(day_net_flow_native_by_book) s.(last_flow_query_ms_by_book) s.(day_equity_anchor_ms_by_book) s.(next_group_id) s.(normal_recovery_counts)
    s.(hedge_maker_wait_cycles) s.(groups).

Definition set_day_start_equity_usdc (v : Q) (s : StrategyState) : StrategyState :=
  mkState s.(version) s.(day_key) v s.(last_equity_usdc) s.(cooldown_until_ms) s.(day_start_equity_by_book) s.(last_equity_by_book)
    s.(day_start_equity_native_by_book) s.(last_equity_native_by_book) s.(cooldown_until_ms_by_book) s.(day_net_flow_usdc_by_book)
    s.(day_net_flow_native_by_book) s.(last_flow_query_ms_by_book) s.(day_equity_anchor_ms_by_book) s.(next_group_id) s.(normal_recovery_counts)
    s.(hedge_maker_wait_cycles) s.(groups).

Definition set_last_equity_usdc (v : Q) (s : StrategyState) : StrategyState :=
  mkState s.(version) s.(day_key) s.(day_start_equity_usdc) v s.(cooldown_until_ms) s.(day_start_equity_by_book) s.(last_equity_by_book)
    s.(day_start_equity_native_by_book) s.(last_equity_native_by_book) s.(cooldown_until_ms_by_book) s.(day_net_flow_usdc_by_book)
    s.(day_net_flow_native_by_book) s.(last_flow_query_ms_by_book) s.(day_equity_anchor_ms_by_book) s.(next_group_id) s.(normal_recovery_counts)
    s.(hedge_maker_wait_cycles) s.(groups).

Definition set_cooldown_until_ms (v : option Z) (s : StrategyState) : StrategyState :=
  mkState s.(version) s.(day_key) s.(day_start_equity_usdc) s.(last_equity_usdc) v s.(day_start_equity_by_book) s.(last_equity_by_book)
    s.(day_start_equity_native_by_book) s.(last_equity_native_by_book) s.(cooldown_until_ms_by_book) s.(day_net_flow_usdc_by_book)
    s.(day_net_flow_native_by_book) s.(last_flow_query_ms_by_book) s.(day_equity_anchor_ms_by_book) s.(next_group_id) s.(normal_recovery_counts)
    s.(hedge_maker_wait_cycles) s.(groups).

Definition set_day_start_equity_by_book (v : dict Q) (s : StrategyState) : StrategyState :=
  mkState s.(version) s.(day_key) s.(day_start_equity_usdc) s.(last_equity_usdc) s.(cooldown_until_ms) v s.(last_equity_by_book)
    s.(day_start_equity_native_by_book) s.(last_equity_native_by_book) s.(cooldown_until_ms_by_book) s.(day_net_flow_usdc_by_book)
    s.(day_net_flow_native_by_book) s.(last_flow_query_ms_by_book) s.(day_equity_anchor_ms_by_book) s.(next_group_id) s.(normal_recovery_counts)
    s.(hedge_maker_wait_cycles) s.(groups).

Definition set_last_equity_by_book (v : dict Q) (s : StrategyState) : StrategyState :=
  mkState s.(version) s.(day_key) s.(day_start_equity_usdc) s.(last_equity_usdc) s.(cooldown_until_ms) s.(day_start_equity_by_book) v
    s.(day_start_equity_native_by_book) s.(last_equity_native_by_book) s.(cooldown_until_ms_by_book) s.(day_net_flow_usdc_by_book)
    s.(day_net_flow_native_by_book) s.(last_flow_query_ms_by_book) s.(day_equity_anchor_ms_by_book) s.(next_group_id) s.(normal_recovery_counts)
    s.(hedge_maker_wait_cycles) s.(groups).

Definition set_day_start_equity_native_by_book (v : dict Q) (s : StrategyState) : StrategyState :=
  mkState s.(version) s.(day_key) s.(day_start_equity_usdc) s.(last_equity_usdc) s.(cooldown_until_ms) s.(day_start_equity_by_book)
    s.(last_equity_by_book) v s.(last_equity_native_by_book) s.(cooldown_until_ms_by_book) s.(day_net_flow_usdc_by_book)
    s.(day_net_flow_native_by_book) s.(last_flow_query_ms_by_book) s.(day_equity_anchor_ms_by_book) s.(next_group_id) s.(normal_recovery_counts)
    s.(hedge_maker_wait_cycles) s.(groups).

Definition set_last_equity_native_by_book (v : dict Q) (s : StrategyState) : StrategyState :=
  mkState s.(version) s.(day_key) s.(day_start_equity_usdc) s.(last_equity_usdc) s.(cooldown_until_ms) s.(day_start_equity_by_book)
    s.(last_equity_by_book) s.(day_start_equity_native_by_book) v s.(cooldown_until_ms_by_book) s.(day_net_flow_usdc_by_book)
    s.(day_net_flow_native_by_book) s.(last_flow_query_ms_by_book) s.(day_equity_anchor_ms_by_book) s.(next_group_id) s.(normal_recovery_counts)
    s.(hedge_maker_wait_cycles) s.(groups).

Definition set_cooldown_until_ms_by_book (v : dict (option Z)) (s : StrategyState) : StrategyState :=
  mkState s.(version) s.(day_key) s.(day_start_equity_usdc) s.(last_equity_usdc) s.(cooldown_until_ms) s.(day_start_equity_by_book)
    s.(last_equity_by_book) s.(day_start_equity_native_by_book) s.(last_equity_native_by_book) v s.(day_net_flow_usdc_by_book)
    s.(day_net_flow_native_by_book) s.(last_flow_query_ms_by_book) s.(day_equity_anchor_ms_by_book) s.(next_group_id) s.(normal_recovery_counts)
    s.(hedge_maker_wait_cycles) s.(groups).

Definition set_day_net_flow_usdc_by_book (v : dict Q) (s : StrategyState) : StrategyState :=
  mkState s.(version) s.(day_key) s.(day_start_equity_usdc) s.(last_equity_usdc) s.(cooldown_until_ms) s.(day_start_equity_by_book)
    s.(last_equity_by_book) s.(day_start_equity_native_by_book) s.(last_equity_native_by_book) s.(cooldown_until_ms_by_book) v
    s.(day_net_flow_native_by_book) s.(last_flow_query_ms_by_book) s.(day_equity_anchor_ms_by_book) s.(next_group_id) s.(normal_recovery_counts)
    s.(hedge_maker_wait_cycles) s.(groups).

Definition set_day_net_flow_native_by_book (v : dict Q) (s : StrategyState) : StrategyState :=
  mkState s.(version) s.(day_key) s.(day_start_equity_usdc) s.(last_equity_usdc) s.(cooldown_until_ms) s.(day_start_equity_by_book)
    s.(last_equity_by_book) s.(day_start_equity_native_by_book) s.(last_equity_native_by_book) s.(cooldown_until_ms_by_book)
    s.(day_net_flow_usdc_by_book) v s.(last_flow_query_ms_by_book) s.(day_equity_anchor_ms_by_book) s.(next_group_id) s.(normal_recovery_counts)
    s.(hedge_maker_wait_cycles) s.(groups).

Definition set_last_flow_query_ms_by_book (v : dict Z) (s : StrategyState) : StrategyState :=
  mkState s.(version) s.(day_key) s.(day_start_equity_usdc) s.(last_equity_usdc) s.(cooldown_until_ms) s.(day_start_equity_by_book)
    s.(last_equity_by_book) s.(day_start_equity_native_by_book) s.(last_equity_native_by_book) s.(cooldown_until_ms_by_book)
    s.(day_net_flow_usdc_by_book) s.(day_net_flow_native_by_book) v s.(day_equity_anchor_ms_by_book) s.(next_group_id) s.(normal_recovery_counts)
    s.(hedge_maker_wait_cycles) s.(groups).

Definition set_day_equity_anchor_ms_by_book (v : dict Z) (s : StrategyState) : StrategyState :=
  mkState s.(version) s.(day_key) s.(day_start_equity_usdc) s.(last_equity_usdc) s.(cooldown_until_ms) s.(day_start_equity_by_book)
    s.(last_equity_by_book) s.(day_start_equity_native_by_book) s.(last_equity_native_by_book) s.(cooldown_until_ms_by_book)
    s.(day_net_flow_usdc_by_book) s.(day_net_flow_native_by_book) s.(last_flow_query_ms_by_book) v s.(next_group_id) s.(normal_recovery_counts)
    s.(hedge_maker_wait_cycles) s.(groups).

Definition set_normal_recovery_counts (v : dict Z) (s : StrategyState) : StrategyState :=
  mkState s.(version) s.(day_key) s.(day_start_equity_usdc) s.(last_equity_usdc) s.(cooldown_until_ms) s.(day_start_equity_by_book)
    s.(last_equity_by_book) s.(day_start_equity_native_by_book) s.(last_equity_native_by_book) s.(cooldown_until_ms_by_book)
    s.(day_net_flow_usdc_by_book) s.(day_net_flow_native_by_book) s.(last_flow_query_ms_by_book) s.(day_equity_anchor_ms_by_book) s.(next_group_id) v
    s.(hedge_maker_wait_cycles) s.(groups).

(** ** Days of the UTC calendar

    [datetime] counts days in the proleptic Gregorian calendar; a year here begins in
    March, so that the leap day is its last. *)

Definition civil_from_days (days : Z) : Z * Z * Z :=
  let z := (days + 719468)%Z in
  let doe := (z mod 146097)%Z in
  let yoe := ((doe - doe / 1460 + doe / 36524 - doe / 146096) / 365)%Z in
  let doy := (doe - (365 * yoe + yoe / 4 - yoe / 100))%Z in
  let mp := ((5 * doy + 2) / 153)%Z in
  let month := (if mp <? 10 then mp + 3 else mp - 9)%Z in
  ((yoe + 400 * (z / 146097) + (if month <=? 2 then 1 else 0))%Z, month, (doy - (153 * mp + 2) / 5 + 1)%Z).

Definition days_from_civil (year month day : Z) : Z :=
  let y := (if month <=? 2 then year - 1 else year)%Z in
  let yoe := (y mod 400)%Z in
  let mp := (if month >? 2 then month - 3 else month + 9)%Z in
  let doy := ((153 * mp + 2) / 5 + day - 1)%Z in
  (y / 400 * 146097 + (yoe * 365 + yoe / 4 - yoe / 100 + doy) - 719468)%Z.

Definition leap (year : Z) : bool := ((year mod 4 =? 0) && (negb (year mod 100 =? 0) || (year mod 400 =? 0)))%Z.
Definition days_in_month (year month : Z) : Z :=
  if (month =? 2)%Z then (if leap year then 29 else 28)%Z
  else if ((month =? 4) || (month =? 6) || (month =? 9) || (month =? 11))%Z then 30%Z else 31%Z.

Definition day_ms : Z := 86400000.

(** [utc_now().strftime("%Y-%m-%d")], from the year 1000 on. *)
Definition two_digits (n : Z) : string := if (n <? 10)%Z then ("0" ++ print_nat n)%string else print_nat n.
Definition today_key (now_ms : Z) : string :=
  let '(y, m, d) := civil_from_days (now_ms / day_ms) in
  (print_nat y ++ "-" ++ two_digits m ++ "-" ++ two_digits d)%string.

(** The fields of [strptime]: four digits of year, one or two of month and day. *)
Definition digits_field (least most : nat) (s : string) : option Z :=
  if all_digits s && (least <=? String.length s)%nat && (String.length s <=? most)%nat then Some (digits_value 0 s) else None.
Definition day_field (s : string) : option Z :=
  match s with
  | String " " r => match digits_field 1 1 r with Some 0%Z => None | o => o end
  | _ => digits_field 1 2 s
  end.

Definition _day_start_ms_from_key (key : string) : Z :=
  match split_on "-" key EmptyString with
  | [ys; ms; ds] =>
      match digits_field 4 4 ys, digits_field 1 2 ms, day_field ds with
      | Some y, Some m, Some d =>
          if ((1 <=? y) && (1 <=? m) && (m <=? 12) && (1 <=? d) && (d <=? days_in_month y m))%Z
          then (days_from_civil y m d * day_ms)%Z else 0%Z
      | _, _, _ => 0%Z
      end
  | _ => 0%Z
  end.

(** ** Books and their equity *)

Record book_config : Type := {
  traded_collaterals : list string;
  scan_underlyings : list string;
  has_private_credentials : bool;
  cash_flow_query_interval_seconds : Z;
}.

(** [iter_transaction_log(currency, start, end)]: the rows of the account's log. *)
Class TransactionLog : Type := iter_transaction_log : string -> Z -> Z -> outcome (list pyobj).

Definition cash_flow_scan_currencies (traded_collaterals : list string) : list string :=
  let traded := map upper traded_collaterals in
  if (mem_str "BTC" traded || mem_str "ETH" traded) && negb (mem_str "USDT" traded) then traded ++ ["USDT"%string] else traded.

(** [sum(d.values(), Decimal("0"))] *)
Definition total (d : dict Q) : Q := dsum (map snd d).

Section Books.
Context {X : Exchange} {L : TransactionLog}.
Variable c : book_config.

Definition has_coin_book (currency : string) : bool :=
  mem_str currency (map upper c.(traded_collaterals)) && mem_str currency (map upper c.(scan_underlyings)).
Definition coin_books : list string := filter has_coin_book ["BTC"; "ETH"]%string.
Definition stable_books : list string := filter (fun b => mem_str b (map upper c.(traded_collaterals))) ["USDC"; "USDT"]%string.

Definition book_equity (summaries : dict AccountSummary) (book : string) : Q :=
  match dict_get book summaries with Some s => s.(equity) | None => 0 end.

Definition _book_equities_native (summaries : dict AccountSummary) : dict Q :=
  map (fun b => (b, book_equity summaries b)) (coin_books ++ stable_books).

Fixpoint coin_equities (summaries : dict AccountSummary) (currencies : list string) : M (dict Q) :=
  match currencies with
  | [] => ret []
  | currency :: rest =>
      let* e := match dict_get currency summaries with
                | None => ret 0
                | Some s => let* price := _currency_index_price currency in ret (s.(equity) ⊗ price)
                end in
      let* more := coin_equities summaries rest in
      ret ((currency, e) :: more)
  end.

Definition _book_equities_usdc (summaries : dict AccountSummary) : M (dict Q) :=
  let* coins := coin_equities summaries coin_books in
  ret (coins ++ map (fun b => (b, book_equity summaries b)) stable_books).

Definition _total_equity_usdc (summaries : dict AccountSummary) : M Q :=
  let* equities := _book_equities_usdc summaries in ret (total equities).

(** A call with an order book cache of its own. *)
Definition with_fresh_cache {A} (m : M A) : M A :=
  fun w => let r := m (set_orderbook_cache [] w) in (set_orderbook_cache w.(orderbook_cache) (fst r), snd r).

Definition _cash_flow_books_for_snapshot (per_book_equities : dict Q) : list string :=
  fold_left (fun books book => if mem_str book books then books else books ++ [book]) (cash_flow_scan_currencies c.(traded_collaterals))
    (map fst per_book_equities).

(** ** The daily reset *)

Definition setdefault {A} (k : string) (v : A) (d : dict A) : dict A := match dict_get k d with Some _ => d | None => dict_set k v d end.

Definition _heal_legacy_flow_double_count (s : StrategyState) (book : string) (equity_native : Q) (now_ms : Z) : StrategyState :=
  match dict_get book s.(day_equity_anchor_ms_by_book) with
  | Some _ => s
  | None =>
      let flow := get_or book 0 s.(day_net_flow_native_by_book) in
      let start := get_or book 0 s.(day_start_equity_native_by_book) in
      let ratio := safe_div flow start 0 in
      if (start >? 0) && (flow >? 0) && ((0.95 <=? ratio) && (ratio <=? 1.05) && (equity_native >=? start ⊗ 0.95)) then
        set_last_flow_query_ms_by_book (dict_pop book s.(last_flow_query_ms_by_book))
          (set_day_net_flow_native_by_book (dict_set book 0 s.(day_net_flow_native_by_book))
            (set_day_net_flow_usdc_by_book (dict_set book 0 s.(day_net_flow_usdc_by_book))
              (set_day_equity_anchor_ms_by_book (dict_set book now_ms s.(day_equity_anchor_ms_by_book)) s)))
      else
        let day_start_ms := _day_start_ms_from_key s.(day_key) in
        if (day_start_ms >? 0)%Z then set_day_equity_anchor_ms_by_book (dict_set book day_start_ms s.(day_equity_anchor_ms_by_book)) s else s
  end.

(** A book of the USDC view, on a day already begun. *)
Definition resume_book (per_book_native : dict Q) (now_ms : Z) (s : StrategyState) (kv : string * Q) : StrategyState :=
  let '(book, e) := kv in
  match dict_get book s.(day_start_equity_by_book) with
  | None =>
      set_day_equity_anchor_ms_by_book (dict_set book now_ms s.(day_equity_anchor_ms_by_book))
        (set_day_net_flow_usdc_by_book (setdefault book 0 s.(day_net_flow_usdc_by_book))
          (set_day_start_equity_by_book (dict_set book e s.(day_start_equity_by_book)) s))
  | Some _ =>
      _heal_legacy_flow_double_count (set_day_net_flow_usdc_by_book (setdefault book 0 s.(day_net_flow_usdc_by_book)) s) book
        (get_or book 0 per_book_native) now_ms
  end.

(** A book of the native view, on a day already begun. *)
Definition resume_native (now_ms : Z) (s : StrategyState) (kv : string * Q) : StrategyState :=
  let '(book, e) := kv in
  let start := if String.eqb book "USDC" || String.eqb book "USDT" then get_or book e s.(day_start_equity_by_book) else e in
  match dict_get book s.(day_start_equity_native_by_book) with
  | None =>
      set_day_equity_anchor_ms_by_book (setdefault book now_ms s.(day_equity_anchor_ms_by_book))
        (set_day_net_flow_native_by_book (setdefault book 0 s.(day_net_flow_native_by_book))
          (set_day_start_equity_native_by_book (dict_set book start s.(day_start_equity_native_by_book)) s))
  | Some _ => set_day_net_flow_native_by_book (setdefault book 0 s.(day_net_flow_native_by_book)) s
  end.

Definition resume_flow (s : StrategyState) (book : string) : StrategyState :=
  set_day_net_flow_native_by_book (setdefault book 0 s.(day_net_flow_native_by_book))
    (set_day_net_flow_usdc_by_book (setdefault book 0 s.(day_net_flow_usdc_by_book)) s).

Definition zero_flows (books : list string) : dict Q := fold_left (fun d b => dict_set b 0 d) books [].

Definition new_day (s : StrategyState) (today : string) (total_equity : Q) (per_book per_book_native : dict Q) (now_ms : Z) : StrategyState :=
  let flow_books := _cash_flow_books_for_snapshot per_book in
  set_day_equity_anchor_ms_by_book (map (fun kv => (fst kv, now_ms)) per_book)
    (set_last_flow_query_ms_by_book []
      (set_day_net_flow_native_by_book (zero_flows flow_books)
        (set_day_net_flow_usdc_by_book (zero_flows flow_books)
          (set_day_start_equity_native_by_book per_book_native
            (set_day_start_equity_by_book per_book
              (set_day_start_equity_usdc total_equity (set_day_key today s))))))).

Definition same_day (s : StrategyState) (per_book per_book_native : dict Q) (now_ms : Z) : StrategyState :=
  let s := fold_left (resume_book per_book_native now_ms) per_book s in
  let s := fold_left (resume_native now_ms) per_book_native s in
  fold_left resume_flow (_cash_flow_books_for_snapshot per_book) s.

(** [if ts and ts > now_ms] *)
Definition cooling (now_ms : Z) (ts : option Z) : bool := match ts with Some t => negb (t =? 0)%Z && (now_ms <? t)%Z | None => false end.

Definition daily (s : StrategyState) (total_equity : Q) (per_book per_book_native : dict Q) (now_ms : Z) : StrategyState :=
  let s := if negb (String.eqb s.(day_key) (today_key now_ms)) then new_day s (today_key now_ms) total_equity per_book per_book_native now_ms
           else same_day s per_book per_book_native now_ms in
  set_cooldown_until_ms_by_book (filter (fun kv => cooling now_ms (snd kv)) s.(cooldown_until_ms_by_book))
    (set_last_equity_native_by_book per_book_native (set_last_equity_by_book per_book (set_last_equity_usdc total_equity s))).

Definition _reset_daily_state (s : StrategyState) (summaries : dict AccountSummary) (now_ms : Z) : M StrategyState :=
  let* total_equity := with_fresh_cache (_total_equity_usdc summaries) in
  let* per_book := with_fresh_cache (_book_equities_usdc summaries) in
  ret (daily s total_equity per_book (_book_equities_native summaries) now_ms).

(** ** External cash flows *)

Fixpoint external_flow (net : Q) (rows : list pyobj) : Q :=
  match rows with
  | [] => net
  | PDict d :: rest =>
      if mem_str (lower (str_or_default (dget "type" d) EmptyString)) EXTERNAL_FLOW_TRANSACTION_TYPES
      then external_flow (net ⊕ to_decimal (match dget "change" d with PNone => dget "amount" d | v => v end) 0) rest
      else external_flow net rest
  | _ :: rest => external_flow net rest
  end.

Definition sum_external_flow_native_in_window (currency : string) (start_ms end_ms : Z) : outcome Q :=
  (let! rows := iter_transaction_log (upper currency) start_ms end_ms in Ret (external_flow 0 rows))%outcome.

Definition _flow_query_start_ms (s : StrategyState) (collateral : string) : Z :=
  let day_start_ms := _day_start_ms_from_key s.(day_key) in
  if (day_start_ms <=? 0)%Z then 0%Z
  else
    let anchor_ms := get_or (upper collateral) 0%Z s.(day_equity_anchor_ms_by_book) in
    if (anchor_ms <=? 0)%Z then day_start_ms else Z.max day_start_ms anchor_ms.

Definition record_flow (collateral : string) (net_usdc net_native : Q) (now_ms : Z) (s : StrategyState) : StrategyState :=
  set_last_flow_query_ms_by_book (dict_set collateral now_ms s.(last_flow_query_ms_by_book))
    (set_day_net_flow_native_by_book (dict_set collateral net_native s.(day_net_flow_native_by_book))
      (set_day_net_flow_usdc_by_book (dict_set collateral net_usdc s.(day_net_flow_usdc_by_book)) s)).

Definition _refresh_cash_flow_for_currency (s : StrategyState) (collateral : string) (now_ms : Z) (force : bool) (interval_ms : Z) : M StrategyState :=
  if (_flow_query_start_ms s collateral <=? 0)%Z then ret s
  else if negb force && negb (get_or collateral 0 s.(last_flow_query_ms_by_book) =? 0)%Z
          && (now_ms - get_or collateral 0 s.(last_flow_query_ms_by_book) <? interval_ms)%Z then ret s
  else
    let* net := attempt (lift (sum_external_flow_native_in_window collateral (_flow_query_start_ms s collateral) now_ms)) in
    match net with
    | None => ret s
    | Some net_native =>
        if String.eqb collateral "USDC" || String.eqb collateral "USDT" then ret (record_flow collateral net_native net_native now_ms s)
        else let* price := _currency_index_price collateral in ret (record_flow collateral (net_native ⊗ price) net_native now_ms s)
    end.

Fixpoint refresh_flows (s : StrategyState) (collaterals : list string) (now_ms : Z) (force : bool) (interval_ms : Z) : M StrategyState :=
  match collaterals with
  | [] => ret s
  | b :: rest =>
      let* s := _refresh_cash_flow_for_currency s (upper b) now_ms force interval_ms in
      refresh_flows s rest now_ms force interval_ms
  end.

Definition _heal_cash_flow_after_large_equity_move (s : StrategyState) (summaries : dict AccountSummary) (now_ms : Z) : M StrategyState :=
  let* total_equity := _total_equity_usdc summaries in
  let day_start := match s.(day_start_equity_by_book) with [] => s.(day_start_equity_usdc) | d => total d end in
  let equity_delta := total_equity ⊖ day_start in
  if dabs equity_delta <? 200 then ret s
  else if dabs (total s.(day_net_flow_usdc_by_book)) >=? dabs equity_delta ⊗ 0.35 then ret s
  else refresh_flows s (cash_flow_scan_currencies c.(traded_collaterals)) now_ms true 0.

Definition _refresh_cash_flows_by_book (s : StrategyState) (summaries : dict AccountSummary) (force : bool) (now_ms : Z) : M StrategyState :=
  if negb c.(has_private_credentials) then ret s
  else if (_day_start_ms_from_key s.(day_key) <=? 0)%Z then ret s
  else
    let* s := refresh_flows s (cash_flow_scan_currencies c.(traded_collaterals)) now_ms force
      (Z.max c.(cash_flow_query_interval_seconds) 1 * 1000) in
    match summaries with [] => ret s | _ => _heal_cash_flow_after_large_equity_move s summaries now_ms end.
End Books.

(** *** A key names the midnight of its day *)

(** A property of the first [n] numbers, by running it on each. *)
Definition checked (ok : Z -> bool) (n : positive) : Z * bool :=
  Pos.iter (fun a => (fst a + 1, snd a && ok (fst a))%Z) (0%Z, true) n.

Lemma checked_all ok n : snd (checked ok n) = true -> forall z, (0 <= z < Zpos n)%Z -> ok z = true.
Proof.
  assert (G : fst (checked ok n) = Zpos n /\ (snd (checked ok n) = true -> forall z, (0 <= z < Zpos n)%Z -> ok z = true)).
  { unfold checked. induction n as [|n [F IH]] using Pos.peano_ind.
    - cbn. split; [reflexivity|]. intros H z Z. now replace z with 0%Z by lia.
    - rewrite Pos.iter_succ. cbn [fst snd]. rewrite F. split; [lia|]. intros H z Z. apply andb_prop in H. destruct H as [H E].
      destruct (Z.eq_dec z (Zpos n)) as [->|]; [exact E | apply IH; [exact H | lia]]. }
  apply G.
Qed.

(** A day of the 400-year cycle, with the year of the cycle it is in. *)
Definition civil_of_cycle (doe : Z) : Z * Z * Z :=
  let yoe := ((doe - doe / 1460 + doe / 36524 - doe / 146096) / 365)%Z in
  let doy := (doe - (365 * yoe + yoe / 4 - yoe / 100))%Z in
  let mp := ((5 * doy + 2) / 153)%Z in
  (yoe, (if mp <? 10 then mp + 3 else mp - 9)%Z, (doy - (153 * mp + 2) / 5 + 1)%Z).

Definition day_ok (doe : Z) : bool :=
  let '(yoe, month, day) := civil_of_cycle doe in
  let mp := (if month >? 2 then month - 3 else month + 9)%Z in
  ((0 <=? yoe) && (yoe <? 400) && (1 <=? month) && (month <=? 12) && (1 <=? day) && (day <=? 31) &&
   (day <=? days_in_month (yoe + (if month <=? 2 then 1 else 0)) month) &&
   (yoe * 365 + yoe / 4 - yoe / 100 + ((153 * mp + 2) / 5 + day - 1) =? doe))%Z.

Lemma cycle_ok doe : (0 <= doe < 146097)%Z -> day_ok doe = true.
Proof. apply checked_all. vm_compute. reflexivity. Qed.

Lemma leap_cycle y k : leap (y + 400 * k) = leap y.
Proof.
  unfold leap. replace ((y + 400 * k) mod 400)%Z with (y mod 400)%Z by (rewrite Z.mul_comm, Z.mod_add; [reflexivity | lia]).
  replace (y + 400 * k)%Z with (y + (4 * k) * 100)%Z at 2 by lia. rewrite Z.mod_add by lia.
  replace (y + 400 * k)%Z with (y + (100 * k) * 4)%Z by lia. now rewrite Z.mod_add by lia.
Qed.

Lemma civil_round_trip days : let '(y, m, d) := civil_from_days days in
  days_from_civil y m d = days /\ (1 <= m <= 12)%Z /\ (1 <= d <= 31)%Z /\ (d <= days_in_month y m)%Z.
Proof.
  unfold civil_from_days. pose proof (Z.div_mod (days + 719468) 146097 ltac:(lia)) as E.
  pose proof (Z.mod_pos_bound (days + 719468) 146097 ltac:(lia)) as B. set (doe := ((days + 719468) mod 146097)%Z) in *.
  set (era := ((days + 719468) / 146097)%Z) in *. pose proof (cycle_ok doe B) as K. unfold day_ok, civil_of_cycle in K. cbv zeta in K |- *.
  set (yoe := ((doe - doe / 1460 + doe / 36524 - doe / 146096) / 365)%Z) in *. set (doy := (doe - (365 * yoe + yoe / 4 - yoe / 100))%Z) in *.
  set (mp := ((5 * doy + 2) / 153)%Z) in *. set (month := (if mp <? 10 then mp + 3 else mp - 9)%Z) in *. set (day := (doy - (153 * mp + 2) / 5 + 1)%Z) in *.
  rewrite !andb_true_iff, !Z.leb_le, Z.ltb_lt, Z.eqb_eq in K. destruct K as [[[[[[[Y0 Y4] M1] M12] D1] D31] Dm] S].
  split; [|split; [lia | split; [lia|]]].
  - unfold days_from_civil. set (y := (if month <=? 2 then yoe + 400 * era + (if month <=? 2 then 1 else 0) - 1 else yoe + 400 * era + (if month <=? 2 then 1 else 0))%Z).
    assert (Ey : y = (yoe + era * 400)%Z) by (unfold y; destruct (month <=? 2)%Z; lia). rewrite Ey.
    rewrite Z.mod_add, Z.mod_small, Z.div_add, Z.div_small by lia. lia.
  - set (x := (if month <=? 2 then 1 else 0)%Z) in *. replace (yoe + 400 * era + x)%Z with ((yoe + x) + 400 * era)%Z by lia.
    unfold days_in_month in *. destruct (month =? 2)%Z; [now rewrite leap_cycle | exact Dm].
Qed.

Definition reads_back (least most : nat) (print : Z -> string) (n : Z) : bool :=
  free_of "-" (print n) && match digits_field least most (print n) with Some k => (k =? n)%Z | None => false end.

Lemma two_digits_read n : (0 <= n < 100)%Z -> reads_back 1 2 two_digits n = true.
Proof. apply checked_all. vm_compute. reflexivity. Qed.

Lemma day_field_digits n : (0 <= n < 100)%Z -> day_field (two_digits n) = digits_field 1 2 (two_digits n).
Proof.
  intros H. enough (G : (match two_digits n with String " " _ => false | _ => true end) = true).
  { unfold day_field. destruct (two_digits n) as [|[[] [] [] [] [] [] [] []] r]; try reflexivity; discriminate. }
  revert n H. apply (checked_all (fun n => match two_digits n with String " " _ => false | _ => true end) 100). vm_compute. reflexivity.
Qed.

Lemma year_reads y : (1000 <= y < 10000)%Z -> reads_back 4 4 print_nat y = true.
Proof.
  intros H. replace y with (1000 + (y - 1000))%Z by lia.
  apply (checked_all (fun k => reads_back 4 4 print_nat (1000 + k)) 9000); [vm_compute; reflexivity | lia].
Qed.

Lemma read_field least most print n : reads_back least most print n = true -> free_of "-" (print n) = true /\ digits_field least most (print n) = Some n.
Proof.
  unfold reads_back. intros H. apply andb_prop in H. destruct H as [F H]. split; [exact F|].
  destruct (digits_field least most (print n)) as [k|]; [|discriminate]. apply Z.eqb_eq in H. now subst.
Qed.

Lemma year_bounds y m d : (1 <= m <= 12)%Z -> (1 <= d <= 31)%Z -> (0 <= days_from_civil y m d < 2932897)%Z -> (1000 <= y < 10000)%Z.
Proof.
  intros M D. unfold days_from_civil. set (y' := (if m <=? 2 then y - 1 else y)%Z). set (mp := (if m >? 2 then m - 3 else m + 9)%Z).
  assert (Y : (y' <= y <= y' + 1)%Z) by (unfold y'; destruct (m <=? 2)%Z; lia).
  assert (P : (0 <= mp <= 11)%Z /\ (y = y' + 1 -> 10 <= mp)%Z)
    by (unfold mp, y'; destruct (Z.gtb_spec m 2), (Z.leb_spec m 2); lia).
  pose proof (Z.div_mod y' 400 ltac:(lia)) as E. pose proof (Z.mod_pos_bound y' 400 ltac:(lia)) as B.
  set (q := (y' / 400)%Z) in *. set (r := (y' mod 400)%Z) in *.
  assert (I : (0 <= (153 * mp + 2) / 5 <= 337)%Z) by (split; [apply Z.div_pos; lia | apply Z.div_le_upper_bound; lia]).
  assert (J : (y = y' + 1 -> 306 <= (153 * mp + 2) / 5)%Z) by (intros K; apply Z.div_le_lower_bound; lia).
  intros H. Z.to_euclidean_division_equations. lia.
Qed.

Lemma day_start_of_today now_ms : (0 <= now_ms < 2932897 * day_ms)%Z -> _day_start_ms_from_key (today_key now_ms) = (now_ms / day_ms * day_ms)%Z.
Proof.
  intros N. unfold today_key. pose proof (civil_round_trip (now_ms / day_ms)) as C. destruct (civil_from_days (now_ms / day_ms)) as [[y m] d].
  destruct C as (E & M & D & Dm). assert (B : (0 <= now_ms / day_ms < 2932897)%Z) by (unfold day_ms in *; split; [apply Z.div_pos; lia | apply Z.div_lt_upper_bound; lia]).
  pose proof (year_bounds y m d M D ltac:(lia)) as Y.
  destruct (read_field _ _ _ _ (year_reads y Y)) as [Fy Ry]. destruct (read_field _ _ _ _ (two_digits_read m ltac:(lia))) as [Fm Rm].
  destruct (read_field _ _ _ _ (two_digits_read d ltac:(lia))) as [Fd Rd].
  unfold _day_start_ms_from_key. change ("-" ++ two_digits m ++ "-" ++ two_digits d)%string with (sep_of "-" ++ (two_digits m ++ sep_of "-" ++ two_digits d))%string.
  rewrite split_cons by exact Fy. rewrite split_cons by exact Fm. rewrite split_free by exact Fd. cbn [append].
  rewrite Ry, Rm, day_field_digits, Rd by lia.
  replace ((1 <=? y) && (1 <=? m) && (m <=? 12) && (1 <=? d) && (d <=? days_in_month y m))%Z with true by (symmetry; rewrite !andb_true_iff, !Z.leb_le; lia).
  now rewrite E.
Qed.

(** ** The state of a day, once begun *)

Section Daily.
Variables (c : book_config) (per_book per_book_native : dict Q) (now_ms : Z).

Definition has {A} (b : string) (d : dict A) : Prop := dict_get b d <> None.

Lemma has_set {A} b k (v : A) d : has b (dict_set k v d) <-> b = k \/ has b d.
Proof. unfold has. rewrite dict_get_set. destruct (String.eqb_spec b k); intuition congruence. Qed.

Lemma has_setdefault {A} b k (v : A) d : has b (setdefault k v d) <-> b = k \/ has b d.
Proof. unfold setdefault. destruct (dict_get k d) eqn:E; [|apply has_set]. unfold has. intuition congruence. Qed.

Lemma has_key {A} b (d : dict A) : In b (map fst d) -> has b d.
Proof.
  unfold has. induction d as [|[k v] r IH]; cbn [map fst dict_get In]; [tauto|]. intros [->|I].
  - now rewrite String.eqb_refl.
  - destruct (String.eqb b k); [discriminate | auto].
Qed.

Lemma setdefault_has {A} k (v : A) d : has k d -> setdefault k v d = d.
Proof. unfold has, setdefault. now destruct (dict_get k d). Qed.

(** Entries are added, and the starts of the day never replaced. *)
Record grows (s s' : StrategyState) : Prop := {
  key_same : s'.(day_key) = s.(day_key);
  start_kept : forall b v, dict_get b s.(day_start_equity_by_book) = Some v -> dict_get b s'.(day_start_equity_by_book) = Some v;
  native_kept : forall b v, dict_get b s.(day_start_equity_native_by_book) = Some v -> dict_get b s'.(day_start_equity_native_by_book) = Some v;
  flow_kept : forall b, has b s.(day_net_flow_usdc_by_book) -> has b s'.(day_net_flow_usdc_by_book);
  flow_native_kept : forall b, has b s.(day_net_flow_native_by_book) -> has b s'.(day_net_flow_native_by_book);
  anchor_kept : forall b, has b s.(day_equity_anchor_ms_by_book) -> has b s'.(day_equity_anchor_ms_by_book);
}.

Lemma longer_refl s : grows s s.
Proof. constructor; auto. Qed.

Lemma longer_trans s1 s2 s3 : grows s1 s2 -> grows s2 s3 -> grows s1 s3.
Proof. intros A B. destruct A, B. constructor; auto. congruence. Qed.

Lemma kept_set {A} (d : dict A) k v b x : dict_get k d = None -> dict_get b d = Some x -> dict_get b (dict_set k v d) = Some x.
Proof. intros N E. rewrite dict_get_set. destruct (String.eqb_spec b k); [congruence | exact E]. Qed.

Lemma heal_grows s b e : grows s (_heal_legacy_flow_double_count s b e now_ms).
Proof.
  unfold _heal_legacy_flow_double_count. destruct (dict_get b s.(day_equity_anchor_ms_by_book)); [apply longer_refl|].
  destruct (_ && _); [constructor; cbn; auto; intros; apply has_set; auto|].
  destruct (_ >? 0)%Z; [constructor; cbn; auto; intros; apply has_set; auto | apply longer_refl].
Qed.

Lemma book_grows s kv : grows s (resume_book per_book_native now_ms s kv).
Proof.
  destruct kv as [b e]. unfold resume_book. destruct (dict_get b s.(day_start_equity_by_book)) eqn:E.
  - eapply longer_trans; [|apply heal_grows]. constructor; cbn; auto. intros. apply has_setdefault. auto.
  - constructor; cbn; auto; intros; [now apply kept_set | apply has_setdefault; auto | apply has_set; auto].
Qed.

Lemma native_grows s kv : grows s (resume_native now_ms s kv).
Proof.
  destruct kv as [b e]. unfold resume_native. destruct (dict_get b s.(day_start_equity_native_by_book)) eqn:E.
  - constructor; cbn; auto. intros. apply has_setdefault. auto.
  - constructor; cbn; auto; intros; [now apply kept_set | apply has_setdefault; auto | apply has_setdefault; auto].
Qed.

Lemma flow_grows s b : grows s (resume_flow s b).
Proof. constructor; cbn; auto; intros; apply has_setdefault; auto. Qed.

Lemma fold_grows {A} (f : StrategyState -> A -> StrategyState) l : (forall s a, grows s (f s a)) -> forall s, grows s (fold_left f l s).
Proof. intros F. induction l as [|a r IH]; cbn [fold_left]; intros s; [apply longer_refl|]. eapply longer_trans; [apply F | apply IH]. Qed.

(** What each step leaves at its own book holds at the end. *)
Lemma fold_reaches {A} (f : StrategyState -> A -> StrategyState) (p : A -> StrategyState -> Prop) l :
  (forall s a, grows s (f s a)) -> (forall a s s', grows s s' -> p a s -> p a s') -> (forall a s, p a (f s a)) ->
  forall s a, In a l -> p a (fold_left f l s).
Proof.
  intros F K P. induction l as [|x r IH]; cbn [fold_left In]; intros s a; [tauto|]. intros [->|I]; [|now apply IH].
  eapply K; [apply fold_grows, F | apply P].
Qed.

Hypothesis key_valid : (0 < _day_start_ms_from_key (today_key now_ms))%Z.

(** A state in which nothing is left to begin. *)
Record ready (s : StrategyState) : Prop := {
  ready_key : s.(day_key) = today_key now_ms;
  ready_book : forall b, In b (map fst per_book) -> has b s.(day_start_equity_by_book) /\ has b s.(day_equity_anchor_ms_by_book);
  ready_native : forall b, In b (map fst per_book_native) -> has b s.(day_start_equity_native_by_book) /\ has b s.(day_net_flow_native_by_book);
  ready_flow : forall b, In b (_cash_flow_books_for_snapshot c per_book) -> has b s.(day_net_flow_usdc_by_book) /\ has b s.(day_net_flow_native_by_book);
}.

Lemma flow_books_incl b : In b (map fst per_book) -> In b (_cash_flow_books_for_snapshot c per_book).
Proof.
  unfold _cash_flow_books_for_snapshot. generalize (map fst per_book). induction (cash_flow_scan_currencies _) as [|x r IH]; cbn [fold_left]; intros l I; [exact I|].
  apply IH. destruct (mem_str x l); [exact I | apply in_or_app; auto].
Qed.

Lemma same_day_ready s : s.(day_key) = today_key now_ms -> ready (same_day c s per_book per_book_native now_ms) /\ grows s (same_day c s per_book per_book_native now_ms).
Proof.
  intros K. unfold same_day. set (s1 := fold_left (resume_book per_book_native now_ms) per_book s).
  set (s2 := fold_left (resume_native now_ms) per_book_native s1). set (s3 := fold_left resume_flow _ s2).
  assert (G1 : grows s s1) by apply fold_grows, book_grows. assert (G2 : grows s1 s2) by apply fold_grows, native_grows.
  assert (G3 : grows s2 s3) by apply fold_grows, flow_grows. assert (G : grows s s3) by (repeat (eapply longer_trans; [eassumption|]); apply longer_refl).
  split; [|exact G]. constructor.
  - now rewrite (key_same _ _ G).
  - intros b I. apply in_map_iff in I. destruct I as ([b' e] & <- & I). cbn [fst].
    assert (P : s1.(day_key) = today_key now_ms /\ has b' s1.(day_start_equity_by_book) /\ has b' s1.(day_equity_anchor_ms_by_book)).
    { split; [now rewrite (key_same _ _ G1)|].
      assert (Q : s1.(day_key) = today_key now_ms -> has b' s1.(day_start_equity_by_book) /\ has b' s1.(day_equity_anchor_ms_by_book)); [|apply Q; now rewrite (key_same _ _ G1)].
      apply (fold_reaches (resume_book per_book_native now_ms)
        (fun kv s => s.(day_key) = today_key now_ms -> has (fst kv) s.(day_start_equity_by_book) /\ has (fst kv) s.(day_equity_anchor_ms_by_book)) per_book
        book_grows) with (a := (b', e)); [| |exact I].
      - intros [x y] t t' H P E. rewrite (key_same _ _ H) in E. destruct (P E) as [P1 P2]. split; [|now apply (anchor_kept _ _ H)].
        unfold has in *. cbn [fst] in *. destruct (dict_get x t.(day_start_equity_by_book)) eqn:Ex; [|congruence].
        apply (start_kept _ _ H) in Ex. congruence.
      - intros [x y] t. unfold resume_book. destruct (dict_get x t.(day_start_equity_by_book)) eqn:Ex; intros E; cbn [fst].
        + assert (Sx : has x t.(day_start_equity_by_book)) by (unfold has; congruence). unfold _heal_legacy_flow_double_count in *.
          set (t' := set_day_net_flow_usdc_by_book _ t) in *. change (day_equity_anchor_ms_by_book t') with (day_equity_anchor_ms_by_book t) in *.
          destruct (dict_get x t.(day_equity_anchor_ms_by_book)) eqn:Ea; [split; [exact Sx | unfold has; cbn; congruence]|].
          destruct (_ && _); [split; [exact Sx | cbn; apply has_set; auto]|]. change (day_key t') with (day_key t) in *.
          assert (Kt : t.(day_key) = today_key now_ms) by (destruct (_ >? 0)%Z; exact E).
          rewrite Kt. replace (_day_start_ms_from_key (today_key now_ms) >? 0)%Z with true by (symmetry; apply Z.gtb_lt, key_valid).
          split; [exact Sx | cbn; apply has_set; auto].
        + cbn. split; apply has_set; auto. }
    destruct P as (_ & P1 & P2). split; [|now apply (anchor_kept _ _ G3), (anchor_kept _ _ G2)]. unfold has in *.
    destruct (dict_get b' s1.(day_start_equity_by_book)) eqn:Ex; [|congruence]. apply (start_kept _ _ G2), (start_kept _ _ G3) in Ex. congruence.
  - intros b I. apply in_map_iff in I. destruct I as ([b' e] & <- & I). cbn [fst].
    assert (P : has b' s2.(day_start_equity_native_by_book) /\ has b' s2.(day_net_flow_native_by_book)).
    { apply (fold_reaches (resume_native now_ms)
        (fun kv s => has (fst kv) s.(day_start_equity_native_by_book) /\ has (fst kv) s.(day_net_flow_native_by_book)) per_book_native
        native_grows) with (a := (b', e)); [| |exact I].
      - intros [x y] t t' H [P1 P2]. split; [|now apply (flow_native_kept _ _ H)]. unfold has in *. cbn [fst] in *.
        destruct (dict_get x t.(day_start_equity_native_by_book)) eqn:Ex; [|congruence]. apply (native_kept _ _ H) in Ex. congruence.
      - intros [x y] t. unfold resume_native. destruct (dict_get x t.(day_start_equity_native_by_book)) eqn:Ex; cbn [fst].
        + split; [unfold has; cbn; congruence | cbn; apply has_setdefault; auto].
        + cbn. split; [apply has_set; auto | apply has_setdefault; auto]. }
    destruct P as [P1 P2]. split; [|now apply (flow_native_kept _ _ G3)]. unfold has in *.
    destruct (dict_get b' s2.(day_start_equity_native_by_book)) eqn:Ex; [|congruence]. apply (native_kept _ _ G3) in Ex. congruence.
  - intros b I. apply (fold_reaches resume_flow (fun b s => has b s.(day_net_flow_usdc_by_book) /\ has b s.(day_net_flow_native_by_book))) with (a := b); [apply flow_grows | | | exact I].
    + intros x t t' H [P1 P2]. split; [now apply (flow_kept _ _ H) | now apply (flow_native_kept _ _ H)].
    + intros x t. cbn. split; apply has_setdefault; auto.
Qed.

Lemma zero_flows_has l b : In b l -> has b (zero_flows l).
Proof.
  unfold zero_flows. intros I. enough (G : forall d, In b l \/ has b d -> has b (fold_left (fun d b => dict_set b 0 d) l d)) by (apply G; auto).
  clear I. induction l as [|x r IH]; cbn [fold_left In]; intros d H; [tauto|]. apply IH. rewrite has_set. intuition congruence.
Qed.

Lemma new_day_ready s total_equity : map fst per_book = map fst per_book_native -> ready (new_day c s (today_key now_ms) total_equity per_book per_book_native now_ms).
Proof.
  intros Sb. constructor; cbn.
  - reflexivity.
  - intros b I. split; [now apply has_key|]. apply has_key. rewrite map_map. exact I.
  - intros b I. split; [now apply has_key|]. apply zero_flows_has, flow_books_incl. now rewrite Sb.
  - intros b I. split; now apply zero_flows_has.
Qed.

Lemma fold_same {A} (f : StrategyState -> A -> StrategyState) l s : (forall a, In a l -> f s a = s) -> fold_left f l s = s.
Proof. induction l as [|a r IH]; cbn [fold_left In]; intros H; [reflexivity|]. rewrite H by auto. apply IH. auto. Qed.

Lemma ready_same_day s : ready s -> same_day c s per_book per_book_native now_ms = s.
Proof.
  intros [K B N F]. unfold same_day.
  rewrite (fold_same (resume_book per_book_native now_ms) per_book s).
  2:{ intros [b e] I. apply (in_map fst) in I. destruct (B b I) as [B1 B2]. unfold resume_book. destruct (dict_get b s.(day_start_equity_by_book)) eqn:E; [|exfalso; now apply B1].
      rewrite setdefault_has by (apply F, flow_books_incl, I).
      replace (set_day_net_flow_usdc_by_book s.(day_net_flow_usdc_by_book) s) with s by now destruct s.
      unfold _heal_legacy_flow_double_count. destruct (dict_get b s.(day_equity_anchor_ms_by_book)) eqn:Ea; [reflexivity | exfalso; now apply B2]. }
  rewrite (fold_same (resume_native now_ms) per_book_native s).
  2:{ intros [b e] I. apply (in_map fst) in I. destruct (N b I) as [N1 N2]. unfold resume_native. destruct (dict_get b s.(day_start_equity_native_by_book)) eqn:E; [|exfalso; now apply N1].
      rewrite setdefault_has by exact N2. now destruct s. }
  apply fold_same. intros b I. destruct (F b I) as [F1 F2]. unfold resume_flow. rewrite !setdefault_has by assumption. now destruct s.
Qed.

Lemma ready_views s total_equity : ready s ->
  ready (set_cooldown_until_ms_by_book (filter (fun kv => cooling now_ms (snd kv)) s.(cooldown_until_ms_by_book))
    (set_last_equity_native_by_book per_book_native (set_last_equity_by_book per_book (set_last_equity_usdc total_equity s)))).
Proof. intros [K B N F]. constructor; cbn; assumption. Qed.

Lemma filter_again {A} (p : A -> bool) l : filter p (filter p l) = filter p l.
Proof. induction l as [|a r IH]; cbn; [reflexivity|]. destruct (p a) eqn:E; cbn; [rewrite E; congruence | exact IH]. Qed.

Lemma daily_again s t : ready (daily c s t per_book per_book_native now_ms) -> daily c (daily c s t per_book per_book_native now_ms) t per_book per_book_native now_ms =
  daily c s t per_book per_book_native now_ms.
Proof.
  intros R. unfold daily at 1. rewrite (ready_key _ R), String.eqb_refl. cbn [negb]. rewrite (ready_same_day _ R).
  unfold daily. generalize (if negb (String.eqb s.(day_key) (today_key now_ms)) then new_day c s (today_key now_ms) t per_book per_book_native now_ms
    else same_day c s per_book per_book_native now_ms). intros h. cbn [cooldown_until_ms_by_book set_cooldown_until_ms_by_book]. rewrite filter_again. now destruct h.
Qed.
End Daily.

Lemma valid_key now_ms : (day_ms <= now_ms < 2932897 * day_ms)%Z -> (0 < _day_start_ms_from_key (today_key now_ms))%Z.
Proof.
  intros N. rewrite day_start_of_today by (unfold day_ms in *; lia).
  assert (1 <= now_ms / day_ms)%Z by (apply Z.div_le_lower_bound; unfold day_ms in *; lia). unfold day_ms in *. lia.
Qed.

(** The key under which a day is kept in the state file names the midnight it began
    at: read back, it is the start of the UTC day of the clock, up to the year 9999. *)
Theorem day_key_round_trip now_ms : (0 <= now_ms < 2932897 * day_ms)%Z ->
  let start := _day_start_ms_from_key (today_key now_ms) in
  (start <= now_ms < start + day_ms)%Z /\ (day_ms | start)%Z.
Proof.
  intros N. cbv zeta. rewrite day_start_of_today by exact N. split; [|now exists (now_ms / day_ms)%Z].
  pose proof (Z.div_mod now_ms day_ms ltac:(discriminate)). pose proof (Z.mod_pos_bound now_ms day_ms ltac:(reflexivity)). lia.
Qed.

(** The 29th of February 2024, half past ten. *)
Lemma day_key_round_trip_witness : today_key 1709202600000 = "2024-02-29"%string /\
  (_day_start_ms_from_key (today_key 1709202600000) <= 1709202600000 < _day_start_ms_from_key (today_key 1709202600000) + day_ms)%Z.
Proof. split; [vm_compute; reflexivity|]. apply (day_key_round_trip 1709202600000). split; [discriminate | reflexivity]. Defined.

(** A day begins once. After the daily reset every book has the equity it starts
    from, in USDC and in coin, the moment from which its flows count, and a tally of
    flows; on a day already begun, whatever the equities now are, no start is replaced;
    and the reset done again changes nothing. *)
Theorem day_begins_once c s total_equity per_book per_book_native now_ms :
  map fst per_book = map fst per_book_native -> (day_ms <= now_ms < 2932897 * day_ms)%Z ->
  let s' := daily c s total_equity per_book per_book_native now_ms in
  ready c per_book per_book_native now_ms s' /\ (s.(day_key) = today_key now_ms -> grows s s') /\
  daily c s' total_equity per_book per_book_native now_ms = s'.
Proof.
  intros Sb N. cbv zeta. pose proof (valid_key now_ms N) as K.
  assert (R : ready c per_book per_book_native now_ms (daily c s total_equity per_book per_book_native now_ms)).
  { unfold daily. apply ready_views. destruct (String.eqb_spec s.(day_key) (today_key now_ms)) as [E|_]; cbn [negb].
    - now apply same_day_ready.
    - now apply new_day_ready. }
  split; [exact R|]. split; [|now apply daily_again]. intros E. unfold daily. rewrite E, String.eqb_refl. cbn [negb].
  destruct (same_day_ready c per_book per_book_native now_ms K s E) as [_ G]. destruct G. constructor; cbn; auto.
Qed.

Definition begun_day : StrategyState :=
  set_day_key "2024-02-29" (set_day_start_equity_by_book [("USDC"%string, 1000)] (set_day_start_equity_native_by_book [("USDC"%string, 1000)] empty_state)).

(** A BTC book that appears during the day starts from its equity then; the USDC book
    keeps the start it had. *)
Lemma day_begins_once_witness :
  let c := {| traded_collaterals := ["USDC"; "BTC"]; scan_underlyings := ["BTC"]; has_private_credentials := true;
              cash_flow_query_interval_seconds := 300 |}%string in
  let s' := daily c begun_day 3500 [("BTC", 3000); ("USDC", 500)]%string [("BTC", 0.05); ("USDC", 500)]%string 1709202600000 in
  dict_get "USDC" s'.(day_start_equity_by_book) = Some 1000 /\ dict_get "BTC" s'.(day_start_equity_native_by_book) = Some 0.05 /\
  daily c s' 3500 [("BTC", 3000); ("USDC", 500)]%string [("BTC", 0.05); ("USDC", 500)]%string 1709202600000 = s'.
Proof.
  cbv zeta. set (c := {| traded_collaterals := _ |}).
  destruct (day_begins_once c begun_day 3500 [("BTC", 3000); ("USDC", 500)]%string [("BTC", 0.05); ("USDC", 500)]%string 1709202600000 eq_refl
    ltac:(split; [discriminate | reflexivity])) as (_ & G & A).
  split; [|split; [vm_compute; reflexivity | exact A]]. apply (start_kept _ _ (G eq_refl)). reflexivity.
Defined.
