(* ===== verification/GroupRefresh.v ===== *)
(** The refresh of the open groups of a cycle ([engine/group_refresh.py]): what closing
    would cost at the ask and at the mark, the profit captured so far, the delta. *)

From S2P Require Import Prelude Dec PyStr Utils Fees Group Ledger PyObj GroupJson StateJson Market ExitEval Runtime HedgeOrders Hedge Close GroupClose GroupExit.
Local Open Scope Q_scope.
Local Open Scope dec_scope.
Local Open Scope bool_scope.
Local Open Scope run_scope.
Local Open Scope list_scope.

Section Refresh.
Context {D : Desk}.
Variables (c : exit_config) (now_ms : Z).
Let spread_limit : Q := c.(desk).(legs).(Close.early_exit_max_spread_ratio).

(** ** The short leg *)

Definition refresh_premium (b : OrderBookSnapshot) : Q :=
  let close_premium := buy_close_premium b spread_limit in
  let close_premium := if close_premium <=? 0 then dmax b.(best_ask_price) b.(mark_price) else close_premium in
  if close_premium <=? 0 then 0 else close_premium.

Definition mark_premium (b : OrderBookSnapshot) : Q := if b.(mark_price) >? 0 then b.(mark_price) else refresh_premium b.

(** The debit and the fee of buying the short leg back. *)
Definition refresh_short (g : TradeGroup) (b : OrderBookSnapshot) (i : OptionInstrument) : TradeGroup :=
  let premium := refresh_premium b in
  let idx := b.(index_price) in
  let value := dmax (_premium_value_usdc premium g.(quantity) idx i) 0 in
  if short_usdc_path g i then
    let fee := _option_fee_usdc c.(desk) premium g.(quantity) idx i now_ms in
    set_current_debit (value ⊕ fee) (set_current_close_fee_collateral 0 (set_current_close_fee fee g))
  else
    let fee := _option_fee_native c.(desk) premium g.(quantity) idx i now_ms in
    set_current_debit (if idx >? 0 then ((premium ⊗ g.(quantity)) ⊕ fee) ⊗ idx else value)
      (set_current_close_fee (if idx >? 0 then fee ⊗ idx else 0) (set_current_close_fee_collateral fee g)).

(** How much less closing costs at the mark than at the ask. *)
Definition mark_shift (g : TradeGroup) (b : OrderBookSnapshot) (i : OptionInstrument) : Q :=
  let debit premium := _short_close_debit_usdc c premium g.(quantity) b i (short_usdc_path g i) b.(index_price) now_ms in
  debit (mark_premium b) ⊖ debit (refresh_premium b).

(** ** The long leg *)

Definition long_premium (b : OrderBookSnapshot) : Q :=
  let premium := sell_close_premium b spread_limit in
  let premium := if premium <=? 0 then (if b.(best_bid_price) >? 0 then b.(best_bid_price) else b.(mark_price)) else premium in
  dmax premium 0.

Definition refresh_long (g : TradeGroup) (usdc_path : bool) (idx : Q) (b : OrderBookSnapshot) (i : OptionInstrument) : TradeGroup :=
  let premium := long_premium b in
  if usdc_path then
    let credit := _premium_value_usdc premium g.(quantity) b.(index_price) i in
    let fee := _option_fee_usdc c.(desk) premium g.(quantity) b.(index_price) i now_ms in
    set_current_close_fee (g.(current_close_fee) ⊕ fee) (set_current_debit (dmax (g.(current_debit) ⊖ dmax (credit ⊖ fee) 0) 0) g)
  else
    let fee := _option_fee_native c.(desk) premium g.(quantity) b.(index_price) i now_ms in
    let net_native := (premium ⊗ g.(quantity)) ⊖ fee in
    let idx_long := if b.(index_price) >? 0 then b.(index_price) else idx in
    set_current_close_fee_collateral (g.(current_close_fee_collateral) ⊕ fee)
      (set_current_close_fee (g.(current_close_fee) ⊕ (if idx_long >? 0 then fee ⊗ idx_long else 0))
        (set_current_debit (dmax (if idx_long >? 0 then g.(current_debit) ⊖ (net_native ⊗ idx_long) else 0) 0) g)).

Definition long_leg_quote (name : string) : M (OrderBookSnapshot * OptionInstrument) :=
  let* b := _get_orderbook name in
  let* i := _find_instrument name in
  ret (b, i).

(** A long leg that cannot be priced is left out. *)
Definition with_long_leg (g : TradeGroup) (usdc_path : bool) (idx : Q) : M TradeGroup :=
  if truthy g.(long_instrument_name) then
    let* quote := attempt (long_leg_quote g.(long_instrument_name)) in
    ret (match quote with Some (b, i) => refresh_long g usdc_path idx b i | None => g end)
  else ret g.

(** ** The group *)

Definition captured (entry close : Q) : Q := safe_div (dmax (entry ⊖ close) 0) entry 0.

Definition refresh_capture (g : TradeGroup) (premium : Q) : Q :=
  if String.eqb (normalize_strategy_name g.(strategy) "naked_short") "covered_call" && is_coin_collateral g then
    match entry_credit_native g with
    | Some entry =>
        if entry >? 0 then captured entry (close_debit_native premium g.(quantity) g.(current_close_fee_collateral))
        else captured g.(entry_credit) g.(current_debit)
    | None => captured g.(entry_credit) g.(current_debit)
    end
  else captured g.(entry_credit) g.(current_debit).

Definition refreshed (g : TradeGroup) (b : OrderBookSnapshot) (shift : Q) : TradeGroup :=
  let g := set_mark_debit (dmax (g.(current_debit) ⊕ shift) 0) g in
  set_short_delta (dabs b.(delta)) (set_profit_capture (refresh_capture g (refresh_premium b)) g).

Definition _refresh_group (g : TradeGroup) : M TradeGroup :=
  let* b := _get_orderbook g.(short_instrument_name) in
  let* i := _find_instrument g.(short_instrument_name) in
  let* g' := with_long_leg (refresh_short g b i) (short_usdc_path g i) b.(index_price) in
  ret (refreshed g' b (mark_shift g b i)).

(** The loop of [_load_runtime_from_exchange]. *)
Definition refresh_or_mark (g : TradeGroup) : M TradeGroup :=
  let* r := attempt (_refresh_group g) in
  ret (match r with Some g' => g' | None => set_last_action "refresh_failed" g end).

Fixpoint refresh_groups (gs : list TradeGroup) : M (list TradeGroup) :=
  match gs with
  | [] => ret []
  | g :: rest =>
      let* g' := (if String.eqb g.(status) "open" then refresh_or_mark g else ret g) in
      let* more := refresh_groups rest in
      ret (g' :: more)
  end.
End Refresh.

(** ** What a refresh leaves *)

(** The figures a refresh sets are in range. *)
Record priced (g : TradeGroup) : Prop := {
  priced_debit : 0 <= g.(current_debit);
  priced_mark : 0 <= g.(mark_debit);
  priced_capture : 0 <= g.(profit_capture) <= 1;
  priced_delta : 0 <= g.(short_delta);
  priced_fee : 0 <= g.(current_close_fee);
  priced_fee_coin : 0 <= g.(current_close_fee_collateral);
}.

(** A group without the figures a refresh sets. *)
Definition position (g : TradeGroup) : TradeGroup :=
  set_short_delta 0 (set_profit_capture 0 (set_mark_debit 0 (set_current_debit 0 (set_current_close_fee 0 (set_current_close_fee_collateral 0 g))))).

Record held (g : TradeGroup) : Prop := { held_quantity : 0 <= g.(quantity); held_credit : representable g.(entry_credit) }.

Lemma captured_unit entry close : representable entry -> 0 <= close -> 0 <= captured entry close <= 1.
Proof.
  intros R C. unfold captured, safe_div. destruct (deqb_spec entry 0) as [_|N]; [lra|].
  destruct (Qlt_le_dec entry 0) as [L|L].
  - assert (Z : dmax (entry ⊖ close) 0 == 0).
    { destruct (dmax_cases (entry ⊖ close) 0) as [[-> H]|[-> _]]; [|reflexivity]. unfold dsub in *. pose proof (rnd_nonpos (entry - close) ltac:(lra)). lra. }
    unfold ddiv. rewrite (rnd_Proper_eq _ 0) by (rewrite Z; field; exact N). rewrite rnd_0; lra.
  - assert (P : 0 < entry) by lra. assert (U : 0 <= dmax (entry ⊖ close) 0 <= entry).
    { split; [apply dmax_r|]. destruct (dmax_cases (entry ⊖ close) 0) as [[-> _]|[-> _]]; [|lra]. apply rnd_le_bound; [exact R | lra]. }
    split; [apply ddiv_nonneg; lra|]. apply rnd_le_bound; [apply representable_1|]. apply Qle_shift_div_r; lra.
Qed.

Section Range.
Context {D : Desk}.
Variables (c : exit_config) (now_ms : Z).
Hypothesis rate : 0 <= c.(desk).(option_fee_rate).
Hypothesis cap_rate : 0 <= c.(desk).(option_fee_cap_rate).

Lemma fee_native_nonneg premium q idx i : 0 <= premium -> 0 <= q -> 0 <= idx -> 0 <= _option_fee_native c.(desk) premium q idx i now_ms.
Proof.
  intros P Q I. unfold _option_fee_native. rewrite trade_fee_unfold.
  destruct (base_fee_ok idx premium q c.(desk).(option_fee_rate) c.(desk).(option_fee_cap_rate) i.(quote_currency) i.(settlement_currency)) as [B R]; auto.
  apply discount_bounds; assumption.
Qed.

Lemma fee_usdc_nonneg premium q idx i : 0 <= premium -> 0 <= q -> 0 <= idx -> 0 <= _option_fee_usdc c.(desk) premium q idx i now_ms.
Proof.
  intros P Q I. unfold _option_fee_usdc, option_trade_fee_usdc. pose proof (fee_native_nonneg premium q idx i P Q I).
  destruct (is_usdc _ _); [assumption | now apply dmul_nonneg].
Qed.

Lemma refresh_premium_nonneg b : 0 <= refresh_premium c b.
Proof.
  unfold refresh_premium. set (p := if buy_close_premium _ _ <=? 0 then _ else _). cbv zeta. destruct (dleb_spec p 0) as [|N]; [lra|]. apply Qnot_le_lt in N. lra.
Qed.

Lemma refresh_short_priced g b i : held g -> 0 <= b.(index_price) -> let g' := refresh_short c now_ms g b i in
  0 <= g'.(current_debit) /\ 0 <= g'.(current_close_fee) /\ 0 <= g'.(current_close_fee_collateral) /\ position g' = position g.
Proof.
  intros [Q _] I. unfold refresh_short. pose proof (refresh_premium_nonneg b) as P. pose proof (fee_usdc_nonneg _ _ _ i P Q I) as F.
  pose proof (fee_native_nonneg _ _ _ i P Q I) as F'. pose proof (dmax_r (_premium_value_usdc (refresh_premium c b) g.(quantity) b.(index_price) i) 0) as V.
  destruct (short_usdc_path g i).
  - split; [cbn; now apply dadd_nonneg|]. split; [exact F|]. split; [cbn; lra | reflexivity].
  - split; [cbn; destruct (_ >? 0); [|exact V]; apply dmul_nonneg; [apply dadd_nonneg; [now apply dmul_nonneg | exact F'] | exact I]|].
    split; [cbn; destruct (_ >? 0); [now apply dmul_nonneg | lra]|]. split; [exact F' | reflexivity].
Qed.

Lemma refresh_long_priced g path idx b i : 0 <= g.(quantity) -> 0 <= b.(index_price) -> 0 <= idx ->
  0 <= g.(current_debit) -> 0 <= g.(current_close_fee) -> 0 <= g.(current_close_fee_collateral) -> let g' := refresh_long c now_ms g path idx b i in
  0 <= g'.(current_debit) /\ 0 <= g'.(current_close_fee) /\ 0 <= g'.(current_close_fee_collateral) /\ position g' = position g.
Proof.
  intros Q I Ix Dg Fg Cg. unfold refresh_long. assert (P : 0 <= long_premium c b) by apply dmax_r. pose proof (fee_usdc_nonneg _ _ _ i P Q I) as F.
  pose proof (fee_native_nonneg _ _ _ i P Q I) as F'. destruct path.
  - split; [cbn; apply dmax_r|]. split; [cbn; now apply dadd_nonneg|]. split; [exact Cg | reflexivity].
  - split; [cbn; apply dmax_r|]. split; [|split; [cbn; now apply dadd_nonneg | reflexivity]]. cbn. apply dadd_nonneg; [exact Fg|].
    destruct (_ >? 0); [|lra]. apply dmul_nonneg; [exact F'|]. destruct (_ >? 0); assumption.
Qed.

Definition books_priced (w : runtime) : Prop := forall n b, snd (_get_orderbook n w) = Ret b -> 0 <= b.(index_price).

Lemma books_priced_grown w w' : books_priced w -> grown w w' -> books_priced w'.
Proof. intros P (_ & B & _) n b E. apply (P n b). now rewrite <- B. Qed.

Lemma settled_long_leg g path idx : settled (with_long_leg c now_ms g path idx).
Proof.
  unfold with_long_leg. destruct (truthy g.(long_instrument_name)); [|apply settled_ret]. apply settled_bind; [|intros q; apply settled_ret].
  apply settled_attempt. apply settled_bind; [apply settled_get_orderbook|]. intros b.
  apply settled_bind; [apply settled_find_instrument | intros i; apply settled_ret].
Qed.

Lemma settled_refresh g : settled (_refresh_group c now_ms g).
Proof.
  apply settled_bind; [apply settled_get_orderbook|]. intros b. apply settled_bind; [apply settled_find_instrument|]. intros i.
  apply settled_bind; [apply settled_long_leg | intros g'; apply settled_ret].
Qed.

Lemma refreshed_priced g b shift : representable g.(entry_credit) -> 0 <= g.(quantity) ->
  0 <= g.(current_debit) -> 0 <= g.(current_close_fee) -> 0 <= g.(current_close_fee_collateral) ->
  priced (refreshed c g b shift) /\ position (refreshed c g b shift) = position g.
Proof.
  intros R Q Dg Fg Cg. split; [|reflexivity]. pose proof (refresh_premium_nonneg b) as P.
  assert (C : 0 <= refresh_capture (set_mark_debit (dmax (g.(current_debit) ⊕ shift) 0) g) (refresh_premium c b) <= 1).
  { unfold refresh_capture. set (h := set_mark_debit _ g). change (entry_credit h) with (entry_credit g). change (current_debit h) with (current_debit g).
    pose proof (captured_unit g.(entry_credit) g.(current_debit) R Dg) as U. destruct (_ && _); [|exact U].
    destruct (entry_credit_native h) as [entry|] eqn:E; [|exact U]. destruct (entry >? 0); [|exact U]. apply captured_unit.
    - unfold entry_credit_native in E. destruct (_ || _); [discriminate|]. injection E as <-. apply representable_dmax; [apply rnd_representable | apply representable_0].
    - unfold close_debit_native. apply dadd_nonneg; [apply dmul_nonneg; [apply dmax_r | exact Q] | apply dmax_r]. }
  constructor.
  - exact Dg.
  - apply dmax_r.
  - exact C.
  - apply rnd_nonneg, Qabs_nonneg.
  - exact Fg.
  - exact Cg.
Qed.

Lemma refresh_priced g w w' g' : books_priced w -> held g -> _refresh_group c now_ms g w = (w', Ret g') -> priced g' /\ position g' = position g.
Proof.
  intros B H E. unfold _refresh_group in E. apply bind_inv in E. destruct E as (w1 & b & E1 & E). apply bind_inv in E. destruct E as (w2 & i & E2 & E).
  apply bind_inv in E. destruct E as (w3 & g3 & E3 & E). apply (f_equal snd) in E. apply Ret_inj in E. subst g'.
  assert (Ib : 0 <= b.(index_price)) by (apply (B g.(short_instrument_name)); now rewrite E1).
  destruct (refresh_short_priced g b i H Ib) as (D1 & F1 & C1 & P1). set (g1 := refresh_short c now_ms g b i) in *.
  assert (K : forall h, position h = position g -> quantity h = quantity g /\ entry_credit h = entry_credit g).
  { intros h Ph. split; [exact (f_equal quantity Ph) | exact (f_equal entry_credit Ph)]. }
  destruct (K g1 P1) as [Q1 R1]. destruct H as [Hq Hr].
  assert (G3 : 0 <= g3.(current_debit) /\ 0 <= g3.(current_close_fee) /\ 0 <= g3.(current_close_fee_collateral) /\ position g3 = position g1).
  { unfold with_long_leg in E3. destruct (truthy g1.(long_instrument_name)).
    - apply bind_inv in E3. destruct E3 as (w4 & [[lb li]|] & E4 & E3); apply (f_equal snd) in E3; apply Ret_inj in E3; subst g3; [|auto].
      apply refresh_long_priced; try assumption; [now rewrite Q1|].
      unfold attempt in E4. destruct (long_leg_quote _ w2) as [w5 [q| |]] eqn:E5; injection E4; intros; try discriminate. subst q.
      unfold long_leg_quote in E5. apply bind_inv in E5. destruct E5 as (w6 & b6 & E6 & E5). apply bind_inv in E5. destruct E5 as (w7 & i7 & _ & E5).
      apply (f_equal snd) in E5. apply Ret_inj in E5. injection E5 as -> _.
      assert (G2 : grown w w2).
      { pose proof (proj1 (settled_get_orderbook g.(short_instrument_name)) w) as G1. rewrite E1 in G1.
        pose proof (proj1 (settled_find_instrument g.(short_instrument_name)) w1) as G2. rewrite E2 in G2. exact (grown_trans _ _ _ G1 G2). }
      apply (books_priced_grown _ _ B G2 g1.(long_instrument_name)). now rewrite E6.
    - apply (f_equal snd) in E3. apply Ret_inj in E3. subst g3. auto. }
  destruct G3 as (D3 & F3 & C3 & P3). destruct (K g3) as [Q3 R3]; [now rewrite P3|].
  destruct (refreshed_priced g3 b (mark_shift c now_ms g b i)) as [P4 P5]; try assumption; [now rewrite R3 | now rewrite Q3|].
  split; [exact P4|]. now rewrite P5, P3.
Qed.

(** What became of a group of the state. *)
Definition kept_or_priced (g g' : TradeGroup) : Prop :=
  if String.eqb g.(status) "open" then g' = set_last_action "refresh_failed" g \/ priced g' /\ position g' = position g else g' = g.

Hypothesis answers : forall n, get_order_book n <> OutOfFuel.

Lemma orderbook_fuel n w : snd (_get_orderbook n w) <> OutOfFuel.
Proof.
  rewrite orderbook_value. destruct (dict_get n _); [discriminate|]. pose proof (answers n) as A. destruct (get_order_book n) as [p| |]; cbn; [|discriminate | congruence].
  unfold book_from_api, greeks_delta. now destruct (py_truthy _), (p "greeks"%string).
Qed.

Lemma instrument_fuel n w : snd (_find_instrument n w) <> OutOfFuel.
Proof.
  rewrite instrument_value. destruct (_find_instrument_by_markets _ n); [discriminate|..];
    (destruct (dict_get n _); [discriminate|]; destruct (_fetch_option_instrument_metadata n); discriminate).
Qed.

Lemma bind_fuel {A B} (m : M A) (k : A -> M B) : (forall w, snd (m w) <> OutOfFuel) -> (forall a w, snd (k a w) <> OutOfFuel) -> forall w, snd (bind m k w) <> OutOfFuel.
Proof. intros Hm Hk w. rewrite bind_snd. specialize (Hm w). destruct (snd (m w)); [apply Hk | discriminate | congruence]. Qed.

Lemma attempt_returns {A} (m : M A) w : snd (m w) <> OutOfFuel -> exists o, snd (attempt m w) = Ret o.
Proof. unfold attempt. destruct (m w) as [w' [a| |]]; cbn; eauto. congruence. Qed.

Lemma refresh_fuel g w : snd (_refresh_group c now_ms g w) <> OutOfFuel.
Proof.
  revert w. apply bind_fuel; [intros; apply orderbook_fuel|]. intros b. apply bind_fuel; [intros; apply instrument_fuel|]. intros i.
  apply bind_fuel; [|discriminate]. intros w. unfold with_long_leg. destruct (truthy _); [|discriminate]. revert w. apply bind_fuel; [|discriminate].
  intros w. destruct (attempt_returns (long_leg_quote (refresh_short c now_ms g b i).(long_instrument_name)) w) as [o ->]; [|discriminate].
  revert w. apply bind_fuel; [intros; apply orderbook_fuel|]. intros lb. apply bind_fuel; [intros; apply instrument_fuel | discriminate].
Qed.

Lemma refresh_or_mark_spec g w : books_priced w -> held g -> exists g', snd (refresh_or_mark c now_ms g w) = Ret g' /\ grown w (fst (refresh_or_mark c now_ms g w)) /\
  (g' = set_last_action "refresh_failed" g \/ priced g' /\ position g' = position g).
Proof.
  intros B H. assert (S : settled (refresh_or_mark c now_ms g)) by (apply settled_bind; [apply settled_attempt, settled_refresh | intros; apply settled_ret]).
  destruct (attempt_returns _ _ (refresh_fuel g w)) as [o O].
  exists (match o with Some g' => g' | None => set_last_action "refresh_failed" g end). split; [unfold refresh_or_mark; now rewrite bind_snd, O|].
  split; [apply S|]. destruct o as [g'|]; [right | now left]. unfold attempt in O. destruct (_refresh_group c now_ms g w) as [w' [x| |]] eqn:E; cbn in O; try discriminate.
  injection O as <-. exact (refresh_priced g w w' x B H E).
Qed.

Lemma refresh_groups_spec gs : forall w, books_priced w -> Forall held gs ->
  exists gs', snd (refresh_groups c now_ms gs w) = Ret gs' /\ Forall2 kept_or_priced gs gs' /\ grown w (fst (refresh_groups c now_ms gs w)).
Proof.
  induction gs as [|g r IH]; intros w B H; [exists []; split; [reflexivity | split; [constructor | apply grown_refl]]|].
  inversion H as [|? ? Hg Hr]; subst. cbn [refresh_groups]. rewrite bind_snd, bind_fst.
  assert (X : exists g', snd ((if String.eqb g.(status) "open" then refresh_or_mark c now_ms g else ret g) w) = Ret g' /\ kept_or_priced g g' /\
    grown w (fst ((if String.eqb g.(status) "open" then refresh_or_mark c now_ms g else ret g) w))).
  { unfold kept_or_priced. destruct (String.eqb g.(status) "open").
    - destruct (refresh_or_mark_spec g w B Hg) as (g' & E & G & P). now exists g'.
    - exists g. split; [reflexivity|]. split; [reflexivity | apply grown_refl]. }
  destruct X as (g' & E & K & G). rewrite E. set (w1 := fst _) in *. destruct (IH w1 (books_priced_grown _ _ B G) Hr) as (gs' & E' & K' & G').
  rewrite bind_snd, bind_fst, E'. exists (g' :: gs'). split; [reflexivity|]. split; [now constructor|]. eapply grown_trans; [exact G|]. exact G'.
Qed.
End Range.


#[local] Existing Instance sample_desk.

Lemma sample_books_priced : books_priced sample_desk_runtime.
Proof.
  intros n b. rewrite orderbook_value. change (dict_get n sample_desk_runtime.(orderbook_cache)) with (@None OrderBookSnapshot).
  intros E. vm_compute in E. injection E as <-. discriminate.
Qed.

