(* ===== verification/Portfolio.v ===== *)
(** The portfolio snapshot of a cycle ([engine/portfolio_snapshot.py], with the views of
    [engine/base.py] and the covered-call rules of [engine/covered_call.py]): drawdown of
    each book in its own unit, margin and drawdown gates, and which entries they halt. *)

From S2P Require Import Prelude Dec PyStr Utils Group Ledger PyObj StateJson Market ExitEval VolMetrics EntryGates Runtime HedgeOrders Hedge Close GroupClose GroupExit CrossFlow DayState.
Local Open Scope Q_scope.
Local Open Scope dec_scope.
Local Open Scope bool_scope.
Local Open Scope run_scope.
Local Open Scope list_scope.

Record portfolio_config : Type := {
  exits : exit_config;
  accounts : book_config;
  min_book_equity_usdc : Q;
  target_portfolio_apr : Q;
  halt_drawdown_pct : Q;
  hard_derisk_drawdown_pct : Q;
  halt_open_max_loss_pct : Q;
  book_im_hard : Q;
  book_mm_hard : Q;
  hard_derisk_on_crisis_open_group : bool;
  pause_new_entries : bool;
  entry_cooldown_minutes : Z;
  elevated_entry : bool;                 (** [config.allows_elevated_entry()] *)
  cooldown_hours : Z;
}.

(** ** Spot exits still selling ([spot_exit_ops.py]) *)

Definition INCOMPLETE_SPOT_EXIT_STATUSES : list string := ["pending"; "submitted"; "failed"]%string.

Definition spot_exit_filled_native (g : TradeGroup) : Q :=
  let status := lower g.(spot_exit_status) in
  let amount := if g.(spot_exit_amount) >? 0 then g.(spot_exit_amount) else 0 in
  if negb (mem_str status ["filled"; "pending"; "submitted"; "failed"]%string) then 0
  else if String.eqb status "filled" then amount
  else if (g.(spot_exit_quote_proceeds) >? 0) || (g.(spot_exit_quote_proceeds_lifetime) >? 0) then amount else 0.

Definition spot_restore_blocks_exit_remainder (g : TradeGroup) : bool := mem_str (lower g.(spot_restore_status)) ["pending"; "filled"]%string.

Definition incomplete_spot_exit_remaining_native (g : TradeGroup) : Q :=
  if negb (String.eqb g.(status) "closed") || negb (is_covered_call_group g) then 0
  else if negb (mem_str (lower g.(spot_exit_status)) INCOMPLETE_SPOT_EXIT_STATUSES) then 0
  else if spot_restore_blocks_exit_remainder g then 0
  else
    let cover := if g.(covered_underlying_quantity) >? 0 then g.(covered_underlying_quantity) else g.(quantity) in
    if cover <=? 0 then 0
    else
      let settlement := if g.(spot_exit_settlement_loss) >? 0 then g.(spot_exit_settlement_loss) else 0 in
      dmax ((cover ⊖ settlement) ⊖ spot_exit_filled_native g) 0.

Definition pending_spot_exit_remaining_native (gs : list TradeGroup) (currency : string) : Q :=
  dsum (map incomplete_spot_exit_remaining_native (filter (fun g => String.eqb (upper g.(Group.currency)) (upper currency)) gs)).

Section Portfolio.
Context {D : Desk}.
Variable c : portfolio_config.

(** ** Books of covered calls *)

Definition _is_covered_call_strategy : bool := String.eqb c.(exits).(desk).(option_strategy) "covered_call".

Definition _reserved_covered_call_quantity (s : StrategyState) (currency : string) : Q :=
  dsum (map covered_underlying_quantity
    (filter (fun g => String.eqb g.(Group.currency) (upper currency) && String.eqb g.(Group.strategy) "covered_call") (_open_groups s))).

Definition _available_covered_call_quantity_from_summaries (s : StrategyState) (summaries : dict AccountSummary) (currency : string) : Q :=
  match dict_get (upper currency) summaries with
  | None => 0
  | Some a => dmax ((a.(equity) ⊖ _reserved_covered_call_quantity s (upper currency)) ⊖ pending_spot_exit_remaining_native s.(groups) (upper currency)) 0
  end.

Definition _covered_call_book_fully_collateralized (s : StrategyState) (summaries : dict AccountSummary) (currency : string) : bool :=
  _is_covered_call_strategy &&
  match dict_get (upper currency) summaries with
  | None => false
  | Some a =>
      let reserved := _reserved_covered_call_quantity s (upper currency) in
      negb (a.(equity) <=? 0) && negb (reserved <=? 0) && (a.(equity) >=? reserved)
  end.

Definition _covered_call_book_im_mm_shielded (s : StrategyState) (summaries : dict AccountSummary) (currency : string) (available_cover : Q) : bool :=
  _is_covered_call_strategy && ((available_cover >? 0) || _covered_call_book_fully_collateralized s summaries (upper currency)).

(** [_clear_covered_call_book_cooldowns] *)
Definition _clear_covered_call_book_cooldowns (s : StrategyState) (summaries : dict AccountSummary) : StrategyState :=
  let s' := set_cooldown_until_ms_by_book
    (fold_left (fun d ccy => if _covered_call_book_fully_collateralized s summaries ccy then dict_pop (upper ccy) d else d)
      (map fst summaries) s.(cooldown_until_ms_by_book)) s in
  if existsb (fun g => negb (is_covered_call_group g) && negb (is_cash_secured_group g)) (_open_groups s) then s'
  else set_cooldown_until_ms None s'.

(** ** Margins *)

Definition _stage_c_collateral_books : list string := coin_books c.(accounts) ++ stable_books c.(accounts).

(** [margin] reads the initial or the maintenance margin of an account. The books are a
    set in the program: their order only matters to the rounding of the sum. *)
Fixpoint aggregate_margin (margin : AccountSummary -> Q) (summaries : dict AccountSummary) (sum : Q) (scope : list string) : M Q :=
  match scope with
  | [] => ret sum
  | currency :: rest =>
      match dict_get currency summaries with
      | None => aggregate_margin margin summaries sum rest
      | Some a =>
          let* price := (if String.eqb currency "USDC" || String.eqb currency "USDT" then ret None
                         else let* p := _currency_index_price currency in ret (Some p)) in
          aggregate_margin margin summaries (sum ⊕ match price with Some p => margin a ⊗ p | None => margin a end) rest
      end
  end.

Definition _aggregate_margin (margin : AccountSummary -> Q) (summaries : dict AccountSummary) : M Q :=
  aggregate_margin margin summaries 0 _stage_c_collateral_books.

Definition _per_currency_margin_ratios (summaries : dict AccountSummary) : dict (Q * Q) :=
  map (fun kv => (fst kv, (safe_div (snd kv).(initial_margin) (snd kv).(equity) 0, safe_div (snd kv).(maintenance_margin) (snd kv).(equity) 0)))
    (filter (fun kv => mem_str (fst kv) _stage_c_collateral_books && negb ((snd kv).(equity) <=? 0)) summaries).

(** ** Totals over the open groups *)

Definition _open_max_loss (s : StrategyState) : Q := dsum (map max_loss (_open_groups s)).

Definition _max_profit_run_rate_for_group (g : TradeGroup) (now_us : Z) : Q :=
  let dte := group_dte_days g now_us in if dte <=? 0 then 0 else g.(entry_credit) ⊗ (365 ⊘ dte).

Definition _projected_max_profit_run_rate (s : StrategyState) (now_us : Z) : Q :=
  dsum (map (fun g => _max_profit_run_rate_for_group g now_us) (_open_groups s)).

(** [group_refresh.py] *)
Definition _delta_totals_by_currency (s : StrategyState) (future_positions : list Position) (markets : dict (list OptionInstrument)) : dict Q :=
  fold_left (fun totals currency =>
      let group_delta := dsum (map (fun g => _group_option_delta g (_contract_size_for_group g markets))
        (filter (fun g => String.eqb g.(Group.currency) currency) (_open_groups s))) in
      dict_set currency (group_delta ⊕ _current_hedge_base future_positions currency) totals)
    c.(exits).(desk).(engine).(managed_currencies) [].

Definition severity (r : RiskRegime) : Z := match r with NORMAL => 0 | ELEVATED => 1 | CRISIS => 2 end.
Definition _overall_regime (values : list RiskRegime) : RiskRegime :=
  fold_left (fun worst v => if (severity worst <? severity v)%Z then v else worst) values NORMAL.

(** ** The day so far *)

(** [start if (start and start > 0) else equity] *)
Definition start_or (start : option Q) (equity : Q) : Q := match start with Some v => if v >? 0 then v else equity | None => equity end.

Definition usd_book (book : string) : bool := String.eqb book "USDC" || String.eqb book "USDT".

Definition day_start_of (s : StrategyState) (kv : string * Q) : string * Q := (fst kv, start_or (dict_get (fst kv) s.(day_start_equity_by_book)) (snd kv)).

Definition native_start_of (s : StrategyState) (per_book_native : dict Q) (kv : string * Q) : string * Q :=
  let book := fst kv in
  (book, match dict_get book s.(day_start_equity_native_by_book) with
         | Some v => if v >? 0 then v else if usd_book book then snd (day_start_of s kv) else get_or book 0 per_book_native
         | None => if usd_book book then snd (day_start_of s kv) else get_or book 0 per_book_native
         end).

Definition flow_of (books : list string) (flows : dict Q) : dict Q := map (fun b => (b, get_or b 0 flows)) books.

(** What a cycle measures its day against. *)
Record day : Type := {
  equities : dict Q;                (** in USDC *)
  natives : dict Q;
  starts : dict Q;
  native_starts : dict Q;
  flows : dict Q;
  native_flows : dict Q;
  prices : dict Q;                  (** of a coin, and one for a dollar *)
}.

Definition day_of (s : StrategyState) (per_book per_book_native prices : dict Q) : day :=
  let flow_books := _cash_flow_books_for_snapshot c.(accounts) per_book in {|
  equities := per_book;
  natives := per_book_native;
  starts := map (day_start_of s) per_book;
  native_starts := map (native_start_of s per_book_native) per_book;
  flows := flow_of flow_books s.(day_net_flow_usdc_by_book);
  native_flows := flow_of flow_books s.(day_net_flow_native_by_book);
  prices := prices |}.

Fixpoint index_prices (books : list string) : M (dict Q) :=
  match books with
  | [] => ret []
  | book :: rest =>
      let* price := (if stable book then ret 1 else _currency_index_price book) in
      let* more := index_prices rest in
      ret ((book, price) :: more)
  end.

Definition pnl_ex_flow (d : day) (kv : string * Q) : string * Q :=
  (fst kv, (snd kv ⊖ get_or (fst kv) 0 d.(starts)) ⊖ get_or (fst kv) 0 d.(flows)).

Definition pnl_ex_spot (d : day) (book : string) : string * Q :=
  let native := get_or book 0 d.(natives) in
  (book, ((native ⊖ get_or book native d.(native_starts)) ⊖ get_or book 0 d.(native_flows)) ⊗ get_or book 0 d.(prices)).

(** The drawdown of a book, where it is large enough to be measured. *)
Definition book_drawdown (d : day) (cross : dict Q) (kv : string * Q) : list (string * Q) :=
  let '(book, equity) := kv in
  if get_or book 0 d.(starts) <=? c.(min_book_equity_usdc) then []
  else
    let start := get_or book equity d.(native_starts) in
    if start <=? 0 then []
    else
      let net_flow := (if stable book then get_or book 0 d.(flows) else get_or book 0 d.(native_flows)) ⊕ get_or book 0 cross in
      [(book, safe_div (dmax ((start ⊕ net_flow) ⊖ equity) 0) start 0)].

Definition per_book_drawdown (d : day) : outcome (dict Q) :=
  (let! cross := cross_book_flow_adjustments_native d.(natives) d.(native_starts) d.(native_flows) d.(flows) d.(prices) c.(min_book_equity_usdc) in
   Ret (flat_map (book_drawdown d cross) d.(natives)))%outcome.

Definition max_value (d : dict Q) : Q := match map snd d with [] => 0 | v :: rest => fold_left dmax rest v end.

(** ** Gates of a book *)

Record gates : Type := { hard : dict bool; halted_books : dict bool; reasons : dict (list string); breaches : list string }.

Definition add_reason (book reason : string) (g : gates) : gates := {|
  hard := g.(hard); halted_books := g.(halted_books);
  reasons := dict_set book (get_or book [] g.(reasons) ++ [reason]) g.(reasons); breaches := g.(breaches) |}.
Definition set_hard (book : string) (g : gates) : gates := {|
  hard := dict_set book true g.(hard); halted_books := g.(halted_books); reasons := g.(reasons); breaches := g.(breaches) |}.
Definition set_halted (book : string) (g : gates) : gates := {|
  hard := g.(hard); halted_books := dict_set book true g.(halted_books); reasons := g.(reasons); breaches := g.(breaches) |}.
Definition add_breach (b : string) (g : gates) : gates := {|
  hard := g.(hard); halted_books := g.(halted_books); reasons := g.(reasons); breaches := g.(breaches) ++ [b] |}.

(** The two decimals of a reason, with [sep] between them. *)
Definition reading (sep : string) (value limit : Q) : outcome string :=
  (let! v := decimal_text value 8 in let! l := decimal_text limit 6 in Ret ("(" ++ v ++ sep ++ l ++ ")")%string)%outcome.

Definition drawdown_gate (dd : Q) (book : string) (g : gates) : outcome gates :=
  (let! g := (if dd >=? c.(hard_derisk_drawdown_pct)
              then let! t := reading " >= " dd c.(hard_derisk_drawdown_pct) in
                   Ret (add_reason book ("hard_derisk: day_drawdown_pct >= hard_derisk_drawdown_pct " ++ t) (set_hard book g))
              else Ret g) in
   if dd >=? c.(halt_drawdown_pct)
   then let! t := reading " >= " dd c.(halt_drawdown_pct) in
        Ret (add_reason book ("day_drawdown_pct >= halt_drawdown_pct " ++ t) (set_halted book g))
   else Ret g)%outcome.

Definition cooldown_gate (cooling_book pacing : bool) (book : string) (g : gates) : outcome gates :=
  (let g := if cooling_book then add_reason book "cooldown_active" (set_halted book g) else g in
   if pacing then
     Ret (add_reason book ("entry_cooldown_active (" ++ print_int c.(entry_cooldown_minutes) ++ "m)") (set_halted book g))
   else Ret g)%outcome.

Definition _book_entry_cooldown_active (s : StrategyState) (book : string) (now_ms : Z) : bool :=
  entry_cooldown_active book (last_entry_timestamp_ms_by_book s.(groups)) now_ms c.(entry_cooldown_minutes).

Definition cooldown_of (s : StrategyState) (book : string) : option Z := get_or book None s.(cooldown_until_ms_by_book).

(** A parking book is not gated; neither is a book that covers its calls. *)
Definition book_gate (s : StrategyState) (summaries : dict AccountSummary) (drawdown : dict Q) (now_ms : Z) (book : string) (g : gates) : outcome gates :=
  (if String.eqb book "USDT" || _covered_call_book_fully_collateralized s summaries book then Ret g
   else
     let! g := drawdown_gate (get_or book 0 drawdown) book g in
     cooldown_gate (cooling now_ms (cooldown_of s book)) (_book_entry_cooldown_active s book now_ms) book g)%outcome.

Definition margin_breach (book what : string) (ratio limit : Q) (g : gates) : outcome gates :=
  (if ratio >=? limit then
     let! t := reading ">=" ratio limit in
     let breach := (book ++ ": " ++ what ++ " " ++ t)%string in
     Ret (add_reason book ("hard_derisk: book " ++ breach) (set_halted book (set_hard book (add_breach breach g))))
   else Ret g)%outcome.

Definition margin_gate (s : StrategyState) (summaries : dict AccountSummary) (kv : string * (Q * Q)) (g : gates) : outcome gates :=
  (let '(book, (im, mm)) := kv in
   if _covered_call_book_im_mm_shielded s summaries book (_available_covered_call_quantity_from_summaries s summaries book) then Ret g
   else
     let! g := margin_breach book "im_ratio>=book_im_hard" im c.(book_im_hard) g in
     margin_breach book "mm_ratio>=book_mm_hard" mm c.(book_mm_hard) g)%outcome.

(** A loop whose body may raise. *)
Fixpoint each {A B} (f : A -> B -> outcome B) (l : list A) (b : B) : outcome B :=
  (match l with [] => Ret b | a :: r => let! b := f a b in each f r b end)%outcome.

Definition open_gates (books : list string) : gates :=
  {| hard := map (fun b => (b, false)) books; halted_books := map (fun b => (b, false)) books; reasons := map (fun b => (b, [])) books; breaches := [] |}.

Definition all_gates (s : StrategyState) (summaries : dict AccountSummary) (books : list string) (drawdown : dict Q) (now_ms : Z) : outcome gates :=
  (let! g := each (book_gate s summaries drawdown now_ms) books (open_gates books) in
   each (margin_gate s summaries) (_per_currency_margin_ratios summaries) g)%outcome.

(** ** Triggers that are not of a book *)

Definition in_crisis (regimes : dict RiskRegime) (g : TradeGroup) : bool := regime_eqb (get_or g.(Group.currency) CRISIS regimes) CRISIS.

Definition crisis_currencies_with_open_groups (s : StrategyState) (regimes : dict RiskRegime) : list string :=
  nodup string_dec (map (fun g => upper g.(Group.currency)) (filter (in_crisis regimes) (_open_groups s))).

(** Cash-secured puts wait for assignment and covered calls have their own exits. *)
Definition hard_stop_group (g : TradeGroup) : bool :=
  negb (is_cash_secured_group g) && negb (_is_covered_call_strategy && is_covered_call_group g).

Definition past_hard_stop (g : TradeGroup) : bool :=
  (g.(short_delta) >=? snd (_defense_delta_thresholds c.(exits) g)) || (loss_pct_of_max_loss g >=? c.(exits).(ctx).(hard_stop_loss_pct)).

Definition hard_stop_open_group (s : StrategyState) : bool := existsb (fun g => hard_stop_group g && past_hard_stop g) (_open_groups s).

(** [sorted] on strings *)
Fixpoint insert_string (x : string) (l : list string) : list string :=
  match l with
  | [] => [x]
  | y :: r => if String.ltb y x then y :: insert_string x r else x :: l
  end.
Definition sorted_strings (l : list string) : list string := fold_right insert_string [] l.

Definition add_new (l : list string) (x : string) : list string := if mem_str x l then l else l ++ [x].

(** The reasons in the order they are reported. *)
Definition book_reasons (g : gates) (out : list string) : list string :=
  fold_left (fun out book => fold_left (fun out r => add_new out ("book=" ++ book ++ " " ++ r)%string) (get_or book [] g.(reasons)) out)
    (sorted_strings (map fst g.(halted_books))) out.

Definition regime_reasons (regimes : dict RiskRegime) (details : dict (list string)) (halts : dict bool) (out : list string) : list string :=
  fold_left (fun out currency =>
      if get_or currency false halts then
        let r := get_or currency CRISIS regimes in
        out ++ (if regime_eqb r NORMAL then [] else [(currency ++ ": regime=" ++ regime_value r)%string])
            ++ (if unavailable (get_or currency [] details) then [(currency ++ ": regime data_unavailable")%string] else [])
      else out)
    (sorted_strings (map fst halts)) out.

Definition open_max_loss_pct_of (s : StrategyState) (total_equity : Q) : Q :=
  safe_div (_open_max_loss s) (_effective_capital c.(exits).(desk).(engine) total_equity) 0.

Definition legacy_cooling (s : StrategyState) (now_ms : Z) : bool := cooling now_ms s.(StateJson.cooldown_until_ms).

Definition portfolio_halt (s : StrategyState) (total_equity : Q) (now_ms : Z) : bool :=
  legacy_cooling s now_ms || (open_max_loss_pct_of s total_equity >=? c.(halt_open_max_loss_pct)) || hard_stop_open_group s.

Definition crisis_derisk (s : StrategyState) (regimes : dict RiskRegime) : bool :=
  c.(hard_derisk_on_crisis_open_group) && nonempty (crisis_currencies_with_open_groups s regimes).

Definition portfolio_reasons (s : StrategyState) (regimes : dict RiskRegime) (total_equity : Q) (now_ms : Z) : outcome (list string) :=
  (let pct := open_max_loss_pct_of s total_equity in
   let! loss := (if pct >=? c.(halt_open_max_loss_pct)
                 then let! t := reading " >= " pct c.(halt_open_max_loss_pct) in Ret [("open_max_loss_pct >= halt_open_max_loss_pct " ++ t)%string]
                 else Ret []) in
   Ret ((if legacy_cooling s now_ms then ["cooldown_active"%string] else []) ++ loss
        ++ (if crisis_derisk s regimes
            then [("hard_derisk: open_trade_group_in_crisis_regime_currency: " ++
                   String.concat ", " (sorted_strings (crisis_currencies_with_open_groups s regimes)))%string] else [])
        ++ (if hard_stop_open_group s then ["hard_derisk: open_group_hard_defense_or_stop_trigger"%string] else [])))%outcome.

Definition pause_reasons (halted : bool) (reasons : list string) : list string :=
  let reasons := if c.(pause_new_entries) && negb (mem_str PAUSE_NEW_ENTRIES_REASON reasons) then PAUSE_NEW_ENTRIES_REASON :: reasons else reasons in
  match reasons with
  | [] => if halted then ["halt_new_entries (composite; check portfolio flags)"%string] else []
  | _ => reasons
  end.

Definition pause_halts (halts : dict bool) : dict bool :=
  if c.(pause_new_entries) then fold_left (fun d currency => dict_set (upper currency) true d) c.(exits).(desk).(engine).(managed_currencies) halts else halts.

(** ** The snapshot *)

Record cycle_inputs : Type := {
  regimes : dict RiskRegime;
  details : dict (list string);
  in_future_positions : list Position;
  in_markets : dict (list OptionInstrument);
}.

Definition halts_of (s : StrategyState) (i : cycle_inputs) (total_equity : Q) (now_ms : Z) : dict bool :=
  build_halt_new_entries_by_currency c.(exits).(desk).(engine).(managed_currencies) i.(regimes) i.(details)
    (crisis_currencies_with_open_groups s i.(regimes)) c.(hard_derisk_on_crisis_open_group) (portfolio_halt s total_equity now_ms) c.(elevated_entry).

Definition any_book (d : dict bool) : bool := existsb snd d.

Definition book_day_start (s : StrategyState) (d : day) (total_equity : Q) : Q :=
  match s.(day_start_equity_by_book) with
  | [] => if s.(day_start_equity_usdc) =? 0 then total_equity else s.(day_start_equity_usdc)
  | _ => total d.(starts)
  end.

Definition snapshot_of (s : StrategyState) (i : cycle_inputs) (summaries : dict AccountSummary) (d : day) (drawdown : dict Q) (g : gates)
    (top_reasons : list string) (total_equity im mm : Q) (now_us : Z) : PortfolioSnapshot :=
  let now_ms := (now_us / 1000)%Z in
  let start := book_day_start s d total_equity in
  let run_rate := _projected_max_profit_run_rate s now_us in
  let capital := _effective_capital c.(exits).(desk).(engine) total_equity in
  let halts := halts_of s i total_equity now_ms in
  let halted := portfolio_halt s total_equity now_ms || negb (existsb (fun kv => negb (snd kv)) halts) || c.(pause_new_entries) in
  let ex_spot := map (fun kv => pnl_ex_spot d (fst kv)) d.(equities) in
  let cooldowns := map (fun kv => (fst kv, cooldown_of s (fst kv))) d.(equities) in
  let cooling_books := map (fun kv => (fst kv, cooling now_ms (snd kv))) cooldowns in
  {| total_equity_usdc := total_equity; snap_day_start_equity_usdc := start; day_net_flow_usdc := total d.(flows);
     day_pnl_usdc_ex_flow := (total_equity ⊖ start) ⊖ total d.(flows); day_drawdown_pct := max_value drawdown;
     open_max_loss := _open_max_loss s; open_max_loss_pct := open_max_loss_pct_of s total_equity;
     initial_margin_ratio := safe_div im total_equity 0; maintenance_margin_ratio := safe_div mm total_equity 0;
     projected_max_profit_run_rate_usdc := run_rate; projected_max_profit_apr := safe_div run_rate total_equity 0;
     target_progress_ratio := safe_div run_rate (capital ⊗ c.(target_portfolio_apr)) 0;
     EntryGates.regime := _overall_regime (map snd i.(regimes)); halt_new_entries := halted;
     hard_derisk := nonempty g.(breaches) || any_book g.(hard) || crisis_derisk s i.(regimes) || hard_stop_open_group s;
     snap_cooldown_until_ms := s.(StateJson.cooldown_until_ms); cooling_down := legacy_cooling s now_ms || any_book cooling_books;
     delta_totals_by_currency := _delta_totals_by_currency s i.(in_future_positions) i.(in_markets);
     regime_by_currency := i.(regimes);
     halt_entry_reasons := pause_reasons halted (regime_reasons i.(regimes) i.(details) halts (book_reasons g top_reasons));
     regime_detail_by_currency := i.(details); margin_ratios_by_currency := _per_currency_margin_ratios summaries;
     equity_by_book := d.(equities); snap_day_start_equity_by_book := d.(starts); snap_day_net_flow_usdc_by_book := d.(flows);
     day_pnl_usdc_ex_flow_by_book := map (pnl_ex_flow d) d.(equities); day_pnl_usdc_ex_flow_ex_spot := total ex_spot;
     day_pnl_usdc_ex_flow_ex_spot_by_book := ex_spot; day_drawdown_pct_by_book := drawdown;
     snap_cooldown_until_ms_by_book := cooldowns; cooling_down_by_book := cooling_books;
     hard_derisk_by_book := g.(hard); halt_entries_by_book := g.(halted_books);
     halt_entry_reasons_by_book := append_underlying_regime_halt_reasons_for_usdc_book g.(reasons) c.(accounts).(scan_underlyings) halts i.(regimes);
     halt_new_entries_by_currency := pause_halts halts; portfolio_wide_entry_halt := portfolio_halt s total_equity now_ms |}.

Definition _build_portfolio_snapshot (s : StrategyState) (summaries : dict AccountSummary) (i : cycle_inputs) (now_us : Z) : M PortfolioSnapshot :=
  let* total_equity := _total_equity_usdc c.(accounts) summaries in
  let* per_book := _book_equities_usdc c.(accounts) summaries in
  let* spots := index_prices (map fst (_book_equities_native c.(accounts) summaries)) in
  let* drawdown := lift (per_book_drawdown (day_of s per_book (_book_equities_native c.(accounts) summaries) spots)) in
  let* im := _aggregate_margin initial_margin summaries in
  let* mm := _aggregate_margin maintenance_margin summaries in
  let* g := lift (all_gates s summaries (map fst per_book) drawdown (now_us / 1000)) in
  let* top := lift (portfolio_reasons s i.(regimes) total_equity (now_us / 1000)) in
  ret (snapshot_of s i summaries (day_of s per_book (_book_equities_native c.(accounts) summaries) spots) drawdown g top total_equity im mm now_us).
End Portfolio.

(** ** What the gates say of a book *)

Section Gates.
Context {D : Desk}.
Variables (c : portfolio_config) (s : StrategyState) (summaries : dict AccountSummary) (drawdown : dict Q) (now_ms : Z).

(** The flags of a book and whether a reason is given for it. *)
Definition flags (b : string) (g : gates) : bool * bool * bool :=
  (get_or b false g.(hard), get_or b false g.(halted_books), nonempty (get_or b [] g.(reasons))).

Definition flag_or (x y : bool * bool * bool) : bool * bool * bool :=
  let '(a, b, r) := x in let '(a', b', r') := y in (a || a', b || b', r || r').

Definition at_book (b book : string) (x : bool * bool * bool) : bool * bool * bool := if String.eqb b book then x else (false, false, false).

Lemma get_or_set {A} b k (v d : A) m : get_or b d (dict_set k v m) = if String.eqb b k then v else get_or b d m.
Proof. unfold get_or. rewrite dict_get_set. now destruct (String.eqb b k). Qed.

Lemma nonempty_app {A} (l : list A) x : nonempty (l ++ [x]) = true.
Proof. now destruct l. Qed.

Lemma flags_reason b book r g : flags b (add_reason book r g) = flag_or (flags b g) (at_book b book (false, false, true)).
Proof.
  unfold flags, flag_or, at_book. cbn [hard halted_books reasons add_reason]. rewrite get_or_set. destruct (String.eqb_spec b book) as [->|_].
  - now rewrite nonempty_app, !orb_false_r, orb_true_r.
  - now rewrite !orb_false_r.
Qed.

Lemma flags_hard b book g : flags b (set_hard book g) = flag_or (flags b g) (at_book b book (true, false, false)).
Proof.
  unfold flags, flag_or, at_book. cbn [hard halted_books reasons set_hard]. rewrite get_or_set.
  destruct (String.eqb b book); now rewrite !orb_false_r, ?orb_true_r.
Qed.

Lemma flags_halted b book g : flags b (set_halted book g) = flag_or (flags b g) (at_book b book (false, true, false)).
Proof.
  unfold flags, flag_or, at_book. cbn [hard halted_books reasons set_halted]. rewrite get_or_set.
  destruct (String.eqb b book); now rewrite !orb_false_r, ?orb_true_r.
Qed.

Lemma flags_breach b x g : flags b (add_breach x g) = flags b g.
Proof. reflexivity. Qed.

Lemma flag_or_assoc x y z : flag_or (flag_or x y) z = flag_or x (flag_or y z).
Proof. destruct x as [[? ?] ?], y as [[? ?] ?], z as [[? ?] ?]. cbn. now rewrite !orb_assoc. Qed.

Lemma flag_or_none x : flag_or x (false, false, false) = x.
Proof. destruct x as [[? ?] ?]. cbn. now rewrite !orb_false_r. Qed.

Lemma at_book_or b book x y : flag_or (at_book b book x) (at_book b book y) = at_book b book (flag_or x y).
Proof. unfold at_book. now destruct (String.eqb b book). Qed.

Definition drawdown_flags (dd : Q) : bool * bool * bool :=
  let hard := dd >=? c.(hard_derisk_drawdown_pct) in let halt := dd >=? c.(halt_drawdown_pct) in (hard, halt, hard || halt).

Lemma drawdown_gate_flags dd book g g' b : drawdown_gate c dd book g = Ret g' -> flags b g' = flag_or (flags b g) (at_book b book (drawdown_flags dd)).
Proof.
  unfold drawdown_gate, drawdown_flags. intros E. apply obind_inv in E. destruct E as (g1 & E1 & E2).
  assert (F1 : flags b g1 = flag_or (flags b g) (at_book b book (dd >=? c.(hard_derisk_drawdown_pct), false, dd >=? c.(hard_derisk_drawdown_pct)))).
  { destruct (dd >=? c.(hard_derisk_drawdown_pct)).
    - apply obind_inv in E1. destruct E1 as (t & _ & E1). injection E1 as <-. rewrite flags_reason, flags_hard.
      unfold flag_or, at_book. destruct (flags b g) as [[? ?] ?], (String.eqb b book); now rewrite ?orb_false_r.
    - injection E1 as <-. unfold flag_or, at_book. destruct (flags b g) as [[? ?] ?], (String.eqb b book); now rewrite !orb_false_r. }
  destruct (dd >=? c.(halt_drawdown_pct)).
  - apply obind_inv in E2. destruct E2 as (t & _ & E2). injection E2 as <-. rewrite flags_reason, flags_halted, F1.
    unfold flag_or, at_book. destruct (flags b g) as [[? ?] ?], (String.eqb b book); now rewrite ?orb_false_r, ?orb_true_r.
  - injection E2 as <-. rewrite F1. unfold flag_or, at_book. destruct (flags b g) as [[? ?] ?], (String.eqb b book); now rewrite ?orb_false_r.
Qed.

Lemma cooldown_gate_flags x y book g g' b : cooldown_gate c x y book g = Ret g' -> flags b g' = flag_or (flags b g) (at_book b book (false, x || y, x || y)).
Proof.
  unfold cooldown_gate. destruct x, y; cbn [orb]; intros E; injection E as <-; repeat rewrite ?flags_reason, ?flags_halted; rewrite ?flag_or_assoc, ?at_book_or; [reflexivity..|].
  unfold at_book. destruct (String.eqb b book); now rewrite flag_or_none.
Qed.

Definition exempt (book : string) : bool := String.eqb book "USDT" || _covered_call_book_fully_collateralized c s summaries book.
Definition paced (book : string) : bool := cooling now_ms (cooldown_of s book) || _book_entry_cooldown_active c s book now_ms.

(** What a book's own drawdown and cooldowns ask for. *)
Definition own_flags (book : string) : bool * bool * bool :=
  if exempt book then (false, false, false) else flag_or (drawdown_flags (get_or book 0 drawdown)) (false, paced book, paced book).

Lemma book_gate_flags book g g' b : book_gate c s summaries drawdown now_ms book g = Ret g' -> flags b g' = flag_or (flags b g) (at_book b book (own_flags book)).
Proof.
  unfold book_gate, own_flags, exempt. destruct (_ || _); intros E.
  - injection E as <-. unfold at_book. destruct (String.eqb b book); now rewrite flag_or_none.
  - apply obind_inv in E. destruct E as (g1 & E1 & E2). apply (drawdown_gate_flags _ _ _ _ b) in E1. apply (cooldown_gate_flags _ _ _ _ _ b) in E2.
    rewrite E2, E1, flag_or_assoc, at_book_or. reflexivity.
Qed.

Lemma breach_flags book what ratio limit g g' b : margin_breach book what ratio limit g = Ret g' ->
  flags b g' = flag_or (flags b g) (at_book b book (ratio >=? limit, ratio >=? limit, ratio >=? limit)).
Proof.
  unfold margin_breach. destruct (ratio >=? limit); intros E.
  - apply obind_inv in E. destruct E as (t & _ & E). injection E as <-. rewrite flags_reason, flags_halted, flags_hard, flags_breach.
    rewrite !flag_or_assoc, !at_book_or. reflexivity.
  - injection E as <-. unfold at_book. destruct (String.eqb b book); now rewrite flag_or_none.
Qed.

Definition margin_hit (kv : string * (Q * Q)) : bool :=
  negb (_covered_call_book_im_mm_shielded c s summaries (fst kv) (_available_covered_call_quantity_from_summaries s summaries (fst kv))) &&
  ((fst (snd kv) >=? c.(book_im_hard)) || (snd (snd kv) >=? c.(book_mm_hard))).

Lemma margin_gate_flags kv g g' b : margin_gate c s summaries kv g = Ret g' ->
  flags b g' = flag_or (flags b g) (at_book b (fst kv) (margin_hit kv, margin_hit kv, margin_hit kv)).
Proof.
  destruct kv as [book [im mm]]. unfold margin_gate, margin_hit. cbn [fst snd]. destruct (_covered_call_book_im_mm_shielded _ _ _ _ _); cbn [negb andb]; intros E.
  - injection E as <-. unfold at_book. destruct (String.eqb b book); now rewrite flag_or_none.
  - apply obind_inv in E. destruct E as (g1 & E1 & E2). apply (breach_flags _ _ _ _ _ _ b) in E1, E2. rewrite E2, E1, flag_or_assoc, at_book_or. reflexivity.
Qed.

(** The flags that a loop adds. *)
Lemma each_flags {A} (f : A -> gates -> outcome gates) (h : string -> A -> bool * bool * bool) l b :
  (forall a g g', f a g = Ret g' -> flags b g' = flag_or (flags b g) (h b a)) ->
  forall g g', each f l g = Ret g' -> flags b g' = fold_left (fun x a => flag_or x (h b a)) l (flags b g).
Proof.
  intros F. induction l as [|a r IH]; cbn [each fold_left]; intros g g' E; [now injection E as <-|].
  apply obind_inv in E. destruct E as (g1 & E1 & E2). rewrite (IH _ _ E2). now rewrite (F _ _ _ E1).
Qed.

Lemma open_flags books b : flags b (open_gates books) = (false, false, false).
Proof.
  assert (G : forall (A : Type) (d : A) l, get_or b d (map (fun b => (b, d)) l) = d).
  { intros A d l. induction l as [|x r IH]; unfold get_or in *; cbn; [reflexivity|]. now destruct (String.eqb b x). }
  unfold flags, open_gates. cbn [hard halted_books reasons]. now rewrite !G.
Qed.

Lemma fold_or {A} (h : A -> bool * bool * bool) l x :
  fold_left (fun y a => flag_or y (h a)) l x =
  flag_or x (existsb (fun a => fst (fst (h a))) l, existsb (fun a => snd (fst (h a))) l, existsb (fun a => snd (h a)) l).
Proof.
  revert x. induction l as [|a r IH]; cbn [fold_left existsb]; intros x; [now rewrite flag_or_none|]. rewrite IH, flag_or_assoc.
  now destruct (h a) as [[? ?] ?].
Qed.

Lemma exists_at b (h : string -> bool * bool * bool) l (p : bool * bool * bool -> bool) : p (false, false, false) = false ->
  existsb (fun a => p (at_book b a (h a))) l = mem_str b l && p (h b).
Proof.
  intros P. induction l as [|a r IH]; cbn [existsb mem_str]; [reflexivity|]. fold (mem_str b r). rewrite IH. unfold at_book.
  destruct (String.eqb_spec b a) as [<-|_]; cbn [orb andb]; [|now rewrite P]. destruct (p (h b)); [reflexivity | now rewrite andb_false_r].
Qed.

Definition breached (b : string) : bool := existsb (fun kv => String.eqb b (fst kv) && margin_hit kv) (_per_currency_margin_ratios c summaries).

Lemma all_gates_flags books g b : all_gates c s summaries books drawdown now_ms = Ret g ->
  flags b g = flag_or (if mem_str b books then own_flags b else (false, false, false)) (breached b, breached b, breached b).
Proof.
  intros E. unfold all_gates in E. apply obind_inv in E. destruct E as (g1 & E1 & E2).
  apply (each_flags _ (fun b book => at_book b book (own_flags book)) _ b (fun a g g' => book_gate_flags a g g' b)) in E1.
  apply (each_flags _ (fun b kv => at_book b (fst kv) (margin_hit kv, margin_hit kv, margin_hit kv)) _ b (fun a g g' => margin_gate_flags a g g' b)) in E2.
  rewrite E2, E1, open_flags, !fold_or. f_equal.
  - rewrite (exists_at b own_flags books (fun x => fst (fst x)) eq_refl), (exists_at b own_flags books (fun x => snd (fst x)) eq_refl),
      (exists_at b own_flags books snd eq_refl). now destruct (mem_str b books), (own_flags b) as [[? ?] ?].
  - assert (X : forall p : bool * bool * bool -> bool, p (false, false, false) = false -> p (true, true, true) = true ->
      existsb (fun kv => p (at_book b (fst kv) (margin_hit kv, margin_hit kv, margin_hit kv))) (_per_currency_margin_ratios c summaries) = breached b).
    { intros p Pf Pt. clear - Pf Pt. unfold breached. induction (_per_currency_margin_ratios c summaries) as [|kv r IH]; cbn [existsb]; [reflexivity|].
      rewrite IH. unfold at_book. destruct (String.eqb b (fst kv)); cbn [andb]; [|now rewrite Pf]. destruct (margin_hit kv); now rewrite ?Pt, ?Pf. }
    now rewrite (X (fun x => fst (fst x)) eq_refl eq_refl), (X (fun x => snd (fst x)) eq_refl eq_refl), (X snd eq_refl eq_refl).
Qed.
End Gates.

(** What the gates say of a book, for every portfolio: it is to be de-risked exactly
    when its own drawdown is past the hard threshold, unless it is parked or covers its
    calls, or a margin of it is past its limit; its entries are halted exactly when its
    drawdown is past the halt threshold, a cooldown of it runs, or a margin is past its
    limit; and a reason is reported exactly when one of the two holds. *)
Theorem book_gates_exact c s summaries books drawdown now_ms g b : all_gates c s summaries books drawdown now_ms = Ret g ->
  let own := mem_str b books && negb (exempt c s summaries b) in
  let hit := breached c s summaries b in
  let dd := get_or b 0 drawdown in
  get_or b false g.(hard) = (own && (dd >=? c.(hard_derisk_drawdown_pct))) || hit /\
  get_or b false g.(halted_books) = (own && ((dd >=? c.(halt_drawdown_pct)) || paced c s now_ms b)) || hit /\
  nonempty (get_or b [] g.(reasons)) = get_or b false g.(hard) || get_or b false g.(halted_books).
Proof.
  intros E. apply (all_gates_flags c s summaries drawdown now_ms books g b) in E. unfold flags, own_flags, drawdown_flags in E. cbv zeta.
  destruct (mem_str b books), (exempt c s summaries b); cbn [negb andb flag_or] in *; injection E as -> -> ->; cbn [orb andb].
  all: destruct (get_or b 0 drawdown >=? c.(hard_derisk_drawdown_pct)), (get_or b 0 drawdown >=? c.(halt_drawdown_pct)), (paced c s now_ms b), (breached c s summaries b); auto.
Qed.

Definition sample_portfolio : portfolio_config := {|
  exits := sample_exit_config;
  accounts := {| traded_collaterals := ["USDC"; "BTC"]%string; scan_underlyings := ["BTC"]%string; has_private_credentials := true; cash_flow_query_interval_seconds := 300 |};
  min_book_equity_usdc := 10; target_portfolio_apr := 0.2; halt_drawdown_pct := 0.05; hard_derisk_drawdown_pct := 0.1; halt_open_max_loss_pct := 0.5;
  book_im_hard := 0.8; book_mm_hard := 0.6; hard_derisk_on_crisis_open_group := true; pause_new_entries := false; entry_cooldown_minutes := 30;
  elevated_entry := false; cooldown_hours := 12 |}.

Definition sample_account (currency : string) (equity initial maintenance : Q) : AccountSummary := {|
  account_currency := currency; balance := equity; Market.equity := equity; available_funds := 0; available_withdrawal_funds := 0;
  initial_margin := initial; maintenance_margin := maintenance; delta_total := 0; options_delta := 0; options_gamma := 0; options_theta := 0;
  total_equity_usd := 0; total_initial_margin_usd := 0; total_maintenance_margin_usd := 0 |}.

(** A coin book that lost 7% is halted; a USDC book whose margin is used to 85% is also
    to be de-risked. *)
Lemma book_gates_exact_witness :
  let summaries := [("USDC"%string, sample_account "USDC"%string 1000 850 100); ("BTC"%string, sample_account "BTC"%string 1 0 0)] in
  exists g, all_gates sample_portfolio empty_state summaries ["USDC"; "BTC"]%string [("BTC"%string, 0.07)] 0 = Ret g /\
    get_or "BTC"%string false g.(hard) = false /\ get_or "BTC"%string false g.(halted_books) = true /\
    get_or "USDC"%string false g.(hard) = true /\ nonempty (get_or "USDC"%string [] g.(reasons)) = true.
Proof.
  cbv zeta. set (summaries := [("USDC"%string, _); _]). pose (run := all_gates sample_portfolio empty_state summaries ["USDC"; "BTC"]%string [("BTC"%string, 0.07)] 0).
  pose (g := match run with Ret g => g | _ => open_gates [] end). assert (E : run = Ret g) by (vm_compute; reflexivity).
  exists g. split; [exact E|].
  destruct (book_gates_exact sample_portfolio empty_state summaries _ _ _ g "BTC"%string E) as (Hb & Lb & _).
  destruct (book_gates_exact sample_portfolio empty_state summaries _ _ _ g "USDC"%string E) as (Hu & _ & Ru). rewrite Hb, Lb, Ru, Hu.
  repeat split; vm_compute; reflexivity.
Defined.
