(* ===== verification/Drawdown.v ===== *)
(** The drawdown of a book within a day ([engine/portfolio_snapshot.py] with
    [cross_book_flow.py]): what comes in or goes out is not a drawdown; what the matching
    of moves between books hides, and what it invents. *)

From Stdlib Require Import Permutation.
From S2P Require Import Prelude Dec PyStr Utils Group StateJson EntryGates Runtime HedgeOrders Hedge Close GroupClose GroupExit CrossFlow DayState Portfolio.
Local Open Scope Q_scope.
Local Open Scope dec_scope.
Local Open Scope bool_scope.
Local Open Scope list_scope.

(** ** Money moved in or out is not a drawdown *)

Section Flows.
Variable c : portfolio_config.

(** The day when [moved b] more of each book came in from outside, and was recorded. *)
Definition deposit (moved : string -> Q) (d : day) : day := {|
  equities := d.(equities);
  natives := map (fun kv => (fst kv, snd kv ⊕ moved (fst kv))) d.(natives);
  starts := d.(starts); native_starts := d.(native_starts);
  flows := map (fun kv => (fst kv, if stable (fst kv) then snd kv ⊕ moved (fst kv) else snd kv)) d.(flows);
  native_flows := map (fun kv => (fst kv, if stable (fst kv) then snd kv else snd kv ⊕ moved (fst kv))) d.(native_flows);
  prices := d.(prices) |}.

Variables (d : day) (moved : string -> Q).

(** Amounts are multiples of 10^-16, here of at most [k] times 10^10. *)
Definition amount (k : Z) (q : Q) : Prop := exists z, (Z.abs z <= k * 10 ^ 26)%Z /\ q == gval (-16) z.

Lemma amount_Qeq k x y : x == y -> amount k x -> amount k y.
Proof. intros E (z & H & Z). exists z. split; [exact H | now rewrite <- E]. Qed.

Lemma amount_add j k x y : amount j x -> amount k y -> amount (j + k) (x + y).
Proof. intros (a & Ha & Ea) (b & Hb & Eb). exists (a + b)%Z. split; [lia|]. rewrite Ea, Eb. apply gval_add. Qed.

Lemma amount_opp k x : amount k x -> amount k (- x).
Proof. intros (a & Ha & Ea). exists (- a)%Z. split; [lia|]. rewrite Ea. unfold gval. inj. ring. Qed.

Lemma amount_exact k x : (k <= 10)%Z -> amount k x -> rnd x == x.
Proof.
  intros K (a & Ha & Ea). rewrite (rnd_Proper_eq _ _ Ea), Ea. apply rnd_exact, gval_representable. unfold prec. lia.
Qed.

Lemma sum_exact j k x y : amount j x -> amount k y -> (j + k <= 10)%Z -> x ⊕ y == x + y.
Proof. intros X Y K. exact (amount_exact _ _ K (amount_add _ _ _ _ X Y)). Qed.

Lemma diff_exact j k x y : amount j x -> amount k y -> (j + k <= 10)%Z -> x ⊖ y == x - y.
Proof. intros X Y K. exact (amount_exact _ _ K (amount_add _ _ _ _ X (amount_opp _ _ Y))). Qed.

Hypothesis moved_amount : forall b, amount 1 (moved b).
Hypothesis native_amount : forall b v, dict_get b d.(natives) = Some v -> amount 1 v.
Hypothesis start_amount : forall b v, dict_get b d.(native_starts) = Some v -> amount 1 v.
Hypothesis flow_amount : forall b v, dict_get b (if stable b then d.(flows) else d.(native_flows)) = Some v -> amount 1 v.
Hypothesis tallied : forall b, In b (map fst d.(natives)) -> dict_get b (if stable b then d.(flows) else d.(native_flows)) <> None.
Hypothesis started : forall b, In b (map fst d.(natives)) -> dict_get b d.(native_starts) <> None.
Hypothesis books_once : NoDup (map fst d.(natives)).

Lemma get_map {A B} (f : string -> A -> B) b (m : dict A) : dict_get b (map (fun kv => (fst kv, f (fst kv) (snd kv))) m) = option_map (f b) (dict_get b m).
Proof.
  induction m as [|[k v] r IH]; cbn [map dict_get fst snd]; [reflexivity|]. destruct (String.eqb_spec b k) as [->|_]; [reflexivity | exact IH].
Qed.

Lemma key_get {A} b (m : dict A) : In b (map fst m) -> exists v, dict_get b m = Some v.
Proof. intros I. pose proof (has_key b m I) as H. unfold has in H. destruct (dict_get b m); [eauto | congruence]. Qed.

Definition flow_at (x : day) (b : string) : Q := if stable b then get_or b 0 x.(flows) else get_or b 0 x.(native_flows).

Lemma dict_get_once {A} (m : dict A) b v : NoDup (map fst m) -> In (b, v) m -> dict_get b m = Some v.
Proof.
  induction m as [|[k x] r IH]; cbn [map fst In dict_get]; intros N I; [tauto|]. inversion N as [|? ? H N']; subst. destruct I as [E|I].
  - injection E as -> ->. now rewrite String.eqb_refl.
  - destruct (String.eqb_spec b k) as [->|_]; [|auto]. destruct H. exact (in_map fst _ _ I).
Qed.

(** The book at hand: its equity, start and flow. *)
Lemma at_key b : In b (map fst d.(natives)) -> exists n st fl, dict_get b d.(natives) = Some n /\ dict_get b d.(native_starts) = Some st /\
  flow_at d b = fl /\ amount 1 n /\ amount 1 st /\ amount 1 fl /\ flow_at (deposit moved d) b = fl ⊕ moved b /\ get_or b 0 (natives (deposit moved d)) = n ⊕ moved b.
Proof.
  intros I. destruct (key_get _ _ I) as (n & En). destruct (dict_get b d.(native_starts)) as [st|] eqn:Es; [|now destruct (started b I)].
  destruct (dict_get b (if stable b then d.(flows) else d.(native_flows))) as [fl|] eqn:Ef; [|now destruct (tallied b I)].
  exists n, st, fl. pose proof (flow_amount b fl Ef) as Af. split; [exact En|]. split; [reflexivity|].
  unfold flow_at, deposit, get_or. cbn [natives flows native_flows].
  rewrite (get_map (fun k v => if stable k then v ⊕ moved k else v)), (get_map (fun k v => if stable k then v else v ⊕ moved k)), (get_map (fun k v => v ⊕ moved k)), En.
  destruct (stable b) eqn:St; rewrite Ef; cbn [option_map]; rewrite ?St; eauto 10.
Qed.

Definition delta_at (x : day) (b : string) : Q := _native_delta x.(natives) x.(native_starts) x.(native_flows) x.(flows) b.

(** The move of a book on its own account is the same. *)
Lemma delta_same b : In b (map fst d.(natives)) -> delta_at (deposit moved d) b = delta_at d b.
Proof.
  intros I. destruct (at_key b I) as (n & st & fl & En & Es & Ef & An & As & Af & Ef' & En'). unfold delta_at, _native_delta, _external_flow_native.
  change (if stable b then get_or b 0 (flows (deposit moved d)) else get_or b 0 (native_flows (deposit moved d))) with (flow_at (deposit moved d) b).
  change (if stable b then get_or b 0 (flows d) else get_or b 0 (native_flows d)) with (flow_at d b).
  rewrite Ef', Ef, En'. change (native_starts (deposit moved d)) with (native_starts d).
  unfold get_or. rewrite En, Es. unfold dsub at 1 3. apply rnd_Proper_eq.
  pose proof (sum_exact _ _ _ _ An (moved_amount b) ltac:(lia)) as S1. pose proof (sum_exact _ _ _ _ Af (moved_amount b) ltac:(lia)) as S2.
  pose proof (diff_exact 2 1 (n ⊕ moved b) st (amount_Qeq _ _ _ (Qeq_sym _ _ S1) (amount_add _ _ _ _ An (moved_amount b))) As ltac:(lia)) as D1.
  pose proof (diff_exact _ _ _ _ An As ltac:(lia)) as D2. lra.
Qed.

Lemma book_drawdown_same cross b n : In (b, n) d.(natives) -> amount 1 (get_or b 0 cross) ->
  book_drawdown c (deposit moved d) cross (b, n ⊕ moved b) = book_drawdown c d cross (b, n).
Proof.
  intros I A. pose proof (in_map fst _ _ I) as I'. cbn [fst] in I'. destruct (at_key b I') as (n' & st & fl & En & Es & Ef & An & As & Af & Ef' & _).
  assert (n' = n) as ->. { rewrite (dict_get_once _ _ _ books_once I) in En. now injection En. }
  assert (Gs : forall x, get_or b x d.(native_starts) = st) by (intros; unfold get_or; now rewrite Es).
  unfold book_drawdown. change (starts (deposit moved d)) with (starts d). change (native_starts (deposit moved d)) with (native_starts d).
  destruct (_ <=? c.(min_book_equity_usdc)); [reflexivity|]. cbv zeta. rewrite !Gs. destruct (st <=? 0); [reflexivity|].
  change (if stable b then get_or b 0 (flows (deposit moved d)) else get_or b 0 (native_flows (deposit moved d))) with (flow_at (deposit moved d) b).
  change (if stable b then get_or b 0 (flows d) else get_or b 0 (native_flows d)) with (flow_at d b).
  rewrite Ef', Ef. do 2 f_equal. f_equal. f_equal. set (a := get_or b 0 cross) in *.
  pose proof (moved_amount b) as M. set (m := moved b) in *. unfold dsub. apply rnd_Proper_eq.
  pose proof (sum_exact _ _ _ _ An M ltac:(lia)) as S1. pose proof (sum_exact _ _ _ _ Af M ltac:(lia)) as S2.
  pose proof (amount_add _ _ _ _ Af M) as FM. apply (amount_Qeq _ _ _ (Qeq_sym _ _ S2)) in FM.
  pose proof (sum_exact _ _ _ _ FM A ltac:(lia)) as S3. pose proof (amount_Qeq _ _ _ (Qeq_sym _ _ S3) (amount_add _ _ _ _ FM A)) as T3.
  pose proof (sum_exact _ _ _ _ Af A ltac:(lia)) as S4. pose proof (amount_Qeq _ _ _ (Qeq_sym _ _ S4) (amount_add _ _ _ _ Af A)) as T4.
  pose proof (sum_exact _ _ _ _ As T3 ltac:(lia)) as S5. pose proof (sum_exact _ _ _ _ As T4 ltac:(lia)) as S6. lra.
Qed.

Lemma drawdowns_same : (forall cross, cross_book_flow_adjustments_native d.(natives) d.(native_starts) d.(native_flows) d.(flows) d.(prices) c.(min_book_equity_usdc) = Ret cross ->
    forall b, amount 1 (get_or b 0 cross)) ->
  per_book_drawdown c (deposit moved d) = per_book_drawdown c d.
Proof.
  intros H. unfold per_book_drawdown.
  rewrite (cross_same (natives (deposit moved d)) d.(natives) d.(native_starts) (native_flows (deposit moved d)) d.(native_flows) (flows (deposit moved d)) d.(flows)).
  - destruct (cross_book_flow_adjustments_native _ _ _ _ _ _) as [cross| |]; [|reflexivity..]. cbn [obind]. f_equal. specialize (H _ eq_refl).
    change (natives (deposit moved d)) with (map (fun kv => (fst kv, snd kv ⊕ moved (fst kv))) d.(natives)).
    rewrite !flat_map_concat_map, map_map. f_equal. apply map_ext_in. intros [b n] I. cbn [fst snd]. now apply book_drawdown_same.
  - unfold deposit. cbn [natives]. now rewrite map_map.
  - intros b I. unfold deposit in I. cbn [natives] in I. rewrite map_map in I. exact (delta_same b I).
Qed.
End Flows.

(** ** Moves that are matched *)

Ltac says b v := replace b with v by (symmetry; first [apply dltb_true | apply dltb_false | apply dleb_true | apply dleb_false]; lra).

Lemma rnd_same x y : representable y -> x == y -> rnd x == y.
Proof. intros R E. rewrite (rnd_Proper_eq _ _ E). now apply rnd_exact. Qed.

Lemma dmul_one x : representable x -> x ⊗ 1 == x.
Proof. intros R. apply rnd_same; [exact R | ring]. Qed.

Lemma over_one m x : representable x -> m == x -> safe_div m 1 0 == x.
Proof. intros R E. unfold safe_div. change (1 =? 0) with false. cbv iota. apply rnd_same; [exact R | rewrite E; field]. Qed.

Lemma zero_plus x y : representable y -> x == y -> 0 ⊕ x == y.
Proof. intros R E. apply rnd_same; [exact R | rewrite E; ring]. Qed.

Lemma zero_minus x y : representable y -> x == y -> 0 ⊖ x == - y.
Proof. intros R E. apply rnd_same; [now apply representable_opp | rewrite E; ring]. Qed.

(** A drawdown map has the value of a book at its key. *)
Lemma get_nonzero u x l : ~ x == 0 -> (forall v, In (u, v) l -> v = x) -> In (u, x) l -> get_or u 0 (filter (fun kv => negb (snd kv =? 0)) l) = x.
Proof.
  intros N U I. unfold get_or. induction l as [|[k v] r IH]; [destruct I|]. cbn [filter snd]. destruct (String.eqb_spec u k) as [<-|D].
  - rewrite (U v (or_introl eq_refl)). destruct (deqb_spec x 0) as [Z|_]; [tauto|]. cbn [negb dict_get]. now rewrite String.eqb_refl.
  - destruct I as [E|I]; [congruence|]. specialize (IH (fun v H => U v (or_intror H)) I).
    destruct (negb (v =? 0)); [|exact IH]. cbn [dict_get]. apply String.eqb_neq in D. rewrite D. exact IH.
Qed.

Section Masking.
Variables (u b : string) (nu nb min : Q) (e st nf uf prices : dict Q).
Hypothesis u_stable : stable u = true.
Hypothesis b_coin : stable b = false.
Hypothesis shape : e = [(u, nu); (b, nb)].
Let f : string -> Q := _native_delta e st nf uf.
Let p : Q := get_or b 0 prices.
Hypothesis representable_u : representable (f u).
Hypothesis lost : f u < 0.
Hypothesis large : min <= - f u.
Hypothesis price_pos : 0 < p.
Hypothesis gained : - f u <= f b ⊗ p.

(** The whole loss is taken for money that went to the other book. *)
Lemma matched_loss : exists adj, cross_book_flow_adjustments_native e st nf uf prices min = Ret adj /\ get_or u 0 adj == f u.
Proof.
  assert (D : u <> b) by (intros ->; congruence). assert (K : String.eqb b u = false) by (apply String.eqb_neq; congruence).
  assert (Gp : 0 < f b).
  { destruct (Qlt_le_dec 0 (f b)) as [|N]; [assumption|]. pose proof (rnd_nonpos (f b * p)) as P. fold (f b ⊗ p) in P.
    assert (0 <= - f b * p) by (apply Qmult_le_0_compat; lra). lra. }
  assert (Su : _spot prices u = 1) by (unfold _spot; now rewrite u_stable). assert (Sb : _spot prices b = p) by (unfold _spot; now rewrite b_coin).
  set (loss := rnd (- f u)). assert (El : loss == - f u) by (apply rnd_same; [now apply representable_opp | reflexivity]).
  assert (Rl : representable loss) by apply rnd_representable. pose proof (dmul_one loss Rl) as Em.
  assert (Mc : dmin (loss ⊗ 1) (f b ⊗ p) = loss ⊗ 1) by (destruct (dmin_cases (loss ⊗ 1) (f b ⊗ p)) as [[-> _]|[_ C]]; [reflexivity | lra]).
  set (t := safe_div (loss ⊗ 1) 1 0). assert (Et : t == loss) by (apply over_one; assumption).
  pose proof (match_one (_spot prices) min u b loss (f b) D ltac:(rewrite Su; lra) ltac:(rewrite Sb; lra) ltac:(lra) Gp) as One.
  rewrite Su, Sb, Mc in One. fold t in One. specialize (One ltac:(lra) ltac:(left; apply rnd_nonpos; lra) []).
  unfold get_or in One at 1 2. cbn [dict_get dict_set] in One. rewrite K in One.
  assert (Eu : 0 ⊖ t == f u) by (rewrite (zero_minus t loss Rl Et); lra). set (x := 0 ⊖ t) in *. set (y := 0 ⊕ safe_div (loss ⊗ 1) p 0) in *.
  exists (filter (fun kv => negb (snd kv =? 0)) [(u, x); (b, y)]). split.
  - unfold cross_book_flow_adjustments_native. fold f. unfold losses, gains, books. rewrite shape. cbn [map fst filter]. rewrite u_stable, b_coin. cbn [andb negb].
    says (f u <? 0) true. says (f u >? 0) false. says (f b <? 0) false. says (f b >? 0) true. cbn [map]. fold loss. rewrite One. cbn [obind].
    rewrite match_none. cbn [obind fold_left].
    assert (T : touch u [(u, x); (b, y)] = [(u, x); (b, y)]) by (unfold touch; cbn [dict_get]; now rewrite String.eqb_refl).
    rewrite T. unfold get_or at 3 4. cbn [dict_get]. rewrite String.eqb_refl.
    assert (Z : f u ⊕ x <= 0) by (unfold dadd; apply rnd_nonpos; lra). says (f u ⊕ x >? 0) false. cbn [map]. now rewrite match_none.
  - rewrite get_nonzero with (x := x); [exact Eu | lra | | now left]. intros v [E|[E|[]]]; congruence.
Qed.
End Masking.

Section Phantom.
Variables (v u b : string) (nv nu nb min : Q) (e st nf uf prices : dict Q).
Hypothesis v_stable : stable v = true.
Hypothesis u_stable : stable u = true.
Hypothesis b_coin : stable b = false.
Hypothesis two : v <> u.
Hypothesis shape : e = [(v, nv); (u, nu); (b, nb)].
Let f : string -> Q := _native_delta e st nf uf.
Let p : Q := get_or b 0 prices.
Hypothesis representable_v : representable (f v).
Hypothesis representable_u : representable (f u).
Hypothesis representable_2 : representable (f u + f u).
Hypothesis representable_sum : representable (f u - f v).
Hypothesis price_pos : 0 < p.
Hypothesis sold : f b < 0.
Hypothesis bought : 0 < f u.
Hypothesis worth_same : rnd (- f b) ⊗ p == f u.
Hypothesis lost : f v < 0.
Hypothesis large : min <= f u /\ min <= - f v.
Hypothesis within : - f v <= 2 * f u.

(** Coin sold for [f u] is matched with what [u] gained; as much again of it is then
    matched with the loss of [v]. *)
Lemma matched_twice : exists adj, cross_book_flow_adjustments_native e st nf uf prices min = Ret adj /\ get_or u 0 adj == f u - f v.
Proof.
  assert (Dv : b <> v) by (intros ->; congruence). assert (Du : b <> u) by (intros ->; congruence).
  assert (Kub : String.eqb u b = false) by (apply String.eqb_neq; congruence). assert (Kvb : String.eqb v b = false) by (apply String.eqb_neq; congruence).
  assert (Kvu : String.eqb v u = false) by (apply String.eqb_neq; congruence). assert (Kuv : String.eqb u v = false) by (apply String.eqb_neq; congruence).
  assert (Sv : _spot prices v = 1) by (unfold _spot; now rewrite v_stable). assert (Su : _spot prices u = 1) by (unfold _spot; now rewrite u_stable).
  assert (Sb : _spot prices b = p) by (unfold _spot; now rewrite b_coin).
  set (sale := rnd (- f b)) in *. assert (Sp : 0 < sale).
  { destruct (Qlt_le_dec 0 sale) as [|N]; [assumption|]. pose proof (rnd_nonpos (sale * p)) as P. fold (sale ⊗ p) in P.
    assert (0 <= - sale * p) by (apply Qmult_le_0_compat; lra). lra. }
  (* the coin that was sold *)
  pose proof (dmul_one (f u) representable_u) as Em. set (m := dmin (sale ⊗ p) (f u ⊗ 1)).
  assert (Mm : m == f u) by (unfold m; destruct (dmin_cases (sale ⊗ p) (f u ⊗ 1)) as [[-> _]|[-> _]]; lra).
  pose proof (over_one m (f u) representable_u Mm) as Ei.
  pose proof (match_one (_spot prices) min b u sale (f u) Du ltac:(rewrite Sb; lra) ltac:(rewrite Su; lra) Sp bought) as One.
  rewrite Su, Sb in One. fold m in One. set (i := safe_div m 1 0) in *. specialize (One ltac:(lra) ltac:(right; apply rnd_nonpos; lra) []).
  unfold get_or in One at 1 2. cbn [dict_get dict_set] in One. rewrite Kub in One. set (o := 0 ⊖ safe_div m p 0) in *.
  assert (Eg : 0 ⊕ i == f u) by (apply zero_plus; assumption). set (g := 0 ⊕ i) in *.
  (* what is left over *)
  set (loss := rnd (- (f v ⊕ 0))). assert (Ev : f v ⊕ 0 == f v) by (apply rnd_same; [assumption | ring]).
  assert (El : loss == - f v) by (apply rnd_same; [now apply representable_opp | lra]). assert (Rl : representable loss) by apply rnd_representable.
  assert (Eh : f u ⊕ g == f u + f u) by (apply rnd_same; [assumption | lra]). set (h := f u ⊕ g) in *.
  assert (Rh : representable h) by apply rnd_representable. pose proof (dmul_one h Rh) as Eh1. pose proof (dmul_one loss Rl) as El1.
  assert (Mc : dmin (loss ⊗ 1) (h ⊗ 1) = loss ⊗ 1) by (destruct (dmin_cases (loss ⊗ 1) (h ⊗ 1)) as [[-> _]|[_ C]]; [reflexivity | lra]).
  set (t := safe_div (loss ⊗ 1) 1 0). assert (Et : t == loss) by (apply over_one; assumption).
  pose proof (match_one (_spot prices) min v u loss h two ltac:(rewrite Sv; lra) ltac:(rewrite Su; lra) ltac:(lra) ltac:(lra)) as Two.
  rewrite Su, Sv, Mc in Two. fold t in Two. specialize (Two ltac:(lra) ltac:(left; apply rnd_nonpos; lra) [(b, o); (u, g); (v, 0)]).
  unfold get_or in Two at 1 2. cbn [dict_get dict_set] in Two. rewrite Kub, Kuv, Kvb, Kvu, !String.eqb_refl in Two. cbn [dict_set] in Two. rewrite Kub, String.eqb_refl in Two.
  set (x := g ⊕ t) in *. set (y := 0 ⊖ t) in *. assert (Ex : x == f u - f v) by (apply rnd_same; [assumption | lra]).
  exists (filter (fun kv => negb (snd kv =? 0)) [(b, o); (u, x); (v, y)]). split.
  - unfold cross_book_flow_adjustments_native. fold f. unfold losses, gains, books. rewrite shape. cbn [map fst filter]. rewrite u_stable, b_coin, v_stable. cbn [andb negb].
    says (f u <? 0) false. says (f u >? 0) true. says (f b <? 0) true. says (f b >? 0) false. says (f v <? 0) true. says (f v >? 0) false. cbn [map].
    rewrite match_none. cbn [obind]. fold sale. rewrite One. cbn [obind fold_left].
    assert (T : touch u (touch v [(b, o); (u, g)]) = [(b, o); (u, g); (v, 0)]).
    { unfold touch. cbn [dict_get]. rewrite Kvb, Kvu. cbn [dict_get dict_set]. rewrite Kvb, Kvu. cbn [dict_get]. now rewrite Kub, String.eqb_refl. }
    rewrite T. unfold get_or. cbn [dict_get]. rewrite Kvb, Kvu, Kub, !String.eqb_refl. fold h.
    says (f v ⊕ 0 <? 0) true. says (f v ⊕ 0 >? 0) false. says (h <? 0) false. says (h >? 0) true. cbn [map]. repeat rewrite ?Kub, ?Kvb, ?Kvu, ?String.eqb_refl. fold h loss. now rewrite Two.
  - rewrite get_nonzero with (x := x); [exact Ex | lra | | now right; left]. intros w [E|[E|[E|[]]]]; congruence.
Qed.
End Phantom.

(** ** Theorems *)

Lemma dmax_same x y : x == y -> dmax x 0 == dmax y 0.
Proof. intros E. now rewrite E. Qed.

Section Read.
Variables (c : portfolio_config) (d : day) (u : string) (nu su fu : Q).
Hypothesis books_once : NoDup (map fst d.(natives)).
Hypothesis equity_u : In (u, nu) d.(natives).
Hypothesis start_u : dict_get u d.(native_starts) = Some su.
Hypothesis flow_u : flow_at d u = fu.
Hypotheses (amount_n : amount 1 nu) (amount_s : amount 1 su) (amount_f : amount 1 fu).

Lemma delta_u : delta_at d u == nu - su - fu.
Proof.
  unfold delta_at, _native_delta, _external_flow_native. change (if stable u then _ else _) with (flow_at d u).
  unfold get_or. rewrite (dict_get_once _ _ _ books_once equity_u), start_u, flow_u.
  pose proof (diff_exact _ _ _ _ amount_n amount_s ltac:(lia)) as E1.
  pose proof (amount_Qeq _ _ _ (Qeq_sym _ _ E1) (amount_add _ _ _ _ amount_n (amount_opp _ _ amount_s))) as A1.
  pose proof (diff_exact _ _ _ _ A1 amount_f ltac:(lia)) as E2. lra.
Qed.

Lemma delta_amount : amount 3 (delta_at d u).
Proof.
  apply (amount_Qeq _ _ _ (Qeq_sym _ _ delta_u)). apply (amount_add 2 1); [apply (amount_add 1 1)|]; auto using amount_opp.
Qed.

Lemma get_flat {A} (h : string * A -> list (string * Q)) l x v : (forall kv q, In q (h kv) -> fst q = fst kv) -> NoDup (map fst l) -> In (x, v) l ->
  get_or x 0 (flat_map h l) = get_or x 0 (h (x, v)).
Proof.
  intros H N I. unfold get_or. assert (G : dict_get x (flat_map h l) = dict_get x (h (x, v))); [|now rewrite G].
  assert (App : forall l1 l2 : dict Q, dict_get x (l1 ++ l2) = match dict_get x l1 with Some y => Some y | None => dict_get x l2 end).
  { induction l1 as [|[k y] r IH]; cbn; intros; [reflexivity|]. now destruct (String.eqb x k). }
  assert (Far : forall l' : dict Q, (forall q, In q l' -> fst q <> x) -> dict_get x l' = None).
  { induction l' as [|[k y] r IH]; cbn; intros F; [reflexivity|]. destruct (String.eqb_spec x k) as [->|_]; [destruct (F (k, y)); auto | auto]. }
  induction l as [|[k y] r IH]; [destruct I|]. inversion N as [|? ? Nk Nr]; subst. cbn [flat_map]. rewrite App. destruct I as [E|I].
  - injection E as -> ->. destruct (dict_get x (h (x, v))) eqn:E; [reflexivity|]. apply Far. intros q Q. apply in_flat_map in Q. destruct Q as (kv & K & Q).
    rewrite (H _ _ Q). intros <-. apply Nk, in_map, K.
  - rewrite (IH Nr I), (Far (h (k, y))); [reflexivity|]. intros q Q. rewrite (H _ _ Q). cbn [fst]. intros ->. apply Nk, (in_map fst _ _ I).
Qed.

(** The drawdown of a measured book is what of its adjustment its own move does not explain. *)
Lemma drawdown_u cross a : c.(min_book_equity_usdc) < get_or u 0 d.(starts) -> 0 < su ->
  cross_book_flow_adjustments_native d.(natives) d.(native_starts) d.(native_flows) d.(flows) d.(prices) c.(min_book_equity_usdc) = Ret cross ->
  get_or u 0 cross == a -> amount 6 a ->
  exists r, per_book_drawdown c d = Ret r /\ get_or u 0 r == safe_div (dmax (a - delta_at d u) 0) su 0.
Proof.
  intros Big Sp Ec Ea Aa. unfold per_book_drawdown. rewrite Ec. cbn [obind]. eexists. split; [reflexivity|].
  assert (H : forall kv q, In q (book_drawdown c d cross kv) -> fst q = fst kv).
  { intros [k x] q. unfold book_drawdown. cbv zeta. destruct (_ <=? _); [intros []|]. destruct (_ <=? _); [intros []|]. intros [<-|[]]. reflexivity. }
  rewrite (get_flat _ _ _ _ H books_once equity_u).
  unfold book_drawdown. replace (get_or u 0 d.(starts) <=? c.(min_book_equity_usdc)) with false by (symmetry; now apply dleb_false).
  assert (Gs : forall x, get_or u x d.(native_starts) = su) by (intros; unfold get_or; now rewrite start_u). cbv zeta. rewrite !Gs.
  replace (su <=? 0) with false by (symmetry; now apply dleb_false). change (if stable u then _ else _) with (flow_at d u). rewrite flow_u.
  unfold get_or at 1. cbn [dict_get]. rewrite String.eqb_refl. unfold safe_div. destruct (deqb_spec su 0) as [Z|_]; [lra|].
  pose proof (amount_Qeq _ _ _ (Qeq_sym _ _ Ea) Aa) as Ax. set (x := get_or u 0 cross) in *.
  pose proof (sum_exact _ _ _ _ amount_f Ax ltac:(lia)) as E1. pose proof (amount_Qeq _ _ _ (Qeq_sym _ _ E1) (amount_add _ _ _ _ amount_f Ax)) as A1.
  pose proof (sum_exact _ _ _ _ amount_s A1 ltac:(lia)) as E2. pose proof (amount_Qeq _ _ _ (Qeq_sym _ _ E2) (amount_add _ _ _ _ amount_s A1)) as A2.
  pose proof (diff_exact _ _ _ _ A2 amount_n ltac:(lia)) as E3. pose proof delta_u as Du.
  assert (M : dmax (su ⊕ (fu ⊕ x) ⊖ nu) 0 == dmax (a - delta_at d u) 0) by (apply dmax_same; lra).
  rewrite M. reflexivity.
Qed.
End Read.

(** Where every figure of a day is an amount, and every book has its start and flow. *)
Record measured (d : day) (moved : string -> Q) : Prop := {
  m_once : NoDup (map fst d.(natives));
  m_moved : forall b, amount 1 (moved b);
  m_native : forall b v, dict_get b d.(natives) = Some v -> amount 1 v;
  m_start : forall b v, dict_get b d.(native_starts) = Some v -> amount 1 v;
  m_flow : forall b v, dict_get b (if stable b then d.(flows) else d.(native_flows)) = Some v -> amount 1 v;
  m_tallied : forall b, In b (map fst d.(natives)) -> dict_get b (if stable b then d.(flows) else d.(native_flows)) <> None;
  m_started : forall b, In b (map fst d.(natives)) -> dict_get b d.(native_starts) <> None;
}.


(** What the matching hides: with a stable book and a coin book, a loss of the
    stable book of any size is no drawdown of it, when the coin book gained as much. *)
Theorem gain_hides_loss c d u b nu nb su fu : d.(natives) = [(u, nu); (b, nb)] -> stable u = true -> stable b = false ->
  dict_get u d.(native_starts) = Some su -> flow_at d u = fu -> amount 1 nu /\ amount 1 su /\ amount 1 fu ->
  c.(min_book_equity_usdc) < get_or u 0 d.(starts) -> 0 < su ->
  let loss := - delta_at d u in 0 < loss -> c.(min_book_equity_usdc) <= loss ->
  0 < get_or b 0 d.(prices) -> loss <= delta_at d b ⊗ get_or b 0 d.(prices) ->
  exists r, per_book_drawdown c d = Ret r /\ get_or u 0 r == 0.
Proof.
  intros En Su Sb Es Ef (An & As & Af) Big Sp loss Lp Ll Pp Lg.
  assert (N : NoDup (map fst d.(natives))) by (rewrite En; constructor; [intros [E|[]]; cbn [fst] in E; congruence | constructor; [intros [] | constructor]]).
  assert (I : In (u, nu) d.(natives)) by (rewrite En; now left).
  pose proof (delta_amount d u nu su fu N I Es Ef An As Af) as Ad. assert (Rd : representable (delta_at d u)).
  { destruct Ad as (z & Hz & ->). apply gval_representable. unfold prec. lia. }
  destruct (matched_loss u b nu nb c.(min_book_equity_usdc) d.(natives) d.(native_starts) d.(native_flows) d.(flows) d.(prices) Su Sb En Rd) as (adj & E1 & E2);
    fold (delta_at d u) (delta_at d b) in *; [unfold loss in Lp; lra | exact Ll | exact Pp | exact Lg |].
  assert (A6 : amount 6 (delta_at d u)) by (destruct Ad as (z & Hz & Ez); exists z; split; [lia | exact Ez]).
  destruct (drawdown_u c d u nu su fu N I Es Ef An As Af adj _ Big Sp E1 E2 A6) as (r & Er & Rr). exists r. split; [exact Er|]. rewrite Rr.
  unfold safe_div. destruct (su =? 0); [reflexivity|]. unfold ddiv. rewrite (rnd_Proper_eq _ 0); [reflexivity|].
  assert (M : dmax (delta_at d u - delta_at d u) 0 == 0) by (rewrite (dmax_same _ 0) by ring; reflexivity). rewrite M. unfold Qdiv. ring.
Qed.

(** What the matching invents: coin is sold for [f] into one stable book, which
    therefore gained [f], while another stable book lost [l], of at most twice [f]. The
    book that received the money of the sale is reported with a drawdown of [l], although
    it lost nothing: what the first matching explained is counted again, not taken off. *)
Theorem sale_counted_twice c d v u b nv nu nb sv su fv fu : d.(natives) = [(v, nv); (u, nu); (b, nb)] ->
  stable v = true -> stable u = true -> stable b = false -> v <> u ->
  dict_get u d.(native_starts) = Some su -> dict_get v d.(native_starts) = Some sv -> flow_at d u = fu -> flow_at d v = fv ->
  Forall (amount 1) [nu; su; fu; nv; sv; fv] -> c.(min_book_equity_usdc) < get_or u 0 d.(starts) -> 0 < su ->
  let f := delta_at d u in let l := - delta_at d v in
  0 < f -> 0 < l -> c.(min_book_equity_usdc) <= f -> c.(min_book_equity_usdc) <= l -> l <= 2 * f ->
  0 < get_or b 0 d.(prices) -> delta_at d b < 0 -> rnd (- delta_at d b) ⊗ get_or b 0 d.(prices) == f ->
  exists r, per_book_drawdown c d = Ret r /\ get_or u 0 r == safe_div l su 0.
Proof.
  intros En Sv Su Sb Dvu Es Es' Ef Ef' Am Big Sp f l Fp Lp Lf Ll L2 Pp Db Wb.
  rewrite !Forall_cons_iff in Am. destruct Am as (? & ? & ? & ? & ? & ? & _).
  assert (N : NoDup (map fst d.(natives))).
  { rewrite En. cbn. repeat constructor; cbn; intuition congruence. }
  assert (I : In (u, nu) d.(natives)) by (rewrite En; right; now left). assert (I' : In (v, nv) d.(natives)) by (rewrite En; now left).
  pose proof (delta_amount d u nu su fu N I Es Ef ltac:(assumption) ltac:(assumption) ltac:(assumption)) as Au.
  pose proof (delta_amount d v nv sv fv N I' Es' Ef' ltac:(assumption) ltac:(assumption) ltac:(assumption)) as Av.
  assert (Rep : forall k x, (k <= 10)%Z -> amount k x -> representable x).
  { intros k x K (z & Hz & ->). apply gval_representable. unfold prec. lia. }
  pose proof (amount_add _ _ _ _ Au (amount_opp _ _ Av)) as A6.
  destruct (matched_twice v u b nv nu nb c.(min_book_equity_usdc) d.(natives) d.(native_starts) d.(native_flows) d.(flows) d.(prices) Sv Su Sb Dvu En
    (Rep 3%Z _ ltac:(lia) Av) (Rep 3%Z _ ltac:(lia) Au) (Rep (3 + 3)%Z _ ltac:(lia) (amount_add _ _ _ _ Au Au)) (Rep (3 + 3)%Z _ ltac:(lia) A6) Pp Db Fp Wb) as (adj & E1 & E2);
    fold (delta_at d u) (delta_at d v) in *; [unfold l in Lp; lra | split; assumption | exact L2 |].
  destruct (drawdown_u c d u nu su fu N I Es Ef ltac:(assumption) ltac:(assumption) ltac:(assumption) adj _ Big Sp E1 E2 A6) as (r & Er & Rr).
  exists r. split; [exact Er|]. rewrite Rr. unfold safe_div, ddiv. destruct (su =? 0); [reflexivity|]. rewrite (rnd_Proper_eq _ (l / su)); [reflexivity|].
  assert (M : forall x y, 0 < - y -> dmax (x - y - x) 0 == - y).
  { intros x y P. rewrite (dmax_same _ (- y)) by ring. destruct (dmax_cases (- y) 0) as [[-> _]|[-> C]]; lra. }
  rewrite M by exact Lp. reflexivity.
Qed.

(** ** Concrete days *)

Definition sample_day (natives starts : dict Q) : day := {|
  equities := []; natives := natives; starts := map (fun kv => (fst kv, 1000)) natives; native_starts := starts;
  flows := map (fun kv => (fst kv, 0)) natives; native_flows := map (fun kv => (fst kv, 0)) natives;
  prices := [("BTC"%string, 50000); ("USDC"%string, 1); ("USDT"%string, 1)] |}.

Definition withdrawal (b : string) : Q := if String.eqb b "BTC"%string then - 0.5 else if String.eqb b "USDC"%string then 200 else 0.

Ltac amount_of z := exists z; split; [vm_compute; discriminate | vm_compute; reflexivity].

Definition losing_day : day := sample_day [("BTC"%string, 1); ("USDC"%string, 900)] [("BTC"%string, 1); ("USDC"%string, 1000)].

Lemma measured_losing_day : measured losing_day withdrawal.
Proof.
  assert (A1 : amount 1 1) by amount_of (10 ^ 16)%Z. assert (A0 : amount 1 0) by amount_of 0%Z. assert (A9 : amount 1 900) by amount_of (900 * 10 ^ 16)%Z.
  assert (A10 : amount 1 1000) by amount_of (1000 * 10 ^ 16)%Z. assert (A5 : amount 1 (- 0.5)) by amount_of (- 5 * 10 ^ 15)%Z.
  assert (A2 : amount 1 200) by amount_of (200 * 10 ^ 16)%Z. constructor.
  - repeat constructor; cbn; intuition discriminate.
  - intros b. unfold withdrawal. destruct (String.eqb b "BTC"%string); [exact A5|]. destruct (String.eqb b "USDC"%string); assumption.
  - intros b v. cbn. destruct (String.eqb b "BTC"%string); [intros [= <-]; exact A1|]. destruct (String.eqb b "USDC"%string); [intros [= <-]; exact A9 | discriminate].
  - intros b v. cbn. destruct (String.eqb b "BTC"%string); [intros [= <-]; exact A1|]. destruct (String.eqb b "USDC"%string); [intros [= <-]; exact A10 | discriminate].
  - intros b v. destruct (stable b); cbn; (destruct (String.eqb b "BTC"%string); [intros [= <-]; exact A0|]); (destruct (String.eqb b "USDC"%string); [intros [= <-]; exact A0 | discriminate]).
  - intros b [<-|[<-|[]]]; discriminate.
  - intros b [<-|[<-|[]]]; discriminate.
Qed.


(** The puts of the USDC book lost 40% of it while the coin book gained 1%. *)
Lemma gain_hides_loss_witness :
  let d := sample_day [("USDC"%string, 600); ("BTC"%string, 1.01)] [("USDC"%string, 1000); ("BTC"%string, 1)] in
  - delta_at d "USDC"%string == 400 /\ exists r, per_book_drawdown sample_portfolio d = Ret r /\ get_or "USDC"%string 0 r == 0.
Proof.
  cbv zeta. set (d := sample_day _ _). split; [vm_compute; reflexivity|].
  assert (A : amount 1 600 /\ amount 1 1000 /\ amount 1 0) by (split; [|split]; [amount_of (600 * 10 ^ 16)%Z | amount_of (1000 * 10 ^ 16)%Z | amount_of 0%Z]).
  refine (gain_hides_loss sample_portfolio d "USDC"%string "BTC"%string 600 1.01 1000 0 _ _ _ _ _ A _ _ _ _ _ _); vm_compute; first [reflexivity | discriminate].
Defined.

(** Coin worth 500 is sold into USDC while USDT loses 800: USDC, which lost nothing, is
    down 80%, past every threshold. *)
Lemma sale_counted_twice_witness :
  let d := sample_day [("USDT"%string, 200); ("USDC"%string, 1500); ("BTC"%string, 0.99)] [("USDT"%string, 1000); ("USDC"%string, 1000); ("BTC"%string, 1)] in
  delta_at d "USDC"%string == 500 /\ exists r, per_book_drawdown sample_portfolio d = Ret r /\ get_or "USDC"%string 0 r == 0.8.
Proof.
  cbv zeta. set (d := sample_day _ _). split; [vm_compute; reflexivity|].
  assert (A : Forall (amount 1) [1500; 1000; 0; 200; 1000; 0]).
  { repeat constructor; [amount_of (1500 * 10 ^ 16)%Z | amount_of (1000 * 10 ^ 16)%Z | amount_of 0%Z | amount_of (200 * 10 ^ 16)%Z
      | amount_of (1000 * 10 ^ 16)%Z | amount_of 0%Z]. }
  assert (Ne : "USDT"%string <> "USDC"%string) by discriminate.
  eassert (X : exists r, per_book_drawdown sample_portfolio d = Ret r /\ _).
  { refine (sale_counted_twice sample_portfolio d "USDT"%string "USDC"%string "BTC"%string 200 1500 0.99 1000 1000 0 0 _ _ _ _ Ne _ _ _ _ A _ _ _ _ _ _ _ _ _ _);
      vm_compute; first [reflexivity | discriminate]. }
  destruct X as (r & E & V). exists r. split; [exact E|]. rewrite V. vm_compute. reflexivity.
Defined.
