(* ===== verification/Manage.v ===== *)
(** The management cycle ([engine/management.py]): loading what a cycle works on,
    cooldowns after a hard de-risk, the groups from the largest risk down, the hedges,
    the archive and the save. *)

From Stdlib Require Import Permutation Sorted.
From S2P Require Import Prelude Sorting Dec PyStr Utils Group Ledger PyObj GroupJson StateJson State Store Market ExitEval VolMetrics EntryGates Runtime HedgeOrders Hedge NetHedge Close GroupClose GroupExit EngineFrame CrossFlow DayState GroupRefresh Portfolio.
Local Open Scope Q_scope.
Local Open Scope dec_scope.
Local Open Scope bool_scope.
Local Open Scope run_scope.
Local Open Scope list_scope.

Record manage_config : Type := {
  portfolio : portfolio_config;
  state_closed_archive_enabled : bool;
  state_closed_archive_keep_days : Z;
  state_closed_archive_keep_min : Z;
  poll_seconds_normal : Z;
  poll_seconds_stress : Z;
}.

(** ** Cooldowns *)

Section Cooldowns.
Variables (c : portfolio_config) (snapshot : PortfolioSnapshot) (now_ms : Z).

Definition cooldown_until : Z := (now_ms + c.(cooldown_hours) * 3600 * 1000)%Z.

(** The books whose own gates ask for a de-risk; without one, the trigger is global. *)
Definition hard_books : list string := map fst (filter snd snapshot.(hard_derisk_by_book)).
Definition global_trigger : bool := snapshot.(hard_derisk) && negb (nonempty hard_books).

Definition cool_book (acc : StrategyState * list string) (book : string) : StrategyState * list string :=
  let '(s, newly_cooled) := acc in
  if cooling now_ms (cooldown_of s book) then acc
  else (set_cooldown_until_ms_by_book (dict_set book (Some cooldown_until) s.(cooldown_until_ms_by_book)) s, newly_cooled ++ [book]).

Definition cool_portfolio (acc : StrategyState * list string) : StrategyState * list string :=
  let '(s, newly_cooled) := acc in
  if global_trigger && negb (cooling now_ms s.(StateJson.cooldown_until_ms))
  then (set_cooldown_until_ms (Some cooldown_until) s, newly_cooled ++ ["portfolio"%string]) else acc.

(** The state with its new cooldowns, and the books that began one. *)
Definition start_cooldowns (live : bool) (s : StrategyState) : StrategyState * list string :=
  if snapshot.(hard_derisk) && live then cool_portfolio (fold_left cool_book hard_books (s, [])) else (s, []).

Definition cooldown_actions (live : bool) (newly_cooled : list string) : list action :=
  if snapshot.(hard_derisk) && (nonempty newly_cooled || negb live) then
    [[("action"%string, PStr (if live then "cooldown_started" else "cooldown_recommended")); ("cooldown_until_ms"%string, PInt cooldown_until);
      ("reason"%string, PStr "hard_derisk");
      ("books"%string, PList (map PStr (match hard_books with [] => ["portfolio"%string] | l => l end)))]]
  else [].

(** A cooldown that runs stays only where the drawdown of the day asks for a halt. *)
Definition cooldown_stays (kv : string * option Z) : bool :=
  let '(book, ts) := kv in
  if negb (cooling now_ms ts) then true
  else if String.eqb book "USDT" then false
  else negb (get_or book 0 snapshot.(day_drawdown_pct_by_book) <? c.(halt_drawdown_pct)).

Definition _clear_stale_drawdown_cooldowns (s : StrategyState) : StrategyState :=
  set_cooldown_until_ms_by_book (filter cooldown_stays s.(cooldown_until_ms_by_book)) s.
End Cooldowns.

(** ** Groups in their order *)

(** The places of the open groups, from the largest maximal loss down. *)
Definition open_places (gs : list TradeGroup) : list nat :=
  map fst (sort_by (fun ig => (snd ig).(max_loss)) (filter (fun ig => String.eqb (snd ig).(status) "open") (enumerate gs))).

(** A group is changed in place. *)
Definition replace_nth {A} (n : nat) (x : A) (l : list A) : list A := firstn n l ++ match skipn n l with [] => [] | _ :: r => x :: r end.
Definition put_group (n : nat) (g : TradeGroup) (w : runtime) : runtime := set_state (set_groups (replace_nth n g w.(state).(groups)) w.(state)) w.

Section Cycle.
Context {D : Desk} {L : TransactionLog}.
Variable c : manage_config.
Let engine_c : engine_config := c.(portfolio).(exits).(desk).(engine).

(** Handlers and follow-ups of covered calls, cash-secured puts and profit sweeps. *)
Variables (_manage_covered_call_group _manage_cash_secured_group : TradeGroup -> M (TradeGroup * list action))
  (swept : TradeGroup -> string -> TradeGroup) (pending_actions : list (M (list action))).

Definition manage_place (snapshot : PortfolioSnapshot) (live : bool) (now_us : Z) (n : nat) : M (list action) :=
  let* s := read state in
  match nth_error s.(groups) n with
  | None => ret []
  | Some g =>
      let* managed := _manage_group c.(portfolio).(exits) snapshot swept live now_us _manage_covered_call_group _manage_cash_secured_group g in
      let* _ := modify (put_group n (fst managed)) in
      ret (snd managed)
  end.

Definition manage_groups (snapshot : PortfolioSnapshot) (live : bool) (now_us : Z) : M (list action) :=
  let* s := read state in
  collect (manage_place snapshot live now_us) (open_places s.(groups)).

Definition edit_state (f : StrategyState -> StrategyState) : M unit := modify (fun w => set_state (f w.(state)) w).

Definition begin_cooldowns (snapshot : PortfolioSnapshot) (live : bool) (now_ms : Z) : M (list action) :=
  let* s := read state in
  let* _ := edit_state (fun s => fst (start_cooldowns c.(portfolio) snapshot now_ms live s)) in
  ret (cooldown_actions c.(portfolio) snapshot now_ms live (snd (start_cooldowns c.(portfolio) snapshot now_ms live s))).

Definition optional {A} (m : M (option A)) : M (list A) := let* o := m in ret (match o with Some a => [a] | None => [] end).

Definition manage_hedges (snapshot : PortfolioSnapshot) (live : bool) : M (list action) :=
  if negb engine_c.(enable_perp_hedge) then ret []
  else if engine_c.(per_position_hedge) then _reconcile_position_hedges engine_c live
  else
    let* orphans := collect (fun currency => optional (_maybe_close_orphan_hedge engine_c currency live)) engine_c.(managed_currencies) in
    let* unwinds := (if regime_eqb snapshot.(EntryGates.regime) NORMAL
                     then collect (fun currency => optional (_maybe_unwind_hedge engine_c currency live)) engine_c.(managed_currencies) else ret []) in
    ret (orphans ++ unwinds).

(** What [manage] does before it touches the files. *)
Definition manage_context (snapshot : PortfolioSnapshot) (live : bool) (now_us : Z) : M (list action) :=
  let now_ms := (now_us / 1000)%Z in
  let* pending := collect (fun m => m) pending_actions in
  let* cooled := begin_cooldowns snapshot live now_ms in
  let* managed := manage_groups snapshot live now_us in
  let* _ := edit_state (_clear_stale_drawdown_cooldowns c.(portfolio) snapshot now_ms) in
  let* hedged := manage_hedges snapshot live in
  ret (pending ++ cooled ++ managed ++ hedged).

Definition _archive_closed_groups_if_enabled (s : StrategyState) (d : disk) (now_us : Z) : outcome (StrategyState * disk) :=
  (if negb c.(state_closed_archive_enabled) then Ret (s, d)
   else
     let! (s, lines, _) := archive_closed_groups s d.(archive) c.(state_closed_archive_keep_days) c.(state_closed_archive_keep_min) (now_us / 1000) now_us in
     Ret (s, set_archive lines d))%outcome.

(** The files after the cycle, the state kept in memory, and the actions. *)
Definition finish_cycle (live : bool) (now_us : Z) (d : disk) (s : StrategyState) : outcome (disk * StrategyState) :=
  (let! (s, d) := (if live then _archive_closed_groups_if_enabled s d now_us else Ret (s, d)) in save d s now_us)%outcome.

Definition manage (snapshot : PortfolioSnapshot) (live : bool) (now_us : Z) (d : disk) : M (disk * list action) :=
  let* actions := manage_context snapshot live now_us in
  let* s := read state in
  let* saved := lift (finish_cycle live now_us d s) in
  let* _ := edit_state (fun _ => snd saved) in
  ret (fst saved, actions).
End Cycle.

(** ** What a cycle works on *)

(** [ExchangePrefetch] *)
Record prefetch : Type := {
  summaries : dict AccountSummary;
  pre_open_orders : list OpenOrder;
  pre_option_positions : list Position;
  pre_future_positions : list Position;
  pre_future_markets_by_name : dict OptionInstrument;
  pre_markets_by_currency : dict (list OptionInstrument);
}.

(** The context of a cycle; the metadata of instruments is kept between cycles. *)
Definition fresh_context (s : StrategyState) (p : prefetch) (w : runtime) : runtime := {|
  state := s; Runtime.open_orders := p.(pre_open_orders); option_positions := p.(pre_option_positions); future_positions := p.(pre_future_positions);
  future_markets_by_name := p.(pre_future_markets_by_name); markets_by_currency := p.(pre_markets_by_currency); orderbook_cache := [];
  _instrument_metadata_cache := w.(_instrument_metadata_cache); requests := w.(requests) |}.

(** A step with a copy of the order book cache. *)
Definition with_private_cache {A} (m : M A) : M A := fun w => let r := m w in (set_orderbook_cache w.(orderbook_cache) (fst r), snd r).

Definition count_recovery (counts : dict Z) (kv : string * RiskRegime) : dict Z :=
  dict_set (fst kv) (if regime_eqb (snd kv) NORMAL then get_or (fst kv) 0%Z counts + 1 else 0)%Z counts.
Definition _update_recovery_counts (regimes : dict RiskRegime) (s : StrategyState) : StrategyState :=
  set_normal_recovery_counts (fold_left count_recovery regimes s.(normal_recovery_counts)) s.

Section Load.
Context {D : Desk} {L : TransactionLog}.
Variables (c : portfolio_config) (dashboard_display : bool).

(** The repair of closes found outside, the reconciliation of the state, the regime of a
    currency with or without its option book, and the batch quotes of a scan. *)
Variables (_repair_reconciled_bot_income_exits_in_state : StrategyState -> StrategyState * bool)
  (_reconcile_state : M bool) (_determine_regime_with_detail _determine_regime_for_dashboard : string -> M (RiskRegime * list string))
  (_prefetch_scan_book_summaries : M unit).

Fixpoint regimes_of (currencies : list string) : M (dict (RiskRegime * list string)) :=
  match currencies with
  | [] => ret []
  | currency :: rest =>
      let* markets := read markets_by_currency in
      let* r := (if negb (nonempty (get_or currency [] markets)) && dashboard_display then _determine_regime_for_dashboard currency
                 else _determine_regime_with_detail currency) in
      let* more := regimes_of rest in
      ret ((currency, r) :: more)
  end.

Definition inputs_of (regimes : dict (RiskRegime * list string)) (w : runtime) : cycle_inputs := {|
  Portfolio.regimes := map (fun kv => (fst kv, fst (snd kv))) regimes; details := map (fun kv => (fst kv, snd (snd kv))) regimes;
  in_future_positions := w.(future_positions); in_markets := w.(markets_by_currency) |}.

Definition reset_day (summaries : dict AccountSummary) (now_ms : Z) : M unit :=
  let* s := read state in
  let* s := _reset_daily_state c.(accounts) s summaries now_ms in
  edit_state (fun _ => s).

Definition refresh_day_flows (summaries : dict AccountSummary) (now_ms : Z) : M unit :=
  let* s := read state in
  let* s := _refresh_cash_flows_by_book c.(accounts) s summaries false now_ms in
  edit_state (fun _ => s).

Definition refresh_state_groups (now_ms : Z) : M unit :=
  let* s := read state in
  let* gs := refresh_groups c.(exits) now_ms s.(groups) in
  edit_state (set_groups gs).

(** From the day's reset to the snapshot: whether the reconciliation closed a group, the
    regimes, and the snapshot. *)
Definition load_context (summaries : dict AccountSummary) (now_us : Z) : M (bool * dict RiskRegime * PortfolioSnapshot) :=
  let now_ms := (now_us / 1000)%Z in
  let* _ := reset_day summaries now_ms in
  let* _ := (if dashboard_display then ret tt else refresh_day_flows summaries now_ms) in
  let* reconcile_closed := _reconcile_state in
  let* regimes := with_private_cache (let* _ := _prefetch_scan_book_summaries in regimes_of c.(exits).(desk).(engine).(managed_currencies)) in
  let* i := read (inputs_of regimes) in
  let* _ := edit_state (_update_recovery_counts i.(Portfolio.regimes)) in
  let* _ := refresh_state_groups now_ms in
  let* _ := edit_state (fun s => if _is_covered_call_strategy c then _clear_covered_call_book_cooldowns c s summaries else s) in
  let* s := read state in
  let* snapshot := _build_portfolio_snapshot c s summaries i now_us in
  let* _ := (if dashboard_display then ret tt else _prefetch_scan_book_summaries) in
  ret (reconcile_closed, i.(Portfolio.regimes), snapshot).

(** The state of the file, repaired; a repair is saved at once. *)
Definition load_state (d : disk) (now_us : Z) : outcome (StrategyState * disk) :=
  (let! (s, d) := load d in
   let (s, repaired) := _repair_reconciled_bot_income_exits_in_state s in
   if repaired && negb dashboard_display then let! (d, s) := save d s now_us in Ret (s, d) else Ret (s, d))%outcome.

Definition _load_runtime_from_exchange (p : option prefetch) (d : disk) (now_us : Z) : M (disk * (bool * dict RiskRegime * PortfolioSnapshot)) :=
  let none := {| summaries := []; pre_open_orders := []; pre_option_positions := []; pre_future_positions := []; pre_future_markets_by_name := [];
                 pre_markets_by_currency := map (fun currency => (currency, [])) c.(exits).(desk).(engine).(managed_currencies) |} in
  let p := match p with Some p => p | None => none end in
  let* loaded := lift (load_state d now_us) in
  let* _ := modify (fresh_context (fst loaded) p) in
  let* context := load_context p.(summaries) now_us in
  ret (snd loaded, context).
End Load.

(** ** Cooldowns after a cycle *)

Section AfterCycle.
Context {D : Desk}.
Variable c : manage_config.

Lemma fst_set_groups_cooldowns gs s : (set_groups gs s).(cooldown_until_ms_by_book) = s.(cooldown_until_ms_by_book).
Proof. reflexivity. Qed.

Lemma archive_cooldowns s l k m n u s' l' x : archive_closed_groups s l k m n u = Ret (s', l', x) -> s'.(cooldown_until_ms_by_book) = s.(cooldown_until_ms_by_book).
Proof.
  unfold archive_closed_groups. cbv zeta. destruct (select_archivable_closed_groups _ _ _ _); intros E; [injection E as <- _ _; reflexivity|].
  apply obind_inv in E. destruct E as (lines & _ & E). now injection E as <- _ _.
Qed.

Lemma save_cooldowns d s u d' s' : save d s u = Ret (d', s') -> s'.(cooldown_until_ms_by_book) = s.(cooldown_until_ms_by_book).
Proof.
  unfold save. intros E. apply obind_inv in E. destruct E as (o & _ & E). cbv zeta in E. apply obind_inv in E. destruct E as (v & _ & E). injection E as _ <-.
  destruct o as [o|]; [|reflexivity]. unfold merge_concurrent_group_updates. destruct (merge_groups _ _) as [gs ids]. cbn [fst]. now destruct (_ <? _)%Z.
Qed.

Lemma finish_cooldowns live u d s d' s' : finish_cycle c live u d s = Ret (d', s') -> s'.(cooldown_until_ms_by_book) = s.(cooldown_until_ms_by_book).
Proof.
  unfold finish_cycle. intros E. apply obind_inv in E. destruct E as ([s1 d1] & E1 & E). apply save_cooldowns in E. rewrite E. clear E.
  destruct live; [|now injection E1 as <- _]. unfold _archive_closed_groups_if_enabled in E1. destruct (negb _); [now injection E1 as <- _|].
  apply obind_inv in E1. destruct E1 as ([[s2 l2] x2] & E2 & E1). apply archive_cooldowns in E2. now injection E1 as <- _.
Qed.

Lemma keeps_hedges snapshot live : keeps cooldown_until_ms_by_book (manage_hedges c snapshot live).
Proof.
  assert (W : forall d s, (set_hedge_maker_wait_cycles d s).(cooldown_until_ms_by_book) = s.(cooldown_until_ms_by_book)) by reflexivity.
  unfold manage_hedges, optional. destruct (negb _); [apply keeps_ret|]. destruct (_.(per_position_hedge)); [now apply keeps_reconcile_hedges|].
  apply keeps_bind.
  - apply keeps_collect. intros a. apply keeps_bind; [now apply keeps_orphan | intros; apply keeps_ret].
  - intros orphans. apply keeps_bind; [|intros; apply keeps_ret]. destruct (regime_eqb _ _); [|apply keeps_ret].
    apply keeps_collect. intros a. apply keeps_bind; [now apply keeps_unwind | intros; apply keeps_ret].
Qed.

Variables (cc cs : TradeGroup -> M (TradeGroup * list action)) (swept : TradeGroup -> string -> TradeGroup) (pending : list (M (list action))).
Variables (snapshot : PortfolioSnapshot) (live : bool) (now_us : Z).
Let now_ms : Z := (now_us / 1000)%Z.

Lemma context_cooldowns w w' acts : manage_context c cc cs swept pending snapshot live now_us w = (w', Ret acts) ->
  forall b ts, In (b, ts) w'.(state).(cooldown_until_ms_by_book) -> cooldown_stays c.(portfolio) snapshot now_ms (b, ts) = true.
Proof.
  intros E b ts I. unfold manage_context in E. apply bind_inv in E. destruct E as (w1 & a1 & _ & E). apply bind_inv in E. destruct E as (w2 & a2 & _ & E).
  apply bind_inv in E. destruct E as (w3 & a3 & _ & E). apply bind_inv in E. destruct E as (w4 & [] & E4 & E). apply bind_inv in E. destruct E as (w5 & a5 & E5 & E).
  apply (f_equal fst) in E. cbn in E. subst w'. apply (f_equal fst) in E4. cbn in E4. subst w4.
  pose proof (keeps_hedges snapshot live) as K. match type of E5 with _ ?w0 = _ => specialize (K w0) end. rewrite E5 in K. cbn [fst] in K. rewrite K in I.
  cbn in I. apply filter_In in I. exact (proj2 I).
Qed.
End AfterCycle.

(** ** Groups of a cycle *)

Section Places.
Context {D : Desk}.
Variables (c : manage_config) (cc cs : TradeGroup -> M (TradeGroup * list action)) (swept : TradeGroup -> string -> TradeGroup).
Variables (snapshot : PortfolioSnapshot) (live : bool) (now_us : Z).
Hypothesis cc_keeps : forall g, keeps groups (cc g).
Hypothesis cs_keeps : forall g, keeps groups (cs g).

Local Abbreviation managed g w := (_manage_group c.(portfolio).(exits) snapshot swept live now_us cc cs g w).
Local Abbreviation place n w := (manage_place c cc cs swept snapshot live now_us n w).

Lemma replace_same {A} n (x : A) l : nth_error (replace_nth n x l) n = match nth_error l n with Some _ => Some x | None => None end.
Proof.
  unfold replace_nth. revert n. induction l as [|y r IH]; intros [|n]; cbn; try reflexivity. apply IH.
Qed.

Lemma replace_other {A} n m (x : A) l : m <> n -> nth_error (replace_nth n x l) m = nth_error l m.
Proof.
  unfold replace_nth. revert n m. induction l as [|y r IH]; intros [|n] [|m] H; cbn; try reflexivity; try congruence. apply IH. congruence.
Qed.

Lemma replace_length {A} n (x : A) l : List.length (replace_nth n x l) = List.length l.
Proof. unfold replace_nth. revert n. induction l as [|y r IH]; intros [|n]; cbn; try reflexivity. now rewrite IH. Qed.

Lemma place_spec n w w' acts : place n w = (w', Ret acts) ->
  (nth_error w.(state).(groups) n = None /\ w' = w) \/
  exists g w2 g', nth_error w.(state).(groups) n = Some g /\ managed g w = (w2, Ret (g', acts)) /\
    w'.(state).(groups) = replace_nth n g' w.(state).(groups).
Proof.
  intros E. unfold manage_place in E. apply bind_inv in E. destruct E as (w1 & s & E1 & E). injection E1 as <- <-.
  destruct (nth_error w.(state).(groups) n) as [g|]; [|left; apply (f_equal fst) in E; cbn in E; auto]. right.
  apply bind_inv in E. destruct E as (w2 & [g' a] & E2 & E). apply bind_inv in E. destruct E as (w3 & [] & E3 & E).
  apply (f_equal fst) in E3. cbn in E3. subst w3. pose proof (f_equal snd E) as Es. apply Ret_inj in Es. cbn [snd] in Es. subst a.
  apply (f_equal fst) in E. cbn [fst ret] in E. subst w'.
  exists g, w2, g'. split; [reflexivity|]. split; [exact E2|]. cbn.
  pose proof (keeps_manage_group groups (fun d s => eq_refl) c.(portfolio).(exits) snapshot swept live now_us cc cs g cc_keeps cs_keeps w) as K.
  rewrite E2 in K. cbn [fst] in K. now rewrite K.
Qed.

Lemma places_spec l : NoDup l -> forall w w' acts, collect (manage_place c cc cs swept snapshot live now_us) l w = (w', Ret acts) ->
  List.length w'.(state).(groups) = List.length w.(state).(groups) /\
  (forall n, ~ In n l -> nth_error w'.(state).(groups) n = nth_error w.(state).(groups) n) /\
  (forall n g, In n l -> nth_error w.(state).(groups) n = Some g ->
     exists w1 w2 g' a, managed g w1 = (w2, Ret (g', a)) /\ nth_error w'.(state).(groups) n = Some g').
Proof.
  induction 1 as [|n l F N IH]; intros w w' acts E; cbn [collect] in E.
  - apply (f_equal fst) in E. cbn in E. subst w'. split; [reflexivity|]. split; [reflexivity | intros n g []].
  - apply bind_inv in E. destruct E as (w1 & a1 & E1 & E). apply bind_inv in E. destruct E as (w2 & a2 & E2 & E).
    apply (f_equal fst) in E. cbn in E. subst w2. destruct (IH _ _ _ E2) as (Ln & Out & In_). clear IH E2.
    destruct (place_spec _ _ _ _ E1) as [[None_ ->]|(g & w3 & g' & Hg & Hm & Hs)].
    + split; [exact Ln|]. split; [intros m M; apply Out; intros I; apply M; now right|]. intros m h [<-|I] Hh; [congruence | eauto].
    + rewrite Hs in *. split; [now rewrite Ln, replace_length|]. split.
      * intros m M. rewrite Out by (intros I; apply M; now right). apply replace_other. intros ->. apply M. now left.
      * intros m h [<-|I] Hh.
        -- rewrite Hg in Hh. injection Hh as <-. exists w, w3, g', a1. split; [exact Hm|]. rewrite Out by exact F. now rewrite replace_same, Hg.
        -- assert (m <> n) by (intros ->; contradiction). apply (In_ m h I). now rewrite replace_other.
Qed.
End Places.

(** *** The order *)

Lemma enumerate_in gs n g : In (n, g) (enumerate gs) <-> nth_error gs n = Some g.
Proof.
  unfold enumerate. assert (G : forall k, In (n, g) (combine (seq k (List.length gs)) gs) <-> (k <= n)%nat /\ nth_error gs (n - k) = Some g).
  { induction gs as [|h r IH]; intros k; cbn [List.length seq combine In].
    - split; [intros [] | intros [_ H]; destruct (n - k)%nat; discriminate].
    - rewrite IH. split.
      + intros [E|[H1 H2]]; [injection E as <- <-; split; [lia | now rewrite Nat.sub_diag]|]. split; [lia|]. now replace (n - k)%nat with (S (n - S k)) by lia.
      + intros [H1 H2]. destruct (Nat.eq_dec k n) as [->|Ne]; [left; rewrite Nat.sub_diag in H2; now injection H2 as ->|].
        right. split; [lia|]. now replace (n - k)%nat with (S (n - S k)) in H2 by lia. }
  rewrite G, Nat.sub_0_r. intuition lia.
Qed.

Definition open_at (gs : list TradeGroup) (n : nat) : Prop := exists g, nth_error gs n = Some g /\ g.(status) = "open"%string.

Lemma open_places_in gs n : In n (open_places gs) <-> open_at gs n.
Proof.
  unfold open_places, open_at. set (l := filter _ _). pose proof (sort_by_perm (fun ig : item => (snd ig).(max_loss)) l) as P.
  rewrite in_map_iff. split.
  - intros ([m g] & <- & I). apply (Permutation_in _ (Permutation_sym P)) in I. apply filter_In in I. destruct I as [I O]. apply String.eqb_eq in O.
    exists g. cbn [fst]. split; [now apply enumerate_in | exact O].
  - intros (g & E & O). exists (n, g). split; [reflexivity|]. apply (Permutation_in _ P), filter_In. split; [now apply enumerate_in | now apply String.eqb_eq].
Qed.

Lemma open_places_once gs : NoDup (open_places gs).
Proof.
  unfold open_places. set (l := filter _ _). apply (Permutation_NoDup (Permutation_map fst (sort_by_perm (fun ig : item => (snd ig).(max_loss)) l))).
  unfold l. assert (N : NoDup (map fst (enumerate gs))) by (rewrite enumerate_fst; apply seq_NoDup).
  induction (enumerate gs) as [|x r IH]; cbn [filter map] in *; [constructor|]. inversion N as [|? ? F N']; subst. destruct (String.eqb _ _); [|auto].
  cbn [map]. constructor; [|auto]. intros I. apply F. apply in_map_iff in I. destruct I as (y & E & I). apply filter_In in I. apply in_map_iff. exists y. tauto.
Qed.

Definition risk_at (gs : list TradeGroup) (n : nat) : Q := match nth_error gs n with Some g => g.(max_loss) | None => 0 end.

Lemma open_places_sorted gs : StronglySorted (fun n m => risk_at gs m <= risk_at gs n) (open_places gs).
Proof.
  unfold open_places. match goal with |- context [sort_by ?k ?l] => set (ordered := sort_by k l); pose proof (sort_by_sorted k l) as S; pose proof (sort_by_perm k l) as P; set (unsorted := l) in * end.
  assert (H : Forall (fun ig => risk_at gs (fst ig) = (snd ig).(max_loss)) ordered).
  { apply Forall_forall. intros [n g] I. apply (Permutation_in _ (Permutation_sym P)) in I. apply filter_In in I. destruct I as [I _].
    apply enumerate_in in I. unfold risk_at. cbn [fst snd]. now rewrite I. }
  fold ordered in S. clear P. clearbody ordered. induction S as [|x r S IH F]; cbn [map]; [constructor|].
  inversion H as [|? ? Hx Hr]; subst. constructor; [auto|]. rewrite Forall_map. rewrite Forall_forall in *. intros y I. rewrite Hx, (Hr y I). exact (F y I).
Qed.

(** ** Theorems *)


Lemma get_in {A} (b : string) (v : A) d : dict_get b d = Some v -> In (b, v) d.
Proof.
  induction d as [|[k x] r IH]; cbn; [discriminate|]. destruct (String.eqb_spec b k) as [->|_]; [intros [= ->]; now left | auto].
Qed.

Lemma cool_book_cools c now_ms l b : (0 <= now_ms)%Z -> (0 < c.(cooldown_hours))%Z ->
  forall acc, In b l \/ cooling now_ms (cooldown_of (fst acc) b) = true ->
  cooling now_ms (cooldown_of (fst (fold_left (cool_book c now_ms) l acc)) b) = true.
Proof.
  intros N H. induction l as [|x r IH]; cbn [fold_left In]; intros acc P; [tauto|]. apply IH. destruct acc as [s new]. cbn [cool_book fst] in *.
  destruct (cooling now_ms (cooldown_of s x)) eqn:C; cbn [fst].
  - destruct P as [[->|I]|P]; auto.
  - unfold cooldown_of, get_or in *. cbn. rewrite dict_get_set. destruct (String.eqb_spec b x) as [->|Ne].
    + right. unfold cooling, cooldown_until. apply andb_true_intro. split; [apply negb_true_iff, Z.eqb_neq; lia | apply Z.ltb_lt; lia].
    + destruct P as [[->|I]|P]; [congruence | auto | auto].
Qed.

(** Cooldowns begin for more than they are kept for. A live cycle that is to be
    de-risked begins a cooldown for every book that asked for it, whatever the reason;
    but at its end, and in the file it saves, no cooldown runs for any book whose
    drawdown of the day is below the halt threshold: a cooldown for a breach of margins
    is gone in the cycle that began it. *)
Theorem cooldowns_need_drawdown {D : Desk} c cc cs swept pending snapshot live now_us d w w' d' acts :
  (0 <= now_us / 1000)%Z -> (0 < c.(portfolio).(cooldown_hours))%Z ->
  manage c cc cs swept pending snapshot live now_us d w = (w', Ret (d', acts)) ->
  let now_ms := (now_us / 1000)%Z in
  (forall s b, snapshot.(hard_derisk) = true -> live = true -> In b (hard_books snapshot) ->
     cooling now_ms (cooldown_of (fst (start_cooldowns c.(portfolio) snapshot now_ms live s)) b) = true) /\
  (forall b, cooling now_ms (cooldown_of w'.(state) b) = true ->
     b <> "USDT"%string /\ c.(portfolio).(halt_drawdown_pct) <= get_or b 0 snapshot.(day_drawdown_pct_by_book)).
Proof.
  intros N H E. cbv zeta. split.
  - intros s b Hd -> I. unfold start_cooldowns. rewrite Hd. cbn [andb].
    pose proof (cool_book_cools c.(portfolio) (now_us / 1000) (hard_books snapshot) b N H (s, []) (or_introl I)) as C.
    destruct (fold_left _ _ _) as [s1 new]. cbn [fst] in *. unfold cool_portfolio. now destruct (_ && _).
  - intros b C. unfold manage in E. apply bind_inv in E. destruct E as (w1 & a & E1 & E). apply bind_inv in E. destruct E as (w2 & s & E2 & E).
    injection E2 as <- <-. apply bind_inv in E. destruct E as (w2 & [d2 s2] & E3 & E). unfold lift in E3.
    pose proof (f_equal fst E3) as Ew. cbn in Ew. subst w2. apply (f_equal snd) in E3. cbn in E3. apply finish_cooldowns in E3.
    apply bind_inv in E. destruct E as (w2 & [] & E4 & E). apply (f_equal fst) in E4. cbn in E4. subst w2. apply (f_equal fst) in E. cbn in E. subst w'.
    cbn in C. unfold cooldown_of, get_or in C. rewrite E3 in C. destruct (dict_get b w1.(state).(cooldown_until_ms_by_book)) as [ts|] eqn:G; [|discriminate].
    apply get_in in G. pose proof (context_cooldowns c cc cs swept pending snapshot live now_us w w1 a E1 b ts G) as St. unfold cooldown_stays in St.
    rewrite C in St. cbn [negb] in St. destruct (String.eqb_spec b "USDT") as [|Nb]; [discriminate|]. split; [exact Nb|].
    apply negb_true_iff, dltb_false in St. exact St.
Qed.

(** ** Samples *)

#[local] Existing Instance sample_desk.

Definition sample_manage : manage_config := {|
  portfolio := sample_portfolio; state_closed_archive_enabled := false; state_closed_archive_keep_days := 30; state_closed_archive_keep_min := 10;
  poll_seconds_normal := 30; poll_seconds_stress := 10 |}.

Definition unmanaged (g : TradeGroup) : M (TradeGroup * list action) := ret (g, []).

(** The same snapshot, with books to be de-risked. *)
Definition derisk (books : list string) : PortfolioSnapshot := {|
  total_equity_usdc := 20000; snap_day_start_equity_usdc := 20000; day_net_flow_usdc := 0; day_pnl_usdc_ex_flow := 0; day_drawdown_pct := 0;
  open_max_loss := 0; open_max_loss_pct := 0; initial_margin_ratio := 0; maintenance_margin_ratio := 0; projected_max_profit_run_rate_usdc := 0;
  projected_max_profit_apr := 0; target_progress_ratio := 0; EntryGates.regime := NORMAL; halt_new_entries := false; hard_derisk := nonempty books;
  snap_cooldown_until_ms := None; cooling_down := false; delta_totals_by_currency := []; regime_by_currency := [];
  halt_entry_reasons := []; regime_detail_by_currency := []; margin_ratios_by_currency := []; equity_by_book := []; snap_day_start_equity_by_book := [];
  snap_day_net_flow_usdc_by_book := []; day_pnl_usdc_ex_flow_by_book := []; day_pnl_usdc_ex_flow_ex_spot := 0;
  day_pnl_usdc_ex_flow_ex_spot_by_book := []; day_drawdown_pct_by_book := [("USDC"%string, 0.01); ("BTC"%string, 0.2)]; snap_cooldown_until_ms_by_book := [];
  cooling_down_by_book := []; hard_derisk_by_book := map (fun b => (b, true)) books; halt_entries_by_book := []; halt_entry_reasons_by_book := [];
  halt_new_entries_by_currency := []; portfolio_wide_entry_halt := false |}.

Definition two_puts : runtime :=
  set_state (set_groups [set_max_loss 500 sample_coin_short; set_status "closed" sample_coin_short; set_max_loss 900 sample_coin_short] empty_state) sample_desk_runtime.


(** Both books are to be de-risked: USDC for its margins with a drawdown of 1%, BTC with
    one of 20%. Only the cooldown of BTC is left in the state that is saved. *)
Lemma cooldowns_need_drawdown_witness :
  exists w' d' acts, manage sample_manage unmanaged unmanaged untouched [] (derisk ["USDC"; "BTC"]%string) true 1700000000000000
      {| file := Missing; archive := []; quarantine := [] |} sample_desk_runtime = (w', Ret (d', acts)) /\
    cooling 1700000000000 (cooldown_of (fst (start_cooldowns sample_portfolio (derisk ["USDC"; "BTC"]%string) 1700000000000 true empty_state)) "USDC") = true /\
    cooling 1700000000000 (cooldown_of w'.(state) "USDC") = false /\ cooling 1700000000000 (cooldown_of w'.(state) "BTC") = true.
Proof.
  pose (d := {| file := Missing; archive := []; quarantine := [] |}).
  pose (run := manage sample_manage unmanaged unmanaged untouched [] (derisk ["USDC"; "BTC"]%string) true 1700000000000000 d sample_desk_runtime).
  pose (out := match snd run with Ret a => a | _ => (d, []) end). assert (V : snd run = Ret out) by (vm_compute; reflexivity).
  assert (E : manage sample_manage unmanaged unmanaged untouched [] (derisk ["USDC"; "BTC"]%string) true 1700000000000000 d sample_desk_runtime = (fst run, Ret (fst out, snd out)))
    by (rewrite <- (surjective_pairing out), <- V; apply surjective_pairing).
  exists (fst run), (fst out), (snd out). split; [exact E|].
  destruct (cooldowns_need_drawdown (D := sample_desk) sample_manage unmanaged unmanaged untouched [] (derisk ["USDC"; "BTC"]%string) true 1700000000000000 d sample_desk_runtime
    (fst run) (fst out) (snd out) ltac:(vm_compute; discriminate) ltac:(reflexivity) E) as [Begun Kept].
  split; [apply Begun; [reflexivity | reflexivity | now left]|]. split; [|vm_compute; reflexivity].
  destruct (cooling 1700000000000 (cooldown_of (fst run).(state) "USDC")) eqn:C; [|reflexivity]. apply Kept in C. destruct C as [_ C].
  exfalso. revert C. vm_compute. intros C. now apply C.
Defined.
