(* ===== verification/Triples.v ===== *)
(** Hoare triples for engine code: what holds of the context after a call, with the value
    it returns or after an exception, and the rules the entry and scanning files use. The
    requests sent are part of the context, so a property of a trace is a property of the
    last context. *)

From S2P Require Import Prelude Dec PyStr Utils Group PyObj StateJson Market Runtime.
Local Open Scope run_scope.
Local Open Scope list_scope.

Create HintDb triples.

(** From a context in [I], [m] returns a value in [P], or ends in [E]. *)
Definition triple {A} (I : runtime -> Prop) (m : M A) (P : A -> runtime -> Prop) (E : runtime -> Prop) : Prop :=
  forall w, I w -> match snd (m w) with Ret a => P a (fst (m w)) | _ => E (fst (m w)) end.

Section Rules.
Context {A B : Type}.
Implicit Types (I J E : runtime -> Prop).

Lemma triple_ret (a : A) I (P : A -> runtime -> Prop) E : (forall w, I w -> P a w) -> triple I (ret a) P E.
Proof. intros H w HI. cbn. auto. Qed.

Lemma triple_bind (m : M A) (k : A -> M B) I (R : A -> runtime -> Prop) P E :
  triple I m R E -> (forall a, triple (R a) (k a) P E) -> triple I (bind m k) P E.
Proof.
  intros Hm Hk w HI. specialize (Hm w HI). rewrite bind_snd, bind_fst. destruct (snd (m w)) as [a|e|]; [apply Hk, Hm | exact Hm | exact Hm].
Qed.

Lemma triple_weaken (m : M A) I J (P R : A -> runtime -> Prop) E F : triple J m R F ->
  (forall w, I w -> J w) -> (forall a w, R a w -> P a w) -> (forall w, F w -> E w) -> triple I m P E.
Proof. intros H HI HP HE w Hw. specialize (H w (HI w Hw)). destruct (snd (m w)); auto. Qed.

Lemma triple_fact (m : M A) I P E (X : Prop) : (X -> triple I m P E) -> triple (fun w => I w /\ X) m P E.
Proof. intros H w [HI HX]. now apply H. Qed.

Lemma triple_lift (o : outcome A) I (P : A -> runtime -> Prop) E :
  (forall a w, o = Ret a -> I w -> P a w) -> (forall w, I w -> E w) -> triple I (lift o) P E.
Proof. intros H HE w HI. cbn. destruct o; auto. Qed.

Lemma triple_read (f : runtime -> A) I (P : A -> runtime -> Prop) E : (forall w, I w -> P (f w) w) -> triple I (read f) P E.
Proof. intros H w HI. cbn. auto. Qed.

Lemma triple_and (m : M A) I (P R : A -> runtime -> Prop) E F :
  triple I m P E -> triple I m R F -> triple I m (fun a w => P a w /\ R a w) (fun w => E w /\ F w).
Proof. intros H K w HI. specialize (H w HI). specialize (K w HI). destruct (snd (m w)); auto. Qed.

Lemma triple_given (m : M A) I (P : A -> runtime -> Prop) (X : Prop) :
  (X -> triple I m P (fun _ => True)) -> triple I m (fun a w => X -> P a w) (fun _ => True).
Proof.
  intros H w HI. destruct (snd (m w)) eqn:S; [|exact Logic.I..]. intros HX. specialize (H HX w HI). now rewrite S in H.
Qed.

(** Code that keeps an invariant, whatever it returns. *)
Definition stable (J : runtime -> Prop) (m : M A) : Prop := forall w, J w -> J (fst (m w)).

Lemma triple_stable (m : M A) J : stable J m -> triple J m (fun _ => J) J.
Proof. intros H w HJ. specialize (H w HJ). destruct (snd (m w)); exact H. Qed.

Lemma stable_quiet (m : M A) J : quiet m -> (forall w w', frame w w' -> J w -> J w') -> stable J m.
Proof. intros Q H w HJ. exact (H _ _ (Q w) HJ). Qed.

Lemma triple_snd (m : M A) I P E w w' a : triple I m P E -> I w -> m w = (w', Ret a) -> P a w'.
Proof. intros H HI Em. specialize (H w HI). now rewrite Em in H. Qed.
End Rules.

(** A step that keeps the invariant, before the rest of the code. *)
Lemma triple_step {A B} (m : M A) (k : A -> M B) (J : runtime -> Prop) P (E : runtime -> Prop) :
  stable J m -> (forall w, J w -> E w) -> (forall a, triple J (k a) P E) -> triple J (bind m k) P E.
Proof.
  intros S HE Hk. apply triple_bind with (R := fun _ => J); [|exact Hk].
  eapply triple_weaken; [apply triple_stable, S | auto..].
Qed.

Lemma stable_read {A} (f : runtime -> A) J : stable J (read f).
Proof. intros w H. exact H. Qed.

Lemma stable_ret {A} (a : A) J : stable J (ret a).
Proof. intros w H. exact H. Qed.

Lemma stable_lift {A} (o : outcome A) J : stable J (lift o).
Proof. intros w H. exact H. Qed.

Lemma stable_send `{Exchange} r (J : runtime -> Prop) : (forall w, J w -> J (log_request r w)) -> stable J (send r).
Proof. intros K w HJ. cbn. now apply K. Qed.

Lemma stable_bind {A B} (m : M A) (k : A -> M B) J : stable J m -> (forall a, stable J (k a)) -> stable J (bind m k).
Proof. intros Hm Hk w HJ. rewrite bind_fst. specialize (Hm w HJ). destruct (snd (m w)); [now apply Hk | exact Hm..]. Qed.

Lemma stable_attempt {A} (m : M A) J : stable J m -> stable J (attempt m).
Proof. intros H w HJ. specialize (H w HJ). unfold attempt. destruct (m w) as [w' [a| |]]; exact H. Qed.

Lemma triple_send `{Exchange} r I (P : pyobj -> runtime -> Prop) E :
  (forall w v, I w -> reply w.(requests) r = Ret v -> P v (log_request r w)) -> (forall w, I w -> E (log_request r w)) -> triple I (send r) P E.
Proof. intros HP HE w HI. cbn. destruct (reply w.(requests) r) eqn:Er; auto. Qed.

#[export] Hint Resolve stable_read stable_ret stable_lift triple_ret triple_lift triple_read triple_send : triples.

(** ** Traces

    [trace pre ok w]: since the requests [pre], only requests [ok] allows were sent. *)
Definition trace (pre : list request) (ok : request -> Prop) (w : runtime) : Prop :=
  exists new, w.(requests) = new ++ pre /\ Forall ok new.

Lemma trace_start ok w : trace w.(requests) ok w.
Proof. exists []. now split. Qed.

Lemma trace_log pre (ok : request -> Prop) r w : ok r -> trace pre ok w -> trace pre ok (log_request r w).
Proof. intros O (new & E & F). exists (r :: new). cbn. rewrite E. split; [reflexivity | now constructor]. Qed.

Lemma trace_frame pre ok w w' : frame w w' -> trace pre ok w -> trace pre ok w'.
Proof. intros (R & _) (new & E & F). exists new. now rewrite R. Qed.

Lemma trace_weaken pre (ok ok' : request -> Prop) w : (forall r, ok r -> ok' r) -> trace pre ok w -> trace pre ok' w.
Proof. intros H (new & E & F). exists new. split; [exact E | eapply Forall_impl; eauto]. Qed.

Lemma trace_trans pre (ok : request -> Prop) w1 w : trace pre ok w1 -> trace w1.(requests) ok w -> trace pre ok w.
Proof. intros (n1 & E1 & F1) (n2 & E2 & F2). exists (n2 ++ n1). rewrite E2, E1, app_assoc. split; [reflexivity | now apply Forall_app]. Qed.

#[export] Hint Resolve trace_start trace_log trace_frame : triples.

(** ** A quoted instrument

    Where an instrument is listed and its book has been read, both stay what they are. *)
Definition quoted_at (name : string) (i : OptionInstrument) (b : OrderBookSnapshot) (w : runtime) : Prop :=
  _find_instrument_by_markets w.(markets_by_currency) name = Ret i /\ dict_get name w.(orderbook_cache) = Some b.

Section Quoted.
Context {X : Exchange}.
Variables (name : string) (i : OptionInstrument) (b : OrderBookSnapshot).

Lemma quoted_log r w : quoted_at name i b w -> quoted_at name i b (log_request r w).
Proof. intros H. exact H. Qed.

Lemma quoted_get_orderbook other : stable (quoted_at name i b) (_get_orderbook other).
Proof.
  intros w [L Q]. unfold _get_orderbook, bind, read, lift, modify, ret.
  destruct (dict_get other w.(orderbook_cache)) as [b'|] eqn:G; [now split|].
  destruct (get_order_book other) as [payload| |]; [|now split..]. destruct (book_from_api payload) as [b'| |]; [|now split..].
  split; [exact L|]. cbn. rewrite dict_get_set. destruct (String.eqb_spec name other) as [<-|]; [congruence | exact Q].
Qed.

Lemma quoted_index_price currency : stable (quoted_at name i b) (_currency_index_price currency).
Proof.
  unfold _currency_index_price. destruct (index_quote _); [intros w H; exact H|].
  apply stable_bind; [apply stable_attempt, quoted_get_orderbook | intros a w H; exact H].
Qed.

(** The instrument and the book themselves. *)
Lemma quoted_instrument w : quoted_at name i b w -> _find_instrument name w = (w, Ret i).
Proof. intros [L _]. unfold _find_instrument, bind, read. now rewrite L. Qed.

Lemma quoted_book w : quoted_at name i b w -> _get_orderbook name w = (w, Ret b).
Proof. intros [_ Q]. unfold _get_orderbook, bind, read. now rewrite Q. Qed.
End Quoted.
