(* ===== verification/EntryConfig.v ===== *)
(** The parameters of entries ([BotConfig] of [deribit_engine/config.py]) and its methods
    that pick them per underlying, option side and instrument. *)

From S2P Require Import Prelude Dec PyStr Utils Group PyObj StateJson Market ExitEval Runtime HedgeOrders Close GroupClose.
Local Open Scope Q_scope.
Local Open Scope dec_scope.
Local Open Scope bool_scope.

Record entry_config : Type := {
  trading : desk_config;
  entry_dte_min : Z;
  entry_dte_max : Z;
  short_entry_wait_seconds : Z;
  enable_naked_topup : bool;
  enable_short_put : bool;
  enable_short_call : bool;
  short_call_fallback_only : bool;
  entry_time_exit_dte : Z;                (** [time_exit_dte] *)
  covered_call_slot_sizing : bool;
  max_groups_per_currency : Z;
  elevated_max_groups_tighten : Z;
  (* delta and moneyness of puts *)
  short_put_delta_min : Q; short_put_delta_max : Q;
  btc_put_delta_min : Q; btc_put_delta_max : Q;
  eth_put_delta_min : Q; eth_put_delta_max : Q;
  put_otm_min : Q; put_otm_max : Q;
  btc_put_otm_min : Q; btc_put_otm_max : Q;
  eth_put_otm_min : Q; eth_put_otm_max : Q;
  preferred_short_put_delta_min : Q; preferred_short_put_delta_max : Q;
  btc_preferred_put_delta_min : Q; btc_preferred_put_delta_max : Q;
  eth_preferred_put_delta_min : Q; eth_preferred_put_delta_max : Q;
  btc_preferred_otm_min : Q; btc_preferred_otm_max : Q;
  eth_preferred_otm_min : Q; eth_preferred_otm_max : Q;
  (* delta and moneyness of calls *)
  short_call_delta_min : Q; short_call_delta_max : Q;
  btc_call_delta_min : Q; btc_call_delta_max : Q;
  eth_call_delta_min : Q; eth_call_delta_max : Q;
  call_otm_min : Q; call_otm_max : Q;
  btc_call_otm_min : Q; btc_call_otm_max : Q;
  eth_call_otm_min : Q; eth_call_otm_max : Q;
  preferred_short_call_delta_min : Q; preferred_short_call_delta_max : Q;
  btc_preferred_call_delta_min : Q; btc_preferred_call_delta_max : Q;
  eth_preferred_call_delta_min : Q; eth_preferred_call_delta_max : Q;
  btc_preferred_call_otm_min : Q; btc_preferred_call_otm_max : Q;
  eth_preferred_call_otm_min : Q; eth_preferred_call_otm_max : Q;
  bull_put_long_delta_min : Q; bull_put_long_delta_max : Q;
  (* margin caps of a book *)
  per_leg_im_cap_put : Q; per_leg_im_cap_call : Q;
  expiry_im_cap_per_book : Q;
  entry_book_mm_hard : Q;                 (** [book_mm_hard] *)
  (* returns *)
  min_net_apr : Q; target_net_apr_min : Q; target_net_apr_max : Q;
  enable_dynamic_min_net_apr : bool;
  dynamic_min_net_apr_max_shift : Q;
  dynamic_min_net_apr_floor : option Q;
  dynamic_min_net_apr_ivr_ref : Q;
  naked_dynamic_min_net_apr_allow_loosen : bool;
  (* volatility *)
  enable_iv_entry_gate : bool;
  min_iv_rank : Q; max_iv_rank : Q;
  btc_min_iv_rank : option Q; btc_max_iv_rank : option Q;
  eth_min_iv_rank : option Q; eth_max_iv_rank : option Q;
  min_iv_minus_rv : Q;
  enable_dynamic_target_delta : bool;
  dynamic_target_delta_vrp_ref : Q; dynamic_target_delta_strength : Q;
  naked_dynamic_delta_allow_closer : bool;
  elevated_delta_max_tighten : Q; naked_elevated_delta_max_tighten : Q;
  (* ranking *)
  enable_weighted_candidate_scoring : bool;
  score_weight_net_apr : Q; score_weight_margin_efficiency : Q; score_weight_spread : Q;
  score_weight_delta_distance : Q; score_weight_otm_distance : Q;
  enable_skew_side_selection : bool; score_weight_skew : Q; skew_side_min_rr : Q;
  (* trend *)
  enable_trend_side_bias : bool; trend_side_ref_pct : Q; trend_side_min_signal : Q; score_weight_trend : Q;
  enable_trend_adaptive_selection : bool;
  trend_target_delta_strength : Q; trend_delta_max_stretch : Q; trend_otm_floor_ratio : Q;
  naked_entry_below_ma_pct : Q;
  trend_pause_above_pct : Q; trend_pause_requires_bull_regime : bool;
  (* liquidity *)
  inverse_min_open_interest : Q; btc_inverse_min_open_interest : option Q; eth_inverse_min_open_interest : option Q;
  inverse_max_spread_ratio : Q; inverse_min_book_notional_usdc : Q;
  linear_min_open_interest : Q; btc_linear_min_open_interest : option Q; eth_linear_min_open_interest : option Q;
  linear_max_spread_ratio : Q; linear_min_book_notional_usdc : Q;
  covered_call_csp_min_open_interest : Q; covered_call_csp_min_open_interest_btc : Q; covered_call_csp_min_open_interest_eth : Q;
  covered_call_csp_max_spread_ratio : Q; covered_call_csp_min_book_notional_usdc : Q;
}.

Section Parameters.
Variable c : entry_config.

Definition strategy_is (name : string) : bool := String.eqb c.(trading).(option_strategy) name.

Definition elevated_delta_tighten_amount : Q :=
  if strategy_is "naked_short" then c.(naked_elevated_delta_max_tighten) else c.(elevated_delta_max_tighten).

Definition dynamic_target_delta_allow_closer : bool := if strategy_is "naked_short" then c.(naked_dynamic_delta_allow_closer) else true.

Definition dynamic_min_net_apr_allow_loosen : bool :=
  if strategy_is "naked_short" then c.(naked_dynamic_min_net_apr_allow_loosen) else true.

Definition effective_max_groups_per_currency (elevated : bool) : Z :=
  let cap := c.(max_groups_per_currency) in
  if (cap <=? 0)%Z || negb elevated || (c.(elevated_max_groups_tighten) <=? 0)%Z then cap
  else Z.max 1 (cap - c.(elevated_max_groups_tighten)).

Definition dynamic_min_net_apr_bound : Q :=
  match c.(dynamic_min_net_apr_floor) with Some f => f | None => c.(min_net_apr) ⊗ 0.7 end.

(** The value of BTC, of ETH, or of any other underlying. *)
Definition by_underlying {A} (currency : string) (btc eth other : A) : A :=
  let u := upper currency in if String.eqb u "BTC" then btc else if String.eqb u "ETH" then eth else other.

Definition put_delta_bounds (currency : string) : Q * Q :=
  by_underlying currency (c.(btc_put_delta_min), c.(btc_put_delta_max)) (c.(eth_put_delta_min), c.(eth_put_delta_max))
    (c.(short_put_delta_min), c.(short_put_delta_max)).

Definition put_otm_bounds (currency : string) : Q * Q :=
  by_underlying currency (c.(btc_put_otm_min), c.(btc_put_otm_max)) (c.(eth_put_otm_min), c.(eth_put_otm_max))
    (c.(put_otm_min), c.(put_otm_max)).

Definition preferred_put_delta_bounds (currency : string) : Q * Q :=
  by_underlying currency (c.(btc_preferred_put_delta_min), c.(btc_preferred_put_delta_max))
    (c.(eth_preferred_put_delta_min), c.(eth_preferred_put_delta_max))
    (c.(preferred_short_put_delta_min), c.(preferred_short_put_delta_max)).

Definition preferred_put_otm_bounds (currency : string) : Q * Q :=
  by_underlying currency (c.(btc_preferred_otm_min), c.(btc_preferred_otm_max)) (c.(eth_preferred_otm_min), c.(eth_preferred_otm_max))
    (0.09, 0.12).

Definition is_call (option_type : string) : bool := String.eqb option_type "call".

Definition per_leg_im_cap (currency option_type : string) : Q :=
  if is_call option_type then c.(per_leg_im_cap_call) else c.(per_leg_im_cap_put).

Definition expiry_im_cap (currency : string) : Q := c.(expiry_im_cap_per_book).

Definition hard_mm_utilization (currency : string) : Q := c.(entry_book_mm_hard).

Definition call_delta_bounds (currency : string) : Q * Q :=
  by_underlying currency (c.(btc_call_delta_min), c.(btc_call_delta_max)) (c.(eth_call_delta_min), c.(eth_call_delta_max))
    (c.(short_call_delta_min), c.(short_call_delta_max)).

Definition call_otm_bounds (currency : string) : Q * Q :=
  by_underlying currency (c.(btc_call_otm_min), c.(btc_call_otm_max)) (c.(eth_call_otm_min), c.(eth_call_otm_max))
    (c.(call_otm_min), c.(call_otm_max)).

Definition preferred_call_delta_bounds (currency : string) : Q * Q :=
  by_underlying currency (c.(btc_preferred_call_delta_min), c.(btc_preferred_call_delta_max))
    (c.(eth_preferred_call_delta_min), c.(eth_preferred_call_delta_max))
    (c.(preferred_short_call_delta_min), c.(preferred_short_call_delta_max)).

Definition preferred_call_otm_bounds (currency : string) : Q * Q :=
  by_underlying currency (c.(btc_preferred_call_otm_min), c.(btc_preferred_call_otm_max))
    (c.(eth_preferred_call_otm_min), c.(eth_preferred_call_otm_max)) (0.09, 0.12).

Definition delta_bounds (currency option_type : string) : Q * Q :=
  if is_call option_type then call_delta_bounds currency else put_delta_bounds currency.

Definition preferred_delta_bounds (currency option_type : string) : Q * Q :=
  if is_call option_type then preferred_call_delta_bounds currency else preferred_put_delta_bounds currency.

Definition preferred_otm_bounds (currency option_type : string) : Q * Q :=
  if is_call option_type then preferred_call_otm_bounds currency else preferred_put_otm_bounds currency.

Definition or_default (v : option Q) (d : Q) : Q := match v with Some x => x | None => d end.

Definition iv_rank_bounds (currency : string) : Q * Q :=
  (by_underlying currency (or_default c.(btc_min_iv_rank) c.(min_iv_rank)) (or_default c.(eth_min_iv_rank) c.(min_iv_rank)) c.(min_iv_rank),
   by_underlying currency (or_default c.(btc_max_iv_rank) c.(max_iv_rank)) (or_default c.(eth_max_iv_rank) c.(max_iv_rank)) c.(max_iv_rank)).

Definition is_linear (instrument_type : string) : bool := String.eqb (lower instrument_type) "linear".

Definition min_open_interest (instrument_type currency : string) : Q :=
  if is_linear instrument_type then
    by_underlying currency (or_default c.(btc_linear_min_open_interest) c.(linear_min_open_interest))
      (or_default c.(eth_linear_min_open_interest) c.(linear_min_open_interest)) c.(linear_min_open_interest)
  else
    by_underlying currency (or_default c.(btc_inverse_min_open_interest) c.(inverse_min_open_interest))
      (or_default c.(eth_inverse_min_open_interest) c.(inverse_min_open_interest)) c.(inverse_min_open_interest).

(** [(min_oi, max_spread_ratio, min_book_notional_usdc)] *)
Definition liquidity_gates (instrument_type currency : string) : Q * Q * Q :=
  if is_linear instrument_type then
    (min_open_interest instrument_type currency, c.(linear_max_spread_ratio), c.(linear_min_book_notional_usdc))
  else (min_open_interest instrument_type currency, c.(inverse_max_spread_ratio), c.(inverse_min_book_notional_usdc)).

Definition cash_secured_min_open_interest (currency : string) : Q :=
  by_underlying currency c.(covered_call_csp_min_open_interest_btc) c.(covered_call_csp_min_open_interest_eth)
    c.(covered_call_csp_min_open_interest).

Definition cash_secured_liquidity_gates (currency : string) : Q * Q * Q :=
  (cash_secured_min_open_interest currency, c.(covered_call_csp_max_spread_ratio), c.(covered_call_csp_min_book_notional_usdc)).
End Parameters.
