(* ===== verification/Settlement.v ===== *)
(** Settlement at expiry and stressed losses ([deribit_engine/stress.py],
    [bull_put_settlement.py], [covered_call_settlement.py]): the intrinsic value of an
    option in the currency it settles in, what a put spread and a covered call cost at
    expiry, the spot left to sell after an exercise, and the repair of spreads closed as
    if they were naked. The summaries of many losses and the texts shown with them are not
    modelled. *)

From S2P Require Import Prelude Dec PyStr Utils Fees Group Ledger PyObj GroupJson StateJson Market DayState EntryConfig.
Local Open Scope string_scope.
Local Open Scope Q_scope.
Local Open Scope dec_scope.
Local Open Scope bool_scope.
Local Open Scope list_scope.

(** ** Intrinsic value and stressed losses ([stress.py]) *)

Record StressScenario : Type := {
  scenario_name : string;
  spot_shock : Q;
  liquidity_slippage : Q;
}.

Definition _intrinsic (spot strike : Q) (option_type : string) : Q :=
  if is_call option_type then dmax (spot ⊖ strike) 0 else dmax (strike ⊖ spot) 0.

Definition settles_in_usdc (i : OptionInstrument) : bool :=
  String.eqb (upper i.(settlement_currency)) "USDC" || is_linear i.(instrument_type) || String.eqb (upper i.(quote_currency)) "USDC".

Definition _intrinsic_settlement (i : OptionInstrument) (shocked_spot : Q) (option_type : string) : Q :=
  if shocked_spot <=? 0 then 0
  else
    let value := _intrinsic shocked_spot i.(instrument_strike) option_type in
    if settles_in_usdc i then value else safe_div value shocked_spot 0.

(** [spot * (ONE + shock)], never below zero *)
Definition shocked (spot : Q) (sc : StressScenario) : Q :=
  let x := spot ⊗ (1 ⊕ sc.(spot_shock)) in if x <=? 0 then 0 else x.

(** Amounts in the settlement currency are USDC where that is one of these. *)
Definition pays_usdc (i : OptionInstrument) : bool := String.eqb (upper i.(settlement_currency)) "USDC" || is_linear i.(instrument_type).

Definition stress_short_option_loss_usdc (i : OptionInstrument) (option_type : string) (quantity entry_premium spot : Q) (sc : StressScenario) : Q :=
  let s := shocked spot sc in
  let repurchase := _intrinsic_settlement i s option_type ⊗ (1 ⊕ sc.(liquidity_slippage)) in
  let pnl := (entry_premium ⊖ repurchase) ⊗ quantity in
  if pays_usdc i then pnl else pnl ⊗ s.

Record breakdown : Type := {
  shocked_spot : Q;
  intrinsic : Q;
  repurchase_no_slip : Q;
  repurchase_with_slip : Q;
  base_move_usdc : Q;
  slippage_usdc : Q;
  total_usdc : Q;
}.

Definition stress_option_position_pnl_breakdown_usdc (i : OptionInstrument) (option_type : string) (quantity current_premium spot : Q)
    (sc : StressScenario) (direction : string) : breakdown :=
  let s := shocked spot sc in
  let value := _intrinsic_settlement i s option_type in
  let bought := String.eqb (lower direction) "buy" in
  let slipped := if bought then value ⊗ dmax (1 ⊖ sc.(liquidity_slippage)) 0 else value ⊗ (1 ⊕ sc.(liquidity_slippage)) in
  let pnl x := (if bought then x ⊖ current_premium else current_premium ⊖ x) ⊗ quantity in
  let slip := pnl slipped ⊖ pnl value in
  let in_usdc x := if pays_usdc i then x else x ⊗ s in
  {| shocked_spot := s; intrinsic := value; repurchase_no_slip := value; repurchase_with_slip := slipped;
     base_move_usdc := in_usdc (pnl value); slippage_usdc := in_usdc slip; total_usdc := in_usdc (pnl slipped) |}.

Definition stress_short_option_loss_breakdown_usdc (i : OptionInstrument) (option_type : string) (quantity entry_premium spot : Q) (sc : StressScenario) : breakdown :=
  stress_option_position_pnl_breakdown_usdc i option_type quantity entry_premium spot sc "sell".

(** ** Put spreads ([bull_put_settlement.py]) *)

Definition SPREAD_EXPIRY_SETTLEMENT_BEFORE_MS : Z := 3600000.
Definition SPREAD_EXPIRY_SETTLEMENT_AFTER_MS : Z := 172800000.
Definition _MIN_PLAUSIBLE_UNDERLYING_INDEX_USD : Q := 100.

Definition in_spread_expiry_settlement_window (expiry_ms now_ms : Z) : bool :=
  if (expiry_ms <=? 0)%Z then false
  else (expiry_ms - SPREAD_EXPIRY_SETTLEMENT_BEFORE_MS <=? now_ms)%Z && (now_ms <=? expiry_ms + SPREAD_EXPIRY_SETTLEMENT_AFTER_MS)%Z.

Definition group_uses_spread_settlement_pricing (g : TradeGroup) (now_ms : Z) : bool :=
  if (g.(expiration_timestamp_ms) <=? 0)%Z then false
  else if (g.(expiration_timestamp_ms) - 60000 <=? now_ms)%Z then true
  else in_spread_expiry_settlement_window g.(expiration_timestamp_ms) now_ms.

Definition is_bull_put_spread_group (g : TradeGroup) (default_strategy : string) : bool :=
  String.eqb (normalize_strategy_name g.(Group.strategy) default_strategy) "bull_put_spread"
  || truthy g.(long_instrument_name) || (g.(long_strike) >? 0).

(** The short's market with another name and strike, closed. *)
Definition put_like (short_i : OptionInstrument) (name : string) (expiry_ms : Z) (strike : Q) : OptionInstrument :=
  {| instrument_name := name; base_currency := short_i.(base_currency); quote_currency := short_i.(quote_currency);
     settlement_currency := short_i.(settlement_currency); instrument_type := short_i.(instrument_type); tick_size := short_i.(tick_size);
     tick_size_steps := short_i.(tick_size_steps); min_trade_amount := short_i.(min_trade_amount);
     instrument_contract_size := short_i.(instrument_contract_size); instrument_option_type := "put";
     instrument_expiration_ms := expiry_ms; instrument_strike := strike; instrument_state := "closed" |}.

Definition listed_under (name : string) (markets : dict (list OptionInstrument)) : option OptionInstrument :=
  find (fun i => String.eqb i.(instrument_name) name) (concat (map snd markets)).

(** The loop over the books leaves only the inner one at a match: the last book wins. *)
Definition last_listed (name : string) (markets : dict (list OptionInstrument)) : option OptionInstrument :=
  fold_left (fun found kv => match find (fun i => String.eqb i.(instrument_name) name) (snd kv) with Some i => Some i | None => found end) markets None.

(** [to_decimal(parsed.get("strike"))] *)
Definition parsed_strike (o : option_name) : Q := to_decimal (PStr o.(strike_text)) 0.

(** The long leg as it is listed, else as its name says, else as the group remembers it. *)
Definition long_instrument_for_spread_reconcile (g : TradeGroup) (short_i : OptionInstrument) (markets : dict (list OptionInstrument)) : option OptionInstrument :=
  let expiry := if (g.(expiration_timestamp_ms) =? 0)%Z then short_i.(instrument_expiration_ms) else g.(expiration_timestamp_ms) in
  let name := g.(long_instrument_name) in
  let named := if truthy name then
                 match listed_under name markets with
                 | Some i => Some i
                 | None => option_map (fun o => put_like short_i name expiry (parsed_strike o)) (parse_option_name name)
                 end
               else None in
  match named with
  | Some i => Some i
  | None =>
      if g.(long_strike) <=? 0 then None
      else Some (put_like short_i (str_or name (short_i.(instrument_name) ++ "-long-synth")) expiry g.(long_strike))
  end.

Definition cap_spread_reconcile_close_debit (g : TradeGroup) (close_debit : Q) : Q :=
  if g.(max_loss) <=? 0 then close_debit else dmin close_debit (entry_credit_net_usdc g ⊕ g.(max_loss)).

Section SpreadFees.
Variables fee_rate fee_cap_rate : Q.

Definition settled_value (i : OptionInstrument) (index quantity premium : Q) : Q :=
  premium_value_usdc index premium quantity i.(base_currency) i.(quote_currency) i.(settlement_currency).

Definition settled_fee (i : OptionInstrument) (index quantity premium : Q) : Q :=
  option_trade_fee_usdc index premium quantity fee_rate fee_cap_rate i.(base_currency) i.(quote_currency) i.(settlement_currency) 0.

(** What buying the short back at its intrinsic value costs. *)
Definition short_debit_at (i : OptionInstrument) (index quantity : Q) (option_type : string) : Q :=
  let premium := _intrinsic_settlement i index option_type in settled_value i index quantity premium ⊕ settled_fee i index quantity premium.

(** What selling the long at its intrinsic value brings. *)
Definition long_credit_at (i : OptionInstrument) (index quantity : Q) (option_type : string) : Q :=
  let premium := _intrinsic_settlement i index option_type in dmax (settled_value i index quantity premium ⊖ settled_fee i index quantity premium) 0.

Definition spread_expiry_close_debit_usdc (g : TradeGroup) (short_i : OptionInstrument) (long_i : option OptionInstrument) (index : Q) : Q :=
  let option_type := lower (str_or g.(Group.option_type) "put") in
  let short_debit := short_debit_at short_i index g.(quantity) option_type in
  let debit :=
    match long_i with
    | Some i => if g.(long_strike) >? 0 then dmax (short_debit ⊖ long_credit_at i index g.(quantity) option_type) 0 else short_debit
    | None => short_debit
    end in
  cap_spread_reconcile_close_debit g debit.

(** The first row of the journal that opened a long leg. *)
Fixpoint restore_long_leg_from_journal_executions (g : TradeGroup) (executions : list journal_row) : TradeGroup * bool :=
  match executions with
  | [] => (g, false)
  | row :: rest =>
      let next := restore_long_leg_from_journal_executions g rest in
      if negb (String.eqb (lower row.(row_leg)) "long") || negb (String.eqb (lower row.(row_event_type)) "open") then next
      else if is_empty row.(row_instrument_name) then next
      else
        match parse_option_name row.(row_instrument_name) with
        | None => next
        | Some o =>
            let g := set_long_strike (parsed_strike o) (set_long_instrument_name row.(row_instrument_name) g) in
            (if String.eqb (normalize_strategy_name g.(Group.strategy) "naked_short") "bull_put_spread" then g
             else Group.set_strategy "bull_put_spread" g, true)
        end
  end.

Definition was_reconciled (g : TradeGroup) : bool :=
  mem_str (lower g.(close_reason)) ["reconciled_expiry"; "reconciled_external"].

Definition spread_expiry_pnl_overstates_loss (g : TradeGroup) : bool :=
  match g.(realized_pnl) with
  | Some pnl =>
      String.eqb g.(status) "closed" && negb (g.(max_loss) <=? 0) && was_reconciled g && (pnl <? (Dec.dneg g.(max_loss) ⊖ 2))
  | None => false
  end.

Definition plausible_index (v : option Q) : option Q :=
  match v with Some x => if x >=? _MIN_PLAUSIBLE_UNDERLYING_INDEX_USD then Some x else None | None => None end.

Definition settlement_index_usd_for_group (g : TradeGroup) (spot_by_book : dict Q) : option Q :=
  match plausible_index g.(close_index_usd), plausible_index (Some g.(entry_index_usd)) with
  | Some x, _ => Some x
  | None, Some x => Some x
  | None, None => plausible_index (dict_get (upper (str_or g.(currency) "BTC")) spot_by_book)
  end.

Definition should_repair_spread_expiry_reconcile_pnl (g : TradeGroup) : bool :=
  String.eqb g.(status) "closed" && match g.(realized_pnl) with Some _ => true | None => false end && is_bull_put_spread_group g "naked_short" && negb (g.(long_strike) <=? 0) && was_reconciled g.

(** The short leg as it is listed, else as its name says. *)
Definition short_instrument_of (g : TradeGroup) (markets : dict (list OptionInstrument)) : option OptionInstrument :=
  match last_listed g.(short_instrument_name) markets with
  | Some i => Some i
  | None =>
      option_map (fun o =>
        {| instrument_name := g.(short_instrument_name); base_currency := str_or o.(name_base_currency) g.(currency); quote_currency := "USDC";
           settlement_currency := "USDC"; instrument_type := "linear"; tick_size := 0.0001; tick_size_steps := []; min_trade_amount := 0.1;
           instrument_contract_size := 0.1; instrument_option_type := "put"; instrument_expiration_ms := g.(expiration_timestamp_ms);
           instrument_strike := parsed_strike o; instrument_state := "closed" |}) (parse_option_name g.(short_instrument_name))
  end.

Definition repair_bull_put_expiry_reconcile_pnl (g : TradeGroup) (index_price_usd : Q) (markets : dict (list OptionInstrument)) : outcome (TradeGroup * bool) :=
  if negb (should_repair_spread_expiry_reconcile_pnl g) then Ret (g, false)
  else if index_price_usd <? _MIN_PLAUSIBLE_UNDERLYING_INDEX_USD then Ret (g, false)
  else
    match short_instrument_of g markets with
    | None => Ret (g, false)
    | Some short_i =>
        let long_i := long_instrument_for_spread_reconcile g short_i markets in
        let close_debit := spread_expiry_close_debit_usdc g short_i long_i index_price_usd in
        let new_pnl := entry_credit_net_usdc g ⊖ close_debit in
        if match g.(realized_pnl) with Some p => dabs (new_pnl ⊖ p) <=? 0.05 | None => false end then Ret (g, false)
        else
          let g := set_realized_return_on_max_loss (Some (safe_div new_pnl g.(max_loss) 0))
                     (set_realized_pnl (Some new_pnl) (set_realized_close_debit (Some close_debit) g)) in
          (let! g := backfill_realized_pnl_usdc g (Some index_price_usd) in
           Ret (if String.eqb (normalize_strategy_name g.(Group.strategy) "naked_short") "bull_put_spread" then g
                else Group.set_strategy "bull_put_spread" g, true))%outcome
    end.
End SpreadFees.

(** ** Covered calls ([covered_call_settlement.py]) *)

Definition SETTLEMENT_LOG_TYPES : list string := ["settlement"; "delivery"].
Definition DEFAULT_SETTLEMENT_LOG_WINDOW_MS : Z := 3600000.

(** Robust exits buy the call back before it settles. *)
Definition covered_call_spot_exit_skips_settlement_loss (reason spot_exit_reason : string) : bool :=
  contains "robust" (lower (reason ++ " " ++ spot_exit_reason)%string).

Definition covered_strike (g : TradeGroup) (short_i : option OptionInstrument) : Q :=
  if g.(short_strike) >? 0 then g.(short_strike) else match short_i with Some i => i.(instrument_strike) | None => 0 end.

(** What one call costs its seller at the index, in coin. *)
Definition settlement_per_unit (index strike : Q) (short_i : option OptionInstrument) : Q :=
  let derived := dmax (index ⊖ strike) 0 ⊘ index in
  match short_i with
  | Some i =>
      if (i.(instrument_strike) =? strike)
         && negb (String.eqb (upper i.(quote_currency)) "USDC" && String.eqb (upper i.(settlement_currency)) "USDC")
      then _intrinsic_settlement i index "call" else derived
  | None => derived
  end.

Definition covered_call_settlement_loss_from_intrinsic (g : TradeGroup) (index : Q) (short_i : option OptionInstrument) : Q :=
  if (index <=? 0) || (g.(quantity) <=? 0) then 0
  else if negb (String.eqb (lower g.(Group.option_type)) "call") then 0
  else
    let strike := covered_strike g short_i in
    if (strike <=? 0) || (index <=? strike) then 0
    else dmax (settlement_per_unit index strike short_i ⊗ g.(quantity)) 0.

(** [(outflow, whether a row matched)] over the log; a row that is no dict raises. *)
Fixpoint settlement_outflow (name : string) (outflow : Q) (seen : bool) (rows : list pyobj) : option (Q * bool) :=
  match rows with
  | [] => Some (outflow, seen)
  | PDict d :: rest =>
      if negb (String.eqb (str_or_default (dget "instrument_name" d) EmptyString) name) then settlement_outflow name outflow seen rest
      else if negb (mem_str (lower (str_or_default (dget "type" d) EmptyString)) SETTLEMENT_LOG_TYPES) then settlement_outflow name outflow seen rest
      else
        let change := to_decimal (match dget "change" d with PNone => dget "amount" d | v => v end) 0 in
        settlement_outflow name (if change <? 0 then outflow ⊕ Dec.dneg change else outflow) true rest
  | _ :: _ => None
  end.

Section SettlementLog.
Context {L : TransactionLog}.

Definition covered_call_settlement_loss_from_transaction_log (currency name : string) (expiry_ms window_ms : Z) : option Q :=
  if is_empty name || (expiry_ms <=? 0)%Z then None
  else
    match iter_transaction_log (upper currency) (Z.max 0 (expiry_ms - window_ms)) (expiry_ms + window_ms) with
    | Ret rows =>
        match settlement_outflow name 0 false rows with
        | Some (outflow, true) => Some outflow
        | _ => None
        end
    | _ => None
    end.

(** The loss in coin and where it was read. [has_client] tells whether there is an exchange to ask. *)
Definition resolve_covered_call_settlement_loss (g : TradeGroup) (index : Q) (short_i : option OptionInstrument) (has_client : bool) (reason : string)
    (prefer_log : bool) : Q * string :=
  if covered_call_spot_exit_skips_settlement_loss reason g.(spot_exit_reason) then (0, "skipped_robust")
  else
    let from_log := if prefer_log && has_client then
                      covered_call_settlement_loss_from_transaction_log g.(currency) g.(short_instrument_name) g.(expiration_timestamp_ms)
                        DEFAULT_SETTLEMENT_LOG_WINDOW_MS
                    else None in
    match from_log with
    | Some loss => (loss, "transaction_log")
    | None => (covered_call_settlement_loss_from_intrinsic g index short_i, "intrinsic")
    end.
End SettlementLog.

(** The net premium of the entry in coin; reading it may fill in the group's index. *)
Definition covered_call_spot_exit_premium_native (g : TradeGroup) : TradeGroup * Q :=
  let '(g, net) := entry_net_credit_collateral g in
  (g, match net with Some v => if v <=? 0 then 0 else v | None => 0 end).

Definition covered_call_spot_exit_target_native (cover settlement_loss : Q) (source : string) (premium_native : Q) (include_premium : bool) : Q :=
  if cover <=? 0 then 0
  else if String.eqb source "skipped_robust" then cover
  else
    let premium := if include_premium then dmax premium_native 0 else 0 in
    dmax ((cover ⊕ premium) ⊖ dmax settlement_loss 0) 0.

(** * What settlements and shocks can cost *)

Lemma intrinsic_nonneg spot strike option_type : 0 <= _intrinsic spot strike option_type.
Proof. unfold _intrinsic. destruct (is_call option_type); apply dmax_r. Qed.

Lemma intrinsic_settlement_nonneg i s option_type : 0 <= _intrinsic_settlement i s option_type.
Proof.
  unfold _intrinsic_settlement. destruct (dleb_spec s 0) as [|P]; [apply Qle_refl|]. apply Qnot_le_lt in P.
  pose proof (intrinsic_nonneg s i.(instrument_strike) option_type) as N. destruct (settles_in_usdc i); [exact N|].
  unfold safe_div. destruct (s =? 0); [apply Qle_refl | apply ddiv_nonneg; [exact N | lra]].
Qed.

Lemma put_worthless_above i s : i.(instrument_strike) <= s -> _intrinsic_settlement i s "put" == 0.
Proof.
  intros L. unfold _intrinsic_settlement. destruct (s <=? 0); [reflexivity|].
  assert (Z0 : _intrinsic s i.(instrument_strike) "put" == 0).
  { unfold _intrinsic. cbn [is_call String.eqb Ascii.eqb Bool.eqb].
    change (dmax (i.(instrument_strike) ⊖ s) 0 == 0). apply Qle_antisym; [|apply dmax_r]. apply dmax_lub; [now apply dsub_nonpos | apply Qle_refl]. }
  destruct (settles_in_usdc i); [exact Z0|]. unfold safe_div. destruct (s =? 0); [reflexivity|]. rewrite Z0. unfold ddiv. now rewrite rnd_0.
Qed.

Section SettledAmounts.
Variables (fee_rate fee_cap_rate index quantity : Q) (i : OptionInstrument).
Hypotheses (rate_nonneg : 0 <= fee_rate) (cap_nonneg : 0 <= fee_cap_rate) (index_nonneg : 0 <= index) (quantity_nonneg : 0 <= quantity).

Lemma settled_value_nonneg premium : 0 <= premium -> 0 <= settled_value i index quantity premium.
Proof.
  intros P. unfold settled_value, premium_value_usdc. destruct (_ =? 0); [apply Qle_refl|].
  destruct (is_usdc _ _); [now apply dmul_nonneg|]. destruct (_ || _); repeat apply dmul_nonneg; assumption.
Qed.

Lemma settled_value_zero premium : premium == 0 -> settled_value i index quantity premium = 0.
Proof.
  intros P. unfold settled_value, premium_value_usdc. rewrite (dmul_0_l premium quantity P). reflexivity.
Qed.

Lemma settled_fee_nonneg premium : 0 <= premium -> 0 <= settled_fee fee_rate fee_cap_rate i index quantity premium.
Proof.
  intros P. unfold settled_fee, option_trade_fee_usdc, option_trade_fee_native, apply_trading_fee_discount. rewrite orb_true_r.
  destruct (is_usdc _ _); [|apply dmul_nonneg; [|exact index_nonneg]]; apply dmin_glb; repeat apply dmul_nonneg; assumption.
Qed.

Lemma settled_fee_zero premium : premium == 0 -> settled_fee fee_rate fee_cap_rate i index quantity premium == 0.
Proof.
  intros P. assert (C : premium ⊗ quantity ⊗ fee_cap_rate = 0) by (apply dmul_0_l; now rewrite (dmul_0_l premium quantity P)).
  assert (Z0 : forall x, 0 <= x -> dmin x 0 == 0) by (intros x X; apply Qle_antisym; [apply dmin_r | apply dmin_glb; [exact X | apply Qle_refl]]).
  unfold settled_fee, option_trade_fee_usdc, option_trade_fee_native, apply_trading_fee_discount. rewrite orb_true_r, C.
  destruct (is_usdc _ _).
  - apply Z0. repeat apply dmul_nonneg; assumption.
  - rewrite dmul_0_l; [reflexivity|]. apply Z0. now apply dmul_nonneg.
Qed.

Lemma short_debit_nonneg option_type : 0 <= short_debit_at fee_rate fee_cap_rate i index quantity option_type.
Proof. pose proof (intrinsic_settlement_nonneg i index option_type). apply dadd_nonneg; [now apply settled_value_nonneg | now apply settled_fee_nonneg]. Qed.

Lemma short_debit_worthless : i.(instrument_strike) <= index -> short_debit_at fee_rate fee_cap_rate i index quantity "put" == 0.
Proof.
  intros L. pose proof (put_worthless_above i index L) as W. unfold short_debit_at. rewrite (settled_value_zero _ W). unfold dadd.
  rewrite (settled_fee_zero _ W). now rewrite rnd_0.
Qed.
End SettledAmounts.

Section SpreadBounds.
Variables (fee_rate fee_cap_rate : Q) (g : TradeGroup) (short_i : OptionInstrument) (long_i : option OptionInstrument) (index : Q).
Hypotheses (rate_nonneg : 0 <= fee_rate) (cap_nonneg : 0 <= fee_cap_rate) (index_nonneg : 0 <= index) (quantity_nonneg : 0 <= g.(quantity)).

Let option_type : string := lower (str_or g.(Group.option_type) "put").
Let alone : Q := short_debit_at fee_rate fee_cap_rate short_i index g.(quantity) option_type.

(** Before the cap: the short alone, less what the long brings, never below zero. *)
Lemma uncapped_debit : exists d, spread_expiry_close_debit_usdc fee_rate fee_cap_rate g short_i long_i index = cap_spread_reconcile_close_debit g d /\
  0 <= d /\ d <= alone.
Proof.
  assert (A : 0 <= alone) by (apply short_debit_nonneg; assumption).
  assert (R : representable alone) by (unfold alone, short_debit_at, dadd; apply rnd_representable).
  unfold spread_expiry_close_debit_usdc. fold option_type. fold alone. destruct long_i as [i|]; [|eauto using Qle_refl].
  destruct (g.(long_strike) >? 0); [|eauto using Qle_refl]. eexists. split; [reflexivity|]. split; [apply dmax_r|].
  apply dmax_lub; [|exact A]. apply rnd_le_bound; [exact R|]. pose proof (dmax_r (settled_value i index g.(quantity) (_intrinsic_settlement i index option_type)
    ⊖ settled_fee fee_rate fee_cap_rate i index g.(quantity) (_intrinsic_settlement i index option_type)) 0) as L. unfold long_credit_at. cbv zeta. lra.
Qed.
End SpreadBounds.

(** A put spread settled at expiry costs at least nothing (where it was worth entering), at
    most what its short leg alone would, and never more than its credit and its largest
    loss together, so that the profit booked stays above minus the largest loss; settled
    at or above the short strike it costs nothing. *)
Theorem spread_expiry_debit_bounds fee_rate fee_cap_rate g short_i long_i index :
  0 <= fee_rate -> 0 <= fee_cap_rate -> 0 <= index -> 0 <= g.(quantity) ->
  let debit := spread_expiry_close_debit_usdc fee_rate fee_cap_rate g short_i long_i index in
  let ceiling := entry_credit_net_usdc g ⊕ g.(max_loss) in
  debit <= short_debit_at fee_rate fee_cap_rate short_i index g.(quantity) (lower (str_or g.(Group.option_type) "put")) /\
  (g.(max_loss) <= 0 \/ 0 <= ceiling -> 0 <= debit) /\
  (0 < g.(max_loss) -> debit <= ceiling /\
    (representable g.(max_loss) -> representable (entry_credit_net_usdc g + g.(max_loss)) -> - g.(max_loss) <= entry_credit_net_usdc g ⊖ debit)) /\
  (lower (str_or g.(Group.option_type) "put") = "put" -> short_i.(instrument_strike) <= index -> g.(max_loss) <= 0 \/ 0 <= ceiling -> debit == 0).
Proof.
  intros Hr Hc Hi Hq debit ceiling. destruct (uncapped_debit fee_rate fee_cap_rate g short_i long_i index Hr Hc Hi Hq) as (d & E & N & A).
  assert (C : debit = if g.(max_loss) <=? 0 then d else dmin d ceiling) by exact E. clearbody debit. clear E.
  assert (L : debit <= d) by (rewrite C; destruct (_ <=? 0); [apply Qle_refl | apply dmin_l]).
  assert (P : g.(max_loss) <= 0 \/ 0 <= ceiling -> 0 <= debit).
  { intros [M|M]; rewrite C; destruct (dleb_spec g.(max_loss) 0); try exact N; [contradiction | now apply dmin_glb]. }
  repeat split.
  - lra.
  - exact P.
  - rewrite C. destruct (dleb_spec g.(max_loss) 0); [lra | apply dmin_r].
  - intros Rm Rc. apply rnd_ge_bound; [now apply representable_opp|].
    assert (B : debit <= ceiling) by (rewrite C; destruct (dleb_spec g.(max_loss) 0); [lra | apply dmin_r]).
    unfold ceiling, dadd in B. rewrite (rnd_exact _ Rc) in B. lra.
  - intros T S M. apply Qle_antisym; [|now apply P]. rewrite <- (short_debit_worthless fee_rate fee_cap_rate index g.(quantity) short_i Hr Hi Hq S).
    rewrite T in A. lra.
Qed.

(** ** The coins left after an exercise *)

(** An instrument that settles and is quoted in one kind of money. *)
Definition one_money (i : OptionInstrument) : Prop :=
  settles_in_usdc i = String.eqb (upper i.(quote_currency)) "USDC" && String.eqb (upper i.(settlement_currency)) "USDC".

Lemma ratio_of_difference s k : representable s -> 0 < s -> 0 < k -> k < s -> 0 < (s ⊖ k) ⊘ s /\ (s ⊖ k) ⊘ s <= 1.
Proof.
  intros R S K L. assert (P : 0 < s ⊖ k) by now apply dsub_pos. split; [now apply ddiv_pos|].
  apply ddiv_le_1; [lra | | exact S]. apply rnd_le_bound; [exact R | lra].
Qed.

(** Above the strike the two ways to the loss of a unit agree. *)
Lemma per_unit_ratio index strike short_i : 0 < index -> strike < index -> (forall i, short_i = Some i -> one_money i) ->
  settlement_per_unit index strike short_i == (index ⊖ strike) ⊘ index.
Proof.
  intros P L M. assert (D : dmax (index ⊖ strike) 0 == index ⊖ strike).
  { apply Qle_antisym; [|apply dmax_l]. apply dmax_lub; [apply Qle_refl | apply Qlt_le_weak, dsub_pos, L]. }
  assert (F : dmax (index ⊖ strike) 0 ⊘ index == (index ⊖ strike) ⊘ index) by (now rewrite D).
  unfold settlement_per_unit. destruct short_i as [i|]; [|exact F]. destruct (deqb_spec i.(instrument_strike) strike) as [E|]; [|exact F].
  match goal with |- context [negb ?b] => destruct b eqn:U end; cbn [negb andb]; [exact F|]. unfold _intrinsic_settlement. rewrite (M i eq_refl), U.
  destruct (dleb_spec index 0); [lra|]. unfold safe_div. destruct (deqb_spec index 0); [lra|].
  unfold _intrinsic. change (dmax (index ⊖ i.(instrument_strike)) 0 ⊘ index == (index ⊖ strike) ⊘ index).
  assert (X : index ⊖ i.(instrument_strike) = index ⊖ strike) by (now rewrite E). rewrite X. exact F.
Qed.

Section Exercised.
Variables (g : TradeGroup) (short_i : option OptionInstrument).
Hypothesis money : forall i, short_i = Some i -> one_money i.

Definition exercised (index : Q) : Prop :=
  lower g.(Group.option_type) = "call" /\ 0 < g.(quantity) /\ 0 < covered_strike g short_i /\ covered_strike g short_i < index.

Lemma loss_when_exercised index : exercised index ->
  covered_call_settlement_loss_from_intrinsic g index short_i == ((index ⊖ covered_strike g short_i) ⊘ index) ⊗ g.(quantity).
Proof.
  intros (T & Q0 & K & L). unfold covered_call_settlement_loss_from_intrinsic. rewrite T. cbn [String.eqb Ascii.eqb Bool.eqb negb].
  set (k := covered_strike g short_i) in *. destruct (dleb_spec index 0); [lra|]. destruct (dleb_spec g.(quantity) 0); [lra|].
  destruct (dleb_spec k 0); [lra|]. destruct (dleb_spec index k); [lra|]. cbn [orb].
  rewrite (per_unit_ratio index k short_i) by (exact money || lra).
  apply Qle_antisym; [|apply dmax_l]. apply dmax_lub; [apply Qle_refl|]. apply dmul_nonneg; [|lra]. apply ddiv_nonneg; [|lra].
  apply dsub_nonneg. lra.
Qed.

Lemma loss_when_not index : ~ exercised index -> covered_call_settlement_loss_from_intrinsic g index short_i == 0.
Proof.
  intros N. unfold covered_call_settlement_loss_from_intrinsic. destruct (dleb_spec index 0); [reflexivity|]. destruct (dleb_spec g.(quantity) 0); [reflexivity|].
  destruct (String.eqb_spec (lower g.(Group.option_type)) "call"); [|reflexivity]. cbn [negb orb].
  destruct (dleb_spec (covered_strike g short_i) 0); [reflexivity|]. destruct (dleb_spec index (covered_strike g short_i)); [reflexivity|].
  destruct N. unfold exercised. repeat split; lra || assumption.
Qed.

Lemma exercised_dec index : exercised index \/ ~ exercised index.
Proof.
  unfold exercised. destruct (String.eqb_spec (lower g.(Group.option_type)) "call"); [|tauto].
  destruct (dltb_spec 0 g.(quantity)); [|tauto]. destruct (dltb_spec 0 (covered_strike g short_i)); [|tauto].
  destruct (dltb_spec (covered_strike g short_i) index); tauto.
Qed.

Lemma loss_bounds index : representable index -> representable g.(quantity) -> exercised index ->
  0 < covered_call_settlement_loss_from_intrinsic g index short_i /\ covered_call_settlement_loss_from_intrinsic g index short_i <= g.(quantity).
Proof.
  intros Ri Rq E. rewrite (loss_when_exercised index E). destruct E as (_ & Q0 & K & L).
  destruct (ratio_of_difference index (covered_strike g short_i) Ri ltac:(lra) K L) as [P U]. split; [now apply dmul_pos|].
  apply rnd_le_bound; [exact Rq|]. set (r := _ ⊘ index) in *. nra.
Qed.
End Exercised.

(** What an exercised call takes from its cover: nothing unless the call is in the money;
    then a positive amount, at most the coins sold against, and no less at a higher index.
    Where the cover holds those coins, what is left of it to sell is exactly the cover
    less that loss, between nothing and the cover. *)
Theorem covered_call_settlement_bounds g short_i index cover source :
  (forall i, short_i = Some i -> one_money i) -> representable index -> representable g.(quantity) -> representable cover ->
  let loss := covered_call_settlement_loss_from_intrinsic g index short_i in
  (exercised g short_i index -> 0 < loss /\ loss <= g.(quantity)) /\
  (~ exercised g short_i index -> loss == 0) /\
  (forall higher, index <= higher -> representable (index - covered_strike g short_i) -> representable (higher - covered_strike g short_i) ->
    loss <= covered_call_settlement_loss_from_intrinsic g higher short_i) /\
  (0 < cover -> g.(quantity) <= cover -> source <> "skipped_robust" ->
    let left := covered_call_spot_exit_target_native cover loss source 0 false in left == cover ⊖ loss /\ 0 <= left /\ left <= cover).
Proof.
  intros M Ri Rq Rc loss. assert (B : exercised g short_i index -> 0 < loss /\ loss <= g.(quantity)) by (intros E; now apply loss_bounds).
  assert (Z0 : ~ exercised g short_i index -> loss == 0) by apply loss_when_not. split; [exact B|]. split; [exact Z0|]. split.
  - intros higher L D1 D2. destruct (exercised_dec g short_i index) as [E|N].
    + assert (E' : exercised g short_i higher) by (destruct E as (T & Q0 & K & S); unfold exercised; repeat split; lra || assumption).
      unfold loss. rewrite (loss_when_exercised g short_i M _ E), (loss_when_exercised g short_i M _ E'). destruct E as (_ & Q0 & K & S).
      apply dmul_mono_l; [lra|]. unfold ddiv, dsub. apply rnd_mono. rewrite (rnd_exact _ D1), (rnd_exact _ D2).
      set (k := covered_strike g short_i) in *. apply Qle_shift_div_l; [lra|]. unfold Qdiv.
      setoid_replace ((index - k) * / index * higher) with (higher - k * (higher * / index)) by (field; lra).
      assert (1 <= higher * / index) by (apply Qle_shift_div_l; lra). nra.
    + rewrite (Z0 N). destruct (exercised_dec g short_i higher) as [E'|N']; [|rewrite (loss_when_not g short_i higher N'); apply Qle_refl].
      rewrite (loss_when_exercised g short_i M higher E'). destruct E' as (_ & Q0 & K & S). apply dmul_nonneg; [|lra]. apply ddiv_nonneg; [|lra].
      apply dsub_nonneg. lra.
  - intros C Q0 S left. assert (P : 0 <= loss /\ loss <= cover).
    { destruct (exercised_dec g short_i index) as [E|N]; [destruct (B E); lra | rewrite (Z0 N); lra]. }
    assert (E : left == cover ⊖ loss).
    { unfold left, covered_call_spot_exit_target_native. destruct (dleb_spec cover 0); [lra|]. destruct (String.eqb_spec source "skipped_robust"); [contradiction|].
      assert (X : dmax loss 0 == loss) by (apply Qle_antisym; [apply dmax_lub; lra | apply dmax_l]).
      assert (Y : (cover ⊕ 0) ⊖ dmax loss 0 == cover ⊖ loss) by (unfold dsub; now rewrite X, (dadd_0_r _ Rc)). rewrite Y.
      apply Qle_antisym; [apply dmax_lub; [apply Qle_refl | apply dsub_nonneg; lra] | apply dmax_l]. }
    split; [exact E|]. rewrite E. split; [apply dsub_nonneg; lra | apply rnd_le_bound; [exact Rc | lra]].
Qed.

(** ** Shocks *)

Lemma shocked_nonneg spot sc : 0 <= shocked spot sc.
Proof. unfold shocked. destruct (dleb_spec (spot ⊗ (1 ⊕ sc.(spot_shock))) 0); [apply Qle_refl | lra]. Qed.

Lemma shocked_mono spot deep mild : 0 <= spot -> deep.(spot_shock) <= mild.(spot_shock) -> shocked spot deep <= shocked spot mild.
Proof.
  intros S L. assert (M : spot ⊗ (1 ⊕ deep.(spot_shock)) <= spot ⊗ (1 ⊕ mild.(spot_shock))).
  { assert (A : 1 ⊕ deep.(spot_shock) <= 1 ⊕ mild.(spot_shock)) by (apply dadd_mono; [apply Qle_refl | exact L]).
    unfold dmul. apply rnd_mono. nra. }
  unfold shocked. destruct (dleb_spec (spot ⊗ (1 ⊕ deep.(spot_shock))) 0), (dleb_spec (spot ⊗ (1 ⊕ mild.(spot_shock))) 0); lra.
Qed.

(** A put settled in dollars is worth no less at a lower spot (above zero, where the model of the loss stops). *)
Lemma put_value_antitone i s t option_type : settles_in_usdc i = true -> is_call option_type = false -> 0 < s -> s <= t ->
  _intrinsic_settlement i t option_type <= _intrinsic_settlement i s option_type.
Proof.
  intros U T S L. unfold _intrinsic_settlement, _intrinsic. rewrite U, T. destruct (dleb_spec s 0); [lra|]. destruct (dleb_spec t 0); [lra|].
  apply dmax_mono; [apply dsub_mono; [apply Qle_refl | exact L] | apply Qle_refl].
Qed.

Section Stress.
Variables (i : OptionInstrument) (option_type : string) (quantity premium spot : Q) (sc : StressScenario).
Hypotheses (quantity_nonneg : 0 <= quantity) (slippage_nonneg : 0 <= sc.(liquidity_slippage)).
Let value : Q := _intrinsic_settlement i (shocked spot sc) option_type.

Lemma in_usdc_mono x y : x <= y -> (if pays_usdc i then x else x ⊗ shocked spot sc) <= (if pays_usdc i then y else y ⊗ shocked spot sc).
Proof. intros L. destruct (pays_usdc i); [exact L|]. apply dmul_mono_l; [apply shocked_nonneg | exact L]. Qed.

Lemma value_representable : representable value.
Proof.
  unfold value, _intrinsic_settlement. destruct (_ <=? 0); [apply representable_0|].
  assert (R : representable (_intrinsic (shocked spot sc) i.(instrument_strike) option_type)).
  { unfold _intrinsic. destruct (is_call option_type); apply representable_dmax; (apply rnd_representable || apply representable_0). }
  destruct (settles_in_usdc i); [exact R|]. unfold safe_div. destruct (_ =? 0); [apply representable_0 | apply rnd_representable].
Qed.

(** Slippage raises what buying back costs, and lowers what selling brings. *)
Lemma slipped_up : value <= value ⊗ (1 ⊕ sc.(liquidity_slippage)).
Proof.
  pose proof (intrinsic_settlement_nonneg i (shocked spot sc) option_type) as N. fold value in N.
  apply rnd_ge_bound; [apply value_representable|]. assert (1 <= 1 ⊕ sc.(liquidity_slippage)) by (apply rnd_ge_bound; [apply representable_1 | lra]). nra.
Qed.

Lemma slipped_down : value ⊗ dmax (1 ⊖ sc.(liquidity_slippage)) 0 <= value.
Proof.
  pose proof (intrinsic_settlement_nonneg i (shocked spot sc) option_type) as N. fold value in N.
  apply dmul_le_l; [apply value_representable | exact N|]. apply dmax_lub; [|lra]. apply rnd_le_bound; [apply representable_1 | lra].
Qed.

Lemma slippage_hurts direction : let r := stress_option_position_pnl_breakdown_usdc i option_type quantity premium spot sc direction in
  r.(total_usdc) <= r.(base_move_usdc) /\ r.(slippage_usdc) <= 0.
Proof.
  cbv zeta. unfold stress_option_position_pnl_breakdown_usdc. fold value. cbn [total_usdc base_move_usdc slippage_usdc].
  assert (L : forall b : bool, (if b then (if b then value ⊗ dmax (1 ⊖ sc.(liquidity_slippage)) 0 else value ⊗ (1 ⊕ sc.(liquidity_slippage))) ⊖ premium
      else premium ⊖ (if b then value ⊗ dmax (1 ⊖ sc.(liquidity_slippage)) 0 else value ⊗ (1 ⊕ sc.(liquidity_slippage)))) ⊗ quantity
      <= (if b then value ⊖ premium else premium ⊖ value) ⊗ quantity).
  { pose proof slipped_up as U. pose proof slipped_down as W. intros []; (apply dmul_mono_l; [exact quantity_nonneg | apply dsub_mono; lra]). }
  specialize (L (String.eqb (lower direction) "buy")). split; [now apply in_usdc_mono|].
  assert (Z0 : forall x, x <= 0 -> (if pays_usdc i then x else x ⊗ shocked spot sc) <= 0).
  { intros x X. destruct (pays_usdc i); [exact X|]. unfold dmul. apply rnd_nonpos. pose proof (shocked_nonneg spot sc). nra. }
  apply Z0. apply dsub_nonpos. exact L.
Qed.
End Stress.

(** The stressed loss of a position: the breakdown of a short agrees with its plain
    estimate, slippage never helps either side, and a deeper fall never costs the seller of
    a dollar-settled put less. *)
Theorem stressed_losses i option_type quantity premium spot sc direction :
  0 <= quantity -> 0 <= sc.(liquidity_slippage) ->
  let r := stress_option_position_pnl_breakdown_usdc i option_type quantity premium spot sc direction in
  (stress_short_option_loss_breakdown_usdc i option_type quantity premium spot sc).(total_usdc)
    = stress_short_option_loss_usdc i option_type quantity premium spot sc /\
  r.(total_usdc) <= r.(base_move_usdc) /\ r.(slippage_usdc) <= 0 /\
  (forall deep, deep.(liquidity_slippage) = sc.(liquidity_slippage) -> deep.(spot_shock) <= sc.(spot_shock) -> 0 <= spot -> 0 < shocked spot deep ->
    pays_usdc i = true -> is_call option_type = false ->
    stress_short_option_loss_usdc i option_type quantity premium spot deep <= stress_short_option_loss_usdc i option_type quantity premium spot sc).
Proof.
  intros Q0 S r. split; [reflexivity|]. destruct (slippage_hurts i option_type quantity premium spot sc Q0 S direction) as [A B].
  split; [exact A|]. split; [exact B|]. intros deep Sl Sh P D U T. unfold stress_short_option_loss_usdc. rewrite U, Sl.
  apply dmul_mono_l; [exact Q0|]. apply dsub_mono; [apply Qle_refl|]. apply dmul_mono_l; [apply dadd_nonneg; [apply Qle_bool_iff; reflexivity | exact S]|].
  apply put_value_antitone; [|exact T | exact D | now apply shocked_mono].
  unfold settles_in_usdc. unfold pays_usdc in U. now rewrite U.
Qed.

(** ** Concrete settlements *)

Definition sample_call : OptionInstrument :=
  {| instrument_name := "BTC-27JUN25-100000-C"; base_currency := "BTC"; quote_currency := "BTC"; settlement_currency := "BTC"; instrument_type := "reversed";
     tick_size := 0.0001; tick_size_steps := []; min_trade_amount := 0.1; instrument_contract_size := 1; instrument_option_type := "call";
     instrument_expiration_ms := 1751011200000; instrument_strike := 100000; instrument_state := "open" |}.

Definition sample_put (name : string) (strike : Q) : OptionInstrument :=
  {| instrument_name := name; base_currency := "BTC"; quote_currency := "USDC"; settlement_currency := "USDC"; instrument_type := "linear";
     tick_size := 5; tick_size_steps := []; min_trade_amount := 0.1; instrument_contract_size := 1; instrument_option_type := "put";
     instrument_expiration_ms := 1751011200000; instrument_strike := strike; instrument_state := "open" |}.

Definition sample_covered : TradeGroup :=
  set_covered_underlying_quantity 2 (Group.set_strategy "covered_call" (Group.set_option_type "call"
    (new_group "0001" "BTC" "BTC" 2 0 1751011200000 "BTC-27JUN25-100000-C" 100000 2000 2000 0 "normal"))).

Definition sample_spread : TradeGroup :=
  set_realized_close_fee (Some 5) (set_realized_close_debit (Some 5000) (set_realized_pnl (Some (-4900)) (set_close_reason "reconciled_expiry"
    (Group.set_status "closed" (set_long_strike 90000 (set_long_instrument_name "BTC_USDC-27JUN25-90000-P"
    (Group.set_strategy "bull_put_spread" (Group.set_option_type "put"
    (new_group "0002" "BTC" "USDC" 0.1 0 1751011200000 "BTC_USDC-27JUN25-100000-P" 100000 100 100 900 "normal"))))))))).

Lemma spread_expiry_debit_bounds_witness :
  let debit := spread_expiry_close_debit_usdc 0.0003 0.125 sample_spread (sample_put "BTC_USDC-27JUN25-100000-P" 100000)
                 (Some (sample_put "BTC_USDC-27JUN25-90000-P" 90000)) 80000 in
  0 < debit /\ debit <= entry_credit_net_usdc sample_spread ⊕ sample_spread.(max_loss).
Proof.
  cbv zeta. split; [vm_compute; reflexivity|].
  refine (proj1 (proj1 (proj2 (proj2 (spread_expiry_debit_bounds 0.0003 0.125 sample_spread (sample_put "BTC_USDC-27JUN25-100000-P" 100000)
    (Some (sample_put "BTC_USDC-27JUN25-90000-P" 90000)) 80000 _ _ _ _))) _)); vm_compute; (discriminate || reflexivity).
Defined.

Lemma covered_call_settlement_bounds_witness :
  let loss := covered_call_settlement_loss_from_intrinsic sample_covered 125000 (Some sample_call) in
  loss == 0.4 /\ covered_call_spot_exit_target_native 2 loss "intrinsic" 0 false == 2 ⊖ loss.
Proof.
  cbv zeta. split; [vm_compute; reflexivity|].
  refine (proj1 (proj2 (proj2 (proj2 (covered_call_settlement_bounds sample_covered (Some sample_call) 125000 2 "intrinsic" _ _ _ _))) _ _ _)).
  1: intros i E; injection E as <-; reflexivity.
  1-3: apply representable_dec; vm_compute; reflexivity.
  all: vm_compute; (discriminate || reflexivity).
Defined.

Lemma stressed_losses_witness :
  let crash := {| scenario_name := "crash"; spot_shock := -0.4; liquidity_slippage := 0.1 |} in
  let r := stress_option_position_pnl_breakdown_usdc (sample_put "BTC_USDC-27JUN25-100000-P" 100000) "put" 0.1 500 100000 crash "sell" in
  r.(total_usdc) == -4350 /\ r.(total_usdc) <= r.(base_move_usdc).
Proof.
  cbv zeta. split; [vm_compute; reflexivity|].
  refine (proj1 (proj2 (stressed_losses (sample_put "BTC_USDC-27JUN25-100000-P" 100000) "put" 0.1 500 100000
    {| scenario_name := "crash"; spot_shock := -0.4; liquidity_slippage := 0.1 |} "sell" _ _))); vm_compute; discriminate.
Defined.

(** The repair of a spread books the close fee on top of a debit that holds it already,
    and never comes to rest: this spread, whose largest loss is 900, is repaired to a loss
    of 905 on every call. *)
Theorem spread_repair_repeats :
  let repair g := repair_bull_put_expiry_reconcile_pnl 0.0003 0.125 g 80000 [] in
  exists g g', repair sample_spread = Ret (g, true) /\ repair g = Ret (g', true) /\
    match g.(realized_pnl), g'.(realized_pnl) with Some p, Some p' => p == -905 /\ p' == p | _, _ => False end /\ g.(max_loss) == 900.
Proof.
  cbv zeta. eexists. eexists. split; [vm_compute; reflexivity|]. split; [vm_compute; reflexivity|]. vm_compute. repeat split.
Qed.
