(* ===== verification/Selector.v ===== *)
(** The selection of shorts ([deribit_engine/strategy.py]): the limits on delta, moneyness
    and return a market allows, the gates an instrument and its book must pass, the
    candidate built for a quantity with its margins, and the re-check before an order.
    [now_us] is the clock of one evaluation. *)

From S2P Require Import Prelude Dec PyStr Utils Fees Margin Group PyObj StateJson Market ExitEval VolMetrics Runtime HedgeOrders Close GroupClose EntryConfig.
Local Open Scope string_scope.
Local Open Scope list_scope.
Local Open Scope Q_scope.
Local Open Scope dec_scope.
Local Open Scope bool_scope.

(** ** Legs and candidates ([models.py]) *)

Record SpreadLeg : Type := {
  leg_instrument_name : string;
  leg_strike : Q;
  leg_quantity : Q;
  leg_min_trade_amount : Q;
  leg_contract_size : Q;
  entry_price : Q;
  target_price : Q;
  leg_best_bid_price : Q;
  leg_best_ask_price : Q;
  leg_delta : Q;
  leg_tick_size : Q;
  leg_tick_size_steps : list (Q * Q);
  leg_expiration_ms : Z;
  leg_index_price : Q;
  leg_quote_currency : string;
  leg_settlement_currency : string;
  leg_instrument_type : string;
}.

Record NakedPutCandidate : Type := {
  cand_currency : string;
  cand_collateral : string;
  cand_quantity : Q;
  cand_dte_days : Q;
  short_leg : SpreadLeg;
  screening_bid : Q;
  screening_mark : Q;
  target_limit_price : Q;
  net_premium_native : Q;
  fee_native : Q;
  net_apr : Q;
  margin_efficiency : Q;
  estimated_im_total : Q;
  estimated_mm_total : Q;
  cand_regime : RiskRegime;
  preferred_delta : bool;
  preferred_otm : bool;
  in_target_apr_band : bool;
  cand_option_type : string;
  cand_strategy : string;
  long_leg : option SpreadLeg;
  cand_covered_quantity : Q;
  short_iv : Q;
}.

Definition with_strategy (name : string) (k : NakedPutCandidate) : NakedPutCandidate :=
  {| cand_currency := k.(cand_currency); cand_collateral := k.(cand_collateral); cand_quantity := k.(cand_quantity);
     cand_dte_days := k.(cand_dte_days); short_leg := k.(short_leg); screening_bid := k.(screening_bid);
     screening_mark := k.(screening_mark); target_limit_price := k.(target_limit_price); net_premium_native := k.(net_premium_native);
     fee_native := k.(fee_native); net_apr := k.(net_apr); margin_efficiency := k.(margin_efficiency);
     estimated_im_total := k.(estimated_im_total); estimated_mm_total := k.(estimated_mm_total); cand_regime := k.(cand_regime);
     preferred_delta := k.(preferred_delta); preferred_otm := k.(preferred_otm); in_target_apr_band := k.(in_target_apr_band);
     cand_option_type := k.(cand_option_type); cand_strategy := name; long_leg := k.(long_leg);
     cand_covered_quantity := k.(cand_covered_quantity); short_iv := k.(short_iv) |}.

Definition _otm_ratio (k : NakedPutCandidate) : Q :=
  let idx := k.(short_leg).(leg_index_price) in
  if idx <=? 0 then 0
  else if is_call k.(cand_option_type) then (k.(short_leg).(leg_strike) ⊘ idx) ⊖ 1
  else 1 ⊖ (k.(short_leg).(leg_strike) ⊘ idx).

(** ** The selector's state

    The readings of the volatility and trend feeds, the regime of the last builder
    call, and the account's fee discount at a time ([FeeDiscountContext.rate_at]). *)
Record selector : Type := {
  _iv_rank_by_currency : dict Q;
  _iv_minus_rv_by_currency : dict Q;
  _skew_by_currency : dict Q;
  _trend_by_currency : dict TrendReading;
  _active_regime : option RiskRegime;
  rate_at : Z -> Q;
}.

Definition _set_active_regime (r : RiskRegime) (s : selector) : selector :=
  {| _iv_rank_by_currency := s.(_iv_rank_by_currency); _iv_minus_rv_by_currency := s.(_iv_minus_rv_by_currency);
     _skew_by_currency := s.(_skew_by_currency); _trend_by_currency := s.(_trend_by_currency);
     _active_regime := Some r; rate_at := s.(rate_at) |}.

Section Selection.
Variable c : entry_config.
Variable now_us : Z.

Definition _effective_fee_discount_rate (s : selector) : Q := s.(rate_at) (now_us / 1000).
Definition instrument_dte (i : OptionInstrument) : Q := dte_days (Some i.(instrument_expiration_ms)) now_us.

(** [-x]: the context rounds the sign change too. *)
Definition dneg (x : Q) : Q := 0 ⊖ x.

(** ** What the market readings allow *)

Definition _trend_tilt (s : selector) (currency : string) : Q :=
  if negb c.(enable_trend_adaptive_selection) || negb (strategy_is c "covered_call") then 0
  else
    match dict_get (upper currency) s.(_trend_by_currency) with
    | None => 0
    | Some r => if dabs r.(signal) <? c.(trend_side_min_signal) then 0 else clamp r.(signal)
    end.

Definition _trend_delta_stretch (s : selector) (currency option_type : string) : Q :=
  if negb (is_call option_type) then 0
  else
    let tilt := _trend_tilt s currency in
    if tilt >=? 0 then 0 else dneg tilt ⊗ c.(trend_delta_max_stretch).

Definition effective_preferred_delta_bounds (s : selector) (currency option_type : string) : Q * Q :=
  let '(pdmin, pdmax) := preferred_delta_bounds c currency option_type in
  (pdmin, pdmax ⊕ _trend_delta_stretch s currency option_type).

Definition effective_call_otm_min (s : selector) (currency : string) : Q :=
  let omin := fst (call_otm_bounds c currency) in
  dmax 0 (omin ⊗ (1 ⊕ (_trend_tilt s currency ⊗ c.(trend_otm_floor_ratio)))).

(** How rich volatility is: in [-1, 1], zero at the reference. *)
Definition vrp_signal (s : selector) (currency : string) : option Q :=
  match dict_get (upper currency) s.(_iv_minus_rv_by_currency) with
  | Some vrp =>
      let ref := c.(dynamic_target_delta_vrp_ref) in
      if ref >? 0 then Some ((vrp ⊖ ref) ⊘ ref) else None
  | None => None
  end.

Definition _preferred_target_delta (s : selector) (currency option_type : string) : Q :=
  let '(pdmin, pdmax) := effective_preferred_delta_bounds s currency option_type in
  let center := (pdmin ⊕ pdmax) ⊘ 2 in
  let half := (pdmax ⊖ pdmin) ⊘ 2 in
  let shift :=
    if c.(enable_dynamic_target_delta) then
      match vrp_signal s currency with
      | Some x =>
          let signal := clamp x in
          let signal := if (signal <? 0) && negb (dynamic_target_delta_allow_closer c) then 0 else signal in
          0 ⊕ (signal ⊗ c.(dynamic_target_delta_strength))
      | None => 0
      end
    else 0 in
  let shift := shift ⊕ (_trend_tilt s currency ⊗ c.(trend_target_delta_strength)) in
  if shift =? 0 then center else dmax pdmin (dmin pdmax (center ⊖ (shift ⊗ half))).

Definition effective_delta_bounds (s : selector) (currency option_type : string) (regime : option RiskRegime) : Q * Q :=
  let '(dmn, dmx) := delta_bounds c currency option_type in
  let dmx := dmx ⊕ _trend_delta_stretch s currency option_type in
  let use := match regime with Some r => Some r | None => s.(_active_regime) end in
  let tighten := elevated_delta_tighten_amount c in
  match use with
  | Some ELEVATED => if tighten >? 0 then (dmn, dmax dmn (dmx ⊖ tighten)) else (dmn, dmx)
  | _ => (dmn, dmx)
  end.

(** The volatility reading the return threshold follows: the rank, else the premium. *)
Definition apr_signal (s : selector) (currency : string) : option Q :=
  let from_rank :=
    match dict_get (upper currency) s.(_iv_rank_by_currency) with
    | Some ivr =>
        let ref := c.(dynamic_min_net_apr_ivr_ref) in
        if ref >? 0 then Some ((ivr ⊖ ref) ⊘ ref) else None
    | None => None
    end in
  match from_rank with Some x => Some x | None => vrp_signal s currency end.

Definition effective_min_net_apr (s : selector) (currency : string) : Q :=
  let base := c.(min_net_apr) in
  if negb c.(enable_dynamic_min_net_apr) then base
  else
    let max_shift := c.(dynamic_min_net_apr_max_shift) in
    if max_shift <=? 0 then base
    else
      match apr_signal s currency with
      | None => base
      | Some x =>
          let signal := clamp x in
          let signal := if (signal <? 0) && negb (dynamic_min_net_apr_allow_loosen c) then 0 else signal in
          dmax (dynamic_min_net_apr_bound c) (base ⊕ (signal ⊗ max_shift))
      end.

(** ** Entry prices *)

Definition sell_limit_price (b : OrderBookSnapshot) : Q := if b.(best_ask_price) <=? 0 then 0 else b.(best_ask_price).

Definition sell_mid_price (i : OptionInstrument) (b : OrderBookSnapshot) : Q :=
  let bid := b.(best_bid_price) in
  let ask := b.(best_ask_price) in
  if ask <=? 0 then 0
  else if bid <=? 0 then ask
  else
    let mid := (bid ⊕ ask) ⊘ 2 in
    let step := tick_size_for_price i (if mid >? 0 then mid else ask) in
    if ask ⊖ bid <=? step then ask
    else
      let min_passive := _ceil_price (bid ⊕ step) i in
      let price := _floor_price mid i in
      let price := if price <? min_passive then min_passive else price in
      if price >? ask then ask else price.

Definition sell_taker_price (b : OrderBookSnapshot) : Q := if b.(best_bid_price) <=? 0 then 0 else b.(best_bid_price).

Definition buy_limit_price (b : OrderBookSnapshot) : Q := if b.(best_bid_price) >? 0 then b.(best_bid_price) else 0.

Definition buy_mid_price (i : OptionInstrument) (b : OrderBookSnapshot) : Q :=
  let ask := b.(best_ask_price) in
  let bid := b.(best_bid_price) in
  if bid <=? 0 then 0
  else if ask <=? 0 then bid
  else
    let mid := (bid ⊕ ask) ⊘ 2 in
    let step := tick_size_for_price i (if mid >? 0 then mid else ask) in
    if ask ⊖ bid <=? step then bid
    else
      let max_passive := _floor_price (ask ⊖ step) i in
      let price := _ceil_price mid i in
      let price := if price >? max_passive then max_passive else price in
      if price <? bid then bid else price.

(** ** Gates *)

Definition _put_otm_ratio (i : OptionInstrument) (b : OrderBookSnapshot) : Q :=
  if b.(index_price) <=? 0 then 0 else 1 ⊖ (i.(instrument_strike) ⊘ b.(index_price)).

Definition _call_otm_ratio (i : OptionInstrument) (b : OrderBookSnapshot) : Q :=
  if b.(index_price) <=? 0 then 0 else (i.(instrument_strike) ⊘ b.(index_price)) ⊖ 1.

Definition _otm_ratio_from_strike (i : OptionInstrument) (index : Q) (option_type : string) : Q :=
  if (index <=? 0) || (i.(instrument_strike) <=? 0) then 0
  else if is_call option_type then (i.(instrument_strike) ⊘ index) ⊖ 1
  else 1 ⊖ (i.(instrument_strike) ⊘ index).

(** Where moneyness has a floor and no ceiling. *)
Definition _otm_floor_only (option_type : string) : bool :=
  (is_call option_type && strategy_is c "covered_call") || (String.eqb option_type "put" && strategy_is c "naked_short").

Definition otm_limits (s : selector) (currency option_type : string) : Q * Q :=
  if is_call option_type then (effective_call_otm_min s currency, snd (call_otm_bounds c currency)) else put_otm_bounds c currency.

Definition _passes_strike_otm_prefilter (s : selector) (i : OptionInstrument) (currency : string) (index : Q) (option_type : string) : bool :=
  if (index <=? 0) || (i.(instrument_strike) <=? 0) then true
  else
    let otm := _otm_ratio_from_strike i index option_type in
    let '(omin, omax) := otm_limits s currency option_type in
    let slack := 0.005 in
    if _otm_floor_only option_type then otm >=? omin ⊖ slack
    else (omin ⊖ slack <=? otm) && (otm <=? omax ⊕ slack).

Definition _instrument_active (i : OptionInstrument) : bool := mem_str (lower i.(instrument_state)) ["open"; "active"; EmptyString].

Definition _iv_entry_rejection_reason (s : selector) (currency : string) : option string :=
  if negb c.(enable_iv_entry_gate) then None
  else
    let ccy := upper currency in
    let '(min_rank, max_rank) := iv_rank_bounds c ccy in
    if negb (passes_iv_entry_gate (dict_get ccy s.(_iv_rank_by_currency)) (dict_get ccy s.(_iv_minus_rv_by_currency))
               min_rank max_rank c.(min_iv_minus_rv) true)
    then Some "iv_entry_gate"
    else None.

(** The first of the conditions that holds, else what follows. *)
Fixpoint first_reason (conditions : list (bool * string)) (rest : option string) : option string :=
  match conditions with
  | [] => rest
  | (b, reason) :: more => if b then Some reason else first_reason more rest
  end.

(** The checks every short shares, up to liquidity. *)
Definition quote_checks (currency : string) (i : OptionInstrument) (b : OrderBookSnapshot) : list (bool * string) :=
  [(negb (String.eqb (upper i.(base_currency)) (upper currency)), "wrong_base_currency");
   (negb (_instrument_active i), "instrument_not_active");
   (b.(index_price) <=? 0, "index_price<=0");
   (b.(best_bid_price) <=? 0, "best_bid<=0");
   (b.(best_bid_amount) <=? 0, "bid_size<=0");
   (b.(best_ask_price) <=? 0, "best_ask<=0");
   (b.(best_ask_price) <? b.(best_bid_price), "crossed_book")].

Definition _common_book_rejection_reason (s : selector) (currency : string) (i : OptionInstrument) (b : OrderBookSnapshot) : option string :=
  let '(min_oi, max_spread, min_notional) := liquidity_gates c i.(instrument_type) i.(base_currency) in
  first_reason
    (quote_checks currency i b ++
     [(b.(open_interest) <? min_oi, "open_interest_below_min");
      (book_notional_usdc b <? min_notional, "book_notional_below_min");
      (spread_ratio b >? max_spread, "spread_ratio_above_max")])
    (_iv_entry_rejection_reason s currency).

Definition _cash_secured_put_rejection_reason (currency : string) (i : OptionInstrument) (b : OrderBookSnapshot) : option string :=
  let '(min_oi, _, min_notional) := cash_secured_liquidity_gates c currency in
  first_reason
    (((negb (String.eqb i.(instrument_option_type) "put"), "not_put") :: quote_checks currency i b) ++
     [(b.(open_interest) <? min_oi, "open_interest_below_min");
      (book_notional_usdc b <? min_notional, "book_notional_below_min")])
    None.

(** Delta and moneyness of one side. *)
Definition side_checks (s : selector) (currency : string) (i : OptionInstrument) (b : OrderBookSnapshot) (option_type : string) : list (bool * string) :=
  let abs_delta := dabs b.(delta) in
  let '(dmn, dmx) := effective_delta_bounds s currency option_type None in
  let otm := if is_call option_type then _call_otm_ratio i b else _put_otm_ratio i b in
  let '(omin, omax) := otm_limits s currency option_type in
  [(negb ((dmn <=? abs_delta) && (abs_delta <=? dmx)), "delta_out_of_range");
   (if _otm_floor_only option_type then otm <? omin else negb ((omin <=? otm) && (otm <=? omax)), "otm_out_of_range")].

Definition _naked_short_put_rejection_reason (s : selector) (currency : string) (i : OptionInstrument) (b : OrderBookSnapshot) : option string :=
  if negb (String.eqb i.(instrument_option_type) "put") then Some "not_put"
  else
    match _common_book_rejection_reason s currency i b with
    | Some r => Some r
    | None => first_reason (side_checks s currency i b "put") None
    end.

Definition _naked_short_call_rejection_reason (s : selector) (currency : string) (i : OptionInstrument) (b : OrderBookSnapshot) : option string :=
  if negb (String.eqb i.(instrument_option_type) "call") then Some "not_call"
  else
    match _common_book_rejection_reason s currency i b with
    | Some r => Some r
    | None => first_reason (side_checks s currency i b "call") None
    end.

Definition _naked_short_option_rejection_reason (s : selector) (currency : string) (i : OptionInstrument) (b : OrderBookSnapshot)
    (option_type : string) : option string :=
  if is_call option_type then _naked_short_call_rejection_reason s currency i b else _naked_short_put_rejection_reason s currency i b.

(** ** Candidates *)

Definition short_spread_ratio_or_zero (k : NakedPutCandidate) : Q :=
  let bid := k.(short_leg).(leg_best_bid_price) in
  let ask := k.(short_leg).(leg_best_ask_price) in
  let mid := (bid ⊕ ask) ⊘ 2 in
  if (mid <=? 0) || (ask <? bid) then 1 else (ask ⊖ bid) ⊘ mid.

Definition fee_rate : Q := c.(trading).(option_fee_rate).
Definition fee_cap_rate : Q := c.(trading).(option_fee_cap_rate).
Definition usdc_book (collateral : string) : bool := String.eqb (upper collateral) "USDC".

Definition _screening_net_apr (s : selector) (i : OptionInstrument) (b : OrderBookSnapshot) (premium_per_contract : Q)
    (collateral option_type : string) (on_capital : option (Q * Q)) : Q :=
  let dte := instrument_dte i in
  match on_capital with
  | Some (net_credit, capital_base) => annualized_return net_credit capital_base dte
  | None =>
      let discount := _effective_fee_discount_rate s in
      if usdc_book collateral then
        if is_call option_type
        then net_apr_linear_usdc_short_call_per_contract premium_per_contract b.(index_price) dte fee_rate fee_cap_rate discount
        else net_apr_linear_usdc_short_put_per_contract premium_per_contract i.(instrument_strike) dte b.(index_price) fee_rate fee_cap_rate discount
      else net_apr_inverse_short_per_contract premium_per_contract i.(instrument_contract_size) dte fee_rate fee_cap_rate discount
  end.

Definition selector_fee_native (s : selector) (i : OptionInstrument) (b : OrderBookSnapshot) (premium quantity : Q) : Q :=
  option_trade_fee_native b.(index_price) premium quantity fee_rate fee_cap_rate i.(quote_currency) i.(settlement_currency)
    (_effective_fee_discount_rate s).

Definition _premium_usdc_for_leg (i : OptionInstrument) (b : OrderBookSnapshot) (premium quantity : Q) : Q :=
  premium_value_usdc b.(index_price) premium quantity i.(base_currency) i.(quote_currency) i.(settlement_currency).

Definition _short_put_spread_leg (i : OptionInstrument) (b : OrderBookSnapshot) (quantity entry target : Q) : SpreadLeg :=
  {| leg_instrument_name := i.(instrument_name); leg_strike := i.(instrument_strike); leg_quantity := quantity;
     leg_min_trade_amount := i.(min_trade_amount); leg_contract_size := i.(instrument_contract_size);
     entry_price := entry; target_price := target;
     leg_best_bid_price := b.(best_bid_price); leg_best_ask_price := b.(best_ask_price); leg_delta := b.(delta);
     leg_tick_size := i.(tick_size); leg_tick_size_steps := i.(tick_size_steps); leg_expiration_ms := i.(instrument_expiration_ms);
     leg_index_price := b.(index_price); leg_quote_currency := i.(quote_currency);
     leg_settlement_currency := i.(settlement_currency); leg_instrument_type := i.(instrument_type) |}.

(** [(initial, maintenance)] margin of one contract. *)
Definition _short_put_unit_margin (i : OptionInstrument) (b : OrderBookSnapshot) (mark : Q) (collateral : string) : Q * Q :=
  if usdc_book collateral then
    (linear_usdc_short_put_initial_per_contract_usdc b.(index_price) i.(instrument_strike) mark i.(instrument_contract_size),
     linear_usdc_short_put_mm_per_contract_usdc b.(index_price) i.(instrument_strike) mark i.(instrument_contract_size))
  else
    (short_put_initial_unit b.(index_price) i.(instrument_strike) mark, short_put_maintenance_unit b.(index_price) i.(instrument_strike) mark).

Definition _short_call_unit_margin (i : OptionInstrument) (b : OrderBookSnapshot) (mark : Q) (collateral : string) : Q * Q :=
  if usdc_book collateral then
    (linear_usdc_short_call_initial_per_contract_usdc b.(index_price) i.(instrument_strike) mark i.(instrument_contract_size),
     linear_usdc_short_call_mm_per_contract_usdc b.(index_price) i.(instrument_strike) mark i.(instrument_contract_size))
  else
    (short_call_initial_unit b.(index_price) i.(instrument_strike) mark, short_call_maintenance_unit b.(index_price) i.(instrument_strike) mark).

Definition unit_margin (option_type : string) (i : OptionInstrument) (b : OrderBookSnapshot) (mark : Q) (collateral : string) : Q * Q :=
  if is_call option_type then _short_call_unit_margin i b mark collateral else _short_put_unit_margin i b mark collateral.

(** What sizing is done for: the account's book and the margin already in the expiry. *)
Record sizing : Type := {
  summary_equity : Q;
  summary_maintenance_margin : Q;
  sizing_collateral : string;
  sizing_currency : string;
  existing_im_for_expiry : Q;
}.

(** [(candidate, None)], or [(None, reason)]. *)
Definition built : Type := (option NakedPutCandidate * option string)%type.
Definition refused (reason : string) : built := (None, Some reason).

(** The margin caps of the book, in the order they are tried. *)
Definition margin_checks (a : sizing) (option_type : string) (im_total mm_total : Q) : list (bool * string) :=
  [(im_total >? a.(summary_equity) ⊗ per_leg_im_cap c a.(sizing_currency) option_type, "per_leg_im_cap");
   (a.(existing_im_for_expiry) ⊕ im_total >? a.(summary_equity) ⊗ expiry_im_cap c a.(sizing_currency), "expiry_im_cap");
   (a.(summary_maintenance_margin) ⊕ mm_total >? a.(summary_equity) ⊗ hard_mm_utilization c a.(sizing_currency), "hard_mm_utilization")].

Definition entry_fee_per_contract (s : selector) (b : OrderBookSnapshot) (bid : Q) (collateral : string) : Q :=
  if usdc_book collateral
  then option_trade_fee_native b.(index_price) bid 1 fee_rate fee_cap_rate "USDC" "USDC" (_effective_fee_discount_rate s)
  else inverse_option_fee_native_per_contract bid fee_rate fee_cap_rate (_effective_fee_discount_rate s).

Definition between (lo x hi : Q) : bool := (lo <=? x) && (x <=? hi).

(** The candidate of a quantity that passed. *)
Definition naked_candidate (s : selector) (option_type : string) (i : OptionInstrument) (b : OrderBookSnapshot) (r : RiskRegime)
    (a : sizing) (quantity apr im_total mm_total : Q) : NakedPutCandidate :=
  let bid := b.(best_bid_price) in
  let net_prem := bid ⊗ quantity in
  let fees := entry_fee_per_contract s b bid a.(sizing_collateral) ⊗ quantity in
  let target := sell_mid_price i b in
  let '(pdmin, pdmax) := preferred_delta_bounds c a.(sizing_currency) option_type in
  let '(pomin, pomax) := preferred_otm_bounds c a.(sizing_currency) option_type in
  let otm := if is_call option_type then _call_otm_ratio i b else _put_otm_ratio i b in
  let omin := fst (otm_limits s a.(sizing_currency) option_type) in
  {| cand_currency := a.(sizing_currency); cand_collateral := a.(sizing_collateral); cand_quantity := quantity;
     cand_dte_days := instrument_dte i;
     short_leg := _short_put_spread_leg i b quantity (sell_taker_price b) target;
     screening_bid := bid; screening_mark := effective_mark b; target_limit_price := target;
     net_premium_native := net_prem ⊖ fees; fee_native := fees; net_apr := apr;
     margin_efficiency := if im_total >? 0 then (net_prem ⊖ fees) ⊘ im_total else 0;
     estimated_im_total := im_total; estimated_mm_total := mm_total; cand_regime := r;
     preferred_delta := between pdmin (dabs b.(delta)) pdmax;
     preferred_otm := if _otm_floor_only option_type then otm >=? omin else between pomin otm pomax;
     in_target_apr_band := between c.(target_net_apr_min) apr c.(target_net_apr_max);
     cand_option_type := option_type; cand_strategy := EmptyString; long_leg := None; cand_covered_quantity := 0;
     short_iv := if b.(iv) >? 0 then b.(iv) else 0 |}.

Definition _try_build_naked_for_quantity (s : selector) (option_type : string) (i : OptionInstrument) (b : OrderBookSnapshot) (r : RiskRegime)
    (a : sizing) (quantity : Q) (relax_apr skip_margin_caps : bool) : built :=
  if quantity <=? 0 then refused "quantity<=0"
  else
    let bid := b.(best_bid_price) in
    let mark := effective_mark b in
    if mark <=? 0 then refused "mark<=0"
    else
      let net_credit := (bid ⊗ quantity) ⊖ (entry_fee_per_contract s b bid a.(sizing_collateral) ⊗ quantity) in
      if net_credit <=? 0 then refused "net_credit<=0"
      else if a.(summary_equity) <=? 0 then refused "summary_equity<=0"
      else
        let apr := _screening_net_apr s i b bid a.(sizing_collateral) option_type None in
        if negb relax_apr && (apr <? effective_min_net_apr s a.(sizing_currency)) then refused "net_apr_below_min"
        else
          let '(im_1, mm_1) := unit_margin option_type i b mark a.(sizing_collateral) in
          let im_total := im_1 ⊗ quantity in
          let mm_total := mm_1 ⊗ quantity in
          match (if skip_margin_caps then None else first_reason (margin_checks a option_type im_total mm_total) None) with
          | Some reason => refused reason
          | None => (Some (naked_candidate s option_type i b r a quantity apr im_total mm_total), None)
          end.

Definition covered_candidate (s : selector) (i : OptionInstrument) (b : OrderBookSnapshot) (r : RiskRegime) (a : sizing)
    (quantity fees net_prem apr : Q) : NakedPutCandidate :=
  let target := sell_mid_price i b in
  let '(pdmin, pdmax) := preferred_call_delta_bounds c a.(sizing_currency) in
  {| cand_currency := a.(sizing_currency); cand_collateral := a.(sizing_collateral); cand_quantity := quantity;
     cand_dte_days := instrument_dte i;
     short_leg := _short_put_spread_leg i b quantity (sell_taker_price b) target;
     screening_bid := b.(best_bid_price); screening_mark := effective_mark b; target_limit_price := target;
     net_premium_native := net_prem; fee_native := fees; net_apr := apr; margin_efficiency := apr;
     estimated_im_total := 0; estimated_mm_total := 0; cand_regime := r;
     preferred_delta := between pdmin (dabs b.(delta)) pdmax;
     preferred_otm := _call_otm_ratio i b >=? effective_call_otm_min s a.(sizing_currency);
     in_target_apr_band := between c.(target_net_apr_min) apr c.(target_net_apr_max);
     cand_option_type := "call"; cand_strategy := "covered_call"; long_leg := None; cand_covered_quantity := quantity; short_iv := 0 |}.

Definition _try_build_covered_call_for_quantity (s : selector) (i : OptionInstrument) (b : OrderBookSnapshot) (r : RiskRegime)
    (a : sizing) (quantity : Q) : built :=
  if quantity <=? 0 then refused "quantity<=0"
  else if negb (String.eqb (upper a.(sizing_collateral)) (upper a.(sizing_currency)))
          || negb (String.eqb (upper i.(settlement_currency)) (upper a.(sizing_currency))) then refused "not_native_cover_book"
  else
    let bid := b.(best_bid_price) in
    if (bid <=? 0) || (effective_mark b <=? 0) then refused "bid_or_mark<=0"
    else
      let fees := inverse_option_fee_native_per_contract bid fee_rate fee_cap_rate (_effective_fee_discount_rate s) ⊗ quantity in
      let net_prem := (bid ⊗ quantity) ⊖ fees in
      if net_prem <=? 0 then refused "net_premium<=0"
      else if a.(summary_equity) <=? 0 then refused "summary_equity<=0"
      else
        let apr := _screening_net_apr s i b bid a.(sizing_collateral) "call" None in
        if apr <? effective_min_net_apr s a.(sizing_currency) then refused "net_apr_below_min"
        else (Some (covered_candidate s i b r a quantity fees net_prem apr), None).

(** ** The re-check before an order *)

(** [breason or "build_failed"] *)
Definition or_build_failed (k : built) : built :=
  match k with
  | (Some x, _) => (Some x, None)
  | (None, reason) => refused (str_or (match reason with Some t => t | None => EmptyString end) "build_failed")
  end.

Definition rechecked (quantity : Q) (rejection : option string) (k : built) : built :=
  if quantity <=? 0 then refused "quantity<=0"
  else match rejection with Some r => refused ("rejection:" ++ r)%string | None => or_build_failed k end.

(** A refused quantity leaves the regime of the last call in place. *)
Definition entering (quantity : Q) (r : RiskRegime) (s : selector) : selector := if quantity <=? 0 then s else _set_active_regime r s.

Definition refresh_naked_put_candidate (s : selector) (i : OptionInstrument) (b : OrderBookSnapshot) (r : RiskRegime) (a : sizing)
    (quantity : Q) : selector * built :=
  let s := entering quantity r s in
  (s, rechecked quantity (_naked_short_put_rejection_reason s a.(sizing_currency) i b)
        (_try_build_naked_for_quantity s "put" i b r a quantity false false)).

Definition refresh_naked_call_candidate (s : selector) (i : OptionInstrument) (b : OrderBookSnapshot) (r : RiskRegime) (a : sizing)
    (quantity : Q) : selector * built :=
  let s := entering quantity r s in
  (s, rechecked quantity (_naked_short_call_rejection_reason s a.(sizing_currency) i b)
        (_try_build_naked_for_quantity s "call" i b r a quantity false false)).

Definition refresh_naked_candidate (s : selector) (option_type : string) (i : OptionInstrument) (b : OrderBookSnapshot) (r : RiskRegime)
    (a : sizing) (quantity : Q) : selector * built :=
  if is_call (lower (str_or option_type "put")) then refresh_naked_call_candidate s i b r a quantity
  else refresh_naked_put_candidate s i b r a quantity.

Definition refresh_covered_call_candidate (s : selector) (i : OptionInstrument) (b : OrderBookSnapshot) (r : RiskRegime) (a : sizing)
    (quantity : Q) : selector * built :=
  let s := entering quantity r s in
  (s, rechecked quantity (_naked_short_call_rejection_reason s a.(sizing_currency) i b)
        (_try_build_covered_call_for_quantity s i b r a quantity)).

Definition refresh_cash_secured_put_candidate (s : selector) (i : OptionInstrument) (b : OrderBookSnapshot) (r : RiskRegime) (a : sizing)
    (quantity : Q) : selector * built :=
  (s, let '(k, detail) := rechecked quantity (_cash_secured_put_rejection_reason a.(sizing_currency) i b)
                            (_try_build_naked_for_quantity s "put" i b r a quantity true true) in
      (option_map (with_strategy "cash_secured") k, detail)).
End Selection.

(** ** Passive prices

    The ticks of an instrument on a grid: every tick that can apply is a positive
    number of grid steps, at most [m]. *)
Definition ticks_on (e m : Z) (i : OptionInstrument) : Prop :=
  forall t, t = i.(tick_size) \/ (0 < t /\ In t (map snd i.(tick_size_steps))) -> exists z, (0 < z <= m)%Z /\ t == gval e z.

Lemma tick_loop_in price steps : forall tick,
  tick_loop price tick steps = tick \/ (0 < tick_loop price tick steps /\ In (tick_loop price tick steps) (map snd steps)).
Proof.
  induction steps as [|[above st] r IH]; cbn [tick_loop map snd]; intros tick; [now left|].
  destruct ((above <=? price) && (0 <? st)) eqn:B.
  - dhyps. destruct (IH st) as [E|[P I]]; [rewrite E; right; split; [assumption | now left] | right; split; [exact P | now right]].
  - destruct (IH tick) as [E|[P I]]; [now left | right; split; [exact P | now right]].
Qed.

Lemma tick_on_grid e m i price : ticks_on e m i -> exists z, (0 < z <= m)%Z /\ tick_size_for_price i price == gval e z.
Proof.
  intros T. apply T. destruct (tick_loop_in price i.(tick_size_steps) i.(tick_size)) as [E|E]; [now left | now right].
Qed.

Section Passive.
Variables (e m x y : Z) (i : OptionInstrument) (b : OrderBookSnapshot).
Hypothesis Ebid : b.(best_bid_price) == gval e x.
Hypothesis Eask : b.(best_ask_price) == gval e y.
Hypothesis Hx : (0 < x < y)%Z.
Hypothesis Hm : (y + 2 * m <= grid_max)%Z.
Hypothesis Ticks : ticks_on e m i.

Lemma grid_prec_bound z : (0 <= z <= grid_max)%Z -> (Z.abs z <= 10 ^ prec)%Z.
Proof. intros B. rewrite Z.abs_eq by lia. apply Z.le_trans with grid_max; [lia | vm_compute; discriminate]. Qed.

Lemma ceil_price_above v z : v == gval e z -> (0 < z)%Z -> (z + m <= grid_max)%Z -> v <= _ceil_price v i.
Proof.
  intros E P B. destruct (tick_on_grid e m i v Ticks) as (t & Bt & Et). unfold _ceil_price.
  rewrite (ceil_to_step_val e z t _ _ E Et) by lia. rewrite E. apply val_le. apply ceil_multiple_ge; lia.
Qed.

Lemma floor_price_below v z : v == gval e z -> (0 <= z <= grid_max)%Z -> _floor_price v i <= v.
Proof.
  intros E B. destruct (tick_on_grid e m i v Ticks) as (t & Bt & Et). unfold _floor_price.
  rewrite (floor_to_step_val e z t _ _ E Et) by lia. rewrite E. apply val_le. apply floor_multiple_le; lia.
Qed.

Lemma sell_mid_passive : b.(best_bid_price) < sell_mid_price i b /\ sell_mid_price i b <= b.(best_ask_price).
Proof.
  pose proof (val_pos e x ltac:(lia)) as Px. pose proof (val_pos e y ltac:(lia)) as Py.
  assert (L : gval e x < gval e y) by (apply val_lt; lia).
  unfold sell_mid_price. destruct (dleb_spec (best_ask_price b) 0); [lra|]. destruct (dleb_spec (best_bid_price b) 0); [lra|].
  set (mid := _ ⊘ 2). destruct (tick_on_grid e m i (if 0 <? mid then mid else best_ask_price b) Ticks) as (t & Bt & Et).
  destruct (dleb_spec (best_ask_price b ⊖ best_bid_price b) (tick_size_for_price i (if 0 <? mid then mid else best_ask_price b))); [split; lra|].
  set (step := tick_size_for_price i _) in *.
  assert (Es : best_bid_price b ⊕ step == gval e (x + t)) by (apply dadd_gval; auto; apply grid_prec_bound; lia).
  assert (K := ceil_price_above _ _ Es ltac:(lia) ltac:(lia)). rewrite Es in K at 1.
  assert (L2 : gval e x < gval e (x + t)) by (apply val_lt; lia).
  destruct (dltb_spec (_floor_price mid i) (_ceil_price (best_bid_price b ⊕ step) i));
    match goal with |- context [if ?c then _ else _] => destruct c eqn:C end; dhyps; split; lra.
Qed.

Lemma buy_mid_passive : b.(best_bid_price) <= buy_mid_price i b /\ buy_mid_price i b < b.(best_ask_price).
Proof.
  pose proof (val_pos e x ltac:(lia)) as Px. pose proof (val_pos e y ltac:(lia)) as Py.
  assert (L : gval e x < gval e y) by (apply val_lt; lia).
  unfold buy_mid_price. destruct (dleb_spec (best_bid_price b) 0); [lra|]. destruct (dleb_spec (best_ask_price b) 0); [lra|].
  set (mid := _ ⊘ 2). destruct (tick_on_grid e m i (if 0 <? mid then mid else best_ask_price b) Ticks) as (t & Bt & Et).
  assert (Ed : best_ask_price b ⊖ best_bid_price b == gval e (y - x)) by (apply dsub_gval; auto; apply grid_prec_bound; lia).
  destruct (dleb_spec (best_ask_price b ⊖ best_bid_price b) (tick_size_for_price i (if 0 <? mid then mid else best_ask_price b))) as [|W]; [split; lra|].
  set (step := tick_size_for_price i _) in *. apply Qnot_le_lt in W. rewrite Ed, Et in W. apply val_lt in W.
  assert (Es : best_ask_price b ⊖ step == gval e (y - t)) by (apply dsub_gval; auto; apply grid_prec_bound; lia).
  assert (K := floor_price_below _ _ Es ltac:(lia)). rewrite Es in K at 2.
  assert (L2 : gval e (y - t) < gval e y) by (apply val_lt; lia).
  destruct (dltb_spec (_floor_price (best_ask_price b ⊖ step) i) (_ceil_price mid i));
    match goal with |- context [if ?c then _ else _] => destruct c eqn:C end; dhyps; split; lra.
Qed.
End Passive.

(** A post-only price never takes the other side: on a book whose quotes and ticks are
    on one decimal grid, the price offered for selling lies above the best bid and at
    most at the ask, the price for buying at least at the bid and below the ask. *)
Theorem post_only_prices_are_passive e m x y i b :
  b.(best_bid_price) == gval e x -> b.(best_ask_price) == gval e y -> (0 < x < y)%Z -> (y + 2 * m <= grid_max)%Z -> ticks_on e m i ->
  (b.(best_bid_price) < sell_mid_price i b /\ sell_mid_price i b <= b.(best_ask_price)) /\
  (b.(best_bid_price) <= buy_mid_price i b /\ buy_mid_price i b < b.(best_ask_price)).
Proof. intros Ex Ey B M T. split; [eapply sell_mid_passive | eapply buy_mid_passive]; eauto. Qed.

(** ** What a re-check lets through *)

Lemma first_reason_none l rest : first_reason l rest = None <-> Forall (fun x => fst x = false) l /\ rest = None.
Proof.
  induction l as [|[[] t] l IH]; cbn [first_reason].
  - split; [now intros -> | now intros []].
  - split; [discriminate | intros [F _]; now inversion F].
  - rewrite IH. split; intros [F R]; (split; [|exact R]); [now constructor | now inversion F].
Qed.

Lemma first_reason_some l rest r : Forall (fun x => snd x <> EmptyString) l -> rest <> Some EmptyString ->
  first_reason l rest = Some r -> r <> EmptyString.
Proof.
  induction l as [|[[] t] l IH]; cbn [first_reason]; intros F R E.
  - congruence.
  - inversion F; subst. injection E as <-. assumption.
  - inversion F; subst. now apply IH.
Qed.

(** An instrument and its book that may be traded at all. *)
Record tradable (currency : string) (i : OptionInstrument) (b : OrderBookSnapshot) : Prop := {
  tr_base : upper i.(base_currency) = upper currency;
  tr_active : _instrument_active i = true;
  tr_index : 0 < b.(index_price);
  tr_bid : 0 < b.(best_bid_price);
  tr_size : 0 < b.(best_bid_amount);
  tr_ask : 0 < b.(best_ask_price);
  tr_uncrossed : b.(best_bid_price) <= b.(best_ask_price);
}.

Ltac split_checks := repeat match goal with
  | H : Forall _ (_ :: _) |- _ => inversion_clear H
  | H : Forall _ [] |- _ => clear H
  end; cbn [fst] in *; dhyps.

Lemma quote_checks_pass currency i b : Forall (fun x => fst x = false) (quote_checks currency i b) <-> tradable currency i b.
Proof.
  unfold quote_checks. split.
  - intros F. split_checks. match goal with H : String.eqb _ _ = true |- _ => apply String.eqb_eq in H end. now constructor.
  - intros [B A X P S Y U]. rewrite Forall_forall. intros x I. cbn [In] in I.
    repeat destruct I as [<-|I]; cbn [fst]; first [apply dleb_false; assumption | apply dltb_false; assumption
      | apply negb_false_iff; first [assumption | apply String.eqb_eq; assumption] | destruct I].
Qed.

Section Recheck.
Variable c : entry_config.
Variable now_us : Z.
Variables (s : selector) (option_type : string) (i : OptionInstrument) (b : OrderBookSnapshot) (r : RiskRegime) (a : sizing) (quantity : Q).
Hypothesis Side : option_type = "put" \/ option_type = "call".

Let ccy : string := a.(sizing_currency).
Let s' : selector := _set_active_regime r s.
Let gates : Q * Q * Q := liquidity_gates c i.(instrument_type) i.(base_currency).
Let limits : Q * Q := effective_delta_bounds c s' ccy option_type None.
Let otm : Q := if is_call option_type then _call_otm_ratio i b else _put_otm_ratio i b.
Let margin : Q * Q := unit_margin option_type i b (effective_mark b) a.(sizing_collateral).
Let bid : Q := b.(best_bid_price).
Let apr : Q := _screening_net_apr c now_us s' i b bid a.(sizing_collateral) option_type None.

(** All a short of this side must satisfy at this book and for this quantity. *)
Record admissible : Prop := {
  ad_side : i.(instrument_option_type) = option_type;
  ad_tradable : tradable ccy i b;
  ad_interest : fst (fst gates) <= b.(open_interest);
  ad_notional : snd gates <= book_notional_usdc b;
  ad_spread : spread_ratio b <= snd (fst gates);
  ad_volatility : _iv_entry_rejection_reason c s' ccy = None;
  ad_delta : fst limits <= dabs b.(delta) /\ dabs b.(delta) <= snd limits;
  ad_otm : fst (otm_limits c s' ccy option_type) <= otm /\
           (_otm_floor_only c option_type = false -> otm <= snd (otm_limits c s' ccy option_type));
  ad_quantity : 0 < quantity;
  ad_mark : 0 < effective_mark b;
  ad_credit : 0 < (bid ⊗ quantity) ⊖ (entry_fee_per_contract c now_us s' b bid a.(sizing_collateral) ⊗ quantity);
  ad_equity : 0 < a.(summary_equity);
  ad_apr : effective_min_net_apr c s' ccy <= apr;
  ad_leg_margin : fst margin ⊗ quantity <= a.(summary_equity) ⊗ per_leg_im_cap c ccy option_type;
  ad_expiry_margin : a.(existing_im_for_expiry) ⊕ (fst margin ⊗ quantity) <= a.(summary_equity) ⊗ expiry_im_cap c ccy;
  ad_maintenance : a.(summary_maintenance_margin) ⊕ (snd margin ⊗ quantity) <= a.(summary_equity) ⊗ hard_mm_utilization c ccy;
}.

Definition recheck : built := snd (refresh_naked_candidate c now_us s option_type i b r a quantity).

Definition rejection : option string := _naked_short_option_rejection_reason c s' ccy i b option_type.
Definition attempt_build : built := _try_build_naked_for_quantity c now_us s' option_type i b r a quantity false false.

Lemma recheck_eq : recheck = if quantity <=? 0 then refused "quantity<=0" else rechecked quantity rejection attempt_build.
Proof.
  unfold recheck, refresh_naked_candidate, rejection, attempt_build, _naked_short_option_rejection_reason,
    refresh_naked_call_candidate, refresh_naked_put_candidate, entering, rechecked.
  destruct Side as [E|E]; rewrite E; cbv -[dleb rejection _naked_short_put_rejection_reason _naked_short_call_rejection_reason
    _try_build_naked_for_quantity refused or_build_failed String.append]; destruct (dleb quantity 0); reflexivity.
Qed.

Lemma gates_pass : _common_book_rejection_reason c s' ccy i b = None <->
  (tradable ccy i b /\ fst (fst gates) <= b.(open_interest) /\ snd gates <= book_notional_usdc b /\ spread_ratio b <= snd (fst gates)) /\
  _iv_entry_rejection_reason c s' ccy = None.
Proof.
  unfold _common_book_rejection_reason. fold gates. destruct gates as [[oi sp] no]. cbn [fst snd].
  rewrite first_reason_none, Forall_app, quote_checks_pass. split.
  - intros [[T F] V]. split_checks. auto 10.
  - intros [(T & A & B & D) V]. repeat split; try assumption; try apply T.
    repeat (apply Forall_cons; [cbn [fst]; now apply dltb_false|]). apply Forall_nil.
Qed.

Lemma side_pass : first_reason (side_checks c s' ccy i b option_type) None = None <->
  (fst limits <= dabs b.(delta) /\ dabs b.(delta) <= snd limits) /\
  (fst (otm_limits c s' ccy option_type) <= otm /\ (_otm_floor_only c option_type = false -> otm <= snd (otm_limits c s' ccy option_type))).
Proof.
  unfold side_checks. fold limits. fold otm. destruct limits as [dmn dmx]. destruct (otm_limits c s' ccy option_type) as [omin omax]. cbn [fst snd].
  rewrite first_reason_none. split.
  - intros [F _]. split_checks. split; [now split|]. destruct (_otm_floor_only c option_type); dhyps; (split; [assumption|]); [discriminate | auto].
  - intros [[A B] [O U]]. split; [|reflexivity].
    apply Forall_cons; [cbn [fst]; apply negb_false_iff, andb_true_iff; split; now apply dleb_true|].
    apply Forall_cons; [|apply Forall_nil]. cbn [fst]. destruct (_otm_floor_only c option_type); [now apply dltb_false|].
    apply negb_false_iff, andb_true_iff. split; apply dleb_true; auto.
Qed.

Lemma rejection_pass : rejection = None <-> i.(instrument_option_type) = option_type /\
  _common_book_rejection_reason c s' ccy i b = None /\ first_reason (side_checks c s' ccy i b option_type) None = None.
Proof.
  unfold rejection, _naked_short_option_rejection_reason.
  assert (K : forall t, option_type = t ->
    (if negb (String.eqb i.(instrument_option_type) t) then Some ("not_" ++ t)%string else
     match _common_book_rejection_reason c s' ccy i b with Some x => Some x | None => first_reason (side_checks c s' ccy i b t) None end) = None <->
    i.(instrument_option_type) = option_type /\ _common_book_rejection_reason c s' ccy i b = None /\
    first_reason (side_checks c s' ccy i b option_type) None = None).
  { intros t <-. destruct (String.eqb_spec i.(instrument_option_type) option_type); cbn [negb]; [|split; [discriminate | tauto]].
    destruct (_common_book_rejection_reason c s' ccy i b); [split; [discriminate | now intros (_ & ? & _)] | tauto]. }
  destruct Side as [E|E]; rewrite E at 1; cbn [is_call]; apply (K _ E).
Qed.

Lemma margins_pass im_total mm_total : first_reason (margin_checks c a option_type im_total mm_total) None = None <->
  im_total <= a.(summary_equity) ⊗ per_leg_im_cap c ccy option_type /\
  a.(existing_im_for_expiry) ⊕ im_total <= a.(summary_equity) ⊗ expiry_im_cap c ccy /\
  a.(summary_maintenance_margin) ⊕ mm_total <= a.(summary_equity) ⊗ hard_mm_utilization c ccy.
Proof.
  unfold margin_checks. fold ccy. rewrite first_reason_none. split.
  - intros [F _]. split_checks. auto.
  - intros (A & B & D). split; [|reflexivity]. repeat (apply Forall_cons; [cbn [fst]; now apply dltb_false|]). apply Forall_nil.
Qed.

(** The candidate of a re-check that passes. *)
Definition the_candidate : NakedPutCandidate :=
  naked_candidate c now_us s' option_type i b r a quantity apr (fst margin ⊗ quantity) (snd margin ⊗ quantity).

Lemma build_cases : attempt_build = (Some the_candidate, None) \/
  exists d, attempt_build = refused d /\ d <> EmptyString.
Proof.
  unfold attempt_build, _try_build_naked_for_quantity, the_candidate, apr, bid, margin. cbv zeta.
  destruct (unit_margin option_type i b (effective_mark b) (sizing_collateral a)) as [im mm]. cbn [fst snd].
  repeat match goal with |- context [if ?g then _ else _] => destruct g end;
    try (right; eexists; split; [reflexivity | discriminate]).
  destruct (first_reason (margin_checks c a option_type (im ⊗ quantity) (mm ⊗ quantity)) None) as [d|] eqn:F; [right | now left].
  exists d. split; [reflexivity|]. eapply first_reason_some; [| |exact F]; [repeat constructor; discriminate | discriminate].
Qed.

Lemma build_pass : fst attempt_build = Some the_candidate <->
  0 < quantity /\ 0 < effective_mark b /\
  0 < (bid ⊗ quantity) ⊖ (entry_fee_per_contract c now_us s' b bid a.(sizing_collateral) ⊗ quantity) /\ 0 < a.(summary_equity) /\
  effective_min_net_apr c s' ccy <= apr /\
  first_reason (margin_checks c a option_type (fst margin ⊗ quantity) (snd margin ⊗ quantity)) None = None.
Proof.
  unfold attempt_build, _try_build_naked_for_quantity, the_candidate. cbv zeta. fold bid apr margin ccy. cbn [negb andb].
  destruct (dleb_spec quantity 0); [split; [discriminate | intros (? & _); lra]|].
  destruct (dleb_spec (effective_mark b) 0); [split; [discriminate | intros (_ & ? & _); lra]|].
  match goal with |- context [dleb ?x 0] => destruct (dleb_spec x 0) end; [split; [discriminate | intros (_ & _ & ? & _); lra]|].
  destruct (dleb_spec (summary_equity a) 0); [split; [discriminate | intros (_ & _ & _ & ? & _); lra]|].
  match goal with |- context [dltb ?x ?y] => destruct (dltb_spec x y) end; [split; [discriminate | intros (_ & _ & _ & _ & ? & _); lra]|].
  destruct margin as [im mm]. cbn [fst snd]. destruct (first_reason _ None); cbn [fst].
  - split; [discriminate | now intros (_ & _ & _ & _ & _ & ?)].
  - split; [intros _; repeat split; lra | reflexivity].
Qed.

Lemma recheck_cases : recheck = (Some the_candidate, None) \/ exists d, recheck = refused d /\ d <> EmptyString.
Proof.
  rewrite recheck_eq. unfold rechecked. destruct (quantity <=? 0); [right; eexists; split; [reflexivity | discriminate]|].
  destruct rejection as [d|]; [right; eexists; split; [reflexivity | discriminate]|].
  destruct build_cases as [E|(d & E & N)]; rewrite E; [now left|]. right. exists d. cbn [or_build_failed refused].
  unfold str_or. destruct d; [congruence | split; [reflexivity | discriminate]].
Qed.

Lemma recheck_pass : recheck = (Some the_candidate, None) <-> rejection = None /\ fst attempt_build = Some the_candidate.
Proof.
  rewrite recheck_eq. unfold rechecked. destruct (dleb_spec quantity 0) as [Q0|Q0].
  - split; [discriminate|]. intros [_ P]. apply build_pass in P. lra.
  - destruct rejection as [d|]; [split; [discriminate | now intros []]|].
    destruct build_cases as [E|(d & E & N)]; rewrite E; cbn; split; auto; try discriminate. intros [_ K]. discriminate K.
Qed.

Lemma recheck_admissible : recheck = (Some the_candidate, None) <-> admissible.
Proof.
  rewrite recheck_pass, build_pass, rejection_pass, gates_pass, side_pass, margins_pass. split.
  - intros ((Sd & ((T & A1 & A2 & A3) & V) & (D & O)) & Q0 & Mk & Cr & Eq & Ap & M1 & M2 & M3). now constructor.
  - intros []. auto 20.
Qed.
End Recheck.

(** C16. The re-check before an order lets a short through exactly when it is admissible at
    the book just read and for the quantity still wanted (listed, quoted, liquid and
    uncrossed; delta and moneyness inside what the regime allows; credit after fees
    positive, return at least the minimum in force; the margin of the leg, of its expiry
    and of the book under their caps). It then returns the candidate of that book and
    quantity, and otherwise always names a reason. *)
Theorem recheck_exact c now_us s option_type i b r a quantity :
  option_type = "put" \/ option_type = "call" ->
  let k := the_candidate c now_us s option_type i b r a quantity in
  (recheck c now_us s option_type i b r a quantity = (Some k, None) <-> admissible c now_us s option_type i b r a quantity) /\
  (~ admissible c now_us s option_type i b r a quantity ->
   exists reason, recheck c now_us s option_type i b r a quantity = (None, Some reason) /\ reason <> EmptyString) /\
  k.(cand_quantity) = quantity /\ k.(short_leg).(leg_instrument_name) = i.(instrument_name) /\
  k.(short_leg).(entry_price) = sell_taker_price b /\ k.(target_limit_price) = sell_mid_price i b.
Proof.
  intros Side k. split; [now apply recheck_admissible|]. split.
  - intros N. destruct (recheck_cases c now_us s option_type i b r a quantity Side) as [E|(d & E & D)]; [|now exists d].
    destruct N. now apply recheck_admissible.
  - unfold k, the_candidate, naked_candidate.
    destruct (preferred_delta_bounds c _ option_type), (preferred_otm_bounds c _ option_type). repeat split.
Qed.
