(* ===== verification/Ranking.v ===== *)
(** The ranking of candidates ([deribit_engine/strategy.py]): the readings taken into the
    selector, the skew between the wings, the pauses the trend asks for, the score or the
    sort key of a candidate, and the best of a scan. Reasons in words are not modelled,
    only whether there is one. *)

From S2P Require Import Prelude Sorting Dec PyStr Utils Fees Margin Group PyObj StateJson Market ExitEval VolMetrics Runtime HedgeOrders Close GroupClose EntryConfig Selector.
Local Open Scope string_scope.
Local Open Scope list_scope.
Local Open Scope Q_scope.
Local Open Scope dec_scope.
Local Open Scope bool_scope.

Section Ranking.
Variable c : entry_config.

(** ** Readings *)

(** A bare signal of older callers, or a reading. *)
Definition _as_trend_reading (value : TrendReading + Q) : TrendReading :=
  match value with
  | inl r => r
  | inr x => let signal := clamp x in {| signal := signal; deviation := signal ⊗ c.(trend_side_ref_pct); bull_regime := false |}
  end.

(** [(ranks, premiums, trends)] of a cycle; trends that are not given are kept while a
    feature reads them. *)
Definition update_vol_entry_context (ranks premiums : dict Q) (trends : option (dict (TrendReading + Q))) (s : selector) : selector :=
  {| _iv_rank_by_currency := ranks; _iv_minus_rv_by_currency := premiums; _skew_by_currency := s.(_skew_by_currency);
     _trend_by_currency :=
       match trends with
       | Some d => map (fun kv => (fst kv, _as_trend_reading (snd kv))) d
       | None =>
           if c.(enable_trend_side_bias) || c.(enable_trend_adaptive_selection)
              || (strategy_is c "naked_short" && (c.(naked_entry_below_ma_pct) >? 0))
           then s.(_trend_by_currency) else []
       end;
     _active_regime := s.(_active_regime); rate_at := s.(rate_at) |}.

(** A market too strong to sell a call in. *)
Definition trend_pause_reason_zh (s : selector) (currency : string) : bool :=
  let threshold := c.(trend_pause_above_pct) in
  if (threshold <=? 0) || negb c.(enable_trend_adaptive_selection) || negb (strategy_is c "covered_call") then false
  else
    match dict_get (upper currency) s.(_trend_by_currency) with
    | None => false
    | Some r =>
        if r.(deviation) <? threshold then false
        else if c.(trend_pause_requires_bull_regime) && negb r.(bull_regime) then false
        else true
    end.

(** A market too weak to sell a put in. *)
Definition naked_below_ma_reason_zh (s : selector) (currency : string) : bool :=
  let threshold := c.(naked_entry_below_ma_pct) in
  if (threshold <=? 0) || negb (strategy_is c "naked_short") then false
  else
    match dict_get (upper currency) s.(_trend_by_currency) with
    | None => false
    | Some r => if r.(deviation) >? dneg threshold then false else true
    end.

(** ** Skew between the wings *)

Definition side_of (k : NakedPutCandidate) : string := str_or k.(cand_option_type) "put".

(** The candidate nearest to the middle of the preferred deltas, the first of equals. *)
Definition nearer (target : Q) (best : option (Q * Q)) (k : NakedPutCandidate) : option (Q * Q) :=
  if k.(short_iv) <=? 0 then best
  else
    let distance := dabs (dabs k.(short_leg).(leg_delta) ⊖ target) in
    match best with
    | None => Some (distance, k.(short_iv))
    | Some (d, _) => if distance <? d then Some (distance, k.(short_iv)) else best
    end.

Definition _representative_side_iv (currency option_type : string) (ks : list NakedPutCandidate) : option Q :=
  let '(pdmin, pdmax) := preferred_delta_bounds c currency option_type in
  option_map snd (fold_left (nearer ((pdmin ⊕ pdmax) ⊘ 2)) ks None).

Definition has_side (side : string) (ccy : string) (k : NakedPutCandidate) : bool :=
  (k.(short_iv) >? 0) && String.eqb (upper k.(cand_currency)) ccy && String.eqb (side_of k) side.

Definition skew_of (ks : list NakedPutCandidate) (ccy : string) : option Q :=
  match filter (has_side "put" ccy) ks, filter (has_side "call" ccy) ks with
  | (_ :: _) as puts, (_ :: _) as calls =>
      match _representative_side_iv ccy "put" puts, _representative_side_iv ccy "call" calls with
      | Some p, Some q => Some (p ⊖ q)
      | _, _ => None
      end
  | _, _ => None
  end.

Definition note_skew (ks : list NakedPutCandidate) (d : dict Q) (k : NakedPutCandidate) : dict Q :=
  match skew_of ks (upper k.(cand_currency)) with Some x => dict_set (upper k.(cand_currency)) x d | None => d end.

Definition _refresh_skew_by_currency (ks : list NakedPutCandidate) (s : selector) : selector :=
  {| _iv_rank_by_currency := s.(_iv_rank_by_currency); _iv_minus_rv_by_currency := s.(_iv_minus_rv_by_currency);
     _skew_by_currency := if c.(enable_skew_side_selection) then fold_left (note_skew ks) ks [] else [];
     _trend_by_currency := s.(_trend_by_currency); _active_regime := s.(_active_regime); rate_at := s.(rate_at) |}.

(** ** Scores *)

Section Scores.
Variable s : selector.

Definition is_put_side (k : NakedPutCandidate) : bool := String.eqb (side_of k) "put".

Definition _skew_score_term (k : NakedPutCandidate) : Q :=
  if negb c.(enable_skew_side_selection) then 0
  else
    match dict_get (upper k.(cand_currency)) s.(_skew_by_currency) with
    | None => 0
    | Some rr => if dabs rr <? c.(skew_side_min_rr) then 0 else (c.(score_weight_skew) ⊗ (if is_put_side k then 1 else -1)) ⊗ rr
    end.

Definition _trend_side_signal (currency : string) : option Q :=
  if negb c.(enable_trend_side_bias) then None
  else option_map signal (dict_get (upper currency) s.(_trend_by_currency)).

(** The signal where it is strong enough to matter. *)
Definition strong_signal (currency : string) : option Q :=
  match _trend_side_signal currency with
  | Some x => if dabs x <? c.(trend_side_min_signal) then None else Some x
  | None => None
  end.

Definition _trend_side_sort_tier (k : NakedPutCandidate) : Q :=
  match strong_signal k.(cand_currency) with
  | None => 0
  | Some x => if x >? 0 then (if is_put_side k then 0 else 1) else if negb (is_put_side k) then 0 else 1
  end.

Definition _trend_score_term (k : NakedPutCandidate) : Q :=
  match strong_signal k.(cand_currency) with
  | None => 0
  | Some x => (c.(score_weight_trend) ⊗ (if is_put_side k then 1 else -1)) ⊗ x
  end.

Definition target_otm_of (k : NakedPutCandidate) : Q :=
  let '(pomin, pomax) := preferred_otm_bounds c k.(cand_currency) (side_of k) in (pomin ⊕ pomax) ⊘ 2.

(** The distance of the delta from the preferred one. *)
Definition delta_distance (k : NakedPutCandidate) : Q :=
  dabs (dabs k.(short_leg).(leg_delta) ⊖ _preferred_target_delta c s k.(cand_currency) (side_of k)).

Definition naked_put_candidate_score (k : NakedPutCandidate) : Q :=
  let otm := _otm_ratio k in
  let spread := short_spread_ratio_or_zero k in
  if String.eqb k.(cand_strategy) "covered_call" || strategy_is c "covered_call" then
    let score := (((dneg c.(score_weight_delta_distance) ⊗ delta_distance k) ⊕ (c.(score_weight_otm_distance) ⊗ otm))
                  ⊖ (c.(score_weight_spread) ⊗ spread)) ⊕ ((c.(score_weight_net_apr) ⊗ k.(net_apr)) ⊗ 0.25) in
    if k.(in_target_apr_band) then score ⊕ 0.005 else score
  else
    let score := (((((c.(score_weight_net_apr) ⊗ k.(net_apr)) ⊕ (c.(score_weight_margin_efficiency) ⊗ k.(margin_efficiency)))
                    ⊖ (c.(score_weight_spread) ⊗ spread)) ⊖ (c.(score_weight_delta_distance) ⊗ delta_distance k))
                  ⊖ (c.(score_weight_otm_distance) ⊗ dabs (otm ⊖ target_otm_of k))) ⊕ _skew_score_term k ⊕ _trend_score_term k in
    if k.(in_target_apr_band) then score ⊕ 0.01 else score.

(** ** The sort key *)

Definition tier (b : bool) : Q := if b then 0 else 1.
Definition directional (name : string) : bool := mem_str name ["covered_call"; "naked_short"].

Definition naked_put_sort_key (k : NakedPutCandidate) : list Q :=
  if c.(enable_weighted_candidate_scoring) then [dneg (naked_put_candidate_score k)]
  else
    let '(pdmin, pdmax) := preferred_delta_bounds c k.(cand_currency) (side_of k) in
    let '(pomin, pomax) := preferred_otm_bounds c k.(cand_currency) (side_of k) in
    let preferred_delta := between pdmin (dabs k.(short_leg).(leg_delta)) pdmax in
    let otm := _otm_ratio k in
    let ending := [dneg k.(margin_efficiency); short_spread_ratio_or_zero k; dneg k.(screening_bid) ⊗ k.(cand_quantity); dneg k.(net_apr)] in
    let strategy := str_or k.(cand_strategy) c.(trading).(option_strategy) in
    if directional strategy || directional c.(trading).(option_strategy) then
      [_trend_side_sort_tier k; tier preferred_delta; delta_distance k; dneg otm; tier k.(in_target_apr_band)] ++ ending
    else
      [tier k.(in_target_apr_band); _trend_side_sort_tier k; tier preferred_delta; tier (between pomin otm pomax);
       delta_distance k; dabs (otm ⊖ target_otm_of k)] ++ ending.
End Scores.

(** Tuples compare at the first place where they differ. *)
Fixpoint lex_ltb (a b : list Q) : bool :=
  match a, b with
  | [], _ :: _ => true
  | x :: r, y :: q => if x =? y then lex_ltb r q else x <? y
  | _, [] => false
  end.

Definition by_rank (s : selector) (x y : NakedPutCandidate) : bool := lex_ltb (naked_put_sort_key s x) (naked_put_sort_key s y).

(** [sorted(candidates, key=self.naked_put_sort_key)] *)
Definition ranked (s : selector) : list NakedPutCandidate -> list NakedPutCandidate := stable_sort (by_rank s).

Definition take_top_scan_candidates (ks : list NakedPutCandidate) (limit : Z) (s : selector) : selector * list NakedPutCandidate :=
  match ks with
  | [] => (s, [])
  | _ => if (limit <=? 0)%Z then (s, []) else let s := _refresh_skew_by_currency ks s in (s, firstn (Z.to_nat limit) (ranked s ks))
  end.
End Ranking.

(** ** The order of the ranking *)

Lemma lex_asym a : forall b, lex_ltb a b = true -> lex_ltb b a = false.
Proof.
  induction a as [|x r IH]; intros [|y q]; cbn [lex_ltb]; try discriminate; try reflexivity.
  destruct (deqb_spec x y) as [E|E], (deqb_spec y x) as [F|F]; try (exfalso; lra); [apply IH|].
  intros L. apply dltb_true in L. apply dltb_false. lra.
Qed.

Lemma lex_trans a : forall b d, lex_ltb b a = false -> lex_ltb d b = false -> lex_ltb d a = false.
Proof.
  induction a as [|x r IH]; intros [|y q] [|z t]; cbn [lex_ltb]; try discriminate; try reflexivity.
  destruct (deqb_spec y x) as [E|E], (deqb_spec z y) as [F|F], (deqb_spec z x) as [G|G]; try (exfalso; lra); eauto;
    rewrite !dltb_false; intros A B; try lra; exfalso; lra.
Qed.

Lemma ranked_perm c s ks : Permutation ks (ranked c s ks).
Proof. apply stable_sort_perm. Qed.

Lemma ranked_sorted c s ks : StronglySorted (ordered (by_rank c s)) (ranked c s ks).
Proof. apply stable_sort_sorted; unfold ordered, by_rank; intros *; [apply lex_asym | intros A B; exact (lex_trans _ _ _ A B)]. Qed.
