(* ===== verification/Entry.v ===== *)
(** Opening positions ([engine/entry.py], with the views of [engine/base.py] it reads): the
    order of a short and its wait, the attempts with their re-checks, the group an entry
    records, and the put spread whose protection is bought first. [clock] reads the time after the requests sent so far, in microseconds.
    Messages to the operator and rows of the trade journal are not modelled. *)

From S2P Require Import Prelude Dec PyStr Utils Fees TradeApr Group Ledger PyObj GroupJson StateJson Market ExitEval VolMetrics ExchangeErrors Runtime HedgeOrders Hedge Close GroupClose GroupExit DayState EntryConfig Selector.
Local Open Scope string_scope.
Local Open Scope Q_scope.
Local Open Scope dec_scope.
Local Open Scope bool_scope.
Local Open Scope run_scope.
Local Open Scope list_scope.

(** The dictionary of an order request: amounts and prices as the text sent. *)
Record entry_request : Type := {
  er_instrument_name : string;
  er_amount : string;
  er_price : string;
  er_label : string;
  er_time_in_force : string;
  er_post_only : bool;                (** [post_only] and [reject_post_only] of the dictionary, both or neither *)
}.

(** What the attempts at a short come to. *)
Record execution : Type := {
  latest : NakedPutCandidate;
  filled_amount : Q;
  sent : list entry_request;
  answers : list pyobj;
  fill_trades : list pyobj;
  why : string;
  selector_after : selector;
}.

(** The attempts so far. *)
Record attempt_state : Type := {
  so_latest : NakedPutCandidate;
  so_filled : Q;
  so_waited : Z;
  so_sent : list entry_request;
  so_answers : list pyobj;
  so_trades : list pyobj;
  so_selector : selector;
}.

(** The dictionary an entry returns, as far as the engine reads it again. *)
Record entry_result : Type := {
  entry_action : string;
  entry_reason : string;
  entry_group : option TradeGroup;
  entry_long_state : pyobj;
  entry_attempts : list entry_request;
  entry_answers : list pyobj;
  entry_leg_risk : option (string * Q);
}.

Section Entry.
Context {D : Desk}.
Variable c : entry_config.
Variable summaries : dict AccountSummary.
Variable regimes : dict RiskRegime.
Variable clock : list request -> Z.

Let desk : desk_config := c.(trading).
Let hedging : engine_config := desk.(engine).

Definition now : M Z := read (fun w => clock w.(requests)).

(** ** The request of an order *)

(** [format_decimal(q, 8)] *)
Definition text_of (q : Q) : M string := lift (decimal_text q 8).

(** The instrument of a leg, rebuilt for its price. *)
Definition _entry_leg_instrument (currency : string) (leg : SpreadLeg) : OptionInstrument :=
  {| instrument_name := leg.(leg_instrument_name); base_currency := currency; quote_currency := leg.(leg_quote_currency);
     settlement_currency := leg.(leg_settlement_currency); instrument_type := leg.(leg_instrument_type);
     tick_size := leg.(leg_tick_size); tick_size_steps := leg.(leg_tick_size_steps); min_trade_amount := leg.(leg_min_trade_amount);
     instrument_contract_size := leg.(leg_contract_size);
     instrument_option_type := if endswith "-C" (upper leg.(leg_instrument_name)) then "call" else "put";
     instrument_expiration_ms := leg.(leg_expiration_ms); instrument_strike := leg.(leg_strike); instrument_state := "open" |}.

Definition leg_book (k : NakedPutCandidate) (quantity : Q) : OrderBookSnapshot :=
  {| book_instrument_name := k.(short_leg).(leg_instrument_name); best_bid_price := k.(short_leg).(leg_best_bid_price);
     best_bid_amount := quantity; best_ask_price := k.(short_leg).(leg_best_ask_price); best_ask_amount := quantity;
     mark_price := k.(screening_mark); index_price := k.(short_leg).(leg_index_price); delta := k.(short_leg).(leg_delta);
     iv := 0; open_interest := 0 |}.

(** The price of an attempt: the first rests inside the spread, the others take the bid. *)
Definition short_price (k : NakedPutCandidate) (aggressive : bool) (quantity : Q) : Q :=
  if aggressive then
    if k.(short_leg).(entry_price) >? 0 then k.(short_leg).(entry_price) else sell_taker_price (leg_book k quantity)
  else sell_mid_price (_entry_leg_instrument k.(cand_currency) k.(short_leg)) (leg_book k quantity).

Definition _entry_naked_short_request (k : NakedPutCandidate) (label : string) (aggressive : bool) (quantity : Q) : M entry_request :=
  let quantity := if quantity =? 0 then k.(cand_quantity) else quantity in
  let* amount := text_of quantity in
  let* price := text_of (short_price k aggressive quantity) in
  ret {| er_instrument_name := k.(short_leg).(leg_instrument_name); er_amount := amount; er_price := price; er_label := label;
         er_time_in_force := if aggressive then "immediate_or_cancel" else "good_til_cancelled"; er_post_only := negb aggressive |}.

Definition _entry_long_buy_request (leg : SpreadLeg) (label : string) (quantity : Q) : M entry_request :=
  let* amount := text_of quantity in
  let* price := text_of leg.(entry_price) in
  ret {| er_instrument_name := leg.(leg_instrument_name); er_amount := amount; er_price := price; er_label := label;
         er_time_in_force := "immediate_or_cancel"; er_post_only := false |}.

Definition zero_amount (name : string) : exn :=
  ExchangeError ("entry order amount aligned to zero for " ++ name ++ "; requested quantity is below exchange minimum/step").

Definition entry_order (direction : string) (r : entry_request) (amount : Q) : order_request :=
  {| req_direction := direction; req_instrument_name := r.(er_instrument_name); req_amount := amount; req_label := r.(er_label);
     req_order_type := "limit"; req_price := Some (to_decimal (PStr r.(er_price)) 0); req_time_in_force := Some r.(er_time_in_force);
     req_post_only := r.(er_post_only); req_reject_post_only := r.(er_post_only); req_reduce_only := false |}.

Definition _place_entry_order (direction : string) (r : entry_request) : M pyobj :=
  let* i := _find_instrument r.(er_instrument_name) in
  let amount := aligned i (to_decimal (PStr r.(er_amount)) 0) in
  if amount <=? 0 then lift (Exn (zero_amount r.(er_instrument_name))) else send (PlaceOrder (entry_order direction r amount)).

(** ** Waiting for an order *)

Definition is_final (state : pyobj) : bool := mem_str (order_state_of state) ["filled"; "cancelled"; "rejected"].

(** Every round waits at least a second, so the seconds are fuel. *)
Fixpoint await_loop (fuel : nat) (wait_limit waited : Z) (order_id : string) (state : pyobj) : M pyobj :=
  match fuel with
  | O => lift OutOfFuel
  | S fuel =>
      if (waited <? wait_limit)%Z then
        if is_final state then ret state
        else
          let step := Z.min desk.(legs).(order_poll_seconds) (wait_limit - waited) in
          if (step <=? 0)%Z then ret state
          else let* state := send (OrderState order_id) in await_loop fuel wait_limit (waited + step) order_id state
      else ret state
  end.

Definition order_id_of (response : pyobj) : string := str_or_default (dget "order_id" (_response_order response)) EmptyString.

Definition _await_entry_order (initial_response : pyobj) (max_wait_seconds : Z) : M pyobj :=
  match initial_response with
  | PDict _ =>
      let order_id := order_id_of initial_response in
      if is_empty order_id then ret initial_response
      else
        let* state := await_loop (S (Z.to_nat max_wait_seconds)) max_wait_seconds 0 order_id initial_response in
        if is_final state then ret state
        else let* _ := send (CancelOrder order_id) in send (OrderState order_id)
  | _ => ret (PDict [])
  end.

(** ** Margin already in an expiry *)

Definition _group_im_in_collateral (g : TradeGroup) : M Q :=
  if g.(Group.estimated_im_collateral) >? 0 then ret g.(Group.estimated_im_collateral)
  else if is_usdc_book g then ret g.(max_loss)
  else
    let* idx := _currency_index_price g.(currency) in
    ret (if idx <=? 0 then 0 else g.(max_loss) ⊘ idx).

Fixpoint add_at (key : Z) (x : Q) (totals : list (Z * Q)) : list (Z * Q) :=
  match totals with
  | [] => [(key, 0 ⊕ x)]
  | (k, v) :: r => if (k =? key)%Z then (k, v ⊕ x) :: r else (k, v) :: add_at key x r
  end.

Definition at_key (key : Z) (totals : list (Z * Q)) : option Q :=
  match find (fun kv => (fst kv =? key)%Z) totals with Some (_, v) => Some v | None => None end.

Fixpoint im_totals (target : string) (totals : list (Z * Q)) (gs : list TradeGroup) : M (list (Z * Q)) :=
  match gs with
  | [] => ret totals
  | g :: rest =>
      if negb (String.eqb (upper (_group_collateral_currency g)) target) then im_totals target totals rest
      else
        let* im := _group_im_in_collateral g in
        im_totals target (add_at g.(expiration_timestamp_ms) im totals) rest
  end.

Definition _naked_im_by_expiry (collateral : string) : M (list (Z * Q)) :=
  let* s := read state in im_totals (upper collateral) [] (_open_groups s).

(** ** The attempts at a short *)

Definition strategy_of (k : NakedPutCandidate) (name : string) : bool := String.eqb k.(cand_strategy) name.

Definition regime_of (currency : string) : RiskRegime := match dict_get currency regimes with Some r => r | None => CRISIS end.

Definition sizing_of (k : NakedPutCandidate) (summ : AccountSummary) (existing_im : Q) : sizing :=
  {| summary_equity := summ.(equity); summary_maintenance_margin := summ.(maintenance_margin);
     sizing_collateral := k.(cand_collateral); sizing_currency := k.(cand_currency); existing_im_for_expiry := existing_im |}.

(** The re-check of a candidate for the quantity still wanted. *)
Definition refreshed_candidate (s : selector) (k : NakedPutCandidate) (i : OptionInstrument) (b : OrderBookSnapshot) (summ : AccountSummary)
    (remaining : Q) : M (selector * built) :=
  let r := regime_of k.(cand_currency) in
  if strategy_of k "covered_call" then
    let* t := now in ret (refresh_covered_call_candidate c t s i b r (sizing_of k summ 0) remaining)
  else
    let* im_by := _naked_im_by_expiry k.(cand_collateral) in
    let a := sizing_of k summ (match at_key i.(instrument_expiration_ms) im_by with Some v => v | None => 0 end) in
    let* t := now in
    ret (if strategy_of k "cash_secured" then refresh_cash_secured_put_candidate c t s i b r a remaining
         else refresh_naked_candidate c t s k.(cand_option_type) i b r a remaining).

(** Why a re-check stops the attempts, if it does. *)
Definition recheck_failure (s : selector) (k : NakedPutCandidate) (answer : built) : option string :=
  let stop (no_detail : string) (detail : option string) :=
    let t := match detail with Some t => t | None => EmptyString end in
    Some (if truthy t then "candidate_failed_recheck:" ++ t else no_detail)%string in
  match answer with
  | (None, detail) => stop "candidate_failed_recheck" detail
  | (Some x, detail) =>
      if negb (strategy_of k "cash_secured") && (x.(net_apr) <? effective_min_net_apr c s k.(cand_currency))
      then stop "candidate_failed_recheck:net_apr_below_min" detail
      else None
  end.

(** [try: m except ExchangeError]: the response, or the message of the error. *)
Definition try_exchange (m : M pyobj) : M (pyobj + string) := fun w =>
  match m w with
  | (w', Ret v) => (w', Ret (inl v))
  | (w', Exn (ExchangeError message)) => (w', Ret (inr message))
  | (w', Exn e) => (w', Exn e)
  | (w', OutOfFuel) => (w', OutOfFuel)
  end.

Definition stopped (p : attempt_state) (reason : string) : execution :=
  {| latest := p.(so_latest); filled_amount := p.(so_filled); sent := p.(so_sent); answers := p.(so_answers);
     fill_trades := p.(so_trades); selector_after := p.(so_selector);
     why := if (p.(so_filled) <=? 0) && String.eqb reason "timed_out" then "unfilled" else reason |}.

(** What is kept of an attempt: the request, and the answer where there was one. *)
Definition after_attempt (p : attempt_state) (k : NakedPutCandidate) (s : selector) (r : entry_request) (window : Z)
    (answer : option (pyobj * list pyobj)) : attempt_state :=
  {| so_latest := k; so_selector := s; so_waited := p.(so_waited) + window; so_sent := p.(so_sent) ++ [r];
     so_filled := match answer with Some (state, _) => p.(so_filled) ⊕ _response_filled_amount state | None => p.(so_filled) end;
     so_answers := match answer with Some (state, _) => p.(so_answers) ++ [state] | None => p.(so_answers) end;
     so_trades := match answer with Some (_, trades) => p.(so_trades) ++ trades | None => p.(so_trades) end |}.

Definition with_selector (s : selector) (p : attempt_state) : attempt_state :=
  {| so_latest := p.(so_latest); so_filled := p.(so_filled); so_waited := p.(so_waited); so_sent := p.(so_sent);
     so_answers := p.(so_answers); so_trades := p.(so_trades); so_selector := s |}.

(** One round: the end of the attempts, or what they are after it. *)
Definition one_attempt (k : NakedPutCandidate) (label : string) (quantity : Q) (p : attempt_state) : M (execution + attempt_state) :=
  let locked := k.(short_leg).(leg_instrument_name) in
  let remaining := quantity ⊖ p.(so_filled) in
  let* i := _find_instrument locked in
  let* b := _get_orderbook locked in
  match dict_get k.(cand_collateral) summaries with
  | None => ret (inl (stopped p "no_summary"))
  | Some summ =>
      let* checked := refreshed_candidate p.(so_selector) k i b summ remaining in
      let s := fst checked in
      match recheck_failure s k (snd checked), fst (snd checked) with
      | Some reason, _ => ret (inl (stopped (with_selector s p) reason))
      | None, None => lift (Exn AttributeError)
      | None, Some x =>
          let* r := _entry_naked_short_request x label (truthy_list p.(so_sent)) remaining in
          let window := Z.min desk.(legs).(order_poll_seconds) (c.(short_entry_wait_seconds) - p.(so_waited)) in
          let* placed := try_exchange (_place_entry_order "sell" r) in
          match placed with
          | inr message =>
              if is_post_only_reject message then ret (inr (after_attempt p x s r window None)) else lift (Exn (ExchangeError message))
          | inl response =>
              let* state := _await_entry_order response window in
              let* trades := _order_trades state in
              let p' := after_attempt p x s r window (Some (state, trades)) in
              ret (if p'.(so_filled) >=? quantity then inl (stopped p' "filled") else inr p')
          end
      end
  end.

(** Every attempt uses up some of the wait, so its seconds are fuel. *)
Fixpoint attempt_loop (fuel : nat) (k : NakedPutCandidate) (label : string) (quantity : Q) (p : attempt_state) : M execution :=
  match fuel with
  | O => lift OutOfFuel
  | S fuel =>
      if (p.(so_filled) <? quantity) && (p.(so_waited) <? c.(short_entry_wait_seconds))%Z then
        let* next := one_attempt k label quantity p in
        match next with
        | inl done => ret done
        | inr p' => attempt_loop fuel k label quantity p'
        end
      else ret (stopped p "timed_out")
  end.

Definition first_attempt (s : selector) (k : NakedPutCandidate) : attempt_state :=
  {| so_latest := k; so_filled := 0; so_waited := 0; so_sent := []; so_answers := []; so_trades := []; so_selector := s |}.

Definition _execute_repriced_naked_short (s : selector) (k : NakedPutCandidate) (label : string) (quantity : Q) : M execution :=
  attempt_loop (S (Z.to_nat c.(short_entry_wait_seconds))) k label quantity (first_attempt s k).

(** ** The group recorded *)

(** [(sum of price times amount, sum of amounts)] of the responses that filled. *)
Definition weigh (acc : Q * Q) (response : pyobj) : Q * Q :=
  let filled := _response_filled_amount response in
  if filled <=? 0 then acc else (fst acc ⊕ (_response_average_price response ⊗ filled), snd acc ⊕ filled).

Definition _filled_average_price (responses : list pyobj) : Q :=
  let '(weighted, total) := fold_left weigh responses (0, 0) in
  if total <=? 0 then 0 else weighted ⊘ total.

Definition order_label (kind currency group_id suffix : string) : string :=
  (hedging.(order_label_prefix) ++ "-" ++ kind ++ "-" ++ lower currency ++ "-" ++ group_id ++ suffix)%string.

Definition spread_labels (currency group_id : string) : string * string :=
  (order_label "spread" currency group_id "-short", order_label "spread" currency group_id "-long").
Definition csp_labels (currency group_id : string) : string * string :=
  (order_label "csp" currency group_id "-short", order_label "csp" currency group_id "-long").
Definition hedge_label_of (currency group_id : string) : string := order_label "hedge" currency group_id "".

Definition _entry_net_apr_for_group (g : TradeGroup) : TradeGroup * Q :=
  let '(g, apr) := entry_net_apr_at_open g (_option_contract_size g.(short_instrument_name)) in
  (g, if apr >? 0 then apr else g.(Group.entry_net_apr)).

(** Looked up a second time where the first lookup found no index. *)
Definition with_entry_index (usdc : bool) (g : TradeGroup) : M TradeGroup :=
  if (g.(entry_index_usd) <=? 0) && negb usdc then
    let* idx := with_fresh_cache (_currency_index_price g.(currency)) in ret (set_entry_index_usd idx g)
  else ret g.

Definition _attach_open_group_stats (g : TradeGroup) : M TradeGroup :=
  let book := _group_collateral_currency g in
  let* equity := lift (_book_equity_native book) in
  let g := set_entry_book_equity equity g in
  let* g := with_entry_index (String.eqb (upper book) "USDC") g in
  let* g := with_entry_index (String.eqb (upper (collateral_book g)) "USDC") g in
  let '(g, apr) := _entry_net_apr_for_group g in
  ret (set_entry_net_apr apr g).

Definition with_hedge_fields (currency group_id : string) (g : TradeGroup) : TradeGroup :=
  if hedging.(enable_perp_hedge)
  then set_hedge_instrument_name (_perp_instrument currency) (set_hedge_label (hedge_label_of currency group_id) g)
  else g.

(** The short of a candidate sold for [kept] contracts. *)
Definition opened_short (k : NakedPutCandidate) (group_id label : string) (kept avg net fee fee_coll idx : Q) (entry_ms : Z) : TradeGroup :=
  let im_per := if k.(cand_quantity) >? 0 then k.(estimated_im_total) ⊘ k.(cand_quantity) else 0 in
  let im := im_per ⊗ kept in
  let loss := if usdc_book k.(cand_collateral) then im else if idx >? 0 then im ⊗ idx else k.(estimated_im_total) in
  let g := new_group group_id k.(cand_currency) k.(cand_collateral) kept entry_ms k.(short_leg).(leg_expiration_ms)
             k.(short_leg).(leg_instrument_name) k.(short_leg).(leg_strike) net net loss (regime_value k.(cand_regime)) in
  with_hedge_fields k.(cand_currency) group_id
    (set_covered_underlying_quantity k.(cand_covered_quantity) (Group.set_strategy (str_or k.(cand_strategy) "naked_short")
    (Group.set_option_type k.(cand_option_type) (set_short_label label (set_entry_net_apr k.(net_apr)
    (set_entry_index_usd idx (set_short_entry_average_price avg (set_entry_fee_collateral fee_coll (set_entry_fee fee
    (set_estimated_im_collateral im g)))))))))).

Definition entered_action (g : TradeGroup) (option_type : string) : string :=
  if String.eqb g.(Group.strategy) "cash_secured" then "cash_secured_entered"
  else if String.eqb g.(Group.strategy) "naked_short" then ("naked_" ++ option_type ++ "_entered")%string
  else (g.(Group.strategy) ++ "_entered")%string.

Definition no_entry (action reason : string) (x : execution) : entry_result :=
  {| entry_action := action; entry_reason := reason; entry_group := None; entry_long_state := PNone;
     entry_attempts := x.(sent); entry_answers := x.(answers); entry_leg_risk := None |}.

(** The group of attempts that filled. *)
Definition record_short (group_id label : string) (x : execution) : M entry_result :=
  let k := x.(latest) in
  let avg := _filled_average_price x.(answers) in
  let* i := _find_instrument k.(short_leg).(leg_instrument_name) in
  let* b := _get_orderbook k.(short_leg).(leg_instrument_name) in
  let* t := now in
  let* posted := lift (_short_entry_ledger desk avg x.(filled_amount) b.(index_price) x.(fill_trades) i k.(cand_collateral) (t / 1000)) in
  let '(net, fee, fee_coll) := posted in
  let* g := _attach_open_group_stats (opened_short k group_id label x.(filled_amount) avg net fee fee_coll b.(index_price) (t / 1000)) in
  ret {| entry_action := entered_action g k.(cand_option_type); entry_reason := ""; entry_group := Some g; entry_long_state := PNone;
         entry_attempts := x.(sent); entry_answers := x.(answers); entry_leg_risk := None |}.

Definition _execute_naked_put_entry (s : selector) (k : NakedPutCandidate) (group_id : string) : M entry_result :=
  let label := fst (if strategy_of k "cash_secured" then csp_labels k.(cand_currency) group_id else spread_labels k.(cand_currency) group_id) in
  let* x := _execute_repriced_naked_short s k label k.(cand_quantity) in
  if x.(filled_amount) <=? 0 then ret (no_entry "entry_aborted_short_unfilled" x.(why) x)
  else if String.eqb x.(why) "candidate_failed_recheck" then ret (no_entry "entry_aborted_naked_disqualified" x.(why) x)
  else record_short group_id label x.

(** ** Put spreads: the protection first *)

Definition _close_entry_long_remainder (name : string) (quantity : Q) (label : string) : M pyobj :=
  if quantity <=? 0 then ret _noop_option_order_response
  else
    let* i := _find_instrument name in
    let* b := _get_orderbook name in
    let amount := aligned i quantity in
    if amount <=? 0 then ret _noop_option_order_response
    else send (PlaceOrder (close_order "sell" name label amount "limit"
                             (Some (_positive_option_limit_price i (close_sell_price desk.(legs) i b None))) (Some "immediate_or_cancel"))).

(** [(response, quantity still open)]; an exception is caught and reported. *)
Definition _unwind_entry_long (name : string) (quantity : Q) (label : string) : M (pyobj * Q) :=
  let* response := attempt (_close_entry_long_remainder name quantity label) in
  ret (match response with
       | Some v => (v, dmax (quantity ⊖ _response_filled_amount v) 0)
       | None => (PDict [("unwind_failed", PBool true)], quantity)
       end).

(** What a spread's legs cost and earn. *)
Definition spread_credit (k : NakedPutCandidate) (short_i long_i : OptionInstrument) (short_avg long_avg kept idx short_fee long_fee fee_coll : Q) : Q :=
  if usdc_book k.(cand_collateral) then
    ((_premium_value_usdc short_avg kept idx short_i ⊖ _premium_value_usdc long_avg kept idx long_i) ⊖ short_fee) ⊖ long_fee
  else
    let gross := (short_avg ⊖ long_avg) ⊗ kept in
    if idx >? 0 then (gross ⊖ fee_coll) ⊗ idx else 0.

Definition opened_spread (k : NakedPutCandidate) (leg : SpreadLeg) (group_id short_label long_label : string)
    (kept short_avg long_avg net fee fee_coll idx : Q) (entry_ms : Z) : TradeGroup :=
  let width := dmax (k.(short_leg).(leg_strike) ⊖ leg.(leg_strike)) 0 ⊗ kept in
  let loss := dmax (width ⊖ net) 0 in
  let im := if usdc_book k.(cand_collateral) then loss else if idx >? 0 then loss ⊘ idx else 0 in
  let g := new_group group_id k.(cand_currency) k.(cand_collateral) kept entry_ms k.(short_leg).(leg_expiration_ms)
             k.(short_leg).(leg_instrument_name) k.(short_leg).(leg_strike) net net loss (regime_value k.(cand_regime)) in
  with_hedge_fields k.(cand_currency) group_id
    (set_long_strike leg.(leg_strike) (set_long_instrument_name leg.(leg_instrument_name)
    (Group.set_strategy "bull_put_spread" (Group.set_option_type "put" (set_long_label long_label (set_short_label short_label
    (set_entry_net_apr k.(net_apr) (set_entry_index_usd idx (set_long_entry_average_price long_avg (set_short_entry_average_price short_avg
    (set_entry_fee_collateral fee_coll (set_entry_fee fee (set_estimated_im_collateral im g))))))))))))).

(** The spread of the legs that filled; [still_open] is what the unwinding of the excess left. *)
Definition record_spread (k : NakedPutCandidate) (leg : SpreadLeg) (group_id : string) (labels : string * string) (long_state : pyobj)
    (still_open : Q) (x : execution) : M entry_result :=
  let f := x.(latest) in
  let kept := x.(filled_amount) in
  let* short_i := _find_instrument f.(short_leg).(leg_instrument_name) in
  let* long_i := _find_instrument leg.(leg_instrument_name) in
  let* b := _get_orderbook f.(short_leg).(leg_instrument_name) in
  let idx := b.(index_price) in
  let* long_trades := _order_trades long_state in
  let short_avg := _filled_average_price x.(answers) in
  let long_avg := _response_average_price long_state in
  let* t := now in
  let at_ms := (t / 1000)%Z in
  let* short_posted := lift (_short_entry_ledger desk short_avg kept idx x.(fill_trades) short_i f.(cand_collateral) at_ms) in
  let* long_posted := lift (_short_entry_ledger desk long_avg kept idx long_trades long_i f.(cand_collateral) at_ms) in
  let short_fee := snd (fst short_posted) in
  let long_fee := snd (fst long_posted) in
  let fee_coll := snd short_posted ⊕ snd long_posted in
  let net := spread_credit f short_i long_i short_avg long_avg kept idx short_fee long_fee fee_coll in
  let* g := _attach_open_group_stats (opened_spread f leg group_id (fst labels) (snd labels) kept short_avg long_avg net
              (short_fee ⊕ long_fee) fee_coll idx at_ms) in
  ret {| entry_action := "bull_put_spread_entered"; entry_reason := ""; entry_group := Some g; entry_long_state := long_state;
         entry_attempts := x.(sent); entry_answers := x.(answers);
         entry_leg_risk := if still_open >? 0 then Some ("excess_long_open", still_open) else None |}.

Definition nothing_sent (s : selector) (k : NakedPutCandidate) : execution := stopped (first_attempt s k) "".

Definition _execute_bull_put_spread_entry (s : selector) (k : NakedPutCandidate) (group_id : string) : M entry_result :=
  match k.(long_leg) with
  | None => ret (no_entry "entry_aborted_missing_long_leg" "" (nothing_sent s k))
  | Some leg =>
      let labels := spread_labels k.(cand_currency) group_id in
      let* long_request := _entry_long_buy_request leg (snd labels) k.(cand_quantity) in
      let* long_response := _place_entry_order "buy" long_request in
      let* long_state := _await_entry_order long_response desk.(legs).(order_poll_seconds) in
      let long_filled := _response_filled_amount long_state in
      if long_filled <=? 0 then ret (no_entry "entry_aborted_long_unfilled" "" (nothing_sent s k))
      else
        let* x := _execute_repriced_naked_short s k (fst labels) (dmin k.(cand_quantity) long_filled) in
        if x.(filled_amount) <=? 0 then
          let* unwound := _unwind_entry_long leg.(leg_instrument_name) long_filled (snd labels ++ "-abort")%string in
          ret {| entry_action := "entry_aborted_short_unfilled"; entry_reason := x.(why); entry_group := None; entry_long_state := long_state;
                 entry_attempts := x.(sent); entry_answers := x.(answers);
                 entry_leg_risk := if snd unwound >? 0 then Some ("orphan_long", snd unwound) else None |}
        else
          let excess := long_filled ⊖ x.(filled_amount) in
          let* still_open := (if excess >? 0 then
                          let* unwound := _unwind_entry_long leg.(leg_instrument_name) excess (snd labels ++ "-excess")%string in ret (snd unwound)
                        else ret 0) in
          record_spread k leg group_id labels long_state still_open x
  end.

(** ** The entry of a cycle *)

Definition _naked_candidate_matches_open_group (st : StrategyState) (k : NakedPutCandidate) : bool :=
  existsb (fun g => String.eqb g.(short_instrument_name) k.(short_leg).(leg_instrument_name)) (_open_groups st).
End Entry.
