(* ===== verification/Builders.v ===== *)
(** The candidates of a scan ([deribit_engine/strategy.py]): shorts sized to the margin
    caps and the book, covered calls sized to the free coins, and put spreads with the
    best protection. Books come from the cache of the cycle, or are read and cached. *)

From S2P Require Import Prelude Sorting Dec PyStr Utils Fees Margin Group PyObj StateJson Market ExitEval VolMetrics Runtime HedgeOrders Close GroupClose EntryConfig Selector Ranking Entry.
Local Open Scope string_scope.
Local Open Scope Q_scope.
Local Open Scope dec_scope.
Local Open Scope bool_scope.
Local Open Scope run_scope.
Local Open Scope list_scope.

Section Builders.
Context {X : Exchange}.
Variable c : entry_config.
Variable now_us : Z.

(** ** Shorts sized to their margins *)

Definition in_entry_window (i : OptionInstrument) : bool :=
  between (inject_Z c.(entry_dte_min)) (instrument_dte now_us i) (inject_Z c.(entry_dte_max)).

Definition to_scan (option_type : string) (i : OptionInstrument) : bool :=
  String.eqb i.(instrument_option_type) option_type && _instrument_active i && (i.(instrument_strike) >? 0) && in_entry_window i.

(** [index_price if index_price is not None else Decimal("0")] *)
Definition ref_index (index : option Q) : Q := or_default index 0.

Definition skipped_by_strike (s : selector) (currency : string) (index : option Q) (option_type : string) (i : OptionInstrument) : bool :=
  (ref_index index >? 0) && negb (_passes_strike_otm_prefilter c s i currency (ref_index index) option_type).

(** The quantity the caps and the bid allow, in steps of the smallest trade. *)
Definition sized_to_caps (option_type : string) (i : OptionInstrument) (b : OrderBookSnapshot) (a : sizing) (im_1 mm_1 : Q) : Q :=
  let step := i.(min_trade_amount) in
  let by_leg := floor_to_step ((a.(summary_equity) ⊗ per_leg_im_cap c a.(sizing_currency) option_type) ⊘ im_1) step in
  let by_expiry := floor_to_step (((a.(summary_equity) ⊗ expiry_im_cap c a.(sizing_currency)) ⊖ a.(existing_im_for_expiry)) ⊘ im_1) step in
  let by_mm := floor_to_step (((a.(summary_equity) ⊗ hard_mm_utilization c a.(sizing_currency)) ⊖ a.(summary_maintenance_margin)) ⊘ mm_1) step in
  dmin (dmin (dmin by_leg by_expiry) by_mm) (floor_to_step b.(best_bid_amount) step).

(** The candidate of an instrument at its book, if there is one. *)
Definition short_at (s : selector) (option_type : string) (r : RiskRegime) (a : sizing) (i : OptionInstrument) (b : OrderBookSnapshot) : option NakedPutCandidate :=
  match _naked_short_option_rejection_reason c s a.(sizing_currency) i b option_type with
  | Some _ => None
  | None =>
      let mark := effective_mark b in
      if (mark <=? 0) || (b.(index_price) <=? 0) then None
      else
        let '(im_1, mm_1) := unit_margin option_type i b mark a.(sizing_collateral) in
        if im_1 <=? 0 then None
        else
          let quantity := sized_to_caps option_type i b a im_1 mm_1 in
          if quantity <? i.(min_trade_amount) then None
          else fst (_try_build_naked_for_quantity c now_us s option_type i b r a quantity false false)
  end.

(** One instrument after the other; those out of range are not looked at. *)
Fixpoint scan_books {A} (skip : OptionInstrument -> bool) (build : OptionInstrument -> OrderBookSnapshot -> option A)
    (ms : list OptionInstrument) : M (list A) :=
  match ms with
  | [] => ret []
  | i :: rest =>
      if skip i then scan_books skip build rest
      else
        let* b := _get_orderbook i.(instrument_name) in
        let* more := scan_books skip build rest in
        ret (match build i b with Some k => k :: more | None => more end)
  end.

(** The book and account a scan is for; the margin already in an expiry is looked up. *)
Definition sizing_at (equity maintenance : Q) (collateral currency : string) (existing : list (Z * Q)) (i : OptionInstrument) : sizing :=
  {| summary_equity := equity; summary_maintenance_margin := maintenance; sizing_collateral := collateral; sizing_currency := currency;
     existing_im_for_expiry := match at_key i.(instrument_expiration_ms) existing with Some v => v | None => 0 end |}.

Definition build_naked_short_candidates (option_type : string) (ms : list OptionInstrument) (r : RiskRegime) (equity maintenance : Q)
    (collateral currency : string) (existing : list (Z * Q)) (index : option Q) (s : selector) : M (selector * list NakedPutCandidate) :=
  let s := _set_active_regime r s in
  if regime_eqb r CRISIS then ret (s, [])
  else if equity <=? 0 then ret (s, [])
  else
    let* ks := scan_books (skipped_by_strike s currency index option_type)
                 (fun i => short_at s option_type r (sizing_at equity maintenance collateral currency existing i) i)
                 (filter (to_scan option_type) ms) in
    ret (s, ranked c s ks).

Definition build_naked_short_put_candidates := build_naked_short_candidates "put".
Definition build_naked_short_call_candidates := build_naked_short_candidates "call".

(** ** Covered calls sized to the free coins *)

(** [max_fillable // min_trade_amount] *)
Definition fillable_units (max_fillable min_trade : Q) : Z := Qfloor (max_fillable / min_trade).

Definition covered_call_slot_entry_cap (available : Q) (open_group_count : Z) (min_trade : option Q) : option Q :=
  if negb c.(covered_call_slot_sizing) then None
  else if (c.(max_groups_per_currency) <=? 0)%Z then None
  else
    let slots := Z.max 1 (c.(max_groups_per_currency) - open_group_count) in
    match min_trade with
    | Some m =>
        if m >? 0 then
          let max_fillable := floor_to_step available m in
          if max_fillable <? m then Some 0
          else
            let units := fillable_units max_fillable m in
            let slots := Z.min slots (Z.max 1 units) in
            Some (m ⊗ inject_Z ((units + slots - 1) / slots))
        else Some (available ⊘ inject_Z slots)
    | None => Some (available ⊘ inject_Z slots)
    end.

Definition _covered_call_entry_quantity (available : Q) (slot_cap : option Q) (b : OrderBookSnapshot) (min_trade : Q) : Q :=
  let by_cover := floor_to_step available min_trade in
  let by_bid := floor_to_step b.(best_bid_amount) min_trade in
  match slot_cap with
  | Some cap => if cap >? 0 then dmin (dmin (floor_to_step cap min_trade) by_cover) by_bid else dmin by_cover by_bid
  | None => dmin by_cover by_bid
  end.

(** Covered calls use no margin. *)
Definition cover_sizing (equity : Q) (collateral currency : string) : sizing :=
  {| summary_equity := equity; summary_maintenance_margin := 0; sizing_collateral := collateral; sizing_currency := currency; existing_im_for_expiry := 0 |}.

Definition covered_at (s : selector) (r : RiskRegime) (a : sizing) (available : Q) (open_group_count : Z)
    (i : OptionInstrument) (b : OrderBookSnapshot) : option NakedPutCandidate :=
  match _naked_short_call_rejection_reason c s a.(sizing_currency) i b with
  | Some _ => None
  | None =>
      let cap := covered_call_slot_entry_cap available open_group_count (Some i.(min_trade_amount)) in
      let quantity := _covered_call_entry_quantity available cap b i.(min_trade_amount) in
      if quantity <? i.(min_trade_amount) then None
      else fst (_try_build_covered_call_for_quantity c now_us s i b r a quantity)
  end.

Definition build_covered_call_candidates (ms : list OptionInstrument) (r : RiskRegime) (collateral currency : string) (available equity : Q)
    (index : option Q) (open_group_count : Z) (s : selector) : M (selector * list NakedPutCandidate) :=
  let s := _set_active_regime r s in
  if regime_eqb r CRISIS then ret (s, [])
  else if negb (String.eqb (upper collateral) (upper currency)) then ret (s, [])
  else if (available <=? 0) || (equity <=? 0) then ret (s, [])
  else
    let* ks := scan_books (skipped_by_strike s currency index "call")
                 (covered_at s r (cover_sizing equity collateral currency) available open_group_count)
                 (filter (fun i => to_scan "call" i && negb (String.eqb i.(instrument_type) "linear")) ms) in
    ret (s, ranked c s ks).

(** ** Put spreads *)

(** A put of the same expiry below the short, by what is known of it without its book. *)
Definition below_short (currency : string) (leg : SpreadLeg) (i : OptionInstrument) : bool :=
  String.eqb i.(instrument_option_type) "put" && _instrument_active i && String.eqb (upper i.(base_currency)) (upper currency)
  && (i.(instrument_expiration_ms) =? leg.(leg_expiration_ms))%Z && (i.(instrument_strike) >? 0) && (i.(instrument_strike) <? leg.(leg_strike)).

Definition protects (i : OptionInstrument) (b : OrderBookSnapshot) : bool :=
  let '(min_oi, _, min_notional) := liquidity_gates c i.(instrument_type) i.(base_currency) in
  negb (b.(index_price) <=? 0) && negb ((b.(open_interest) <? min_oi) || (book_notional_usdc b <? min_notional))
  && between c.(bull_put_long_delta_min) (dabs b.(delta)) c.(bull_put_long_delta_max)
  && negb ((b.(best_ask_price) <=? 0) || (b.(best_ask_amount) <? i.(min_trade_amount))).

Definition protection_key (m : OptionInstrument * OrderBookSnapshot) : list Q :=
  let target := (c.(bull_put_long_delta_min) ⊕ c.(bull_put_long_delta_max)) ⊘ 2 in
  [dabs (dabs (snd m).(delta) ⊖ target); (snd m).(best_ask_price)].

Definition _long_put_candidates_for_short (currency : string) (ms : list OptionInstrument) (leg : SpreadLeg) : M (list (OptionInstrument * OrderBookSnapshot)) :=
  let* found := scan_books (fun i => negb (below_short currency leg i)) (fun i b => if protects i b then Some (i, b) else None) ms in
  ret (stable_sort (fun x y => lex_ltb (protection_key x) (protection_key y)) found).

(** What a spread of a quantity earns and may lose. *)
Record spread_terms : Type := {
  gross_credit : Q;
  spread_fees : Q;
  round_trip : Q;
  loss_usdc : Q;
  loss_collateral : Q;
}.

Definition terms_of (s : selector) (short_i long_i : OptionInstrument) (short_b long_b : OrderBookSnapshot) (collateral : string) (quantity : Q) : spread_terms :=
  let short_price := short_b.(best_bid_price) in
  let long_price := long_b.(best_ask_price) in
  let short_fee := selector_fee_native c now_us s short_i short_b short_price quantity in
  let long_fee := selector_fee_native c now_us s long_i long_b long_price quantity in
  let gross := (short_price ⊖ long_price) ⊗ quantity in
  let fees := short_fee ⊕ long_fee in
  let width := dmax (short_i.(instrument_strike) ⊖ long_i.(instrument_strike)) 0 ⊗ quantity in
  let fee_usdc := if usdc_book collateral then fees else fees ⊗ short_b.(index_price) in
  let credit_usdc := (_premium_usdc_for_leg short_i short_b short_price quantity ⊖ _premium_usdc_for_leg long_i long_b long_price quantity) ⊖ fee_usdc in
  let loss := width ⊖ credit_usdc in
  {| gross_credit := gross; spread_fees := fees; round_trip := ((gross ⊖ fees) ⊖ short_fee) ⊖ long_fee; loss_usdc := loss;
     loss_collateral := if usdc_book collateral then loss else loss ⊘ short_b.(index_price) |}.

Definition spread_candidate (s : selector) (k : NakedPutCandidate) (short_i long_i : OptionInstrument) (short_b long_b : OrderBookSnapshot)
    (t : spread_terms) (quantity apr : Q) : NakedPutCandidate :=
  let credit := t.(gross_credit) ⊖ t.(spread_fees) in
  let '(pdmin, pdmax) := preferred_put_delta_bounds c k.(cand_currency) in
  let '(pomin, pomax) := preferred_put_otm_bounds c k.(cand_currency) in
  {| cand_currency := k.(cand_currency); cand_collateral := k.(cand_collateral); cand_quantity := quantity; cand_dte_days := instrument_dte now_us short_i;
     short_leg := _short_put_spread_leg short_i short_b quantity (sell_taker_price short_b) (sell_mid_price short_i short_b);
     screening_bid := short_b.(best_bid_price);
     screening_mark := if short_b.(mark_price) >? 0 then short_b.(mark_price) else (short_b.(best_bid_price) ⊕ short_b.(best_ask_price)) ⊘ 2;
     target_limit_price := sell_mid_price short_i short_b; net_premium_native := credit; fee_native := t.(spread_fees); net_apr := apr;
     margin_efficiency := credit ⊘ t.(loss_collateral); estimated_im_total := t.(loss_collateral); estimated_mm_total := t.(loss_collateral);
     cand_regime := k.(cand_regime); preferred_delta := between pdmin (dabs short_b.(delta)) pdmax;
     preferred_otm := between pomin (_put_otm_ratio short_i short_b) pomax;
     in_target_apr_band := between c.(target_net_apr_min) apr c.(target_net_apr_max); cand_option_type := "put"; cand_strategy := "bull_put_spread";
     long_leg := Some (_short_put_spread_leg long_i long_b quantity (buy_taker_price long_b) (buy_mid_price long_i long_b));
     cand_covered_quantity := 0; short_iv := 0 |}.

Definition _try_build_bull_put_spread_for_quantity (s : selector) (k : NakedPutCandidate) (short_i long_i : OptionInstrument) (short_b long_b : OrderBookSnapshot)
    (quantity equity existing_im : Q) : option NakedPutCandidate :=
  if quantity <=? 0 then None
  else if (short_b.(best_bid_price) <=? 0) || (long_b.(best_ask_price) <=? 0) then None
  else
    let t := terms_of s short_i long_i short_b long_b k.(cand_collateral) quantity in
    if t.(gross_credit) ⊖ t.(spread_fees) <=? 0 then None
    else if t.(loss_usdc) <=? 0 then None
    else if (t.(loss_collateral) <=? 0) || (equity <=? 0) then None
    else if t.(loss_collateral) >? equity ⊗ per_leg_im_cap c k.(cand_currency) "put" then None
    else if existing_im ⊕ t.(loss_collateral) >? equity ⊗ expiry_im_cap c k.(cand_currency) then None
    else
      let apr := _screening_net_apr c now_us s short_i short_b 0 k.(cand_collateral) "put" (Some (t.(round_trip), t.(loss_collateral))) in
      if apr <? effective_min_net_apr c s k.(cand_currency) then None
      else Some (spread_candidate s k short_i long_i short_b long_b t quantity apr).

(** The spread with the best return, the first of equals. *)
Definition better_spread (best x : option NakedPutCandidate) : option NakedPutCandidate :=
  match x, best with
  | Some k, Some b => if k.(net_apr) >? b.(net_apr) then x else best
  | Some _, None => x
  | None, _ => best
  end.

Definition spread_of (s : selector) (k : NakedPutCandidate) (short_i : OptionInstrument) (short_b : OrderBookSnapshot) (equity existing_im : Q)
    (m : OptionInstrument * OrderBookSnapshot) : option NakedPutCandidate :=
  let '(long_i, long_b) := m in
  let smallest := dmax short_i.(min_trade_amount) long_i.(min_trade_amount) in
  let quantity := floor_to_step (dmin k.(cand_quantity) (floor_to_step long_b.(best_ask_amount) long_i.(min_trade_amount))) smallest in
  if quantity <? smallest then None
  else _try_build_bull_put_spread_for_quantity s k short_i long_i short_b long_b quantity equity existing_im.

Definition best_spread (s : selector) (k : NakedPutCandidate) (short_i : OptionInstrument) (short_b : OrderBookSnapshot) (equity existing_im : Q)
    (matches : list (OptionInstrument * OrderBookSnapshot)) : option NakedPutCandidate :=
  fold_left (fun best m => better_spread best (spread_of s k short_i short_b equity existing_im m)) matches None.

Fixpoint spreads_for (s : selector) (currency : string) (ms : list OptionInstrument) (equity : Q) (existing : list (Z * Q))
    (shorts : list NakedPutCandidate) : M (list NakedPutCandidate) :=
  match shorts with
  | [] => ret []
  | k :: rest =>
      match find (fun i => String.eqb i.(instrument_name) k.(short_leg).(leg_instrument_name)) (rev ms) with
      | None => spreads_for s currency ms equity existing rest
      | Some short_i =>
          let* short_b := _get_orderbook short_i.(instrument_name) in
          let* matches := _long_put_candidates_for_short currency ms k.(short_leg) in
          let im := match at_key short_i.(instrument_expiration_ms) existing with Some v => v | None => 0 end in
          let* more := spreads_for s currency ms equity existing rest in
          ret (match best_spread s k short_i short_b equity im matches with Some x => x :: more | None => more end)
      end
  end.

Definition build_bull_put_spread_candidates (ms : list OptionInstrument) (r : RiskRegime) (equity maintenance : Q) (collateral currency : string)
    (existing : list (Z * Q)) (s : selector) : M (selector * list NakedPutCandidate) :=
  let* shorts := build_naked_short_put_candidates ms r equity maintenance collateral currency existing None s in
  let s := fst shorts in
  let* ks := spreads_for s currency ms equity existing (snd shorts) in
  ret (s, ranked c s ks).
End Builders.
