(* ===== verification/EntryFacts.v ===== *)
(** What opening a short can and cannot do: the requests of the attempts, the price they
    are sent at, the amounts they fill, and what of them the recorded group says. *)

From S2P Require Import Prelude Dec PyStr Utils Fees TradeApr Group Ledger PyObj GroupJson StateJson Market ExitEval VolMetrics ExchangeErrors Runtime HedgeOrders Hedge Close GroupClose GroupExit DayState Triples EntryConfig Selector Entry.
Local Open Scope string_scope.
Local Open Scope Q_scope.
Local Open Scope dec_scope.
Local Open Scope bool_scope.
Local Open Scope run_scope.
Local Open Scope list_scope.

(** ** Candidates of a re-check *)

(** The leg sells the instrument whose book was read, at that book's prices. *)
Definition leg_from (i : OptionInstrument) (b : OrderBookSnapshot) (x : NakedPutCandidate) : Prop :=
  exists q, x.(short_leg) = _short_put_spread_leg i b q (sell_taker_price b) (sell_mid_price i b).

Definition from_book (i : OptionInstrument) (b : OrderBookSnapshot) (k : built) : Prop :=
  forall x d, k = (Some x, d) -> leg_from i b x.

(** A re-check that refuses says why. *)
Definition explained (k : built) : Prop := fst k = None -> exists d, snd k = Some d /\ d <> EmptyString.

Section Checks.
Variables (c : entry_config) (now_us : Z) (s : selector) (i : OptionInstrument) (b : OrderBookSnapshot) (r : RiskRegime) (a : sizing) (q : Q).

Lemma from_book_refused reason : from_book i b (refused reason).
Proof. intros x d E. discriminate E. Qed.

Lemma naked_leg option_type apr im mm : leg_from i b (naked_candidate c now_us s option_type i b r a q apr im mm).
Proof.
  exists q. unfold naked_candidate. destruct (preferred_delta_bounds c _ option_type), (preferred_otm_bounds c _ option_type). reflexivity.
Qed.

Lemma build_from_book option_type relax skip : from_book i b (_try_build_naked_for_quantity c now_us s option_type i b r a q relax skip).
Proof.
  unfold _try_build_naked_for_quantity. cbv zeta. destruct (unit_margin _ _ _ _ _) as [im mm].
  repeat match goal with |- from_book i b (if ?g then _ else _) => destruct g; [apply from_book_refused|] end.
  destruct (if skip then None else _); [apply from_book_refused|]. intros x d E. injection E as <- _. apply naked_leg.
Qed.

Lemma covered_from_book : from_book i b (_try_build_covered_call_for_quantity c now_us s i b r a q).
Proof.
  unfold _try_build_covered_call_for_quantity. cbv zeta.
  repeat match goal with |- from_book i b (if ?g then _ else _) => destruct g; [apply from_book_refused|] end.
  intros x d E. injection E as <- _. exists q. unfold covered_candidate. destruct (preferred_call_delta_bounds c _). reflexivity.
Qed.

Lemma rechecked_from_book rejection k : from_book i b k -> from_book i b (rechecked q rejection k).
Proof.
  intros F. unfold rechecked. destruct (q <=? 0); [apply from_book_refused|]. destruct rejection; [apply from_book_refused|].
  destruct k as [[x|] d]; [|apply from_book_refused]. intros y d' E. injection E as <- _. now apply (F x d).
Qed.

Lemma rechecked_explained rejection k : explained (rechecked q rejection k).
Proof.
  unfold rechecked. destruct (q <=? 0); [intros _; eexists; split; [reflexivity | discriminate]|].
  destruct rejection as [t|]; [intros _; eexists; split; [reflexivity | discriminate]|].
  destruct k as [[x|] d]; [intros E; discriminate E|]. intros _. eexists. split; [reflexivity|].
  destruct d as [[|ch t]|]; discriminate.
Qed.

End Checks.

Section Refreshes.
Variables (c : entry_config) (now_us : Z) (s : selector) (i : OptionInstrument) (b : OrderBookSnapshot) (r : RiskRegime) (a : sizing) (q : Q).

Lemma refresh_naked_from_book option_type : from_book i b (snd (refresh_naked_candidate c now_us s option_type i b r a q)).
Proof.
  unfold refresh_naked_candidate, refresh_naked_call_candidate, refresh_naked_put_candidate.
  destruct (is_call (lower (str_or option_type "put"))); cbn [snd]; apply rechecked_from_book, build_from_book.
Qed.

Lemma refresh_naked_explained option_type : explained (snd (refresh_naked_candidate c now_us s option_type i b r a q)).
Proof.
  unfold refresh_naked_candidate, refresh_naked_call_candidate, refresh_naked_put_candidate.
  destruct (is_call (lower (str_or option_type "put"))); cbn [snd]; apply rechecked_explained.
Qed.

Lemma refresh_covered_from_book : from_book i b (snd (refresh_covered_call_candidate c now_us s i b r a q)).
Proof. unfold refresh_covered_call_candidate. cbn [snd]. apply rechecked_from_book, covered_from_book. Qed.

Lemma refresh_covered_explained : explained (snd (refresh_covered_call_candidate c now_us s i b r a q)).
Proof. unfold refresh_covered_call_candidate. cbn [snd]. apply rechecked_explained. Qed.

Lemma csp_from_book : from_book i b (snd (refresh_cash_secured_put_candidate c now_us s i b r a q)).
Proof.
  unfold refresh_cash_secured_put_candidate. cbn [snd].
  match goal with |- context [rechecked q ?j ?k] => pose proof (rechecked_from_book i b q j k (build_from_book c now_us s i b r a q "put" true true)) as F; destruct (rechecked q j k) as [[x|] d] end.
  - intros y d' E. injection E as <- _. exact (F x d eq_refl).
  - intros y d' E. discriminate E.
Qed.

Lemma csp_explained : explained (snd (refresh_cash_secured_put_candidate c now_us s i b r a q)).
Proof.
  unfold refresh_cash_secured_put_candidate. cbn [snd].
  match goal with |- context [rechecked q ?j ?k] => pose proof (rechecked_explained q j k) as F; destruct (rechecked q j k) as [[x|] d] end;
    [intros E; discriminate E | intros _; exact (F eq_refl)].
Qed.
End Refreshes.

(** ** What orders fill

    Amounts are counted in units of [10^-8]. No order is filled beyond its amount, as its
    first answer tells or any later look at it. *)
Definition units : Z := -8.
Definition on_units : Q -> Prop := on_grid units grid_max.

Record orders_honest {X : Exchange} : Prop := {
  placed_honest : forall h o v, 0 < o.(req_amount) -> reply h (PlaceOrder o) = Ret v -> fills_within units o.(req_amount) v;
  polled_honest : forall h later o v st, 0 < o.(req_amount) -> reply h (PlaceOrder o) = Ret v ->
    reply (later ++ PlaceOrder o :: h) (OrderState (order_id_of v)) = Ret st -> fills_within units o.(req_amount) st;
}.

(** The sizes of an instrument are whole units. *)
Definition sized_in_units (i : OptionInstrument) : Prop :=
  exists cs mn, i.(instrument_contract_size) == gval units cs /\ i.(min_trade_amount) == gval units mn /\ (0 < cs)%Z /\ (0 < mn)%Z.

Lemma aligned_units i a : sized_in_units i -> on_units a -> on_units (aligned i a) /\ aligned i a <= a.
Proof. intros (cs & mn & Ec & Em & Pc & Pm). exact (aligned_grid units cs mn i Ec Em Pc Pm a). Qed.

(** The text of an amount in units reads back as the amount. *)
Lemma units_text q t : on_units q -> decimal_text q 8 = Ret t -> to_decimal (PStr t) 0 == q.
Proof.
  intros (z & _ & E) H. destruct (decimal_text_value q 8 t H) as (v & P & V). cbn [to_decimal].
  destruct t as [|ch t']; [discriminate P|]. cbn [is_empty]. rewrite P, V. exact (trunc_on_grid q (Z.of_nat 8) z E).
Qed.

Lemma nothing_filled a v : 0 <= a -> _response_filled_amount v == 0 -> fills_within units a v.
Proof. intros P E. split; [apply (grid_eq units 0); [now symmetry | apply grid_0] | now rewrite E]. Qed.

Section Waiting.
Context {D : Desk}.
Variable c : entry_config.
Variables (h : list request) (o : order_request) (v : pyobj).
Hypothesis Honest : orders_honest.
Hypothesis Po : 0 < o.(req_amount).
Hypothesis Placed : reply h (PlaceOrder o) = Ret v.

Definition after_order (w : runtime) : Prop := exists later, w.(requests) = later ++ PlaceOrder o :: h.

Lemma poll_fills : triple after_order (send (OrderState (order_id_of v))) (fun st w => after_order w /\ fills_within units o.(req_amount) st) (fun _ => True).
Proof.
  apply triple_send; [|auto]. intros w st [later E] R. rewrite E in R. split.
  - exists (OrderState (order_id_of v) :: later). cbn. now rewrite E.
  - exact (polled_honest Honest _ _ _ _ _ Po Placed R).
Qed.

Lemma loop_fills fuel limit : forall waited st, fills_within units o.(req_amount) st ->
  triple after_order (await_loop c fuel limit waited (order_id_of v) st) (fun st w => after_order w /\ fills_within units o.(req_amount) st) (fun _ => True).
Proof.
  induction fuel as [|fuel IH]; intros waited st F; cbn [await_loop]; [apply triple_lift; [discriminate | auto]|].
  destruct (waited <? limit)%Z; [|apply triple_ret; auto]. destruct (is_final st); [apply triple_ret; auto|]. cbv zeta.
  destruct (Z.min _ _ <=? 0)%Z; [apply triple_ret; auto|]. eapply triple_bind; [apply poll_fills|]. intros st'. apply triple_fact. apply IH.
Qed.

(** However the wait ends, the state of the order tells at most its amount. *)
Lemma await_fills seconds : triple after_order (_await_entry_order c v seconds) (fun st _ => fills_within units o.(req_amount) st) (fun _ => True).
Proof.
  pose proof (placed_honest Honest _ _ _ Po Placed) as F.
  assert (Sp : _await_entry_order c v seconds = ret (PDict []) \/ _await_entry_order c v seconds = ret v \/
    _await_entry_order c v seconds =
      (let* st := await_loop c (S (Z.to_nat seconds)) seconds 0 (order_id_of v) v in
       if is_final st then ret st else let* _ := send (CancelOrder (order_id_of v)) in send (OrderState (order_id_of v)))).
  { clear. unfold _await_entry_order. destruct v; auto. cbv zeta. destruct (is_empty _); auto. }
  destruct Sp as [->|[->| ->]]; [apply triple_ret; intros; apply nothing_filled; [lra | reflexivity] | apply triple_ret; auto|].
  eapply triple_bind; [apply loop_fills, F|]. intros st. apply triple_fact. intros Fs.
  destruct (is_final st); [apply triple_ret; auto|]. apply triple_bind with (R := fun _ => after_order).
  - apply triple_send; [|auto]. intros w st' [later E] _. exists (CancelOrder (order_id_of v) :: later). cbn. now rewrite E.
  - intros _. eapply triple_weaken; [apply poll_fills | auto | intros a w [_ H]; exact H | auto].
Qed.
End Waiting.

(** ** What the attempts send *)

Section Attempts.
Context {D : Desk}.
Variable c : entry_config.
Variable summaries : dict AccountSummary.
Variable regimes : dict RiskRegime.
Variable clock : list request -> Z.
Variables (k : NakedPutCandidate) (label : string) (i : OptionInstrument) (b : OrderBookSnapshot).
Let name : string := k.(short_leg).(leg_instrument_name).

(** The price of an order of the attempts: as text, the passive price of the book [b]
    where the order must rest, its best bid where it must fill at once. *)
Definition priced_from (o : order_request) : Prop :=
  exists t, o.(req_price) = Some (to_decimal (PStr t) 0) /\
    ((o.(req_post_only) = true /\ o.(req_time_in_force) = Some "good_til_cancelled" /\ decimal_text (sell_mid_price i b) 8 = Ret t) \/
     (o.(req_post_only) = false /\ o.(req_time_in_force) = Some "immediate_or_cancel" /\ decimal_text (sell_taker_price b) 8 = Ret t)).

Definition attempt_request (r : request) : Prop :=
  match r with
  | PlaceOrder o =>
      o.(req_direction) = "sell" /\ o.(req_instrument_name) = name /\ o.(req_label) = label /\ 0 < o.(req_amount) /\
      o.(req_reduce_only) = false /\ o.(req_order_type) = "limit" /\ priced_from o
  | CancelOrder _ | OrderState _ => True
  | ListPositions => False
  end.

Variable pre : list request.
Definition room (w : runtime) : Prop := trace pre attempt_request w /\ quoted_at name i b w.
Definition ended : runtime -> Prop := trace pre attempt_request.

Lemma room_ended w : room w -> ended w.
Proof. now intros []. Qed.

Lemma room_log r w : attempt_request r -> room w -> room (log_request r w).
Proof. intros O [T Q]. split; [now apply trace_log | exact Q]. Qed.

Lemma room_quiet {A} (m : M A) : quiet m -> stable (quoted_at name i b) m -> stable room m.
Proof. intros Q S w [T H]. split; [exact (trace_frame _ _ _ _ (Q w) T) | now apply S]. Qed.

Lemma quiet_im_totals target gs : forall totals, quiet (im_totals target totals gs).
Proof.
  induction gs as [|g gs IH]; intros totals; cbn [im_totals]; [apply quiet_ret|]. destruct (negb _); [apply IH|].
  apply quiet_bind; [|intros; apply IH]. unfold _group_im_in_collateral. destruct (dltb _ _); [apply quiet_ret|].
  destruct (is_usdc_book g); [apply quiet_ret|]. apply quiet_bind; [apply quiet_index_price | intros; apply quiet_ret].
Qed.

Lemma quoted_im_totals target gs : forall totals, stable (quoted_at name i b) (im_totals target totals gs).
Proof.
  induction gs as [|g gs IH]; intros totals; cbn [im_totals]; [intros w H; exact H|]. destruct (negb _); [apply IH|].
  apply stable_bind; [|intros; apply IH]. unfold _group_im_in_collateral. destruct (dltb _ _); [intros w H; exact H|].
  destruct (is_usdc_book g); [intros w H; exact H|]. apply stable_bind; [apply quoted_index_price | intros idx w H; exact H].
Qed.

Lemma room_im collateral : stable room (_naked_im_by_expiry collateral).
Proof.
  apply room_quiet; [apply quiet_bind; [apply quiet_read | intros; apply quiet_im_totals]|].
  apply stable_bind; [intros w H; exact H | intros; apply quoted_im_totals].
Qed.

Lemma refreshed_triple s summ remaining :
  triple room (refreshed_candidate c regimes clock s k i b summ remaining) (fun a w => room w /\ from_book i b (snd a) /\ explained (snd a)) ended.
Proof.
  unfold refreshed_candidate. cbv zeta. destruct (strategy_of k "covered_call").
  - apply triple_step; [apply stable_read | apply room_ended|]. intros t. apply triple_ret. intros w H. split; [exact H|].
    split; [apply refresh_covered_from_book | apply refresh_covered_explained].
  - apply triple_step; [apply room_im | apply room_ended|]. intros im.
    apply triple_step; [apply stable_read | apply room_ended|]. intros t. apply triple_ret. intros w H. split; [exact H|].
    destruct (strategy_of k "cash_secured"); split;
      auto using csp_from_book, csp_explained, refresh_naked_from_book, refresh_naked_explained.
Qed.

Lemma room_await response seconds : stable room (_await_entry_order c response seconds).
Proof.
  assert (S : forall r, attempt_request r -> stable room (send r)) by (intros r O; apply stable_send; intros w H; now apply room_log).
  assert (L : forall fuel limit waited id st, stable room (await_loop c fuel limit waited id st)).
  { induction fuel as [|fuel IH]; intros limit waited id st; cbn [await_loop]; [apply stable_lift|].
    destruct (waited <? limit)%Z; [|apply stable_ret]. destruct (is_final st); [apply stable_ret|]. cbv zeta.
    destruct (Z.min _ _ <=? 0)%Z; [apply stable_ret|]. apply stable_bind; [now apply S | intros st'; apply IH]. }
  unfold _await_entry_order. cbv zeta. destruct response; try apply stable_ret. destruct (is_empty _); [apply stable_ret|].
  apply stable_bind; [apply L|]. intros st. destruct (is_final st); [apply stable_ret|]. apply stable_bind; [now apply S | intros _; now apply S].
Qed.

Lemma quoted_name w : quoted_at name i b w -> i.(instrument_name) = name.
Proof.
  intros [L _]. unfold _find_instrument_by_markets in L. destruct (find _ _) as [j|] eqn:F; [|discriminate L].
  injection L as <-. apply find_some in F. now apply String.eqb_eq.
Qed.

(** The request of an attempt asks for the book's own prices. *)
Definition attempt_order (r : entry_request) : Prop :=
  r.(er_instrument_name) = name /\ r.(er_label) = label /\
  ((r.(er_post_only) = true /\ r.(er_time_in_force) = "good_til_cancelled" /\ decimal_text (sell_mid_price i b) 8 = Ret r.(er_price)) \/
   (r.(er_post_only) = false /\ r.(er_time_in_force) = "immediate_or_cancel" /\ decimal_text (sell_taker_price b) 8 = Ret r.(er_price))).

Lemma short_price_from x q : leg_from i b x ->
  short_price x true q = sell_taker_price b /\ short_price x false q = sell_mid_price i b.
Proof.
  intros [n E]. unfold short_price, leg_book, _entry_leg_instrument. rewrite E. cbn [_short_put_spread_leg entry_price leg_best_bid_price leg_best_ask_price
    leg_instrument_name leg_tick_size leg_tick_size_steps].
  split; [|reflexivity]. destruct (dltb 0 (sell_taker_price b)); reflexivity.
Qed.

(** The amount asked for: what is still wanted. *)
Definition asks (x : NakedPutCandidate) (q : Q) (r : entry_request) : Prop :=
  decimal_text (if q =? 0 then x.(cand_quantity) else q) 8 = Ret r.(er_amount).

Lemma request_triple x aggressive q : leg_from i b x ->
  triple room (_entry_naked_short_request x label aggressive q) (fun r w => room w /\ attempt_order r /\ asks x q r) room.
Proof.
  intros L. unfold _entry_naked_short_request. cbv zeta.
  apply triple_bind with (R := fun t w => room w /\ decimal_text (if q =? 0 then cand_quantity x else q) 8 = Ret t).
  { apply triple_lift; auto. }
  intros amount. apply triple_fact. intros Am.
  destruct (short_price_from x (if q =? 0 then cand_quantity x else q) L) as [P1 P2].
  apply triple_bind with (R := fun t w => room w /\ decimal_text (short_price x aggressive (if q =? 0 then cand_quantity x else q)) 8 = Ret t).
  { apply triple_lift; auto. }
  intros t. apply triple_ret. intros w [H E]. split; [exact H|]. split; [|exact Am]. destruct L as [n L]. pose proof (quoted_name w (proj2 H)) as N.
  split; [cbn [er_instrument_name]; rewrite L; exact N|]. split; [reflexivity|].
  destruct aggressive; [right; rewrite P1 in E | left; rewrite P2 in E]; auto.
Qed.

(** The order just placed, and its answer. *)
Definition order_amount (r : entry_request) : Q := aligned i (to_decimal (PStr r.(er_amount)) 0).
Definition placed_as (r : entry_request) (v : pyobj) (w : runtime) : Prop :=
  exists h o, w.(requests) = PlaceOrder o :: h /\ reply h (PlaceOrder o) = Ret v /\ o.(req_amount) = order_amount r /\ 0 < o.(req_amount).

Lemma place_triple r : attempt_order r -> triple room (_place_entry_order "sell" r) (fun v w => room w /\ placed_as r v w) room.
Proof.
  intros (N & Lb & P) w H. unfold _place_entry_order, bind. rewrite N, (quoted_instrument name i b w (proj2 H)). cbv zeta. fold (order_amount r).
  destruct (dleb_spec (order_amount r) 0) as [|A]; [exact H|]. apply Qnot_le_lt in A.
  assert (O : attempt_request (PlaceOrder (entry_order "sell" r (order_amount r)))).
  { split; [reflexivity|]. split; [exact N|]. split; [exact Lb|]. split; [exact A|]. split; [reflexivity|]. split; [reflexivity|].
    exists r.(er_price). split; [reflexivity|]. cbn [entry_order req_post_only req_time_in_force].
    destruct P as [(A1 & A2 & A3)|(A1 & A2 & A3)]; [left | right]; repeat split; congruence. }
  cbn [send fst snd]. destruct (reply w.(requests) _) as [v| |] eqn:R; [|exact (room_log _ w O H)..].
  split; [exact (room_log _ w O H)|]. eexists _, _. split; [reflexivity|]. split; [exact R|]. split; [reflexivity | exact A].
Qed.

Lemma try_triple m I (P : pyobj -> runtime -> Prop) E : triple I m P E ->
  triple I (try_exchange m) (fun a w => match a with inl v => P v w | inr _ => E w end) E.
Proof. intros H w HI. specialize (H w HI). unfold try_exchange. destruct (m w) as [w' [v|[]|]]; exact H. Qed.

Lemma room_trades response : stable room (_order_trades response).
Proof.
  apply room_quiet; [apply quiet_order_trades|]. intros w H. destruct response; try exact H. cbn [_order_trades].
  unfold bind, lift. destruct (py_list _) as [[|t ts]| |]; try exact H. destruct (is_empty _); exact H.
Qed.

Lemma instrument_triple : triple room (_find_instrument name) (fun j w => room w /\ j = i) room.
Proof. intros w H. now rewrite (quoted_instrument name i b w (proj2 H)). Qed.

Lemma book_triple : triple room (_get_orderbook name) (fun j w => room w /\ j = b) room.
Proof. intros w H. now rewrite (quoted_book name i b w (proj2 H)). Qed.

(** The attempts end for a reason that is never the bare failure of a re-check, with a
    candidate of the instrument they started from. *)
Definition on_leg (x : NakedPutCandidate) : Prop := x.(short_leg).(leg_instrument_name) = name.
Definition well_ended (x : execution) : Prop := x.(why) <> "candidate_failed_recheck" /\ on_leg x.(latest).

Lemma recheck_failure_why s answer reason : explained answer -> recheck_failure c s k answer = Some reason -> reason <> "candidate_failed_recheck".
Proof.
  intros X. destruct answer as [[x|] d]; cbn [recheck_failure].
  - destruct (_ && _); [|discriminate]. intros E. injection E as <-. destruct d as [[|ch t]|]; discriminate.
  - destruct (X eq_refl) as (t & E & N). cbn in E. subst d. destruct t; [congruence|]. intros E. injection E as <-. discriminate.
Qed.

Lemma stopped_why p reason : reason <> "candidate_failed_recheck" -> on_leg p.(so_latest) -> well_ended (stopped p reason).
Proof. intros N L. split; [|exact L]. unfold stopped. cbn [why]. destruct (_ && _); [discriminate | exact N]. Qed.

(** Where orders are honest and sizes are whole units, the attempts' total stays between
    nothing and what is wanted. *)
Definition accounts (quantity : Q) : Prop := orders_honest /\ sized_in_units i /\ on_units quantity.
Definition counted (quantity q : Q) : Prop := on_units q /\ q <= quantity.

Lemma remaining_units quantity q : on_units quantity -> counted quantity q -> on_units (quantity ⊖ q) /\ quantity ⊖ q == quantity - q.
Proof. intros G [Gq L]. exact (grid_sub units quantity q G Gq L). Qed.

Lemma counted_add quantity q x r st : accounts quantity -> counted quantity q -> q < quantity -> asks x (quantity ⊖ q) r ->
  fills_within units (order_amount r) st -> counted quantity (q ⊕ _response_filled_amount st).
Proof.
  intros (_ & Si & G) C L A [Gf Lf]. destruct (remaining_units quantity q G C) as [Gr Er]. unfold asks in A.
  destruct (deqb_spec (quantity ⊖ q) 0) as [Z|_]; [rewrite Er in Z; lra|]. pose proof (units_text _ _ Gr A) as T.
  assert (Gt : on_units (to_decimal (PStr r.(er_amount)) 0)) by (apply (grid_eq units (quantity ⊖ q)); [now symmetry | exact Gr]).
  destruct (aligned_units i _ Si Gt) as [_ La]. unfold order_amount in Lf. destruct C as [Gq Lq].
  destruct (grid_add units q (_response_filled_amount st) quantity Gq Gf G) as [Ga Ea]; [lra|]. split; [exact Ga | lra].
Qed.

(** What a round of the attempts makes of the total so far. *)
Definition attempt_post (quantity so_far : Q) (next : execution + attempt_state) (w : runtime) : Prop :=
  room w /\ match next with inl x => well_ended x | inr p => on_leg p.(so_latest) end /\
  (accounts quantity -> counted quantity so_far -> so_far < quantity ->
   counted quantity (match next with inl x => x.(filled_amount) | inr p => p.(so_filled) end)).

Lemma await_triple r v window : triple (fun w => room w /\ placed_as r v w) (_await_entry_order c v window)
  (fun st w => room w /\ (orders_honest -> fills_within units (order_amount r) st)) room.
Proof.
  eapply triple_weaken with (P := fun st w => room w /\ (orders_honest -> fills_within units (order_amount r) st)) (F := fun w => room w /\ True);
    [|intros w H; exact H | intros st w H; exact H | now intros w []].
  apply triple_and.
  - eapply triple_weaken; [apply triple_stable, room_await | now intros w [] | intros st w H; exact H | auto].
  - apply (triple_given _ _ (fun st _ => fills_within units (order_amount r) st)). intros Ho w [_ (h & o & E & R & A & P)]. rewrite <- A.
    apply (await_fills c h o v Ho P R window w). exists []. exact E.
Qed.

Lemma placed_triple quantity p x s r window : attempt_order r -> asks x (quantity ⊖ p.(so_filled)) r -> on_leg x ->
  triple room (let* placed := try_exchange (_place_entry_order "sell" r) in
    match placed with
    | inr message => if is_post_only_reject message then ret (inr (after_attempt p x s r window None)) else lift (Exn (ExchangeError message))
    | inl response =>
        let* state := _await_entry_order c response window in
        let* trades := _order_trades state in
        let p' := after_attempt p x s r window (Some (state, trades)) in
        ret (if p'.(so_filled) >=? quantity then inl (stopped p' "filled") else inr p')
    end) (attempt_post quantity p.(so_filled)) room.
Proof.
  intros O A L. eapply triple_bind; [apply try_triple, place_triple, O|]. intros [response|message].
  - eapply triple_bind; [apply await_triple|]. intros st. apply triple_fact. intros F.
    apply triple_step; [apply room_trades | auto|]. intros trades. apply triple_ret. intros w H. split; [exact H|].
    assert (N : accounts quantity -> counted quantity p.(so_filled) -> p.(so_filled) < quantity ->
      counted quantity (p.(so_filled) ⊕ _response_filled_amount st)) by (intros Ac C Lt; exact (counted_add _ _ _ _ _ Ac C Lt A (F (proj1 Ac)))).
    destruct (_ <=? _); (split; [|exact N]); [apply stopped_why; [discriminate | exact L] | exact L].
  - destruct (is_post_only_reject message); [|apply triple_lift; [discriminate | auto]].
    apply triple_ret. intros w H. split; [exact H|]. split; [exact L | auto].
Qed.

Lemma one_attempt_triple quantity p : on_leg p.(so_latest) ->
  triple room (one_attempt c summaries regimes clock k label quantity p) (attempt_post quantity p.(so_filled)) ended.
Proof.
  intros L. unfold one_attempt. cbv zeta. fold name.
  eapply triple_bind; [eapply triple_weaken; [apply instrument_triple | auto | intros j w H; exact H | apply room_ended]|]. intros j.
  apply triple_fact. intros ->.
  eapply triple_bind; [eapply triple_weaken; [apply book_triple | auto | intros j w H; exact H | apply room_ended]|]. intros j.
  apply triple_fact. intros ->.
  destruct (dict_get k.(cand_collateral) summaries) as [summ|].
  2:{ apply triple_ret; intros w H; split; [exact H|]. split; [apply stopped_why; [discriminate | exact L] | auto]. }
  eapply triple_bind; [apply refreshed_triple|]. intros checked. apply triple_fact. intros [F X].
  destruct (recheck_failure c (fst checked) k (snd checked)) as [reason|] eqn:R.
  { apply triple_ret. intros w H. split; [exact H|]. split; [|auto]. apply stopped_why; [exact (recheck_failure_why _ _ _ X R) | exact L]. }
  destruct (snd checked) as [[x|] d] eqn:E; [|apply triple_lift; [discriminate | intros; now apply room_ended]]. cbn [fst].
  assert (Lx : leg_from i b x) by exact (F x d eq_refl).
  eapply triple_bind; [eapply triple_weaken; [apply request_triple, Lx | auto | intros r w H; exact H | apply room_ended]|].
  intros r w [Hw [O A]]. assert (Ox : on_leg x) by (destruct Lx as [n En]; unfold on_leg; rewrite En; exact (quoted_name w (proj2 Hw))).
  refine (triple_weaken _ room room _ _ ended room (placed_triple quantity p x (fst checked) r _ O A Ox) _ _ room_ended w Hw); auto.
Qed.

Definition loop_post (quantity so_far : Q) (x : execution) (w : runtime) : Prop :=
  room w /\ well_ended x /\ (accounts quantity -> counted quantity so_far -> counted quantity x.(filled_amount)).

Lemma attempt_loop_triple fuel quantity : forall p, on_leg p.(so_latest) ->
  triple room (attempt_loop c summaries regimes clock fuel k label quantity p) (loop_post quantity p.(so_filled)) ended.
Proof.
  induction fuel as [|fuel IH]; intros p L; cbn [attempt_loop]; [apply triple_lift; [discriminate | apply room_ended]|].
  destruct ((p.(so_filled) <? quantity) && _) eqn:G.
  2:{ apply triple_ret; intros w H; split; [exact H|]. split; [apply stopped_why; [discriminate | exact L] | auto]. }
  dhyps. eapply triple_bind; [apply one_attempt_triple, L|]. intros [x|p'].
  - apply triple_ret. intros w (Hw & W & C). split; [exact Hw | split; [exact W | auto]].
  - intros w (Hw & L' & C). specialize (IH p' L' w Hw).
    destruct (snd (attempt_loop c summaries regimes clock fuel k label quantity p' w)); [|exact IH..].
    destruct IH as (H' & W' & C'). split; [exact H' | split; [exact W' | auto]].
Qed.

Lemma attempts_triple s quantity :
  triple room (_execute_repriced_naked_short c summaries regimes clock s k label quantity) (loop_post quantity 0) ended.
Proof. apply (attempt_loop_triple _ quantity (first_attempt s k)). reflexivity. Qed.
End Attempts.

(** ** The group of an entry *)

Lemma entry_apr_open g contract_size : g.(realized_close_debit) = None ->
  fst (entry_net_apr_at_open g contract_size) = g \/
  (g.(covered_underlying_quantity) <= 0 /\
   fst (entry_net_apr_at_open g contract_size) = set_covered_underlying_quantity (pos_or_one g.(Group.quantity)) g).
Proof.
  intros N. assert (E : fst (entry_amount_native g) = g).
  { unfold entry_amount_native, _ledger_entry_amount_from_close_index. rewrite N. destruct (_premium_native_from_price _ _ _ _); reflexivity. }
  assert (E2 : fst (entry_net_credit_collateral g) = g).
  { unfold entry_net_credit_collateral. destruct (String.eqb _ _); [reflexivity|]. destruct (entry_amount_native g) as [g' gross]. cbn [fst] in E. subst g'.
    destruct gross, (resolved_entry_fee_collateral g); try destruct (_ <=? 0); reflexivity. }
  unfold entry_net_apr_at_open. destruct (entry_net_credit_collateral g) as [g' net]. cbn [fst] in E2. subst g'.
  destruct net as [net|]; [|now left]. destruct (net <=? 0); [now left|]. cbv zeta.
  match goal with |- context [if ?t && (covered_underlying_quantity g <=? 0) then _ else _] => destruct t end; cbn [andb].
  - destruct (dleb_spec (covered_underlying_quantity g) 0); [right; split; [assumption|] | left]; destruct (_ && _); reflexivity.
  - left. destruct (_ && _); reflexivity.
Qed.

Lemma same_index g : set_entry_index_usd g.(entry_index_usd) g = g.
Proof. now destruct g. Qed.

Section Recorded.
Context {D : Desk}.

Lemma entry_index_shape usdc g w w' g' : with_entry_index usdc g w = (w', Ret g') -> exists idx, g' = set_entry_index_usd idx g.
Proof.
  unfold with_entry_index. destruct (_ && _); intros E.
  - apply bind_inv in E. destruct E as (w1 & idx & _ & E). injection E as _ <-. now exists idx.
  - injection E as _ <-. exists g.(entry_index_usd). symmetry. apply same_index.
Qed.

(** Recording the statistics of a new group fills in its equity, index and return, and
    the cover of a covered call that has none. *)
Lemma attach_shape g w w' g' : g.(realized_close_debit) = None -> _attach_open_group_stats g w = (w', Ret g') ->
  exists e idx apr cov, (0 < g.(covered_underlying_quantity) -> cov = g.(covered_underlying_quantity)) /\
    g' = set_entry_net_apr apr (set_covered_underlying_quantity cov (set_entry_index_usd idx (set_entry_book_equity e g))).
Proof.
  intros N E. unfold _attach_open_group_stats in E. apply bind_inv in E. destruct E as (w1 & e & _ & E). cbv zeta in E.
  apply bind_inv in E. destruct E as (w2 & g1 & E1 & E). apply bind_inv in E. destruct E as (w3 & g2 & E2 & E).
  destruct (entry_index_shape _ _ _ _ _ E1) as [i1 ->]. destruct (entry_index_shape _ _ _ _ _ E2) as [i2 ->]. clear E1 E2.
  set (g2 := set_entry_index_usd i2 _) in E. unfold _entry_net_apr_for_group in E.
  destruct (entry_apr_open g2 (_option_contract_size (short_instrument_name g2)) N) as [F|[V F]];
    destruct (entry_net_apr_at_open g2 _) as [g3 apr]; cbn [fst] in F; subst g3; injection E as _ <-; exists e, i2.
  - eexists. exists g.(covered_underlying_quantity). split; [auto|]. f_equal.
  - eexists. exists (pos_or_one g2.(Group.quantity)). split; [intros P; exfalso; cbn in V; lra | reflexivity].
Qed.

Variable c : entry_config.
Variable clock : list request -> Z.

(** The group recorded for a short: the amount filled, at its average price. *)
Lemma record_short_group group_id label x w w' r : record_short c clock group_id label x w = (w', Ret r) ->
  exists g, r.(entry_group) = Some g /\ g.(Group.group_id) = group_id /\ g.(Group.quantity) = x.(filled_amount) /\ g.(Group.status) = "open" /\
    g.(short_instrument_name) = x.(latest).(short_leg).(leg_instrument_name) /\ g.(short_label) = label /\
    g.(short_entry_average_price) = _filled_average_price x.(answers) /\ g.(Group.strategy) = str_or x.(latest).(cand_strategy) "naked_short" /\
    (0 < x.(latest).(cand_covered_quantity) -> g.(covered_underlying_quantity) = x.(latest).(cand_covered_quantity)).
Proof.
  intros E. unfold record_short in E. cbv zeta in E. do 3 (apply bind_inv in E; destruct E as (? & ? & _ & E)).
  apply bind_inv in E. destruct E as (w4 & [[net fee] fee_coll] & _ & E). apply bind_inv in E. destruct E as (w5 & g' & E5 & E).
  injection E as _ <-. exists g'. split; [reflexivity|].
  set (g := opened_short _ _ _ _ _ _ _ _ _ _ _) in E5.
  assert (P : g.(realized_close_debit) = None /\ g.(Group.group_id) = group_id /\ g.(Group.quantity) = x.(filled_amount) /\ g.(Group.status) = "open" /\
    g.(short_instrument_name) = x.(latest).(short_leg).(leg_instrument_name) /\ g.(short_label) = label /\
    g.(short_entry_average_price) = _filled_average_price x.(answers) /\ g.(Group.strategy) = str_or x.(latest).(cand_strategy) "naked_short" /\
    g.(covered_underlying_quantity) = x.(latest).(cand_covered_quantity)).
  { unfold g, opened_short, with_hedge_fields. destruct (enable_perp_hedge _); repeat split. }
  destruct P as (N & P1 & P2 & P3 & P4 & P5 & P6 & P7 & P8). destruct (attach_shape _ _ _ _ N E5) as (e & idx & apr & cov & V & ->).
  repeat (split; [assumption|]). rewrite <- P8. exact V.
Qed.
End Recorded.

(** Whatever the exchange answers or raises, the attempts at a short send only sell
    orders of the candidate's own instrument under the entry's label, none of them
    reduce-only, and looks at or cancellations of orders. Every price is one of two: the
    passive price or the best bid of the book that was read before the first attempt. *)
Theorem attempts_priced_from_one_book (D : Desk) c summaries regimes clock s k label quantity i b w :
  quoted_at k.(short_leg).(leg_instrument_name) i b w ->
  exists new, (fst (_execute_repriced_naked_short c summaries regimes clock s k label quantity w)).(requests) = new ++ w.(requests) /\
    Forall (attempt_request k label i b) new.
Proof.
  intros Q. pose proof (attempts_triple c summaries regimes clock k label i b w.(requests) s quantity w (conj (trace_start _ w) Q)) as T.
  destruct (snd _) in T; [exact (proj1 (proj1 T)) | exact T..].
Qed.


(** ** The cover of a covered call *)

Section Cover.
Context {D : Desk}.
Variables (c : entry_config) (summaries : dict AccountSummary) (regimes : dict RiskRegime) (clock : list request -> Z).

Lemma covered_check_cover c' t s i b r a q x d : snd (refresh_covered_call_candidate c' t s i b r a q) = (Some x, d) ->
  x.(cand_covered_quantity) = q /\ x.(cand_strategy) = "covered_call".
Proof.
  unfold refresh_covered_call_candidate, rechecked, or_build_failed, _try_build_covered_call_for_quantity. cbn [snd]. cbv zeta.
  destruct (q <=? 0); [discriminate|]. destruct (_naked_short_call_rejection_reason _ _ _ _ _); [discriminate|].
  repeat match goal with |- context [if ?g then refused _ else _] => destruct g; [discriminate|] end.
  intros E. injection E as <- _. unfold covered_candidate. destruct (preferred_call_delta_bounds _ _). now split.
Qed.

(** A round of a covered call is sold against the amount still wanted in that round. *)
Lemma covered_round k label quantity p w w' next : strategy_of k "covered_call" = true ->
  one_attempt c summaries regimes clock k label quantity p w = (w', Ret next) ->
  match next with
  | inl x => x.(why) = "filled" -> quantity <= x.(filled_amount) /\ x.(latest).(cand_covered_quantity) = quantity ⊖ p.(so_filled) /\
      x.(latest).(cand_strategy) = "covered_call"
  | inr p' => True
  end.
Proof.
  intros K E. unfold one_attempt in E. cbv zeta in E. do 2 (apply bind_inv in E; destruct E as (? & ? & _ & E)).
  destruct (dict_get k.(cand_collateral) summaries) as [summ|]; [|apply ret_inv in E; subst next; intros W; unfold stopped in W; cbn in W; destruct (_ && _) in W; discriminate].
  apply bind_inv in E. destruct E as (w3 & checked & E3 & E). unfold refreshed_candidate in E3. cbv zeta in E3. rewrite K in E3.
  apply bind_inv in E3. destruct E3 as (w4 & t & _ & E3). apply ret_inv in E3. subst checked.
  set (ck := refresh_covered_call_candidate _ _ _ _ _ _ _ _) in E. destruct (recheck_failure c (fst ck) k (snd ck)) as [reason|] eqn:R.
  { apply ret_inv in E. subst next. intros W. exfalso. unfold stopped in W. cbn [why with_selector so_filled] in W.
    destruct (dleb _ 0 && String.eqb reason "timed_out"); [discriminate W|]. subst reason. unfold recheck_failure in R.
    destruct (snd ck) as [[y|] d]; [destruct (negb _ && _); [|discriminate R]|]; injection R as R; destruct d as [[|ch d]|]; discriminate R. }
  destruct (snd ck) as [[kx|] d] eqn:S; cbn [fst] in E; [|discriminate E].
  destruct (covered_check_cover _ _ _ _ _ _ _ _ _ _ S) as [C1 C2]. apply bind_inv in E. destruct E as (w5 & r & _ & E).
  apply bind_inv in E. destruct E as (w6 & placed & _ & E). destruct placed as [response|message].
  - do 2 (apply bind_inv in E; destruct E as (? & ? & _ & E)). apply ret_inv in E.
    match type of E with (if ?g then _ else _) = _ => destruct (g) eqn:F end; subst next; [|exact I]. intros _. dhyps. auto.
  - destruct (is_post_only_reject message); [apply ret_inv in E; subst next; exact I | discriminate E].
Qed.
End Cover.

(** A covered call filled over several attempts reserves too little: the group has the
    whole quantity sold, but is sold against the amount of the last attempt only. What the
    earlier attempts sold counts as free coins, which the next covered call may be sold
    against again. *)
Theorem covered_call_underreserved (D : Desk) c summaries regimes clock k label p group_id w w1 w2 x r :
  k.(cand_strategy) = "covered_call" ->
  on_units k.(cand_quantity) -> on_units p.(so_filled) -> 0 < p.(so_filled) -> p.(so_filled) < k.(cand_quantity) ->
  one_attempt c summaries regimes clock k label k.(cand_quantity) p w = (w1, Ret (inl x)) -> x.(why) = "filled" ->
  record_short c clock group_id label x w1 = (w2, Ret r) ->
  exists g, r.(entry_group) = Some g /\ g.(Group.strategy) = "covered_call" /\ k.(cand_quantity) <= g.(Group.quantity) /\
    g.(covered_underlying_quantity) == k.(cand_quantity) - p.(so_filled) /\ g.(covered_underlying_quantity) < g.(Group.quantity).
Proof.
  intros K Gq Gp P L E W R. assert (Sk : strategy_of k "covered_call" = true) by (unfold strategy_of; rewrite K; reflexivity).
  destruct (covered_round _ _ _ _ _ _ _ _ _ _ _ Sk E W) as (F & C & S). destruct (record_short_group _ _ _ _ _ _ _ _ R) as (g & Eg & _ & Q & _ & _ & _ & _ & St & Cv).
  destruct (grid_sub units _ _ Gq Gp) as [_ Er]; [lra|]. exists g. split; [exact Eg|]. split; [rewrite St, S; reflexivity|]. rewrite Q.
  split; [exact F|]. rewrite C in Cv. rewrite Cv by (rewrite Er; lra). rewrite Er. split; lra.
Qed.
