(* ===== verification/BuilderFacts.v ===== *)
(** What a scan promises to the entry that follows it: its candidates pass the re-check at
    the same books unchanged, its put spreads have a protection and a bounded loss, and
    covered calls sized by slots use up the free coins. *)

From S2P Require Import Prelude Sorting Dec PyStr Utils Fees Margin Group PyObj StateJson Market ExitEval VolMetrics EntryGates Runtime HedgeOrders Close GroupClose EntryConfig Selector Ranking Entry EntryFacts Builders.
Local Open Scope string_scope.
Local Open Scope Q_scope.
Local Open Scope dec_scope.
Local Open Scope bool_scope.
Local Open Scope run_scope.
Local Open Scope list_scope.

(** ** Books read while scanning *)

Section Scanning.
Context {X : Exchange}.

Definition cached (name : string) (b : OrderBookSnapshot) (w : runtime) : Prop := dict_get name w.(orderbook_cache) = Some b.

(** What has been read stays as it was read. *)
Definition only_reads {A} (m : M A) : Prop := forall name b w, cached name b w -> cached name b (fst (m w)).

Lemma reads_get_orderbook name : only_reads (_get_orderbook name).
Proof.
  intros other b w Q. unfold cached, _get_orderbook, bind, read, lift, modify, ret in *.
  destruct (dict_get name w.(orderbook_cache)) as [b'|] eqn:G; [exact Q|].
  destruct (get_order_book name) as [payload| |]; [|exact Q..]. destruct (book_from_api payload) as [b'| |]; [|exact Q..].
  cbn. rewrite dict_get_set. destruct (String.eqb_spec other name) as [<-|]; [congruence | exact Q].
Qed.

Lemma get_orderbook_cached name w w' b : _get_orderbook name w = (w', Ret b) -> cached name b w'.
Proof.
  unfold cached, _get_orderbook, bind, read, lift, modify, ret. destruct (dict_get name w.(orderbook_cache)) as [b'|] eqn:G.
  - intros E. injection E as <- <-. exact G.
  - destruct (get_order_book name) as [payload| |]; try discriminate. destruct (book_from_api payload) as [b'| |]; try discriminate.
    intros E. injection E as <- <-. cbn. now rewrite dict_get_set, String.eqb_refl.
Qed.

Section Books.
Context {A : Type} (skip : OptionInstrument -> bool) (build : OptionInstrument -> OrderBookSnapshot -> option A).

Lemma reads_scan ms : only_reads (scan_books skip build ms).
Proof.
  induction ms as [|i rest IH]; intros name b w C; cbn [scan_books]; [exact C|]. destruct (skip i); [now apply IH|].
  unfold bind. pose proof (reads_get_orderbook i.(instrument_name) name b w C) as C1.
  destruct (_get_orderbook _ w) as [w1 [b1|e|]]; [|exact C1..]. cbn [fst] in C1. specialize (IH name b w1 C1).
  destruct (scan_books skip build rest w1) as [w2 [l|e|]]; exact IH.
Qed.

(** Everything found comes from one of the instruments and the book read for it. *)
Definition found_at (ms : list OptionInstrument) (w : runtime) (x : A) : Prop :=
  exists i b, In i ms /\ skip i = false /\ cached i.(instrument_name) b w /\ build i b = Some x.

Lemma scan_found ms : forall w w' l, scan_books skip build ms w = (w', Ret l) -> Forall (found_at ms w') l.
Proof.
  induction ms as [|i rest IH]; intros w w' l E; cbn [scan_books] in E; [injection E as <- <-; constructor|].
  assert (Up : forall w l, Forall (found_at rest w) l -> Forall (found_at (i :: rest) w) l).
  { intros w0 l0. apply Forall_impl. intros x (j & b & I & R). exists j, b. split; [now right | exact R]. }
  destruct (skip i) eqn:S; [apply Up, (IH _ _ _ E)|].
  apply bind_inv in E. destruct E as (w1 & b & E1 & E). apply bind_inv in E. destruct E as (w2 & more & E2 & E).
  injection E as <- <-. pose proof (Up _ _ (IH _ _ _ E2)) as F. destruct (build i b) as [x|] eqn:B; [|exact F]. constructor; [|exact F].
  exists i, b. split; [now left|]. split; [exact S|]. split; [|exact B].
  pose proof (reads_scan rest _ _ _ (get_orderbook_cached _ _ _ _ E1)) as C. now rewrite E2 in C.
Qed.
End Books.
End Scanning.

(** ** Shorts *)

Section Shorts.
Variables (c : entry_config) (now_us : Z) (s : selector) (option_type : string) (r : RiskRegime).
Hypothesis Side : option_type = "put" \/ option_type = "call".

Lemma short_at_passes i b a k : short_at c now_us (_set_active_regime r s) option_type r a i b = Some k ->
  recheck c now_us s option_type i b r a k.(cand_quantity) = (Some k, None) /\
  i.(min_trade_amount) <= k.(cand_quantity) /\ k.(cand_quantity) <= floor_to_step b.(best_bid_amount) i.(min_trade_amount).
Proof.
  unfold short_at. destruct (_naked_short_option_rejection_reason _ _ _ _ _ _) eqn:R; [discriminate|].
  destruct (_ || _); [discriminate|]. destruct (unit_margin _ _ _ _ _) as [im mm]. destruct (im <=? 0); [discriminate|].
  set (q := sized_to_caps c option_type i b a im mm). destruct (dltb_spec q i.(min_trade_amount)) as [|M]; [discriminate|]. apply Qnot_lt_le in M.
  intros E. assert (B : q <= floor_to_step b.(best_bid_amount) i.(min_trade_amount)) by apply dmin_r.
  assert (K : recheck c now_us s option_type i b r a q = (Some k, None)).
  { rewrite (recheck_eq c now_us s option_type i b r a q Side). unfold rechecked, rejection, attempt_build. rewrite R.
    pose proof (build_cases c now_us s option_type i b r a q) as C. unfold attempt_build in C.
    destruct C as [C|(d & C & _)]; rewrite C in E |- *; [|discriminate E]. injection E as <-.
    destruct (q <=? 0) eqn:Z; [|reflexivity]. unfold _try_build_naked_for_quantity in C. rewrite Z in C. discriminate C. }
  assert (Qk : k.(cand_quantity) = q).
  { destruct (recheck_cases c now_us s option_type i b r a q Side) as [C|(d & C & _)]; rewrite C in K; [|discriminate K]. injection K as <-.
    unfold the_candidate, naked_candidate. destruct (preferred_delta_bounds c _ option_type), (preferred_otm_bounds c _ option_type). reflexivity. }
  rewrite Qk. auto.
Qed.

Lemma short_at_leg s0 i b a k : short_at c now_us s0 option_type r a i b = Some k -> leg_from i b k.
Proof.
  unfold short_at. destruct (_naked_short_option_rejection_reason _ _ _ _ _ _); [discriminate|].
  destruct (_ || _); [discriminate|]. destruct (unit_margin _ _ _ _ _) as [im mm]. destruct (im <=? 0); [discriminate|].
  destruct (_ <? _); [discriminate|]. set (q := sized_to_caps _ _ _ _ _ _ _).
  destruct (_try_build_naked_for_quantity c now_us s0 option_type i b r a q false false) as [o d] eqn:E. cbn [fst]. intros ->.
  exact (build_from_book c now_us s0 i b r a q option_type false false k d E).
Qed.

Lemma passes_admissible i b a q k : recheck c now_us s option_type i b r a q = (Some k, None) -> admissible c now_us s option_type i b r a q.
Proof.
  intros K. apply (recheck_admissible c now_us s option_type i b r a q Side).
  destruct (recheck_cases c now_us s option_type i b r a q Side) as [C|(d & C & _)]; [exact C|]. rewrite C in K. discriminate K.
Qed.
End Shorts.

(** Where the candidates of a scan come from. *)
Lemma scanned_shorts (X : Exchange) c now_us option_type ms r equity maintenance collateral currency existing index s w w' s' ks :
  build_naked_short_candidates c now_us option_type ms r equity maintenance collateral currency existing index s w = (w', Ret (s', ks)) ->
  s' = _set_active_regime r s /\ StronglySorted (ordered (by_rank c s')) ks /\
  Forall (fun k => exists i b, In i ms /\ to_scan c now_us option_type i = true /\ cached i.(instrument_name) b w' /\
    short_at c now_us s' option_type r (sizing_at equity maintenance collateral currency existing i) i b = Some k) ks.
Proof.
  intros E. unfold build_naked_short_candidates in E. cbv zeta in E.
  destruct (regime_eqb r CRISIS); [injection E as <- <- <-; repeat split; constructor|].
  destruct (equity <=? 0); [injection E as <- <- <-; repeat split; constructor|].
  apply bind_inv in E. destruct E as (w1 & found & E1 & E). injection E as <- <- <-. split; [reflexivity|]. split; [apply ranked_sorted|].
  apply Forall_forall. intros k I. apply (Permutation_in _ (Permutation_sym (ranked_perm c _ found))) in I.
  apply (proj1 (Forall_forall _ _) (scan_found _ _ _ _ _ _ E1)) in I. destruct I as (i & b & Im & _ & C & B).
  apply filter_In in Im. destruct Im as [Im T]. exists i, b. auto.
Qed.

(** C17. The scan and the re-check agree. A candidate of a scan comes from one of the
    instruments and the book cached for it, holds at least the smallest trade and at most
    the size bid, is admissible, and the re-check of its quantity at that book, in the
    selector the scan leaves and at the same moment, returns that very candidate. The
    candidates come ranked. *)
Theorem scan_agrees_with_recheck (X : Exchange) c now_us option_type ms r equity maintenance collateral currency existing index s w w' s' ks :
  option_type = "put" \/ option_type = "call" ->
  build_naked_short_candidates c now_us option_type ms r equity maintenance collateral currency existing index s w = (w', Ret (s', ks)) ->
  StronglySorted (ordered (by_rank c s')) ks /\
  Forall (fun k => exists i b, In i ms /\ to_scan c now_us option_type i = true /\ dict_get i.(instrument_name) w'.(orderbook_cache) = Some b /\
    i.(min_trade_amount) <= k.(cand_quantity) /\ k.(cand_quantity) <= floor_to_step b.(best_bid_amount) i.(min_trade_amount) /\
    let a := sizing_at equity maintenance collateral currency existing i in
    admissible c now_us s' option_type i b r a k.(cand_quantity) /\
    recheck c now_us s' option_type i b r a k.(cand_quantity) = (Some k, None)) ks.
Proof.
  intros Side E. destruct (scanned_shorts _ _ _ _ _ _ _ _ _ _ _ _ _ _ _ _ _ E) as (-> & S & F). split; [exact S|].
  eapply Forall_impl; [|exact F]. intros k (i & b & I & T & C & B). exists i, b.
  destruct (short_at_passes c now_us (_set_active_regime r s) option_type r Side _ _ _ _ B) as (K & L & U).
  repeat (split; [assumption|]). cbv zeta. split; [|exact K]. exact (passes_admissible _ _ _ _ _ Side _ _ _ _ _ K).
Qed.

(** ** Slots

    The units of each entry when [units] are shared out over [slots]. *)
Fixpoint shares (fuel : nat) (units slots : Z) : list Z :=
  match fuel with
  | O => []
  | S fuel =>
      if (units <=? 0)%Z then []
      else
        let x := ((units + slots - 1) / slots)%Z in
        x :: shares fuel (units - x) (Z.max 1 (slots - 1))
  end.

Definition total (l : list Z) : Z := fold_right Z.add 0%Z l.

Section Shares.
Local Open Scope Z_scope.

Lemma div_up_bounds u s : 0 < s -> 0 < u -> (u + s - 1) / s * s < u + s /\ u <= (u + s - 1) / s * s /\ 0 < (u + s - 1) / s <= u.
Proof.
  intros Hs Hu. pose proof (Z.div_mod (u + s - 1) s ltac:(lia)). pose proof (Z.mod_pos_bound (u + s - 1) s Hs). nia.
Qed.

Lemma share_out u s f : 0 < s -> 0 < u -> 0 <= f -> f * s <= u -> f <= (u + s - 1) / s /\ (1 < s -> f * (s - 1) <= u - (u + s - 1) / s).
Proof.
  intros Hs Hu Hf H. destruct (div_up_bounds u s Hs Hu) as (A & B & C & D). set (x := (u + s - 1) / s) in *. split; [nia|]. intros S.
  destruct (Z.eq_dec x f) as [->|N]; [nia|]. assert (f < x) by nia. nia.
Qed.

(** They use up everything in at most as many entries as there are slots, and no entry is
    less than an equal share or more than an equal share rounded up. *)
Lemma shares_even fuel : forall u s lo hi, 0 <= u -> 1 <= s -> s <= Z.of_nat fuel -> 0 <= lo -> lo * s <= u -> u <= hi * s ->
  total (shares fuel u s) = u /\ Z.of_nat (List.length (shares fuel u s)) <= s /\ Forall (fun x => 0 < x /\ lo <= x <= hi) (shares fuel u s).
Proof.
  induction fuel as [|fuel IH]; intros u s lo hi Hu Hs Hf Hl L U; [lia|]. cbn [shares]. destruct (Z.leb_spec u 0) as [Z|P].
  { cbn. repeat split; [lia | lia | constructor]. }
  destruct (div_up_bounds u s ltac:(lia) P) as (A & B & C & D). destruct (share_out u s lo ltac:(lia) P Hl L) as [E F].
  set (x := (u + s - 1) / s) in *. assert (X : x <= hi) by nia.
  destruct (Z.eq_dec s 1) as [->|N].
  { assert (x = u) by nia. replace (u - x) with 0 by lia. destruct fuel; cbn; repeat split; try lia; repeat constructor; lia. }
  rewrite Z.max_r by lia. destruct (IH (u - x) (s - 1) lo hi) as (T & Ln & Fa); try lia; try nia.
  cbn [total fold_right List.length]. split; [change (fold_right Z.add 0 ?l) with (total l); lia|]. split; [lia|]. constructor; [lia | exact Fa].
Qed.
End Shares.

(** The entries made one after the other from [available] free coins, each in the slots
    left, while the market bids for enough. *)
Fixpoint sold_out (fuel : nat) (c : entry_config) (b : OrderBookSnapshot) (min_trade available : Q) (open_groups : Z) : list Q :=
  match fuel with
  | O => []
  | S fuel =>
      let cap := covered_call_slot_entry_cap c available open_groups (Some min_trade) in
      let quantity := _covered_call_entry_quantity available cap b min_trade in
      if quantity <? min_trade then []
      else quantity :: sold_out fuel c b min_trade (available ⊖ quantity) (open_groups + 1)
  end.

Section Slots.
Variables (c : entry_config) (b : OrderBookSnapshot) (e m : Z) (min_trade : Q) (bid : Z).
Hypothesis Sizing : c.(covered_call_slot_sizing) = true.
Hypothesis Groups : (0 < c.(max_groups_per_currency))%Z.
Hypothesis Em : min_trade == gval e m.
Hypothesis Hm : (0 < m)%Z.
Hypothesis Ebid : b.(best_bid_amount) == gval e bid.
Hypothesis Hbid : (bid <= grid_max)%Z.

Definition slots_left (open_groups : Z) : Z := Z.max 1 (c.(max_groups_per_currency) - open_groups).

Lemma min_trade_pos : 0 < min_trade.
Proof. rewrite Em. now apply val_pos. Qed.

Lemma units_of u available : available == gval e u -> (0 <= u <= grid_max)%Z ->
  fillable_units (floor_to_step available min_trade) min_trade = (u / m)%Z.
Proof.
  intros Ea B. pose proof (floor_to_step_val e u m available min_trade Ea Em B Hm) as F. unfold fillable_units.
  assert (E : floor_to_step available min_trade / min_trade == inject_Z (u / m)).
  { rewrite F, Em. unfold gval. rewrite inject_Z_mult. pose proof (p10_pos e). pose proof (inject_Z_pos m Hm). field. split; lra. }
  rewrite E. apply Qfloor_Z.
Qed.

Lemma capped_units U s : (0 < U)%Z -> (0 < s)%Z -> ((U + Z.min s (Z.max 1 U) - 1) / Z.min s (Z.max 1 U) = (U + s - 1) / s)%Z.
Proof.
  intros P S. rewrite Z.max_r by lia. destruct (Z.le_gt_cases s U); [now rewrite Z.min_l by lia|]. rewrite Z.min_r by lia.
  rewrite <- (Z.div_unique_pos (U + s - 1) s 1 (U - 1)) by lia. symmetry. apply (Z.div_unique_pos _ _ _ (U - 1)); lia.
Qed.

(** The quantity of an entry: its share of the units left. *)
Definition entry_of (available : Q) (k : Z) : Q :=
  _covered_call_entry_quantity available (covered_call_slot_entry_cap c available k (Some min_trade)) b min_trade.

Lemma entry_share u k available : available == gval e u -> (0 <= u <= bid)%Z -> (0 < u / m)%Z ->
  entry_of available k == gval e ((u / m + slots_left k - 1) / slots_left k * m).
Proof.
  intros Ea Bu P. pose proof min_trade_pos as Pm. set (x := ((u / m + slots_left k - 1) / slots_left k)%Z).
  assert (S : (0 < slots_left k)%Z) by (unfold slots_left; lia). destruct (div_up_bounds (u / m) (slots_left k) S P) as (_ & _ & Px & Bx). fold x in Px, Bx.
  pose proof (Z.mul_div_le u m Hm) as Mu. assert (Bxm : (0 < m * x <= u)%Z) by nia.
  pose proof (floor_to_step_val e u m available min_trade Ea Em ltac:(lia) Hm) as Fu.
  pose proof (floor_to_step_val e bid m b.(best_bid_amount) min_trade Ebid Em ltac:(lia) Hm) as Fb.
  assert (Cap : exists cap, covered_call_slot_entry_cap c available k (Some min_trade) = Some cap /\ cap == gval e (m * x)).
  { unfold covered_call_slot_entry_cap. rewrite Sizing. cbn [negb]. destruct (Z.leb_spec c.(max_groups_per_currency) 0); [lia|].
    rewrite (proj2 (dltb_true 0 min_trade) Pm). cbv zeta. fold (slots_left k).
    destruct (dltb_spec (floor_to_step available min_trade) min_trade) as [L|_].
    { exfalso. rewrite Fu, Em in L. apply val_lt in L. nia. }
    rewrite (units_of u available Ea) by lia. rewrite (capped_units (u / m) (slots_left k) P S). fold x. eexists. split; [reflexivity|].
    rewrite <- (Z.add_0_r e) at 1. apply dmul_gval; [exact Em | unfold gval; rewrite p10_0; ring|].
    rewrite Z.abs_eq by lia. apply Z.le_trans with grid_max; [lia | vm_compute; discriminate]. }
  destruct Cap as (cap & Ec & Vc). unfold entry_of, _covered_call_entry_quantity. rewrite Ec.
  assert (Pc : 0 < cap) by (rewrite Vc; apply val_pos; lia). rewrite (proj2 (dltb_true 0 cap) Pc).
  pose proof (floor_to_step_val e (m * x) m cap min_trade Vc Em ltac:(lia) Hm) as Fc.
  rewrite (dmin_gval e _ _ _ _ (dmin_gval e _ _ _ _ Fc Fu) Fb). apply gval_eq.
  assert (D : (m * x / m = x)%Z) by (rewrite Z.mul_comm; apply Z.div_mul; lia). rewrite D.
  pose proof (Z.div_le_mono u bid m Hm ltac:(lia)). nia.
Qed.

Lemma entry_none u k available : available == gval e u -> (0 <= u <= bid)%Z -> (u / m <= 0)%Z -> entry_of available k < min_trade.
Proof.
  intros Ea Bu Z. pose proof min_trade_pos as Pm. pose proof (floor_to_step_val e u m available min_trade Ea Em ltac:(lia) Hm) as Fu.
  assert (N : floor_to_step available min_trade <= 0) by (rewrite Fu, <- (val_0 e); apply val_le; nia).
  apply Qle_lt_trans with 0; [|exact Pm]. apply Qle_trans with (floor_to_step available min_trade); [|exact N].
  unfold entry_of, _covered_call_entry_quantity. destruct (covered_call_slot_entry_cap _ _ _ _) as [cap|]; [destruct (0 <? cap)|].
  - eapply Qle_trans; [apply dmin_l|]. apply dmin_r.
  - apply dmin_l.
  - apply dmin_l.
Qed.

Lemma sold_out_shares fuel : forall u k available, available == gval e u -> (0 <= u <= bid)%Z ->
  Forall2 (fun q x => q == gval e (x * m)) (sold_out fuel c b min_trade available k) (shares fuel (u / m) (slots_left k)).
Proof.
  induction fuel as [|fuel IH]; intros u k available Ea Bu; cbn [sold_out shares]; [constructor|]. fold (entry_of available k).
  destruct (Z.leb_spec (u / m) 0) as [Z|P].
  { pose proof (entry_none u k available Ea Bu Z) as L. rewrite (proj2 (dltb_true _ _) L). constructor. }
  pose proof (entry_share u k available Ea Bu P) as E. set (x := ((u / m + slots_left k - 1) / slots_left k)%Z) in *.
  assert (S : (0 < slots_left k)%Z) by (unfold slots_left; lia). destruct (div_up_bounds (u / m) (slots_left k) S P) as (_ & _ & Px & Bx). fold x in Px, Bx.
  pose proof (Z.mul_div_le u m Hm) as Mu. destruct (dltb_spec (entry_of available k) min_trade) as [L|_].
  { exfalso. rewrite E, Em in L. apply val_lt in L. nia. }
  constructor; [exact E|]. replace (u / m - x)%Z with ((u - x * m) / m)%Z.
  2:{ replace (u - x * m)%Z with (u + (- x) * m)%Z by ring. rewrite Z.div_add by lia. ring. }
  replace (Z.max 1 (slots_left k - 1)) with (slots_left (k + 1)) by (unfold slots_left; lia). apply IH; [|nia].
  apply dsub_gval; [exact Ea | exact E|]. rewrite Z.abs_eq by nia. apply Z.le_trans with grid_max; [nia | vm_compute; discriminate].
Qed.

Definition qsum (l : list Q) : Q := fold_right Qplus 0 l.

Lemma qsum_units l : forall xs, Forall2 (fun q x => q == gval e (x * m)) l xs -> qsum l == gval e (total xs * m).
Proof.
  induction l as [|q l IH]; intros xs F; inversion F as [|? x ? xs' Eq F']; subst; cbn [qsum fold_right total].
  - symmetry. apply val_0.
  - change (fold_right Qplus 0 l) with (qsum l). change (fold_right Z.add 0%Z xs') with (total xs'). rewrite Eq, (IH _ F'), gval_add. apply gval_eq. ring.
Qed.
End Slots.


(** ** Put spreads *)

Lemma some_inv {A} (x y : A) : Some x = Some y -> x = y.
Proof. congruence. Qed.

Section Complete.
Context {X : Exchange} {A : Type} (skip : OptionInstrument -> bool) (build : OptionInstrument -> OrderBookSnapshot -> option A).

(** Nothing is missed: what an instrument gives at the book read for it was found. *)
Lemma scan_complete ms : forall w w' l, scan_books skip build ms w = (w', Ret l) ->
  forall i b x, In i ms -> skip i = false -> cached i.(instrument_name) b w' -> build i b = Some x -> In x l.
Proof.
  induction ms as [|j rest IH]; intros w w' l E i b x I S C B; [destruct I|]. cbn [scan_books] in E.
  destruct (skip j) eqn:Sj; [destruct I as [->|I]; [congruence | exact (IH _ _ _ E i b x I S C B)]|].
  apply bind_inv in E. destruct E as (w1 & bj & E1 & E). apply bind_inv in E. destruct E as (w2 & more & E2 & E). injection E as <- <-.
  destruct I as [->|I].
  - pose proof (reads_scan skip build rest _ _ _ (get_orderbook_cached _ _ _ _ E1)) as C'. rewrite E2 in C'. cbn [fst] in C'.
    unfold cached in C, C'. rewrite C in C'. injection C' as <-. rewrite B. now left.
  - pose proof (IH _ _ _ E2 i b x I S C B) as K. destruct (build j bj); [now right | exact K].
Qed.

Lemma scan_cached ms : forall w w' l, scan_books skip build ms w = (w', Ret l) ->
  forall i, In i ms -> skip i = false -> exists b, cached i.(instrument_name) b w'.
Proof.
  induction ms as [|j rest IH]; intros w w' l E i I S; [destruct I|]. cbn [scan_books] in E.
  destruct (skip j) eqn:Sj; [destruct I as [->|I]; [congruence | exact (IH _ _ _ E i I S)]|].
  apply bind_inv in E. destruct E as (w1 & bj & E1 & E). apply bind_inv in E. destruct E as (w2 & more & E2 & E). injection E as <- <-.
  destruct I as [->|I]; [|exact (IH _ _ _ E2 i I S)]. exists bj.
  pose proof (reads_scan skip build rest _ _ _ (get_orderbook_cached _ _ _ _ E1)) as C. now rewrite E2 in C.
Qed.
End Complete.

(** [k] has at least the return of [o], where there is one. *)
Definition beats (k o : option NakedPutCandidate) : Prop := forall x, o = Some x -> exists y, k = Some y /\ x.(net_apr) <= y.(net_apr).

Lemma beats_refl k : beats k k.
Proof. intros x ->. exists x. split; [reflexivity | apply Qle_refl]. Qed.

Lemma beats_trans k l o : beats k l -> beats l o -> beats k o.
Proof. intros A B x E. destruct (B x E) as (y & -> & L). destruct (A y eq_refl) as (z & -> & M). exists z. split; [reflexivity | lra]. Qed.

Lemma better_spread_beats best x : (better_spread best x = best \/ better_spread best x = x) /\
  beats (better_spread best x) best /\ beats (better_spread best x) x.
Proof.
  unfold better_spread. destruct x as [k|]; [destruct best as [b|]; [destruct (dltb_spec b.(net_apr) k.(net_apr)) as [L|L]|]|].
  - split; [now right|]. split; [|apply beats_refl]. intros y E. injection E as <-. exists k. split; [reflexivity | lra].
  - split; [now left|]. split; [apply beats_refl|]. intros y E. injection E as <-. exists b. split; [reflexivity | lra].
  - split; [now right|]. split; [discriminate | apply beats_refl].
  - split; [now left|]. split; [apply beats_refl | discriminate].
Qed.

Lemma fold_better {B} (f : B -> option NakedPutCandidate) l : forall best,
  let k := fold_left (fun best m => better_spread best (f m)) l best in
  (k = best \/ exists m, In m l /\ f m = k) /\ beats k best /\ Forall (fun m => beats k (f m)) l.
Proof.
  induction l as [|m rest IH]; intros best; cbn [fold_left]; [split; [now left | split; [apply beats_refl | constructor]]|].
  destruct (IH (better_spread best (f m))) as (O & Bb & F). destruct (better_spread_beats best (f m)) as (C & B1 & B2). cbv zeta. split.
  - destruct O as [O|(m' & I & E)]; [|right; exists m'; split; [now right | exact E]]. rewrite O.
    destruct C as [-> | ->]; [now left | right; exists m; split; [now left | reflexivity]].
  - split; [exact (beats_trans _ _ _ Bb B1)|]. constructor; [exact (beats_trans _ _ _ Bb B2) | exact F].
Qed.

Section Spreads.
Context {X : Exchange}.
Variables (c : entry_config) (now_us : Z) (s : selector) (ms : list OptionInstrument).
Variables (equity : Q) (currency : string) (existing : list (Z * Q)).
Hypothesis Listed_once : NoDup (map instrument_name ms).

Definition existing_im (i : OptionInstrument) : Q := match at_key i.(instrument_expiration_ms) existing with Some v => v | None => 0 end.

(** A put spread [k] made of the short [k0]: its protection is a put of the same expiry
    at a lower strike, it earns a credit after fees, its largest loss is positive and
    within the caps of the leg and of the expiry, its return after the fees of both ways
    reaches the minimum, and no other protection gives a better one. *)
Definition sound_spread (w : runtime) (k0 k : NakedPutCandidate) : Prop :=
  exists short_i long_i short_b long_b,
    (In short_i ms /\ cached short_i.(instrument_name) short_b w /\ k.(short_leg).(leg_instrument_name) = short_i.(instrument_name)) /\
    (In long_i ms /\ cached long_i.(instrument_name) long_b w /\ protects c long_i long_b = true /\
     k.(long_leg) = Some (_short_put_spread_leg long_i long_b k.(cand_quantity) (buy_taker_price long_b) (buy_mid_price long_i long_b))) /\
    (long_i.(instrument_option_type) = "put" /\ long_i.(instrument_expiration_ms) = short_i.(instrument_expiration_ms) /\
     long_i.(instrument_strike) < short_i.(instrument_strike)) /\
    (0 < k.(cand_quantity) /\ 0 < k.(net_premium_native) /\ effective_min_net_apr c s k.(cand_currency) <= k.(net_apr) /\
     let loss := (terms_of c now_us s short_i long_i short_b long_b k.(cand_collateral) k.(cand_quantity)).(loss_collateral) in
     k.(estimated_im_total) = loss /\ 0 < loss /\ loss <= equity ⊗ per_leg_im_cap c k.(cand_currency) "put" /\
     existing_im short_i ⊕ loss <= equity ⊗ expiry_im_cap c k.(cand_currency)) /\
    (forall i b, In i ms -> below_short currency k0.(short_leg) i = true -> cached i.(instrument_name) b w -> protects c i b = true ->
       beats (Some k) (spread_of c now_us s k0 short_i short_b equity (existing_im short_i) (i, b))).

Lemma try_spread_spec k0 short_i long_i short_b long_b q im k :
  _try_build_bull_put_spread_for_quantity c now_us s k0 short_i long_i short_b long_b q equity im = Some k ->
  let t := terms_of c now_us s short_i long_i short_b long_b k0.(cand_collateral) q in
  exists apr, k = spread_candidate c now_us s k0 short_i long_i short_b long_b t q apr /\
    0 < q /\ 0 < t.(gross_credit) ⊖ t.(spread_fees) /\ 0 < t.(loss_collateral) /\
    t.(loss_collateral) <= equity ⊗ per_leg_im_cap c k0.(cand_currency) "put" /\
    im ⊕ t.(loss_collateral) <= equity ⊗ expiry_im_cap c k0.(cand_currency) /\ effective_min_net_apr c s k0.(cand_currency) <= apr.
Proof.
  unfold _try_build_bull_put_spread_for_quantity. cbv zeta. set (t := terms_of _ _ _ _ _ _ _ _ _).
  destruct (dleb_spec q 0); [discriminate|]. destruct (_ || _); [discriminate|].
  destruct (dleb_spec (gross_credit t ⊖ spread_fees t) 0); [discriminate|]. destruct (_ <=? 0); [discriminate|].
  destruct (dleb_spec (loss_collateral t) 0); cbn [orb]; [discriminate|]. destruct (equity <=? 0); [discriminate|].
  destruct (dltb_spec (equity ⊗ per_leg_im_cap c (cand_currency k0) "put") (loss_collateral t)); [discriminate|].
  destruct (dltb_spec (equity ⊗ expiry_im_cap c (cand_currency k0)) (im ⊕ loss_collateral t)); [discriminate|].
  match goal with |- context [if ?a <? ?m then None else _] => destruct (dltb_spec a m) end; [discriminate|].
  intros E. apply some_inv in E. eexists. split; [symmetry; exact E|]. repeat split; lra.
Qed.

Lemma find_listed name i : find (fun j => String.eqb j.(instrument_name) name) (rev ms) = Some i -> In i ms /\ i.(instrument_name) = name.
Proof. intros F. apply find_some in F. destruct F as [I E]. apply in_rev in I. split; [exact I | now apply String.eqb_eq]. Qed.

Lemma listed_once i j : In i ms -> In j ms -> i.(instrument_name) = j.(instrument_name) -> i = j.
Proof.
  revert Listed_once. induction ms as [|x l IH]; cbn [map]; intros N I J E; [destruct I|]. inversion N as [|? ? F N']; subst.
  destruct I as [<-|I], J as [<-|J]; auto; exfalso; apply F; [rewrite E | rewrite <- E]; now apply in_map.
Qed.

(** The leg of a short candidate is of an instrument of the scan. *)
Definition leg_listed (k0 : NakedPutCandidate) : Prop := exists i b, In i ms /\ leg_from i b k0.

Lemma spread_from_match w k0 short_i short_b long_i long_b k : leg_listed k0 ->
  In short_i ms -> k0.(short_leg).(leg_instrument_name) = short_i.(instrument_name) -> cached short_i.(instrument_name) short_b w ->
  In long_i ms -> below_short currency k0.(short_leg) long_i = true -> cached long_i.(instrument_name) long_b w -> protects c long_i long_b = true ->
  spread_of c now_us s k0 short_i short_b equity (existing_im short_i) (long_i, long_b) = Some k ->
  (forall i b, In i ms -> below_short currency k0.(short_leg) i = true -> cached i.(instrument_name) b w -> protects c i b = true ->
       beats (Some k) (spread_of c now_us s k0 short_i short_b equity (existing_im short_i) (i, b))) ->
  sound_spread w k0 k.
Proof.
  intros (i0 & b0 & I0 & q0 & Leg) Is En Cs Il Bl Cl Pl E Best. rewrite Leg in En.
  pose proof (listed_once _ _ I0 Is En) as ->. unfold below_short in Bl. rewrite Leg in Bl. dhyps.
  cbn [_short_put_spread_leg leg_expiration_ms leg_strike] in *.
  repeat match goal with H : String.eqb _ _ = true |- _ => apply String.eqb_eq in H | H : (_ =? _)%Z = true |- _ => apply Z.eqb_eq in H end.
  unfold spread_of in E. cbv zeta in E. destruct (dltb _ _) in E; [discriminate E|].
  destruct (try_spread_spec _ _ _ _ _ _ _ _ E) as (apr & -> & P1 & P2 & P3 & P4 & P5 & P6). exists short_i, long_i, short_b, long_b. revert Best.
  unfold spread_candidate. destruct (preferred_put_delta_bounds c _), (preferred_put_otm_bounds c _). intros Best. split; [auto|].
  split; [split; [exact Il | split; [exact Cl | split; [exact Pl | reflexivity]]]|].
  split; [split; [assumption | split; assumption]|]. split; [|exact Best].
  cbn [cand_quantity net_premium_native net_apr cand_currency cand_collateral estimated_im_total]. cbv zeta. auto 10.
Qed.

Lemma reads_matches leg : only_reads (_long_put_candidates_for_short c currency ms leg).
Proof.
  intros name b w C. unfold _long_put_candidates_for_short, bind.
  pose proof (reads_scan (fun i => negb (below_short currency leg i)) (fun i b => if protects c i b then Some (i, b) else None) ms name b w C) as R.
  destruct (scan_books _ _ ms w) as [w1 [l|e|]]; exact R.
Qed.

Lemma reads_spreads shorts : only_reads (spreads_for c now_us s currency ms equity existing shorts).
Proof.
  induction shorts as [|k rest IH]; intros name b w C; cbn [spreads_for]; [exact C|].
  destruct (find _ (rev ms)) as [i|]; [|now apply IH]. unfold bind. pose proof (reads_get_orderbook i.(instrument_name) name b w C) as C1.
  destruct (_get_orderbook _ w) as [w1 [sb|e|]]; [|exact C1..]. cbn [fst] in C1. pose proof (reads_matches k.(short_leg) name b w1 C1) as C2.
  destruct (_long_put_candidates_for_short _ _ _ _ w1) as [w2 [m|e|]]; [|exact C2..]. cbn [fst] in C2. specialize (IH name b w2 C2).
  destruct (spreads_for _ _ _ _ _ _ _ rest w2) as [w3 [l|e|]]; exact IH.
Qed.

(** The protections found are those of the market at the books cached. *)
Lemma matches_of leg w w' l : _long_put_candidates_for_short c currency ms leg w = (w', Ret l) ->
  forall i b, In (i, b) l <-> In i ms /\ below_short currency leg i = true /\ cached i.(instrument_name) b w' /\ protects c i b = true.
Proof.
  intros E i b. unfold _long_put_candidates_for_short in E. apply bind_inv in E. destruct E as (w1 & found & E1 & E). injection E as <- <-.
  rewrite stable_sort_in. split.
  - intros I. apply (proj1 (Forall_forall _ _) (scan_found _ _ _ _ _ _ E1)) in I. destruct I as (j & bj & Ij & S & C & B).
    destruct (protects c j bj) eqn:P; [|discriminate B]. injection B as -> ->. apply negb_false_iff in S. auto.
  - intros (I & S & C & P). eapply (scan_complete _ _ _ _ _ _ E1 i b (i, b)); [exact I | now rewrite S | exact C | now rewrite P].
Qed.

Lemma spreads_for_sound shorts : forall w w' l, Forall leg_listed shorts -> spreads_for c now_us s currency ms equity existing shorts w = (w', Ret l) ->
  Forall (fun k => exists k0, In k0 shorts /\ sound_spread w' k0 k) l.
Proof.
  induction shorts as [|k0 rest IH]; intros w w' l Lg E; cbn [spreads_for] in E; [injection E as <- <-; constructor|].
  inversion Lg as [|? ? L0 Lg']; subst.
  assert (Up : forall w l, Forall (fun k => exists k0, In k0 rest /\ sound_spread w k0 k) l -> Forall (fun k => exists k1, In k1 (k0 :: rest) /\ sound_spread w k1 k) l).
  { intros w0 l0. apply Forall_impl. intros k (k1 & I & S). exists k1. split; [now right | exact S]. }
  destruct (find _ (rev ms)) as [short_i|] eqn:Fi; [|apply Up, (IH _ _ _ Lg' E)]. destruct (find_listed _ _ Fi) as [Is En].
  apply bind_inv in E. destruct E as (w1 & short_b & E1 & E). apply bind_inv in E. destruct E as (w2 & matches & E2 & E).
  apply bind_inv in E. destruct E as (w3 & more & E3 & E). fold (existing_im short_i) in E. injection E as <- <-.
  pose proof (Up _ _ (IH _ _ _ Lg' E3)) as F. destruct (best_spread c now_us s k0 short_i short_b equity (existing_im short_i) matches) as [k|] eqn:B; [|exact F].
  constructor; [|exact F]. exists k0. split; [now left|].
  pose proof (fun m => matches_of _ _ _ _ E2 (fst m) (snd m)) as M.
  assert (Keep : forall name b, cached name b w2 -> cached name b w3).
  { intros name b C. pose proof (reads_spreads rest name b w2 C) as K. now rewrite E3 in K. }
  assert (Back : forall i b, In i ms -> below_short currency k0.(short_leg) i = true -> cached i.(instrument_name) b w3 -> cached i.(instrument_name) b w2).
  { intros i b I S C. unfold _long_put_candidates_for_short in E2. apply bind_inv in E2. destruct E2 as (w2' & found & E2 & R). injection R as <- _.
    destruct (scan_cached _ _ _ _ _ _ E2 i I) as (b' & C'); [now rewrite S|]. pose proof (Keep _ _ C') as K. unfold cached in K, C. rewrite C in K. now injection K as <-. }
  unfold best_spread in B. destruct (fold_better (spread_of c now_us s k0 short_i short_b equity (existing_im short_i)) matches None) as (O & _ & Bt).
  rewrite B in O, Bt. destruct O as [O|((long_i & long_b) & Im & Es)]; [discriminate O|].
  destruct (proj1 (M (long_i, long_b)) Im) as (Il & Sl & Cl & Pl). cbn [fst snd] in *.
  apply spread_from_match with short_i short_b long_i long_b; auto.
  - apply Keep. pose proof (reads_matches k0.(short_leg) _ _ _ (get_orderbook_cached _ _ _ _ E1)) as C. now rewrite E2 in C.
  - intros i b I S C P. apply (proj1 (Forall_forall _ _) Bt (i, b)), (M (i, b)). cbn [fst snd]. auto.
Qed.
End Spreads.

(** C20. Every put spread of a scan is sound: it is built on an admissible short put, its
    protection is a listed put of the same expiry at a lower strike, credit and return
    count the fees, the largest loss is within the caps, and no other protection at the
    books read would return more. *)
Theorem spreads_scanned_sound (X : Exchange) c now_us ms r equity maintenance collateral currency existing s w w' s' ks :
  NoDup (map instrument_name ms) ->
  build_bull_put_spread_candidates c now_us ms r equity maintenance collateral currency existing s w = (w', Ret (s', ks)) ->
  StronglySorted (ordered (by_rank c s')) ks /\
  Forall (fun k => exists k0 i b, (In i ms /\ leg_from i b k0 /\
      admissible c now_us s' "put" i b r (sizing_at equity maintenance collateral currency existing i) k0.(cand_quantity)) /\
    sound_spread c now_us s' ms equity currency existing w' k0 k) ks.
Proof.
  intros N E. unfold build_bull_put_spread_candidates in E. apply bind_inv in E. destruct E as (w1 & [s1 shorts] & E1 & E). cbv zeta in E. cbn [fst snd] in E.
  apply bind_inv in E. destruct E as (w2 & found & E2 & E). injection E as <- <- <-. split; [apply ranked_sorted|].
  destruct (scanned_shorts _ _ _ _ _ _ _ _ _ _ _ _ _ _ _ _ _ E1) as (Es & _ & F).
  assert (At : forall k, In k shorts -> exists i b, In i ms /\ leg_from i b k /\
    admissible c now_us s1 "put" i b r (sizing_at equity maintenance collateral currency existing i) k.(cand_quantity)).
  { intros k I. destruct (proj1 (Forall_forall _ _) F k I) as (i & b & Im & _ & _ & B). exists i, b. split; [exact Im|]. subst s1. split.
    - exact (short_at_leg _ _ _ _ _ _ _ _ _ B).
    - destruct (short_at_passes c now_us (_set_active_regime r s) "put" r (or_introl eq_refl) _ _ _ _ B) as (K & _).
      exact (passes_admissible _ _ _ _ _ (or_introl eq_refl) _ _ _ _ _ K). }
  assert (Lg : Forall (leg_listed ms) shorts).
  { apply Forall_forall. intros k I. destruct (At k I) as (i & b & Im & L & _). exists i, b. auto. }
  apply Forall_forall. intros k I. apply (Permutation_in _ (Permutation_sym (ranked_perm c _ found))) in I.
  destruct (proj1 (Forall_forall _ _) (spreads_for_sound c now_us s1 ms equity currency existing N shorts _ _ _ Lg E2) k I) as (k0 & I0 & S).
  destruct (At k0 I0) as (i & b & A). exists k0, i, b. split; [exact A | exact S].
Qed.
