(* ===== verification/Scan.v ===== *)
(** Scanning and entering in a cycle ([engine/scanner.py], [engine/entry.py],
    [engine/management.py], with the limits of [engine/base.py]): which candidates a cycle
    looks at, which of them may be entered, the group an entry adds to the state, and the
    top-up of open groups. The blockers and diagnostics shown to the operator are not
    modelled. *)

From S2P Require Import Prelude Sorting Dec PyStr Utils Fees TradeApr Group Ledger PyObj GroupJson StateJson Market ExitEval VolMetrics EntryGates ExchangeErrors Runtime HedgeOrders Hedge Close GroupClose GroupExit DayState Portfolio EntryConfig Selector Ranking Entry Builders.
Local Open Scope string_scope.
Local Open Scope Q_scope.
Local Open Scope dec_scope.
Local Open Scope bool_scope.
Local Open Scope run_scope.
Local Open Scope list_scope.

Record scan_config : Type := {
  entries : entry_config;
  gated : portfolio_config;
  top_n : Z;
  max_concurrent_groups : Z;
  max_groups_per_book : Z;
  book_im_target : Q;
  book_mm_target : Q;
  naked_block_second_ccy_on_mark_loss : bool;
  option_markets_profile : string;
}.

Section Scan.
Context {D : Desk}.
Variable c : scan_config.
Variable snapshot : PortfolioSnapshot.
Variable summaries : dict AccountSummary.
Variable regimes : dict RiskRegime.
Variable clock : list request -> Z.

Let e : entry_config := c.(entries).

Definition runs (name : string) : bool := strategy_is e name.

(** ** Limits on groups *)

Definition _linear_usdc_mode : bool := String.eqb c.(option_markets_profile) "linear_usdc".

Definition _active_scan_strategy_keys : list string :=
  if runs "covered_call" then ["covered_call"]
  else if runs "bull_put_spread" then ["bull_put_spread"]
  else if e.(enable_short_put) || e.(enable_short_call) then ["naked_short"]
  else [].

Definition _group_strategy_key (g : TradeGroup) : string := normalize_strategy_name g.(Group.strategy) "naked_short".

Definition count_of {A} (l : list A) : Z := Z.of_nat (List.length l).

Definition _open_group_count_for_strategy (s : StrategyState) (strategy : string) : Z :=
  count_of (filter (fun g => String.eqb (_group_strategy_key g) strategy) (_open_groups s)).

Definition _open_group_count_for_currency (s : StrategyState) (currency : string) (strategy : option string) : Z :=
  count_of (filter (fun g => String.eqb g.(Group.currency) (upper currency)
                             && match strategy with Some t => String.eqb (_group_strategy_key g) t | None => true end) (_open_groups s)).

Definition _strategy_at_concurrent_limit (s : StrategyState) (strategy : string) : bool :=
  (0 <? c.(max_concurrent_groups))%Z && (c.(max_concurrent_groups) <=? _open_group_count_for_strategy s strategy)%Z.

Definition _strategy_at_currency_limit (s : StrategyState) (strategy currency : string) (elevated : bool) : bool :=
  let cap := effective_max_groups_per_currency e elevated in
  (0 <? cap)%Z && (cap <=? _open_group_count_for_currency s currency (Some strategy))%Z.

Definition _strategy_at_book_limit (s : StrategyState) (book : string) (strategy : option string) : bool :=
  (0 <? c.(max_groups_per_book))%Z && (c.(max_groups_per_book) <=? Z.of_nat (open_group_count_for_book (_open_groups s) book strategy))%Z.

Definition _covered_call_open_group_count (s : StrategyState) (currency : string) : Z :=
  _open_group_count_for_currency s (upper currency) (Some "covered_call").

Definition _covered_call_spot_exit_blocks_entry (s : StrategyState) (currency : string) : bool :=
  runs "covered_call" && (pending_spot_exit_remaining_native s.(groups) currency >? 0).

Definition _naked_blocks_second_currency (s : StrategyState) (currency : string) : bool :=
  if negb c.(naked_block_second_ccy_on_mark_loss) || negb (runs "naked_short") then false
  else
    let target := upper currency in
    if is_empty target then false
    else
      let open_naked := filter (fun g => String.eqb (_group_strategy_key g) "naked_short" && negb (is_cash_secured_group g)) (_open_groups s) in
      if negb (existsb (fun g => mark_loss_amount g >? 0) open_naked) then false
      else negb (mem_str target (map (fun g => upper g.(Group.currency)) open_naked)).

(** Whether a new short of a currency is to be skipped. *)
Definition _naked_currency_entry_skip_reason (sel : selector) (s : StrategyState) (currency : string) : bool :=
  if negb (runs "naked_short") then false
  else
    let ccy := upper currency in
    if is_empty ccy then false
    else naked_below_ma_reason_zh e sel ccy || _naked_blocks_second_currency s ccy.

(** ** The scan *)

Definition halted_everywhere : bool := nonempty snapshot.(halt_entries_by_book) && forallb snd snapshot.(halt_entries_by_book).

(** The switches that end a scan before it begins. *)
Definition scan_closed (s : StrategyState) : bool :=
  c.(gated).(pause_new_entries)
  || snapshot.(portfolio_wide_entry_halt) || (snapshot.(open_max_loss_pct) >=? c.(gated).(halt_open_max_loss_pct))
  || halted_everywhere
  || ((0 <? c.(max_concurrent_groups))%Z && nonempty _active_scan_strategy_keys
      && forallb (_strategy_at_concurrent_limit s) _active_scan_strategy_keys).

(** [context.regime_by_currency.get(currency, RiskRegime.CRISIS)] *)
Definition regime_at (currency : string) : RiskRegime := regime_of regimes currency.
Definition is_elevated (currency : string) : bool := regime_eqb (regime_at currency) ELEVATED.

Definition at_limit (s : StrategyState) (strategy currency : string) : bool :=
  _strategy_at_currency_limit s strategy currency (is_elevated currency).

(** Whether an underlying is passed over. *)
Definition currency_closed (sel : selector) (s : StrategyState) (currency : string) : bool :=
  regime_blocks_new_entries (regime_at currency) (get_or currency [] snapshot.(regime_detail_by_currency)) c.(gated).(elevated_entry)
  || trend_pause_reason_zh e sel currency
  || _naked_currency_entry_skip_reason sel s currency
  || (if runs "bull_put_spread" then at_limit s "bull_put_spread" currency
      else if runs "covered_call" then at_limit s "covered_call" currency || _covered_call_spot_exit_blocks_entry s currency
      else false).

Definition collateral_of (currency : string) (i : OptionInstrument) : string :=
  if _linear_usdc_mode then "USDC" else str_or i.(settlement_currency) currency.

(** The markets of a currency per collateral, by name of the collateral. *)
Definition markets_by_collateral (currency : string) (ms : list OptionInstrument) : list (string * list OptionInstrument) :=
  map (fun coll => (coll, filter (fun i => String.eqb (collateral_of currency i) coll) ms))
    (sorted_strings (fold_left add_new (map (collateral_of currency) ms) [])).

(** Initial and maintenance margin of the book at their targets. *)
Definition margins_used (s : StrategyState) (currency collateral : string) : bool :=
  let shielded := runs "covered_call" &&
    _covered_call_book_im_mm_shielded c.(gated) s summaries collateral
      (_available_covered_call_quantity_from_summaries s summaries currency) in
  match dict_get collateral snapshot.(margin_ratios_by_currency) with
  | Some (im, mm) => negb shielded && ((im >=? c.(book_im_target)) || (mm >=? c.(book_mm_target)))
  | None => false
  end.

(** Whether a book is passed over for a currency. *)
Definition book_closed (s : StrategyState) (now_ms : Z) (currency collateral : string) : bool :=
  underlying_entry_halted snapshot currency
  || get_or collateral false snapshot.(halt_entries_by_book)
  || _book_entry_cooldown_active c.(gated) s collateral now_ms
  || _strategy_at_book_limit s collateral None
  || match dict_get collateral summaries with Some a => a.(equity) <=? 0 | None => true end
  || margins_used s currency collateral.

(** A candidate that is new and returns enough. *)
Definition wanted_candidate (sel : selector) (s : StrategyState) (currency : string) (k : NakedPutCandidate) : bool :=
  negb (_naked_candidate_matches_open_group s k) && negb (k.(net_apr) <? effective_min_net_apr e sel currency).

Definition naked_scan (option_type : string) (ms : list OptionInstrument) (currency collateral : string) (a : AccountSummary)
    (existing : list (Z * Q)) (index : Q) (sel : selector) : M (selector * list NakedPutCandidate) :=
  let* s := read state in
  if _strategy_at_concurrent_limit s "naked_short" || at_limit s "naked_short" currency then ret (sel, [])
  else
    let* t := now clock in
    let* found := build_naked_short_candidates e t option_type ms (regime_at currency) a.(equity) a.(maintenance_margin) collateral currency existing (Some index) sel in
    ret (fst found, filter (wanted_candidate sel s currency) (snd found)).

Definition scan_naked (ms : list OptionInstrument) (currency collateral : string) (a : AccountSummary) (existing : list (Z * Q)) (index : Q)
    (sel : selector) : M (selector * list NakedPutCandidate) :=
  let* puts := (if e.(enable_short_put) then naked_scan "put" ms currency collateral a existing index sel else ret (sel, [])) in
  let sel := fst puts in
  if e.(enable_short_call) && (negb e.(short_call_fallback_only) || negb (nonempty (snd puts))) then
    let* calls := naked_scan "call" ms currency collateral a existing index sel in
    ret (fst calls, snd puts ++ snd calls)
  else ret (sel, snd puts).

Definition scan_spreads (ms : list OptionInstrument) (currency collateral : string) (a : AccountSummary) (existing : list (Z * Q))
    (sel : selector) : M (selector * list NakedPutCandidate) :=
  let* s := read state in
  if _strategy_at_concurrent_limit s "bull_put_spread" then ret (sel, [])
  else
    let* t := now clock in
    let* found := build_bull_put_spread_candidates e t ms (regime_at currency) a.(equity) a.(maintenance_margin) collateral currency existing sel in
    ret (fst found, filter (wanted_candidate sel s currency) (snd found)).

Definition scan_covered (ms : list OptionInstrument) (currency collateral : string) (a : AccountSummary) (index : Q)
    (sel : selector) : M (selector * list NakedPutCandidate) :=
  let* s := read state in
  if _strategy_at_concurrent_limit s "covered_call" then ret (sel, [])
  else
    let* t := now clock in
    let* found := build_covered_call_candidates e t ms (regime_at currency) collateral currency
                    (_available_covered_call_quantity_from_summaries s summaries currency) a.(equity) (Some index)
                    (_covered_call_open_group_count s currency) sel in
    ret (fst found, filter (wanted_candidate sel s currency) (snd found)).

Definition scan_book (currency : string) (index : Q) (sel : selector) (book : string * list OptionInstrument) : M (selector * list NakedPutCandidate) :=
  let '(collateral, ms) := book in
  let* s := read state in
  let* t := now clock in
  if book_closed s (t / 1000) currency collateral then ret (sel, [])
  else
    match dict_get collateral summaries with
    | None => ret (sel, [])
    | Some a =>
        let* existing := _naked_im_by_expiry collateral in
        if runs "bull_put_spread" then scan_spreads ms currency collateral a existing sel
        else if runs "covered_call" then scan_covered ms currency collateral a index sel
        else scan_naked ms currency collateral a existing index sel
    end.

(** A loop that hands the selector on and gathers the candidates. *)
Fixpoint gather {A} (f : selector -> A -> M (selector * list NakedPutCandidate)) (sel : selector) (l : list A) : M (selector * list NakedPutCandidate) :=
  match l with
  | [] => ret (sel, [])
  | x :: rest =>
      let* found := f sel x in
      let* more := gather f (fst found) rest in
      ret (fst more, snd found ++ snd more)
  end.

Definition scan_currency (sel : selector) (currency : string) : M (selector * list NakedPutCandidate) :=
  let* s := read state in
  if currency_closed sel s currency then ret (sel, [])
  else
    let* index := _currency_index_price currency in
    let* markets := read markets_by_currency in
    gather (scan_book currency index) sel (markets_by_collateral currency (get_or currency [] markets)).

(** [currencies or self.config.managed_currencies], [top_n or self.config.top_n] *)
Definition selected (currencies : list string) : list string :=
  match currencies with [] => e.(trading).(engine).(managed_currencies) | l => l end.
Definition scan_limit (asked : Z) : Z := if (asked =? 0)%Z then c.(top_n) else asked.

Definition _scan_candidates (currencies : list string) (asked : Z) (sel : selector) : M (selector * list NakedPutCandidate) :=
  let* s := read state in
  if scan_closed s then ret (sel, [])
  else
    let* found := gather scan_currency sel (selected currencies) in
    ret (take_top_scan_candidates e (snd found) (scan_limit asked) (fst found)).

(** ** Entering the best *)

Definition enterable (sel : selector) (s : StrategyState) (k : NakedPutCandidate) : bool :=
  negb (candidate_entry_halted snapshot k.(cand_collateral) k.(cand_currency))
  && negb (runs "covered_call" && truthy (upper k.(cand_currency)) && _covered_call_spot_exit_blocks_entry s (upper k.(cand_currency)))
  && negb (_naked_currency_entry_skip_reason sel s k.(cand_currency)).

Definition _filter_enterable_candidates (sel : selector) (s : StrategyState) (ks : list NakedPutCandidate) : list NakedPutCandidate :=
  if c.(gated).(pause_new_entries) then [] else filter (enterable sel s) ks.

(** [f"{value:04d}"] *)
Fixpoint zeros (n : nat) : string := match n with O => EmptyString | S n => String "0" (zeros n) end.
Definition four_digits (value : Z) : string :=
  if (value <? 0)%Z then let t := print_int (- value) in ("-" ++ zeros (3 - String.length t) ++ t)%string
  else let t := print_int value in (zeros (4 - String.length t) ++ t)%string.

Definition _next_group_id : M string :=
  let* s := read state in
  let* _ := modify (fun w => set_state (set_next_group_id (s.(next_group_id) + 1) s) w) in
  ret (four_digits s.(next_group_id)).

Definition entry_book_of (k : NakedPutCandidate) : string := upper (str_or k.(cand_collateral) (str_or k.(cand_currency) "USDC")).

(** The requests a dry run shows. *)
Definition dry_run (k : NakedPutCandidate) (group_id : string) : M entry_result :=
  let labels := spread_labels e k.(cand_currency) group_id in
  let* short := _entry_naked_short_request k (fst labels) false k.(cand_quantity) in
  let strategy := str_or k.(cand_strategy) "naked_short" in
  let action := if String.eqb strategy "naked_short" then ("dry_run_enter_naked_" ++ k.(cand_option_type))%string else ("dry_run_enter_" ++ strategy)%string in
  let* sent := (match k.(long_leg) with
                | Some leg =>
                    if String.eqb strategy "bull_put_spread" then
                      let* long := _entry_long_buy_request leg (snd labels) k.(cand_quantity) in ret [long; short]
                    else ret [short]
                | None => ret [short]
                end) in
  ret {| entry_action := action; entry_reason := ""; entry_group := None; entry_long_state := PNone; entry_attempts := sent;
         entry_answers := []; entry_leg_risk := None |}.

Definition skipped (action reason : string) : entry_result :=
  {| entry_action := action; entry_reason := reason; entry_group := None; entry_long_state := PNone; entry_attempts := []; entry_answers := [];
     entry_leg_risk := None |}.

Definition _enter_best_from_candidates (sel : selector) (ks : list NakedPutCandidate) (live : bool) : M entry_result :=
  if c.(gated).(pause_new_entries) then ret (skipped "entry_skipped" PAUSE_NEW_ENTRIES_REASON)
  else
    match ks with
    | [] => ret (skipped "no_candidate" "")
    | k :: _ =>
        let* s := read state in
        if _naked_candidate_matches_open_group s k then ret (skipped "entry_skipped" "duplicate_open_group")
        else
          let* t := now clock in
          if _book_entry_cooldown_active c.(gated) s (entry_book_of k) (t / 1000) then ret (skipped "entry_skipped" "entry_cooldown_active")
          else
            let* group_id := _next_group_id in
            if negb live then dry_run k group_id
            else if String.eqb k.(cand_strategy) "bull_put_spread" then _execute_bull_put_spread_entry e summaries regimes clock sel k group_id
            else _execute_naked_put_entry e summaries regimes clock sel k group_id
    end.

(** The group of an entry joins the state. *)
Definition adopt (r : entry_result) : M unit :=
  match r.(entry_group) with
  | Some g => modify (fun w => set_state (set_groups (w.(state).(groups) ++ [g]) w.(state)) w)
  | None => ret tt
  end.

(** [enter_best] between the load and the save. *)
Definition enter_best (currencies : list string) (live : bool) (sel : selector) : M entry_result :=
  let* found := _scan_candidates currencies 1 sel in
  let* s := read state in
  let* r := _enter_best_from_candidates (fst found) (_filter_enterable_candidates (fst found) s (snd found)) live in
  let* _ := adopt r in
  ret r.

(** ** Topping up *)

(** [try: m except KeyError: None] *)
Definition if_listed {A} (m : M A) : M (option A) := fun w =>
  match m w with
  | (w', Ret a) => (w', Ret (Some a))
  | (w', Exn KeyError) => (w', Ret None)
  | (w', Exn x) => (w', Exn x)
  | (w', OutOfFuel) => (w', OutOfFuel)
  end.

Definition topup_action (name : string) (g : TradeGroup) (more : list (string * pyobj)) : action :=
  [("action", PStr name); ("group_id", PStr g.(group_id)); ("instrument", PStr g.(short_instrument_name))] ++ more.

(** The margin in each expiry without the group's own. *)
Definition without_own (expiry : Z) (own : Q) (totals : list (Z * Q)) : list (Z * Q) :=
  map (fun kv => if (fst kv =? expiry)%Z then (fst kv, dmax (snd kv ⊖ own) 0) else kv) totals.

(** The sale of what the group is topped up by. *)
Definition topup_sale (live : bool) (sel : selector) (g : TradeGroup) (k : NakedPutCandidate) (new_max topup : Q) : M (list action) :=
  if negb live then
    ret [topup_action "dry_run_topup_naked" g [("current_qty", PDec g.(Group.quantity)); ("topup_qty", PDec topup); ("new_total_qty", PDec new_max)]]
  else
    let* x := _execute_repriced_naked_short e summaries regimes clock sel k
                (str_or g.(short_label) ("trial_" ++ g.(Group.currency) ++ "_" ++ g.(group_id) ++ "_short")%string) topup in
    if x.(Entry.filled_amount) <=? 0
    then ret [topup_action "topup_unfilled" g [("topup_qty", PDec topup); ("reason", PStr x.(why))]]
    else ret [topup_action "topup_naked_executed" g
                [("current_qty", PDec g.(Group.quantity)); ("topup_filled", PDec x.(Entry.filled_amount));
                 ("new_total_qty", PDec (g.(Group.quantity) ⊕ x.(Entry.filled_amount))); ("reason", PStr x.(why))]].

Definition topup_group (live : bool) (sel : selector) (g : TradeGroup) : M (selector * list action) :=
  let r := regime_at g.(Group.currency) in
  if regime_eqb r CRISIS || (runs "naked_short" && negb (regime_eqb r NORMAL)) then ret (sel, [])
  else
    let collateral := _group_collateral_currency g in
    match dict_get collateral summaries with
    | None => ret (sel, [])
    | Some a =>
        if a.(equity) <=? 0 then ret (sel, [])
        else
          let* listed := if_listed (_find_instrument g.(short_instrument_name)) in
          match listed with
          | None => ret (sel, [])
          | Some i =>
              let* t := now clock in
              if instrument_dte t i <? inject_Z e.(entry_time_exit_dte) then ret (sel, [])
              else
                let* b := _get_orderbook g.(short_instrument_name) in
                let* totals := _naked_im_by_expiry collateral in
                let* own := _group_im_in_collateral g in
                let totals := without_own g.(expiration_timestamp_ms) own totals in
                let option_type := str_or g.(Group.option_type) "put" in
                let side := if is_call option_type then "call" else "put" in
                let* found := build_naked_short_candidates e t side [i] r a.(equity) a.(maintenance_margin) collateral g.(Group.currency) totals None sel in
                let sel := fst found in
                match snd found with
                | [] => ret (sel, [])
                | best :: _ =>
                    let topup := best.(cand_quantity) ⊖ g.(Group.quantity) in
                    if topup <? i.(min_trade_amount) then ret (sel, [])
                    else
                      let z := {| summary_equity := a.(equity); summary_maintenance_margin := a.(maintenance_margin); sizing_collateral := collateral;
                                  sizing_currency := g.(Group.currency);
                                  existing_im_for_expiry := match at_key g.(expiration_timestamp_ms) totals with Some v => v | None => 0 end |} in
                      let checked := refresh_naked_candidate e t sel option_type i b r z topup in
                      match fst (snd checked) with
                      | None => ret (fst checked, [])
                      | Some k =>
                          let* actions := topup_sale live (fst checked) g k best.(cand_quantity) topup in
                          ret (fst checked, actions)
                      end
                end
          end
    end.

Fixpoint topup_each (live : bool) (sel : selector) (gs : list TradeGroup) : M (selector * list action) :=
  match gs with
  | [] => ret (sel, [])
  | g :: rest =>
      let* one := topup_group live sel g in
      let* more := topup_each live (fst one) rest in
      ret (fst more, snd one ++ snd more)
  end.

Definition _topup_existing_naked_groups (live : bool) (sel : selector) : M (selector * list action) :=
  if negb e.(enable_naked_topup) then ret (sel, [])
  else let* s := read state in topup_each live sel (_open_groups s).

(** What a cycle of [run] does after managing: the entry, the group it adds, and the
    top-up where nothing was found. *)
Definition enter_cycle (currencies : list string) (live : bool) (sel : selector) : M (entry_result * list action) :=
  let* found := _scan_candidates currencies c.(top_n) sel in
  let sel := fst found in
  let* s := read state in
  let* r := (match _filter_enterable_candidates sel s (snd found) with
             | k :: _ => _enter_best_from_candidates sel [k] live
             | [] => ret (skipped "entry_skipped" "")
             end) in
  let* _ := adopt r in
  if negb (nonempty (snd found)) && negb (snapshot.(hard_derisk) || snapshot.(cooling_down)) && negb (String.eqb r.(entry_action) "naked_put_entered") then
    let* topped := _topup_existing_naked_groups live sel in ret (r, snd topped)
  else ret (r, []).
End Scan.
