(* ===== verification/ScanFacts.v ===== *)
(** What a scan guarantees before anything is sold: it sends nothing and changes no state,
    and every candidate it returns has passed each of the gates on entries. *)

From S2P Require Import Prelude Sorting Dec PyStr Utils Fees TradeApr Group Ledger PyObj GroupJson StateJson Market ExitEval VolMetrics EntryGates ExchangeErrors Runtime HedgeOrders Hedge Close GroupClose GroupExit DayState Portfolio Triples EntryConfig Selector Ranking Entry EntryFacts Builders BuilderFacts Scan.
Local Open Scope string_scope.
Local Open Scope Q_scope.
Local Open Scope dec_scope.
Local Open Scope bool_scope.
Local Open Scope run_scope.
Local Open Scope list_scope.

(** ** Looking *)

(** Code that sends no request and leaves the state alone. *)
Definition looks {A} (m : M A) : Prop := forall w, (fst (m w)).(state) = w.(state) /\ (fst (m w)).(requests) = w.(requests).

Lemma looks_ret {A} (a : A) : looks (ret a).
Proof. intros w. split; reflexivity. Qed.

Lemma looks_lift {A} (o : outcome A) : looks (lift o).
Proof. intros w. split; reflexivity. Qed.

Lemma looks_read {A} (f : runtime -> A) : looks (read f).
Proof. intros w. split; reflexivity. Qed.

Lemma looks_bind {A B} (m : M A) (k : A -> M B) : looks m -> (forall a, looks (k a)) -> looks (bind m k).
Proof.
  intros Hm Hk w. rewrite bind_fst. destruct (Hm w) as [S R]. destruct (snd (m w)) as [a|e|]; [|now split..].
  destruct (Hk a (fst (m w))) as [S' R']. split; congruence.
Qed.

Lemma looks_attempt {A} (m : M A) : looks m -> looks (attempt m).
Proof. intros H w. specialize (H w). unfold attempt. destruct (m w) as [w' [a| |]]; exact H. Qed.

Create HintDb looking.
#[export] Hint Resolve looks_ret looks_lift looks_read : looking.

Ltac look :=
  repeat first
    [ solve [auto with looking nocore]
    | progress cbv zeta
    | apply looks_bind; [|intros ?]
    | apply looks_attempt
    | match goal with |- looks (match ?x with _ => _ end) => destruct x end ].

Section Looking.
Context {D : Desk}.

Lemma looks_orderbook name : looks (_get_orderbook name).
Proof. unfold _get_orderbook. look. intros w. split; reflexivity. Qed.
#[local] Hint Resolve looks_orderbook : looking.

Lemma looks_index currency : looks (_currency_index_price currency).
Proof. unfold _currency_index_price. look. Qed.
#[local] Hint Resolve looks_index : looking.

Lemma looks_im_totals target totals gs : looks (im_totals target totals gs).
Proof.
  revert totals. induction gs as [|g rest IH]; intros totals; cbn [im_totals]; [look|]. destruct (negb _); [apply IH|].
  apply looks_bind; [unfold _group_im_in_collateral; look | intros; apply IH].
Qed.

Lemma looks_im collateral : looks (_naked_im_by_expiry collateral).
Proof. unfold _naked_im_by_expiry. apply looks_bind; [apply looks_read | intros; apply looks_im_totals]. Qed.

Lemma looks_scan {A} skip (build : OptionInstrument -> OrderBookSnapshot -> option A) ms : looks (scan_books skip build ms).
Proof. induction ms as [|i rest IH]; cbn [scan_books]; [look|]. destruct (skip i); [exact IH|]. look. Qed.
#[local] Hint Resolve looks_im looks_scan : looking.

Lemma looks_shorts c t ot ms r eq mm coll ccy ex ix s : looks (build_naked_short_candidates c t ot ms r eq mm coll ccy ex ix s).
Proof. unfold build_naked_short_candidates. look. Qed.

Lemma looks_covered c t ms r coll ccy av eq ix n s : looks (build_covered_call_candidates c t ms r coll ccy av eq ix n s).
Proof. unfold build_covered_call_candidates. look. Qed.

Lemma looks_spreads_for c t s ccy ms eq ex ks : looks (spreads_for c t s ccy ms eq ex ks).
Proof.
  induction ks as [|k rest IH]; cbn [spreads_for]; [look|]. destruct (find _ _); [|exact IH]. unfold _long_put_candidates_for_short. look.
Qed.
#[local] Hint Resolve looks_shorts looks_spreads_for : looking.

Lemma looks_spreads c t ms r eq mm coll ccy ex s : looks (build_bull_put_spread_candidates c t ms r eq mm coll ccy ex s).
Proof. unfold build_bull_put_spread_candidates, build_naked_short_put_candidates. look. Qed.
End Looking.

(** ** What the builders write into a candidate *)

Definition made_for (currency collateral : string) (k : NakedPutCandidate) : Prop := k.(cand_currency) = currency /\ k.(cand_collateral) = collateral.

Lemma short_at_made c t s ot r a i b k : short_at c t s ot r a i b = Some k -> made_for a.(sizing_currency) a.(sizing_collateral) k.
Proof.
  unfold short_at. destruct (_naked_short_option_rejection_reason _ _ _ _ _ _); [discriminate|].
  destruct (_ || _); [discriminate|]. destruct (unit_margin _ _ _ _ _) as [im mm]. destruct (im <=? 0); [discriminate|].
  destruct (_ <? _); [discriminate|]. set (q := sized_to_caps _ _ _ _ _ _ _). unfold _try_build_naked_for_quantity. cbv zeta.
  destruct (unit_margin ot i b (effective_mark b) (sizing_collateral a)) as [im' mm'].
  repeat match goal with |- context [if ?g then refused _ else _] => destruct g; [discriminate|] end.
  destruct (first_reason _ None); [discriminate|]. cbn [fst]. intros E. apply some_inv in E. subst k.
  unfold naked_candidate. destruct (preferred_delta_bounds c _ ot), (preferred_otm_bounds c _ ot). now split.
Qed.

Lemma covered_at_made c t s r a av n i b k : covered_at c t s r a av n i b = Some k -> made_for a.(sizing_currency) a.(sizing_collateral) k.
Proof.
  unfold covered_at. destruct (_naked_short_call_rejection_reason _ _ _ _ _); [discriminate|]. cbv zeta.
  destruct (_ <? _); [discriminate|]. unfold _try_build_covered_call_for_quantity. cbv zeta.
  repeat match goal with |- context [if ?g then refused _ else _] => destruct g; [discriminate|] end.
  cbn [fst]. intros E. apply some_inv in E. subst k. unfold covered_candidate. destruct (preferred_call_delta_bounds c _). now split.
Qed.

Section Made.
Context {D : Desk}.
Variables (c : entry_config) (t : Z) (ms : list OptionInstrument) (r : RiskRegime) (collateral currency : string) (s : selector).

(** A builder leaves the readings of the selector alone. *)
Definition activated (s' : selector) : Prop := s' = _set_active_regime r s.

Lemma shorts_made ot eq mm ex ix w w' s' ks :
  build_naked_short_candidates c t ot ms r eq mm collateral currency ex ix s w = (w', Ret (s', ks)) -> activated s' /\ Forall (made_for currency collateral) ks.
Proof.
  intros E. destruct (scanned_shorts _ _ _ _ _ _ _ _ _ _ _ _ _ _ _ _ _ E) as (-> & _ & F). split; [reflexivity|].
  eapply Forall_impl; [|exact F]. intros k (i & b & _ & _ & _ & B). exact (short_at_made _ _ _ _ _ _ _ _ _ B).
Qed.

Lemma covered_made av eq ix n w w' s' ks :
  build_covered_call_candidates c t ms r collateral currency av eq ix n s w = (w', Ret (s', ks)) -> activated s' /\ Forall (made_for currency collateral) ks.
Proof.
  intros E. unfold build_covered_call_candidates in E. cbv zeta in E.
  destruct (regime_eqb r CRISIS); [injection E as <- <- <-; split; [reflexivity | constructor]|].
  destruct (negb _); [injection E as <- <- <-; split; [reflexivity | constructor]|].
  destruct (_ || _); [injection E as <- <- <-; split; [reflexivity | constructor]|].
  apply bind_inv in E. destruct E as (w1 & found & E1 & E). injection E as <- <- <-. split; [reflexivity|].
  apply Forall_forall. intros k I. apply (Permutation_in _ (Permutation_sym (ranked_perm c _ found))) in I.
  apply (proj1 (Forall_forall _ _) (scan_found _ _ _ _ _ _ E1)) in I. destruct I as (i & b & _ & _ & _ & B). exact (covered_at_made _ _ _ _ _ _ _ _ _ _ B).
Qed.

Lemma spread_at_made k0 si sb eq im m k : made_for currency collateral k0 -> spread_of c t s k0 si sb eq im m = Some k -> made_for currency collateral k.
Proof.
  intros H E. destruct m as [li lb]. unfold spread_of in E. cbv zeta in E. destruct (dltb _ _) in E; [discriminate E|].
  destruct (try_spread_spec _ _ _ _ _ _ _ _ _ _ _ _ E) as (apr & -> & _). unfold spread_candidate.
  destruct (preferred_put_delta_bounds c _), (preferred_put_otm_bounds c _). exact H.
Qed.

Lemma spreads_for_made eq ex shorts : Forall (made_for currency collateral) shorts -> forall w w' l,
  spreads_for c t s currency ms eq ex shorts w = (w', Ret l) -> Forall (made_for currency collateral) l.
Proof.
  induction 1 as [|k0 rest H _ IH]; intros w w' l E; cbn [spreads_for] in E; [injection E as <- <-; constructor|].
  destruct (find _ _) as [si|]; [|exact (IH _ _ _ E)]. do 2 (apply bind_inv in E; destruct E as (? & ? & _ & E)).
  apply bind_inv in E. destruct E as (w3 & more & E3 & E). injection E as <- <-. specialize (IH _ _ _ E3).
  destruct (best_spread _ _ _ _ _ _ _ _ _) as [k|] eqn:B; [|exact IH]. constructor; [|exact IH]. unfold best_spread in B.
  match type of B with fold_left (fun best m => better_spread best (?f m)) ?l None = _ => destruct (fold_better f l None) as ([O|(m & _ & O)] & _) end; rewrite B in O;
    [discriminate O | exact (spread_at_made _ _ _ _ _ _ _ H O)].
Qed.
End Made.

Lemma spreads_made {D : Desk} c t ms r collateral currency eq mm ex s w w' s' ks :
  build_bull_put_spread_candidates c t ms r eq mm collateral currency ex s w = (w', Ret (s', ks)) -> activated r s s' /\ Forall (made_for currency collateral) ks.
Proof.
  intros E. unfold build_bull_put_spread_candidates in E. apply bind_inv in E. destruct E as (w1 & [s1 shorts] & E1 & E). cbv zeta in E. cbn [fst snd] in E.
  apply bind_inv in E. destruct E as (w2 & found & E2 & E). injection E as <- <- <-. destruct (shorts_made _ _ _ _ _ _ _ _ _ _ _ _ _ _ _ _ E1) as [A F].
  split; [exact A|]. pose proof (spreads_for_made _ _ _ _ _ _ _ _ _ F _ _ _ E2) as G. apply Forall_forall. intros k I.
  apply (Permutation_in _ (Permutation_sym (ranked_perm c _ found))) in I. exact (proj1 (Forall_forall _ _) G k I).
Qed.

(** ** The gates *)

(** The readings a scan goes by; builders change only the regime of the last call. *)
Definition same_readings (a b : selector) : Prop :=
  a.(_iv_rank_by_currency) = b.(_iv_rank_by_currency) /\ a.(_iv_minus_rv_by_currency) = b.(_iv_minus_rv_by_currency) /\ a.(_trend_by_currency) = b.(_trend_by_currency).

Lemma same_readings_apr e a b ccy : same_readings a b -> effective_min_net_apr e b ccy = effective_min_net_apr e a ccy.
Proof. intros (R & V & _). unfold effective_min_net_apr, apr_signal, vrp_signal. now rewrite R, V. Qed.

Lemma same_readings_below e a b ccy : same_readings a b -> naked_below_ma_reason_zh e b ccy = naked_below_ma_reason_zh e a ccy.
Proof. intros (_ & _ & T). unfold naked_below_ma_reason_zh. now rewrite T. Qed.

Lemma same_readings_pause e a b ccy : same_readings a b -> trend_pause_reason_zh e b ccy = trend_pause_reason_zh e a ccy.
Proof. intros (_ & _ & T). unfold trend_pause_reason_zh. now rewrite T. Qed.

Section Gates.
Context {D : Desk}.
Variables (c : scan_config) (snapshot : PortfolioSnapshot) (summaries : dict AccountSummary) (regimes : dict RiskRegime) (clock : list request -> Z).
Variables (s : StrategyState) (h : list request) (sel : selector).
Let e : entry_config := c.(entries).
Let now_ms : Z := (clock h / 1000)%Z.

(** The strategy the scan runs. *)
Definition running : string :=
  if runs c "bull_put_spread" then "bull_put_spread" else if runs c "covered_call" then "covered_call" else "naked_short".

(** All the gates a candidate has passed. *)
Record admitted (k : NakedPutCandidate) : Prop := {
  adm_regime : regime_blocks_new_entries (regime_of regimes k.(cand_currency)) (get_or k.(cand_currency) [] snapshot.(regime_detail_by_currency))
                 c.(gated).(elevated_entry) = false;
  adm_trend : trend_pause_reason_zh e sel k.(cand_currency) = false /\ _naked_currency_entry_skip_reason c sel s k.(cand_currency) = false;
  adm_underlying : underlying_entry_halted snapshot k.(cand_currency) = false;
  adm_book : get_or k.(cand_collateral) false snapshot.(halt_entries_by_book) = false;
  adm_cooldown : _book_entry_cooldown_active c.(gated) s k.(cand_collateral) now_ms = false;
  adm_book_room : (0 < c.(max_groups_per_book))%Z -> (Z.of_nat (open_group_count_for_book (_open_groups s) k.(cand_collateral) None) < c.(max_groups_per_book))%Z;
  adm_room : (0 < c.(max_concurrent_groups))%Z -> (_open_group_count_for_strategy s running < c.(max_concurrent_groups))%Z;
  adm_currency_room : let cap := effective_max_groups_per_currency e (is_elevated regimes k.(cand_currency)) in
    (0 < cap)%Z -> (_open_group_count_for_currency s k.(cand_currency) (Some running) < cap)%Z;
  adm_account : exists a, dict_get k.(cand_collateral) summaries = Some a /\ 0 < a.(equity);
  adm_margins : margins_used c snapshot summaries s k.(cand_currency) k.(cand_collateral) = false;
  adm_new : _naked_candidate_matches_open_group s k = false;
  adm_return : effective_min_net_apr e sel k.(cand_currency) <= k.(net_apr);
}.

Definition at_rest (w : runtime) : Prop := w.(state) = s /\ w.(requests) = h.

Lemma rest_looks {A} (m : M A) : looks m -> stable at_rest m.
Proof. intros L w [S R]. destruct (L w) as [S' R']. split; congruence. Qed.

(** A stage of the scan: it looks, keeps the readings, and its candidates are in [P]. *)
Definition stage (P : NakedPutCandidate -> Prop) (f : selector -> M (selector * list NakedPutCandidate)) : Prop :=
  forall a, same_readings sel a -> triple at_rest (f a) (fun out w => at_rest w /\ same_readings sel (fst out) /\ Forall P (snd out)) at_rest.

Lemma stage_none P a : same_readings sel a -> triple at_rest (ret (a, [] : list NakedPutCandidate)) (fun out w => at_rest w /\ same_readings sel (fst out) /\ Forall P (snd out)) at_rest.
Proof. intros R. apply triple_ret. intros w H. repeat split; try apply H; try apply R; constructor. Qed.

Lemma stage_gather {A} P (f : selector -> A -> M (selector * list NakedPutCandidate)) l :
  (forall x, In x l -> stage P (fun a => f a x)) -> stage P (fun a => gather f a l).
Proof.
  induction l as [|x rest IH]; intros H a R; cbn [gather]; [now apply stage_none|].
  eapply triple_bind; [exact (H x (or_introl eq_refl) a R)|]. intros [a1 ks]. cbn [fst snd]. intros w (Hw & R1 & F1).
  assert (T := IH (fun y I => H y (or_intror I)) a1 R1 w Hw). rewrite bind_snd, bind_fst.
  destruct (snd (gather f a1 rest w)) as [[a2 ls]|x0|]; [|exact T..]. destruct T as (H2 & R2 & F2). cbn [fst snd ret].
  split; [exact H2|]. split; [exact R2|]. apply Forall_app. now split.
Qed.

(** What a builder finds, cut down to what is new and returns enough. *)
Lemma stage_filter (P : NakedPutCandidate -> Prop) (m : M (selector * list NakedPutCandidate)) ccy coll a :
  looks m -> same_readings sel a ->
  (forall w w' a' ks, m w = (w', Ret (a', ks)) -> (exists r, activated r a a') /\ Forall (made_for ccy coll) ks) ->
  (forall k, made_for ccy coll k -> wanted_candidate c a s ccy k = true -> P k) ->
  triple at_rest (let* found := m in ret (fst found, filter (wanted_candidate c a s ccy) (snd found)))
    (fun out w => at_rest w /\ same_readings sel (fst out) /\ Forall P (snd out)) at_rest.
Proof.
  intros L R B H w Hw. pose proof (rest_looks m L w Hw) as Hm. specialize (B w (fst (m w))). rewrite bind_snd, bind_fst. destruct (m w) as [w' [[a' ks]|x|]]; cbn [fst snd] in *; [|exact Hm..].
  destruct (B a' ks eq_refl) as [[r ->] F]. cbn [ret fst snd]. split; [exact Hm|]. split; [exact R|].
  apply Forall_forall. intros k I. apply filter_In in I. destruct I as [I W]. apply H; [|exact W]. exact (proj1 (Forall_forall _ _) F k I).
Qed.

Lemma zlimit_room cap n : (0 <? cap)%Z && (cap <=? n)%Z = false -> (0 < cap)%Z -> (n < cap)%Z.
Proof. intros E P. apply andb_false_iff in E. destruct E as [E|E]; [apply Z.ltb_ge in E; lia | now apply Z.leb_gt in E]. Qed.

Lemma admits ccy coll k :
  currency_closed c snapshot regimes sel s ccy = false -> book_closed c snapshot summaries s now_ms ccy coll = false ->
  _strategy_at_concurrent_limit c s running = false -> at_limit c regimes s running ccy = false ->
  made_for ccy coll k -> wanted_candidate c sel s ccy k = true -> admitted k.
Proof.
  unfold currency_closed, book_closed, wanted_candidate. intros C B L A [<- <-] W. dhyps.
  constructor; auto.
  - now apply zlimit_room.
  - now apply zlimit_room.
  - cbv zeta. now apply zlimit_room.
  - destruct (dict_get _ summaries) as [acc|]; [|discriminate]. exists acc. split; [reflexivity|]. now apply dleb_false.
Qed.

Lemma same_wanted a ccy k : same_readings sel a -> wanted_candidate c a s ccy k = wanted_candidate c sel s ccy k.
Proof. intros R. unfold wanted_candidate. fold e. now rewrite (same_readings_apr e sel a ccy R). Qed.

Lemma same_closed a ccy : same_readings sel a -> currency_closed c snapshot regimes a s ccy = currency_closed c snapshot regimes sel s ccy.
Proof.
  intros R. unfold currency_closed, _naked_currency_entry_skip_reason. fold e.
  now rewrite (same_readings_pause e sel a ccy R), (same_readings_below e sel a _ R).
Qed.

Lemma triple_state {A} (f : StrategyState -> M A) P : triple at_rest (f s) P at_rest -> triple at_rest (let* x := read state in f x) P at_rest.
Proof. intros T w Hw. rewrite bind_snd, bind_fst. cbn [read fst snd]. destruct Hw as [S R]. rewrite S. apply T. now split. Qed.

Lemma triple_now {A} (f : Z -> M A) P : triple at_rest (f (clock h)) P at_rest -> triple at_rest (let* t := now clock in f t) P at_rest.
Proof. intros T w Hw. rewrite bind_snd, bind_fst. cbn [now read fst snd]. destruct Hw as [S R]. rewrite R. apply T. now split. Qed.

Section Book.
Variables (ccy coll : string).
Hypothesis Open : currency_closed c snapshot regimes sel s ccy = false.
Hypothesis Book : book_closed c snapshot summaries s now_ms ccy coll = false.

(** A stage that reads the state and the clock, has room, and then filters a builder. *)
Lemma stage_built (strategy : string) (m : selector -> Z -> M (selector * list NakedPutCandidate)) :
  strategy = running -> (forall a t, looks (m a t)) -> at_limit c regimes s strategy ccy = false ->
  (forall a t w w' a' ks, m a t w = (w', Ret (a', ks)) -> (exists r, activated r a a') /\ Forall (made_for ccy coll) ks) ->
  forall a, same_readings sel a -> triple at_rest
    (if _strategy_at_concurrent_limit c s strategy then ret (a, [])
     else let* t := now clock in let* found := m a t in ret (fst found, filter (wanted_candidate c a s ccy) (snd found)))
    (fun out w => at_rest w /\ same_readings sel (fst out) /\ Forall admitted (snd out)) at_rest.
Proof.
  intros -> L A B a R. destruct (_strategy_at_concurrent_limit c s running) eqn:Lim; [now apply stage_none|].
  apply triple_step; [apply rest_looks, looks_read | auto|]. intros t.
  apply stage_filter with coll; [apply L | exact R | apply B|]. intros k M W. rewrite (same_wanted a ccy k R) in W. exact (admits ccy coll k Open Book Lim A M W).
Qed.

Lemma stage_naked_scan option_type ms acc ex index : runs c "bull_put_spread" = false -> runs c "covered_call" = false ->
  stage admitted (naked_scan c regimes clock option_type ms ccy coll acc ex index).
Proof.
  intros N1 N2 a R. unfold naked_scan. apply triple_state. assert (Run : "naked_short" = running) by (unfold running; now rewrite N1, N2).
  destruct (at_limit c regimes s "naked_short" ccy) eqn:Lim; [rewrite orb_true_r; now apply stage_none|]. rewrite orb_false_r.
  apply (stage_built "naked_short" (fun a t => build_naked_short_candidates e t option_type ms (regime_at regimes ccy) acc.(equity) acc.(maintenance_margin) coll ccy ex (Some index) a));
    [exact Run | intros; apply looks_shorts | exact Lim | | exact R].
  intros a0 t w w' a' ks E. destruct (shorts_made _ _ _ _ _ _ _ _ _ _ _ _ _ _ _ _ E) as [Ac F]. split; [eexists; exact Ac | exact F].
Qed.

Lemma stage_scan_naked ms acc ex index : runs c "bull_put_spread" = false -> runs c "covered_call" = false ->
  stage admitted (scan_naked c regimes clock ms ccy coll acc ex index).
Proof.
  intros N1 N2 a R. unfold scan_naked. eapply triple_bind with (R := fun out w => at_rest w /\ same_readings sel (fst out) /\ Forall admitted (snd out)).
  - destruct (enable_short_put _); [now apply stage_naked_scan | now apply stage_none].
  - intros [a1 puts]. cbn [fst snd]. cbv zeta. intros w (Hw & R1 & F1). destruct (_ && _).
    + pose proof (stage_naked_scan "call" ms acc ex index N1 N2 a1 R1 w Hw) as T. rewrite bind_snd, bind_fst.
      destruct (snd (naked_scan _ _ _ _ _ _ _ _ _ _ _ w)) as [[a2 calls]|x|]; [|exact T..]. destruct T as (H2 & R2 & F2). cbn [ret fst snd].
      split; [exact H2|]. split; [exact R2|]. apply Forall_app. now split.
    + cbn [ret fst snd]. auto.
Qed.

Lemma stage_scan_spreads ms acc ex : runs c "bull_put_spread" = true -> stage admitted (scan_spreads c regimes clock ms ccy coll acc ex).
Proof.
  intros N1 a R. unfold scan_spreads. apply triple_state.
  assert (Lim : at_limit c regimes s "bull_put_spread" ccy = false) by (unfold currency_closed in Open; rewrite N1 in Open; now dhyps).
  apply (stage_built "bull_put_spread" (fun a t => build_bull_put_spread_candidates e t ms (regime_at regimes ccy) acc.(equity) acc.(maintenance_margin) coll ccy ex a));
    [unfold running; now rewrite N1 | intros; apply looks_spreads | exact Lim | | exact R].
  intros a0 t w w' a' ks E. destruct (spreads_made _ _ _ _ _ _ _ _ _ _ _ _ _ _ E) as [Ac F]. split; [eexists; exact Ac | exact F].
Qed.

Lemma stage_scan_covered ms acc index : runs c "bull_put_spread" = false -> runs c "covered_call" = true ->
  stage admitted (scan_covered c summaries regimes clock ms ccy coll acc index).
Proof.
  intros N1 N2 a R. unfold scan_covered. apply triple_state.
  assert (Lim : at_limit c regimes s "covered_call" ccy = false) by (unfold currency_closed in Open; rewrite N1, N2 in Open; now dhyps).
  apply (stage_built "covered_call" (fun a t => build_covered_call_candidates e t ms (regime_at regimes ccy) coll ccy
    (_available_covered_call_quantity_from_summaries s summaries ccy) acc.(equity) (Some index) (_covered_call_open_group_count s ccy) a));
    [unfold running; now rewrite N1, N2 | intros; apply looks_covered | exact Lim | | exact R].
  intros a0 t w w' a' ks E. destruct (covered_made _ _ _ _ _ _ _ _ _ _ _ _ _ _ _ E) as [Ac F]. split; [eexists; exact Ac | exact F].
Qed.
End Book.

Lemma stage_scan_book ccy index book : currency_closed c snapshot regimes sel s ccy = false ->
  stage admitted (fun a => scan_book c snapshot summaries regimes clock ccy index a book).
Proof.
  intros Open a R. destruct book as [coll ms]. unfold scan_book. apply triple_state.
  apply triple_now. fold now_ms.
  destruct (book_closed c snapshot summaries s now_ms ccy coll) eqn:Bk; [now apply stage_none|].
  destruct (dict_get coll summaries) as [acc|]; [|now apply stage_none]. apply triple_step; [apply rest_looks, looks_im | auto|]. intros ex.
  destruct (runs c "bull_put_spread") eqn:N1; [now apply stage_scan_spreads|].
  destruct (runs c "covered_call") eqn:N2; [now apply stage_scan_covered | now apply stage_scan_naked].
Qed.

Lemma stage_scan_currency ccy : stage admitted (fun a => scan_currency c snapshot summaries regimes clock a ccy).
Proof.
  intros a R. unfold scan_currency. apply triple_state. rewrite (same_closed a ccy R).
  destruct (currency_closed c snapshot regimes sel s ccy) eqn:Open; [now apply stage_none|].
  apply triple_step; [apply rest_looks, looks_index | auto|]. intros index. apply triple_step; [apply rest_looks, looks_read | auto|]. intros markets.
  apply (stage_gather admitted); [|exact R]. intros book _. now apply stage_scan_book.
Qed.

Lemma skew_readings ks a : same_readings sel a -> same_readings sel (_refresh_skew_by_currency e ks a).
Proof. intros R. exact R. Qed.

(** The whole scan: at most as many as asked for, in their rank, each admitted. *)
Definition scan_post (limit : Z) (out : selector * list NakedPutCandidate) (w : runtime) : Prop :=
  at_rest w /\ same_readings sel (fst out) /\ Forall admitted (snd out) /\ (Z.of_nat (List.length (snd out)) <= Z.max 0 limit)%Z.

Lemma scan_triple currencies asked :
  triple at_rest (_scan_candidates c snapshot summaries regimes clock currencies asked sel)
    (fun out w => scan_post (scan_limit c asked) out w /\ (scan_closed c snapshot s = true -> snd out = [])) at_rest.
Proof.
  unfold _scan_candidates. apply triple_state.
  assert (R : same_readings sel sel) by (repeat split).
  destruct (scan_closed c snapshot s).
  { apply triple_ret. intros w H. split; [|reflexivity]. repeat split; try apply H; [constructor | cbn; lia]. }
  eapply triple_bind; [apply (stage_gather admitted); [intros ccy _; apply stage_scan_currency | exact R]|].
  intros [a ks]. cbn [fst snd]. apply triple_ret. intros w (Hw & Ra & F). split; [|discriminate]. unfold scan_post, take_top_scan_candidates.
  destruct ks as [|k ks']; [repeat split; try apply Hw; try apply Ra; [constructor | cbn; lia]|]. set (l := k :: ks') in *.
  destruct (Z.leb_spec (scan_limit c asked) 0); [repeat split; try apply Hw; try apply Ra; [constructor | cbn; lia]|]. cbv zeta. cbn [fst snd].
  split; [exact Hw|]. split; [exact Ra|]. split.
  - apply Forall_forall. intros x I. apply (proj1 (Forall_forall _ _) F).
    apply (Permutation_in _ (Permutation_sym (ranked_perm e (_refresh_skew_by_currency e l a) l))).
    rewrite <- (firstn_skipn (Z.to_nat (scan_limit c asked))). apply in_or_app. now left.
  - rewrite length_firstn. lia.
Qed.
End Gates.

(** C15. A scan sends nothing and changes no state, and what it returns may be entered: at
    most as many candidates as asked for, none while entries are paused, the portfolio or
    every book is halted or the groups are at their limit. Each has a regime that allows
    entries and no pause of the trend, an underlying and a book that are not halted, no
    cooldown of the book, room for another group in the book, the strategy and the
    currency, margins of the book below their targets, a short no open group has, and at
    least the return asked for. *)
Theorem scan_respects_gates (D : Desk) c snapshot summaries regimes clock currencies asked sel w w' sel' ks :
  _scan_candidates c snapshot summaries regimes clock currencies asked sel w = (w', Ret (sel', ks)) ->
  w'.(state) = w.(state) /\ w'.(requests) = w.(requests) /\
  (Z.of_nat (List.length ks) <= Z.max 0 (scan_limit c asked))%Z /\
  Forall (admitted c snapshot summaries regimes clock w.(state) w.(requests) sel) ks /\
  (c.(gated).(pause_new_entries) = true \/ snapshot.(portfolio_wide_entry_halt) = true \/ halted_everywhere snapshot = true \/
   c.(gated).(halt_open_max_loss_pct) <= snapshot.(open_max_loss_pct) -> ks = []).
Proof.
  intros E. pose proof (triple_snd _ _ _ _ _ _ _ (scan_triple c snapshot summaries regimes clock w.(state) w.(requests) sel currencies asked)
    (conj eq_refl eq_refl) E) as (((S & R) & _ & F & L) & Cl). cbn [snd] in *. repeat (split; [assumption|]). intros H. apply Cl. unfold scan_closed.
  destruct H as [->|[->|[->|H]]]; rewrite ?orb_true_r; cbn [orb]; try reflexivity. apply dleb_true in H. now rewrite H, !orb_true_r.
Qed.
