(* ===== verification/SpreadEntry.v ===== *)
(** Opening a put spread: the protection is bought and awaited first, the short is never
    sold for more than it, and what is too much of it is only ever sold back. *)

From S2P Require Import Prelude Dec PyStr Utils Fees TradeApr Group Ledger PyObj GroupJson StateJson Market ExitEval VolMetrics ExchangeErrors Runtime HedgeOrders Hedge Close GroupClose GroupExit DayState Triples EntryConfig Selector Entry EntryFacts.
Local Open Scope string_scope.
Local Open Scope Q_scope.
Local Open Scope dec_scope.
Local Open Scope bool_scope.
Local Open Scope run_scope.
Local Open Scope list_scope.

Section Calls.
Context {D : Desk}.
Variable c : entry_config.
Variable clock : list request -> Z.

Lemma quiet_fresh_cache {A} (m : M A) : quiet m -> quiet (with_fresh_cache m).
Proof. intros H w. specialize (H (set_orderbook_cache [] w)). unfold with_fresh_cache. exact H. Qed.

Lemma quiet_entry_index usdc g : quiet (with_entry_index usdc g).
Proof.
  unfold with_entry_index. destruct (_ && _); [|apply quiet_ret].
  apply quiet_bind; [apply quiet_fresh_cache, quiet_index_price | intros; apply quiet_ret].
Qed.

Lemma quiet_attach g : quiet (_attach_open_group_stats g).
Proof.
  unfold _attach_open_group_stats. apply quiet_bind; [apply quiet_lift|]. intros e. cbv zeta.
  apply quiet_bind; [apply quiet_entry_index|]. intros g1. apply quiet_bind; [apply quiet_entry_index|]. intros g2.
  destruct (_entry_net_apr_for_group g2). apply quiet_ret.
Qed.

Lemma quiet_record_spread k leg group_id labels long_state still_open x : quiet (record_spread c clock k leg group_id labels long_state still_open x).
Proof.
  unfold record_spread. cbv zeta. do 2 (apply quiet_bind; [apply quiet_find_instrument|]; intros ?).
  apply quiet_bind; [apply quiet_get_orderbook|]. intros b. apply quiet_bind; [apply quiet_order_trades|]. intros ts.
  apply quiet_bind; [apply quiet_read|]. intros t. do 2 (apply quiet_bind; [apply quiet_lift|]; intros ?).
  apply quiet_bind; [apply quiet_attach | intros; apply quiet_ret].
Qed.

(** ** Two phases *)

Variables (k : NakedPutCandidate) (leg : SpreadLeg) (short_label long_label : string) (i : OptionInstrument) (b : OrderBookSnapshot).
Let short_name : string := k.(short_leg).(leg_instrument_name).
Let long_name : string := leg.(leg_instrument_name).

(** While the protection is bought: buying it, and looking after that order. *)
Definition buying (r : request) : Prop :=
  match r with
  | PlaceOrder o => o.(req_direction) = "buy" /\ o.(req_instrument_name) = long_name /\ o.(req_label) = long_label /\ 0 < o.(req_amount)
  | CancelOrder _ | OrderState _ => True
  | ListPositions => False
  end.

(** Selling the protection back, reduce-only. *)
Definition selling_back (r : request) : Prop :=
  match r with
  | PlaceOrder o => o.(req_direction) = "sell" /\ o.(req_instrument_name) = long_name /\ o.(req_reduce_only) = true /\ 0 < o.(req_amount) /\
      (o.(req_label) = long_label ++ "-abort" \/ o.(req_label) = long_label ++ "-excess")%string
  | _ => False
  end.

Definition selling (r : request) : Prop := attempt_request k short_label i b r \/ selling_back r.

Variable pre : list request.

(** First the protection, then the short and what is sold back. *)
Definition phased (w : runtime) : Prop :=
  exists bought sold, w.(requests) = sold ++ bought ++ pre /\ Forall buying bought /\ Forall selling sold.

Lemma phased_first w : trace pre buying w -> phased w.
Proof. intros (new & E & F). exists new, []. cbn. auto. Qed.

Lemma phased_more w w' : phased w -> trace w.(requests) selling w' -> phased w'.
Proof.
  intros (bought & sold & E & F & G) (new & E' & F'). exists bought, (new ++ sold). rewrite E', E, app_assoc. split; [reflexivity|].
  split; [exact F | now apply Forall_app].
Qed.

Lemma quoted_other other : stable (quoted_at short_name i b) (_find_instrument other).
Proof.
  intros w H. unfold _find_instrument, bind, read, ret, modify, lift. destruct (_find_instrument_by_markets _ _); try exact H;
    (destruct (dict_get other _); [exact H|]; destruct (_fetch_option_instrument_metadata other); exact H).
Qed.

Definition first_phase (w : runtime) : Prop := trace pre buying w /\ quoted_at short_name i b w.

Lemma first_quiet {A} (m : M A) : quiet m -> stable (quoted_at short_name i b) m -> stable first_phase m.
Proof. intros Q S w [T H]. split; [exact (trace_frame _ _ _ _ (Q w) T) | now apply S]. Qed.

Lemma first_send r : buying r -> stable first_phase (send r).
Proof. intros O. apply stable_send. intros w [T H]. split; [now apply trace_log | exact H]. Qed.

Lemma buy_stable r : r.(er_instrument_name) = long_name -> r.(er_label) = long_label -> stable first_phase (_place_entry_order "buy" r).
Proof.
  intros N L. unfold _place_entry_order. apply stable_bind; [apply first_quiet; [apply quiet_find_instrument | apply quoted_other]|].
  intros j. cbv zeta. destruct (dleb_spec (aligned j (to_decimal (PStr (er_amount r)) 0)) 0) as [|P]; [apply stable_lift|].
  apply first_send. split; [reflexivity|]. split; [exact N|]. split; [exact L | now apply Qnot_le_lt].
Qed.

Lemma first_await response seconds : stable first_phase (_await_entry_order c response seconds).
Proof.
  assert (L : forall fuel limit waited id st, stable first_phase (await_loop c fuel limit waited id st)).
  { induction fuel as [|fuel IH]; intros limit waited id st; cbn [await_loop]; [apply stable_lift|].
    destruct (waited <? limit)%Z; [|apply stable_ret]. destruct (is_final st); [apply stable_ret|]. cbv zeta.
    destruct (Z.min _ _ <=? 0)%Z; [apply stable_ret|]. apply stable_bind; [now apply first_send | intros st'; apply IH]. }
  unfold _await_entry_order. cbv zeta. destruct response; try apply stable_ret. destruct (is_empty _); [apply stable_ret|].
  apply stable_bind; [apply L|]. intros st. destruct (is_final st); [apply stable_ret|].
  apply stable_bind; [now apply first_send | intros _; now apply first_send].
Qed.

Lemma unwind_phased quantity suffix : suffix = "-abort" \/ suffix = "-excess" ->
  stable phased (_unwind_entry_long c long_name quantity (long_label ++ suffix)%string).
Proof.
  intros S. assert (Qp : forall A (m : M A), quiet m -> stable phased m).
  { intros A m Q w H. destruct (Q w) as [R _]. unfold phased. rewrite R. exact H. }
  unfold _unwind_entry_long. apply stable_bind; [|intros; apply stable_ret]. apply stable_attempt.
  unfold _close_entry_long_remainder. destruct (quantity <=? 0); [apply stable_ret|].
  apply stable_bind; [apply Qp, quiet_find_instrument|]. intros j. apply stable_bind; [apply Qp, quiet_get_orderbook|]. intros lb. cbv zeta.
  destruct (dleb_spec (aligned j quantity) 0) as [|P]; [apply stable_ret|]. apply Qnot_le_lt in P.
  apply stable_send. intros w H. apply (phased_more w _ H), trace_log; [|apply trace_start]. right. cbn [selling_back close_order].
  repeat (split; [reflexivity || assumption|]). destruct S as [-> | ->]; auto.
Qed.

Lemma buy_request_triple quantity : triple first_phase (_entry_long_buy_request leg long_label quantity)
  (fun r w => first_phase w /\ r.(er_instrument_name) = long_name /\ r.(er_label) = long_label) phased.
Proof.
  unfold _entry_long_buy_request. do 2 (apply triple_step; [apply stable_lift | intros w [T _]; now apply phased_first|]; intros ?).
  apply triple_ret. intros w H. now split.
Qed.

(** The buy order and its answer, where one came. *)
Lemma buy_triple r : r.(er_instrument_name) = long_name -> r.(er_label) = long_label ->
  triple first_phase (_place_entry_order "buy" r)
    (fun v w => first_phase w /\ exists h o, w.(requests) = PlaceOrder o :: h /\ reply h (PlaceOrder o) = Ret v /\ 0 < o.(req_amount)) phased.
Proof.
  intros N L. apply triple_weaken with (J := first_phase) (R := fun v w => first_phase w /\
    exists h o, w.(requests) = PlaceOrder o :: h /\ reply h (PlaceOrder o) = Ret v /\ 0 < o.(req_amount)) (F := fun w => first_phase w /\ True);
    [|auto | auto | intros w [[T _] _]; now apply phased_first].
  apply triple_and; [apply triple_stable; now apply buy_stable|]. unfold _place_entry_order.
  apply triple_step; [apply first_quiet; [apply quiet_find_instrument | apply quoted_other] | auto|]. intros j. cbv zeta.
  destruct (dleb_spec (aligned j (to_decimal (PStr (er_amount r)) 0)) 0) as [|P]; [apply triple_lift; [discriminate | auto]|].
  apply triple_send; [|auto]. intros w v _ R. eexists _, _. split; [reflexivity|]. split; [exact R | now apply Qnot_le_lt].
Qed.

Lemma bought_triple v seconds : triple (fun w => first_phase w /\ exists h o, w.(requests) = PlaceOrder o :: h /\ reply h (PlaceOrder o) = Ret v /\ 0 < o.(req_amount))
  (_await_entry_order c v seconds) (fun st w => first_phase w /\ (orders_honest -> on_units (_response_filled_amount st))) phased.
Proof.
  eapply triple_weaken with (R := fun st w => first_phase w /\ (orders_honest -> on_units (_response_filled_amount st)))
    (F := fun w => first_phase w /\ True); [|intros w H; exact H | auto | intros w [[T _] _]; now apply phased_first].
  apply triple_and; [eapply triple_weaken; [apply triple_stable, first_await | now intros w [] | auto | auto]|].
  apply (triple_given _ _ (fun st _ => on_units (_response_filled_amount st))). intros Ho w [_ (h & o & E & R & P)].
  pose proof (await_fills c h o v Ho P R seconds w (ex_intro _ [] E)) as F. destruct (snd _); [exact (proj1 F) | exact F..].
Qed.
End Calls.

Section Spread.
Context {D : Desk}.
Variable c : entry_config.
Variable summaries : dict AccountSummary.
Variable regimes : dict RiskRegime.
Variable clock : list request -> Z.
Variables (k : NakedPutCandidate) (leg : SpreadLeg) (group_id : string) (i : OptionInstrument) (b : OrderBookSnapshot) (pre : list request).
Let labels : string * string := spread_labels c k.(cand_currency) group_id.
Let in_phases : runtime -> Prop := phased k leg (fst labels) (snd labels) i b pre.

(** What the group of a spread covers. *)
Definition covered_by (r : entry_result) : Prop := forall g, r.(entry_group) = Some g ->
  g.(Group.strategy) = "bull_put_spread" /\ 0 < g.(Group.quantity) /\ g.(long_instrument_name) = leg.(leg_instrument_name) /\
  (orders_honest -> sized_in_units i -> on_units k.(cand_quantity) ->
   g.(Group.quantity) <= k.(cand_quantity) /\ g.(Group.quantity) <= _response_filled_amount r.(entry_long_state)).

Lemma covered_none action reason x : covered_by (no_entry action reason x).
Proof. intros g E. discriminate E. Qed.

(** The short is sold for at most the protection bought. *)
Lemma sell_triple s st : (orders_honest -> on_units (_response_filled_amount st)) ->
  triple (first_phase k leg (snd labels) i b pre)
    (_execute_repriced_naked_short c summaries regimes clock s k (fst labels) (dmin k.(cand_quantity) (_response_filled_amount st)))
    (fun x w => in_phases w /\ (orders_honest -> sized_in_units i -> on_units k.(cand_quantity) ->
       x.(filled_amount) <= k.(cand_quantity) /\ x.(filled_amount) <= _response_filled_amount st)) in_phases.
Proof.
  intros G w [T Q]. assert (Ph : in_phases w) by now apply phased_first.
  pose proof (attempts_triple c summaries regimes clock k (fst labels) i b w.(requests) s (dmin k.(cand_quantity) (_response_filled_amount st)) w
    (conj (trace_start _ w) Q)) as A.
  assert (K : forall w', trace w.(requests) (attempt_request k (fst labels) i b) w' -> in_phases w').
  { intros w' Tw. apply (phased_more _ _ _ _ _ _ _ _ _ Ph). eapply trace_weaken; [|exact Tw]. intros r R. now left. }
  destruct (_execute_repriced_naked_short c summaries regimes clock s k _ _ w) as [w' [x|e|]]; cbn [fst snd] in *; [|now apply K..].
  destruct A as ([Tw _] & _ & C). split; [now apply K|]. intros Ho Si Gk.
  assert (Gm : on_units (dmin k.(cand_quantity) (_response_filled_amount st))) by (apply (grid_min units); [exact Gk | now apply G]).
  destruct (C (conj Ho (conj Si Gm)) (conj (grid_0 units) (grid_nonneg units _ Gm))) as [_ L].
  pose proof (dmin_l k.(cand_quantity) (_response_filled_amount st)). pose proof (dmin_r k.(cand_quantity) (_response_filled_amount st)). split; lra.
Qed.

Lemma record_covered st still_open x w w' r : 0 < x.(filled_amount) ->
  (orders_honest -> sized_in_units i -> on_units k.(cand_quantity) ->
   x.(filled_amount) <= k.(cand_quantity) /\ x.(filled_amount) <= _response_filled_amount st) ->
  record_spread c clock k leg group_id labels st still_open x w = (w', Ret r) -> covered_by r.
Proof.
  intros P B E. unfold record_spread in E. cbv zeta in E. do 7 (apply bind_inv in E; destruct E as (? & ? & _ & E)).
  apply bind_inv in E. destruct E as (w8 & g' & E8 & E). injection E as _ <-. intros g Eg. injection Eg as <-. cbn [entry_long_state].
  match type of E8 with _attach_open_group_stats ?h _ = _ => set (g := h) in E8 end.
  assert (F : g.(realized_close_debit) = None /\ g.(Group.strategy) = "bull_put_spread" /\ g.(Group.quantity) = x.(filled_amount) /\
    g.(long_instrument_name) = leg.(leg_instrument_name)) by (unfold g, opened_spread, with_hedge_fields; destruct (enable_perp_hedge _); repeat split).
  destruct F as (N & F1 & F2 & F3). destruct (attach_shape _ _ _ _ N E8) as (e & idx & apr & cov & _ & ->).
  cbn [Group.strategy Group.quantity long_instrument_name set_entry_net_apr set_covered_underlying_quantity set_entry_index_usd set_entry_book_equity].
  rewrite F1, F2, F3. auto.
Qed.

Definition spread_post (r : entry_result) (w : runtime) : Prop := in_phases w /\ covered_by r.

Lemma unwind_stable quantity suffix : suffix = "-abort" \/ suffix = "-excess" ->
  stable in_phases (_unwind_entry_long c leg.(leg_instrument_name) quantity (snd labels ++ suffix)%string).
Proof. intros S. now apply unwind_phased. Qed.

(** What follows the sale of the short. *)
Lemma settle_triple st x : (orders_honest -> sized_in_units i -> on_units k.(cand_quantity) ->
    x.(filled_amount) <= k.(cand_quantity) /\ x.(filled_amount) <= _response_filled_amount st) ->
  triple in_phases
    (if x.(filled_amount) <=? 0 then
       let* unwound := _unwind_entry_long c leg.(leg_instrument_name) (_response_filled_amount st) (snd labels ++ "-abort")%string in
       ret {| entry_action := "entry_aborted_short_unfilled"; entry_reason := x.(why); entry_group := None; entry_long_state := st;
              entry_attempts := x.(sent); entry_answers := x.(answers);
              entry_leg_risk := if snd unwound >? 0 then Some ("orphan_long", snd unwound) else None |}
     else
       let excess := _response_filled_amount st ⊖ x.(filled_amount) in
       let* still_open := (if excess >? 0 then
                             let* unwound := _unwind_entry_long c leg.(leg_instrument_name) excess (snd labels ++ "-excess")%string in ret (snd unwound)
                           else ret 0) in
       record_spread c clock k leg group_id labels st still_open x) spread_post in_phases.
Proof.
  intros B. destruct (dleb_spec (filled_amount x) 0) as [|P].
  - apply triple_step; [apply unwind_stable; auto | auto|]. intros u. apply triple_ret. intros w H. split; [exact H|]. intros g E. discriminate E.
  - apply Qnot_le_lt in P. cbv zeta. apply triple_step; [|auto|].
    + destruct (dltb 0 _); [|apply stable_ret]. apply stable_bind; [apply unwind_stable; auto | intros; apply stable_ret].
    + intros still_open w H. pose proof (quiet_record_spread c clock k leg group_id labels st still_open x w) as [R _].
      pose proof (record_covered st still_open x w) as C.
      destruct (record_spread _ _ _ _ _ _ _ _ _ w) as [w' [r|e|]]; cbn [fst snd] in *;
        (assert (Ph : in_phases w') by (unfold in_phases, phased; rewrite R; exact H)); [|exact Ph..]. split; [exact Ph|]. exact (C w' r P B eq_refl).
Qed.

Lemma spread_triple s : k.(long_leg) = Some leg ->
  triple (first_phase k leg (snd labels) i b pre) (_execute_bull_put_spread_entry c summaries regimes clock s k group_id) spread_post in_phases.
Proof.
  intros E. unfold _execute_bull_put_spread_entry. rewrite E. cbv zeta. fold labels.
  eapply triple_bind; [apply (buy_request_triple k leg (fst labels) (snd labels) i b)|]. intros q. apply triple_fact. intros [Nq Lq].
  eapply triple_bind; [apply (buy_triple k leg (fst labels) (snd labels) i b); assumption|]. intros v.
  eapply triple_bind; [apply (bought_triple c k leg (fst labels) (snd labels) i b)|]. intros st. apply triple_fact. intros G.
  destruct (_response_filled_amount st <=? 0).
  { apply triple_ret. intros w [T _]. split; [now apply phased_first | apply covered_none]. }
  eapply triple_bind; [apply sell_triple, G|]. intros x. apply triple_fact. intros B. exact (settle_triple st x B).
Qed.
End Spread.

