(* ===== verification/EntryCycle.v ===== *)
(** Entering in a cycle: whatever the exchange does, the state gains at most one group,
    under a number never given before, and only an entry that filled adds one. *)

From S2P Require Import Prelude Sorting Dec PyStr Utils Fees TradeApr Group Ledger PyObj GroupJson StateJson Market ExitEval VolMetrics EntryGates ExchangeErrors Runtime HedgeOrders Hedge Close GroupClose GroupExit EngineFrame DayState Portfolio Triples EntryConfig Selector Ranking Entry EntryFacts SpreadEntry Builders BuilderFacts Scan ScanFacts.
Local Open Scope string_scope.
Local Open Scope Q_scope.
Local Open Scope dec_scope.
Local Open Scope bool_scope.
Local Open Scope run_scope.
Local Open Scope list_scope.

(** ** What entering leaves alone *)

Abbreviation leaves_state := (keeps (fun s : StrategyState => s)).

Lemma leaves_looks {A} (m : M A) : looks m -> leaves_state m.
Proof. intros L w. apply L. Qed.

Create HintDb leaving.

Ltac leave :=
  repeat first
    [ solve [auto with leaving nocore]
    | progress cbv zeta
    | apply keeps_bind; [|intros ?]
    | apply keeps_attempt
    | match goal with |- keeps _ (match ?x with _ => _ end) => destruct x end ].

#[export] Hint Resolve keeps_ret keeps_lift keeps_read : leaving.

Section Leaves.
Context {D : Desk}.
Variables (e : entry_config) (summaries : dict AccountSummary) (regimes : dict RiskRegime) (clock : list request -> Z).

Lemma leaves_instrument name : leaves_state (_find_instrument name).
Proof. unfold _find_instrument. leave; intros w; reflexivity. Qed.

Lemma leaves_book name : leaves_state (_get_orderbook name).
Proof. apply leaves_looks, looks_orderbook. Qed.

Lemma leaves_send r : leaves_state (send r).
Proof. intros w. reflexivity. Qed.

Lemma leaves_im collateral : leaves_state (_naked_im_by_expiry collateral).
Proof. apply leaves_looks, looks_im. Qed.

Lemma leaves_trades v : leaves_state (_order_trades v).
Proof. unfold _order_trades. leave. Qed.

Lemma leaves_now : leaves_state (now clock).
Proof. intros w. reflexivity. Qed.

Lemma leaves_text q : leaves_state (text_of q).
Proof. intros w. reflexivity. Qed.
#[local] Hint Resolve leaves_instrument leaves_book leaves_send leaves_im leaves_trades leaves_now leaves_text : leaving.

Lemma leaves_try m : leaves_state m -> leaves_state (try_exchange m).
Proof. intros H w. specialize (H w). unfold try_exchange. destruct (m w) as [w' [v|x|]]; [exact H| |exact H]. destruct x; exact H. Qed.

Lemma leaves_cache {A} (m : M A) : leaves_state m -> leaves_state (with_fresh_cache m).
Proof. intros H w. specialize (H (set_orderbook_cache [] w)). unfold with_fresh_cache. exact H. Qed.

Lemma leaves_place direction r : leaves_state (_place_entry_order direction r).
Proof. unfold _place_entry_order. leave. Qed.

Lemma leaves_loop fuel limit : forall waited id st, leaves_state (await_loop e fuel limit waited id st).
Proof.
  induction fuel as [|fuel IH]; intros waited id st; cbn [await_loop]; leave.
Qed.

Lemma leaves_await v seconds : leaves_state (_await_entry_order e v seconds).
Proof. unfold _await_entry_order. cbv zeta. destruct v; try solve [leave]. destruct (is_empty _); [leave|]. apply keeps_bind; [apply leaves_loop | intros; leave]. Qed.

#[local] Hint Resolve leaves_place leaves_await : leaving.

Lemma leaves_refreshed sel k i b summ q : leaves_state (refreshed_candidate e regimes clock sel k i b summ q).
Proof. unfold refreshed_candidate. leave. Qed.

Lemma leaves_request k label aggressive q : leaves_state (_entry_naked_short_request k label aggressive q).
Proof. unfold _entry_naked_short_request. leave. Qed.

Lemma leaves_buy leg label q : leaves_state (_entry_long_buy_request leg label q).
Proof. unfold _entry_long_buy_request. leave. Qed.
#[local] Hint Resolve leaves_refreshed leaves_request leaves_buy : leaving.

Lemma leaves_attempt_round k label q p : leaves_state (one_attempt e summaries regimes clock k label q p).
Proof. unfold one_attempt. leave. apply leaves_try. leave. Qed.

Lemma leaves_attempts k label q fuel : forall p, leaves_state (attempt_loop e summaries regimes clock fuel k label q p).
Proof.
  induction fuel as [|fuel IH]; intros p; cbn [attempt_loop]; [leave|]. destruct (_ && _); [|leave].
  apply keeps_bind; [apply leaves_attempt_round|]. intros [x|p']; [leave | apply IH].
Qed.

Lemma leaves_short sel k label q : leaves_state (_execute_repriced_naked_short e summaries regimes clock sel k label q).
Proof. apply leaves_attempts. Qed.

Lemma leaves_index usdc g : leaves_state (with_entry_index usdc g).
Proof. unfold with_entry_index. destruct (_ && _); [|leave]. apply keeps_bind; [apply leaves_cache, leaves_looks, looks_index | intros; leave]. Qed.
#[local] Hint Resolve leaves_short leaves_index : leaving.

Lemma leaves_attach g : leaves_state (_attach_open_group_stats g).
Proof. unfold _attach_open_group_stats. leave. Qed.
#[local] Hint Resolve leaves_attach : leaving.

Lemma leaves_naked sel k id : leaves_state (_execute_naked_put_entry e summaries regimes clock sel k id).
Proof. unfold _execute_naked_put_entry, record_short. leave. Qed.

Lemma leaves_unwind name q label : leaves_state (_unwind_entry_long e name q label).
Proof. unfold _unwind_entry_long, _close_entry_long_remainder. leave. Qed.
#[local] Hint Resolve leaves_unwind : leaving.

Lemma leaves_spread sel k id : leaves_state (_execute_bull_put_spread_entry e summaries regimes clock sel k id).
Proof. unfold _execute_bull_put_spread_entry, record_spread. leave. Qed.

Lemma leaves_dry_run (c : scan_config) k id : leaves_state (dry_run c k id).
Proof. unfold dry_run. leave. Qed.
End Leaves.

(** ** Numbers of groups *)

Lemma four_digits_value n : (0 <= n)%Z -> digits_value 0 (four_digits n) = n.
Proof.
  intros H. assert (Z0 : forall k v, digits_value v (zeros k) = (v * 10 ^ Z.of_nat k)%Z).
  { induction k as [|k IH]; intros v; cbn [zeros digits_value]; [now rewrite Z.mul_1_r|].
    rewrite IH, Nat2Z.inj_succ, Z.pow_succ_r by lia. change (char_digit "0"%char) with 0%Z. ring. }
  unfold four_digits, print_int. destruct (Z.ltb_spec n 0); [lia|]. rewrite digits_value_app, Z0. now apply print_nat_spec.
Qed.

Lemma four_digits_inj m n : (0 <= m)%Z -> (0 <= n)%Z -> four_digits m = four_digits n -> m = n.
Proof. intros Hm Hn E. rewrite <- (four_digits_value m Hm), <- (four_digits_value n Hn). now rewrite E. Qed.

(** The groups have numbers of their own, and no number still to come. *)
Record numbered (s : StrategyState) : Prop := {
  num_next : (0 < s.(next_group_id))%Z;
  num_once : NoDup (map group_id s.(groups));
  num_free : forall g n, In g s.(groups) -> (s.(next_group_id) <= n)%Z -> g.(group_id) <> four_digits n;
}.

(** The state with its next number taken. *)
Definition taken (s : StrategyState) : StrategyState := set_next_group_id (s.(next_group_id) + 1) s.

Lemma numbered_taken s : numbered s -> numbered (taken s).
Proof.
  intros [P O F]. constructor; cbn [taken set_next_group_id next_group_id groups]; [lia | exact O|]. intros g n I L. apply F; [exact I | lia].
Qed.

Lemma numbered_joined s g : numbered s -> g.(group_id) = four_digits s.(next_group_id) ->
  numbered (set_groups (s.(groups) ++ [g]) (taken s)).
Proof.
  intros N E. pose proof (numbered_taken s N) as [P _ F]. destruct N as [P0 O F0]. constructor; [exact P| |].
  - cbn [set_groups groups]. rewrite map_app. cbn [map]. apply NoDup_app; [exact O | repeat constructor; intros []|].
    intros x I [<-|[]]. apply in_map_iff in I. destruct I as (g' & Eg & I). rewrite <- Eg, E in *. apply (F0 g' s.(next_group_id) I); [lia | congruence].
  - intros g' n I L. cbn [set_groups groups] in I. apply in_app_iff in I. destruct I as [I|[<-|[]]]; [exact (F g' n I L)|].
    rewrite E. intros Eq. cbn [taken set_groups set_next_group_id next_group_id] in L. apply four_digits_inj in Eq; lia.
Qed.

(** ** What an entry hands back *)

(** No group, or an open one of a positive quantity under the number given. *)
Definition handed_back (id : string) (r : entry_result) : Prop :=
  forall g, r.(entry_group) = Some g -> g.(group_id) = id /\ g.(Group.status) = "open" /\ 0 < g.(Group.quantity).

Section HandedBack.
Context {D : Desk}.
Variables (e : entry_config) (summaries : dict AccountSummary) (regimes : dict RiskRegime) (clock : list request -> Z).

Lemma handed_back_none id r : r.(entry_group) = None -> handed_back id r.
Proof. intros N g E. congruence. Qed.

Lemma naked_handed_back sel k id w w' r : _execute_naked_put_entry e summaries regimes clock sel k id w = (w', Ret r) -> handed_back id r.
Proof.
  unfold _execute_naked_put_entry. intros E. apply bind_inv in E. destruct E as (w1 & x & _ & E).
  destruct (dleb_spec (Entry.filled_amount x) 0) as [|P]; [injection E as _ <-; now apply handed_back_none|]. apply Qnot_le_lt in P.
  destruct (String.eqb _ _); [injection E as _ <-; now apply handed_back_none|].
  destruct (record_short_group e clock _ _ _ _ _ _ E) as (g & Eg & I & Q & S & _). intros g' Eg'. rewrite Eg in Eg'. injection Eg' as <-. rewrite Q. auto.
Qed.

Lemma recorded_spread_handed_back k leg id labels st still x w w' r : 0 < x.(Entry.filled_amount) ->
  record_spread e clock k leg id labels st still x w = (w', Ret r) -> handed_back id r.
Proof.
  intros P E. unfold record_spread in E. cbv zeta in E. do 7 (apply bind_inv in E; destruct E as (? & ? & _ & E)).
  apply bind_inv in E. destruct E as (w8 & g' & E8 & E). injection E as _ <-. intros g Eg. injection Eg as <-.
  match type of E8 with _attach_open_group_stats ?h _ = _ => set (g := h) in E8 end.
  assert (F : g.(realized_close_debit) = None /\ g.(group_id) = id /\ g.(Group.status) = "open" /\ g.(Group.quantity) = x.(Entry.filled_amount))
    by (unfold g, opened_spread, with_hedge_fields; destruct (enable_perp_hedge _); repeat split).
  destruct F as (N & F1 & F2 & F3). destruct (attach_shape _ _ _ _ N E8) as (eq & idx & apr & cov & _ & ->).
  cbn [group_id Group.status Group.quantity set_entry_net_apr set_covered_underlying_quantity set_entry_index_usd set_entry_book_equity].
  rewrite F1, F2, F3. auto.
Qed.

Lemma spread_handed_back sel k id w w' r : _execute_bull_put_spread_entry e summaries regimes clock sel k id w = (w', Ret r) -> handed_back id r.
Proof.
  unfold _execute_bull_put_spread_entry. destruct (long_leg k) as [leg|]; [|intros E; injection E as _ <-; now apply handed_back_none].
  cbv zeta. intros E. do 3 (apply bind_inv in E; destruct E as (? & ? & _ & E)).
  destruct (_ <=? 0); [injection E as _ <-; now apply handed_back_none|]. apply bind_inv in E. destruct E as (? & fill & _ & E).
  destruct (dleb_spec (Entry.filled_amount fill) 0) as [|P].
  - apply bind_inv in E. destruct E as (? & ? & _ & E). injection E as _ <-. now apply handed_back_none.
  - apply Qnot_le_lt in P. apply bind_inv in E. destruct E as (? & ? & _ & E). exact (recorded_spread_handed_back _ _ _ _ _ _ _ _ _ _ P E).
Qed.

Lemma dry_run_handed_back (c : scan_config) k id w w' r : dry_run c k id w = (w', Ret r) -> handed_back id r.
Proof.
  unfold dry_run. cbv zeta. intros E. do 2 (apply bind_inv in E; destruct E as (? & ? & _ & E)). injection E as _ <-. now apply handed_back_none.
Qed.
End HandedBack.

(** ** The cycle *)

Section Cycle.
Context {D : Desk}.
Variables (c : scan_config) (snapshot : PortfolioSnapshot) (summaries : dict AccountSummary) (regimes : dict RiskRegime) (clock : list request -> Z).
Let e : entry_config := c.(entries).

Definition in_state (s : StrategyState) (w : runtime) : Prop := w.(state) = s.

Lemma state_kept {A} (m : M A) s : leaves_state m -> stable (in_state s) m.
Proof. intros L w H. unfold in_state in *. rewrite <- H. apply L. Qed.

(** The number of an entry is taken whether or not it comes to a group. *)
Definition entered_from (s : StrategyState) (r : entry_result) (w : runtime) : Prop :=
  (w.(state) = s /\ r.(entry_group) = None) \/ (w.(state) = taken s /\ handed_back (four_digits s.(next_group_id)) r).

Definition same_or_taken (s : StrategyState) (w : runtime) : Prop := w.(state) = s \/ w.(state) = taken s.

Lemma triple_handed_back (m : M entry_result) s id : leaves_state m -> (forall w w' r, m w = (w', Ret r) -> handed_back id r) ->
  triple (in_state s) m (fun r w => w.(state) = s /\ handed_back id r) (in_state s).
Proof.
  intros L H w Hw. pose proof (state_kept m s L w Hw) as K. specialize (H w (fst (m w))). destruct (m w) as [w' [r|x|]]; cbn [fst snd] in *; auto.
Qed.

Lemma next_id_triple s : triple (in_state s) _next_group_id (fun id w => in_state (taken s) w /\ id = four_digits s.(next_group_id)) (fun _ => False).
Proof. intros w Hw. unfold in_state in Hw. subst s. cbn. split; reflexivity. Qed.

Lemma enter_best_triple sel ks live s : triple (in_state s) (_enter_best_from_candidates c summaries regimes clock sel ks live)
  (entered_from s) (same_or_taken s).
Proof.
  assert (Skip : forall action reason, triple (in_state s) (ret (skipped action reason)) (entered_from s) (same_or_taken s))
    by (intros action reason; apply triple_ret; intros w H; now left).
  unfold _enter_best_from_candidates. destruct (pause_new_entries _); [apply Skip|]. destruct ks as [|k rest]; [apply Skip|].
  intros w Hw. rewrite bind_snd, bind_fst. cbn [read fst snd]. unfold in_state in Hw. rewrite Hw. revert w Hw.
  change (triple (in_state s) (if _naked_candidate_matches_open_group s k then ret (skipped "entry_skipped" "duplicate_open_group") else
    let* t := now clock in
    if _book_entry_cooldown_active c.(gated) s (entry_book_of k) (t / 1000) then ret (skipped "entry_skipped" "entry_cooldown_active")
    else
      let* group_id := _next_group_id in
      if negb live then dry_run c k group_id
      else if String.eqb k.(cand_strategy) "bull_put_spread" then _execute_bull_put_spread_entry e summaries regimes clock sel k group_id
      else _execute_naked_put_entry e summaries regimes clock sel k group_id) (entered_from s) (same_or_taken s)).
  destruct (_naked_candidate_matches_open_group s k); [apply Skip|].
  apply triple_step; [apply state_kept, leaves_now | now left|]. intros t. destruct (_book_entry_cooldown_active _ _ _ _); [apply Skip|].
  apply triple_bind with (R := fun id w => in_state (taken s) w /\ id = four_digits s.(next_group_id));
    [intros w H; pose proof (next_id_triple s w H) as T; destruct (snd _) in T |- *; [exact T | destruct T..]|].
  intros id. apply triple_fact. intros ->.
  set (id := four_digits s.(next_group_id)).
  eapply triple_weaken with (P := entered_from s) (J := in_state (taken s)) (R := fun r w => w.(state) = taken s /\ handed_back id r) (F := in_state (taken s));
    [|auto | intros r w H; now right | now right].
  destruct (negb live); [apply triple_handed_back; [apply (leaves_dry_run clock) | intros w w' r; apply dry_run_handed_back]|].
  destruct (String.eqb _ _).
  - apply triple_handed_back; [apply leaves_spread | intros w w' r; apply spread_handed_back].
  - apply triple_handed_back; [apply leaves_naked | intros w w' r; apply naked_handed_back].
Qed.

(** What entering may have added to the state. *)
Definition grown (s : StrategyState) (w : runtime) : Prop :=
  exists added, w.(state).(groups) = s.(groups) ++ added /\ (List.length added <= 1)%nat /\
    Forall (fun g => g.(group_id) = four_digits s.(next_group_id) /\ g.(Group.status) = "open" /\ 0 < g.(Group.quantity)) added /\
    (numbered s -> numbered w.(state)).

Lemma grown_none s w : same_or_taken s w -> grown s w.
Proof.
  intros H. exists []. rewrite app_nil_r. split; [now destruct H as [-> | ->]|]. split; [cbn; lia|]. split; [constructor|].
  destruct H as [-> | ->]; [auto | apply numbered_taken].
Qed.

Lemma adopt_grown s r : triple (entered_from s r) (adopt r) (fun _ => grown s) (grown s).
Proof.
  unfold adopt. intros w [[S N]|[S H]].
  - rewrite N. cbn [ret fst snd]. apply grown_none. now left.
  - destruct (entry_group r) as [g|] eqn:G; cbn [ret modify fst snd]; [|apply grown_none; now right].
    destruct (H g G) as (I & O & P). exists [g]. cbn [set_state state set_groups groups]. rewrite S.
    split; [reflexivity|]. split; [cbn; lia|]. split; [now repeat constructor|]. intros N. exact (numbered_joined s g N I).
Qed.

Lemma leaves_listed {A} (m : M A) : leaves_state m -> leaves_state (if_listed m).
Proof. intros H w. specialize (H w). unfold if_listed. destruct (m w) as [w' [a|x|]]; [exact H| |exact H]. destruct x; exact H. Qed.

Lemma leaves_topup live sel g : leaves_state (topup_group c summaries regimes clock live sel g).
Proof.
  assert (I : forall name, leaves_state (if_listed (_find_instrument name))) by (intros; apply leaves_listed, leaves_instrument).
  assert (B : forall ot t ms r eq mm coll ccy ex ix a, leaves_state (build_naked_short_candidates (entries c) t ot ms r eq mm coll ccy ex ix a))
    by (intros; apply leaves_looks, looks_shorts).
  assert (S : forall a k label q, leaves_state (_execute_repriced_naked_short (entries c) summaries regimes clock a k label q)) by (intros; apply leaves_short).
  pose proof leaves_book as Bk. pose proof (leaves_now clock) as N. pose proof leaves_im as Im.
  assert (Own : leaves_state (_group_im_in_collateral g)) by (unfold _group_im_in_collateral; leave; apply leaves_looks, looks_index).
  unfold topup_group, topup_sale. leave.
Qed.

Lemma leaves_topups live sel : leaves_state (_topup_existing_naked_groups c summaries regimes clock live sel).
Proof.
  unfold _topup_existing_naked_groups. destruct (negb _); [leave|]. apply keeps_bind; [apply keeps_read|]. intros s.
  generalize (_open_groups s) as gs. intros gs. revert sel. induction gs as [|g rest IH]; intros sel; cbn [topup_each]; [leave|].
  apply keeps_bind; [apply leaves_topup|]. intros one. apply keeps_bind; [apply IH | intros; leave].
Qed.

Lemma grown_stable s {A} (m : M A) : leaves_state m -> stable (grown s) m.
Proof. intros L w H. unfold grown in *. now rewrite (L w). Qed.

Lemma cycle_grown currencies live sel s : triple (in_state s) (enter_cycle c snapshot summaries regimes clock currencies live sel) (fun _ => grown s) (grown s).
Proof.
  unfold enter_cycle. apply triple_step; [|intros w H; apply grown_none; now left|].
  - intros w H. pose proof (scan_triple c snapshot summaries regimes clock w.(state) w.(requests) sel currencies c.(top_n) w (conj eq_refl eq_refl)) as T.
    unfold in_state in *. rewrite <- H. destruct (snd _) in T; [exact (proj1 (proj1 (proj1 T))) | exact (proj1 T) | exact (proj1 T)].
  - intros found. cbv zeta. apply triple_step; [apply stable_read | intros w H; apply grown_none; now left|]. intros s0.
    eapply triple_bind with (R := entered_from s).
    + eapply triple_weaken with (J := in_state s) (P := entered_from s) (R := entered_from s) (F := same_or_taken s); [|auto | auto | intros w H; now apply grown_none].
      destruct (_filter_enterable_candidates _ _ _ _ _) as [|k rest]; [apply triple_ret; intros w H; now left | apply enter_best_triple].
    + intros r. eapply triple_bind; [apply adopt_grown|]. intros []. destruct (_ && _); [|apply triple_ret; auto].
      apply triple_step; [apply grown_stable, leaves_topups | auto|]. intros topped. apply triple_ret. auto.
Qed.
End Cycle.

(** C14. However a cycle of entries ends, exceptions of the exchange included, the state
    has gained at most one group, at the end of the list: an open one of a positive
    quantity, under the next number. Groups keep numbers of their own, and none has a
    number still to be given. *)
Theorem cycle_adds_numbered_group (D : Desk) c snapshot summaries regimes clock currencies live sel w :
  numbered w.(state) ->
  let w' := fst (enter_cycle c snapshot summaries regimes clock currencies live sel w) in
  numbered w'.(state) /\
  exists added, w'.(state).(groups) = w.(state).(groups) ++ added /\ (List.length added <= 1)%nat /\
    Forall (fun g => g.(group_id) = four_digits w.(state).(next_group_id) /\ g.(Group.status) = "open" /\ 0 < g.(Group.quantity)) added.
Proof.
  intros N w'. pose proof (cycle_grown c snapshot summaries regimes clock currencies live sel w.(state) w eq_refl) as T.
  assert (G : grown w.(state) w') by (unfold w'; destruct (snd _) in T; exact T).
  destruct G as (added & E & L & F & K). split; [exact (K N)|]. exists added. auto.
Qed.
