(* ===== verification/Positions.v ===== *)
(** Positions of the exchange against the groups of the state, first half
    ([engine/state_reconcile.py]): open groups take the size of their short, puts whose
    protection is found become spreads and spreads whose protection is gone naked shorts,
    and shorts no group knows of are adopted. A group is given back as the code leaves it;
    what was done to it before an exception is not kept. *)

From S2P Require Import Prelude Sorting Dec PyStr Utils Fees Margin Group Ledger PyObj GroupJson StateJson Market ExitEval VolMetrics EntryGates Runtime HedgeOrders Hedge Close GroupClose GroupExit DayState Portfolio EntryConfig Selector Entry Scan Settlement.
Local Open Scope string_scope.
Local Open Scope Q_scope.
Local Open Scope dec_scope.
Local Open Scope bool_scope.
Local Open Scope run_scope.
Local Open Scope list_scope.

Record reconcile_config : Type := {
  scanning : scan_config;
  enable_adopt_exchange_positions : bool;
  covered_call_spot_exit_enabled : bool;
  covered_call_robust_exit_enabled : bool;
  covered_call_itm_to_cash_secured_enabled : bool;
  covered_call_itm_buffer_pct : Q;
}.

(** ** Sizes *)

Definition _short_option_open_size (p : Position) : option Q :=
  if negb (String.eqb p.(position_kind) "option") || (p.(size) =? 0) then None
  else if String.eqb p.(direction) "sell" then Some (dabs p.(size))
  else if p.(size) <? 0 then Some (dabs p.(size)) else None.

Definition _long_option_open_size (p : Position) : option Q :=
  if negb (String.eqb p.(position_kind) "option") || (p.(size) =? 0) then None
  else if String.eqb p.(direction) "buy" then Some (dabs p.(size)) else None.

Definition is_open (g : TradeGroup) : bool := String.eqb g.(status) "open".

(** Size of the short of each instrument; a later row of a name replaces an earlier one. *)
Definition note_short (d : dict Q) (p : Position) : dict Q :=
  match _short_option_open_size p with Some q => dict_set p.(position_instrument_name) q d | None => d end.
Definition sell_qty_by_name (ps : list Position) : dict Q := fold_left note_short ps [].

(** More than one open group has the short. *)
Definition shared_short (gs : list TradeGroup) (name : string) : bool :=
  (1 <? count_of (filter (fun g => is_open g && String.eqb g.(short_instrument_name) name) gs))%Z.

(** [value * ex_qty / old_q] *)
Definition scaled (ex_qty old_q value : Q) : Q := (value ⊗ ex_qty) ⊘ old_q.

Definition scaled_group (ex_qty : Q) (g : TradeGroup) : TradeGroup :=
  let by_size := scaled ex_qty g.(quantity) in
  set_entry_fee_collateral (by_size g.(entry_fee_collateral)) (set_entry_fee (by_size g.(entry_fee))
    (set_original_entry_credit (by_size g.(original_entry_credit)) (set_entry_credit (by_size g.(entry_credit))
    (set_estimated_im_collateral (by_size g.(estimated_im_collateral)) (set_max_loss (by_size g.(max_loss)) (set_quantity ex_qty g)))))).

Definition synced (ex_qty : Q) (g : TradeGroup) : TradeGroup :=
  if ex_qty =? g.(quantity) then if endswith "_incomplete" g.(last_action) then set_last_action "" g else g
  else set_last_action "quantity_synced_exchange" (if g.(quantity) >? 0 then scaled_group ex_qty g else set_quantity ex_qty g).

Definition sync_group (gs : list TradeGroup) (sizes : dict Q) (g : TradeGroup) : TradeGroup :=
  if negb (is_open g) || shared_short gs g.(short_instrument_name) then g
  else match dict_get g.(short_instrument_name) sizes with Some q => synced q g | None => g end.

Definition _sync_naked_open_groups_from_positions (gs : list TradeGroup) (ps : list Position) : list TradeGroup :=
  map (sync_group gs (sell_qty_by_name ps)) gs.

(** ** Protections *)

(** A later row of a name replaces an earlier one. *)
Definition short_position_of (ps : list Position) (name : string) : option Position :=
  fold_left (fun found p => match _short_option_open_size p with
                            | Some _ => if String.eqb p.(position_instrument_name) name then Some p else found
                            | None => found end) ps None.

Definition lower_put (short_i long_i : OptionInstrument) : bool :=
  String.eqb long_i.(instrument_option_type) "put" && String.eqb long_i.(base_currency) short_i.(base_currency)
  && String.eqb long_i.(quote_currency) short_i.(quote_currency) && String.eqb long_i.(settlement_currency) short_i.(settlement_currency)
  && (long_i.(instrument_expiration_ms) =? short_i.(instrument_expiration_ms))%Z && (long_i.(instrument_strike) <? short_i.(instrument_strike)).

(** A position that can protect the short, with the quantity both legs can trade. *)
Definition protection_at (short_i : OptionInstrument) (short_quantity : Q) (markets : dict (list OptionInstrument)) (excluded : list string) (p : Position)
    : option (Q * (Position * OptionInstrument * Q)) :=
  if mem_str p.(position_instrument_name) excluded then None
  else
    match _long_option_open_size p, listed_under p.(position_instrument_name) markets with
    | Some held, Some long_i =>
        if (held <? short_quantity) || negb (lower_put short_i long_i) then None
        else
          let quantity := aligned long_i (aligned short_i short_quantity) in
          if (quantity <=? 0) || (held <? quantity) then None
          else Some (short_i.(instrument_strike) ⊖ long_i.(instrument_strike), (p, long_i, quantity))
    | _, _ => None
    end.

Definition narrower {A} (best : option (Q * A)) (x : option (Q * A)) : option (Q * A) :=
  match x, best with
  | Some (w, _), Some (v, _) => if w <? v then x else best
  | Some _, None => x
  | None, _ => best
  end.

(** The narrowest protection, the first of equals. *)
Definition _find_bull_put_spread_long_match (short_i : OptionInstrument) (short_quantity : Q) (ps : list Position) (markets : dict (list OptionInstrument))
    (excluded : list string) : option (Position * OptionInstrument * Q) :=
  if negb (String.eqb short_i.(instrument_option_type) "put") || (short_quantity <=? 0) then None
  else option_map snd (fold_left (fun best p => narrower best (protection_at short_i short_quantity markets excluded p)) ps None).

Record adoption : Type := {
  adopted_credit : Q;
  adopted_fee : Q;
  adopted_fee_collateral : Q;
  adopted_loss : Q;
  adopted_im : Q;
}.

Section Adoption.
Context {D : Desk}.
Variable c : reconcile_config.
Variable clock : list request -> Z.

Let e : entry_config := c.(scanning).(entries).
Let desk : desk_config := e.(trading).

Definition premium_of (p : Position) (fallback : Q) : Q := if p.(average_price) =? 0 then fallback else dabs p.(average_price).

Definition _bull_put_spread_adoption_metrics (short_p : Position) (short_i : OptionInstrument) (long_p : Position) (long_i : OptionInstrument) (quantity : Q)
    : M adoption :=
  let* short_b := _get_orderbook short_i.(instrument_name) in
  let* long_b := _get_orderbook long_i.(instrument_name) in
  let* t := now clock in
  let idx := if short_b.(index_price) >? 0 then short_b.(index_price) else long_b.(index_price) in
  let short_premium := premium_of short_p short_b.(mark_price) in
  let long_premium := premium_of long_p long_b.(mark_price) in
  let width := dmax (short_i.(instrument_strike) ⊖ long_i.(instrument_strike)) 0 ⊗ quantity in
  ret (if usdc_linear short_i then
         let short_credit := _premium_value_usdc short_premium quantity idx short_i in
         let long_debit := _premium_value_usdc long_premium quantity idx long_i in
         let fee := _option_fee_usdc desk short_premium quantity idx short_i (t / 1000) ⊕ _option_fee_usdc desk long_premium quantity idx long_i (t / 1000) in
         let credit := (short_credit ⊖ long_debit) ⊖ fee in
         let loss := dmax (width ⊖ credit) 0 in
         {| adopted_credit := credit; adopted_fee := fee; adopted_fee_collateral := 0; adopted_loss := loss; adopted_im := loss |}
       else
         let fee_coll := _option_fee_native desk short_premium quantity idx short_i (t / 1000) ⊕ _option_fee_native desk long_premium quantity idx long_i (t / 1000) in
         let gross := (short_premium ⊖ long_premium) ⊗ quantity in
         let credit := if idx >? 0 then (gross ⊖ fee_coll) ⊗ idx else 0 in
         let loss := dmax (width ⊖ credit) 0 in
         {| adopted_credit := credit; adopted_fee := if idx >? 0 then fee_coll ⊗ idx else 0; adopted_fee_collateral := fee_coll;
            adopted_loss := loss; adopted_im := if idx >? 0 then loss ⊘ idx else 0 |}).

Definition _promote_group_to_bull_put_spread (g : TradeGroup) (short_p : Position) (short_i : OptionInstrument) (long_p : Position) (long_i : OptionInstrument)
    (quantity : Q) : M TradeGroup :=
  let* m := _bull_put_spread_adoption_metrics short_p short_i long_p long_i quantity in
  let labels := spread_labels e short_i.(base_currency) g.(group_id) in
  ret (set_last_action "adopted_bull_put_spread_from_exchange" (set_estimated_im_collateral m.(adopted_im) (set_max_loss m.(adopted_loss)
        (set_entry_fee_collateral m.(adopted_fee_collateral) (set_entry_fee m.(adopted_fee) (set_original_entry_credit m.(adopted_credit)
        (set_entry_credit m.(adopted_credit) (set_short_label (str_or g.(short_label) (fst labels)) (set_long_label (str_or g.(long_label) (snd labels))
        (set_long_strike long_i.(instrument_strike) (set_long_instrument_name long_i.(instrument_name) (set_quantity quantity
        (Group.set_option_type "put" (Group.set_strategy "bull_put_spread" g)))))))))))))).

(** The put of a group without protection, with what may protect it. *)
Definition protection_for (markets : dict (list OptionInstrument)) (ps : list Position) (used : list string) (g : TradeGroup)
    : option (Position * OptionInstrument * (Position * OptionInstrument * Q)) :=
  if negb (is_open g) || negb (String.eqb g.(Group.option_type) "put") || truthy g.(long_instrument_name) then None
  else
    match short_position_of ps g.(short_instrument_name), listed_under g.(short_instrument_name) markets with
    | Some short_p, Some short_i =>
        let held := match _short_option_open_size short_p with Some q => if q =? 0 then g.(quantity) else q | None => g.(quantity) end in
        match _find_bull_put_spread_long_match short_i held ps markets used with
        | Some found => Some (short_p, short_i, found)
        | None => None
        end
    | _, _ => None
    end.

Fixpoint promote_each (ps : list Position) (used : list string) (gs : list TradeGroup) : M (list TradeGroup) :=
  match gs with
  | [] => ret []
  | g :: rest =>
      let* markets := read markets_by_currency in
      match protection_for markets ps used g with
      | None => let* more := promote_each ps used rest in ret (g :: more)
      | Some (short_p, short_i, (long_p, long_i, quantity)) =>
          let* g := _promote_group_to_bull_put_spread g short_p short_i long_p long_i quantity in
          let* more := promote_each ps (long_i.(instrument_name) :: used) rest in
          ret (g :: more)
      end
  end.

Definition open_longs (gs : list TradeGroup) : list string :=
  filter truthy (map long_instrument_name (filter is_open gs)).

Definition _sync_bull_put_spread_groups_from_positions (gs : list TradeGroup) (ps : list Position) : M (list TradeGroup) :=
  if negb (strategy_is e "bull_put_spread") then ret gs else promote_each ps (open_longs gs) gs.

(** A short on its own again. *)
Definition demoted (g : TradeGroup) : TradeGroup :=
  set_last_action "demoted_to_naked_after_long_unwound" (set_long_entry_average_price 0 (set_long_label "" (set_long_strike 0
    (set_long_instrument_name "" (Group.set_strategy "naked_short" g))))).

Definition holds_long (ps : list Position) (name : string) : bool :=
  existsb (fun p => match _long_option_open_size p with Some _ => String.eqb p.(position_instrument_name) name | None => false end) ps.
Definition holds_short (ps : list Position) (name : string) : bool :=
  existsb (fun p => match _short_option_open_size p with Some _ => String.eqb p.(position_instrument_name) name | None => false end) ps.

Definition demote_group (ps : list Position) (now_ms : Z) (g : TradeGroup) : TradeGroup :=
  if negb (is_open g) || is_empty g.(long_instrument_name) || holds_long ps g.(long_instrument_name)
     || group_uses_spread_settlement_pricing g now_ms || negb (holds_short ps g.(short_instrument_name)) then g
  else demoted g.

Definition _demote_unwound_bull_put_groups (gs : list TradeGroup) (ps : list Position) (now_ms : Z) : list TradeGroup :=
  if negb (strategy_is e "bull_put_spread") then gs else map (demote_group ps now_ms) gs.

(** ** Adoption *)

(** The side of an option by its name, where that side may be sold. *)
Definition adopted_side (name : string) : option string :=
  if endswith "-P" name then if e.(enable_short_put) then Some "put" else None
  else if endswith "-C" name then if e.(enable_short_call) then Some "call" else None
  else None.

(** What a short sold for its average price earned, and its margin. *)
Definition adopted_short (option_type : string) (i : OptionInstrument) (quantity premium idx mark : Q) (now_ms : Z) : adoption :=
  if usdc_linear i then
    let fee := _option_fee_usdc desk premium quantity idx i now_ms in
    let im_1 := if is_call option_type
                then linear_usdc_short_call_initial_per_contract_usdc idx i.(instrument_strike) mark i.(instrument_contract_size)
                else linear_usdc_short_put_initial_per_contract_usdc idx i.(instrument_strike) mark i.(instrument_contract_size) in
    {| adopted_credit := _premium_value_usdc premium quantity idx i ⊖ fee; adopted_fee := fee; adopted_fee_collateral := 0;
       adopted_loss := im_1 ⊗ quantity; adopted_im := im_1 ⊗ quantity |}
  else
    let fee_coll := _option_fee_native desk premium quantity idx i now_ms in
    let im_u := if is_call option_type then short_call_initial_unit idx i.(instrument_strike) mark
                else short_put_initial_unit idx i.(instrument_strike) mark in
    let im := im_u ⊗ quantity in
    {| adopted_credit := if idx >? 0 then ((premium ⊗ quantity) ⊖ fee_coll) ⊗ idx else 0; adopted_fee := if idx >? 0 then fee_coll ⊗ idx else 0;
       adopted_fee_collateral := fee_coll; adopted_loss := if idx >? 0 then im ⊗ idx else im; adopted_im := im |}.

Definition adopted_collateral (i : OptionInstrument) : string := if usdc_linear i then "USDC" else i.(base_currency).

Definition adopted_strategy (option_type : string) (i : OptionInstrument) (is_spread : bool) : string :=
  if is_spread then "bull_put_spread"
  else if strategy_is e "covered_call" && is_call option_type && String.eqb (adopted_collateral i) i.(base_currency) then "covered_call"
  else "naked_short".

Definition adopted_group (group_id option_type : string) (i : OptionInstrument) (name : string) (quantity premium idx : Q) (a : adoption) (is_spread : bool)
    (now_ms : Z) : TradeGroup :=
  let strategy := adopted_strategy option_type i is_spread in
  let g := new_group group_id i.(base_currency) (adopted_collateral i) quantity now_ms i.(instrument_expiration_ms) name i.(instrument_strike)
             a.(adopted_credit) a.(adopted_credit) a.(adopted_loss) (regime_value NORMAL) in
  set_covered_underlying_quantity (if String.eqb strategy "covered_call" then quantity else 0) (Group.set_strategy strategy
    (Group.set_option_type option_type (set_short_label (fst (spread_labels e i.(base_currency) group_id)) (set_entry_index_usd idx
    (set_short_entry_average_price premium (set_entry_fee_collateral a.(adopted_fee_collateral) (set_entry_fee a.(adopted_fee)
    (set_estimated_im_collateral a.(adopted_im) g)))))))).

Definition append_group (g : TradeGroup) : M unit := modify (fun w => set_state (set_groups (w.(state).(groups) ++ [g]) w.(state)) w).

(** The short legs and protections that groups know of. *)
Definition tracked : Type := list string * list string.

(** The group of a position, with its protection where there is one. *)
Definition adopt_short (ps : list Position) (known : tracked) (p : Position) (option_type : string) (i : OptionInstrument) (b : OrderBookSnapshot) (quantity : Q)
    : M tracked :=
  let name := p.(position_instrument_name) in
  let idx := b.(index_price) in
  let premium := premium_of p (effective_mark b) in
  let* t := now clock in
  let a := adopted_short option_type i quantity premium idx (effective_mark b) (t / 1000) in
  let* group_id := _next_group_id in
  let* markets := read markets_by_currency in
  let found := if strategy_is e "bull_put_spread" && String.eqb option_type "put"
               then _find_bull_put_spread_long_match i quantity ps markets (snd known) else None in
  let g := adopted_group group_id option_type i name quantity premium idx a (match found with Some _ => true | None => false end) (t / 1000) in
  let* promoted := (match found with
                    | Some (long_p, long_i, q) =>
                        let* g := _promote_group_to_bull_put_spread g p i long_p long_i q in ret (g, long_i.(instrument_name) :: snd known)
                    | None => ret (g, snd known)
                    end) in
  let* g := _attach_open_group_stats (set_last_action "adopted_from_exchange" (fst promoted)) in
  let* _ := append_group g in
  ret (name :: fst known, snd promoted).

Definition adopt_position (ps : list Position) (known : tracked) (p : Position) : M tracked :=
  let name := p.(position_instrument_name) in
  match _short_option_open_size p with
  | None => ret known
  | Some held =>
      if mem_str name (fst known) then ret known
      else
        match adopted_side name with
        | None => ret known
        | Some option_type =>
            let* listed := if_listed (_find_instrument name) in
            match listed with
            | None => ret known
            | Some i =>
                let* book := attempt (_get_orderbook name) in
                match book with
                | None => ret known
                | Some b =>
                    if (b.(index_price) <=? 0) || (effective_mark b <=? 0) then ret known
                    else
                      let quantity := aligned i held in
                      if quantity <=? 0 then ret known else adopt_short ps known p option_type i b quantity
                end
            end
        end
  end.

Fixpoint adopt_each (all : list Position) (known : tracked) (ps : list Position) : M tracked :=
  match ps with
  | [] => ret known
  | p :: rest => let* known := adopt_position all known p in adopt_each all known rest
  end.

Definition tracked_in (gs : list TradeGroup) : tracked := (map short_instrument_name (filter is_open gs), open_longs gs).

Definition _adopt_untracked_naked_short_positions (ps : list Position) : M unit :=
  if negb c.(enable_adopt_exchange_positions) then ret tt
  else let* s := read state in let* _ := adopt_each ps (tracked_in s.(groups)) ps in ret tt.
End Adoption.
