(* ===== verification/PositionsFacts.v ===== *)
(** Groups follow the positions of the exchange: what a synchronisation does to each group,
    and what the adoption of shorts adds to the state. *)

From S2P Require Import Prelude Sorting Dec PyStr Utils Fees Margin Group Ledger PyObj GroupJson StateJson Market ExitEval VolMetrics EntryGates ExchangeErrors Runtime HedgeOrders Hedge Close GroupClose GroupExit EngineFrame DayState Portfolio Triples EntryConfig Selector Ranking Entry EntryFacts SpreadEntry Builders BuilderFacts Scan ScanFacts EntryCycle Settlement Positions.
Local Open Scope string_scope.
Local Open Scope Q_scope.
Local Open Scope dec_scope.
Local Open Scope bool_scope.
Local Open Scope run_scope.
Local Open Scope list_scope.

(** ** Sizes *)

Lemma scaled_group_short ex g : (scaled_group ex g).(short_instrument_name) = g.(short_instrument_name).
Proof. reflexivity. Qed.

Lemma synced_short ex g : (synced ex g).(short_instrument_name) = g.(short_instrument_name).
Proof. unfold synced. destruct (_ =? _); [now destruct (endswith _ _)|]. now destruct (_ >? _). Qed.

Lemma synced_status ex g : (synced ex g).(status) = g.(status).
Proof. unfold synced. destruct (_ =? _); [now destruct (endswith _ _)|]. now destruct (_ >? _). Qed.

Lemma synced_id ex g : (synced ex g).(group_id) = g.(group_id).
Proof. unfold synced. destruct (_ =? _); [now destruct (endswith _ _)|]. now destruct (_ >? _). Qed.

Lemma synced_cover ex g : (synced ex g).(covered_underlying_quantity) = g.(covered_underlying_quantity).
Proof. unfold synced. destruct (_ =? _); [now destruct (endswith _ _)|]. now destruct (_ >? _). Qed.

Lemma synced_quantity ex g : (synced ex g).(quantity) == ex.
Proof.
  unfold synced. destruct (deqb_spec ex g.(quantity)) as [E|E]; [rewrite E; destruct (endswith _ _); reflexivity|].
  destruct (_ >? _); reflexivity.
Qed.

Lemma synced_action ex g : endswith "_incomplete" (synced ex g).(last_action) = false.
Proof. unfold synced. destruct (_ =? _); [destruct (endswith "_incomplete" g.(last_action)) eqn:E; [reflexivity | exact E] | reflexivity]. Qed.

(** A group of the right size, without an unfinished action, is left as it is. *)
Lemma synced_rests ex g : ex == g.(quantity) -> endswith "_incomplete" g.(last_action) = false -> synced ex g = g.
Proof. intros E A. unfold synced. destruct (deqb_spec ex g.(quantity)) as [_|N]; [now rewrite A | now contradict N]. Qed.

Lemma synced_twice ex g : synced ex (synced ex g) = synced ex g.
Proof. apply synced_rests; [symmetry; apply synced_quantity | apply synced_action]. Qed.

Section Sync.
Variables (sizes : dict Q) (gs : list TradeGroup).

Lemma sync_group_id g : (sync_group gs sizes g).(group_id) = g.(group_id).
Proof. unfold sync_group. destruct (_ || _); [reflexivity|]. destruct (dict_get _ _); [apply synced_id | reflexivity]. Qed.

Lemma sync_group_short g : (sync_group gs sizes g).(short_instrument_name) = g.(short_instrument_name).
Proof. unfold sync_group. destruct (_ || _); [reflexivity|]. destruct (dict_get _ _); [apply synced_short | reflexivity]. Qed.

Lemma sync_group_open g : is_open (sync_group gs sizes g) = is_open g.
Proof. unfold sync_group, is_open. destruct (_ || _); [reflexivity|]. destruct (dict_get _ _); [now rewrite synced_status | reflexivity]. Qed.

(** Whether a short is shared does not depend on the sizes. *)
Lemma shared_synced l name : shared_short (map (sync_group gs sizes) l) name = shared_short l name.
Proof.
  unfold shared_short. f_equal. unfold count_of.
  induction l as [|g r IH]; [reflexivity|]. cbn [map filter]. rewrite sync_group_open, sync_group_short.
  destruct (_ && _); cbn [List.length]; lia.
Qed.

Lemma sync_group_twice gs' g : (forall name, shared_short gs' name = shared_short gs name) ->
  sync_group gs' sizes (sync_group gs sizes g) = sync_group gs sizes g.
Proof.
  intros S. unfold sync_group at 1. rewrite sync_group_open, sync_group_short, S. unfold sync_group.
  destruct (_ || _); [reflexivity|]. destruct (dict_get _ _); [apply synced_twice | reflexivity].
Qed.
End Sync.

(** What a synchronisation makes of a group. *)
Definition follows (gs : list TradeGroup) (ps : list Position) (g g' : TradeGroup) : Prop :=
  g'.(group_id) = g.(group_id) /\ g'.(covered_underlying_quantity) = g.(covered_underlying_quantity) /\
  if is_open g && negb (shared_short gs g.(short_instrument_name))
  then match dict_get g.(short_instrument_name) (sell_qty_by_name ps) with
       | Some held => g'.(quantity) == held /\ endswith "_incomplete" g'.(last_action) = false
                      /\ (g.(quantity) == held -> g'.(entry_credit) = g.(entry_credit) /\ g'.(max_loss) = g.(max_loss))
                      /\ (~ g.(quantity) == held -> 0 < g.(quantity) -> g'.(entry_credit) = scaled held g.(quantity) g.(entry_credit)
                                                     /\ g'.(max_loss) = scaled held g.(quantity) g.(max_loss))
       | None => g' = g
       end
  else g' = g.

Lemma synced_follows ex g : (g.(quantity) == ex -> (synced ex g).(entry_credit) = g.(entry_credit) /\ (synced ex g).(max_loss) = g.(max_loss)) /\
  (~ g.(quantity) == ex -> 0 < g.(quantity) -> (synced ex g).(entry_credit) = scaled ex g.(quantity) g.(entry_credit) /\ (synced ex g).(max_loss) = scaled ex g.(quantity) g.(max_loss)).
Proof.
  unfold synced. destruct (deqb_spec ex g.(quantity)) as [E|E]; split; intros H.
  - now destruct (endswith _ _).
  - contradict H. now symmetry.
  - contradict E. now symmetry.
  - intros P. destruct (dltb_spec 0 g.(quantity)) as [L|L]; [split; reflexivity | now contradict L].
Qed.

(** C23. After a synchronisation with the positions of the exchange every open group whose
    short is its own has the size of its short, with entry credit and maximal loss in
    proportion, and no unfinished action; closed groups, groups that share a short and
    groups whose short is not held stay as they are. No group is lost or moved, and doing
    it again changes nothing. The cover of a covered call is not scaled with it. *)
Theorem sync_follows_exchange gs ps :
  let gs' := _sync_naked_open_groups_from_positions gs ps in
  Forall2 (follows gs ps) gs gs' /\ _sync_naked_open_groups_from_positions gs' ps = gs'.
Proof.
  cbv zeta. unfold _sync_naked_open_groups_from_positions. set (sizes := sell_qty_by_name ps). split.
  - assert (F : forall l, Forall2 (follows gs ps) l (map (sync_group gs sizes) l)); [|apply F].
    induction l as [|g r IH]; cbn [map]; constructor; [|exact IH]. unfold follows. fold sizes. unfold sync_group.
    destruct (is_open g), (shared_short gs g.(short_instrument_name)); cbn [negb andb orb]; try (repeat split; reflexivity).
    destruct (dict_get g.(short_instrument_name) sizes) as [held|]; [|repeat split; reflexivity].
    repeat split; try apply synced_id; try apply synced_cover; try apply synced_quantity; try apply synced_action; now apply synced_follows.
  - rewrite map_map. apply map_ext. intros g. apply sync_group_twice. apply shared_synced.
Qed.

(** ** Adoption *)

Definition open_shorts (gs : list TradeGroup) : list string := map short_instrument_name (filter is_open gs).

(** A group that adoption may have added. *)
Definition adopted_from (ps : list Position) (old : list string) (g : TradeGroup) : Prop :=
  is_open g = true /\ 0 < g.(quantity) /\ ~ In g.(short_instrument_name) old /\ holds_short ps g.(short_instrument_name) = true.

(** The state while the positions are looked at, with the shorts known by then. *)
Record adopting (ps : list Position) (s : StrategyState) (names : list string) (s' : StrategyState) : Prop := {
  ad_numbered : numbered s -> numbered s';
  ad_added : exists added, s'.(groups) = s.(groups) ++ added /\ Forall (adopted_from ps (open_shorts s.(groups))) added /\
    NoDup (map short_instrument_name added) /\ (forall x, In x names <-> In x (map short_instrument_name added) \/ In x (open_shorts s.(groups)));
}.

Section Adopting.
Context {D : Desk}.
Variables (c : reconcile_config) (clock : list request -> Z) (ps : list Position) (s : StrategyState).

Lemma leaves_metrics sp si lp li q : leaves_state (_bull_put_spread_adoption_metrics c clock sp si lp li q).
Proof.
  unfold _bull_put_spread_adoption_metrics. repeat (apply keeps_bind; [first [apply leaves_book | apply leaves_now] | intros ?]). leave.
Qed.

Lemma leaves_promote g sp si lp li q : leaves_state (_promote_group_to_bull_put_spread c clock g sp si lp li q).
Proof. unfold _promote_group_to_bull_put_spread. apply keeps_bind; [apply leaves_metrics | intros; leave]. Qed.

(** What a promotion leaves of a group. *)
Lemma promoted_shape g sp si lp li q w w' g' : _promote_group_to_bull_put_spread c clock g sp si lp li q w = (w', Ret g') ->
  g'.(quantity) = q /\ g'.(status) = g.(status) /\ g'.(group_id) = g.(group_id) /\ g'.(short_instrument_name) = g.(short_instrument_name)
  /\ g'.(realized_close_debit) = g.(realized_close_debit).
Proof.
  unfold _promote_group_to_bull_put_spread. intros E. apply bind_inv in E. destruct E as (w1 & m & _ & E). unfold ret in E. injection E as _ <-. repeat split.
Qed.

Lemma narrower_cases {A} (best x : option (Q * A)) r : narrower best x = Some r -> best = Some r \/ x = Some r.
Proof. unfold narrower. destruct x as [[w a]|], best as [[v b]|]; try destruct (_ <? _); auto. Qed.

Lemma fold_narrower {A B} (f : B -> option (Q * A)) l : forall best r, fold_left (fun b p => narrower b (f p)) l best = Some r ->
  best = Some r \/ exists p, In p l /\ f p = Some r.
Proof.
  induction l as [|p l IH]; intros best r E; cbn [fold_left] in E; [now left|]. apply IH in E. destruct E as [E|(p' & I & E)].
  - apply narrower_cases in E. destruct E as [E|E]; [now left | right; exists p; split; [now left | exact E]].
  - right. exists p'. split; [now right | exact E].
Qed.

Lemma match_found i q markets excluded lp li n : _find_bull_put_spread_long_match i q ps markets excluded = Some (lp, li, n) ->
  0 < n /\ In lp ps /\ ~ In lp.(position_instrument_name) excluded /\ lower_put i li = true.
Proof.
  unfold _find_bull_put_spread_long_match. destruct (_ || _); [discriminate|].
  destruct (fold_left _ ps None) as [[v r]|] eqn:E; [|discriminate]. cbn [option_map snd]. intros K. injection K as ->.
  apply fold_narrower in E. destruct E as [E|(p & I & E)]; [discriminate|]. unfold protection_at in E.
  destruct (mem_str p.(position_instrument_name) excluded) eqn:Ex; [discriminate|].
  destruct (_long_option_open_size p); [|discriminate]. destruct (listed_under _ _) as [l|]; [|discriminate].
  destruct (_ <? _); [discriminate|]. destruct (lower_put i l) eqn:L; [|discriminate]. cbn [orb negb] in E.
  destruct (dleb_spec (aligned l (aligned i q)) 0) as [Z|P]; [discriminate|]. destruct (_ <? _); [discriminate|]. cbn [orb] in E.
  injection E as _ <- <- <-. apply Qnot_le_lt in P. repeat split; [exact P | exact I | | exact L].
  intros K. apply mem_str_In in K. congruence.
Qed.

Lemma adopted_group_fields id ot i name q premium idx a spread t : let g := adopted_group c id ot i name q premium idx a spread t in
  g.(group_id) = id /\ is_open g = true /\ g.(quantity) = q /\ g.(short_instrument_name) = name /\ g.(realized_close_debit) = None.
Proof. repeat split. Qed.

Lemma adopting_joined names s1 g : adopting ps s names s1 -> g.(group_id) = four_digits s1.(next_group_id) ->
  is_open g = true -> 0 < g.(quantity) -> holds_short ps g.(short_instrument_name) = true -> ~ In g.(short_instrument_name) names ->
  adopting ps s (g.(short_instrument_name) :: names) (set_groups (s1.(groups) ++ [g]) (taken s1)).
Proof.
  intros [N (added & E & F & O & K)] I Op P H Un. assert (Un1 : ~ In g.(short_instrument_name) (map short_instrument_name added)) by (intros X; apply Un, K; now left).
  assert (Un2 : ~ In g.(short_instrument_name) (open_shorts s.(groups))) by (intros X; apply Un, K; now right). constructor.
  - intros Ns. now apply numbered_joined; [apply N|].
  - exists (added ++ [g]). cbn [set_groups groups]. rewrite E, app_assoc. split; [reflexivity|]. split.
    + apply Forall_app. split; [exact F | repeat constructor; assumption].
    + rewrite map_app. cbn [map]. split.
      * apply NoDup_app; [exact O | repeat constructor; intros []|]. intros x Ix [<-|[]]. now apply Un1.
      * intros x. rewrite in_app_iff. cbn [In]. rewrite K. tauto.
Qed.

(** The state after the number of a group was taken. *)
Lemma adopting_taken names s1 : adopting ps s names s1 -> adopting ps s names (taken s1).
Proof. intros [N E]. constructor; [intros Ns; now apply numbered_taken, N | exact E]. Qed.

(** The group a short is adopted as, whether or not it is found protected. *)
Definition adoptable (id name : string) (g : TradeGroup) : Prop :=
  g.(group_id) = id /\ is_open g = true /\ 0 < g.(quantity) /\ g.(short_instrument_name) = name /\ g.(realized_close_debit) = None.

Lemma attached_adoptable id name g w w' g' : adoptable id name g -> _attach_open_group_stats (set_last_action "adopted_from_exchange" g) w = (w', Ret g') ->
  adoptable id name g'.
Proof.
  intros (I & O & Q & S & N) E. destruct (attach_shape (set_last_action "adopted_from_exchange" g) w w' g' N E) as (eq & idx & apr & cov & _ & ->).
  repeat split; assumption.
Qed.

Lemma adopt_short_triple known p ot i b q s1 : 0 < q -> ~ In p.(position_instrument_name) (fst known) ->
  holds_short ps p.(position_instrument_name) = true -> adopting ps s (fst known) s1 ->
  triple (in_state s1) (adopt_short c clock ps known p ot i b q) (fun known' w => adopting ps s (fst known') w.(state)) (fun w => adopting ps s (fst known) w.(state)).
Proof.
  intros Q Un H A. pose proof (adopting_taken _ _ A) as At. unfold adopt_short. cbv zeta.
  apply triple_step; [apply state_kept, leaves_now | intros w Hw; unfold in_state in Hw; now rewrite Hw|]. intros t.
  apply triple_bind with (R := fun id w => in_state (taken s1) w /\ id = four_digits s1.(next_group_id));
    [intros w Hw; pose proof (next_id_triple s1 w Hw) as T; destruct (snd _) in T |- *; [exact T | destruct T..]|].
  intros id. apply triple_fact. intros ->. set (id := four_digits s1.(next_group_id)).
  assert (Err : forall w, in_state (taken s1) w -> adopting ps s (fst known) w.(state)) by (intros w Hw; unfold in_state in Hw; now rewrite Hw).
  apply triple_step; [apply stable_read | exact Err|]. intros markets.
  match goal with |- context[adopted_group c id ot i ?n q ?pr ?ix ?a ?sp ?tt] => pose proof (adopted_group_fields id ot i n q pr ix a sp tt) as F;
    set (g0 := adopted_group c id ot i n q pr ix a sp tt) in * end. cbv zeta in F. destruct F as (F1 & F2 & F3 & F4 & F5).
  eapply triple_bind with (R := fun r w => in_state (taken s1) w /\ adoptable id p.(position_instrument_name) (fst r)).
  - destruct (if strategy_is _ _ && _ then _ else None) as [[[lp li] n]|] eqn:M.
    + destruct (_ && _) in M; [|discriminate]. apply match_found in M. destruct M as (Pn & _).
      intros w Hw. pose proof (state_kept _ _ (leaves_promote g0 p i lp li n) w Hw) as K.
      rewrite bind_snd, bind_fst. destruct (_promote_group_to_bull_put_spread c clock g0 p i lp li n w) as [w2 [g|x|]] eqn:E2; cbn [fst snd] in *;
        [|exact (Err _ K)..]. destruct (promoted_shape _ _ _ _ _ _ _ _ _ E2) as (P1 & P2 & P3 & P4 & P5). split; [exact K|].
      cbn [ret fst snd]. unfold adoptable, is_open in *. rewrite P1, P2, P3, P4, P5. repeat split; assumption.
    + apply triple_ret. intros w Hw. split; [exact Hw|]. cbn [fst]. unfold adoptable. rewrite F3. repeat split; assumption.
  - intros r. apply triple_fact. intros Ad. eapply triple_bind with (R := fun g w => in_state (taken s1) w /\ adoptable id p.(position_instrument_name) g).
    + intros w Hw. pose proof (state_kept _ _ (leaves_attach clock (set_last_action "adopted_from_exchange" (fst r))) w Hw) as K.
      destruct (_attach_open_group_stats _ w) as [w2 [g|x|]] eqn:E2; cbn [fst snd] in *; [|exact (Err _ K)..].
      split; [exact K | exact (attached_adoptable _ _ _ _ _ _ Ad E2)].
    + intros g. apply triple_fact. intros (I & O & P & S & _) w Hw. unfold in_state in Hw. cbn. rewrite Hw.
      pose proof (adopting_joined (fst known) s1 g A I O P) as J. rewrite S in J. cbn [taken set_next_group_id groups] in *. apply J; assumption.
Qed.

Lemma holds_of p : In p ps -> forall q, _short_option_open_size p = Some q -> holds_short ps p.(position_instrument_name) = true.
Proof. intros I q E. apply existsb_exists. exists p. rewrite E. split; [exact I | apply String.eqb_refl]. Qed.

Lemma adopt_position_triple known p : In p ps ->
  triple (fun w => adopting ps s (fst known) w.(state)) (adopt_position c clock ps known p)
    (fun known' w => adopting ps s (fst known') w.(state)) (fun w => adopting ps s (fst known) w.(state)).
Proof.
  intros I w Hw. set (s1 := w.(state)) in *.
  enough (T : triple (in_state s1) (adopt_position c clock ps known p) (fun known' w => adopting ps s (fst known') w.(state))
    (fun w => adopting ps s (fst known) w.(state))) by exact (T w eq_refl). clearbody s1. clear w.
  assert (Err : forall w, in_state s1 w -> adopting ps s (fst known) w.(state)) by (intros w E; unfold in_state in E; now rewrite E).
  assert (Skip : triple (in_state s1) (ret known) (fun known' w => adopting ps s (fst known') w.(state)) (fun w => adopting ps s (fst known) w.(state)))
    by (apply triple_ret; exact Err).
  unfold adopt_position. cbv zeta. destruct (_short_option_open_size p) as [held|] eqn:Sz; [|exact Skip].
  destruct (mem_str p.(position_instrument_name) (fst known)) eqn:Mem; [exact Skip|]. destruct (adopted_side _ _) as [ot|]; [|exact Skip].
  apply triple_step; [apply state_kept, leaves_listed, leaves_instrument | exact Err|]. intros [i|]; [|exact Skip].
  apply triple_step; [apply state_kept, keeps_attempt, leaves_book | exact Err|]. intros [b|]; [|exact Skip].
  destruct (_ || _); [exact Skip|]. destruct (dleb_spec (aligned i held) 0) as [|Q]; [exact Skip|]. apply Qnot_le_lt in Q.
  apply adopt_short_triple; [exact Q | | exact (holds_of p I _ Sz) | exact Hw]. intros X. apply mem_str_In in X. congruence.
Qed.

Lemma adopt_each_triple l : forall known, incl l ps ->
  triple (fun w => adopting ps s (fst known) w.(state)) (adopt_each c clock ps known l)
    (fun known' w => adopting ps s (fst known') w.(state)) (fun w => exists names, adopting ps s names w.(state)).
Proof.
  induction l as [|p l IH]; intros known I; cbn [adopt_each]; [apply triple_ret; auto|].
  eapply triple_bind with (R := fun known' w => adopting ps s (fst known') w.(state)).
  - eapply triple_weaken; [apply (adopt_position_triple known p), I; now left | auto | intros known' w' H; exact H | intros w' H; exists (fst known); exact H].
  - intros known'. apply IH. intros x Ix. apply I. now right.
Qed.
End Adopting.

Lemma adoption_adopting (D : Desk) c clock ps w :
  exists names, adopting ps w.(state) names (fst (_adopt_untracked_naked_short_positions c clock ps w)).(state).
Proof.
  unfold _adopt_untracked_naked_short_positions.
  assert (A0 : adopting ps w.(state) (open_shorts w.(state).(groups)) w.(state))
    by (constructor; [auto | exists []; rewrite app_nil_r; repeat split; [constructor | constructor | auto | intros [[]|]; auto]]).
  destruct (negb _); [eauto|]. rewrite bind_fst. cbn [read fst snd]. rewrite bind_fst.
  pose proof (adopt_each_triple c clock ps w.(state) ps (tracked_in w.(state).(groups)) (incl_refl _) w A0) as T.
  destruct (snd _) in T |- *; cbn [ret fst]; [eexists; exact T | exact T | exact T].
Qed.

(** C24. However the adoption of shorts the state knows nothing of ends, exceptions of the
    exchange included, the groups of before are still there, first and as they were; each
    new one is open, of a positive quantity, with a short that the exchange holds and no
    open group had. Groups keep numbers of their own, and if no two open groups shared a
    short, none do afterwards. *)
Theorem adoption_keeps_one_group_per_short (D : Desk) c clock ps w :
  numbered w.(state) -> NoDup (open_shorts w.(state).(groups)) ->
  let s' := (fst (_adopt_untracked_naked_short_positions c clock ps w)).(state) in
  numbered s' /\ NoDup (open_shorts s'.(groups)) /\
  exists added, s'.(groups) = w.(state).(groups) ++ added /\ Forall (adopted_from ps (open_shorts w.(state).(groups))) added.
Proof.
  intros N O s'. destruct (adoption_adopting D c clock ps w) as (names & N' & added & E & F & O' & _). fold s' in N', E.
  split; [exact (N' N)|]. rewrite E. split; [|eauto].
  unfold open_shorts. rewrite filter_app, map_app. assert (Op : filter is_open added = added).
    { clear - F. induction F as [|g l [Og _] _ IH]; [reflexivity|]. cbn [filter]. now rewrite Og, IH. }
  rewrite Op. apply NoDup_app; [exact O | exact O'|]. intros x I1 I2. apply in_map_iff in I2. destruct I2 as (g & <- & I2).
  rewrite Forall_forall in F. destruct (F g I2) as (_ & _ & Un & _). now apply Un.
Qed.
