(* ===== verification/Reconcile.v ===== *)
(** Reconciliation of the state with the exchange, second half
    ([engine/state_reconcile.py], with the price and ledger helpers it calls in
    [engine/base.py] and [engine/covered_call.py]): a group whose short the exchange no
    longer holds is closed, at a cost taken from the trades, the delivery price or the
    book, whichever the code finds first. Rows the journal is given and the sale of swept
    profit are not modelled: [swept] stands for the scheduling of that sale. What an
    exception interrupts in the middle of a group is not kept of that group. *)

From S2P Require Import Prelude Sorting Dec PyStr Utils Fees Margin Group Ledger PyObj GroupJson StateJson Market ExitEval VolMetrics EntryGates Runtime HedgeOrders Hedge Close GroupClose GroupExit DayState Portfolio EntryConfig Selector Entry Scan Settlement Positions.
Local Open Scope string_scope.
Local Open Scope Q_scope.
Local Open Scope dec_scope.
Local Open Scope bool_scope.
Local Open Scope run_scope.
Local Open Scope list_scope.

(** What the exchange tells of the past: the trades of an instrument between two times,
    and the prices an index was settled at, by day. *)
Class History : Type := {
  history_desk :: Desk;
  get_user_trades_by_instrument : string -> Z -> Z -> outcome pyobj;
  get_delivery_prices : string -> Z -> outcome (list (string * Q));
}.

(** A row of the journal, with the columns that tell of an order. *)
Record execution_row : Type := {
  execution : journal_row;
  row_label : string;
  row_order_id : string;
  row_reason : string;
}.

Definition RECONCILE_EXTERNAL_CLOSE_GRACE_MS : Z := 180000.

(** [a or b] of optional decimals. *)
Definition or_opt (a b : option Q) : option Q := match a with Some v => if v =? 0 then b else a | None => b end.

(** ** Labels of orders ([trade_journal_backfill.py]) *)

Definition zfill4 (s : string) : string := (zeros (4 - String.length s) ++ s)%string.

(** From the right: [-close] or nothing, the leg, the number, the currency, [spread], and
    whatever is before, which is the prefix. *)
Definition _parse_bot_label (label label_prefix : string) : option (string * string * string) :=
  let text := strip label in
  if is_empty text then None
  else
    let parts := rev (split_on "-"%char text EmptyString) in
    let (closes, parts) := match parts with
                           | last :: more => if String.eqb (lower last) "close" then (true, more) else (false, parts)
                           | [] => (false, parts)
                           end in
    match parts with
    | leg :: gid :: ccy :: spread :: before =>
        let prefix := String.concat "-" (rev before) in
        if mem_str (lower leg) ["short"; "long"] && all_digits gid && negb (is_empty ccy) && nonempty_all is_lower (lower ccy) && String.eqb (lower spread) "spread"
           && negb (is_empty prefix) && String.eqb prefix label_prefix
        then Some (zfill4 gid, lower leg, if closes then "close" else "open") else None
    | _ => None
    end.

Definition income_close_reason (prefix : string) (row : execution_row) : option string :=
  let r := row.(execution) in
  if negb (String.eqb (lower r.(row_event_type)) "close") || negb (mem_str (lower (str_or r.(row_leg) "short")) [""; "short"; "short_leg"])
     || String.eqb r.(row_source_action) "reconcile_external" then None
  else
    match _parse_bot_label row.(row_label) prefix with
    | Some (_, _, "close") =>
        if is_empty (strip row.(row_order_id)) then None
        else let reason := lower row.(row_reason) in Some (if mem_str reason INCOME_EXIT_REASONS then reason else "take_profit")
    | _ => None
    end.

Fixpoint infer_bot_income_exit_close_reason (executions : list execution_row) (order_label_prefix : string) : option string :=
  let prefix := strip order_label_prefix in
  if is_empty prefix then None
  else
    match executions with
    | [] => None
    | row :: rest => match income_close_reason prefix row with Some reason => Some reason | None => infer_bot_income_exit_close_reason rest order_label_prefix end
    end.

Definition cash_secured_put_is_itm (index_price strike buffer_pct : Q) : bool :=
  if (index_price <=? 0) || (strike <=? 0) then false
  else index_price <? strike ⊗ (1 ⊖ dmax 0 (dmin buffer_pct 1)).

(** ** Prices of the past *)

(** Amount and price of the purchases, and their total. *)
Fixpoint bought (trades : list pyobj) (weighted total : Q) : outcome (Q * Q) :=
  match trades with
  | [] => Ret (weighted, total)
  | PDict d :: rest =>
      if negb (String.eqb (lower (str_or_default (dget "direction" d) "")) "buy") then bought rest weighted total
      else
        let amount := to_decimal (dget "amount" d) 0 in
        let price := to_decimal (dget "price" d) 0 in
        if (amount <=? 0) || (price <=? 0) then bought rest weighted total else bought rest (weighted ⊕ (price ⊗ amount)) (total ⊕ amount)
  | _ :: _ => Exn AttributeError
  end.

Definition bought_premium (quantity : Q) (payload : pyobj) : outcome (option Q) :=
  match payload with
  | PDict d =>
      (let! trades := py_list (obj_or (dget "trades" d) (PList [])) in
       let! sums := bought trades 0 0 in
       Ret (let '(weighted, total) := sums in
            if (total >? 0) && (quantity ⊗ 0.5 <=? total) then Some (weighted ⊘ total) else None))%outcome
  | _ => Exn AttributeError
  end.

Definition _group_is_expired (g : TradeGroup) (now_ms : Z) : bool :=
  if (g.(expiration_timestamp_ms) <=? 0)%Z then false else (g.(expiration_timestamp_ms) - 60000 <=? now_ms)%Z.

(** [replace(book, index_price=...)] *)
Definition book_at_index (v : Q) (b : OrderBookSnapshot) : OrderBookSnapshot :=
  {| book_instrument_name := b.(book_instrument_name); best_bid_price := b.(best_bid_price); best_bid_amount := b.(best_bid_amount);
     best_ask_price := b.(best_ask_price); best_ask_amount := b.(best_ask_amount); mark_price := b.(mark_price); index_price := v;
     delta := b.(delta); iv := b.(iv); open_interest := b.(open_interest) |}.

Section Reconcile.
Context {H : History}.
Variable c : reconcile_config.
Variable clock : list request -> Z.
Variable list_executions : string -> option (list execution_row).
Variable swept : TradeGroup -> string -> TradeGroup.

Let e : entry_config := c.(scanning).(entries).
Let desk : desk_config := e.(trading).
Let hedging : engine_config := desk.(engine).

Definition fallback_premium (b : OrderBookSnapshot) : Q :=
  let premium := buy_close_premium b desk.(legs).(Close.early_exit_max_spread_ratio) in
  dmax (if premium <=? 0 then dmax b.(best_ask_price) b.(mark_price) else premium) 0.

Definition _reconcile_buy_close_premium_native (g : TradeGroup) (b : OrderBookSnapshot) (closed_ms : Z) : Q :=
  let traded := if c.(scanning).(gated).(accounts).(has_private_credentials) then
                  (let! payload := get_user_trades_by_instrument g.(short_instrument_name) (Z.max (g.(entry_timestamp_ms) - 60000) 0) (closed_ms + 300000) in
                   bought_premium g.(quantity) payload)%outcome
                else Ret None in
  match traded with Ret (Some premium) => premium | _ => fallback_premium b end.

Definition remembered_index (g : TradeGroup) : Q := or_zero (or_opt g.(close_index_usd) (Some g.(entry_index_usd))).

Definition _reconcile_coin_close_ledger (g : TradeGroup) (b : OrderBookSnapshot) (i : OptionInstrument) (closed_ms : Z) : M (TradeGroup * option Q) :=
  let index := if b.(index_price) <=? 0 then remembered_index g else b.(index_price) in
  let premium := _reconcile_buy_close_premium_native g b closed_ms in
  if (premium <=? 0) || (index <=? 0) then ret (g, None)
  else
    let* t := now clock in
    let g := fst (apply_coin_close_from_native g premium index (Some (_option_fee_native desk premium g.(quantity) index i (t / 1000)))) in
    ret (g, g.(realized_close_debit)).

Definition _reconcile_usdc_close_debit_from_trades (g : TradeGroup) (b : OrderBookSnapshot) (i : OptionInstrument) (closed_ms : Z) : M (TradeGroup * option Q) :=
  let premium := _reconcile_buy_close_premium_native g b closed_ms in
  let index := if b.(index_price) >? 0 then b.(index_price) else g.(entry_index_usd) in
  if (premium <=? 0) || (index <=? 0) then ret (g, None)
  else
    let* t := now clock in
    ret (set_short_close_average_price (Some premium) g,
         Some (_premium_value_usdc premium g.(quantity) index i ⊕ _option_fee_usdc desk premium g.(quantity) index i (t / 1000))).

Definition _is_bull_put_spread_group (g : TradeGroup) : bool := is_bull_put_spread_group g desk.(option_strategy).

Definition _naked_reconcile_close_debit_at_index (g : TradeGroup) (i : OptionInstrument) (index : Q) (now_ms : Z) : Q :=
  let settle := _intrinsic_settlement i index (lower (str_or g.(Group.option_type) "put")) in
  if negb (String.eqb (upper g.(Group.collateral_currency)) "USDC") && negb (usdc_linear i) then
    let total_native := (settle ⊗ g.(quantity)) ⊕ _option_fee_native desk settle g.(quantity) index i now_ms in
    if index >? 0 then dmax (total_native ⊗ index) 0 else 0
  else dmax (_premium_value_usdc settle g.(quantity) index i ⊕ _option_fee_usdc desk settle g.(quantity) index i now_ms) 0.

Definition _long_instrument_for_spread_reconcile (g : TradeGroup) (short_i : OptionInstrument) : M (option OptionInstrument) :=
  let* listed := (if truthy g.(long_instrument_name) then attempt (_find_instrument g.(long_instrument_name)) else ret None) in
  let* markets := read markets_by_currency in
  ret (match listed with Some i => Some i | None => long_instrument_for_spread_reconcile g short_i markets end).

Definition _spread_reconcile_close_debit_at_index (g : TradeGroup) (short_i : OptionInstrument) (long_i : option OptionInstrument) (index : Q) : Q :=
  spread_expiry_close_debit_usdc desk.(option_fee_rate) desk.(option_fee_cap_rate) g short_i long_i index.

(** [_resolve_reconcile_index_price], which is only asked without a book. *)
Definition _resolve_reconcile_index_price (g : TradeGroup) : M Q :=
  if opt_pos g.(close_index_usd) then ret (or_zero g.(close_index_usd))
  else if g.(entry_index_usd) >? 0 then ret g.(entry_index_usd)
  else
    let* found := attempt (let* i := _find_instrument g.(short_instrument_name) in _currency_index_price i.(base_currency)) in
    ret (match found with Some price => price | None => 0 end).

(** ** What the close cost, where no trade tells *)

Definition spread_capped (g : TradeGroup) (debit : Q) : Q :=
  if _is_bull_put_spread_group g then cap_spread_reconcile_close_debit g debit else debit.

(** The protection's price and its index, from its book; nothing where the book cannot be read. *)
Definition long_quote (g : TradeGroup) (long_i : option OptionInstrument) (index : Q) : M (option (Q * Q)) :=
  if is_empty g.(long_instrument_name) then ret (Some (0, index))
  else
    let* book := attempt (_get_orderbook g.(long_instrument_name)) in
    ret (option_map (fun b => (match long_i with Some _ => if b.(best_bid_price) >? 0 then b.(best_bid_price) else b.(mark_price) | None => 0 end,
                               if b.(index_price) >? 0 then b.(index_price) else index)) book).

(** The debit at the book's mark. A spread that settles is priced at its index before this is reached. *)
Definition marked_debit (g : TradeGroup) (b : OrderBookSnapshot) (i : OptionInstrument) (index : Q) (now_ms : Z) : M Q :=
  let premium := dmax (if b.(mark_price) >? 0 then b.(mark_price) else b.(best_ask_price)) 0 in
  let debit := _premium_value_usdc premium g.(quantity) b.(index_price) i ⊕ _option_fee_usdc desk premium g.(quantity) b.(index_price) i now_ms in
  if _is_bull_put_spread_group g && (g.(long_strike) >? 0) then
    let* long_i := _long_instrument_for_spread_reconcile g i in
    let* quote := long_quote g long_i index in
    let '(premium, long_index) := match quote with Some q => q | None => (0, index) end in
    ret (spread_capped g (dmax (match long_i with
                                | Some l =>
                                    if premium >? 0 then
                                      let credit := _premium_value_usdc premium g.(quantity) long_index l in
                                      let fee := _option_fee_usdc desk premium g.(quantity) long_index l now_ms in
                                      dmax (debit ⊖ dmax (credit ⊖ fee) 0) 0
                                    else debit
                                | None => debit
                                end) 0))
  else ret (spread_capped g (dmax debit 0)).

Definition debit_from_market (g : TradeGroup) (settlement_index : option Q) (now_ms : Z) : M Q :=
  let* b := _get_orderbook g.(short_instrument_name) in
  let* i := _find_instrument g.(short_instrument_name) in
  let index := if b.(index_price) <=? 0 then remembered_index g else b.(index_price) in
  let index := if opt_pos settlement_index then or_zero settlement_index else index in
  if _is_bull_put_spread_group g && group_uses_spread_settlement_pricing g now_ms && (index >? 0) then
    let* long_i := _long_instrument_for_spread_reconcile g i in
    ret (_spread_reconcile_close_debit_at_index g i long_i index)
  else if _group_is_expired g now_ms && (index >? 0) then ret (_naked_reconcile_close_debit_at_index g i index now_ms)
  else marked_debit g b i index now_ms.

Definition settled_debit (g : TradeGroup) (now_ms : Z) (index : Q) : M Q :=
  let* i := _find_instrument g.(short_instrument_name) in
  if _is_bull_put_spread_group g then
    let* long_i := _long_instrument_for_spread_reconcile g i in
    ret (_spread_reconcile_close_debit_at_index g i long_i index)
  else ret (_naked_reconcile_close_debit_at_index g i index now_ms).

Definition debit_without_market (g : TradeGroup) (now_ms : Z) : M (option Q) :=
  let stale := if (g.(current_debit) >=? 0) && negb (is_coin_collateral g) then Some (spread_capped g g.(current_debit)) else None in
  if _group_is_expired g now_ms || (_is_bull_put_spread_group g && in_spread_expiry_settlement_window g.(expiration_timestamp_ms) now_ms) then
    let* index := _resolve_reconcile_index_price g in
    if index >? 0 then
      let* settled := attempt (settled_debit g now_ms index) in
      ret (match settled with Some d => Some d | None => stale end)
    else ret stale
  else ret stale.

Definition _estimate_reconcile_close_debit (g : TradeGroup) (settlement_index : option Q) : M (option Q) :=
  let* t := now clock in
  let now_ms := (t / 1000)%Z in
  if (g.(current_debit) >? 0) && negb (_is_bull_put_spread_group g && group_uses_spread_settlement_pricing g now_ms)
     && negb (is_coin_collateral g) && negb (_group_is_expired g now_ms)
  then ret (Some (spread_capped g g.(current_debit)))
  else
    let* priced := attempt (debit_from_market g settlement_index now_ms) in
    match priced with
    | Some d => ret (Some d)
    | None => debit_without_market g now_ms
    end.

(** ** Exercise ([engine/covered_call.py]) *)

Definition _expiry_settlement_price (g : TradeGroup) : M (option Q) :=
  if (g.(expiration_timestamp_ms) <=? 0)%Z then ret None
  else
    let* t := now clock in
    let age_days := Z.max 0 ((t / 1000 - g.(expiration_timestamp_ms)) / 86400000) in
    ret (match get_delivery_prices (lower g.(currency) ++ "_usd")%string (age_days + 5) with
         | Ret rows => option_map snd (find (fun row => String.eqb (fst row) (today_key g.(expiration_timestamp_ms)) && (snd row >? 0)) rows)
         | _ => None
         end).

Definition call_trigger (g : TradeGroup) : Q := g.(short_strike) ⊗ (1 ⊕ c.(covered_call_itm_buffer_pct)).

Definition _covered_call_itm_from_cache (g : TradeGroup) : M bool :=
  let* index := _currency_index_price g.(currency) in
  ret (if (index <=? 0) || (g.(short_strike) <=? 0) then false else index >? call_trigger g).

Definition _covered_call_expired_itm (g : TradeGroup) : M bool :=
  let* settlement := _expiry_settlement_price g in
  match settlement with
  | Some price => if g.(short_strike) <=? 0 then _covered_call_itm_from_cache g else ret (price >? call_trigger g)
  | None => _covered_call_itm_from_cache g
  end.

(** With no price at all the close index of the group is compared with zero, even where it has none. *)
Definition _cash_secured_put_itm_from_cache (g : TradeGroup) (close_index : option Q) : M bool :=
  let* index := (if opt_pos close_index then ret (or_zero close_index) else _currency_index_price g.(currency)) in
  let* index := (if index <=? 0 then
                   match g.(close_index_usd) with
                   | None => lift (Exn TypeError)
                   | Some v => ret (if v >? 0 then v else index)
                   end
                 else ret index) in
  ret (cash_secured_put_is_itm index g.(short_strike) c.(covered_call_itm_buffer_pct)).

Definition _cash_secured_put_expired_itm (g : TradeGroup) (close_index : option Q) : M bool :=
  let* settlement := _expiry_settlement_price g in
  match settlement with
  | Some price => ret (cash_secured_put_is_itm price g.(short_strike) c.(covered_call_itm_buffer_pct))
  | None => _cash_secured_put_itm_from_cache g close_index
  end.

Definition _covered_call_spot_instrument (currency : string) : string :=
  (upper currency ++ (if c.(covered_call_itm_to_cash_secured_enabled) then "_USDC" else "_USDT"))%string.

(** ** One group *)

(** A group on its way to be closed: its book, its index, and the delivery price. *)
Record closing : Type := {
  at_group : TradeGroup;
  at_book : option OrderBookSnapshot;
  at_index : option Q;
  at_settlement : option Q;
}.

Definition with_book (g : TradeGroup) : M closing :=
  let* book := attempt (_get_orderbook g.(short_instrument_name)) in
  ret (match book with
       | Some b => if b.(index_price) >? 0
                   then {| at_group := set_close_index_usd (Some b.(index_price)) g; at_book := book; at_index := Some b.(index_price); at_settlement := None |}
                   else {| at_group := g; at_book := book; at_index := None; at_settlement := None |}
       | None => {| at_group := g; at_book := None; at_index := None; at_settlement := None |}
       end).

(** What was exercised or not is priced at the delivery. *)
Definition with_settlement (expired : bool) (k : closing) : M closing :=
  if expired && (is_cash_secured_group k.(at_group) || is_covered_call_group k.(at_group)) then
    let* settlement := _expiry_settlement_price k.(at_group) in
    ret (match settlement with
         | Some v => {| at_group := set_close_index_usd settlement k.(at_group); at_book := option_map (book_at_index v) k.(at_book);
                        at_index := settlement; at_settlement := settlement |}
         | None => k
         end)
  else ret k.

(** The debit of the close, with what the ledger notes of it. *)
Definition close_cost (k : closing) (closed_ms : Z) : M (TradeGroup * option Q) :=
  let g := k.(at_group) in
  let from_trades ledger b := attempt (let* i := _find_instrument g.(short_instrument_name) in ledger g b i closed_ms) in
  match k.(at_book) with
  | Some b =>
      if is_coin_collateral g then
        let* booked := from_trades _reconcile_coin_close_ledger b in
        ret (match booked with Some r => r | None => (g, None) end)
      else
        let* booked := from_trades _reconcile_usdc_close_debit_from_trades b in
        match booked with
        | Some (g, Some d) => ret (g, Some d)
        | Some (g, None) => let* d := _estimate_reconcile_close_debit g k.(at_settlement) in ret (g, d)
        | None => let* d := _estimate_reconcile_close_debit g k.(at_settlement) in ret (g, d)
        end
  | None => let* d := _estimate_reconcile_close_debit g k.(at_settlement) in ret (g, d)
  end.

Definition spot_waits (status : string) : bool := mem_str status ["submitted"; "filled"; "pending"].

(** An exercised call leaves its cover to be sold, an exercised put its coins to be bought. *)
Definition follow_exercise (expired income : bool) (close_index : option Q) (g : TradeGroup) : M TradeGroup :=
  let* called := (if expired && negb income && c.(covered_call_spot_exit_enabled) && negb c.(covered_call_robust_exit_enabled) && is_covered_call_group g
                     && negb (spot_waits g.(spot_exit_status))
                  then _covered_call_expired_itm g else ret false) in
  let g := if called then set_spot_exit_reason "covered_call_settlement_exit"
                            (set_spot_exit_instrument_name (_covered_call_spot_instrument g.(currency)) (set_spot_exit_status "pending" g)) else g in
  let* put := (if expired && negb income && c.(covered_call_itm_to_cash_secured_enabled) && is_cash_secured_group g
                  && negb (spot_waits (lower g.(spot_restore_status)))
               then _cash_secured_put_expired_itm g close_index else ret false) in
  ret (if put then set_spot_restore_reason "cash_secured_itm_assignment"
                     (set_spot_restore_instrument_name (upper g.(currency) ++ "_USDC")%string (set_spot_restore_status "pending" g)) else g).

Definition inferred_close (expired : bool) (rows : list execution_row) : option string :=
  if expired then None else match rows with [] => None | _ => infer_bot_income_exit_close_reason rows hedging.(order_label_prefix) end.

Definition reconciled_reason (expired : bool) (inferred : option string) : string :=
  if expired then "reconciled_expiry" else match inferred with Some reason => reason | None => "reconciled_external" end.

Definition reconcile_close (live : bool) (g : TradeGroup) : M TradeGroup :=
  let* t := now clock in
  let expired := _group_is_expired g (t / 1000) in
  let closed_ms := if expired && (g.(expiration_timestamp_ms) >? 0)%Z then Z.max g.(expiration_timestamp_ms) g.(entry_timestamp_ms) else (t / 1000)%Z in
  let* k := with_book g in
  let* k := with_settlement expired k in
  let* cost := close_cost k closed_ms in
  let g := fst cost in
  let pnl := option_map (fun d => entry_credit_net_usdc g ⊖ d) (snd cost) in
  let return_on_max_loss := option_map (fun p => safe_div p g.(max_loss) 0) pnl in
  let rows := match list_executions g.(group_id) with Some rows => rows | None => [] end in
  let inferred := inferred_close expired rows in
  let g := match inferred with Some _ => enrich_fill_prices_from_journal g (map execution rows) | None => g end in
  let* g := follow_exercise expired (match inferred with Some reason => mem_str reason INCOME_EXIT_REASONS | None => false end) k.(at_index) g in
  let* g := lift (backfill_realized_pnl_collateral_native g None (map execution rows)) in
  let* g := lift (backfill_realized_pnl_usdc g None) in
  let reason := reconciled_reason expired inferred in
  let* g := _mark_group_closed desk g reason closed_ms (or_opt g.(realized_close_debit) (snd cost)) g.(realized_close_fee) (or_opt g.(realized_pnl) pnl)
              return_on_max_loss None k.(at_index) in
  ret (if live then swept g reason else g).

(** ** All of it *)

Definition put_groups (gs : list TradeGroup) : M unit := modify (fun w => set_state (set_groups gs w.(state)) w).

(** The exchange holds the short, or the group is too young to say. *)
Definition stays (ps : list Position) (now_ms : Z) (g : TradeGroup) : bool :=
  negb (is_open g) || holds_short ps g.(short_instrument_name) || (now_ms - g.(entry_timestamp_ms) <? RECONCILE_EXTERNAL_CLOSE_GRACE_MS)%Z.

Fixpoint reconcile_each (live : bool) (ps : list Position) (passed gs : list TradeGroup) (closed_any : bool) : M bool :=
  match gs with
  | [] => ret closed_any
  | g :: rest =>
      let* t := now clock in
      if stays ps (t / 1000) g then reconcile_each live ps (passed ++ [g]) rest closed_any
      else
        let* g := reconcile_close live g in
        let* _ := put_groups (passed ++ g :: rest) in
        reconcile_each live ps (passed ++ [g]) rest true
  end.

Definition _reconcile_state (ps : list Position) (live : bool) : M bool :=
  let* s := read state in
  let* _ := put_groups (_sync_naked_open_groups_from_positions s.(groups) ps) in
  let* s := read state in
  let* gs := _sync_bull_put_spread_groups_from_positions c clock s.(groups) ps in
  let* t := now clock in
  let* _ := put_groups (_demote_unwound_bull_put_groups c gs ps (t / 1000)) in
  let* _ := _adopt_untracked_naked_short_positions c clock ps in
  let* s := read state in
  reconcile_each live ps [] s.(groups) false.
End Reconcile.
