(* ===== verification/ReconcileFacts.v ===== *)
(** Which groups a reconciliation closes, and what it leaves alone. *)

From S2P Require Import Prelude Sorting Dec PyStr Utils Fees Margin Group Ledger PyObj GroupJson StateJson Market ExitEval VolMetrics EntryGates ExchangeErrors Runtime HedgeOrders Hedge Close GroupClose GroupExit EngineFrame DayState Portfolio Triples EntryConfig Selector Ranking Entry EntryFacts SpreadEntry Builders BuilderFacts Scan ScanFacts EntryCycle Settlement Positions PositionsFacts Reconcile.
Local Open Scope string_scope.
Local Open Scope Q_scope.
Local Open Scope dec_scope.
Local Open Scope bool_scope.
Local Open Scope run_scope.
Local Open Scope list_scope.

(** ** Nothing is sent *)

(** Code that sends no request, so that the clock of the model stands still. *)
Definition silent {A} (m : M A) : Prop := forall w, (fst (m w)).(requests) = w.(requests).

Lemma silent_looks {A} (m : M A) : looks m -> silent m.
Proof. intros L w. apply L. Qed.

Lemma silent_bind {A B} (m : M A) (k : A -> M B) : silent m -> (forall a, silent (k a)) -> silent (bind m k).
Proof. intros Hm Hk w. rewrite bind_fst. destruct (snd (m w)) as [a|x|]; [rewrite (Hk a)|..]; apply Hm. Qed.

Section Looking.
Context {H : History}.
Variables (c : reconcile_config) (clock : list request -> Z) (list_executions : string -> option (list execution_row)) (swept : TradeGroup -> string -> TradeGroup).

Lemma looks_instrument name : looks (_find_instrument name).
Proof. unfold _find_instrument. look; intros w; split; reflexivity. Qed.

Lemma looks_now : looks (now clock).
Proof. intros w. split; reflexivity. Qed.
#[local] Hint Resolve looks_orderbook looks_index looks_instrument looks_now : looking.

Lemma looks_long g i : looks (_long_instrument_for_spread_reconcile g i).
Proof. unfold _long_instrument_for_spread_reconcile. look. Qed.
#[local] Hint Resolve looks_long : looking.

Lemma looks_marked_debit g b i index t : looks (marked_debit c g b i index t).
Proof. unfold marked_debit, long_quote. look. Qed.
#[local] Hint Resolve looks_marked_debit : looking.

Lemma looks_estimate g settlement : looks (_estimate_reconcile_close_debit c clock g settlement).
Proof.
  unfold _estimate_reconcile_close_debit, debit_without_market, debit_from_market, settled_debit, _resolve_reconcile_index_price. look.
Qed.

Lemma looks_settlement g : looks (_expiry_settlement_price clock g).
Proof. unfold _expiry_settlement_price. look. Qed.
#[local] Hint Resolve looks_estimate looks_settlement : looking.

Lemma looks_exercise expired income close_index g : looks (follow_exercise c clock expired income close_index g).
Proof.
  unfold follow_exercise, _covered_call_expired_itm, _cash_secured_put_expired_itm, _covered_call_itm_from_cache, _cash_secured_put_itm_from_cache. look.
Qed.

Lemma looks_cost k closed_ms : looks (close_cost c clock k closed_ms).
Proof. unfold close_cost, _reconcile_coin_close_ledger, _reconcile_usdc_close_debit_from_trades. look. Qed.

Lemma looks_mark g reason ms debit fee pnl rm an idx : looks (_mark_group_closed (trading (entries (scanning c))) g reason ms debit fee pnl rm an idx).
Proof. unfold _mark_group_closed, _snapshot_close_apr_on_equity. look. Qed.
#[local] Hint Resolve looks_exercise looks_cost looks_mark : looking.

Lemma looks_close live g : looks (reconcile_close c clock list_executions swept live g).
Proof. unfold reconcile_close, with_book, with_settlement. look. Qed.

Lemma looks_promote g sp si lp li q : looks (_promote_group_to_bull_put_spread c clock g sp si lp li q).
Proof. unfold _promote_group_to_bull_put_spread, _bull_put_spread_adoption_metrics. look. Qed.

Lemma looks_promote_each ps gs : forall used, looks (promote_each c clock ps used gs).
Proof.
  pose proof looks_promote as P. induction gs as [|g rest IH]; intros used; cbn [promote_each]; look.
Qed.

Lemma silent_adopt_position ps known p : silent (adopt_position c clock ps known p).
Proof.
  pose proof looks_promote as P. assert (Modify : forall f, (forall w, (f w).(requests) = w.(requests)) -> silent (modify f)) by (intros f Hf w; apply Hf).
  assert (Listed : forall name, looks (if_listed (_find_instrument name))).
  { intros name w. pose proof (looks_instrument name w) as L. unfold if_listed. destruct (_find_instrument name w) as [w' [a|x|]]; [exact L| |exact L]. destruct x; exact L. }
  assert (Attach : forall g, looks (_attach_open_group_stats g)).
  { assert (Fresh : forall currency, looks (with_fresh_cache (_currency_index_price currency))) by (intros k w; exact (looks_index k (set_orderbook_cache [] w))).
    intros g. unfold _attach_open_group_stats, with_entry_index. look. }
  unfold adopt_position, adopt_short, _next_group_id, append_group.
  repeat first [ progress cbv zeta | solve [apply silent_looks; auto with nocore] | apply silent_bind; [|intros ?] | apply Modify; reflexivity | solve [apply silent_looks; look; auto]
               | match goal with |- silent (match ?x with _ => _ end) => destruct x end ].
Qed.

Lemma silent_adopt ps : silent (_adopt_untracked_naked_short_positions c clock ps).
Proof.
  unfold _adopt_untracked_naked_short_positions. destruct (negb _); [intros w; reflexivity|]. apply silent_bind; [intros w; reflexivity|]. intros s.
  apply silent_bind; [|intros _ w; reflexivity]. generalize (tracked_in s.(groups)). generalize ps at 2. intros l.
  induction l as [|p l IH]; intros known; cbn [adopt_each]; [intros w; reflexivity|]. apply silent_bind; [apply silent_adopt_position | intros; apply IH].
Qed.

Lemma silent_each live ps gs : forall passed any, silent (reconcile_each c clock list_executions swept live ps passed gs any).
Proof.
  induction gs as [|g rest IH]; intros passed any; cbn [reconcile_each]; [apply silent_looks, looks_ret|].
  apply silent_bind; [apply silent_looks, looks_now|]. intros t. destruct (stays ps _ g); [apply IH|].
  apply silent_bind; [apply silent_looks, looks_close|]. intros g1. apply silent_bind; [intros u; reflexivity | intros _; apply IH].
Qed.
End Looking.

(** ** The identity of a group *)

(** What tells a group from the others, and when it runs. *)
Definition ident (g : TradeGroup) : string * string * Z * Z :=
  (g.(group_id), g.(short_instrument_name), g.(entry_timestamp_ms), g.(expiration_timestamp_ms)).

Lemma ident_blind : blind ident.
Proof. repeat split. Qed.

Lemma apr_blind {T} (h : TradeGroup -> T) g p ix : blind h -> h (fst (pnl_for_apr g p ix)) = h g.
Proof.
  intros Bh. unfold pnl_for_apr, _realized_pnl_native_for_apr_book. pose proof (coin_profit_blind h Bh g (0 <? ix)) as B.
  destruct (realized_pnl_collateral_native g); [destruct (is_usdc_book g); [|reflexivity]|].
  all: destruct (String.eqb _ _); try reflexivity; destruct (compute_coin_profit_native g (0 <? ix)); exact B.
Qed.

Lemma coin_close_blind {T} (h : TradeGroup -> T) g premium index fee : blind h -> h (fst (apply_coin_close_from_native g premium index fee)) = h g.
Proof.
  intros B. destruct B as (? & ? & ? & ? & ? & ? & ? & ? & ? & ? & ? & ? & ? & ?). unfold apply_coin_close_from_native. destruct (_ || _ || _); [reflexivity|].
  cbv zeta. destruct (_ <? 0); [reflexivity|]. destruct (if index <=? 0 then _ else Some index); [|reflexivity].
  rewrite !(assign_dec_other h), !(assign_opt_other h) by auto. reflexivity.
Qed.

Lemma journal_blind {T} (h : TradeGroup -> T) g rows : blind h -> h (enrich_fill_prices_from_journal g rows) = h g.
Proof.
  intros B. pose proof B as Bs. destruct Bs as (? & ? & ? & ? & ? & ? & ? & ? & ? & ? & ? & S & E & ?).
  unfold enrich_fill_prices_from_journal. destruct rows as [|r rows]; [reflexivity|]. destruct (is_empty _); [reflexivity|].
  destruct (fold_left _ _ _) as [o k]. rewrite (infer_blind h B).
  destruct k as [[? p]|]; [destruct (negb _); [rewrite S|]|]; (destruct o as [[? q]|]; [destruct (_ <=? 0); [rewrite E|]|]; reflexivity).
Qed.

Section Closing.
Context {H : History}.
Variables (c : reconcile_config) (clock : list request -> Z) (list_executions : string -> option (list execution_row)) (swept : TradeGroup -> string -> TradeGroup).

(** What is looked at on the way to the close keeps a property no ledger field, index or
    follow-up of the spot enters. *)
Section Kept.
Context {T : Type} (h : TradeGroup -> T).
Hypothesis unseen : blind h.

Lemma with_book_kept g w w' k : with_book g w = (w', Ret k) -> h k.(at_group) = h g.
Proof.
  intros E. apply bind_inv in E. destruct E as (w1 & b & _ & E). apply ret_inv in E. subst k.
  destruct b as [b|]; [destruct (_ >? 0)|]; try reflexivity. apply unseen.
Qed.

Lemma with_settlement_kept expired k w w' k' : with_settlement clock expired k w = (w', Ret k') -> h k'.(at_group) = h k.(at_group).
Proof.
  unfold with_settlement. destruct (_ && _); [|intros E; apply ret_inv in E; now subst k']. intros E. apply bind_inv in E. destruct E as (w1 & v & _ & E).
  apply ret_inv in E. subst k'. destruct v; [apply unseen | reflexivity].
Qed.

Lemma coin_ledger_kept g b i ms w w' r : _reconcile_coin_close_ledger c clock g b i ms w = (w', Ret r) -> h (fst r) = h g.
Proof.
  unfold _reconcile_coin_close_ledger. cbv zeta. destruct (_ || _); [intros E; apply ret_inv in E; now subst r|]. intros E.
  apply bind_inv in E. destruct E as (w1 & t & _ & E). apply ret_inv in E. subst r. now apply coin_close_blind.
Qed.

Lemma usdc_debit_kept g b i ms w w' r : _reconcile_usdc_close_debit_from_trades c clock g b i ms w = (w', Ret r) -> h (fst r) = h g.
Proof.
  unfold _reconcile_usdc_close_debit_from_trades. cbv zeta. destruct (_ || _); [intros E; apply ret_inv in E; now subst r|]. intros E.
  apply bind_inv in E. destruct E as (w1 & t & _ & E). apply ret_inv in E. subst r. apply unseen.
Qed.

Lemma attempt_inv {A} (m : M A) w w' o : attempt m w = (w', Ret o) -> match o with Some a => m w = (w', Ret a) | None => True end.
Proof. unfold attempt. destruct (m w) as [w1 [a|x|]]; intros E; [|now injection E as _ <-|discriminate]. now injection E as -> <-. Qed.

Lemma close_cost_kept k ms w w' r : close_cost c clock k ms w = (w', Ret r) -> h (fst r) = h k.(at_group).
Proof.
  unfold close_cost. cbv zeta. destruct (at_book k) as [b|];
    [|intros E; apply bind_inv in E; destruct E as (w1 & d & _ & E); apply ret_inv in E; now subst r].
  destruct (is_coin_collateral _); intros E; apply bind_inv in E; destruct E as (w1 & o & E1 & E); apply attempt_inv in E1.
  - apply ret_inv in E. subst r. destruct o as [r|]; [|reflexivity]. apply bind_inv in E1. destruct E1 as (w2 & i & _ & E1). exact (coin_ledger_kept _ _ _ _ _ _ _ E1).
  - destruct o as [[g [d|]]|].
    + apply ret_inv in E. subst r. apply bind_inv in E1. destruct E1 as (w2 & i & _ & E1). exact (usdc_debit_kept _ _ _ _ _ _ _ E1).
    + apply bind_inv in E. destruct E as (w3 & d & _ & E). apply ret_inv in E. subst r.
      apply bind_inv in E1. destruct E1 as (w2 & i & _ & E1). exact (usdc_debit_kept _ _ _ _ _ _ _ E1).
    + apply bind_inv in E. destruct E as (w3 & d & _ & E). apply ret_inv in E. now subst r.
Qed.
End Kept.

Lemma exercise_kept {T} (h : TradeGroup -> T) expired income index g w w' g' :
  (forall v g, h (set_spot_exit_status v g) = h g) -> (forall v g, h (set_spot_exit_instrument_name v g) = h g) -> (forall v g, h (set_spot_exit_reason v g) = h g) ->
  (forall v g, h (set_spot_restore_status v g) = h g) -> (forall v g, h (set_spot_restore_instrument_name v g) = h g) -> (forall v g, h (set_spot_restore_reason v g) = h g) ->
  follow_exercise c clock expired income index g w = (w', Ret g') -> h g' = h g.
Proof.
  intros A1 A2 A3 B1 B2 B3 E. apply bind_inv in E. destruct E as (w1 & called & _ & E). apply bind_inv in E. destruct E as (w2 & put & _ & E).
  apply ret_inv in E. subst g'. destruct put, called; rewrite ?B3, ?B2, ?B1, ?A3, ?A2, ?A1; reflexivity.
Qed.

Lemma backfills_open g rows : g.(Group.status) = "open" -> backfill_realized_pnl_collateral_native g None rows = Ret g /\ backfill_realized_pnl_usdc g None = Ret g.
Proof. intros O. split; [|now apply backfill_open]. unfold backfill_realized_pnl_collateral_native, backfill_fuel. cbn [backfill_native_fuel]. now rewrite O. Qed.

(** What a close writes. *)
Definition close_marks (g : TradeGroup) : string * string * option Z := (g.(Group.status), g.(Group.close_reason), g.(Group.closed_timestamp_ms)).

Lemma snapshot_shape d h p ms index w w' t : _snapshot_close_apr_on_equity d h p ms index w = (w', Ret t) -> exists ix, fst (fst t) = fst (pnl_for_apr h p ix).
Proof.
  intros E. apply bind_inv in E. destruct E as (w5 & ce & _ & E). apply bind_inv in E. destruct E as (w6 & ix & _ & E). apply ret_inv in E.
  rewrite <- E. cbn [fst]. now exists ix.
Qed.

Lemma ident_apr a x y g : ident (set_realized_annualized_return a (set_realized_apr_on_equity x (set_close_book_equity y g))) = ident g.
Proof. reflexivity. Qed.

Lemma close_marks_apr a x y g : close_marks (set_realized_annualized_return a (set_realized_apr_on_equity x (set_close_book_equity y g))) = close_marks g.
Proof. reflexivity. Qed.

Lemma close_marks_blind : blind close_marks.
Proof. repeat split. Qed.

Lemma ident_marked g reason ms debit fee pnl rm : ident (marked g reason ms debit fee pnl rm) = ident g.
Proof. reflexivity. Qed.

Lemma close_marks_marked g reason ms debit fee pnl rm : close_marks (marked g reason ms debit fee pnl rm) = ("closed", reason, Some ms).
Proof. reflexivity. Qed.

Lemma mark_group_some d g reason ms debit fee p rm an index w w' g' : _mark_group_closed d g reason ms debit fee (Some p) rm an index w = (w', Ret g') ->
  ident g' = ident g /\ close_marks g' = ("closed", reason, Some ms).
Proof.
  intros E. apply bind_inv in E. destruct E as (w1 & [[g1 eq] apr] & E1 & E). apply ret_inv in E. subst g'.
  apply snapshot_shape in E1. destruct E1 as (ix & E1). cbn [fst] in E1. subst g1.
  rewrite ident_apr, close_marks_apr, (apr_blind ident _ _ _ ident_blind), (apr_blind close_marks _ _ _ close_marks_blind).
  split; [apply ident_marked | apply close_marks_marked].
Qed.

Lemma mark_group_spec d g reason ms debit fee pnl rm index w w' g' : _mark_group_closed d g reason ms debit fee pnl rm None index w = (w', Ret g') ->
  ident g' = ident g /\ close_marks g' = ("closed", reason, Some ms).
Proof.
  destruct pnl as [p|]; [apply mark_group_some|]. intros E. apply ret_inv in E. subst g'. split; [apply ident_marked | apply close_marks_marked].
Qed.

(** The sale of swept profit touches neither. *)
Hypothesis swept_keeps : forall g r, ident (swept g r) = ident g /\ close_marks (swept g r) = close_marks g.

Definition close_time (g : TradeGroup) (now_ms : Z) : Z :=
  if _group_is_expired g now_ms && (g.(expiration_timestamp_ms) >? 0)%Z then Z.max g.(expiration_timestamp_ms) g.(entry_timestamp_ms) else now_ms.

Definition close_why (g : TradeGroup) (now_ms : Z) : string :=
  let rows := match list_executions g.(group_id) with Some rows => rows | None => [] end in
  reconciled_reason (_group_is_expired g now_ms) (inferred_close c (_group_is_expired g now_ms) rows).

(** A group is closed as the group it was, with a reason and at a time that its expiry and the journal give. *)
Definition closed_from (now_ms : Z) (g g' : TradeGroup) : Prop :=
  ident g' = ident g /\ close_marks g' = ("closed", close_why g now_ms, Some (close_time g now_ms)).

Lemma reconcile_close_spec live g w w' g' : g.(Group.status) = "open" ->
  reconcile_close c clock list_executions swept live g w = (w', Ret g') -> closed_from (clock w.(requests) / 1000) g g'.
Proof.
  intros O E. unfold reconcile_close in E. apply bind_inv in E. destruct E as (w0 & t & E0 & E). injection E0 as <- <-. cbv zeta in E.
  set (ms := (clock w.(requests) / 1000)%Z) in *. apply bind_inv in E. destruct E as (w1 & k1 & E1 & E). apply bind_inv in E. destruct E as (w2 & k2 & E2 & E).
  apply bind_inv in E. destruct E as (w3 & cost & E3 & E).
  assert (K : forall {T} (h : TradeGroup -> T), blind h -> h (fst cost) = h g).
  { intros T h B. rewrite (close_cost_kept h B _ _ _ _ _ E3), (with_settlement_kept h B _ _ _ _ _ E2). exact (with_book_kept h B _ _ _ _ E1). }
  clear E1 E2 E3. assert (I : ident (fst cost) = ident g) by exact (K _ _ ident_blind). assert (S : (fst cost).(Group.status) = "open") by (rewrite <- O; exact (K _ _ status_blind)).
  assert (G : (fst cost).(group_id) = g.(group_id)) by exact (f_equal (fun t => fst (fst (fst t))) I). rewrite G in E.
  set (rows := match list_executions _ with Some rows => rows | None => [] end) in *.
  set (inferred := inferred_close c _ rows) in *.
  match type of E with context[follow_exercise _ _ _ _ _ ?x] => set (g1 := x) in E;
    assert (F : ident g1 = ident g /\ g1.(Group.status) = "open") by (unfold g1; destruct inferred; split; rewrite ?(journal_blind ident), ?(journal_blind Group.status) by (apply ident_blind || apply status_blind); assumption) end.
  clearbody g1. destruct F as [F1 F2]. apply bind_inv in E. destruct E as (w4 & g2 & E4 & E).
  assert (I2 : ident g2 = ident g) by (rewrite <- F1; apply (exercise_kept ident _ _ _ _ _ _ _ ltac:(reflexivity) ltac:(reflexivity) ltac:(reflexivity) ltac:(reflexivity) ltac:(reflexivity) ltac:(reflexivity) E4)).
  assert (S2 : g2.(Group.status) = "open") by (rewrite <- F2; apply (exercise_kept Group.status _ _ _ _ _ _ _ ltac:(reflexivity) ltac:(reflexivity) ltac:(reflexivity) ltac:(reflexivity) ltac:(reflexivity) ltac:(reflexivity) E4)).
  destruct (backfills_open g2 (map execution rows) S2) as [B1 B2].
  apply bind_inv in E. destruct E as (w5 & g3 & E5 & E). apply lift_inv in E5. rewrite B1 in E5. apply Ret_inj in E5. subst g3.
  apply bind_inv in E. destruct E as (w6 & g4 & E6 & E). apply lift_inv in E6. rewrite B2 in E6. apply Ret_inj in E6. subst g4.
  apply bind_inv in E. destruct E as (w7 & g5 & E7 & E). apply mark_group_spec in E7. destruct E7 as [I7 M7]. apply ret_inv in E. subst g'.
  unfold closed_from. rewrite <- I2, <- I7. destruct live; [destruct (swept_keeps g5 (reconciled_reason (_group_is_expired g ms) inferred)) as [-> ->]|]; auto.
Qed.

Lemma ident_inv g g' : ident g' = ident g ->
  g'.(group_id) = g.(group_id) /\ g'.(short_instrument_name) = g.(short_instrument_name) /\ g'.(entry_timestamp_ms) = g.(entry_timestamp_ms)
  /\ g'.(expiration_timestamp_ms) = g.(expiration_timestamp_ms).
Proof. intros E. injection E as -> -> -> ->. auto. Qed.

Lemma closed_from_ident ms g g' g2 : ident g' = ident g -> closed_from ms g' g2 -> closed_from ms g g2.
Proof.
  intros E [I M]. split; [congruence|]. rewrite M. apply ident_inv in E. destruct E as (E1 & _ & E3 & E4).
  unfold close_why, close_time, _group_is_expired. now rewrite E1, E3, E4.
Qed.

(** What the loop makes of a group. *)
Definition settled_as (ps : list Position) (now_ms : Z) (g g' : TradeGroup) : Prop :=
  if stays ps now_ms g then g' = g else closed_from now_ms g g'.

Lemma stays_open ps ms g : stays ps ms g = false -> g.(Group.status) = "open".
Proof. unfold stays, is_open. destruct (String.eqb_spec g.(status) "open") as [E|]; [intros _; exact E | discriminate]. Qed.

Lemma reconcile_each_spec live ps gs : forall passed any w w' r, w.(state).(groups) = passed ++ gs ->
  reconcile_each c clock list_executions swept live ps passed gs any w = (w', Ret r) ->
  exists gs', w'.(state).(groups) = passed ++ gs' /\ Forall2 (settled_as ps (clock w.(requests) / 1000)) gs gs' /\
    r = any || existsb (fun g => negb (stays ps (clock w.(requests) / 1000) g)) gs.
Proof.
  induction gs as [|g rest IH]; intros passed any w w' r G E; cbn [reconcile_each] in E.
  - injection E as <- <-. exists []. rewrite orb_false_r. repeat split; [exact G | constructor].
  - apply bind_inv in E. destruct E as (w0 & t & E0 & E). injection E0 as <- <-. set (ms := (clock w.(requests) / 1000)%Z) in *.
    cbn [existsb]. destruct (stays ps ms g) eqn:S.
    + apply IH in E; [|now rewrite <- app_assoc]. destruct E as (gs' & G' & F & R). exists (g :: gs'). rewrite <- app_assoc in G'.
      repeat split; [exact G' | constructor; [unfold settled_as; now rewrite S | exact F] | exact R].
    + apply bind_inv in E. destruct E as (w1 & g1 & E1 & E). apply bind_inv in E. destruct E as (w2 & [] & E2 & E). injection E2 as <-.
      destruct (looks_close c clock list_executions swept live g w) as [_ Rq]. rewrite E1 in Rq. cbn [fst] in Rq.
      apply (reconcile_close_spec _ _ _ _ _ (stays_open _ _ _ S)) in E1. fold ms in E1.
      apply IH in E; [|cbn [set_state state set_groups groups]; now rewrite <- app_assoc]. cbn [set_state requests] in E. rewrite Rq in E. fold ms in E.
      destruct E as (gs' & G' & F & R). exists (g1 :: gs'). rewrite <- app_assoc in G'.
      repeat split; [exact G' | constructor; [unfold settled_as; now rewrite S | exact F] | rewrite R; cbn; now rewrite orb_true_r].
Qed.

(** ** The steps before *)

(** A group that a step leaves the group it was, and as it is where it is closed. *)
Definition same_group (g g' : TradeGroup) : Prop := ident g' = ident g /\ is_open g' = is_open g /\ (is_open g = false -> g' = g).

Lemma same_group_refl g : same_group g g.
Proof. repeat split. Qed.

Lemma same_group_trans g1 g2 g3 : same_group g1 g2 -> same_group g2 g3 -> same_group g1 g3.
Proof.
  intros (I & O & K) (I' & O' & K'). split; [congruence|]. split; [congruence|]. intros C. rewrite K' by congruence. now apply K.
Qed.

Lemma same_groups_trans l1 : forall l2 l3, Forall2 same_group l1 l2 -> Forall2 same_group l2 l3 -> Forall2 same_group l1 l3.
Proof.
  induction l1 as [|g l1 IH]; intros l2 l3 A B; inversion A; subst; inversion B; subst; constructor; [eapply same_group_trans; eassumption | eapply IH; eassumption].
Qed.

Lemma same_groups_refl l : Forall2 same_group l l.
Proof. induction l; constructor; [apply same_group_refl | assumption]. Qed.

Lemma same_map f l : (forall g, same_group g (f g)) -> Forall2 same_group l (map f l).
Proof. intros K. induction l; cbn; constructor; auto. Qed.

Lemma synced_same gs sizes g : same_group g (sync_group gs sizes g).
Proof.
  unfold sync_group. destruct (is_open g) eqn:O; cbn [negb orb]; [|apply same_group_refl]. destruct (shared_short _ _); [apply same_group_refl|].
  destruct (dict_get _ _) as [q|]; [|apply same_group_refl]. unfold same_group, is_open. rewrite synced_status. fold (is_open g). rewrite O.
  repeat split; [|discriminate]. unfold synced. destruct (_ =? _); [now destruct (endswith _ _)|]. now destruct (_ >? _).
Qed.

Lemma demoted_same ps ms g : same_group g (demote_group ps ms g).
Proof.
  unfold demote_group. destruct (is_open g) eqn:O; cbn [negb orb]; [|apply same_group_refl]. destruct (_ || _); [apply same_group_refl|].
  repeat split. rewrite O. discriminate.
Qed.

Lemma promoted_same g sp si lp li q w w' g' : is_open g = true -> _promote_group_to_bull_put_spread c clock g sp si lp li q w = (w', Ret g') -> same_group g g'.
Proof.
  unfold _promote_group_to_bull_put_spread. intros O E. apply bind_inv in E. destruct E as (w1 & m & _ & E). apply ret_inv in E. subst g'.
  repeat split. rewrite O. discriminate.
Qed.

Lemma promote_each_same ps gs : forall used w w' gs', promote_each c clock ps used gs w = (w', Ret gs') -> Forall2 same_group gs gs'.
Proof.
  induction gs as [|g rest IH]; intros used w w' gs' E; cbn [promote_each] in E; [injection E as _ <-; constructor|].
  apply bind_inv in E. destruct E as (w1 & markets & _ & E). unfold protection_for in E. destruct (is_open g) eqn:O; cbn [negb orb] in E.
  - match type of E with context[match ?x with Some _ => _ | None => _ end] => destruct x as [[[sp si] [[lp li] q]]|] end.
    + apply bind_inv in E. destruct E as (w2 & g1 & E2 & E). apply bind_inv in E. destruct E as (w3 & more & E3 & E). apply ret_inv in E. subst gs'.
      constructor; [exact (promoted_same _ _ _ _ _ _ _ _ _ O E2) | exact (IH _ _ _ _ E3)].
    + apply bind_inv in E. destruct E as (w3 & more & E3 & E). apply ret_inv in E. subst gs'. constructor; [apply same_group_refl | exact (IH _ _ _ _ E3)].
  - apply bind_inv in E. destruct E as (w3 & more & E3 & E). apply ret_inv in E. subst gs'. constructor; [apply same_group_refl | exact (IH _ _ _ _ E3)].
Qed.

(** What a reconciliation makes of a group: the group it was; open or closed as it was, and
    untouched if closed, where it stays; and closed where it does not. *)
Definition reconciled (ps : list Position) (now_ms : Z) (g g' : TradeGroup) : Prop :=
  ident g' = ident g /\
  if stays ps now_ms g then is_open g' = is_open g /\ (is_open g = false -> g' = g)
  else close_marks g' = ("closed", close_why g now_ms, Some (close_time g now_ms)).

Lemma stays_same ps ms g g' : same_group g g' -> stays ps ms g' = stays ps ms g.
Proof. intros (I & O & _). apply ident_inv in I. destruct I as (_ & E2 & E3 & _). unfold stays. now rewrite O, E2, E3. Qed.

Lemma reconciled_steps ps ms g g1 g2 : same_group g g1 -> settled_as ps ms g1 g2 -> reconciled ps ms g g2.
Proof.
  intros S K. unfold settled_as in K. rewrite (stays_same ps ms g g1 S) in K. destruct S as (I & O & C). unfold reconciled. destruct (stays ps ms g).
  - subst g2. auto.
  - apply (closed_from_ident ms g g1 g2 I) in K. exact K.
Qed.

Lemma reconciled_all ps ms l : forall l1 l2, Forall2 same_group l l1 -> Forall2 (settled_as ps ms) l1 l2 -> Forall2 (reconciled ps ms) l l2.
Proof.
  induction l as [|g l IH]; intros l1 l2 A B; inversion A; subst; inversion B; subst; constructor; [eapply reconciled_steps; eassumption | eapply IH; eassumption].
Qed.

Lemma closing_same ps ms l : forall l1, Forall2 same_group l l1 -> existsb (fun g => negb (stays ps ms g)) l1 = existsb (fun g => negb (stays ps ms g)) l.
Proof. induction l as [|g l IH]; intros l1 A; inversion A; subst; cbn [existsb]; [reflexivity|]. erewrite stays_same by eassumption. f_equal. now apply IH. Qed.

Lemma open_shorts_same l : forall l1, Forall2 same_group l l1 -> open_shorts l1 = open_shorts l.
Proof.
  unfold open_shorts. induction l as [|g l IH]; intros l1 A; inversion A as [|? g1 ? l2 [I [O _]] F]; subst; cbn [filter]; [reflexivity|]. rewrite O.
  apply ident_inv in I. destruct (is_open g); cbn [map]; rewrite (IH _ F); [f_equal; apply I | reflexivity].
Qed.

(** Adopted shorts are held, and so stay. *)
Lemma adopted_stay ps ms old l : Forall (adopted_from ps old) l -> forall l', Forall2 (settled_as ps ms) l l' ->
  l' = l /\ existsb (fun g => negb (stays ps ms g)) l = false.
Proof.
  induction 1 as [|g l (O & _ & _ & Hh) _ IH]; intros l' F; inversion F as [|? g' ? l2 S F2]; subst; [split; reflexivity|].
  assert (St : stays ps ms g = true) by (unfold stays; rewrite Hh; now rewrite orb_true_r). destruct (IH _ F2) as [-> N].
  unfold settled_as in S. rewrite St in S. cbn [existsb]. rewrite St. split; [now subst g' | exact N].
Qed.

(** From the positions to the groups as they are looked at for closing. *)
Lemma prepared ps w w1 w2 w3 gs s0 s1 u : Forall2 same_group w.(state).(groups) s0.(groups) ->
  _sync_bull_put_spread_groups_from_positions c clock s0.(groups) ps w1 = (w2, Ret gs) ->
  s1 = set_groups (_demote_unwound_bull_put_groups c gs ps u) w2.(state) ->
  _adopt_untracked_naked_short_positions c clock ps (set_state s1 w2) = (w3, Ret tt) ->
  exists mid added, w3.(state).(groups) = mid ++ added /\ Forall2 same_group w.(state).(groups) mid /\ Forall (adopted_from ps (open_shorts w.(state).(groups))) added.
Proof.
  intros F E -> A. assert (F1 : Forall2 same_group w.(state).(groups) gs).
  { apply same_groups_trans with (1 := F). unfold _sync_bull_put_spread_groups_from_positions in E. destruct (negb _); [injection E as _ <-; apply same_groups_refl|].
    exact (promote_each_same _ _ _ _ _ _ E). }
  assert (F2 : Forall2 same_group w.(state).(groups) (_demote_unwound_bull_put_groups c gs ps u)).
  { apply same_groups_trans with (1 := F1). unfold _demote_unwound_bull_put_groups. destruct (negb _); [apply same_groups_refl | apply same_map; intros; apply demoted_same]. }
  pose proof (adoption_adopting _ c clock ps (set_state (set_groups (_demote_unwound_bull_put_groups c gs ps u) w2.(state)) w2)) as Ad. rewrite A in Ad.
  cbn [fst set_state state] in Ad. destruct Ad as (names & _ & added & G & Fa & _). cbn [set_groups groups] in G, Fa.
  exists (_demote_unwound_bull_put_groups c gs ps u), added. rewrite (open_shorts_same _ _ F2) in Fa. auto.
Qed.
End Closing.

(** C21. A reconciliation that returns closes exactly the open groups whose short the
    exchange no longer holds and that are older than the grace period, with the reason and
    the time their expiry and the journal give, and says whether there were any. Every
    other group stays open or closed as it was, closed ones untouched; none is lost, moved
    or taken for another. What is added are open groups for shorts that are held and that
    no open group had. No request that changes anything is sent. *)
Theorem reconcile_closes_gone_shorts (H : History) c clock list_executions swept ps live w w' any :
  (forall g r, ident (swept g r) = ident g /\ close_marks (swept g r) = close_marks g) ->
  _reconcile_state c clock list_executions swept ps live w = (w', Ret any) ->
  let now_ms := (clock w.(requests) / 1000)%Z in
  exists kept added, w'.(state).(groups) = kept ++ added /\
    Forall2 (reconciled c list_executions ps now_ms) w.(state).(groups) kept /\
    Forall (adopted_from ps (open_shorts w.(state).(groups))) added /\
    any = existsb (fun g => negb (stays ps now_ms g)) w.(state).(groups) /\
    w'.(requests) = w.(requests).
Proof.
  intros Sw E now_ms. unfold _reconcile_state in E. apply bind_inv in E. destruct E as (w0 & s & E0 & E). injection E0 as <- <-.
  apply bind_inv in E. destruct E as (w1 & [] & E1 & E). injection E1 as E1. apply bind_inv in E. destruct E as (w1' & s0 & E0 & E). injection E0 as <- <-.
  apply bind_inv in E. destruct E as (w2 & gs & E2 & E). apply bind_inv in E. destruct E as (w2' & t & Et & E). injection Et as <- <-.
  apply bind_inv in E. destruct E as (w3 & [] & E3 & E). injection E3 as E3. apply bind_inv in E. destruct E as (w4 & [] & E4 & E).
  apply bind_inv in E. destruct E as (w4' & s4 & E5 & E). injection E5 as <- <-.
  assert (Sy : Forall2 same_group w.(state).(groups) w1.(state).(groups)) by (rewrite <- E1; apply same_map; intros; apply synced_same).
  rewrite <- E3 in E4. destruct (prepared c clock ps w w1 w2 w4 gs w1.(state) _ _ Sy E2 eq_refl E4) as (mid & added & G & F & A).
  assert (R1 : w1.(requests) = w.(requests)) by now rewrite <- E1.
  assert (R2 : w2.(requests) = w1.(requests)).
  { assert (L : looks (_sync_bull_put_spread_groups_from_positions c clock w1.(state).(groups) ps))
      by (unfold _sync_bull_put_spread_groups_from_positions; destruct (negb _); [apply looks_ret | apply looks_promote_each]).
    destruct (L w1) as [_ R]. now rewrite E2 in R. }
  assert (R4 : w4.(requests) = w2.(requests)).
  { match type of E4 with _ ?x = _ => pose proof (silent_adopt c clock ps x) as R end. rewrite E4 in R. exact R. }
  assert (Rw : w'.(requests) = w4.(requests)).
  { pose proof (silent_each c clock list_executions swept live ps w4.(state).(groups) [] false w4) as R. now rewrite E in R. }
  apply (reconcile_each_spec c clock list_executions swept Sw) in E; [|reflexivity]. rewrite R4, R2, R1 in E. fold now_ms in E.
  destruct E as (gs' & G' & S & ->). rewrite G in S. cbn [app] in G'. apply Forall2_app_inv_l in S. destruct S as (l1 & l2 & S1 & S2 & ->).
  destruct (adopted_stay c list_executions ps now_ms _ _ A _ S2) as [-> N]. exists l1, added.
  split; [exact G'|]. split; [exact (reconciled_all c list_executions ps now_ms _ _ _ F S1)|]. split; [exact A|]. split; [|congruence].
  rewrite G, existsb_app, N, orb_false_r. exact (closing_same ps now_ms _ _ F).
Qed.

(** ** Without market data *)

(** Code that ends, by a value or by an exception; and code that gives a value. *)
Definition ends {A} (m : M A) : Prop := forall w, snd (m w) <> OutOfFuel.
Definition answers {A} (m : M A) : Prop := forall w, exists a, snd (m w) = Ret a.

Lemma ends_answers {A} (m : M A) : answers m -> ends m.
Proof. intros K w. destruct (K w) as [a ->]. discriminate. Qed.

Lemma ends_ret {A} (a : A) : ends (ret a).
Proof. discriminate. Qed.

Lemma ends_read {A} (f : runtime -> A) : ends (read f).
Proof. discriminate. Qed.

Lemma ends_modify f : ends (modify f).
Proof. discriminate. Qed.

Lemma ends_raise {A} x : ends (lift (Exn x : outcome A)).
Proof. discriminate. Qed.

Lemma ends_bind {A B} (m : M A) (k : A -> M B) : ends m -> (forall a, ends (k a)) -> ends (bind m k).
Proof. intros Hm Hk w. specialize (Hm w). rewrite bind_snd. destruct (snd (m w)); [apply Hk | discriminate | congruence]. Qed.

Lemma answers_ret {A} (a : A) : answers (ret a).
Proof. intros w. now exists a. Qed.

Lemma answers_read {A} (f : runtime -> A) : answers (read f).
Proof. intros w. now exists (f w). Qed.

Lemma answers_modify f : answers (modify f).
Proof. intros w. now exists tt. Qed.

Lemma answers_bind {A B} (m : M A) (k : A -> M B) : answers m -> (forall a, answers (k a)) -> answers (bind m k).
Proof. intros Hm Hk w. destruct (Hm w) as [a Ea]. rewrite bind_snd, Ea. apply Hk. Qed.

Lemma answers_attempt {A} (m : M A) : ends m -> answers (attempt m).
Proof. intros K w. specialize (K w). unfold attempt. destruct (m w) as [w' [a|x|]]; cbn [snd] in *; [eauto | eauto | congruence]. Qed.

Create HintDb answering.
#[export] Hint Resolve ends_ret ends_read ends_modify ends_raise answers_ret answers_read answers_modify : answering.

Ltac answer :=
  repeat first
    [ solve [auto with answering nocore | apply ends_answers; auto with answering nocore]
    | progress cbv zeta
    | apply ends_bind; [|intros ?]
    | apply answers_bind; [|intros ?]
    | apply answers_attempt
    | match goal with |- ends (attempt _) => apply ends_answers end
    | match goal with |- ends (match ?x with _ => _ end) => destruct x end
    | match goal with |- answers (match ?x with _ => _ end) => destruct x end ].

Section Outage.
Context {H : History}.
Variables (c : reconcile_config) (clock : list request -> Z) (list_executions : string -> option (list execution_row)) (swept : TradeGroup -> string -> TradeGroup).
Variable equities : dict Q.
Hypothesis accounts_answer : account_equity = Ret equities.
Hypothesis books_end : forall name, get_order_book name <> OutOfFuel.
Hypothesis no_wheel : c.(covered_call_itm_to_cash_secured_enabled) = false.
Hypothesis no_spreads : strategy_is c.(scanning).(entries) "bull_put_spread" = false.

Lemma ends_book name : ends (_get_orderbook name).
Proof.
  unfold _get_orderbook. answer; intros w; cbn [lift snd]; [apply books_end|]. unfold book_from_api, greeks_delta.
  destruct (py_truthy _); [destruct (_ "greeks"%string)|]; discriminate.
Qed.

Lemma ends_instrument name : ends (_find_instrument name).
Proof. unfold _find_instrument. answer. Qed.
#[local] Hint Resolve ends_book ends_instrument : answering.

Lemma answers_index currency : answers (_currency_index_price currency).
Proof. unfold _currency_index_price. answer. Qed.

Lemma answers_now : answers (now clock).
Proof. intros w. now exists (clock w.(requests)). Qed.

Lemma answers_equity name : answers (lift (_book_equity_native name)).
Proof. intros w. unfold _book_equity_native. rewrite accounts_answer. cbn. eauto. Qed.
#[local] Hint Resolve answers_index answers_now answers_equity : answering.

Lemma answers_long g i : answers (_long_instrument_for_spread_reconcile g i).
Proof. unfold _long_instrument_for_spread_reconcile. answer. Qed.
#[local] Hint Resolve answers_long : answering.

Lemma ends_marked_debit g b i index t : ends (marked_debit c g b i index t).
Proof. unfold marked_debit, long_quote. answer. Qed.
#[local] Hint Resolve ends_marked_debit : answering.

Lemma answers_estimate g settlement : answers (_estimate_reconcile_close_debit c clock g settlement).
Proof. unfold _estimate_reconcile_close_debit, debit_without_market, debit_from_market, settled_debit, _resolve_reconcile_index_price. answer. Qed.

Lemma answers_settlement g : answers (_expiry_settlement_price clock g).
Proof. unfold _expiry_settlement_price. answer. Qed.
#[local] Hint Resolve answers_estimate answers_settlement : answering.

Lemma answers_cost k ms : answers (close_cost c clock k ms).
Proof. unfold close_cost, _reconcile_coin_close_ledger, _reconcile_usdc_close_debit_from_trades. answer. Qed.

Lemma answers_exercise expired income index g : answers (follow_exercise c clock expired income index g).
Proof.
  unfold follow_exercise, _covered_call_expired_itm, _covered_call_itm_from_cache. rewrite no_wheel, andb_false_r. cbn [andb]. answer.
Qed.

Lemma answers_mark g reason ms debit fee pnl rm an idx : answers (_mark_group_closed (trading (entries (scanning c))) g reason ms debit fee pnl rm an idx).
Proof. unfold _mark_group_closed, _snapshot_close_apr_on_equity. answer. Qed.
#[local] Hint Resolve answers_cost answers_exercise answers_mark : answering.

Lemma backfills_answer g rows : answers (lift (backfill_realized_pnl_collateral_native g None rows)) /\ answers (lift (backfill_realized_pnl_usdc g None)).
Proof.
  destruct (realized_pnl_backfills_terminate g None rows backfill_fuel (Nat.le_refl _)) as [(g1 & E1 & _) (g2 & E2 & _)].
  split; intros w; cbn [lift snd]; eauto.
Qed.

Lemma answers_close live g : answers (reconcile_close c clock list_executions swept live g).
Proof.
  pose proof (fun g rows => proj1 (backfills_answer g rows)) as B1. pose proof (fun g => proj2 (backfills_answer g [])) as B2.
  unfold reconcile_close, with_book, with_settlement. answer.
Qed.

Lemma answers_attach g : answers (_attach_open_group_stats g).
Proof.
  assert (Fresh : forall currency, answers (with_fresh_cache (_currency_index_price currency))) by (intros k w; exact (answers_index k (set_orderbook_cache [] w))).
  unfold _attach_open_group_stats, with_entry_index. answer.
Qed.

Lemma answers_adopt_position ps known p : answers (adopt_position c clock ps known p).
Proof.
  assert (Listed : forall name, answers (if_listed (_find_instrument name))).
  { intros name w. unfold if_listed, _find_instrument, bind, read, ret, lift, modify. cbn.
    destruct (_find_instrument_by_markets _ _); cbn; eauto; destruct (dict_get _ _); cbn; eauto; destruct (_fetch_option_instrument_metadata name); cbn; eauto. }
  pose proof answers_attach as Attach. unfold adopt_position, adopt_short, _next_group_id, append_group. rewrite no_spreads. cbn [andb]. answer.
Qed.

Lemma answers_adopt ps : answers (_adopt_untracked_naked_short_positions c clock ps).
Proof.
  unfold _adopt_untracked_naked_short_positions. destruct (negb _); [answer|]. apply answers_bind; [answer|]. intros s.
  apply answers_bind; [|intros; answer]. generalize (tracked_in s.(groups)). generalize ps at 2. intros l.
  induction l as [|p l IH]; intros known; cbn [adopt_each]; [answer|]. apply answers_bind; [apply answers_adopt_position | intros; apply IH].
Qed.

Lemma answers_each live ps gs : forall passed any, answers (reconcile_each c clock list_executions swept live ps passed gs any).
Proof.
  pose proof answers_close as K. induction gs as [|g rest IH]; intros passed any; cbn [reconcile_each]; [answer|].
  apply answers_bind; [answer|]. intros t. destruct (stays ps _ g); [apply IH|].
  apply answers_bind; [apply K|]. intros g1. apply answers_bind; [apply answers_modify | intros _; apply IH].
Qed.
End Outage.

(** C22. Whatever market data is missing - books, instruments, index and delivery prices,
    trades, the journal - a reconciliation without spreads and without the wheel returns,
    so that every group whose short is gone is closed, as long as the accounts can be read. *)
Theorem reconcile_survives_outage (H : History) c clock list_executions swept ps live w equities :
  account_equity = Ret equities -> (forall name, get_order_book name <> OutOfFuel) ->
  c.(covered_call_itm_to_cash_secured_enabled) = false -> strategy_is c.(scanning).(entries) "bull_put_spread" = false ->
  exists w' any, _reconcile_state c clock list_executions swept ps live w = (w', Ret any).
Proof.
  intros A B W S. assert (K : answers (_reconcile_state c clock list_executions swept ps live)).
  { pose proof (answers_adopt c clock equities A B S ps) as K1. pose proof (answers_each c clock list_executions swept equities A B W live ps) as K2.
    unfold _reconcile_state, put_groups, _sync_bull_put_spread_groups_from_positions. rewrite S. cbn [negb].
    repeat (apply answers_bind; [solve [answer | apply answers_now | apply K1]|]; intros ?). apply K2. }
  destruct (K w) as [any E]. destruct (_reconcile_state _ _ _ _ _ _ w) as [w' o]. cbn [snd] in E. subst o. eauto.
Qed.
