(* ===== verification/SpotTrade.v ===== *)
(** Spot trades ([deribit_engine/wallet_ops.py]): what the fills of an order brought or
    cost, which instrument and side two currencies mean, the size a balance allows, the
    price an order is quoted at, and the order itself, which is a limit within a distance
    of the mark price where the market was asked for. Moves between sub-accounts are not
    modelled, nor are the messages of the errors. *)

From S2P Require Import Prelude Dec PyStr Utils Group PyObj GroupJson StateJson Market Runtime HedgeOrders Close GroupClose DayState Portfolio EntryConfig Settlement Positions Reconcile.
Local Open Scope string_scope.
Local Open Scope Q_scope.
Local Open Scope dec_scope.
Local Open Scope bool_scope.
Local Open Scope run_scope.
Local Open Scope list_scope.

(** ** The exchange, for spot *)

(** Which of its two looks at the book a trade takes. *)
Inductive book_look : Type := Quoting | Placing.

(** The arguments of [client.get_user_trades_by_currency(currency, kind="spot", ...)]. *)
Record spot_query : Type := {
  asked_currency : string;
  asked_count : Z;
  asked_ascending : bool;        (** [sorting="asc"] *)
  asked_historical : bool;
  asked_from : option Z;         (** [start_timestamp] *)
}.

(** What is asked of the exchange for spot, after the requests sent so far; and the text
    of an exception. *)
Class SpotDesk : Type := {
  spot_history :: History;
  get_spot_book : list request -> book_look -> string -> outcome (string -> pyobj);
  get_spot_instruments : string -> outcome (list (string -> pyobj));
  get_account_summaries : list request -> outcome (list (string -> pyobj));
  get_spot_trades : list request -> spot_query -> outcome pyobj;
  error_text : exn -> string;
}.

Definition SPOT_BASE_CURRENCIES : list string := ["BTC"; "ETH"].
Definition SPOT_QUOTE_CURRENCIES : list string := ["USDC"; "USDT"; "USDE"].
Definition _STABLE_QUOTE_CURRENCIES : list string := ["USDC"; "USDT"; "USDE"].

(** ** Fills *)

(** The fee of a trade in the quote currency, where it has one. *)
Definition fee_in_quote (quote : string) (price : Q) (d : list (string * pyobj)) : option Q :=
  let fee := to_decimal (dget "fee" d) 0 in
  if fee >? 0 then
    let fee_ccy := upper (str_or_default (dget "fee_currency" d) quote) in
    Some (if mem_str fee_ccy _STABLE_QUOTE_CURRENCIES then fee
          else if mem_str fee_ccy SPOT_BASE_CURRENCIES then fee ⊗ price
          else let idx := to_decimal (dget "index_price" d) 0 in if idx >? 0 then fee ⊗ idx else fee ⊗ price)
  else None.

(** [(amount, price)] of a fill on that side; a trade that tells no side is a [default]. *)
Definition fill_of (side default : string) (d : list (string * pyobj)) : option (Q * Q) :=
  if negb (String.eqb (lower (str_or_default (dget "direction" d) default)) side) then None
  else
    let amount := to_decimal (dget "amount" d) 0 in
    let price := to_decimal (dget "price" d) 0 in
    if (amount <=? 0) || (price <=? 0) then None else Some (amount, price).

Definition sale_worth (quote : string) (d : list (string * pyobj)) (fill : Q * Q) : Q :=
  let gross := fst fill ⊗ snd fill in match fee_in_quote quote (snd fill) d with Some fee => gross ⊖ fee | None => gross end.

Definition purchase_worth (quote : string) (d : list (string * pyobj)) (fill : Q * Q) : Q :=
  let gross := fst fill ⊗ snd fill in match fee_in_quote quote (snd fill) d with Some fee => gross ⊕ fee | None => gross end.

(** The loop over the trades, from the total so far. *)
Fixpoint add_fills (fill : list (string * pyobj) -> option (Q * Q)) (worth : list (string * pyobj) -> Q * Q -> Q) (total : Q) (trades : list pyobj) : outcome Q :=
  match trades with
  | [] => Ret total
  | PDict d :: rest => add_fills fill worth (match fill d with Some f => total ⊕ worth d f | None => total end) rest
  | _ :: _ => Exn AttributeError
  end.

Definition spot_sell_quote_proceeds_from_trades (trades : list pyobj) (quote_currency : string) : outcome Q :=
  (let! total := add_fills (fill_of "sell" "sell") (sale_worth (upper quote_currency)) 0 trades in Ret (dmax total 0))%outcome.

Definition spot_buy_quote_spent_from_trades (trades : list pyobj) (quote_currency : string) : outcome Q :=
  (let! total := add_fills (fill_of "buy" "") (purchase_worth (upper quote_currency)) 0 trades in Ret (dmax total 0))%outcome.

(** ** Pairs *)

Definition spot_instrument_name (base_currency quote_currency : string) : outcome string :=
  let base := upper base_currency in
  let quote := upper quote_currency in
  if String.eqb base "USDC" && String.eqb quote "USDT" then Ret "USDC_USDT"
  else if negb (mem_str base SPOT_BASE_CURRENCIES) then Exn ConfigurationError
  else if negb (mem_str quote SPOT_QUOTE_CURRENCIES) then Exn ConfigurationError
  else Ret (base ++ "_" ++ quote)%string.

(** [(direction, base, quote)] *)
Definition resolve_spot_trade_side (from_currency to_currency : string) : outcome (string * string * string) :=
  let source := upper from_currency in
  let target := upper to_currency in
  if mem_str source SPOT_BASE_CURRENCIES && mem_str target SPOT_QUOTE_CURRENCIES then Ret ("sell", source, target)
  else if mem_str source SPOT_QUOTE_CURRENCIES && mem_str target SPOT_BASE_CURRENCIES then Ret ("buy", target, source)
  else if String.eqb source "USDT" && String.eqb target "USDC" then Ret ("buy", "USDC", "USDT")
  else if String.eqb source "USDC" && String.eqb target "USDT" then Ret ("sell", "USDC", "USDT")
  else Exn ConfigurationError.

(** ** Sizes *)

(** [amount_raw is None or not str(amount_raw).strip()] *)
Definition blank (raw : option string) : bool := match raw with None => true | Some s => is_empty (strip s) end.

(** The amount a text asks for: all of what is there, or a number; nothing stands for all
    only where [use_all] says so. *)
Definition asked_amount (raw : option string) (available : Q) (use_all : bool) : outcome Q :=
  if blank raw && negb use_all then Exn ConfigurationError
  else
    let raw := match raw with Some s => if is_empty (strip s) then "all" else s | None => "all" end in
    Ret (if String.eqb (lower (strip raw)) "all" then available else to_decimal (PStr raw) 0).

Definition _resolve_sell_base_amount (amount_raw : option string) (available contract_size min_trade_amount : Q) (use_all : bool) : outcome Q :=
  (let! target := asked_amount amount_raw available use_all in
   if target <=? 0 then Exn ConfigurationError
   else
     let aligned := align_option_order_amount target contract_size min_trade_amount in
     if aligned <=? 0 then Exn ConfigurationError
     else if aligned >? available then Exn ConfigurationError
     else Ret aligned)%outcome.

(** [(the amount bought, what it costs)] *)
Definition _resolve_buy_base_amount (quote_spend_raw : option string) (available_quote trade_price contract_size min_trade_amount : Q) (use_all : bool)
    : outcome (Q * Q) :=
  (let! quote_spend := asked_amount quote_spend_raw available_quote use_all in
   if quote_spend <=? 0 then Exn ConfigurationError
   else if quote_spend >? available_quote then Exn ConfigurationError
   else if trade_price <=? 0 then Exn ConfigurationError
   else
     let aligned_base := align_option_order_amount (quote_spend ⊘ trade_price) contract_size min_trade_amount in
     if aligned_base <=? 0 then Exn ConfigurationError
     else
       let actual_spend := aligned_base ⊗ trade_price in
       if actual_spend >? available_quote then Exn ConfigurationError else Ret (aligned_base, actual_spend))%outcome.

(** ** Prices *)

Definition _align_spot_limit_price (price : Q) (i : OptionInstrument) : Q :=
  if i.(tick_size) <=? 0 then price else floor_to_step price i.(tick_size).

(** The mark, else the index. *)
Definition mark_or_index (b : OrderBookSnapshot) : option (Q * string) :=
  if b.(mark_price) >? 0 then Some (b.(mark_price), "mark")
  else if b.(index_price) >? 0 then Some (b.(index_price), "index") else None.

(** The best price on one side of the book. *)
Definition side_price (is_buy : bool) (bid_price ask_price : Q) : option (Q * string) :=
  if is_buy && (ask_price >? 0) then Some (ask_price, "best_ask")
  else if negb is_buy && (bid_price >? 0) then Some (bid_price, "best_bid") else None.

Definition limit_side_price (is_buy : bool) (bid_price ask_price : Q) : option (Q * string) :=
  if is_buy && (bid_price >? 0) then Some (bid_price, "best_bid")
  else if negb is_buy && (ask_price >? 0) then Some (ask_price, "best_ask") else None.

Definition spot_quote (i : OptionInstrument) (b : OrderBookSnapshot) (direction order_type : string) (limit_price : option Q) : Q * string :=
  let is_buy := String.eqb direction "buy" in
  if String.eqb order_type "market" then
    match side_price is_buy b.(best_bid_price) b.(best_ask_price), mark_or_index b with
    | Some p, _ => p
    | None, Some p => p
    | None, None => (0, "unavailable")
    end
  else
    let at_tick p := (_align_spot_limit_price (fst p) i, snd p) in
    match limit_price with
    | Some p => if p >? 0 then (_align_spot_limit_price p i, "explicit") else
        match limit_side_price is_buy b.(best_bid_price) b.(best_ask_price), mark_or_index b with
        | Some p, _ => at_tick p
        | None, Some p => at_tick p
        | None, None => (0, "unavailable")
        end
    | None =>
        match limit_side_price is_buy b.(best_bid_price) b.(best_ask_price), mark_or_index b with
        | Some p, _ => at_tick p
        | None, Some p => at_tick p
        | None, None => (0, "unavailable")
        end
    end.

Definition _spot_reference_mark_price (b : OrderBookSnapshot) : Q :=
  if b.(mark_price) >? 0 then b.(mark_price)
  else if b.(index_price) >? 0 then b.(index_price)
  else if (b.(best_bid_price) >? 0) && (b.(best_ask_price) >? 0) then (b.(best_bid_price) ⊕ b.(best_ask_price)) ⊘ 2
  else if b.(best_bid_price) >? 0 then b.(best_bid_price)
  else if b.(best_ask_price) >? 0 then b.(best_ask_price)
  else 0.

(** [(effective_order_type, limit_price, reference_mark, skip_reason)] *)
Record protection : Type := {
  effective_type : string;
  protective_price : option Q;
  reference_mark : option Q;
  skip_reason : option string;
}.

Definition resolve_protected_spot_order (direction : string) (b : OrderBookSnapshot) (i : OptionInstrument) (order_type : string) (max_slippage_pct : Q) : protection :=
  let as_asked mark skip := {| effective_type := order_type; protective_price := None; reference_mark := mark; skip_reason := skip |} in
  if negb (String.eqb order_type "market") || (max_slippage_pct <=? 0) then as_asked None None
  else
    let mark := _spot_reference_mark_price b in
    if mark <=? 0 then as_asked None (Some "mark_price_unavailable")
    else
      let within price := {| effective_type := "limit"; protective_price := Some price; reference_mark := Some mark; skip_reason := None |} in
      if String.eqb (lower direction) "buy" then
        let cap := _align_spot_limit_price (mark ⊗ (1 ⊕ max_slippage_pct)) i in
        if (b.(best_ask_price) >? 0) && (b.(best_ask_price) >? cap) then as_asked (Some mark) (Some "slippage_exceeded") else within cap
      else
        let floor := _align_spot_limit_price (mark ⊗ (1 ⊖ max_slippage_pct)) i in
        if (b.(best_bid_price) >? 0) && (b.(best_bid_price) <? floor) then as_asked (Some mark) (Some "slippage_exceeded") else within floor.

(** ** Orders *)

Definition payload : Type := dict pyobj.
(** [payload[key] = value] *)
Definition put (key : string) (v : pyobj) (p : payload) : payload := dict_set key v p.

Definition text4 (q : Q) : M pyobj := lift (let! t := decimal_text q 4 in Ret (PStr t))%outcome.

(** [if q > 0: payload[key] = format_decimal(q, 4)] *)
Definition put_positive (key : string) (q : Q) (p : payload) : M payload :=
  if q >? 0 then let* t := text4 q in ret (put key t p) else ret p.

Definition put_positive_opt (key : string) (q : option Q) (p : payload) : M payload :=
  match q with Some q => put_positive key q p | None => ret p end.

Definition spot_order (direction name : string) (amount : Q) (label type : string) (price : option Q) : order_request :=
  {| req_direction := direction; req_instrument_name := name; req_amount := amount; req_label := label; req_order_type := type; req_price := price;
     req_time_in_force := match price with Some _ => Some "immediate_or_cancel" | None => None end;
     req_post_only := false; req_reject_post_only := false; req_reduce_only := false |}.

(** [response.get("order") if isinstance(response, dict) else None], where it is a dict. *)
Definition order_of_response (response : pyobj) : option (list (string * pyobj)) :=
  match response with
  | PDict d => match dget "order" d with PDict o => Some o | _ => None end
  | _ => None
  end.

Section Spot.
Context {S : SpotDesk}.

Definition spot_book (r : book_look) (name : string) : M OrderBookSnapshot :=
  fun w => (w, (let! get := get_spot_book w.(requests) r name in book_from_api get)%outcome).

Definition _spot_trade_price_quote (name direction order_type : string) (i : OptionInstrument) (limit_price : option Q) : M ((Q * string) * OrderBookSnapshot) :=
  let* b := spot_book Quoting name in ret (spot_quote i b direction order_type limit_price, b).

(** What is told of an order once it is answered. *)
Definition placed_order (response : pyobj) (p : payload) : M payload :=
  let p := put "response" response p in
  match order_of_response response with
  | None => ret p
  | Some o => put_positive "average_price" (to_decimal (dget "average_price" o) 0) (put "order_state" (dget "order_state" o) (put "order_id" (dget "order_id" o) p))
  end.

Definition place_protected_spot_order (i : OptionInstrument) (name direction : string) (amount : Q) (label order_type : string)
    (max_slippage_pct : Q) (live : bool) : M payload :=
  let* b := spot_book Placing name in
  let plan := resolve_protected_spot_order direction b i order_type max_slippage_pct in
  let* amount_text := text8 amount in
  let* slippage_text := text8 max_slippage_pct in
  let p := [("instrument_name", PStr name); ("direction", PStr direction); ("amount", amount_text); ("requested_order_type", PStr order_type);
            ("order_type", PStr plan.(effective_type)); ("max_slippage_pct", slippage_text); ("live", PBool live)] in
  let* p := put_positive_opt "reference_mark_price" plan.(reference_mark) p in
  let* p := put_positive_opt "slippage_limit_price" plan.(protective_price) p in
  let* p := put_positive "best_bid_price" b.(best_bid_price) p in
  let* p := put_positive "best_ask_price" b.(best_ask_price) p in
  match plan.(skip_reason) with
  | Some reason => ret (put "reason" (PStr reason) (put "skipped" (PBool true) p))
  | None =>
      if negb live then ret (put "preview" (PBool true) p)
      else
        let limited := String.eqb plan.(effective_type) "limit" in
        let usable := match plan.(protective_price) with Some q => negb (q <=? 0) | None => false end in
        if limited && negb usable then ret (put "reason" (PStr "limit_price_unavailable") (put "skipped" (PBool true) p))
        else
          let side := if String.eqb (lower direction) "buy" then "buy" else "sell" in
          let price := if limited then plan.(protective_price) else None in
          let* response := send (PlaceOrder (spot_order side name amount label plan.(effective_type) price)) in
          placed_order response p
  end.
End Spot.

(** ** The trade of a user *)

Record spot_config : Type := {
  wheel : reconcile_config;
  covered_call_spot_max_slippage_pct : Q;
  covered_call_spot_order_type : string;
  is_fee_collection_account : bool;
  covered_call_profit_sweep_enabled : bool;
  collateral_spot_btc : Q;
  collateral_spot_eth : Q;
  covered_call_robust_exit_dte : Q;
  covered_call_itm_confirm_cycles : option Z;
}.

Definition desk_of (c : spot_config) : desk_config := c.(wheel).(scanning).(Scan.entries).(EntryConfig.trading).
Definition label_prefix (c : spot_config) : string := (desk_of c).(GroupClose.engine).(order_label_prefix).

(** The fields a price gives: what the trade is estimated to bring or cost, and the book. *)
Definition _attach_trade_price_fields (direction : string) (trade_price : Q) (price_source quote_currency : string) (base_amount : Q)
    (from_amount : option Q) (book : option OrderBookSnapshot) (p : payload) : M payload :=
  if trade_price <=? 0 then ret (put "trade_price_source" (PStr price_source) (put "trade_price" PNone p))
  else
    let* price := text4 trade_price in
    let p := put "quote_currency" (PStr quote_currency) (put "trade_price_source" (PStr price_source) (put "trade_price" price p)) in
    let* p := (if String.eqb direction "sell" then
                 let* proceeds := text4 (base_amount ⊗ trade_price) in
                 let* to_amount := text8 (base_amount ⊗ trade_price) in
                 ret (put "estimated_to_amount" to_amount (put "estimated_quote_proceeds" proceeds p))
               else
                 let spend := match from_amount with Some q => q | None => base_amount ⊗ trade_price end in
                 let* spend_text := text4 spend in
                 let* to_amount := text8 base_amount in
                 ret (put "estimated_quote_proceeds" spend_text (put "estimated_to_amount" to_amount (put "estimated_spend" spend_text p)))) in
    match book with
    | None => ret p
    | Some b =>
        let* p := put_positive "best_bid_price" b.(best_bid_price) p in
        let* p := put_positive "best_ask_price" b.(best_ask_price) p in
        put_positive "mark_price" b.(mark_price) p
    end.

Section Trade.
Context {S : SpotDesk}.
Variable c : spot_config.

(** The instrument of that name among rows of the exchange. *)
Fixpoint named_spot (name : string) (rows : list (string -> pyobj)) : outcome (option OptionInstrument) :=
  match rows with
  | [] => Ret None
  | row :: rest => (let! i := instrument_from_api row in if String.eqb i.(instrument_name) name then Ret (Some i) else named_spot name rest)%outcome
  end.

(** The lists of some currencies, in turn. A currency the exchange refuses is passed over. *)
Fixpoint lookup_spot (name : string) (currencies : list string) : outcome OptionInstrument :=
  match currencies with
  | [] => Exn ConfigurationError
  | currency :: rest =>
      match get_spot_instruments currency with
      | Exn (ExchangeError _) => lookup_spot name rest
      | listed => (let! rows := listed in let! found := named_spot name rows in
                   match found with Some i => Ret i | None => lookup_spot name rest end)%outcome
      end
  end.

Definition _lookup_spot_instrument (name base_currency : string) : M OptionInstrument := lift (lookup_spot name ["USDT"; "USDC"; upper base_currency]).

Definition _summary_for_currency (currency : string) : M (option AccountSummary) :=
  fun w => (w, (let! rows := get_account_summaries w.(requests) in
                Ret (find (fun a => String.eqb a.(account_currency) (upper currency)) (map account_from_api rows)))%outcome).

(** [max(available_funds, available_withdrawal_funds, balance)] *)
Definition spendable (a : AccountSummary) : Q := dmax (dmax a.(available_funds) a.(available_withdrawal_funds)) a.(balance).

Definition market_protected (order_type : string) : bool := String.eqb order_type "market" && (c.(covered_call_spot_max_slippage_pct) >? 0).

Definition protection_of (direction : string) (b : OrderBookSnapshot) (i : OptionInstrument) (order_type : string) : protection :=
  resolve_protected_spot_order direction b i order_type c.(covered_call_spot_max_slippage_pct).

(** A buy is sized at its limit where that is dearer. *)
Definition buy_sizing_price (direction order_type : string) (b : OrderBookSnapshot) (i : OptionInstrument) (trade_price : Q) : Q :=
  if String.eqb direction "buy" && market_protected order_type then
    match (protection_of direction b i order_type).(protective_price) with
    | Some limit => if limit >? trade_price then limit else trade_price
    | None => trade_price
    end
  else trade_price.

(** [amount] is a number, not nothing and not all. *)
Definition requested_spend (amount : option string) (sell_all : bool) (from_available : Q) : option Q :=
  if sell_all || match amount with Some s => String.eqb (lower (strip s)) "all" | None => false end then Some from_available
  else match amount with Some s => if is_empty (strip s) then None else Some (to_decimal (PStr s) 0) | None => None end.

(** [(order_amount, from_amount, requested_from_amount)] *)
Definition trade_size (direction : string) (amount : option string) (from_available sizing_price : Q) (i : OptionInstrument) (sell_all : bool)
    : outcome (Q * Q * option Q) :=
  if String.eqb direction "sell" then
    (let! base := _resolve_sell_base_amount amount from_available i.(instrument_contract_size) i.(min_trade_amount) sell_all in
     Ret (base, base, Some base))%outcome
  else
    (let! r := _resolve_buy_base_amount amount from_available sizing_price i.(instrument_contract_size) i.(min_trade_amount) sell_all in
     Ret (fst r, snd r, requested_spend amount sell_all from_available))%outcome.

(** What a preview tells of the protection of a market order. *)
Definition preview_protection (direction order_type : string) (b : OrderBookSnapshot) (i : OptionInstrument) (p : payload) : M payload :=
  if negb (market_protected order_type) then ret p
  else
    let plan := protection_of direction b i order_type in
    let* slippage := text8 c.(covered_call_spot_max_slippage_pct) in
    let p := put "effective_order_type" (PStr plan.(effective_type)) (put "max_slippage_pct" slippage p) in
    let* p := put_positive_opt "reference_mark_price" plan.(reference_mark) p in
    let* p := put_positive_opt "slippage_limit_price" plan.(protective_price) p in
    ret (match plan.(skip_reason) with Some reason => put "would_skip" (PStr reason) p | None => p end).

(** [if protected.get(key): payload[key] = protected.get(key)] *)
Definition copy_if (key : string) (from p : payload) : payload := if py_truthy (dget key from) then put key (dget key from) p else p.

Definition payload_str (key : string) (p : payload) : string := match dget key p with PStr s => s | _ => EmptyString end.

(** The result of an order that was answered, for the trade it is part of. *)
Definition settled_trade (direction quote : string) (order_amount from_amount : Q) (order_type : string) (protected p : payload) : M payload :=
  let response := dget "response" protected in
  let p := put "order_type" (match dict_get "order_type" protected with Some v => v | None => PStr order_type end) p in
  let p := if String.eqb (payload_str "requested_order_type" protected) "market" && String.eqb (payload_str "order_type" p) "limit"
           then put "order_type_note" (PStr "market_with_mark_slippage_cap") p else p in
  let p := put "response" response (copy_if "slippage_limit_price" protected (copy_if "reference_mark_price" protected p)) in
  match order_of_response response with
  | None => ret p
  | Some o =>
      let p := put "average_price" (dget "average_price" o) (put "order_state" (dget "order_state" o) (put "order_id" (dget "order_id" o) p)) in
      let fill_price := to_decimal (dget "average_price" o) 0 in
      if fill_price >? 0 then _attach_trade_price_fields direction fill_price "average_fill" quote order_amount (Some from_amount) None p else ret p
  end.

(** [spot_instrument_name(base, quote).strip()] *)
Definition spelled (base quote : string) : outcome string := (let! name := spot_instrument_name base quote in Ret (strip name))%outcome.

Definition trade_spot (from_currency : string) (amount : option string) (to_currency : string) (instrument : option string) (order_type : string)
    (limit_price : option string) (sell_all live : bool) (label : option string) : M payload :=
  if c.(is_fee_collection_account) then lift (Exn ConfigurationError)
  else
    let* side := lift (resolve_spot_trade_side from_currency to_currency) in
    let '(direction, base, quote) := side in
    let* name := lift (match instrument with Some n => if truthy n then Ret (strip n) else spelled base quote
                                           | None => spelled base quote end) in
    let* i := _lookup_spot_instrument name base in
    let explicit := if blank limit_price then None else option_map (fun s => to_decimal (PStr s) 0) limit_price in
    let* quoted := _spot_trade_price_quote name direction order_type i explicit in
    let '((trade_price, price_source), b) := quoted in
    let from_ccy := upper from_currency in
    let* summary := _summary_for_currency from_ccy in
    let from_available := match summary with Some a => spendable a | None => 0 end in
    let* sized := lift (trade_size direction amount from_available (buy_sizing_price direction order_type b i trade_price) i sell_all) in
    let '((order_amount, from_amount), requested) := sized in
    let* amount_text := text8 order_amount in
    let* from_text := text8 (match requested with Some q => if q =? 0 then from_amount else q | None => from_amount end) in
    let* available_text := text8 from_available in
    let p := [("action", PStr (if live then "trade_spot" else "trade_spot_preview")); ("live", PBool live); ("direction", PStr direction);
              ("from_currency", PStr from_ccy); ("to_currency", PStr (upper to_currency)); ("base_currency", PStr base); ("quote_currency", PStr quote);
              ("instrument_name", PStr name); ("amount", amount_text); ("from_amount", from_text); ("available", available_text);
              ("order_type", PStr order_type)] in
    let* p := _attach_trade_price_fields direction trade_price price_source quote order_amount (Some from_amount) (Some b) p in
    let* p := (if String.eqb order_type "limit" then put_positive "limit_price" trade_price p else ret p) in
    let* p := preview_protection direction order_type b i p in
    if negb live then ret p
    else
      let order_label := match label with Some l => str_or l (label_prefix c ++ "-spot-" ++ direction) | None => (label_prefix c ++ "-spot-" ++ direction)%string end in
      let* protected := place_protected_spot_order i name direction order_amount order_label order_type c.(covered_call_spot_max_slippage_pct) true in
      if py_truthy (dget "skipped" protected) then
        ret (put "order_type" (match dict_get "order_type" protected with Some v => v | None => PStr order_type end)
              (put "slippage_limit_price" (dget "slippage_limit_price" protected) (put "reference_mark_price" (dget "reference_mark_price" protected)
                (put "reason" (dget "reason" protected) (put "action" (PStr "trade_spot_skipped") p)))))
      else settled_trade direction quote order_amount from_amount order_type protected p.
End Trade.
