(* ===== verification/SpotFacts.v ===== *)
(** What a spot trade sends: one order at most, which the balance affords, and which asks
    for a price near the mark where the market was asked for. *)

From S2P Require Import Prelude Dec PyStr Utils Group PyObj GroupJson StateJson Market Runtime HedgeOrders Close GroupClose DayState Portfolio EntryConfig Settlement Positions Reconcile SpotTrade.
Local Open Scope string_scope.
Local Open Scope Q_scope.
Local Open Scope dec_scope.
Local Open Scope bool_scope.
Local Open Scope run_scope.
Local Open Scope list_scope.

(** ** Code that only reads *)

Definition steady {A} (m : M A) : Prop := forall w, fst (m w) = w.

Create HintDb steady.

Lemma steady_ret {A} (a : A) : steady (ret a).
Proof. intros w. reflexivity. Qed.

Lemma steady_lift {A} (o : outcome A) : steady (lift o).
Proof. intros w. reflexivity. Qed.

Lemma steady_read {A} (f : runtime -> A) : steady (read f).
Proof. intros w. reflexivity. Qed.

Lemma steady_bind {A B} (m : M A) (k : A -> M B) : steady m -> (forall a, steady (k a)) -> steady (bind m k).
Proof. intros Hm Hk w. rewrite bind_fst. destruct (snd (m w)); rewrite ?Hk; apply Hm. Qed.
#[export] Hint Resolve steady_ret steady_lift steady_read : steady.

Ltac steady_one :=
  match goal with
  | |- steady (bind _ _) => apply steady_bind; [|intros ?]
  | |- steady (match ?x with _ => _ end) => destruct x
  | |- steady (let _ := _ in _) => cbv zeta
  | |- steady _ => solve [auto with steady]
  end.
Ltac stay := repeat steady_one.

(** A run [x] from [w] that sends nothing, or one order that is [ok], and changes nothing else. *)
Definition places {A} (w : runtime) (ok : order_request -> Prop) (x : runtime * outcome A) : Prop :=
  fst x = w \/ exists o, fst x = log_request (PlaceOrder o) w /\ ok o.

Lemma places_steady {A} w ok (m : M A) : steady m -> places w ok (m w).
Proof. intros H. left. apply H. Qed.

(** A step that only reads. *)
Lemma places_step {A B} w ok (m : M A) (k : A -> M B) : steady m -> (forall a, m w = (w, Ret a) -> places w ok (k a w)) -> places w ok (bind m k w).
Proof.
  intros H K. pose proof (H w) as E. unfold bind. destruct (m w) as [w1 o]. cbn in E. subst w1. destruct o; [apply K; reflexivity | now left..].
Qed.

Lemma places_then {A B} w ok (m : M A) (k : A -> M B) : places w ok (m w) -> (forall a, steady (k a)) -> places w ok (bind m k w).
Proof.
  intros H K. unfold places in *. rewrite bind_fst. destruct (snd (m w)); rewrite ?K; exact H.
Qed.

Lemma places_weaken {A} w (ok ok' : order_request -> Prop) (x : runtime * outcome A) : (forall o, ok o -> ok' o) -> places w ok x -> places w ok' x.
Proof. intros H [E|(o & E & O)]; [now left | right; eauto]. Qed.

Lemma places_send `{Exchange} w (ok : order_request -> Prop) o : ok o -> places w ok (send (PlaceOrder o) w).
Proof. intros O. right. exists o. now split. Qed.

(** ** The protected order *)

(** What the code promises of an order where the market was asked for: a limit that is
    filled at once or not at all, at the price the mark allows, on the near side of the
    book. *)
Definition near_mark (i : OptionInstrument) (b : OrderBookSnapshot) (slippage : Q) (buying : bool) (o : order_request) : Prop :=
  o.(req_order_type) = "limit" /\ o.(req_time_in_force) = Some "immediate_or_cancel" /\
  exists price, o.(req_price) = Some price /\ 0 < price /\ 0 < _spot_reference_mark_price b /\
    (if buying then price = _align_spot_limit_price (_spot_reference_mark_price b ⊗ (1 ⊕ slippage)) i /\ (0 < b.(best_ask_price) -> b.(best_ask_price) <= price)
     else price = _align_spot_limit_price (_spot_reference_mark_price b ⊗ (1 ⊖ slippage)) i /\ (0 < b.(best_bid_price) -> price <= b.(best_bid_price))).

Section Placed.
Context {S : SpotDesk}.

Lemma steady_text8 q : steady (text8 q).
Proof. unfold text8. auto with steady. Qed.

Lemma steady_text4 q : steady (text4 q).
Proof. unfold text4. auto with steady. Qed.

Lemma steady_book r name : steady (spot_book r name).
Proof. intros w. reflexivity. Qed.
#[local] Hint Resolve steady_text8 steady_text4 steady_book : steady.

Lemma steady_put_positive key q p : steady (put_positive key q p).
Proof. unfold put_positive. stay. Qed.
#[local] Hint Resolve steady_put_positive : steady.

Lemma steady_put_opt key q p : steady (put_positive_opt key q p).
Proof. unfold put_positive_opt. stay. Qed.

Lemma steady_placed_order v p : steady (placed_order v p).
Proof. unfold placed_order. stay. Qed.
#[local] Hint Resolve steady_put_opt steady_placed_order : steady.

Lemma steady_fields direction price source quote amount from b p : steady (_attach_trade_price_fields direction price source quote amount from b p).
Proof. unfold _attach_trade_price_fields. stay. Qed.
#[local] Hint Resolve steady_fields : steady.

Lemma steady_preview c direction type b i p : steady (preview_protection c direction type b i p).
Proof. unfold preview_protection. stay. Qed.

Lemma steady_settled direction quote amount from type protected p : steady (settled_trade direction quote amount from type protected p).
Proof. unfold settled_trade. stay. Qed.

Lemma steady_summary currency : steady (_summary_for_currency currency).
Proof. intros w. reflexivity. Qed.

(** Where the market is asked for within a slippage, a plan that is not skipped is a limit near the mark. *)
Lemma plan_near_mark direction b i slippage price : 0 < slippage ->
  let plan := resolve_protected_spot_order direction b i "market" slippage in
  plan.(skip_reason) = None -> plan.(protective_price) = Some price -> 0 < price ->
  forall side name amount label, near_mark i b slippage (String.eqb (lower direction) "buy") (spot_order side name amount label plan.(effective_type) (Some price)).
Proof.
  intros P plan. unfold plan, resolve_protected_spot_order. cbn [String.eqb Ascii.eqb Bool.eqb negb orb].
  destruct (dleb_spec slippage 0); [lra|]. set (mark := _spot_reference_mark_price b). destruct (dleb_spec mark 0) as [|Pm]; [discriminate|].
  apply Qnot_le_lt in Pm. destruct (String.eqb (lower direction) "buy").
  - destruct (_ && _) eqn:Sk; [discriminate|]. cbn [skip_reason protective_price effective_type]. intros _ E Pp side name amount label.
    injection E as E. split; [reflexivity|]. split; [reflexivity|]. exists price. subst price. repeat split; auto.
    intros A. apply andb_false_iff in Sk. destruct Sk; dhyps; lra.
  - destruct (_ && _) eqn:Sk; [discriminate|]. cbn [skip_reason protective_price effective_type]. intros _ E Pp side name amount label.
    injection E as E. split; [reflexivity|]. split; [reflexivity|]. exists price. subst price. repeat split; auto.
    intros A. apply andb_false_iff in Sk. destruct Sk; dhyps; lra.
Qed.

Lemma plan_limit direction b i slippage : 0 < slippage ->
  let plan := resolve_protected_spot_order direction b i "market" slippage in plan.(skip_reason) = None -> plan.(effective_type) = "limit".
Proof.
  intros P. unfold resolve_protected_spot_order. cbn [String.eqb Ascii.eqb Bool.eqb negb orb]. destruct (dleb_spec slippage 0); [lra|].
  repeat match goal with |- context [if ?c then _ else _] => destruct c end; first [discriminate | reflexivity].
Qed.

(** Of an order [place_protected_spot_order] sends. *)
Definition placed_within (w : runtime) (i : OptionInstrument) (name direction : string) (amount : Q) (label order_type : string) (slippage : Q) (o : order_request) : Prop :=
  o.(req_amount) = amount /\ o.(req_instrument_name) = name /\ o.(req_label) = label /\
  o.(req_direction) = (if String.eqb (lower direction) "buy" then "buy" else "sell") /\
  (order_type = "market" -> 0 < slippage ->
   exists b, spot_book Placing name w = (w, Ret b) /\ near_mark i b slippage (String.eqb (lower direction) "buy") o).

Lemma protected_places w i name direction amount label order_type slippage live :
  places w (fun o => live = true /\ placed_within w i name direction amount label order_type slippage o)
    (place_protected_spot_order i name direction amount label order_type slippage live w).
Proof.
  unfold place_protected_spot_order. apply places_step; [auto with steady|]. intros b Eb. cbv zeta.
  set (plan := resolve_protected_spot_order direction b i order_type slippage).
  do 6 (apply places_step; [auto with steady|]; intros ? _).
  destruct (skip_reason plan) as [reason|] eqn:Sk; [apply places_steady, steady_ret|].
  destruct live; cbn [negb]; [|apply places_steady, steady_ret].
  destruct (String.eqb (effective_type plan) "limit" && negb _) eqn:Nu; [apply places_steady, steady_ret|].
  apply places_then; [|auto with steady]. apply places_send. split; [reflexivity|]. repeat split. intros -> Ps. exists b. split; [exact Eb|].
  assert (Lt := plan_limit direction b i slippage Ps Sk).
  fold plan in Lt.
  rewrite Lt in Nu |- *. cbn [String.eqb Ascii.eqb Bool.eqb andb] in Nu |- *. destruct (protective_price plan) as [price|] eqn:Pp; [|discriminate Nu].
  rewrite <- Lt. apply plan_near_mark; [exact Ps | exact Sk | exact Pp | dhyps; assumption].
Qed.
End Placed.

(** ** Sizes *)

Lemma asked_not_blank raw available use_all q : asked_amount raw available use_all = Ret q -> blank raw = false \/ use_all = true.
Proof. unfold asked_amount. destruct (blank raw), use_all; cbn; auto; discriminate. Qed.

Lemma sell_size raw available cs mn all q : _resolve_sell_base_amount raw available cs mn all = Ret q -> 0 < q /\ q <= available.
Proof.
  unfold _resolve_sell_base_amount. destruct (asked_amount raw available all) as [target| |]; try discriminate. cbn [obind].
  destruct (target <=? 0); [discriminate|]. cbv zeta. destruct (_ <=? 0) eqn:P; [discriminate|]. destruct (_ <? _) eqn:L; [discriminate|].
  intros E. injection E as <-. dhyps. split; assumption.
Qed.

Lemma buy_size raw available price cs mn all base spend : _resolve_buy_base_amount raw available price cs mn all = Ret (base, spend) ->
  0 < base /\ 0 < price /\ spend = base ⊗ price /\ spend <= available.
Proof.
  unfold _resolve_buy_base_amount. destruct (asked_amount raw available all) as [quote_spend| |]; try discriminate. cbn [obind].
  destruct (quote_spend <=? 0); [discriminate|]. destruct (_ <? _); [discriminate|]. destruct (dleb_spec price 0); [discriminate|]. cbv zeta.
  set (aligned := align_option_order_amount _ _ _). destruct (dleb_spec aligned 0); [discriminate|].
  destruct (dltb_spec available (aligned ⊗ price)); [discriminate|].
  intros E. injection E as <- <-. repeat split; lra.
Qed.

Lemma trade_size_affordable direction raw available price i all base spend requested :
  trade_size direction raw available price i all = Ret (base, spend, requested) ->
  0 < base /\ (direction = "sell" -> base <= available) /\ (direction <> "sell" -> 0 < price /\ base ⊗ price <= available).
Proof.
  unfold trade_size. destruct (String.eqb_spec direction "sell") as [->|N].
  - destruct (_resolve_sell_base_amount _ _ _ _ _) as [q| |] eqn:E; try discriminate. intros H. cbn [obind] in H. injection H as <- _ _. apply sell_size in E.
    repeat split; tauto.
  - destruct (_resolve_buy_base_amount _ _ _ _ _ _) as [[b s]| |] eqn:E; try discriminate. cbn [obind fst snd]. intros H. injection H as <- _ _.
    apply buy_size in E. destruct E as (P & Pp & -> & L). repeat split; tauto.
Qed.


(** ** The trade *)

(** What a trade promises of the order it sends: it goes to the instrument and side the two
    currencies mean, the balance of the currency given affords it (in full for a sale, at
    the price it was quoted for a purchase), and where the market was asked for within a
    slippage it is a limit near the mark. *)
Definition trade_order `{SpotDesk} (c : spot_config) (w : runtime) (from_currency to_currency order_type : string) (limit_price : option string) (o : order_request) : Prop :=
  exists i b direction base quote summary,
    resolve_spot_trade_side from_currency to_currency = Ret (direction, base, quote) /\ o.(req_direction) = direction /\
    lookup_spot o.(req_instrument_name) ["USDT"; "USDC"; upper base] = Ret i /\
    _summary_for_currency (upper from_currency) w = (w, Ret summary) /\ spot_book Quoting o.(req_instrument_name) w = (w, Ret b) /\
    let available := match summary with Some a => spendable a | None => 0 end in
    let quoted := spot_quote i b direction order_type (if blank limit_price then None else option_map (fun s => to_decimal (PStr s) 0) limit_price) in
    let price := buy_sizing_price c direction order_type b i (fst quoted) in
    0 < o.(req_amount) /\ (direction = "sell" -> o.(req_amount) <= available) /\ (direction = "buy" -> 0 < price /\ o.(req_amount) ⊗ price <= available) /\
    (order_type = "market" -> 0 < c.(covered_call_spot_max_slippage_pct) ->
     exists b', spot_book Placing o.(req_instrument_name) w = (w, Ret b') /\
                near_mark i b' c.(covered_call_spot_max_slippage_pct) (String.eqb direction "buy") o).

Lemma side_lower from to direction base quote : resolve_spot_trade_side from to = Ret (direction, base, quote) ->
  (direction = "sell" \/ direction = "buy").
Proof.
  unfold resolve_spot_trade_side. repeat match goal with |- context [if ?c then _ else _] => destruct c end; intros E; try discriminate E; injection E as <- _ _; auto.
Qed.

Lemma quoted_inv (q q' : Q * string) (b b' : OrderBookSnapshot) : Ret (q, b) = Ret (q', b') -> q = q' /\ b = b'.
Proof. intros E. apply Ret_inj in E. now apply pair_equal_spec in E. Qed.

