(* ===== verification/Wheel.v ===== *)
(** The wheel of a covered call: what an exercised call sold of its cover, what is left to
    buy back, and the cash-secured puts sold on the proceeds ([spot_exit_ops.py],
    [spot_restore_ops.py], [cash_secured_ops.py], [csp_premium_swap_ops.py], the functions
    that only read groups). Reading the premium of a group may fill in its entry index from
    its fills; what that leaves in the group is kept where a group is changed
    ([SpotExit]), and here only the value is used. Orders, previews and reports are not
    modelled here. *)

From S2P Require Import Prelude Sorting Dec PyStr Utils Group Ledger PyObj GroupJson StateJson Market Runtime Close GroupClose DayState Portfolio Settlement Reconcile SpotTrade.
Local Open Scope string_scope.
Local Open Scope Q_scope.
Local Open Scope dec_scope.
Local Open Scope bool_scope.
Local Open Scope list_scope.

(** ** Cover sold ([spot_exit_ops.py]) *)

Definition record_spot_exit_lifetime_proceeds (proceeds : Q) (g : TradeGroup) : TradeGroup :=
  if proceeds <=? 0 then g
  else if proceeds >? g.(spot_exit_quote_proceeds_lifetime) then set_spot_exit_quote_proceeds_lifetime proceeds g else g.

Definition spot_exit_order_label (short_label : string) : string := (short_label ++ "-spot-exit")%string.
Definition is_spot_exit_label (label : string) : bool := contains "spot-exit" label.

Definition spot_exit_realized_usdt (g : TradeGroup) : Q :=
  if g.(spot_exit_quote_proceeds_lifetime) >? 0 then g.(spot_exit_quote_proceeds_lifetime)
  else if (g.(spot_exit_quote_proceeds) >? 0) && mem_str (lower g.(spot_exit_status)) ["filled"; "pending"; "submitted"; "failed"]
  then g.(spot_exit_quote_proceeds) else 0.

Definition spot_exit_quote_currency (g : TradeGroup) (instrument_name : string) : string :=
  if endswith "_USDC" (upper (str_or instrument_name g.(spot_exit_instrument_name))) then "USDC" else "USDT".

Definition spot_exit_blocks_new_covered_call (gs : list TradeGroup) (currency : string) : bool := pending_spot_exit_remaining_native gs currency >? 0.

(** [{"BTC": ..., "ETH": ...}] of native sold and quote received. *)
Definition journal_spot_exit_totals_by_book (gs : list TradeGroup) : dict (Q * Q) :=
  fold_left (fun out g =>
    if negb (mem_str (lower g.(spot_exit_status)) ["filled"; "pending"; "submitted"; "failed"]) then out
    else
      match dict_get (upper g.(currency)) out with
      | None => out
      | Some (native, usdt) =>
          let more x sum := if x >? 0 then sum ⊕ x else sum in
          dict_set (upper g.(currency)) (more (spot_exit_filled_native g) native, more (spot_exit_realized_usdt g) usdt) out
      end) gs [("BTC", (0, 0)); ("ETH", (0, 0))].

(** ** The puts of a wheel ([cash_secured_ops.py]) *)

Definition known_children (parent : TradeGroup) : list string :=
  filter truthy (map strip parent.(cash_secured_group_ids)) ++ (if truthy (strip parent.(cash_secured_group_id)) then [strip parent.(cash_secured_group_id)] else []).

Fixpoint linked_children (parent : TradeGroup) (seen : list string) (gs : list TradeGroup) : list TradeGroup :=
  match gs with
  | [] => []
  | g :: rest =>
      let gid := strip g.(group_id) in
      let known := mem_str gid (known_children parent) in
      if is_empty gid || String.eqb gid (strip parent.(group_id)) || mem_str gid seen then linked_children parent seen rest
      else if negb (String.eqb (strip g.(cash_secured_from_group_id)) (strip parent.(group_id)) || known) then linked_children parent seen rest
      else if is_cash_secured_group g || known then g :: linked_children parent (gid :: seen) rest
      else linked_children parent seen rest
  end.

Definition cash_secured_children (gs : list TradeGroup) (parent : TradeGroup) : list TradeGroup := linked_children parent [] gs.

Definition is_open_lower (g : TradeGroup) : bool := String.eqb (lower g.(status)) "open".
Definition is_closed_lower (g : TradeGroup) : bool := String.eqb (lower g.(status)) "closed".

Definition cash_secured_child_is_open (gs : list TradeGroup) (parent : TradeGroup) : bool := existsb is_open_lower (cash_secured_children gs parent).

(** ** Cover bought back ([spot_restore_ops.py]) *)

Definition record_spot_restore_lifetime_spent (spent : Q) (g : TradeGroup) : TradeGroup :=
  if spent <=? 0 then g
  else if spent >? g.(spot_restore_quote_spent_lifetime) then set_spot_restore_quote_spent_lifetime spent g else g.

Definition spot_restore_order_label (g : TradeGroup) (order_label_prefix : string) : string :=
  let short := strip g.(short_label) in
  if truthy short then (short ++ "-spot-restore")%string
  else (order_label_prefix ++ "-spot-restore-" ++ lower g.(currency) ++ "-" ++ g.(group_id))%string.

Definition is_spot_restore_label (label : string) : bool :=
  let text := lower label in
  if contains "premium-swap" text || contains "profit-sweep" text then false
  else contains "spot-restore" text || contains "csp-restore" text || contains "abort-restore" text.

Definition spot_restore_realized_usdt (g : TradeGroup) : Q :=
  if g.(spot_restore_quote_spent_lifetime) >? 0 then g.(spot_restore_quote_spent_lifetime)
  else if (g.(spot_restore_quote_spent) >? 0) && String.eqb (lower g.(spot_restore_status)) "filled" then g.(spot_restore_quote_spent) else 0.

Definition covered_call_cover_native (g : TradeGroup) : Q :=
  if g.(covered_underlying_quantity) >? 0 then g.(covered_underlying_quantity) else if g.(quantity) >? 0 then g.(quantity) else 0.

Definition spot_restore_filled_native (g : TradeGroup) : Q :=
  let status := lower g.(spot_restore_status) in
  if String.eqb status "filled" then if g.(spot_restore_amount) >? 0 then g.(spot_restore_amount) else 0
  else if mem_str status ["pending"; "submitted"] && (g.(spot_restore_amount) >? 0) then g.(spot_restore_amount)
  else 0.

Definition _spot_exit_swap_native (g : TradeGroup) : Q := spot_exit_filled_native g.

Definition _spot_restore_entry_fee_native (g : TradeGroup) : Q :=
  match resolved_entry_fee_collateral g with Some fee => if fee <=? 0 then 0 else fee | None => 0 end.

Definition _spot_restore_premium_native (g : TradeGroup) : Q := dmax (snd (covered_call_spot_exit_premium_native g)) 0.

(** [max(settlement_loss or 0, 0)], the group's own loss where none is given. *)
Definition settle_native (g : TradeGroup) (settlement_loss : option Q) : Q :=
  dmax (match settlement_loss with Some q => q | None => g.(spot_exit_settlement_loss) end) 0.

Definition spot_restore_target_native (g : TradeGroup) (settlement_loss : option Q) : Q :=
  let cover := covered_call_cover_native g in
  let raw_target := (_spot_exit_swap_native g ⊕ settle_native g settlement_loss) ⊖ _spot_restore_premium_native g in
  let raw_target := if raw_target <? 0 then 0 else raw_target in
  if cover >? 0 then dmin raw_target cover else raw_target.

(** The purchases of the puts count while the cover is not complete. *)
Fixpoint add_children (target : Q) (totals : Q * Q) (remaining : Q) (children : list TradeGroup) : Q * Q :=
  match children with
  | [] => totals
  | child :: rest =>
      if remaining <=? 0 then totals
      else
        let child_n := spot_restore_filled_native child in
        let child_u := spot_restore_realized_usdt child in
        if (child_n <=? 0) && (child_u <=? 0) then add_children target totals remaining rest
        else
          let restored := fst totals ⊕ child_n in
          add_children target (restored, snd totals ⊕ child_u) (dmax (target ⊖ restored) 0) rest
  end.

(** [(native bought back, quote spent on it)] *)
Definition _wheel_spot_restore_totals (g : TradeGroup) (gs : list TradeGroup) (settlement_loss : option Q) : Q * Q :=
  let restored := spot_restore_filled_native g in
  let spent := spot_restore_realized_usdt g in
  if negb (truthy_list gs) || negb (is_covered_call_group g) then (restored, spent)
  else
    let target := spot_restore_target_native g settlement_loss in
    add_children target (restored, spent) (dmax (target ⊖ restored) 0) (cash_secured_children gs g).

Definition wheel_spot_restore_filled_native (g : TradeGroup) (gs : list TradeGroup) : Q := fst (_wheel_spot_restore_totals g gs None).
Definition wheel_spot_restore_realized_usdt (g : TradeGroup) (gs : list TradeGroup) : Q := snd (_wheel_spot_restore_totals g gs None).

Record restore_plan : Type := {
  plan_cover : Q;
  plan_swap : Q;
  plan_settle : Q;
  plan_premium : Q;
  plan_fee : Q;
  plan_target : Q;
  plan_restored : Q;
  plan_unrestored : Q;
  premium_in_swap : bool;
  premium_still_held_est : bool;
}.

Definition plan_spot_restore_to_cover (g : TradeGroup) (settlement_loss : option Q) (gs : list TradeGroup) : restore_plan :=
  let cover := covered_call_cover_native g in
  let swap := _spot_exit_swap_native g in
  let settle := settle_native g settlement_loss in
  let premium := _spot_restore_premium_native g in
  let target := spot_restore_target_native g settlement_loss in
  let structural_with_premium := dmax ((cover ⊕ premium) ⊖ settle) 0 in
  let structural_cover_only := dmax (cover ⊖ settle) 0 in
  let folded := if (cover >? 0) && (premium >? 0) && (swap >? 0)
                then dabs (swap ⊖ structural_with_premium) <=? dabs (swap ⊖ structural_cover_only) else false in
  let restored := wheel_spot_restore_filled_native g gs in
  {| plan_cover := cover; plan_swap := swap; plan_settle := settle; plan_premium := premium; plan_fee := _spot_restore_entry_fee_native g;
     plan_target := target; plan_restored := restored; plan_unrestored := dmax (target ⊖ restored) 0; premium_in_swap := folded;
     premium_still_held_est := negb folded && (premium >? 0) |}.

Definition unrestored_spot_exit_native (g : TradeGroup) (settlement_loss : option Q) (gs : list TradeGroup) : Q :=
  if (_spot_exit_swap_native g <=? 0) && (settle_native g settlement_loss <=? 0) then 0
  else (plan_spot_restore_to_cover g settlement_loss gs).(plan_unrestored).

Definition group_has_itm_spot_exit_fills (g : TradeGroup) : bool := (spot_exit_realized_usdt g >? 0) || (spot_exit_filled_native g >? 0).

Definition itm_spot_exit_premium_folded (g : TradeGroup) : bool :=
  if negb (group_has_itm_spot_exit_fills g) then false else (plan_spot_restore_to_cover g None []).(premium_in_swap).

Definition itm_folded_premium_native (g : TradeGroup) : Q :=
  if negb (itm_spot_exit_premium_folded g) then 0 else dmax (plan_spot_restore_to_cover g None []).(plan_premium) 0.

Definition itm_folded_premium_usdt (g : TradeGroup) : Q :=
  let premium := itm_folded_premium_native g in
  let swap := (plan_spot_restore_to_cover g None []).(plan_swap) in
  let exit_u := spot_exit_realized_usdt g in
  if premium <=? 0 then 0
  else if swap <=? 0 then 0
  else if exit_u <=? 0 then 0
  else let share := premium ⊘ swap in exit_u ⊗ (if share >? 1 then 1 else share).

Definition spot_restore_lot_threshold (currency : string) : Q := if String.eqb (upper currency) "ETH" then 0.001 else 0.0001.

Definition align_spot_restore_buy_amount (amount spot_contract_size spot_min_trade : Q) (cap : option Q) : Q :=
  if amount <=? 0 then 0
  else if (spot_min_trade >? 0) && (amount <? spot_min_trade) then 0
  else ceil_option_order_amount amount spot_contract_size spot_min_trade (match cap with Some q => if q >? 0 then cap else None | None => None end).

Definition SPOT_RESTORE_OPERATOR_CANCELLED : string := "operator_cancelled".

Definition spot_restore_operator_cancelled (g : TradeGroup) : bool :=
  mem_str (lower g.(spot_restore_status)) ["skipped"; "cancelled"; "canceled"] || contains SPOT_RESTORE_OPERATOR_CANCELLED (lower g.(spot_restore_reason)).

(** [f"{reason};{tag}" if reason else tag] *)
Definition tagged (reason tag : string) : string := if truthy reason then (reason ++ ";" ++ tag)%string else tag.

Definition mark_spot_restore_operator_cancelled (g : TradeGroup) : TradeGroup :=
  let g := set_spot_restore_order_id "" (set_spot_restore_status "skipped" g) in
  let reason := strip g.(spot_restore_reason) in
  if contains SPOT_RESTORE_OPERATOR_CANCELLED reason then g else set_spot_restore_reason (tagged reason SPOT_RESTORE_OPERATOR_CANCELLED) g.

Definition itm_spot_round_trip_complete (g : TradeGroup) (gs : list TradeGroup) : bool :=
  let plan := plan_spot_restore_to_cover g None gs in
  let restore_u := wheel_spot_restore_realized_usdt g gs in
  if plan.(plan_unrestored) <=? 0.00000001 then negb ((plan.(plan_target) >? 0) && (plan.(plan_restored) <=? 0) && (restore_u <=? 0))
  else
    let exit_filled := String.eqb (lower g.(spot_exit_status)) "filled" in
    let restore_filled := String.eqb (lower g.(spot_restore_status)) "filled" in
    let dust := contains "dust_below_min_omitted" g.(spot_restore_reason) || (plan.(plan_unrestored) <? spot_restore_lot_threshold g.(currency)) in
    let child_filled := (restore_u >? 0) && (plan.(plan_restored) >? 0) in
    if (restore_filled || child_filled) && dust && exit_filled && (spot_exit_realized_usdt g >? 0) then true
    else if negb exit_filled then false
    else if negb restore_filled && (restore_u <=? 0) then false
    else (spot_exit_realized_usdt g >? 0) && (restore_u >? 0).

Definition itm_spot_exit_net_usdt_for_total_profit (g : TradeGroup) (gs : list TradeGroup) : option Q :=
  let exit_u := spot_exit_realized_usdt g in
  let restore_u := wheel_spot_restore_realized_usdt g gs in
  let folded := itm_folded_premium_usdt g in
  if negb (group_has_itm_spot_exit_fills g) then None
  else if exit_u <=? 0 then None
  else if negb (itm_spot_round_trip_complete g gs) then None
  else if (spot_restore_target_native g None >? 0) && (restore_u <=? 0) then None
  else let net := exit_u ⊖ restore_u in Some (if folded >? 0 then net ⊖ folded else net).

(** ** Buying back where it locks in a profit *)

Definition DEFAULT_AUTO_SPOT_RESTORE_MIN_EDGE_PCT : Q := 0.001.
Definition SPOT_RESTORE_ORDER_BUDGET_BUFFER : Q := 1.001.

Definition restore_edge (min_edge_pct : Q) : Q :=
  let edge := if min_edge_pct >? 0 then min_edge_pct else 0 in if edge >=? 1 then DEFAULT_AUTO_SPOT_RESTORE_MIN_EDGE_PCT else edge.

Definition remaining_proceeds (g : TradeGroup) (gs : list TradeGroup) : Q := spot_exit_realized_usdt g ⊖ wheel_spot_restore_realized_usdt g gs.

(** [(ok, reason)] of [evaluate_auto_spot_restore] at a price. *)
Definition evaluate_auto_spot_restore (g : TradeGroup) (buy_price min_edge_pct : Q) (gs : list TradeGroup) : bool * string :=
  let exit_status := lower g.(spot_exit_status) in
  let restore_status := lower g.(spot_restore_status) in
  if negb (String.eqb g.(status) "closed") || negb (is_covered_call_group g) then (false, "not_closed_covered_call")
  else if String.eqb exit_status "skipped" then (false, "spot_exit_skipped")
  else if negb (String.eqb exit_status "filled") then (false, "spot_exit_not_filled")
  else if spot_restore_operator_cancelled g then (false, "operator_cancelled")
  else if String.eqb restore_status "submitted" then (false, "restore_in_flight")
  else if negb (group_has_itm_spot_exit_fills g) then (false, "no_spot_exit_fill")
  else
    let unrestored := unrestored_spot_exit_native g None gs in
    let remaining := remaining_proceeds g gs in
    if unrestored <=? 0 then (false, if String.eqb restore_status "filled" then "already_restored" else "nothing_to_restore")
    else if spot_exit_realized_usdt g <=? 0 then (false, "no_exit_proceeds")
    else if remaining <=? 0 then (false, "no_remaining_proceeds")
    else if buy_price <=? 0 then (false, "no_buy_price")
    else
      let max_buy := (remaining ⊘ unrestored) ⊗ (1 ⊖ restore_edge min_edge_pct) in
      let estimated_net := remaining ⊖ (unrestored ⊗ buy_price ⊗ SPOT_RESTORE_ORDER_BUDGET_BUFFER) in
      if (buy_price >? max_buy) || (estimated_net <=? 0) then (false, "price_not_favorable") else (true, "favorable").

Definition auto_spot_restore_cap_price (g : TradeGroup) (min_edge_pct : Q) (gs : list TradeGroup) : Q :=
  let unrestored := unrestored_spot_exit_native g None gs in
  let remaining := remaining_proceeds g gs in
  if (unrestored <=? 0) || (remaining <=? 0) then 0 else (remaining ⊘ unrestored) ⊗ (1 ⊖ restore_edge min_edge_pct).

Definition evaluate_auto_spot_restore_park (g : TradeGroup) (min_edge_pct : Q) (gs : list TradeGroup) : bool * string :=
  let exit_status := lower g.(spot_exit_status) in
  if negb (String.eqb g.(status) "closed") || negb (is_covered_call_group g) then (false, "not_closed_covered_call")
  else if String.eqb exit_status "skipped" then (false, "spot_exit_skipped")
  else if negb (String.eqb exit_status "filled") then (false, "spot_exit_not_filled")
  else if spot_restore_operator_cancelled g then (false, "operator_cancelled")
  else if negb (group_has_itm_spot_exit_fills g) then (false, "no_spot_exit_fill")
  else if unrestored_spot_exit_native g None gs <=? 0 then (false, "already_restored")
  else if remaining_proceeds g gs <=? 0 then (false, "no_remaining_proceeds")
  else if auto_spot_restore_cap_price g min_edge_pct gs <=? 0 then (false, "no_cap_price")
  else (true, "park_limit").
