(* ===== verification/CashSecured.v ===== *)
(** Cash-secured puts on the proceeds of an exercised call ([cash_secured_ops.py]) and the
    premium they keep ([csp_premium_swap_ops.py]): the strikes and the size of a put, when
    a wheel may sell one, when a put is bought back early, rolled or left to be assigned,
    and how much of its premium is turned into coin. A comparison with a close index a
    group does not have raises, as in the program. The rows a preview lists are not
    modelled. *)

From S2P Require Import Prelude Sorting Dec PyStr Utils Group Ledger PyObj GroupJson StateJson Market Runtime Close GroupClose DayState Portfolio Settlement Reconcile SpotTrade Wheel.
Local Open Scope string_scope.
Local Open Scope Q_scope.
Local Open Scope dec_scope.
Local Open Scope bool_scope.
Local Open Scope list_scope.

Definition CSP_ABORT_RESTORE_REASON : string := "operator_csp_abort_restore".
Definition OPERATOR_CLOSED_CHILD_REASONS : list string := ["manual_close"; "reconciled_external"].

(** ** Premium kept and swapped ([csp_premium_swap_ops.py]) *)

Definition CSP_PREMIUM_SWAP_TERMINAL : list string := ["filled"; "skipped"].
Definition CSP_PREMIUM_SWAP_DUST_USDC : Q := 1.

Definition csp_premium_swap_target_is_spot (premium_target : string) : bool := String.eqb (lower (strip premium_target)) "spot".
Definition csp_premium_group_is_closed (g : TradeGroup) : bool := is_closed_lower g.
Definition csp_premium_waiting_cover_restore (g : TradeGroup) : bool := mem_str (lower g.(spot_restore_status)) ["pending"; "submitted"].

Definition csp_premium_realized_usdc (g : TradeGroup) : Q :=
  if negb (csp_premium_group_is_closed g) then 0
  else if g.(entry_credit) <=? 0 then 0
  else
    let kept := (g.(entry_credit) ⊖ dmax (or_zero g.(realized_close_debit)) 0) ⊖ dmax (or_zero g.(realized_close_fee)) 0 in
    if kept >? 0 then kept else 0.

Definition csp_premium_swap_spent_usdc (g : TradeGroup) : Q :=
  let spent := g.(csp_premium_swap_amount) in
  if spent <=? 0 then 0
  else
    let premium := csp_premium_realized_usdc g in
    if mem_str (lower g.(csp_premium_swap_status)) ["pending"; "submitted"; ""] && (premium >? 0) && (spent =? premium) then 0 else spent.

Definition csp_premium_swap_remaining_usdc (g : TradeGroup) : Q :=
  let remaining := csp_premium_realized_usdc g ⊖ csp_premium_swap_spent_usdc g in
  if remaining <=? CSP_PREMIUM_SWAP_DUST_USDC then 0 else remaining.

Definition csp_premium_leftover_usdc (g : TradeGroup) : Q :=
  let leftover := csp_premium_realized_usdc g ⊖ csp_premium_swap_spent_usdc g in if leftover >? 0 then leftover else 0.

Record disposition : Type := { remaining_usdc : Q; spot_book_name : string; spot_native : Q }.

Definition csp_premium_disposition_split (g : TradeGroup) : option disposition :=
  if negb (is_cash_secured_group g) then None
  else
    let leftover := csp_premium_leftover_usdc g in
    let native := if g.(csp_premium_swap_native) <=? 0 then 0 else g.(csp_premium_swap_native) in
    let book := if mem_str (upper g.(currency)) ["BTC"; "ETH"] then upper g.(currency) else "" in
    if (leftover <=? 0) && (native <=? 0) then
      match g.(realized_pnl) with
      | None => None
      | Some pnl => if pnl =? 0 then None else Some {| remaining_usdc := pnl; spot_book_name := ""; spot_native := 0 |}
      end
    else Some {| remaining_usdc := leftover; spot_book_name := if native >? 0 then book else ""; spot_native := native |}.

Definition csp_premium_swap_ready (g : TradeGroup) : bool * string :=
  let status := lower g.(csp_premium_swap_status) in
  if negb (is_cash_secured_group g) then (false, "not_cash_secured")
  else if mem_str status CSP_PREMIUM_SWAP_TERMINAL then (false, "already_" ++ status)%string
  else if String.eqb status "submitted" then (false, "already_submitted")
  else if negb (csp_premium_group_is_closed g) then (false, "not_closed_yet")
  else if csp_premium_waiting_cover_restore g then (false, "waiting_cover_restore")
  else if csp_premium_realized_usdc g <=? 0 then (false, "no_realized_premium")
  else if csp_premium_swap_remaining_usdc g <=? 0 then (false, "premium_already_swapped")
  else (true, "").

Definition csp_premium_swap_order_label (order_label_prefix : string) (g : TradeGroup) : string :=
  (str_or (strip (str_or order_label_prefix "trial")) "trial" ++ "-csp-premium-swap-" ++ lower g.(currency) ++ "-" ++ g.(group_id))%string.

Definition schedule_csp_premium_swap (g : TradeGroup) (reason : string) : TradeGroup * Q :=
  let status := lower g.(csp_premium_swap_status) in
  if mem_str status CSP_PREMIUM_SWAP_TERMINAL || String.eqb status "submitted" then (g, 0)
  else if negb (csp_premium_group_is_closed g) then (g, 0)
  else if csp_premium_waiting_cover_restore g then (g, 0)
  else
    let remaining := csp_premium_swap_remaining_usdc g in
    if remaining <=? 0 then
      if csp_premium_realized_usdc g >? 0 then (set_csp_premium_swap_status "filled" g, 0)
      else
        let g := set_csp_premium_swap_status "skipped" g in
        (if is_empty g.(csp_premium_swap_reason) then set_csp_premium_swap_reason (str_or reason "no_realized_premium") g else g, 0)
    else (set_csp_premium_swap_reason reason (set_csp_premium_swap_status "pending" g), remaining).

Definition apply_csp_premium_swap_fill (g : TradeGroup) (spent_usdc native_bought : Q) : TradeGroup * Q :=
  let spent := dmax spent_usdc 0 in
  let native := dmax native_bought 0 in
  let total := csp_premium_swap_spent_usdc g ⊕ spent in
  let g := set_csp_premium_swap_amount total g in
  let g := if native >? 0 then set_csp_premium_swap_native (dmax g.(csp_premium_swap_native) 0 ⊕ native) g else g in
  let premium := csp_premium_realized_usdc g in
  let leftover := if premium >? total then premium ⊖ total else 0 in
  let remaining := if leftover <=? CSP_PREMIUM_SWAP_DUST_USDC then 0 else leftover in
  (set_csp_premium_swap_status (if remaining <=? 0 then "filled" else "pending") g, remaining).

(** ** The put to sell *)

(** [max(0, min(pct, 1))] *)
Definition unit_interval (pct : Q) : Q := dmax 0 (dmin pct 1).

(** [(lowest strike, highest strike)] *)
Definition cash_secured_strike_bounds (original_strike floor_pct premium_credit quantity : Q) : Q * Q :=
  if original_strike <=? 0 then (0, 0)
  else
    let ceiling := if negb (premium_credit =? 0) && (quantity >? 0) then dmax (original_strike ⊕ (premium_credit ⊘ quantity)) 0 else original_strike in
    if ceiling <=? 0 then (0, 0) else (ceiling ⊗ (1 ⊖ unit_interval floor_pct), ceiling).

Definition child_premium (child : TradeGroup) : Q :=
  (child.(entry_credit) ⊖ dmax (or_zero child.(realized_close_debit)) 0) ⊖ csp_premium_swap_spent_usdc child.

Definition cash_secured_premium_ledger (parent : TradeGroup) (gs : list TradeGroup) : Q :=
  fold_left (fun total child => if negb (is_closed_lower child) || (child.(entry_credit) <=? 0) then total else total ⊕ child_premium child)
    (cash_secured_children gs parent) 0.

Definition cash_secured_cover_complete (g : TradeGroup) (gs : list TradeGroup) : bool :=
  if unrestored_spot_exit_native g None gs >? 0.00000001 then false
  else if wheel_spot_restore_filled_native g gs >? 0 then true
  else String.eqb (lower g.(spot_restore_status)) "filled" && ((g.(spot_restore_amount) >? 0) || truthy g.(spot_restore_order_id)).

Definition cash_secured_target_native (g : TradeGroup) (gs : list TradeGroup) : Q :=
  let cover := covered_call_cover_native g in
  let unrestored := unrestored_spot_exit_native g None gs in
  let sold := spot_exit_filled_native g in
  let sized raw := let raw := if raw <=? 0 then g.(quantity) else raw in if cover >? 0 then dmin raw cover else raw in
  if unrestored >? 0 then sized unrestored
  else if (wheel_spot_restore_filled_native g gs >? 0) || cash_secured_cover_complete g gs then 0
  else sized (if sold >? 0 then sold else cover).

Definition cash_secured_desired_quantity (target_native contract_size min_trade_amount : Q) (cap : option Q) : Q :=
  ceil_option_order_amount target_native contract_size min_trade_amount cap.

Definition cash_secured_quantity (sold_native usdc_available strike contract_size min_trade_amount : Q) (cap : option Q) : Q :=
  if (sold_native <=? 0) || (strike <=? 0) then 0
  else
    let desired := cash_secured_desired_quantity sold_native contract_size min_trade_amount cap in
    if desired <=? 0 then 0 else if usdc_available <=? 0 then 0 else desired.

(** The least tuple is the best candidate. *)
Definition cash_secured_scan_rank (quantity strike dte net_apr : Q) : list Q := [Dec.dneg strike; Dec.dneg quantity; Dec.dneg net_apr; dte].

(** ** When a wheel may sell one *)

Definition itm_group_sold_to_usdc (g : TradeGroup) : bool := String.eqb (spot_exit_quote_currency g "") "USDC".
Definition itm_group_treat_as_usdc_for_csp (g : TradeGroup) : bool := String.eqb (lower g.(spot_exit_status)) "filled".

(** Comparing the index a group was closed at, which it may not have. *)
Definition close_index_or_raise (g : TradeGroup) : outcome Q := match g.(close_index_usd) with Some v => Ret v | None => Exn TypeError end.

Definition cash_secured_child_expired_itm (child : TradeGroup) : outcome bool :=
  if negb (is_closed_lower child) then Ret false
  else (let! index := close_index_or_raise child in
        Ret (if (index <=? 0) || (child.(short_strike) <=? 0) then false else index <? child.(short_strike)))%outcome.

Definition cash_secured_child_was_operator_closed (child : TradeGroup) : bool :=
  is_closed_lower child && mem_str (lower child.(close_reason)) OPERATOR_CLOSED_CHILD_REASONS.

(** Why a child ends the wheel, if one does; the first that does decides. *)
Fixpoint child_ends_wheel (children : list TradeGroup) : outcome (option string) :=
  match children with
  | [] => Ret None
  | child :: rest =>
      let restore := lower child.(spot_restore_status) in
      if mem_str restore ["submitted"; "pending"] then Ret (Some "child_restore_in_flight")
      else if String.eqb restore "filled" && ((child.(spot_restore_amount) >? 0) || truthy child.(spot_restore_order_id)) then Ret (Some "cover_restored")
      else (let! itm := cash_secured_child_expired_itm child in if itm then Ret (Some "child_expired_itm") else child_ends_wheel rest)%outcome
  end.

(** The reason rolls are blocked, if they are. *)
Definition cash_secured_roll_blocked (parent : TradeGroup) (gs : list TradeGroup) : outcome (option string) :=
  (let! ended := child_ends_wheel (cash_secured_children gs parent) in
   Ret (match ended with
        | Some why => Some why
        | None =>
            if cash_secured_cover_complete parent gs then Some "cover_restored"
            else if existsb cash_secured_child_was_operator_closed (cash_secured_children gs parent) then Some "operator_closed_child" else None
        end))%outcome.

(** The checks that need no other group. *)
Definition sold_and_idle (g : TradeGroup) : option string :=
  let restore_status := lower g.(spot_restore_status) in
  let status_csp := lower g.(cash_secured_status) in
  if negb (is_covered_call_group g) then Some "not_covered_call"
  else if negb (is_closed_lower g) then Some "not_closed"
  else if negb (String.eqb (lower g.(spot_exit_status)) "filled") then Some "spot_exit_not_filled"
  else if negb (mem_str restore_status ["skipped"; "cancelled"; "canceled"]) && mem_str restore_status ["submitted"; "pending"; "filled"]
          && ((g.(spot_restore_amount) >? 0) || truthy g.(spot_restore_order_id)) then Some "restore_in_flight"
  else if String.eqb status_csp "skipped" && negb (mem_str (lower g.(cash_secured_reason)) ["operator_cancelled"; "ioc_unfilled"; "not_enough_funds"])
  then Some "already_skipped"
  else if String.eqb status_csp "submitted" then Some "already_submitted"
  else None.

(** The checks on what the sale brought. *)
Definition proceeds_missing (g : TradeGroup) (gs : list TradeGroup) : option string :=
  if negb (itm_group_treat_as_usdc_for_csp g) then Some "spot_exit_not_usdc"
  else if spot_exit_realized_usdt g <=? 0 then Some "no_usdc_proceeds"
  else if (spot_exit_filled_native g <=? 0) && (g.(quantity) <=? 0) then Some "no_sold_native"
  else if cash_secured_target_native g gs <=? 0 then Some "cover_restored"
  else None.

(** Nothing where a put may be sold, else why not. Without [groups] no child is looked at. *)
Definition itm_sold_ready_for_cash_secured (g : TradeGroup) (groups : option (list TradeGroup)) : outcome (option string) :=
  let gs := match groups with Some gs => gs | None => [] end in
  let status_csp := lower g.(cash_secured_status) in
  let entered := String.eqb status_csp "entered" in
  match sold_and_idle g with
  | Some why => Ret (Some why)
  | None =>
      if cash_secured_cover_complete g gs then Ret (Some "cover_restored")
      else
        (let! busy := match groups with
                      | Some gs =>
                          if cash_secured_child_is_open gs g then Ret (Some "child_open")
                          else (let! blocked := cash_secured_roll_blocked g gs in
                                Ret (match blocked with
                                     | Some why => Some why
                                     | None => if (entered || truthy g.(cash_secured_group_id)) && negb (truthy_list (cash_secured_children gs g))
                                               then Some "already_entered" else None
                                     end))
                      | None => Ret (if entered then Some "already_entered" else if truthy g.(cash_secured_group_id) then Some "child_already_linked" else None)
                      end in
         Ret (match busy with Some why => Some why | None => proceeds_missing g gs end))%outcome
  end.

(** ** Assignment, early purchase, roll *)

Definition cash_secured_hold_near_strike (index_price strike band_pct : Q) : bool :=
  if (index_price <=? 0) || (strike <=? 0) then false
  else let band := unit_interval band_pct in if band <=? 0 then false else index_price <? strike ⊗ (1 ⊕ band).

Definition cash_secured_put_intrinsic_usdc (index_price strike quantity : Q) : Q :=
  if (index_price <=? 0) || (strike <=? 0) || (quantity <=? 0) then 0 else dmax (strike ⊖ index_price) 0 ⊗ quantity.

Definition cash_secured_put_time_value_usdc (index_price strike quantity current_debit : Q) : Q :=
  dmax (dmax current_debit 0 ⊖ cash_secured_put_intrinsic_usdc index_price strike quantity) 0.

Definition cash_secured_self_assign_ready (index_price strike quantity current_debit dte_days itm_buffer_pct max_dte max_tv_pct : Q) : bool * string :=
  let intrinsic := cash_secured_put_intrinsic_usdc index_price strike quantity in
  let tv := cash_secured_put_time_value_usdc index_price strike quantity current_debit in
  let tv_cap := dmax 0 max_tv_pct in
  if negb (cash_secured_put_is_itm index_price strike itm_buffer_pct) then (false, "not_itm")
  else if current_debit <=? 0 then (false, "no_debit")
  else if intrinsic <=? 0 then (false, "no_intrinsic")
  else if (max_dte >=? 0) && (dmax dte_days 0 <=? max_dte) then (true, "near_expiry")
  else if (tv_cap >? 0) && (tv <=? intrinsic ⊗ tv_cap) then (true, "thin_time_value")
  else (false, "time_value_fat").

Definition cash_secured_self_assign_liquidity_ok (spread_ratio best_bid best_ask ask_amount quantity max_spread_ratio : Q) (min_ask_amount : option Q) : bool * string :=
  let cap := dmax 0 max_spread_ratio in
  let need := match min_ask_amount with None => quantity | Some q => dmax q 0 end in
  if (best_bid <=? 0) || (best_ask <=? 0) || (best_ask <? best_bid) then (false, "no_two_sided_book")
  else if (cap >? 0) && (spread_ratio >? cap) then (false, "spread_too_wide")
  else if (need >? 0) && (ask_amount <? need) then (false, "ask_size_thin")
  else (true, "ok").

Definition cash_secured_active_roll_tv_ratio (index_price strike quantity current_debit entry_credit : Q) : Q :=
  let tv := cash_secured_put_time_value_usdc index_price strike quantity current_debit in
  let intrinsic := cash_secured_put_intrinsic_usdc index_price strike quantity in
  let denom := dmax (dmax entry_credit 0) (intrinsic ⊕ tv) in
  if denom <=? 0 then 0 else tv ⊘ denom.

Definition cash_secured_active_roll_dte_reason (dte_days min_dte max_dte : Q) : string :=
  if dte_days <=? min_dte then "dte_too_short"
  else if (max_dte >=? 0) && (dte_days >? max_dte) then "dte_out_of_window" else "".

Definition cash_secured_active_roll_taker_spread_usdc (close_bid close_ask new_bid new_ask close_quantity new_quantity : Q) : Q :=
  let half bid ask qty := (dmax (ask ⊖ bid) 0 ⊗ dmax qty 0) ⊘ 2 in half close_bid close_ask close_quantity ⊕ half new_bid new_ask new_quantity.

(** [(net, whether it pays)] *)
Definition cash_secured_active_roll_fee_edge (new_credit close_debit close_fee open_fee min_net_usdc spread_usdc min_net_edge_mult : Q) : Q * bool :=
  let close_fee := dmax close_fee 0 in
  let open_fee := dmax open_fee 0 in
  let net := ((new_credit ⊖ close_debit) ⊖ close_fee) ⊖ open_fee in
  let round_trip := (close_fee ⊕ open_fee) ⊕ dmax spread_usdc 0 in
  let mult := dmax min_net_edge_mult 0 in
  let need := dmax min_net_usdc 0 in
  let need := if mult >? 0 then dmax need (mult ⊗ round_trip) else need in
  (net, net >=? need).

Definition cash_secured_active_roll_daily_usdc (credit dte_days : Q) : Q := if (credit <=? 0) || (dte_days <=? 0) then 0 else credit ⊘ dte_days.

(** [(held per day, rolled per day, whether the roll beats holding)] *)
Definition cash_secured_active_roll_daily_beats_hold (hold_credit hold_dte new_credit new_dte switch_fees min_yield_edge : Q) : Q * Q * bool :=
  let hold_daily := cash_secured_active_roll_daily_usdc hold_credit hold_dte in
  let roll_daily := cash_secured_active_roll_daily_usdc (new_credit ⊖ dmax switch_fees 0) new_dte in
  let need := hold_daily ⊗ (1 ⊕ dmax min_yield_edge 0) in
  (hold_daily, roll_daily, (roll_daily >? hold_daily) && (roll_daily >=? need)).

(** The order in which the children were opened; ids break ties as texts. *)
Definition later_child (a b : TradeGroup) : bool :=
  (a.(entry_timestamp_ms) <? b.(entry_timestamp_ms))%Z
  || ((a.(entry_timestamp_ms) =? b.(entry_timestamp_ms))%Z && match String.compare a.(group_id) b.(group_id) with Lt => true | _ => false end).

(** [max(children, key=...)]: the first of the greatest. *)
Definition newest_child (children : list TradeGroup) : option TradeGroup :=
  fold_left (fun best g => match best with Some b => if later_child b g then Some g else best | None => Some g end) children None.

Definition cash_secured_last_active_roll_child (parent : TradeGroup) (gs : list TradeGroup) : option TradeGroup :=
  match newest_child (cash_secured_children gs parent) with
  | None => None
  | Some newest =>
      if negb (is_closed_lower newest) then None
      else if negb (String.eqb (lower newest.(close_reason)) "csp_active_roll") then None else Some newest
  end.

(** [(hold_credit, hold_dte)]; the clock is read where the child has no time of close. *)
Definition cash_secured_hold_credit_dte_from_closed_roll (child : TradeGroup) (now_us : Z) : outcome (Q * Q) :=
  let qty := if child.(quantity) >? 0 then child.(quantity) else 0 in
  match child.(short_close_average_price) with
  | None => Exn TypeError
  | Some close_px =>
      let hold_credit := if (close_px >? 0) && (qty >? 0) then close_px ⊗ qty
                         else dmax (or_zero child.(realized_close_debit) ⊖ or_zero child.(realized_close_fee)) 0 in
      let at_us := match child.(closed_timestamp_ms) with
                   | Some ms => if (ms =? 0)%Z then now_us else (ms * 1000)%Z
                   | None => now_us
                   end in
      Ret (hold_credit, dte_days (Some child.(expiration_timestamp_ms)) at_us)
  end.

Definition cash_secured_later_expiry_in_window (expiration_timestamp_ms current_expiry_ms : Z) (instrument_name current_instrument : string)
    (dte_days dte_min dte_max strike min_strike max_strike : Q) : bool :=
  if is_empty instrument_name || String.eqb instrument_name current_instrument then false
  else if (expiration_timestamp_ms <=? current_expiry_ms)%Z then false
  else if (dte_days <? dte_min) || (dte_days >? dte_max) then false
  else negb ((strike <? min_strike) || (strike >? max_strike)).

Definition cash_secured_cover_unrestored (g : TradeGroup) : Q :=
  let target := if g.(quantity) >? 0 then g.(quantity) else g.(covered_underlying_quantity) in
  if target <=? 0 then 0 else dmax (target ⊖ dmax g.(spot_restore_amount) 0) 0.

(** What the wheel has earned: the call's credit where its cover was sold, else its profit, and each closed put. *)
Definition cash_secured_wheel_realized_pnl (parent : TradeGroup) (gs : list TradeGroup) : Q :=
  let start := if String.eqb (lower parent.(spot_exit_status)) "filled" then parent.(entry_credit) else or_zero parent.(realized_pnl) in
  fold_left (fun total child => if negb (is_closed_lower child) then total else match child.(realized_pnl) with Some p => total ⊕ p | None => total end)
    (cash_secured_children gs parent) start.

(** ** Names of a wheel *)

Definition cash_secured_cover_restore_order_label (g : TradeGroup) (order_label_prefix : string) : string :=
  (str_or (strip (str_or order_label_prefix "trial")) "trial" ++ "-csp-restore-" ++ lower g.(currency) ++ "-" ++ g.(group_id))%string.

Definition _instrument_uses_usdc_quote (name : string) : bool := let n := upper name in contains "_USDC-" n || endswith "_USDC" n.

Definition _same_group_id (left right : string) : bool :=
  let a := strip left in
  let b := strip right in
  String.eqb a b || (truthy a && truthy b && all_digits a && all_digits b && (digits_value 0 a =? digits_value 0 b)%Z).

Definition group_with_id (gs : list TradeGroup) (wanted : string) : option TradeGroup := find (fun g => _same_group_id g.(group_id) wanted) gs.

Definition paid_in_usdc (g : TradeGroup) : bool :=
  _instrument_uses_usdc_quote g.(short_instrument_name) || _instrument_uses_usdc_quote g.(cash_secured_instrument_name)
  || (String.eqb (upper g.(collateral_currency)) "USDC" && (is_cash_secured_group g || truthy (strip g.(cash_secured_from_group_id)))).

Definition cash_secured_cover_spot_instrument (g : TradeGroup) (gs : list TradeGroup) (child : option TradeGroup) : option string :=
  let usdc_pair := (str_or (upper g.(currency)) "BTC" ++ "_USDC")%string in
  if paid_in_usdc g || match child with Some k => paid_in_usdc k | None => false end then Some usdc_pair
  else if negb (truthy_list gs) then None
  else
    let parent := if is_covered_call_group g then Some g
                  else if is_cash_secured_group g || truthy (strip g.(cash_secured_from_group_id)) then group_with_id gs (strip g.(cash_secured_from_group_id))
                  else None in
    match parent with
    | None => None
    | Some p => if paid_in_usdc p || existsb paid_in_usdc (cash_secured_children gs p) then Some usdc_pair else None
    end.

Definition spot_restore_spot_instrument_name (g : TradeGroup) (gs : list TradeGroup) (child : option TradeGroup) : string :=
  match cash_secured_cover_spot_instrument g gs child with
  | Some usdc_pair => usdc_pair
  | None =>
      str_or (strip g.(spot_exit_instrument_name))
        (str_or (strip g.(spot_restore_instrument_name)) (str_or (upper g.(currency)) "BTC" ++ "_" ++ spot_exit_quote_currency g ""))%string
  end.

Definition open_child_of (gs : list TradeGroup) (parent : TradeGroup) : option TradeGroup := find is_open_lower (cash_secured_children gs parent).

(** [(parent, open child)] *)
Definition resolve_csp_abort_restore_pair (gs : list TradeGroup) (group_id : string) : option TradeGroup * option TradeGroup :=
  if is_empty (strip group_id) then (None, None)
  else
    match group_with_id gs (strip group_id) with
    | None => (None, None)
    | Some hit =>
        if is_cash_secured_group hit || truthy (strip hit.(cash_secured_from_group_id)) then
          let parent := group_with_id gs (strip hit.(cash_secured_from_group_id)) in
          (parent, if is_open_lower hit then Some hit else match parent with Some p => open_child_of gs p | None => None end)
        else if is_covered_call_group hit then (Some hit, open_child_of gs hit)
        else (None, None)
    end.
