(* ===== verification/Sweep.v ===== *)
(** Profit sweeps: the premium a covered call has earned in coin is sold for USDT once the
    call is closed ([engine/covered_call.py], [profit_sweep_ops.py]). A group is reached
    by its place among the groups of the state, so that an assignment to it is seen by
    every later look at the state, after an exception too. What the exchange
    has filled is in [SweepFills]; the pool of dust is not modelled. *)

From S2P Require Import Prelude Dec PyStr Utils Group Ledger PyObj GroupJson StateJson Market ExitEval VolMetrics EntryGates Runtime HedgeOrders Close GroupClose GroupExit DayState Portfolio Manage EntryConfig Scan Settlement Positions Reconcile SpotTrade Wheel.
Local Open Scope string_scope.
Local Open Scope Q_scope.
Local Open Scope dec_scope.
Local Open Scope bool_scope.
Local Open Scope run_scope.
Local Open Scope list_scope.

(** ** Groups in place *)

Definition group_at (n : nat) : M TradeGroup :=
  let* s := read state in match nth_error s.(groups) n with Some g => ret g | None => lift (Exn IndexError) end.

Definition edit_group (n : nat) (f : TradeGroup -> TradeGroup) : M unit := let* g := group_at n in modify (put_group n (f g)).

(** A method of the group, which may change it and may raise. *)
Definition on_group {A} (n : nat) (f : TradeGroup -> outcome (TradeGroup * A)) : M A :=
  let* g := group_at n in
  let* r := lift (f g) in
  let* _ := modify (put_group n (fst r)) in
  ret (snd r).

(** [try: m except Exception as exc] *)
Definition caught {A} (m : M A) : M (A + exn) := fun w =>
  match m w with
  | (w', Ret a) => (w', Ret (inl a))
  | (w', Exn e) => (w', Ret (inr e))
  | (w', OutOfFuel) => (w', OutOfFuel)
  end.

(** ** Profit in coin ([profit_sweep_ops.py]) *)

Definition record_profit_sweep_lifetime_proceeds (proceeds : Q) (g : TradeGroup) : TradeGroup :=
  if proceeds <=? 0 then g
  else if proceeds >? g.(profit_sweep_quote_proceeds_lifetime) then set_profit_sweep_quote_proceeds_lifetime proceeds g else g.

Definition profit_sweep_has_exchange_fill (g : TradeGroup) : bool :=
  let reason := lower g.(profit_sweep_reason) in
  let has tag := contains tag reason in
  let ordered := truthy (strip g.(profit_sweep_order_id)) in
  let sold := g.(profit_sweep_exchange_native) >? 0 in
  if negb (String.eqb (lower g.(profit_sweep_status)) "filled") then false
  else if has "proceeds_reconciled" then
    if sold || has "exchange_fully_swept" then true
    else if has "premium_amount_synced" && ordered then true
    else if has "unlabeled_premium_reconciled" then true
    else if has "manual_swap" then true
    else if has "dust_pool_sweep" then sold
    else false
  else if ordered then true
  else if has "exchange_fully_swept" then true
  else if has "unlabeled_premium_reconciled" then true
  else if has "manual_swap" then true
  else if has "dust_pool_sweep" then sold
  else true.

Definition realized_spot_profit_native_for_group (g : TradeGroup) : TradeGroup * option Q :=
  if negb (String.eqb g.(status) "closed") || negb (is_covered_call_group g) || negb (is_coin_collateral g) then (g, None)
  else
    let '(g, native) := compute_coin_profit_native g false in
    let '(g, native) := match native with
                        | None => if opt_pos g.(close_index_usd) then compute_coin_profit_native g true else (g, None)
                        | Some n => (g, Some n)
                        end in
    let native := match native, g.(realized_pnl_collateral_native) with
                  | None, Some n => if n >? 0 then Some n else None
                  | native, _ => native
                  end in
    (g, match native with Some n => if n <=? 0 then None else Some n | None => None end).

(** The profit to sweep by, written to the group as what it earned. *)
Definition _coin_profit_native_for_sweep (g : TradeGroup) : outcome (TradeGroup * option Q) :=
  let '(g, native) := realized_spot_profit_native_for_group g in
  match native with
  | None => Ret (g, None)
  | Some n =>
      let g := set_realized_pnl_collateral_native (Some n) g in
      (let! g := (if opt_pos g.(close_index_usd) then backfill_realized_pnl_usdc g g.(close_index_usd) else Ret g) in Ret (g, Some n))%outcome
  end.

Definition retained_for_cover (g : TradeGroup) : bool := contains "retained_for_cover" (lower g.(profit_sweep_reason)).

(** [group.profit_sweep_amount if group.profit_sweep_amount > 0 else 0] *)
Definition swept_amount (g : TradeGroup) : Q := if g.(profit_sweep_amount) >? 0 then g.(profit_sweep_amount) else 0.

(** What is left of that profit. *)
Definition remaining_of (g : TradeGroup) (native : Q) : Q :=
  let sweep := lower g.(profit_sweep_status) in
  let credited := swept_amount g in
  if retained_for_cover g then 0
  else if String.eqb sweep "filled" then
    let journal_rem := if credited >? 0 then dmax 0 (native ⊖ dmin credited native) else native in
    if g.(profit_sweep_exchange_native) >? 0 then
      dmax (if credited >? 0 then journal_rem else 0) (dmax 0 (native ⊖ g.(profit_sweep_exchange_native)))
    else if credited >=? native then 0
    else if credited >? 0 then journal_rem
    else if negb (profit_sweep_has_exchange_fill g) then 0
    else native
  else if mem_str sweep ["pending"; "submitted"] then if credited <=? 0 then native else dmax 0 (native ⊖ credited)
  else native.

Definition remaining_spot_profit_native (g : TradeGroup) : TradeGroup * Q :=
  let '(g, native) := realized_spot_profit_native_for_group g in
  (g, match native with Some n => if n <=? 0 then 0 else remaining_of g n | None => 0 end).

Definition to_sweep_native (g : TradeGroup) : TradeGroup * Q :=
  let '(g, native) := realized_spot_profit_native_for_group g in
  match native with
  | None => (g, 0)
  | Some n =>
      let status := lower g.(profit_sweep_status) in
      if n <=? 0 then (g, 0)
      else if retained_for_cover g then (g, 0)
      else if mem_str status ["pending"; "submitted"] then
        let swept := if g.(profit_sweep_amount) >? 0 then g.(profit_sweep_amount) else n in
        (g, if (swept >? 0) && (swept <? n) then dmax (n ⊖ swept) 0 else if swept >? 0 then swept else n)
      else if String.eqb status "filled" then remaining_spot_profit_native g
      else (g, n)
  end.

Definition _profit_sweep_state_locked (g : TradeGroup) : bool :=
  let has tag := contains tag (lower g.(profit_sweep_reason)) in
  has "duplicate_sweep_repaired" || has "premium_amount_synced" || (has "proceeds_reconciled" && profit_sweep_has_exchange_fill g).

(** ** Sizes ([engine/covered_call.py]) *)

Definition _covered_call_profit_sweep_instrument (currency : string) : string := (upper currency ++ "_USDT")%string.

Definition positive (o : option Q) : option Q := match o with Some q => if q <=? 0 then None else Some q | None => None end.

Definition _unswept_profit_native_for_sweep (g : TradeGroup) : outcome (TradeGroup * option Q) :=
  (let! r := _coin_profit_native_for_sweep g in
   let '(g, native) := r in
   Ret (match positive native with
        | None => (g, None)
        | Some native_cap =>
            let status := lower g.(profit_sweep_status) in
            let swept := swept_amount g in
            if String.eqb status "filled" then let '(g, rem) := remaining_spot_profit_native g in (g, if rem >? 0 then Some rem else None)
            else if mem_str status ["pending"; "submitted"] && (swept >? 0) && (swept <? native_cap) then (g, Some (dmax (native_cap ⊖ swept) 0))
            else (g, Some native_cap)
        end))%outcome.

Definition _prior_swept_profit_native (g : TradeGroup) : outcome (TradeGroup * Q) :=
  (let! r := _coin_profit_native_for_sweep g in
   let '(g, native) := r in
   Ret (match positive native with
        | None => (g, 0)
        | Some native_cap =>
            let status := lower g.(profit_sweep_status) in
            let swept := swept_amount g in
            (g, if String.eqb status "filled" then dmin swept native_cap
                else if String.eqb status "pending" && (swept >? 0) && (swept <? native_cap) then swept else 0)
        end))%outcome.

(** A closed covered call in coin of that currency. *)
Definition closed_coin_call (currency : string) (g : TradeGroup) : bool :=
  String.eqb g.(status) "closed" && is_covered_call_group g && String.eqb (upper g.(Group.currency)) (upper currency) && is_coin_collateral g.

Definition _covered_call_realized_loss_reserve (s : StrategyState) (currency : string) : Q :=
  fold_left (fun total g => match g.(realized_pnl_collateral_native) with
                            | Some n => if closed_coin_call currency g && (n <? 0) then total ⊕ dabs n else total
                            | None => total
                            end) s.(groups) 0.

Section Sweep.
Context {S : SpotDesk}.
Variable c : spot_config.
Variable summaries : dict AccountSummary.

Let private : bool := c.(wheel).(scanning).(gated).(accounts).(has_private_credentials).

Definition _account_summaries_by_currency : M (dict AccountSummary) := fun w =>
  (w, if negb private then Ret []
      else (let! rows := get_account_summaries w.(requests) in
            Ret (fold_left (fun d a => if truthy a.(account_currency) then dict_set a.(account_currency) a d else d) (map account_from_api rows) []))%outcome).

(** The budget of all the groups of the currency, from the place [n] on. *)
Fixpoint unswept_budget (currency : string) (total : Q) (n : nat) (places : nat) : M Q :=
  match places with
  | O => ret total
  | Datatypes.S more =>
      let* g := group_at n in
      if negb (closed_coin_call currency g) then unswept_budget currency total (Datatypes.S n) more
      else
        let* unswept := on_group n _unswept_profit_native_for_sweep in
        unswept_budget currency (match positive unswept with Some q => total ⊕ q | None => total end) (Datatypes.S n) more
  end.

Definition _profit_sweep_wallet_unswept_budget (currency : string) : M Q :=
  let* s := read state in unswept_budget currency 0 0 (length s.(groups)).

Definition _covered_call_principal_reserve (currency : string) : Q :=
  let ccy := upper currency in
  if String.eqb ccy "BTC" then c.(collateral_spot_btc) else if String.eqb ccy "ETH" then c.(collateral_spot_eth) else 0.

(** What the account may sell of the coin without touching open cover. *)
Definition sellable_cap (s : StrategyState) (accounts : dict AccountSummary) (currency : string) : Q :=
  let free := _available_covered_call_quantity_from_summaries s accounts currency in
  if free <=? 0 then 0
  else
    let extra_floor := dmax 0 (_covered_call_principal_reserve currency ⊖ _reserved_covered_call_quantity s currency) in
    let loss_reserve := _covered_call_realized_loss_reserve s currency in
    if extra_floor >? 0 then dmax (free ⊖ extra_floor) 0 else dmax (free ⊖ loss_reserve) 0.

Definition _profit_sweep_sellable_native_cap (currency : string) (live : bool) : M Q :=
  let* rows := (if live then _account_summaries_by_currency else ret summaries) in
  let* s := read state in
  ret (sellable_cap s rows currency).

(** [(contract_size, min_trade_amount)] of a spot instrument, nothing where no list has it. Any failure of a list passes to the next. *)
Fixpoint spot_lot (name : string) (currencies : list string) : outcome (Q * Q) :=
  match currencies with
  | [] => Ret (0, 0)
  | currency :: rest =>
      match get_spot_instruments currency with
      | Ret rows => (let! found := named_spot name rows in
                     match found with Some i => Ret (i.(instrument_contract_size), i.(min_trade_amount)) | None => spot_lot name rest end)%outcome
      | Exn _ => spot_lot name rest
      | OutOfFuel => OutOfFuel
      end
  end.

Definition _spot_min_trade_amount (name currency : string) : M (Q * Q) := lift (spot_lot name ["USDT"; "USDC"; upper currency]).

Definition _profit_sweep_amount (n : nat) (live : bool) : M Q :=
  let* unswept := on_group n _unswept_profit_native_for_sweep in
  match positive unswept with
  | None => ret 0
  | Some unswept =>
      let* g := group_at n in
      let* wallet_budget := _profit_sweep_wallet_unswept_budget g.(currency) in
      if wallet_budget <=? 0 then ret 0
      else
        let target := dmin unswept wallet_budget in
        let* free_native := _profit_sweep_sellable_native_cap g.(currency) live in
        if free_native <=? 0 then ret 0
        else
          let target := dmin target free_native in
          let* lot := _spot_min_trade_amount (_covered_call_profit_sweep_instrument g.(currency)) g.(currency) in
          let aligned := align_option_order_amount target (fst lot) (snd lot) in
          ret (if aligned <=? 0 then 0 else dmin aligned unswept)
  end.

(** ** The order *)

(** [x or None] of a text *)
Definition or_none (s : string) : pyobj := if truthy s then PStr s else PNone.

Definition sweep_skipped (g : TradeGroup) (reason : string) (more : list (string * pyobj)) : action :=
  [("action", PStr "covered_call_profit_sweep_skipped"); ("group_id", PStr g.(group_id)); ("reason", PStr reason)] ++ more.

Definition _apply_profit_sweep_quote_proceeds (n : nat) (response : pyobj) (cumulative : bool) : M Q :=
  let* trades := _order_trades response in
  let* proceeds := lift (spot_sell_quote_proceeds_from_trades trades "USDT") in
  let* _ := (if proceeds >? 0 then
               edit_group n (fun g =>
                 let g := set_profit_sweep_quote_proceeds (if cumulative then g.(profit_sweep_quote_proceeds) ⊕ proceeds else proceeds) g in
                 record_profit_sweep_lifetime_proceeds g.(profit_sweep_quote_proceeds) g)
             else ret tt) in
  ret proceeds.

Definition swept_status (order_state : string) : string :=
  if String.eqb order_state "filled" then "filled" else if mem_str order_state ["cancelled"; "rejected"] then "failed" else "filled".

(** What an answered order leaves in the group. *)
Definition book_sweep (n : nat) (amount prior_swept : Q) (result p : payload) : M action :=
  let order_id := dget "order_id" result in
  let* _ := (if py_truthy order_id then edit_group n (set_profit_sweep_order_id (py_str order_id)) else ret tt) in
  let order_state := lower (str_or_default (dget "order_state" result) "") in
  let* _ := edit_group n (set_profit_sweep_status (swept_status order_state)) in
  let* proceeds := _apply_profit_sweep_quote_proceeds n (dget "response" result) (prior_swept >? 0) in
  let* _ := (if prior_swept >? 0 then edit_group n (set_profit_sweep_amount (prior_swept ⊕ amount)) else ret tt) in
  let* g := group_at n in
  let p := put "profit_sweep_order_id" (or_none g.(profit_sweep_order_id)) (put "profit_sweep_status" (PStr g.(profit_sweep_status)) p) in
  let* p := put_positive "profit_sweep_quote_proceeds" proceeds p in
  ret (put "response" (dget "response" result) p).

(** [f"{group.profit_sweep_reason or 'profit_sweep'}: {why}"] *)
Definition sweep_note (why : string) (g : TradeGroup) : TradeGroup :=
  set_profit_sweep_reason (str_or g.(profit_sweep_reason) "profit_sweep" ++ ": " ++ why)%string g.

Definition sweep_label (g : TradeGroup) : string := (label_prefix c ++ "-profit-sweep-" ++ lower g.(currency) ++ "-" ++ g.(group_id))%string.

(** The sale of an amount. The group is marked before the order is sent. *)
Definition place_sweep (n : nat) (amount : Q) (p : payload) : M action :=
  let* unswept_cap := on_group n _unswept_profit_native_for_sweep in
  let amount := match unswept_cap with Some cap => if amount >? cap then cap else amount | None => amount end in
  let* prior_swept := on_group n _prior_swept_profit_native in
  let* _ := edit_group n (fun g => set_profit_sweep_instrument_name (_covered_call_profit_sweep_instrument g.(currency))
                                     (set_profit_sweep_amount amount (set_profit_sweep_status "submitted" g))) in
  let* g := group_at n in
  let* result := caught (let* amount_text := lift (decimal_text amount 8) in
                         trade_spot c g.(currency) (Some amount_text) "USDT" (Some (_covered_call_profit_sweep_instrument g.(currency)))
                           c.(covered_call_spot_order_type) None false true (Some (sweep_label g))) in
  match result with
  | inr e =>
      let* _ := edit_group n (sweep_note ("submission_failed: " ++ error_text e)) in
      let* g := group_at n in
      ret (put "error" (PStr (error_text e)) (put "profit_sweep_status" (PStr g.(profit_sweep_status)) p))
  | inl result =>
      if String.eqb (payload_str "action" result) "trade_spot_skipped" then
        let skip_reason := str_or_default (dget "reason" result) "skipped" in
        let* _ := edit_group n (set_profit_sweep_status (if String.eqb skip_reason "slippage_exceeded" then "pending" else "skipped")) in
        let* _ := edit_group n (sweep_note skip_reason) in
        let* g := group_at n in
        ret (put "profit_sweep_status" (PStr g.(profit_sweep_status)) (put "slippage_limit_price" (dget "slippage_limit_price" result)
              (put "reference_mark_price" (dget "reference_mark_price" result) (put "reason" (PStr skip_reason)
                (put "action" (PStr "covered_call_profit_sweep_skipped") p)))))
      else book_sweep n amount prior_swept result p
  end.

Definition _execute_covered_call_profit_sweep (n : nat) (live : bool) : M action :=
  let* profit := on_group n _coin_profit_native_for_sweep in
  match positive profit with
  | None =>
      let* g := group_at n in
      let* _ := (if live && String.eqb g.(profit_sweep_status) "pending"
                 then edit_group n (fun g => set_profit_sweep_reason "no_realized_spot_profit" (set_profit_sweep_status "skipped" g)) else ret tt) in
      let* g := group_at n in
      ret (sweep_skipped g "no_realized_spot_profit" [("profit_sweep_status", or_none g.(profit_sweep_status)); ("live", PBool live)])
  | Some _ =>
      let* g := group_at n in
      let order := [("profit_sweep_status", PStr g.(profit_sweep_status)); ("profit_sweep_order_id", or_none g.(profit_sweep_order_id))] in
      if String.eqb g.(profit_sweep_status) "submitted" then ret (sweep_skipped g "already_submitted" order)
      else
        let* done := (if String.eqb g.(profit_sweep_status) "filled" then
                        let* unswept := on_group n _unswept_profit_native_for_sweep in ret (match positive unswept with Some _ => false | None => true end)
                      else ret false) in
        if done then ret (sweep_skipped g "already_filled" order)
        else
          let* amount := _profit_sweep_amount n live in
          let name := _covered_call_profit_sweep_instrument g.(currency) in
          if amount <=? 0 then
            let* _ := (if live && negb (String.eqb (lower g.(profit_sweep_status)) "pending") then edit_group n (set_profit_sweep_status "pending") else ret tt) in
            let* g := group_at n in
            let* amount_text := text8 amount in
            ret (sweep_skipped g "amount_below_min_or_unavailable" [("instrument_name", PStr name); ("amount", amount_text);
                   ("profit_sweep_status", or_none g.(profit_sweep_status)); ("live", PBool live)])
          else
            let* amount_text := text8 amount in
            let p := [("action", PStr (if live then "covered_call_profit_sweep" else "covered_call_profit_sweep_preview")); ("group_id", PStr g.(group_id));
                      ("reason", PStr (str_or g.(profit_sweep_reason) "profit_sweep")); ("instrument_name", PStr name); ("amount", amount_text);
                      ("order_type", PStr c.(covered_call_spot_order_type)); ("live", PBool live)] in
            if negb live then ret p else place_sweep n amount p
  end.

(** The pending sweeps, group by group; those whose fills could not be read wait. *)
Fixpoint pending_sweeps (unavailable : list string) (live : bool) (n : nat) (places : nat) : M (list action) :=
  match places with
  | O => ret []
  | Datatypes.S more =>
      let* g := group_at n in
      let* actions := (if String.eqb g.(status) "closed" && is_covered_call_group g && String.eqb g.(profit_sweep_status) "pending" then
                         if mem_str (upper g.(currency)) unavailable then
                           ret [sweep_skipped g "exchange_trades_unavailable" [("profit_sweep_status", or_none g.(profit_sweep_status)); ("live", PBool live)]]
                         else let* a := _execute_covered_call_profit_sweep n live in ret [a]
                       else ret []) in
      let* rest := pending_sweeps unavailable live (Datatypes.S n) more in
      ret (actions ++ rest)
  end.

(** Fills read later, for sweeps that were filled without their proceeds. *)
Fixpoint _reconcile_profit_sweep_quote_proceeds (n : nat) (places : nat) : M unit :=
  match places with
  | O => ret tt
  | Datatypes.S more =>
      let* g := group_at n in
      let order_id := strip g.(profit_sweep_order_id) in
      let* _ := (if negb (String.eqb g.(profit_sweep_status) "filled") || (g.(profit_sweep_quote_proceeds) >? 0) || is_empty order_id then ret tt
                 else
                   let* trades := caught (lift (get_user_trades_by_order order_id)) in
                   match trades with
                   | inr _ => ret tt
                   | inl trades =>
                       let* proceeds := lift (spot_sell_quote_proceeds_from_trades trades "USDT") in
                       if proceeds >? 0 then edit_group n (fun g => record_profit_sweep_lifetime_proceeds proceeds (set_profit_sweep_quote_proceeds proceeds g)) else ret tt
                   end) in
      _reconcile_profit_sweep_quote_proceeds (Datatypes.S n) more
  end.

(** ** Scheduling *)

Definition sweep_reasons : list string :=
  INCOME_EXIT_REASONS ++ ["covered_call_settlement_exit"; "covered_call_robust_spot_exit"; "reconciled_external"; "reconciled_expiry"].

Definition _maybe_schedule_profit_sweep (g : TradeGroup) (reason : string) (live : bool) : outcome TradeGroup :=
  let spot_status := lower g.(spot_exit_status) in
  if negb live then Ret g
  else if negb c.(covered_call_profit_sweep_enabled) then Ret g
  else if negb (String.eqb (desk_of c).(option_strategy) "covered_call") then Ret g
  else if negb (mem_str reason sweep_reasons) then Ret g
  else if negb (is_covered_call_group g) then Ret g
  else if mem_str spot_status ["pending"; "submitted"; "filled"] && (itm_spot_exit_premium_folded g || negb (String.eqb spot_status "filled")) then Ret g
  else
    (let! r := _coin_profit_native_for_sweep g in
     let '(g, native) := r in
     match native with
     | None => Ret g
     | Some native =>
         let status := lower g.(profit_sweep_status) in
         if String.eqb status "filled" then
           (let! r := _unswept_profit_native_for_sweep g in
            let '(g, unswept) := r in
            match positive unswept with
            | None => Ret g
            | Some unswept =>
                (let! r := _coin_profit_native_for_sweep g in
                 let '(g, native) := r in
                 let already := dmax (or_zero native ⊖ unswept) 0 in
                 let g := set_profit_sweep_reason reason (set_profit_sweep_status "pending" g) in
                 Ret (if already >? 0 then set_profit_sweep_amount already g else g))%outcome
            end)%outcome
         else if mem_str status ["pending"; "submitted"] then Ret g
         else Ret (set_profit_sweep_amount native (set_profit_sweep_reason reason (set_profit_sweep_status "pending" g)))
     end)%outcome.
End Sweep.
