(* ===== verification/SpotExit.v ===== *)
(** The sale of the cover an exercised call leaves ([engine/covered_call.py], the plan;
    [engine/execution.py], [_execute_covered_call_spot_exit]; [spot_exit_ops.py], the fills
    read back from the exchange). The group is reached by its place in the state. *)

From S2P Require Import Prelude Sorting Dec PyStr Utils Group Ledger PyObj GroupJson StateJson Market ExitEval VolMetrics EntryGates Runtime HedgeOrders Close GroupClose GroupExit DayState Portfolio Manage EntryConfig Scan Settlement Positions Reconcile SpotTrade Wheel Sweep.
Local Open Scope string_scope.
Local Open Scope Q_scope.
Local Open Scope dec_scope.
Local Open Scope bool_scope.
Local Open Scope run_scope.
Local Open Scope list_scope.

(** ** Fills ([spot_exit_ops.py]) *)

(** [trades[0].get("instrument_name") or ""] *)
Definition first_instrument (trades : list pyobj) : outcome string :=
  match trades with
  | [] => Ret ""
  | PDict d :: _ => Ret (str_or_default (dget "instrument_name" d) "")
  | _ :: _ => Exn AttributeError
  end.

Definition apply_spot_exit_quote_proceeds (g : TradeGroup) (trades : list pyobj) (cumulative : bool) : outcome (TradeGroup * Q) :=
  (let! name := first_instrument trades in
   let! proceeds := spot_sell_quote_proceeds_from_trades trades (spot_exit_quote_currency g name) in
   Ret (if proceeds <=? 0 then (g, 0)
        else
          let g := set_spot_exit_quote_proceeds (if cumulative then g.(spot_exit_quote_proceeds) ⊕ proceeds else proceeds) g in
          (record_spot_exit_lifetime_proceeds g.(spot_exit_quote_proceeds) g, proceeds)))%outcome.

(** The ids of trades are texts or integers. *)
Definition same_id (a b : pyobj) : bool :=
  match a, b with
  | PStr x, PStr y => String.eqb x y
  | PInt x, PInt y => (x =? y)%Z
  | _, _ => false
  end.

(** The sales among the trades whose ids were not seen, with the ids seen then; what was found before a row that is no dict is kept. *)
Fixpoint new_sales (seen : list pyobj) (trades : list pyobj) : list pyobj * list pyobj * bool :=
  match trades with
  | [] => ([], seen, true)
  | PDict d :: rest =>
      let trade_id := dget "trade_id" d in
      if existsb (same_id trade_id) seen then new_sales seen rest
      else
        let seen := match trade_id with PNone => seen | _ => trade_id :: seen end in
        let '(found, seen, fine) := new_sales seen rest in
        (if String.eqb (lower (str_or_default (dget "direction" d) "")) "sell" then PDict d :: found else found, seen, fine)
  | _ :: _ => ([], seen, false)
  end.

(** [list(batch.get("trades") or [])] *)
Definition batch_trades (batch : pyobj) : outcome (list pyobj) :=
  match batch with
  | PDict d => py_list (obj_or (dget "trades" d) (PList []))
  | _ => Exn AttributeError
  end.

Definition batch_flag (key : string) (batch : pyobj) : bool := match batch with PDict d => py_truthy (dget key d) | _ => false end.

(** [int(trades[-1].get("timestamp") or 0)] *)
Definition last_timestamp (trades : list pyobj) : outcome Z :=
  match last trades PNone with PDict d => int_or (dget "timestamp" d) 0 | _ => Exn AttributeError end.

Definition trade_text (key : string) (v : pyobj) : string := match v with PDict d => str_or_default (dget key d) "" | _ => "" end.
Definition trade_num (key : string) (v : pyobj) : Q := match v with PDict d => to_decimal (dget key d) 0 | _ => 0 end.

(** The trades by their id: a later one of an id takes the place of the earlier; those without an id are all kept. *)
Fixpoint put_trade (v : pyobj) (l : list pyobj) : list pyobj :=
  let id x := match x with PDict d => dget "trade_id" d | _ => PNone end in
  match l with
  | [] => [v]
  | x :: r => if same_id (id x) (id v) then v :: r else x :: put_trade v r
  end.

(** [int(row.get("timestamp") or 0)] of each, which may raise. *)
Fixpoint stamped (trades : list pyobj) : outcome (list (Z * pyobj)) :=
  match trades with
  | [] => Ret []
  | PDict d :: rest => (let! t := int_or (dget "timestamp" d) 0 in let! more := stamped rest in Ret ((t, PDict d) :: more))%outcome
  | _ :: _ => Exn AttributeError
  end.

Definition in_time (rows : list (Z * pyobj)) : list pyobj := map snd (stable_sort (fun x y => (fst x <? fst y)%Z) rows).

Section Exit.
Context {S : SpotDesk} {L : TransactionLog}.
Variable c : spot_config.
Variable summaries : dict AccountSummary.
(** How many pages of old trades are read at most. *)
Variable page_fuel : nat.

Let private : bool := c.(wheel).(scanning).(gated).(accounts).(has_private_credentials).

Definition spot_trades_now (q : spot_query) : M pyobj := fun w => (w, get_spot_trades w.(requests) q).

(** The pages of old sales, from a time on. *)
Fixpoint old_sales (fuel : nat) (currency : string) (seen : list pyobj) (cursor_ts : Z) : M (list pyobj) :=
  match fuel with
  | O => lift OutOfFuel
  | Datatypes.S f =>
      let* batch := attempt (spot_trades_now {| asked_currency := currency; asked_count := 1000; asked_ascending := true; asked_historical := true;
                                                asked_from := if (cursor_ts >? 0)%Z then Some cursor_ts else None |}) in
      match batch with
      | None => ret []
      | Some batch =>
          let* trades := lift (batch_trades batch) in
          match trades with
          | [] => ret []
          | _ =>
              let '(found, seen, fine) := new_sales seen trades in
              if negb fine then lift (Exn AttributeError)
              else if negb (batch_flag "has_more" batch) then ret found
              else
                let* last_ts := lift (last_timestamp trades) in
                if (last_ts <=? 0)%Z || (last_ts <=? cursor_ts)%Z then ret found
                else let* more := old_sales f currency seen (last_ts + 1) in ret (found ++ more)
          end
      end
  end.

Definition _iter_spot_sell_trades (currency : string) : M (list pyobj) :=
  let* recent := attempt (let* batch := spot_trades_now {| asked_currency := currency; asked_count := 1000; asked_ascending := false;
                                                           asked_historical := false; asked_from := None |} in
                          lift (batch_trades batch)) in
  let '(found, seen, _) := new_sales [] (match recent with Some l => l | None => [] end) in
  let* more := old_sales page_fuel currency seen 0 in
  ret (found ++ more).

Definition spot_exit_sell_trades_for_currency (currency : string) : M (list pyobj) :=
  let* sales := _iter_spot_sell_trades currency in
  ret (filter (fun v => is_spot_exit_label (trade_text "label" v)) sales).

(** The sales of an order and those under the label of a group. *)
Definition exit_fills (g : TradeGroup) : M (list pyobj) :=
  let short_label := strip g.(short_label) in
  let order_id := strip g.(spot_exit_order_id) in
  let* by_order := (if is_empty order_id then ret []
                    else
                      let* got := attempt (lift (get_user_trades_by_order order_id)) in
                      match got with
                      | None => ret []
                      | Some rows => if forallb (fun v => match v with PDict _ => true | _ => false end) rows
                                     then ret (filter (fun v => String.eqb (lower (trade_text "direction" v)) "sell") rows) else ret []
                      end) in
  if is_empty short_label then ret by_order
  else
    let* labelled := spot_exit_sell_trades_for_currency (upper g.(currency)) in
    ret (fold_left (fun l v => put_trade v l)
          (filter (fun v => String.eqb (trade_text "label" v) (spot_exit_order_label short_label)) labelled)
          (fold_left (fun l v => put_trade v l) by_order [])).

(** What the fills leave in the group. *)
Definition book_exit_fills (g : TradeGroup) (trades : list pyobj) : outcome TradeGroup :=
  let amount := dsum (map (trade_num "amount") trades) in
  let last_trade := last trades PNone in
  let last_order_id := strip (trade_text "order_id" last_trade) in
  let name := str_or (trade_text "instrument_name" last_trade) (upper g.(currency) ++ "_USDT")%string in
  (let! proceeds := spot_sell_quote_proceeds_from_trades trades (spot_exit_quote_currency g name) in
   let g := set_spot_exit_status (if mem_str (lower g.(spot_exit_status)) ["failed"; "submitted"; "pending"] then "pending" else "filled") g in
   let g := set_spot_exit_instrument_name name g in
   let g := if truthy last_order_id then set_spot_exit_order_id last_order_id g else g in
   let g := if amount >? 0 then set_spot_exit_amount amount g else g in
   let g := if proceeds >? 0 then record_spot_exit_lifetime_proceeds proceeds (set_spot_exit_quote_proceeds proceeds g) else g in
   Ret (if is_empty g.(spot_exit_reason) then set_spot_exit_reason "covered_call_settlement_exit" g else g))%outcome.

Definition reconcile_spot_exit_from_exchange (n : nat) : M bool :=
  let* g := group_at n in
  let status := lower g.(spot_exit_status) in
  if negb (is_covered_call_group g) then ret false
  else if negb (mem_str status ["filled"; "submitted"; "pending"; "failed"]) then ret false
  else
    let* _ := (if (g.(spot_exit_quote_proceeds) >? 0) && String.eqb status "filled"
               then edit_group n (record_spot_exit_lifetime_proceeds g.(spot_exit_quote_proceeds)) else ret tt) in
    let* trades := exit_fills g in
    match trades with
    | [] => if String.eqb status "failed" then let* _ := edit_group n (set_spot_exit_status "pending") in ret true else ret false
    | _ =>
        let* rows := lift (stamped trades) in
        let* _ := on_group n (fun g => (let! g := book_exit_fills g (in_time rows) in Ret (g, tt))%outcome) in
        ret true
    end.

Fixpoint reconcile_spot_exits (n : nat) (places : nat) : M unit :=
  match places with
  | O => ret tt
  | Datatypes.S more => let* _ := reconcile_spot_exit_from_exchange n in reconcile_spot_exits (Datatypes.S n) more
  end.

(** ** The plan ([engine/covered_call.py]) *)

Record exit_plan : Type := {
  exit_amount : Q;
  exit_cover : Q;
  exit_premium_available : Q;
  exit_settlement_loss : Q;
  exit_settlement_source : string;
  exit_already_filled : Q;
  exit_remaining : Q;
}.

Definition _spot_exit_index_price_usd (g : TradeGroup) : M Q :=
  if opt_pos g.(close_index_usd) then ret (or_zero g.(close_index_usd))
  else
    let* index := _currency_index_price g.(currency) in
    if index >? 0 then ret index
    else
      let* book := attempt (_get_orderbook g.(short_instrument_name)) in
      ret (match book with Some b => b.(index_price) | None => 0 end).

Definition _spot_exit_short_instrument (g : TradeGroup) : M (option OptionInstrument) :=
  let* markets := read markets_by_currency in
  match markets with [] => ret None | _ => attempt (_find_instrument g.(short_instrument_name)) end.

(** [covered_underlying_quantity if > 0 else quantity] *)
Definition cover_of (g : TradeGroup) : Q := if g.(covered_underlying_quantity) >? 0 then g.(covered_underlying_quantity) else g.(quantity).

Definition nothing_planned : exit_plan :=
  {| exit_amount := 0; exit_cover := 0; exit_premium_available := 0; exit_settlement_loss := 0; exit_settlement_source := "none";
     exit_already_filled := 0; exit_remaining := 0 |}.

(** What is left to sell of a cover once it has paid the settlement. *)
Definition remaining_structural (g : TradeGroup) (premium settlement_loss : Q) (source : string) : Q :=
  if spot_restore_blocks_exit_remainder g then 0
  else dmax (covered_call_spot_exit_target_native (cover_of g) settlement_loss source premium false ⊖ spot_exit_filled_native g) 0.

Definition account_of (rows : dict AccountSummary) (live : bool) (currency : string) : M (option AccountSummary) :=
  let given := dict_get currency rows in
  if live then let* fresh := _account_summaries_by_currency c in ret (match dict_get currency fresh with Some a => Some a | None => given end)
  else ret given.

Definition _plan_covered_call_spot_exit_fields (n : nat) (rows : dict AccountSummary) (live : bool) (reason : string) : M exit_plan :=
  let* g := group_at n in
  let cover := cover_of g in
  if cover <=? 0 then ret nothing_planned
  else
    let* index_price := _spot_exit_index_price_usd g in
    let* short_instrument := _spot_exit_short_instrument g in
    let '(settlement_loss, source) := resolve_covered_call_settlement_loss g index_price short_instrument true reason private in
    let* premium := on_group n (fun g => Ret (covered_call_spot_exit_premium_native g)) in
    let* g := group_at n in
    let already_filled := spot_exit_filled_native g in
    let remaining := remaining_structural g premium settlement_loss source in
    let planned amount := {| exit_amount := amount; exit_cover := cover; exit_premium_available := premium; exit_settlement_loss := settlement_loss;
                             exit_settlement_source := source; exit_already_filled := already_filled; exit_remaining := remaining |} in
    let* summary := account_of rows live g.(currency) in
    if match summary with Some a => spendable a <=? 0 | None => false end then ret (planned 0)
    else
      let target := match summary with Some a => dmin remaining (spendable a) | None => remaining end in
      let* lot := _spot_min_trade_amount (_covered_call_spot_instrument c.(wheel) g.(currency)) g.(currency) in
      let aligned := align_option_order_amount target (fst lot) (snd lot) in
      ret (planned (if (fst lot >? 0) || (snd lot >? 0) then aligned else target)).

(** Filled and failed exits with something left to sell are queued again; a plan that raises is passed over. *)
Fixpoint reschedule_incomplete_spot_exits (n : nat) (places : nat) : M Z :=
  match places with
  | O => ret 0%Z
  | Datatypes.S more =>
      let* g := group_at n in
      let* queued :=
        (if negb (String.eqb g.(status) "closed") || negb (is_covered_call_group g) then ret false
         else if spot_restore_blocks_exit_remainder g then ret false
         else if negb (mem_str (lower g.(spot_exit_status)) ["filled"; "failed"]) then ret false
         else
           let* plan := attempt (_plan_covered_call_spot_exit_fields n [] false (str_or g.(spot_exit_reason) "covered_call_settlement_exit")) in
           match plan with
           | None => ret false
           | Some plan =>
               if plan.(exit_amount) <=? 0 then ret false
               else
                 let* _ := edit_group n (fun g => let g := set_spot_exit_status "pending" g in
                                                  if is_empty g.(spot_exit_reason) then set_spot_exit_reason "covered_call_settlement_exit" g else g) in
                 ret true
           end) in
      let* rest := reschedule_incomplete_spot_exits (Datatypes.S n) more in
      ret ((if queued : bool then 1 else 0) + rest)%Z
  end.

(** ** The order ([engine/execution.py]) *)

Definition exit_skipped (g : TradeGroup) (reason : string) (more : list (string * pyobj)) : action :=
  [("action", PStr "covered_call_spot_exit_skipped"); ("group_id", PStr g.(group_id)); ("reason", PStr reason)] ++ more.

(** [self._maybe_schedule_profit_sweep(group, reason=reason or ..., live=True)] *)
Definition schedule_sweep_of (n : nat) (reason : string) : M unit :=
  on_group n (fun g => (let! g := _maybe_schedule_profit_sweep c g (str_or reason "covered_call_settlement_exit") true in Ret (g, tt))%outcome).

(** Nothing can be sold now: the exit is complete, waits, or is given up. *)
Definition nothing_to_sell (n : nat) (reason : string) (plan : exit_plan) (already_filled : Q) (live : bool) : M action :=
  let complete := (plan.(exit_remaining) <=? 0) && (already_filled >? 0) in
  let* g := group_at n in
  let* _ := (if negb live then ret tt
             else if complete then
               let* _ := edit_group n (fun g => set_spot_exit_reason reason (set_spot_exit_status "filled" g)) in schedule_sweep_of n reason
             else if (already_filled >? 0) || mem_str g.(spot_exit_status) ["pending"; "failed"] then
               edit_group n (fun g => set_spot_exit_reason reason (set_spot_exit_status "pending" g))
             else edit_group n (fun g => set_spot_exit_reason "spot_amount_below_min_or_unavailable" (set_spot_exit_status "skipped" g))) in
  let* g := group_at n in
  let* amount := text8 plan.(exit_amount) in
  let* already := text8 already_filled in
  let* remaining := text8 plan.(exit_remaining) in
  ret (exit_skipped g (if complete then "spot_exit_complete" else "spot_amount_below_min_or_unavailable")
        [("instrument_name", PStr (_covered_call_spot_instrument c.(wheel) g.(currency))); ("amount", amount); ("already_filled", already);
         ("remaining_structural", remaining); ("spot_exit_status", or_none g.(spot_exit_status)); ("live", PBool live)]).

Definition exit_payload (g : TradeGroup) (reason name : string) (plan : exit_plan) (already_filled : Q) (live : bool) : M payload :=
  let* amount := text8 plan.(exit_amount) in
  let* cover := text8 plan.(exit_cover) in
  let* premium := text8 0 in
  let* available := text8 plan.(exit_premium_available) in
  let* loss := text8 plan.(exit_settlement_loss) in
  let* already := text8 already_filled in
  let* remaining := text8 plan.(exit_remaining) in
  ret [("action", PStr (if live then "covered_call_spot_exit" else "covered_call_spot_exit_preview")); ("group_id", PStr g.(group_id));
       ("reason", PStr reason); ("instrument_name", PStr name); ("amount", amount); ("covered_underlying_quantity", cover); ("premium", premium);
       ("premium_available", available); ("include_premium", PBool false); ("settlement_loss", loss);
       ("settlement_loss_source", PStr plan.(exit_settlement_source)); ("already_filled", already); ("remaining_structural", remaining);
       ("order_type", PStr c.(covered_call_spot_order_type)); ("live", PBool live)].

(** The settlement the sale was sized by stays with the group, for the cover to be restored. *)
Definition keep_settlement (plan : exit_plan) (g : TradeGroup) : TradeGroup :=
  let g := set_spot_exit_settlement_loss (dmax plan.(exit_settlement_loss) 0) g in
  let source := strip plan.(exit_settlement_source) in
  if truthy source then set_spot_exit_settlement_loss_source source g else g.

(** Less than the exchange can sell counts as nothing left. *)
Definition remainder_after (name currency : string) (remaining filled : Q) : M Q :=
  let rest := dmax (remaining ⊖ filled) 0 in
  if rest >? 0 then
    let* lot := _spot_min_trade_amount name currency in
    ret (if align_option_order_amount rest (fst lot) (snd lot) <=? 0 then 0 else rest)
  else ret rest.

Definition exit_status_after (order_state : string) (filled amount rest : Q) : string :=
  if (String.eqb order_state "filled" || (filled >=? amount)) && (rest <=? 0) then "filled"
  else if mem_str order_state ["cancelled"; "rejected"; "filled"] || (filled >? 0) then "pending" else "submitted".

(** The fill of an order and what it brought, in the group. *)
Definition book_fill (n : nat) (already_filled filled : Q) (response : pyobj) (p : payload) : M payload :=
  if filled >? 0 then
    let* _ := edit_group n (set_spot_exit_amount (already_filled ⊕ filled)) in
    let* trades := _order_trades response in
    let* proceeds := on_group n (fun g => apply_spot_exit_quote_proceeds g trades (already_filled >? 0)) in
    if proceeds >? 0 then let* g := group_at n in let* t := text4 g.(spot_exit_quote_proceeds) in ret (put "spot_exit_quote_proceeds" t p)
    else ret p
  else ret p.

(** How the exit stands after its order; once the cover is sold, the premium may be swept. *)
Definition settle_exit (n : nat) (reason name currency order_state : string) (filled amount remaining : Q) : M unit :=
  let* rest := remainder_after name currency remaining filled in
  let after := exit_status_after order_state filled amount rest in
  let* _ := edit_group n (set_spot_exit_status after) in
  if String.eqb after "filled" then schedule_sweep_of n reason else ret tt.

(** What an answered order leaves in the group. *)
Definition book_exit (n : nat) (reason name : string) (amount already_filled remaining : Q) (protected p : payload) : M action :=
  let* _ := edit_group n (set_spot_exit_status "submitted") in
  let response := obj_or (dget "response" protected) (PDict []) in
  let p := put "order_type" (match dict_get "order_type" protected with Some v => v | None => PStr c.(covered_call_spot_order_type) end) p in
  let p := copy_if "slippage_limit_price" protected (copy_if "reference_mark_price" protected p) in
  let filled := _response_filled_amount response in
  let* _ := edit_group n (set_spot_exit_order_id (str_or_default (dget "order_id" (_response_order response)) "")) in
  let* p := book_fill n already_filled filled response p in
  let* g := group_at n in
  let* _ := settle_exit n reason name g.(currency) (order_state_of response) filled amount remaining in
  let* g := group_at n in
  let* filled_text := text8 filled in
  let* total_text := text8 g.(spot_exit_amount) in
  ret (put "response" response (put "spot_exit_amount_cumulative" total_text (put "filled_amount" filled_text
        (put "spot_exit_order_id" (or_none g.(spot_exit_order_id)) (put "spot_exit_status" (PStr g.(spot_exit_status)) p))))).

(** The order and what becomes of it. *)
Definition place_exit (n : nat) (reason name : string) (plan : exit_plan) (already_filled : Q) (p : payload) : M action :=
  let* _ := edit_group n (fun g => set_spot_exit_reason reason (set_spot_exit_instrument_name name g)) in
  let* g := group_at n in
  let label := (str_or g.(short_label) (spread_label (desk_of c) g "short") ++ "-spot-exit")%string in
  let* placed := caught (let* i := _lookup_spot_instrument name g.(currency) in
                         place_protected_spot_order i name "sell" plan.(exit_amount) label c.(covered_call_spot_order_type)
                           c.(covered_call_spot_max_slippage_pct) true) in
  match placed with
  | inr e =>
      let* _ := edit_group n (set_spot_exit_reason (reason ++ ": submission_uncertain: " ++ error_text e)) in
      let* g := group_at n in
      ret (put "error" (PStr (error_text e)) (put "spot_exit_status" (PStr g.(spot_exit_status)) p))
  | inl protected =>
      if py_truthy (dget "skipped" protected) then
        let skip_reason := str_or_default (dget "reason" protected) "skipped" in
        let after := if String.eqb skip_reason "slippage_exceeded" then "pending" else if already_filled >? 0 then "pending" else "skipped" in
        let* _ := edit_group n (fun g => set_spot_exit_status after (set_spot_exit_reason (reason ++ ": " ++ skip_reason) g)) in
        ret (put "spot_exit_status" (PStr after) (put "slippage_limit_price" (dget "slippage_limit_price" protected)
              (put "reference_mark_price" (dget "reference_mark_price" protected) (put "reason" (PStr skip_reason) p))))
      else book_exit n reason name plan.(exit_amount) already_filled plan.(exit_remaining) protected p
  end.

Definition _execute_covered_call_spot_exit (n : nat) (reason : string) (live : bool) : M action :=
  let* g := group_at n in
  let order := [("spot_exit_status", PStr g.(spot_exit_status)); ("spot_exit_order_id", or_none g.(spot_exit_order_id))] in
  if String.eqb g.(spot_exit_status) "submitted" then ret (exit_skipped g "already_submitted" order)
  else if String.eqb g.(spot_exit_status) "filled" then ret (exit_skipped g "already_filled" order)
  else if String.eqb g.(spot_exit_status) "skipped" then ret (exit_skipped g "already_skipped" order)
  else
    let name := _covered_call_spot_instrument c.(wheel) g.(currency) in
    let* plan := _plan_covered_call_spot_exit_fields n summaries live reason in
    let* g := group_at n in
    let already_filled := if plan.(exit_already_filled) =? 0 then spot_exit_filled_native g else plan.(exit_already_filled) in
    if plan.(exit_amount) <=? 0 then nothing_to_sell n reason plan already_filled live
    else
      let* p := exit_payload g reason name plan already_filled live in
      let* _ := edit_group n (keep_settlement plan) in
      if negb live then ret p else place_exit n reason name plan already_filled p.

(** ** A cycle *)

Fixpoint waiting_exits (live : bool) (n : nat) (places : nat) : M (list action) :=
  match places with
  | O => ret []
  | Datatypes.S more =>
      let* g := group_at n in
      let* actions := (if String.eqb g.(status) "closed" && is_covered_call_group g && mem_str g.(spot_exit_status) ["pending"; "failed"] then
                         let* a := _execute_covered_call_spot_exit n (str_or g.(spot_exit_reason) "covered_call_settlement_exit") live in ret [a]
                       else ret []) in
      let* rest := waiting_exits live (Datatypes.S n) more in
      ret (actions ++ rest)
  end.

(** The actions, and the account rows the cycle goes on with. *)
Definition _pending_covered_call_spot_exit_actions (live : bool) : M (list action * dict AccountSummary) :=
  if negb c.(wheel).(covered_call_spot_exit_enabled) then ret ([], summaries)
  else
    let* s := read state in
    let places := length s.(groups) in
    let* _ := (if live && private then
                 let* _ := reconcile_spot_exits 0 places in
                 let* _ := reschedule_incomplete_spot_exits 0 places in ret tt
               else ret tt) in
    let* actions := waiting_exits live 0 places in
    let* rows := (if live && truthy_list actions && private then
                    let* fresh := _account_summaries_by_currency c in ret (fold_left (fun d kv => dict_set (fst kv) (snd kv) d) fresh summaries)
                  else ret summaries) in
    ret (actions, rows).
End Exit.
