(* ===== verification/CoveredCall.v ===== *)
(** Managing a covered call ([engine/covered_call.py]): income exits while it is out of the
    money and away from its strike, and, where the account asks for it, buying the call
    back and selling its cover once it has been in the money for some cycles. Previews and
    messages are not modelled. *)

From S2P Require Import Prelude Dec PyStr Utils Fees Group Ledger PyObj GroupJson StateJson Market ExitEval VolMetrics EntryGates Runtime HedgeOrders Close GroupClose GroupExit DayState Portfolio Manage EntryConfig Scan Settlement Positions Reconcile SpotTrade Wheel Sweep SpotExit.
Local Open Scope string_scope.
Local Open Scope Q_scope.
Local Open Scope dec_scope.
Local Open Scope bool_scope.
Local Open Scope run_scope.
Local Open Scope list_scope.

Definition _COVERED_CALL_NEAR_STRIKE_OTM_PCT : Q := 0.03.
Definition _COVERED_CALL_NEAR_STRIKE_DELTA : Q := 0.20.
Definition _COVERED_CALL_RESIDUAL_TV_FEE_MULT : Q := 2.

(** Whether the next scan could not open another call; [trend_paused] is the pause of the
    strategy on a rising market. *)
Definition _covered_call_new_entry_blocked (pausing : bool) (trend_paused : string -> bool) (snapshot : PortfolioSnapshot) (g : TradeGroup) : bool :=
  let currency := upper g.(Group.currency) in
  let book := upper (str_or g.(Group.collateral_currency) currency) in
  let halted key d := truthy key && match dict_get key d with Some b => b | None => false end in
  if pausing then false
  else snapshot.(halt_new_entries) || snapshot.(portfolio_wide_entry_halt) || halted currency snapshot.(halt_new_entries_by_currency)
       || halted book snapshot.(halt_entries_by_book) || (truthy currency && trend_paused currency).

Section CoveredCall.
Context {S : SpotDesk} {L : TransactionLog}.
Variable c : spot_config.
Variable summaries : dict AccountSummary.
Variables (snapshot : PortfolioSnapshot) (trend_paused : string -> bool) (live : bool) (now_us : Z).

Let x : exit_config := c.(wheel).(scanning).(gated).(exits).
Let now_ms : Z := (now_us / 1000)%Z.

(** ** Where the index stands *)

Definition _covered_call_index_price (g : TradeGroup) : M Q :=
  let* index_price := _currency_index_price g.(Group.currency) in
  let* index_price := (if index_price <=? 0 then
                         let* book := attempt (_get_orderbook g.(short_instrument_name)) in ret (match book with Some b => b.(Market.index_price) | None => 0 end)
                       else ret index_price) in
  ret (if index_price >? 0 then index_price else 0).

Definition _covered_call_itm (g : TradeGroup) : M bool :=
  let* index_price := _covered_call_index_price g in
  ret (if (index_price <=? 0) || (g.(short_strike) <=? 0) then false else index_price >? call_trigger c.(wheel) g).

Definition _covered_call_near_strike (g : TradeGroup) : M bool :=
  let* index_price := _covered_call_index_price g in
  if (g.(short_strike) >? 0) && (index_price >? 0) && (index_price >=? g.(short_strike) ⊗ (1 ⊖ _COVERED_CALL_NEAR_STRIKE_OTM_PCT)) then ret true
  else
    let own := dabs g.(short_delta) in
    let* book := attempt (_get_orderbook g.(short_instrument_name)) in
    ret ((match book with Some b => dmax own (dabs b.(Market.delta)) | None => own end) >=? _COVERED_CALL_NEAR_STRIKE_DELTA).

(** ** What is left of the premium *)

(** [(quote currency, settlement currency, index)]; the first book that lists the short decides. *)
Definition _covered_call_fee_quote_settlement (g : TradeGroup) (b : OrderBookSnapshot) : M (string * string * Q) :=
  let* markets := read markets_by_currency in
  let idx := if b.(Market.index_price) >? 0 then b.(Market.index_price) else 1 in
  ret (match listed_under g.(short_instrument_name) markets with
       | Some i => (i.(quote_currency), i.(settlement_currency), idx)
       | None =>
           let quote := upper (str_or g.(Group.currency) "BTC") in
           (quote, upper (str_or g.(Group.collateral_currency) quote), idx)
       end).

(** The commission on the underlying: that of a premium of one, which no share of the premium caps. *)
Definition _covered_call_notional_close_fee (g : TradeGroup) (b : OrderBookSnapshot) : M Q :=
  let* terms := _covered_call_fee_quote_settlement g b in
  let '((quote, settlement), idx) := terms in
  ret (option_trade_fee_native idx 1 g.(Group.quantity) x.(desk).(option_fee_rate) x.(desk).(option_fee_cap_rate) quote settlement
         (_option_fee_discount_rate_at now_ms)).

Definition _covered_call_residual_tv_too_thin (g : TradeGroup) : M bool :=
  let* book := attempt (_get_orderbook g.(short_instrument_name)) in
  match book with
  | None => ret false
  | Some b =>
      if g.(Group.quantity) <=? 0 then ret false
      else
        let* close_fee := _covered_call_notional_close_fee g b in
        ret (if close_fee <=? 0 then false
             else ((b.(best_ask_price) >? 0) && (b.(best_ask_price) ⊗ g.(Group.quantity) <=? _COVERED_CALL_RESIDUAL_TV_FEE_MULT ⊗ close_fee))
                  || ((b.(best_bid_price) >? 0) && (b.(best_bid_price) ⊗ g.(Group.quantity) <=? close_fee)))
  end.

(** ** Exits *)

(** Scheduling never raises, so that the close of a group takes it as a function. *)
Definition swept_by (g : TradeGroup) (reason : string) : TradeGroup :=
  match _maybe_schedule_profit_sweep c g reason live with Ret g' => g' | _ => g end.

Definition confirm_cycles : Z :=
  match c.(covered_call_itm_confirm_cycles) with Some n => n | None => x.(desk).(engine).(defense_confirm_cycles) end.

(** Whether the call is to be bought back and its cover sold: enabled, near its expiry, and in the money for long enough. *)
Definition robust_exit_due (g : TradeGroup) : M bool :=
  if negb c.(wheel).(covered_call_spot_exit_enabled) || negb c.(wheel).(covered_call_robust_exit_enabled) || negb (is_covered_call_group g)
     || (group_dte_days g now_us >? c.(covered_call_robust_exit_dte)) then ret false
  else
    let* itm := _covered_call_itm g in
    ret (itm && negb (g.(itm_defense_streak) <? Z.max confirm_cycles 1)%Z).

(** The group at place [n] while it is managed. The sale follows only a complete close. *)
Definition robust_exit (n : nat) (g : TradeGroup) : M (TradeGroup * list action) :=
  let* closed := _close_group x.(desk) swept_by g "covered_call_robust_exit" live now_ms in
  let '(g, actions) := closed in
  let* _ := modify (put_group n g) in
  if negb live then
    let* a := _execute_covered_call_spot_exit c summaries n "covered_call_robust_exit_preview" false in
    let* g := group_at n in ret (g, actions ++ [a])
  else if negb (String.eqb g.(status) "closed") then ret (g, actions ++ [exit_skipped g "option_close_incomplete" []])
  else
    let* a := _execute_covered_call_spot_exit c summaries n "covered_call_robust_exit" true in
    let* g := group_at n in ret (g, actions ++ [a]).

Definition _maybe_covered_call_robust_spot_exit (n : nat) (g : TradeGroup) : M (option (TradeGroup * list action)) :=
  let* due := robust_exit_due g in
  if negb due then ret None else let* r := robust_exit n g in ret (Some r).

Definition covered_income_exits (g : TradeGroup) : M (TradeGroup * list action) :=
  let close reason := _close_group x.(desk) swept_by g reason live now_ms in
  let blocked := _covered_call_new_entry_blocked c.(wheel).(scanning).(gated).(pause_new_entries) trend_paused snapshot g in
  let* tp := (if blocked then ret false else _take_profit_triggered x g now_us) in
  if (tp : bool) then close "take_profit"
  else
    let* early := _maybe_early_exit_reason x g now_us in
    match (if blocked then None else early) with
    | Some reason => close reason
    | None =>
        let* timed := _time_exit_triggered x g now_us in
        if (timed : bool) then close "time_exit" else ret (g, [])
    end.

Definition _manage_covered_call_group (n : nat) (g : TradeGroup) : M (TradeGroup * list action) :=
  let* itm := _covered_call_itm g in
  let g := set_itm_defense_streak (if itm : bool then (g.(itm_defense_streak) + 1)%Z else 0%Z) g in
  if (itm : bool) then
    let* exited := _maybe_covered_call_robust_spot_exit n g in
    ret (match exited with Some r => r | None => (g, []) end)
  else
    let* near := _covered_call_near_strike g in
    if (near : bool) then ret (g, [])
    else
      let* thin := _covered_call_residual_tv_too_thin g in
      if (thin : bool) then ret (g, []) else covered_income_exits g.

(** The group at a place, as the cycle manages it. *)
Definition manage_covered_place (m : manage_config) (_manage_cash_secured_group : TradeGroup -> M (TradeGroup * list action)) (n : nat) : M (list action) :=
  manage_place m (_manage_covered_call_group n) _manage_cash_secured_group swept_by snapshot live now_us n.
End CoveredCall.
