(* ===== verification/SpotExitFacts.v ===== *)
(** What the sale of an exercised cover keeps to: over any number of attempts the coins
    sold never exceed the cover of the group. *)

From S2P Require Import Prelude Dec PyStr Utils Group Ledger PyObj GroupJson StateJson Market ExitEval Runtime HedgeOrders Close GroupClose DayState Portfolio Manage EntryConfig Settlement Positions Reconcile Triples Store EntryFacts ScanFacts ReconcileFacts SpotTrade SpotFacts Wheel Sweep SpotExit.
Local Open Scope string_scope.
Local Open Scope Q_scope.
Local Open Scope dec_scope.
Local Open Scope bool_scope.
Local Open Scope run_scope.
Local Open Scope list_scope.

(** ** What the ledger leaves alone *)

(** [h] reads nothing that the ledger or the sweep of a profit writes. *)
Definition unswept_by_ledger {T} (h : TradeGroup -> T) : Prop :=
  blind h /\ (forall v g, h (set_realized_pnl v g) = h g) /\ (forall v g, h (set_realized_pnl_collateral_native v g) = h g) /\
  (forall v g, h (set_profit_sweep_status v g) = h g) /\ (forall v g, h (set_profit_sweep_reason v g) = h g) /\
  (forall v g, h (set_profit_sweep_amount v g) = h g).

Section Kept.
Context {T : Type} (h : TradeGroup -> T) (U : unswept_by_ledger h).

Let B : blind h := proj1 U.

Lemma realized_kept g : h (fst (realized_spot_profit_native_for_group g)) = h g.
Proof.
  unfold realized_spot_profit_native_for_group. destruct (_ || _ || _); [reflexivity|].
  pose proof (coin_profit_blind h B g false) as P. destruct (compute_coin_profit_native g false) as [g1 [n|]]; cbn [fst] in *; [exact P|].
  destruct (opt_pos g1.(close_index_usd)); [|exact P].
  pose proof (coin_profit_blind h B g1 true) as P1. destruct (compute_coin_profit_native g1 true). cbn [fst] in *. congruence.
Qed.

Lemma backfill_some g native spot g' : backfill_realized_pnl_usdc (set_realized_pnl_collateral_native (Some native) g) spot = Ret g' -> h g' = h g.
Proof.
  destruct (proj2 U) as (P & N & _). unfold backfill_realized_pnl_usdc, backfill_fuel. cbn [backfill_realized_pnl_usdc_fuel].
  destruct (negb _); [intros E; apply Ret_inj in E; subst g'; apply N|]. destruct (is_coin_collateral _).
  - cbn [realized_pnl_collateral_native set_realized_pnl_collateral_native]. destruct (usable_spot spot); intros E; apply Ret_inj in E; subst g'; rewrite ?P; apply N.
  - destruct (economic_close_debit_usdc _); intros E; apply Ret_inj in E; subst g'; rewrite ?P; apply N.
Qed.

Lemma profit_kept g g' r : _coin_profit_native_for_sweep g = Ret (g', r) -> h g' = h g.
Proof.
  unfold _coin_profit_native_for_sweep. pose proof (realized_kept g) as K. destruct (realized_spot_profit_native_for_group g) as [g1 [n|]]; cbn [fst] in K.
  - intros E. apply obind_inv in E. destruct E as (g2 & E2 & E). apply Ret_inj in E. apply pair_equal_spec in E. destruct E as [<- _].
    destruct (opt_pos _); [apply backfill_some in E2; congruence|]. apply Ret_inj in E2. subst g2. destruct (proj2 U) as (_ & N & _). rewrite N. exact K.
  - intros E. apply Ret_inj in E. apply pair_equal_spec in E. destruct E as [<- _]. exact K.
Qed.

Lemma remaining_kept g : h (fst (remaining_spot_profit_native g)) = h g.
Proof. unfold remaining_spot_profit_native. pose proof (realized_kept g) as K. destruct (realized_spot_profit_native_for_group g). exact K. Qed.

Lemma unswept_kept g g' r : _unswept_profit_native_for_sweep g = Ret (g', r) -> h g' = h g.
Proof.
  unfold _unswept_profit_native_for_sweep. intros E. apply obind_inv in E. destruct E as ([g1 native] & E1 & E). apply profit_kept in E1. rewrite <- E1.
  apply Ret_inj in E. destruct (positive native); [|apply pair_equal_spec in E; destruct E as [<- _]; reflexivity]. cbv zeta in E.
  destruct (String.eqb _ "filled").
  - pose proof (remaining_kept g1) as K. destruct (remaining_spot_profit_native g1). apply pair_equal_spec in E. destruct E as [<- _]. exact K.
  - destruct (_ && _ && _); apply pair_equal_spec in E; destruct E as [<- _]; reflexivity.
Qed.

Lemma schedule_kept c g reason live g' : _maybe_schedule_profit_sweep c g reason live = Ret g' -> h g' = h g.
Proof.
  destruct (proj2 U) as (_ & _ & S1 & S2 & S3). unfold _maybe_schedule_profit_sweep. cbv zeta.
  do 6 (match goal with |- (if ?b then _ else _) = _ -> _ => destruct b end; [intros E; apply Ret_inj in E; now subst|]).
  intros E. apply obind_inv in E. destruct E as ([g1 native] & E1 & E). apply profit_kept in E1. rewrite <- E1. destruct native as [native|]; [|apply Ret_inj in E; now subst].
  destruct (String.eqb _ "filled").
  - apply obind_inv in E. destruct E as ([g2 unswept] & E2 & E). apply unswept_kept in E2. rewrite <- E2.
    destruct (positive unswept); [|apply Ret_inj in E; now subst]. apply obind_inv in E. destruct E as ([g3 native3] & E3 & E). apply profit_kept in E3. rewrite <- E3.
    apply Ret_inj in E. subst g'. destruct (_ >? _); rewrite ?S3, S2, S1; reflexivity.
  - destruct (mem_str _ _); apply Ret_inj in E; subst g'; rewrite ?S3, ?S2, ?S1; reflexivity.
Qed.

Lemma premium_kept g : h (fst (covered_call_spot_exit_premium_native g)) = h g.
Proof.
  unfold covered_call_spot_exit_premium_native, entry_net_credit_collateral. destruct (String.eqb _ "USDC"); [reflexivity|].
  pose proof (entry_amount_blind h B g) as E. destruct (entry_amount_native g) as [g1 gross]. cbn [fst] in E.
  destruct gross, (resolved_entry_fee_collateral g1); try exact E; destruct (_ <=? 0); exact E.
Qed.
End Kept.

(** ** Sizes *)

(** The lots of the exchange are whole units, where it tells any. *)
Definition lot_on_units (lot : Q * Q) : Prop :=
  let step := order_amount_step (fst lot) (snd lot) in step <= 0 \/ exists s, (0 < s)%Z /\ step == gval units s.

Lemma floor_below x y s : 0 <= x -> x <= y -> on_units y -> (0 < s)%Z -> floor_to_step x (gval units s) <= y.
Proof.
  intros X L (v & Bv & Ey) Ps. pose proof (val_pos units s Ps) as P.
  assert (M : floor_to_step x (gval units s) <= floor_to_step y (gval units s)).
  { unfold floor_to_step. destruct (dleb_spec (gval units s) 0); [lra|]. cbv zeta. apply dmul_mono_l; [lra|]. unfold to_integral_down.
    rewrite <- Zle_Qle. apply trunc_mono; [apply ddiv_nonneg; lra | apply ddiv_mono_l; lra]. }
  pose proof (floor_to_step_val units v s y (gval units s) Ey (Qeq_refl _) Bv Ps) as F.
  destruct (floor_multiple_le v s Ps (proj1 Bv)) as (_ & Fb & _). rewrite F in M. eapply Qle_trans; [exact M|]. rewrite Ey. apply val_le. lia.
Qed.

(** What is aligned to lots stays below every whole number of units that was not below what is asked. *)
Lemma aligned_below x y lot : lot_on_units lot -> 0 <= x -> x <= y -> on_units y -> align_option_order_amount x (fst lot) (snd lot) <= y.
Proof.
  intros Ls X L U. assert (Y : 0 <= y) by lra. unfold align_option_order_amount. destruct Ls as [Z0|(s & Ps & Es)].
  - destruct (dleb_spec (order_amount_step (fst lot) (snd lot)) 0); [|contradiction]. destruct (0 <? x); assumption.
  - pose proof (val_pos units s Ps). destruct (dleb_spec (order_amount_step (fst lot) (snd lot)) 0) as [C|_]; [rewrite Es in C; lra|]. cbv zeta.
    destruct (_ <=? 0); [exact Y|]. destruct (_ && _); [exact Y | rewrite Es; now apply floor_below].
Qed.

(** What is left to sell fits in the cover. *)
Lemma target_below cover loss source premium : on_units cover -> covered_call_spot_exit_target_native cover loss source premium false <= cover \/ cover <= 0.
Proof.
  intros U. unfold covered_call_spot_exit_target_native. destruct (dleb_spec cover 0) as [|P]; [now right|]. left. apply Qnot_le_lt in P.
  destruct (String.eqb _ _); [apply Qle_refl|]. cbv zeta. destruct U as (z & Bz & Ez).
  assert (R : representable cover) by (exists z, units; split; [now apply grid_prec | exact Ez]).
  apply dmax_lub; [|lra]. apply rnd_le_bound; [exact R|]. rewrite (dadd_0_r _ R). pose proof (dmax_r loss 0). lra.
Qed.

Lemma remaining_below g premium loss source : on_units (cover_of g) -> on_units (spot_exit_filled_native g) -> 0 < cover_of g ->
  let rest := remaining_structural g premium loss source in
  0 <= rest /\ (0 < rest -> spot_exit_filled_native g <= cover_of g /\ rest <= cover_of g - spot_exit_filled_native g).
Proof.
  intros Uc Uf P rest. unfold rest, remaining_structural. destruct (spot_restore_blocks_exit_remainder g); [split; [lra|intros C; lra]|].
  split; [apply dmax_r|]. set (t := covered_call_spot_exit_target_native _ _ _ _ _). assert (T : t <= cover_of g) by (destruct (target_below (cover_of g) loss source premium Uc); [assumption | lra]).
  intros Pr. destruct (dmax_cases (t ⊖ spot_exit_filled_native g) 0) as [[E _]|[E _]]; rewrite E in Pr |- *; [|lra].
  assert (L : spot_exit_filled_native g < t) by (apply Qnot_le_lt; intros C; pose proof (dsub_nonpos _ _ C); lra).
  split; [lra|]. destruct (grid_sub units _ _ Uc Uf) as [_ <-]; [lra|]. apply dsub_mono; [exact T | lra].
Qed.

(** ** A group and the requests sent *)

(** What a group tells of the sale of its cover. *)
Record sale : Type := { its_cover : Q; its_status : string; its_amount : Q; its_quote : Q; its_lifetime : Q }.

Definition sale_of (g : TradeGroup) : sale :=
  {| its_cover := cover_of g; its_status := g.(spot_exit_status); its_amount := g.(spot_exit_amount);
     its_quote := g.(spot_exit_quote_proceeds); its_lifetime := g.(spot_exit_quote_proceeds_lifetime) |}.

Definition with_status (status : string) (s : sale) : sale :=
  {| its_cover := s.(its_cover); its_status := status; its_amount := s.(its_amount); its_quote := s.(its_quote); its_lifetime := s.(its_lifetime) |}.

(** What is recorded as sold, where that brought something. *)
Definition brought (s : sale) : Q :=
  if (s.(its_quote) >? 0) || (s.(its_lifetime) >? 0) then (if s.(its_amount) >? 0 then s.(its_amount) else 0) else 0.

(** [spot_exit_filled_native] *)
Definition filled_of (s : sale) : Q :=
  let status := lower s.(its_status) in
  if negb (mem_str status ["filled"; "pending"; "submitted"; "failed"]) then 0
  else if String.eqb status "filled" then (if s.(its_amount) >? 0 then s.(its_amount) else 0)
  else brought s.

Lemma filled_is g : spot_exit_filled_native g = filled_of (sale_of g).
Proof.
  unfold spot_exit_filled_native, filled_of, brought, sale_of. cbn [its_status its_amount its_quote its_lifetime].
  destruct (mem_str _ _); [|reflexivity]. cbn [negb]. destruct (String.eqb _ _); [reflexivity|]. now destruct (_ || _).
Qed.

Lemma sale_kept : unswept_by_ledger sale_of.
Proof. repeat split. Qed.

Section Cell.
Variable n : nat.

Definition cell (s : sale) (h : list request) (w : runtime) : Prop :=
  exists g, nth_error w.(state).(groups) n = Some g /\ sale_of g = s /\ w.(requests) = h.

Lemma cell_looks {A} (m : M A) s h : looks m -> stable (cell s h) m.
Proof. intros L w (g & N & S & R). destruct (L w) as [Es Er]. exists g. rewrite Es, Er. auto. Qed.

Lemma cell_look {A} (m : M A) s h (P : A -> runtime -> Prop) (E : runtime -> Prop) : looks m -> (forall a w, cell s h w -> P a w) -> (forall w, cell s h w -> E w) ->
  triple (cell s h) m P E.
Proof. intros L HP HE w C. pose proof (cell_looks m s h L w C) as K. destruct (snd (m w)); auto. Qed.

Lemma cell_group s h E : triple (cell s h) (group_at n) (fun g w => cell s h w /\ sale_of g = s) E.
Proof. intros w (g & N & S & R). unfold group_at, bind, read. cbn. rewrite N. cbn. split; [exists g; auto | exact S]. Qed.

Lemma cell_put g' s s' h w : sale_of g' = s' -> cell s h w -> cell s' h (put_group n g' w).
Proof. intros K (g & N & _ & R). exists g'. cbn. rewrite replace_same, N. auto. Qed.

Lemma cell_edit f s s' h (E : runtime -> Prop) : (forall g, sale_of g = s -> sale_of (f g) = s') -> triple (cell s h) (edit_group n f) (fun _ => cell s' h) E.
Proof.
  intros K w C. pose proof C as (g & N & S & R). unfold edit_group, group_at, bind, read, modify. cbn. rewrite N. cbn.
  apply (cell_put _ s); [now apply K | exact C].
Qed.

Lemma cell_on {A} (f : TradeGroup -> outcome (TradeGroup * A)) s h (P : A -> sale -> Prop) (E : runtime -> Prop) :
  (forall g g' a, sale_of g = s -> f g = Ret (g', a) -> P a (sale_of g')) -> (forall w, cell s h w -> E w) ->
  triple (cell s h) (on_group n f) (fun a w => exists s', cell s' h w /\ P a s') E.
Proof.
  intros K HE w C. pose proof C as (g & N & S & R). unfold on_group, group_at, bind, read, modify, lift. cbn. rewrite N. cbn.
  destruct (f g) as [[g' a]|e|] eqn:F; cbn; [|now apply HE..]. exists (sale_of g'). split; [|now apply (K g g' a)].
  apply (cell_put _ s); [reflexivity | exact C].
Qed.

(** A change that leaves the sale alone. *)
Lemma cell_on_kept {A} (f : TradeGroup -> outcome (TradeGroup * A)) s h (E : runtime -> Prop) :
  (forall g g' a, f g = Ret (g', a) -> sale_of g' = sale_of g) -> (forall w, cell s h w -> E w) ->
  triple (cell s h) (on_group n f) (fun _ w => cell s h w) E.
Proof.
  intros K HE. eapply triple_weaken; [apply (cell_on f s h (fun _ s' => s' = s) E); [|exact HE] | auto | intros a w (s' & C & ->); exact C | auto].
  intros g g' a S F. rewrite (K g g' a F). exact S.
Qed.
End Cell.

Lemma triple_caught {A} (m : M A) I (P : A -> runtime -> Prop) (E F : runtime -> Prop) : triple I m P E -> (forall w, E w -> F w) ->
  triple I (caught m) (fun x w => match x with inl a => P a w | inr _ => E w end) F.
Proof. intros H K w HI. specialize (H w HI). unfold caught. destruct (m w) as [w' [a|e|]]; cbn in *; auto. Qed.

(** ** What the exchange told of its orders *)

Definition filled_by `{Exchange} (h : list request) (r : request) : Q :=
  match r with PlaceOrder _ => match reply h r with Ret v => _response_filled_amount v | _ => 0 end | _ => 0 end.

(** All that the orders of a log filled, as their answers tell. *)
Fixpoint told `{Exchange} (l : list request) : Q := match l with [] => 0 | r :: h => filled_by h r + told h end.

(** An order fills whole units and at most its amount, tells a price that can be printed,
    and a sale that filled tells of trades that brought something; lots are whole units. *)
Record sales_honest `{SpotDesk} : Prop := {
  sale_fills : forall h o v, 0 < o.(req_amount) -> reply h (PlaceOrder o) = Ret v -> fills_within units o.(req_amount) v;
  sale_priced : forall h o v d, reply h (PlaceOrder o) = Ret v -> order_of_response v = Some d ->
    exists t, decimal_text (to_decimal (dget "average_price" d) 0) 4 = Ret t;
  sale_paid : forall h o v w w' trades quote p, reply h (PlaceOrder o) = Ret v -> 0 < _response_filled_amount v ->
    _order_trades v w = (w', Ret trades) -> spot_sell_quote_proceeds_from_trades trades quote = Ret p -> 0 < p;
  lots_whole : forall name currencies lot, spot_lot name currencies = Ret lot -> lot_on_units lot;
}.

Section Sale.
Context {S : SpotDesk} {L : TransactionLog}.
Variables (c : spot_config) (summaries : dict AccountSummary) (n : nat).
Hypothesis Honest : sales_honest.

Lemma dget_put k key v p : dget k (put key v p) = if String.eqb k key then v else dget k p.
Proof.
  unfold put. induction p as [|[k0 v0] r IH]; cbn [dict_set dget]; [reflexivity|]. destruct (String.eqb_spec key k0) as [<-|N]; cbn [dget].
  - now destruct (String.eqb k key).
  - destruct (String.eqb_spec k k0) as [->|]; [now destruct (String.eqb_spec k0 key); [congruence|] | exact IH].
Qed.

Lemma steady_looks {A} (m : M A) : steady m -> looks m.
Proof. intros H w. now rewrite H. Qed.

(** A step that only looks keeps the cell. *)
Lemma cell_step {A B} (m : M A) (k : A -> M B) s h P (E : runtime -> Prop) : looks m -> (forall w, cell n s h w -> E w) ->
  (forall a, triple (cell n s h) (k a) P E) -> triple (cell n s h) (bind m k) P E.
Proof. intros Lm HE Hk. apply triple_step; [now apply cell_looks | exact HE | exact Hk]. Qed.

Lemma cell_put_positive k key q p s h (E : runtime -> Prop) : k <> key -> (forall w, cell n s h w -> E w) ->
  triple (cell n s h) (put_positive key q p) (fun p' w => cell n s h w /\ dget k p' = dget k p) E.
Proof.
  intros N HE. unfold put_positive. destruct (q >? 0); [|apply triple_ret; auto].
  apply cell_step; [apply steady_looks, steady_text4 | exact HE|]. intros t. apply triple_ret. intros w C. split; [exact C|].
  rewrite dget_put. now destruct (String.eqb_spec k key).
Qed.

Lemma cell_put_opt k key q p s h (E : runtime -> Prop) : k <> key -> (forall w, cell n s h w -> E w) ->
  triple (cell n s h) (put_positive_opt key q p) (fun p' w => cell n s h w /\ dget k p' = dget k p) E.
Proof. intros N HE. destruct q; [now apply cell_put_positive | apply triple_ret; auto]. Qed.

(** Nothing more was sold, as far as the exchange told. *)
Definition unsold (s : sale) (h : list request) (w : runtime) : Prop := exists more, cell n s (more ++ h) w /\ told (more ++ h) == told h.

Lemma unsold_cell s h w : cell n s h w -> unsold s h w.
Proof. intros C. exists []. split; [exact C | reflexivity]. Qed.

(** What a sale that was sent and answered, or skipped, returns. *)
Definition sold_order (s : sale) (h : list request) (amount : Q) (p : payload) (w : runtime) : Prop :=
  (cell n s h w /\ py_truthy (dget "skipped" p) = true) \/
  (exists o v, o.(req_amount) = amount /\ reply h (PlaceOrder o) = Ret v /\ dget "response" p = v /\ dget "skipped" p = PNone /\
               cell n s (PlaceOrder o :: h) w).

Lemma placed_sold s h amount o p : o.(req_amount) = amount -> dget "skipped" p = PNone ->
  triple (cell n s h) (let* response := send (PlaceOrder o) in placed_order response p) (sold_order s h amount) (unsold s h).
Proof.
  intros Ea Np. eapply triple_bind with (R := fun v w => cell n s (PlaceOrder o :: h) w /\ reply h (PlaceOrder o) = Ret v).
  - intros w (g & N & K & R). cbn. rewrite R. destruct (reply h (PlaceOrder o)) as [v|e|] eqn:Er.
    + split; [exists g; cbn; rewrite R; auto | reflexivity].
    + exists [PlaceOrder o]. split; [exists g; cbn; rewrite R; auto | cbn [app told filled_by]; rewrite Er; ring].
    + exists [PlaceOrder o]. split; [exists g; cbn; rewrite R; auto | cbn [app told filled_by]; rewrite Er; ring].
  - intros v. intros w [C Er]. unfold placed_order.
    assert (Sk : dget "skipped" (put "response" v p) = PNone) by (now rewrite dget_put). assert (Re : dget "response" (put "response" v p) = v) by (now rewrite dget_put).
    destruct (order_of_response v) as [d|] eqn:Od.
    + set (q := put "order_state" (dget "order_state" d) (put "order_id" (dget "order_id" d) (put "response" v p))).
      assert (Sq : dget "skipped" q = PNone) by (unfold q; now rewrite !dget_put). assert (Rq : dget "response" q = v) by (unfold q; now rewrite !dget_put).
      destruct (sale_priced Honest _ _ _ _ Er Od) as [t Et]. unfold put_positive. destruct (_ >? 0).
      * unfold text4, bind, lift. rewrite Et. cbn. right. exists o, v. rewrite !dget_put. cbn [String.eqb Ascii.eqb Bool.eqb andb]. auto 10.
      * cbn. right. exists o, v. auto 10.
    + cbn. right. exists o, v. auto 10.
Qed.

Lemma protected_sold i name amount label order_type slippage s h :
  triple (cell n s h) (place_protected_spot_order i name "sell" amount label order_type slippage true) (sold_order s h amount) (unsold s h).
Proof.
  unfold place_protected_spot_order. pose proof (unsold_cell s h) as U.
  apply cell_step; [apply steady_looks, steady_book | exact U|]. intros b. cbv zeta. set (plan := resolve_protected_spot_order _ _ _ _ _).
  do 2 (apply cell_step; [apply steady_looks, steady_text8 | exact U|]; intros ?).
  eapply triple_bind; [apply (cell_put_opt "skipped"); [discriminate | exact U]|]. intros p1. apply triple_fact. intros E1. cbn in E1.
  eapply triple_bind; [apply (cell_put_opt "skipped"); [discriminate | exact U]|]. intros p2. apply triple_fact. intros E2. rewrite E1 in E2.
  eapply triple_bind; [apply (cell_put_positive "skipped"); [discriminate | exact U]|]. intros p3. apply triple_fact. intros E3. rewrite E2 in E3.
  eapply triple_bind; [apply (cell_put_positive "skipped"); [discriminate | exact U]|]. intros p4. apply triple_fact. intros E4. rewrite E3 in E4.
  assert (Sk : forall reason s h amount w, cell n s h w -> sold_order s h amount (put "reason" reason (put "skipped" (PBool true) p4)) w).
  { intros reason s' h' amount' w C. left. split; [exact C|]. now rewrite !dget_put. }
  destruct (skip_reason plan) as [reason|]; [apply triple_ret; intros w C; now apply Sk|]. cbn [negb].
  destruct (_ && _); [apply triple_ret; intros w C; now apply Sk|]. now apply placed_sold.
Qed.

(** ** The plan *)

Lemma looks_accounts : looks (_account_summaries_by_currency c).
Proof. intros w. split; reflexivity. Qed.

#[local] Hint Resolve looks_index looks_orderbook looks_instrument looks_accounts : looking.

Lemma looks_account_of rows live currency : looks (account_of c rows live currency).
Proof. unfold account_of. destruct live; look. Qed.

Lemma looks_exit_index g : looks (_spot_exit_index_price_usd g).
Proof. unfold _spot_exit_index_price_usd. look. Qed.

Lemma looks_exit_instrument g : looks (_spot_exit_short_instrument g).
Proof. unfold _spot_exit_short_instrument. look. Qed.

(** The amount planned fits in what the cover has left. *)
Definition planned_within (s : sale) (plan : exit_plan) : Prop :=
  (plan.(exit_already_filled) = filled_of s \/ plan.(exit_already_filled) = 0) /\
  (0 < plan.(exit_amount) -> filled_of s <= s.(its_cover) /\ plan.(exit_amount) <= s.(its_cover) - filled_of s).

Lemma cell_plan s h rows live reason : on_units s.(its_cover) -> on_units (filled_of s) ->
  triple (cell n s h) (_plan_covered_call_spot_exit_fields c n rows live reason) (fun plan w => cell n s h w /\ planned_within s plan) (cell n s h).
Proof.
  intros Uc Uf. unfold _plan_covered_call_spot_exit_fields. eapply triple_bind; [apply cell_group|]. intros g. apply triple_fact. intros Sg. cbv zeta.
  assert (Cg : forall g, sale_of g = s -> cover_of g = s.(its_cover)) by (intros g' <-; reflexivity).
  assert (Fg : forall g, sale_of g = s -> spot_exit_filled_native g = filled_of s) by (intros g' <-; apply filled_is).
  destruct (dleb_spec (cover_of g) 0) as [|P]; [apply triple_ret; intros w K; split; [exact K|]; split; [now right | cbn; intros X; lra]|].
  apply Qnot_le_lt in P. apply cell_step; [apply looks_exit_index | auto|]. intros index. apply cell_step; [apply looks_exit_instrument | auto|]. intros short.
  destruct (resolve_covered_call_settlement_loss _ _ _ _ _ _) as [loss source].
  eapply triple_bind; [apply cell_on_kept|].
  { intros x x' a E. apply Ret_inj in E. pose proof (premium_kept sale_of sale_kept x) as K. now rewrite E in K. }
  { auto. }
  intros premium. eapply triple_bind; [apply cell_group|]. intros g1. apply triple_fact. intros S1.
  pose proof (remaining_below g1 premium loss source) as R. rewrite (Cg g1 S1), (Fg g1 S1) in R. rewrite (Cg g Sg) in P. specialize (R Uc Uf P). cbv zeta in R.
  set (rest := remaining_structural g1 premium loss source) in *. destruct R as [R0 R].
  apply cell_step; [apply looks_account_of | auto|]. intros summary.
  destruct (match summary with Some a => spendable a <=? 0 | None => false end) eqn:Sp; [apply triple_ret; intros w K; split; [exact K|]; split; [left; cbn; auto | cbn; intros X; lra]|].
  set (target := match summary with Some a => dmin rest (spendable a) | None => rest end).
  assert (T : 0 <= target /\ target <= rest).
  { unfold target. destruct summary as [a|]; [|lra]. apply dleb_false in Sp. split; [apply dmin_glb; lra | apply dmin_l]. }
  eapply triple_bind with (R := fun lot w => cell n s h w /\ lot_on_units lot).
  { apply triple_lift; [|auto]. intros lot w E K. split; [exact K | exact (lots_whole Honest _ _ _ E)]. }
  intros lot. apply triple_fact. intros Lot. apply triple_ret. intros w K. split; [exact K|]. split; [left; cbn; auto|]. cbn [exit_amount]. intros Pa.
  assert (Bound : forall y, on_units y -> rest <= y -> (if (fst lot >? 0) || (snd lot >? 0) then align_option_order_amount target (fst lot) (snd lot) else target) <= y).
  { intros y Uy Ly. destruct (_ || _); [apply aligned_below; [exact Lot | tauto | lra | exact Uy] | lra]. }
  assert (Pr : 0 < rest).
  { apply Qnot_le_lt. intros Z0. pose proof (Bound 0 (grid_0 units) Z0). lra. }
  destruct (R Pr) as [Lf Lr]. split; [exact Lf|]. destruct (grid_sub units _ _ Uc Uf Lf) as [Ud Ed]. rewrite <- Ed. apply Bound; [exact Ud | lra].
Qed.

(** ** What stays true *)

(** The cover, and what was sold before the log that is looked at. *)
Variables (cover base : Q) (start : list request).
Definition sold (h : list request) : Q := base + told h.

(** The amount recorded as sold. *)
Definition claimed (s : sale) : Q := if s.(its_amount) >? 0 then s.(its_amount) else 0.

(** A log that goes on from the one looked at, with no more sold than the cover. *)
Definition grown (h : list request) : Prop := sold h <= cover /\ exists new, h = new ++ start.

(** No more than the cover was sold; and what was sold is recorded, unless the group is
    marked as sending. *)
Definition safe (s : sale) (h : list request) : Prop :=
  s.(its_cover) = cover /\ 0 <= s.(its_quote) /\ on_units (claimed s) /\ grown h /\
  (s.(its_status) = "submitted" \/ (sold h <= brought s /\ sold h <= filled_of s)).

Definition holds (w : runtime) : Prop := exists s h, cell n s h w /\ safe s h.

Lemma holds_cell s h w : safe s h -> cell n s h w -> holds w.
Proof. intros K C. exists s, h. auto. Qed.

Lemma from_holds {A} (m : M A) P E : (forall s h, safe s h -> triple (cell n s h) m P E) -> triple holds m P E.
Proof. intros H w (s & h & C & K). exact (H s h K w C). Qed.

Lemma claimed_nonneg s : 0 <= claimed s.
Proof. unfold claimed. destruct (dltb_spec 0 s.(its_amount)); lra. Qed.

Lemma brought_cases s : brought s = claimed s \/ brought s = 0.
Proof. unfold brought, claimed. destruct (_ || _); auto. Qed.

Lemma brought_le s : brought s <= claimed s.
Proof. pose proof (claimed_nonneg s). destruct (brought_cases s) as [-> | ->]; lra. Qed.

Lemma filled_cases s : filled_of s = claimed s \/ filled_of s = brought s \/ filled_of s = 0.
Proof. unfold filled_of. cbv zeta. fold (claimed s). destruct (negb _); [auto|]. destruct (String.eqb _ _); auto. Qed.

Lemma filled_units s : on_units (claimed s) -> on_units (filled_of s).
Proof. intros U. destruct (filled_cases s) as [->|[->| ->]]; [exact U | destruct (brought_cases s) as [->| ->]; [exact U | apply grid_0] | apply grid_0]. Qed.

Lemma filled_after status s : In status ["filled"; "pending"; "submitted"] -> brought s <= filled_of (with_status status s).
Proof.
  intros I. pose proof (brought_le s). destruct I as [<-|[<-|[<-|[]]]]; cbn; [exact H | apply Qle_refl | apply Qle_refl].
Qed.

Lemma told_same s h more : told (more ++ h) == told h -> safe s h -> safe s (more ++ h).
Proof.
  unfold safe, grown, sold. intros E (A & B & U & (Le & new & Ex) & R). split; [exact A|]. split; [exact B|]. split; [exact U|].
  split; [|destruct R as [R|[Rb Rf]]; [now left | right; split; lra]]. split; [lra|]. exists (more ++ new). rewrite Ex. apply app_assoc.
Qed.

(** The parts of what is kept, those that did not change first. *)
Ltac parts := hnf; repeat match goal with |- _ /\ _ => split end; auto.

(** Another status, where what was sold is recorded. *)
Lemma safe_status status s h : safe s h -> sold h <= brought s -> In status ["filled"; "pending"; "submitted"] -> safe (with_status status s) h.
Proof.
  intros (A & B & U & Le & _) Lb I. parts. right. split; [exact Lb|]. eapply Qle_trans; [exact Lb | now apply filled_after].
Qed.

Lemma safe_sending s h : safe s h -> safe (with_status "submitted" s) h.
Proof. intros (A & B & U & Le & _). parts. Qed.

(** ** The booking *)

Lemma answered v : obj_or v (PDict []) = v \/ (_response_filled_amount v = 0 /\ _response_filled_amount (obj_or v (PDict [])) = 0).
Proof. unfold obj_or. destruct (py_truthy v) eqn:T; [now left|]. right. split; [|reflexivity]. destruct v; try reflexivity. destruct l; [reflexivity | discriminate T]. Qed.

(** The money of a sale. *)
Lemma proceeds_booked g trades cumulative g' p : apply_spot_exit_quote_proceeds g trades cumulative = Ret (g', p) ->
  (forall quote p', spot_sell_quote_proceeds_from_trades trades quote = Ret p' -> 0 < p') -> 0 <= g.(spot_exit_quote_proceeds) ->
  exists q l, 0 < q /\ sale_of g' = {| its_cover := cover_of g; its_status := g.(spot_exit_status); its_amount := g.(spot_exit_amount); its_quote := q; its_lifetime := l |}.
Proof.
  unfold apply_spot_exit_quote_proceeds. intros E Paid Q0. apply obind_inv in E. destruct E as (name & _ & E). apply obind_inv in E.
  destruct E as (p' & Ep & E). pose proof (Paid _ _ Ep) as Pp. apply Ret_inj in E. destruct (dleb_spec p' 0); [lra|]. apply pair_equal_spec in E. destruct E as [<- _].
  set (q := if cumulative then _ else _). assert (Pq : 0 < q) by (unfold q; destruct cumulative; [unfold dadd; apply rnd_pos; lra | exact Pp]).
  unfold record_spot_exit_lifetime_proceeds. cbn [spot_exit_quote_proceeds set_spot_exit_quote_proceeds].
  destruct (dleb_spec q 0); [lra|]. destruct (_ >? _); eexists q, _; (split; [exact Pq | reflexivity]).
Qed.

(** What is in the group once the fill of an order is booked. *)
Definition booked (h : list request) (s : sale) : Prop :=
  s.(its_cover) = cover /\ s.(its_status) = "submitted" /\ 0 <= s.(its_quote) /\ on_units (claimed s) /\ grown h /\ sold h <= brought s.

Lemma booked_safe h s : booked h s -> safe s h.
Proof. intros (A & B & Q0 & U & Le & _). parts. Qed.

Lemma booked_after status h s : booked h s -> In status ["filled"; "pending"; "submitted"] -> safe (with_status status s) h.
Proof. intros K I. pose proof (booked_safe h s K). destruct K as (_ & _ & _ & _ & _ & Lb). now apply safe_status. Qed.

Lemma status_after_in order_state filled amount rest : In (exit_status_after order_state filled amount rest) ["filled"; "pending"; "submitted"].
Proof. unfold exit_status_after. destruct (_ && _); [cbn; auto|]. destruct (_ || _); cbn; auto. Qed.

Lemma looks_remainder name currency remaining filled : looks (remainder_after name currency remaining filled).
Proof. unfold remainder_after, _spot_min_trade_amount. look. Qed.

Lemma looks_order_trades v : looks (_order_trades v).
Proof. unfold _order_trades. look. Qed.

Lemma sale_edit status g s : sale_of g = s -> sale_of (set_spot_exit_status status g) = with_status status s.
Proof. intros <-. reflexivity. Qed.

(** The group once the sale is told: what it filled, then how it stands. *)
Lemma cell_settle s h reason name currency amount remaining filled order_state : booked h s ->
  triple (cell n s h) (settle_exit c n reason name currency order_state filled amount remaining) (fun _ => holds) holds.
Proof.
  intros K. unfold settle_exit. pose proof (fun w => holds_cell s h w (booked_safe h s K)) as Hc.
  apply cell_step; [apply looks_remainder | exact Hc|]. intros rest. cbv zeta. set (after := exit_status_after _ _ _ _).
  pose proof (booked_after after h s K (status_after_in _ _ _ _)) as Sa.
  eapply triple_bind; [apply cell_edit; intros g; apply sale_edit|]. intros u. cbv beta. clear u. pose proof (fun w => holds_cell (with_status after s) h w Sa) as Ha.
  destruct (String.eqb after "filled"); [|apply triple_ret; exact Ha]. unfold schedule_sweep_of.
  eapply triple_weaken; [apply cell_on_kept with (E := holds) | intros w C; exact C | intros a w; apply Ha | auto].
  - intros g g' a E. apply obind_inv in E. destruct E as (g1 & E1 & E). apply Ret_inj in E. apply pair_equal_spec in E. destruct E as [<- _].
    exact (schedule_kept sale_of sale_kept _ _ _ _ _ E1).
  - exact Ha.
Qed.

Lemma cell_some {A} h (Q : sale -> Prop) (m : M A) P E : (forall s, Q s -> triple (cell n s h) m P E) -> triple (fun w => exists s, cell n s h w /\ Q s) m P E.
Proof. intros H w (s & C & K). exact (H s K w C). Qed.

(** An order that was sent for what the cover has left. *)
Definition sending (s : sale) (h : list request) (o : order_request) (v : pyobj) : Prop :=
  safe s h /\ sold h <= brought s /\ sold h <= filled_of s /\ reply h (PlaceOrder o) = Ret v /\ 0 < o.(req_amount) /\
  on_units cover /\ filled_of s <= cover /\ o.(req_amount) <= cover - filled_of s.

Lemma sending_sold s h o v : sending s h o v ->
  let f := _response_filled_amount v in
  on_units f /\ 0 <= f /\ sold (PlaceOrder o :: h) == sold h + f /\ grown (PlaceOrder o :: h) /\
  on_units (filled_of s ⊕ f) /\ filled_of s ⊕ f == filled_of s + f.
Proof.
  intros ((A & B & U & (Le & new & Ex) & _) & Lb & Lf & Er & Po & Uc & Fc & La) f. destruct (sale_fills Honest _ _ _ Po Er) as [Uf Lv]. fold f in Uf, Lv.
  pose proof (grid_nonneg units f Uf) as F0. split; [exact Uf|]. split; [exact F0|].
  assert (E : sold (PlaceOrder o :: h) == sold h + f) by (unfold sold; cbn [told filled_by]; rewrite Er; fold f; ring). split; [exact E|].
  split; [split; [lra | exists (PlaceOrder o :: new); now rewrite Ex]|]. apply (grid_add units _ f cover); [apply filled_units, U | exact Uf | exact Uc | lra].
Qed.

(** Where the fill is nothing, the group is as it was. *)
Lemma booked_nothing s h o v : sending s h o v -> _response_filled_amount v <= 0 -> booked (PlaceOrder o :: h) (with_status "submitted" s).
Proof.
  intros K F. pose proof (sending_sold s h o v K) as (_ & F0 & E & Lc & _). destruct K as ((A & B & U & Le & _) & Lb & _).
  parts. change (brought (with_status "submitted" s)) with (brought s). rewrite E. lra.
Qed.

(** Where it is something, the amount counts it, and then what it brought. *)
Lemma booked_something s h o v q l : sending s h o v -> 0 < _response_filled_amount v -> 0 < q ->
  booked (PlaceOrder o :: h) {| its_cover := s.(its_cover); its_status := "submitted"; its_amount := filled_of s ⊕ _response_filled_amount v; its_quote := q; its_lifetime := l |}.
Proof.
  intros K F Q. pose proof (sending_sold s h o v K) as (_ & F0 & E & Lc & Ua & Ea). destruct K as ((A & B & U & Le & _) & Lb & Lf & _).
  pose proof (grid_nonneg units _ (filled_units s U)) as Fn.
  assert (Pa : (filled_of s ⊕ _response_filled_amount v >? 0) = true) by (destruct (dltb_spec 0 (filled_of s ⊕ _response_filled_amount v)); [reflexivity | lra]).
  unfold booked, claimed, brought. cbn [its_cover its_status its_amount its_quote its_lifetime]. rewrite Pa.
  assert (Pq : (q >? 0) = true) by (destruct (dltb_spec 0 q); [reflexivity | lra]). rewrite Pq. cbn [orb].
  parts; [lra | rewrite E, Ea; lra].
Qed.

Lemma sale_amount a g : sale_of (set_spot_exit_amount a g) =
  {| its_cover := its_cover (sale_of g); its_status := its_status (sale_of g); its_amount := a; its_quote := its_quote (sale_of g); its_lifetime := its_lifetime (sale_of g) |}.
Proof. reflexivity. Qed.

Lemma cell_fill s h o v p : sending s h o v ->
  let response := obj_or v (PDict []) in
  triple (cell n (with_status "submitted" s) (PlaceOrder o :: h)) (book_fill n (filled_of s) (_response_filled_amount response) response p)
    (fun _ w => exists s', cell n s' (PlaceOrder o :: h) w /\ booked (PlaceOrder o :: h) s') holds.
Proof.
  intros K response. set (h' := PlaceOrder o :: h). unfold book_fill. destruct (dltb_spec 0 (_response_filled_amount response)) as [F|F].
  2:{ apply triple_ret. intros w C. exists (with_status "submitted" s). split; [exact C|]. apply booked_nothing with (v := v); [exact K|].
      unfold response in F. destruct (answered v) as [E|[E _]]; [rewrite E in F; lra | rewrite E; apply Qle_refl]. }
  assert (Ev : response = v) by (destruct (answered v) as [E|[_ E]]; [exact E | unfold response in F; rewrite E in F; lra]). rewrite Ev in *. clear response Ev.
  pose proof (sending_sold s h o v K) as (_ & F0 & E & Lc & Ua & Ea). pose proof (proj1 K) as (A & B & U & _).
  set (s2 := {| its_cover := s.(its_cover); its_status := "submitted"; its_amount := filled_of s ⊕ _response_filled_amount v; its_quote := s.(its_quote); its_lifetime := s.(its_lifetime) |}).
  assert (S2 : forall w, cell n s2 h' w -> holds w).
  { intros w. apply holds_cell. parts. unfold claimed, s2. cbn [its_amount]. destruct (_ >? 0); [exact Ua | apply grid_0]. }
  eapply triple_bind; [apply cell_edit with (s' := s2); intros g Sg; rewrite sale_amount, Sg; reflexivity|].
  intros edited. cbv beta. eapply triple_bind with (R := fun trades w => cell n s2 h' w /\ (forall quote q, spot_sell_quote_proceeds_from_trades trades quote = Ret q -> 0 < q)).
  { intros w C. pose proof (looks_order_trades v w) as Lk. pose proof (cell_looks n (_order_trades v) s2 h' (looks_order_trades v) w C) as C'.
    destruct (_order_trades v w) as [w' [trades|e|]] eqn:Et; cbn [fst snd] in *; [|now apply S2..]. split; [exact C'|]. intros quote q Eq.
    exact (sale_paid Honest _ _ _ _ _ _ _ _ (proj1 (proj2 (proj2 (proj2 K)))) F Et Eq). }
  intros trades. apply triple_fact. intros Paid.
  eapply triple_bind; [apply cell_on with (P := fun (_ : Q) s' => booked h' s')|].
  { intros g g' a Sg Ep. destruct (proceeds_booked g trades _ g' a Ep Paid) as (q & l & Pq & ->).
    { change (0 <= its_quote (sale_of g)). rewrite Sg. exact B. }
    change (cover_of g) with (its_cover (sale_of g)). change (spot_exit_status g) with (its_status (sale_of g)). change (spot_exit_amount g) with (its_amount (sale_of g)).
    rewrite Sg. exact (booked_something s h o v q l K F Pq). }
  { exact S2. }
  intros proceeds. apply cell_some. intros s' Bk. assert (S' : forall w, cell n s' h' w -> holds w) by (intros w; now apply holds_cell, booked_safe).
  destruct (proceeds >? 0); [|apply triple_ret; intros w C; now exists s'].
  eapply triple_bind; [apply cell_group|]. intros g. apply triple_fact. intros _.
  apply cell_step; [apply steady_looks, steady_text4 | exact S'|]. intros t. apply triple_ret. intros w C. now exists s'.
Qed.

(** ** The order *)

Lemma sending_submitted s h o v w : sending s h o v -> cell n (with_status "submitted" s) (PlaceOrder o :: h) w -> holds w.
Proof.
  intros K. apply holds_cell. pose proof (sending_sold s h o v K) as (_ & _ & _ & G & _). destruct K as ((A & B & U & _) & _). parts.
Qed.

Lemma cell_book s h o v reason name remaining protected p : sending s h o v -> dget "response" protected = v ->
  triple (cell n s (PlaceOrder o :: h)) (book_exit c n reason name o.(req_amount) (filled_of s) remaining protected p) (fun _ => holds) holds.
Proof.
  intros K Ev. pose proof (sending_submitted s h o v) as Sub. unfold book_exit. rewrite Ev.
  eapply triple_bind; [apply cell_edit with (s' := with_status "submitted" s); intros g; apply sale_edit|]. intros u1. cbv beta.
  eapply triple_bind; [apply cell_edit with (s' := with_status "submitted" s); intros g; trivial|]. intros u2. cbv beta.
  eapply triple_bind; [apply (cell_fill s h o v _ K)|]. intros p'. apply cell_some. intros s' Bk.
  assert (S' : forall w, cell n s' (PlaceOrder o :: h) w -> holds w) by (intros w; apply holds_cell, booked_safe, Bk).
  eapply triple_bind; [apply cell_group|]. intros g. apply triple_fact. intros _.
  eapply triple_bind; [apply cell_settle, Bk|]. intros u3. cbv beta. apply from_holds. intros s1 h1 Sf.
  assert (H1 : forall w, cell n s1 h1 w -> holds w) by (intros w; now apply holds_cell).
  eapply triple_bind; [apply cell_group|]. intros g1. apply triple_fact. intros _.
  do 2 (apply cell_step; [apply steady_looks, steady_text8 | exact H1|]; intros ?). now apply triple_ret.
Qed.

(** A group whose sales are all recorded, and which is not marked as sending. *)
Definition ready (s : sale) (h : list request) : Prop := safe s h /\ sold h <= brought s /\ sold h <= filled_of s.

Lemma ready_or s h : safe s h -> s.(its_status) <> "submitted" -> ready s h.
Proof. intros K N. pose proof K as (_ & _ & _ & _ & [E|R]); [contradiction | now split]. Qed.

(** The status of an exit that sells nothing now. *)
Lemma ready_idle status s h : ready s h -> status = "filled" \/ status = "pending" \/ (status = "skipped" /\ filled_of s <= 0) -> safe (with_status status s) h.
Proof.
  intros (K & Lb & Lf) [->|[->|[-> F]]]; [apply safe_status; cbn; auto..|]. destruct K as (A & B & U & G & _). parts. right. split; [exact Lb|].
  change (filled_of (with_status "skipped" s)) with 0. lra.
Qed.

Lemma sale_idle status reason g s : sale_of g = s -> sale_of (set_spot_exit_status status (set_spot_exit_reason reason g)) = with_status status s.
Proof. intros <-. reflexivity. Qed.

Lemma sale_idle' status reason g s : sale_of g = s -> sale_of (set_spot_exit_reason reason (set_spot_exit_status status g)) = with_status status s.
Proof. intros <-. reflexivity. Qed.

Lemma cell_place s h reason name plan p : ready s h -> on_units cover -> 0 < plan.(exit_amount) -> planned_within s plan ->
  triple (cell n s h) (place_exit c n reason name plan (filled_of s) p) (fun _ => holds) holds.
Proof.
  intros R Uc Pa Pl. pose proof R as (K & Lb & Lf). assert (Hc : forall w, cell n s h w -> holds w) by (intros w; now apply holds_cell).
  unfold place_exit. eapply triple_bind; [apply cell_edit with (s' := s); intros g; trivial|]. intros u1. cbv beta.
  eapply triple_bind; [apply cell_group|]. intros g. apply triple_fact. intros _.
  eapply triple_bind; [apply triple_caught with (P := sold_order s h plan.(exit_amount)) (E := unsold s h)|].
  { apply cell_step; [apply steady_looks, steady_lift | apply unsold_cell|]. intros i. apply protected_sold. }
  { intros w (more & C & E). eapply holds_cell; [|exact C]. now apply told_same. }
  intros [protected|e].
  - intros w [[C T]|(o & v & Ea & Er & Ev & Ns & C)].
    + rewrite T. revert w C. match goal with |- forall w, _ -> match snd (?m w) with _ => _ end => change (triple (cell n s h) m (fun _ => holds) holds) end.
      set (after := if String.eqb _ _ then _ else _). eapply triple_bind; [apply cell_edit; intros g1; apply sale_idle|]. intros u2. cbv beta. apply triple_ret.
      intros w. apply holds_cell, ready_idle; [exact R|]. unfold after. destruct (String.eqb _ _); [auto|]. destruct (dltb_spec 0 (filled_of s)); [auto|].
      right. right. split; [reflexivity | lra].
    + rewrite Ns. cbn [py_truthy]. rewrite <- Ea. apply (cell_book s h o v); [|exact Ev | exact C]. destruct Pl as [_ Pl]. specialize (Pl Pa).
      rewrite (proj1 K) in Pl. rewrite <- Ea in Pl, Pa. unfold sending. tauto.
  - intros w (more & C & E). pose proof (told_same s h more E K) as K'. revert w C.
    match goal with |- forall w, _ -> match snd (?m w) with _ => _ end => change (triple (cell n s (more ++ h)) m (fun _ => holds) holds) end.
    eapply triple_bind; [apply cell_edit with (s' := s); intros g1; trivial|]. intros u2. cbv beta.
    eapply triple_bind; [apply cell_group|]. intros g1. apply triple_fact. intros _. apply triple_ret. intros w. now apply holds_cell.
Qed.

(** ** An attempt *)

Lemma cell_schedule s h reason : safe s h -> triple (cell n s h) (schedule_sweep_of c n reason) (fun _ => cell n s h) holds.
Proof.
  intros K. unfold schedule_sweep_of. eapply triple_weaken; [apply cell_on_kept with (E := holds) | intros w C; exact C | auto | auto].
  - intros g g' a E. apply obind_inv in E. destruct E as (g1 & E1 & E). apply Ret_inj in E. apply pair_equal_spec in E. destruct E as [<- _].
    exact (schedule_kept sale_of sale_kept _ _ _ _ _ E1).
  - intros w. now apply holds_cell.
Qed.

Lemma cell_nothing s h reason plan live : ready s h ->
  triple (cell n s h) (nothing_to_sell c n reason plan (filled_of s) live) (fun _ => holds) holds.
Proof.
  intros R. unfold nothing_to_sell. cbv zeta. eapply triple_bind; [apply cell_group|]. intros g. apply triple_fact. intros _.
  apply triple_bind with (R := fun _ => holds).
  - destruct live; cbn [negb]; [|apply triple_ret; intros w; apply holds_cell, (proj1 R)]. destruct (_ && _).
    + eapply triple_bind; [apply cell_edit; intros g1; apply sale_idle'|]. intros u. cbv beta.
      assert (K : safe (with_status "filled" s) h) by (apply ready_idle; auto).
      eapply triple_weaken; [apply (cell_schedule _ h _ K) | auto | intros a w; now apply holds_cell | auto].
    + destruct (dltb_spec 0 (filled_of s)) as [F|F]; cbn [orb].
      * eapply triple_weaken; [apply cell_edit with (E := holds); intros g1; apply sale_idle' | intros w C; exact C | intros a w; apply holds_cell, ready_idle; auto | auto].
      * destruct (mem_str _ _).
        -- eapply triple_weaken; [apply cell_edit with (E := holds); intros g1; apply sale_idle' | intros w C; exact C | intros a w; apply holds_cell, ready_idle; auto | auto].
        -- eapply triple_weaken; [apply cell_edit with (E := holds); intros g1; apply sale_idle' | intros w C; exact C | | auto].
           intros a w. apply holds_cell, ready_idle; [exact R|]. right. right. split; [reflexivity | lra].
  - intros u. apply from_holds. intros s1 h1 K1. assert (H1 : forall w, cell n s1 h1 w -> holds w) by (intros w; now apply holds_cell).
    eapply triple_bind; [apply cell_group|]. intros g1. apply triple_fact. intros _.
    do 3 (apply cell_step; [apply steady_looks, steady_text8 | exact H1|]; intros ?). now apply triple_ret.
Qed.

Lemma sale_settlement plan g s : sale_of g = s -> sale_of (keep_settlement plan g) = s.
Proof. intros <-. unfold keep_settlement. destruct (truthy _); reflexivity. Qed.

Lemma looks_payload g reason name plan already live : looks (exit_payload c g reason name plan already live).
Proof. unfold exit_payload. repeat (apply looks_bind; [apply steady_looks, steady_text8 | intros ?]). apply looks_ret. Qed.

(** However an attempt ends, it keeps to the cover. *)
Lemma attempt_holds reason live : on_units cover -> triple holds (_execute_covered_call_spot_exit c summaries n reason live) (fun _ => holds) holds.
Proof.
  intros Uc. apply from_holds. intros s h K. assert (Hc : forall w, cell n s h w -> holds w) by (intros w; now apply holds_cell).
  unfold _execute_covered_call_spot_exit. eapply triple_bind; [apply cell_group|]. intros g. apply triple_fact. intros Sg. cbv zeta.
  destruct (String.eqb_spec g.(spot_exit_status) "submitted") as [|N]; [now apply triple_ret|].
  assert (R : ready s h) by (apply ready_or; [exact K | rewrite <- Sg; exact N]).
  do 2 (destruct (String.eqb _ _); [now apply triple_ret|]).
  eapply triple_bind; [eapply triple_weaken; [apply cell_plan | intros w C; exact C | intros a w H; exact H | exact Hc]|].
  { rewrite (proj1 K). exact Uc. }
  { apply filled_units, K. }
  intros plan. apply triple_fact. intros Pl. eapply triple_bind; [apply cell_group|]. intros g1. apply triple_fact. intros S1.
  assert (Ea : (if plan.(exit_already_filled) =? 0 then spot_exit_filled_native g1 else plan.(exit_already_filled)) = filled_of s).
  { rewrite filled_is, S1. destruct Pl as [[->| ->] _]; [destruct (_ =? _)%dec; reflexivity | reflexivity]. }
  rewrite Ea. destruct (dleb_spec plan.(exit_amount) 0) as [|P]; [now apply cell_nothing|]. apply Qnot_le_lt in P.
  apply cell_step; [apply looks_payload | exact Hc|]. intros p.
  eapply triple_bind; [apply cell_edit with (s' := s); intros g2; apply sale_settlement|]. intros u. cbv beta.
  destruct live; cbn [negb]; [now apply cell_place | now apply triple_ret].
Qed.

(** ** Queueing again *)

Lemma cell_other m g' s h w : n <> m -> cell n s h w -> cell n s h (put_group m g' w).
Proof. intros N (g & E & K & R). exists g. cbn. rewrite replace_other by exact N. auto. Qed.

Lemma stable_at m J : stable J (group_at m).
Proof. unfold group_at. apply stable_bind; [apply stable_read|]. intros st. destruct (nth_error _ m); [apply stable_ret | apply stable_lift]. Qed.

Lemma stable_edit_other m f s h : n <> m -> stable (cell n s h) (edit_group m f).
Proof.
  intros N w C. unfold edit_group. rewrite bind_fst. pose proof (stable_at m (cell n s h) w C) as C1. destruct (snd (group_at m w)); [|exact C1..].
  cbn. now apply cell_other.
Qed.

(** A change of any group that leaves its sale alone. *)
Lemma stable_on {A} m (f : TradeGroup -> outcome (TradeGroup * A)) s h : (forall g g' a, f g = Ret (g', a) -> sale_of g' = sale_of g) ->
  stable (cell n s h) (on_group m f).
Proof.
  intros K w C. unfold on_group, group_at, bind, read, modify, lift, ret. cbn. destruct (nth_error (groups (state w)) m) as [g|] eqn:N; cbn; [|exact C].
  destruct (f g) as [[g' a]|e|] eqn:F; cbn; [|exact C..]. destruct (Nat.eq_dec n m) as [->|Ne]; [|now apply cell_other].
  pose proof C as (g0 & N0 & S0 & _). apply (cell_put m g' s); [|exact C]. rewrite (K g g' a F). congruence.
Qed.

Lemma stable_plan m s h rows live reason : stable (cell n s h) (_plan_covered_call_spot_exit_fields c m rows live reason).
Proof.
  unfold _plan_covered_call_spot_exit_fields. apply stable_bind; [apply stable_at|]. intros g. cbv zeta. destruct (_ <=? 0); [apply stable_ret|].
  apply stable_bind; [apply cell_looks, looks_exit_index|]. intros index. apply stable_bind; [apply cell_looks, looks_exit_instrument|]. intros short.
  destruct (resolve_covered_call_settlement_loss _ _ _ _ _ _) as [loss source]. apply stable_bind.
  { apply stable_on. intros x x' a E. apply Ret_inj in E. pose proof (premium_kept sale_of sale_kept x) as K. now rewrite E in K. }
  intros premium. apply stable_bind; [apply stable_at|]. intros g1. cbv zeta. apply stable_bind; [apply cell_looks, looks_account_of|]. intros summary.
  destruct (match summary with Some a => _ | None => false end); [apply stable_ret|]. apply stable_bind; [apply stable_lift | intros lot; apply stable_ret].
Qed.

Lemma cell_at m s h E : triple (cell n s h) (group_at m) (fun g w => cell n s h w /\ (n = m -> sale_of g = s)) (fun w => E w \/ cell n s h w).
Proof.
  intros w C. pose proof C as (g & N & S0 & R). unfold group_at, bind, read, ret, lift. cbn. destruct (nth_error (groups (state w)) m) as [g1|] eqn:N1; cbn; [|auto].
  split; [exact C|]. intros <-. congruence.
Qed.

Lemma requeue_edit reason g s : sale_of g = s ->
  sale_of (let g := set_spot_exit_status "pending" g in if is_empty g.(spot_exit_reason) then set_spot_exit_reason reason g else g) = with_status "pending" s.
Proof. intros <-. cbv zeta. destruct (is_empty _); reflexivity. Qed.

Lemma not_sending status : mem_str (lower status) ["filled"; "failed"] = true -> status <> "submitted".
Proof. intros M ->. discriminate M. Qed.

Lemma requeue_holds places : forall m, triple holds (reschedule_incomplete_spot_exits c m places) (fun _ => holds) holds.
Proof.
  induction places as [|more IH]; intros m; cbn [reschedule_incomplete_spot_exits]; [now apply triple_ret|].
  apply from_holds. intros s h K. assert (Hc : forall w, cell n s h w -> holds w) by (intros w; now apply holds_cell).
  eapply triple_bind; [eapply triple_weaken; [apply (cell_at m s h (fun _ => False)) | auto | intros a w H; exact H | intros w [[]|C]; now apply Hc]|].
  intros g. apply triple_fact. intros Sg. apply triple_bind with (R := fun _ => holds); [|intros queued; eapply triple_bind; [apply IH | intros rest; now apply triple_ret]].
  destruct (_ || _); [now apply triple_ret|]. destruct (spot_restore_blocks_exit_remainder g); [now apply triple_ret|].
  destruct (mem_str (lower g.(spot_exit_status)) ["filled"; "failed"]) eqn:M; cbn [negb]; [|now apply triple_ret].
  apply triple_step; [apply stable_attempt, stable_plan | exact Hc|]. intros [plan|]; [|now apply triple_ret]. destruct (_ <=? 0); [now apply triple_ret|].
  apply triple_bind with (R := fun _ => holds); [|intros u; now apply triple_ret]. destruct (Nat.eq_dec n m) as [<-|Ne].
  - assert (R : ready s h) by (apply ready_or; [exact K | rewrite <- (Sg eq_refl); now apply not_sending]).
    eapply triple_weaken; [apply cell_edit with (E := holds); intros g1; apply requeue_edit | intros w C; exact C | intros a w; apply holds_cell, ready_idle; auto | auto].
  - intros w C. pose proof (stable_edit_other m (fun g => let g := set_spot_exit_status "pending" g in if is_empty g.(spot_exit_reason) then set_spot_exit_reason "covered_call_settlement_exit" g else g) s h Ne w C) as C'.
    apply Hc in C'. destruct (snd _); exact C'.
Qed.
End Sale.

(** ** Any number of attempts *)

(** What a cycle does to the sale of a cover: an attempt, or queueing what is left again. *)
Inductive exit_step : Type := TryExit (reason : string) (live : bool) | QueueAgain.

Section Attempts.
Context {S : SpotDesk} {L : TransactionLog}.
Variables (c : spot_config) (summaries : dict AccountSummary) (n : nat).

Fixpoint exit_steps (l : list exit_step) : M unit :=
  match l with
  | [] => ret tt
  | TryExit reason live :: rest => let* _ := caught (_execute_covered_call_spot_exit c summaries n reason live) in exit_steps rest
  | QueueAgain :: rest =>
      let* s := read state in
      let* _ := caught (reschedule_incomplete_spot_exits c 0 (length s.(groups))) in
      exit_steps rest
  end.

(** What was sold for the group so far is recorded with what it brought, and is part of its cover. *)
Definition tracked (g : TradeGroup) : Prop :=
  on_units (cover_of g) /\ on_units g.(spot_exit_amount) /\ 0 <= g.(spot_exit_quote_proceeds) /\ spot_exit_filled_native g <= cover_of g /\
  (0 < spot_exit_filled_native g -> 0 < g.(spot_exit_quote_proceeds) \/ 0 < g.(spot_exit_quote_proceeds_lifetime)).

Lemma steps_hold cover base start l : sales_honest -> on_units cover -> triple (holds n cover base start) (exit_steps l) (fun _ => holds n cover base start) (holds n cover base start).
Proof.
  intros Honest Uc. induction l as [|[reason live|] l IH]; cbn [exit_steps]; [now apply triple_ret| |].
  - eapply triple_bind; [eapply triple_caught; [now apply attempt_holds | auto]|]. intros [a|e]; exact IH.
  - apply triple_step; [apply stable_read | auto|]. intros st. eapply triple_bind; [eapply triple_caught; [now apply requeue_holds | auto]|]. intros [a|e]; exact IH.
Qed.

Lemma tracked_safe g h : tracked g -> safe (cover_of g) (spot_exit_filled_native g - told h) h (sale_of g) h.
Proof.
  intros (Uc & Ua & Q0 & Le & Br). assert (E : spot_exit_filled_native g - told h + told h == spot_exit_filled_native g) by ring.
  split; [reflexivity|]. split; [exact Q0|]. split; [unfold claimed, sale_of; cbn; destruct (_ >? 0); [exact Ua | apply grid_0]|].
  split; [split; [unfold sold; lra | now exists []]|]. right. unfold sold. split; [|rewrite filled_is in *; lra].
  rewrite E. rewrite filled_is in *. destruct (filled_cases (sale_of g)) as [F|[F|F]]; rewrite F in *; [|apply Qle_refl|].
  - unfold brought. destruct (Qlt_le_dec 0 (claimed (sale_of g))) as [P|P].
    + assert (X : (its_quote (sale_of g) >? 0) || (its_lifetime (sale_of g) >? 0) = true).
      { cbn. destruct (Br P) as [B|B]; [destruct (dltb_spec 0 g.(spot_exit_quote_proceeds)) | destruct (dltb_spec 0 g.(spot_exit_quote_proceeds_lifetime))];
          try lra; rewrite ?orb_true_r; reflexivity. }
      rewrite X. apply Qle_refl.
    + destruct (_ || _); [fold (claimed (sale_of g)); apply Qle_refl | exact P].
  - unfold brought. destruct (_ || _); [fold (claimed (sale_of g)); apply claimed_nonneg | apply Qle_refl].
Qed.

(** C25. However often the sale of an exercised cover is attempted, queued again, answered
    in parts, or cut short by an exception, no more than the cover of the group is sold:
    what the group had sold before and what the exchange told of all orders sent since
    stay within it. And unless the group is marked as sending, the group itself records
    at least that much as sold. *)
Theorem exits_never_oversell steps w g : sales_honest -> nth_error w.(state).(groups) n = Some g -> tracked g ->
  let w' := fst (exit_steps steps w) in
  exists g' new, nth_error w'.(state).(groups) n = Some g' /\ cover_of g' = cover_of g /\ w'.(requests) = new ++ w.(requests) /\
    let sold := spot_exit_filled_native g + (told w'.(requests) - told w.(requests)) in
    sold <= cover_of g /\ (g'.(spot_exit_status) = "submitted" \/ sold <= spot_exit_filled_native g').
Proof.
  intros Honest N T w'. pose proof (tracked_safe g w.(requests) T) as K. destruct T as (Uc & _).
  pose proof (steps_hold (cover_of g) (spot_exit_filled_native g - told w.(requests)) w.(requests) steps Honest Uc w) as H.
  assert (H' : holds n (cover_of g) (spot_exit_filled_native g - told w.(requests)) w.(requests) w').
  { unfold w'. assert (I : holds n (cover_of g) (spot_exit_filled_native g - told w.(requests)) w.(requests) w) by (eapply holds_cell; [exact K | now exists g]).
    specialize (H I). destruct (snd _); exact H. }
  destruct H' as (s & h & (g' & N' & S' & R') & (A & _ & _ & (Le & new & Ex) & St)). unfold sold in Le, St. exists g', new.
  rewrite (filled_is g'), S'. split; [exact N'|]. split; [rewrite <- A, <- S'; reflexivity|]. split; [congruence|]. rewrite R'. cbv zeta. split; [lra|].
  destruct St as [E|[_ F]]; [left; rewrite <- S' in E; exact E | right; lra].
Qed.
End Attempts.
