(* ===== verification/WheelFacts.v ===== *)
(** What buying the cover back comes to: with what the account still has it makes the cover
    whole, and a purchase the automatic restore agrees to leaves a profit. *)

From S2P Require Import Prelude Dec PyStr Utils Group Ledger PyObj GroupJson StateJson Market Close GroupClose CrossFlow Portfolio Settlement SpotTrade Wheel CashSecured.
Local Open Scope string_scope.
Local Open Scope Q_scope.
Local Open Scope dec_scope.
Local Open Scope bool_scope.
Local Open Scope list_scope.

(** ** Sums on a grid *)

Section Grid.
Variable e : Z.
Local Abbreviation grid := (on_grid e grid_max).

Lemma grid_small y z : (0 <= y <= grid_max)%Z -> (0 <= z <= grid_max)%Z -> (Z.abs (y + z) <= 10 ^ prec)%Z /\ (Z.abs (y - z) <= 10 ^ prec)%Z.
Proof. assert (B : (2 * grid_max <= 10 ^ prec)%Z) by (vm_compute; discriminate). lia. Qed.

Lemma grid_sum_exact a b : grid a -> grid b -> a ⊕ b == a + b.
Proof. intros (y & By & Ea) (z & Bz & Eb). rewrite (dadd_gval e y z a b Ea Eb) by (now apply grid_small). rewrite Ea, Eb. symmetry. apply gval_add. Qed.

Lemma difference_exact a b : grid a -> grid b -> a ⊖ b == a - b.
Proof. intros (y & By & Ea) (z & Bz & Eb). rewrite (dsub_gval e y z a b Ea Eb) by (now apply grid_small). rewrite Ea, Eb. symmetry. apply gval_sub. Qed.

(** [a + b - c] *)
Lemma balance_exact a b c : grid a -> grid b -> grid c -> (a ⊕ b) ⊖ c == a + b - c.
Proof.
  intros (y & By & Ea) (z & Bz & Eb) (x & Bx & Ec). assert (S : a ⊕ b == gval e (y + z)) by (apply dadd_gval; auto; now apply grid_small).
  assert (B : (3 * grid_max <= 10 ^ prec)%Z) by (vm_compute; discriminate).
  rewrite (dsub_gval e (y + z) x _ c S Ec) by lia. rewrite <- gval_sub, <- gval_add, Ea, Eb, Ec. reflexivity.
Qed.
End Grid.

(** ** The restore *)

(** The coins an account has left of a cover: it got the premium, paid the settlement and sold the swap. *)
Definition held (plan : restore_plan) : Q := plan.(plan_cover) + plan.(plan_premium) - plan.(plan_settle) - plan.(plan_swap).

Definition plan_on_grid (e : Z) (plan : restore_plan) : Prop :=
  let grid := on_grid e grid_max in grid plan.(plan_cover) /\ grid plan.(plan_swap) /\ grid plan.(plan_settle) /\ grid plan.(plan_premium) /\ grid plan.(plan_restored).

Section Restore.
Variables (e : Z) (g : TradeGroup) (loss : option Q) (gs : list TradeGroup).
Let plan : restore_plan := plan_spot_restore_to_cover g loss gs.
Hypothesis exact : plan_on_grid e plan.
Hypothesis covered : 0 < plan.(plan_cover).

(** The target is what the cover lacks, within the cover. *)
Lemma target_is : plan.(plan_target) == Qmax 0 (Qmin (plan.(plan_cover) - held plan) plan.(plan_cover)).
Proof.
  destruct exact as (Gc & Gw & Gs & Gp & _). unfold held, plan, plan_spot_restore_to_cover in *. cbn [plan_cover plan_swap plan_settle plan_premium plan_target] in *.
  unfold spot_restore_target_native. set (cover := covered_call_cover_native g) in *. set (swap := _spot_exit_swap_native g) in *.
  set (settle := settle_native g loss) in *. set (premium := _spot_restore_premium_native g) in *.
  pose proof (balance_exact e swap settle premium Gw Gs Gp) as B. set (raw := (swap ⊕ settle) ⊖ premium) in *.
  assert (D : cover - (cover + premium - settle - swap) == raw) by (rewrite B; ring). rewrite D.
  destruct (dltb_spec 0 cover); [|lra]. destruct (dltb_spec raw 0) as [N|N].
  - destruct (dmin_cases 0 cover) as [[-> _]|[-> X]]; [|lra]. rewrite Q.min_l, Q.max_l by lra. reflexivity.
  - destruct (dmin_cases raw cover) as [[-> X]|[-> X]]; [rewrite Q.min_l, Q.max_r by lra | rewrite Q.min_r, Q.max_r by lra]; reflexivity.
Qed.

Lemma target_grid : on_grid e grid_max plan.(plan_target).
Proof.
  pose proof target_is as T. destruct exact as (Gc & (w & Bw & Ew) & (s & Bs & Es) & (p & Bp & Ep) & _). pose proof Gc as (c & Bc & Ec).
  apply (grid_eq e (gval e (Z.max 0 (Z.min (w + s - p) c)))); [|exists (Z.max 0 (Z.min (w + s - p) c)); split; [lia | reflexivity]].
  rewrite T. unfold held. rewrite Ec, Ew, Es, Ep. assert (X : gval e c - (gval e c + gval e p - gval e s - gval e w) == gval e (w + s - p)) by (rewrite <- gval_sub, <- gval_add; ring).
  rewrite X. assert (Z0 : 0 == gval e 0) by reflexivity. destruct (Z.le_ge_cases (w + s - p) c) as [L|L].
  - rewrite (Q.min_l (gval e (w + s - p))) by now apply val_le. rewrite Z.min_l by exact L. destruct (Z.le_ge_cases 0 (w + s - p)) as [P|P].
    + rewrite Z.max_r by exact P. rewrite Q.max_r; [reflexivity|]. rewrite Z0. now apply val_le.
    + rewrite Z.max_l by exact P. rewrite Q.max_l; [now symmetry|]. rewrite Z0. now apply val_le.
  - rewrite (Q.min_r (gval e (w + s - p))) by now apply val_le. rewrite Z.min_r by exact L. rewrite Z.max_r by lia. rewrite Q.max_r; [reflexivity|].
    rewrite Z0. apply val_le. lia.
Qed.

Lemma unrestored_is : plan.(plan_unrestored) == Qmax (plan.(plan_target) - plan.(plan_restored)) 0.
Proof.
  destruct exact as (_ & _ & _ & _ & Gr). pose proof (difference_exact e _ _ target_grid Gr) as D.
  change (plan.(plan_unrestored)) with (dmax (plan.(plan_target) ⊖ plan.(plan_restored)) 0).
  destruct (dmax_cases (plan.(plan_target) ⊖ plan.(plan_restored)) 0) as [[-> X]|[-> X]]; rewrite D in *; [rewrite Q.max_l by exact X; reflexivity | rewrite Q.max_r by lra; reflexivity].
Qed.

Lemma unrestored_grid : on_grid e grid_max plan.(plan_unrestored).
Proof.
  pose proof unrestored_is as U. destruct exact as (_ & _ & _ & _ & Gr). destruct (Qlt_le_dec plan.(plan_restored) plan.(plan_target)) as [L|L].
  - destruct (grid_sub e _ _ target_grid Gr) as [G Eq]; [lra|]. apply (grid_eq e _ _) with (2 := G). rewrite U, Eq, Q.max_l by lra. reflexivity.
  - apply (grid_eq e 0); [rewrite U, Q.max_r by lra; reflexivity | apply grid_0].
Qed.
End Restore.

Lemma buy_is_ceiling amount cs mn cover : 0 < cover -> align_spot_restore_buy_amount amount cs mn (Some cover) = ceil_option_order_amount amount cs mn (Some cover).
Proof.
  intros P. unfold align_spot_restore_buy_amount. destruct (dltb_spec 0 cover); [|lra]. unfold ceil_option_order_amount.
  destruct (amount <=? 0); [reflexivity|]. destruct (_ && _); reflexivity.
Qed.


(** ** Profits *)

Lemma below_product u p r k : 0 < u -> 0 < p -> 1 <= k -> u ⊗ p ⊗ k < r -> u * p * (k * (1 - 3 * eps)) < r.
Proof.
  intros Pu Pp Pk L. pose proof (dmul_pos u p Pu Pp) as P1. assert (N : 0 < u * p) by (now apply Qmult_lt_0_compat).
  pose proof (proj1 (rnd_close _ N)) as A. fold (u ⊗ p) in A. assert (M : 0 < (u ⊗ p) * k) by (apply Qmult_lt_0_compat; lra).
  pose proof (proj1 (rnd_close _ M)) as B. fold ((u ⊗ p) ⊗ k) in B. assert (E0 : 0 < eps) by reflexivity. assert (E1 : eps < 1 # 10) by reflexivity.
  eapply Qle_lt_trans; [|exact L]. eapply Qle_trans; [|exact B].
  apply Qle_trans with (u * p * (1 - eps) * k * (1 - eps)).
  - setoid_replace (u * p * (1 - eps) * k * (1 - eps)) with (u * p * k * ((1 - eps) * (1 - eps))) by ring.
    setoid_replace (u * p * (k * (1 - 3 * eps))) with (u * p * k * (1 - 3 * eps)) by ring.
    rewrite !(Qmult_comm (u * p * k)). apply Qmult_le_compat_r; [nra|]. apply Qlt_le_weak, Qmult_lt_0_compat; [exact N | lra].
  - apply Qmult_le_compat_r; [apply Qmult_le_compat_r; [exact A | lra] | lra].
Qed.

Lemma cap_product u r f : 0 < u -> 0 < r -> 0 < f -> let cap := (r ⊘ u) ⊗ f in u * cap <= r * (f * (1 + 3 * eps)).
Proof.
  intros Pu Pr Pf cap. assert (D : 0 < r / u) by (apply Qlt_shift_div_l; lra). pose proof (proj2 (rnd_close _ D)) as A. fold (r ⊘ u) in A.
  pose proof (ddiv_pos r u Pr Pu) as P1. assert (M : 0 < (r ⊘ u) * f) by (now apply Qmult_lt_0_compat). pose proof (proj2 (rnd_close _ M)) as B.
  fold ((r ⊘ u) ⊗ f) in B. fold cap in B. assert (E0 : 0 < eps) by reflexivity. assert (E1 : eps < 1 # 10) by reflexivity.
  assert (U : u * (r ⊘ u) <= r * (1 + eps)).
  { apply Qle_trans with (u * (r / u * (1 + eps))); [rewrite !(Qmult_comm u); apply Qmult_le_compat_r; lra|].
    setoid_replace (u * (r / u * (1 + eps))) with (r * (1 + eps)) by (field; lra). apply Qle_refl. }
  apply Qle_trans with (u * ((r ⊘ u) * f * (1 + eps))); [rewrite !(Qmult_comm u); apply Qmult_le_compat_r; lra|].
  setoid_replace (u * ((r ⊘ u) * f * (1 + eps))) with (u * (r ⊘ u) * (f * (1 + eps))) by ring.
  apply Qle_trans with (r * (1 + eps) * (f * (1 + eps))); [apply Qmult_le_compat_r; [exact U | apply Qlt_le_weak, Qmult_lt_0_compat; lra]|].
  setoid_replace (r * (1 + eps) * (f * (1 + eps))) with (r * f * ((1 + eps) * (1 + eps))) by ring.
  setoid_replace (r * (f * (1 + 3 * eps))) with (r * f * (1 + 3 * eps)) by ring.
  rewrite !(Qmult_comm (r * f)). apply Qmult_le_compat_r; [nra|]. apply Qlt_le_weak, Qmult_lt_0_compat; assumption.
Qed.

(** A closed covered call whose cover was sold, and whose restore nobody cancelled. *)
Definition may_restore (g : TradeGroup) : Prop :=
  g.(status) = "closed" /\ is_covered_call_group g = true /\ lower g.(spot_exit_status) = "filled" /\
  spot_restore_operator_cancelled g = false /\ group_has_itm_spot_exit_fills g = true.

Lemma ladder_step (b : bool) x (rest : bool * string) why : (if b then (false, x) else rest) = (true, why) -> b = false /\ rest = (true, why).
Proof. destruct b; [discriminate | auto]. Qed.

(** Down a ladder of refusals. *)
Ltac down_ladder E := repeat (apply ladder_step in E; let C := fresh "C" in destruct E as [C E]).

Lemma may_restore_of g : negb (String.eqb g.(status) "closed") || negb (is_covered_call_group g) = false -> negb (String.eqb (lower g.(spot_exit_status)) "filled") = false ->
  spot_restore_operator_cancelled g = false -> negb (group_has_itm_spot_exit_fills g) = false -> may_restore g.
Proof.
  intros A B C D. apply orb_false_iff in A. destruct A as [A1 A2]. apply negb_false_iff in A1, A2, B, D.
  split; [now apply String.eqb_eq|]. split; [exact A2|]. split; [now apply String.eqb_eq|]. split; assumption.
Qed.

Lemma edge_below_one edge : 0 <= restore_edge edge /\ restore_edge edge < 1.
Proof.
  unfold restore_edge. set (x := if edge >? 0 then edge else 0). assert (P : 0 <= x) by (unfold x; destruct (dltb_spec 0 edge); lra).
  destruct (dleb_spec 1 x); [split; [vm_compute; discriminate | reflexivity] | lra].
Qed.

Lemma net_positive u p r k : (r ⊖ (u ⊗ p ⊗ k) <=? 0) = false -> u ⊗ p ⊗ k < r.
Proof. intros H. apply dleb_false in H. apply Qnot_le_lt. intros C. pose proof (dsub_nonpos _ _ C). lra. Qed.

