(* ===== verification/FeeLedger.v ===== *)
(** The fee ledger of an investor ([fee_snapshot_store.py]): snapshots of what the accounts
    are worth, the high-water mark, the settlements of fees and the deposits the first mark
    was set from. A table is the list of its rows, and a statement of SQL a function on it;
    decimals are stored as exact text and so as themselves. *)

From S2P Require Import Prelude Sorting Dec PyStr StateJson.
Local Open Scope Q_scope.
Local Open Scope bool_scope.
Local Open Scope list_scope.

(** ** Rows *)

Record NavSnapshotRow : Type := {
  snapshot_id : Z;
  snapshot_ts_ms : Z;
  snapshot_investor : string;
  snapshot_kind : string;
  total_equity_usdc : Q;
  snapshot_collateral_spot : Q;
  snapshot_nav_perf : Q;
  snapshot_aum_mgmt : Q;
  index_btc_usd : Q;
  index_eth_usd : Q;
  snapshot_spot_btc : Q;
  snapshot_spot_eth : Q;
  equity_by_book : dict Q;
  notes : option string;
  wallet_native_by_book : dict Q;
}.

Record FlowBaselineRow : Type := {
  baseline_investor : string;
  cumulative_net_flow_usdc : Q;
  initial_hwm_nav_perf : Q;
  net_flow_native_by_book : dict Q;
  start_timestamp_ms : Z;
  end_timestamp_ms : Z;
  entry_count : Z;
  bootstrapped_at_ms : Z;
  source : string;
}.

Record FeeSettlementRow : Type := {
  settlement_id : Z;
  settlement_investor : string;
  period : string;
  period_start_ms : Z;
  period_end_ms : Z;
  hwm_start : Q;
  nav_perf_start : Q;
  nav_perf_end : Q;
  net_flow_usdc : Q;
  distributable_profit : Q;
  performance_fee : Q;
  hwm_end : Q;
  avg_aum_mgmt : Q;
  management_fee : Q;
  settled_at_ms : Z;
}.

Record hwm_row : Type := {
  hwm_nav_perf : Q;
  updated_at_ms : Z;
  last_settlement_period : option string;
}.

(** The database; [AUTOINCREMENT] counters never go back. *)
Record fee_db : Type := {
  nav_snapshots : list NavSnapshotRow;
  next_snapshot : Z;
  hwm_state : dict hwm_row;
  fee_settlements : list FeeSettlementRow;
  next_settlement : Z;
  flow_baseline : dict FlowBaselineRow;
}.

Definition empty_db : fee_db :=
  {| nav_snapshots := []; next_snapshot := 1; hwm_state := []; fee_settlements := []; next_settlement := 1; flow_baseline := [] |}.

Definition set_nav_snapshots (rows : list NavSnapshotRow) (next : Z) (db : fee_db) : fee_db :=
  {| nav_snapshots := rows; next_snapshot := next; hwm_state := db.(hwm_state); fee_settlements := db.(fee_settlements);
     next_settlement := db.(next_settlement); flow_baseline := db.(flow_baseline) |}.
Definition set_hwm_state (marks : dict hwm_row) (db : fee_db) : fee_db :=
  {| nav_snapshots := db.(nav_snapshots); next_snapshot := db.(next_snapshot); hwm_state := marks; fee_settlements := db.(fee_settlements);
     next_settlement := db.(next_settlement); flow_baseline := db.(flow_baseline) |}.
Definition set_fee_settlements (rows : list FeeSettlementRow) (next : Z) (db : fee_db) : fee_db :=
  {| nav_snapshots := db.(nav_snapshots); next_snapshot := db.(next_snapshot); hwm_state := db.(hwm_state); fee_settlements := rows;
     next_settlement := next; flow_baseline := db.(flow_baseline) |}.
Definition set_flow_baseline (rows : dict FlowBaselineRow) (db : fee_db) : fee_db :=
  {| nav_snapshots := db.(nav_snapshots); next_snapshot := db.(next_snapshot); hwm_state := db.(hwm_state); fee_settlements := db.(fee_settlements);
     next_settlement := db.(next_settlement); flow_baseline := rows |}.

(** ** Programs on the database

    What was written before an exception stays. *)

Definition F (A : Type) : Type := fee_db -> fee_db * outcome A.
Definition fret {A} (a : A) : F A := fun db => (db, Ret a).
Definition fraise {A} (e : exn) : F A := fun db => (db, Exn e).
Definition flift {A} (o : outcome A) : F A := fun db => (db, o).
Definition read {A} (f : fee_db -> A) : F A := fun db => (db, Ret (f db)).
Definition write (f : fee_db -> fee_db) : F unit := fun db => (f db, Ret tt).
Definition fbind {A B} (m : F A) (k : A -> F B) : F B :=
  fun db => match m db with
            | (db', Ret a) => k a db'
            | (db', Exn e) => (db', Exn e)
            | (db', OutOfFuel) => (db', OutOfFuel)
            end.

Declare Scope ledger_scope.
Delimit Scope ledger_scope with ledger.
Notation "'let^' x ':=' m 'in' k" := (fbind m (fun x => k))
  (at level 10, x pattern, m at level 100, k at level 200) : ledger_scope.
Local Open Scope ledger_scope.

(** ** Snapshots *)

(** [json.dumps] of the sorted items, and reading it back with upper-case keys. *)
Definition json_books (d : dict Q) : dict Q := stable_sort (fun x y => String.ltb (fst x) (fst y)) d.
Definition read_books (d : dict Q) : dict Q := fold_left (fun out '(k, v) => dict_set (upper k) v out) d [].

Definition _row_to_snapshot (r : NavSnapshotRow) : NavSnapshotRow :=
  {| snapshot_id := r.(snapshot_id); snapshot_ts_ms := r.(snapshot_ts_ms); snapshot_investor := r.(snapshot_investor); snapshot_kind := r.(snapshot_kind);
     total_equity_usdc := r.(total_equity_usdc); snapshot_collateral_spot := r.(snapshot_collateral_spot); snapshot_nav_perf := r.(snapshot_nav_perf);
     snapshot_aum_mgmt := r.(snapshot_aum_mgmt); index_btc_usd := r.(index_btc_usd); index_eth_usd := r.(index_eth_usd);
     snapshot_spot_btc := r.(snapshot_spot_btc); snapshot_spot_eth := r.(snapshot_spot_eth); equity_by_book := read_books r.(equity_by_book);
     notes := r.(notes); wallet_native_by_book := read_books r.(wallet_native_by_book) |}.

Definition append_snapshot (ts_ms : Z) (investor_id kind : string) (equity collateral_spot nav aum index_btc index_eth spot_btc spot_eth : Q)
    (equity_books wallet_books : dict Q) (note : option string) : F Z := fun db =>
  let id := db.(next_snapshot) in
  let row := {| snapshot_id := id; snapshot_ts_ms := ts_ms; snapshot_investor := investor_id; snapshot_kind := kind; total_equity_usdc := equity;
                snapshot_collateral_spot := collateral_spot; snapshot_nav_perf := nav; snapshot_aum_mgmt := aum; index_btc_usd := index_btc;
                index_eth_usd := index_eth; snapshot_spot_btc := spot_btc; snapshot_spot_eth := spot_eth; equity_by_book := json_books equity_books;
                notes := note; wallet_native_by_book := json_books wallet_books |} in
  (set_nav_snapshots (db.(nav_snapshots) ++ [row]) (id + 1) db, Ret id).

(** [DELETE]; the number of rows deleted. *)
Definition purge_older_than (cutoff_ms : Z) (investor_id : option string) : F Z := fun db =>
  let old r := (r.(snapshot_ts_ms) <? cutoff_ms)%Z && match investor_id with Some i => String.eqb r.(snapshot_investor) i | None => true end in
  (set_nav_snapshots (filter (fun r => negb (old r)) db.(nav_snapshots)) db.(next_snapshot) db,
   Ret (Z.of_nat (List.length (filter old db.(nav_snapshots))))).

(** [ORDER BY ... LIMIT 1] *)
Definition first_by {A} (before : A -> A -> bool) (l : list A) : option A := match stable_sort before l with [] => None | x :: _ => Some x end.

(** [ts_ms DESC, id DESC] *)
Definition later (a b : NavSnapshotRow) : bool :=
  (b.(snapshot_ts_ms) <? a.(snapshot_ts_ms))%Z || ((a.(snapshot_ts_ms) =? b.(snapshot_ts_ms))%Z && (b.(snapshot_id) <? a.(snapshot_id))%Z).
(** [ts_ms ASC, id ASC] *)
Definition earlier (a b : NavSnapshotRow) : bool := later b a.
(** [ABS(ts_ms - ?) ASC, id DESC] *)
Definition distance (target : Z) (r : NavSnapshotRow) : Z := Z.abs (r.(snapshot_ts_ms) - target).
Definition nearer_snapshot (target : Z) (a b : NavSnapshotRow) : bool :=
  (distance target a <? distance target b)%Z || ((distance target a =? distance target b)%Z && (b.(snapshot_id) <? a.(snapshot_id))%Z).

Definition of_investor (investor_id : string) (db : fee_db) : list NavSnapshotRow :=
  filter (fun r => String.eqb r.(snapshot_investor) investor_id) db.(nav_snapshots).

Definition latest_snapshot (investor_id : string) (db : fee_db) : option NavSnapshotRow :=
  option_map _row_to_snapshot (first_by later (of_investor investor_id db)).

Definition latest_snapshot_before (investor_id : string) (before_ts_ms : Z) (db : fee_db) : option NavSnapshotRow :=
  option_map _row_to_snapshot (first_by later (filter (fun r => (r.(snapshot_ts_ms) <? before_ts_ms)%Z) (of_investor investor_id db))).

(** A snapshot too far from the target counts as none. *)
Definition close_enough (target : Z) (max_delta_ms : option Z) (snap : option NavSnapshotRow) : option NavSnapshotRow :=
  match snap, max_delta_ms with
  | Some r, Some d => if (distance target r >? d)%Z then None else Some r
  | _, _ => snap
  end.

Definition snapshot_nearest (investor_id : string) (target : Z) (max_delta_ms : option Z) (db : fee_db) : option NavSnapshotRow :=
  close_enough target max_delta_ms (option_map _row_to_snapshot (first_by (nearer_snapshot target) (of_investor investor_id db))).

Definition snapshot_nearest_with_wallet_balances (investor_id : string) (target : Z) (max_delta_ms : option Z) (db : fee_db) : option NavSnapshotRow :=
  close_enough target max_delta_ms
    (option_map _row_to_snapshot
       (first_by (nearer_snapshot target) (filter (fun r => match r.(wallet_native_by_book) with [] => false | _ => true end) (of_investor investor_id db)))).

Definition snapshots_in_range (investor_id : string) (start_ms end_ms : Z) (db : fee_db) : list NavSnapshotRow :=
  map _row_to_snapshot
    (stable_sort earlier
       (filter (fun r => (start_ms <=? r.(snapshot_ts_ms))%Z && (r.(snapshot_ts_ms) <=? end_ms)%Z) (of_investor investor_id db))).

(** ** The high-water mark and the deposits it began with *)

Definition load_hwm (investor_id : string) (db : fee_db) : option Q := option_map hwm_nav_perf (dict_get investor_id db.(hwm_state)).

Definition save_hwm (investor_id : string) (mark : Q) (at_ms : Z) (last_period : option string) : F unit :=
  write (fun db => set_hwm_state (dict_set investor_id {| hwm_nav_perf := mark; updated_at_ms := at_ms; last_settlement_period := last_period |} db.(hwm_state)) db).

Definition _row_to_flow_baseline (r : FlowBaselineRow) : FlowBaselineRow :=
  {| baseline_investor := r.(baseline_investor); cumulative_net_flow_usdc := r.(cumulative_net_flow_usdc); initial_hwm_nav_perf := r.(initial_hwm_nav_perf);
     net_flow_native_by_book := read_books r.(net_flow_native_by_book); start_timestamp_ms := r.(start_timestamp_ms);
     end_timestamp_ms := r.(end_timestamp_ms); entry_count := r.(entry_count); bootstrapped_at_ms := r.(bootstrapped_at_ms); source := r.(source) |}.

Definition load_flow_baseline (investor_id : string) (db : fee_db) : option FlowBaselineRow :=
  option_map _row_to_flow_baseline (dict_get investor_id db.(flow_baseline)).

Definition save_flow_baseline (row : FlowBaselineRow) : F unit :=
  write (fun db => set_flow_baseline (dict_set row.(baseline_investor)
    {| baseline_investor := row.(baseline_investor); cumulative_net_flow_usdc := row.(cumulative_net_flow_usdc);
       initial_hwm_nav_perf := row.(initial_hwm_nav_perf); net_flow_native_by_book := json_books row.(net_flow_native_by_book);
       start_timestamp_ms := row.(start_timestamp_ms); end_timestamp_ms := row.(end_timestamp_ms); entry_count := row.(entry_count);
       bootstrapped_at_ms := row.(bootstrapped_at_ms); source := row.(source) |} db.(flow_baseline)) db).

(** ** Settlements *)

Definition same_period (investor_id key : string) (r : FeeSettlementRow) : bool := String.eqb r.(settlement_investor) investor_id && String.eqb r.(period) key.

Definition settlement_for_period (investor_id key : string) (db : fee_db) : option FeeSettlementRow := find (same_period investor_id key) db.(fee_settlements).

Definition list_settlements (investor_id : string) (db : fee_db) : list FeeSettlementRow :=
  stable_sort (fun a b => String.ltb a.(period) b.(period)) (filter (fun r => String.eqb r.(settlement_investor) investor_id) db.(fee_settlements)).

Definition with_settlement_id (id : Z) (r : FeeSettlementRow) : FeeSettlementRow :=
  {| settlement_id := id; settlement_investor := r.(settlement_investor); period := r.(period); period_start_ms := r.(period_start_ms);
     period_end_ms := r.(period_end_ms); hwm_start := r.(hwm_start); nav_perf_start := r.(nav_perf_start); nav_perf_end := r.(nav_perf_end);
     net_flow_usdc := r.(net_flow_usdc); distributable_profit := r.(distributable_profit); performance_fee := r.(performance_fee);
     hwm_end := r.(hwm_end); avg_aum_mgmt := r.(avg_aum_mgmt); management_fee := r.(management_fee); settled_at_ms := r.(settled_at_ms) |}.

(** [ON CONFLICT(investor_id, period) DO UPDATE]: the row keeps its id. *)
Definition save_settlement (row : FeeSettlementRow) : F unit :=
  let same := same_period row.(settlement_investor) row.(period) in
  write (fun db =>
    if existsb same db.(fee_settlements)
    then set_fee_settlements (map (fun r => if same r then with_settlement_id r.(settlement_id) row else r) db.(fee_settlements)) db.(next_settlement) db
    else set_fee_settlements (db.(fee_settlements) ++ [with_settlement_id db.(next_settlement) row]) (db.(next_settlement) + 1) db).

(** ** What the queries answer *)

Section FirstBy.
Context {A : Type} (before : A -> A -> bool).
Hypothesis Asymmetric : forall x y, before x y = true -> ordered before x y.
Hypothesis Transitive : forall x y z, ordered before x y -> ordered before y z -> ordered before x z.

Lemma first_by_none l : first_by before l = None -> l = [].
Proof.
  unfold first_by. pose proof (stable_sort_perm before l) as P. destruct (stable_sort before l); [|discriminate]. intros _.
  now apply Permutation_sym, Permutation_nil in P.
Qed.

Lemma first_by_some l x : first_by before l = Some x -> In x l /\ (forall y, In y l -> before y x = false).
Proof.
  unfold first_by. pose proof (stable_sort_perm before l) as P. pose proof (stable_sort_sorted before Asymmetric Transitive l) as S.
  destruct (stable_sort before l) as [|z r] eqn:E; [discriminate|]. intros K. injection K as ->. inversion S as [|? ? _ Fa]; subst.
  split; [eapply Permutation_in; [apply Permutation_sym; exact P | now left]|]. intros y H. apply (Permutation_in _ P) in H.
  destruct H as [->|H].
  - destruct (before y y) eqn:B; [|reflexivity]. pose proof (Asymmetric _ _ B) as C. unfold ordered in C. congruence.
  - rewrite Forall_forall in Fa. exact (Fa y H).
Qed.
End FirstBy.

Lemma later_asymmetric x y : later x y = true -> ordered later x y.
Proof. unfold ordered, later. rewrite orb_true_iff, orb_false_iff, !andb_true_iff, !andb_false_iff, !Z.ltb_lt, !Z.ltb_ge, !Z.eqb_eq, !Z.eqb_neq. lia. Qed.

Lemma later_transitive x y z : ordered later x y -> ordered later y z -> ordered later x z.
Proof. unfold ordered, later. rewrite !orb_false_iff, !andb_false_iff, !Z.ltb_ge, !Z.eqb_neq. lia. Qed.

Lemma nearer_asymmetric t x y : nearer_snapshot t x y = true -> ordered (nearer_snapshot t) x y.
Proof. unfold ordered, nearer_snapshot. rewrite orb_true_iff, orb_false_iff, !andb_true_iff, !andb_false_iff, !Z.ltb_lt, !Z.ltb_ge, !Z.eqb_eq, !Z.eqb_neq. lia. Qed.

Lemma nearer_transitive t x y z : ordered (nearer_snapshot t) x y -> ordered (nearer_snapshot t) y z -> ordered (nearer_snapshot t) x z.
Proof. unfold ordered, nearer_snapshot. rewrite !orb_false_iff, !andb_false_iff, !Z.ltb_ge, !Z.eqb_neq. lia. Qed.

Lemma of_investor_in i db r : In r (of_investor i db) <-> In r db.(nav_snapshots) /\ r.(snapshot_investor) = i.
Proof. unfold of_investor. rewrite filter_In, String.eqb_eq. reflexivity. Qed.
