(* ===== verification/Subscriptions.v ===== *)
(** Money an investor put in and took out ([investor_cash_flow.py]): the deposits,
    withdrawals and transfers in the transaction logs of all accounts, their value in
    dollars, and the high-water mark they begin with. *)

From S2P Require Import Prelude Sorting Dec PyStr Utils PyObj StateJson Market VolMetrics EntryGates DayState.
Local Open Scope Q_scope.
Local Open Scope dec_scope.
Local Open Scope bool_scope.
Local Open Scope outcome_scope.
Local Open Scope list_scope.

(** ** Accounts

    An account of the investor with the keys and the transaction log of its login. *)
Record api_account : Type := {
  slug : string;
  client_id : string;
  client_secret : string;
  account_log : TransactionLog;
}.

Definition _api_identity_key (a : api_account) : string :=
  (lower (strip a.(client_id)) ++ String (ascii_of_nat 0) (strip a.(client_secret)))%string.

(** Accounts that share a login, in the order of their first. *)
Definition _group_accounts_by_api_identity (accounts : list api_account) : dict (list api_account) :=
  fold_left (fun buckets a => dict_set (_api_identity_key a) (get_or (_api_identity_key a) [] buckets ++ [a]) buckets) accounts [].

Definition _FEE_FLOW_BOOKS : list string := ["BTC"; "ETH"; "USDC"; "USDT"]%string.
Definition _FEE_REPORT_BOOK_ORDER : list string := ["BTC"; "ETH"; "USDC"; "USDT"]%string.

(** ** Values in dollars *)

Definition native_book_amount_to_usdc (amount_native : Q) (book : string) (index_by_ccy : dict Q) : Q :=
  if mem_str book ["USDC"; "USDT"]%string then amount_native else amount_native ⊗ get_or book 0 index_by_ccy.

Definition in_order (l : list string) : list string := stable_sort String.ltb l.

Definition ordered_net_flow_books (native_by_book : dict Q) : list string :=
  filter (fun book => mem_str book (map fst native_by_book)) _FEE_REPORT_BOOK_ORDER
  ++ in_order (filter (fun book => negb (mem_str book _FEE_REPORT_BOOK_ORDER)) (map fst native_by_book)).

Definition _sum_books_to_usdc (native_by_book : dict Q) (books : list string) (index_by_ccy : dict Q) : Q :=
  dsum (map (fun book => native_book_amount_to_usdc (get_or book 0 native_by_book) book index_by_ccy) books).

Definition initial_hwm_from_net_flow (cumulative collateral_spot : Q) : Q := dmax 0 (cumulative ⊖ collateral_spot).

(** [(btc_native, eth_native, spot_deduction_usdc, initial_hwm_nav_perf)] *)
Definition initial_spot_deduction_usdc (net_flow_native_by_book index_by_ccy : dict Q) : Q * Q * Q * Q :=
  let btc_native := get_or "BTC"%string 0 net_flow_native_by_book in
  let eth_native := get_or "ETH"%string 0 net_flow_native_by_book in
  let spot := native_book_amount_to_usdc btc_native "BTC" index_by_ccy ⊕ native_book_amount_to_usdc eth_native "ETH" index_by_ccy in
  let cumulative := _sum_books_to_usdc net_flow_native_by_book (ordered_net_flow_books net_flow_native_by_book) index_by_ccy in
  (btc_native, eth_native, spot, dmax 0 (cumulative ⊖ spot)).

(** ** Where the logs begin *)

(** [datetime.strptime(text, "%Y-%m-%d")] in UTC, in milliseconds. *)
Definition parse_day_ms (text : string) : outcome Z :=
  match split_on "-" text EmptyString with
  | [ys; ms; ds] =>
      match digits_field 4 4 ys, digits_field 1 2 ms, day_field ds with
      | Some y, Some m, Some d =>
          if ((1 <=? y) && (1 <=? m) && (m <=? 12) && (1 <=? d) && (d <=? days_in_month y m))%Z
          then Ret (days_from_civil y m d * day_ms)%Z else Exn ValueError
      | _, _, _ => Exn ValueError
      end
  | _ => Exn ValueError
  end.

Definition default_fee_flow_start_ms : Z := (days_from_civil 2026 1 1 * day_ms)%Z.

Definition effective_fee_flow_start_ms (start_timestamp_ms : Z) : Z := if (start_timestamp_ms <=? 0)%Z then default_fee_flow_start_ms else start_timestamp_ms.

Definition parse_fee_flow_start_ms (values : dict (option string)) : outcome Z :=
  match get_or "FEE_FLOW_START_DATE"%string None values with
  | None => Ret default_fee_flow_start_ms
  | Some raw => if truthy (strip raw) then parse_day_ms (strip raw) else Ret default_fee_flow_start_ms
  end.

(** ** Rows of the logs *)

Record SubscriptionFlowLine : Type := {
  identity_label : string;
  line_client_id : string;
  line_book : string;
  line_timestamp_ms : Z;
  flow_type : string;
  amount_native : Q;
  usdc_equiv : Q;
  included_in_subscription : bool;
}.

Definition _counts_toward_subscription (e : TransactionEntry) : bool := mem_str e.(transaction_type) ["deposit"; "withdrawal"; "transfer"]%string.

Definition _flow_type_label (e : TransactionEntry) : string :=
  if String.eqb e.(transaction_type) "transfer"
  then if e.(transaction_amount) >? 0 then "transfer_in"%string else if e.(transaction_amount) <? 0 then "transfer_out"%string else "transfer"%string
  else e.(transaction_type).

(** [TransactionEntry.from_api(payload)] *)
Definition log_entry (payload : pyobj) : outcome TransactionEntry :=
  match payload with PDict d => transaction_from_api (fun key => dget key d) | _ => Exn AttributeError end.

Section Flows.
Variable index_by_ccy : dict Q.

Definition flow_line (label client book : string) (e : TransactionEntry) : SubscriptionFlowLine :=
  {| identity_label := label; line_client_id := client; line_book := book; line_timestamp_ms := e.(transaction_timestamp);
     flow_type := _flow_type_label e; amount_native := e.(transaction_amount);
     usdc_equiv := native_book_amount_to_usdc e.(transaction_amount) book index_by_ccy; included_in_subscription := _counts_toward_subscription e |}.

Fixpoint book_lines (label client book : string) (rows : list pyobj) : outcome (list SubscriptionFlowLine) :=
  match rows with
  | [] => Ret []
  | payload :: rest =>
      let! e := log_entry payload in
      let! lines := book_lines label client book rest in
      Ret (if mem_str e.(transaction_type) ["deposit"; "withdrawal"; "transfer"]%string then flow_line label client book e :: lines else lines)
  end.

Fixpoint _collect_identity_flow_lines (label : string) (a : api_account) (books : list string) (start_ms end_ms : Z) : outcome (list SubscriptionFlowLine) :=
  match books with
  | [] => Ret []
  | book :: rest =>
      let! rows := @iter_transaction_log a.(account_log) book start_ms end_ms in
      let! lines := book_lines label (strip a.(client_id)) book rows in
      let! more := _collect_identity_flow_lines label a rest start_ms end_ms in
      Ret (lines ++ more)
  end.

Definition label_of (accounts : list api_account) : string := join "," (map slug accounts).

Fixpoint identity_lines (groups : dict (list api_account)) (start_ms end_ms : Z) : outcome (list SubscriptionFlowLine) :=
  match groups with
  | [] => Ret []
  | (_, []) :: _ => Exn IndexError
  | (_, (a :: _) as accounts) :: rest =>
      let! lines := _collect_identity_flow_lines (label_of accounts) a _FEE_FLOW_BOOKS start_ms end_ms in
      let! more := identity_lines rest start_ms end_ms in
      Ret (lines ++ more)
  end.

(** The order of [(timestamp_ms, identity_label, book, flow_type)]. *)
Definition line_before (a b : SubscriptionFlowLine) : bool :=
  let then_by (x y : string) (next : bool) := String.ltb x y || (String.eqb x y && next) in
  (a.(line_timestamp_ms) <? b.(line_timestamp_ms))%Z
  || ((a.(line_timestamp_ms) =? b.(line_timestamp_ms))%Z
      && then_by a.(identity_label) b.(identity_label)
           (then_by a.(line_book) b.(line_book) (String.ltb a.(flow_type) b.(flow_type)))).

Definition fetch_subscription_flow_lines (accounts : list api_account) (start_ms end_ms : Z) : outcome (list SubscriptionFlowLine) :=
  match _group_accounts_by_api_identity accounts with
  | [] => Exn RuntimeError
  | groups => let! lines := identity_lines groups start_ms end_ms in Ret (stable_sort line_before lines)
  end.

(** ** Flows of a period by kind *)

Record FlowPeriodSummary : Type := {
  deposit_usdc : Q;
  withdrawal_usdc : Q;
  transfer_in_usdc : Q;
  transfer_out_usdc : Q;
  net_subscription_usdc : Q;
  line_count : Z;
  deposit_count : Z;
  withdrawal_count : Z;
  transfer_count : Z;
}.

Definition included_lines (lines : list SubscriptionFlowLine) : list SubscriptionFlowLine := filter included_in_subscription lines.
Definition net_of (lines : list SubscriptionFlowLine) : Q := dsum (map usdc_equiv (included_lines lines)).

Definition magnitude (q : Q) : Q := if q <? 0 then dneg q else q.

Definition add_line (s : FlowPeriodSummary) (l : SubscriptionFlowLine) : FlowPeriodSummary :=
  let make d w i o nd nw nt :=
    {| deposit_usdc := d; withdrawal_usdc := w; transfer_in_usdc := i; transfer_out_usdc := o; net_subscription_usdc := s.(net_subscription_usdc);
       line_count := s.(line_count) + 1; deposit_count := nd; withdrawal_count := nw; transfer_count := nt |} in
  let '(d, w, i, o) := (s.(deposit_usdc), s.(withdrawal_usdc), s.(transfer_in_usdc), s.(transfer_out_usdc)) in
  let '(nd, nw, nt) := (s.(deposit_count), s.(withdrawal_count), s.(transfer_count)) in
  let usdc := l.(usdc_equiv) in
  if String.eqb l.(flow_type) "deposit" then make (d ⊕ usdc) w i o (nd + 1)%Z nw nt
  else if String.eqb l.(flow_type) "withdrawal" then make d (w ⊕ magnitude usdc) i o nd (nw + 1)%Z nt
  else if String.eqb l.(flow_type) "transfer_in" then make d w (i ⊕ usdc) o nd nw (nt + 1)%Z
  else if String.eqb l.(flow_type) "transfer_out" then make d w i (o ⊕ magnitude usdc) nd nw (nt + 1)%Z
  else if usdc >? 0 then make (d ⊕ usdc) w i o (nd + 1)%Z nw nt
  else if usdc <? 0 then make d (w ⊕ magnitude usdc) i o nd (nw + 1)%Z nt
  else make d w i o nd nw nt.

Definition summarize_subscription_flow_lines (lines : list SubscriptionFlowLine) : FlowPeriodSummary :=
  fold_left add_line (included_lines lines)
    {| deposit_usdc := 0; withdrawal_usdc := 0; transfer_in_usdc := 0; transfer_out_usdc := 0; net_subscription_usdc := net_of lines;
       line_count := 0; deposit_count := 0; withdrawal_count := 0; transfer_count := 0 |}.

(** ** Everything put in since the beginning *)

Record ApiIdentityFlow : Type := {
  flow_label : string;
  flow_client_id : string;
  subscription_native_by_book : dict Q;
  transfer_native_by_book : dict Q;
  flow_deposits : Z;
  flow_withdrawals : Z;
  flow_transfers : Z;
}.

Definition count_entry (book : string) (f : ApiIdentityFlow) (e : TransactionEntry) : ApiIdentityFlow :=
  if _counts_toward_subscription e then
    let deposit := String.eqb e.(transaction_type) "deposit" in
    let withdrawal := String.eqb e.(transaction_type) "withdrawal" in
    {| flow_label := f.(flow_label); flow_client_id := f.(flow_client_id);
       subscription_native_by_book := dict_set book (get_or book 0 f.(subscription_native_by_book) ⊕ e.(transaction_amount)) f.(subscription_native_by_book);
       transfer_native_by_book := f.(transfer_native_by_book);
       flow_deposits := f.(flow_deposits) + (if deposit then 1 else 0);
       flow_withdrawals := f.(flow_withdrawals) + (if negb deposit && withdrawal then 1 else 0);
       flow_transfers := f.(flow_transfers) + (if negb deposit && negb withdrawal then 1 else 0) |}
  else if String.eqb e.(transaction_type) "transfer" then
    {| flow_label := f.(flow_label); flow_client_id := f.(flow_client_id); subscription_native_by_book := f.(subscription_native_by_book);
       transfer_native_by_book := dict_set book (get_or book 0 f.(transfer_native_by_book) ⊕ e.(transaction_amount)) f.(transfer_native_by_book);
       flow_deposits := f.(flow_deposits); flow_withdrawals := f.(flow_withdrawals); flow_transfers := f.(flow_transfers) |}
  else f.

Fixpoint count_rows (book : string) (f : ApiIdentityFlow) (rows : list pyobj) : outcome ApiIdentityFlow :=
  match rows with
  | [] => Ret f
  | payload :: rest => let! e := log_entry payload in count_rows book (count_entry book f e) rest
  end.

Fixpoint count_books (a : api_account) (books : list string) (start_ms end_ms : Z) (f : ApiIdentityFlow) : outcome ApiIdentityFlow :=
  match books with
  | [] => Ret f
  | book :: rest =>
      let! rows := @iter_transaction_log a.(account_log) book start_ms end_ms in
      let! f := count_rows book f rows in
      count_books a rest start_ms end_ms f
  end.

Definition no_flow (books : list string) : dict Q := map (fun book => (book, 0)) books.

Definition _fetch_identity_flow (label : string) (a : api_account) (books : list string) (start_ms end_ms : Z) : outcome ApiIdentityFlow :=
  count_books a books start_ms end_ms
    {| flow_label := label; flow_client_id := strip a.(client_id); subscription_native_by_book := no_flow books;
       transfer_native_by_book := no_flow books; flow_deposits := 0; flow_withdrawals := 0; flow_transfers := 0 |}.

Fixpoint identity_flows (groups : dict (list api_account)) (start_ms end_ms : Z) : outcome (list ApiIdentityFlow) :=
  match groups with
  | [] => Ret []
  | (_, []) :: _ => Exn IndexError
  | (_, (a :: _) as accounts) :: rest =>
      let! f := _fetch_identity_flow (label_of accounts) a _FEE_FLOW_BOOKS start_ms end_ms in
      let! more := identity_flows rest start_ms end_ms in
      Ret (f :: more)
  end.

Record CumulativeNetFlow : Type := {
  cumulative_usdc : Q;
  cumulative_native_by_book : dict Q;
  cumulative_start_ms : Z;
  cumulative_end_ms : Z;
  cumulative_entries : Z;
  by_api_identity : list ApiIdentityFlow;
  cumulative_transfers : dict Q;
}.

(** [d[book] = d.get(book, 0) + amount] for every item of [more]. *)
Definition add_books (d more : dict Q) : dict Q := fold_left (fun d '(book, amount) => dict_set book (get_or book 0 d ⊕ amount) d) more d.

Definition fetch_cumulative_net_flow_usdc (accounts : list api_account) (start_ms end_ms : Z) : outcome CumulativeNetFlow :=
  match _group_accounts_by_api_identity accounts with
  | [] => Exn RuntimeError
  | groups =>
      let! flows := identity_flows groups start_ms end_ms in
      let books := in_order _FEE_FLOW_BOOKS in
      let net := fold_left (fun d f => add_books d f.(subscription_native_by_book)) flows (no_flow books) in
      Ret {| cumulative_usdc := _sum_books_to_usdc net books index_by_ccy; cumulative_native_by_book := net; cumulative_start_ms := start_ms;
             cumulative_end_ms := end_ms;
             cumulative_entries := fold_left (fun n f => n + (f.(flow_deposits) + f.(flow_withdrawals)))%Z flows 0%Z; by_api_identity := flows;
             cumulative_transfers := fold_left (fun d f => add_books d f.(transfer_native_by_book)) flows (no_flow books) |}
  end.
End Flows.
