(* ===== verification/InvestorFees.v ===== *)
(** Fees of an investor ([investor_nav_snapshot.py], [investor_fee_config.py], and the
    bases of the performance fee in [investor_fee_report_period.py]): what the accounts are
    worth without the coins the investor brought, the first high-water mark, and the
    settlement of a period in the fee ledger. *)

From S2P Require Import Prelude Sorting Dec PyStr Utils PyObj GroupJson StateJson Market VolMetrics EntryGates DayState FeeLedger Subscriptions.
Local Open Scope Q_scope.
Local Open Scope dec_scope.
Local Open Scope bool_scope.
Local Open Scope ledger_scope.
Local Open Scope list_scope.

(** ** Configuration *)

Record InvestorFeeConfig : Type := {
  collateral_spot_btc : Q;
  collateral_spot_eth : Q;
  performance_fee_rate : Q;
  management_fee_annual_rate : Q;
  config_initial_hwm : option Q;
}.

Definition _optional_decimal (values : dict (option string)) (key default : string) : Q :=
  match get_or key None values with
  | Some raw => if truthy (strip raw) then to_decimal (PStr raw) 0 else to_decimal (PStr default) 0
  | None => to_decimal (PStr default) 0
  end.

(** From the values of [.env.investor], none where there is no file. *)
Definition load_investor_fee_config (values : dict (option string)) : InvestorFeeConfig :=
  {| collateral_spot_btc := _optional_decimal values "COLLATERAL_SPOT_BTC" "0"; collateral_spot_eth := _optional_decimal values "COLLATERAL_SPOT_ETH" "0";
     performance_fee_rate := _optional_decimal values "PERFORMANCE_FEE_RATE" "0.10";
     management_fee_annual_rate := _optional_decimal values "MANAGEMENT_FEE_ANNUAL_RATE" "0.01";
     config_initial_hwm := match get_or "INITIAL_HWM_NAV_PERF"%string None values with
                           | Some raw => if truthy (strip raw) then Some (to_decimal (PStr raw) 0) else None
                           | None => None
                           end |}.

(** ** Net asset values *)

Definition NAV_BOOKS : list string := ["BTC"; "ETH"; "USDC"; "USDT"]%string.

Definition index_map (index_btc index_eth : Q) : dict Q := [("BTC"%string, index_btc); ("ETH"%string, index_eth)].
Definition index_map_stable (index_btc index_eth : Q) : dict Q :=
  [("BTC"%string, index_btc); ("ETH"%string, index_eth); ("USDC"%string, 1); ("USDT"%string, 1)].

Definition collateral_spot_usdc (c : InvestorFeeConfig) (index_btc index_eth : Q) : Q :=
  c.(collateral_spot_btc) ⊗ index_btc ⊕ c.(collateral_spot_eth) ⊗ index_eth.

(** The coins agreed on as the investor's own, from the configuration or the first deposits. *)
Definition resolve_agreed_spot_native (c : InvestorFeeConfig) (baseline : option FlowBaselineRow) : Q * Q * string :=
  if (c.(collateral_spot_btc) >? 0) || (c.(collateral_spot_eth) >? 0) then (c.(collateral_spot_btc), c.(collateral_spot_eth), "config"%string)
  else match baseline with
       | Some b => (dmax 0 (get_or "BTC"%string 0 b.(net_flow_native_by_book)), dmax 0 (get_or "ETH"%string 0 b.(net_flow_native_by_book)), "bootstrap_deposits"%string)
       | None => (0, 0, "none"%string)
       end.

Definition agreed_spot_usdc (btc eth index_btc index_eth : Q) : Q :=
  native_book_amount_to_usdc btc "BTC" (index_map index_btc index_eth) ⊕ native_book_amount_to_usdc eth "ETH" (index_map index_btc index_eth).

(** Balances without what positions occupy. *)
Definition wallet_native_by_book_from_accounts (accounts : list (string * pyobj)) : dict Q :=
  fold_left (fun out '(book, row) =>
    let key := upper book in
    match dict_get key out, row with
    | Some balance, PDict r =>
        let equity := to_decimal (obj_or (dget "equity" r) (PInt 0)) 0 in
        let initial_margin := to_decimal (obj_or (dget "initial_margin" r) (PInt 0)) 0 in
        dict_set key (balance ⊕ dmax 0 (equity ⊖ initial_margin)) out
    | _, _ => out
    end) accounts (no_flow NAV_BOOKS).

Definition snapshot_wallet_native_by_book (row : NavSnapshotRow) : dict Q :=
  match row.(wallet_native_by_book) with
  | [] => no_flow NAV_BOOKS
  | stored => map (fun book => (book, get_or book 0 stored)) NAV_BOOKS
  end.

Definition wallet_usdc_by_book (wallet_native : dict Q) (index_btc index_eth : Q) : dict Q :=
  map (fun book => (book, native_book_amount_to_usdc (get_or book 0 wallet_native) book (index_map_stable index_btc index_eth))) NAV_BOOKS.

Definition snapshot_has_wallet_balances (row : option NavSnapshotRow) : bool :=
  match row with None => false | Some r => existsb (fun '(_, v) => negb (v =? 0)) (snapshot_wallet_native_by_book r) end.

Definition snapshot_equity_native_by_book (row : NavSnapshotRow) : dict Q :=
  map (fun book =>
    let usdc := get_or book 0 row.(equity_by_book) in
    (book, if mem_str book ["USDC"; "USDT"]%string then usdc
           else let index := if String.eqb book "BTC" then row.(index_btc_usd) else row.(index_eth_usd) in
                if index >? 0 then usdc ⊘ index else 0)) NAV_BOOKS.

Record nav_breakdown : Type := {
  equity_native : dict Q;
  equity_usdc : dict Q;
  spot_btc_native : Q;
  spot_eth_native : Q;
  agreed_spot_source : string;
  spot_usdc : Q;
  nav_perf : Q;
  aum_mgmt : Q;
}.

Definition financial_breakdown_from_snapshot (row : NavSnapshotRow) (c : InvestorFeeConfig) (baseline : option FlowBaselineRow) : nav_breakdown :=
  let '(btc_spot, eth_spot, spot_source) := resolve_agreed_spot_native c baseline in
  let spot := agreed_spot_usdc btc_spot eth_spot row.(index_btc_usd) row.(index_eth_usd) in
  let nav := row.(total_equity_usdc) ⊖ spot in
  let native := snapshot_equity_native_by_book row in
  {| equity_native := native;
     equity_usdc := map (fun book => (book,
       if mem_str book ["USDC"; "USDT"]%string then get_or book 0 row.(equity_by_book)
       else native_book_amount_to_usdc (get_or book 0 native) book (index_map_stable row.(index_btc_usd) row.(index_eth_usd)))) NAV_BOOKS;
     spot_btc_native := btc_spot; spot_eth_native := eth_spot; agreed_spot_source := spot_source; spot_usdc := spot; nav_perf := nav; aum_mgmt := nav ⊕ spot |}.

(** [(collateral_spot_usdc, nav_perf, aum_mgmt)] *)
Definition nav_from_equity (total_equity : Q) (c : InvestorFeeConfig) (index_btc index_eth : Q) (baseline : option FlowBaselineRow) : Q * Q * Q :=
  let '(btc_spot, eth_spot, _) := resolve_agreed_spot_native c baseline in
  let spot := agreed_spot_usdc btc_spot eth_spot index_btc index_eth in
  let nav := total_equity ⊖ spot in
  (spot, nav, nav ⊕ spot).

(** ** Periods *)

(** [(year, quarter)] of ["YYYY-Q[1-4]"]. *)
Definition quarter_match (text : string) : option (Z * Z) :=
  match strip text with
  | String a (String b (String c (String d (String "-" (String "Q" (String q EmptyString)))))) =>
      let year := String a (String b (String c (String d EmptyString))) in
      if all_digits year && is_digit q && (1 <=? char_digit q)%Z && (char_digit q <=? 4)%Z then Some (digits_value 0 year, char_digit q) else None
  | _ => None
  end.

Definition is_quarter_period (text : string) : bool := match quarter_match text with Some _ => true | None => false end.

(** The first day of a quarter and the first day after it; [datetime] knows the years 1 to 9999. *)
Definition parse_quarter_period (text : string) : outcome (Z * Z) :=
  match quarter_match text with
  | None => Exn ValueError
  | Some (year, quarter) =>
      let start_month := ((quarter - 1) * 3 + 1)%Z in
      if (year <? 1)%Z || ((quarter =? 4)%Z && (9999 <=? year)%Z) then Exn ValueError
      else Ret (days_from_civil year start_month 1,
                if (quarter =? 4)%Z then days_from_civil (year + 1) 1 1 else days_from_civil year (start_month + 3) 1)
  end.

Definition quarter_start_ts_ms (text : string) : outcome Z := (let! days := parse_quarter_period text in Ret (fst days * day_ms)%Z)%outcome.

(** 23:59:59 of the last day. *)
Definition quarter_end_settlement_ts_ms (text : string) : outcome Z :=
  (let! days := parse_quarter_period text in Ret ((snd days - 1) * day_ms + 86399000)%Z)%outcome.

(** ["%Y%m%dT%H%M%SZ"], from the year 1000 on. *)
Definition stamp (ms : Z) : string :=
  let '(y, m, d) := civil_from_days (ms / day_ms) in
  let seconds := (ms mod day_ms / 1000)%Z in
  (print_nat y ++ two_digits m ++ two_digits d ++ "T" ++ two_digits (seconds / 3600) ++ two_digits (seconds mod 3600 / 60) ++ two_digits (seconds mod 60) ++ "Z")%string.

Definition period_label_from_ms (start_ms end_ms : Z) : string := (stamp start_ms ++ "_" ++ stamp end_ms)%string.

Definition period_duration_years (start_ms end_ms : Z) : outcome Q :=
  if (end_ms <=? start_ms)%Z then Exn ValueError else Ret (inject_Z (end_ms - start_ms) ⊘ 31557600000).

(** ** Bases of the performance fee *)

Record RealizedTradingPnl : Type := {
  options_pnl_usdc : Q;
  hedge_pnl_usdc : Q;
  closed_count : Z;
}.

Definition total_pnl_usdc (p : RealizedTradingPnl) : Q := p.(options_pnl_usdc) ⊕ p.(hedge_pnl_usdc).

Definition fee_basis_trading_profit_usdc (of_period lifetime : RealizedTradingPnl) : Q :=
  if dabs (total_pnl_usdc lifetime ⊖ total_pnl_usdc of_period) <? 0.01 then dmax 0 (total_pnl_usdc of_period) else dmax 0 (total_pnl_usdc lifetime).

(** [(distributable, performance fee)] *)
Definition compute_trading_profit_performance_fee (profit_usdc rate : Q) : Q * Q := (dmax 0 profit_usdc, dmax 0 profit_usdc ⊗ rate).

Definition compute_period_return_pct (nav_start net_flow realized : Q) : option Q :=
  let base := nav_start ⊕ net_flow ⊘ 2 in
  if base <=? 0 then None else Some ((realized ⊘ base) ⊗ 100).

(** The closed trades of an investor as the pages add them up ([realized_summary.py],
    [hedge_pnl.py]): the options between two times, how many closed, and the hedges since. *)
Class TradingRecord : Type := {
  options_pnl_between : Z -> Z -> dict Q -> outcome Q;
  trades_closed_between : Z -> Z -> outcome Z;
  hedge_pnl_since : option Z -> outcome Q;
}.

(** Of the period and of all time. *)
Definition build_realized_trading_pnl {T : TradingRecord} (start_ms end_ms : Z) (index_by_ccy : dict Q) : outcome (RealizedTradingPnl * RealizedTradingPnl) :=
  (let spot_index := filter (fun '(k, v) => mem_str k ["BTC"; "ETH"]%string && (v >? 0)) index_by_ccy in
   let! options := options_pnl_between start_ms end_ms spot_index in
   let! hedge := hedge_pnl_since (Some start_ms) in
   let! closed := trades_closed_between start_ms end_ms in
   let! lifetime_options := options_pnl_between 0 end_ms spot_index in
   let! lifetime_hedge := hedge_pnl_since None in
   let! lifetime_closed := trades_closed_between 0 end_ms in
   Ret ({| options_pnl_usdc := options; hedge_pnl_usdc := hedge; closed_count := closed |},
        {| options_pnl_usdc := lifetime_options; hedge_pnl_usdc := lifetime_hedge; closed_count := lifetime_closed |}))%outcome.

(** ** An investor and the account pages *)

(** [_aggregate_status] gathers the live figures of all accounts. *)
Record investor : Type := {
  investor_id : string;
  accounts : list api_account;
  has_api_accounts : bool;
  env_values : dict (option string);
  aggregate_status : outcome (list (string * pyobj));
}.

Record InvestorNavCapture : Type := {
  capture_ts_ms : Z;
  capture_equity : Q;
  capture_collateral_spot : Q;
  capture_nav_perf : Q;
  capture_aum_mgmt : Q;
  capture_index_btc : Q;
  capture_index_eth : Q;
  capture_equity_by_book : dict Q;
  capture_equity_native : dict Q;
  capture_wallet_native : dict Q;
}.

Definition py_items (v : pyobj) : outcome (list (string * pyobj)) :=
  match v with PDict d => Ret d | _ => if py_truthy v then Exn AttributeError else Ret [] end.

Section Investor.
Context {T : TradingRecord}.
Variable who : investor.
Let c : InvestorFeeConfig := load_investor_fee_config who.(env_values).

(** [row.get("equity") or "0"] of a row that may be missing. *)
Definition row_equity (row : pyobj) : outcome Q :=
  (let! r := py_items row in Ret (to_decimal (obj_or (dget "equity" r) (PStr "0")) 0))%outcome.

Fixpoint row_equities (rows : list (string * pyobj)) (out : dict Q) : outcome (dict Q) :=
  match rows with
  | [] => Ret out
  | (book, row) :: rest => (let! equity := row_equity row in row_equities rest (dict_set (upper book) equity out))%outcome
  end.

Definition with_stable (book : string) (equity : dict Q) (native : dict Q) : dict Q :=
  match dict_get book equity with Some v => dict_set book v native | None => native end.

Definition capture_investor_nav (now_ms : Z) : F InvestorNavCapture :=
  let^ baseline := read (load_flow_baseline who.(investor_id)) in
  if negb who.(has_api_accounts) then fraise RuntimeError
  else
    let^ status := flift who.(aggregate_status) in
    let^ portfolio := flift (py_items (dget "portfolio" status)) in
    let^ index := flift (py_items (dget "underlying_index_usd" status)) in
    let index_btc := to_decimal (obj_or (dget "BTC" index) (obj_or (dget "btc" index) (PStr "0"))) 0 in
    let index_eth := to_decimal (obj_or (dget "ETH" index) (obj_or (dget "eth" index) (PStr "0"))) 0 in
    let total := to_decimal (dget "total_equity_usdc" portfolio) 0 in
    let^ books := flift (py_items (dget "equity_by_book" portfolio)) in
    let equity := fold_left (fun out '(k, v) => dict_set (upper k) (to_decimal v 0) out) books [] in
    let^ rows := flift (py_items (dget "accounts" status)) in
    let^ native := flift (row_equities rows []) in
    let wallet := wallet_native_by_book_from_accounts rows in
    let native := fold_left (fun out book => setdefault book 0 out) NAV_BOOKS native in
    let native := with_stable "USDT" equity (with_stable "USDC" equity native) in
    let '(spot, nav, aum) := nav_from_equity total c index_btc index_eth baseline in
    fret {| capture_ts_ms := now_ms; capture_equity := total; capture_collateral_spot := spot; capture_nav_perf := nav; capture_aum_mgmt := aum;
            capture_index_btc := index_btc; capture_index_eth := index_eth; capture_equity_by_book := equity; capture_equity_native := native;
            capture_wallet_native := wallet |}.

(** ** The first high-water mark *)

Inductive bootstrap : Type :=
| FromConfig (mark : Q)
| FromLog (flow : CumulativeNetFlow) (mark : Q).

Definition settlement_index (index_btc index_eth : Q) : dict Q := [("BTC"%string, index_btc); ("ETH"%string, index_eth); ("USDC"%string, 1)].

Definition maybe_bootstrap_hwm_from_deposits (capture : InvestorNavCapture) (force : bool) (now_ms : Z) : F (option bootstrap) :=
  let id := who.(investor_id) in
  let^ known := read (fun db => match load_hwm id db, load_flow_baseline id db with None, None => false | _, _ => true end) in
  if negb force && known then fret None
  else
    match c.(config_initial_hwm) with
    | Some mark =>
        let^ _ := save_hwm id mark capture.(capture_ts_ms) None in
        fret (Some (FromConfig mark))
    | None =>
        let index := settlement_index capture.(capture_index_btc) capture.(capture_index_eth) in
        let^ flow := flift (match _group_accounts_by_api_identity who.(accounts) with
                            | [] => Exn RuntimeError
                            | _ => (let! start_ms := parse_fee_flow_start_ms who.(env_values) in
                                    fetch_cumulative_net_flow_usdc index who.(accounts) start_ms now_ms)%outcome
                            end) in
        let '(_, _, _, mark) := initial_spot_deduction_usdc flow.(cumulative_native_by_book) index in
        let^ _ := save_flow_baseline
          {| baseline_investor := id; cumulative_net_flow_usdc := flow.(cumulative_usdc); initial_hwm_nav_perf := mark;
             net_flow_native_by_book := flow.(cumulative_native_by_book); start_timestamp_ms := flow.(cumulative_start_ms);
             end_timestamp_ms := flow.(cumulative_end_ms); entry_count := flow.(cumulative_entries);
             bootstrapped_at_ms := capture.(capture_ts_ms); source := "transaction_log" |} in
        let^ _ := save_hwm id mark capture.(capture_ts_ms) None in
        fret (Some (FromLog flow mark))
    end.

Definition store_nav_capture (capture : InvestorNavCapture) (kind : string) (note : option string) (bootstrap_hwm force_bootstrap : bool) (now_ms : Z)
    : F (Z * option bootstrap) :=
  let^ baseline := read (load_flow_baseline who.(investor_id)) in
  let '(btc_spot, eth_spot, _) := resolve_agreed_spot_native c baseline in
  let^ started := (if bootstrap_hwm then maybe_bootstrap_hwm_from_deposits capture force_bootstrap now_ms else fret None) in
  let^ id := append_snapshot capture.(capture_ts_ms) who.(investor_id) kind capture.(capture_equity) capture.(capture_collateral_spot)
    capture.(capture_nav_perf) capture.(capture_aum_mgmt) capture.(capture_index_btc) capture.(capture_index_eth) btc_spot eth_spot
    capture.(capture_equity_by_book) capture.(capture_wallet_native) note in
  fret (id, started).

Definition resolve_hwm (id : string) (db : fee_db) : Q :=
  match load_hwm id db with
  | Some mark => mark
  | None =>
      match c.(config_initial_hwm) with
      | Some mark => mark
      | None =>
          match load_flow_baseline id db with
          | Some b => b.(initial_hwm_nav_perf)
          | None => match latest_snapshot id db with Some r => r.(snapshot_nav_perf) | None => 0 end
          end
      end
  end.

(** ** The settlement of a period *)

Definition average_aum_mgmt (id : string) (start_ms end_ms : Z) (baseline : option FlowBaselineRow) (db : fee_db) : Q :=
  match snapshots_in_range id start_ms end_ms db with
  | [] => 0
  | rows => dsum (map (fun r => (financial_breakdown_from_snapshot r c baseline).(aum_mgmt)) rows) ⊘ of_len rows
  end.

Definition _LIVE_END_SLACK_MS : Z := 15 * 60 * 1000.
Definition _DEFAULT_SNAPSHOT_MAX_DELTA_MS : Z := 7 * 86400000.

Definition _resolve_period_end_snapshot (end_ms : Z) (key : string) (max_delta_ms : Z) (capture_end_if_missing : bool) (now_ms : Z) : F NavSnapshotRow :=
  let id := who.(investor_id) in
  let^ nearest := read (snapshot_nearest id end_ms (Some max_delta_ms)) in
  let^ snap :=
    match nearest with
    | Some _ => fret nearest
    | None =>
        if capture_end_if_missing && (now_ms - _LIVE_END_SLACK_MS <=? end_ms)%Z then
          let^ live := capture_investor_nav now_ms in
          let^ _ := store_nav_capture live "settlement" (Some ("auto " ++ key)%string) true false now_ms in
          read (latest_snapshot id)
        else fret None
    end in
  match snap with Some r => fret r | None => fraise RuntimeError end.

(** The snapshot a period begins with, and its time. *)
Definition period_start (start_ms : option Z) (end_ms max_delta_ms : Z) (allow_missing : bool) : F (Z * option NavSnapshotRow) :=
  let id := who.(investor_id) in
  match start_ms with
  | None =>
      let^ snap := read (latest_snapshot_before id end_ms) in
      match snap with Some r => fret (r.(snapshot_ts_ms), Some r) | None => fraise RuntimeError end
  | Some start_ms =>
      if (end_ms <=? start_ms)%Z then fraise ValueError
      else
        let^ latest := read (latest_snapshot id) in
        let^ nearest := read (snapshot_nearest id start_ms (Some max_delta_ms)) in
        let snap := match latest with Some r => if (r.(snapshot_ts_ms) =? start_ms)%Z then latest else nearest | None => nearest end in
        match snap with
        | Some r => fret (start_ms, snap)
        | None => if allow_missing then fret (start_ms, None) else fraise RuntimeError
        end
  end.

Record settlement : Type := {
  settled : FeeSettlementRow;
  period_nav_perf_pnl : Q;
  trading_profit_fee_basis_usdc : Q;
  net_flow_usdc_raw : option Q;
  fee_payment_usdc_excluded : Q;
  net_flow_source : string;
  persisted : bool;
}.

(** [(net flow, raw net flow, where it came from)] *)
Definition period_net_flow (net_flow : option Q) (fee_payment : Q) (index : dict Q) (start_ms end_ms : Z) : outcome (Q * option Q * string) :=
  (match net_flow with
   | None =>
       let! lines := fetch_subscription_flow_lines index who.(accounts) start_ms end_ms in
       Ret (net_of lines ⊕ fee_payment, Some (net_of lines), "transaction_log"%string)
   | Some flow => if fee_payment >? 0 then Exn ValueError else Ret (flow, None, "manual"%string)
   end)%outcome.

(** What a settlement comes to, before it is stored. *)
Definition assess_period (start_ms : option Z) (end_ms : Z) (period_name : option string) (net_flow fee_payment : option Q)
    (persist force : bool) (max_delta_ms : Z) (capture_end_if_missing allow_missing : bool) (now_ms settled_ms : Z) : F settlement :=
  let id := who.(investor_id) in
  let^ (start_ms, start_snap) := period_start start_ms end_ms max_delta_ms allow_missing in
  if (match start_snap with Some r => (end_ms <? r.(snapshot_ts_ms))%Z | None => false end) then fraise ValueError
  else
    let key := match period_name with Some p => str_or p (period_label_from_ms start_ms end_ms) | None => period_label_from_ms start_ms end_ms end in
    let^ end_snap := _resolve_period_end_snapshot end_ms key max_delta_ms capture_end_if_missing now_ms in
    let^ existing := read (settlement_for_period id key) in
    if persist && (match existing with Some _ => true | None => false end) && negb force then fraise RuntimeError
    else
      let index := settlement_index end_snap.(index_btc_usd) end_snap.(index_eth_usd) in
      let excluded := dmax 0 (match fee_payment with Some q => q | None => 0 end) in
      let^ (flow, raw, flow_source) := flift (period_net_flow net_flow excluded index start_ms end_ms) in
      let^ baseline := read (load_flow_baseline id) in
      let end_bd := financial_breakdown_from_snapshot end_snap c baseline in
      let^ mark := read (resolve_hwm id) in
      let nav_start := match start_snap with Some r => (financial_breakdown_from_snapshot r c baseline).(nav_perf) | None => mark end in
      let nav_end := end_bd.(nav_perf) in
      let^ (of_period, lifetime) := flift (build_realized_trading_pnl start_ms end_ms index) in
      let basis := fee_basis_trading_profit_usdc of_period lifetime in
      let '(distributable, fee) := compute_trading_profit_performance_fee basis c.(performance_fee_rate) in
      let^ average := read (average_aum_mgmt id start_ms end_ms baseline) in
      let aum := if average <=? 0 then end_bd.(aum_mgmt) else average in
      let^ years := flift (period_duration_years start_ms end_ms) in
      let row := {| settlement_id := 0; settlement_investor := id; period := key; period_start_ms := start_ms; period_end_ms := end_ms; hwm_start := mark;
                    nav_perf_start := nav_start; nav_perf_end := nav_end; net_flow_usdc := flow; distributable_profit := distributable;
                    performance_fee := fee; hwm_end := nav_end ⊖ fee; avg_aum_mgmt := aum;
                    management_fee := aum ⊗ c.(management_fee_annual_rate) ⊗ years; settled_at_ms := settled_ms |} in
      fret {| settled := row; period_nav_perf_pnl := (nav_end ⊖ nav_start) ⊖ flow; trading_profit_fee_basis_usdc := basis;
              net_flow_usdc_raw := raw; fee_payment_usdc_excluded := excluded; net_flow_source := flow_source; persisted := persist |}.

Definition store_settlement (s : settlement) : F unit :=
  let^ _ := save_settlement s.(settled) in
  save_hwm who.(investor_id) s.(settled).(hwm_end) s.(settled).(settled_at_ms) (Some s.(settled).(period)).

Definition settle_period (start_ms : option Z) (end_ms : Z) (period_name : option string) (net_flow fee_payment : option Q)
    (persist force : bool) (max_delta_ms : Z) (capture_end_if_missing allow_missing : bool) (now_ms settled_ms : Z) : F settlement :=
  let^ s := assess_period start_ms end_ms period_name net_flow fee_payment persist force max_delta_ms capture_end_if_missing allow_missing now_ms settled_ms in
  let^ _ := (if persist then store_settlement s else fret tt) in
  fret s.

Definition settle_quarter (text : string) (net_flow fee_payment : option Q) (force : bool) (now_ms settled_ms : Z) : F settlement :=
  let^ start_ms := flift (quarter_start_ts_ms text) in
  let^ end_ms := flift (quarter_end_settlement_ts_ms text) in
  settle_period (Some start_ms) end_ms (Some text) net_flow fee_payment true force _DEFAULT_SNAPSHOT_MAX_DELTA_MS true true now_ms settled_ms.

(** ** Starting an investor ([investor_ops.py]) *)

Definition is_hwm_bootstrapped (id : string) (db : fee_db) : bool := match load_hwm id db, load_flow_baseline id db with None, None => false | _, _ => true end.

(** [inl] the mark on file, [inr] the snapshot taken and what the mark was set from. *)
Definition bootstrap_initial_hwm (force : bool) (kind : string) (now_ms : Z) : F (option Q + Z * option bootstrap) :=
  let id := who.(investor_id) in
  let^ ready := read (is_hwm_bootstrapped id) in
  if negb force && ready then
    let^ mark := read (fun db => match load_flow_baseline id db with Some b => Some b.(initial_hwm_nav_perf) | None => load_hwm id db end) in
    fret (inl mark)
  else
    let^ capture := capture_investor_nav now_ms in
    let^ stored := store_nav_capture capture kind None true force now_ms in
    fret (inr stored).

(** What stands above the mark ([fee_status]). *)
Definition distributable_above_hwm (db : fee_db) : option Q :=
  match latest_snapshot who.(investor_id) db with
  | None => None
  | Some r => Some (dmax 0 ((financial_breakdown_from_snapshot r c (load_flow_baseline who.(investor_id) db)).(nav_perf) ⊖ resolve_hwm who.(investor_id) db))
  end.
End Investor.
