(* ===== verification/SubscriptionFacts.v ===== *)
(** The money an investor brought: summed over the logs of all logins it is exactly what
    came from outside, and the first high-water mark is its part in stable coins. *)

From S2P Require Import Prelude Sorting Dec PyStr Utils PyObj StateJson Market VolMetrics EntryGates DayState Subscriptions.
Local Open Scope Q_scope.
Local Open Scope dec_scope.
Local Open Scope bool_scope.
Local Open Scope outcome_scope.
Local Open Scope list_scope.

(** ** Signed amounts on a decimal grid *)

Section Units.
Variable e : Z.

Definition units (n : Z) (q : Q) : Prop := exists z, (Z.abs z <= n)%Z /\ q == gval e z.

Lemma units_0 : units 0 0.
Proof. exists 0%Z. split; [lia | reflexivity]. Qed.

Lemma units_more n m q : (n <= m)%Z -> units n q -> units m q.
Proof. intros L (z & B & E). exists z. split; [lia | exact E]. Qed.

Lemma units_eq n a b : a == b -> units n a -> units n b.
Proof. intros E (z & B & Z). exists z. split; [exact B | now rewrite <- E]. Qed.

Lemma units_plus n m a b : units n a -> units m b -> units (n + m) (a + b).
Proof. intros (y & By & Ey) (z & Bz & Ez). exists (y + z)%Z. split; [lia|]. rewrite Ey, Ez. apply gval_add. Qed.

Lemma units_add n m a b : units n a -> units m b -> (n + m <= 10 ^ prec)%Z -> a ⊕ b == a + b /\ units (n + m) (a ⊕ b).
Proof.
  intros A B L. assert (E : a ⊕ b == a + b).
  { destruct A as (y & By & Ey), B as (z & Bz & Ez). rewrite (dadd_gval e y z a b Ey Ez) by lia. rewrite Ey, Ez. symmetry. apply gval_add. }
  split; [exact E|]. apply (units_eq (n + m) (a + b)); [now symmetry | now apply units_plus].
Qed.

Lemma units_sub n m a b : units n a -> units m b -> (n + m <= 10 ^ prec)%Z -> a ⊖ b == a - b.
Proof. intros (y & By & Ey) (z & Bz & Ez) L. rewrite (dsub_gval e y z a b Ey Ez) by lia. rewrite Ey, Ez. symmetry. apply gval_sub. Qed.
End Units.

(** ** Books of a dict *)

Lemma set_get_or b k v (d : dict Q) : get_or b 0 (dict_set k v d) = if String.eqb b k then v else get_or b 0 d.
Proof. unfold get_or. rewrite dict_get_set. destruct (String.eqb b k); reflexivity. Qed.

Lemma set_keys k v (d : dict Q) : In k (map fst d) -> map fst (dict_set k v d) = map fst d.
Proof.
  induction d as [|[k' v'] r IH]; cbn; [intros []|]. destruct (String.eqb_spec k k') as [->|N]; [reflexivity|]. intros [<-|H]; [congruence|].
  cbn. now rewrite IH.
Qed.

Lemma get_or_absent b (d : dict Q) : ~ In b (map fst d) -> get_or b 0 d = 0.
Proof.
  unfold get_or. induction d as [|[k v] r IH]; cbn; [reflexivity|]. intros N. destruct (String.eqb_spec b k) as [->|]; [exfalso; auto | apply IH; auto].
Qed.

Lemma add_books_get more : forall d b, NoDup (map fst more) ->
  get_or b 0 (add_books d more) = if mem_str b (map fst more) then get_or b 0 d ⊕ get_or b 0 more else get_or b 0 d.
Proof.
  unfold add_books. induction more as [|[k v] r IH]; intros d b N; [reflexivity|]. cbn [map fst] in N. inversion N as [|? ? Nk Nr]; subst.
  cbn [fold_left]. rewrite IH by exact Nr. rewrite set_get_or. unfold mem_str. cbn [map fst existsb].
  destruct (String.eqb_spec b k) as [->|Nb]; cbn [orb].
  - assert (M : existsb (String.eqb k) (map fst r) = false).
    { destruct (existsb _ _) eqn:X; [|reflexivity]. apply existsb_exists in X. destruct X as (y & H & Ey). apply String.eqb_eq in Ey. subst y. contradiction. }
    rewrite M. unfold get_or at 3. cbn. rewrite String.eqb_refl. reflexivity.
  - assert (G : get_or b 0 ((k, v) :: r) = get_or b 0 r) by (unfold get_or; cbn; destruct (String.eqb_spec b k); [contradiction | reflexivity]). now rewrite G.
Qed.

(** ** One login *)

Definition counted_amount (payload : pyobj) : Q :=
  match log_entry payload with Ret t => if _counts_toward_subscription t then t.(transaction_amount) else 0 | _ => 0 end.

(** What the rows of a log come to. *)
Fixpoint money (rows : list pyobj) : Q := match rows with [] => 0 | p :: r => counted_amount p + money r end.

Definition login_rows (a : api_account) (book : string) (start_ms end_ms : Z) : list pyobj :=
  match @iter_transaction_log a.(account_log) book start_ms end_ms with Ret rows => rows | _ => [] end.

Section Sums.
Variables (e B : Z).
Hypothesis Positive : (0 <= B)%Z.
Local Abbreviation units := (units e).
Local Abbreviation subscription := subscription_native_by_book.

Definition small (rows : list pyobj) : Prop := Forall (fun p => units B (counted_amount p)) rows.
Local Abbreviation weight l := (Z.of_nat (List.length l) * B)%Z.

Lemma counted_book b book f t : get_or b 0 (count_entry book f t).(subscription) =
  if String.eqb b book && _counts_toward_subscription t then get_or book 0 f.(subscription) ⊕ t.(transaction_amount) else get_or b 0 f.(subscription).
Proof.
  unfold count_entry. destruct (_counts_toward_subscription t).
  - cbn [subscription_native_by_book]. rewrite set_get_or, andb_true_r. reflexivity.
  - rewrite andb_false_r. destruct (String.eqb t.(transaction_type) "transfer"); reflexivity.
Qed.

Lemma counted_keys book f t : In book (map fst f.(subscription)) -> map fst (count_entry book f t).(subscription) = map fst f.(subscription).
Proof.
  intros H. unfold count_entry. destruct (_counts_toward_subscription t); [now apply set_keys|]. destruct (String.eqb _ _); reflexivity.
Qed.

Lemma counted_rows book rows : forall f f' n, count_rows book f rows = Ret f' -> In book (map fst f.(subscription)) -> small rows ->
  units n (get_or book 0 f.(subscription)) -> (n + weight rows <= 10 ^ prec)%Z ->
  map fst f'.(subscription) = map fst f.(subscription) /\
  (get_or book 0 f'.(subscription) == get_or book 0 f.(subscription) + money rows /\ units (n + weight rows) (get_or book 0 f'.(subscription))) /\
  (forall b, b <> book -> get_or b 0 f'.(subscription) = get_or b 0 f.(subscription)).
Proof.
  induction rows as [|p r IH]; intros f f' n E K S U L; cbn [count_rows money] in *.
  - injection E as <-. split; [reflexivity|]. split; [split; [ring|]|reflexivity]. cbn. rewrite Z.add_0_r. exact U.
  - destruct (log_entry p) as [t| |] eqn:Et; try discriminate E. cbn [obind] in E. inversion S as [|? ? Sp Sr]; subst.
    assert (Eq : counted_amount p = if _counts_toward_subscription t then t.(transaction_amount) else 0) by (unfold counted_amount; now rewrite Et).
    assert (W : weight (p :: r) = (B + weight r)%Z) by (cbn [List.length]; lia).
    assert (Step : get_or book 0 (count_entry book f t).(subscription) == get_or book 0 f.(subscription) + counted_amount p /\
                   units (n + B) (get_or book 0 (count_entry book f t).(subscription))).
    { rewrite counted_book, String.eqb_refl, Eq. rewrite Eq in Sp. cbn [andb]. destruct (_counts_toward_subscription t).
      - apply units_add; [exact U | exact Sp |]. assert (0 <= weight r)%Z by lia. lia.
      - split; [ring | apply (units_more e n); [lia | exact U]]. }
    destruct Step as [St Ut]. destruct (IH _ _ (n + B)%Z E) as (Kk & (G & V) & O);
      [rewrite counted_keys by exact K; exact K | exact Sr | exact Ut | lia |].
    split; [rewrite Kk; now apply counted_keys|]. split; [split|].
    + rewrite G, St. ring.
    + rewrite W. replace (n + (B + weight r))%Z with (n + B + weight r)%Z by lia. exact V.
    + intros b N. rewrite (O b N), counted_book. destruct (String.eqb_spec b book); [contradiction | reflexivity].
Qed.

(** The logs of a login are read, and in a book they come to this. *)
Definition login_money (a : api_account) (book : string) (start_ms end_ms : Z) : Q := money (login_rows a book start_ms end_ms).

Lemma counted_books a s t books : forall f f', count_books a books s t f = Ret f' -> NoDup books -> incl books (map fst f.(subscription)) ->
  (forall b, In b books -> get_or b 0 f.(subscription) = 0 /\ small (login_rows a b s t) /\ (weight (login_rows a b s t) <= 10 ^ prec)%Z) ->
  map fst f'.(subscription) = map fst f.(subscription) /\
  (forall b, In b books -> get_or b 0 f'.(subscription) == login_money a b s t /\ units (weight (login_rows a b s t)) (get_or b 0 f'.(subscription))) /\
  (forall b, ~ In b books -> get_or b 0 f'.(subscription) = get_or b 0 f.(subscription)).
Proof.
  induction books as [|book rest IH]; intros f f' E N I H; cbn [count_books] in E.
  - injection E as <-. split; [reflexivity|]. split; [intros b []|reflexivity].
  - destruct (@iter_transaction_log a.(account_log) book s t) as [rows| |] eqn:Er; try discriminate E. cbn [obind] in E.
    destruct (count_rows book f rows) as [f1| |] eqn:E1; try discriminate E. cbn [obind] in E.
    inversion N as [|? ? Nb Nr]; subst. destruct (H book (or_introl eq_refl)) as (Z0 & S & W).
    assert (Lr : login_rows a book s t = rows) by (unfold login_rows; now rewrite Er). rewrite Lr in S, W.
    destruct (counted_rows book rows f f1 0 E1 (I book (or_introl eq_refl)) S) as (K1 & (G1 & U1) & O1);
      [rewrite Z0; apply units_0 | lia |]. rewrite Z0 in G1.
    destruct (IH f1 f' E Nr) as (K2 & G2 & O2).
    + rewrite K1. intros b Hb. apply I. now right.
    + intros b Hb. assert (Nb' : b <> book) by (intros ->; contradiction). rewrite (O1 b Nb'). apply H. now right.
    + split; [congruence|]. split.
      * intros b [<-|Hb]; [|now apply G2]. rewrite (O2 book Nb). unfold login_money. rewrite Lr. split; [rewrite G1; ring | exact U1].
      * intros b Hb. rewrite O2 by (intros X; apply Hb; now right). apply O1. intros ->. apply Hb. now left.
Qed.

(** ** All logins *)

(** The account whose keys read the log of each login. *)
Definition logins (groups : dict (list api_account)) : list api_account := flat_map (fun '(_, l) => match l with a :: _ => [a] | [] => [] end) groups.

Fixpoint money_of (l : list api_account) (book : string) (s t : Z) : Q := match l with [] => 0 | a :: r => login_money a book s t + money_of r book s t end.
Fixpoint weight_of (l : list api_account) (book : string) (s t : Z) : Z := match l with [] => 0%Z | a :: r => (weight (login_rows a book s t) + weight_of r book s t)%Z end.

Lemma weight_of_nonneg l book s t : (0 <= weight_of l book s t)%Z.
Proof. induction l as [|a r IH]; cbn [weight_of]; lia. Qed.

Definition all_small (l : list api_account) (s t : Z) : Prop := forall a book, In a l -> In book _FEE_FLOW_BOOKS -> small (login_rows a book s t).

Lemma no_flow_get b books : get_or b 0 (no_flow books) = 0.
Proof. unfold get_or, no_flow. induction books as [|k r IH]; cbn; [reflexivity|]. destruct (String.eqb b k); [reflexivity | exact IH]. Qed.

Lemma no_flow_keys books : map fst (no_flow books) = books.
Proof. unfold no_flow. rewrite map_map. apply map_id. Qed.

Lemma books_distinct : NoDup _FEE_FLOW_BOOKS.
Proof. repeat constructor; cbn; intuition discriminate. Qed.

Lemma flows_of s t groups : forall flows, identity_flows groups s t = Ret flows -> all_small (logins groups) s t ->
  (forall book, In book _FEE_FLOW_BOOKS -> (weight_of (logins groups) book s t <= 10 ^ prec)%Z) ->
  Forall2 (fun a f => map fst f.(subscription) = _FEE_FLOW_BOOKS /\ forall b, In b _FEE_FLOW_BOOKS ->
    get_or b 0 f.(subscription) == login_money a b s t /\ units (weight (login_rows a b s t)) (get_or b 0 f.(subscription))) (logins groups) flows.
Proof.
  induction groups as [|[k l] rest IH]; intros flows E S W; cbn [identity_flows] in E; [injection E as <-; constructor|].
  destruct l as [|a l]; [discriminate|]. destruct (_fetch_identity_flow _ a _ s t) as [f| |] eqn:Ef; try discriminate E. cbn [obind] in E.
  destruct (identity_flows rest s t) as [more| |] eqn:Em; try discriminate E. cbn [obind] in E. injection E as <-.
  change (logins ((k, a :: l) :: rest)) with (a :: logins rest) in *. constructor.
  - destruct (counted_books a s t _FEE_FLOW_BOOKS _ f Ef books_distinct) as (K & G & _).
    + cbn [subscription_native_by_book]. rewrite no_flow_keys. apply incl_refl.
    + intros b Hb. split; [apply no_flow_get|]. split; [apply S; [now left | exact Hb]|]. specialize (W b Hb). cbn [weight_of] in W.
      pose proof (weight_of_nonneg (logins rest) b s t). lia.
    + split; [rewrite K; apply no_flow_keys | exact G].
  - apply (IH more eq_refl); [intros a' b Ha; apply S; now right|]. intros b Hb. specialize (W b Hb). cbn [weight_of] in W. lia.
Qed.

Lemma summed_flows s t b (Hb : In b _FEE_FLOW_BOOKS) l flows : Forall2 (fun a f => map fst f.(subscription) = _FEE_FLOW_BOOKS /\ forall b, In b _FEE_FLOW_BOOKS ->
    get_or b 0 f.(subscription) == login_money a b s t /\ units (weight (login_rows a b s t)) (get_or b 0 f.(subscription))) l flows ->
  forall d n, units n (get_or b 0 d) -> (n + weight_of l b s t <= 10 ^ prec)%Z ->
  get_or b 0 (fold_left (fun d f => add_books d f.(subscription)) flows d) == get_or b 0 d + money_of l b s t.
Proof.
  induction 1 as [|a f l flows [K G] F IH]; intros d n U W; cbn [fold_left money_of weight_of] in *; [ring|].
  destruct (G b Hb) as [Gb Ub]. pose proof (weight_of_nonneg l b s t) as P.
  destruct (units_add e n (weight (login_rows a b s t)) _ _ U Ub) as [Ea Ua]; [lia|].
  assert (Ed : get_or b 0 (add_books d f.(subscription)) = get_or b 0 d ⊕ get_or b 0 f.(subscription)).
  { rewrite add_books_get by (rewrite K; apply books_distinct). rewrite K. now rewrite (proj2 (mem_str_In b _FEE_FLOW_BOOKS) Hb). }
  rewrite (IH _ (n + weight (login_rows a b s t))%Z); [rewrite Ed, Ea, Gb; ring | rewrite Ed; exact Ua | lia].
Qed.
End Sums.

Lemma add_books_keys more : forall d, incl (map fst more) (map fst d) -> map fst (add_books d more) = map fst d.
Proof.
  unfold add_books. induction more as [|[k v] r IH]; intros d I; [reflexivity|]. cbn [fold_left map fst] in *.
  assert (E : map fst (dict_set k (get_or k 0 d ⊕ v) d) = map fst d) by (apply set_keys, I; now left).
  rewrite IH; [exact E|]. rewrite E. intros x H. apply I. now right.
Qed.

Lemma summed_keys (l : list ApiIdentityFlow) : forall d, Forall (fun f => map fst f.(subscription_native_by_book) = map fst d) l ->
  map fst (fold_left (fun d f => add_books d f.(subscription_native_by_book)) l d) = map fst d.
Proof.
  induction l as [|f l IH]; intros d F; [reflexivity|]. inversion F as [|? ? K Fl]; subst. cbn [fold_left].
  assert (E : map fst (add_books d f.(subscription_native_by_book)) = map fst d) by (apply add_books_keys; rewrite K; apply incl_refl).
  rewrite IH; [exact E|]. rewrite E. exact Fl.
Qed.

(** Money from outside, in coin, over the logins of all accounts. *)
Definition external_money (accounts : list api_account) (book : string) (s t : Z) : Q := money_of (logins (_group_accounts_by_api_identity accounts)) book s t.

Section Mark.
Variables (e B M : Z) (accounts : list api_account) (s t : Z) (index : dict Q).
Hypothesis Positive : (0 <= B)%Z.
Local Abbreviation total book := (external_money accounts book s t).
Local Abbreviation all := (logins (_group_accounts_by_api_identity accounts)).
Hypothesis Small : all_small e B all s t.
Hypothesis Few : forall book, In book _FEE_FLOW_BOOKS -> (weight_of B all book s t <= 10 ^ prec)%Z.

Lemma fetched flow : fetch_cumulative_net_flow_usdc index accounts s t = Ret flow ->
  map fst flow.(cumulative_native_by_book) = _FEE_FLOW_BOOKS /\
  (forall book, In book _FEE_FLOW_BOOKS -> get_or book 0 flow.(cumulative_native_by_book) == total book) /\
  flow.(cumulative_usdc) = _sum_books_to_usdc flow.(cumulative_native_by_book) _FEE_FLOW_BOOKS index.
Proof.
  unfold fetch_cumulative_net_flow_usdc. unfold external_money in *. set (groups := _group_accounts_by_api_identity accounts) in *. intros E.
  assert (X : exists flows, identity_flows groups s t = Ret flows /\
    flow.(cumulative_native_by_book) = fold_left (fun d f => add_books d f.(subscription_native_by_book)) flows (no_flow _FEE_FLOW_BOOKS) /\
    flow.(cumulative_usdc) = _sum_books_to_usdc flow.(cumulative_native_by_book) _FEE_FLOW_BOOKS index).
  { destruct groups as [|kl r]; [discriminate|]. destruct (identity_flows (kl :: r) s t) as [flows| |]; try discriminate E. cbn [obind] in E. injection E as <-.
    exists flows. split; [reflexivity|]. split; reflexivity. }
  destruct X as (flows & Ef & En & Eu). pose proof (flows_of e B Positive s t groups flows Ef Small Few) as F. split; [|split; [|exact Eu]].
  - rewrite En, summed_keys; [apply no_flow_keys|]. rewrite no_flow_keys. clear -F. induction F as [|a f l l' [K _] F IH]; constructor; assumption.
  - intros book Hb. rewrite En, (summed_flows e B Positive s t book Hb _ _ F _ 0%Z).
    + rewrite no_flow_get. ring.
    + rewrite no_flow_get. apply units_0.
    + rewrite Z.add_0_l. exact (Few book Hb).
Qed.

(** The value of a book on a grid. *)
Variable e' : Z.
Local Abbreviation value book := (if mem_str book ["USDC"; "USDT"]%string then total book else total book * get_or book 0 index).
Hypothesis Exact : forall book, In book _FEE_FLOW_BOOKS -> units e' M (value book).
Hypothesis Room : (6 * M <= 10 ^ prec)%Z.

Lemma converted book q : In book _FEE_FLOW_BOOKS -> q == total book -> native_book_amount_to_usdc q book index == value book.
Proof.
  intros Hb E. pose proof (Exact book Hb) as U. unfold native_book_amount_to_usdc. destruct (mem_str book ["USDC"; "USDT"]%string); [exact E|].
  unfold dmul. assert (X : q * get_or book 0 index == total book * get_or book 0 index) by (rewrite E; reflexivity). rewrite X.
  destruct U as (z & Bz & Ez). rewrite Ez. apply rnd_exact, gval_representable. lia.
Qed.

End Mark.
