(* ===== verification/InvestorFacts.v ===== *)
(** What a settlement of fees leaves in the ledger, and what it charges for. *)

From S2P Require Import Prelude Sorting Dec PyStr Utils PyObj StateJson Market VolMetrics EntryGates DayState FeeLedger Subscriptions InvestorFees.
Local Open Scope Q_scope.
Local Open Scope dec_scope.
Local Open Scope bool_scope.
Local Open Scope ledger_scope.
Local Open Scope list_scope.

(** ** What programs on the ledger keep *)

Section Keeps.
Variable R : fee_db -> fee_db -> Prop.
Context {P : PreOrder R}.

Definition fkeeps {A} (m : F A) : Prop := forall db, R db (fst (m db)).

Lemma fkeeps_ret {A} (a : A) : fkeeps (fret a).
Proof. intros db. reflexivity. Qed.
Lemma fkeeps_raise {A} e : fkeeps (@fraise A e).
Proof. intros db. reflexivity. Qed.
Lemma fkeeps_lift {A} (o : outcome A) : fkeeps (flift o).
Proof. intros db. reflexivity. Qed.
Lemma fkeeps_read {A} (f : fee_db -> A) : fkeeps (read f).
Proof. intros db. reflexivity. Qed.
Lemma fkeeps_write f : (forall db, R db (f db)) -> fkeeps (write f).
Proof. intros H db. apply H. Qed.
Lemma fkeeps_bind {A B} (m : F A) (k : A -> F B) : fkeeps m -> (forall a, fkeeps (k a)) -> fkeeps (fbind m k).
Proof.
  intros Hm Hk db. unfold fbind. specialize (Hm db). destruct (m db) as [db' [a|e|]]; cbn [fst] in *; [|exact Hm|exact Hm].
  etransitivity; [exact Hm | apply Hk].
Qed.
End Keeps.

Lemma fbind_ret {A B} (m : F A) (k : A -> F B) db db' b : fbind m k db = (db', Ret b) -> exists db1 a, m db = (db1, Ret a) /\ k a db1 = (db', Ret b).
Proof. unfold fbind. destruct (m db) as [db1 [a|e|]]; [eauto | discriminate | discriminate]. Qed.

Lemma fbind_stop {A B} (m : F A) (k : A -> F B) db db' o : fbind m k db = (db', o) -> (forall b, o <> Ret b) ->
  (exists o', m db = (db', o') /\ forall a, o' <> Ret a) \/ exists db1 a, m db = (db1, Ret a) /\ k a db1 = (db', o).
Proof.
  unfold fbind. destruct (m db) as [db1 [a|e|]]; intros E N; [right; eauto | left | left]; injection E as <- <-; eexists; split; try reflexivity; discriminate.
Qed.

(** The settlements, and the marks of all other investors, stay. *)
Definition unsettled (id : string) (db db' : fee_db) : Prop :=
  db'.(fee_settlements) = db.(fee_settlements) /\ db'.(next_settlement) = db.(next_settlement) /\
  forall i, i <> id -> load_hwm i db' = load_hwm i db.

#[export] Instance unsettled_preorder id : PreOrder (unsettled id).
Proof.
  split; [intros db; repeat split|]. intros a b c' (S & N & H) (S' & N' & H'). split; [congruence|]. split; [congruence|].
  intros i Hi. now rewrite H', H.
Qed.

Lemma unsettled_snapshots id rows n : forall db, unsettled id db (set_nav_snapshots rows n db).
Proof. intros db. repeat split. Qed.

Lemma save_hwm_unsettled id mark ms last : fkeeps (unsettled id) (save_hwm id mark ms last).
Proof.
  intros db. split; [reflexivity|]. split; [reflexivity|]. intros i N. cbn. unfold load_hwm. cbn [hwm_state set_hwm_state]. rewrite dict_get_set.
  destruct (String.eqb_spec i id); [contradiction | reflexivity].
Qed.

Create HintDb ledger.
#[export] Hint Resolve fkeeps_ret fkeeps_raise fkeeps_lift fkeeps_read save_hwm_unsettled : ledger.

(** Through a program, step by step. *)
Ltac fstay :=
  repeat (intros; first
    [ solve [eauto with ledger typeclass_instances]
    | apply fkeeps_bind; [try typeclasses eauto | | intros ?]
    | match goal with |- fkeeps _ (let '_ := ?x in _) => destruct x end
    | match goal with |- fkeeps _ (if ?b then _ else _) => destruct b end
    | match goal with |- fkeeps _ (match ?x with _ => _ end) => destruct x end
    | match goal with |- fkeeps _ (match ?x with _ => _ end _) => destruct x end ]).

(** ** Rows of settlements *)

Definition row_key (r : FeeSettlementRow) : string * string := (r.(settlement_investor), r.(period)).
Definition one_per_period (db : fee_db) : Prop := NoDup (map row_key db.(fee_settlements)).

Lemma same_period_spec i k r : same_period i k r = true <-> row_key r = (i, k).
Proof. unfold same_period, row_key. rewrite andb_true_iff, !String.eqb_eq. split; [intros [-> ->]; reflexivity | intros E; now injection E]. Qed.

Lemma same_period_key i k r r' : row_key r = row_key r' -> same_period i k r = same_period i k r'.
Proof. unfold same_period, row_key. intros E. injection E as E1 E2. now rewrite E1, E2. Qed.

(** The rows after a save: those of other periods, and one of this. *)
Definition replaced (row : FeeSettlementRow) (r : FeeSettlementRow) : FeeSettlementRow :=
  if same_period row.(settlement_investor) row.(period) r then with_settlement_id r.(settlement_id) row else r.

Lemma replaced_key row r : row_key (replaced row r) = row_key r.
Proof. unfold replaced. destruct (same_period _ _ r) eqn:B; [|reflexivity]. apply same_period_spec in B. now rewrite B. Qed.

Lemma saved_rows row db :
  let db' := fst (save_settlement row db) in
  db'.(hwm_state) = db.(hwm_state) /\
  if existsb (same_period row.(settlement_investor) row.(period)) db.(fee_settlements)
  then db'.(fee_settlements) = map (replaced row) db.(fee_settlements)
  else db'.(fee_settlements) = db.(fee_settlements) ++ [with_settlement_id db.(next_settlement) row].
Proof. cbn. unfold save_settlement, write. cbn [fst]. destruct (existsb _ _); split; reflexivity. Qed.

Lemma save_keeps_one row db : one_per_period db -> one_per_period (fst (save_settlement row db)).
Proof.
  unfold one_per_period. intros N. destruct (saved_rows row db) as [_ S]. destruct (existsb _ _) eqn:B; rewrite S.
  - rewrite map_map. erewrite map_ext; [exact N | apply replaced_key].
  - rewrite map_app. cbn [map]. apply NoDup_app; [exact N | repeat constructor; intros []|]. intros x H [<-|[]].
    apply in_map_iff in H. destruct H as (r & E & H). assert (C : existsb (same_period row.(settlement_investor) row.(period)) db.(fee_settlements) = true).
    { apply existsb_exists. exists r. split; [exact H | now apply same_period_spec]. }
    congruence.
Qed.

Lemma find_map_replaced row l : existsb (same_period row.(settlement_investor) row.(period)) l = true ->
  exists n, find (same_period row.(settlement_investor) row.(period)) (map (replaced row) l) = Some (with_settlement_id n row).
Proof.
  induction l as [|r rest IH]; cbn [existsb map find]; [discriminate|].
  rewrite (same_period_key _ _ (replaced row r) r (replaced_key row r)). unfold replaced at 1. destruct (same_period _ _ r); [intros _; eauto | exact IH].
Qed.

Lemma find_map_other row i k l : (i, k) <> row_key row -> find (same_period i k) (map (replaced row) l) = find (same_period i k) l.
Proof.
  intros N. induction l as [|r rest IH]; cbn [map find]; [reflexivity|]. rewrite (same_period_key _ _ (replaced row r) r (replaced_key row r)).
  destruct (same_period i k r) eqn:B; [|exact IH]. unfold replaced.
  destruct (same_period row.(settlement_investor) row.(period) r) eqn:B'; [|reflexivity]. apply same_period_spec in B, B'. unfold row_key in *. congruence.
Qed.

Lemma find_app {A} (p : A -> bool) l x : find p (l ++ [x]) = match find p l with Some y => Some y | None => if p x then Some x else None end.
Proof. induction l as [|y r IH]; cbn; [reflexivity|]. destruct (p y); [reflexivity | exact IH]. Qed.

Lemma find_absent {A} (p : A -> bool) l : existsb p l = false -> find p l = None.
Proof. induction l as [|x r IH]; cbn; [reflexivity|]. destruct (p x); [discriminate | exact IH]. Qed.

Lemma saved_found row db :
  (exists n, settlement_for_period row.(settlement_investor) row.(period) (fst (save_settlement row db)) = Some (with_settlement_id n row)) /\
  forall i k, (i, k) <> row_key row -> settlement_for_period i k (fst (save_settlement row db)) = settlement_for_period i k db.
Proof.
  destruct (saved_rows row db) as [_ S]. unfold settlement_for_period. destruct (existsb _ _) eqn:B; rewrite S.
  - split; [now apply find_map_replaced|]. intros i k N. now apply find_map_other.
  - split.
    + exists db.(next_settlement). rewrite find_app, (find_absent _ _ B). assert (X : same_period row.(settlement_investor) row.(period) (with_settlement_id db.(next_settlement) row) = true) by now apply same_period_spec.
      now rewrite X.
    + intros i k N. rewrite find_app. destruct (find _ db.(fee_settlements)); [reflexivity|].
      destruct (same_period i k _) eqn:X; [|reflexivity]. apply same_period_spec in X. exfalso. apply N. now rewrite <- X.
Qed.

Section Settling.
Context {T : TradingRecord}.
Variable who : investor.
Local Abbreviation id := who.(investor_id).
Local Abbreviation c := (load_investor_fee_config who.(env_values)).

Lemma capture_unsettled now : fkeeps (unsettled id) (capture_investor_nav who now).
Proof. unfold capture_investor_nav. fstay. Qed.
#[local] Hint Resolve capture_unsettled : ledger.

Lemma bootstrap_unsettled cap force now : fkeeps (unsettled id) (maybe_bootstrap_hwm_from_deposits who cap force now).
Proof. unfold maybe_bootstrap_hwm_from_deposits. cbv zeta. fstay. intros db. repeat split. Qed.
#[local] Hint Resolve bootstrap_unsettled : ledger.

Lemma stored_capture_unsettled cap kind note first force now : fkeeps (unsettled id) (store_nav_capture who cap kind note first force now).
Proof. unfold store_nav_capture. fstay. intros db. apply unsettled_snapshots. Qed.
#[local] Hint Resolve stored_capture_unsettled : ledger.

Lemma end_snapshot_unsettled end_ms key d cap now : fkeeps (unsettled id) (_resolve_period_end_snapshot who end_ms key d cap now).
Proof. unfold _resolve_period_end_snapshot. fstay. Qed.

Lemma period_start_unsettled s e d m : fkeeps (unsettled id) (period_start who s e d m).
Proof. unfold period_start. fstay. Qed.
#[local] Hint Resolve end_snapshot_unsettled period_start_unsettled : ledger.

Lemma assess_unsettled s e n nf fp ps fo d cap ms now st : fkeeps (unsettled id) (assess_period who s e n nf fp ps fo d cap ms now st).
Proof. unfold assess_period. cbv zeta. fstay. Qed.
(** What an assessment that returns has looked at. *)
Record assessed (s0 : option Z) (e : Z) (persist force : bool) (st : Z) (db : fee_db) (s : settlement) : Prop := {
  of_who : s.(settled).(settlement_investor) = id;
  ends_at : s.(settled).(period_end_ms) = e;
  starts_at : forall ms, s0 = Some ms -> s.(settled).(period_start_ms) = ms;
  mark_was : s.(settled).(hwm_start) = resolve_hwm who id db;
  mark_is : s.(settled).(hwm_end) = s.(settled).(nav_perf_end) ⊖ s.(settled).(performance_fee);
  fee_is : s.(settled).(performance_fee) = s.(settled).(distributable_profit) ⊗ c.(performance_fee_rate);
  based_on : exists index of_period lifetime, build_realized_trading_pnl s.(settled).(period_start_ms) e index = Ret (of_period, lifetime) /\
    s.(settled).(distributable_profit) = dmax 0 (fee_basis_trading_profit_usdc of_period lifetime);
  nav_is : exists snap, s.(settled).(nav_perf_end) = (financial_breakdown_from_snapshot snap c (load_flow_baseline id db)).(nav_perf);
  profit_is : s.(period_nav_perf_pnl) = (s.(settled).(nav_perf_end) ⊖ s.(settled).(nav_perf_start)) ⊖ s.(settled).(net_flow_usdc);
  was_new : persist = true -> force = false -> settlement_for_period id s.(settled).(period) db = None;
  stored_at : s.(settled).(settled_at_ms) = st;
}.

Lemma start_given e d m ms db db' r : period_start who (Some ms) e d m db = (db', Ret r) -> fst r = ms.
Proof.
  unfold period_start. destruct (_ <=? _)%Z; [discriminate|]. intros E. apply fbind_ret in E. destruct E as (db1 & latest & _ & E).
  apply fbind_ret in E. destruct E as (db2 & nearest & _ & E). cbv zeta in E.
  destruct (match latest with Some _ => _ | None => _ end); [injection E as _ <-; reflexivity|]. destruct m; [injection E as _ <-; reflexivity | discriminate].
Qed.

Lemma assess_returns s0 e n nf fp persist force d cap ms now st db db' s :
  assess_period who s0 e n nf fp persist force d cap ms now st db = (db', Ret s) -> assessed s0 e persist force st db' s.
Proof.
  unfold assess_period. intros E. apply fbind_ret in E. destruct E as (db1 & [start snap] & Es & E).
  destruct (match snap with Some _ => _ | None => _ end); [discriminate|]. set (key := match n with Some _ => _ | None => _ end) in E.
  apply fbind_ret in E. destruct E as (db2 & end_snap & _ & E). apply fbind_ret in E. destruct E as (db3 & existing & Ex & E). injection Ex as <- <-.
  destruct (persist && _ && _) eqn:N; [discriminate|]. cbv zeta in E.
  apply fbind_ret in E. destruct E as (db3 & [[flow raw] src] & Ef & E). injection Ef as <- _.
  apply fbind_ret in E. destruct E as (db3 & baseline & Eb & E). injection Eb as <- <-.
  apply fbind_ret in E. destruct E as (db3 & mark & Em & E). injection Em as <- <-.
  apply fbind_ret in E. destruct E as (db3 & [of_period lifetime] & Ep & E). unfold flift in Ep. injection Ep as <- Ep.
  apply fbind_ret in E. destruct E as (db3 & average & Ea & E). injection Ea as <- <-.
  apply fbind_ret in E. destruct E as (db3 & years & Ey & E). unfold flift in Ey. injection Ey as <- Ey. unfold fret in E. injection E as <- <-.
  constructor; try reflexivity; cbn [settled period_start_ms distributable_profit nav_perf_end period].
  - intros ms' ->. exact (start_given _ _ _ _ _ _ _ Es).
  - eauto.
  - eauto.
  - intros -> ->. destruct (settlement_for_period id key db2); [discriminate N | reflexivity].
Qed.

Lemma stored_settlement s db :
  let db' := fst (store_settlement who s db) in
  db' = fst (save_hwm id s.(settled).(hwm_end) s.(settled).(settled_at_ms) (Some s.(settled).(period)) (fst (save_settlement s.(settled) db))) /\
  snd (store_settlement who s db) = Ret tt.
Proof. split; reflexivity. Qed.

End Settling.

(** ** What is charged for *)

(** A trading record without hedges, by what the options earned between two times. *)
Definition earns (T : TradingRecord) (earned : Z -> Z -> Q) : Prop :=
  (forall a b index, options_pnl_between a b index = Ret (earned a b)) /\ (forall since, hedge_pnl_since since = Ret 0) /\
  (forall a b, exists n, trades_closed_between a b = Ret n).

Lemma record_of T earned start stop index of_period lifetime : earns T earned -> build_realized_trading_pnl start stop index = Ret (of_period, lifetime) ->
  total_pnl_usdc of_period = earned start stop ⊕ 0 /\ total_pnl_usdc lifetime = earned 0%Z stop ⊕ 0.
Proof.
  intros (O & H & C) E. unfold build_realized_trading_pnl in E. rewrite !O, !H in E. cbn [obind] in E.
  destruct (C start stop) as [n En], (C 0%Z stop) as [m Em]. rewrite En, Em in E. cbn [obind] in E. injection E as <- <-. split; reflexivity.
Qed.

Section Charges.
Context {T : TradingRecord}.
Variables (earned : Z -> Z -> Q) (who : investor).
Hypothesis Earns : earns T earned.
Local Abbreviation rate := (load_investor_fee_config who.(env_values)).(performance_fee_rate).

(** A settlement charges for all that was ever earned once that is more than the period's. *)
Lemma charged start stop n nf fp persist force d cap ms now st db db' s all part :
  settle_period who (Some start) stop n nf fp persist force d cap ms now st db = (db', Ret s) ->
  earned 0%Z stop == all -> earned start stop == part -> representable all -> representable part -> representable (all - part) ->
  (s.(settled).(performance_fee) == dmax 0 part ⊗ rate /\ Qabs (all - part) < 0.01) \/
  (s.(settled).(performance_fee) == dmax 0 all ⊗ rate /\ 0.01 <= Qabs (all - part)).
Proof.
  intros E Ea Ep Ra Rp Rd. unfold settle_period in E. apply fbind_ret in E. destruct E as (db1 & s1 & E & E').
  apply fbind_ret in E'. destruct E' as (db2 & u & _ & E'). injection E' as _ ->.
  apply assess_returns in E. destruct E as [_ _ Es _ _ Ef (index & of_period & lifetime & Eb & Ed) _ _ _ _].
  rewrite (Es start eq_refl) in Eb. destruct (record_of T earned _ _ _ _ _ Earns Eb) as [Tp Tl].
  assert (Vp : total_pnl_usdc of_period == part) by (rewrite Tp, Ep; now apply dadd_0_r).
  assert (Vl : total_pnl_usdc lifetime == all) by (rewrite Tl, Ea; now apply dadd_0_r).
  rewrite Ef, Ed. unfold fee_basis_trading_profit_usdc.
  assert (Va : dabs (total_pnl_usdc lifetime ⊖ total_pnl_usdc of_period) == Qabs (all - part)).
  { unfold dabs. assert (X : total_pnl_usdc lifetime ⊖ total_pnl_usdc of_period == all - part) by (rewrite Vl, Vp; unfold dsub; now apply rnd_exact).
    rewrite X. apply rnd_exact. apply Qabs_case; intros _; [exact Rd | now apply representable_opp]. }
  assert (M : forall x, dmax 0 (dmax 0 x) == dmax 0 x) by (intros x; pose proof (dmax_l 0 x); destruct (dmax_cases 0 (dmax 0 x)) as [[-> ?]|[-> ?]]; lra).
  destruct (dltb_spec (dabs (total_pnl_usdc lifetime ⊖ total_pnl_usdc of_period)) 0.01) as [L|L]; [left | right];
    (split; [rewrite M, ?Vp, ?Vl; reflexivity | rewrite <- Va; lra]).
Qed.
End Charges.

