(* ===== verification/EntrySamples.v ===== *)
(** Concrete entries: a configuration, an exchange that fills an order in slices, and the
    theorems on selection and entry applied to them. *)

From S2P Require Import Prelude Dec PyStr Utils Fees TradeApr Group Ledger PyObj GroupJson StateJson State Store Market ExitEval VolMetrics ExchangeErrors Runtime HedgeOrders Hedge Close GroupClose GroupExit DayState Portfolio Triples EntryConfig Selector Entry EntryFacts SpreadEntry.
Local Open Scope string_scope.
Local Open Scope Q_scope.
Local Open Scope dec_scope.
Local Open Scope bool_scope.
Local Open Scope run_scope.
Local Open Scope list_scope.

Definition desk_for (strategy : string) : desk_config := {|
  engine := sample_engine_config; legs := sample_close; option_strategy := strategy; option_fee_rate := 0.0003; option_fee_cap_rate := 0.125 |}.

Definition entry_config_with (slot_sizing : bool) (max_groups : Z) (strategy : string) : entry_config := {|
  trading := desk_for strategy; entry_dte_min := 7; entry_dte_max := 40; short_entry_wait_seconds := 10; enable_naked_topup := true;
  enable_short_put := true; enable_short_call := true; short_call_fallback_only := false; entry_time_exit_dte := 3; covered_call_slot_sizing := slot_sizing;
  max_groups_per_currency := max_groups; elevated_max_groups_tighten := 1;
  short_put_delta_min := 0.05; short_put_delta_max := 0.3; btc_put_delta_min := 0.05; btc_put_delta_max := 0.3; eth_put_delta_min := 0.05; eth_put_delta_max := 0.3;
  put_otm_min := 0.05; put_otm_max := 0.3; btc_put_otm_min := 0.05; btc_put_otm_max := 0.3; eth_put_otm_min := 0.05; eth_put_otm_max := 0.3;
  preferred_short_put_delta_min := 0.1; preferred_short_put_delta_max := 0.2; btc_preferred_put_delta_min := 0.1; btc_preferred_put_delta_max := 0.2;
  eth_preferred_put_delta_min := 0.1; eth_preferred_put_delta_max := 0.2; btc_preferred_otm_min := 0.09; btc_preferred_otm_max := 0.12;
  eth_preferred_otm_min := 0.09; eth_preferred_otm_max := 0.12;
  short_call_delta_min := 0.05; short_call_delta_max := 0.3; btc_call_delta_min := 0.05; btc_call_delta_max := 0.3; eth_call_delta_min := 0.05; eth_call_delta_max := 0.3;
  call_otm_min := 0.05; call_otm_max := 0.3; btc_call_otm_min := 0.05; btc_call_otm_max := 0.3; eth_call_otm_min := 0.05; eth_call_otm_max := 0.3;
  preferred_short_call_delta_min := 0.1; preferred_short_call_delta_max := 0.2; btc_preferred_call_delta_min := 0.1; btc_preferred_call_delta_max := 0.2;
  eth_preferred_call_delta_min := 0.1; eth_preferred_call_delta_max := 0.2; btc_preferred_call_otm_min := 0.09; btc_preferred_call_otm_max := 0.12;
  eth_preferred_call_otm_min := 0.09; eth_preferred_call_otm_max := 0.12; bull_put_long_delta_min := 0.02; bull_put_long_delta_max := 0.1;
  per_leg_im_cap_put := 0.5; per_leg_im_cap_call := 0.5; expiry_im_cap_per_book := 0.8; entry_book_mm_hard := 0.6;
  min_net_apr := 0.1; target_net_apr_min := 0.1; target_net_apr_max := 2; enable_dynamic_min_net_apr := false; dynamic_min_net_apr_max_shift := 0;
  dynamic_min_net_apr_floor := None; dynamic_min_net_apr_ivr_ref := 0.5; naked_dynamic_min_net_apr_allow_loosen := false;
  enable_iv_entry_gate := false; min_iv_rank := 0; max_iv_rank := 1; btc_min_iv_rank := None; btc_max_iv_rank := None; eth_min_iv_rank := None; eth_max_iv_rank := None;
  min_iv_minus_rv := 0; enable_dynamic_target_delta := false; dynamic_target_delta_vrp_ref := 0.1; dynamic_target_delta_strength := 0;
  naked_dynamic_delta_allow_closer := false; elevated_delta_max_tighten := 0.05; naked_elevated_delta_max_tighten := 0.05;
  enable_weighted_candidate_scoring := false; score_weight_net_apr := 1; score_weight_margin_efficiency := 1; score_weight_spread := 1; score_weight_delta_distance := 1;
  score_weight_otm_distance := 1; enable_skew_side_selection := false; score_weight_skew := 0; skew_side_min_rr := 0;
  enable_trend_side_bias := false; trend_side_ref_pct := 0.1; trend_side_min_signal := 0.1; score_weight_trend := 0; enable_trend_adaptive_selection := false;
  trend_target_delta_strength := 0; trend_delta_max_stretch := 0; trend_otm_floor_ratio := 0; naked_entry_below_ma_pct := 0;
  trend_pause_above_pct := 0; trend_pause_requires_bull_regime := true;
  inverse_min_open_interest := 0; btc_inverse_min_open_interest := None; eth_inverse_min_open_interest := None; inverse_max_spread_ratio := 0.5; inverse_min_book_notional_usdc := 0;
  linear_min_open_interest := 0; btc_linear_min_open_interest := None; eth_linear_min_open_interest := None; linear_max_spread_ratio := 0.5; linear_min_book_notional_usdc := 0;
  covered_call_csp_min_open_interest := 0; covered_call_csp_min_open_interest_btc := 0; covered_call_csp_min_open_interest_eth := 0;
  covered_call_csp_max_spread_ratio := 0.5; covered_call_csp_min_book_notional_usdc := 0 |}.

Definition sample_entry_config : string -> entry_config := entry_config_with false 2.

Definition sample_selector : selector := {|
  _iv_rank_by_currency := []; _iv_minus_rv_by_currency := []; _skew_by_currency := []; _trend_by_currency := []; _active_regime := None; rate_at := fun _ => 0 |}.

(** Ten days before the expiry of the samples. *)
Definition expiry_ms : Z := 1751011200000.
Definition sample_clock (h : list request) : Z := ((expiry_ms - 10 * 86400000) * 1000)%Z.

(** A call and two puts on an index of 100000. *)
Definition option_at (name option_type : string) (strike : Q) : OptionInstrument := {|
  instrument_name := name; base_currency := "BTC"; quote_currency := "BTC"; settlement_currency := "BTC"; instrument_type := "reversed";
  tick_size := 0.0001; tick_size_steps := [(0.005, 0.0005)]; min_trade_amount := 0.1; instrument_contract_size := 0.1;
  instrument_option_type := option_type; instrument_expiration_ms := expiry_ms; instrument_strike := strike; instrument_state := "open" |}.

Definition sample_call : OptionInstrument := option_at "BTC-27JUN25-110000-C" "call" 110000.
Definition sample_put : OptionInstrument := option_at "BTC-27JUN25-90000-P" "put" 90000.
Definition sample_wing : OptionInstrument := option_at "BTC-27JUN25-80000-P" "put" 80000.

Definition book_at (name : string) (bid ask : Q) (delta : Q) : OrderBookSnapshot := {|
  book_instrument_name := name; best_bid_price := bid; best_bid_amount := 10; best_ask_price := ask; best_ask_amount := 10; mark_price := (bid + ask) / 2;
  index_price := 100000; Market.delta := delta; iv := 50; open_interest := 100 |}.

Definition sample_call_book : OrderBookSnapshot := book_at "BTC-27JUN25-110000-C" 0.01 0.012 0.15.
Definition sample_put_book : OrderBookSnapshot := book_at "BTC-27JUN25-90000-P" 0.01 0.012 (-0.15).
Definition sample_wing_book : OrderBookSnapshot := book_at "BTC-27JUN25-80000-P" 0.003 0.004 (-0.05).

Definition sample_entry_runtime : runtime := {|
  state := empty_state; open_orders := []; option_positions := []; future_positions := []; future_markets_by_name := [];
  markets_by_currency := [("BTC", [sample_call; sample_put; sample_wing])];
  orderbook_cache := [("BTC-27JUN25-110000-C", sample_call_book); ("BTC-27JUN25-90000-P", sample_put_book); ("BTC-27JUN25-80000-P", sample_wing_book)];
  _instrument_metadata_cache := []; requests := [] |}.

(** The first order on a book fills a third and is cancelled; what follows fills entirely. *)
Definition slice_of (h : list request) (o : order_request) : pyobj :=
  let first := match h with [] => String.eqb o.(req_direction) "sell" | _ => false end in
  PDict [("order", PDict [("order_id", PStr "A"); ("order_state", PStr (if first then "cancelled" else "filled"));
                          ("filled_amount", if first then PStr "0.1" else PDec o.(req_amount)); ("average_price", PStr "0.011")])].

#[local] Instance slicing_desk : Desk := {|
  desk_exchange := {|
    reply h r := match r with PlaceOrder o => Ret (slice_of h o) | _ => Ret (PDict []) end;
    get_order_book name := Exn ValueError;
    get_index_price name := Exn ValueError;
    _fetch_option_instrument_metadata name := None |};
  get_user_trades_by_order id := Ret [];
  account_equity := Ret [("BTC", 2)];
  get_instrument name := Exn ValueError;
  _option_fee_discount_rate_at t := 0 |}.

Definition sample_summaries : dict AccountSummary := [("BTC", sample_account "BTC" 2 0 0)].
Definition sample_regimes : dict RiskRegime := [("BTC", NORMAL)].

(** The candidate of a market at a book. *)
Definition wanted (strategy option_type : string) (i : OptionInstrument) (b : OrderBookSnapshot) (quantity : Q) : NakedPutCandidate :=
  let c := sample_entry_config strategy in
  let a := {| summary_equity := 2; summary_maintenance_margin := 0; sizing_collateral := "BTC"; sizing_currency := "BTC"; existing_im_for_expiry := 0 |} in
  with_strategy strategy (naked_candidate c (sample_clock []) sample_selector option_type i b NORMAL a quantity 0.3 0.1 0.05).

Definition sample_covered : NakedPutCandidate := wanted "covered_call" "call" sample_call sample_call_book 0.3.
Definition sample_naked : NakedPutCandidate := wanted "naked_short" "put" sample_put sample_put_book 0.3.

Lemma sample_ticks : ticks_on (-4) 5 sample_call.
Proof.
  intros t [->|[_ [<-|[]]]]; [exists 1%Z | exists 5%Z]; (split; [lia | vm_compute; reflexivity]).
Defined.

(** A bid of 0.01 and an ask of 0.012 with a tick of 0.0005. *)
Lemma post_only_prices_are_passive_witness :
  sell_mid_price sample_call sample_call_book == 0.011 /\ 0.01 < sell_mid_price sample_call sample_call_book /\ buy_mid_price sample_call sample_call_book < 0.012.
Proof.
  destruct (post_only_prices_are_passive (-4) 5 100 120 sample_call sample_call_book ltac:(vm_compute; reflexivity) ltac:(vm_compute; reflexivity)
    ltac:(lia) ltac:(vm_compute; discriminate) sample_ticks) as [[A _] [_ B]].
  split; [vm_compute; reflexivity|]. exact (conj A B).
Defined.

Definition sample_sizing : sizing := {|
  summary_equity := 2; summary_maintenance_margin := 0; sizing_collateral := "BTC"; sizing_currency := "BTC"; existing_im_for_expiry := 0 |}.

(** 0.3 puts are let through; 30 of them exceed the margin of the leg. *)
Lemma recheck_exact_witness :
  let c := sample_entry_config "naked_short" in
  admissible c (sample_clock []) sample_selector "put" sample_put sample_put_book NORMAL sample_sizing 0.3 /\
  exists reason, recheck c (sample_clock []) sample_selector "put" sample_put sample_put_book NORMAL sample_sizing 30 = (None, Some reason).
Proof.
  cbv zeta. set (c := sample_entry_config "naked_short").
  destruct (recheck_exact c (sample_clock []) sample_selector "put" sample_put sample_put_book NORMAL sample_sizing 0.3 (or_introl eq_refl)) as ([P _] & _).
  destruct (recheck_exact c (sample_clock []) sample_selector "put" sample_put sample_put_book NORMAL sample_sizing 30 (or_introl eq_refl)) as ([_ N] & R & _).
  split; [apply P; vm_compute; reflexivity|]. destruct R as (reason & E & _); [|now exists reason].
  intros A. specialize (N A). vm_compute in N. discriminate N.
Defined.

Lemma sample_put_quoted : quoted_at sample_put.(instrument_name) sample_put sample_put_book sample_entry_runtime.
Proof. split; reflexivity. Defined.

Lemma sample_call_quoted : quoted_at sample_call.(instrument_name) sample_call sample_call_book sample_entry_runtime.
Proof. split; reflexivity. Defined.

(** The two orders of a put sold in two slices. *)
Lemma attempts_priced_from_one_book_witness :
  exists r1 r2, (fst (_execute_repriced_naked_short (sample_entry_config "naked_short") sample_summaries sample_regimes sample_clock sample_selector
                   sample_naked "short-1" 0.3 sample_entry_runtime)).(requests) = [r2; r1] /\
    attempt_request sample_naked "short-1" sample_put sample_put_book r1 /\ attempt_request sample_naked "short-1" sample_put sample_put_book r2.
Proof.
  destruct (attempts_priced_from_one_book slicing_desk (sample_entry_config "naked_short") sample_summaries sample_regimes sample_clock sample_selector
    sample_naked "short-1" 0.3 sample_put sample_put_book sample_entry_runtime sample_put_quoted) as (new & E & F).
  rewrite app_nil_r in E. pose proof E as E'. vm_compute in E'. rewrite <- E' in F.
  eexists _, _. split; [vm_compute; reflexivity|]. inversion_clear F as [|? ? A F']. inversion_clear F' as [|? ? B _]. split; assumption.
Defined.

(** What the entry of the samples comes to. *)
Definition entered (r : runtime * outcome entry_result) : entry_result :=
  match snd r with Ret x => x | _ => no_entry "" "" (nothing_sent sample_selector sample_naked) end.


Definition with_long_leg (leg : SpreadLeg) (k : NakedPutCandidate) : NakedPutCandidate :=
  {| cand_currency := k.(cand_currency); cand_collateral := k.(cand_collateral); cand_quantity := k.(cand_quantity); cand_dte_days := k.(cand_dte_days);
     short_leg := k.(short_leg); screening_bid := k.(screening_bid); screening_mark := k.(screening_mark); target_limit_price := k.(target_limit_price);
     net_premium_native := k.(net_premium_native); fee_native := k.(fee_native); net_apr := k.(net_apr); margin_efficiency := k.(margin_efficiency);
     estimated_im_total := k.(estimated_im_total); estimated_mm_total := k.(estimated_mm_total); cand_regime := k.(cand_regime);
     preferred_delta := k.(preferred_delta); preferred_otm := k.(preferred_otm); in_target_apr_band := k.(in_target_apr_band);
     cand_option_type := k.(cand_option_type); cand_strategy := k.(cand_strategy); long_leg := Some leg; cand_covered_quantity := k.(cand_covered_quantity);
     short_iv := k.(short_iv) |}.

Definition sample_wing_leg : SpreadLeg := _short_put_spread_leg sample_wing sample_wing_book 0.3 0.004 0.0035.
Definition sample_spread_candidate : NakedPutCandidate := with_long_leg sample_wing_leg (wanted "bull_put_spread" "put" sample_put sample_put_book 0.3).


(** What the attempts are after the first slice of the covered call. *)
Definition after_first_slice : attempt_state :=
  match snd (one_attempt (sample_entry_config "covered_call") sample_summaries sample_regimes sample_clock sample_covered "short-1" 0.3
               (first_attempt sample_selector sample_covered) sample_entry_runtime) with
  | Ret (inr p) => p
  | _ => first_attempt sample_selector sample_covered
  end.

Definition first_slice_runtime : runtime :=
  fst (one_attempt (sample_entry_config "covered_call") sample_summaries sample_regimes sample_clock sample_covered "short-1" 0.3
         (first_attempt sample_selector sample_covered) sample_entry_runtime).

(** A tenth of a coin, then two tenths: three tenths sold against two tenths. *)
Lemma covered_call_underreserved_witness :
  exists w2 r g, bind (one_attempt (sample_entry_config "covered_call") sample_summaries sample_regimes sample_clock sample_covered "short-1" 0.3 after_first_slice)
      (fun next => match next with inl x => record_short (sample_entry_config "covered_call") sample_clock "g1" "short-1" x | inr _ => lift OutOfFuel end)
      first_slice_runtime = (w2, Ret r) /\ r.(entry_group) = Some g /\ g.(Group.quantity) == 0.3 /\ g.(covered_underlying_quantity) == 0.2.
Proof.
  pose (c := sample_entry_config "covered_call"). pose (p := after_first_slice).
  pose (a := one_attempt c sample_summaries sample_regimes sample_clock sample_covered "short-1" 0.3 p first_slice_runtime).
  pose (x := match snd a with Ret (inl x) => x | _ => nothing_sent sample_selector sample_covered end).
  pose (rec := record_short c sample_clock "g1" "short-1" x (fst a)).
  assert (Ea : a = (fst a, Ret (inl x))) by (vm_compute; reflexivity). assert (Er : rec = (fst rec, Ret (entered rec))) by (vm_compute; reflexivity).
  assert (W : x.(why) = "filled") by (vm_compute; reflexivity).
  assert (Gq : on_units 0.3) by (exists 30000000%Z; split; [split; vm_compute; discriminate | vm_compute; reflexivity]).
  assert (Gp : on_units p.(so_filled)) by (exists 10000000%Z; split; [split; vm_compute; discriminate | vm_compute; reflexivity]).
  destruct (covered_call_underreserved slicing_desk c sample_summaries sample_regimes sample_clock sample_covered "short-1" p "g1" first_slice_runtime (fst a) (fst rec)
    x (entered rec) eq_refl Gq Gp ltac:(vm_compute; reflexivity) ltac:(vm_compute; reflexivity) Ea W Er) as (g & G & _ & _ & C & _).
  exists (fst rec), (entered rec), g. split; [vm_compute; reflexivity|]. split; [exact G|].
  split; [|rewrite C; vm_compute; reflexivity]. assert (G' : entry_group (entered rec) = Some g) by exact G. vm_compute in G'. injection G' as <-. vm_compute; reflexivity.
Defined.
