(* ===== verification/ScanSamples.v ===== *)
(** Concrete scans and cycles: the market of the sample entries, scanned and entered. *)

From S2P Require Import Prelude Sorting Dec PyStr Utils Fees TradeApr Group Ledger PyObj GroupJson StateJson State Store Market ExitEval VolMetrics EntryGates ExchangeErrors Runtime HedgeOrders Hedge Close GroupClose GroupExit DayState Portfolio Triples EntryConfig Selector Ranking Entry EntryFacts SpreadEntry Builders BuilderFacts Scan ScanFacts EntryCycle EntrySamples.
Local Open Scope string_scope.
Local Open Scope Q_scope.
Local Open Scope dec_scope.
Local Open Scope bool_scope.
Local Open Scope run_scope.
Local Open Scope list_scope.

#[local] Existing Instance slicing_desk.

Definition sample_scan_config (strategy : string) : scan_config := {|
  entries := sample_entry_config strategy; gated := sample_portfolio; top_n := 3; max_concurrent_groups := 4; max_groups_per_book := 4;
  book_im_target := 0.5; book_mm_target := 0.4; naked_block_second_ccy_on_mark_loss := true; option_markets_profile := "inverse" |}.

(** A quiet day: nothing is halted. *)
Definition quiet_snapshot : PortfolioSnapshot := {|
  total_equity_usdc := 200000; snap_day_start_equity_usdc := 200000; day_net_flow_usdc := 0; day_pnl_usdc_ex_flow := 0; day_drawdown_pct := 0;
  open_max_loss := 0; open_max_loss_pct := 0; initial_margin_ratio := 0; maintenance_margin_ratio := 0; projected_max_profit_run_rate_usdc := 0;
  projected_max_profit_apr := 0; target_progress_ratio := 0; regime := NORMAL; halt_new_entries := false; hard_derisk := false;
  snap_cooldown_until_ms := None; cooling_down := false; delta_totals_by_currency := []; regime_by_currency := [("BTC", NORMAL)];
  halt_entry_reasons := []; regime_detail_by_currency := []; margin_ratios_by_currency := [("BTC", (0.1, 0.05))]; equity_by_book := [];
  snap_day_start_equity_by_book := []; snap_day_net_flow_usdc_by_book := []; day_pnl_usdc_ex_flow_by_book := []; day_pnl_usdc_ex_flow_ex_spot := 0;
  day_pnl_usdc_ex_flow_ex_spot_by_book := []; day_drawdown_pct_by_book := []; snap_cooldown_until_ms_by_book := []; cooling_down_by_book := [];
  hard_derisk_by_book := []; halt_entries_by_book := [("BTC", false)]; halt_entry_reasons_by_book := []; halt_new_entries_by_currency := [("BTC", false)];
  portfolio_wide_entry_halt := false |}.

Definition sample_market : list OptionInstrument := [sample_call; sample_put; sample_wing].

(** The candidates of a run. *)
Definition scanned (r : runtime * outcome (selector * list NakedPutCandidate)) : selector * list NakedPutCandidate :=
  match snd r with Ret x => x | _ => (sample_selector, []) end.

(** Two puts are found; each would be let through again. *)
Lemma scan_agrees_with_recheck_witness :
  exists w' s' k1 k2, build_naked_short_candidates (sample_entry_config "naked_short") (sample_clock []) "put" sample_market NORMAL 2 0 "BTC" "BTC" [] None
      sample_selector sample_entry_runtime = (w', Ret (s', [k1; k2])) /\
    (exists i b, In i sample_market /\ recheck (sample_entry_config "naked_short") (sample_clock []) s' "put" i b NORMAL
       (sizing_at 2 0 "BTC" "BTC" [] i) k1.(cand_quantity) = (Some k1, None)).
Proof.
  pose (run := build_naked_short_candidates (sample_entry_config "naked_short") (sample_clock []) "put" sample_market NORMAL 2 0 "BTC" "BTC" [] None sample_selector sample_entry_runtime).
  pose (w' := fst run). pose (s' := fst (scanned run)). pose (k1 := nth 0 (snd (scanned run)) sample_naked). pose (k2 := nth 1 (snd (scanned run)) sample_naked).
  assert (E : build_naked_short_candidates (sample_entry_config "naked_short") (sample_clock []) "put" sample_market NORMAL 2 0 "BTC" "BTC" [] None
    sample_selector sample_entry_runtime = (w', Ret (s', [k1; k2]))) by (vm_compute; reflexivity).
  destruct (scan_agrees_with_recheck _ (sample_entry_config "naked_short") (sample_clock []) "put" sample_market NORMAL 2 0 "BTC" "BTC" [] None sample_selector
    sample_entry_runtime w' s' [k1; k2] (or_introl eq_refl) E) as [_ F].
  exists w', s', k1, k2. split; [exact E|]. apply Forall_inv in F. destruct F as (i & b & I & _ & _ & _ & _ & _ & R).
  exists i, b. split; [exact I | exact R].
Defined.



Lemma sample_market_listed_once : NoDup (map instrument_name sample_market).
Proof. repeat constructor; cbn; intuition discriminate. Defined.

(** The put at 90000 with the wing at 80000. *)
Lemma spreads_scanned_sound_witness :
  exists w' s' k k0 i b, build_bull_put_spread_candidates (sample_entry_config "bull_put_spread") (sample_clock []) sample_market NORMAL 2 0 "BTC" "BTC" []
      sample_selector sample_entry_runtime = (w', Ret (s', [k])) /\ leg_from i b k0 /\
    sound_spread (sample_entry_config "bull_put_spread") (sample_clock []) s' sample_market 2 "BTC" [] w' k0 k.
Proof.
  pose (run := build_bull_put_spread_candidates (sample_entry_config "bull_put_spread") (sample_clock []) sample_market NORMAL 2 0 "BTC" "BTC" []
    sample_selector sample_entry_runtime).
  pose (w' := fst run). pose (s' := fst (scanned run)). pose (k := nth 0 (snd (scanned run)) sample_naked).
  assert (E : build_bull_put_spread_candidates (sample_entry_config "bull_put_spread") (sample_clock []) sample_market NORMAL 2 0 "BTC" "BTC" []
    sample_selector sample_entry_runtime = (w', Ret (s', [k]))) by (vm_compute; reflexivity).
  destruct (spreads_scanned_sound _ (sample_entry_config "bull_put_spread") (sample_clock []) sample_market NORMAL 2 0 "BTC" "BTC" [] sample_selector
    sample_entry_runtime w' s' [k] sample_market_listed_once E) as [_ F].
  apply Forall_inv in F. destruct F as (k0 & i & b & (_ & L & _) & S). exists w', s', k, k0, i, b.
  split; [exact E|]. split; [exact L | exact S].
Defined.

(** Three shorts of a quiet day. *)
Lemma scan_respects_gates_witness :
  exists w' s' k1 k2 k3, _scan_candidates (sample_scan_config "naked_short") quiet_snapshot sample_summaries sample_regimes sample_clock [] 3 sample_selector
      sample_entry_runtime = (w', Ret (s', [k1; k2; k3])) /\ w'.(requests) = [] /\
    admitted (sample_scan_config "naked_short") quiet_snapshot sample_summaries sample_regimes sample_clock empty_state [] sample_selector k1.
Proof.
  pose (run := _scan_candidates (sample_scan_config "naked_short") quiet_snapshot sample_summaries sample_regimes sample_clock [] 3 sample_selector sample_entry_runtime).
  pose (w' := fst run). pose (s' := fst (scanned run)). pose (k1 := nth 0 (snd (scanned run)) sample_naked).
  pose (k2 := nth 1 (snd (scanned run)) sample_naked). pose (k3 := nth 2 (snd (scanned run)) sample_naked).
  assert (E : _scan_candidates (sample_scan_config "naked_short") quiet_snapshot sample_summaries sample_regimes sample_clock [] 3 sample_selector
    sample_entry_runtime = (w', Ret (s', [k1; k2; k3]))) by (vm_compute; reflexivity).
  destruct (scan_respects_gates slicing_desk (sample_scan_config "naked_short") quiet_snapshot sample_summaries sample_regimes sample_clock [] 3 sample_selector
    sample_entry_runtime w' s' [k1; k2; k3] E) as (_ & R & _ & F & _).
  exists w', s', k1, k2, k3. split; [exact E|]. split; [exact R|]. exact (Forall_inv F).
Defined.

Lemma sample_numbered : numbered empty_state.
Proof. constructor; [reflexivity | constructor | intros g n []]. Defined.

(** A put sold in a cycle joins the state as group 0001. *)
Lemma cycle_adds_numbered_group_witness :
  let w' := fst (enter_cycle (sample_scan_config "naked_short") quiet_snapshot sample_summaries sample_regimes sample_clock [] true sample_selector sample_entry_runtime) in
  map group_id w'.(state).(groups) = ["0001"] /\ numbered w'.(state).
Proof.
  cbv zeta. split; [vm_compute; reflexivity|].
  exact (proj1 (cycle_adds_numbered_group slicing_desk (sample_scan_config "naked_short") quiet_snapshot sample_summaries sample_regimes sample_clock [] true
    sample_selector sample_entry_runtime sample_numbered)).
Defined.

(** ** A covered book that is topped up *)

(** Both coins are sold against. *)
Definition covering_group : TradeGroup :=
  set_covered_underlying_quantity 2 (Group.set_strategy "covered_call" (Group.set_option_type "call"
    (new_group "0001" "BTC" "BTC" 2 0 expiry_ms "BTC-27JUN25-110000-C" 110000 2000 2000 0 "normal"))).

Definition covered_runtime : runtime := set_state (set_groups [covering_group] empty_state) sample_entry_runtime.

(** The top-up takes every open group for a naked short. On a covered-call account all
    of whose coins are already sold against, a cycle that finds nothing to enter sells
    further calls of the open group, against nothing. *)
Theorem topup_sells_uncovered_calls :
  let c := sample_scan_config "covered_call" in
  let run := enter_cycle c quiet_snapshot sample_summaries sample_regimes sample_clock [] true sample_selector covered_runtime in
  runs c "covered_call" = true /\
  _available_covered_call_quantity_from_summaries covered_runtime.(state) sample_summaries "BTC" == 0 /\
  exists o, In (PlaceOrder o) (fst run).(requests) /\ o.(req_direction) = "sell" /\ o.(req_instrument_name) = "BTC-27JUN25-110000-C" /\
    o.(req_reduce_only) = false /\ 0 < o.(req_amount).
Proof.
  cbv zeta. split; [reflexivity|]. split; [vm_compute; reflexivity|].
  eexists. split; [vm_compute; left; reflexivity|]. repeat split.
Qed.
