(* ===== verification/ReconcileSamples.v ===== *)
(** Concrete positions: a call that is gone, one that is held, and a put nobody knows of,
    reconciled with and without market data. *)

From S2P Require Import Prelude Sorting Dec PyStr Utils Fees Margin TradeApr Group Ledger PyObj GroupJson StateJson State Store Market ExitEval VolMetrics EntryGates ExchangeErrors Runtime HedgeOrders Hedge Close GroupClose GroupExit EngineFrame DayState Portfolio Triples EntryConfig Selector Ranking Entry EntryFacts SpreadEntry Builders BuilderFacts Scan ScanFacts EntryCycle EntrySamples ScanSamples Settlement Positions PositionsFacts Reconcile ReconcileFacts.
Local Open Scope string_scope.
Local Open Scope Q_scope.
Local Open Scope dec_scope.
Local Open Scope bool_scope.
Local Open Scope run_scope.
Local Open Scope list_scope.

#[local] Existing Instance slicing_desk.

#[local] Instance no_history : History := {|
  history_desk := slicing_desk;
  get_user_trades_by_instrument name since until := Exn ValueError;
  get_delivery_prices name days := Exn ValueError |}.

Definition sample_reconcile : reconcile_config := {|
  scanning := sample_scan_config "naked_short"; enable_adopt_exchange_positions := true; covered_call_spot_exit_enabled := true;
  covered_call_robust_exit_enabled := false; covered_call_itm_to_cash_secured_enabled := false; covered_call_itm_buffer_pct := 0 |}.

Definition short_of (name : string) (size average : Q) : Position := {|
  position_instrument_name := name; direction := "sell"; position_kind := "option"; Market.size := size; size_currency := 0; position_mark_price := 0.011;
  average_price := average; floating_profit_loss := 0; position_delta := 0; position_index_price := 100000;
  has_floating_profit_loss := false; floating_profit_loss_usd := 0; has_floating_profit_loss_usd := false |}.

(** The exchange holds a call under group 0002, twice as large as the group, and a put. *)
Definition sample_positions : list Position := [short_of "BTC-27JUN25-110000-C" 0.4 0; short_of "BTC-27JUN25-90000-P" 0.3 0.012].

Definition group_of (id option_type name : string) (strike : Q) : TradeGroup :=
  Group.set_option_type option_type (new_group id "BTC" "BTC" 0.2 0 expiry_ms name strike 200 200 400 "normal").

Definition sample_held : list TradeGroup := [group_of "0001" "put" "BTC-27JUN25-80000-P" 80000; group_of "0002" "call" "BTC-27JUN25-110000-C" 110000].

Definition sample_held_runtime : runtime := set_state (set_next_group_id 3 (set_groups sample_held empty_state)) sample_entry_runtime.

Lemma sample_held_numbered : numbered sample_held_runtime.(state).
Proof.
  constructor; [reflexivity | repeat constructor; cbn; intuition discriminate|].
  intros g n I L. cbn in L. assert (P : (0 <= n)%Z) by lia.
  assert (N : forall m, (0 <= m)%Z -> (m < 3)%Z -> four_digits m <> four_digits n) by (intros m M1 M2 E; apply four_digits_inj in E; lia).
  cbn in I. destruct I as [<-|[<-|[]]]; [exact (N 1%Z ltac:(lia) ltac:(lia)) | exact (N 2%Z ltac:(lia) ltac:(lia))].
Defined.

(** The put is adopted as group 0003. *)
Lemma adoption_keeps_one_group_per_short_witness :
  let s' := (fst (_adopt_untracked_naked_short_positions sample_reconcile sample_clock sample_positions sample_held_runtime)).(state) in
  map group_id s'.(groups) = ["0001"; "0002"; "0003"] /\ numbered s' /\ NoDup (open_shorts s'.(groups)).
Proof.
  cbv zeta. split; [vm_compute; reflexivity|].
  destruct (adoption_keeps_one_group_per_short slicing_desk sample_reconcile sample_clock sample_positions sample_held_runtime sample_held_numbered) as (A & B & _);
    [repeat constructor; cbn; intuition discriminate | exact (conj A B)].
Defined.

(** Group 0001 is closed, group 0002 takes the size of its call, and the put becomes group 0003. *)
Lemma reconcile_closes_gone_shorts_witness :
  exists w' kept added, _reconcile_state sample_reconcile sample_clock (fun _ => None) (fun g _ => g) sample_positions true sample_held_runtime = (w', Ret true) /\
    w'.(state).(groups) = kept ++ added /\
    Forall2 (reconciled sample_reconcile (fun _ => None) sample_positions (sample_clock [] / 1000)) sample_held kept /\
    map (fun g => (g.(group_id), g.(Group.status), g.(last_action))) w'.(state).(groups)
      = [("0001", "closed", "reconciled_external"); ("0002", "open", "quantity_synced_exchange"); ("0003", "open", "adopted_from_exchange")].
Proof.
  pose (run := _reconcile_state sample_reconcile sample_clock (fun _ => None) (fun g _ => g) sample_positions true sample_held_runtime).
  assert (E : _reconcile_state sample_reconcile sample_clock (fun _ => None) (fun g _ => g) sample_positions true sample_held_runtime = (fst run, Ret true))
    by (vm_compute; reflexivity).
  destruct (reconcile_closes_gone_shorts no_history sample_reconcile sample_clock (fun _ => None) (fun g _ => g) sample_positions true sample_held_runtime (fst run) true
    (fun g r => conj eq_refl eq_refl) E) as (kept & added & G & F & _).
  exists (fst run), kept, added. split; [exact E|]. split; [exact G|]. split; [exact F | vm_compute; reflexivity].
Defined.

(** The sample exchange gives no book, no index and no instrument beyond those at hand. *)
Lemma reconcile_survives_outage_witness :
  exists w' any, _reconcile_state sample_reconcile sample_clock (fun _ => None) (fun g _ => g) []  true
      (set_state (set_groups sample_held empty_state) (set_orderbook_cache [] (set_state empty_state sample_entry_runtime))) = (w', Ret any) /\
    map (fun g => (g.(group_id), g.(Group.status))) w'.(state).(groups) = [("0001", "closed"); ("0002", "closed")].
Proof.
  set (w := set_state _ _).
  destruct (reconcile_survives_outage no_history sample_reconcile sample_clock (fun _ => None) (fun g _ => g) [] true w [("BTC", 2)] eq_refl
    (fun name E => ltac:(discriminate E)) eq_refl eq_refl) as (w' & any & E).
  exists w', any. split; [exact E|].
  assert (E' : w' = fst (_reconcile_state sample_reconcile sample_clock (fun _ => None) (fun g _ => g) [] true w)) by (rewrite E; reflexivity).
  rewrite E'. vm_compute. reflexivity.
Defined.

(** An expired put of the wheel, with no delivery price and no index at hand: comparing a
    close index that was never set with zero raises, and the reconciliation ends there. *)
Definition wheel_reconcile : reconcile_config := {|
  scanning := sample_scan_config "covered_call"; enable_adopt_exchange_positions := true; covered_call_spot_exit_enabled := true;
  covered_call_robust_exit_enabled := false; covered_call_itm_to_cash_secured_enabled := true; covered_call_itm_buffer_pct := 0 |}.

Theorem unpriced_assignment_raises :
  snd (_reconcile_state wheel_reconcile (fun _ => (expiry_ms + 86400000) * 1000)%Z (fun _ => None) (fun g _ => g) [] true
    (set_state (set_groups [Group.set_strategy "cash_secured" (group_of "0001" "put" "BTC-27JUN25-80000-P" 80000)] empty_state)
       (set_orderbook_cache [] (set_state empty_state sample_entry_runtime)))) = Exn TypeError.
Proof. vm_compute. reflexivity. Qed.
