(* ===== verification/SpotSamples.v ===== *)
(** A concrete market for coins: one pair, filled in parts, and an exercised call whose
    cover is sold on it. *)

From S2P Require Import Prelude Sorting Dec PyStr Utils Fees Margin TradeApr Group Ledger PyObj GroupJson StateJson State Store Market ExitEval VolMetrics EntryGates ExchangeErrors Runtime HedgeOrders Hedge Close GroupClose GroupExit EngineFrame CrossFlow DayState Portfolio Manage Triples EntryConfig Selector Ranking Entry EntryFacts SpreadEntry Builders BuilderFacts Scan ScanFacts EntryCycle EntrySamples ScanSamples Settlement Positions Reconcile ReconcileFacts SpotTrade SpotFacts Wheel WheelFacts CashSecured Sweep SpotExit SpotExitFacts CoveredCall ReconcileSamples.
Local Open Scope string_scope.
Local Open Scope Q_scope.
Local Open Scope dec_scope.
Local Open Scope bool_scope.
Local Open Scope run_scope.
Local Open Scope list_scope.

(** The pair: lots of 0.0001, ticks of 1. *)
Definition spot_row (key : string) : pyobj :=
  if String.eqb key "instrument_name" then PStr "BTC_USDT" else if String.eqb key "base_currency" then PStr "BTC"
  else if String.eqb key "quote_currency" then PStr "USDT" else if String.eqb key "settlement_currency" then PStr "USDT"
  else if String.eqb key "tick_size" then PStr "1" else if String.eqb key "min_trade_amount" then PStr "0.0001"
  else if String.eqb key "contract_size" then PStr "0.0001" else PNone.

Definition spot_book_row (key : string) : pyobj :=
  if String.eqb key "instrument_name" then PStr "BTC_USDT" else if String.eqb key "best_bid_price" then PStr "119990"
  else if String.eqb key "best_ask_price" then PStr "120010" else if String.eqb key "mark_price" then PStr "120000"
  else if String.eqb key "index_price" then PStr "120000" else PNone.

(** The first order fills 0.3 at most, the second half a coin, every later one a tenth. *)
Definition spot_fill (h : list request) (amount : Q) : Q :=
  let piece := match h with [] => 0.3 | [_] => 0.5 | _ => 0.1 end in if amount <? piece then 0 else piece.

Definition spot_reply (h : list request) (o : order_request) : pyobj :=
  let fill := spot_fill h o.(req_amount) in
  PDict [("order", PDict [("order_id", PStr "S"); ("order_state", PStr "cancelled"); ("filled_amount", PDec fill); ("average_price", PStr "119990")]);
         ("trades", PList [PDict [("trade_id", PStr "T"); ("direction", PStr "sell"); ("amount", PDec fill); ("price", PStr "119990")]])].

#[local] Instance spot_desk : SpotDesk := {|
  spot_history := {|
    history_desk := {|
      desk_exchange := {|
        reply h r := match r with PlaceOrder o => Ret (spot_reply h o) | _ => Ret (PDict []) end;
        get_order_book name := Exn ValueError;
        get_index_price name := Exn ValueError;
        _fetch_option_instrument_metadata name := None |};
      get_user_trades_by_order id := Ret [];
      account_equity := Ret [("BTC", 2)];
      get_instrument name := Exn ValueError;
      _option_fee_discount_rate_at t := 0 |};
    get_user_trades_by_instrument name since until := Exn ValueError;
    get_delivery_prices name days := Exn ValueError |};
  get_spot_book h r name := Ret spot_book_row;
  get_spot_instruments currency := if String.eqb currency "USDT" then Ret [spot_row] else Ret [];
  get_account_summaries h := Ret [fun key => if String.eqb key "currency" then PStr "BTC" else if String.eqb key "balance" then PStr "2" else PNone];
  get_spot_trades h q := Exn ValueError;
  error_text e := "failed" |}.

#[local] Instance no_log : TransactionLog := fun currency since until => Exn ValueError.

Definition call_reconcile : reconcile_config := {|
  scanning := sample_scan_config "covered_call"; enable_adopt_exchange_positions := true; covered_call_spot_exit_enabled := true;
  covered_call_robust_exit_enabled := true; covered_call_itm_to_cash_secured_enabled := false; covered_call_itm_buffer_pct := 0 |}.

Definition sample_spot : spot_config := {|
  wheel := call_reconcile; covered_call_spot_max_slippage_pct := 0.01; covered_call_spot_order_type := "market"; is_fee_collection_account := false;
  covered_call_profit_sweep_enabled := true; collateral_spot_btc := 0; collateral_spot_eth := 0; covered_call_robust_exit_dte := 0.5;
  covered_call_itm_confirm_cycles := None |}.

(** A call at 110000 on one coin, exercised at 120000. *)
Definition exercised_call : TradeGroup :=
  set_close_index_usd (Some 120000) (Group.set_status "closed" (set_spot_exit_status "pending" (set_covered_underlying_quantity 1
    (Group.set_quantity 1 (Group.set_strategy "covered_call" (group_of "0001" "call" "BTC-27JUN25-110000-C" 110000)))))).

Definition exercised_runtime : runtime := set_state (set_groups [exercised_call] empty_state) sample_entry_runtime.

Definition exit_demo : list exit_step := [TryExit "covered_call_settlement_exit" true; QueueAgain; TryExit "covered_call_settlement_exit" true; TryExit "covered_call_settlement_exit" true].

(** The fill of an order, as one of four cases. *)
Lemma fill_cases h a : 0 < a -> (spot_fill h a = 0 \/ spot_fill h a = 0.3 \/ spot_fill h a = 0.5 \/ spot_fill h a = 0.1) /\ spot_fill h a <= a.
Proof.
  intros P. unfold spot_fill. destruct h as [|r [|r' h]]; match goal with |- context [a <? ?x] => destruct (dltb_spec a x) end; split; auto; lra.
Qed.

Lemma spot_lots_whole name currencies lot : spot_lot name currencies = Ret lot -> lot_on_units lot.
Proof.
  induction currencies as [|currency rest IH]; cbn [spot_lot]; intros E; [apply Ret_inj in E; subst lot; left; vm_compute; discriminate|].
  unfold get_spot_instruments, spot_desk in E. destruct (String.eqb currency "USDT"); [|exact (IH E)]. unfold named_spot in E.
  destruct (instrument_from_api spot_row) as [i| |] eqn:Ei; try discriminate E. cbn [obind] in E. destruct (String.eqb _ name); [|exact (IH E)].
  apply Ret_inj in E. subst lot. vm_compute in Ei. injection Ei as <-. right. exists 10000%Z. split; [lia | vm_compute; reflexivity].
Qed.

Lemma reply_fills h o : _response_filled_amount (spot_reply h o) = spot_fill h o.(req_amount).
Proof. reflexivity. Qed.

Lemma reply_trades h o : _order_trades (spot_reply h o) =
  ret [PDict [("trade_id", PStr "T"); ("direction", PStr "sell"); ("amount", PDec (spot_fill h o.(req_amount))); ("price", PStr "119990")]].
Proof. reflexivity. Qed.

Lemma spot_desk_honest : sales_honest.
Proof.
  assert (Rv : forall h o v, reply h (PlaceOrder o) = Ret v -> v = spot_reply h o) by (intros h o v E; now apply Ret_inj in E). constructor.
  - intros h o v P E. rewrite (Rv h o v E). destruct (fill_cases h _ P) as [C L]. split; [|exact L].
    rewrite reply_fills. destruct C as [->|[->|[->| ->]]];
      [exists 0%Z | exists 30000000%Z | exists 50000000%Z | exists 10000000%Z]; (split; [split; vm_compute; discriminate | vm_compute; reflexivity]).
  - intros h o v d E D. rewrite (Rv h o v E) in D. cbn in D. injection D as <-. eexists. vm_compute. reflexivity.
  - intros h o v w w' trades quote p E F T Pr. rewrite (Rv h o v E) in F, T. rewrite reply_fills in F.
    rewrite reply_trades in T. pose proof (f_equal snd T) as T'. apply Ret_inj in T'. subst trades. clear T. revert F Pr.
    unfold spot_fill. set (piece := match h with [] => 0.3 | [_] => 0.5 | _ => 0.1 end).
    destruct (_ <? _); [intros C; exfalso; revert C; vm_compute; discriminate|].
    unfold piece. destruct h as [|r [|r' h]]; intros _ Pr; vm_compute in Pr; injection Pr as <-; vm_compute; reflexivity.
  - intros name currencies lot. apply spot_lots_whole.
Qed.

(** Three attempts sell 0.3, 0.5 and 0.1 of a cover of one coin, of which 0.9166 are to be sold. *)
Lemma exits_never_oversell_witness :
  let w' := fst (exit_steps sample_spot [] 0 exit_demo exercised_runtime) in
  told w'.(requests) == 0.9 /\
  exists g', nth_error w'.(state).(groups) 0 = Some g' /\ g'.(spot_exit_amount) == 0.9 /\ g'.(spot_exit_status) = "pending" /\
    (g'.(spot_exit_status) = "submitted" \/ 0.9 <= spot_exit_filled_native g').
Proof.
  intros w'.
  assert (T : tracked exercised_call).
  { split; [exists 100000000%Z; split; [split; vm_compute; discriminate | vm_compute; reflexivity]|].
    split; [apply grid_0|]. split; [vm_compute; discriminate|]. split; [vm_compute; discriminate|]. intros C. exfalso. revert C. vm_compute. discriminate. }
  destruct (exits_never_oversell sample_spot [] 0 exit_demo exercised_runtime exercised_call spot_desk_honest eq_refl T) as (g' & new & N & _ & _ & _ & R).
  fold w' in N, R. assert (Td : told w'.(requests) == 0.9) by (vm_compute; reflexivity). split; [exact Td|].
  exists g'. split; [exact N|]. assert (N' : nth_error w'.(state).(groups) 0 = Some g') by exact N. vm_compute in N'. injection N' as <-.
  split; [vm_compute; reflexivity|]. split; [reflexivity|]. destruct R as [E|L]; [now left|]. right. vm_compute. discriminate.
Defined.

(** ** Buying the cover back *)

(** The call sold at an index of 100000 for a premium of 0.002, 0.9 of its coin sold after a settlement of 0.0833. *)
Definition sold_call : TradeGroup :=
  set_spot_exit_status "filled" (set_spot_exit_amount 0.9 (set_spot_exit_quote_proceeds 108000 (set_spot_exit_settlement_loss 0.0833
    (set_entry_index_usd 100000 exercised_call)))).

Lemma sold_call_on_grid : plan_on_grid (-8) (plan_spot_restore_to_cover sold_call None []).
Proof.
  assert (G : forall z q, (0 <= z <= grid_max)%Z -> q == gval (-8) z -> on_grid (-8) grid_max q) by (intros z q B Eq; now exists z).
  split; [|split; [|split; [|split]]]; [apply (G 100000000%Z) | apply (G 90000000%Z) | apply (G 8330000%Z) | apply (G 200000%Z) | apply (G 0%Z)];
    (split; vm_compute; discriminate) || (vm_compute; reflexivity).
Qed.


