(* ===== verification/InvestorSamples.v ===== *)
(** A concrete investor: three accounts on two logins, and two quarters of which only the
    first earned anything. *)

From S2P Require Import Prelude Sorting Dec PyStr Utils PyObj StateJson Market VolMetrics EntryGates DayState FeeLedger Subscriptions InvestorFees SubscriptionFacts InvestorFacts.
Local Open Scope string_scope.
Local Open Scope Q_scope.
Local Open Scope dec_scope.
Local Open Scope bool_scope.
Local Open Scope list_scope.

Definition log_row (type amount : string) : pyobj := PDict [("id", PInt 1); ("timestamp", PInt 1767225600000); ("type", PStr type); ("change", PStr amount)].

(** A coin and 100000 in dollars come in, of which 40000 are moved to the other login. *)
Definition main_log : TransactionLog := fun currency s t =>
  if String.eqb currency "BTC" then Ret [log_row "deposit" "1"; log_row "trade" "0.5"]
  else if String.eqb currency "USDC" then Ret [log_row "deposit" "100000"; log_row "transfer" "-40000"] else Ret [].

Definition side_log : TransactionLog := fun currency s t =>
  if String.eqb currency "USDC" then Ret [log_row "transfer" "40000"] else if String.eqb currency "USDT" then Ret [log_row "withdrawal" "-5000"] else Ret [].

Definition three_accounts : list api_account :=
  [{| slug := "naked"; client_id := "Main"; client_secret := "k"; account_log := main_log |};
   {| slug := "covered"; client_id := "side"; client_secret := "k"; account_log := side_log |};
   {| slug := "spread"; client_id := " main"; client_secret := "k "; account_log := main_log |}].

Definition prices : dict Q := settlement_index 100000 4000.

Definition found_flow : CumulativeNetFlow :=
  match fetch_cumulative_net_flow_usdc prices three_accounts 0 1 with
  | Ret flow => flow
  | _ => {| cumulative_usdc := 0; cumulative_native_by_book := []; cumulative_start_ms := 0; cumulative_end_ms := 0; cumulative_entries := 0;
            by_api_identity := []; cumulative_transfers := [] |}
  end.

Lemma grid_units e n z q : (Z.abs z <= n)%Z -> q == gval e z -> units e n q.
Proof. intros B E. now exists z. Qed.


(** ** Two quarters *)

(** One trade that earned 1000 in February 2026. *)
Definition february : Z := 1770000000000.
Definition one_trade (start stop : Z) : Q := if ((start <=? february) && (february <=? stop))%Z then 1000 else 0.

#[local] Instance one_winner : TradingRecord := {|
  options_pnl_between start stop index := Ret (one_trade start stop);
  trades_closed_between start stop := Ret 1%Z;
  hedge_pnl_since since := Ret 0 |}.

Definition alice : investor :=
  {| investor_id := "alice"; accounts := three_accounts; has_api_accounts := true; env_values := []; aggregate_status := Exn OSError |}.

(** Ends of quarters: 2025-12-31, 2026-03-31 and 2026-06-30, a second before midnight. *)
Definition t0 : Z := 1767225599000.
Definition t1 : Z := 1775001599000.
Definition t2 : Z := 1782863999000.

Definition worth (equity : Q) (ms : Z) : F Z := append_snapshot ms "alice" "manual" equity 0 equity equity 100000 4000 0 0 [("USDC", equity)] [] None.

(** Worth 50000, then 51000, then 50500. *)
Definition with_snapshots : fee_db := fst ((let^ _ := worth 50000 t0 in let^ _ := worth 51000 t1 in worth 50500 t2)%ledger empty_db).

Definition settle_sample (start stop : Z) (name : string) (db : fee_db) : fee_db * outcome settlement :=
  settle_period alice (Some start) stop (Some name) (Some 0) None true false _DEFAULT_SNAPSHOT_MAX_DELTA_MS true true t2 t2 db.

Definition first_quarter : fee_db * outcome settlement := settle_sample t0 t1 "2026-Q1" with_snapshots.
Definition second_quarter : fee_db * outcome settlement := settle_sample t1 t2 "2026-Q2" (fst first_quarter).

Definition fee_of (r : fee_db * outcome settlement) : Q := match snd r with Ret s => s.(settled).(performance_fee) | _ => 0 end.

(** The quarters end where the code says; a quarter settled twice is refused. *)
Example quarters_settled :
  quarter_end_settlement_ts_ms "2026-Q1" = Ret t1 /\ quarter_start_ts_ms "2026-Q2" = Ret (t1 + 1000)%Z /\
  snd (settle_sample t0 t1 "2026-Q1" (fst first_quarter)) = Exn RuntimeError /\
  map period (list_settlements "alice" (fst second_quarter)) = ["2026-Q1"; "2026-Q2"].
Proof. repeat split; vm_compute; reflexivity. Qed.


