(* ===== verification/PublicCache.v ===== *)
(** The two caches in front of public reads ([client.py], [public_cache.py]): one in each
    process, and behind it one that all processes of the host share in a database. Clock
    readings are exact; the clock of a process and the wall clock run alike. *)

From S2P Require Import Prelude Sorting PyStr PyObj StateJson.
Local Open Scope Q_scope.
Local Open Scope dec_scope.
Local Open Scope bool_scope.
Local Open Scope list_scope.

(** ** The shared store *)

Record cache_settings : Type := {
  max_age_seconds : Z;
  max_rows : Z;
}.

(** [(key, stored_ms, payload)] *)
Definition public_rows : Type := dict (Z * pyobj).

Definition now_ms (now : Q) : Z := Qfloor (now * 1000).

(** [ORDER BY stored_ms ASC, key ASC] *)
Definition row_before (a b : string * (Z * pyobj)) : bool :=
  (fst (snd a) <? fst (snd b))%Z || ((fst (snd a) =? fst (snd b))%Z && String.ltb (fst a) (fst b)).

Definition evict (e : cache_settings) (now_ms : Z) (rows : public_rows) : public_rows :=
  let kept := filter (fun r => negb (fst (snd r) <? now_ms - e.(max_age_seconds) * 1000)%Z) rows in
  let excess := (Z.of_nat (List.length kept) - e.(max_rows))%Z in
  if (0 <? excess)%Z then
    let oldest := map fst (firstn (Z.to_nat excess) (stable_sort row_before kept)) in
    filter (fun r => negb (mem_str (fst r) oldest)) kept
  else kept.

(** [available] is whether the database can be opened now. *)
Definition read_shared (available : bool) (key : string) (ttl now : Q) (rows : public_rows) : option pyobj :=
  if (ttl <=? 0) || negb available then None
  else match dict_get key rows with
       | Some (stored_ms, payload) => if ttl <=? (now * 1000 - inject_Z stored_ms) / 1000 then None else Some payload
       | None => None
       end.

Definition _EVICT_EVERY_N_WRITES : Z := 50.

(** The rows and the number of writes of the process so far. *)
Definition write_shared (e : cache_settings) (available : bool) (key : string) (v : pyobj) (now : Q) (rows : public_rows) (writes : Z) : public_rows * Z :=
  match v with
  | PNone => (rows, writes)
  | _ =>
      if negb available then (rows, writes)
      else
        let rows := dict_set key (now_ms now, v) rows in
        let writes := (writes + 1)%Z in
        (if (writes mod _EVICT_EVERY_N_WRITES =? 0)%Z then evict e (now_ms now) rows else rows, writes)
  end.

(** ** The cache of a process *)

(** [_PUBLIC_READ_CACHE]: when it was stored, the value, its time to live. *)
Record read_cache : Type := {
  entries : dict (Q * pyobj * Q);
  last_prune : Q;
  shared : public_rows;
  write_counter : Z;
}.

Definition _PUBLIC_READ_PRUNE_INTERVAL_SEC : Q := 60.

Definition _public_read_cache_get (key : string) (ttl now : Q) (c : read_cache) : option pyobj :=
  match dict_get key c.(entries) with
  | Some (stored, v, _) => if now - stored <? ttl then Some v else None
  | None => None
  end.

Definition _public_read_cache_put (key : string) (v : pyobj) (ttl now : Q) (c : read_cache) : read_cache :=
  let all := dict_set key (now, v, ttl) c.(entries) in
  if now - c.(last_prune) <? _PUBLIC_READ_PRUNE_INTERVAL_SEC
  then {| entries := all; last_prune := c.(last_prune); shared := c.(shared); write_counter := c.(write_counter) |}
  else {| entries := filter (fun '(_, (stored, _, ttl)) => now - stored <? ttl) all; last_prune := now; shared := c.(shared); write_counter := c.(write_counter) |}.

(** What [_cached_public_read] does before it loads: a value at hand, if any. *)
Definition cached_value (available : bool) (key : string) (ttl now : Q) (c : read_cache) : read_cache * option pyobj :=
  match _public_read_cache_get key ttl now c with
  | Some v => (c, Some v)
  | None =>
      match read_shared available key ttl now c.(shared) with
      | Some v => (_public_read_cache_put key v ttl now c, Some v)
      | None => (c, None)
      end
  end.

(** And what it does with what it loaded. *)
Definition keep_value (e : cache_settings) (available : bool) (key : string) (v : pyobj) (ttl now : Q) (c : read_cache) : read_cache :=
  let c := _public_read_cache_put key v ttl now c in
  let '(rows, writes) := write_shared e available key v now c.(shared) c.(write_counter) in
  {| entries := c.(entries); last_prune := c.(last_prune); shared := rows; write_counter := writes |}.

Definition empty_cache : read_cache := {| entries := []; last_prune := 0; shared := []; write_counter := 0 |}.

(** ** How old a value served can be

    A process among others: time passes, it asks for values and keeps what it loads, and
    other processes write to the store and evict from it. [loads] are all values loaded on
    the host, with when. *)

Record host : Type := {
  at_time : Q;
  cache : read_cache;
  loads : list (string * pyobj * Q);
  served : list (string * pyobj * Q);   (** what the process was given, with when *)
}.

Section Host.
Variables (e : cache_settings) (ttl_of : string -> Q).

Definition with_shared (rows : public_rows) (c : read_cache) : read_cache :=
  {| entries := c.(entries); last_prune := c.(last_prune); shared := rows; write_counter := c.(write_counter) |}.

Inductive host_step : host -> host -> Prop :=
| host_tick h t : h.(at_time) <= t -> host_step h {| at_time := t; cache := h.(cache); loads := h.(loads); served := h.(served) |}
| host_ask h key available c v : cached_value available key (ttl_of key) h.(at_time) h.(cache) = (c, Some v) ->
    host_step h {| at_time := h.(at_time); cache := c; loads := h.(loads); served := (key, v, h.(at_time)) :: h.(served) |}
| host_load h key available v : 0 < ttl_of key ->
    host_step h {| at_time := h.(at_time); cache := keep_value e available key v (ttl_of key) h.(at_time) h.(cache);
                   loads := (key, v, h.(at_time)) :: h.(loads); served := (key, v, h.(at_time)) :: h.(served) |}
| host_other h key v rows writes n : write_shared e true key v h.(at_time) h.(cache).(shared) n = (rows, writes) ->
    host_step h {| at_time := h.(at_time); cache := with_shared rows h.(cache); loads := (key, v, h.(at_time)) :: h.(loads); served := h.(served) |}.

Inductive host_run : host -> host -> Prop :=
| host_here h : host_run h h
| host_on h1 h2 h3 : host_run h1 h2 -> host_step h2 h3 -> host_run h1 h3.
End Host.

Definition host_start (t : Q) : host := {| at_time := t; cache := empty_cache; loads := []; served := [] |}.

(** Values in either cache were loaded, not too long before they were stored. *)
Section Staleness.
Variables (e : cache_settings) (ttl_of : string -> Q).

Definition loaded (h : host) (key : string) (v : pyobj) (t : Q) : Prop := In (key, v, t) h.(loads) /\ t <= h.(at_time).

Record cache_sound (h : host) : Prop := {
  entries_sound : forall key s v t, In (key, (s, v, t)) h.(cache).(entries) -> s <= h.(at_time) /\ exists t0, loaded h key v t0 /\ s - t0 < ttl_of key;
  rows_sound : forall key ms v, In (key, (ms, v)) h.(cache).(shared) -> exists t0, loaded h key v t0 /\ inject_Z ms <= t0 * 1000;
  served_sound : forall key v t, In (key, v, t) h.(served) -> exists t0, loaded h key v t0 /\ t0 <= t /\ t - t0 < 2 * ttl_of key;
}.

Lemma in_set {A} k (v : A) d x : In x (dict_set k v d) -> x = (k, v) \/ In x d.
Proof.
  induction d as [|[k' v'] r IH]; cbn [dict_set]; [intros [<-|[]]; now left|]. destruct (String.eqb_spec k k') as [<-|N]; cbn [In]; intuition congruence.
Qed.

Lemma got_in {A} k (v : A) d : dict_get k d = Some v -> In (k, v) d.
Proof. induction d as [|[k' v'] r IH]; cbn; [discriminate|]. destruct (String.eqb_spec k k') as [<-|N]; [intros E; injection E as <-; now left | auto]. Qed.

Lemma put_in key v ttl now c x : In x (_public_read_cache_put key v ttl now c).(entries) -> x = (key, (now, v, ttl)) \/ In x c.(entries).
Proof.
  unfold _public_read_cache_put. destruct (_ <? _); cbn [entries]; [apply in_set|]. intros H. apply filter_In in H. apply in_set, H.
Qed.

Lemma put_shared key v ttl now c : (_public_read_cache_put key v ttl now c).(shared) = c.(shared).
Proof. unfold _public_read_cache_put. destruct (_ <? _); reflexivity. Qed.

Lemma evict_in now rows x : In x (evict e now rows) -> In x rows.
Proof. unfold evict. cbv zeta. destruct (_ <? _)%Z; rewrite ?filter_In; tauto. Qed.

Lemma written available key v now rows n rows' n' : write_shared e available key v now rows n = (rows', n') ->
  forall x, In x rows' -> x = (key, (now_ms now, v)) \/ In x rows.
Proof.
  unfold write_shared. intros E x H. destruct v; try (injection E as <- _; now right); destruct available; cbn [negb] in E; try (injection E as <- _; now right);
    injection E as <- _; (destruct (_ =? _)%Z in H; [apply evict_in in H|]; now apply in_set in H).
Qed.

Lemma now_ms_le now : inject_Z (now_ms now) <= now * 1000.
Proof. apply Qfloor_le. Qed.

Lemma loaded_later h h' key v t : loaded h key v t -> incl h.(loads) h'.(loads) -> h.(at_time) <= h'.(at_time) -> loaded h' key v t.
Proof. intros [I L] J T. split; [now apply J | lra]. Qed.

(** A value in the shared store that is still good was loaded less than its time to live ago. *)
Lemma shared_fresh h available key v : cache_sound h -> read_shared available key (ttl_of key) h.(at_time) h.(cache).(shared) = Some v ->
  exists t0, loaded h key v t0 /\ h.(at_time) - t0 < ttl_of key.
Proof.
  intros [_ R _] E. unfold read_shared in E. destruct (_ || _); [discriminate|]. destruct (dict_get key _) as [[ms p]|] eqn:G; [|discriminate].
  destruct (dleb_spec (ttl_of key) ((h.(at_time) * 1000 - inject_Z ms) / 1000)) as [|L]; [discriminate|]. injection E as ->.
  destruct (R key ms v (got_in _ _ _ G)) as (t0 & Lt & B). exists t0. split; [exact Lt|].
  assert (X : (h.(at_time) * 1000 - inject_Z ms) / 1000 == h.(at_time) - inject_Z ms * (1 # 1000)) by field. lra.
Qed.

Lemma own_fresh h key v : cache_sound h -> _public_read_cache_get key (ttl_of key) h.(at_time) h.(cache) = Some v ->
  exists t0, loaded h key v t0 /\ h.(at_time) - t0 < 2 * ttl_of key.
Proof.
  intros [S _ _] E. unfold _public_read_cache_get in E. destruct (dict_get key _) as [[[s w] t]|] eqn:G; [|discriminate].
  destruct (dltb_spec (h.(at_time) - s) (ttl_of key)) as [L|]; [|discriminate]. injection E as ->.
  destruct (S key s v t (got_in _ _ _ G)) as (_ & t0 & Lt & B). exists t0. split; [exact Lt | lra].
Qed.

Lemma step_sound h h' : cache_sound h -> host_step e ttl_of h h' -> cache_sound h'.
Proof.
  intros I St. pose proof I as [S R V]. inversion St as [? t Lt E|? key available c v Ec E|? key available v Pt E|? key v rows writes n Ew E]; subst; clear St.
  - assert (Keep : forall k w u, loaded h k w u -> loaded {| at_time := t; cache := h.(cache); loads := h.(loads); served := h.(served) |} k w u)
      by (intros k w u L; apply (loaded_later h); [exact L | apply incl_refl | exact Lt]).
    split; cbn.
    + intros key s v t' H. destruct (S _ _ _ _ H) as (Ls & t0 & L & B). split; [lra | eauto].
    + intros key ms v H. destruct (R _ _ _ H) as (t0 & L & B). eauto.
    + intros key v t' H. destruct (V _ _ _ H) as (t0 & L & B). eauto.
  - set (h' := {| at_time := h.(at_time); cache := c; loads := h.(loads); served := (key, v, h.(at_time)) :: h.(served) |}).
    assert (Keep : forall k w u, loaded h k w u -> loaded h' k w u) by (intros k w u L; exact L).
    unfold cached_value in Ec. destruct (_public_read_cache_get key _ _ _) as [w|] eqn:G.
    + injection Ec as <- ->. destruct (own_fresh h key v I G) as (t0 & L & B). split; [exact S | exact R |].
      intros k w t H. destruct H as [H|H]; [injection H as <- <- <-; exists t0; split; [exact L | split; [apply L | exact B]] | exact (V _ _ _ H)].
    + destruct (read_shared _ _ _ _ _) as [w|] eqn:G'; [|discriminate]. injection Ec as <- ->. destruct (shared_fresh h available key v I G') as (t0 & L & B).
      assert (P : 0 < ttl_of key) by (unfold read_shared in G'; destruct (dleb_spec (ttl_of key) 0); [discriminate | lra]).
      split; cbn.
      * intros k s w t H. apply put_in in H. destruct H as [H|H]; [injection H as -> -> -> ->; split; [lra | exists t0; split; [exact L | exact B]] | exact (S _ _ _ _ H)].
      * intros k ms w H. rewrite put_shared in H. exact (R _ _ _ H).
      * intros k w t H. destruct H as [H|H]; [injection H as <- <- <-; exists t0; split; [exact L | split; [apply L | lra]] | exact (V _ _ _ H)].
  - set (h' := {| at_time := _; cache := _; loads := _; served := _ |}).
    assert (Keep : forall k w u, loaded h k w u -> loaded h' k w u) by (intros k w u L; apply (loaded_later h); [exact L | intros x; now right | apply Qle_refl]).
    assert (New : loaded h' key v h.(at_time)) by (split; [now left | apply Qle_refl]).
    assert (Parts : entries (cache h') = entries (_public_read_cache_put key v (ttl_of key) h.(at_time) h.(cache)) /\
                    exists n, write_shared e available key v h.(at_time) h.(cache).(shared) n = (shared (cache h'), write_counter (cache h'))).
    { unfold h', keep_value. cbn [cache]. rewrite put_shared. destruct (write_shared e available key v (at_time h) (shared (cache h)) _) as [rows n] eqn:Ew. cbn [entries shared write_counter].
      split; [reflexivity|]. eexists. exact Ew. }
    destruct Parts as (Pe & n & Pw). split.
    + intros k s w t H. rewrite Pe in H. apply put_in in H. destruct H as [H|H].
      * injection H as -> -> -> ->. split; [apply Qle_refl|]. exists h.(at_time). split; [exact New | lra].
      * destruct (S _ _ _ _ H) as (Ls & t0 & L & B). split; [exact Ls | eauto].
    + intros k ms w H. destruct (written _ _ _ _ _ _ _ _ Pw _ H) as [X|X].
      * injection X as -> -> ->. exists h.(at_time). split; [exact New | apply now_ms_le].
      * destruct (R _ _ _ X) as (t0 & L & B). eauto.
    + intros k w t H. destruct H as [H|H]; [injection H as <- <- <-; exists h.(at_time); split; [exact New | split; [apply Qle_refl | lra]]|].
      destruct (V _ _ _ H) as (t0 & L & B). eauto.
  - set (h' := {| at_time := _; cache := _; loads := _; served := _ |}).
    assert (Keep : forall k w u, loaded h k w u -> loaded h' k w u) by (intros k w u L; apply (loaded_later h); [exact L | intros x; now right | apply Qle_refl]).
    split; cbn.
    + intros k s w t H. destruct (S _ _ _ _ H) as (Ls & t0 & L & B). split; [exact Ls | eauto].
    + intros k ms w H. destruct (written _ _ _ _ _ _ _ _ Ew _ H) as [X|X].
      * injection X as -> -> ->. exists h.(at_time). split; [split; [now left | apply Qle_refl] | apply now_ms_le].
      * destruct (R _ _ _ X) as (t0 & L & B). eauto.
    + intros k w t H. destruct (V _ _ _ H) as (t0 & L & B). eauto.
Qed.

Lemma run_sound h h' : host_run e ttl_of h h' -> cache_sound h -> cache_sound h'.
Proof. induction 1 as [|h1 h2 h3 _ IH St]; auto. intros I. exact (step_sound _ _ (IH I) St). Qed.

Lemma start_sound t : cache_sound (host_start t).
Proof. split; cbn; intros; contradiction. Qed.
End Staleness.

(** C34. What the caches serve is never as old as twice its time to live. In whatever way
    a process asks, loads, and shares its host's store with others that write and evict,
    every value it is given was loaded for that key, by some process, less than twice the
    time to live of the key before. *)
Theorem served_within_two_ttl e ttl_of t h key v at_ : host_run e ttl_of (host_start t) h -> In (key, v, at_) h.(served) ->
  exists t0, In (key, v, t0) h.(loads) /\ t0 <= at_ /\ at_ - t0 < 2 * ttl_of key.
Proof.
  intros Run H. destruct (run_sound e ttl_of _ _ Run (start_sound ttl_of t)) as [_ _ V]. destruct (V _ _ _ H) as (t0 & [L _] & B). eauto.
Qed.

(** Loaded by another process at time 0, taken from the store at 4.9 and served from the process at 9.7, with 5 seconds to live. *)
Lemma served_within_two_ttl_witness :
  exists h, host_run {| max_age_seconds := 86400; max_rows := 5000 |} (fun _ => 5) (host_start 0) h /\
    In ("index_price:btc_usd"%string, PInt 100000, 9.7) h.(served) /\ h.(loads) = [("index_price:btc_usd"%string, PInt 100000, 0)] /\
    exists t0, In ("index_price:btc_usd"%string, PInt 100000, t0) h.(loads) /\ 9.7 - t0 < 2 * 5.
Proof.
  set (e := {| max_age_seconds := 86400; max_rows := 5000 |}). set (key := "index_price:btc_usd"%string).
  set (h1 := {| at_time := 0; cache := with_shared [(key, (0%Z, PInt 100000))] empty_cache; loads := [(key, PInt 100000, 0)]; served := [] |}).
  set (h2 := {| at_time := 4.9; cache := h1.(cache); loads := h1.(loads); served := [] |}).
  set (c := fst (cached_value true key 5 4.9 h2.(cache))).
  set (h3 := {| at_time := 4.9; cache := c; loads := h1.(loads); served := [(key, PInt 100000, 4.9)] |}).
  set (h4 := {| at_time := 9.7; cache := c; loads := h1.(loads); served := [(key, PInt 100000, 4.9)] |}).
  set (h5 := {| at_time := 9.7; cache := c; loads := h1.(loads); served := [(key, PInt 100000, 9.7); (key, PInt 100000, 4.9)] |}).
  assert (Run : host_run e (fun _ => 5) (host_start 0) h5).
  { assert (R1 : host_run e (fun _ => 5) (host_start 0) h1)
      by (apply host_on with (host_start 0); [apply host_here | apply (host_other e _ (host_start 0) key (PInt 100000) [(key, (0%Z, PInt 100000))] 1 0); reflexivity]).
    assert (R2 : host_run e (fun _ => 5) (host_start 0) h2) by (apply host_on with h1; [exact R1 | apply (host_tick e _ h1 4.9); vm_compute; discriminate]).
    assert (R3 : host_run e (fun _ => 5) (host_start 0) h3) by (apply host_on with h2; [exact R2 | apply (host_ask e _ h2 key true c (PInt 100000)); vm_compute; reflexivity]).
    assert (R4 : host_run e (fun _ => 5) (host_start 0) h4) by (apply host_on with h3; [exact R3 | apply (host_tick e _ h3 9.7); vm_compute; discriminate]).
    apply host_on with h4; [exact R4 | apply (host_ask e _ h4 key true c (PInt 100000)); vm_compute; reflexivity]. }
  exists h5. split; [exact Run|]. split; [now left|]. split; [reflexivity|].
  destruct (served_within_two_ttl e (fun _ => 5) 0 h5 key (PInt 100000) 9.7 Run) as (t0 & I & _ & L); [now left|]. exists t0. split; [exact I | exact L].
Defined.
