(* ===== verification/Client.v ===== *)
(** The client of the exchange ([client.py]): JSON-RPC over HTTP with its tokens, which
    requests are sent again and which never are, public reads through the caches of
    [PublicCache], and logs read page by page. The server is any function of what was
    posted before; waits are recorded. *)

From S2P Require Import Prelude Sorting Dec PyStr Utils PyObj GroupJson StateJson Throttle PublicCache.
Local Open Scope string_scope.
Local Open Scope Q_scope.
Local Open Scope dec_scope.
Local Open Scope bool_scope.
Local Open Scope list_scope.

(** ** Requests and answers *)

Record http_request : Type := {
  rpc_id : Z;
  rpc_method : string;
  rpc_params : list (string * pyobj);
  bearer : option string;
}.

(** [response.json()] raises where there is no body. *)
Record http_response : Type := {
  status_code : Z;
  json_body : option pyobj;
  response_text : string;
  retry_after : option string;
}.

(** An exception of [requests] has a class and a text. *)
Inductive answer : Type :=
| Answered (r : http_response)
| Dropped (kind message : string).

(** The server, the clocks and [random.random()], after the requests posted so far. *)
Class Server : Type := {
  answer_to : list http_request -> http_request -> answer;
  utc_now_ms : list http_request -> Z;
  monotonic : list http_request -> Q;
  random : list http_request -> Q;
  store_available : list http_request -> bool;
}.

Record client_config : Type := {
  client_id : string;
  client_secret : string;
  rest_base_url : string;
  pacing : settings;
  store_settings : cache_settings;
  environ : string -> option string;
}.

Definition has_private_credentials (c : client_config) : bool := truthy c.(client_id) && truthy c.(client_secret).

(** A client, and what its process shares: tokens by login, penalties, public reads. *)
Record client : Type := {
  access_token : option string;
  refresh_token : option string;
  token_expiry_ms : Z;
  next_id : Z;
  auth_cache : dict (string * option string * Z);
  penalized : penalties;
  reads : read_cache;
  posted : list http_request;
  sleeps : list Q;
}.

Definition set_tokens (access refresh : option string) (expiry : Z) (w : client) : client :=
  {| access_token := access; refresh_token := refresh; token_expiry_ms := expiry; next_id := w.(next_id); auth_cache := w.(auth_cache);
     penalized := w.(penalized); reads := w.(reads); posted := w.(posted); sleeps := w.(sleeps) |}.
Definition set_next_id (n : Z) (w : client) : client :=
  {| access_token := w.(access_token); refresh_token := w.(refresh_token); token_expiry_ms := w.(token_expiry_ms); next_id := n;
     auth_cache := w.(auth_cache); penalized := w.(penalized); reads := w.(reads); posted := w.(posted); sleeps := w.(sleeps) |}.
Definition set_auth_cache (d : dict (string * option string * Z)) (w : client) : client :=
  {| access_token := w.(access_token); refresh_token := w.(refresh_token); token_expiry_ms := w.(token_expiry_ms); next_id := w.(next_id);
     auth_cache := d; penalized := w.(penalized); reads := w.(reads); posted := w.(posted); sleeps := w.(sleeps) |}.
Definition set_penalized (p : penalties) (w : client) : client :=
  {| access_token := w.(access_token); refresh_token := w.(refresh_token); token_expiry_ms := w.(token_expiry_ms); next_id := w.(next_id);
     auth_cache := w.(auth_cache); penalized := p; reads := w.(reads); posted := w.(posted); sleeps := w.(sleeps) |}.
Definition set_reads (r : read_cache) (w : client) : client :=
  {| access_token := w.(access_token); refresh_token := w.(refresh_token); token_expiry_ms := w.(token_expiry_ms); next_id := w.(next_id);
     auth_cache := w.(auth_cache); penalized := w.(penalized); reads := r; posted := w.(posted); sleeps := w.(sleeps) |}.
Definition add_post (r : http_request) (w : client) : client :=
  {| access_token := w.(access_token); refresh_token := w.(refresh_token); token_expiry_ms := w.(token_expiry_ms); next_id := w.(next_id);
     auth_cache := w.(auth_cache); penalized := w.(penalized); reads := w.(reads); posted := r :: w.(posted); sleeps := w.(sleeps) |}.
Definition add_sleep (q : Q) (w : client) : client :=
  {| access_token := w.(access_token); refresh_token := w.(refresh_token); token_expiry_ms := w.(token_expiry_ms); next_id := w.(next_id);
     auth_cache := w.(auth_cache); penalized := w.(penalized); reads := w.(reads); posted := w.(posted); sleeps := q :: w.(sleeps) |}.

(** ** Programs of the client *)

Definition C (A : Type) : Type := client -> client * outcome A.
Definition cret {A} (a : A) : C A := fun w => (w, Ret a).
Definition craise {A} (e : exn) : C A := fun w => (w, Exn e).
Definition clift {A} (o : outcome A) : C A := fun w => (w, o).
Definition cget {A} (f : client -> A) : C A := fun w => (w, Ret (f w)).
Definition cput (f : client -> client) : C unit := fun w => (f w, Ret tt).
Definition cbind {A B} (m : C A) (k : A -> C B) : C B :=
  fun w => match m w with
           | (w', Ret a) => k a w'
           | (w', Exn e) => (w', Exn e)
           | (w', OutOfFuel) => (w', OutOfFuel)
           end.

Declare Scope client_scope.
Delimit Scope client_scope with client.
Notation "'let%' x ':=' m 'in' k" := (cbind m (fun x => k))
  (at level 10, x pattern, m at level 100, k at level 200) : client_scope.
Local Open Scope client_scope.

(** [except requests.exceptions.RequestException] *)
Definition catch_request {A} (m : C A) : C (A + string * string) :=
  fun w => match m w with
           | (w', Ret a) => (w', Ret (inl a))
           | (w', Exn (RequestException kind message)) => (w', Ret (inr (kind, message)))
           | (w', Exn e) => (w', Exn e)
           | (w', OutOfFuel) => (w', OutOfFuel)
           end.

(** [except (AuthenticationError, ExchangeError, TransientExchangeError)] *)
Definition catch_exchange {A} (m : C A) : C (option A) :=
  fun w => match m w with
           | (w', Ret a) => (w', Ret (Some a))
           | (w', Exn (AuthenticationError _)) | (w', Exn (ExchangeError _)) | (w', Exn (TransientExchangeError _)) => (w', Ret None)
           | (w', Exn e) => (w', Exn e)
           | (w', OutOfFuel) => (w', OutOfFuel)
           end.

Definition RETRYABLE_STATUS_CODES : list Z := [408; 409; 425; 500; 502; 503; 504; 520; 521; 522; 523; 524]%Z.
Definition RATE_LIMIT_STATUS : Z := 429.
Definition IDEMPOTENT_RETRY_BACKOFF_SECONDS : list Q := [0.5; 1; 2; 4].
Definition AUTH_RETRY_BACKOFF_SECONDS : list Q := [1; 2; 4].
Definition TOKEN_REFRESH_SAFETY_SECONDS : Z := 30.
Definition JSONRPC_TOO_MANY_REQUESTS : Z := 10028.

Definition _UNSAFE_METHODS : list string :=
  ["private/buy"; "private/sell"; "private/close_position"; "private/cancel"; "private/cancel_all"; "private/cancel_all_by_currency";
   "private/cancel_all_by_instrument"; "private/cancel_by_label"; "private/edit"; "private/edit_by_label"; "private/create_combo";
   "private/submit_transfer_between_subaccounts"].

Definition mem_Z (z : Z) (l : list Z) : bool := existsb (Z.eqb z) l.

(** [float(v)] of a JSON value or text. *)
Definition py_float (v : pyobj) : option Q :=
  match v with
  | PInt z => Some (inject_Z z)
  | PBool b => Some (if b then 1 else 0)
  | PFloat t | PStr t => parse_decimal t
  | _ => None
  end.

Definition at_least_0 (q : Q) : Q := if q <? 0 then 0 else q.

(** ** Reading answers *)

Definition dict_has (key : string) (d : list (string * pyobj)) : bool := existsb (fun '(k, _) => String.eqb k key) d.
Definition is_dict (v : pyobj) : bool := match v with PDict _ => true | _ => false end.

Definition _parse_jsonrpc (r : http_response) (method : string) : outcome (list (string * pyobj)) :=
  match r.(json_body) with
  | None => Exn (ExchangeError (method ++ " returned invalid JSON"))
  | Some (PDict d) =>
      if negb (match dget "jsonrpc" d with PStr v => String.eqb v "2.0" | _ => false end) then Exn (ExchangeError (method ++ " missing jsonrpc=2.0 field"))
      else if negb (dict_has "id" d) && negb (is_dict (dget "error" d)) then Exn (ExchangeError (method ++ " missing jsonrpc id field"))
      else Ret d
  | Some _ => Exn (ExchangeError (method ++ " returned non-object JSON body"))
  end.

(** [(payload, jsonrpc_error)] *)
Definition _parse_jsonrpc_payload (r : http_response) (method : string) : option (list (string * pyobj)) * option (list (string * pyobj)) :=
  match _parse_jsonrpc r method with
  | Ret d => (Some d, match dget "error" d with PDict ((_ :: _) as e) => Some e | _ => None end)
  | _ => (None, None)
  end.

Definition code_of (v : pyobj) : Z := match py_int v with Ret z => z | _ => 0%Z end.

Definition auth_codes : list Z := [13009; 13010; 13004; 13007; 13008]%Z.
Definition transient_codes : list Z := [10028; 10040; 10041; 10042; 10043; 10044; 10066; 11051]%Z.

Definition _classify_error (method : string) (error : list (string * pyobj)) : exn :=
  let text := (method ++ " failed: code=" ++ py_str (dget "code" error) ++ " message=" ++ py_str (dget "message" error) ++ " data=" ++ py_str (dget "data" error))%string in
  let code := code_of (dget "code" error) in
  if mem_Z code auth_codes then AuthenticationError text else if mem_Z code transient_codes then TransientExchangeError text else ExchangeError text.

Definition is_authentication (e : exn) : bool := match e with AuthenticationError _ => true | _ => false end.
Definition is_transient (e : exn) : bool := match e with TransientExchangeError _ => true | _ => false end.

Definition _is_too_many_requests (error : list (string * pyobj)) : bool := (code_of (obj_or (dget "code" error) (PInt 0)) =? JSONRPC_TOO_MANY_REQUESTS)%Z.

Definition _jsonrpc_transient_wait_seconds (error : list (string * pyobj)) : option Q :=
  match dget "data" error with PDict d => option_map at_least_0 (py_float (dget "wait" d)) | _ => None end.

Definition _is_maintenance_http_block (status : Z) (r : http_response) : bool :=
  (status =? 405)%Z && (contains "nginx" (lower r.(response_text)) || contains "not allowed" (lower r.(response_text))).

Definition _retry_after_seconds (r : http_response) : option Q :=
  match r.(retry_after) with Some t => option_map at_least_0 (py_float (PStr t)) | None => None end.

Definition _is_public_method (method : string) : bool := startswith "public/" method.

(** [_normalize_params] *)
Fixpoint _normalize_params (params : list (string * pyobj)) : outcome (list (string * pyobj)) :=
  (match params with
   | [] => Ret []
   | (_, PNone) :: rest => _normalize_params rest
   | (k, PDec q) :: rest => let! t := decimal_text q 8 in let! more := _normalize_params rest in Ret ((k, PStr t) :: more)
   | (k, v) :: rest => let! more := _normalize_params rest in Ret ((k, v) :: more)
   end)%outcome.

Definition retry_status (status : Z) (r : http_response) : bool :=
  mem_Z status RETRYABLE_STATUS_CODES || _is_maintenance_http_block status r.

(** [str] of a status. *)
Definition http_text (status : Z) : string := ("HTTP " ++ print_int status)%string.

Section Client.
Context {Sv : Server}.
Variable c : client_config.

(** ** Posting *)

Definition _pace_identity (method : string) : string := if _is_public_method method then "" else c.(client_id).

Definition note_limited (method : string) : C unit := cput (fun w => set_penalized (note_rate_limited c.(pacing) (_pace_identity method) w.(penalized)) w).
Definition note_answered (method : string) : C unit := cput (fun w => set_penalized (note_success c.(pacing) (_pace_identity method) w.(penalized)) w).

Definition sleep (seconds : Q) : C unit := cput (add_sleep seconds).
Definition pause (seconds : Q) : C unit :=
  let% r := cget (fun w => random w.(posted)) in sleep (if seconds <=? 0 then 0 else seconds * (0.5 + r * 0.5)).
Definition pause_for (asked : option Q) (seconds : Q) : C unit := match asked with Some q => sleep q | None => pause seconds end.

Definition _jsonrpc_body (method : string) (params : list (string * pyobj)) : C (Z * list (string * pyobj)) :=
  let% id := cget next_id in
  let% _ := cput (set_next_id (id + 1)) in
  let% params := clift (_normalize_params params) in
  cret (id, params).

Definition _post_raw (method : string) (body : Z * list (string * pyobj)) (token : option string) : C http_response :=
  let request := {| rpc_id := fst body; rpc_method := method; rpc_params := snd body; bearer := token |} in
  let% got := cget (fun w => answer_to w.(posted) request) in
  let% _ := cput (add_post request) in
  match got with
  | Dropped kind message => craise (RequestException kind message)
  | Answered r => let% _ := (if (r.(status_code) =? RATE_LIMIT_STATUS)%Z then note_limited method else cret tt) in cret r
  end.

(** ** Tokens *)

Definition _auth_cache_key : string :=
  (c.(rest_base_url) ++ String (ascii_of_nat 0) (lower (strip c.(client_id)) ++ String (ascii_of_nat 0) (strip c.(client_secret))))%string.

Definition utc_now : C Z := cget (fun w => utc_now_ms w.(posted)).

Definition opt_truthy (s : option string) : bool := match s with Some t => truthy t | None => false end.

Definition _token_expired : C bool :=
  let% token := cget access_token in
  let% ms := utc_now in
  let% expiry := cget token_expiry_ms in
  cret (if negb (opt_truthy token) then true else (expiry <=? ms + TOKEN_REFRESH_SAFETY_SECONDS * 1000)%Z).

Definition _hydrate_auth_from_cache : C bool :=
  if negb (has_private_credentials c) then cret false
  else
    let% cached := cget (fun w => dict_get _auth_cache_key w.(auth_cache)) in
    match cached with
    | None => cret false
    | Some (access, refresh, expiry) =>
        let% ms := utc_now in
        if (expiry <=? ms + TOKEN_REFRESH_SAFETY_SECONDS * 1000)%Z then cret false
        else let% _ := cput (set_tokens (Some access) refresh expiry) in cret true
    end.

Definition _publish_auth_to_cache : C unit :=
  let% token := cget access_token in
  match token with
  | Some access =>
      if negb (has_private_credentials c) || negb (truthy access) then cret tt
      else cput (fun w => set_auth_cache (dict_set _auth_cache_key (access, w.(refresh_token), w.(token_expiry_ms)) w.(auth_cache)) w)
  | None => cret tt
  end.

Definition _clear_auth_tokens : C unit :=
  let% _ := cput (set_tokens None None 0) in
  if has_private_credentials c then cput (fun w => set_auth_cache (dict_pop _auth_cache_key w.(auth_cache)) w) else cret tt.

Definition _apply_auth_result (result : list (string * pyobj)) : C unit :=
  match dget "access_token" result with
  | PStr access =>
      if truthy access then
        let refresh := match dget "refresh_token" result with PStr r => Some r | _ => None end in
        let ttl := match dget "expires_in" result with PNone => 0%Z | v => code_of v end in
        let% ms := utc_now in
        let% _ := cput (set_tokens (Some access) refresh (ms + Z.max ttl 0 * 1000)) in
        _publish_auth_to_cache
      else craise (AuthenticationError "Deribit auth response missing access_token")
  | _ => craise (AuthenticationError "Deribit auth response missing access_token")
  end.

Fixpoint call_auth (params : list (string * pyobj)) (backoffs : list Q) : C (list (string * pyobj)) :=
  let% body := _jsonrpc_body "public/auth" params in
  let% r := _post_raw "public/auth" body None in
  let status := r.(status_code) in
  if (status =? RATE_LIMIT_STATUS)%Z then
    match backoffs with
    | b :: rest => let% _ := pause_for (_retry_after_seconds r) b in call_auth params rest
    | [] => craise (TransientExchangeError "public/auth rate limited (HTTP 429)")
    end
  else if retry_status status r then
    match backoffs with
    | b :: rest => let% _ := pause b in call_auth params rest
    | [] => craise (TransientExchangeError (if mem_Z status RETRYABLE_STATUS_CODES then "public/auth " ++ http_text status
                                            else "public/auth: Deribit system maintenance (POST blocked at edge); HTTP 405"))
    end
  else if (400 <=? status)%Z then craise (AuthenticationError ("public/auth failed: " ++ http_text status ++ " " ++ r.(response_text)))
  else
    let% data := clift (_parse_jsonrpc r "public/auth") in
    match dget "result" data with
    | PDict result => let% _ := note_answered "public/auth" in cret result
    | _ => craise (AuthenticationError "public/auth returned no result")
    end.

Definition _call_auth (params : list (string * pyobj)) : C (list (string * pyobj)) := call_auth params AUTH_RETRY_BACKOFF_SECONDS.

Definition _refresh_access_token (refresh : string) : C unit :=
  let% result := _call_auth [("grant_type", PStr "refresh_token"); ("refresh_token", PStr refresh)] in
  _apply_auth_result result.

(** [assert self._access_token is not None] holds where it is written. *)
Definition current_token : C string := let% token := cget access_token in cret (match token with Some t => t | None => "" end).

Definition log_in : C string :=
  let% result := _call_auth [("grant_type", PStr "client_credentials"); ("client_id", PStr c.(client_id)); ("client_secret", PStr c.(client_secret))] in
  let% _ := _apply_auth_result result in
  current_token.

Definition _ensure_access_token : C string :=
  let% expired := _token_expired in
  if negb expired then current_token
  else if negb (has_private_credentials c)
  then craise (AuthenticationError "Private Deribit method requires DERIBIT_CLIENT_ID and DERIBIT_CLIENT_SECRET")
  else
    let% hydrated := _hydrate_auth_from_cache in
    let% still := (if hydrated then _token_expired else cret true) in
    if hydrated && negb still then current_token
    else
      let% refresh := cget refresh_token in
      match refresh with
      | Some r =>
          if truthy r then
            let% refreshed := catch_exchange (_refresh_access_token r) in
            match refreshed with
            | Some _ => current_token
            | None => let% _ := cput (fun w => set_tokens None None w.(token_expiry_ms) w) in log_in
            end
          else log_in
      | None => log_in
      end.

(** The request, with its headers made first. *)
Definition send_request (method : string) (body : Z * list (string * pyobj)) (private : bool) : C http_response :=
  let% token := (if private then let% t := _ensure_access_token in cret (Some t) else cret None) in
  _post_raw method body token.

(** ** Reads, which are sent again *)

Definition _should_retry_private_auth (private : bool) (status : Z) (error : option (list (string * pyobj))) : bool :=
  private && ((status =? 401)%Z || match error with Some e => is_authentication (_classify_error "" e) | None => false end).

Fixpoint idempotent (method : string) (params : list (string * pyobj)) (private : bool) (backoffs : list Q) : C pyobj :=
  let% body := _jsonrpc_body method params in
  let% got := catch_request (send_request method body private) in
  match got with
  | inr (_, message) =>
      match backoffs with
      | b :: rest => let% _ := pause b in idempotent method params private rest
      | [] => craise (TransientExchangeError (method ++ " failed after retries: " ++ message))
      end
  | inl r =>
      let status := r.(status_code) in
      let '(payload, error) := _parse_jsonrpc_payload r method in
      if (status =? RATE_LIMIT_STATUS)%Z then
        match backoffs with
        | b :: rest => let% _ := pause_for (_retry_after_seconds r) b in idempotent method params private rest
        | [] => craise (TransientExchangeError (method ++ " rate limited: HTTP 429"))
        end
      else if retry_status status r then
        match backoffs with
        | b :: rest => let% _ := pause b in idempotent method params private rest
        | [] => craise (TransientExchangeError (if mem_Z status RETRYABLE_STATUS_CODES then method ++ " retryable failure: " ++ http_text status
                                                else method ++ ": Deribit system maintenance (POST blocked at edge); HTTP 405"))
        end
      else
        match backoffs, _should_retry_private_auth private status error with
        | _ :: rest, true => let% _ := _clear_auth_tokens in idempotent method params private rest
        | _, _ =>
            match error with
            | Some e =>
                match backoffs, is_transient (_classify_error method e) with
                | b :: rest, true =>
                    let% _ := (if _is_too_many_requests e then note_limited method else cret tt) in
                    let% _ := pause_for (_jsonrpc_transient_wait_seconds e) b in
                    idempotent method params private rest
                | _, _ => craise (_classify_error method e)
                end
            | None =>
                if (400 <=? status)%Z then craise (ExchangeError (method ++ " failed: " ++ http_text status ++ " " ++ r.(response_text)))
                else
                  let% payload := match payload with Some d => cret d | None => clift (_parse_jsonrpc r method) end in
                  let% _ := note_answered method in
                  cret (dget "result" payload)
            end
        end
  end.

Definition _idempotent_request (method : string) (params : list (string * pyobj)) (private : bool) : C pyobj :=
  idempotent method params private IDEMPOTENT_RETRY_BACKOFF_SECONDS.

(** ** Orders, which are sent once *)

Definition lost_request (method kind message : string) : exn :=
  TransientExchangeError (if String.eqb kind "ConnectionError" then method ++ " connection failed; reconcile required: " ++ message
                          else if String.eqb kind "Timeout" then method ++ " timed out; reconcile required: " ++ message
                          else method ++ " request error: " ++ message).

Definition _unsafe_request (method : string) (params : list (string * pyobj)) : C pyobj :=
  let% body := _jsonrpc_body method params in
  let% got := catch_request (send_request method body true) in
  match got with
  | inr (kind, message) => craise (lost_request method kind message)
  | inl r =>
      let status := r.(status_code) in
      if (status =? RATE_LIMIT_STATUS)%Z then craise (TransientExchangeError (method ++ " rate limited: HTTP 429 (no auto-retry for unsafe calls)"))
      else if mem_Z status RETRYABLE_STATUS_CODES then craise (TransientExchangeError (method ++ " server error " ++ http_text status ++ "; reconcile required"))
      else if _is_maintenance_http_block status r
      then craise (TransientExchangeError (method ++ ": Deribit system maintenance (POST blocked at edge); HTTP 405"))
      else
        let '(payload, error) := _parse_jsonrpc_payload r method in
        let% _ := match error with Some e => if _is_too_many_requests e then note_limited method else cret tt | None => cret tt end in
        if (400 <=? status)%Z then craise (ExchangeError (method ++ " failed: " ++ http_text status ++ " " ++ r.(response_text)))
        else
          let% payload := match payload with Some d => cret d | None => clift (_parse_jsonrpc r method) end in
          match error with
          | Some e => craise (_classify_error method e)
          | None => let% _ := note_answered method in cret (dget "result" payload)
          end
  end.

Definition _request (method : string) (params : list (string * pyobj)) (private : bool) : C pyobj :=
  if mem_str method _UNSAFE_METHODS then _unsafe_request method params else _idempotent_request method params private.

(** ** Public reads through the caches *)

(** [_env_float(name, default)] *)
Definition _env_float (name : string) (default : Q) : Q :=
  match c.(environ) name with
  | Some raw => match parse_decimal raw with Some q => at_least_0 q | None => default end
  | None => default
  end.

Definition _instruments_cache_ttl_seconds : Q := _env_float "DERIBIT_INSTRUMENTS_CACHE_TTL_SEC" 300.
Definition _order_book_cache_ttl_seconds : Q := _env_float "DERIBIT_ORDER_BOOK_CACHE_TTL_SEC" 3.
Definition _index_price_cache_ttl_seconds : Q := _env_float "DERIBIT_INDEX_PRICE_CACHE_TTL_SEC" 5.
Definition _book_summary_cache_ttl_seconds : Q := _env_float "DERIBIT_BOOK_SUMMARY_CACHE_TTL_SEC" 15.
Definition _macro_cache_ttl_seconds : Q := _env_float "DERIBIT_MACRO_CACHE_TTL_SEC" 60.
Definition _settlement_cache_ttl_seconds : Q := _env_float "DERIBIT_SETTLEMENT_CACHE_TTL_SEC" 3600.

Definition _cached_public_read (key : string) (ttl : Q) (loader : C pyobj) : C pyobj :=
  if ttl <=? 0 then loader
  else
    let% found := (fun w => let '(r, v) := cached_value (store_available w.(posted)) key ttl (monotonic w.(posted)) w.(reads) in (set_reads r w, Ret v)) in
    match found with
    | Some v => cret v
    | None =>
        let% v := loader in
        let% _ := cput (fun w => set_reads (keep_value c.(store_settings) (store_available w.(posted)) key v ttl (monotonic w.(posted)) w.(reads)) w) in
        cret v
    end.

Definition or_list (m : C pyobj) : C pyobj := let% v := m in cret (obj_or v (PList [])).
Definition or_dict (m : C pyobj) : C pyobj := let% v := m in cret (obj_or v (PDict [])).

Definition ping : C pyobj := _request "public/test" [] false.

Definition get_instruments (currency kind : string) (expired : bool) : C pyobj :=
  _cached_public_read ("instruments:" ++ upper currency ++ ":" ++ kind ++ ":" ++ (if expired then "1" else "0")) _instruments_cache_ttl_seconds
    (or_list (_request "public/get_instruments" [("currency", PStr (upper currency)); ("kind", PStr kind); ("expired", PBool expired)] false)).

Definition get_instrument (name : string) : C pyobj :=
  _cached_public_read ("instrument:" ++ strip name) _instruments_cache_ttl_seconds
    (or_dict (_request "public/get_instrument" [("instrument_name", PStr name)] false)).

Definition get_tradingview_chart_data (name : string) (start_ms end_ms : Z) (resolution : string) : C pyobj :=
  or_dict (_request "public/get_tradingview_chart_data"
    [("instrument_name", PStr name); ("start_timestamp", PInt start_ms); ("end_timestamp", PInt end_ms); ("resolution", PStr resolution)] false).

Definition get_order_book (name : string) (depth : Z) : C pyobj :=
  _cached_public_read ("order_book:" ++ name ++ ":" ++ print_int depth) _order_book_cache_ttl_seconds
    (or_dict (_request "public/get_order_book" [("instrument_name", PStr name); ("depth", PInt depth)] false)).

Definition get_book_summary_by_currency (currency kind : string) : C pyobj :=
  _cached_public_read ("book_summary:" ++ upper currency ++ ":" ++ kind) _book_summary_cache_ttl_seconds
    (or_list (_request "public/get_book_summary_by_currency" [("currency", PStr (upper currency)); ("kind", PStr kind)] false)).

Definition get_index_price (name : string) : C pyobj :=
  _cached_public_read ("index_price:" ++ name) _index_price_cache_ttl_seconds (or_dict (_request "public/get_index_price" [("index_name", PStr name)] false)).

Definition get_index_chart_data (name range : string) : C pyobj :=
  _cached_public_read ("index_chart:" ++ name ++ ":" ++ range) _macro_cache_ttl_seconds
    (or_list (_request "public/get_index_chart_data" [("index_name", PStr name); ("range", PStr range)] false)).

(** The window is rounded to the time to live. *)
Definition get_volatility_index_data (currency : string) (start_ms end_ms : Z) (resolution : string) : C pyobj :=
  let bucket := match Qfloor (_macro_cache_ttl_seconds * 1000) with 0%Z => 1%Z | b => b end in
  _cached_public_read ("dvol:" ++ upper currency ++ ":" ++ resolution ++ ":" ++ print_int (start_ms / bucket) ++ ":" ++ print_int (end_ms / bucket)) _macro_cache_ttl_seconds
    (or_dict (_request "public/get_volatility_index_data"
      [("currency", PStr (upper currency)); ("start_timestamp", PInt start_ms); ("end_timestamp", PInt end_ms); ("resolution", PStr resolution)] false)).

Definition get_funding_chart_data (name length : string) : C pyobj :=
  or_dict (_request "public/get_funding_chart_data" [("instrument_name", PStr name); ("length", PStr length)] false).

(** ** Answers that come in pages *)

(** [v.get(key)] of [v or {}]. *)
Definition field_of (v : pyobj) (key : string) : outcome pyobj :=
  match obj_or v (PDict []) with PDict d => Ret (dget key d) | _ => Exn AttributeError end.

Fixpoint delivery_rows (rows : list pyobj) : outcome (list pyobj) :=
  (match rows with
   | [] => Ret []
   | PDict d :: rest => let! more := delivery_rows rest in Ret (PList [dget "date" d; dget "delivery_price" d] :: more)
   | _ :: _ => Exn AttributeError
   end)%outcome.

Definition py_rows (v : pyobj) : outcome (list pyobj) := match v with PList l => Ret l | _ => Exn TypeError end.

(** Every page moves on by a row at least. *)
Fixpoint delivery_pages (fuel : nat) (index_name : string) (days offset : Z) : C (list pyobj) :=
  match fuel with
  | O => clift OutOfFuel
  | S fuel =>
      if (days <=? offset)%Z then cret []
      else
        let% result := _request "public/get_delivery_prices"
          [("index_name", PStr index_name); ("offset", PInt offset); ("count", PInt (Z.min 1000 (days - offset)))] false in
        let% data := clift (field_of result "data") in
        let% rows := clift (py_rows (obj_or data (PList []))) in
        match rows with
        | [] => cret []
        | _ =>
            let% out := clift (delivery_rows rows) in
            let offset := (offset + Z.of_nat (List.length rows))%Z in
            let% total := clift (let! v := field_of result "records_total" in int_or v 0)%outcome in
            if (total <=? offset)%Z then cret out
            else let% more := delivery_pages fuel index_name days offset in cret (out ++ more)
        end
  end.

(** The day and price of a row, where there are both. *)
Definition delivery_price (row : pyobj) : list (string * Q) :=
  match row with
  | PList (day :: price :: _) => if py_truthy day && (to_decimal price 0 >? 0) then [(py_str day, to_decimal price 0)] else []
  | _ => []
  end.

Definition day_before (a b : string * Q) : bool := String.ltb (fst a) (fst b) || (String.eqb (fst a) (fst b) && (snd a <? snd b)).

Definition get_delivery_prices (index_name : string) (days : Z) : C (list (string * Q)) :=
  let% cached := _cached_public_read ("delivery_prices:" ++ index_name ++ ":" ++ print_int days) _settlement_cache_ttl_seconds
    (let% rows := delivery_pages (Datatypes.S (Z.to_nat days)) index_name days 0 in cret (PList rows)) in
  let% rows := clift (py_rows (obj_or cached (PList []))) in
  cret (stable_sort day_before (flat_map delivery_price rows)).

Definition dicts_of (l : list pyobj) : list pyobj := filter is_dict l.

(** [if value is not None and str(value).strip(): params[key] = str(value).strip()] *)
Definition text_param (key : string) (v : option string) : list (string * pyobj) :=
  match v with Some t => if truthy (strip t) then [(key, PStr (strip t))] else [] | None => [] end.
Definition int_param (key : string) (v : option Z) : list (string * pyobj) := match v with Some z => [(key, PInt z)] | None => [] end.
Definition opt_param (key : string) (v : option pyobj) : list (string * pyobj) := match v with Some x => [(key, x)] | None => [] end.

Definition _get_transaction_log_page (currency : string) (start_ms end_ms count : Z) (subaccount_id : option Z) (query : option string) (continuation : option Z)
    : C (list (string * pyobj)) :=
  let% result := _request "private/get_transaction_log"
    ([("currency", PStr (upper currency)); ("start_timestamp", PInt start_ms); ("end_timestamp", PInt end_ms); ("count", PInt count)]
     ++ int_param "subaccount_id" subaccount_id ++ text_param "query" query ++ int_param "continuation" continuation) true in
  cret (match result with PDict d => d | PList l => [("logs", PList (dicts_of l))] | _ => [("logs", PList [])] end).

Definition page_rows (page : list (string * pyobj)) : list pyobj := match dget "logs" page with PList l => dicts_of l | _ => [] end.

Definition get_transaction_log (currency : string) (start_ms end_ms count : Z) (subaccount_id : option Z) (query : option string) (continuation : option Z)
    : C (list pyobj) :=
  let% page := _get_transaction_log_page currency start_ms end_ms count subaccount_id query continuation in cret (page_rows page).

(** [next_token in (None, "", 0)] *)
Definition no_token (v : pyobj) : bool :=
  match v with
  | PNone => true
  | PStr s => is_empty s
  | PInt z => (z =? 0)%Z
  | PBool b => negb b
  | PFloat t => match parse_decimal t with Some q => q =? 0 | None => false end
  | _ => false
  end.

Section Pages.
Variable page : option Z -> C (list (string * pyobj)).

(** The pages, from one continuation to the next. *)
Fixpoint follow (fuel : nat) (continuation : option Z) : C (list pyobj) :=
  match fuel with
  | O => clift OutOfFuel
  | S fuel =>
      let% p := page continuation in
      let rows := page_rows p in
      let next := dget "continuation" p in
      if (match rows with [] => true | _ => false end) || no_token next then cret rows
      else
        let% token := clift (py_int next) in
        let% more := follow fuel (Some token) in
        cret (rows ++ more)
  end.
End Pages.

Definition iter_transaction_log (fuel : nat) (currency : string) (start_ms end_ms count : Z) (subaccount_id : option Z) (query : option string) : C (list pyobj) :=
  follow (_get_transaction_log_page currency start_ms end_ms count subaccount_id query) fuel None.

(** ** The account *)

Definition get_account_summaries (extended : bool) : C (list pyobj) :=
  let% result := _request "private/get_account_summaries" [("extended", PBool extended)] true in
  cret (match result with
        | PDict d => match dget "summaries" d with PList l => dicts_of l | _ => [] end
        | PList l => dicts_of l
        | _ => []
        end).

Definition get_open_orders (kind : string) : C pyobj :=
  or_list (_request "private/get_open_orders" (if truthy kind then [("kind", PStr kind)] else []) true).

Definition get_open_orders_by_label (currency label : string) : C pyobj :=
  or_list (_request "private/get_open_orders_by_label" [("currency", PStr (upper currency)); ("label", PStr label)] true).

Definition get_positions (currency : string) (kind : option string) : C pyobj :=
  or_list (_request "private/get_positions"
    (("currency", PStr currency) :: match kind with Some k => if mem_str (lower (strip k)) [""; "any"] then [] else [("kind", PStr k)] | None => [] end) true).

Definition get_order_state (order_id : string) : C pyobj := or_dict (_request "private/get_order_state" [("order_id", PStr order_id)] true).

Definition get_order_state_by_label (currency label : string) : C pyobj :=
  or_dict (_request "private/get_order_state_by_label" [("currency", PStr (upper currency)); ("label", PStr label)] true).

Definition get_user_trades_by_order (order_id : string) (historical : bool) : C pyobj :=
  or_list (_request "private/get_user_trades_by_order" [("order_id", PStr order_id); ("historical", PBool historical)] true).

(** A list of trades counts as a last page. *)
Definition trades_page (result : pyobj) : pyobj :=
  match result with
  | PList _ => PDict [("trades", result); ("has_more", PBool false)]
  | PDict _ => result
  | _ => PDict [("trades", PList []); ("has_more", PBool false)]
  end.

Definition trade_count (count : Z) : Z := Z.max 1 (Z.min count 1000).

Definition get_user_trades_by_currency (currency : string) (kind start_id end_id : option string) (count : Z) (start_ms end_ms : option Z)
    (sorting : option string) (historical : bool) (subaccount_id : option Z) : C pyobj :=
  let% result := _request "private/get_user_trades_by_currency"
    ([("currency", PStr (upper currency)); ("count", PInt (trade_count count)); ("historical", PBool historical)]
     ++ text_param "kind" kind ++ text_param "start_id" start_id ++ text_param "end_id" end_id ++ int_param "start_timestamp" start_ms
     ++ int_param "end_timestamp" end_ms ++ text_param "sorting" sorting ++ int_param "subaccount_id" subaccount_id) true in
  cret (trades_page result).

Definition get_user_trades_by_instrument (name : string) (start_seq end_seq : option Z) (count : Z) (start_ms end_ms : option Z)
    (sorting : option string) (historical : bool) (subaccount_id : option Z) : C pyobj :=
  let% result := _request "private/get_user_trades_by_instrument"
    ([("instrument_name", PStr (strip name)); ("count", PInt (trade_count count)); ("historical", PBool historical)]
     ++ int_param "start_seq" start_seq ++ int_param "end_seq" end_seq ++ int_param "start_timestamp" start_ms
     ++ int_param "end_timestamp" end_ms ++ text_param "sorting" sorting ++ int_param "subaccount_id" subaccount_id) true in
  cret (trades_page result).

Definition get_subaccounts (with_portfolio : bool) : C (list pyobj) :=
  let% result := _request "private/get_subaccounts" [("with_portfolio", PBool with_portfolio)] true in
  cret (match result with PList l => dicts_of l | _ => [] end).

(** ** Orders *)

Record order : Type := {
  direction : string;
  order_instrument : string;
  amount : pyobj;
  label : string;
  order_type : string;
  price : option pyobj;
  time_in_force : option string;
  post_only : option bool;
  reject_post_only : option bool;
  reduce_only : option bool;
  trigger_price : option pyobj;
  trigger : option string;
  client_order_id : option string;
}.

Definition order_method (o : order) : string := if String.eqb (lower o.(direction)) "buy" then "private/buy" else "private/sell".

Definition order_params (o : order) (order_id : string) : list (string * pyobj) :=
  [("instrument_name", PStr o.(order_instrument)); ("amount", o.(amount)); ("label", PStr o.(label)); ("type", PStr o.(order_type)); ("client_order_id", PStr order_id)]
  ++ opt_param "price" o.(price) ++ opt_param "time_in_force" (option_map PStr o.(time_in_force)) ++ opt_param "post_only" (option_map PBool o.(post_only))
  ++ opt_param "reject_post_only" (option_map PBool o.(reject_post_only)) ++ opt_param "reduce_only" (option_map PBool o.(reduce_only))
  ++ opt_param "trigger_price" o.(trigger_price) ++ opt_param "trigger" (option_map PStr o.(trigger)).

Definition place_order (o : order) : C pyobj :=
  let% ms := utc_now in
  let order_id := (match o.(client_order_id) with Some t => if truthy t then t else o.(label) ++ "-" ++ print_int ms | None => o.(label) ++ "-" ++ print_int ms end)%string in
  or_dict (_request (order_method o) (order_params o order_id) false).

Definition create_combo (trades : list pyobj) : C pyobj := or_dict (_request "private/create_combo" [("trades", PList trades)] false).

Definition close_position (name order_type : string) (price : option pyobj) : C pyobj :=
  or_dict (_request "private/close_position" ([("instrument_name", PStr name); ("type", PStr order_type)] ++ opt_param "price" price) false).

Definition cancel_order (order_id : string) : C pyobj := or_dict (_request "private/cancel" [("order_id", PStr order_id)] false).

Definition edit_order (order_id : string) (amount price : option pyobj) (post_only reject_post_only : option bool) (advanced : option string) : C pyobj :=
  or_dict (_request "private/edit"
    ([("order_id", PStr order_id)] ++ opt_param "amount" amount ++ opt_param "price" price ++ opt_param "post_only" (option_map PBool post_only)
     ++ opt_param "reject_post_only" (option_map PBool reject_post_only) ++ opt_param "advanced" (option_map PStr advanced)) false).

Definition cancel_all (kind : string) : C pyobj := or_dict (_request "private/cancel_all" [("kind", PStr kind)] false).

Definition submit_transfer_between_subaccounts (currency : string) (amount : pyobj) (destination : Z) (source : option Z) (nonce : option string) : C pyobj :=
  or_dict (_request "private/submit_transfer_between_subaccounts"
    ([("currency", PStr (upper currency)); ("amount", amount); ("destination", PInt destination)] ++ int_param "source" source ++ text_param "nonce" nonce) true).
End Client.
