(* ===== verification/ClientFacts.v ===== *)
(** What the client of the exchange ([Client]) posts, and what it returns of the answers:
    orders go out once and are never sent again, reads a bounded number of times, and
    what is returned is the result of an answer of the exchange. *)

From S2P Require Import Prelude Sorting Dec PyStr Utils PyObj GroupJson StateJson Throttle PublicCache Client.
Local Open Scope string_scope.
Local Open Scope bool_scope.
Local Open Scope list_scope.
Local Open Scope client_scope.

(** ** Programs that only log in *)

Definition logs_in (r : http_request) : Prop := r.(rpc_method) = "public/auth".

(** [m] posts at most [n] requests, all to log in, and finishes. *)
Definition auths {A} (n : nat) (m : C A) : Prop :=
  forall w w' o, m w = (w', o) -> o <> OutOfFuel /\ exists new, w'.(posted) = new ++ w.(posted) /\ Forall logs_in new /\ (List.length new <= n)%nat.

Lemma auths_none {A} n (m : C A) : (forall w, snd (m w) <> OutOfFuel /\ posted (fst (m w)) = w.(posted)) -> auths n m.
Proof.
  intros H w w' o E. specialize (H w). rewrite E in H. destruct H as [T P]. split; [exact T|]. exists []. split; [exact P|]. split; [constructor | apply Nat.le_0_l].
Qed.

Lemma auths_ret {A} n (a : A) : auths n (cret a).
Proof. apply auths_none. intros w. now split. Qed.

Lemma auths_raise {A} n e : auths n (craise (A:=A) e).
Proof. apply auths_none. intros w. now split. Qed.

Lemma auths_lift {A} n (o : outcome A) : o <> OutOfFuel -> auths n (clift o).
Proof. intros T. apply auths_none. intros w. now split. Qed.

Lemma auths_get {A} n (f : client -> A) : auths n (cget f).
Proof. apply auths_none. intros w. now split. Qed.

Lemma auths_put n f : (forall w, (f w).(posted) = w.(posted)) -> auths n (cput f).
Proof. intros H. apply auths_none. intros w. split; [discriminate | apply H]. Qed.

Lemma auths_bind {A B} a b (m : C A) (k : A -> C B) : auths a m -> (forall x, auths b (k x)) -> auths (a + b) (cbind m k).
Proof.
  intros M K w w' o E. unfold cbind in E. destruct (m w) as [w1 o1] eqn:E1. destruct (M _ _ _ E1) as (T & n1 & P1 & F1 & L1).
  destruct o1 as [x|e|]; [| injection E as <- <-; split; [discriminate|]; exists n1; repeat split; auto; lia | now destruct T].
  destruct (K x _ _ _ E) as (T2 & n2 & P2 & F2 & L2). split; [exact T2|]. exists (n2 ++ n1).
  rewrite P2, P1, <- app_assoc, length_app. repeat split; [now apply Forall_app | lia].
Qed.

Lemma auths_more {A} a b (m : C A) : auths a m -> (a <= b)%nat -> auths b m.
Proof. intros M L w w' o E. destruct (M _ _ _ E) as (T & n & P & F & B). split; [exact T|]. exists n. repeat split; auto. lia. Qed.

(** A step that posts nothing takes nothing of the bound. *)
Lemma auths_quiet {A B} n (m : C A) (k : A -> C B) : auths 0 m -> (forall x, auths n (k x)) -> auths n (cbind m k).
Proof. exact (auths_bind 0 n m k). Qed.

Lemma auths_catch {A} n (m : C A) : auths n m -> auths n (catch_exchange m).
Proof.
  intros M w w' o E. unfold catch_exchange in E. destruct (m w) as [w1 o1] eqn:E1. destruct (M _ _ _ E1) as (T & N).
  destruct o1 as [x|e|]; [|destruct e|now destruct T]; injection E as <- <-; (split; [discriminate | exact N]).
Qed.

Create HintDb client.
#[export] Hint Resolve auths_ret auths_raise auths_get auths_put auths_lift : client.

Lemma params_end l : _normalize_params l <> OutOfFuel.
Proof.
  induction l as [|[k v] r IH]; [discriminate|].
  destruct v; cbn [_normalize_params]; [exact IH | | | | | | |]; try (destruct (_normalize_params r); [discriminate | discriminate | now destruct IH]).
  unfold decimal_text. destruct (_ <=? _)%Z; cbn [obind]; [discriminate|]. destruct (_normalize_params r); [discriminate | discriminate | now destruct IH].
Qed.

Lemma parse_end r method : _parse_jsonrpc r method <> OutOfFuel.
Proof. unfold _parse_jsonrpc. destruct (json_body r) as [[]|]; try discriminate. destruct (negb _); [discriminate|]. destruct (_ && _); discriminate. Qed.
#[export] Hint Resolve params_end parse_end : client.

Section Facts.
Context {Sv : Server}.
Variable c : client_config.

(** ** Logging in *)

Lemma note_limited_quiet n method : auths n (note_limited c method).
Proof. now apply auths_put. Qed.
Lemma note_answered_quiet n method : auths n (note_answered c method).
Proof. now apply auths_put. Qed.
Lemma pause_quiet n seconds : auths n (pause seconds).
Proof. apply auths_quiet; [apply auths_get|]. intros x. now apply auths_put. Qed.
Lemma pause_for_quiet n asked seconds : auths n (pause_for asked seconds).
Proof. destruct asked; [now apply auths_put | apply pause_quiet]. Qed.
Lemma body_quiet n method params : auths n (_jsonrpc_body method params).
Proof.
  repeat (apply auths_quiet; [auto with client | intros]). apply auths_ret.
Qed.
Lemma clear_quiet n : auths n (_clear_auth_tokens c).
Proof. apply auths_quiet; [now apply auths_put | intros]. destruct (has_private_credentials c); [now apply auths_put | apply auths_ret]. Qed.
Lemma publish_quiet n : auths n (_publish_auth_to_cache c).
Proof. apply auths_quiet; [apply auths_get | intros [t|]]; [destruct (_ || _); [apply auths_ret | now apply auths_put] | apply auths_ret]. Qed.
Lemma expired_quiet n : auths n _token_expired.
Proof. repeat (apply auths_quiet; [apply auths_get | intros]). apply auths_ret. Qed.
Lemma current_quiet n : auths n current_token.
Proof. apply auths_quiet; [apply auths_get | intros]. apply auths_ret. Qed.
Lemma hydrate_quiet n : auths n (_hydrate_auth_from_cache c).
Proof.
  unfold _hydrate_auth_from_cache. destruct (negb _); [apply auths_ret|]. apply auths_quiet; [apply auths_get|].
  intros [[[a r] x]|]; [|apply auths_ret]. apply auths_quiet; [apply auths_get | intros]. destruct (_ <=? _)%Z; [apply auths_ret|].
  apply auths_quiet; [now apply auths_put | intros]. apply auths_ret.
Qed.
#[local] Hint Resolve note_limited_quiet note_answered_quiet pause_quiet pause_for_quiet body_quiet clear_quiet publish_quiet expired_quiet current_quiet
  hydrate_quiet : client.

Lemma apply_quiet n result : auths n (_apply_auth_result c result).
Proof.
  unfold _apply_auth_result. destruct (dget "access_token" result); auto with client. destruct (truthy s); auto with client.
  apply auths_quiet; [apply auths_get | intros]. apply auths_quiet; [now apply auths_put | intros]. auto with client.
Qed.
#[local] Hint Resolve apply_quiet : client.

(** Posting once: what is posted, and what comes back. *)
Lemma post_spec method body token w w' o : _post_raw c method body token w = (w', o) ->
  let request := {| rpc_id := fst body; rpc_method := method; rpc_params := snd body; bearer := token |} in
  w'.(posted) = request :: w.(posted) /\
  o = match answer_to w.(posted) request with Dropped kind message => Exn (RequestException kind message) | Answered r => Ret r end.
Proof.
  unfold _post_raw, cbind, cget, cput. destruct (answer_to _ _) as [r|]; [destruct (_ =? _)%Z|]; intros E; injection E as <- <-; now split.
Qed.

Lemma post_auth body token : auths 1 (_post_raw c "public/auth" body token).
Proof.
  intros w w' o E. destruct (post_spec _ _ _ _ _ _ E) as (P & ->). split; [destruct (answer_to _ _); discriminate|].
  eexists [_]. split; [exact P|]. split; [now constructor | cbn; lia].
Qed.

Lemma call_auth_posts params backoffs : auths (1 + List.length backoffs) (call_auth c params backoffs).
Proof.
  induction backoffs as [|b rest IH]; cbn [call_auth List.length]; (apply auths_quiet; [auto with client | intros body]);
    (apply auths_bind; [apply post_auth | intros r]);
    (destruct (_ =? _)%Z; [|destruct (retry_status _ _); [|destruct (_ <=? _)%Z]]);
    try (apply auths_raise); try (apply auths_quiet; [auto with client | intros; exact IH]);
    (apply auths_quiet; [auto with client | intros data]; destruct (dget "result" data); try apply auths_raise; apply auths_quiet; auto with client).
Qed.

Lemma log_in_posts : auths 4 (log_in c).
Proof. apply (auths_bind 4 0); [apply call_auth_posts | intros]. apply auths_quiet; auto with client. Qed.

Lemma refresh_posts r : auths 4 (_refresh_access_token c r).
Proof. apply (auths_bind 4 0); [apply call_auth_posts | intros]. auto with client. Qed.

Lemma token_posts : auths 8 (_ensure_access_token c).
Proof.
  assert (L : auths 8 (log_in c)) by (apply (auths_more 4); [apply log_in_posts | lia]).
  unfold _ensure_access_token. apply auths_quiet; [auto with client | intros expired]. destruct (negb expired); [auto with client|].
  destruct (negb _); [auto with client|]. apply auths_quiet; [auto with client | intros hydrated].
  apply auths_quiet; [destruct hydrated; auto with client | intros still]. destruct (_ && _); [auto with client|].
  apply auths_quiet; [auto with client | intros [r|]]; [|exact L]. destruct (truthy r); [|exact L].
  apply (auths_bind 4 4); [apply auths_catch, refresh_posts | intros [x|]]; [auto with client|].
  apply auths_quiet; [now apply auths_put | intros; apply log_in_posts].
Qed.

(** ** Sending *)

Definition request_of (method : string) (body : Z * list (string * pyobj)) (token : option string) : http_request :=
  {| rpc_id := fst body; rpc_method := method; rpc_params := snd body; bearer := token |}.

(** How [catch_request] hands on what a request came to. *)
Definition caught_answer (a : answer) : http_response + string * string := match a with Answered r => inl r | Dropped kind message => inr (kind, message) end.

(** Either the login fails and the request is not posted, or it is posted once, after the login. *)
Lemma send_spec method body private w w' o : catch_request (send_request c method body private) w = (w', o) ->
  o <> OutOfFuel /\
  exists auth, Forall logs_in auth /\ (List.length auth <= if private then 8 else 0)%nat /\
    (w'.(posted) = auth ++ w.(posted) /\ (forall r, o <> Ret (inl r)) \/
     exists token, let request := request_of method body token in
       w'.(posted) = request :: auth ++ w.(posted) /\ o = Ret (caught_answer (answer_to (auth ++ w.(posted)) request))).
Proof.
  unfold catch_request, send_request. set (header := if private then _ else _).
  assert (T : auths (if private then 8 else 0) header) by (unfold header; destruct private; [apply (auths_bind 8 0); [apply token_posts | intros; apply auths_ret] | apply auths_ret]).
  clearbody header. unfold cbind. intros E. destruct (header w) as [w1 o1] eqn:E1. destruct (T _ _ _ E1) as (N & auth & P & F & L).
  destruct o1 as [token|e|]; [| |now destruct N].
  - destruct (_post_raw c method body token w1) as [w2 o2] eqn:E2. destruct (post_spec _ _ _ _ _ _ E2) as (P2 & O2). rewrite P in P2, O2.
    set (a := answer_to _ _) in O2. assert (Eo : w' = w2 /\ o = Ret (caught_answer a)) by (destruct a; rewrite O2 in E; injection E as <- <-; now split).
    destruct Eo as [-> ->]. split; [discriminate|]. exists auth. split; [exact F|]. split; [exact L|]. right. exists token. now split.
  - assert (Eo : w' = w1 /\ o <> OutOfFuel /\ forall r, o <> Ret (inl r)) by (destruct e; injection E as <- <-; repeat split; discriminate).
    destruct Eo as (-> & O1 & O2). split; [exact O1|]. exists auth. split; [exact F|]. split; [exact L|]. left. now split.
Qed.

(** ** What is returned *)

(** [v] is the result that [r] gives without an error. *)
Definition carries (method : string) (r : http_response) (v : pyobj) : Prop :=
  (r.(status_code) < 400)%Z /\
  exists d, _parse_jsonrpc r method = Ret d /\ v = dget "result" d /\ match dget "error" d with PDict (_ :: _) => False | _ => True end.

Lemma payload_some r method d e : _parse_jsonrpc_payload r method = (Some d, e) ->
  _parse_jsonrpc r method = Ret d /\ (e = None -> match dget "error" d with PDict (_ :: _) => False | _ => True end).
Proof.
  unfold _parse_jsonrpc_payload. destruct (_parse_jsonrpc r method) as [d'| |]; intros H; try discriminate. injection H as <- <-. split; [reflexivity|].
  destruct (dget "error" d'); auto. destruct l; [auto | discriminate].
Qed.

Lemma payload_none r method e : _parse_jsonrpc_payload r method = (None, e) -> e = None /\ forall d, _parse_jsonrpc r method <> Ret d.
Proof. unfold _parse_jsonrpc_payload. destruct (_parse_jsonrpc r method); intros H; try discriminate; injection H as <-; split; (reflexivity || discriminate). Qed.

(** What is left once the answer is there posts nothing, finishes, and returns only what the answer carries. *)
Definition ends_with {A} (P : A -> Prop) (m : C A) : Prop := forall w w' o, m w = (w', o) -> o <> OutOfFuel /\ w'.(posted) = w.(posted) /\ forall v, o = Ret v -> P v.

Lemma ending_raise {A} (P : A -> Prop) e : ends_with P (craise e).
Proof. intros w w' o E. injection E as <- <-. repeat split; discriminate. Qed.

Lemma ending_ret {A} (P : A -> Prop) v : P v -> ends_with P (cret v).
Proof. intros H w w' o E. injection E as <- <-. split; [discriminate|]. split; [reflexivity|]. intros x Ex. now injection Ex as <-. Qed.

Lemma auths_zero {A} (m : C A) w w' o : auths 0 m -> m w = (w', o) -> o <> OutOfFuel /\ w'.(posted) = w.(posted).
Proof. intros M E. destruct (M _ _ _ E) as (T & n & P & _ & L). destruct n; [now split | cbn in L; lia]. Qed.

Lemma ending_quiet {A B} (P : B -> Prop) (m : C A) (k : A -> C B) : auths 0 m -> (forall x, ends_with P (k x)) -> ends_with P (cbind m k).
Proof.
  intros M K w w' o E. unfold cbind in E. destruct (m w) as [w1 o1] eqn:E1. destruct (auths_zero _ _ _ _ M E1) as (T & P1).
  destruct o1 as [x|e|]; [| injection E as <- <-; repeat split; [discriminate | exact P1 | discriminate] | now destruct T].
  destruct (K x _ _ _ E) as (T2 & P2 & R). split; [exact T2|]. split; [congruence | exact R].
Qed.

(** The end of both kinds of request: the payload, read again where it did not parse. *)
Lemma payload_ends method r d e : _parse_jsonrpc_payload r method = (d, e) -> (r.(status_code) < 400)%Z ->
  ends_with (carries method r)
    (let% payload := match d with Some d => cret d | None => clift (_parse_jsonrpc r method) end in
     match e with
     | Some e => craise (_classify_error method e)
     | None => let% _ := note_answered c method in cret (dget "result" payload)
     end).
Proof.
  intros E S. destruct d as [d|].
  - destruct (payload_some _ _ _ _ E) as [Pd Pe]. change (ends_with (carries method r) (match e with Some e => craise (_classify_error method e)
      | None => let% _ := note_answered c method in cret (dget "result" d) end)). destruct e as [e|]; [apply ending_raise|].
    apply ending_quiet; [auto with client | intros; apply ending_ret]. split; [exact S|]. exists d. repeat split; [exact Pd | now apply Pe].
  - destruct (payload_none _ _ _ E) as [-> N]. intros w w' o. unfold clift, cbind. destruct (_parse_jsonrpc r method) as [d| |] eqn:Ep; [now destruct (N d)| |now destruct (parse_end r method)].
    intros H. injection H as <- <-. repeat split; discriminate.
Qed.

(** ** Orders *)

Lemma unsafe_spec method params w w' o : _unsafe_request c method params w = (w', o) ->
  o <> OutOfFuel /\
  exists auth, Forall logs_in auth /\ (List.length auth <= 8)%nat /\
    (w'.(posted) = auth ++ w.(posted) /\ (forall v, o <> Ret v) \/
     exists ps token, _normalize_params params = Ret ps /\
       let request := request_of method (w.(next_id), ps) token in
       w'.(posted) = request :: auth ++ w.(posted) /\
       match answer_to (auth ++ w.(posted)) request with
       | Dropped kind message => o = Exn (lost_request method kind message)
       | Answered r => forall v, o = Ret v -> carries method r v
       end).
Proof.
  unfold _unsafe_request, _jsonrpc_body. unfold cbind at 1. unfold cbind at 1. unfold cbind at 1. unfold cbind at 1. unfold cget at 1, cput at 1, clift at 1.
  destruct (_normalize_params params) as [ps|e|] eqn:Ep; [| intros E; injection E as <- <-; split; [discriminate|]; exists []; split; [constructor|]; split; [apply Nat.le_0_l | left; split; [reflexivity | discriminate]]
    | now destruct (params_end params)].
  unfold cret at 1. set (w1 := set_next_id _ w). change (posted w) with (posted w1). intros E. unfold cbind at 1 in E.
  destruct (catch_request _ w1) as [w2 o2] eqn:E2. destruct (send_spec _ _ _ _ _ _ E2) as (T & auth & F & L & D).
  destruct o2 as [[r|[kind message]]|e|]; [| | |now destruct T].
  - match type of E with ?m w2 = _ => assert (X : ends_with (carries method r) m) end.
    { cbv zeta. destruct (_ =? _)%Z; [apply ending_raise|]. destruct (mem_Z _ _); [apply ending_raise|]. destruct (_is_maintenance_http_block _ _); [apply ending_raise|].
      destruct (_parse_jsonrpc_payload r method) as [d e] eqn:Ed. apply ending_quiet; [destruct e as [e|]; [destruct (_is_too_many_requests e)|]; auto with client|].
      intros _. destruct (Z.leb_spec 400 (status_code r)) as [G|G]; [apply ending_raise | now apply payload_ends]. }
    destruct (X _ _ _ E) as (N & P & R). split; [exact N|]. exists auth. split; [exact F|]. split; [exact L|].
    destruct D as [[P2 D]|(token & P2 & D)]; [now destruct (D r)|]. right. exists ps, token. split; [reflexivity|]. rewrite P. split; [exact P2|].
    cbn [fst snd] in D. change (set_next_id (next_id w + 1) w).(posted) with w.(posted) in D.
    destruct (answer_to _ _); [|discriminate]. injection D as <-. exact R.
  - injection E as <- <-. split; [discriminate|]. exists auth. split; [exact F|]. split; [exact L|]. destruct D as [[P2 D]|(token & P2 & D)]; [left; now split|].
    right. exists ps, token. split; [reflexivity|]. split; [exact P2|]. destruct (answer_to _ _); [discriminate|]. now injection D as <- <-.
  - injection E as <- <-. split; [discriminate|]. exists auth. split; [exact F|]. split; [exact L|]. destruct D as [[P2 D]|(token & P2 & D)]; [left; now split | discriminate].
Qed.

(** ** Reads *)

Section Reads.
Variables (method : string) (params : list (string * pyobj)) (private : bool).

(** Requests of a read: its own, all with the same parameters, and those to log in. *)
Definition own (r : http_request) : bool := String.eqb r.(rpc_method) method.
Definition of_read (r : http_request) : Prop := logs_in r \/ r.(rpc_method) = method /\ _normalize_params params = Ret r.(rpc_params).
Definition own_count (l : list http_request) : nat := List.length (filter own l).
Definition per_attempt : nat := if private then 9 else 1.

(** The last request posted after [h] was its own, and its answer carries [v]. *)
Definition last_fetched (h new : list http_request) (v : pyobj) : Prop :=
  exists request rest r, new = request :: rest /\ own request = true /\ answer_to (rest ++ h) request = Answered r /\ carries method r v.

Lemma fetched_after h auth new v : last_fetched (auth ++ h) new v -> last_fetched h (new ++ auth) v.
Proof.
  intros (q & rest & r & -> & O & A & R). exists q, (rest ++ auth), r. rewrite <- app_assoc. split; [reflexivity|]. split; [exact O|]. split; [exact A | exact R].
Qed.

(** [m] makes at most [n] attempts, and returns what its last one fetched, or, as [now] has it, what was fetched before. *)
Definition makes (n : nat) (now : pyobj -> Prop) (m : C pyobj) : Prop := forall w w' o, m w = (w', o) ->
  o <> OutOfFuel /\ exists new, w'.(posted) = new ++ w.(posted) /\ Forall of_read new /\ (own_count new <= n)%nat /\ (List.length new <= n * per_attempt)%nat /\
  forall v, o = Ret v -> new = [] /\ now v \/ last_fetched w.(posted) new v.

Lemma attempts_end n now m : ends_with now m -> makes n now m.
Proof.
  intros H w w' o E. destruct (H _ _ _ E) as (T & P & R). split; [exact T|]. exists []. split; [exact P|]. split; [constructor|].
  split; [apply Nat.le_0_l|]. split; [apply Nat.le_0_l|]. intros v Ev. left. split; [reflexivity | now apply R].
Qed.

Lemma attempts_raise n now e : makes n now (craise e).
Proof. apply attempts_end, ending_raise. Qed.

Lemma attempts_quiet {A} n now (m : C A) k : auths 0 m -> (forall x, makes n now (k x)) -> makes n now (cbind m k).
Proof.
  intros M K w w' o E. unfold cbind in E. destruct (m w) as [w1 o1] eqn:E1. destruct (auths_zero _ _ _ _ M E1) as (T & P1).
  destruct o1 as [x|e|]; [rewrite <- P1; exact (K x _ _ _ E) | | now destruct T].
  injection E as <- <-. split; [discriminate|]. exists []. split; [exact P1|]. split; [constructor|]. split; [apply Nat.le_0_l|]. split; [apply Nat.le_0_l | discriminate].
Qed.

(** Without anything fetched before, the attempts stand for themselves whatever was. *)
Lemma attempts_now n now m : makes n (fun _ => False) m -> makes n now m.
Proof.
  intros H w w' o E. destruct (H _ _ _ E) as (T & new & P & F & L1 & L2 & R). split; [exact T|]. exists new. repeat split; auto.
  intros v Ev. destruct (R v Ev) as [[_ []]|X]. now right.
Qed.

Hypothesis not_login : method <> "public/auth".

Lemma own_auth l : Forall logs_in l -> own_count l = 0%nat.
Proof.
  unfold own_count. induction 1 as [|r l H _ IH]; [reflexivity|]. cbn [filter]. unfold own at 1. rewrite H.
  destruct (String.eqb_spec "public/auth" method) as [<-|_]; [now destruct not_login | exact IH].
Qed.

(** One attempt, and what follows it. *)
Lemma attempt_spec n id ps k : _normalize_params params = Ret ps ->
  (forall r, makes n (carries method r) (k (inl r))) -> (forall e, makes n (fun _ => False) (k (inr e))) ->
  makes (S n) (fun _ => False) (cbind (catch_request (send_request c method (id, ps) private)) k).
Proof.
  intros Ep Kl Kr w w' o E. unfold cbind in E. destruct (catch_request _ w) as [w1 o1] eqn:E1. destruct (send_spec _ _ _ _ _ _ E1) as (T & auth & F & L & D).
  assert (Fa : Forall of_read auth) by (eapply Forall_impl; [|exact F]; intros; now left).
  destruct D as [[P D]|(token & P & D)].
  - assert (X : o <> OutOfFuel /\ exists new, w'.(posted) = new ++ w1.(posted) /\ Forall of_read new /\ (own_count new <= n)%nat /\
      (List.length new <= n * per_attempt)%nat /\ forall v, o = Ret v -> last_fetched w1.(posted) new v).
    { destruct o1 as [[r|e]|e|]; [now destruct (D r) | | injection E as <- <- | now destruct T].
      - destruct (Kr e _ _ _ E) as (N & new & P2 & F2 & L1 & L2 & R). split; [exact N|]. exists new. repeat split; auto.
        intros v Ev. destruct (R v Ev) as [[_ []]|X]. exact X.
      - split; [discriminate|]. exists []. repeat split; try constructor; try apply Nat.le_0_l. discriminate. }
    destruct X as (N & new & P2 & F2 & L1 & L2 & R). split; [exact N|]. exists (new ++ auth). rewrite P2, P, app_assoc. split; [reflexivity|].
    split; [now apply Forall_app|]. unfold own_count in *. rewrite filter_app, !length_app. fold (own_count auth). rewrite (own_auth auth F).
    split; [lia|]. split; [unfold per_attempt in *; destruct private; lia|]. intros v Ev. right. apply fetched_after. rewrite <- P. now apply R.
  - set (request := request_of method (id, ps) token) in *. subst o1.
    assert (Or : own request = true) by (apply String.eqb_refl).
    assert (Fr : of_read request) by (right; now split).
    assert (X : o <> OutOfFuel /\ exists new, w'.(posted) = new ++ w1.(posted) /\ Forall of_read new /\ (own_count new <= n)%nat /\
      (List.length new <= n * per_attempt)%nat /\ forall v, o = Ret v -> new = [] /\ (exists r, answer_to (auth ++ w.(posted)) request = Answered r /\ carries method r v) \/ last_fetched w1.(posted) new v).
    { destruct (answer_to _ _) as [r|kind message] eqn:Ea; [destruct (Kl r _ _ _ E) as (N & new & P2 & F2 & L1 & L2 & R) | destruct (Kr _ _ _ _ E) as (N & new & P2 & F2 & L1 & L2 & R)];
        (split; [exact N|]; exists new; repeat split; auto; intros v Ev; destruct (R v Ev) as [[Z X]|X]; [|now right]).
      - left. split; [exact Z | eauto].
      - destruct X. }
    destruct X as (N & new & P2 & F2 & L1 & L2 & R). split; [exact N|]. exists (new ++ request :: auth). rewrite P2, P, <- app_assoc. split; [reflexivity|].
    split; [apply Forall_app; split; [exact F2 | now constructor]|]. unfold own_count in *. rewrite filter_app, !length_app. cbn [filter]. rewrite Or. cbn [List.length].
    fold (own_count auth). rewrite (own_auth auth F). split; [lia|]. split; [unfold per_attempt in *; destruct private; lia|].
    intros v Ev. right. destruct (R v Ev) as [[-> (r & A & C1)]|X].
    + exists request, auth, r. split; [reflexivity|]. split; [exact Or|]. split; [exact A | exact C1].
    + apply (fetched_after w.(posted) (request :: auth)). cbn [app]. rewrite <- P. exact X.
Qed.

Lemma attempts_body n now k : (forall id ps, _normalize_params params = Ret ps -> makes n now (k (id, ps))) ->
  makes n now (cbind (_jsonrpc_body method params) k).
Proof.
  intros K w w' o E. unfold cbind, _jsonrpc_body, cget, cput, clift, cret in E. destruct (_normalize_params params) as [ps|e|] eqn:Ep.
  - exact (K (next_id w) ps eq_refl (set_next_id (next_id w + 1) w) w' o E).
  - exact (attempts_raise n now e (set_next_id (next_id w + 1) w) w' o E).
  - now destruct (params_end params).
Qed.

(** After the answer: another attempt where one is left, or the end. *)
Lemma idempotent_spec backoffs : makes (S (List.length backoffs)) (fun _ => False) (idempotent c method params private backoffs).
Proof.
  induction backoffs as [|b rest IH]; cbn [idempotent List.length]; apply attempts_body; intros id ps Ep;
    (apply attempt_spec; [exact Ep | intros r | intros [kind message]]);
    try apply attempts_raise; try (apply attempts_quiet; [auto with client | intros; exact IH]);
    cbv zeta; destruct (_parse_jsonrpc_payload r method) as [d e] eqn:Ed;
    (destruct (_ =? _)%Z; [first [apply attempts_raise | apply attempts_quiet; [auto with client | intros; now apply attempts_now]]|]);
    (destruct (retry_status _ _); [first [apply attempts_raise | apply attempts_quiet; [auto with client | intros; now apply attempts_now]]|]).
  - destruct e as [e|]; [apply attempts_raise|]. destruct (Z.leb_spec 400 (status_code r)); [apply attempts_raise | apply attempts_end].
    now apply (payload_ends method r d None).
  - destruct (_should_retry_private_auth _ _ _); [apply attempts_quiet; [auto with client | intros; now apply attempts_now]|].
    destruct e as [e|].
    + destruct (is_transient _); [|apply attempts_raise]. apply attempts_quiet; [destruct (_is_too_many_requests e); auto with client | intros].
      apply attempts_quiet; [auto with client | intros; now apply attempts_now].
    + destruct (Z.leb_spec 400 (status_code r)); [apply attempts_raise | apply attempts_end]. now apply (payload_ends method r d None).
Qed.
End Reads.
End Facts.


(** ** Logs in pages *)

Section Paging.
Context {Sv : Server}.
Variables (log : list pyobj) (n : nat).

(** The page that begins at row [from], of [n] rows at most, and where the next one begins. *)
Definition page_at (from : nat) : list (string * pyobj) :=
  let rest := skipn from log in
  [("logs", PList (firstn n rest)); ("continuation", if (List.length rest <=? n)%nat then PNone else PInt (Z.of_nat (from + n)))].

Definition asked_from (ps : list (string * pyobj)) : nat := match dget "continuation" ps with PInt z => Z.to_nat z | _ => 0 end.

(** The exchange answers a request for a page of the log as its documentation has it, or with a failure of any kind. *)
Definition pages_log : Prop := forall past request r d,
  request.(rpc_method) = "private/get_transaction_log" -> answer_to past request = Answered r -> (r.(status_code) < 400)%Z ->
  _parse_jsonrpc r "private/get_transaction_log" = Ret d -> match dget "error" d with PDict (_ :: _) => False | _ => True end ->
  dget "result" d = PDict (page_at (asked_from request.(rpc_params))).

Definition plain (kv : string * pyobj) : Prop := match snd kv with PInt _ | PStr _ => True | _ => False end.

Lemma plain_params l : Forall plain l -> _normalize_params l = Ret l.
Proof. induction 1 as [|[k v] l H _ IH]; [reflexivity|]. destruct v; destruct H; cbn [_normalize_params obind]; rewrite IH; reflexivity. Qed.

Definition page_params currency start_ms end_ms count subaccount_id query continuation : list (string * pyobj) :=
  [("currency", PStr (upper currency)); ("start_timestamp", PInt start_ms); ("end_timestamp", PInt end_ms); ("count", PInt count)]
  ++ int_param "subaccount_id" subaccount_id ++ text_param "query" query ++ int_param "continuation" continuation.

Lemma page_params_plain currency start_ms end_ms count sub query k : Forall plain (page_params currency start_ms end_ms count sub query k).
Proof.
  unfold page_params, text_param. destruct sub, query as [t|], k; cbn; try destruct (truthy (strip t)); repeat constructor.
Qed.

Definition start_of (continuation : option Z) : nat := match continuation with Some z => Z.to_nat z | None => 0 end.

Lemma asked_page currency start_ms end_ms count sub query k : asked_from (page_params currency start_ms end_ms count sub query k) = start_of k.
Proof. unfold asked_from, page_params, text_param. destruct sub, query as [t|], k; cbn; try destruct (truthy (strip t)); reflexivity. Qed.

Hypothesis paging : pages_log.
Hypothesis some_rows : (0 < n)%nat.
Hypothesis all_dicts : dicts_of log = log.

Lemma page_spec c currency start_ms end_ms count sub query k w w' o :
  _get_transaction_log_page c currency start_ms end_ms count sub query k w = (w', o) ->
  o <> OutOfFuel /\ forall p, o = Ret p -> p = page_at (start_of k).
Proof.
  unfold _get_transaction_log_page. fold (page_params currency start_ms end_ms count sub query k). intros E. unfold cbind in E.
  destruct (_request c _ _ true w) as [w1 o1] eqn:E1. change (_idempotent_request c "private/get_transaction_log" (page_params currency start_ms end_ms count sub query k) true w = (w1, o1)) in E1.
  destruct (idempotent_spec c "private/get_transaction_log" (page_params currency start_ms end_ms count sub query k) true ltac:(discriminate) _ _ _ _ E1) as (T & new & P & F & _ & _ & R).
  destruct o1 as [v|e|]; [| injection E as <- <-; split; discriminate | now destruct T]. injection E as <- <-. split; [discriminate|]. intros p Ep. injection Ep as <-.
  destruct (R v eq_refl) as [[_ []]|(q & rest & r & -> & O & A & (L & d & Pd & -> & Ne))]. apply String.eqb_eq in O.
  rewrite (paging _ _ _ _ O A L Pd Ne). inversion F as [|? ? [Lg|[_ Ps]] _]; [congruence|]. rewrite (plain_params _ (page_params_plain _ _ _ _ _ _ _)) in Ps.
  injection Ps as <-. now rewrite asked_page.
Qed.

Lemma dicts_part from : dicts_of (firstn n (skipn from log)) = firstn n (skipn from log).
Proof.
  assert (A : forall l, dicts_of l = l <-> forallb is_dict l = true).
  { unfold dicts_of. induction l as [|x l IH]; [now split|]. cbn [filter forallb]. destruct (is_dict x) eqn:D; cbn [andb].
    - split; [intros E; injection E as E; now apply IH | intros E; now rewrite (proj2 IH E)].
    - split; [intros E; exfalso | discriminate]. assert (I : In x (filter is_dict l)) by (rewrite E; now left). apply filter_In in I. destruct I as [_ I]. congruence. }
  apply A. apply A in all_dicts. rewrite forallb_forall in *. intros x H. apply all_dicts.
  rewrite <- (firstn_skipn from log). apply in_or_app. right. rewrite <- (firstn_skipn n (skipn from log)). apply in_or_app. now left.
Qed.

Lemma page_at_rows from : page_rows (page_at from) = firstn n (skipn from log).
Proof. exact (dicts_part from). Qed.

Lemma page_at_next from : dget "continuation" (page_at from) = if (List.length (skipn from log) <=? n)%nat then PNone else PInt (Z.of_nat (from + n)).
Proof. reflexivity. Qed.

Lemma follow_spec c currency start_ms end_ms count sub query fuel : forall k w w' o, (start_of k <= List.length log < start_of k + fuel)%nat ->
  follow (_get_transaction_log_page c currency start_ms end_ms count sub query) fuel k w = (w', o) ->
  o <> OutOfFuel /\ forall rows, o = Ret rows -> rows = skipn (start_of k) log.
Proof.
  induction fuel as [|fuel IH]; intros k w w' o B E; [lia|]. cbn [follow] in E. unfold cbind in E at 1.
  destruct (_get_transaction_log_page _ _ _ _ _ _ _ k w) as [w1 o1] eqn:E1. destruct (page_spec _ _ _ _ _ _ _ _ _ _ _ E1) as (T & R).
  destruct o1 as [p|e|]; [| injection E as <- <-; split; discriminate | now destruct T]. rewrite (R p eq_refl) in E. clear R T E1 p.
  set (from := start_of k) in *. cbv zeta in E. rewrite page_at_rows, page_at_next in E. destruct (Nat.leb_spec (List.length (skipn from log)) n) as [Last|More].
  - rewrite orb_true_r in E. injection E as <- <-. split; [discriminate|]. intros rows Er. injection Er as <-. now apply firstn_all2.
  - rewrite length_skipn in More. assert (Ne : firstn n (skipn from log) <> []).
    { intros Z. apply (f_equal (@List.length _)) in Z. rewrite length_firstn, length_skipn in Z. cbn in Z. lia. }
    destruct (firstn n (skipn from log)) as [|x chunk] eqn:Ec; [now destruct Ne|]. rewrite <- Ec in E. cbn [orb no_token py_int] in E.
    rewrite (proj2 (Z.eqb_neq _ 0)) in E by lia. unfold cbind, clift in E. destruct (follow _ fuel (Some (Z.of_nat (from + n))) w1) as [w2 o2] eqn:E2.
    assert (Nx : start_of (Some (Z.of_nat (from + n))) = (from + n)%nat) by apply Nat2Z.id.
    destruct (IH _ _ _ _ ltac:(rewrite Nx; lia) E2) as (T & R). rewrite Nx in R.
    destruct o2 as [more|e|]; [| injection E as <- <-; split; discriminate | now destruct T]. injection E as <- <-. split; [discriminate|].
    intros rows Er. injection Er as <-. rewrite (R more eq_refl), Nat.add_comm, <- skipn_skipn. apply firstn_skipn.
Qed.
End Paging.

(** ** Delivery prices *)

Section Delivery.
Context {Sv : Server}.

Definition finishes {A} (m : C A) : Prop := forall w, snd (m w) <> OutOfFuel.

Lemma finishes_bind {A B} (m : C A) (k : A -> C B) : finishes m -> (forall a, finishes (k a)) -> finishes (cbind m k).
Proof.
  intros M K w. unfold cbind. specialize (M w). destruct (m w) as [w1 [a|e|]]; cbn [snd] in *; [apply K | discriminate | now destruct M].
Qed.

Lemma finishes_lift {A} (o : outcome A) : o <> OutOfFuel -> finishes (clift o).
Proof. intros T w. exact T. Qed.

Lemma read_ends c method params private : mem_str method _UNSAFE_METHODS = false -> method <> "public/auth" -> finishes (_request c method params private).
Proof.
  intros U N w. unfold _request. rewrite U. destruct (_idempotent_request c method params private w) as [w' o] eqn:E.
  now destruct (idempotent_spec c method params private N IDEMPOTENT_RETRY_BACKOFF_SECONDS w w' o E).
Qed.

Lemma py_int_ends v : py_int v <> OutOfFuel.
Proof. destruct v; try discriminate; cbn; [destruct (parse_int s) | destruct (parse_decimal text)]; discriminate. Qed.

Lemma delivery_rows_end rows : delivery_rows rows <> OutOfFuel.
Proof. induction rows as [|[] rows IH]; try discriminate. cbn. destruct (delivery_rows rows); [discriminate | discriminate | now destruct IH]. Qed.

(** Every page has a row, so that the pages end with the days asked for. *)
Lemma delivery_pages_end c index_name days fuel : forall offset, (0 < fuel)%nat -> (days - offset < Z.of_nat fuel)%Z ->
  finishes (delivery_pages c fuel index_name days offset).
Proof.
  induction fuel as [|fuel IH]; intros offset P B; [lia|]. cbn [delivery_pages]. destruct (Z.leb_spec days offset) as [|G]; [intros w; discriminate|].
  apply finishes_bind; [now apply read_ends | intros result]. apply finishes_bind; [apply finishes_lift; unfold field_of; destruct (obj_or _ _); discriminate | intros data].
  apply finishes_bind; [apply finishes_lift; unfold py_rows; destruct (obj_or _ _); discriminate | intros [|x rows]]; [intros w; discriminate|].
  apply finishes_bind; [apply finishes_lift, delivery_rows_end | intros out].
  apply finishes_bind; [apply finishes_lift; unfold field_of, obind, int_or; destruct (obj_or _ _); try discriminate; destruct (py_truthy _); [apply py_int_ends | discriminate] | intros total].
  destruct (_ <=? _)%Z; [intros w; discriminate|]. apply finishes_bind; [apply IH; cbn [List.length]; lia | intros more w; discriminate].
Qed.

Lemma delivery_prices_end c index_name days : finishes (get_delivery_prices c index_name days).
Proof.
  apply finishes_bind; [|intros cached; apply finishes_bind; [apply finishes_lift; unfold py_rows; destruct (obj_or _ _); discriminate | intros rows w; discriminate]].
  assert (L : finishes (let% rows := delivery_pages c (S (Z.to_nat days)) index_name days 0 in cret (PList rows))).
  { apply finishes_bind; [apply delivery_pages_end; lia | intros rows w; discriminate]. }
  unfold _cached_public_read. destruct (dleb _ _); [exact L|]. apply finishes_bind; [intros w; match goal with |- context [cached_value ?a ?k ?t ?n ?r] => destruct (cached_value a k t n r) end; discriminate | intros [v|]; [intros w; discriminate|]].
  apply finishes_bind; [exact L | intros v; apply finishes_bind; intros ? ?; discriminate].
Qed.
End Delivery.

(** C8. An order goes out at most once. Whatever the exchange answers, or does not, a call
    that moves money posts only logins, at most eight, and then at most one request of its
    own, with the parameters it was given: it is never sent again. The call always finishes; what
    it returns is the result the exchange's one answer carries without an error, and where
    that answer is lost, as when the request timed out, it raises the transient error that
    asks for reconciliation. *)
Theorem orders_sent_once {Sv : Server} c method params private w w' o : mem_str method _UNSAFE_METHODS = true -> _request c method params private w = (w', o) ->
  o <> OutOfFuel /\
  exists auth, Forall logs_in auth /\ (List.length auth <= 8)%nat /\
    (w'.(posted) = auth ++ w.(posted) /\ (forall v, o <> Ret v) \/
     exists ps token, _normalize_params params = Ret ps /\
       let request := {| rpc_id := w.(next_id); rpc_method := method; rpc_params := ps; bearer := token |} in
       w'.(posted) = request :: auth ++ w.(posted) /\
       match answer_to (auth ++ w.(posted)) request with
       | Dropped kind message => o = Exn (lost_request method kind message)
       | Answered r => forall v, o = Ret v -> carries method r v
       end).
Proof. intros U E. unfold _request in E. rewrite U in E. exact (unsafe_spec c method params w w' o E). Qed.

(** C9. A read is sent at most five times and reports what it was answered. Any other call
    makes at most five requests of its own, each with the parameters it was given, and
    besides posts only logins; a public one posts nothing else. It always finishes, and what it
    returns is the result of the answer to the last request it posted. *)
Theorem reads_bounded {Sv : Server} c method params private w w' o : mem_str method _UNSAFE_METHODS = false -> method <> "public/auth" ->
  _request c method params private w = (w', o) ->
  o <> OutOfFuel /\
  exists new, w'.(posted) = new ++ w.(posted) /\ Forall (of_read method params) new /\ (own_count method new <= 5)%nat /\
    (List.length new <= if private then 45 else 5)%nat /\ forall v, o = Ret v -> last_fetched method w.(posted) new v.
Proof.
  intros U N E. unfold _request in E. rewrite U in E. destruct (idempotent_spec c method params private N IDEMPOTENT_RETRY_BACKOFF_SECONDS w w' o E) as (T & new & P & F & L1 & L2 & R).
  split; [exact T|]. exists new. split; [exact P|]. split; [exact F|]. split; [exact L1|]. split; [unfold per_attempt in L2; destruct private; exact L2|].
  intros v Ev. destruct (R v Ev) as [[_ []]|X]. exact X.
Qed.

