(* ===== verification/ClientSamples.v ===== *)
(** Instances of the client's theorems: an exchange that answers some requests, fails
    others, and pages a log of three rows. *)

From S2P Require Import Prelude Sorting Dec PyStr Utils PyObj GroupJson StateJson Throttle PublicCache Client ClientFacts.
Local Open Scope string_scope.
Local Open Scope bool_scope.
Local Open Scope list_scope.
Local Open Scope client_scope.

Definition http_ok (q : http_request) (result : pyobj) : answer :=
  Answered {| status_code := 200; json_body := Some (PDict [("jsonrpc", PStr "2.0"); ("id", PInt q.(rpc_id)); ("result", result)]); response_text := ""; retry_after := None |}.

Definition log_of_three : list pyobj := [PDict [("id", PInt 11)]; PDict [("id", PInt 12)]; PDict [("id", PInt 13)]].

(** Logins succeed; the second page of the log comes only when asked for again; orders time out; the index is busy at first. *)
#[local] Instance moody_exchange : Server := {|
  answer_to past q :=
    if String.eqb q.(rpc_method) "public/auth" then http_ok q (PDict [("access_token", PStr "t"); ("expires_in", PInt 900)])
    else if String.eqb q.(rpc_method) "private/get_transaction_log" then
      if (List.length past =? 2)%nat then Dropped "Timeout" "read timed out" else http_ok q (PDict (page_at log_of_three 2 (asked_from q.(rpc_params))))
    else if String.eqb q.(rpc_method) "public/get_index_price" && (List.length past =? 0)%nat
    then Answered {| status_code := 503; json_body := None; response_text := "busy"; retry_after := None |}
    else if String.eqb q.(rpc_method) "public/get_index_price" then http_ok q (PDict [("index_price", PInt 100000)])
    else Dropped "Timeout" "read timed out";
  utc_now_ms _ := 1800000000000%Z;
  monotonic _ := 1%Q;
  random _ := 0.5%Q;
  store_available _ := false;
|}.

Definition trader : client_config :=
  {| client_id := "id"; client_secret := "secret"; rest_base_url := "https://www.deribit.com/api/v2";
     pacing := {| min_interval := None; max_interval := None |}; store_settings := {| max_age_seconds := 86400; max_rows := 5000 |}; environ := fun _ => None |}.

Definition fresh_client : client :=
  {| access_token := None; refresh_token := None; token_expiry_ms := 0; next_id := 1; auth_cache := []; penalized := []; reads := empty_cache; posted := []; sleeps := [] |}.

Definition buy_params : list (string * pyobj) := [("instrument_name", PStr "BTC-PERPETUAL"); ("amount", PDec 0.1%Q)].

(** The purchase is posted after a login, times out, and is not sent again. *)
Lemma orders_sent_once_witness : exists w' o, _request trader "private/buy" buy_params false fresh_client = (w', o) /\
  map rpc_method w'.(posted) = ["private/buy"; "public/auth"] /\
  o = Exn (TransientExchangeError "private/buy timed out; reconcile required: read timed out") /\
  exists auth, Forall logs_in auth /\ (List.length auth <= 8)%nat /\
    (w'.(posted) = auth ++ [] \/ exists request, w'.(posted) = request :: auth ++ [] /\ request.(rpc_method) = "private/buy").
Proof.
  destruct (_request trader "private/buy" buy_params false fresh_client) as [w' o] eqn:E. exists w', o. split; [reflexivity|].
  assert (P : map rpc_method (fst (_request trader "private/buy" buy_params false fresh_client)).(posted) = ["private/buy"; "public/auth"]) by (vm_compute; reflexivity).
  assert (R : snd (_request trader "private/buy" buy_params false fresh_client) = Exn (TransientExchangeError "private/buy timed out; reconcile required: read timed out")) by (vm_compute; reflexivity).
  rewrite E in P, R. split; [exact P|]. split; [exact R|].
  destruct (orders_sent_once trader "private/buy" buy_params false fresh_client w' o eq_refl E) as (_ & auth & F & L & [[D _]|(ps & token & _ & D & _)]);
    exists auth; (split; [exact F|]; split; [exact L|]); [left; exact D | right; eexists; split; [exact D | reflexivity]].
Defined.

(** The index price comes with the second request. *)
Lemma reads_bounded_witness : exists w' v, _request trader "public/get_index_price" [("index_name", PStr "btc_usd")] false fresh_client = (w', Ret v) /\
  v = PDict [("index_price", PInt 100000)] /\ List.length w'.(posted) = 2%nat /\ last_fetched "public/get_index_price" [] w'.(posted) v.
Proof.
  set (m := _request trader "public/get_index_price" [("index_name", PStr "btc_usd")] false).
  assert (R : snd (m fresh_client) = Ret (PDict [("index_price", PInt 100000)])) by (vm_compute; reflexivity).
  assert (P : List.length (fst (m fresh_client)).(posted) = 2%nat) by (vm_compute; reflexivity).
  destruct (m fresh_client) as [w' o] eqn:E. cbn [fst snd] in R, P. subst o. exists w', (PDict [("index_price", PInt 100000)]).
  split; [reflexivity|]. split; [reflexivity|]. split; [exact P|].
  destruct (reads_bounded trader "public/get_index_price" [("index_name", PStr "btc_usd")] false fresh_client w' _ eq_refl ltac:(discriminate) E)
    as (_ & new & Pn & _ & _ & _ & F). rewrite app_nil_r in Pn. rewrite Pn. exact (F _ eq_refl).
Defined.


(** An exchange that has forgotten the session, and says so with HTTP 400. *)
Definition forgetful_exchange : Server := {|
  answer_to past q := Answered {| status_code := 400; json_body := Some (PDict [("jsonrpc", PStr "2.0"); ("error", PDict [("code", PInt 13009); ("message", PStr "session_not_found")])]);
                                  response_text := "session_not_found"; retry_after := None |};
  utc_now_ms _ := 1800000000000%Z; monotonic _ := 1%Q; random _ := 0.5%Q; store_available _ := false;
|}.

Definition stale_client : client := set_tokens (Some "stale") None 1800000900000 fresh_client.

(** An order refused for its stale token keeps the token for the next one, and the error is not that of the session. *)
Example order_keeps_stale_token : let '(w', o) := @_request forgetful_exchange trader "private/buy" buy_params false stale_client in
  w'.(access_token) = Some "stale" /\ o = Exn (ExchangeError "private/buy failed: HTTP 400 session_not_found").
Proof. vm_compute. split; reflexivity. Qed.

(** A read drops it, and logs in again. *)
Example read_drops_stale_token : let '(w', o) := @_request forgetful_exchange trader "private/get_positions" [] true stale_client in
  w'.(access_token) = None /\ map rpc_method w'.(posted) = ["public/auth"; "private/get_positions"].
Proof. vm_compute. split; reflexivity. Qed.
