(* ===== verification/SweepFills.v ===== *)
(** What the exchange has filled of profit sweeps, and what of them is queued again
    ([profit_sweep_ops.py]): the spot sells of each currency, read once in a run, those
    that belong to a group by its label, the guard against selling twice, and the queueing
    of what was never sold or only in part. *)

From S2P Require Import Prelude Sorting Dec PyStr Utils Group Ledger PyObj GroupJson StateJson Market ExitEval VolMetrics EntryGates Runtime HedgeOrders Close GroupClose GroupExit DayState Portfolio Manage EntryConfig Scan Settlement Positions Reconcile SpotTrade Wheel Sweep.
Local Open Scope string_scope.
Local Open Scope Q_scope.
Local Open Scope dec_scope.
Local Open Scope bool_scope.
Local Open Scope list_scope.

(** ** Rows of trades *)

Definition fill_row : Type := list (string * pyobj).

(** Ids as members of a set: numbers and truth values compare by value. *)
Definition same_trade_id (a b : pyobj) : bool :=
  match a, b with
  | PNone, PNone => true
  | PStr x, PStr y => String.eqb x y
  | _, _ => match py_int a, py_int b, a, b with
            | Ret x, Ret y, (PInt _ | PBool _), (PInt _ | PBool _) => (x =? y)%Z
            | _, _, _, _ => false
            end
  end.

Definition stamp_of (d : fill_row) : outcome Z := int_or (dget "timestamp" d) 0.

Fixpoint with_stamps {A} (row : A -> fill_row) (l : list A) : outcome (list (Z * A)) :=
  (match l with
   | [] => Ret []
   | x :: rest => let! t := stamp_of (row x) in let! more := with_stamps row rest in Ret ((t, x) :: more)
   end)%outcome.

Definition stamped_before {A} (a b : Z * A) : bool := (fst a <? fst b)%Z.

(** [sorted(rows, key=...)] *)
Definition by_time {A} (row : A -> fill_row) (l : list A) : outcome (list (Z * A)) :=
  (let! l := with_stamps row l in Ret (stable_sort stamped_before l))%outcome.

(** The day, in UTC, of a time in milliseconds. *)
Definition day_of_ms (ms : Z) : Z := (ms / 86400000)%Z.

Definition _first_day_profit_sweep_trades (trades : list fill_row) : outcome (list fill_row) :=
  (let! ordered := by_time (fun d => d) trades in
   Ret (match ordered with
        | [] => []
        | (first, _) :: _ => map snd (filter (fun r => (day_of_ms (fst r) =? day_of_ms first)%Z) ordered)
        end))%outcome.

Definition profit_sweep_order_label (order_label_prefix : string) (g : TradeGroup) : string :=
  (order_label_prefix ++ "-profit-sweep-" ++ lower g.(currency) ++ "-" ++ g.(group_id))%string.

Definition swept_total (trades : list fill_row) : Q := fold_left (fun total d => total ⊕ to_decimal (dget "amount" d) 0) trades 0.

(** ** The sells of each currency, read once *)

(** For each currency read, its labelled sells in order of time; for each that could not be read, why. *)
Record trade_cache : Type := {
  sells_of : dict (list (string * fill_row));
  _unavailable : dict string;
}.

Definition empty_trade_cache : trade_cache := {| sells_of := []; _unavailable := [] |}.

(** The labelled sells among the trades, each id once; a row without an id counts as one of that id. *)
Fixpoint labelled_sells (seen : list pyobj) (rows : list pyobj) : outcome (list (string * fill_row)) :=
  (match rows with
   | [] => Ret []
   | PDict d :: rest =>
       let label := str_or_default (dget "label" d) "" in
       if negb (contains "profit-sweep" label) then labelled_sells seen rest
       else if negb (String.eqb (lower (str_or_default (dget "direction" d) "")) "sell") then labelled_sells seen rest
       else if existsb (same_trade_id (dget "trade_id" d)) seen then labelled_sells seen rest
       else let! more := labelled_sells (dget "trade_id" d :: seen) rest in Ret ((label, d) :: more)
   | _ :: _ => Exn AttributeError
   end)%outcome.

(** [payload.get("trades", [])] *)
Definition payload_trades (v : pyobj) : outcome (list pyobj) :=
  match v with
  | PDict d => if existsb (fun kv => String.eqb (fst kv) "trades") d then match dget "trades" d with PList l => Ret l | _ => Exn TypeError end else Ret []
  | _ => Exn AttributeError
  end.

(** ** Programs on one group and the cache *)

Record sweep_run : Type := {
  trade_cache_of : trade_cache;
  the_group : TradeGroup;
}.

Definition K (A : Type) : Type := sweep_run -> sweep_run * outcome A.
Definition kret {A} (a : A) : K A := fun s => (s, Ret a).
Definition kbind {A B} (m : K A) (k : A -> K B) : K B :=
  fun s => match m s with
           | (s', Ret a) => k a s'
           | (s', Exn e) => (s', Exn e)
           | (s', OutOfFuel) => (s', OutOfFuel)
           end.
Definition klift {A} (o : outcome A) : K A := fun s => (s, o).
Definition kgroup : K TradeGroup := fun s => (s, Ret s.(the_group)).
Definition put_trade_group (g : TradeGroup) (s : sweep_run) : sweep_run := {| trade_cache_of := s.(trade_cache_of); the_group := g |}.
Definition kedit (f : TradeGroup -> TradeGroup) : K unit := fun s => (put_trade_group (f s.(the_group)) s, Ret tt).

(** A method of the group, which may change it. *)
Definition kread {A} (f : TradeGroup -> TradeGroup * A) : K A := fun s => let '(g, a) := f s.(the_group) in (put_trade_group g s, Ret a).
Definition kmethod {A} (f : TradeGroup -> outcome (TradeGroup * A)) : K A := fun s =>
  match f s.(the_group) with Ret (g, a) => (put_trade_group g s, Ret a) | Exn e => (s, Exn e) | OutOfFuel => (s, OutOfFuel) end.
Definition kcache {A} (f : trade_cache -> trade_cache * outcome A) : K A := fun s =>
  let '(c, o) := f s.(trade_cache_of) in ({| trade_cache_of := c; the_group := s.(the_group) |}, o).

Declare Scope sweep_scope.
Delimit Scope sweep_scope with sweep.
Notation "'let^' x ':=' m 'in' k" := (kbind m (fun x => k)) (at level 10, x pattern, m at level 100, k at level 200) : sweep_scope.
Local Open Scope sweep_scope.

Section Fills.
(** [client.get_user_trades_by_currency(currency, kind="spot", count=100, historical=True)], and the text of an exception. *)
Variable fetch : string -> outcome pyobj.
Variable text_of_error : exn -> string.
Variable order_label_prefix : string.

(** Whether the fills of the currency are known. *)
Definition _ensure_currency (currency : string) (c : trade_cache) : trade_cache * outcome bool :=
  let currency := upper currency in
  match dict_get currency c.(sells_of) with
  | Some _ => (c, Ret true)
  | None =>
      match dict_get currency c.(_unavailable) with
      | Some _ => (c, Ret false)
      | None =>
          match fetch currency with
          | Exn e => ({| sells_of := c.(sells_of); _unavailable := dict_set currency (text_of_error e) c.(_unavailable) |}, Ret false)
          | OutOfFuel => (c, OutOfFuel)
          | Ret payload =>
              match (let! rows := payload_trades payload in let! sells := labelled_sells [] rows in by_time snd sells)%outcome with
              | Ret sells => ({| sells_of := dict_set currency (map snd sells) c.(sells_of); _unavailable := c.(_unavailable) |}, Ret true)
              | Exn e => (c, Exn e)
              | OutOfFuel => (c, OutOfFuel)
              end
          end
      end
  end.

(** The fills that are known of a label. *)
Definition known_fills (c : trade_cache) (currency label : string) : option (list fill_row) :=
  option_map (fun sells => map snd (filter (fun r => String.eqb (fst r) label) sells)) (dict_get (upper currency) c.(sells_of)).

Definition unavailable_currencies (c : trade_cache) : list string := map fst c.(_unavailable).

(** [profit_sweep_sell_trades_for_group], where [None] is [ProfitSweepTradesUnavailable]. *)
Definition trades_for_group_strict : K (option (list fill_row)) :=
  let^ g := kgroup in
  let^ known := kcache (_ensure_currency g.(currency)) in
  fun s => (s, Ret (if known : bool then known_fills s.(trade_cache_of) g.(currency) (profit_sweep_order_label order_label_prefix g) else None)).

Definition trades_for_group : K (list fill_row) :=
  let^ trades := trades_for_group_strict in kret (match trades with Some l => l | None => [] end).

Definition native_profit_for_group : TradeGroup -> TradeGroup * option Q := realized_spot_profit_native_for_group.

Definition has_order (order_id : string) (d : fill_row) : bool := String.eqb (str_or_default (dget "order_id" d) "") order_id.

Definition attributed_profit_sweep_trades_for_group : K (option (list fill_row)) :=
  let^ trades := trades_for_group_strict in
  match trades with
  | None => kret None
  | Some [] => kret (Some [])
  | Some trades =>
      let^ g := kgroup in
      let order_id := strip g.(profit_sweep_order_id) in
      let matched := if truthy order_id then filter (has_order order_id) trades else [] in
      match matched with
      | _ :: _ => kret (Some matched)
      | [] => let^ first := klift (_first_day_profit_sweep_trades trades) in kret (Some first)
      end
  end.

Definition proceeds_of (trades : list fill_row) : outcome Q := spot_sell_quote_proceeds_from_trades (map PDict trades) "USDT".

Definition attributed_profit_sweep_fill_for_group : K (option (Q * Q)) :=
  let^ trades := attributed_profit_sweep_trades_for_group in
  match trades with
  | None => kret None
  | Some [] => kret (Some (0, 0))
  | Some trades => let^ quote := klift (proceeds_of trades) in kret (Some (swept_total trades, quote))
  end.

Definition exchange_swept_native_for_group : K (option Q) :=
  let^ trades := trades_for_group_strict in kret (option_map swept_total trades).

Definition closed_covered_call (g : TradeGroup) : bool := String.eqb g.(status) "closed" && is_covered_call_group g.

Definition refresh_profit_sweep_exchange_native : K bool :=
  let^ g := kgroup in
  if negb (closed_covered_call g) then kret false
  else if negb (String.eqb (lower g.(profit_sweep_status)) "filled") then kret false
  else if negb (profit_sweep_has_exchange_fill g) then kret false
  else
    let^ fill := attributed_profit_sweep_fill_for_group in
    match fill with
    | None => kret false
    | Some (native, quote) =>
        if native <=? 0 then kret false
        else
          let changed := negb (g.(profit_sweep_exchange_native) =? native) in
          let changed_quote := (quote >? 0) && negb (g.(profit_sweep_exchange_quote_proceeds) =? quote) in
          let^ _ := kedit (fun g => if changed then set_profit_sweep_exchange_native native g else g) in
          let^ _ := kedit (fun g => if changed_quote then set_profit_sweep_exchange_quote_proceeds quote g else g) in
          kret (changed || changed_quote)
    end.

(** ** The guard *)

Definition note_char (ch : ascii) : bool := Ascii.eqb ch ";" || Ascii.eqb ch " ".

(** [(reason + "; " + tag).strip("; ")], where the reason does not hold the tag yet. *)
Definition with_note (tag reason : string) : string :=
  if contains tag reason then reason else rstrip_by note_char (lstrip_by note_char (reason ++ "; " ++ tag))%string.

Definition tag_reason (tag : string) (g : TradeGroup) : TradeGroup := set_profit_sweep_reason (with_note tag g.(profit_sweep_reason)) g.

(** What an order of the exchange sold, noted in the group. *)
Definition note_sold (amount : Q) (name order_id : string) (g : TradeGroup) : TradeGroup :=
  let g := set_profit_sweep_instrument_name name (set_profit_sweep_amount amount g) in
  if truthy order_id then set_profit_sweep_order_id order_id g else g.

Definition note_proceeds (proceeds : Q) (g : TradeGroup) : TradeGroup :=
  if proceeds >? 0 then record_profit_sweep_lifetime_proceeds proceeds (set_profit_sweep_quote_proceeds proceeds g) else g.

Definition fills_noted (native : Q) (attributed : list fill_row) : K bool :=
  let^ g := kgroup in
  let swept := swept_total attributed in
  let remaining := dmax 0 (native ⊖ swept) in
  let newest := List.last attributed [] in
  let order_id := strip (str_or_default (dget "order_id" newest) "") in
  let name := str_or_default (dget "instrument_name" newest) (upper g.(currency) ++ "_USDT")%string in
  if swept >=? native then
    let^ _ := kedit (fun g => note_sold (dmin swept native) name order_id (set_profit_sweep_status "filled" g)) in
    let^ proceeds := klift (proceeds_of attributed) in
    let^ _ := kedit (fun g => tag_reason "exchange_fully_swept" (note_proceeds proceeds g)) in
    kret true
  else
    let^ _ := (if swept >? g.(profit_sweep_amount) then
                 let^ _ := kedit (fun g => let g := note_sold swept name order_id g in if remaining >? 0 then set_profit_sweep_status "filled" g else g) in
                 let^ proceeds := klift (proceeds_of attributed) in
                 kedit (note_proceeds proceeds)
               else kret tt) in
    if remaining <=? 0 then let^ _ := kedit (set_profit_sweep_status "filled") in kret true else kret false.

(** [True] where nothing remains to be swept, and where the fills are not known. *)
Definition guard_profit_sweep_against_oversell : K bool :=
  let^ g := kgroup in
  if negb (closed_covered_call g) then kret false
  else
    let^ _ := refresh_profit_sweep_exchange_native in
    let^ g := kgroup in
    if _profit_sweep_state_locked g then let^ rem := kread remaining_spot_profit_native in kret (rem <=? 0)
    else
      let^ native := kread native_profit_for_group in
      match positive native with
      | None => kret true
      | Some native =>
          let^ trades := trades_for_group_strict in
          match trades with
          | None => kret true
          | Some [] => kret false
          | Some trades => let^ attributed := klift (_first_day_profit_sweep_trades trades) in fills_noted native attributed
          end
      end.

(** ** Queueing *)

Definition _exchange_remaining_native : K (option Q) :=
  let^ native := kread native_profit_for_group in
  match native with
  | None => kret None
  | Some native =>
      let^ swept := exchange_swept_native_for_group in
      match swept with
      | None => kret None
      | Some swept =>
          if swept <=? 0 then
            let^ g := kgroup in
            let^ queued := (if mem_str (lower g.(profit_sweep_status)) ["pending"; "submitted"] then kread to_sweep_native else kret 0) in
            if queued >? 0 then kret (Some queued) else let^ rem := kread remaining_spot_profit_native in kret (Some rem)
          else kret (Some (dmax 0 (native ⊖ swept)))
      end
  end.

Definition or_none_positive (o : option Q) : bool := match o with Some q => q >? 0 | None => false end.

Definition _would_schedule_for_manual_sweep : K bool :=
  let^ blocked := guard_profit_sweep_against_oversell in
  if blocked then kret false
  else
    let^ remaining := _exchange_remaining_native in
    if negb (or_none_positive remaining) then kret false
    else
      let^ g := kgroup in
      let status := lower g.(profit_sweep_status) in
      if String.eqb status "submitted" then kret false
      else if String.eqb status "filled" then kret true
      else
        let^ native := kmethod _coin_profit_native_for_sweep in
        if negb (or_none_positive native) then kret false
        else if mem_str status [""; "failed"; "skipped"] then kret true
        else if String.eqb status "pending" then let^ q := kread to_sweep_native in kret (q >? 0)
        else kret false.

Definition manual_reason (g : TradeGroup) : TradeGroup := if truthy g.(profit_sweep_reason) then g else set_profit_sweep_reason "manual_sweep" g.

(** The queueing itself, for what the exchange has sold and a profit of [native]. *)
Definition queue_sweep (native exchange_swept : Q) : K bool :=
  let^ g := kgroup in
  let status := lower g.(profit_sweep_status) in
  if String.eqb status "filled" then
    let already_sold := if exchange_swept >? 0 then exchange_swept else if g.(profit_sweep_exchange_native) >? 0 then g.(profit_sweep_exchange_native) else 0 in
    let^ _ := kedit (fun g =>
      let g := set_profit_sweep_status "pending" g in
      let g := if already_sold >? 0 then set_profit_sweep_amount already_sold g else g in
      if negb (truthy g.(profit_sweep_reason)) then set_profit_sweep_reason "manual_sweep" g
      else if contains "resweep_remainder" g.(profit_sweep_reason) then g
      else set_profit_sweep_reason (g.(profit_sweep_reason) ++ "; resweep_remainder")%string g) in
    kret true
  else if mem_str status [""; "failed"; "skipped"] then
    let^ _ := kedit (fun g => manual_reason (set_profit_sweep_amount (if exchange_swept >? 0 then exchange_swept else native) (set_profit_sweep_status "pending" g))) in
    kret true
  else if String.eqb status "pending" then
    let swept := swept_amount g in
    let^ _ := (if (exchange_swept >? 0) && (exchange_swept <? native) then
                 kedit (fun g => if swept =? exchange_swept then g else set_profit_sweep_amount exchange_swept g)
               else if (swept >? 0) && (swept <? native) then kret tt
               else kedit (set_profit_sweep_amount native)) in
    kret false
  else kret false.

(** What of a profit of [native] the exchange does not tell to be sold is queued; nothing where it does not tell. *)
Definition queue_unsold (native : Q) : K bool :=
  let^ swept := exchange_swept_native_for_group in
  match swept with
  | None => kret false
  | Some exchange_swept =>
      let^ remaining := (if exchange_swept >? 0 then kret (dmax 0 (native ⊖ exchange_swept)) else kread remaining_spot_profit_native) in
      if remaining <=? 0 then kret false else queue_sweep native exchange_swept
  end.

Definition _ensure_pending_for_manual_sweep : K bool :=
  let^ g := kgroup in
  let^ done := (if _profit_sweep_state_locked g then let^ rem := kread remaining_spot_profit_native in kret (rem <=? 0) else kret false) in
  if done then kret false
  else
    let^ blocked := guard_profit_sweep_against_oversell in
    if blocked then kret false
    else
      let^ would := _would_schedule_for_manual_sweep in
      if negb would then kret false
      else
        let^ native := kmethod _coin_profit_native_for_sweep in
        match positive native with None => kret false | Some native => queue_unsold native end.

(** One group of [schedule_remaining_closed_profit_sweeps]. *)
Definition schedule_group : K bool :=
  let^ blocked := guard_profit_sweep_against_oversell in
  if blocked then kret false
  else
    let^ remaining := _exchange_remaining_native in
    if negb (or_none_positive remaining) then kret false else _ensure_pending_for_manual_sweep.

(** One group of [reschedule_failed_profit_sweeps]. *)
Definition reschedule_failed : K bool :=
  let^ g := kgroup in
  if negb (closed_covered_call g) then kret false
  else if negb (String.eqb (lower g.(profit_sweep_status)) "failed") then kret false
  else _ensure_pending_for_manual_sweep.

Fixpoint split_notes (word s : string) : list string :=
  match s with
  | EmptyString => [word]
  | String ch rest => if Ascii.eqb ch ";" then word :: split_notes "" rest else split_notes (word ++ String ch "")%string rest
  end.

(** [part.strip() for part in reason.split(";") if ...] without the tag of a ledger split. *)
Definition other_notes (reason : string) : list string :=
  filter (fun part => truthy part && negb (String.eqb part "proceeds_reconciled")) (map strip (split_notes "" reason)).

(** One group of [reschedule_ledger_only_profit_sweeps]. *)
Definition reschedule_ledger_only : K bool :=
  let^ g := kgroup in
  if negb (closed_covered_call g) then kret false
  else if negb (String.eqb (lower g.(profit_sweep_status)) "filled") then kret false
  else if profit_sweep_has_exchange_fill g then kret false
  else if (g.(profit_sweep_quote_proceeds) >? 0) || (g.(profit_sweep_quote_proceeds_lifetime) >? 0) then kret false
  else if g.(profit_sweep_amount) >? 0 then kret false
  else
    let^ native := kread native_profit_for_group in
    match positive native with
    | None => kret false
    | Some native =>
        let^ swept := exchange_swept_native_for_group in
        match swept with
        | None => kret false
        | Some swept =>
            if swept >? 0 then kret false
            else
              let^ _ := kedit (fun g =>
                set_profit_sweep_reason (str_or (String.concat "; " (other_notes g.(profit_sweep_reason))) "take_profit")
                  (set_profit_sweep_quote_proceeds 0 (set_profit_sweep_amount native (set_profit_sweep_status "pending" g)))) in
              kret true
        end
    end.

(** One group of [_apply_exchange_guards]. *)
Definition apply_guard : K bool :=
  let^ g := kgroup in if negb (closed_covered_call g) then kret false else guard_profit_sweep_against_oversell.

(** ** All groups *)

Definition for_group (group_id_ : option string) (g : TradeGroup) : bool :=
  match group_id_ with Some id => negb (truthy (strip id)) || String.eqb g.(group_id) (strip id) | None => true end.

(** The groups in turn, with one cache; the number of those where the step says so. What was done before an exception stays. *)
Fixpoint for_each (step : K bool) (wanted : TradeGroup -> bool) (c : trade_cache) (groups : list TradeGroup) : trade_cache * list TradeGroup * outcome Z :=
  match groups with
  | [] => (c, [], Ret 0%Z)
  | g :: rest =>
      if negb (wanted g) then let '(c, rest, o) := for_each step wanted c rest in (c, g :: rest, o)
      else
        match step {| trade_cache_of := c; the_group := g |} with
        | (s, Ret b) =>
            let '(c, rest, o) := for_each step wanted s.(trade_cache_of) rest in
            (c, s.(the_group) :: rest, (let! n := o in Ret (n + if b : bool then 1 else 0)%Z)%outcome)
        | (s, Exn e) => (s.(trade_cache_of), s.(the_group) :: rest, Exn e)
        | (s, OutOfFuel) => (s.(trade_cache_of), s.(the_group) :: rest, OutOfFuel)
        end
  end.

Definition schedule_remaining_closed_profit_sweeps (group_id_ : option string) (c : trade_cache) (groups : list TradeGroup) :=
  for_each schedule_group (for_group group_id_) c groups.
Definition reschedule_failed_profit_sweeps (c : trade_cache) (groups : list TradeGroup) := for_each reschedule_failed (fun _ => true) c groups.
Definition reschedule_ledger_only_profit_sweeps (c : trade_cache) (groups : list TradeGroup) := for_each reschedule_ledger_only (fun _ => true) c groups.
Definition _apply_exchange_guards (group_id_ : option string) (c : trade_cache) (groups : list TradeGroup) := for_each apply_guard (for_group group_id_) c groups.
End Fills.

(** ** Without the exchange *)

(** One group of [sync_filled_profit_sweep_amounts_to_premium]. *)
Definition sync_filled (target : string) (g : TradeGroup) : TradeGroup * bool :=
  if negb (closed_covered_call g) then (g, false)
  else if truthy target && negb (String.eqb (upper g.(currency)) target) then (g, false)
  else if negb (String.eqb (lower g.(profit_sweep_status)) "filled") then (g, false)
  else
    let '(g, native) := realized_spot_profit_native_for_group g in
    match positive native with
    | None => (g, false)
    | Some native =>
        let sold := g.(profit_sweep_exchange_native) in
        if g.(profit_sweep_amount) >=? native then (g, false)
        else if (sold >? 0) && (sold <? native) then (g, false)
        else (tag_reason "premium_amount_synced" (set_profit_sweep_amount native g), true)
    end.

Definition sync_filled_profit_sweep_amounts_to_premium (currency : option string) (groups : list TradeGroup) : list TradeGroup * Z :=
  let target := upper (match currency with Some t => t | None => "" end) in
  let synced := map (sync_filled target) groups in
  (map fst synced, Z.of_nat (List.length (filter snd synced))).

Record RemainingProfitSweepRow : Type := {
  row_group_id : string;
  row_currency : string;
  row_short : string;
  native_total : Q;
  remaining_native : Q;
  row_to_sweep : Q;
  row_status : string;
  row_amount : Q;
  row_quote_proceeds : Q;
  row_kind : string;
}.

Definition _row_kind (g : TradeGroup) : TradeGroup * string :=
  let status := lower g.(profit_sweep_status) in
  if mem_str status ["pending"; "submitted"] then (g, "queued")
  else if String.eqb status "filled" then let '(g, rem) := remaining_spot_profit_native g in (g, if rem >? 0 then "remainder" else "unswept")
  else (g, "unswept").

Definition remaining_row (min_to_sweep : Q) (g : TradeGroup) : TradeGroup * list RemainingProfitSweepRow :=
  let '(g, native) := native_profit_for_group g in
  match native with
  | None => (g, [])
  | Some native =>
      let '(g, sweep_amt) := to_sweep_native g in
      if sweep_amt <=? min_to_sweep then (g, [])
      else
        let '(g, rem) := remaining_spot_profit_native g in
        let '(g, kind) := _row_kind g in
        (g, [{| row_group_id := g.(group_id); row_currency := g.(currency); row_short := g.(short_instrument_name); native_total := native;
                remaining_native := rem; row_to_sweep := sweep_amt; row_status := g.(profit_sweep_status); row_amount := g.(profit_sweep_amount);
                row_quote_proceeds := g.(profit_sweep_quote_proceeds); row_kind := kind |}])
  end.

Definition list_remaining_profit_sweeps (group_id_ : option string) (min_to_sweep : Q) (groups : list TradeGroup) : list TradeGroup * list RemainingProfitSweepRow :=
  let rows := map (fun g => if for_group group_id_ g then remaining_row min_to_sweep g else (g, [])) groups in
  (map fst rows, flat_map snd rows).
