(* ===== verification/SweepFillsFacts.v ===== *)
(** Sweeps are not queued twice ([SweepFills]): what is queued again is known to be unsold,
    and fits in the profit with all that the exchange told of. *)

From S2P Require Import Prelude Sorting Dec PyStr Utils Group Ledger PyObj GroupJson StateJson Market ExitEval VolMetrics EntryGates Runtime HedgeOrders Close GroupClose GroupExit DayState Portfolio Manage EntryConfig Scan Settlement Positions Reconcile SpotTrade Wheel Sweep EntryFacts SweepFills.
Local Open Scope string_scope.
Local Open Scope Q_scope.
Local Open Scope dec_scope.
Local Open Scope bool_scope.
Local Open Scope list_scope.
Local Open Scope sweep_scope.

(** ** What a run on a group keeps *)

(** [R] holds of a group whatever of its sweep is noted in it, with a status of [V], and however often its profit is read. *)
Record sweep_stable (V : string -> Prop) (R : TradeGroup -> Prop) : Prop := {
  st_status : forall v g, V v -> R g -> R (set_profit_sweep_status v g);
  st_amount : forall v g, R g -> R (set_profit_sweep_amount v g);
  st_name : forall v g, R g -> R (set_profit_sweep_instrument_name v g);
  st_order : forall v g, R g -> R (set_profit_sweep_order_id v g);
  st_quote : forall v g, R g -> R (set_profit_sweep_quote_proceeds v g);
  st_lifetime : forall v g, R g -> R (set_profit_sweep_quote_proceeds_lifetime v g);
  st_native : forall v g, R g -> R (set_profit_sweep_exchange_native v g);
  st_exquote : forall v g, R g -> R (set_profit_sweep_exchange_quote_proceeds v g);
  st_reason : forall v g, R g -> R (set_profit_sweep_reason v g);
  st_read : forall g, R g -> R (fst (realized_spot_profit_native_for_group g));
  st_coin : forall g g' r, _coin_profit_native_for_sweep g = Ret (g', r) -> R g -> R g';
}.

(** What is known of the exchange stays known. *)
Definition known_grows (c c' : trade_cache) : Prop := forall k v, dict_get k c.(sells_of) = Some v -> dict_get k c'.(sells_of) = Some v.

Lemma known_grows_refl c : known_grows c c.
Proof. intros k v H. exact H. Qed.
Lemma known_grows_trans a b c : known_grows a b -> known_grows b c -> known_grows a c.
Proof. intros H1 H2 k v H. auto. Qed.

Section Stable.
Variables (V : string -> Prop) (R : TradeGroup -> Prop).
Hypothesis St : sweep_stable V R.

Definition sweep_keeps {A} (m : K A) : Prop := forall s s' o, m s = (s', o) -> known_grows s.(trade_cache_of) s'.(trade_cache_of) /\ (R s.(the_group) -> R s'.(the_group)).

Lemma sk_ret {A} (a : A) : sweep_keeps (kret a).
Proof. intros s s' o E. injection E as <- <-. split; [apply known_grows_refl | auto]. Qed.
Lemma sk_lift {A} (o : outcome A) : sweep_keeps (klift o).
Proof. intros s s' o' E. injection E as <- <-. split; [apply known_grows_refl | auto]. Qed.
Lemma sk_group : sweep_keeps kgroup.
Proof. intros s s' o E. injection E as <- <-. split; [apply known_grows_refl | auto]. Qed.
Lemma sk_edit f : (forall g, R g -> R (f g)) -> sweep_keeps (kedit f).
Proof. intros H s s' o E. injection E as <- <-. split; [apply known_grows_refl | apply H]. Qed.
Lemma sk_read {A} (f : TradeGroup -> TradeGroup * A) : (forall g, R g -> R (fst (f g))) -> sweep_keeps (kread f).
Proof. intros H s s' o E. unfold kread in E. specialize (H s.(the_group)). destruct (f _) as [g a]. injection E as <- <-. split; [apply known_grows_refl | exact H]. Qed.
Lemma sk_method {A} (f : TradeGroup -> outcome (TradeGroup * A)) : (forall g g' a, f g = Ret (g', a) -> R g -> R g') -> sweep_keeps (kmethod f).
Proof.
  intros H s s' o E. unfold kmethod in E. destruct (f _) as [[g a]|e|] eqn:Ef; injection E as <- <-; (split; [apply known_grows_refl|]); [eapply H; exact Ef | auto | auto].
Qed.
Lemma sk_bind {A B} (m : K A) (k : A -> K B) : sweep_keeps m -> (forall a, sweep_keeps (k a)) -> sweep_keeps (kbind m k).
Proof.
  intros M H s s' o E. unfold kbind in E. destruct (m s) as [s1 o1] eqn:E1. destruct (M _ _ _ E1) as [G1 R1].
  destruct o1 as [a|e|]; [destruct (H a _ _ _ E) as [G2 R2]; split; [eapply known_grows_trans; eassumption | auto] | injection E as <- <-; now split | injection E as <- <-; now split].
Qed.
Lemma sk_cache {A} (f : trade_cache -> trade_cache * outcome A) : (forall c, known_grows c (fst (f c))) -> sweep_keeps (kcache f).
Proof. intros H s s' o E. unfold kcache in E. specialize (H s.(trade_cache_of)). destruct (f _) as [c' o']. injection E as <- <-. now split. Qed.

Lemma ensure_grows fetch text currency c : known_grows c (fst (_ensure_currency fetch text currency c)).
Proof.
  unfold _ensure_currency. destruct (dict_get _ (sells_of c)) eqn:E1; [apply known_grows_refl|]. destruct (dict_get _ (_unavailable c)); [apply known_grows_refl|].
  destruct (fetch _) as [p|e|]; [|intros k v H; exact H|apply known_grows_refl]. destruct (obind _ _) as [sells|e|]; [|apply known_grows_refl|apply known_grows_refl].
  intros k v H. cbn. rewrite dict_get_set. destruct (String.eqb_spec k (upper currency)) as [->|_]; [congruence | exact H].
Qed.

Lemma sk_queue n x : V "pending" -> sweep_keeps (queue_sweep n x).
Proof.
  intros Vp. assert (P : forall g, R g -> R (set_profit_sweep_status "pending" g)) by (intros; now apply (st_status _ _ St)).
  apply sk_bind; [apply sk_group | intros g]. cbv zeta. destruct (String.eqb _ _); [|destruct (mem_str _ _); [|destruct (String.eqb _ _); [|apply sk_ret]]];
    (apply sk_bind; [|intros _; apply sk_ret]).
  - apply sk_edit. intros h H. apply P in H. set (h1 := if _ >? 0 then set_profit_sweep_amount _ _ else _).
    assert (H1 : R h1) by (unfold h1; destruct (_ >? 0); [now apply (st_amount _ _ St) | exact H]).
    destruct (negb _); [now apply (st_reason _ _ St)|]. destruct (contains _ _); [exact H1 | now apply (st_reason _ _ St)].
  - apply sk_edit. intros h H. unfold manual_reason. apply P in H. apply (st_amount _ _ St (if x >? 0 then x else n)) in H. destruct (truthy _); [exact H | now apply (st_reason _ _ St)].
  - destruct (_ && _); [|destruct (_ && _); [apply sk_ret|]]; apply sk_edit; intros h H; [destruct (_ =? x); [exact H|]|]; now apply (st_amount _ _ St).
Qed.

Section Programs.
Variables (fetch : string -> outcome pyobj) (text : exn -> string) (prefix : string).
Hypothesis filled : V "filled".

Lemma sk_strict : sweep_keeps (trades_for_group_strict fetch text prefix).
Proof.
  apply sk_bind; [apply sk_group | intros g]. apply sk_bind; [apply sk_cache; intros c; apply ensure_grows | intros known].
  intros s s' o E. injection E as <- <-. split; [apply known_grows_refl | auto].
Qed.

Create HintDb sweeps.
Hint Resolve sk_ret sk_lift sk_group sk_strict : sweeps.

Ltac split_program :=
  repeat first
  [ solve [auto with sweeps]
  | apply sk_bind; [|intros ?]
  | match goal with
    | |- sweep_keeps (if ?b then _ else _) => destruct b
    | |- sweep_keeps (match ?x with _ => _ end) => destruct x
    | |- sweep_keeps (let '(_, _) := ?x in _) => destruct x
    end ].

Lemma remaining_stable g : R g -> R (fst (remaining_spot_profit_native g)).
Proof. intros H. unfold remaining_spot_profit_native. pose proof (st_read _ _ St g H) as P. destruct (realized_spot_profit_native_for_group g). exact P. Qed.

Lemma to_sweep_stable g : R g -> R (fst (to_sweep_native g)).
Proof.
  intros H. unfold to_sweep_native. pose proof (st_read _ _ St g H) as P. destruct (realized_spot_profit_native_for_group g) as [g1 [n|]]; [|exact P]. cbn [fst] in P.
  cbv zeta. destruct (n <=? 0); [exact P|]. destruct (retained_for_cover g1); [exact P|]. destruct (mem_str _ _); [exact P|].
  destruct (String.eqb _ _); [now apply remaining_stable | exact P].
Qed.

Lemma sk_remaining : sweep_keeps (kread remaining_spot_profit_native).
Proof. apply sk_read, remaining_stable. Qed.
Lemma sk_to_sweep : sweep_keeps (kread to_sweep_native).
Proof. apply sk_read, to_sweep_stable. Qed.
Lemma sk_profit : sweep_keeps (kread native_profit_for_group).
Proof. apply sk_read, (st_read _ _ St). Qed.
Lemma sk_coin : sweep_keeps (kmethod _coin_profit_native_for_sweep).
Proof. apply sk_method. intros g g' a E. exact (st_coin _ _ St g g' a E). Qed.
Hint Resolve sk_remaining sk_to_sweep sk_profit sk_coin : sweeps.

Lemma proceeds_stable q g : R g -> R (note_proceeds q g).
Proof.
  intros H. unfold note_proceeds, record_profit_sweep_lifetime_proceeds. destruct (_ >? _); [|exact H]. destruct (_ <=? 0); [|destruct (_ >? _)];
    repeat first [exact H | apply (st_lifetime _ _ St) | apply (st_quote _ _ St)].
Qed.

Lemma sold_stable amount name order g : R g -> R (note_sold amount name order g).
Proof. intros H. unfold note_sold. destruct (truthy order); repeat first [exact H | apply (st_order _ _ St) | apply (st_name _ _ St) | apply (st_amount _ _ St)]. Qed.

Lemma sk_swept : sweep_keeps (exchange_swept_native_for_group fetch text prefix).
Proof. unfold exchange_swept_native_for_group. split_program. Qed.

Lemma sk_fill : sweep_keeps (attributed_profit_sweep_fill_for_group fetch text prefix).
Proof. unfold attributed_profit_sweep_fill_for_group, attributed_profit_sweep_trades_for_group. split_program. Qed.
Hint Resolve sk_swept sk_fill : sweeps.

Lemma sk_refresh : sweep_keeps (refresh_profit_sweep_exchange_native fetch text prefix).
Proof.
  unfold refresh_profit_sweep_exchange_native. cbv zeta. split_program; apply sk_edit; intros h H;
    match goal with |- R (if ?b then _ else _) => destruct b end;
    first [exact H | apply (st_native _ _ St); exact H | apply (st_exquote _ _ St); exact H].
Qed.
Hint Resolve sk_refresh : sweeps.

Lemma sk_noted native attributed : sweep_keeps (fills_noted native attributed).
Proof.
  unfold fills_noted. cbv zeta. split_program; apply sk_edit; intros h H.
  - now apply sold_stable, (st_status _ _ St).
  - now apply (st_reason _ _ St), proceeds_stable.
  - match goal with |- R (if ?b then _ else _) => destruct b end; [apply (st_status _ _ St); [exact filled|]|]; now apply sold_stable.
  - now apply proceeds_stable.
  - now apply (st_status _ _ St).
Qed.
Hint Resolve sk_noted : sweeps.

Lemma sk_guard : sweep_keeps (guard_profit_sweep_against_oversell fetch text prefix).
Proof. unfold guard_profit_sweep_against_oversell. split_program. Qed.
Hint Resolve sk_guard : sweeps.

Lemma sk_exchange_remaining : sweep_keeps (_exchange_remaining_native fetch text prefix).
Proof. unfold _exchange_remaining_native. split_program. Qed.
Hint Resolve sk_exchange_remaining : sweeps.

Lemma sk_would : sweep_keeps (_would_schedule_for_manual_sweep fetch text prefix).
Proof. unfold _would_schedule_for_manual_sweep. cbv zeta. split_program. Qed.
End Programs.
End Stable.

(** ** What reading the profit leaves *)

Section Reads.
Context {T : Type} (h : TradeGroup -> T) (B : blind h).
Hypothesis pnl : forall v g, h (set_realized_pnl v g) = h g.
Hypothesis native_pnl : forall v g, h (set_realized_pnl_collateral_native v g) = h g.

Lemma profit_read_kept g : h (fst (realized_spot_profit_native_for_group g)) = h g.
Proof.
  unfold realized_spot_profit_native_for_group. destruct (_ || _ || _); [reflexivity|].
  pose proof (coin_profit_blind h B g false) as P. destruct (compute_coin_profit_native g false) as [g1 [n|]]; cbn [fst] in *; [exact P|].
  destruct (opt_pos g1.(close_index_usd)); [|exact P].
  pose proof (coin_profit_blind h B g1 true) as P1. destruct (compute_coin_profit_native g1 true). cbn [fst] in *. congruence.
Qed.

Lemma coin_read_kept g g' r : _coin_profit_native_for_sweep g = Ret (g', r) -> h g' = h g.
Proof.
  unfold _coin_profit_native_for_sweep. pose proof (profit_read_kept g) as P. destruct (realized_spot_profit_native_for_group g) as [g1 [n|]]; cbn [fst] in P;
    [|intros E; apply Ret_inj in E; apply pair_equal_spec in E; now destruct E as [<- _]].
  intros E. apply obind_inv in E. destruct E as (g2 & E2 & E). apply Ret_inj in E. apply pair_equal_spec in E. destruct E as [<- _]. rewrite <- P, <- (native_pnl (Some n) g1).
  destruct (opt_pos _); [|apply Ret_inj in E2; now subst]. revert E2. generalize (close_index_usd (set_realized_pnl_collateral_native (Some n) g1)). intros spot.
  unfold backfill_realized_pnl_usdc, backfill_fuel. cbn [backfill_realized_pnl_usdc_fuel].
  destruct (negb _); [intros E; apply Ret_inj in E; now subst|]. destruct (is_coin_collateral _).
  - cbn [realized_pnl_collateral_native set_realized_pnl_collateral_native]. destruct (usable_spot spot); intros E; apply Ret_inj in E; subst g2; now rewrite ?pnl.
  - destruct (economic_close_debit_usdc _); intros E; apply Ret_inj in E; subst g2; now rewrite ?pnl.
Qed.

Lemma reads_stable V v0 :
  (forall v g, V v -> h (set_profit_sweep_status v g) = h g) -> (forall v g, h (set_profit_sweep_amount v g) = h g) ->
  (forall v g, h (set_profit_sweep_instrument_name v g) = h g) -> (forall v g, h (set_profit_sweep_order_id v g) = h g) ->
  (forall v g, h (set_profit_sweep_quote_proceeds v g) = h g) -> (forall v g, h (set_profit_sweep_quote_proceeds_lifetime v g) = h g) ->
  (forall v g, h (set_profit_sweep_exchange_native v g) = h g) -> (forall v g, h (set_profit_sweep_exchange_quote_proceeds v g) = h g) ->
  (forall v g, h (set_profit_sweep_reason v g) = h g) -> sweep_stable V (fun g => h g = v0).
Proof.
  intros. split; intros; try (match goal with H : forall v g, h _ = h g |- _ => rewrite H end; assumption); try congruence.
  - rewrite H; assumption.
  - rewrite profit_read_kept; assumption.
  - rewrite (coin_read_kept _ _ _ H8). assumption.
Qed.
End Reads.

(** The coin and the name of the group. *)
Definition name_of (g : TradeGroup) : string * string := (g.(currency), g.(group_id)).

Lemma name_stable V v0 : sweep_stable V (fun g => name_of g = v0).
Proof. apply reads_stable; try reflexivity. repeat split. Qed.

Lemma status_stable st : sweep_stable (fun v => v = "filled") (fun g => g.(profit_sweep_status) = st \/ g.(profit_sweep_status) = "filled").
Proof.
  assert (B : blind profit_sweep_status) by (repeat split).
  split; try (intros; assumption); [intros v g -> _; now right | | ].
  - intros g H. now rewrite (profit_read_kept profit_sweep_status B).
  - intros g g' r E H. now rewrite (coin_read_kept profit_sweep_status B ltac:(reflexivity) ltac:(reflexivity) _ _ _ E).
Qed.

Lemma any_stable V : sweep_stable V (fun _ => True).
Proof. now split. Qed.

(** The profit of the group reads [n], whatever is noted of its sweep and however often it is read. *)
Definition profit_reads (n : Q) (g : TradeGroup) : Prop :=
  exists R, sweep_stable (fun _ => True) R /\ R g /\ forall g', R g' -> snd (realized_spot_profit_native_for_group g') = Some n.

Lemma coin_is_profit g g' r : _coin_profit_native_for_sweep g = Ret (g', r) -> r = snd (realized_spot_profit_native_for_group g).
Proof.
  unfold _coin_profit_native_for_sweep. destruct (realized_spot_profit_native_for_group g) as [g1 [n|]]; intros E.
  - apply obind_inv in E. destruct E as (g2 & _ & E). apply Ret_inj in E. apply pair_equal_spec in E. now destruct E as [_ <-].
  - apply Ret_inj in E. apply pair_equal_spec in E. now destruct E as [_ <-].
Qed.

Lemma stable_weaken (V W : string -> Prop) R : sweep_stable V R -> (forall v, W v -> V v) -> sweep_stable W R.
Proof. intros S H. destruct S. split; auto. Qed.

(** ** Queueing *)

Lemma kbind_inv {A B} (m : K A) (k : A -> K B) s s' o : kbind m k s = (s', o) ->
  (exists a s1, m s = (s1, Ret a) /\ k a s1 = (s', o)) \/ ((forall b, o <> Ret b) /\ exists o1, m s = (s', o1)).
Proof.
  unfold kbind. destruct (m s) as [s1 [a|e|]]; intros E; [left; eauto | right | right]; injection E as <- <-; (split; [discriminate | eauto]).
Qed.

Lemma queue_spec n x s s' o : queue_sweep n x s = (s', o) ->
  o <> Ret true /\ s'.(the_group).(profit_sweep_status) = s.(the_group).(profit_sweep_status) \/
  o = Ret true /\ s'.(trade_cache_of) = s.(trade_cache_of) /\ s'.(the_group).(profit_sweep_status) = "pending" /\ (0 < x -> s'.(the_group).(profit_sweep_amount) = x).
Proof.
  unfold queue_sweep, kbind, kgroup, kedit, kret. cbv zeta. destruct (String.eqb (lower _) "filled").
  - intros E. injection E as <- <-. right. cbn [the_group put_trade_group trade_cache_of]. split; [reflexivity|]. split; [reflexivity|].
    set (sold := if x >? 0 then x else _).
    assert (A : forall g, (0 < x -> profit_sweep_amount g = x) -> profit_sweep_status g = "pending" ->
      profit_sweep_status (if negb (truthy (profit_sweep_reason g)) then set_profit_sweep_reason "manual_sweep" g
         else if contains "resweep_remainder" (profit_sweep_reason g) then g else set_profit_sweep_reason (profit_sweep_reason g ++ "; resweep_remainder")%string g) = "pending" /\
      (0 < x -> profit_sweep_amount (if negb (truthy (profit_sweep_reason g)) then set_profit_sweep_reason "manual_sweep" g
         else if contains "resweep_remainder" (profit_sweep_reason g) then g else set_profit_sweep_reason (profit_sweep_reason g ++ "; resweep_remainder")%string g) = x)).
    { intros g Ha Hs. destruct (negb _); [now split|]. destruct (contains _ _); now split. }
    apply A.
    + intros P. unfold sold. destruct (dltb_spec 0 x); [|contradiction]. destruct (dltb_spec 0 x); [reflexivity | contradiction].
    + destruct (sold >? 0); reflexivity.
  - destruct (mem_str _ _).
    + intros E. injection E as <- <-. right. cbn [the_group put_trade_group trade_cache_of]. split; [reflexivity|]. split; [reflexivity|].
      unfold manual_reason. destruct (truthy _); (split; [reflexivity|]); intros P; cbn [profit_sweep_amount set_profit_sweep_amount set_profit_sweep_reason];
        (destruct (dltb_spec 0 x); [reflexivity | contradiction]).
    + destruct (String.eqb _ "pending"); [|intros E; injection E as <- <-; left; split; [discriminate | reflexivity]].
      destruct (_ && _); [|destruct (_ && _)]; intros E; injection E as <- <-; left; (split; [discriminate|]); cbn [the_group put_trade_group];
        [destruct (_ =? _) | |]; reflexivity.
Qed.

Section Queueing.
Variables (fetch : string -> outcome pyobj) (text : exn -> string) (prefix : string).

Abbreviation sweep_label_of := (profit_sweep_order_label prefix).

(** What the exchange told of the group's sells, by coin and name. *)
Definition told_of (c : trade_cache) (g : TradeGroup) : option (list fill_row) := known_fills c g.(currency) (sweep_label_of g).

Lemma told_name c g g' : name_of g' = name_of g -> told_of c g' = told_of c g.
Proof. unfold name_of, told_of, profit_sweep_order_label. intros E. apply pair_equal_spec in E. destruct E as [-> ->]. reflexivity. Qed.

Lemma told_grows c c' g ts : known_grows c c' -> told_of c g = Some ts -> told_of c' g = Some ts.
Proof.
  unfold told_of, known_fills. intros G E. destruct (dict_get _ (sells_of c)) as [sells|] eqn:D; [|discriminate]. now rewrite (G _ _ D).
Qed.

Lemma strict_spec s s' ts : trades_for_group_strict fetch text prefix s = (s', Ret (Some ts)) -> told_of s'.(trade_cache_of) s'.(the_group) = Some ts.
Proof.
  unfold trades_for_group_strict, kbind, kgroup, kcache. destruct (_ensure_currency _ _ _ _) as [c' [known|e|]]; try discriminate.
  destruct known; intros E; [injection E as <- E; exact E | discriminate].
Qed.

Lemma swept_spec s s' x : exchange_swept_native_for_group fetch text prefix s = (s', Ret (Some x)) ->
  exists ts, told_of s'.(trade_cache_of) s'.(the_group) = Some ts /\ x = swept_total ts.
Proof.
  unfold exchange_swept_native_for_group. intros E. apply kbind_inv in E. destruct E as [(a & s1 & E1 & E)|[N _]]; [|now destruct (N (Some x))].
  injection E as <- Ea. destruct a as [ts|]; [|discriminate]. injection Ea as <-. exists ts. split; [exact (strict_spec _ _ _ E1) | reflexivity].
Qed.

(** A queued sweep: the exchange told all it sold of it, and what it sold is noted and below the profit. *)
Definition queued_soundly (n : Q) (s : sweep_run) : Prop :=
  s.(the_group).(profit_sweep_status) = "pending" /\
  exists ts, told_of s.(trade_cache_of) s.(the_group) = Some ts /\ (0 < swept_total ts -> swept_total ts < n /\ s.(the_group).(profit_sweep_amount) = swept_total ts).

(** Either nothing is queued, or what is is queued soundly. *)
Definition queues (R1 R2 : TradeGroup -> Prop) (n : Q) (m : K bool) : Prop := forall s s' o, m s = (s', o) -> R1 s.(the_group) -> R2 s.(the_group) ->
  R1 s'.(the_group) /\ (o <> Ret true /\ R2 s'.(the_group) \/ o = Ret true /\ queued_soundly n s').

Section Programs.
Variables (R1 R2 : TradeGroup -> Prop) (n : Q).
Hypothesis S1 : sweep_stable (fun _ => True) R1.
Hypothesis S2 : sweep_stable (fun v => v = "filled") R2.
Hypothesis status_only : forall g g', g'.(profit_sweep_status) = g.(profit_sweep_status) -> R2 g -> R2 g'.
Hypothesis reads_n : forall g, R1 g -> snd (realized_spot_profit_native_for_group g) = Some n.

Lemma queues_false : queues R1 R2 n (kret false).
Proof. intros s s' o E H1 H2. injection E as <- <-. split; [exact H1|]. left. now split. Qed.

Lemma queues_bind {A} (m : K A) k : sweep_keeps R1 m -> sweep_keeps R2 m -> (forall a, queues R1 R2 n (k a)) -> queues R1 R2 n (kbind m k).
Proof.
  intros M1 M2 H s s' o E H1 H2. apply kbind_inv in E. destruct E as [(a & s1 & E1 & E)|[N (o1 & E1)]].
  - exact (H a _ _ _ E (proj2 (M1 _ _ _ E1) H1) (proj2 (M2 _ _ _ E1) H2)).
  - split; [exact (proj2 (M1 _ _ _ E1) H1)|]. left. split; [apply N | exact (proj2 (M2 _ _ _ E1) H2)].
Qed.

(** A group queued with what is known of it. *)
Lemma queues_sound x s1 s2 s' o ts : queue_sweep n x s2 = (s', o) -> R1 s2.(the_group) -> R2 s2.(the_group) ->
  told_of s1.(trade_cache_of) s1.(the_group) = Some ts -> x = swept_total ts -> known_grows s1.(trade_cache_of) s2.(trade_cache_of) ->
  name_of s2.(the_group) = name_of s1.(the_group) -> (0 < x -> x < n) ->
  R1 s'.(the_group) /\ (o <> Ret true /\ R2 s'.(the_group) \/ o = Ret true /\ queued_soundly n s').
Proof.
  intros E H1 H2 T X G N L. destruct (sk_queue _ _ S1 n x I _ _ _ E) as [G1 K1].
  destruct (sk_queue _ _ (name_stable (fun _ => True) (name_of (the_group s1))) n x I _ _ _ E) as [_ Kn].
  split; [exact (K1 H1)|]. destruct (queue_spec _ _ _ _ _ E) as [[No St]|(Yes & Ec & St & A)]; [left | right]; (split; [assumption|]).
  - exact (status_only _ _ St H2).
  - split; [exact St|]. exists ts. split; [|rewrite <- X; auto]. rewrite (told_name _ _ _ (Kn N)). exact (told_grows _ _ _ _ G1 (told_grows _ _ _ _ G T)).
Qed.

Lemma queues_unsold : queues R1 R2 n (queue_unsold fetch text prefix n).
Proof.
  intros s s' o E H1 H2. unfold queue_unsold in E. apply kbind_inv in E.
  pose proof (sk_swept R1 fetch text prefix) as C1. pose proof (sk_swept R2 fetch text prefix) as C2.
  destruct E as [(swept & s1 & E1 & E)|[N (o1 & E1)]];
    [|split; [exact (proj2 (C1 _ _ _ E1) H1) | left; split; [apply N | exact (proj2 (C2 _ _ _ E1) H2)]]].
  apply (proj2 (C1 _ _ _ E1)) in H1. apply (proj2 (C2 _ _ _ E1)) in H2. destruct swept as [x|]; [|exact (queues_false _ _ _ E H1 H2)].
  destruct (swept_spec _ _ _ E1) as (ts & T & X). clear E1 C1 C2 s. apply kbind_inv in E.
  set (rest := if x >? 0 then _ else _) in E.
  assert (K : forall V R, sweep_stable V R -> sweep_keeps R rest) by (intros V R St; unfold rest; destruct (x >? 0); [apply sk_ret | exact (sk_remaining _ _ St)]).
  pose proof (K _ _ S1) as C1. pose proof (K _ _ S2) as C2. pose proof (K _ _ (name_stable (fun _ => True) (name_of (the_group s1)))) as Cn.
  destruct E as [(rem & s2 & E2 & E)|[N (o1 & E2)]];
    [|split; [exact (proj2 (C1 _ _ _ E2) H1) | left; split; [apply N | exact (proj2 (C2 _ _ _ E2) H2)]]].
  destruct (C1 _ _ _ E2) as [G R1']. apply R1' in H1. apply (proj2 (C2 _ _ _ E2)) in H2. destruct (Cn _ _ _ E2) as [_ N]. specialize (N eq_refl).
  destruct (dleb_spec rem 0) as [|Pr]; [exact (queues_false _ _ _ E H1 H2)|].
  apply (queues_sound x s1 s2 s' o ts E H1 H2 T X G N). intros P. apply Qnot_le_lt. intros Le. apply Pr.
  unfold rest in E2. destruct (dltb_spec 0 x); [|contradiction]. injection E2 as _ <-. apply dmax_lub; [apply Qle_refl | now apply dsub_nonpos].
Qed.

Lemma queues_pending : queues R1 R2 n (_ensure_pending_for_manual_sweep fetch text prefix).
Proof.
  apply queues_bind; [apply sk_group | apply sk_group | intros g].
  assert (Kd : forall V R, sweep_stable V R -> sweep_keeps R (if _profit_sweep_state_locked g then (let^ rem := kread remaining_spot_profit_native in kret (rem <=? 0)) else kret false)).
  { intros V R St. destruct (_profit_sweep_state_locked g); [apply sk_bind; [exact (sk_remaining _ _ St) | intros; apply sk_ret] | apply sk_ret]. }
  apply queues_bind; [exact (Kd _ _ S1) | exact (Kd _ _ S2) | intros done].
  destruct done; [apply queues_false|].
  apply queues_bind; [exact (sk_guard _ _ S1 fetch text prefix I) | exact (sk_guard _ _ S2 fetch text prefix eq_refl) | intros blocked].
  destruct blocked; [apply queues_false|].
  apply queues_bind; [exact (sk_would _ _ S1 fetch text prefix I) | exact (sk_would _ _ S2 fetch text prefix eq_refl) | intros would].
  destruct would; [|apply queues_false]. cbn [negb].
  intros s s' o E H1 H2. pose proof (sk_coin _ _ S1) as C1. pose proof (sk_coin _ _ S2) as C2.
  apply kbind_inv in E. destruct E as [(native & s1 & E1 & E)|[N (o1 & E1)]];
    [|split; [exact (proj2 (C1 _ _ _ E1) H1) | left; split; [apply N | exact (proj2 (C2 _ _ _ E1) H2)]]].
  assert (En : native = Some n).
  { unfold kmethod in E1. destruct (_coin_profit_native_for_sweep (the_group s)) as [[g1 r]|e|] eqn:Ec; try discriminate. injection E1 as _ <-.
    rewrite (coin_is_profit _ _ _ Ec). now apply reads_n. }
  apply (proj2 (C1 _ _ _ E1)) in H1. apply (proj2 (C2 _ _ _ E1)) in H2. subst native. unfold positive in E.
  destruct (n <=? 0); [exact (queues_false _ _ _ E H1 H2) | exact (queues_unsold _ _ _ E H1 H2)].
Qed.

Lemma queues_scheduled : queues R1 R2 n (schedule_group fetch text prefix).
Proof.
  apply queues_bind; [exact (sk_guard _ _ S1 fetch text prefix I) | exact (sk_guard _ _ S2 fetch text prefix eq_refl) | intros blocked].
  destruct blocked; [apply queues_false|].
  apply queues_bind; [exact (sk_exchange_remaining _ _ S1 fetch text prefix) | exact (sk_exchange_remaining _ _ S2 fetch text prefix) | intros rem].
  destruct (negb _); [apply queues_false | apply queues_pending].
Qed.
End Programs.

(** ** All groups *)

Lemma for_each_spec step wanted : (forall R, sweep_stable (fun _ => True) R -> sweep_keeps R step) -> forall groups c c' groups' o,
  for_each step wanted c groups = (c', groups', o) ->
  known_grows c c' /\ Forall2 (fun g g' => g' = g \/ exists c1 s' o1, step {| trade_cache_of := c1; the_group := g |} = (s', o1) /\ s'.(the_group) = g' /\ known_grows s'.(trade_cache_of) c') groups groups'.
Proof.
  intros K. assert (Same : forall l c', Forall2 (fun g g' => g' = g \/ exists c1 s' o1, step {| trade_cache_of := c1; the_group := g |} = (s', o1) /\ s'.(the_group) = g' /\ known_grows s'.(trade_cache_of) c') l l)
    by (intros l c'; induction l; constructor; [now left | assumption]).
  assert (G : forall s s' o, step s = (s', o) -> known_grows s.(trade_cache_of) s'.(trade_cache_of)) by (intros s s' o E; exact (proj1 (K _ (any_stable _) _ _ _ E))).
  induction groups as [|g rest IH]; intros c c' groups' o E; cbn [for_each] in E; [injection E as <- <- <-; split; [apply known_grows_refl | constructor]|].
  destruct (wanted g); cbn [negb] in E.
  - destruct (step _) as [s1 o1] eqn:E1. pose proof (G _ _ _ E1) as G1. cbn [trade_cache_of] in G1. destruct o1 as [b|e|].
    + destruct (for_each step wanted s1.(trade_cache_of) rest) as [[c2 rest2] o2] eqn:E2. injection E as <- <- <-. destruct (IH _ _ _ _ E2) as [G2 F].
      split; [eapply known_grows_trans; eassumption|]. constructor; [right; exists c, s1, (Ret b); repeat split; assumption | exact F].
    + injection E as <- <- <-. split; [exact G1|]. constructor; [right; exists c, s1, (Exn e); repeat split; [exact E1 | apply known_grows_refl] | apply Same].
    + injection E as <- <- <-. split; [exact G1|]. constructor; [right; exists c, s1, OutOfFuel; repeat split; [exact E1 | apply known_grows_refl] | apply Same].
  - destruct (for_each step wanted c rest) as [[c2 rest2] o2] eqn:E2. injection E as <- <- <-. destruct (IH _ _ _ _ E2) as [G2 F]. split; [exact G2|]. constructor; [now left | exact F].
Qed.

Lemma sk_pending V R : sweep_stable V R -> V "filled" -> V "pending" -> sweep_keeps R (schedule_group fetch text prefix).
Proof.
  intros St Vf Vp. apply sk_bind; [exact (sk_guard _ _ St fetch text prefix Vf) | intros blocked]. destruct blocked; [apply sk_ret|].
  apply sk_bind; [exact (sk_exchange_remaining _ _ St fetch text prefix) | intros rem]. destruct (negb _); [apply sk_ret|].
  apply sk_bind; [apply sk_group | intros g]. apply sk_bind.
  { destruct (_profit_sweep_state_locked g); [apply sk_bind; [exact (sk_remaining _ _ St) | intros; apply sk_ret] | apply sk_ret]. }
  intros done. destruct done; [apply sk_ret|]. apply sk_bind; [exact (sk_guard _ _ St fetch text prefix Vf) | intros blocked]. destruct blocked; [apply sk_ret|].
  apply sk_bind; [exact (sk_would _ _ St fetch text prefix Vf) | intros would]. destruct (negb would); [apply sk_ret|].
  apply sk_bind; [exact (sk_coin _ _ St) | intros native]. destruct (positive native) as [q|]; [|apply sk_ret].
  apply sk_bind; [exact (sk_swept R fetch text prefix) | intros [x|]]; [|apply sk_ret].
  apply sk_bind; [destruct (x >? 0); [apply sk_ret | exact (sk_remaining _ _ St)] | intros rem']. destruct (rem' <=? 0); [apply sk_ret | now apply (sk_queue _ _ St)].
Qed.
End Queueing.

Lemma both_stable V R R' : sweep_stable V R -> sweep_stable V R' -> sweep_stable V (fun g => R g /\ R' g).
Proof. intros S S'. destruct S, S'. split; intros; match goal with H : _ /\ _ |- _ => destruct H end; split; eauto. Qed.

(** What a pending sweep sells at most, once its profit is read. *)
Lemma pending_unswept g n g'' u : g.(profit_sweep_status) = "pending" -> snd (realized_spot_profit_native_for_group g) = Some n ->
  _unswept_profit_native_for_sweep g = Ret (g'', Some u) ->
  u = n /\ ~ (0 < swept_amount g /\ swept_amount g < n) \/ u = dmax (n ⊖ swept_amount g) 0 /\ 0 < swept_amount g /\ swept_amount g < n.
Proof.
  intros St P E. unfold _unswept_profit_native_for_sweep in E. apply obind_inv in E. destruct E as ([g1 native] & E1 & E). apply Ret_inj in E.
  rewrite (coin_is_profit _ _ _ E1), P in E. set (h := fun g => (g.(profit_sweep_status), g.(profit_sweep_amount))).
  assert (B : blind h) by (repeat split). pose proof (coin_read_kept h B ltac:(reflexivity) ltac:(reflexivity) _ _ _ E1) as K.
  unfold h in K. apply pair_equal_spec in K. destruct K as [Ks Ka]. unfold positive in E. destruct (n <=? 0); [discriminate|].
  assert (A : swept_amount g1 = swept_amount g) by (unfold swept_amount; now rewrite Ka). rewrite Ks, St, A in E. cbn [lower smap lower_char String.eqb] in E.
  change (String.eqb (lower "pending") "filled") with false in E. change (mem_str (lower "pending") ["pending"; "submitted"]) with true in E. cbv zeta iota in E. rewrite andb_true_l in E.
  destruct (dltb_spec 0 (swept_amount g)) as [P0|]; [destruct (dltb_spec (swept_amount g) n) as [Pn|]|]; cbn [andb] in E; injection E as _ <-; tauto.
Qed.

Lemma lots_sub n x : on_units n -> on_units x -> n ⊖ x == n - x.
Proof.
  intros (a & Ba & Ea) (b & Bb & Eb). rewrite (dsub_gval units a b n x Ea Eb); [now rewrite Ea, Eb, gval_sub|].
  assert (M : (grid_max <= 10 ^ prec)%Z) by (vm_compute; discriminate). lia.
Qed.

Lemma units_representable n : on_units n -> representable n.
Proof.
  intros (a & Ba & Ea). rewrite Ea. apply gval_representable. assert (M : (grid_max <= 10 ^ prec)%Z) by (vm_compute; discriminate). lia.
Qed.

Lemma sub_below n x : on_units n -> 0 <= n -> 0 < x -> dmax (n ⊖ x) 0 <= n.
Proof. intros U N P. apply dmax_lub; [|exact N]. apply rnd_le_bound; [now apply units_representable | lra]. Qed.

Lemma profit_positive g n : snd (realized_spot_profit_native_for_group g) = Some n -> 0 < n.
Proof.
  unfold realized_spot_profit_native_for_group. destruct (_ || _ || _); [discriminate|]. destruct (compute_coin_profit_native g false) as [g1 native].
  match goal with |- context [let '(_, _) := ?x in _] => destruct x as [g2 native2] end. cbn [snd].
  match goal with |- context [match ?x with Some n => if n <=? 0 then None else Some n | None => None end] => destruct x as [m|] end; [|discriminate].
  destruct (dleb_spec m 0); [discriminate|]. intros E. injection E as <-. lra.
Qed.

(** C26. What is queued to be swept again fits in the profit with what is sold. However the
    queueing of leftover sweeps goes over the groups of the state, exceptions included: a
    sweep that it queues, of a group whose profit reads the same throughout, is one whose
    fills the exchange told of, so that nothing is queued while they are unknown; and on one
    decimal grid the next sale, read off the group, makes exactly the profit together with all
    these fills, of whatever day and order, or is at most the profit where there are none. *)
Theorem resweeps_fit_profit fetch text prefix gid c groups c' groups' o :
  schedule_remaining_closed_profit_sweeps fetch text prefix gid c groups = (c', groups', o) ->
  Forall2 (fun g g' => forall n, profit_reads n g -> g'.(profit_sweep_status) = "pending" ->
    g.(profit_sweep_status) = "pending" \/
    exists fills, known_fills c' g.(currency) (profit_sweep_order_label prefix g) = Some fills /\
      forall g'' u, _unswept_profit_native_for_sweep g' = Ret (g'', Some u) -> on_units n ->
        (0 < swept_total fills -> on_units (swept_total fills) -> swept_total fills + u == n) /\ u <= n) groups groups'.
Proof.
  intros E. destruct (for_each_spec _ _ (fun R St => sk_pending fetch text prefix _ R St I I) _ _ _ _ _ E) as [_ F]. revert F.
  apply Forall2_impl. intros g g' H n (R & St & Rg & Rn) Pending. destruct H as [->|(c1 & s' & o1 & Es & <- & G)]; [now left|].
  set (R1 := fun h => R h /\ name_of h = name_of g).
  assert (S1 : sweep_stable (fun _ => True) R1) by exact (both_stable _ _ _ St (name_stable _ _)).
  set (R2 := fun h => h.(profit_sweep_status) = g.(profit_sweep_status) \/ h.(profit_sweep_status) = "filled").
  assert (Only : forall h h', h'.(profit_sweep_status) = h.(profit_sweep_status) -> R2 h -> R2 h') by (intros h h' Eh; unfold R2; now rewrite Eh).
  destruct (queues_scheduled fetch text prefix R1 R2 n S1 (status_stable _) Only (fun h Rh => Rn h (proj1 Rh))
              _ _ _ Es (conj Rg eq_refl) (or_introl eq_refl)) as [[Rg' Ng] [[_ [Q|Q]]|[_ (_ & fills & Tf & A)]]];
    [left; congruence | congruence | right].
  exists fills. split; [rewrite (told_name prefix _ _ _ Ng) in Tf; exact (told_grows prefix _ _ _ _ G Tf)|].
  intros g'' u U On. pose proof (profit_positive _ _ (Rn _ Rg')) as Pn. destruct (pending_unswept _ _ _ _ Pending (Rn _ Rg') U) as [(-> & No)|(-> & P & L)].
  - split; [|apply Qle_refl]. intros Px _. destruct No. destruct (A Px) as [Lx Ea].
    unfold swept_amount. rewrite Ea. destruct (dltb_spec 0 (swept_total fills)); [now split | contradiction].
  - split; [|apply sub_below; [exact On | lra | exact P]]. intros Px Ox. destruct (A Px) as [Lx Ea].
    assert (Es' : swept_amount (the_group s') = swept_total fills).
    { unfold swept_amount. rewrite Ea. destruct (dltb_spec 0 (swept_total fills)); [reflexivity | contradiction]. }
    rewrite Es'. destruct (dmax_cases (n ⊖ swept_total fills) 0) as [[-> _]|[_ C]]; rewrite (lots_sub _ _ On Ox) in *; [ring | lra].
Qed.
