(* ===== verification/SweepFillsSamples.v ===== *)
(** A sweep queued again on concrete fills, and one queued although it is sold. *)

From S2P Require Import Prelude Sorting Dec PyStr Utils Group Ledger PyObj GroupJson StateJson Market ExitEval VolMetrics EntryGates Runtime HedgeOrders Close GroupClose GroupExit DayState Portfolio Manage EntryConfig Scan Settlement Positions Reconcile SpotTrade Wheel Sweep EntryFacts SweepFills SweepFillsFacts SpotSamples.
Local Open Scope string_scope.
Local Open Scope Q_scope.
Local Open Scope dec_scope.
Local Open Scope bool_scope.
Local Open Scope list_scope.

(** A call sold at 0.011 coins and bought back at 0.001: 0.009575 are earned. *)
Definition earning_call : TradeGroup := Eval vm_compute in fst (realized_spot_profit_native_for_group
  (set_short_close_average_price (Some 0.001) (set_short_entry_average_price 0.011 (set_entry_index_usd 100000 exercised_call)))).

(** The call with what is noted of its sweep, and the profits written when they are read. *)
Definition dressed (status : string) (amount : Q) (name order_id : string) (quote lifetime native exquote : Q) (reason : string) (pnl pnl_native : option Q) : TradeGroup :=
  set_profit_sweep_status status (set_profit_sweep_amount amount (set_profit_sweep_instrument_name name (set_profit_sweep_order_id order_id
    (set_profit_sweep_quote_proceeds quote (set_profit_sweep_quote_proceeds_lifetime lifetime (set_profit_sweep_exchange_native native
      (set_profit_sweep_exchange_quote_proceeds exquote (set_profit_sweep_reason reason (set_realized_pnl pnl (set_realized_pnl_collateral_native pnl_native earning_call)))))))))).

Definition is_dressed (g : TradeGroup) : Prop := exists s a n o q l x e r p pn, g = dressed s a n o q l x e r p pn.

Lemma dressed_profit s a n o q l x e r p pn :
  realized_spot_profit_native_for_group (dressed s a n o q l x e r p pn) = (dressed s a n o q l x e r p pn, Some (383 # 40000)).
Proof. vm_compute. reflexivity. Qed.

Lemma dressed_coin s a n o q l x e r p pn :
  _coin_profit_native_for_sweep (dressed s a n o q l x e r p pn) = Ret (dressed s a n o q l x e r (Some 1149) (Some (383 # 40000)), Some (383 # 40000)).
Proof. vm_compute. reflexivity. Qed.

Lemma dressed_stable : sweep_stable (fun _ => True) is_dressed.
Proof.
  split.
  1: intros v g _ (s & a & n & o & q & l & x & e & r & p & pn & ->); exists v, a, n, o, q, l, x, e, r, p, pn; vm_compute; reflexivity.
  all: try (intros v g (s & a & n & o & q & l & x & e & r & p & pn & ->)).
  - exists s, v, n, o, q, l, x, e, r, p, pn; vm_compute; reflexivity.
  - exists s, a, v, o, q, l, x, e, r, p, pn; vm_compute; reflexivity.
  - exists s, a, n, v, q, l, x, e, r, p, pn; vm_compute; reflexivity.
  - exists s, a, n, o, v, l, x, e, r, p, pn; vm_compute; reflexivity.
  - exists s, a, n, o, q, v, x, e, r, p, pn; vm_compute; reflexivity.
  - exists s, a, n, o, q, l, v, e, r, p, pn; vm_compute; reflexivity.
  - exists s, a, n, o, q, l, x, v, r, p, pn; vm_compute; reflexivity.
  - exists s, a, n, o, q, l, x, e, v, p, pn; vm_compute; reflexivity.
  - intros g (s & a & n & o & q & l & x & e & r & p & pn & ->). rewrite dressed_profit. exists s, a, n, o, q, l, x, e, r, p, pn; vm_compute; reflexivity.
  - intros g g' res E (s & a & n & o & q & l & x & e & r & p & pn & ->). rewrite dressed_coin in E. apply Ret_inj in E. apply pair_equal_spec in E.
    destruct E as [<- _]. exists s, a, n, o, q, l, x, e, r, (Some 1149), (Some (383 # 40000)); vm_compute; reflexivity.
Qed.

Lemma dressed_reads g : is_dressed g -> profit_reads (383 # 40000) g.
Proof.
  intros D. exists is_dressed. split; [exact dressed_stable|]. split; [exact D|].
  intros g' (s & a & n & o & q & l & x & e & r & p & pn & ->). now rewrite dressed_profit.
Qed.

Definition fill_of_sweep (id order_id amount : string) (ms : Z) : pyobj :=
  PDict [("trade_id", PStr id); ("label", PStr "bot-profit-sweep-btc-0001"); ("direction", PStr "sell"); ("order_id", PStr order_id); ("amount", PStr amount);
         ("price", PStr "100000"); ("timestamp", PInt ms)].

Definition fetched_fills (rows : list pyobj) (currency : string) : outcome pyobj := Ret (PDict [("trades", PList rows)]).
(** 0.004 of the profit were sold before the sweep failed. *)
Definition half_swept : TradeGroup := dressed "failed" 0.004 "BTC_USDT" "O-1" 400 400 0 0 "take_profit" None None.

Abbreviation scheduled rows g := (schedule_remaining_closed_profit_sweeps (fetched_fills rows) (fun _ => "") "bot" None empty_trade_cache [g]).

Definition next_sale (g : TradeGroup) : option Q := match _unswept_profit_native_for_sweep g with Ret (_, u) => u | _ => None end.

Definition queued_half : TradeGroup := Eval vm_compute in hd half_swept (snd (fst (scheduled [fill_of_sweep "T-1" "O-1" "0.004" 1790000000000] half_swept))).

(** It is queued again, and 0.005575 are sold next. *)
Lemma resweeps_fit_profit_witness :
  snd (fst (scheduled [fill_of_sweep "T-1" "O-1" "0.004" 1790000000000] half_swept)) = [queued_half] /\ queued_half.(profit_sweep_status) = "pending" /\
  next_sale queued_half = Some (223 # 40000) /\ (1 # 250) + (223 # 40000) == (383 # 40000).
Proof.
  assert (E : snd (fst (scheduled [fill_of_sweep "T-1" "O-1" "0.004" 1790000000000] half_swept)) = [queued_half]) by (vm_compute; reflexivity).
  assert (C : option_map swept_total (known_fills (fst (fst (scheduled [fill_of_sweep "T-1" "O-1" "0.004" 1790000000000] half_swept))) half_swept.(currency) (profit_sweep_order_label "bot" half_swept)) = Some (1 # 250))
    by (vm_compute; reflexivity).
  assert (U : exists g, _unswept_profit_native_for_sweep queued_half = Ret (g, Some (223 # 40000))) by (eexists; vm_compute; reflexivity).
  assert (Reads : profit_reads (383 # 40000) half_swept)
    by (apply dressed_reads; exists "failed", 0.004, "BTC_USDT", "O-1", 400, 400, 0, 0, "take_profit", None, None; vm_compute; reflexivity).
  assert (Failed : half_swept.(profit_sweep_status) <> "pending") by (vm_compute; discriminate).
  split; [exact E|]. split; [reflexivity|]. split; [vm_compute; reflexivity|].
  destruct (schedule_remaining_closed_profit_sweeps _ _ _ _ _ _) as [[c' groups'] o] eqn:Es. cbn [fst snd] in E, C. subst groups'.
  pose proof (resweeps_fit_profit _ _ _ _ _ _ _ _ _ Es) as F. apply Forall2_cons_iff in F. destruct F as [H _].
  destruct (H (383 # 40000) Reads eq_refl) as [Bad|(fills & K & Next)]; [now destruct (Failed Bad)|].
  rewrite K in C. injection C as C. destruct U as (g & U).
  assert (On : forall z q, (0 <= z <= grid_max)%Z -> q == gval units z -> on_units q) by (intros z q B Eq; exists z; split; assumption).
  destruct (Next _ _ U) as [Fit _]; [apply (On 957500%Z); [split; vm_compute; discriminate | vm_compute; reflexivity]|]. rewrite C in Fit.
  apply Fit; [reflexivity|]. apply (On 400000%Z); [split; vm_compute; discriminate | vm_compute; reflexivity].
Defined.

(** ** Fills that are no longer told *)

(** All of the profit is sold, and noted. Of the order's fills the exchange lists only the
    later ones, as the earlier are not among its last hundred trades any more: 0.003575 are
    queued to be sold again. *)
Definition all_swept : TradeGroup := dressed "filled" (383 # 40000) "BTC_USDT" "O-1" 957.5 957.5 (383 # 40000) 957.5 "take_profit" None None.

Example window_sells_again :
  next_sale all_swept = None /\
  let '(_, groups, queued) := scheduled [fill_of_sweep "T-2" "O-1" "0.006" 1790000000000] all_swept in
  queued = Ret 1%Z /\ map profit_sweep_status groups = ["pending"] /\ map next_sale groups = [Some (143 # 40000)].
Proof. vm_compute. repeat split; reflexivity. Qed.
